(* ===== verification/_CoqProject ===== *)
-Q . S2P
Prelude.v
KList.v
KString.v
Pages.v
Pmm.v
Slab.v
Mmu.v
Sync.v
Sched.v
Wait.v
Process.v
Vmm.v
Device.v
Dcache.v
Lookup.v
Tree.v
Vfs.v
Files.v
Create.v
Ramfs.v
Printf.v
Procfs.v
Chardev.v
Cwd.v
Wire.v
Net.v
Delivery.v
Socket.v
Time.v
Irq.v
Acpi.v
Pcie.v
E1000.v
Font.v
Efifb.v
Boot.v
Dhcp.v
X86.v
Smp.v
Tty.v
Keyboard.v
Shell.v
Initramfs.v
Elf.v
Block.v
NvmeStructs.v
Nvme.v
Userland.v
