(* ===== verification/Prelude.v ===== *)
(** * A verification of the monolith kernel

    monolith is a small x86_64 kernel in C with the programs that run on it.
    This library models its components as executable definitions translated
    from the sources under src/ and proves what makes each of them correct.
    File names below are relative to src/kernel unless they begin with
    userspace/.

    ** How the code is modelled

    A C function is a Rocq function with the same name.  What it reads and
    changes is an explicit state: a record per component, in which objects of
    the heap are named by their address and 0 is the null pointer.  A function
    that can go wrong returns an [outcome]: [Ok] with the result and the new
    state, [Panic] for a call of panic(), [Fault] for an access that the C
    program may not make (through a null or dangling pointer, outside an
    array), [OutOfFuel] when the bound given to the model of an unbounded loop
    was too small.  Integers are [Z] with the wrap-around of their C type
    written out ([u8] to [u64], [s8] to [s64]).  Error returns are [RErr e].
    Intrusive lists are sequences, which KList.v justifies by showing that the
    pointer operations of libk/list.h refine sequences.

    A function that gives up the processor is split there: the part before,
    and the part that runs when the task is woken.  Locks around a single
    operation are left out, so a step of a model is what the code does between
    taking and releasing them; Sync.v and Wait.v treat the locks themselves.
    Components meet through type classes where one is a client of another:
    [PageAllocator] (Pages.v), which Pmm.v implements for the slab allocator,
    the page tables, the address spaces and the memory file system;
    [TaskServices] (Process.v); [FileServices] (Vmm.v); [ArchiveTarget]
    (Initramfs.v); [ConfigSpace] and [KernelSpace] (Pcie.v), the second of
    which Vmm.v implements for the drivers.  Devices are interfaces or
    parameters ([ConfigSpace], [NvmeController] in Nvme.v, [card_stores] in
    E1000.v, [Lapic] in Smp.v) with hypotheses that state what their
    documentation promises.

    ** The files

    Prelude.v       this file: outcomes, error returns, machine integers,
                    arrays, the tactics and hints of the library
    KList.v         include/libk/list.h: rings of pointers refine sequences
    KString.v       libk/string.c over byte memory
    Pages.v         the interface of the page frame allocator
    Pmm.v           arch/x86_64/memmap.c, mm/memory_map.c, mm/pmm.c
    Slab.v          mm/slab.c
    Mmu.v           arch/x86_64/mmu.c
    Sync.v          include/sys/spinlock.h, reflock.h
    Sched.v         sched/scheduler.c and the task table of sched/task.c
    Wait.v          sched/signal.c, sys/mutex.c, sched/waitqueue.c,
                    sched/task_sleep.c
    Process.v       sched/task.c, sched/task_sys.c
    Vmm.v           mm/vmm.c, mm/vm_syscall.c
    Device.v        sys/device.c
    Dcache.v        fs/vnode.c, fs/ventry.c
    Lookup.v        fs/lookup.c, fs/generic.c
    Tree.v          path resolution as a reference definition
    Vfs.v           fs/vfs.c, fs/super.c, fs/filesystem.c, fs/vfs_sys.c
    Files.v         the table of open files
    Create.v        creating a file and finding it
    Ramfs.v         fs/ramfs/ramfs.c
    Printf.v        libk/vsprintf.c, klog.c
    Procfs.v        fs/procfs/procfs.c
    Chardev.v       dev/pseudo.c and the device nodes that drivers make
    Cwd.v           sched/task_sys.c: chdir and getcwd over the tree
    Wire.v          the packet formats of include/net and their checksum
    Net.v           net/netdev.c, ether.c, arp.c, socket.c and net/ipv4
    Delivery.v      a datagram from sender to receiver
    Socket.v        sockets as files: net/socket.c, net/socket_sys.c
    Time.v          dev/rtc.c, sys/clock.c, sys/timer.c
    Irq.v           sys/irq.c, arch/x86_64/ioapic.c, the walks of the MADT
    Acpi.v          arch/x86_64/acpi.c
    Pcie.v          dev/pcie/pcie.c, dev/pcie/pci_class.c
    E1000.v         dev/net/e1000/e1000.c
    Font.v          dev/efifb_font.c
    Efifb.v         dev/efifb.c, dev/console.c
    Boot.v          arch/x86_64/boot.c
    X86.v           arch/x86_64/gdt.c, idt.c, interrupts.c, syscall.c
    Smp.v           arch/x86_64/cpu.c, arch/x86_64/lapic.c
    Tty.v           dev/tty.c
    Keyboard.v      dev/ps2.c
    Initramfs.v     fs/initramfs.c
    Elf.v           sys/binfmt/elf.c, sys/binfmt/binfmt.c
    Block.v         dev/disk.c, fs/fat/fatfs.c
    NvmeStructs.v   include/dev/nvme/nvme_structs.h
    Nvme.v          dev/nvme/nvme.c

    Dhcp.v          userspace/dhcpcl/main.c
    Shell.v         userspace/shell/main.c
    Userland.v      userspace/ls/main.c, ping/main.c, cat/main.c

    ** What the theorems show

    Memory.  The bitmap of Pmm.v refines the ascending list of free frames and
    starts with exactly the usable ones.  kmalloc returns memory that overlaps
    no live object and kfree takes it back (Slab.v).  mmu_map and mmu_unmap
    change the translation of one page and nothing else (Mmu.v).  The ranges
    of an address space stay sorted and apart, a free range is found first
    fit, and a copy-on-write fault copies (Vmm.v).

    Tasks.  The ticket lock excludes (Sync.v); schedule keeps the run queues
    an exact account of the runnable tasks (Sched.v); a wake-up moves exactly
    the waiters, and timers wake no task early or late (Wait.v); exit hands
    the children on, signals act in order, set-user-id calls give no
    privilege (Process.v).

    Files.  The cache refines a finite set of entries (Dcache.v), lookup
    computes the reference walk of the tree through cache, mounts and
    reference counts (Tree.v), created and published files are found
    (Create.v, Procfs.v), open files keep their nodes (Files.v), and what is
    written is read back (Ramfs.v).  Archives, executables, partition tables
    and directories are parsed as they were written (Initramfs.v, Elf.v,
    Block.v).

    Network.  Checksums are ones' complement sums (Wire.v), a datagram arrives
    with its bytes and source and wakes its receiver (Delivery.v), and the
    DHCP client configures the interface as it was offered (Dhcp.v).

    The machine.  Interrupts are routed to their handlers (Irq.v), exceptions
    and system calls reach theirs with their arguments (X86.v), and typing a
    line starts the program that it names (Keyboard.v, Tty.v, Shell.v).

    Drivers.  The scan of the PCI bus starts the driver of every device it
    finds (Pcie.v).  However the network card and its driver interleave,
    received frames reach the stack and sent ones the card complete and in
    order, the rings stay well formed, and a datagram crosses two hosts through
    both rings (E1000.v).  A read of a disk ends with the blocks that were asked
    for (Nvme.v).  The frame buffer shows the text that was written, as a grid
    of characters with its scrolling, and the text can be read from the pixels
    (Efifb.v), on the frame buffer that the boot loader offered (Boot.v).  A
    driver's device is found under its path (Chardev.v), and after a change of
    directory relative paths start there (Cwd.v).  Tasks keep their
    registers across switches on all processors (Smp.v).
    Lemmas without a claim number that end in _faults, _diverges, _lost and
    the like record where the code does not do what it means to.

    ** Bounds and fuel

    Loops over a list, a string or a count are structural.  The others take
    fuel, and each use of fuel in a statement is enough: [dcache_fuel], the
    number of live entries, bounds a hash chain of distinct entries;
    [udp_fuel] does the same for sockets; [eph_fuel] is the number of ports;
    [options_fuel] is the number of options that fit into a packet; path
    lookup takes the length of the path, vsprintf that of the format.  Where
    the code need not end (a zero-sized table entry, a padding option) the
    model has no result for any fuel, and a lemma says so.
    The scan of the bus is bounded by the depth of bridges, which is one
    without bridges.  A wait for hardware is bounded by a number of polls that
    the hypothesis on the device gives; nvme_read takes one round of fuel per
    page.  The receive loop of the network card takes one round per descriptor.
    ** Not modelled

    The parts of the boot protocol (include/arch/x86_64/limine.h) that the
    kernel does not read; the assembly files (smpboot.S, isr_stubs.S,
    context.S, simd.S) and the port accesses of io.h, pic.h, pit.c and ps2_init,
    whose effects are instructions of the processor; panic.c, which prints and
    stops (a panic is an outcome of the models); userspace/tee and the programs
    that make one or two system calls; ports/ and toolchain/, which are patches
    of other software.  Of modelled parts: log messages, locks around single
    operations, and the block device nodes of disks and partitions. *)

From stdpp Require Import base numbers list gmap strings.
From Stdlib Require Import ZArith Lia Btauto.

Declare Scope kernel_scope.
Delimit Scope kernel_scope with kernel.

#[global] Open Scope Z_scope.

(** ** Results of kernel code

    [Panic] is a call of [panic()], which halts the machine; [Fault] is an
    access the C program may not make (a null or unmapped pointer, an index
    outside an array); [OutOfFuel] says that the bound given to a model of an
    unbounded loop was too small, and is proved absent wherever a loop is
    bounded. *)
Inductive outcome (A : Type) : Type :=
  | Ok (a : A)
  | Panic
  | Fault
  | OutOfFuel.
Arguments Ok {A} a.
Arguments Panic {A}.
Arguments Fault {A}.
Arguments OutOfFuel {A}.

Definition outcome_bind {A B} (m : outcome A) (k : A -> outcome B) : outcome B :=
  match m with
  | Ok a => k a
  | Panic => Panic
  | Fault => Fault
  | OutOfFuel => OutOfFuel
  end.

Notation "'let*' p := m 'in' k" := (outcome_bind m (fun p => k))
  (at level 10, p pattern, m at level 100, k at level 200) : kernel_scope.

#[global] Open Scope kernel_scope.

(** An access through a pointer or an index that may be invalid. *)
Definition deref {A} (o : option A) : outcome A :=
  match o with Some a => Ok a | None => Fault end.

(** ** Return values

    Kernel functions return a non-negative result or a negated error number.
    The numbers belong to the C library of the toolchain; they are positive
    and distinct, which is all the kernel uses. *)
Inductive errno :=
  | EPERM | ENOENT | ESRCH | EINTR | ENXIO | ENOEXEC | EBADF | ECHILD | ENOMEM | EACCES | EFAULT
  | ENOTBLK | EBUSY | EEXIST | ENODEV | ENOTDIR | EISDIR | EINVAL | ENFILE | EMFILE | ENOTTY
  | ENOSPC | ESPIPE | ENOSYS | ENOTSOCK | ENOTSUP | EAFNOSUPPORT | EADDRINUSE | ENETUNREACH.

#[export] Instance errno_eq_dec : EqDecision errno.
Proof. solve_decision. Defined.

(** [RErr e] is the return value [-e], for which the test [ret < 0] succeeds. *)
Inductive ret := RVal (v : Z) | RErr (e : errno).

#[export] Instance ret_eq_dec : EqDecision ret.
Proof. solve_decision. Defined.

Definition failed (r : ret) : bool := match r with RErr _ => true | RVal v => v <? 0 end.

(** ** Fixed-width integers

    A C integer of width [w] is a [Z]; arithmetic on unsigned types wraps. *)
Definition wrap (w x : Z) : Z := x mod 2 ^ w.
Definition u8 : Z -> Z := wrap 8.
Definition u16 : Z -> Z := wrap 16.
Definition u32 : Z -> Z := wrap 32.
Definition u64 : Z -> Z := wrap 64.

(** The two's complement reading of the low [w] bits. *)
Definition sint (w x : Z) : Z :=
  let y := wrap w x in if y <? 2 ^ (w - 1) then y else y - 2 ^ w.
Definition s8 : Z -> Z := sint 8.
Definition s16 : Z -> Z := sint 16.
Definition s32 : Z -> Z := sint 32.
Definition s64 : Z -> Z := sint 64.

(** A 32-bit [int] result; overflow is undefined. *)
Definition int32 (x : Z) : outcome Z := if (- 2 ^ 31 <=? x) && (x <? 2 ^ 31) then Ok x else Fault.

(** [flags & mask] used as a condition. *)
Definition has (flags mask : Z) : bool := negb (Z.land flags mask =? 0).

(** ** types.h *)
Definition align_up (value alignment : Z) : Z :=
  Z.land (u64 (value + alignment - 1)) (u64 (Z.lnot (u64 (alignment - 1)))).

Definition align_down (value alignment : Z) : Z :=
  Z.land value (u64 (Z.lnot (u64 (alignment - 1)))).

(** ** config.h *)
Definition CONFIG_PAGE_SIZE : Z := 0x1000.

(** ** vmm.h: the layout of the address space. *)
Definition VM_USERSPACE_BASE : Z := 0x0000000000010000.
Definition VM_USERSPACE_END  : Z := 0x00007fffffffffff.
Definition VM_DMAP_BASE      : Z := 0xffff800000000000.
Definition VM_VMALLOC_BASE   : Z := 0xffffc00000000000.
Definition VM_KERNEL_BASE    : Z := 0xffffffff80000000.

(** ** Hint databases and tactics *)
Create HintDb kernel.
Create Rewrite HintDb kernel_rw.

(** Split the conjunctions and existentials of the context. *)
Ltac deex :=
  repeat match goal with
  | H : ex _ |- _ => let x := fresh "x" in destruct H as [x H]
  | H : _ /\ _ |- _ => destruct H
  end.

(** Case on the scrutinee of an [if] or [match] of the goal or a hypothesis. *)
Ltac case_step :=
  match goal with
  | H : context [match ?x with _ => _ end] |- _ =>
      lazymatch x with context [match _ with _ => _ end] => fail | _ => destruct x eqn:? end
  | |- context [match ?x with _ => _ end] =>
      lazymatch x with context [match _ with _ => _ end] => fail | _ => destruct x eqn:? end
  end.

(** Turn the boolean comparisons of the context into propositions. *)
Ltac bool_to_prop :=
  repeat match goal with
  | H : (_ && _)%bool = true |- _ => apply andb_true_iff in H as [? ?]
  | H : (_ || _)%bool = false |- _ => apply orb_false_iff in H as [? ?]
  | H : negb _ = true |- _ => apply negb_true_iff in H
  | H : negb _ = false |- _ => apply negb_false_iff in H
  | H : (_ =? _) = true |- _ => apply Z.eqb_eq in H
  | H : (_ =? _) = false |- _ => apply Z.eqb_neq in H
  | H : (_ <? _) = true |- _ => apply Z.ltb_lt in H
  | H : (_ <? _) = false |- _ => apply Z.ltb_ge in H
  | H : (_ <=? _) = true |- _ => apply Z.leb_le in H
  | H : (_ <=? _) = false |- _ => apply Z.leb_gt in H
  end.

(** Arithmetic on page-sized quantities. *)
Ltac page_lia := unfold CONFIG_PAGE_SIZE in *; lia.

(** ** Words *)

Lemma wrap_small w x : 0 <= x < 2 ^ w -> wrap w x = x.
Proof. intros. by apply Z.mod_small. Qed.

Lemma wrap_range w x : 0 <= w -> 0 <= wrap w x < 2 ^ w.
Proof. intros. apply Z.mod_pos_bound. by apply Z.pow_pos_nonneg. Qed.

Lemma u64_small x : 0 <= x < 2 ^ 64 -> u64 x = x.
Proof. apply wrap_small. Qed.
Lemma u32_small x : 0 <= x < 2 ^ 32 -> u32 x = x.
Proof. apply wrap_small. Qed.
Lemma u16_small x : 0 <= x < 2 ^ 16 -> u16 x = x.
Proof. apply wrap_small. Qed.
Lemma u8_small x : 0 <= x < 2 ^ 8 -> u8 x = x.
Proof. apply wrap_small. Qed.
Lemma u64_range x : 0 <= u64 x < 2 ^ 64.
Proof. by apply wrap_range. Qed.
Lemma u32_range x : 0 <= u32 x < 2 ^ 32.
Proof. by apply wrap_range. Qed.
Lemma u16_range x : 0 <= u16 x < 2 ^ 16.
Proof. by apply wrap_range. Qed.
Lemma u8_range x : 0 <= u8 x < 2 ^ 8.
Proof. by apply wrap_range. Qed.
#[export] Hint Resolve u64_range u32_range u16_range u8_range : kernel.

(** A value in the range of a signed type is its own reading. *)
Lemma sint_small w x : 0 < w -> - 2 ^ (w - 1) <= x < 2 ^ (w - 1) -> sint w x = x.
Proof.
  intros Hw Hx. assert (2 ^ w = 2 * 2 ^ (w - 1)) as Hp.
  { rewrite <- Z.pow_succ_r by lia. f_equal. lia. }
  unfold sint, wrap. destruct (Z.neg_nonneg_cases x).
  - replace (x mod 2 ^ w) with (x + 2 ^ w) by (apply (Z.mod_unique x (2 ^ w) (-1)); lia).
    destruct (Z.ltb_spec (x + 2 ^ w) (2 ^ (w - 1))); lia.
  - rewrite Z.mod_small by lia. destruct (Z.ltb_spec x (2 ^ (w - 1))); lia.
Qed.

Lemma s64_small x : - 2 ^ 63 <= x < 2 ^ 63 -> s64 x = x.
Proof. intros. apply sint_small; lia. Qed.

Lemma wrap_testbit w x i : 0 <= w ->
  Z.testbit (wrap w x) i = ((i <? w) && Z.testbit x i)%bool.
Proof.
  intros Hw. unfold wrap. destruct (Z.ltb_spec i w); simpl.
  - destruct (Z.neg_nonneg_cases i); [by rewrite !Z.testbit_neg_r|].
    by apply Z.mod_pow2_bits_low.
  - by apply Z.mod_pow2_bits_high.
Qed.

Lemma testbit_small w x i : 0 <= x < 2 ^ w -> w <= i -> Z.testbit x i = false.
Proof.
  intros Hx Hi. destruct (Z.neg_nonneg_cases w) as [Hw|Hw].
  { rewrite Z.pow_neg_r in Hx by lia. lia. }
  rewrite <- (wrap_small w x Hx), wrap_testbit by done.
  by destruct (Z.ltb_spec i w); [lia|].
Qed.

Lemma bits_range w x : 0 <= w -> 0 <= x ->
  (forall i, w <= i -> Z.testbit x i = false) -> x < 2 ^ w.
Proof.
  intros Hw Hx Hb. destruct (Z.eq_dec x 0) as [->|]; [by apply Z.pow_pos_nonneg|].
  apply Z.log2_lt_pow2; [lia|].
  destruct (Z.lt_ge_cases (Z.log2 x) w); [done|].
  specialize (Hb (Z.log2 x) ltac:(done)). rewrite Z.bit_log2 in Hb by lia. done.
Qed.

Lemma bits_range_iff w x : 0 <= w ->
  0 <= x < 2 ^ w <-> 0 <= x /\ forall i, w <= i -> Z.testbit x i = false.
Proof.
  intros Hw. split.
  - intros Hx. split; [lia|]. intros i. by apply testbit_small.
  - intros [Hx Hb]. split; [done|]. by apply bits_range.
Qed.

Lemma land_range w x y : 0 <= w -> 0 <= x < 2 ^ w -> 0 <= y -> 0 <= Z.land x y < 2 ^ w.
Proof.
  intros Hw Hx Hy. apply bits_range_iff; [done|]. split; [apply Z.land_nonneg; lia|].
  intros i Hi. rewrite Z.land_spec, (testbit_small w x) by done. done.
Qed.

Lemma lor_range w x y : 0 <= w -> 0 <= x < 2 ^ w -> 0 <= y < 2 ^ w -> 0 <= Z.lor x y < 2 ^ w.
Proof.
  intros Hw Hx Hy. apply bits_range_iff; [done|]. split; [apply Z.lor_nonneg; lia|].
  intros i Hi. by rewrite Z.lor_spec, (testbit_small w x), (testbit_small w y) by done.
Qed.

Lemma ones_testbit n i : 0 <= n -> 0 <= i -> Z.testbit (Z.ones n) i = (i <? n).
Proof.
  intros. destruct (Z.ltb_spec i n); [apply Z.ones_spec_low|apply Z.ones_spec_high]; lia.
Qed.

Lemma land_ones_mod x n : 0 <= n -> Z.land x (2 ^ n - 1) = x mod 2 ^ n.
Proof. intros. replace (2 ^ n - 1) with (Z.ones n) by (rewrite Z.ones_equiv; lia). by apply Z.land_ones. Qed.

Lemma shiftl_testbit x k i : 0 <= i -> 0 <= k ->
  Z.testbit (Z.shiftl x k) i = ((k <=? i) && Z.testbit x (i - k))%bool.
Proof.
  intros. rewrite Z.shiftl_spec by done. destruct (Z.leb_spec k i); simpl; [done|].
  apply Z.testbit_neg_r. lia.
Qed.

Lemma pow2_testbit k i : 0 <= k -> 0 <= i -> Z.testbit (2 ^ k) i = (i =? k).
Proof.
  intros. rewrite Z.pow2_bits_eqb by done. apply Z.eqb_sym.
Qed.

(** A bit of a word reduces to comparisons of the index: rewrite every
    bitwise operation, then decide the comparisons. *)
Ltac bits_rewrite :=
  repeat first
    [ rewrite Z.land_spec | rewrite Z.lor_spec | rewrite Z.lxor_spec | rewrite Z.ldiff_spec
    | rewrite Z.lnot_spec by lia | rewrite shiftl_testbit by lia | rewrite Z.shiftr_spec by lia
    | rewrite ones_testbit by lia | rewrite pow2_testbit by lia | rewrite Z.bits_0
    | rewrite wrap_testbit by lia ].

Ltac bits_case :=
  repeat match goal with
  | |- context [?a <? ?b] => destruct (Z.ltb_spec a b)
  | |- context [?a <=? ?b] => destruct (Z.leb_spec a b)
  | |- context [?a =? ?b] => destruct (Z.eqb_spec a b)
  end; simpl; rewrite ?andb_false_r, ?andb_true_r, ?orb_false_r, ?orb_true_r; try lia; try done.

Ltac bits_ext := apply Z.bits_inj'; intros ?i ?Hi; bits_rewrite; bits_case.

Lemma land_u64_r x y : 0 <= x < 2 ^ 64 -> Z.land x (u64 y) = Z.land x y.
Proof.
  intros Hx. apply Z.bits_inj'. intros i Hi. unfold u64. bits_rewrite.
  destruct (Z.ltb_spec i 64); simpl; [done|].
  by rewrite (testbit_small 64 x) by (done || lia).
Qed.

Lemma u64_lnot_ones k : 0 <= k <= 64 -> u64 (Z.lnot (u64 (2 ^ k - 1))) = u64 (Z.lnot (Z.ones k)).
Proof.
  intros Hk. f_equal. f_equal. rewrite Z.ones_equiv, <- Z.sub_1_r. apply u64_small.
  pose proof (Z.pow_pos_nonneg 2 k). pose proof (Z.pow_le_mono_r 2 k 64). lia.
Qed.

Lemma align_mask x k : 0 <= k <= 64 -> 0 <= x < 2 ^ 64 ->
  Z.land x (u64 (Z.lnot (u64 (2 ^ k - 1)))) = x / 2 ^ k * 2 ^ k.
Proof.
  intros Hk Hx. rewrite u64_lnot_ones, land_u64_r by done.
  rewrite <- Z.ldiff_land, Z.ldiff_ones_r by lia.
  by rewrite Z.shiftl_mul_pow2, Z.shiftr_div_pow2 by lia.
Qed.

(** [align_down] rounds down to a multiple of a power of two. *)
Lemma align_down_spec x k : 0 <= k <= 64 -> 0 <= x < 2 ^ 64 ->
  align_down x (2 ^ k) = x / 2 ^ k * 2 ^ k.
Proof. apply align_mask. Qed.

Lemma align_up_spec x k : 0 <= k <= 64 -> 0 <= x -> x + 2 ^ k - 1 < 2 ^ 64 ->
  align_up x (2 ^ k) = (x + 2 ^ k - 1) / 2 ^ k * 2 ^ k.
Proof.
  intros Hk Hx Hov. unfold align_up. pose proof (Z.pow_pos_nonneg 2 k).
  rewrite u64_small by lia. apply align_mask; lia.
Qed.

(** [align_up] gives the least multiple of the alignment not below its argument. *)
Lemma align_up_bounds x k : 0 <= k <= 64 -> 0 <= x -> x + 2 ^ k - 1 < 2 ^ 64 ->
  x <= align_up x (2 ^ k) < x + 2 ^ k /\ align_up x (2 ^ k) mod 2 ^ k = 0.
Proof.
  intros Hk Hx Hov. rewrite align_up_spec by done.
  assert (0 < 2 ^ k) by (apply Z.pow_pos_nonneg; lia).
  split; [|by apply Z.mod_mul; lia].
  pose proof (Z.div_mod (x + 2 ^ k - 1) (2 ^ k) ltac:(lia)).
  pose proof (Z.mod_pos_bound (x + 2 ^ k - 1) (2 ^ k) ltac:(lia)). lia.
Qed.

Lemma align_down_bounds x k : 0 <= k <= 64 -> 0 <= x < 2 ^ 64 ->
  align_down x (2 ^ k) <= x < align_down x (2 ^ k) + 2 ^ k /\ align_down x (2 ^ k) mod 2 ^ k = 0.
Proof.
  intros Hk Hx. rewrite align_down_spec by done.
  assert (0 < 2 ^ k) by (apply Z.pow_pos_nonneg; lia).
  split; [|by apply Z.mod_mul; lia].
  pose proof (Z.div_mod x (2 ^ k) ltac:(lia)).
  pose proof (Z.mod_pos_bound x (2 ^ k) ltac:(lia)). lia.
Qed.

Lemma align_up_aligned x k : 0 <= k <= 64 -> 0 <= x -> x + 2 ^ k - 1 < 2 ^ 64 ->
  x mod 2 ^ k = 0 -> align_up x (2 ^ k) = x.
Proof.
  intros Hk Hx Hov Hal. rewrite align_up_spec by done.
  assert (0 < 2 ^ k) by (apply Z.pow_pos_nonneg; lia).
  apply Z.mod_divide in Hal as [q ->]; [|lia]. f_equal.
  replace (q * 2 ^ k + 2 ^ k - 1) with (2 ^ k - 1 + q * 2 ^ k) by lia.
  rewrite Z.div_add, Z.div_small by lia. lia.
Qed.

(** ** Arrays indexed by machine integers *)

Definition zlen {A} (l : list A) : Z := Z.of_nat (length l).

(** Array access: an index outside the array is a fault. *)
Definition aget {A} (l : list A) (i : Z) : outcome A :=
  if 0 <=? i then deref (l !! Z.to_nat i) else Fault.

Definition aset {A} (l : list A) (i : Z) (x : A) : outcome (list A) :=
  if (0 <=? i) && (i <? zlen l) then Ok (<[Z.to_nat i := x]> l) else Fault.

Lemma aget_in {A} (l : list A) i :
  0 <= i < zlen l -> exists x, aget l i = Ok x /\ l !! Z.to_nat i = Some x.
Proof.
  unfold zlen, aget. intros Hi. destruct (Z.leb_spec 0 i); [|lia].
  destruct (lookup_lt_is_Some_2 l (Z.to_nat i)) as [x Hx]; [lia|].
  exists x. by rewrite Hx.
Qed.

Lemma aget_Ok {A} (l : list A) i x :
  aget l i = Ok x <-> 0 <= i /\ l !! Z.to_nat i = Some x.
Proof.
  unfold aget. destruct (Z.leb_spec 0 i); [|split; [done|lia]].
  destruct (l !! Z.to_nat i); simpl; naive_solver.
Qed.

Lemma aset_in {A} (l : list A) i x :
  0 <= i < zlen l -> aset l i x = Ok (<[Z.to_nat i := x]> l).
Proof.
  intros Hi. unfold aset. destruct (Z.leb_spec 0 i); [|lia].
  by destruct (Z.ltb_spec i (zlen l)); [|lia].
Qed.

Lemma zlen_insert {A} (l : list A) i x : zlen (<[i := x]> l) = zlen l.
Proof. unfold zlen. by rewrite length_insert. Qed.
Lemma zlen_app {A} (l k : list A) : zlen (l ++ k) = zlen l + zlen k.
Proof. unfold zlen. rewrite length_app. lia. Qed.
Lemma zlen_cons {A} x (l : list A) : zlen (x :: l) = 1 + zlen l.
Proof. unfold zlen. simpl. lia. Qed.
Lemma zlen_nonneg {A} (l : list A) : 0 <= zlen l.
Proof. unfold zlen. lia. Qed.
#[export] Hint Resolve zlen_nonneg : kernel.
#[export] Hint Rewrite @zlen_insert @zlen_app @zlen_cons : kernel_rw.

(** ** Lists *)

Lemma filter_none {A} (P : A -> Prop) `{!forall x, Decision (P x)} (l : list A) :
  (forall x, x ∈ l -> ~ P x) -> filter P l = [].
Proof.
  induction l as [|x l IH]; intros Hn; [done|]. rewrite filter_cons_False by (apply Hn; set_solver).
  apply IH. set_solver.
Qed.

Lemma filter_ext_in {A} (P Q : A -> Prop) `{!forall x, Decision (P x), !forall x, Decision (Q x)} (l : list A) :
  (forall x, x ∈ l -> P x <-> Q x) -> filter P l = filter Q l.
Proof.
  induction l as [|x l IH]; intros Hiff; [done|]. rewrite !filter_cons.
  rewrite IH by set_solver. specialize (Hiff x ltac:(set_solver)). repeat case_decide; naive_solver.
Qed.
