(* ===== verification/KList.v ===== *)
(** * Intrusive circular lists (kernel/include/libk/list.h)

    [struct list_node] is modelled at the level of its two pointer fields: a
    heap holds, for each node address, its [prev] and its [next] field, and
    every function of the header is the sequence of field accesses the C code
    performs.  The rest of the kernel only sees these rings through the
    functions below, so the refinement theorems of this file (a ring
    represents a sequence, and each function is the corresponding operation on
    sequences) are what allows the other files of the development to model an
    intrusive list as a Rocq list. *)

From stdpp Require Import base numbers list gmap.
From Stdlib Require Import ZArith Lia.
From S2P Require Import Prelude.

(** The [prev] and [next] fields of all nodes, by node address. *)
Record node_heap := mk_heap { hprev : gmap Z Z; hnext : gmap Z Z }.

Definition get_prev (h : node_heap) (n : Z) : outcome Z := deref (hprev h !! n).
Definition get_next (h : node_heap) (n : Z) : outcome Z := deref (hnext h !! n).

(** A store through a node pointer; the node has to be allocated. *)
Definition set_prev (h : node_heap) (n v : Z) : outcome node_heap :=
  match hprev h !! n with
  | Some _ => Ok (mk_heap (<[n := v]> (hprev h)) (hnext h))
  | None => Fault
  end.
Definition set_next (h : node_heap) (n v : Z) : outcome node_heap :=
  match hnext h !! n with
  | Some _ => Ok (mk_heap (hprev h) (<[n := v]> (hnext h)))
  | None => Fault
  end.

Definition list_node_init (h : node_heap) (node : Z) : outcome node_heap :=
  let* h := set_prev h node node in
  set_next h node node.

Definition __list_add (h : node_heap) (node prev next : Z) : outcome node_heap :=
  let* h := set_prev h next node in
  let* h := set_next h node next in
  let* h := set_prev h node prev in
  set_next h prev node.

Definition list_add (h : node_heap) (head node : Z) : outcome node_heap :=
  let* first := get_next h head in
  __list_add h node head first.

Definition list_add_tail (h : node_heap) (head node : Z) : outcome node_heap :=
  let* last := get_prev h head in
  __list_add h node last head.

Definition __list_del (h : node_heap) (prev next : Z) : outcome node_heap :=
  let* h := set_prev h next prev in
  set_next h prev next.

Definition __list_del_entry (h : node_heap) (entry : Z) : outcome node_heap :=
  let* p := get_prev h entry in
  let* n := get_next h entry in
  __list_del h p n.

Definition list_del (h : node_heap) (entry : Z) : outcome node_heap :=
  let* h := __list_del_entry h entry in
  list_node_init h entry.

Definition list_move (h : node_heap) (head entry : Z) : outcome node_heap :=
  let* h := __list_del_entry h entry in
  list_add h head entry.

Definition list_empty (h : node_heap) (head : Z) : outcome bool :=
  let* first := get_next h head in
  Ok (head =? first).

Definition __list_first (h : node_heap) (head : Z) : outcome Z := get_next h head.

Definition __list_take_first (h : node_heap) (head : Z) : outcome (Z * node_heap) :=
  let* node := __list_first h head in
  let* h := list_del h node in
  Ok (node, h).

(** [list_for_each_entry]: the nodes the loop visits, from [pos] to [head]. *)
Fixpoint for_each_from (fuel : nat) (h : node_heap) (head pos : Z) : outcome (list Z) :=
  match fuel with
  | O => OutOfFuel
  | S fuel =>
      if pos =? head then Ok []
      else
        let* next := get_next h pos in
        let* rest := for_each_from fuel h head next in
        Ok (pos :: rest)
  end.

Definition list_for_each_entry (fuel : nat) (h : node_heap) (head : Z) : outcome (list Z) :=
  let* first := get_next h head in
  for_each_from fuel h head first.

(** ** Representation *)

(** [chain h a xs z]: following [next] from [a] visits [xs] and reaches [z],
    and the [prev] fields point back along the same path. *)
Fixpoint chain (h : node_heap) (a : Z) (xs : list Z) (z : Z) : Prop :=
  match xs with
  | [] => hnext h !! a = Some z /\ hprev h !! z = Some a
  | x :: xs => hnext h !! a = Some x /\ hprev h !! x = Some a /\ chain h x xs z
  end.

(** The ring of [head] holds the nodes [xs], in this order. *)
Definition dlist (h : node_heap) (head : Z) (xs : list Z) : Prop :=
  NoDup (head :: xs) /\ chain h head xs head.

(** The node is allocated (its fields may hold anything). *)
Definition allocated (h : node_heap) (n : Z) : Prop :=
  is_Some (hprev h !! n) /\ is_Some (hnext h !! n).

(** [h'] differs from [h] at most on the nodes of [ns]. *)
Definition frame (h h' : node_heap) (ns : list Z) : Prop :=
  forall n, n ∉ ns -> hprev h' !! n = hprev h !! n /\ hnext h' !! n = hnext h !! n.

Section chain_lemmas.
Implicit Types (h : node_heap) (xs ys : list Z).

Lemma chain_app h a xs y ys z :
  chain h a (xs ++ y :: ys) z <-> chain h a xs y /\ chain h y ys z.
Proof. revert a. induction xs as [|x xs IH]; intros a; simpl; [naive_solver|]. rewrite IH. naive_solver. Qed.

(** Only the [next] fields of [a :: xs] and the [prev] fields of [xs ++ [z]] matter. *)
Lemma chain_ext h h' a xs z :
  (forall n, n ∈ a :: xs -> hnext h' !! n = hnext h !! n) ->
  (forall n, n ∈ xs ++ [z] -> hprev h' !! n = hprev h !! n) ->
  chain h a xs z -> chain h' a xs z.
Proof.
  revert a. induction xs as [|x xs IH]; intros a Hn Hp; simpl; intros Hc.
  - rewrite Hn, Hp by set_solver. done.
  - rewrite Hn, Hp by set_solver. destruct Hc as (? & ? & Hc). do 2 (split; [done|]).
    apply IH; [set_solver..|done].
Qed.

Lemma chain_first h a xs z : chain h a xs z -> hnext h !! a = Some (hd z xs).
Proof. destruct xs; simpl; naive_solver. Qed.

Lemma chain_last h a xs z : chain h a xs z -> hprev h !! z = Some (List.last xs a).
Proof.
  destruct xs as [|x xs _] using rev_ind; [simpl; naive_solver|].
  rewrite chain_app, List.last_last. simpl. naive_solver.
Qed.

Lemma chain_alloc h a xs z n : chain h a xs z -> n ∈ xs -> allocated h n.
Proof.
  intros Hc [l1 [l2 ->]]%list_elem_of_split.
  apply chain_app in Hc as [Hc1 Hc2].
  split; [rewrite (chain_last _ _ _ _ Hc1)|rewrite (chain_first _ _ _ _ Hc2)]; eauto.
Qed.

Lemma dlist_alloc_head h head xs : dlist h head xs -> allocated h head.
Proof.
  intros [_ Hc]. split; [rewrite (chain_last _ _ _ _ Hc)|rewrite (chain_first _ _ _ _ Hc)]; eauto.
Qed.
End chain_lemmas.

(** ** Splicing a node in and out of a ring *)

Section splice.
Implicit Types (h : node_heap) (xs ys : list Z).

(** The stores of [__list_add] and of [list_del], once they are known not to fault. *)
Definition spliced h (node p n : Z) : node_heap :=
  mk_heap (<[node := p]> (<[n := node]> (hprev h))) (<[p := node]> (<[node := n]> (hnext h))).
Definition unspliced h (p n : Z) : node_heap :=
  mk_heap (<[n := p]> (hprev h)) (<[p := n]> (hnext h)).

Lemma __list_add_run h node p n :
  allocated h node -> is_Some (hnext h !! p) -> is_Some (hprev h !! n) ->
  __list_add h node p n = Ok (spliced h node p n).
Proof.
  intros [[a Ha] [b Hb]] [c Hc] [d Hd]. unfold __list_add, set_prev, set_next.
  repeat (rewrite ?Ha, ?Hb, ?Hc, ?Hd, ?lookup_insert; simpl; try case_decide; subst); done.
Qed.

(** A ring node is reached from some predecessor, so a tail of the ring
    starts there; the splice only changes that point. *)
Lemma chain_splice h node p l2 z :
  chain h p l2 z -> NoDup (node :: l2) -> z ∉ node :: l2 -> p ∉ node :: l2 ->
  chain (spliced h node p (hd z l2)) p (node :: l2) z.
Proof.
  intros Hc Hnd Hz Hp. assert (p <> node) by set_solver. assert (z <> node) by set_solver.
  destruct l2 as [|x l2]; simpl.
  - by simplify_map_eq.
  - simpl in Hc. destruct Hc as (Hn & Hpv & Hc). apply NoDup_cons in Hnd as [Hnode Hnd].
    apply NoDup_cons in Hnd as [Hx Hnd].
    assert (x <> node) by set_solver. simplify_map_eq. do 4 (split; [done|]).
    apply (chain_ext h); [| |done]; intros m Hm; simpl; rewrite !lookup_insert_ne; set_solver.
Qed.

Lemma chain_before_splice h node a l1 p n :
  chain h a l1 p -> node ∉ a :: l1 ++ [p] -> p ∉ a :: l1 -> n ∉ l1 ++ [p] ->
  chain (spliced h node p n) a l1 p.
Proof.
  intros Hc Hnode Hp Hn. apply (chain_ext h); [| |done]; intros m Hm; simpl;
    rewrite !lookup_insert_ne; set_solver.
Qed.

Lemma chain_unsplice h x p l2 z :
  chain h p (x :: l2) z -> NoDup (x :: l2) -> z ∉ x :: l2 -> p ∉ x :: l2 ->
  chain (unspliced h p (hd z l2)) p l2 z.
Proof.
  intros (Hn & Hpv & Hc) Hnd Hz Hp. destruct l2 as [|y l2]; simpl.
  - simpl in Hc. by simplify_map_eq.
  - destruct Hc as (Hn' & Hpv' & Hc). apply NoDup_cons in Hnd as [? [? ?]%NoDup_cons].
    simplify_map_eq. do 2 (split; [done|]).
    apply (chain_ext h); [| |done]; intros m Hm; simpl; rewrite !lookup_insert_ne; set_solver.
Qed.

Lemma chain_before_unsplice h a l1 p n :
  chain h a l1 p -> p ∉ a :: l1 -> n ∉ l1 ++ [p] -> chain (unspliced h p n) a l1 p.
Proof.
  intros Hc Hp Hn. apply (chain_ext h); [| |done]; intros m Hm; simpl;
    rewrite !lookup_insert_ne; set_solver.
Qed.

(** The neighbours of position [l1 | l2] of a ring. *)
Lemma dlist_neighbours h head l1 l2 :
  dlist h head (l1 ++ l2) ->
  hnext h !! List.last l1 head = Some (hd head l2) /\ hprev h !! hd head l2 = Some (List.last l1 head).
Proof.
  intros [_ Hc]. destruct l1 as [|p l1 _] using rev_ind.
  - simpl in *. destruct l2; simpl in *; naive_solver.
  - rewrite List.last_last. rewrite <- app_assoc in Hc. apply chain_app in Hc as [_ Hc].
    destruct l2; simpl in *; naive_solver.
Qed.

Lemma dlist_splice h head l1 l2 node :
  dlist h head (l1 ++ l2) -> node ∉ head :: l1 ++ l2 ->
  dlist (spliced h node (List.last l1 head) (hd head l2)) head (l1 ++ node :: l2).
Proof.
  intros [Hnd Hc] Hnode. split.
  { rewrite <- (Permutation_middle l1 l2 node), Permutation_swap. apply NoDup_cons. set_solver. }
  apply NoDup_cons in Hnd as [Hhead Hnd]. apply NoDup_app in Hnd as (Hnd1 & Hdis & Hnd2).
  destruct l1 as [|p l1 _] using rev_ind.
  - simpl in *. apply chain_splice; [done| |set_solver..]. apply NoDup_cons; set_solver.
  - rewrite List.last_last. rewrite <- app_assoc in Hc |- *. simpl in Hc |- *.
    apply NoDup_app in Hnd1 as (Hnd1 & Hdis1 & _).
    apply chain_app in Hc as [Hc1 Hc2]. apply chain_app. split.
    + apply chain_before_splice; [done|set_solver..|]. destruct l2; simpl; set_solver.
    + apply chain_splice; [done| |set_solver..]. apply NoDup_cons; set_solver.
Qed.

Lemma dlist_unsplice h head l1 x l2 :
  dlist h head (l1 ++ x :: l2) ->
  dlist (unspliced h (List.last l1 head) (hd head l2)) head (l1 ++ l2).
Proof.
  intros [Hnd Hc]. split.
  { rewrite <- Permutation_middle, Permutation_swap in Hnd. by apply NoDup_cons in Hnd as [_ ?]. }
  apply NoDup_cons in Hnd as [Hhead Hnd]. apply NoDup_app in Hnd as (Hnd1 & Hdis & Hnd2).
  destruct l1 as [|p l1 _] using rev_ind.
  - simpl in *. apply (chain_unsplice _ x); [done|done|set_solver..].
  - rewrite List.last_last. rewrite <- app_assoc in Hc |- *. simpl in Hc |- *.
    apply NoDup_app in Hnd1 as (Hnd1 & Hdis1 & _).
    apply chain_app in Hc as [Hc1 Hc2]. apply chain_app. split.
    + apply chain_before_unsplice; [done|set_solver|]. destruct l2; simpl; set_solver.
    + apply (chain_unsplice _ x); [done|done|set_solver..].
Qed.
End splice.

Lemma frame_trans h1 h2 h3 ns : frame h1 h2 ns -> frame h2 h3 ns -> frame h1 h3 ns.
Proof. intros H12 H23 n Hn. destruct (H12 n Hn), (H23 n Hn). split; congruence. Qed.

Lemma frame_mono h h' ns ns' : frame h h' ns -> ns ⊆ ns' -> frame h h' ns'.
Proof. intros Hf Hs n Hn. apply Hf. set_solver. Qed.

(** Rings that share no node with the changed ones are untouched. *)
Lemma dlist_frame h h' ns r ys :
  frame h h' ns -> (forall n, n ∈ r :: ys -> n ∉ ns) -> dlist h r ys -> dlist h' r ys.
Proof.
  intros Hf Hdis [Hnd Hc]. split; [done|].
  apply (chain_ext h); [| |done]; intros n Hn; apply Hf, Hdis; set_solver.
Qed.

Lemma spliced_frame h node p n : frame h (spliced h node p n) [node; p; n].
Proof. intros m Hm. simpl. rewrite !lookup_insert_ne by set_solver. done. Qed.

Lemma unspliced_frame h p n : frame h (unspliced h p n) [p; n].
Proof. intros m Hm. simpl. rewrite !lookup_insert_ne by set_solver. done. Qed.

Lemma position_in head l1 (l2 : list Z) : List.last l1 head ∈ head :: l1 ++ l2.
Proof. destruct l1 as [|x l1 _] using rev_ind; [set_solver|]. rewrite List.last_last. set_solver. Qed.
Lemma position_in_r head (l1 l2 : list Z) : hd head l2 ∈ head :: l1 ++ l2.
Proof. destruct l2; simpl; set_solver. Qed.
#[export] Hint Resolve position_in position_in_r : kernel.

Lemma list_add_spec h head l1 l2 node :
  dlist h head (l1 ++ l2) -> node ∉ head :: l1 ++ l2 -> allocated h node ->
  exists h', list_add h (List.last l1 head) node = Ok h' /\ list_add_tail h (hd head l2) node = Ok h' /\
    dlist h' head (l1 ++ node :: l2) /\ frame h h' (node :: head :: l1 ++ l2).
Proof.
  intros Hd Hnode Hal. destruct (dlist_neighbours _ _ _ _ Hd) as [Hn Hp].
  exists (spliced h node (List.last l1 head) (hd head l2)).
  unfold list_add, list_add_tail, get_next, get_prev. rewrite Hn, Hp. simpl.
  rewrite __list_add_run by eauto. do 2 (split; [done|]). split; [by apply dlist_splice|].
  eapply frame_mono; [apply spliced_frame|].
  pose proof (position_in head l1 l2). pose proof (position_in_r head l1 l2). set_solver.
Qed.

Lemma __list_del_entry_spec h head l1 x l2 :
  dlist h head (l1 ++ x :: l2) ->
  __list_del_entry h x = Ok (unspliced h (List.last l1 head) (hd head l2)).
Proof.
  intros Hd. destruct (dlist_neighbours _ _ _ _ Hd) as [Hn Hp]. simpl in Hn, Hp.
  rewrite (app_assoc l1 [x] l2 : l1 ++ x :: l2 = (l1 ++ [x]) ++ l2) in Hd.
  destruct (dlist_neighbours _ _ _ _ Hd) as [Hn' Hp']. rewrite List.last_last in Hn', Hp'.
  unfold __list_del_entry, __list_del, get_next, get_prev, set_prev, set_next.
  rewrite Hp, Hn'. simpl. rewrite Hp'. simpl. by rewrite Hn.
Qed.

Lemma list_node_init_run h x :
  allocated h x -> list_node_init h x = Ok (mk_heap (<[x := x]> (hprev h)) (<[x := x]> (hnext h))).
Proof. intros [[a Ha] [b Hb]]. unfold list_node_init, set_prev, set_next. rewrite Ha. simpl. by rewrite Hb. Qed.

Lemma list_del_spec h head l1 x l2 :
  dlist h head (l1 ++ x :: l2) ->
  exists h', list_del h x = Ok h' /\ dlist h' head (l1 ++ l2) /\ dlist h' x [] /\
    frame h h' (head :: l1 ++ x :: l2).
Proof.
  intros Hd. pose proof Hd as [Hnd Hc].
  assert (x ∉ head :: l1 ++ l2) as Hx.
  { rewrite <- Permutation_middle, Permutation_swap in Hnd. by apply NoDup_cons in Hnd as [? _]. }
  assert (allocated h x) as Hal by (eapply chain_alloc; [done|set_solver]).
  set (p := List.last l1 head) in *. set (n := hd head l2) in *.
  assert (p <> x /\ n <> x) as [Hpx Hnx].
  { pose proof (position_in head l1 l2). pose proof (position_in_r head l1 l2). set_solver. }
  assert (allocated (unspliced h p n) x) as Hal'.
  { unfold allocated in *. simpl. by rewrite !lookup_insert_ne by done. }
  unfold list_del. rewrite (__list_del_entry_spec _ _ _ _ _ Hd). simpl.
  fold p n. rewrite list_node_init_run by done. eexists. split; [done|].
  assert (frame (unspliced h p n) (mk_heap (<[x := x]> (hprev (unspliced h p n)))
            (<[x := x]> (hnext (unspliced h p n)))) [x]) as Hf1.
  { intros m Hm. simpl. rewrite !lookup_insert_ne with (i := x) by set_solver. done. }
  split; [|split].
  - eapply dlist_frame; [exact Hf1|set_solver|]. by eapply dlist_unsplice.
  - split; [apply NoDup_singleton|]. simpl. by rewrite !lookup_insert_eq.
  - eapply frame_trans; [eapply frame_mono; [apply unspliced_frame|]|eapply frame_mono; [exact Hf1|]].
    + pose proof (position_in head l1 l2). pose proof (position_in_r head l1 l2). set_solver.
    + set_solver.
Qed.

Lemma for_each_from_spec h head l1 l2 fuel :
  dlist h head (l1 ++ l2) -> (length l2 < fuel)%nat ->
  for_each_from fuel h head (hd head l2) = Ok l2.
Proof.
  revert l1 fuel. induction l2 as [|x l2 IH]; intros l1 fuel Hd Hf; (destruct fuel as [|fuel]; [simpl in *; lia|]); simpl.
  - by rewrite Z.eqb_refl.
  - destruct (Z.eqb_spec x head) as [->|].
    { destruct Hd as [[Hin _]%NoDup_cons _]. set_solver. }
    rewrite (app_assoc l1 [x] l2 : l1 ++ x :: l2 = (l1 ++ [x]) ++ l2) in Hd.
    destruct (dlist_neighbours _ _ _ _ Hd) as [Hn _]. rewrite List.last_last in Hn.
    unfold get_next. rewrite Hn. simpl. rewrite (IH (l1 ++ [x])); [done|done|simpl in *; lia].
Qed.

(** [list_move] takes a node out of one ring and puts it in front of another. *)
Lemma list_move_spec h a l1 x l2 b ys :
  dlist h a (l1 ++ x :: l2) -> dlist h b ys -> (forall n, n ∈ b :: ys -> n ∉ a :: l1 ++ x :: l2) ->
  exists h', list_move h b x = Ok h' /\ dlist h' a (l1 ++ l2) /\ dlist h' b (x :: ys).
Proof.
  intros Ha Hb Hdis. unfold list_move. rewrite (__list_del_entry_spec _ _ _ _ _ Ha). simpl.
  set (p := List.last l1 a). set (n := hd a l2). pose proof (dlist_unsplice _ _ _ _ _ Ha) as Ha'.
  fold p n in Ha'. pose proof (position_in a l1 l2) as Hp. pose proof (position_in_r a l1 l2) as Hn.
  fold p in Hp. fold n in Hn.
  assert (x ∉ a :: l1 ++ l2) as Hx.
  { destruct Ha as [Hnd _]. rewrite <- Permutation_middle, Permutation_swap in Hnd.
    by apply NoDup_cons in Hnd as [? _]. }
  assert (dlist (unspliced h p n) b ys) as Hb'.
  { eapply dlist_frame; [apply unspliced_frame| |exact Hb]. intros m Hm. apply Hdis in Hm. set_solver. }
  assert (allocated (unspliced h p n) x) as Hal.
  { destruct (chain_alloc h a (l1 ++ x :: l2) a x) as [? ?]; [apply Ha|set_solver|].
    unfold allocated. simpl. rewrite !lookup_insert_ne by set_solver. done. }
  destruct (list_add_spec _ b [] ys x Hb' ltac:(intros Hin; apply Hdis in Hin; set_solver) Hal)
    as (h' & H1 & _ & H3 & Hf).
  exists h'. split; [done|]. split; [|done]. eapply dlist_frame; [exact Hf| |exact Ha'].
  intros m Hm Hin. apply elem_of_cons in Hin as [->|Hin]; [done|]. apply Hdis in Hin. set_solver.
Qed.

(** An intrusive ring refines a sequence.  Inserting a detached node after
    a position with [list_add] or before it with [list_add_tail] are the same
    insertion into the represented sequence; neither faults, and every ring
    that shares no node with this one still represents its own sequence. *)
Theorem list_add_refines h head l1 l2 node :
  dlist h head (l1 ++ l2) -> node ∉ head :: l1 ++ l2 -> allocated h node ->
  exists h', list_add h (List.last l1 head) node = Ok h' /\ list_add_tail h (hd head l2) node = Ok h' /\
    dlist h' head (l1 ++ node :: l2) /\
    forall r ys, dlist h r ys -> (forall n, n ∈ r :: ys -> n ∉ node :: head :: l1 ++ l2) -> dlist h' r ys.
Proof.
  intros Hd Hnode Hal. destruct (list_add_spec _ _ _ _ _ Hd Hnode Hal) as (h' & H1 & H2 & H3 & Hf).
  exists h'. do 3 (split; [done|]). intros r ys Hr Hdis. by eapply dlist_frame.
Qed.

Definition ring12 : node_heap :=
  mk_heap {[1 := 2; 2 := 1; 3 := 3]} {[1 := 2; 2 := 1; 3 := 3]}.

Lemma list_add_refines_witness :
  dlist ring12 1 [2] /\
  exists h', list_add ring12 1 3 = Ok h' /\ list_add_tail ring12 2 3 = Ok h' /\ dlist h' 1 [3; 2].
Proof.
  assert (dlist ring12 1 [2]) as Hd.
  { split; [repeat constructor; set_solver|]. by vm_compute. }
  split; [exact Hd|].
  destruct (list_add_refines ring12 1 [] [2] 3 Hd ltac:(set_solver)) as (h' & H1 & H2 & H3 & _).
  { split; eexists; vm_compute; reflexivity. }
  exists h'. split; [exact H1|]. split; [exact H2|exact H3].
Defined.

(** Removing a node from a ring with [list_del] removes exactly that
    element of the represented sequence, leaves the node in a ring of its own
    (so that [list_empty] holds of it), and [list_for_each_entry] visits
    exactly the represented sequence, in order, in as many steps as it is
    long. *)
Theorem list_del_refines h head l1 x l2 fuel :
  dlist h head (l1 ++ x :: l2) -> (length (l1 ++ x :: l2) <= fuel)%nat ->
  exists h', list_del h x = Ok h' /\ dlist h' head (l1 ++ l2) /\ list_empty h' x = Ok true /\
    list_for_each_entry (S fuel) h head = Ok (l1 ++ x :: l2) /\
    list_for_each_entry fuel h' head = Ok (l1 ++ l2) /\
    frame h h' (head :: l1 ++ x :: l2).
Proof.
  intros Hd Hfuel. destruct (list_del_spec _ _ _ _ _ Hd) as (h' & Hrun & Hd' & Hself & Hf).
  exists h'. split; [done|]. split; [done|]. split.
  { destruct Hself as [_ [Hn _]]. unfold list_empty, get_next. rewrite Hn. simpl. by rewrite Z.eqb_refl. }
  assert (forall g xs n, dlist g head xs -> (length xs < n)%nat -> list_for_each_entry n g head = Ok xs) as Hwalk.
  { intros g xs n Hg Hn. unfold list_for_each_entry, get_next.
    destruct (dlist_neighbours g head [] xs Hg) as [Hfirst _]. simpl in Hfirst. rewrite Hfirst.
    by apply (for_each_from_spec g head [] xs). }
  rewrite length_app in Hfuel. simpl in Hfuel.
  split; [apply Hwalk; [done|rewrite length_app; simpl; lia]|].
  split; [apply Hwalk; [done|rewrite length_app; lia]|done].
Qed.

Definition ring123 : node_heap :=
  mk_heap {[1 := 3; 2 := 1; 3 := 2]} {[1 := 2; 2 := 3; 3 := 1]}.

Lemma list_del_refines_witness :
  dlist ring123 1 [2; 3] /\ exists h', list_del ring123 2 = Ok h' /\ dlist h' 1 [3].
Proof.
  assert (dlist ring123 1 [2; 3]) as Hd.
  { split; [repeat constructor; set_solver|]. by vm_compute. }
  split; [exact Hd|].
  destruct (list_del_refines ring123 1 [] 2 [3] 2 Hd ltac:(simpl; lia)) as (h' & H1 & H2 & _).
  exists h'. split; [exact H1|exact H2].
Defined.
