(* ===== verification/KString.v ===== *)
(** * Byte memory and string routines (kernel/libk/string.c)

    Memory is a finite map from byte addresses to bytes; a load or store at an
    address outside it faults.  Each routine is the loop of the C code, one
    byte at a time, so overlapping operands behave as they do there. *)

From stdpp Require Import base numbers list gmap.
From Stdlib Require Import ZArith Lia.
From S2P Require Import Prelude.

Abbreviation mem := (gmap Z Z).

Definition load (m : mem) (a : Z) : outcome Z := deref (m !! a).
Definition store (m : mem) (a v : Z) : outcome mem :=
  match m !! a with Some _ => Ok (<[a := v]> m) | None => Fault end.

(** The loop of [strlen]: advance to the first NUL byte. *)
Fixpoint strlen_loop (fuel : nat) (m : mem) (s : Z) : outcome Z :=
  match fuel with
  | O => OutOfFuel
  | S fuel =>
      let* c := load m s in
      if c =? 0 then Ok s else strlen_loop fuel m (s + 1)
  end.

Definition strlen (fuel : nat) (m : mem) (s : Z) : outcome Z :=
  let* e := strlen_loop fuel m s in Ok (e - s).

(** The second loop of [strncpy]: pad with NUL bytes up to [n]. *)
Fixpoint strncpy_pad (n : nat) (m : mem) (dst i : Z) : outcome mem :=
  match n with
  | O => Ok m
  | S n => let* m := store m (dst + i) 0 in strncpy_pad n m dst (i + 1)
  end.

(** Both loops share the counter; [n] is the number of bytes still to write. *)
Fixpoint strncpy_loop (n : nat) (m : mem) (dst src i : Z) : outcome mem :=
  match n with
  | O => Ok m
  | S n' =>
      let* c := load m (src + i) in
      if c =? 0 then strncpy_pad n m dst i
      else let* m := store m (dst + i) c in strncpy_loop n' m dst src (i + 1)
  end.

Definition strncpy (m : mem) (dst src : Z) (n : nat) : outcome mem := strncpy_loop n m dst src 0.

Fixpoint strncmp (m : mem) (src dst : Z) (len : nat) : outcome Z :=
  match len with
  | O => Ok 0
  | S len =>
      let* a := load m src in
      let* b := load m dst in
      if negb (a =? 0) && (a =? b) then strncmp m (src + 1) (dst + 1) len
      else Ok (a - b)
  end.

Fixpoint memcpy_loop (n : nat) (m : mem) (dest src i : Z) : outcome mem :=
  match n with
  | O => Ok m
  | S n =>
      let* b := load m (src + i) in
      let* m := store m (dest + i) b in
      memcpy_loop n m dest src (i + 1)
  end.

Definition memcpy (m : mem) (dest src : Z) (n : nat) : outcome mem := memcpy_loop n m dest src 0.

Fixpoint memset_loop (n : nat) (m : mem) (dest data i : Z) : outcome mem :=
  match n with
  | O => Ok m
  | S n => let* m := store m (dest + i) (u8 data) in memset_loop n m dest data (i + 1)
  end.

Definition memset (m : mem) (dest data : Z) (n : nat) : outcome mem := memset_loop n m dest data 0.

(** The branch [src < dest] of [memmove]: the index is [i - 1], and [i] counts up. *)
Fixpoint memmove_back_loop (n : nat) (m : mem) (dest src i : Z) : outcome mem :=
  match n with
  | O => Ok m
  | S n =>
      let* b := load m (src + (i - 1)) in
      let* m := store m (dest + (i - 1)) b in
      memmove_back_loop n m dest src (i + 1)
  end.

Definition memmove (m : mem) (dest src : Z) (n : nat) : outcome mem :=
  if dest <? src then memcpy_loop n m dest src 0
  else if src <? dest then memmove_back_loop n m dest src 0
  else Ok m.

Fixpoint memcmp_loop (n : nat) (m : mem) (s1 s2 i : Z) : outcome Z :=
  match n with
  | O => Ok 0
  | S n =>
      let* a := load m (s1 + i) in
      let* b := load m (s2 + i) in
      if a =? b then memcmp_loop n m s1 s2 (i + 1)
      else Ok (if a <? b then -1 else 1)
  end.

Definition memcmp (m : mem) (s1 s2 : Z) (n : nat) : outcome Z := memcmp_loop n m s1 s2 0.

(** ** Representation of byte sequences *)

(** The bytes [bs] are stored from address [a] on. *)
Definition bytes_at (m : mem) (a : Z) (bs : list Z) : Prop :=
  forall k b, bs !! k = Some b -> m !! (a + Z.of_nat k) = Some b.

(** A NUL-terminated string: [s] holds no NUL. *)
Definition cstr (m : mem) (a : Z) (s : list Z) : Prop :=
  bytes_at m a (s ++ [0]) /\ 0 ∉ s.

Lemma bytes_at_cons m a b bs :
  bytes_at m a (b :: bs) <-> m !! a = Some b /\ bytes_at m (a + 1) bs.
Proof.
  split.
  - intros H. split; [specialize (H 0%nat b eq_refl); by rewrite Z.add_0_r in H|].
    intros k c Hk. specialize (H (S k) c Hk). by replace (a + 1 + Z.of_nat k) with (a + Z.of_nat (S k)) by lia.
  - intros [Ha H] [|k] c Hk; simpl in Hk; simplify_eq.
    + by rewrite Z.add_0_r.
    + specialize (H k c Hk). by replace (a + Z.of_nat (S k)) with (a + 1 + Z.of_nat k) by lia.
Qed.

Lemma cstr_cons m a c s : cstr m a (c :: s) <-> m !! a = Some c /\ c <> 0 /\ cstr m (a + 1) s.
Proof. unfold cstr. simpl. rewrite bytes_at_cons, not_elem_of_cons. naive_solver. Qed.

Lemma cstr_nil m a : cstr m a [] <-> m !! a = Some 0.
Proof.
  unfold cstr. simpl. rewrite bytes_at_cons. split; [naive_solver|]. intros H.
  repeat split; [done| |set_solver]. intros k b Hk. by rewrite lookup_nil in Hk.
Qed.

Lemma strlen_loop_spec m a s fuel :
  cstr m a s -> (length s < fuel)%nat -> strlen_loop fuel m a = Ok (a + zlen s).
Proof.
  revert a fuel. induction s as [|c s IH]; intros a [|fuel] Hs Hf; simpl in *; try lia.
  - apply cstr_nil in Hs. unfold load. rewrite Hs. simpl. by rewrite Z.add_0_r.
  - apply cstr_cons in Hs as (Ha & Hc & Hs). unfold load. rewrite Ha. simpl.
    destruct (Z.eqb_spec c 0); [done|]. rewrite (IH (a + 1)) by (done || lia). rewrite zlen_cons.
    f_equal. lia.
Qed.

(** [strlen] returns the length of the string, given fuel for its bytes and its NUL. *)
Lemma strlen_spec m a s fuel :
  cstr m a s -> (length s < fuel)%nat -> strlen fuel m a = Ok (zlen s).
Proof. intros. unfold strlen. rewrite (strlen_loop_spec m a s) by done. simpl. f_equal. lia. Qed.

Lemma store_run m a v b : m !! a = Some b -> store m a v = Ok (<[a := v]> m).
Proof. intros H. unfold store. by rewrite H. Qed.

(** The result of a copy loop that runs from [i], described pointwise. *)
Definition copied (m m' : mem) (dest src i : Z) (n : nat) : Prop :=
  (forall k, i <= k < i + Z.of_nat n -> m' !! (dest + k) = m !! (src + k)) /\
  (forall a, (a < dest + i \/ dest + i + Z.of_nat n <= a) -> m' !! a = m !! a).

Lemma memcpy_loop_spec n : forall m dest src i,
  (forall k, i <= k < i + Z.of_nat n -> is_Some (m !! (src + k)) /\ is_Some (m !! (dest + k))) ->
  (dest <= src \/ src + i + Z.of_nat n <= dest + i) ->
  exists m', memcpy_loop n m dest src i = Ok m' /\ copied m m' dest src i n.
Proof.
  induction n as [|n IH]; intros m dest src i Hmap Hov.
  { exists m. split; [done|]. split; intros; [lia|done]. }
  destruct (Hmap i ltac:(lia)) as [[b Hb] [d Hd]].
  simpl. unfold load. rewrite Hb. simpl. rewrite (store_run _ _ _ d Hd). simpl.
  destruct (IH (<[dest + i := b]> m) dest src (i + 1)) as (m' & Hrun & Hin & Hout).
  - intros k Hk. destruct (Hmap k ltac:(lia)) as [Hs Hd'].
    rewrite !lookup_insert. repeat case_decide; split; done || eauto.
  - lia.
  - exists m'. split; [done|]. split.
    + intros k Hk. destruct (decide (k = i)) as [->|].
      * rewrite Hout by lia. by rewrite lookup_insert_eq.
      * rewrite Hin by lia. rewrite lookup_insert_ne by lia. done.
    + intros a Ha. rewrite Hout by lia. rewrite lookup_insert_ne by lia. done.
Qed.

Lemma memmove_back_shift n : forall m dest src i,
  memmove_back_loop n m dest src i = memcpy_loop n m (dest - 1) (src - 1) i.
Proof.
  induction n as [|n IH]; intros m dest src i; simpl; [done|].
  replace (src + (i - 1)) with (src - 1 + i) by lia.
  replace (dest + (i - 1)) with (dest - 1 + i) by lia.
  destruct (load m (src - 1 + i)); simpl; [|done..].
  destruct (store m (dest - 1 + i) a); simpl; [apply IH|done..].
Qed.

Lemma memset_loop_spec n : forall m dest data i,
  (forall k, i <= k < i + Z.of_nat n -> is_Some (m !! (dest + k))) ->
  exists m', memset_loop n m dest data i = Ok m' /\
    (forall k, i <= k < i + Z.of_nat n -> m' !! (dest + k) = Some (u8 data)) /\
    (forall a, (a < dest + i \/ dest + i + Z.of_nat n <= a) -> m' !! a = m !! a).
Proof.
  induction n as [|n IH]; intros m dest data i Hmap.
  { exists m. split; [done|]. split; intros; [lia|done]. }
  destruct (Hmap i ltac:(lia)) as [d Hd]. simpl. rewrite (store_run _ _ _ d Hd). simpl.
  destruct (IH (<[dest + i := u8 data]> m) dest data (i + 1)) as (m' & Hrun & Hin & Hout).
  { intros k Hk. rewrite lookup_insert. case_decide; [done|]. apply Hmap. lia. }
  exists m'. split; [done|]. split.
  - intros k Hk. destruct (decide (k = i)) as [->|]; [|apply Hin; lia].
    rewrite Hout by lia. by rewrite lookup_insert_eq.
  - intros a Ha. rewrite Hout by lia. rewrite lookup_insert_ne by lia. done.
Qed.

Lemma strncmp_spec n : forall m p q s t,
  cstr m p s -> cstr m q t ->
  exists r, strncmp m p q n = Ok r /\ (r = 0 <-> take n s = take n t).
Proof.
  induction n as [|n IH]; intros m p q s t Hs Ht; simpl; [by exists 0|].
  destruct s as [|a s], t as [|b t]; rewrite ?cstr_nil, ?cstr_cons in Hs; rewrite ?cstr_nil, ?cstr_cons in Ht; unfold load.
  - rewrite Hs, Ht. simpl. eexists. split; [done|]. split; done.
  - destruct Ht as (Hb & ? & ?). rewrite Hs, Hb. simpl. eexists. split; [done|]. split; [lia|done].
  - destruct Hs as (Ha & Ha0 & ?). rewrite Ha, Ht. simpl. destruct (Z.eqb_spec a 0); [done|]. simpl.
    eexists. split; [done|]. split; [lia|done].
  - destruct Hs as (Ha & Ha0 & Hs), Ht as (Hb & Hb0 & Ht). rewrite Ha, Hb. simpl.
    destruct (Z.eqb_spec a 0); [done|]. simpl. destruct (Z.eqb_spec a b) as [->|].
    + destruct (IH m (p + 1) (q + 1) s t) as (r & Hr & Hiff); [done..|]. exists r. split; [done|].
      rewrite Hiff. split; [by intros ->|by intros [= ->]].
    + eexists. split; [done|]. split; [lia|by intros [= ? ?]].
Qed.

Lemma memcmp_loop_spec n : forall m p q i,
  (forall k, i <= k < i + Z.of_nat n -> is_Some (m !! (p + k)) /\ is_Some (m !! (q + k))) ->
  exists r, memcmp_loop n m p q i = Ok r /\
    (r = 0 <-> forall k, i <= k < i + Z.of_nat n -> m !! (p + k) = m !! (q + k)).
Proof.
  induction n as [|n IH]; intros m p q i Hmap; simpl.
  { exists 0. split; [done|]. split; [lia|done]. }
  destruct (Hmap i ltac:(lia)) as [[a Ha] [b Hb]]. unfold load. rewrite Ha, Hb. simpl.
  destruct (Z.eqb_spec a b) as [->|Hne].
  - destruct (IH m p q (i + 1)) as (r & Hr & Hiff); [intros k Hk; apply Hmap; lia|].
    exists r. split; [done|]. rewrite Hiff. split.
    + intros H k Hk. destruct (decide (k = i)) as [->|]; [congruence|]. apply H. lia.
    + intros H k Hk. apply H. lia.
  - eexists. split; [done|]. split; [destruct (a <? b); lia|].
    intros H. specialize (H i ltac:(lia)). congruence.
Qed.

Lemma strncpy_pad_spec n : forall m dst i,
  strncpy_pad n m dst i = memset_loop n m dst 0 i.
Proof.
  induction n as [|n IH]; intros m dst i; simpl; [done|].
  change (u8 0) with 0. by destruct (store m (dst + i) 0); simpl; rewrite ?IH.
Qed.

(** The byte [strncpy] leaves at index [k] of the destination. *)
Definition padded (s : list Z) (k : Z) : Z := default 0 (s !! Z.to_nat k).

Lemma strncpy_loop_spec n : forall m dst src i s,
  0 <= i -> cstr m (src + i) s ->
  (forall k, i <= k < i + Z.of_nat n -> is_Some (m !! (dst + k))) ->
  (dst + i + Z.of_nat n <= src + i \/ src + i + zlen s < dst + i) ->
  exists m', strncpy_loop n m dst src i = Ok m' /\
    (forall k, i <= k < i + Z.of_nat n -> m' !! (dst + k) = Some (padded s (k - i))) /\
    (forall a, (a < dst + i \/ dst + i + Z.of_nat n <= a) -> m' !! a = m !! a).
Proof.
  induction n as [|n IH]; intros m dst src i s Hi Hs Hmap Hdis.
  { exists m. split; [done|]. split; intros; [lia|done]. }
  cbn [strncpy_loop]. destruct s as [|c s].
  - apply cstr_nil in Hs. unfold load. rewrite Hs. cbn [outcome_bind deref Z.eqb].
    rewrite strncpy_pad_spec. destruct (memset_loop_spec (S n) m dst 0 i Hmap) as (m' & Hrun & Hin & Hout).
    exists m'. split; [done|]. split; [|done]. intros k Hk. rewrite Hin by done.
    unfold padded. by rewrite lookup_nil.
  - apply cstr_cons in Hs as (Ha & Hc & Hs). unfold load. rewrite Ha. simpl.
    destruct (Z.eqb_spec c 0); [done|]. destruct (Hmap i ltac:(lia)) as [d Hd].
    rewrite (store_run _ _ _ d Hd). simpl. rewrite zlen_cons in Hdis. pose proof (zlen_nonneg s).
    assert (cstr (<[dst + i := c]> m) (src + (i + 1)) s) as Hs'.
    { destruct Hs as [Hb Hz]. split; [|done]. intros k b Hk. rewrite lookup_insert_ne.
      - replace (src + (i + 1)) with (src + i + 1) by lia. by apply Hb.
      - apply lookup_lt_Some in Hk. rewrite length_app in Hk. simpl in Hk. unfold zlen in *. lia. }
    destruct (IH (<[dst + i := c]> m) dst src (i + 1) s) as (m' & Hrun & Hin & Hout);
      [lia|done| |lia|].
    { intros k Hk. rewrite lookup_insert. case_decide; [done|]. apply Hmap. lia. }
    exists m'. split; [done|]. split.
    + intros k Hk. destruct (decide (k = i)) as [->|].
      * rewrite Hout, lookup_insert_eq by lia. by rewrite Z.sub_diag.
      * rewrite Hin by lia. unfold padded.
        by replace (Z.to_nat (k - i)) with (S (Z.to_nat (k - (i + 1)))) by lia.
    + intros a Ha'. rewrite Hout, lookup_insert_ne by lia. done.
Qed.

(** [memcpy] copies the [n] source bytes as they were before the call and
    changes nothing else, also when the regions overlap with the destination
    below the source (the framebuffer scrolls this way); [memcmp] of source and
    copy is then zero when the regions are disjoint, and [memmove] towards
    lower addresses is the same copy. *)
Theorem memcpy_correct m dest src n :
  (forall k, 0 <= k < Z.of_nat n -> is_Some (m !! (src + k)) /\ is_Some (m !! (dest + k))) ->
  dest < src \/ src + Z.of_nat n <= dest ->
  exists m', memcpy m dest src n = Ok m' /\
    (forall k, 0 <= k < Z.of_nat n -> m' !! (dest + k) = m !! (src + k)) /\
    (forall a, a < dest \/ dest + Z.of_nat n <= a -> m' !! a = m !! a) /\
    (dest < src -> memmove m dest src n = Ok m') /\
    (dest + Z.of_nat n <= src \/ src + Z.of_nat n <= dest -> memcmp m' dest src n = Ok 0).
Proof.
  intros Hmap Hov. destruct (memcpy_loop_spec n m dest src 0) as (m' & Hrun & Hin & Hout); [done|lia|].
  rewrite Z.add_0_r in Hout. exists m'. split; [done|]. split; [done|]. split; [done|]. split.
  - intros Hlt. unfold memmove. by destruct (Z.ltb_spec dest src); [|lia].
  - intros Hdis. assert (forall k, 0 <= k < Z.of_nat n -> m' !! (src + k) = m !! (src + k)) as Hsrc.
    { intros k Hk. apply Hout. lia. }
    destruct (memcmp_loop_spec n m' dest src 0) as (r & Hr & Hiff).
    { intros k Hk. rewrite Hin, Hsrc by done. split; by apply Hmap. }
    unfold memcmp. rewrite Hr. f_equal. apply Hiff. intros k Hk. by rewrite Hin, Hsrc.
Qed.

Definition mem4 : mem := {[10 := 1; 11 := 2; 12 := 3; 13 := 4]}.

Lemma memcpy_correct_witness :
  exists m', memcpy mem4 10 11 3 = Ok m' /\ m' !! 12 = Some 4 /\ memmove mem4 10 11 3 = Ok m'.
Proof.
  destruct (memcpy_correct mem4 10 11 3) as (m' & H1 & H2 & _ & H4 & _).
  - intros k Hk. assert (k = 0 \/ k = 1 \/ k = 2) as [->|[->| ->]] by lia;
      split; eexists; vm_compute; reflexivity.
  - lia.
  - exists m'. split; [exact H1|]. split; [apply (H2 2); lia|]. apply H4. lia.
Defined.

(** [memmove] towards higher addresses copies the wrong bytes: it is the
    copy of the [n] bytes that start one below the source, to one below the
    destination.  So it writes the byte below the destination, and the last
    destination byte keeps its old value. *)
Theorem memmove_up_shifted m dest src n :
  (forall k, -1 <= k < Z.of_nat n -> is_Some (m !! (src + k)) /\ is_Some (m !! (dest + k))) ->
  src < dest -> src + Z.of_nat n <= dest ->
  exists m', memmove m dest src n = Ok m' /\ memcpy m (dest - 1) (src - 1) n = Ok m' /\
    ((0 < n)%nat -> m' !! (dest - 1) = m !! (src - 1)) /\
    m' !! (dest + Z.of_nat n - 1) = m !! (dest + Z.of_nat n - 1).
Proof.
  intros Hmap Hlt Hdis.
  destruct (memcpy_loop_spec n m (dest - 1) (src - 1) 0) as (m' & Hrun & Hin & Hout).
  { intros k Hk. replace (src - 1 + k) with (src + (k - 1)) by lia.
    replace (dest - 1 + k) with (dest + (k - 1)) by lia. apply Hmap. lia. }
  { lia. }
  exists m'. split.
  { unfold memmove. destruct (Z.ltb_spec dest src); [lia|]. destruct (Z.ltb_spec src dest); [|lia].
    by rewrite memmove_back_shift. }
  split; [done|]. split.
  - intros Hn. specialize (Hin 0 ltac:(lia)). by rewrite !Z.add_0_r in Hin.
  - apply Hout. lia.
Qed.

Definition mem_up : mem := {[9 := 7; 10 := 1; 11 := 2; 12 := 3; 13 := 4; 14 := 5]}.

Lemma memmove_up_shifted_witness :
  exists m', memmove mem_up 13 11 2 = Ok m' /\ m' !! 14 = Some 5 /\ m' !! 12 = Some 1.
Proof.
  destruct (memmove_up_shifted mem_up 13 11 2) as (m' & H1 & _ & H3 & H4).
  - intros k Hk. assert (k = -1 \/ k = 0 \/ k = 1) as [->|[->| ->]] by lia;
      split; eexists; vm_compute; reflexivity.
  - lia.
  - lia.
  - exists m'. split; [exact H1|]. split; [exact H4|]. apply H3. lia.
Defined.
