(* ===== verification/Pages.v ===== *)
(** * The interface of the page frame allocator

    What the clients of kernel/mm/pmm.c (slab caches, page tables, address
    spaces, the memory file system) rely on.  The clients are proved against
    this class; Pmm.v discharges it for the bitmap allocator. *)

From stdpp Require Import base numbers list sets.
From Stdlib Require Import ZArith Lia.
From S2P Require Import Prelude.

(** The number of page frames that the direct map at [VM_DMAP_BASE] can show. *)
Definition dmap_frames : Z := (VM_VMALLOC_BASE - VM_DMAP_BASE) / CONFIG_PAGE_SIZE.

(** [pages_free] lists the free frame numbers, [pages_managed] bounds the
    frame numbers.  Frame 0 is never handed out: a null table address in a
    page table entry means absence.  Which free frame is handed out is left
    open. *)
Class PageAllocator (St : Type) := {
  page_alloc : St -> outcome (Z * St);
  page_free : St -> Z -> outcome St;
  pages_ok : St -> Prop;
  pages_free : St -> list Z;
  pages_managed : St -> Z;
  pages_nodup : forall st, pages_ok st -> NoDup (pages_free st);
  pages_bound : forall st p, pages_ok st -> p ∈ pages_free st -> 0 < p < pages_managed st;
  pages_dmap : forall st, pages_ok st -> pages_managed st <= dmap_frames;
  page_alloc_law : forall st, pages_ok st ->
    (page_alloc st = Panic /\ pages_free st = []) \/
    (exists p st', page_alloc st = Ok (p * CONFIG_PAGE_SIZE, st') /\ pages_ok st' /\
       pages_free st ≡ₚ p :: pages_free st' /\ pages_managed st' = pages_managed st);
  page_free_law : forall st p, pages_ok st -> 0 < p < pages_managed st -> p ∉ pages_free st ->
    exists st', page_free st (p * CONFIG_PAGE_SIZE) = Ok st' /\ pages_ok st' /\
      pages_free st' ≡ₚ p :: pages_free st /\ pages_managed st' = pages_managed st;
}.

(** The address at which the direct map shows a frame. *)
Definition dmap (p : Z) : Z := p * CONFIG_PAGE_SIZE + VM_DMAP_BASE.

Section allocator_facts.
Context `{PageAllocator St}.
Implicit Types st : St.

(** A frame is owned when the allocator manages it and it is not free. *)
Definition page_owned (st : St) (p : Z) : Prop := 0 < p < pages_managed st /\ (p ∉ pages_free st).

Lemma pages_bound_dmap st p : pages_ok st -> p < pages_managed st -> p < dmap_frames.
Proof. intros Hok Hp. pose proof (pages_dmap st Hok). lia. Qed.

(** A frame below the window's end has a direct map address that does not wrap. *)
Lemma dmap_range p : 0 <= p < dmap_frames ->
  VM_DMAP_BASE <= dmap p /\ dmap p + CONFIG_PAGE_SIZE <= VM_VMALLOC_BASE /\ dmap p mod CONFIG_PAGE_SIZE = 0.
Proof.
  unfold dmap. change dmap_frames with 17179869184.
  unfold VM_DMAP_BASE, VM_VMALLOC_BASE, CONFIG_PAGE_SIZE. intros. split; [lia|]. split; [lia|].
  apply Z.mod_divide; [lia|]. exists (p + 0xffff800000000). lia.
Qed.

Lemma dmap_u64 p : 0 <= p < dmap_frames -> u64 (p * CONFIG_PAGE_SIZE + VM_DMAP_BASE) = dmap p.
Proof.
  intros Hp. destruct (dmap_range p Hp) as (? & ? & _). apply u64_small. fold (dmap p).
  change VM_DMAP_BASE with 18446603336221196288 in *. change VM_VMALLOC_BASE with 18446673704965373952 in *.
  page_lia.
Qed.

Lemma dmap_inj p q : dmap p = dmap q -> p = q.
Proof. unfold dmap. page_lia. Qed.

(** Allocation hands out a frame that nobody owned, and every other frame keeps its owner. *)
Lemma page_alloc_owned st p st' : pages_ok st -> page_alloc st = Ok (p * CONFIG_PAGE_SIZE, st') ->
  pages_ok st' /\ p ∈ pages_free st /\ page_owned st' p /\ pages_managed st' = pages_managed st /\
  (forall q, page_owned st' q <-> page_owned st q \/ q = p).
Proof.
  intros Hok Hrun. destruct (page_alloc_law st Hok) as [[E _]|(p' & st'' & E & Hok' & Hperm & Hm)]; [congruence|].
  rewrite Hrun in E. injection E as E1 <-. assert (p' = p) as -> by page_lia.
  assert (p ∈ pages_free st) as Hp by (rewrite Hperm; set_solver).
  pose proof (pages_bound st p Hok Hp) as Hb. pose proof (pages_nodup st Hok) as Hnd.
  rewrite Hperm in Hnd. apply NoDup_cons in Hnd as [Hnp _].
  split; [done|]. split; [done|]. split; [split; [lia|done]|]. split; [done|].
  intros q. unfold page_owned. rewrite Hm, Hperm. split.
  - intros [Hq Hf]. destruct (decide (q = p)); [by right|left; set_solver].
  - intros [[Hq Hf]| ->]; [set_solver|done].
Qed.

Lemma page_free_owned st p : pages_ok st -> page_owned st p ->
  exists st', page_free st (p * CONFIG_PAGE_SIZE) = Ok st' /\ pages_ok st' /\
    pages_managed st' = pages_managed st /\
    (forall q, page_owned st' q <-> page_owned st q /\ q <> p).
Proof.
  intros Hok [Hp Hf]. destruct (page_free_law st p Hok Hp Hf) as (st' & E & Hok' & Hperm & Hm).
  exists st'. split; [done|]. split; [done|]. split; [done|].
  intros q. unfold page_owned. rewrite Hm, Hperm. set_solver.
Qed.
End allocator_facts.
