(* ===== verification/Pmm.v ===== *)
(** * Physical memory: memory map and page frame allocator

    kernel/arch/x86_64/memmap.c, kernel/mm/memory_map.c, kernel/mm/pmm.c.

    The allocator is a bitmap with one bit per page frame, a set bit meaning
    that the frame is free, kept here as the list of its 64-bit words.  Its
    abstract state is the ascending list of free frame numbers; the theorems
    show that [pmm_allocate] pops the head of that list and [pmm_free] inserts
    into it, and that initialisation makes exactly the usable frames free.
    Spin locks around the operations are modelled in Sync.v. *)

From stdpp Require Import base numbers list gmap.
From Stdlib Require Import ZArith Lia.
From S2P Require Import Prelude Pages.

(** ** The memory map *)

Definition MEM_REGION_USABLE : Z := 0.
Definition MEM_REGION_ACPI_TABLES : Z := 1.
Definition MEM_REGION_ACPI_NVS : Z := 2.
Definition MEM_REGION_RESERVED : Z := 3.
Definition MEM_REGION_ALLOCATED : Z := 4.

Record mem_region := mk_region { r_begin : Z; r_end : Z; r_type : Z }.

Definition max_memmap_regions : Z := 64.

(** [regions] holds the first [num_regions] entries of the array. *)
Record memory_map := mk_memmap { regions : list mem_region; memory_top : Z }.
Definition num_regions (m : memory_map) : Z := zlen (regions m).

(** limine.h: an entry of the boot loader's map and its types. *)
Record limine_entry := mk_limine { l_base : Z; l_length : Z; l_type : Z }.
Definition LIMINE_MEMMAP_USABLE : Z := 0.
Definition LIMINE_MEMMAP_RESERVED : Z := 1.
Definition LIMINE_MEMMAP_ACPI_RECLAIMABLE : Z := 2.
Definition LIMINE_MEMMAP_ACPI_NVS : Z := 3.
Definition LIMINE_MEMMAP_BAD_MEMORY : Z := 4.
Definition LIMINE_MEMMAP_BOOTLOADER_RECLAIMABLE : Z := 5.
Definition LIMINE_MEMMAP_FRAMEBUFFER : Z := 7.

(** The body of the loop of [parse_memory_map], up to [num_regions++]. *)
Definition parse_entry (out : memory_map) (entry : limine_entry) : memory_map :=
  let begin0 := l_base entry in
  let r_end := u64 (l_base entry + l_length entry) in
  let r_begin := if begin0 =? 0 then 0x2000 else begin0 in
  let ty := l_type entry in
  let top :=
    if (ty =? LIMINE_MEMMAP_USABLE) && (memory_top out <? r_end) then r_end else memory_top out in
  let r_type :=
    if ty =? LIMINE_MEMMAP_USABLE then MEM_REGION_USABLE
    else if ty =? LIMINE_MEMMAP_ACPI_RECLAIMABLE then MEM_REGION_ACPI_TABLES
    else if ty =? LIMINE_MEMMAP_ACPI_NVS then MEM_REGION_ACPI_NVS
    else if (ty =? LIMINE_MEMMAP_BOOTLOADER_RECLAIMABLE) || (ty =? LIMINE_MEMMAP_FRAMEBUFFER)
    then MEM_REGION_ALLOCATED
    else MEM_REGION_RESERVED in
  mk_memmap (regions out ++ [mk_region r_begin r_end r_type]) top.

(** The loop stops early when the array of regions is full. *)
Fixpoint parse_memory_map (out : memory_map) (entries : list limine_entry) : memory_map :=
  match entries with
  | [] => out
  | entry :: entries =>
      let out := parse_entry out entry in
      if max_memmap_regions <=? num_regions out then out
      else parse_memory_map out entries
  end.

(** The scan of [memmap_reserve]; [done] holds the regions already passed.
    [Some] is the address returned and the new map, [None] is [nullptr]. *)
Fixpoint memmap_reserve_from (done todo : list mem_region) (top size : Z)
    : option (Z * memory_map) :=
  match todo with
  | [] => None
  | region :: todo =>
      if negb (r_type region =? MEM_REGION_USABLE)
      then memmap_reserve_from (done ++ [region]) todo top size
      else
        let b := r_begin region in
        let e := r_end region in
        if (b <? e) && (size <=? u64 (e - b)) then
          if zlen (done ++ region :: todo) =? max_memmap_regions then None
          else
            let cut := align_up (u64 (b + size)) CONFIG_PAGE_SIZE in
            Some (u64 (b + VM_DMAP_BASE),
              mk_memmap (done ++ mk_region cut e (r_type region) :: todo
                           ++ [mk_region b cut MEM_REGION_ALLOCATED]) top)
        else memmap_reserve_from (done ++ [region]) todo top size
  end.

Definition memmap_reserve (m : memory_map) (size : Z) : option (Z * memory_map) :=
  memmap_reserve_from [] (regions m) (memory_top m) size.

(** ** The allocator state *)

Record pmm := mk_pmm {
  pmm_bitmap : list Z;
  physmem_available : Z;
  physmem_used : Z;
}.

(** [__builtin_ctzll]: the number of trailing zero bits of a non-zero word. *)
Fixpoint pos_ctz (p : positive) : Z :=
  match p with
  | xO p => 1 + pos_ctz p
  | _ => 0
  end.
Definition ctz (w : Z) : Z := match w with Zpos p => pos_ctz p | _ => 64 end.

Definition set_bit (w b : Z) : Z := Z.lor w (u64 (Z.shiftl 1 b)).
Definition clear_bit (w b : Z) : Z := Z.land w (u64 (Z.lnot (u64 (Z.shiftl 1 b)))).

(** The loop of [pmm_mark_range_free]. *)
Fixpoint mark_loop (fuel : nat) (bm : list Z) (rbegin rlen : Z) : outcome (list Z) :=
  match fuel with
  | O => OutOfFuel
  | S fuel =>
      if rlen <? CONFIG_PAGE_SIZE then Ok bm
      else
        let bmp_offset := rbegin / CONFIG_PAGE_SIZE / 64 in
        let bit_offset := (rbegin / CONFIG_PAGE_SIZE) mod 64 in
        if (64 * CONFIG_PAGE_SIZE <=? rlen) && (bit_offset =? 0) then
          let* bm := aset bm bmp_offset (u64 (Z.lnot 0)) in
          mark_loop fuel bm (u64 (rbegin + 64 * CONFIG_PAGE_SIZE)) (rlen - 64 * CONFIG_PAGE_SIZE)
        else
          let* w := aget bm bmp_offset in
          let* bm := aset bm bmp_offset (set_bit w bit_offset) in
          mark_loop fuel bm (u64 (rbegin + CONFIG_PAGE_SIZE)) (rlen - CONFIG_PAGE_SIZE)
  end.

(** The fuel is one more than the number of pages, and each round takes at least one page. *)
Definition pmm_mark_range_free (st : pmm) (b e : Z) : outcome pmm :=
  let rlen := u64 (e - b) in
  let* bm := mark_loop (S (Z.to_nat (rlen / CONFIG_PAGE_SIZE))) (pmm_bitmap st) b rlen in
  Ok (mk_pmm bm (u64 (physmem_available st + rlen / CONFIG_PAGE_SIZE)) (physmem_used st)).

(** The loop over the regions in [pmm_init]. *)
Fixpoint pmm_init_regions (st : pmm) (rs : list mem_region) : outcome pmm :=
  match rs with
  | [] => Ok st
  | r :: rs =>
      if r_type r =? MEM_REGION_USABLE then
        let* st := pmm_mark_range_free st (r_begin r) (r_end r) in
        pmm_init_regions st rs
      else if r_type r =? MEM_REGION_ALLOCATED then
        pmm_init_regions (mk_pmm (pmm_bitmap st) (physmem_available st)
          (u64 (physmem_used st + u64 (r_end r - r_begin r) / CONFIG_PAGE_SIZE))) rs
      else pmm_init_regions st rs
  end.

Definition pmm_init (m : memory_map) : outcome (pmm * memory_map) :=
  let required_bits := align_up (memory_top m) CONFIG_PAGE_SIZE / CONFIG_PAGE_SIZE in
  let required_u64 := (required_bits + 63) / 64 in
  match memmap_reserve m (required_u64 * 8) with
  | None => Panic
  | Some (_, m) =>
      let* st := pmm_init_regions (mk_pmm (replicate (Z.to_nat required_u64) 0) 0 0) (regions m) in
      Ok (st, m)
  end.

(** The scan of [pmm_allocate]: the first non-zero word and its index. *)
Fixpoint alloc_scan (words : list Z) (i : Z) : option (Z * Z) :=
  match words with
  | [] => None
  | w :: words => if w =? 0 then alloc_scan words (i + 1) else Some (i, w)
  end.

Definition pmm_allocate (st : pmm) : outcome (Z * pmm) :=
  match alloc_scan (pmm_bitmap st) 0 with
  | None => Panic
  | Some (i, cur_word) =>
      let index := ctz cur_word in
      let* bm := aset (pmm_bitmap st) i (clear_bit cur_word index) in
      Ok (u64 ((i * 64 + index) * CONFIG_PAGE_SIZE),
          mk_pmm bm (u64 (physmem_available st - 1)) (u64 (physmem_used st + 1)))
  end.

Definition pmm_free (st : pmm) (addr : Z) : outcome pmm :=
  let bmp_offset := addr / CONFIG_PAGE_SIZE / 64 in
  let bit_offset := (addr / CONFIG_PAGE_SIZE) mod 64 in
  let* w := aget (pmm_bitmap st) bmp_offset in
  let* bm := aset (pmm_bitmap st) bmp_offset (set_bit w bit_offset) in
  Ok (mk_pmm bm (u64 (physmem_available st + 1)) (u64 (physmem_used st - 1))).

Definition pmm_free_pages_count (st : pmm) : Z := physmem_available st.
Definition pmm_used_pages_count (st : pmm) : Z := physmem_used st.

(** ** Abstraction: the ascending list of free frames *)

(** Positions of the set bits of a word, ascending. *)
Definition word_bits (w : Z) : list Z := filter (fun b => Z.testbit w b = true) (seqZ 0 64).

Fixpoint free_from (i : Z) (words : list Z) : list Z :=
  match words with
  | [] => []
  | w :: words => (Z.add (64 * i) <$> word_bits w) ++ free_from (i + 1) words
  end.

#[global] Arguments word_bits : simpl never.

(** The free frame numbers of an allocator, lowest first. *)
Definition free_frames (st : pmm) : list Z := free_from 0 (pmm_bitmap st).

Definition frame_count (st : pmm) : Z := 64 * zlen (pmm_bitmap st).

(** Words are 64-bit values, frame addresses are 64-bit values, and the
    counter of free pages agrees with the bitmap. *)
Record pmm_wf (st : pmm) : Prop := {
  wf_words : Forall (fun w => 0 <= w < 2 ^ 64) (pmm_bitmap st);
  wf_frames : frame_count st <= 2 ^ 52;
  wf_avail : physmem_available st = zlen (free_frames st);
}.

Lemma set_bit_testbit w b i : 0 <= b < 64 -> 0 <= i ->
  Z.testbit (set_bit w b) i = (Z.testbit w i || (i =? b))%bool.
Proof.
  intros Hb Hi. unfold set_bit. rewrite Z.shiftl_1_l, u64_small.
  2: { split; [apply Z.pow_nonneg; lia|]. apply Z.pow_lt_mono_r; lia. }
  rewrite Z.lor_spec, pow2_testbit by lia. done.
Qed.

Lemma clear_bit_testbit w b i : 0 <= w < 2 ^ 64 -> 0 <= b < 64 -> 0 <= i ->
  Z.testbit (clear_bit w b) i = (Z.testbit w i && negb (i =? b))%bool.
Proof.
  intros Hw Hb Hi. unfold clear_bit. rewrite Z.shiftl_1_l, (u64_small (2 ^ b)), land_u64_r by (done ||
    (split; [apply Z.pow_nonneg; lia|]; apply Z.pow_lt_mono_r; lia)).
  rewrite Z.land_spec, Z.lnot_spec, pow2_testbit by lia. done.
Qed.

Lemma set_bit_range w b : 0 <= w < 2 ^ 64 -> 0 <= b < 64 -> 0 <= set_bit w b < 2 ^ 64.
Proof. intros. unfold set_bit. apply lor_range; auto with kernel; lia. Qed.

Lemma clear_bit_range w b : 0 <= w < 2 ^ 64 -> 0 <= clear_bit w b < 2 ^ 64.
Proof. intros. unfold clear_bit. apply land_range; [lia|done|]. pose proof (u64_range (Z.lnot (u64 (Z.shiftl 1 b)))). lia. Qed.

Lemma pos_ctz_spec p :
  0 <= pos_ctz p /\ Z.testbit (Zpos p) (pos_ctz p) = true /\
  forall i, i < pos_ctz p -> Z.testbit (Zpos p) i = false.
Proof.
  induction p as [p IH|p IH|]; simpl pos_ctz.
  - split; [lia|]. split; [done|]. intros i Hi. apply Z.testbit_neg_r. lia.
  - destruct IH as (H0 & H1 & H2). split; [lia|].
    rewrite (Pos2Z.inj_xO p). split.
    + replace (1 + pos_ctz p) with (Z.succ (pos_ctz p)) by lia. by rewrite Z.testbit_even_succ.
    + intros i Hi. destruct (Z.lt_trichotomy i 0) as [?|[->|?]]; [by apply Z.testbit_neg_r|apply Z.testbit_even_0|].
      replace i with (Z.succ (i - 1)) by lia. rewrite Z.testbit_even_succ by lia. apply H2. lia.
  - split; [lia|]. split; [done|]. intros i Hi. apply Z.testbit_neg_r. lia.
Qed.

Lemma ctz_spec w : 0 < w < 2 ^ 64 ->
  0 <= ctz w < 64 /\ Z.testbit w (ctz w) = true /\ forall i, i < ctz w -> Z.testbit w i = false.
Proof.
  intros Hw. destruct w as [|p|p]; try lia. simpl ctz.
  destruct (pos_ctz_spec p) as (H0 & H1 & H2). split; [|done]. split; [done|].
  destruct (Z.lt_ge_cases (pos_ctz p) 64); [done|].
  rewrite (testbit_small 64) in H1 by lia. done.
Qed.

Lemma word_bits_elem w b : b ∈ word_bits w <-> 0 <= b < 64 /\ Z.testbit w b = true.
Proof. unfold word_bits. rewrite list_elem_of_filter, elem_of_seqZ. naive_solver lia. Qed.

Lemma word_bits_NoDup w : NoDup (word_bits w).
Proof. apply NoDup_filter, NoDup_seqZ. Qed.

Lemma word_bits_0 : word_bits 0 = [].
Proof. by vm_compute. Qed.

Lemma word_bits_ctz w : 0 < w < 2 ^ 64 ->
  word_bits w = ctz w :: word_bits (clear_bit w (ctz w)).
Proof.
  intros Hw. destruct (ctz_spec w Hw) as (Hc & Ht & Hlow). unfold word_bits. set (c := ctz w) in *.
  assert (seqZ 0 64 = seqZ 0 c ++ c :: seqZ (c + 1) (63 - c)) as Hseq.
  { replace 64 with (c + (64 - c)) at 1 by lia. rewrite seqZ_app by lia. f_equal.
    rewrite Z.add_0_l, seqZ_cons by lia. do 2 f_equal; lia. }
  rewrite Hseq, !filter_app.
  rewrite !(filter_none _ (seqZ 0 c)).
  - simpl. rewrite !filter_cons. rewrite decide_True by done. rewrite decide_False.
    + f_equal. apply filter_ext_in. intros i Hi%elem_of_seqZ. rewrite clear_bit_testbit by lia.
      destruct (Z.eqb_spec i c); [lia|]. by rewrite andb_true_r.
    + rewrite clear_bit_testbit by lia. by rewrite Z.eqb_refl, andb_false_r.
  - intros i Hi%elem_of_seqZ. rewrite clear_bit_testbit, Hlow by lia. done.
  - intros i Hi%elem_of_seqZ. rewrite Hlow by lia. done.
Qed.

(** The bit of frame [p] in a bitmap. *)
Definition frame_bit (words : list Z) (p : Z) : bool :=
  match words !! Z.to_nat (p / 64) with
  | Some w => Z.testbit w (p mod 64)
  | None => false
  end.

Lemma free_from_elem ws : forall i p,
  p ∈ free_from i ws <-> 64 * i <= p /\ frame_bit ws (p - 64 * i) = true.
Proof.
  induction ws as [|w ws IH]; intros i p; simpl.
  - unfold frame_bit. rewrite lookup_nil. set_solver.
  - rewrite elem_of_app, list_elem_of_fmap, IH.
    destruct (Z.lt_ge_cases p (64 * i)) as [Hlt|Hge].
    { split; [|lia]. intros [(b & -> & Hb%word_bits_elem)|]; lia. }
    destruct (Z.lt_ge_cases p (64 * i + 64)) as [Hlt'|Hge'].
    + assert (frame_bit (w :: ws) (p - 64 * i) = Z.testbit w (p - 64 * i)) as ->.
      { unfold frame_bit. by rewrite Z.div_small, Z.mod_small by lia. }
      split.
      * intros [(b & -> & Hb%word_bits_elem)|[? _]]; [|lia].
        split; [lia|]. replace (64 * i + b - 64 * i) with b by lia. naive_solver.
      * intros [_ Hb]. left. exists (p - 64 * i). split; [lia|]. apply word_bits_elem. split; [lia|done].
    + assert (frame_bit (w :: ws) (p - 64 * i) = frame_bit ws (p - 64 * (i + 1))) as ->.
      { unfold frame_bit. replace (p - 64 * i) with (p - 64 * (i + 1) + 1 * 64) by lia.
        rewrite Z.div_add, Z.mod_add by lia.
        assert (0 <= (p - 64 * (i + 1)) / 64) by (apply Z.div_pos; lia).
        by replace (Z.to_nat ((p - 64 * (i + 1)) / 64 + 1)) with (S (Z.to_nat ((p - 64 * (i + 1)) / 64))) by lia. }
      split.
      * intros [(b & -> & Hb%word_bits_elem)|[_ ?]]; [lia|]. split; [lia|done].
      * intros [_ ?]. right. split; [lia|done].
Qed.

Lemma free_from_NoDup ws : forall i, NoDup (free_from i ws).
Proof.
  induction ws as [|w ws IH]; intros i; simpl; [constructor|]. apply NoDup_app. split; [|split; [|done]].
  - apply NoDup_fmap_2; [intros ???; lia|]. apply word_bits_NoDup.
  - intros p (b & -> & Hb%word_bits_elem)%list_elem_of_fmap [? _]%free_from_elem. lia.
Qed.

Lemma free_frames_elem st p : p ∈ free_frames st <-> 0 <= p /\ frame_bit (pmm_bitmap st) p = true.
Proof. unfold free_frames. rewrite free_from_elem. by rewrite Z.mul_0_r, Z.sub_0_r. Qed.

Lemma frame_bit_range ws p : 0 <= p -> frame_bit ws p = true -> p < 64 * zlen ws.
Proof.
  intros Hp. unfold frame_bit. destruct (ws !! Z.to_nat (p / 64)) eqn:Hw; [|done]. intros _.
  apply lookup_lt_Some in Hw. unfold zlen. pose proof (Z.div_mod p 64). pose proof (Z.mod_pos_bound p 64). lia.
Qed.

(** Replacing one word changes the bits of its 64 frames only. *)
Lemma frame_bit_insert ws k w p : 0 <= p -> (k < length ws)%nat ->
  frame_bit (<[k := w]> ws) p = if p / 64 =? Z.of_nat k then Z.testbit w (p mod 64) else frame_bit ws p.
Proof.
  intros Hp Hk. unfold frame_bit. destruct (Z.eqb_spec (p / 64) (Z.of_nat k)) as [->|Hne].
  - by rewrite Nat2Z.id, list_lookup_insert_eq.
  - rewrite list_lookup_insert_ne; [done|]. intros ->. apply Hne.
    rewrite Z2Nat.id; [done|]. by apply Z.div_pos.
Qed.

Lemma alloc_scan_spec ws : forall i,
  Forall (fun w => 0 <= w < 2 ^ 64) ws ->
  match alloc_scan ws i with
  | None => free_from i ws = []
  | Some (j, w) => exists k, j = i + Z.of_nat k /\ ws !! k = Some w /\ 0 < w < 2 ^ 64 /\
      free_from i ws = (64 * j + ctz w) :: free_from i (<[k := clear_bit w (ctz w)]> ws)
  end.
Proof.
  induction ws as [|w ws IH]; intros i Hw; simpl; [done|]. apply Forall_cons in Hw as [Hw Hws].
  destruct (Z.eqb_spec w 0) as [->|Hne].
  - rewrite word_bits_0. simpl. specialize (IH (i + 1) Hws).
    destruct (alloc_scan ws (i + 1)) as [[j w]|]; [|done].
    destruct IH as (k & -> & Hk & Hpos & Hfree). exists (S k). split; [lia|]. split; [done|].
    split; [done|]. simpl. by rewrite ?word_bits_0.
  - exists 0%nat. split; [lia|]. split; [done|]. split; [lia|]. simpl.
    rewrite (word_bits_ctz w) by lia. done.
Qed.

Lemma free_frames_bound st p : p ∈ free_frames st -> 0 <= p < frame_count st.
Proof. intros [Hp Hb]%free_frames_elem. split; [done|]. by apply frame_bit_range. Qed.

Lemma free_from_len ws : forall i, zlen (free_from i ws) <= 64 * zlen ws.
Proof.
  induction ws as [|w ws IH]; intros i; [done|]. simpl. specialize (IH (i + 1)).
  rewrite zlen_app, zlen_cons. enough (zlen (Z.add (64 * i) <$> word_bits w) <= 64) by lia.
  unfold zlen. rewrite length_fmap. unfold word_bits.
  pose proof (length_filter (fun b => Z.testbit w b = true) (seqZ 0 64)) as Hle.
  rewrite length_seqZ in Hle. lia.
Qed.

Lemma pmm_allocate_spec st : pmm_wf st ->
  match free_frames st with
  | [] => pmm_allocate st = Panic
  | p :: ps => exists st', pmm_allocate st = Ok (p * CONFIG_PAGE_SIZE, st') /\ pmm_wf st' /\
      free_frames st' = ps /\ physmem_used st' = u64 (physmem_used st + 1) /\
      frame_count st' = frame_count st
  end.
Proof.
  intros [Hw Hfr Hav]. pose proof (alloc_scan_spec (pmm_bitmap st) 0 Hw) as Hscan.
  unfold pmm_allocate. destruct (alloc_scan (pmm_bitmap st) 0) as [[j w]|] eqn:Hs.
  - destruct Hscan as (k & -> & Hk & Hpos & Hfree). rewrite Z.add_0_l in *.
    pose proof (lookup_lt_Some _ _ _ Hk) as Hlt.
    assert (free_frames st = (64 * Z.of_nat k + ctz w)
      :: free_from 0 (<[k := clear_bit w (ctz w)]> (pmm_bitmap st))) as Heq by exact Hfree.
    rewrite Heq. destruct (ctz_spec w Hpos) as (Hc & _).
    assert (aset (pmm_bitmap st) (Z.of_nat k) (clear_bit w (ctz w))
            = Ok (<[k := clear_bit w (ctz w)]> (pmm_bitmap st))) as ->.
    { rewrite aset_in by (unfold zlen; lia). by rewrite Nat2Z.id. }
    simpl. eexists. split.
    { do 2 f_equal. rewrite u64_small; [lia|]. unfold frame_count, zlen, CONFIG_PAGE_SIZE in *. lia. }
    split; [|split; [done|split; [done|unfold frame_count; simpl; by rewrite zlen_insert]]].
    split; simpl.
    + apply Forall_insert; [done|]. apply clear_bit_range. lia.
    + unfold frame_count in *. simpl. by rewrite zlen_insert.
    + rewrite Hav, Heq. unfold free_frames. simpl. rewrite zlen_cons.
      rewrite u64_small; [lia|]. pose proof (zlen_nonneg (free_from 0 (<[k:=clear_bit w (ctz w)]> (pmm_bitmap st)))).
      assert (zlen (free_frames st) <= frame_count st) as Hle.
      { apply free_from_len. }
      rewrite Heq, zlen_cons in Hle. lia.
  - unfold free_frames. by rewrite Hscan.
Qed.

Lemma pmm_free_bits st p : 0 <= p < frame_count st ->
  exists k w, p / 64 = Z.of_nat k /\ pmm_bitmap st !! k = Some w /\
    pmm_free st (p * CONFIG_PAGE_SIZE) =
      Ok (mk_pmm (<[k := set_bit w (p mod 64)]> (pmm_bitmap st))
            (u64 (physmem_available st + 1)) (u64 (physmem_used st - 1))).
Proof.
  intros Hp. unfold frame_count in Hp. assert (0 <= p / 64 < zlen (pmm_bitmap st)) as Hr.
  { split; [apply Z.div_pos; lia|]. apply Z.div_lt_upper_bound; lia. }
  destruct (aget_in (pmm_bitmap st) (p / 64) Hr) as (w & Hget & Hw).
  exists (Z.to_nat (p / 64)), w. split; [lia|]. split; [done|].
  unfold pmm_free. rewrite Z.div_mul by done. rewrite Hget. simpl. by rewrite aset_in.
Qed.

Lemma pmm_free_spec st p : pmm_wf st -> 0 <= p < frame_count st -> p ∉ free_frames st ->
  exists st', pmm_free st (p * CONFIG_PAGE_SIZE) = Ok st' /\ pmm_wf st' /\
    free_frames st' ≡ₚ p :: free_frames st /\ physmem_used st' = u64 (physmem_used st - 1) /\
    frame_count st' = frame_count st.
Proof.
  intros [Hw Hfr Hav] Hp Hnot. destruct (pmm_free_bits st p Hp) as (k & w & Hk & Hwk & Hrun).
  rewrite Hrun. eexists. split; [done|]. pose proof (lookup_lt_Some _ _ _ Hwk) as Hlt.
  assert (0 <= p mod 64 < 64) as Hm by (apply Z.mod_pos_bound; lia).
  rewrite Forall_forall in Hw. assert (0 <= w < 2 ^ 64) as Hw64 by (apply Hw; by eapply list_elem_of_lookup_2).
  assert (free_from 0 (<[k := set_bit w (p mod 64)]> (pmm_bitmap st)) ≡ₚ p :: free_frames st) as Hperm.
  { apply NoDup_Permutation; [apply free_from_NoDup|apply NoDup_cons; split; [done|apply free_from_NoDup]|].
    intros q. rewrite elem_of_cons, free_frames_elem, free_from_elem, Z.mul_0_r, Z.sub_0_r.
    destruct (Z.neg_nonneg_cases q) as [Hq|Hq]; [naive_solver lia|].
    rewrite frame_bit_insert by done. destruct (Z.eqb_spec (q / 64) (Z.of_nat k)) as [Hqk|Hqk].
    - rewrite set_bit_testbit by (pose proof (Z.mod_pos_bound q 64); lia).
      assert (frame_bit (pmm_bitmap st) q = Z.testbit w (q mod 64)) as ->.
      { unfold frame_bit. by rewrite Hqk, Nat2Z.id, Hwk. }
      destruct (Z.eqb_spec (q mod 64) (p mod 64)) as [Hm2|Hm2].
      + assert (q = p) as ->. { rewrite (Z.div_mod q 64), (Z.div_mod p 64) by lia. lia. }
        rewrite orb_true_r. naive_solver.
      + assert (q <> p) by congruence. rewrite orb_false_r. naive_solver.
    - assert (q <> p) by congruence. naive_solver. }
  split; [split; simpl|split; [exact Hperm|split; [done|unfold frame_count; simpl; by rewrite zlen_insert]]].
  - apply Forall_insert; [by apply Forall_forall|]. by apply set_bit_range.
  - unfold frame_count in *. simpl. by rewrite zlen_insert.
  - assert (zlen (free_from 0 (<[k := set_bit w (p mod 64)]> (pmm_bitmap st))) = 1 + zlen (free_frames st)) as Hlen.
    { unfold zlen. rewrite Hperm. simpl. lia. }
    unfold free_frames at 1. simpl. rewrite Hlen, Hav. rewrite u64_small; [lia|].
    pose proof (free_from_len (<[k := set_bit w (p mod 64)]> (pmm_bitmap st)) 0) as Hle.
    rewrite zlen_insert, Hlen in Hle. unfold frame_count in *. pose proof (zlen_nonneg (free_frames st)). lia.
Qed.

(** The bitmap allocator implements the interface its clients use, when the
    managed frames fit the direct map and frame 0 is not free. *)
Definition pmm_pages_ok (st : pmm) : Prop :=
  pmm_wf st /\ frame_count st <= dmap_frames /\ (0 ∉ free_frames st).

#[export] Program Instance pmm_allocator : PageAllocator pmm := {|
  page_alloc := pmm_allocate;
  page_free := pmm_free;
  pages_ok := pmm_pages_ok;
  pages_free := free_frames;
  pages_managed := frame_count;
|}.
Next Obligation. intros st _. apply free_from_NoDup. Qed.
Next Obligation.
  intros st p (_ & _ & H0) Hp. pose proof (free_frames_bound st p Hp).
  assert (p <> 0) by (intros ->; done). lia.
Qed.
Next Obligation. by intros st (_ & ? & _). Qed.
Next Obligation.
  intros st (Hwf & Hd & H0). pose proof (pmm_allocate_spec st Hwf) as Ha.
  destruct (free_frames st) as [|p ps] eqn:Hf; [by left|right].
  destruct Ha as (st' & Hrun & Hwf' & Hf' & _ & Hc). exists p, st'. split; [done|].
  split; [split; [done|split; [lia|set_solver]]|]. by rewrite Hf'.
Qed.
Next Obligation.
  intros st p (Hwf & Hd & H0) Hp Hn. destruct (pmm_free_spec st p Hwf) as (st' & Hrun & Hwf' & Hf' & _ & Hc).
  { lia. } { done. }
  exists st'. split; [done|]. split; [split; [done|split; [lia|rewrite Hf'; apply not_elem_of_cons; split; [lia|done]]]|done].
Qed.

(** C7: the frame allocator refines the ascending list of free frames.
    [pmm_allocate] returns the address of the lowest free frame and makes
    exactly that frame used, keeping the invariant (in particular the counter
    of available pages); it panics exactly when no frame is free.  Freeing the
    frame again restores the set of free frames and both counters. *)
Theorem pmm_allocate_refines st : pmm_wf st -> 0 <= physmem_used st < 2 ^ 64 - 1 ->
  match free_frames st with
  | [] => pmm_allocate st = Panic
  | p :: ps => exists st', pmm_allocate st = Ok (p * CONFIG_PAGE_SIZE, st') /\ pmm_wf st' /\
      free_frames st' = ps /\ (p ∉ ps) /\ (forall q, q ∈ ps -> 0 <= q < frame_count st) /\
      exists st'', pmm_free st' (p * CONFIG_PAGE_SIZE) = Ok st'' /\ pmm_wf st'' /\
        free_frames st'' ≡ₚ free_frames st /\
        pmm_free_pages_count st'' = pmm_free_pages_count st /\
        pmm_used_pages_count st'' = pmm_used_pages_count st
  end.
Proof.
  intros Hwf Hused. pose proof (pmm_allocate_spec st Hwf) as Hal.
  pose proof (free_from_NoDup (pmm_bitmap st) 0) as Hnd. change (NoDup (free_frames st)) in Hnd.
  assert (forall q, q ∈ free_frames st -> 0 <= q < frame_count st) as Hb by apply free_frames_bound.
  destruct (free_frames st) as [|p ps] eqn:Hf; [done|].
  destruct Hal as (st' & Hrun & Hwf' & Hps & Hu & Hfc). apply NoDup_cons in Hnd as [Hp _].
  exists st'. do 3 (split; [done|]). split; [done|]. split; [set_solver|].
  destruct (pmm_free_spec st' p Hwf') as (st'' & Hrun' & Hwf'' & Hperm & Hu' & _).
  { rewrite Hfc. apply Hb. set_solver. }
  { by rewrite Hps. }
  exists st''. split; [done|]. split; [done|]. rewrite Hps in Hperm. split; [done|].
  unfold pmm_free_pages_count, pmm_used_pages_count. split.
  - rewrite (wf_avail _ Hwf''), (wf_avail _ Hwf), Hf. unfold zlen. by rewrite Hperm.
  - rewrite Hu', Hu. rewrite (u64_small (physmem_used st + 1)), u64_small by lia. lia.
Qed.

Definition pmm_small : pmm := mk_pmm [0; 0x30] 2 5.

Lemma pmm_allocate_refines_witness :
  pmm_wf pmm_small /\ exists st', pmm_allocate pmm_small = Ok (68 * 4096, st') /\ free_frames st' = [69].
Proof.
  assert (pmm_wf pmm_small) as Hwf.
  { split; [repeat constructor; lia|vm_compute; discriminate|reflexivity]. }
  split; [exact Hwf|].
  pose proof (pmm_allocate_refines pmm_small Hwf ltac:(simpl; lia)) as H.
  change (free_frames pmm_small) with [68; 69] in H.
  destruct H as (st' & H1 & _ & H2 & _). exists st'. split; [exact H1|exact H2].
Defined.

(** ** Initialisation *)

(** What one round of [mark_loop] does to the bits: it sets the frames of
    [q .. q + n - 1], with [n] 64 for a whole word and 1 otherwise. *)
Lemma set_frame_bit ws k w b p : 0 <= p -> 0 <= b < 64 -> ws !! k = Some w ->
  frame_bit (<[k := set_bit w b]> ws) p = (frame_bit ws p || (p =? 64 * Z.of_nat k + b))%bool.
Proof.
  intros Hp Hb Hw. pose proof (lookup_lt_Some _ _ _ Hw). rewrite frame_bit_insert by done.
  pose proof (Z.div_mod p 64). pose proof (Z.mod_pos_bound p 64).
  destruct (Z.eqb_spec (p / 64) (Z.of_nat k)) as [Hpk|Hpk].
  - rewrite set_bit_testbit by lia. unfold frame_bit. rewrite Hpk, Nat2Z.id, Hw. f_equal.
    destruct (Z.eqb_spec (p mod 64) b), (Z.eqb_spec p (64 * Z.of_nat k + b)); lia || done.
  - destruct (Z.eqb_spec p (64 * Z.of_nat k + b)) as [->|]; [|by rewrite orb_false_r].
    exfalso. apply Hpk. rewrite Z.mul_comm, Z.div_add_l, Z.div_small by lia. lia.
Qed.

Lemma set_frame_word ws k p : 0 <= p -> (k < length ws)%nat ->
  frame_bit (<[k := u64 (Z.lnot 0)]> ws) p
  = (frame_bit ws p || ((64 * Z.of_nat k <=? p) && (p <? 64 * Z.of_nat k + 64)))%bool.
Proof.
  intros Hp Hk. rewrite frame_bit_insert by done.
  pose proof (Z.div_mod p 64). pose proof (Z.mod_pos_bound p 64).
  destruct (Z.eqb_spec (p / 64) (Z.of_nat k)) as [Hpk|Hpk].
  - unfold u64. rewrite wrap_testbit, Z.lnot_spec, Z.bits_0 by lia.
    destruct (Z.ltb_spec (p mod 64) 64), (Z.leb_spec (64 * Z.of_nat k) p),
      (Z.ltb_spec p (64 * Z.of_nat k + 64)); lia.
  - destruct (Z.leb_spec (64 * Z.of_nat k) p), (Z.ltb_spec p (64 * Z.of_nat k + 64));
      simpl; rewrite ?orb_false_r; try done. exfalso. lia.
Qed.

Definition words_ok (ws : list Z) : Prop := Forall (fun w => 0 <= w < 2 ^ 64) ws.

Lemma page_step x : 0 <= x -> (x + CONFIG_PAGE_SIZE) / CONFIG_PAGE_SIZE = x / CONFIG_PAGE_SIZE + 1.
Proof. intros. unfold CONFIG_PAGE_SIZE. rewrite <- (Z.mul_1_l 4096) at 1. by rewrite Z.div_add. Qed.
Lemma page_step_word x : (x + 64 * CONFIG_PAGE_SIZE) / CONFIG_PAGE_SIZE = x / CONFIG_PAGE_SIZE + 64.
Proof. by rewrite Z.div_add. Qed.
Lemma page_back x : (x - CONFIG_PAGE_SIZE) / CONFIG_PAGE_SIZE = x / CONFIG_PAGE_SIZE - 1.
Proof. unfold CONFIG_PAGE_SIZE. replace (x - 4096) with (x + (-1) * 4096) by lia. by rewrite Z.div_add. Qed.
Lemma page_back_word x : (x - 64 * CONFIG_PAGE_SIZE) / CONFIG_PAGE_SIZE = x / CONFIG_PAGE_SIZE - 64.
Proof. unfold CONFIG_PAGE_SIZE. replace (x - 64 * 4096) with (x + (-64) * 4096) by lia. by rewrite Z.div_add. Qed.

(** Marking a range sets the bits of its frames, or leaves the bitmap's array
    when the range reaches beyond it. *)
Lemma mark_loop_spec fuel : forall bm rbegin rlen,
  0 <= rbegin -> 0 <= rlen -> 64 * zlen bm <= 2 ^ 51 ->
  words_ok bm -> rlen / CONFIG_PAGE_SIZE < Z.of_nat fuel ->
  let q := rbegin / CONFIG_PAGE_SIZE in
  let n := rlen / CONFIG_PAGE_SIZE in
  if q + n <=? 64 * zlen bm then
    exists bm', mark_loop fuel bm rbegin rlen = Ok bm' /\ words_ok bm' /\ zlen bm' = zlen bm /\
      forall p, 0 <= p -> frame_bit bm' p = (frame_bit bm p || ((q <=? p) && (p <? q + n)))%bool
  else 0 < n -> mark_loop fuel bm rbegin rlen = Fault.
Proof.
  induction fuel as [|fuel IH]; intros bm rbegin rlen Hb Hl Hsz Hok Hfuel q n.
  { assert (0 <= rlen / CONFIG_PAGE_SIZE) by (apply Z.div_pos; done). lia. }
  assert (0 <= q) as Hq by (apply Z.div_pos; done).
  pose proof (Z.div_mod rlen CONFIG_PAGE_SIZE ltac:(done)) as Hn. fold n in Hn.
  pose proof (Z.mod_pos_bound rlen CONFIG_PAGE_SIZE ltac:(done)) as Hnm.
  pose proof (Z.div_mod rbegin CONFIG_PAGE_SIZE ltac:(done)) as Hqd. fold q in Hqd.
  pose proof (Z.mod_pos_bound rbegin CONFIG_PAGE_SIZE ltac:(done)) as Hqm.
  cbn [mark_loop]. fold q. destruct (Z.ltb_spec rlen CONFIG_PAGE_SIZE) as [Hlt|Hge].
  { assert (n = 0) as -> by (apply Z.div_small; lia). rewrite Z.add_0_r.
    destruct (q <=? 64 * zlen bm); [|lia]. exists bm. do 3 (split; [done|]). intros p Hp.
    destruct (Z.leb_spec q p), (Z.ltb_spec p q); simpl; rewrite ?orb_false_r; lia || done. }
  assert (0 < n) as Hn0 by page_lia.
  destruct (Z.le_gt_cases (64 * zlen bm) q) as [Hout|Hin].
  { destruct (Z.leb_spec (q + n) (64 * zlen bm)); [lia|]. intros _.
    assert (zlen bm <= q / 64) by (apply Z.div_le_lower_bound; lia). pose proof (zlen_nonneg bm).
    unfold aget, aset. destruct (Z.leb_spec 0 (q / 64)); [|lia].
    destruct (Z.ltb_spec (q / 64) (zlen bm)); [lia|]. simpl.
    rewrite (lookup_ge_None_2 bm) by (unfold zlen in *; lia). by destruct (_ && _). }
  set (k := Z.to_nat (q / 64)).
  assert (q / 64 = Z.of_nat k /\ Z.of_nat k < zlen bm) as [Hk Hkl].
  { assert (0 <= q / 64) by (apply Z.div_pos; lia). unfold k. split; [lia|].
    rewrite Z2Nat.id by done. apply Z.div_lt_upper_bound; lia. }
  pose proof (Z.div_mod q 64 ltac:(lia)) as Hqw. pose proof (Z.mod_pos_bound q 64 ltac:(lia)) as Hqb.
  destruct ((64 * CONFIG_PAGE_SIZE <=? rlen) && (q mod 64 =? 0)) eqn:Hword; rewrite Hk.
  - bool_to_prop. assert (64 <= n) by page_lia. rewrite aset_in by lia. rewrite Nat2Z.id. simpl outcome_bind.
    rewrite (u64_small (rbegin + _)) by page_lia.
    specialize (IH (<[k := u64 (Z.lnot 0)]> bm) (rbegin + 64 * CONFIG_PAGE_SIZE) (rlen - 64 * CONFIG_PAGE_SIZE)).
    rewrite page_step_word, page_back_word, zlen_insert in IH. fold q n in IH.
    cbn zeta in IH. replace (q + 64 + (n - 64)) with (q + n) in IH by lia. revert IH.
    destruct (Z.leb_spec (q + n) (64 * zlen bm)) as [Hfit|Hbig]; intros IH.
    + destruct IH as (bm' & Hrun & Hok' & Hlen & Hbits);
        [page_lia|page_lia|done| |page_lia|].
      { apply Forall_insert; [done|]. apply u64_range. }
      exists bm'. do 3 (split; [done|]). intros p Hp. rewrite Hbits by done.
      rewrite set_frame_word by (unfold zlen in *; lia). rewrite <- orb_assoc. f_equal.
      assert (64 * Z.of_nat k = q) as -> by lia.
      destruct (Z.leb_spec q p), (Z.ltb_spec p (q + 64)), (Z.leb_spec (q + 64) p), (Z.ltb_spec p (q + n));
        simpl; lia || done.
    + intros _. apply IH; [page_lia|page_lia|done| |page_lia|lia].
      apply Forall_insert; [done|]. apply u64_range.
  - destruct (aget_in bm (Z.of_nat k)) as (w & Hget & Hw); [lia|]. rewrite Hget, Nat2Z.id in *. simpl.
    assert (0 <= w < 2 ^ 64) as Hw64.
    { unfold words_ok in Hok. rewrite Forall_forall in Hok. apply Hok. by eapply list_elem_of_lookup_2. }
    rewrite aset_in by lia. rewrite Nat2Z.id. simpl outcome_bind.
    rewrite (u64_small (rbegin + _)) by page_lia.
    specialize (IH (<[k := set_bit w (q mod 64)]> bm) (rbegin + CONFIG_PAGE_SIZE) (rlen - CONFIG_PAGE_SIZE)).
    rewrite page_step, page_back, zlen_insert in IH by done. fold q n in IH.
    cbn zeta in IH. replace (q + 1 + (n - 1)) with (q + n) in IH by lia. revert IH.
    destruct (Z.leb_spec (q + n) (64 * zlen bm)) as [Hfit|Hbig]; intros IH.
    + destruct IH as (bm' & Hrun & Hok' & Hlen & Hbits);
        [page_lia|page_lia|done| |page_lia|].
      { apply Forall_insert; [done|]. by apply set_bit_range. }
      exists bm'. do 3 (split; [done|]). intros p Hp. rewrite Hbits by done.
      rewrite (set_frame_bit _ _ w) by done. rewrite <- orb_assoc. f_equal.
      replace (64 * Z.of_nat k + q mod 64) with q by lia.
      destruct (Z.eqb_spec p q), (Z.leb_spec q p), (Z.leb_spec (q + 1) p), (Z.ltb_spec p (q + n));
        simpl; lia || done.
    + intros _. apply IH; [page_lia|page_lia|done| |page_lia|lia].
      apply Forall_insert; [done|]. by apply set_bit_range.
Qed.

(** The frames the allocator is given for a region. *)
Definition region_frames (r : mem_region) : list Z :=
  seqZ (r_begin r / CONFIG_PAGE_SIZE) ((r_end r - r_begin r) / CONFIG_PAGE_SIZE).

Definition usable_frames (rs : list mem_region) : list Z :=
  rs ≫= fun r => if r_type r =? MEM_REGION_USABLE then region_frames r else [].

(** A usable region lies below [top] and is not reversed. *)
Definition region_ok (top : Z) (r : mem_region) : Prop :=
  r_type r = MEM_REGION_USABLE -> 0 <= r_begin r <= r_end r /\ r_end r <= top.

Lemma pmm_mark_range_free_spec st r :
  pmm_wf st -> frame_count st <= 2 ^ 51 -> 0 <= r_begin r <= r_end r ->
  r_end r <= frame_count st * CONFIG_PAGE_SIZE -> NoDup (region_frames r ++ free_frames st) ->
  exists st', pmm_mark_range_free st (r_begin r) (r_end r) = Ok st' /\ pmm_wf st' /\
    free_frames st' ≡ₚ region_frames r ++ free_frames st /\ frame_count st' = frame_count st.
Proof.
  intros Hwf Hfc Hr Hend Hnd. pose proof Hwf as [Hw Hfr Hav]. unfold frame_count in *.
  assert (u64 (r_end r - r_begin r) = r_end r - r_begin r) as Hu by (apply u64_small; page_lia).
  unfold pmm_mark_range_free. rewrite Hu. set (q := r_begin r / CONFIG_PAGE_SIZE).
  set (n := (r_end r - r_begin r) / CONFIG_PAGE_SIZE).
  assert (0 <= n) by (apply Z.div_pos; lia || done).
  pose proof (mark_loop_spec (S (Z.to_nat n)) (pmm_bitmap st) (r_begin r) (r_end r - r_begin r)) as Hm.
  cbn zeta in Hm. fold q n in Hm. destruct (Z.leb_spec (q + n) (64 * zlen (pmm_bitmap st))) as [_|Hbig].
  2: { exfalso. pose proof (Z.mul_div_le (r_begin r) CONFIG_PAGE_SIZE ltac:(done)) as Hq.
       pose proof (Z.mul_div_le (r_end r - r_begin r) CONFIG_PAGE_SIZE ltac:(done)) as Hn.
       fold q in Hq. fold n in Hn. clearbody q n. page_lia. }
  destruct Hm as (bm' & Hrun & Hok' & Hlen & Hbits); [lia|lia|done|done|lia|].
  rewrite Hrun. simpl. eexists. split; [done|].
  assert (free_from 0 bm' ≡ₚ region_frames r ++ free_frames st) as Hperm.
  { apply NoDup_Permutation; [apply free_from_NoDup|done|]. intros p.
    rewrite elem_of_app, free_frames_elem, free_from_elem, Z.mul_0_r, Z.sub_0_r.
    unfold region_frames. fold q n. rewrite elem_of_seqZ.
    assert (0 <= q) by (apply Z.div_pos; lia || done).
    destruct (Z.neg_nonneg_cases p); [naive_solver lia|]. rewrite Hbits by done.
    rewrite orb_true_iff, andb_true_iff, Z.leb_le, Z.ltb_lt. naive_solver lia. }
  split; [|split; [exact Hperm|unfold frame_count; simpl; lia]]. split; simpl.
  - done.
  - unfold frame_count. simpl. lia.
  - assert (zlen (free_from 0 bm') = n + zlen (free_frames st)) as Hz.
    { unfold zlen. rewrite Hperm, length_app. unfold region_frames. fold q n. rewrite length_seqZ. lia. }
    unfold free_frames at 1. simpl. rewrite Hz, Hav.
    pose proof (free_from_len bm' 0). pose proof (zlen_nonneg (free_frames st)).
    rewrite u64_small by lia. lia.
Qed.

Lemma pmm_init_regions_spec top rs : forall st,
  pmm_wf st -> frame_count st <= 2 ^ 51 -> top <= frame_count st * CONFIG_PAGE_SIZE ->
  Forall (region_ok top) rs -> NoDup (usable_frames rs ++ free_frames st) ->
  exists st', pmm_init_regions st rs = Ok st' /\ pmm_wf st' /\
    free_frames st' ≡ₚ usable_frames rs ++ free_frames st.
Proof.
  induction rs as [|r rs IH]; intros st Hwf Hfc Htop Hok Hnd; simpl.
  { exists st. done. }
  apply Forall_cons in Hok as [Hr Hok]. simpl in Hnd. unfold usable_frames in Hnd at 1.
  simpl in Hnd. fold (usable_frames rs) in Hnd. unfold usable_frames at 1. simpl. fold (usable_frames rs).
  destruct (Z.eqb_spec (r_type r) MEM_REGION_USABLE) as [Hu|Hu].
  - destruct (Hr Hu) as [Hr1 Hr2].
    assert ((region_frames r ++ usable_frames rs) ++ free_frames st
            ≡ₚ usable_frames rs ++ region_frames r ++ free_frames st) as Hp1 by solve_Permutation.
    rewrite Hp1 in Hnd.
    destruct (pmm_mark_range_free_spec st r) as (st1 & Hrun & Hwf1 & Hf1 & Hc1); [done..|lia| |].
    { by apply NoDup_app in Hnd as (_ & _ & ?). }
    rewrite Hrun. simpl. destruct (IH st1) as (st' & Hrun' & Hwf' & Hf'); rewrite ?Hc1; try done.
    { by rewrite Hf1. }
    exists st'. split; [done|]. split; [done|]. rewrite Hf', Hf1. solve_Permutation.
  - destruct (Z.eqb_spec (r_type r) MEM_REGION_ALLOCATED); [|by apply IH].
    set (st1 := mk_pmm _ _ _). apply (IH st1); try done. destruct Hwf as [H1 H2 H3]. by split.
Qed.

(** ** The memory map *)

(** A usable region is a range of whole pages below [top]. *)
Definition region_aligned (top : Z) (r : mem_region) : Prop :=
  r_type r = MEM_REGION_USABLE ->
  0 <= r_begin r <= r_end r /\ r_end r <= top /\
  r_begin r mod CONFIG_PAGE_SIZE = 0 /\ r_end r mod CONFIG_PAGE_SIZE = 0.

(** The usable regions are ranges of whole pages, below the top of memory, and
    no frame is in two of them. *)
Record memmap_ok (m : memory_map) : Prop := {
  mm_top : 0 <= memory_top m <= 2 ^ 60;
  mm_regions : Forall (region_aligned (memory_top m)) (regions m);
  mm_disjoint : NoDup (usable_frames (regions m));
}.

Lemma usable_frames_app rs1 rs2 : usable_frames (rs1 ++ rs2) = usable_frames rs1 ++ usable_frames rs2.
Proof. apply bind_app. Qed.
Lemma usable_frames_cons r rs :
  usable_frames (r :: rs)
  = (if r_type r =? MEM_REGION_USABLE then region_frames r else []) ++ usable_frames rs.
Proof. done. Qed.

(** Cutting a region of whole pages at a page boundary splits its frames. *)
Lemma region_frames_split b c e ty1 ty2 ty3 : 0 <= b -> b <= c <= e ->
  b mod CONFIG_PAGE_SIZE = 0 -> c mod CONFIG_PAGE_SIZE = 0 -> e mod CONFIG_PAGE_SIZE = 0 ->
  region_frames (mk_region b e ty1) = region_frames (mk_region b c ty2) ++ region_frames (mk_region c e ty3).
Proof.
  intros H0 Hbc Hb Hc He. unfold region_frames. simpl.
  apply Z.mod_divide in Hb as [B ->], Hc as [C ->], He as [E ->]; try done.
  rewrite <- !Z.mul_sub_distr_r, !Z.div_mul by done.
  replace (E - B) with ((C - B) + (E - C)) by lia.
  rewrite seqZ_app by page_lia. do 2 f_equal. lia.
Qed.

Lemma memmap_reserve_from_spec top size todo : forall dn a m',
  0 <= top <= 2 ^ 60 -> 0 <= size < 2 ^ 60 ->
  Forall (region_aligned top) dn -> Forall (region_aligned top) todo ->
  memmap_reserve_from dn todo top size = Some (a, m') ->
  exists rs rb, regions m' = rs ++ [rb] /\ memory_top m' = top /\
    Forall (region_aligned top) (regions m') /\ r_type rb = MEM_REGION_ALLOCATED /\
    a = u64 (r_begin rb + VM_DMAP_BASE) /\ size <= r_end rb - r_begin rb /\
    usable_frames (dn ++ todo) ≡ₚ region_frames rb ++ usable_frames (regions m').
Proof.
  induction todo as [|r todo IH]; intros dn a m' Htop Hsize Hdn Hto Hrun; [done|].
  apply Forall_cons in Hto as [Hr Hto]. cbn [memmap_reserve_from] in Hrun.
  assert (memmap_reserve_from (dn ++ [r]) todo top size = Some (a, m') ->
    exists rs rb, regions m' = rs ++ [rb] /\ memory_top m' = top /\
    Forall (region_aligned top) (regions m') /\ r_type rb = MEM_REGION_ALLOCATED /\
    a = u64 (r_begin rb + VM_DMAP_BASE) /\ size <= r_end rb - r_begin rb /\
    usable_frames (dn ++ r :: todo) ≡ₚ region_frames rb ++ usable_frames (regions m')) as Hnext.
  { intros H. rewrite (app_assoc dn [r] todo : dn ++ r :: todo = (dn ++ [r]) ++ todo).
    apply (IH (dn ++ [r]) a m'); try done. by apply Forall_app_2; [|constructor]. }
  destruct (Z.eqb_spec (r_type r) MEM_REGION_USABLE) as [Hu|]; simpl in Hrun; [|by apply Hnext].
  destruct (Hr Hu) as (Hbe & Het & Hb0 & He0).
  destruct ((r_begin r <? r_end r) && (size <=? u64 (r_end r - r_begin r))) eqn:Hfit; [|by apply Hnext].
  destruct (zlen (dn ++ r :: todo) =? max_memmap_regions); [done|].
  bool_to_prop. rewrite (u64_small (r_end r - r_begin r)) in * by lia.
  rewrite (u64_small (r_begin r + size)) in Hrun by lia.
  pose proof (align_up_bounds (r_begin r + size) 12 ltac:(lia) ltac:(lia) ltac:(lia)) as [Hc1 Hc2].
  change (2 ^ 12) with CONFIG_PAGE_SIZE in Hc1, Hc2.
  set (cut := align_up (r_begin r + size) CONFIG_PAGE_SIZE) in *.
  assert (cut <= r_end r) as Hce.
  { apply Z.mod_divide in Hc2 as [C HC], He0 as [E HE]; try done. page_lia. }
  injection Hrun as Ha Hm'. subst m'. cbn [regions memory_top].
  exists (dn ++ mk_region cut (r_end r) (r_type r) :: todo), (mk_region (r_begin r) cut MEM_REGION_ALLOCATED).
  split; [by rewrite <- app_assoc|]. split; [done|]. split.
  { apply Forall_app_2; [done|]. constructor.
    - intros _. simpl. split; [page_lia|]. done.
    - apply Forall_app_2; [done|]. constructor; [by intros Hty; simpl in Hty|constructor]. }
  split; [done|]. split; [by rewrite <- Ha|]. split; [simpl; lia|].
  rewrite !usable_frames_app, !usable_frames_cons, !usable_frames_app. simpl.
  rewrite Hu. simpl. destruct r as [b e ty]; simpl in *.
  rewrite (region_frames_split b cut e ty MEM_REGION_ALLOCATED MEM_REGION_USABLE) by (done || page_lia).
  solve_Permutation.
Qed.

Lemma memmap_reserve_spec m size a m' :
  memmap_ok m -> 0 <= size < 2 ^ 60 -> memmap_reserve m size = Some (a, m') ->
  memmap_ok m' /\ exists rs rb, regions m' = rs ++ [rb] /\ r_type rb = MEM_REGION_ALLOCATED /\
    a = u64 (r_begin rb + VM_DMAP_BASE) /\ size <= r_end rb - r_begin rb /\ memory_top m' = memory_top m /\
    usable_frames (regions m) ≡ₚ region_frames rb ++ usable_frames (regions m').
Proof.
  intros [Ht Hr Hd] Hs Hrun.
  destruct (memmap_reserve_from_spec _ _ _ [] a m' Ht Hs ltac:(constructor) Hr Hrun)
    as (rs & rb & H1 & H2 & H3 & H4 & H5 & H6 & H7). simpl in H7.
  split; [|by exists rs, rb]. split; rewrite ?H2; try done.
  rewrite H7 in Hd. by apply NoDup_app in Hd as (_ & _ & ?).
Qed.

(** The size of the bitmap, in words and in bytes. *)
Definition bitmap_words (top : Z) : Z := (align_up top CONFIG_PAGE_SIZE / CONFIG_PAGE_SIZE + 63) / 64.

Lemma bitmap_words_bounds top : 0 <= top <= 2 ^ 60 ->
  0 <= bitmap_words top < 2 ^ 45 /\ top <= 64 * bitmap_words top * CONFIG_PAGE_SIZE.
Proof.
  intros Ht. unfold bitmap_words.
  pose proof (align_up_bounds top 12 ltac:(lia) ltac:(lia) ltac:(lia)) as [Hc1 Hc2].
  change (2 ^ 12) with CONFIG_PAGE_SIZE in Hc1, Hc2.
  set (c := align_up top CONFIG_PAGE_SIZE) in *. apply Z.mod_divide in Hc2 as [C HC]; [|done].
  rewrite HC, Z.div_mul by done. pose proof (Z.div_mod (C + 63) 64 ltac:(lia)).
  pose proof (Z.mod_pos_bound (C + 63) 64 ltac:(lia)). page_lia.
Qed.

Lemma free_from_zero n : forall i, free_from i (replicate n 0) = [].
Proof. induction n as [|n IH]; intros i; simpl; [done|]. by rewrite ?word_bits_0, IH. Qed.

(** C8: initialisation of physical memory.  For a map of page-aligned,
    disjoint usable regions, [pmm_init] panics when the bitmap cannot be
    reserved; otherwise it cuts the bitmap out of a usable region and then
    exactly the frames of the remaining usable regions are free: together with
    the frames under the bitmap they are the usable frames of the boot map.
    No bitmap access is out of range and the counters agree. *)
Theorem pmm_init_correct m : memmap_ok m ->
  let bytes := bitmap_words (memory_top m) * 8 in
  match memmap_reserve m bytes with
  | None => pmm_init m = Panic
  | Some (_, m') => exists st rs rb, pmm_init m = Ok (st, m') /\ pmm_wf st /\
      regions m' = rs ++ [rb] /\ r_type rb = MEM_REGION_ALLOCATED /\ bytes <= r_end rb - r_begin rb /\
      free_frames st ≡ₚ usable_frames (regions m') /\
      usable_frames (regions m) ≡ₚ region_frames rb ++ free_frames st
  end.
Proof.
  intros Hok bytes. pose proof (mm_top _ Hok) as Ht. pose proof (bitmap_words_bounds _ Ht) as [Hw Hcov].
  unfold pmm_init. fold (bitmap_words (memory_top m)). fold bytes.
  destruct (memmap_reserve m bytes) as [[a m']|] eqn:Hres; [|done].
  destruct (memmap_reserve_spec m bytes a m' Hok ltac:(lia) Hres)
    as (Hok' & rs & rb & H1 & H2 & _ & H4 & H5 & H6).
  set (st0 := mk_pmm (replicate (Z.to_nat (bitmap_words (memory_top m))) 0) 0 0).
  assert (free_frames st0 = []) as Hf0 by apply free_from_zero.
  assert (frame_count st0 = 64 * bitmap_words (memory_top m)) as Hfc.
  { unfold frame_count, st0, zlen. simpl. rewrite length_replicate. lia. }
  destruct (pmm_init_regions_spec (memory_top m) (regions m') st0) as (st & Hrun & Hwf & Hf).
  - split; [by apply Forall_replicate|lia|by rewrite Hf0].
  - lia.
  - rewrite Hfc. lia.
  - eapply Forall_impl; [apply (mm_regions _ Hok')|]. rewrite H5. intros r Hr Hu.
    destruct (Hr Hu) as (? & ? & _). done.
  - rewrite Hf0, app_nil_r. apply (mm_disjoint _ Hok').
  - exists st, rs, rb. rewrite Hf0, app_nil_r in Hf. rewrite Hrun. simpl.
    do 5 (split; [done|]). split; [done|]. by rewrite Hf.
Qed.

Definition boot_map : memory_map :=
  parse_memory_map (mk_memmap [] 0)
    [mk_limine 0 0x4000 LIMINE_MEMMAP_USABLE; mk_limine 0x9000 0x1000 LIMINE_MEMMAP_RESERVED;
     mk_limine 0x10000 0x3000 LIMINE_MEMMAP_USABLE].

Lemma pmm_init_correct_witness :
  exists st m', pmm_init boot_map = Ok (st, m') /\ pmm_wf st /\ free_frames st ≡ₚ [3; 16; 17; 18].
Proof.
  assert (memmap_ok boot_map) as Hok.
  { split; [vm_compute; split; discriminate| |].
    - repeat constructor; intros; vm_compute; repeat split; try discriminate; try reflexivity.
    - vm_compute. repeat constructor; set_solver. }
  pose proof (pmm_init_correct boot_map Hok) as H. cbn zeta in H.
  destruct (memmap_reserve boot_map _) as [[a m']|] eqn:Hres; [|vm_compute in Hres; discriminate].
  destruct H as (st & rs & rb & H1 & H2 & _ & _ & _ & H3 & _).
  exists st, m'. split; [exact H1|]. split; [exact H2|].
  rewrite H3. vm_compute in Hres. injection Hres as _ <-. vm_compute. reflexivity.
Defined.
