(* ===== verification/Slab.v ===== *)
(** * Slab caches: kmalloc and kfree

    kernel/mm/slab.c.  A slab is one page: a header followed by equally sized
    objects.  The index of the first free object is in the header and each
    free object stores the index of the next in its first 32 bits, so clients
    that write to an allocated object overwrite its link.  [words] is that
    memory, by address in units of 32 bits.  The chain of slabs of a cache,
    linked by [next] and only ever extended at its end, is a list of page
    addresses. *)

From stdpp Require Import base numbers list gmap sets.
From Stdlib Require Import ZArith Lia.
From S2P Require Import Prelude Pages Pmm.

Record slab := mk_slab { s_memory : Z; s_cache : nat; in_use : Z; s_free : Z }.

Record slab_cache := mk_cache { slabs_of : list Z; block_size : Z; obj_per_slab : Z }.

(** sizeof(struct slab): three pointers and two 32-bit counters. *)
Definition sizeof_slab : Z := 32.

Definition km_caches : list slab_cache :=
  (fun b => mk_cache [] b 0) <$> [8; 16; 32; 64; 128; 256; 512; 1024].

Section slab.
Context {St : Type} {PA : PageAllocator St}.

Record slab_state := mk_state {
  caches : list slab_cache;
  slabs : gmap Z slab;
  words : gmap Z Z;
  pages : St;
}.

Definition slab_init (st : slab_state) : slab_state :=
  mk_state ((fun c => mk_cache (slabs_of c) (block_size c)
      (u16 ((4096 - align_up sizeof_slab (block_size c)) / block_size c))) <$> caches st)
    (slabs st) (words st) (pages st).

(** The walk along a cache's slabs to the first with a free object. *)
Fixpoint slab_scan (ss : gmap Z slab) (obj : Z) (chain : list Z) : outcome (option (Z * slab)) :=
  match chain with
  | [] => Ok None
  | a :: chain =>
      let* s := deref (ss !! a) in
      if in_use s <? obj then Ok (Some (a, s)) else slab_scan ss obj chain
  end.

(** The loop that links objects [i], [i + 1], ... of a new slab. *)
Fixpoint link_objects (n : nat) (i : Z) (memory bsize : Z) (ws : gmap Z Z) : gmap Z Z :=
  match n with
  | O => ws
  | S n => link_objects n (i + 1) memory bsize (<[u64 (memory + i * bsize) := u32 (i + 1)]> ws)
  end.

Definition slab_alloc (st : slab_state) (ci : nat) : outcome (Z * slab_state) :=
  let* cache := deref (caches st !! ci) in
  let* target := slab_scan (slabs st) (obj_per_slab cache) (slabs_of cache) in
  match target with
  | Some (a, s) =>
      if obj_per_slab cache <=? s_free s then Panic
      else
        let mem := u64 (s_memory s + block_size cache * s_free s) in
        let* next := deref (words st !! mem) in
        Ok (mem, mk_state (caches st)
              (<[a := mk_slab (s_memory s) (s_cache s) (u32 (in_use s + 1)) next]> (slabs st))
              (words st) (pages st))
  | None =>
      let* (alloc_phys, pages) := page_alloc (pages st) in
      let new_slab := u64 (alloc_phys + VM_DMAP_BASE) in
      let memory := u64 (new_slab + align_up sizeof_slab (block_size cache)) in
      let ws := link_objects (Z.to_nat (obj_per_slab cache - 1)) 1 memory (block_size cache) (words st) in
      Ok (memory, mk_state
            (<[ci := mk_cache (slabs_of cache ++ [new_slab]) (block_size cache) (obj_per_slab cache)]> (caches st))
            (<[new_slab := mk_slab memory ci 1 1]> (slabs st)) ws pages)
  end.

(** memset of [n] 32-bit words to the byte 0x6b. *)
Fixpoint poison (n : nat) (addr : Z) (ws : gmap Z Z) : gmap Z Z :=
  match n with
  | O => ws
  | S n => poison n (addr + 4) (<[addr := 0x6b6b6b6b]> ws)
  end.

Definition slab_free (st : slab_state) (addr : Z) : outcome slab_state :=
  let page := Z.land addr (u64 (Z.lnot 0xFFF)) in
  let* o_slab := deref (slabs st !! page) in
  if in_use o_slab =? 0 then Panic
  else if addr <? u64 (page + sizeof_slab) then Panic
  else
    let* cache := deref (caches st !! s_cache o_slab) in
    let ws := poison (Z.to_nat (block_size cache / 4)) addr (words st) in
    let ws := <[addr := s_free o_slab]> ws in
    let obj_index := u64 (addr - s_memory o_slab) / block_size cache in
    Ok (mk_state (caches st)
          (<[page := mk_slab (s_memory o_slab) (s_cache o_slab) (u32 (in_use o_slab - 1)) (u32 obj_index)]>
             (slabs st)) ws (pages st)).

(** The scan of [kmalloc] over the caches, smallest first. *)
Fixpoint kmalloc_scan (st : slab_state) (cs : list slab_cache) (i : nat) (size : Z)
    : outcome (Z * slab_state) :=
  match cs with
  | [] => Panic
  | c :: cs => if size <=? block_size c then slab_alloc st i else kmalloc_scan st cs (S i) size
  end.

Definition kmalloc (st : slab_state) (size : Z) : outcome (Z * slab_state) :=
  kmalloc_scan st (caches st) 0 size.

Definition kfree (st : slab_state) (addr : Z) : outcome slab_state := slab_free st addr.

(** ** The invariant

    [fls] gives for each slab the list of its free objects in the order of the
    links.  The last link, and the header of a full slab, hold [obj_per_slab]. *)

Fixpoint free_chain (ws : gmap Z Z) (memory bsize n first : Z) (fl : list Z) : Prop :=
  match fl with
  | [] => first = n
  | i :: fl => first = i /\ exists next,
      ws !! (memory + bsize * i) = Some next /\ free_chain ws memory bsize n next fl
  end.

(** A size class: the objects of one slab fit behind the header. *)
Record cache_ok (c : slab_cache) : Prop := {
  c_pow : block_size c ∈ [8; 16; 32; 64; 128; 256; 512; 1024];
  c_obj : obj_per_slab c = (4096 - align_up sizeof_slab (block_size c)) / block_size c;
}.

Record slab_ok (ws : gmap Z Z) (page : Z) (s : slab) (c : slab_cache) (fl : list Z) : Prop := {
  sl_mem : s_memory s = page + align_up sizeof_slab (block_size c);
  sl_fl : Forall (fun i => 0 <= i < obj_per_slab c) fl;
  sl_nodup : NoDup fl;
  sl_use : in_use s = obj_per_slab c - zlen fl;
  sl_chain : free_chain ws (s_memory s) (block_size c) (obj_per_slab c) (s_free s) fl;
}.

Record slab_inv (st : slab_state) (fls : gmap Z (list Z)) : Prop := {
  inv_caches : Forall cache_ok (caches st);
  inv_slabs : forall page s, slabs st !! page = Some s -> exists c fl p,
    caches st !! s_cache s = Some c /\ page ∈ slabs_of c /\ fls !! page = Some fl /\
    slab_ok (words st) page s c fl /\ page = dmap p /\ page_owned (pages st) p;
  inv_chain : forall ci c page, caches st !! ci = Some c -> page ∈ slabs_of c ->
    exists s, slabs st !! page = Some s /\ s_cache s = ci;
  inv_pages : pages_ok (pages st);
}.

(** The allocated objects, each with its size. *)
Definition live (st : slab_state) (fls : gmap Z (list Z)) (a size : Z) : Prop :=
  exists page s c fl i, slabs st !! page = Some s /\ caches st !! s_cache s = Some c /\
    fls !! page = Some fl /\ 0 <= i < obj_per_slab c /\ (i ∉ fl) /\
    a = s_memory s + block_size c * i /\ size = block_size c.
End slab.

Section slab_proofs.
Context {St : Type} {PA : PageAllocator St}.
Implicit Types (st : slab_state (St := St)) (fls : gmap Z (list Z)).

(** The arithmetic of a size class. *)
Record class_facts (bs n off : Z) : Prop := {
  cf_bs : 8 <= bs <= 1024;
  cf_n : 3 <= n <= 508;
  cf_off : 32 <= off;
  cf_fit : off + bs * n <= 4096;
  cf_bs4 : bs = 4 * (bs / 4);
  cf_align : off mod bs = 0;
  cf_page : 4096 mod bs = 0;
}.

Lemma cache_class c : cache_ok c ->
  class_facts (block_size c) (obj_per_slab c) (align_up sizeof_slab (block_size c)).
Proof.
  intros [Hp ->]. rewrite !elem_of_cons, elem_of_nil in Hp.
  destruct_or? Hp; try done; rewrite Hp; split; vm_compute; done || (split; done).
Qed.

Lemma free_chain_frame ws ws' memory bs n fl : forall first,
  (forall i, i ∈ fl -> ws' !! (memory + bs * i) = ws !! (memory + bs * i)) ->
  free_chain ws memory bs n first fl -> free_chain ws' memory bs n first fl.
Proof.
  induction fl as [|i fl IH]; intros first Hw; simpl; [done|].
  intros (-> & next & Hnext & Hc). split; [done|]. exists next. rewrite Hw by set_solver.
  split; [done|]. apply IH; [|done]. intros j Hj. apply Hw. set_solver.
Qed.

(** The memory of every slab of a state: page, header and objects. *)
Lemma slab_place st fls page s : slab_inv st fls -> slabs st !! page = Some s ->
  exists c fl p, caches st !! s_cache s = Some c /\ page ∈ slabs_of c /\ fls !! page = Some fl /\
    slab_ok (words st) page s c fl /\ page = dmap p /\ page_owned (pages st) p /\
    class_facts (block_size c) (obj_per_slab c) (align_up sizeof_slab (block_size c)) /\
    VM_DMAP_BASE <= page /\ page + 4096 <= VM_VMALLOC_BASE /\ page mod 4096 = 0.
Proof.
  intros Hinv Hs. destruct (inv_slabs _ _ Hinv page s Hs) as (c & fl & p & Hc & Hin & Hfl & Hok & -> & Hown).
  assert (cache_ok c) as Hcok by (eapply Forall_lookup_1; [apply (inv_caches _ _ Hinv)|done]).
  exists c, fl, p. do 6 (split; [done|]). split; [by apply cache_class|].
  apply dmap_range. destruct Hown as [Hb _]. pose proof (pages_bound_dmap _ _ (inv_pages _ _ Hinv) (proj2 Hb)). lia.
Qed.

(** Two different slabs occupy different pages. *)
Lemma pages_apart p q : dmap p <> dmap q -> dmap p + 4096 <= dmap q \/ dmap q + 4096 <= dmap p.
Proof. unfold dmap. page_lia. Qed.

Lemma slab_apart st fls pg1 pg2 s1 s2 : slab_inv st fls ->
  slabs st !! pg1 = Some s1 -> slabs st !! pg2 = Some s2 -> pg1 <> pg2 ->
  pg1 + 4096 <= pg2 \/ pg2 + 4096 <= pg1.
Proof.
  intros Hinv H1 H2 Hne.
  destruct (inv_slabs _ _ Hinv _ _ H1) as (_ & _ & p & _ & _ & _ & _ & -> & _).
  destruct (inv_slabs _ _ Hinv _ _ H2) as (_ & _ & q & _ & _ & _ & _ & -> & _).
  by apply pages_apart.
Qed.

(** The bytes of an object of a slab lie in its page, behind the header. *)
Lemma object_place ws page s c fl i :
  slab_ok ws page s c fl -> class_facts (block_size c) (obj_per_slab c) (align_up sizeof_slab (block_size c)) ->
  0 <= i < obj_per_slab c ->
  page + 32 <= s_memory s + block_size c * i /\
  s_memory s + block_size c * i + block_size c <= page + 4096.
Proof. intros [-> _ _ _ _] [] Hi. nia. Qed.

Lemma live_place st fls a b : slab_inv st fls -> live st fls a b ->
  exists page s c fl i, slabs st !! page = Some s /\ caches st !! s_cache s = Some c /\
    fls !! page = Some fl /\ 0 <= i < obj_per_slab c /\ (i ∉ fl) /\
    a = s_memory s + block_size c * i /\ b = block_size c /\ 8 <= b /\
    slab_ok (words st) page s c fl /\ page + 32 <= a /\ a + b <= page + 4096.
Proof.
  intros Hinv (page & s & c & fl & i & Hs & Hc & Hfl & Hi & Hni & -> & ->).
  destruct (slab_place _ _ _ _ Hinv Hs) as (c' & fl' & p & Hc' & _ & Hfl' & Hok & _ & _ & Hcf & _).
  simplify_eq. exists page, s, c, fl, i. do 7 (split; [done|]).
  split; [destruct Hcf; lia|]. split; [done|]. by eapply object_place.
Qed.

(** Distinct allocated objects do not overlap. *)
Lemma live_disjoint st fls a b a' b' : slab_inv st fls -> live st fls a b -> live st fls a' b' ->
  a <> a' -> a + b <= a' \/ a' + b' <= a.
Proof.
  intros Hinv Hl Hl' Hne.
  destruct (live_place _ _ _ _ Hinv Hl) as (pg & s & c & fl & i & Hs & Hc & _ & Hi & _ & Ea & Eb & H8 & _ & Hlo & Hhi).
  destruct (live_place _ _ _ _ Hinv Hl') as (pg' & s' & c' & fl' & i' & Hs' & Hc' & _ & Hi' & _ & Ea' & Eb' & _ & _ & Hlo' & Hhi').
  destruct (decide (pg = pg')) as [->|Hpg].
  - simplify_eq. assert (i <> i') by congruence. nia.
  - pose proof (slab_apart _ _ _ _ _ _ Hinv Hs Hs' Hpg). lia.
Qed.

Lemma slab_scan_spec ss obj chain : (forall a, a ∈ chain -> is_Some (ss !! a)) ->
  slab_scan ss obj chain = Ok None \/
  exists a s, slab_scan ss obj chain = Ok (Some (a, s)) /\ a ∈ chain /\ ss !! a = Some s /\ in_use s < obj.
Proof.
  induction chain as [|a chain IH]; intros Hss; simpl; [by left|].
  destruct (Hss a ltac:(set_solver)) as [s Hs]. rewrite Hs. simpl.
  destruct (Z.ltb_spec (in_use s) obj) as [Hlt|]; [right; exists a, s; set_solver|].
  destruct IH as [?|(a' & s' & ? & ? & ? & ?)]; [set_solver|by left|].
  right. exists a', s'. set_solver.
Qed.

(** The objects of all slabs but one. *)
Definition live_other st fls (pg a b : Z) : Prop :=
  exists page s c fl i, page <> pg /\ slabs st !! page = Some s /\ caches st !! s_cache s = Some c /\
    fls !! page = Some fl /\ 0 <= i < obj_per_slab c /\ (i ∉ fl) /\
    a = s_memory s + block_size c * i /\ b = block_size c.

Lemma live_split st fls pg s c fl x b :
  slabs st !! pg = Some s -> caches st !! s_cache s = Some c -> fls !! pg = Some fl ->
  live st fls x b <->
  (exists i, 0 <= i < obj_per_slab c /\ (i ∉ fl) /\ x = s_memory s + block_size c * i /\ b = block_size c)
  \/ live_other st fls pg x b.
Proof.
  intros Hs Hc Hfl. split.
  - intros (page & s' & c' & fl' & i & Hs' & Hc' & Hfl' & Hrest).
    destruct (decide (page = pg)) as [->|Hne].
    + simplify_eq. left. by exists i.
    + right. by exists page, s', c', fl', i.
  - intros [(i & Hrest)|(page & s' & c' & fl' & i & _ & Hrest)].
    + by exists pg, s, c, fl, i.
    + by exists page, s', c', fl', i.
Qed.

Lemma live_other_insert st fls pg s fl ws pgs x b :
  live_other (mk_state (caches st) (<[pg := s]> (slabs st)) ws pgs) (<[pg := fl]> fls) pg x b
  <-> live_other st fls pg x b.
Proof.
  split; intros (page & s' & c' & fl' & i & Hne & Hs & Hc & Hfl & Hrest); exists page, s', c', fl', i;
    simpl in *; rewrite ?lookup_insert_ne in * by done; done.
Qed.

Lemma slab_ok_frame ws ws' page s c fl :
  class_facts (block_size c) (obj_per_slab c) (align_up sizeof_slab (block_size c)) ->
  slab_ok ws page s c fl ->
  (forall y, page <= y < page + 4096 -> ws' !! y = ws !! y) -> slab_ok ws' page s c fl.
Proof.
  intros Hcf Hok Hw. pose proof Hok as [Hm Hfl Hnd Hu Hch]. split; try done.
  eapply free_chain_frame; [|exact Hch]. intros i Hi. apply Hw.
  rewrite Forall_forall in Hfl. pose proof (object_place _ _ _ _ _ i Hok Hcf (Hfl i Hi)). destruct Hcf. lia.
Qed.

(** Changing one slab, and memory only inside its page, keeps the invariant. *)
Lemma slab_inv_update st fls pg s c fl s' fl' ws' :
  slab_inv st fls -> slabs st !! pg = Some s -> caches st !! s_cache s = Some c -> fls !! pg = Some fl ->
  s_cache s' = s_cache s -> slab_ok ws' pg s' c fl' ->
  (forall y, y < pg \/ pg + 4096 <= y -> ws' !! y = words st !! y) ->
  slab_inv (mk_state (caches st) (<[pg := s']> (slabs st)) ws' (pages st)) (<[pg := fl']> fls).
Proof.
  intros Hinv Hs Hc Hfl Hca Hok Hw. split; simpl.
  - apply (inv_caches _ _ Hinv).
  - intros page s1 Hs1. destruct (decide (page = pg)) as [->|Hne].
    + rewrite lookup_insert_eq in Hs1. simplify_eq.
      destruct (inv_slabs _ _ Hinv _ _ Hs) as (c1 & fl1 & p & Hc1 & Hin & _ & _ & -> & Hown). simplify_eq.
      exists c, fl', p. rewrite Hca, lookup_insert_eq. done.
    + rewrite lookup_insert_ne in Hs1 by done.
      destruct (slab_place _ _ _ _ Hinv Hs1) as (c1 & fl1 & p & Hc1 & Hin & Hfl1 & Hok1 & Hp & Hown & Hcf & _).
      exists c1, fl1, p. rewrite lookup_insert_ne by done. do 3 (split; [done|]). split; [|done].
      eapply slab_ok_frame; [done|done|]. intros y Hy. apply Hw.
      pose proof (slab_apart _ _ _ _ _ _ Hinv Hs1 Hs Hne). lia.
  - intros ci c1 page Hc1 Hin. destruct (inv_chain _ _ Hinv ci c1 page Hc1 Hin) as (s1 & Hs1 & Hci).
    destruct (decide (page = pg)) as [->|Hne].
    + rewrite lookup_insert_eq. exists s'. simplify_eq. done.
    + rewrite lookup_insert_ne by done. by exists s1.
  - apply (inv_pages _ _ Hinv).
Qed.

(** What an allocation of size class [bs] promises. *)
Definition alloc_post st fls (a bs : Z) st' fls' : Prop :=
  slab_inv st' fls' /\ a mod bs = 0 /\
  (forall x b, live st' fls' x b <-> live st fls x b \/ (x = a /\ b = bs)) /\
  (forall x b, live st fls x b -> x + b <= a \/ a + bs <= x) /\
  (forall x b y, live st fls x b -> x <= y < x + b -> words st' !! y = words st !! y).

Lemma object_aligned page bs n off i : class_facts bs n off -> page mod 4096 = 0 ->
  (page + off + bs * i) mod bs = 0.
Proof.
  intros [] Hp. apply Z.mod_divide in Hp as [q ->]; [|lia].
  apply Z.mod_divide in cf_align0 as [r ->]; [|lia]. apply Z.mod_divide in cf_page0 as [t ->]; [|lia].
  apply Z.mod_divide; [lia|]. exists (q * t + r + i). lia.
Qed.

Lemma free_count ws page s c fl : slab_ok ws page s c fl -> 0 <= obj_per_slab c -> 0 <= in_use s.
Proof.
  intros [_ Hfl Hnd -> _] Hn. cut (zlen fl <= obj_per_slab c); [lia|].
  assert (fl ⊆+ seqZ 0 (obj_per_slab c)) as Hsub.
  { apply NoDup_submseteq; [done|]. intros i Hi. rewrite Forall_forall in Hfl.
    apply elem_of_seqZ. specialize (Hfl i Hi). lia. }
  apply submseteq_length in Hsub. rewrite length_seqZ in Hsub. unfold zlen. lia.
Qed.

Lemma slab_alloc_existing st fls ci c page s : slab_inv st fls ->
  caches st !! ci = Some c -> page ∈ slabs_of c ->
  slab_scan (slabs st) (obj_per_slab c) (slabs_of c) = Ok (Some (page, s)) ->
  slabs st !! page = Some s -> in_use s < obj_per_slab c ->
  exists a st' fls', slab_alloc st ci = Ok (a, st') /\ alloc_post st fls a (block_size c) st' fls'.
Proof.
  intros Hinv Hc Hin Hscan Hs Huse. unfold slab_alloc. rewrite Hc. simpl. rewrite Hscan. simpl.
  destruct (inv_chain _ _ Hinv _ _ _ Hc Hin) as (s1 & Hs1 & Hci). simplify_eq.
  destruct (slab_place _ _ _ _ Hinv Hs) as (c1 & fl & p & Hc1 & _ & Hfl & Hok & Hp & Hown & Hcf & Hlo & Hhi & Hal).
  simplify_eq. pose proof Hok as [Hm Hb Hnd Hu Hch].
  destruct fl as [|i fl']; [unfold zlen in Hu; simpl in Hu; lia|].
  destruct Hch as (Hfree & next & Hnext & Hch). apply Forall_cons in Hb as [Hi Hb]. apply NoDup_cons in Hnd as [Hni Hnd].
  pose proof (object_place _ _ _ _ _ i Hok Hcf Hi) as [Hplo Hphi].
  pose proof (free_count _ _ _ _ _ Hok ltac:(destruct Hcf; lia)).
  rewrite zlen_cons in Hu. pose proof (zlen_nonneg fl').
  unfold VM_DMAP_BASE, VM_VMALLOC_BASE in *. pose proof (cf_bs _ _ _ Hcf). pose proof (cf_n _ _ _ Hcf).
  rewrite Hfree. destruct (Z.leb_spec (obj_per_slab c) i); [lia|].
  rewrite (u64_small (s_memory s + _)) by lia. rewrite Hnext. simpl. rewrite u32_small by lia.
  eexists _, _, (<[dmap p := fl']> fls). split; [done|].
  set (s' := mk_slab _ _ _ _). assert (slab_inv (mk_state (caches st) (<[dmap p:=s']> (slabs st)) (words st) (pages st))
                (<[dmap p := fl']> fls)) as Hinv'.
  { eapply slab_inv_update; try done. split; simpl; try done; lia. }
  assert (forall x b, live (mk_state (caches st) (<[dmap p:=s']> (slabs st)) (words st) (pages st))
       (<[dmap p := fl']> fls) x b <-> live st fls x b \/ (x = s_memory s + block_size c * i /\ b = block_size c)) as Hlive.
  { intros x b. rewrite (live_split _ _ (dmap p) s' c fl'), (live_split st fls (dmap p) s c (i :: fl')), live_other_insert
      by (simpl; rewrite ?lookup_insert_eq; done). simpl. split.
    - intros [(j & Hj & Hjf & -> & ->)|?]; [|tauto].
      destruct (decide (j = i)) as [->|]; [by right|]. left. left. exists j. set_solver.
    - intros [[(j & Hj & Hjf & -> & ->)|?]|[-> ->]]; [left; exists j; set_solver|tauto|left; by exists i]. }
  split; [done|]. split; [rewrite Hm; by eapply object_aligned|]. split; [done|]. split; [|done].
  intros x b Hx. eapply live_disjoint; [exact Hinv'|apply Hlive; by left|apply Hlive; by right|].
  intros ->. destruct (proj1 (live_split st fls (dmap p) s c (i :: fl') _ b Hs Hc Hfl) Hx)
    as [(j & Hj & Hjf & Hx' & _)|(pg & s2 & c2 & fl2 & j & Hne & Hs2 & Hc2 & Hfl2 & Hj & _ & Hx' & _)].
  - assert (j = i) by nia. set_solver.
  - destruct (slab_place _ _ _ _ Hinv Hs2) as (c3 & fl3 & p3 & Hc3 & _ & _ & Hok3 & _ & _ & Hcf3 & _). simplify_eq.
    pose proof (object_place _ _ _ _ _ j Hok3 Hcf3 Hj). pose proof (cf_bs _ _ _ Hcf3).
    pose proof (slab_apart _ _ _ _ _ _ Hinv Hs2 Hs Hne). lia.
Qed.

(** The link loop writes [j + 1] into object [j] and nothing else. *)
Lemma link_objects_spec n : forall i memory bs ws,
  0 <= memory -> 0 < bs -> 0 <= i -> memory + bs * (i + Z.of_nat n) <= 2 ^ 64 -> i + Z.of_nat n < 2 ^ 32 ->
  (forall j, i <= j < i + Z.of_nat n ->
     link_objects n i memory bs ws !! (memory + bs * j) = Some (j + 1)) /\
  (forall y, (forall j, i <= j < i + Z.of_nat n -> y <> memory + bs * j) ->
     link_objects n i memory bs ws !! y = ws !! y).
Proof.
  induction n as [|n IH]; intros i memory bs ws Hm Hbs Hi Hend H32; simpl; [split; [lia|done]|].
  rewrite (u64_small (memory + i * bs)), (u32_small (i + 1)) by nia.
  set (ws1 := <[memory + i * bs := i + 1]> ws).
  destruct (IH (i + 1) memory bs ws1) as [IH1 IH2]; [done|done|lia|nia|lia|]. split.
  - intros j Hj. destruct (decide (j = i)) as [->|]; [|apply IH1; lia].
    rewrite IH2 by (intros j ?; nia). unfold ws1.
    by rewrite (Z.mul_comm i bs), lookup_insert_eq.
  - intros y Hy. rewrite IH2 by (intros j Hj; apply Hy; lia). unfold ws1.
    apply lookup_insert_ne. rewrite Z.mul_comm. apply not_eq_sym, Hy. lia.
Qed.

Lemma free_chain_seq ws memory bs n k : forall i, i + Z.of_nat k = n ->
  (forall j, i <= j < n -> ws !! (memory + bs * j) = Some (j + 1)) ->
  free_chain ws memory bs n i (seqZ i (Z.of_nat k)).
Proof.
  induction k as [|k IH]; intros i Hk Hw; [simpl; lia|].
  rewrite (seqZ_cons i (Z.of_nat (S k))) by lia. simpl free_chain. split; [done|]. exists (i + 1). split; [apply Hw; lia|].
  replace (Z.pred (Z.of_nat (S k))) with (Z.of_nat k) by lia. rewrite <- Z.add_1_r.
  apply IH; [lia|]. intros j Hj. apply Hw. lia.
Qed.

(** Extending the chain of one cache leaves the other data of the caches alone. *)
Lemma caches_extend (cs : list slab_cache) ci c new k c1 : cs !! ci = Some c ->
  <[ci := mk_cache (slabs_of c ++ [new]) (block_size c) (obj_per_slab c)]> cs !! k = Some c1 ->
  exists c0, cs !! k = Some c0 /\ block_size c0 = block_size c1 /\ obj_per_slab c0 = obj_per_slab c1 /\
    (forall pg, pg ∈ slabs_of c1 <-> pg ∈ slabs_of c0 \/ (k = ci /\ pg = new)).
Proof.
  intros Hc. destruct (decide (k = ci)) as [->|Hne].
  - rewrite list_lookup_insert_eq by (by eapply lookup_lt_Some). intros [= <-].
    exists c. simpl. set_solver.
  - rewrite list_lookup_insert_ne by done. intros H. exists c1. set_solver.
Qed.

Lemma caches_extend_back (cs : list slab_cache) ci c new k c0 : cs !! ci = Some c -> cs !! k = Some c0 ->
  exists c1, <[ci := mk_cache (slabs_of c ++ [new]) (block_size c) (obj_per_slab c)]> cs !! k = Some c1 /\
    block_size c1 = block_size c0 /\ obj_per_slab c1 = obj_per_slab c0 /\
    (forall pg, pg ∈ slabs_of c0 -> pg ∈ slabs_of c1).
Proof.
  intros Hc H0. destruct (decide (k = ci)) as [->|Hne].
  - rewrite list_lookup_insert_eq by (by eapply lookup_lt_Some). eexists. split; [done|].
    simplify_eq. set_solver.
  - rewrite list_lookup_insert_ne by done. exists c0. set_solver.
Qed.

Lemma slab_ok_same ws page s c c' fl : block_size c' = block_size c -> obj_per_slab c' = obj_per_slab c ->
  slab_ok ws page s c fl -> slab_ok ws page s c' fl.
Proof. intros E1 E2 []. split; rewrite ?E1, ?E2; done. Qed.

(** The state after a new slab [pg] with first object taken. *)
Section new_slab.
Context (st : slab_state (St := St)) (fls : gmap Z (list Z)) (ci : nat) (c : slab_cache) (p : Z) (pgs : St).
Context (Hinv : slab_inv st fls) (Hc : caches st !! ci = Some c).
Context (Halloc : page_alloc (pages st) = Ok (p * CONFIG_PAGE_SIZE, pgs)).

Let pg := dmap p.
Let memory := pg + align_up sizeof_slab (block_size c).
Let ws' := link_objects (Z.to_nat (obj_per_slab c - 1)) 1 memory (block_size c) (words st).
Let s0 := mk_slab memory ci 1 1.
Let st' := mk_state (<[ci := mk_cache (slabs_of c ++ [pg]) (block_size c) (obj_per_slab c)]> (caches st))
             (<[pg := s0]> (slabs st)) ws' pgs.
Let fl0 := seqZ 1 (obj_per_slab c - 1).

Local Lemma new_class : class_facts (block_size c) (obj_per_slab c) (align_up sizeof_slab (block_size c)).
Proof. apply cache_class. eapply Forall_lookup_1; [apply (inv_caches _ _ Hinv)|done]. Qed.

Local Lemma new_place : 0 <= p < dmap_frames /\ VM_DMAP_BASE <= pg /\ pg + 4096 <= VM_VMALLOC_BASE /\ pg mod 4096 = 0.
Proof.
  destruct (page_alloc_owned _ _ _ (inv_pages _ _ Hinv) Halloc) as (Hok & _ & [Hb _] & _).
  pose proof (pages_bound_dmap _ _ Hok (proj2 Hb)). assert (0 <= p < dmap_frames) as Hp by lia.
  split; [done|]. apply (dmap_range p Hp).
Qed.

Local Lemma new_fresh : slabs st !! pg = None.
Proof.
  destruct (slabs st !! pg) as [s|] eqn:Hs; [|done]. exfalso.
  destruct (inv_slabs _ _ Hinv _ _ Hs) as (_ & _ & q & _ & _ & _ & _ & Hq & [_ Hf]).
  apply dmap_inj in Hq as <-. by destruct (page_alloc_owned _ _ _ (inv_pages _ _ Hinv) Halloc) as (_ & Hin & _).
Qed.

Local Lemma new_apart page s : slabs st !! page = Some s -> pg + 4096 <= page \/ page + 4096 <= pg.
Proof.
  intros Hs. destruct (inv_slabs _ _ Hinv _ _ Hs) as (_ & _ & q & _ & _ & _ & _ & -> & _).
  apply pages_apart. fold pg. intros E. rewrite <- E, new_fresh in Hs. done.
Qed.

Local Lemma new_words y : y < pg \/ pg + 4096 <= y -> ws' !! y = words st !! y.
Proof.
  intros Hy. destruct new_class. destruct new_place as (_ & Hlo & Hhi & _).
  unfold VM_DMAP_BASE, VM_VMALLOC_BASE in *. unfold memory in ws'.
  apply link_objects_spec; [lia|lia|lia|nia|lia|]. intros j Hj. nia.
Qed.

Local Lemma new_slab_ok c1 : block_size c1 = block_size c -> obj_per_slab c1 = obj_per_slab c ->
  slab_ok ws' pg s0 c1 fl0.
Proof.
  intros E1 E2. destruct new_class. destruct new_place as (_ & Hlo & Hhi & _).
  unfold VM_DMAP_BASE, VM_VMALLOC_BASE in *.
  apply (slab_ok_same _ _ _ c); [done|done|]. split; simpl.
  - done.
  - apply Forall_forall. intros i Hi. apply elem_of_seqZ in Hi. lia.
  - apply NoDup_seqZ.
  - unfold zlen, fl0. rewrite length_seqZ. lia.
  - unfold fl0. replace (obj_per_slab c - 1) with (Z.of_nat (Z.to_nat (obj_per_slab c - 1))) by lia.
    apply free_chain_seq; [lia|]. intros j Hj. unfold ws', memory.
    apply link_objects_spec; [lia|lia|lia|nia|lia|lia].
Qed.

Local Lemma new_inv : slab_inv st' (<[pg := fl0]> fls).
Proof.
  destruct (page_alloc_owned _ _ _ (inv_pages _ _ Hinv) Halloc) as (Hok & _ & Hownp & _ & Howned).
  split; simpl; [| | |done].
  - apply Forall_insert; [apply (inv_caches _ _ Hinv)|].
    assert (cache_ok c) as [] by (eapply Forall_lookup_1; [apply (inv_caches _ _ Hinv)|done]). by split.
  - intros page s Hs. destruct (decide (page = pg)) as [->|Hne].
    + rewrite lookup_insert_eq in Hs. injection Hs as <-. simpl.
      eexists _, fl0, p. rewrite list_lookup_insert_eq, lookup_insert_eq by (by eapply lookup_lt_Some).
      split; [done|]. split; [set_solver|]. split; [done|]. split; [by apply new_slab_ok|]. done.
    + rewrite lookup_insert_ne in Hs by done.
      destruct (slab_place _ _ _ _ Hinv Hs) as (c0 & fl & q & Hc0 & Hin & Hfl & Hsok & Hq & Hown & Hcf & _).
      destruct (caches_extend_back _ ci c pg _ c0 Hc Hc0) as (c1 & Hc1 & E1 & E2 & Hin1).
      exists c1, fl, q. rewrite lookup_insert_ne by done. split; [done|]. split; [by apply Hin1|]. split; [done|].
      split; [|split; [done|apply Howned; by left]].
      apply (slab_ok_same _ _ _ c0); [done|done|]. eapply slab_ok_frame; [done|done|].
      intros y Hy. apply new_words. pose proof (new_apart _ _ Hs). lia.
  - intros k c1 page Hc1 Hin. destruct (caches_extend _ _ _ _ _ _ Hc Hc1) as (c0 & Hc0 & _ & _ & Hiff).
    destruct (decide (page = pg)) as [->|Hne].
    + rewrite lookup_insert_eq. exists s0. split; [done|]. simpl.
      destruct (proj1 (Hiff _) Hin) as [Hin0|[-> _]]; [|done].
      destruct (inv_chain _ _ Hinv _ _ _ Hc0 Hin0) as (s & Hs & _). rewrite new_fresh in Hs. done.
    + rewrite lookup_insert_ne by done. destruct (proj1 (Hiff _) Hin) as [Hin0|[_ ?]]; [|done].
      by apply (inv_chain _ _ Hinv _ c0).
Qed.

Local Lemma new_live x b :
  live st' (<[pg := fl0]> fls) x b <-> live st fls x b \/ (x = memory /\ b = block_size c).
Proof.
  pose proof new_class as [_ Hn _ _ _ _ _]. split.
  - intros (page & s & c1 & fl & i & Hs & Hc1 & Hfl & Hi & Hni & -> & ->). simpl in *.
    destruct (caches_extend _ _ _ _ _ _ Hc Hc1) as (c0 & Hc0 & E1 & E2 & _).
    destruct (decide (page = pg)) as [->|Hne].
    + rewrite lookup_insert_eq in Hs. rewrite lookup_insert_eq in Hfl. injection Hs as <-. injection Hfl as <-.
      simpl in Hc0 |- *. rewrite Hc in Hc0. injection Hc0 as <-. right.
      unfold fl0 in Hni. rewrite elem_of_seqZ in Hni. assert (i = 0) as -> by lia. lia.
    + rewrite lookup_insert_ne in Hs by done. rewrite lookup_insert_ne in Hfl by done. left. exists page, s, c0, fl, i. rewrite E1, E2. done.
  - intros [(page & s & c0 & fl & i & Hs & Hc0 & Hfl & Hi & Hni & -> & ->)|[-> ->]].
    + destruct (caches_extend_back _ ci c pg _ c0 Hc Hc0) as (c1 & Hc1 & E1 & E2 & _).
      assert (page <> pg) by (intros ->; rewrite new_fresh in Hs; done).
      exists page, s, c1, fl, i. simpl. rewrite !lookup_insert_ne, E1, E2 by done. done.
    + eexists pg, s0, _, fl0, 0. simpl.
      rewrite !lookup_insert_eq, list_lookup_insert_eq by (by eapply lookup_lt_Some).
      split; [done|]. split; [done|]. split; [done|]. simpl. split; [lia|].
      split; [unfold fl0; rewrite elem_of_seqZ; lia|]. lia.
Qed.

Lemma slab_alloc_new :
  slab_scan (slabs st) (obj_per_slab c) (slabs_of c) = Ok None ->
  exists a st2 fls2, slab_alloc st ci = Ok (a, st2) /\ alloc_post st fls a (block_size c) st2 fls2.
Proof.
  intros Hscan. destruct new_place as (Hp & Hlo & Hhi & Hal). pose proof new_class as Hcf.
  exists memory, st', (<[pg := fl0]> fls). split.
  { unfold slab_alloc. rewrite Hc. simpl. rewrite Hscan. simpl. rewrite Halloc. simpl.
    rewrite dmap_u64 by done. fold pg. rewrite u64_small; [done|].
    unfold VM_DMAP_BASE, VM_VMALLOC_BASE in *. destruct Hcf. nia. }
  split; [apply new_inv|]. split.
  { pose proof (object_aligned pg _ _ _ 0 Hcf Hal) as Ha. by rewrite Z.mul_0_r, Z.add_0_r in Ha. }
  split; [apply new_live|]. split.
  - intros x b Hx. destruct (live_place _ _ _ _ Hinv Hx) as (page & s & _ & _ & _ & Hs & _ & _ & _ & _ & _ & _ & _ & _ & H1 & H2).
    pose proof (new_apart _ _ Hs). unfold memory. destruct Hcf. nia.
  - intros x b y Hx Hy. destruct (live_place _ _ _ _ Hinv Hx) as (page & s & _ & _ & _ & Hs & _ & _ & _ & _ & _ & _ & _ & _ & H1 & H2).
    pose proof (new_apart _ _ Hs). apply new_words. lia.
Qed.
End new_slab.

Lemma slab_alloc_spec st fls ci c : slab_inv st fls -> caches st !! ci = Some c ->
  (slab_alloc st ci = Panic /\ pages_free (pages st) = []) \/
  exists a st' fls', slab_alloc st ci = Ok (a, st') /\ alloc_post st fls a (block_size c) st' fls'.
Proof.
  intros Hinv Hc. destruct (slab_scan_spec (slabs st) (obj_per_slab c) (slabs_of c)) as [Hscan|(a & s & Hscan & Hin & Hs & Hu)].
  { intros a Ha. destruct (inv_chain _ _ Hinv _ _ _ Hc Ha) as (s & Hs & _). by exists s. }
  - destruct (page_alloc_law _ (inv_pages _ _ Hinv)) as [[E Hf]|(p & pgs & E & _)].
    + left. split; [|done]. unfold slab_alloc. rewrite Hc. simpl. rewrite Hscan. simpl. by rewrite E.
    + right. by eapply slab_alloc_new.
  - right. by eapply slab_alloc_existing.
Qed.

Lemma kmalloc_scan_spec st fls size cs : forall i, slab_inv st fls ->
  (forall k c, cs !! k = Some c -> caches st !! (i + k)%nat = Some c) ->
  (kmalloc_scan st cs i size = Panic /\ (pages_free (pages st) = [] \/ Forall (fun c => block_size c < size) cs)) \/
  exists a st' fls' bs, kmalloc_scan st cs i size = Ok (a, st') /\ size <= bs /\ alloc_post st fls a bs st' fls'.
Proof.
  induction cs as [|c cs IH]; intros i Hinv Hcs; simpl; [left; split; [done|right; constructor]|].
  destruct (Z.leb_spec size (block_size c)) as [Hle|Hgt].
  - destruct (slab_alloc_spec st fls i c Hinv) as [[E Hf]|(a & st' & fls' & E & Hpost)].
    + rewrite <- (Nat.add_0_r i). by apply Hcs.
    + left. by split; [|left].
    + right. by exists a, st', fls', (block_size c).
  - destruct (IH (S i) Hinv) as [[E [Hf|Hall]]|?]; [|left; by split; [|left]|left; split; [done|right; by constructor]|by right].
    intros k c' Hk. rewrite Nat.add_succ_comm. by apply Hcs.
Qed.

Lemma poison_other n : forall addr ws y, y < addr \/ addr + 4 * Z.of_nat n <= y -> poison n addr ws !! y = ws !! y.
Proof.
  induction n as [|n IH]; intros addr ws y Hy; simpl; [done|].
  rewrite IH by lia. apply lookup_insert_ne. lia.
Qed.

(** The page of an address between a page boundary and the next. *)
Lemma page_of a page : 0 <= page -> page mod 4096 = 0 -> page <= a < page + 4096 -> page + 4096 <= 2 ^ 64 ->
  Z.land a (u64 (Z.lnot 0xFFF)) = page.
Proof.
  intros H0 Hp Ha Hend. change (Z.land a (u64 (Z.lnot (u64 (2 ^ 12 - 1)))) = page). rewrite align_mask by lia.
  apply Z.mod_divide in Hp as [q ->]; [|lia].
  replace (a / 2 ^ 12) with q; [lia|]. apply Z.div_unique with (a - q * 4096); lia.
Qed.

(** What releasing the object at [a] promises. *)
Definition free_post st fls (a : Z) st' fls' : Prop :=
  slab_inv st' fls' /\
  (forall x b, live st' fls' x b <-> live st fls x b /\ x <> a) /\
  (forall x b y, live st fls x b -> x <> a -> x <= y < x + b -> words st' !! y = words st !! y).

Lemma slab_free_run st fls a bs : slab_inv st fls -> live st fls a bs ->
  exists page s c fl i ws', slabs st !! page = Some s /\ caches st !! s_cache s = Some c /\ fls !! page = Some fl /\
    0 <= i < obj_per_slab c /\ (i ∉ fl) /\ a = s_memory s + block_size c * i /\ bs = block_size c /\
    slab_free st a = Ok (mk_state (caches st)
      (<[page := mk_slab (s_memory s) (s_cache s) (in_use s - 1) i]> (slabs st)) ws' (pages st)) /\
    ws' !! a = Some (s_free s) /\ (forall y, y < a \/ a + bs <= y -> ws' !! y = words st !! y).
Proof.
  intros Hinv Hl.
  destruct (live_place _ _ _ _ Hinv Hl) as (page & s & c & fl & i & Hs & Hc & Hfl & Hi & Hni & Ea & Eb & H8 & Hok & Hlo & Hhi).
  destruct (slab_place _ _ _ _ Hinv Hs) as (c' & fl' & p & Hc' & _ & Hfl' & _ & _ & _ & Hcf & Hd & Hv & Hal).
  rewrite Hc in Hc'. injection Hc' as <-. rewrite Hfl in Hfl'. injection Hfl' as <-.
  unfold VM_DMAP_BASE, VM_VMALLOC_BASE in *. destruct Hcf.
  assert (0 < in_use s) as Hu.
  { destruct Hok as [_ Hfb Hnd -> _]. cut (zlen (i :: fl) <= obj_per_slab c); [rewrite zlen_cons; lia|].
    assert (i :: fl ⊆+ seqZ 0 (obj_per_slab c)) as Hsub.
    { apply NoDup_submseteq; [by constructor|]. intros j Hj. rewrite Forall_forall in Hfb. apply elem_of_seqZ.
      apply elem_of_cons in Hj as [->|Hj]; [lia|]. specialize (Hfb j Hj). lia. }
    apply submseteq_length in Hsub. rewrite length_seqZ in Hsub. unfold zlen. lia. }
  exists page, s, c, fl, i, (<[a := s_free s]> (poison (Z.to_nat (block_size c / 4)) a (words st))).
  do 7 (split; [done|]). split; [|split].
  - unfold slab_free. rewrite (page_of a page) by lia. rewrite Hs. simpl.
    destruct (Z.eqb_spec (in_use s) 0); [lia|].
    rewrite (u64_small (page + sizeof_slab)) by (unfold sizeof_slab; lia).
    destruct (Z.ltb_spec a (page + sizeof_slab)); [unfold sizeof_slab in *; lia|]. rewrite Hc. simpl.
    pose proof (sl_use _ _ _ _ _ Hok). pose proof (zlen_nonneg fl).
    rewrite (u32_small (in_use s - 1)) by lia. rewrite (u64_small (a - s_memory s)) by nia.
    replace ((a - s_memory s) / block_size c) with i; [by rewrite u32_small by lia|].
    apply Z.div_unique with 0; lia.
  - apply lookup_insert_eq.
  - intros y Hy. rewrite lookup_insert_ne by lia. apply poison_other. lia.
Qed.

Lemma slab_free_spec st fls a bs : slab_inv st fls -> live st fls a bs ->
  exists st' fls', slab_free st a = Ok st' /\ free_post st fls a st' fls'.
Proof.
  intros Hinv Hl.
  destruct (slab_free_run _ _ _ _ Hinv Hl) as (page & s & c & fl & i & ws' & Hs & Hc & Hfl & Hi & Hni & Ea & Eb & Hrun & Hwa & Hw).
  destruct (slab_place _ _ _ _ Hinv Hs) as (c' & fl' & p & Hc' & _ & Hfl' & Hok & _ & _ & Hcf & _).
  rewrite Hc in Hc'. injection Hc' as <-. rewrite Hfl in Hfl'. injection Hfl' as <-.
  pose proof (object_place _ _ _ _ _ i Hok Hcf Hi) as [Hplo Hphi].
  eexists _, (<[page := i :: fl]> fls). split; [exact Hrun|]. split; [|split].
  - eapply slab_inv_update; try done.
    + pose proof Hok as [Hm Hfb Hnd Hu Hch]. split; simpl; [done|by constructor|by constructor|rewrite zlen_cons; lia|].
      split; [done|]. exists (s_free s). rewrite <- Ea. split; [done|].
      eapply free_chain_frame; [|exact Hch]. intros j Hj. apply Hw.
      assert (i <> j) by (intros ->; done). destruct Hcf. nia.
    + intros y Hy. apply Hw. destruct Hcf. lia.
  - intros x b. rewrite (live_split _ _ page (mk_slab (s_memory s) (s_cache s) (in_use s - 1) i) c (i :: fl)),
      (live_split st fls page s c fl), live_other_insert by (simpl; rewrite ?lookup_insert_eq; done). simpl. split.
    + intros [(j & Hj & Hjf & -> & ->)|Ho].
      * apply not_elem_of_cons in Hjf as [Hji Hjf]. split; [left; by exists j|]. destruct Hcf. nia.
      * split; [by right|]. intros ->.
        destruct Ho as (pg & s2 & c2 & fl2 & j & Hne & Hs2 & Hc2 & Hfl2 & Hj & _ & Hx & _).
        destruct (slab_place _ _ _ _ Hinv Hs2) as (c3 & fl3 & p3 & Hc3 & _ & _ & Hok3 & _ & _ & Hcf3 & _). simplify_eq.
        pose proof (object_place _ _ _ _ _ j Hok3 Hcf3 Hj). pose proof (cf_bs _ _ _ Hcf3). pose proof (cf_bs _ _ _ Hcf).
        pose proof (slab_apart _ _ _ _ _ _ Hinv Hs2 Hs Hne). lia.
    + intros [[(j & Hj & Hjf & -> & ->)|Ho] Hne]; [left; exists j|by right].
      split; [done|]. split; [|done]. apply not_elem_of_cons. split; [|done]. intros ->. congruence.
  - intros x b y Hx Hne Hy. apply Hw. pose proof (live_disjoint _ _ _ _ _ _ Hinv Hx Hl Hne). lia.
Qed.

(** The caches as [slab_init] leaves them satisfy the invariant, with no object allocated. *)
Lemma slab_init_inv pgs : pages_ok pgs -> slab_inv (slab_init (mk_state km_caches ∅ ∅ pgs)) ∅.
Proof.
  intros Hok. split; simpl.
  - repeat (constructor; [split; [set_solver|vm_compute; done]|]). constructor.
  - intros page s Hs. by rewrite lookup_empty in Hs.
  - intros ci c page Hc Hin. exfalso.
    do 8 (destruct ci as [|ci]; [injection Hc as <-; simpl in Hin; set_solver|]). done.
  - done.
Qed.

(** C2: [kmalloc] returns memory that is aligned to its size class, at least
    as large as requested, and disjoint from every allocated object, whose
    contents stay as they were; the allocated objects afterwards are the old
    ones and this one.  It panics only for requests larger than every class or
    when no page is left, and never reads through a corrupt free list. *)
Theorem kmalloc_correct st fls size : slab_inv st fls ->
  match kmalloc st size with
  | Ok (a, st') => exists fls' bs, size <= bs /\ slab_inv st' fls' /\ a mod bs = 0 /\
      (forall x b, live st' fls' x b <-> live st fls x b \/ (x = a /\ b = bs)) /\
      (forall x b, live st fls x b -> x + b <= a \/ a + bs <= x) /\
      (forall x b y, live st fls x b -> x <= y < x + b -> words st' !! y = words st !! y)
  | Panic => pages_free (pages st) = [] \/ Forall (fun c => block_size c < size) (caches st)
  | Fault | OutOfFuel => False
  end.
Proof.
  intros Hinv. unfold kmalloc.
  destruct (kmalloc_scan_spec st fls size (caches st) 0 Hinv) as [[-> H]|(a & st' & fls' & bs & -> & Hle & H)];
    [done|done|]. destruct H as (?&?&?&?&?). exists fls', bs. done.
Qed.

(** C3: [kfree] of an allocated object never panics or faults, makes exactly
    that object free again, and changes no byte of any other allocated
    object. *)
Theorem kfree_correct st fls a bs : slab_inv st fls -> live st fls a bs ->
  exists st' fls', kfree st a = Ok st' /\ slab_inv st' fls' /\
    (forall x b, live st' fls' x b <-> live st fls x b /\ x <> a) /\
    (forall x b y, live st fls x b -> x <> a -> x <= y < x + b -> words st' !! y = words st !! y).
Proof.
  intros Hinv Hl. destruct (slab_free_spec st fls a bs Hinv Hl) as (st' & fls' & Hrun & Hpost).
  exists st', fls'. split; [exact Hrun|]. exact Hpost.
Qed.
End slab_proofs.

(** A machine with frames 1 to 3 free. *)
Definition pmm_three : pmm := mk_pmm [14] 3 0.

Lemma pmm_three_ok : pages_ok pmm_three.
Proof.
  split; [split|split].
  - repeat constructor; lia.
  - vm_compute. discriminate.
  - reflexivity.
  - vm_compute. discriminate.
  - vm_compute. set_solver.
Qed.

Lemma kmalloc_correct_witness :
  exists a st', kmalloc (slab_init (mk_state km_caches ∅ ∅ pmm_three)) 700 = Ok (a, st') /\
    a mod 1024 = 0 /\ exists fls' bs, slab_inv st' fls' /\ live st' fls' a bs /\ 700 <= bs.
Proof.
  pose proof (kmalloc_correct _ ∅ 700 (slab_init_inv pmm_three pmm_three_ok)) as H.
  destruct (kmalloc _ 700) as [[a st']| | |] eqn:E; [|vm_compute in E; discriminate..].
  destruct H as (fls' & bs & Hbs & Hinv & _ & Hl & _). exists a, st'. split; [reflexivity|]. split.
  - vm_compute in E. injection E as <- _. reflexivity.
  - exists fls', bs. split; [exact Hinv|]. split; [|exact Hbs]. apply Hl. by right.
Defined.

Lemma kfree_correct_witness :
  exists a st1 fls1 st2, kmalloc (slab_init (mk_state km_caches ∅ ∅ pmm_three)) 600 = Ok (a, st1) /\
    (exists bs, live st1 fls1 a bs) /\ kfree st1 a = Ok st2.
Proof.
  set (st := slab_init (mk_state km_caches ∅ ∅ pmm_three)).
  destruct (kmalloc_scan_spec st ∅ 600 (caches st) 0 (slab_init_inv pmm_three pmm_three_ok))
    as [[E _]|(a & st1 & fls1 & bs & E & _ & Hinv & _ & Hl & _)]; [done|vm_compute in E; discriminate|].
  assert (live st1 fls1 a bs) as Hlive by (apply Hl; by right).
  destruct (kfree_correct st1 fls1 a bs Hinv Hlive) as (st2 & fls2 & Hrun & _).
  exists a, st1, fls1, st2. split; [exact E|]. split; [by exists bs|]. exact Hrun.
Defined.
