(* ===== verification/Mmu.v ===== *)
(** * Page tables

    kernel/arch/x86_64/mmu.c and include/arch/x86_64/mmu.h.  A page table is a
    list of 512 raw entries found at its direct map address; a table pointer
    that names no table (the null pointer above all) faults when it is used.
    Table frames come from the page allocator interface. *)

From stdpp Require Import base numbers list gmap sets.
From Stdlib Require Import ZArith Lia.
From S2P Require Import Prelude Pages Pmm.

(** ** vm_space.h: protection and mapping flags *)
Definition VM_FLAG_ALLOCATE : Z := 1.
Definition VM_FLAG_COW : Z := 2.
Definition VM_FLAG_FILE : Z := 4.
Definition VM_FLAG_DEVICE : Z := 8.
Definition VM_FLAG_OWNER : Z := 16.
Definition VM_FLAG_REPLACE : Z := 32.

Definition PROT_NONE : Z := 0.
Definition PROT_READ : Z := 1.
Definition PROT_WRITE : Z := 2.
Definition PROT_EXEC : Z := 4.
Definition PROT_USER : Z := 8.
Definition PROT_UNCACHED : Z := 16.
Definition PROT_WRITECOMBINE : Z := 32.

(** ** arch/x86_64/mmu.h: entry bits *)
Definition PTE_PRESENT : Z := 0x1.
Definition PTE_WRITABLE : Z := 0x2.
Definition PTE_USER : Z := 0x4.
Definition PTE_WRITECOMBINING : Z := 0x8.
Definition PTE_CACHE_DISABLE : Z := 0x10.
Definition PTE_OWNER : Z := 0x200.
Definition PTE_NOEXEC : Z := 0x8000000000000000.

Definition page_mask_4K : Z := 0xfff0fffffffff000.

Definition get_pagetable_index (address level : Z) : Z :=
  let shift := 12 + (level - 1) * 9 in
  Z.shiftr (Z.land address (u64 (Z.shiftl 0x1ff shift))) shift.

Definition pte_address (raw : Z) : Z := Z.land raw 0x000ffffffffff000.

Record vm_mapping := mk_mapping { m_base : Z; m_prot : Z; m_flags : Z; m_present : bool }.

Definition secflags : Z := Z.lor PTE_WRITABLE PTE_USER.

(** [if(c) x |= bit;] *)
Definition or_if (c : bool) (x bit : Z) : Z := if c then Z.lor x bit else x.

Definition convert_vm_params (prot flags : Z) : Z :=
  let pte_flags := or_if (has prot PROT_READ) 0 PTE_PRESENT in
  let pte_flags := or_if (has prot PROT_WRITE) pte_flags PTE_WRITABLE in
  let pte_flags := or_if (negb (has prot PROT_EXEC)) pte_flags PTE_NOEXEC in
  let pte_flags := or_if (has prot PROT_USER) pte_flags PTE_USER in
  let pte_flags := or_if (has prot PROT_UNCACHED) pte_flags PTE_CACHE_DISABLE in
  let pte_flags := or_if (has prot PROT_WRITECOMBINE) pte_flags PTE_WRITECOMBINING in
  or_if (has flags VM_FLAG_OWNER) pte_flags PTE_OWNER.

#[local] Arguments replicate : simpl never.

Section mmu.
Context {St : Type} {PA : PageAllocator St}.

Record mmu_state := mk_mmu { tables : gmap Z (list Z); mpages : St }.

Definition read_entry (st : mmu_state) (table entry : Z) : outcome Z :=
  let* t := deref (tables st !! table) in aget t entry.

Definition write_entry (st : mmu_state) (table entry raw : Z) : outcome mmu_state :=
  let* t := deref (tables st !! table) in
  let* t := aset t entry raw in
  Ok (mk_mmu (<[table := t]> (tables st)) (mpages st)).

(** The null pointer is 0. *)
Definition get_pte (st : mmu_state) (table entry : Z) : outcome Z :=
  let* raw := read_entry st table entry in
  if has raw PTE_PRESENT && negb (pte_address raw =? 0)
  then Ok (u64 (pte_address raw + VM_DMAP_BASE)) else Ok 0.

Definition create_pte (st : mmu_state) (table entry flags : Z) : outcome (Z * mmu_state) :=
  let* (pt_phys, pgs) := page_alloc (mpages st) in
  let pt := u64 (pt_phys + VM_DMAP_BASE) in
  let st := mk_mmu (<[pt := replicate 512 0]> (tables st)) pgs in
  let* st := write_entry st table entry
    (Z.lor (Z.lor (Z.land pt_phys page_mask_4K) flags) PTE_PRESENT) in
  Ok (pt, st).

Definition get_or_create_pte (st : mmu_state) (table entry flags : Z) : outcome (Z * mmu_state) :=
  let* pte := get_pte st table entry in
  if negb (pte =? 0) then Ok (pte, st) else create_pte st table entry flags.

Definition mmu_map (st : mmu_state) (table phys virt prot flags : Z) : outcome mmu_state :=
  let pml4_index := get_pagetable_index virt 4 in
  let pdpt_index := get_pagetable_index virt 3 in
  let pd_index := get_pagetable_index virt 2 in
  let pt_index := get_pagetable_index virt 1 in
  let* (pdpt, st) := get_or_create_pte st table pml4_index secflags in
  let* (pd, st) := get_or_create_pte st pdpt pdpt_index secflags in
  let* (pt, st) := get_or_create_pte st pd pd_index secflags in
  write_entry st pt pt_index (Z.lor (Z.land phys page_mask_4K) (convert_vm_params prot flags)).

Fixpoint map_range_loop (fuel : nat) (st : mmu_state) (table phys virt length prot flags : Z)
    : outcome mmu_state :=
  match fuel with
  | O => OutOfFuel
  | S fuel =>
      if negb (0 <? length) then Ok st
      else
        let* st := mmu_map st table phys virt prot flags in
        let phys := u64 (phys + CONFIG_PAGE_SIZE) in
        let virt := u64 (virt + CONFIG_PAGE_SIZE) in
        if length <=? CONFIG_PAGE_SIZE then Ok st
        else map_range_loop fuel st table phys virt (length - CONFIG_PAGE_SIZE) prot flags
  end.

(** Each round takes a page off the length. *)
Definition mmu_map_range (st : mmu_state) (table phys virt length prot flags : Z) : outcome mmu_state :=
  map_range_loop (S (Z.to_nat (length / CONFIG_PAGE_SIZE))) st table phys virt length prot flags.

Definition mmu_unmap (st : mmu_state) (table virt : Z) : outcome mmu_state :=
  let pml4_index := get_pagetable_index virt 4 in
  let pdpt_index := get_pagetable_index virt 3 in
  let pd_index := get_pagetable_index virt 2 in
  let pt_index := get_pagetable_index virt 1 in
  let* pdpt := get_pte st table pml4_index in
  let* pd := get_pte st pdpt pdpt_index in
  let* pt := get_pte st pd pd_index in
  write_entry st pt pt_index 0.

(** The addresses given to [invlpg], with [fuel] rounds of the loop. *)
Fixpoint mmu_invalidate (fuel : nat) (virt length : Z) : outcome (list Z) :=
  match fuel with
  | O => OutOfFuel
  | S fuel =>
      if length =? 0 then Ok []
      else
        let* rest := mmu_invalidate fuel (u64 (virt + CONFIG_PAGE_SIZE)) (u64 (length - CONFIG_PAGE_SIZE)) in
        Ok (virt :: rest)
  end.

(** The part of [mmu_get_phys] that reads the flags of the leaf entry. *)
Definition entry_mapping (entry : Z) : vm_mapping :=
  let present := has entry PTE_PRESENT in
  let prot := or_if present 0 PROT_READ in
  let prot := or_if (has entry PTE_WRITABLE) prot PROT_WRITE in
  let prot := or_if (negb (has entry PTE_NOEXEC)) prot PROT_EXEC in
  let prot := or_if (has entry PTE_USER) prot PROT_USER in
  let prot := or_if (has entry PTE_CACHE_DISABLE) prot PROT_UNCACHED in
  let prot := or_if (has entry PTE_WRITECOMBINING) prot PROT_WRITECOMBINE in
  mk_mapping (pte_address entry) prot (or_if (has entry PTE_OWNER) 0 VM_FLAG_OWNER) present.

Definition no_mapping : vm_mapping := mk_mapping 0 0 0 false.

Definition mmu_get_phys (st : mmu_state) (table virt : Z) : outcome vm_mapping :=
  let pml4_index := get_pagetable_index virt 4 in
  let pdpt_index := get_pagetable_index virt 3 in
  let pd_index := get_pagetable_index virt 2 in
  let pt_index := get_pagetable_index virt 1 in
  let* pdpt := get_pte st table pml4_index in
  if pdpt =? 0 then Ok no_mapping else
  let* pd := get_pte st pdpt pdpt_index in
  if pd =? 0 then Ok no_mapping else
  let* pt := get_pte st pd pd_index in
  if pt =? 0 then Ok no_mapping else
  let* entry := read_entry st pt pt_index in
  Ok (entry_mapping entry).

Definition mmu_new_pgdir (st : mmu_state) : outcome (Z * mmu_state) :=
  let* (phys, pgs) := page_alloc (mpages st) in
  let pgdir := u64 (phys + VM_DMAP_BASE) in
  Ok (pgdir, mk_mmu (<[pgdir := replicate 512 0]> (tables st)) pgs).

(** One level of the loops of [mmu_destroy]: for each present entry of the
    first [n] from [i] on, run [body] on the child table, release the child's
    frame and clear the entry. *)
Fixpoint destroy_level (body : mmu_state -> Z -> outcome mmu_state) (n : nat)
    (st : mmu_state) (table i : Z) : outcome mmu_state :=
  match n with
  | O => Ok st
  | S n =>
      let* raw := read_entry st table i in
      if negb (has raw PTE_PRESENT) then destroy_level body n st table (i + 1)
      else
        let* st := body st (u64 (pte_address raw + VM_DMAP_BASE)) in
        let* pgs := page_free (mpages st) (pte_address raw) in
        let* st := write_entry (mk_mmu (tables st) pgs) table i 0 in
        destroy_level body n st table (i + 1)
  end.

(** The page tables of the lower half, innermost first, then the root. *)
Definition mmu_destroy (st : mmu_state) (root : Z) : outcome mmu_state :=
  let pd_loop st pd := destroy_level (fun st _ => Ok st) 512 st pd 0 in
  let pdpt_loop st pdpt := destroy_level pd_loop 512 st pdpt 0 in
  let* st := destroy_level pdpt_loop 256 st root 0 in
  let* pgs := page_free (mpages st) (u64 (root - VM_DMAP_BASE)) in
  Ok (mk_mmu (tables st) pgs).

Fixpoint clone_loop (n : nat) (st : mmu_state) (source dest i : Z) : outcome mmu_state :=
  match n with
  | O => Ok st
  | S n =>
      let* raw := read_entry st source i in
      let* st := write_entry st dest i raw in
      clone_loop n st source dest (i + 1)
  end.

Definition mmu_clone (st : mmu_state) (source dest prot : Z) : outcome mmu_state :=
  let start := if has prot PROT_USER then 0 else 256 in
  clone_loop (Z.to_nat (512 - start)) st source dest start.
End mmu.

(** ** Page table entries as bits *)

Lemma has_pow2 x k : 0 <= k -> has x (2 ^ k) = Z.testbit x k.
Proof.
  intros Hk. unfold has. destruct (Z.testbit x k) eqn:Hb.
  - apply negb_true_iff, Z.eqb_neq. intros H0. apply (f_equal (fun z => Z.testbit z k)) in H0.
    rewrite Z.land_spec, pow2_testbit, Z.eqb_refl, Hb, Z.bits_0 in H0 by lia. done.
  - apply negb_false_iff, Z.eqb_eq. bits_ext. subst. by rewrite Hb.
Qed.

Lemma or_if_testbit b x bit k : Z.testbit (or_if b x bit) k = (Z.testbit x k || b && Z.testbit bit k)%bool.
Proof. destruct b; simpl; [apply Z.lor_spec|by rewrite orb_false_r]. Qed.

(** The flag part of an entry has no address bits. *)
Lemma convert_no_address prot flags : Z.land (convert_vm_params prot flags) 0x000ffffffffff000 = 0.
Proof.
  unfold convert_vm_params.
  destruct (has prot PROT_READ), (has prot PROT_WRITE), (has prot PROT_EXEC), (has prot PROT_USER),
    (has prot PROT_UNCACHED), (has prot PROT_WRITECOMBINE), (has flags VM_FLAG_OWNER); reflexivity.
Qed.

Lemma land_low_pages x : 0 <= x < 2 ^ 48 -> Z.land x 0xfffffffff000 = align_down x CONFIG_PAGE_SIZE.
Proof.
  intros Hx. rewrite (align_down_spec x 12 : _ -> _ -> align_down x CONFIG_PAGE_SIZE = _) by lia.
  rewrite <- Z.shiftr_div_pow2, <- Z.shiftl_mul_pow2 by lia.
  change 0xfffffffff000 with (Z.shiftl (Z.ones 36) 12). bits_ext.
  bits_rewrite. rewrite Z.sub_simpl_r. bits_case. by rewrite (testbit_small 48) by lia.
Qed.

Lemma leaf_address phys prot flags : 0 <= phys < 2 ^ 48 ->
  pte_address (Z.lor (Z.land phys page_mask_4K) (convert_vm_params prot flags)) = align_down phys CONFIG_PAGE_SIZE.
Proof.
  intros Hp. unfold pte_address. rewrite Z.land_lor_distr_l, convert_no_address, Z.lor_0_r, <- Z.land_assoc.
  by apply land_low_pages.
Qed.

(** A flag bit of a leaf entry is the flag bit of the requested parameters. *)
Lemma leaf_bit phys prot flags k : 0 <= phys < 2 ^ 48 -> 0 <= k -> k < 12 \/ 52 <= k ->
  Z.testbit (Z.lor (Z.land phys page_mask_4K) (convert_vm_params prot flags)) k
  = Z.testbit (convert_vm_params prot flags) k.
Proof.
  intros Hp Hk Hr. rewrite Z.lor_spec, Z.land_spec. destruct Hr.
  - assert (Z.testbit page_mask_4K k = false) as ->; [|by rewrite andb_false_r].
    change page_mask_4K with (Z.shiftl 0xfff0fffffffff 12). rewrite shiftl_testbit by lia.
    by destruct (Z.leb_spec 12 k); [lia|].
  - by rewrite (testbit_small 48) by lia.
Qed.

(** The parameters of a mapping come back from its entry: the frame, the
    protection and the owner flag. *)
Lemma entry_mapping_leaf phys prot flags : 0 <= phys < 2 ^ 48 ->
  entry_mapping (Z.lor (Z.land phys page_mask_4K) (convert_vm_params prot flags))
  = mk_mapping (align_down phys CONFIG_PAGE_SIZE) (Z.land prot 63) (Z.land flags VM_FLAG_OWNER) (has prot PROT_READ).
Proof.
  intros Hp. unfold entry_mapping. rewrite leaf_address by done.
  change PTE_PRESENT with (2 ^ 0). change PTE_WRITABLE with (2 ^ 1). change PTE_USER with (2 ^ 2).
  change PTE_WRITECOMBINING with (2 ^ 3). change PTE_CACHE_DISABLE with (2 ^ 4).
  change PTE_OWNER with (2 ^ 9). change PTE_NOEXEC with (2 ^ 63).
  rewrite !has_pow2, !leaf_bit by lia. unfold convert_vm_params. rewrite !or_if_testbit.
  unfold PROT_READ, PROT_WRITE, PROT_EXEC, PROT_USER, PROT_UNCACHED, PROT_WRITECOMBINE, VM_FLAG_OWNER.
  cbn -[has Z.land or_if]. rewrite ?andb_false_r, ?andb_true_r, ?orb_false_r, ?negb_involutive. simpl orb.
  rewrite ?orb_false_r. f_equal.
  - change 1 with (2 ^ 0). change 2 with (2 ^ 1). change 4 with (2 ^ 2). change 8 with (2 ^ 3).
    change 16 with (2 ^ 4). change 32 with (2 ^ 5). rewrite !has_pow2 by lia.
    change 63 with (Z.ones 6). apply Z.bits_inj'. intros i Hi. rewrite !or_if_testbit. bits_rewrite.
    destruct (Z.ltb_spec i 6); [|bits_case].
    assert (i = 0 \/ i = 1 \/ i = 2 \/ i = 3 \/ i = 4 \/ i = 5) as Hi6 by lia.
    destruct_or? Hi6; subst i; simpl; rewrite ?andb_false_r, ?andb_true_r, ?orb_false_r, ?negb_involutive; done.
  - change 16 with (2 ^ 4). rewrite has_pow2 by lia.
    apply Z.bits_inj'. intros i Hi. rewrite or_if_testbit. bits_rewrite. bits_case. by subst.
Qed.

(** ** Indices of an address *)

Lemma pagetable_index_spec v l : 1 <= l <= 4 ->
  get_pagetable_index v l = v / 2 ^ (12 + (l - 1) * 9) mod 512.
Proof.
  intros Hl. unfold get_pagetable_index. set (s := 12 + (l - 1) * 9).
  assert (12 <= s <= 39) as Hs by lia.
  change 0x1ff with (Z.ones 9). change 512 with (2 ^ 9).
  rewrite <- Z.land_ones, <- Z.shiftr_div_pow2 by lia. unfold u64.
  apply Z.bits_inj'. intros i Hi. bits_rewrite. bits_case.
  all: rewrite ?Z.add_simpl_r, ?ones_testbit by lia; bits_case.
Qed.

Lemma pagetable_index_range v l : 1 <= l <= 4 -> 0 <= get_pagetable_index v l < 512.
Proof. intros. rewrite pagetable_index_spec by done. by apply Z.mod_pos_bound. Qed.

(** The indices used for an address, from the root down. *)
Definition indices (virt : Z) : list Z := get_pagetable_index virt <$> [4; 3; 2; 1].

(** The page number an address selects: bits 12 to 47. *)
Definition page_number (virt : Z) : Z := (virt / CONFIG_PAGE_SIZE) mod 2 ^ 36.

Lemma indices_page v v' : indices v = indices v' -> page_number v = page_number v'.
Proof.
  unfold indices, page_number. cbn [fmap list_fmap]. rewrite !pagetable_index_spec by lia.
  change (12 + (4 - 1) * 9) with 39. change (12 + (3 - 1) * 9) with 30. change (12 + (2 - 1) * 9) with 21.
  change (12 + (1 - 1) * 9) with 12. change CONFIG_PAGE_SIZE with (2 ^ 12).
  assert (forall x, (x / 2 ^ 12) mod 2 ^ 36 = (x / 2 ^ 12) mod 512 + 512 * ((x / 2 ^ 21) mod 512
    + 512 * ((x / 2 ^ 30) mod 512 + 512 * ((x / 2 ^ 39) mod 512)))) as Hx.
  { intros x. change (2 ^ 36) with (512 * (512 * (512 * 512))).
    rewrite !Z.rem_mul_r by lia. rewrite !Z.div_div by lia. reflexivity. }
  rewrite !Hx. intros H. by injection H as -> -> -> ->.
Qed.

Lemma indices_range v : Forall (fun i => 0 <= i < 512) (indices v).
Proof. repeat constructor; apply pagetable_index_range; lia. Qed.

(** ** The walk along a path of indices *)
Section walk.
Context {St : Type} {PA : PageAllocator St}.
Implicit Types st : mmu_state (St := St).

(** The leaf entry of a path: [None] when a table on the way is missing. *)
Fixpoint entry_at st (t : Z) (path : list Z) : outcome (option Z) :=
  match path with
  | [] => Ok None
  | [i] => let* raw := read_entry st t i in Ok (Some raw)
  | i :: path =>
      let* pt := get_pte st t i in
      if pt =? 0 then Ok None else entry_at st pt path
  end.

(** Write [raw] at the end of a path, creating the tables that are missing. *)
Fixpoint map_path st (t : Z) (path : list Z) (raw : Z) : outcome mmu_state :=
  match path with
  | [] => Ok st
  | [i] => write_entry st t i raw
  | i :: path =>
      let* (pt, st) := get_or_create_pte st t i secflags in
      map_path st pt path raw
  end.

(** The same without creating tables. *)
Fixpoint set_path st (t : Z) (path : list Z) (raw : Z) : outcome mmu_state :=
  match path with
  | [] => Ok st
  | [i] => write_entry st t i raw
  | i :: path => let* pt := get_pte st t i in set_path st pt path raw
  end.

Lemma mmu_map_path st t phys virt prot flags :
  mmu_map st t phys virt prot flags
  = map_path st t (indices virt) (Z.lor (Z.land phys page_mask_4K) (convert_vm_params prot flags)).
Proof. reflexivity. Qed.

Lemma mmu_unmap_path st t virt : mmu_unmap st t virt = set_path st t (indices virt) 0.
Proof. reflexivity. Qed.

Lemma mmu_get_phys_path st t virt :
  mmu_get_phys st t virt
  = let* o := entry_at st t (indices virt) in
    Ok (match o with None => no_mapping | Some e => entry_mapping e end).
Proof.
  unfold mmu_get_phys. simpl. destruct (get_pte st t _) as [pdpt| | |]; simpl; try done.
  destruct (pdpt =? 0); [done|]. destruct (get_pte st pdpt _) as [pd| | |]; simpl; try done.
  destruct (pd =? 0); [done|]. destruct (get_pte st pd _) as [pt| | |]; simpl; try done.
  destruct (pt =? 0); [done|]. by destruct (read_entry st pt _).
Qed.

(** The table an entry points to, 0 for none. *)
Definition child (raw : Z) : Z :=
  if has raw PTE_PRESENT && negb (pte_address raw =? 0) then u64 (pte_address raw + VM_DMAP_BASE) else 0.

(** The tables below a root form a tree: [G] gives each table the path that
    leads to it, and so no table is reached along two paths.  Every table sits
    in a frame of its own. *)
Record tree st (root : Z) (G : gmap Z (list Z)) : Prop := {
  tr_root : G !! root = Some [];
  tr_depth : forall t pfx, G !! t = Some pfx -> (length pfx <= 3)%nat;
  tr_table : forall t pfx, G !! t = Some pfx ->
    exists ents, tables st !! t = Some ents /\ length ents = 512%nat /\
      forall i raw, ents !! i = Some raw -> (length pfx < 3)%nat ->
        child raw = 0 \/ G !! child raw = Some (pfx ++ [Z.of_nat i]);
  tr_own : forall t ents, tables st !! t = Some ents -> exists p, t = dmap p /\ page_owned (mpages st) p;
  tr_pages : pages_ok (mpages st);
}.

Lemma tree_read st root G t pfx i : tree st root G -> G !! t = Some pfx -> 0 <= i < 512 ->
  exists ents raw, tables st !! t = Some ents /\ length ents = 512%nat /\ ents !! Z.to_nat i = Some raw /\
    read_entry st t i = Ok raw /\ get_pte st t i = Ok (child raw) /\
    ((length pfx < 3)%nat -> child raw = 0 \/ G !! child raw = Some (pfx ++ [i])).
Proof.
  intros Htr Ht Hi. destruct (tr_table _ _ _ Htr t pfx Ht) as (ents & He & Hlen & Hch).
  destruct (aget_in ents i) as (raw & Hget & Hraw); [unfold zlen; lia|].
  exists ents, raw. do 3 (split; [done|]).
  assert (read_entry st t i = Ok raw) as Hr by (unfold read_entry; rewrite He; done).
  split; [done|]. split.
  - unfold get_pte, child. rewrite Hr. simpl. by destruct (_ && _)%bool.
  - intros Hl. specialize (Hch _ _ Hraw Hl). by rewrite Z2Nat.id in Hch by lia.
Qed.

Lemma tree_write st root G t pfx i raw : tree st root G -> G !! t = Some pfx -> 0 <= i < 512 ->
  exists ents, tables st !! t = Some ents /\ length ents = 512%nat /\
    write_entry st t i raw = Ok (mk_mmu (<[t := <[Z.to_nat i := raw]> ents]> (tables st)) (mpages st)).
Proof.
  intros Htr Ht Hi. destruct (tr_table _ _ _ Htr t pfx Ht) as (ents & He & Hlen & _).
  exists ents. do 2 (split; [done|]). unfold write_entry. rewrite He. simpl. by rewrite aset_in by (unfold zlen; lia).
Qed.

(** Only the tables below [t] matter for a walk from [t]. *)
Lemma entry_at_frame st st' root G path : forall t pfx,
  tree st root G -> G !! t = Some pfx -> (length pfx + length path <= 4)%nat ->
  Forall (fun i => 0 <= i < 512) path ->
  (forall t' sfx, G !! t' = Some (pfx ++ sfx) -> tables st' !! t' = tables st !! t') ->
  entry_at st' t path = entry_at st t path.
Proof.
  induction path as [|i path IH]; intros t pfx Htr Ht Hlen Hr Hsame; [done|].
  apply Forall_cons in Hr as [Hi Hr].
  assert (read_entry st' t i = read_entry st t i) as Hread.
  { unfold read_entry. rewrite (Hsame t []) by (by rewrite app_nil_r). done. }
  destruct (tree_read _ _ _ _ _ i Htr Ht Hi) as (ents & raw & _ & _ & _ & Hraw & Hget & Hch).
  destruct path as [|j path]; [simpl; by rewrite Hread|].
  assert (get_pte st' t i = Ok (child raw)) as Hget'.
  { revert Hget. unfold get_pte. by rewrite Hread. }
  cbn [entry_at]. rewrite Hget, Hget'. cbn [outcome_bind]. fold (entry_at st' (child raw) (j :: path)).
  fold (entry_at st (child raw) (j :: path)).
  destruct (Z.eqb_spec (child raw) 0); [done|]. destruct Hch as [?|Hch]; [simpl in Hlen; lia|done|].
  apply (IH _ (pfx ++ [i])); [done|done|rewrite length_app; simpl in *; lia|done|].
  intros t' sfx Ht'. apply (Hsame t' (i :: sfx)). by rewrite <- app_assoc in Ht'.
Qed.

Lemma child_0 : child 0 = 0.
Proof. reflexivity. Qed.

(** The entry [create_pte] writes points to the new table. *)
Lemma child_new p : 0 < p < dmap_frames ->
  child (Z.lor (Z.lor (Z.land (p * CONFIG_PAGE_SIZE) page_mask_4K) secflags) PTE_PRESENT) = dmap p.
Proof.
  intros Hp. change dmap_frames with 17179869184 in Hp.
  assert (0 <= p * CONFIG_PAGE_SIZE < 2 ^ 48) as Hr by page_lia.
  assert (pte_address (Z.lor (Z.lor (Z.land (p * CONFIG_PAGE_SIZE) page_mask_4K) secflags) PTE_PRESENT)
          = p * CONFIG_PAGE_SIZE) as Ha.
  { unfold pte_address. rewrite !Z.land_lor_distr_l.
    change (Z.land secflags 0x000ffffffffff000) with 0. change (Z.land PTE_PRESENT 0x000ffffffffff000) with 0.
    rewrite !Z.lor_0_r, <- Z.land_assoc.
    change (Z.land page_mask_4K 0x000ffffffffff000) with 0xfffffffff000. rewrite land_low_pages by done.
    rewrite (align_down_spec _ 12 : _ -> _ -> align_down (p * CONFIG_PAGE_SIZE) CONFIG_PAGE_SIZE = _) by lia.
    change (2 ^ 12) with CONFIG_PAGE_SIZE. by rewrite Z.div_mul. }
  unfold child. rewrite Ha. change PTE_PRESENT with (2 ^ 0) at 2. rewrite has_pow2, Z.lor_spec by lia.
  change (Z.testbit PTE_PRESENT 0) with true. rewrite orb_true_r.
  destruct (Z.eqb_spec (p * CONFIG_PAGE_SIZE) 0); [page_lia|]. simpl. apply dmap_u64.
  change dmap_frames with 17179869184. lia.
Qed.

Lemma tree_fresh st root G p pgs : tree st root G -> page_alloc (mpages st) = Ok (p * CONFIG_PAGE_SIZE, pgs) ->
  tables st !! dmap p = None /\ G !! dmap p = None.
Proof.
  intros Htr Ha. assert (tables st !! dmap p = None) as Ht.
  { destruct (tables st !! dmap p) as [ents|] eqn:Ht; [exfalso|done].
    destruct (tr_own _ _ _ Htr _ _ Ht) as (q & Hq & [_ Hf]). apply dmap_inj in Hq as <-.
    by destruct (page_alloc_owned _ _ _ (tr_pages _ _ _ Htr) Ha) as (_ & Hin & _). }
  split; [done|]. destruct (G !! dmap p) as [pfx|] eqn:HG; [exfalso|done].
  destruct (tr_table _ _ _ Htr _ _ HG) as (ents & He & _). congruence.
Qed.

Lemma create_spec st root G t pfx i : tree st root G -> G !! t = Some pfx -> (length pfx < 3)%nat -> 0 <= i < 512 ->
  (create_pte st t i secflags = Panic /\ pages_free (mpages st) = []) \/
  exists p pgs raw ents, create_pte st t i secflags
      = Ok (dmap p, mk_mmu (<[t := <[Z.to_nat i := raw]> ents]> (<[dmap p := replicate 512 0]> (tables st))) pgs) /\
    tables st !! t = Some ents /\ length ents = 512%nat /\ child raw = dmap p /\ dmap p <> 0 /\
    page_alloc (mpages st) = Ok (p * CONFIG_PAGE_SIZE, pgs) /\
    pages_free (mpages st) ≡ₚ p :: pages_free pgs.
Proof.
  intros Htr Ht Hl Hi. unfold create_pte.
  destruct (page_alloc_law _ (tr_pages _ _ _ Htr)) as [[-> Hf]|(p & pgs & Ha & Hok & Hperm & Hm)]; [by left|right].
  rewrite Ha. simpl. destruct (tree_fresh _ _ _ _ _ Htr Ha) as [Hft HfG].
  destruct (page_alloc_owned _ _ _ (tr_pages _ _ _ Htr) Ha) as (_ & Hin & [Hb _] & _).
  pose proof (pages_bound_dmap _ _ Hok (proj2 Hb)) as Hd.
  destruct (tr_table _ _ _ Htr t pfx Ht) as (ents & He & Hlen & _).
  rewrite dmap_u64 by lia. unfold write_entry. simpl.
  assert (t <> dmap p) by congruence. rewrite lookup_insert_ne by done. rewrite He. simpl.
  rewrite aset_in by (unfold zlen; lia). simpl. eexists p, pgs, _, ents. split; [done|].
  do 2 (split; [done|]). split; [apply child_new; lia|]. split; [|done].
  destruct (dmap_range p) as [? _]; [lia|]. unfold VM_DMAP_BASE in *. lia.
Qed.

Lemma create_tree st root G t pfx i p pgs raw ents : tree st root G -> G !! t = Some pfx -> (length pfx < 3)%nat ->
  0 <= i < 512 -> tables st !! t = Some ents -> length ents = 512%nat -> child raw = dmap p ->
  page_alloc (mpages st) = Ok (p * CONFIG_PAGE_SIZE, pgs) ->
  tree (mk_mmu (<[t := <[Z.to_nat i := raw]> ents]> (<[dmap p := replicate 512 0]> (tables st))) pgs)
    root (<[dmap p := pfx ++ [i]]> G).
Proof.
  intros Htr Ht Hl Hi He Hlen Hch Ha. destruct (tree_fresh _ _ _ _ _ Htr Ha) as [Hft HfG].
  destruct (page_alloc_owned _ _ _ (tr_pages _ _ _ Htr) Ha) as (Hok & _ & Hownp & _ & Howned).
  assert (t <> dmap p) as Hne by congruence.
  assert (forall c l, G !! c = Some l -> <[dmap p := pfx ++ [i]]> G !! c = Some l) as Hext.
  { intros c l Hc. rewrite lookup_insert_ne by congruence. done. }
  split; simpl.
  - apply Hext, (tr_root _ _ _ Htr).
  - intros t' l. rewrite lookup_insert_Some. intros [[_ <-]|[_ H']].
    + rewrite length_app. simpl. lia.
    + by apply (tr_depth _ _ _ Htr t').
  - intros t' l. rewrite lookup_insert_Some. intros [[<- <-]|[Hne' H']].
    + exists (replicate 512 0). rewrite lookup_insert_ne, lookup_insert_eq by done.
      split; [done|]. split; [by rewrite length_replicate|].
      intros k raw' Hk. apply lookup_replicate in Hk as [-> _]. by left.
    + destruct (tr_table _ _ _ Htr t' l H') as (ents' & He' & Hlen' & Hch').
      destruct (decide (t' = t)) as [->|Hnt].
      * simplify_eq. exists (<[Z.to_nat i := raw]> ents). rewrite lookup_insert_eq. split; [done|].
        split; [by rewrite length_insert|]. intros k raw' Hk Hl'.
        apply list_lookup_insert_Some in Hk as [(<- & <- & _)|[Hki Hk]].
        -- right. rewrite Hch, lookup_insert_eq, Z2Nat.id by lia. done.
        -- destruct (Hch' k raw' Hk Hl'); [by left|right; by apply Hext].
      * exists ents'. rewrite !lookup_insert_ne by done. do 2 (split; [done|]).
        intros k raw' Hk Hl'. destruct (Hch' k raw' Hk Hl'); [by left|right; by apply Hext].
  - intros t' ents'. rewrite !lookup_insert_Some. intros [[<- _]|[_ [[<- _]|[_ H']]]].
    + destruct (tr_own _ _ _ Htr _ _ He) as (q & -> & Hq). exists q. split; [done|]. apply Howned. by left.
    + by exists p.
    + destruct (tr_own _ _ _ Htr _ _ H') as (q & -> & Hq). exists q. split; [done|]. apply Howned. by left.
  - done.
Qed.

(** The leaf entry of a path when it is present. *)
Definition present_leaf st (t : Z) (path : list Z) : outcome (option Z) :=
  let* o := entry_at st t path in
  Ok (match o with Some e => if has e PTE_PRESENT then Some e else None | None => None end).

(** [st'] differs from [st] only in the leaf of [path] below [t] (and in
    tables created on the way there, which are not visible otherwise). *)
Record path_post st (t : Z) (pfx path : list Z) (raw : Z) st' (root : Z) (G G' : gmap Z (list Z)) : Prop := {
  pp_tree : tree st' root G';
  pp_sub : G ⊆ G';
  pp_leaf : entry_at st' t path = Ok (Some raw);
  pp_frame : forall t' ents, tables st !! t' = Some ents ->
    (forall sfx, G !! t' <> Some (pfx ++ sfx)) -> tables st' !! t' = Some ents;
  pp_other : forall path', length path' = length path -> Forall (fun i => 0 <= i < 512) path' ->
    path' <> path -> present_leaf st' t path' = present_leaf st t path';
}.

Lemma get_pte_read st t i raw : read_entry st t i = Ok raw -> get_pte st t i = Ok (child raw).
Proof. intros H. unfold get_pte, child. rewrite H. simpl. by destruct (_ && _)%bool. Qed.

Lemma entry_at_step st t i path raw : path <> [] -> read_entry st t i = Ok raw ->
  entry_at st t (i :: path) = if child raw =? 0 then Ok None else entry_at st (child raw) path.
Proof. intros Hp Hr. destruct path as [|j path]; [done|]. cbn [entry_at]. by rewrite (get_pte_read _ _ _ _ Hr). Qed.

Lemma write_leaf_post st root G t pfx i raw : tree st root G -> G !! t = Some pfx -> length pfx = 3%nat ->
  0 <= i < 512 -> exists st', write_entry st t i raw = Ok st' /\ path_post st t pfx [i] raw st' root G G.
Proof.
  intros Htr Ht Hl Hi. destruct (tree_write _ _ _ _ _ i raw Htr Ht Hi) as (ents & He & Hlen & Hrun).
  eexists. split; [exact Hrun|]. split.
  - split; simpl; [apply (tr_root _ _ _ Htr)|apply (tr_depth _ _ _ Htr)| | |apply (tr_pages _ _ _ Htr)].
    + intros t' l Ht'. destruct (decide (t' = t)) as [->|Hne].
      * eexists. rewrite lookup_insert_eq. split; [done|]. rewrite length_insert. split; [done|].
        intros. simplify_eq. lia.
      * rewrite lookup_insert_ne by done. by apply (tr_table _ _ _ Htr).
    + intros t' ents'. rewrite lookup_insert_Some. intros [[<- _]|[_ H']]; by eapply (tr_own _ _ _ Htr).
  - done.
  - cbn [entry_at]. unfold read_entry. simpl. rewrite lookup_insert_eq. simpl.
    destruct (aget_in (<[Z.to_nat i := raw]> ents) i) as (r & -> & Hr); [rewrite zlen_insert; unfold zlen; lia|].
    rewrite list_lookup_insert_eq in Hr by lia. simpl. by injection Hr as ->.
  - intros t' ents' Ht' Hno. simpl. rewrite lookup_insert_ne; [done|]. intros <-. apply (Hno []). by rewrite app_nil_r.
  - intros [|j [|? ?]] Hp Hr Hne; try done. apply Forall_cons in Hr as [Hj _].
    assert (j <> i) by congruence. unfold present_leaf. cbn [entry_at]. unfold read_entry. simpl.
    rewrite lookup_insert_eq, He. simpl.
    destruct (aget_in (<[Z.to_nat i := raw]> ents) j) as (r & -> & Hrj); [rewrite zlen_insert; unfold zlen; lia|].
    destruct (aget_in ents j) as (r' & -> & Hrj'); [unfold zlen; lia|].
    rewrite list_lookup_insert_ne in Hrj by lia. by simplify_eq.
Qed.

(** A walk that leaves [t] by entry [j] does not see a change below entry [i]. *)
Lemma other_branch st st' root G t pfx i j js : tree st root G -> G !! t = Some pfx ->
  (length pfx + S (length js) <= 4)%nat -> js <> [] -> Forall (fun i => 0 <= i < 512) (j :: js) -> j <> i ->
  read_entry st' t j = read_entry st t j ->
  (forall t' ents, tables st !! t' = Some ents -> t' <> t ->
     (forall sfx, G !! t' <> Some (pfx ++ [i] ++ sfx)) -> tables st' !! t' = Some ents) ->
  entry_at st' t (j :: js) = entry_at st t (j :: js).
Proof.
  intros Htr Ht Hlen Hjs Hr Hne Hread Hframe. apply Forall_cons in Hr as [Hj Hr].
  destruct (tree_read _ _ _ _ _ j Htr Ht Hj) as (ents & raw & _ & _ & _ & Hraw & _ & Hch).
  rewrite Hraw in Hread. rewrite (entry_at_step _ _ _ _ _ Hjs Hraw), (entry_at_step _ _ _ _ _ Hjs Hread).
  destruct (Z.eqb_spec (child raw) 0); [done|].
  assert (length js <> 0)%nat by (destruct js; [done|simpl; lia]).
  destruct Hch as [?|Hch]; [lia|done|].
  apply (entry_at_frame _ _ root G _ _ (pfx ++ [j])); [done|done|rewrite length_app; simpl; lia|done|].
  intros t' sfx Ht'. destruct (tr_table _ _ _ Htr _ _ Ht') as (ents' & He' & _). rewrite He'.
  apply Hframe; [done| |].
  - intros ->. rewrite Ht in Ht'. injection Ht' as Hp. apply (f_equal length) in Hp. rewrite !length_app in Hp. simpl in Hp. lia.
  - intros sfx' H'. rewrite H' in Ht'. injection Ht' as Hp. rewrite <- app_assoc in Hp.
    apply app_inv_head in Hp. simpl in Hp. congruence.
Qed.

Lemma present_leaf_step st t i path raw : path <> [] -> read_entry st t i = Ok raw ->
  present_leaf st t (i :: path) = if child raw =? 0 then Ok None else present_leaf st (child raw) path.
Proof.
  intros Hp Hr. unfold present_leaf. rewrite (entry_at_step _ _ _ _ _ Hp Hr). by destruct (child raw =? 0).
Qed.

(** Lifting a change below a child to its parent. *)
Lemma path_post_step st t pfx i path raw raw' st' root G G' : tree st root G -> G !! t = Some pfx ->
  (length pfx + S (length path) = 4)%nat -> path <> [] -> 0 <= i < 512 ->
  read_entry st t i = Ok raw -> child raw <> 0 -> G !! child raw = Some (pfx ++ [i]) ->
  path_post st (child raw) (pfx ++ [i]) path raw' st' root G G' -> path_post st t pfx (i :: path) raw' st' root G G'.
Proof.
  intros Htr Ht Hlen Hp Hi Hr Hc HG [Htr' Hsub Hleaf Hframe Hother].
  destruct (tr_table _ _ _ Htr t pfx Ht) as (ents & He & _).
  assert (tables st' !! t = Some ents) as He'.
  { apply Hframe; [done|]. intros sfx. rewrite Ht. intros [= H]. apply (f_equal length) in H.
    rewrite !length_app in H. simpl in H. lia. }
  assert (forall j, read_entry st' t j = read_entry st t j) as Hread by (intros j; unfold read_entry; by rewrite He, He').
  split; [done|done| | |].
  - rewrite (entry_at_step _ _ _ _ raw) by (by rewrite ?Hread). by destruct (Z.eqb_spec (child raw) 0).
  - intros t' ents' Ht' Hno. apply Hframe; [done|]. intros sfx. rewrite <- app_assoc. apply Hno.
  - intros [|j js] Hl Hf Hne; [done|]. simpl in Hl. assert (js <> []) by (intros ->; destruct path; done).
    destruct (decide (j = i)) as [->|Hji].
    + rewrite !(present_leaf_step _ _ _ _ raw) by (by rewrite ?Hread).
      destruct (Z.eqb_spec (child raw) 0); [done|]. apply Forall_cons in Hf as [_ Hf].
      apply Hother; [lia|done|congruence].
    + unfold present_leaf. rewrite (other_branch st st' root G t pfx i j js); try done; [lia|].
      intros t' ents' Ht' _ Hno. apply Hframe; [done|]. intros sfx. rewrite <- app_assoc. apply Hno.
Qed.

Lemma read_zero st t i : tables st !! t = Some (replicate 512 0) -> 0 <= i < 512 -> read_entry st t i = Ok 0.
Proof.
  intros Ht Hi. unfold read_entry. rewrite Ht. simpl. destruct (aget_in (replicate 512 0) i) as (r & -> & Hr).
  { unfold zlen. rewrite length_replicate. lia. }
  by apply lookup_replicate in Hr as [-> _].
Qed.

Lemma zero_leaf st t path : tables st !! t = Some (replicate 512 0) -> Forall (fun i => 0 <= i < 512) path ->
  present_leaf st t path = Ok None.
Proof.
  intros Ht Hr. destruct path as [|i path]; [done|]. apply Forall_cons in Hr as [Hi Hr].
  pose proof (read_zero _ _ _ Ht Hi) as Hread. destruct path as [|j path].
  - unfold present_leaf. cbn [entry_at]. by rewrite Hread.
  - rewrite (present_leaf_step _ _ _ _ 0); done.
Qed.

(** A table created below [t] is not visible. *)
Lemma create_invisible st root G t pfx i p pgs raw ents raw0 path' : tree st root G -> G !! t = Some pfx ->
  (length pfx < 3)%nat -> 0 <= i < 512 -> tables st !! t = Some ents -> length ents = 512%nat ->
  child raw = dmap p -> dmap p <> 0 -> read_entry st t i = Ok raw0 -> child raw0 = 0 ->
  page_alloc (mpages st) = Ok (p * CONFIG_PAGE_SIZE, pgs) ->
  (length pfx + length path' = 4)%nat -> Forall (fun i => 0 <= i < 512) path' ->
  present_leaf (mk_mmu (<[t := <[Z.to_nat i := raw]> ents]> (<[dmap p := replicate 512 0]> (tables st))) pgs) t path'
  = present_leaf st t path'.
Proof.
  intros Htr Ht Hl Hi He Hlen Hch Hnz Hr0 Hc0 Ha Hlp Hf. set (st1 := mk_mmu _ _).
  destruct (tree_fresh _ _ _ _ _ Htr Ha) as [Hft HfG].
  destruct path' as [|j js]; [simpl in Hlp; lia|]. simpl in Hlp.
  assert (js <> []) as Hjs by (intros ->; simpl in Hlp; lia). apply Forall_cons in Hf as [Hj Hf].
  assert (read_entry st1 t j = if decide (j = i) then Ok raw else read_entry st t j) as Hread.
  { unfold read_entry, st1. simpl. rewrite lookup_insert_eq, He. simpl.
    destruct (aget_in (<[Z.to_nat i := raw]> ents) j) as (r & -> & Hr); [rewrite zlen_insert; unfold zlen; lia|].
    destruct (decide (j = i)) as [->|]; [rewrite list_lookup_insert_eq in Hr by lia; by simplify_eq|].
    destruct (aget_in ents j) as (r' & -> & Hr'); [unfold zlen; lia|].
    rewrite list_lookup_insert_ne in Hr by lia. by simplify_eq. }
  destruct (decide (j = i)) as [->|Hne].
  - rewrite (present_leaf_step _ _ _ _ _ Hjs Hread), (present_leaf_step _ _ _ _ _ Hjs Hr0), Hc0, Hch. simpl.
    destruct (Z.eqb_spec (dmap p) 0); [done|]. apply zero_leaf; [|done]. unfold st1. simpl.
    rewrite lookup_insert_ne by congruence. apply lookup_insert_eq.
  - unfold present_leaf. rewrite (other_branch st st1 root G t pfx i j js); try done; [lia|by constructor|].
    intros t' ents' Ht' Hne' Hno. unfold st1. simpl. by rewrite !lookup_insert_ne by congruence.
Qed.

(** Lifting a change below a table just created to its parent. *)
Lemma path_post_created st root G t pfx i p pgs raw1 ents raw0 path raw st' G' :
  tree st root G -> G !! t = Some pfx -> (length pfx < 3)%nat -> 0 <= i < 512 ->
  (length pfx + S (length path) = 4)%nat -> path <> [] ->
  tables st !! t = Some ents -> length ents = 512%nat -> child raw1 = dmap p -> dmap p <> 0 ->
  read_entry st t i = Ok raw0 -> child raw0 = 0 -> page_alloc (mpages st) = Ok (p * CONFIG_PAGE_SIZE, pgs) ->
  path_post (mk_mmu (<[t := <[Z.to_nat i := raw1]> ents]> (<[dmap p := replicate 512 0]> (tables st))) pgs)
    (dmap p) (pfx ++ [i]) path raw st' root (<[dmap p := pfx ++ [i]]> G) G' ->
  path_post st t pfx (i :: path) raw st' root G G'.
Proof.
  intros Htr Ht Hl Hi Hlen Hp He Hlen1 Hch1 Hnz Hr0 Hc0 Ha.
  pose proof (create_tree _ _ _ _ _ _ _ _ _ _ Htr Ht Hl Hi He Hlen1 Hch1 Ha) as Htr1.
  destruct (tree_fresh _ _ _ _ _ Htr Ha) as [Hft HfG].
  set (st1 := mk_mmu _ _) in *. set (G1 := <[dmap p := pfx ++ [i]]> G) in *. intros Hpost.
  assert (read_entry st1 t i = Ok raw1) as Hr1.
  { unfold read_entry, st1. simpl. rewrite lookup_insert_eq. simpl.
    destruct (aget_in (<[Z.to_nat i := raw1]> ents) i) as (r & -> & Hrr); [rewrite zlen_insert; unfold zlen; lia|].
    rewrite list_lookup_insert_eq in Hrr by lia. by simplify_eq. }
  assert (path_post st1 t pfx (i :: path) raw st' root G1 G') as [A B C D E].
  { apply (path_post_step _ _ _ _ _ raw1); rewrite ?Hch1; try done.
    - unfold G1. rewrite lookup_insert_ne by congruence. done.
    - apply lookup_insert_eq. }
  split; [done| |done| |].
  - etrans; [|exact B]. by apply insert_subseteq.
  - intros t' ents' Ht' Hno. assert (t' <> t) by (intros ->; apply (Hno []); by rewrite app_nil_r).
    assert (t' <> dmap p) by congruence. apply D; [unfold st1; simpl; by rewrite !lookup_insert_ne by done|].
    unfold G1. by rewrite lookup_insert_ne by done.
  - intros path' Hlp Hf Hneq. rewrite E by done. eapply create_invisible; try done. simpl in Hlp. lia.
Qed.

Lemma map_path_spec raw path : forall st root G t pfx, tree st root G -> G !! t = Some pfx ->
  (length pfx + length path = 4)%nat -> path <> [] -> Forall (fun i => 0 <= i < 512) path ->
  (map_path st t path raw = Panic /\ (length (pages_free (mpages st)) < length path - 1)%nat) \/
  exists st' G', map_path st t path raw = Ok st' /\ path_post st t pfx path raw st' root G G'.
Proof.
  induction path as [|i path IH]; intros st root G t pfx Htr Ht Hlen Hne Hr; [done|].
  apply Forall_cons in Hr as [Hi Hr]. destruct (decide (path = [])) as [->|Hp].
  { simpl in Hlen. destruct (write_leaf_post st root G t pfx i raw Htr Ht) as (st' & Hrun & Hpost); [lia|done|].
    right. by exists st', G. }
  assert (length path <> 0)%nat as Hpl by (destruct path; [done|simpl; lia]).
  simpl in Hlen. assert (length pfx < 3)%nat as Hl by lia.
  destruct (tree_read _ _ _ _ _ i Htr Ht Hi) as (ents & raw0 & He & Hle & _ & Hraw0 & Hget & Hch).
  assert (map_path st t (i :: path) raw
          = let* (pt, st1) := get_or_create_pte st t i secflags in map_path st1 pt path raw) as -> by (by destruct path).
  unfold get_or_create_pte. rewrite Hget. cbn [outcome_bind].
  destruct (Z.eqb_spec (child raw0) 0) as [Hc0|Hc0]; simpl negb; cbn [outcome_bind].
  - destruct (create_spec _ _ _ _ _ _ Htr Ht Hl Hi)
      as [[-> Hf]|(p & pgs & raw1 & ents1 & Hrun & He1 & Hlen1 & Hch1 & Hnz & Ha & Hperm)].
    { left. rewrite Hf. simpl. split; [done|lia]. }
    simplify_eq. rewrite Hrun. cbn [outcome_bind].
    pose proof (create_tree _ _ _ _ _ _ _ _ _ _ Htr Ht Hl Hi He Hlen1 Hch1 Ha) as Htr1.
    destruct (IH _ root _ (dmap p) (pfx ++ [i]) Htr1) as [[-> Hc]|(st' & G' & -> & Hpost)];
      [apply lookup_insert_eq|rewrite length_app; simpl; lia|done|done| |].
    { left. split; [done|]. apply Permutation_length in Hperm. simpl in Hperm, Hc |- *. lia. }
    right. exists st', G'. split; [done|]. by eapply path_post_created.
  - destruct Hch as [?|Hch]; [done|done|].
    destruct (IH st root G (child raw0) (pfx ++ [i])) as [[-> Hc]|(st' & G' & -> & Hpost)];
      [done|done|rewrite length_app; simpl; lia|done|done| |].
    + left. simpl. split; [done|lia].
    + right. exists st', G'. split; [done|]. by apply (path_post_step _ _ _ _ _ raw0); try done; lia.
Qed.

Lemma tree_null st root G : tree st root G -> tables st !! 0 = None.
Proof.
  intros Htr. destruct (tables st !! 0) as [ents|] eqn:H0; [exfalso|done].
  destruct (tr_own _ _ _ Htr _ _ H0) as (p & Hp & [Hb _]). unfold dmap, VM_DMAP_BASE in Hp. page_lia.
Qed.

(** Without the tables of the path the write goes through the null pointer. *)
Lemma set_path_spec raw path : forall st root G t pfx, tree st root G -> G !! t = Some pfx ->
  (length pfx + length path = 4)%nat -> path <> [] -> Forall (fun i => 0 <= i < 512) path ->
  (set_path st t path raw = Fault /\ entry_at st t path = Ok None) \/
  exists st' old, set_path st t path raw = Ok st' /\ entry_at st t path = Ok (Some old) /\
    path_post st t pfx path raw st' root G G.
Proof.
  induction path as [|i path IH]; intros st root G t pfx Htr Ht Hlen Hne Hr; [done|].
  apply Forall_cons in Hr as [Hi Hr].
  destruct (tree_read _ _ _ _ _ i Htr Ht Hi) as (ents & raw0 & He & Hle & _ & Hraw0 & Hget & Hch).
  destruct (decide (path = [])) as [->|Hp].
  { simpl in Hlen. destruct (write_leaf_post st root G t pfx i raw Htr Ht) as (st' & Hrun & Hpost); [lia|done|].
    right. exists st', raw0. split; [done|]. split; [cbn [entry_at]; by rewrite Hraw0|done]. }
  assert (length path <> 0)%nat as Hpl by (destruct path; [done|simpl; lia]). simpl in Hlen.
  assert (set_path st t (i :: path) raw = set_path st (child raw0) path raw) as ->.
  { destruct path; [done|]. cbn [set_path]. by rewrite Hget. }
  rewrite (entry_at_step _ _ _ _ raw0) by done.
  destruct (Z.eqb_spec (child raw0) 0) as [Hc0|Hc0].
  - left. split; [|done]. rewrite Hc0. destruct path as [|j [|k path]]; [done|..]; simpl;
      unfold write_entry, get_pte, read_entry; by rewrite (tree_null _ _ _ Htr).
  - destruct Hch as [?|Hch]; [lia|done|].
    destruct (IH st root G (child raw0) (pfx ++ [i])) as [?|(st' & old & -> & -> & Hpost)];
      [done|done|rewrite length_app; simpl; lia|done|done|by left|].
    right. exists st', old. do 2 (split; [done|]). by apply (path_post_step _ _ _ _ _ raw0); try done; lia.
Qed.

(** The translation of an address, when it is mapped. *)
Definition translate st (root virt : Z) : outcome (option vm_mapping) :=
  let* m := mmu_get_phys st root virt in Ok (if m_present m then Some m else None).

Lemma translate_leaf st root virt :
  translate st root virt = let* o := present_leaf st root (indices virt) in Ok (entry_mapping <$> o).
Proof.
  unfold translate, present_leaf. rewrite mmu_get_phys_path.
  destruct (entry_at st root (indices virt)) as [[e|]| | |]; simpl; try done. by destruct (has e PTE_PRESENT).
Qed.

Lemma path_post_translate st root virt raw st' G G' virt' :
  path_post st root [] (indices virt) raw st' root G G' -> page_number virt' <> page_number virt ->
  translate st' root virt' = translate st root virt'.
Proof.
  intros [_ _ _ _ Hother] Hne. rewrite !translate_leaf, Hother; [done|done|apply indices_range|].
  intros Heq. by apply Hne, indices_page.
Qed.

(** A new root directory is an empty tree. *)
Lemma new_pgdir_tree pgs : pages_ok pgs -> forall r st', mmu_new_pgdir (mk_mmu ∅ pgs) = Ok (r, st') ->
  tree st' r {[r := []]}.
Proof.
  intros Hok r st'. unfold mmu_new_pgdir. simpl.
  destruct (page_alloc_law pgs Hok) as [[-> _]|(p & pgs' & Ha & Hok' & _)]; [done|]. rewrite Ha. simpl.
  destruct (page_alloc_owned _ _ _ Hok Ha) as (_ & _ & [Hb Hown] & _).
  pose proof (pages_bound_dmap _ _ Hok' (proj2 Hb)). rewrite dmap_u64 by lia. intros [= <- <-]. split; simpl.
  - apply lookup_insert_eq.
  - intros t pfx [<- <-]%lookup_singleton_Some. simpl. lia.
  - intros t pfx [<- <-]%lookup_singleton_Some. exists (replicate 512 0). rewrite lookup_insert_eq.
    split; [done|]. split; [by rewrite length_replicate|]. intros i raw [-> _]%lookup_replicate. by left.
  - intros t ents. rewrite lookup_insert_Some, lookup_empty. intros [[<- _]|[_ ?]]; [|done]. by exists p.
  - done.
Qed.

Lemma mmu_map_spec st root G phys virt prot flags : tree st root G -> 0 <= phys < 2 ^ 48 ->
  (mmu_map st root phys virt prot flags = Panic /\ (length (pages_free (mpages st)) < 3)%nat) \/
  exists st' G', mmu_map st root phys virt prot flags = Ok st' /\ G ⊆ G' /\ tree st' root G' /\
    mmu_get_phys st' root virt = Ok (mk_mapping (align_down phys CONFIG_PAGE_SIZE)
      (Z.land prot 63) (Z.land flags VM_FLAG_OWNER) (has prot PROT_READ)) /\
    (forall virt', page_number virt' <> page_number virt -> translate st' root virt' = translate st root virt').
Proof.
  intros Htr Hp. rewrite mmu_map_path.
  destruct (map_path_spec (Z.lor (Z.land phys page_mask_4K) (convert_vm_params prot flags)) (indices virt) st root G root [] Htr)
    as [[-> Hf]|(st' & G' & -> & Hpost)]; [apply (tr_root _ _ _ Htr)|done|done|apply indices_range|by left|].
  right. exists st', G'. split; [done|]. split; [apply Hpost|]. split; [apply Hpost|]. split.
  - rewrite mmu_get_phys_path, (pp_leaf _ _ _ _ _ _ _ _ _ Hpost). simpl. by rewrite entry_mapping_leaf.
  - intros virt' Hne. by eapply path_post_translate.
Qed.

(** Without the tables for an address [mmu_unmap] faults. *)
Lemma mmu_unmap_missing st root G virt : tree st root G -> entry_at st root (indices virt) = Ok None ->
  mmu_unmap st root virt = Fault.
Proof.
  intros Htr He. rewrite mmu_unmap_path.
  destruct (set_path_spec 0 (indices virt) st root G root [] Htr) as [[-> _]|(st' & old & _ & Hold & _)];
    [apply (tr_root _ _ _ Htr)|done|done|apply indices_range|done|congruence].
Qed.

(** C1: [mmu_map] makes the page of [virt] translate to the frame of [phys]
    with exactly the requested protection and owner flag, and leaves the
    translation of every other page as it was.  It panics only when fewer than
    three frames are free and never goes through a bad table pointer. *)
Theorem mmu_map_correct st root G phys virt prot flags : tree st root G -> 0 <= phys < 2 ^ 48 ->
  match mmu_map st root phys virt prot flags with
  | Ok st' =>
      (exists G', G ⊆ G' /\ tree st' root G') /\
      mmu_get_phys st' root virt = Ok (mk_mapping (align_down phys CONFIG_PAGE_SIZE)
        (Z.land prot 63) (Z.land flags VM_FLAG_OWNER) (has prot PROT_READ)) /\
      (forall virt', page_number virt' <> page_number virt ->
         translate st' root virt' = translate st root virt')
  | Panic => (length (pages_free (mpages st)) < 3)%nat
  | Fault | OutOfFuel => False
  end.
Proof.
  intros Htr Hp.
  destruct (mmu_map_spec st root G phys virt prot flags Htr Hp) as [[-> Hf]|(st' & G' & -> & ? & ? & ? & ?)]; [done|].
  split; [by exists G'|done].
Qed.

(** C9: [mmu_unmap] removes the translation of one page and of no other when
    the page tables for the address exist; when one is missing, as for an
    address that was never touched, it dereferences a null table pointer. *)
Theorem mmu_unmap_correct st root G virt : tree st root G ->
  (entry_at st root (indices virt) = Ok None /\ mmu_unmap st root virt = Fault) \/
  (exists st' old, entry_at st root (indices virt) = Ok (Some old) /\ mmu_unmap st root virt = Ok st' /\
     tree st' root G /\ translate st' root virt = Ok None /\
     forall virt', page_number virt' <> page_number virt -> translate st' root virt' = translate st root virt').
Proof.
  intros Htr. rewrite mmu_unmap_path.
  destruct (set_path_spec 0 (indices virt) st root G root [] Htr)
    as [[-> Hf]|(st' & old & -> & Hold & Hpost)]; [apply (tr_root _ _ _ Htr)|done|done|apply indices_range|by left|].
  right. exists st', old. do 2 (split; [done|]). split; [apply Hpost|]. split.
  - rewrite translate_leaf. unfold present_leaf. by rewrite (pp_leaf _ _ _ _ _ _ _ _ _ Hpost).
  - intros virt' Hne. by eapply path_post_translate.
Qed.
End walk.

(** Frames 1 to 8 free. *)
Definition pmm_eight : pmm := mk_pmm [510] 8 0.

Lemma pmm_eight_ok : pages_ok pmm_eight.
Proof.
  split; [split|split].
  - repeat constructor; lia.
  - vm_compute. discriminate.
  - reflexivity.
  - vm_compute. discriminate.
  - vm_compute. set_solver.
Qed.

Lemma mmu_map_correct_witness : exists r st0 st1,
  mmu_new_pgdir (mk_mmu ∅ pmm_eight) = Ok (r, st0) /\
  mmu_map st0 r 0x7000 0x400000 (Z.lor PROT_READ PROT_USER) VM_FLAG_OWNER = Ok st1 /\
  mmu_get_phys st1 r 0x400000 = Ok (mk_mapping 0x7000 9 16 true).
Proof.
  destruct (mmu_new_pgdir (mk_mmu ∅ pmm_eight)) as [[r st0]| | |] eqn:E; [|vm_compute in E; discriminate..].
  pose proof (new_pgdir_tree pmm_eight pmm_eight_ok r st0 E) as Htr.
  pose proof (mmu_map_correct st0 r _ 0x7000 0x400000 (Z.lor PROT_READ PROT_USER) VM_FLAG_OWNER Htr ltac:(lia)) as H.
  destruct (mmu_map st0 r _ _ _ _) as [st1| | |] eqn:E1.
  - destruct H as (_ & Hget & _). exists r, st0, st1. split; [done|]. split; [exact E1|]. exact Hget.
  - exfalso. clear Htr E1. vm_compute in E. injection E as _ <-. vm_compute in H. lia.
  - destruct H.
  - destruct H.
Defined.

Lemma mmu_unmap_correct_witness : exists r st0,
  mmu_new_pgdir (mk_mmu ∅ pmm_eight) = Ok (r, st0) /\ mmu_unmap st0 r 0x400000 = Fault.
Proof.
  destruct (mmu_new_pgdir (mk_mmu ∅ pmm_eight)) as [[r st0]| | |] eqn:E; [|vm_compute in E; discriminate..].
  pose proof (new_pgdir_tree pmm_eight pmm_eight_ok r st0 E) as Htr.
  destruct (mmu_unmap_correct st0 r _ 0x400000 Htr) as [[_ H]|(st' & old & H & _)].
  - exists r, st0. split; [done|exact H].
  - exfalso. clear Htr. vm_compute in E. injection E as <- <-. vm_compute in H. discriminate.
Defined.
