(* ===== verification/Sync.v ===== *)
(** * Spin locks and reference counts with a lock

    kernel/include/sys/spinlock.h and reflock.h.  A ticket lock is modelled as
    a transition system over any number of threads: taking a ticket, seeing
    one's ticket served, and releasing are single atomic accesses.  Tickets
    are 16-bit and wrap. *)

From stdpp Require Import base numbers list gmap sets relations.
From Stdlib Require Import ZArith Lia.
From S2P Require Import Prelude.

(** ** The ticket lock *)

Record spinlock_t := mk_spin { next_ticket : Z; now_serving : Z }.

Definition spinlock_init : spinlock_t := mk_spin 0 0.

(** The fetch-and-add of [spinlock_acquire]: the ticket drawn. *)
Definition spin_draw (l : spinlock_t) : Z * spinlock_t :=
  (next_ticket l, mk_spin (u16 (next_ticket l + 1)) (now_serving l)).

(** One round of its loop: is the ticket served? *)
Definition spin_served (l : spinlock_t) (ticket : Z) : bool := now_serving l =? ticket.

Definition spinlock_release (l : spinlock_t) : spinlock_t :=
  mk_spin (next_ticket l) (u16 (now_serving l + 1)).

(** [spinlock_acquire] by a single thread: it draws a ticket and spins for up
    to [fuel] rounds while nobody else changes the lock. *)
Fixpoint spin_wait (fuel : nat) (l : spinlock_t) (ticket : Z) : outcome spinlock_t :=
  match fuel with
  | O => OutOfFuel
  | S fuel => if spin_served l ticket then Ok l else spin_wait fuel l ticket
  end.
Definition spinlock_acquire (fuel : nat) (l : spinlock_t) : outcome spinlock_t :=
  let '(ticket, l) := spin_draw l in spin_wait fuel l ticket.

(** Where a thread is: outside, spinning with a ticket, or in the critical section. *)
Inductive spin_pc := Outside | Spinning (ticket : Z) | Inside (ticket : Z).

Record spin_sys := mk_spin_sys { the_lock : spinlock_t; threads : list spin_pc }.

Definition ticket_of (pc : spin_pc) : option Z :=
  match pc with Outside => None | Spinning t | Inside t => Some t end.

Inductive spin_step : spin_sys -> spin_sys -> Prop :=
  | step_draw s i t l :
      threads s !! i = Some Outside -> spin_draw (the_lock s) = (t, l) ->
      spin_step s (mk_spin_sys l (<[i := Spinning t]> (threads s)))
  | step_spin s i t :
      threads s !! i = Some (Spinning t) -> spin_served (the_lock s) t = false -> spin_step s s
  | step_enter s i t :
      threads s !! i = Some (Spinning t) -> spin_served (the_lock s) t = true ->
      spin_step s (mk_spin_sys (the_lock s) (<[i := Inside t]> (threads s)))
  | step_release s i t :
      threads s !! i = Some (Inside t) ->
      spin_step s (mk_spin_sys (spinlock_release (the_lock s)) (<[i := Outside]> (threads s))).

Definition spin_start (n : nat) : spin_sys := mk_spin_sys spinlock_init (replicate n Outside).

(** [q] lists the threads that drew a ticket and did not release, oldest first. *)
Record spin_inv (s : spin_sys) (q : list nat) : Prop := {
  si_nodup : NoDup q;
  si_ticket : forall k i, q !! k = Some i ->
    threads s !! i ≫= ticket_of = Some (u16 (now_serving (the_lock s) + Z.of_nat k));
  si_all : forall i t, threads s !! i ≫= ticket_of = Some t -> i ∈ q;
  si_inside : forall i t, threads s !! i = Some (Inside t) -> head q = Some i;
  si_next : next_ticket (the_lock s) = u16 (now_serving (the_lock s) + Z.of_nat (length q));
  si_now : 0 <= now_serving (the_lock s) < 2 ^ 16;
}.

Lemma u16_add a b : u16 (u16 a + b) = u16 (a + b).
Proof. unfold u16, wrap. by rewrite Zplus_mod_idemp_l. Qed.

Lemma u16_inj_range a j k : 0 <= j < 2 ^ 16 -> 0 <= k < 2 ^ 16 -> u16 (a + j) = u16 (a + k) -> j = k.
Proof.
  unfold u16, wrap. intros Hj Hk Heq.
  assert ((j - k) mod 2 ^ 16 = 0) as Hz.
  { replace (j - k) with ((a + j) - (a + k)) by lia. rewrite Zminus_mod, Heq, Z.sub_diag. done. }
  apply Z.mod_divide in Hz as [c Hc]; [|done]. nia.
Qed.

Lemma spin_inv_length s q : spin_inv s q -> (length q <= length (threads s))%nat.
Proof.
  intros Hinv. rewrite <- (length_seq (length (threads s)) 0).
  apply submseteq_length, NoDup_submseteq; [apply Hinv|]. intros i Hi.
  apply list_elem_of_lookup in Hi as [k Hk]. pose proof (si_ticket _ _ Hinv k i Hk) as Ht.
  destruct (threads s !! i) eqn:E; [|done]. apply elem_of_seq. apply lookup_lt_Some in E. lia.
Qed.

Lemma threads_insert_ticket ts i pc j : (i < length ts)%nat ->
  (<[i := pc]> ts !! j : option spin_pc) ≫= ticket_of
  = if decide (j = i) then ticket_of pc else ts !! j ≫= ticket_of.
Proof.
  intros Hi. destruct (decide (j = i)) as [->|]; [by rewrite list_lookup_insert_eq by done|].
  by rewrite list_lookup_insert_ne by done.
Qed.

Lemma spin_draw_inv s q i t l : spin_inv s q -> threads s !! i = Some Outside ->
  spin_draw (the_lock s) = (t, l) -> spin_inv (mk_spin_sys l (<[i := Spinning t]> (threads s))) (q ++ [i]).
Proof.
  intros Hinv Hi [= <- <-]. pose proof (lookup_lt_Some _ _ _ Hi) as Hlt.
  assert (i ∉ q) as Hni.
  { intros [k Hk]%list_elem_of_lookup. pose proof (si_ticket _ _ Hinv k i Hk) as Ht. by rewrite Hi in Ht. }
  split; simpl.
  - apply NoDup_app. split; [apply Hinv|]. split; [set_solver|]. apply NoDup_singleton.
  - intros k j Hk. rewrite threads_insert_ticket by done. apply lookup_app_Some in Hk as [Hk|[Hk1 Hk2]].
    + destruct (decide (j = i)) as [->|]; [|by apply Hinv].
      apply list_elem_of_lookup_2 in Hk. done.
    + apply list_lookup_singleton_Some in Hk2 as [Hk2 <-]. rewrite decide_True by done. simpl.
      rewrite (si_next _ _ Hinv). do 3 f_equal. lia.
  - intros j t. rewrite threads_insert_ticket by done. destruct (decide (j = i)); [set_solver|].
    intros Ht. apply elem_of_app. left. by eapply Hinv.
  - intros j t Hj. destruct (decide (j = i)) as [->|].
    + rewrite list_lookup_insert_eq in Hj by done. done.
    + rewrite list_lookup_insert_ne in Hj by done. pose proof (si_inside _ _ Hinv j t Hj) as Hh. destruct q; [done|]. done.
  - rewrite (si_next _ _ Hinv), u16_add, length_app. simpl. f_equal. lia.
  - apply Hinv.
Qed.

(** A thread whose ticket is served is the oldest of the queue. *)
Lemma spin_served_head s q i t : spin_inv s q -> (length (threads s) <= Z.to_nat (2 ^ 16))%nat ->
  threads s !! i ≫= ticket_of = Some t -> spin_served (the_lock s) t = true -> head q = Some i.
Proof.
  intros Hinv Hn Hi Hs. apply Z.eqb_eq in Hs. pose proof (spin_inv_length _ _ Hinv) as Hlen.
  pose proof (si_all _ _ Hinv i t Hi) as [k Hk]%list_elem_of_lookup.
  pose proof (si_ticket _ _ Hinv k i Hk) as Ht. rewrite Hi in Ht. injection Ht as Ht.
  pose proof (lookup_lt_Some _ _ _ Hk). pose proof (si_now _ _ Hinv).
  assert (Z.of_nat k = 0) as Hk0.
  { apply (u16_inj_range (now_serving (the_lock s))); [lia|lia|]. rewrite Z.add_0_r, <- Ht, <- Hs.
    symmetry. by apply u16_small. }
  assert (k = 0%nat) as -> by lia. destruct q; [done|]. simpl in Hk. by simplify_eq.
Qed.

Lemma spin_enter_inv s q i t : spin_inv s q -> (length (threads s) <= Z.to_nat (2 ^ 16))%nat ->
  threads s !! i = Some (Spinning t) -> spin_served (the_lock s) t = true ->
  spin_inv (mk_spin_sys (the_lock s) (<[i := Inside t]> (threads s))) q.
Proof.
  intros Hinv Hn Hi Hs. pose proof (lookup_lt_Some _ _ _ Hi) as Hlt.
  assert (threads s !! i ≫= ticket_of = Some t) as Hti by (by rewrite Hi).
  assert (forall j, <[i := Inside t]> (threads s) !! j ≫= ticket_of = threads s !! j ≫= ticket_of) as Heq.
  { intros j. rewrite threads_insert_ticket by done. destruct (decide (j = i)) as [->|]; [by rewrite Hti|done]. }
  split; simpl.
  - apply Hinv.
  - intros k j Hk. rewrite Heq. by apply Hinv.
  - intros j t'. rewrite Heq. apply Hinv.
  - intros j t' Hj. destruct (decide (j = i)) as [->|].
    + by eapply spin_served_head.
    + rewrite list_lookup_insert_ne in Hj by done. by eapply Hinv.
  - apply Hinv.
  - apply Hinv.
Qed.

Lemma spin_release_inv s q i t : spin_inv s q -> threads s !! i = Some (Inside t) ->
  spin_inv (mk_spin_sys (spinlock_release (the_lock s)) (<[i := Outside]> (threads s))) (tail q).
Proof.
  intros Hinv Hi. pose proof (lookup_lt_Some _ _ _ Hi) as Hlt. pose proof (si_inside _ _ Hinv i t Hi) as Hh.
  destruct q as [|i' q]; [done|]. injection Hh as ->. simpl tail.
  pose proof (si_nodup _ _ Hinv) as [Hni Hnd]%NoDup_cons.
  split; simpl.
  - done.
  - intros k j Hk. rewrite threads_insert_ticket by done. rewrite decide_False.
    2: { intros ->. apply list_elem_of_lookup_2 in Hk. done. }
    rewrite (si_ticket _ _ Hinv (S k) j Hk), u16_add. do 2 f_equal. lia.
  - intros j t' Hj. rewrite threads_insert_ticket in Hj by done. destruct (decide (j = i)); [done|].
    pose proof (si_all _ _ Hinv j t' Hj). set_solver.
  - intros j t' Hj. destruct (decide (j = i)) as [->|Hne].
    + rewrite list_lookup_insert_eq in Hj by done. done.
    + rewrite list_lookup_insert_ne in Hj by done. pose proof (si_inside _ _ Hinv j t' Hj) as Hh. simpl in Hh. congruence.
  - rewrite (si_next _ _ Hinv), u16_add. simpl. f_equal. lia.
  - apply u16_range.
Qed.

Lemma spin_reachable n s : (n <= Z.to_nat (2 ^ 16))%nat -> rtc spin_step (spin_start n) s ->
  length (threads s) = n /\ exists q, spin_inv s q.
Proof.
  intros Hn. revert s. apply (rtc_ind_r _ (spin_start n)); [|intros s1 s2 _ Hstep [Hlen [q Hinv]]].
  - split; [apply length_replicate|]. exists []. unfold spin_start. split; simpl; try done; try lia.
    + constructor.
    + intros i t Hi. destruct (replicate n Outside !! i) eqn:E; [|done]. by apply lookup_replicate in E as [-> _].
    + intros i t Hi. by apply lookup_replicate in Hi as [? _].
  - rewrite <- Hlen in Hn.
    destruct Hstep as [s i t l Hi Hd|s i t Hi Hd|s i t Hi Hd|s i t Hi]; simpl; rewrite ?length_insert;
      (split; [done|]); eexists; eauto using spin_draw_inv, spin_enter_inv, spin_release_inv.
Qed.

(** C14: the ticket lock excludes: with at most 2^16 threads, in every
    reachable state at most one thread is in the critical section, and it
    holds the ticket being served; and it cannot hang: whenever some thread
    has drawn a ticket, a thread is inside or may enter at once. *)
Theorem spinlock_mutual_exclusion n s : (n <= Z.to_nat (2 ^ 16))%nat -> rtc spin_step (spin_start n) s ->
  (forall i j t u, threads s !! i = Some (Inside t) -> threads s !! j = Some (Inside u) -> i = j) /\
  (forall i t, threads s !! i = Some (Inside t) -> spin_served (the_lock s) t = true) /\
  (forall i t, threads s !! i = Some (Spinning t) -> exists j u, threads s !! j = Some (Inside u) \/
     (threads s !! j = Some (Spinning u) /\ spin_served (the_lock s) u = true)).
Proof.
  intros Hn Hr. destruct (spin_reachable n s Hn Hr) as [Hlen [q Hinv]].
  assert (forall i k, q !! k = Some i -> head q = Some i -> threads s !! i ≫= ticket_of = Some (now_serving (the_lock s))) as Hhead.
  { intros i k _ Hh. destruct q as [|i' q]; [done|]. injection Hh as ->.
    rewrite (si_ticket _ _ Hinv 0 i eq_refl), Z.add_0_r, u16_small; [done|apply Hinv]. }
  split; [|split].
  - intros i j t u Hi Hj. pose proof (si_inside _ _ Hinv i t Hi). pose proof (si_inside _ _ Hinv j u Hj). congruence.
  - intros i t Hi. pose proof (si_inside _ _ Hinv i t Hi) as Hh. apply Z.eqb_eq.
    assert (i ∈ q) as [k Hk]%list_elem_of_lookup by (destruct q; [done|]; injection Hh as ->; set_solver).
    specialize (Hhead i k Hk Hh). rewrite Hi in Hhead. simpl in Hhead. congruence.
  - intros i t Hi. assert (i ∈ q) as Hin by (eapply (si_all _ _ Hinv); by rewrite Hi).
    destruct q as [|j q]; [set_solver|]. specialize (Hhead j 0%nat eq_refl eq_refl). exists j.
    destruct (threads s !! j) as [[|u|u]|] eqn:Hj; simpl in Hhead; try done; exists u; [right|by left].
    split; [done|]. apply Z.eqb_eq. congruence.
Qed.

(** Two threads: one inside, one spinning behind it. *)
Lemma spinlock_mutual_exclusion_witness :
  let s := mk_spin_sys (mk_spin 2 0) [Inside 0; Spinning 1] in
  rtc spin_step (spin_start 2) s /\ spin_served (the_lock s) 0 = true.
Proof.
  assert (rtc spin_step (spin_start 2) (mk_spin_sys (mk_spin 2 0) [Inside 0; Spinning 1])) as Hr.
  { eapply rtc_l; [by apply (step_draw _ 0 0 (mk_spin 1 0))|]. simpl.
    eapply rtc_l; [by apply (step_draw _ 1 1 (mk_spin 2 0))|]. simpl.
    eapply rtc_l; [by apply (step_enter _ 0 0)|]. simpl. apply rtc_refl. }
  split; [exact Hr|].
  apply (proj1 (proj2 (spinlock_mutual_exclusion 2 _ ltac:(lia) Hr)) 0%nat 0). reflexivity.
Defined.

(** ** Reference counts with a lock *)

Record reflock_t := mk_ref { ref_lock : spinlock_t; ref_count : Z }.

Definition reflock_init : reflock_t := mk_ref spinlock_init 0.

Definition reflock_acquire (r : reflock_t) : reflock_t := mk_ref (ref_lock r) (u32 (ref_count r + 1)).

(** [true] is returned with the lock held. *)
Definition reflock_release_or_lock (fuel : nat) (r : reflock_t) : outcome (bool * reflock_t) :=
  let r' := mk_ref (ref_lock r) (u32 (ref_count r - 1)) in
  if 1 <? ref_count r then Ok (false, r')
  else
    let* l := spinlock_acquire fuel (ref_lock r') in
    Ok (true, mk_ref l (ref_count r')).

(** A lock that nobody holds or waits for. *)
Definition spin_idle (l : spinlock_t) : Prop := next_ticket l = now_serving l /\ 0 <= now_serving l < 2 ^ 16.

Lemma spinlock_acquire_idle l fuel : spin_idle l -> (0 < fuel)%nat ->
  spinlock_acquire fuel l = Ok (mk_spin (u16 (now_serving l + 1)) (now_serving l)).
Proof.
  intros [He Hr] Hf. unfold spinlock_acquire, spin_draw. destruct fuel as [|fuel]; [lia|]. simpl.
  unfold spin_served. simpl. by rewrite He, Z.eqb_refl.
Qed.

(** Acquire and release of a lock that is idle leave it idle. *)
Lemma spin_release_idle l : spin_idle l ->
  spin_idle (spinlock_release (mk_spin (u16 (now_serving l + 1)) (now_serving l))).
Proof. intros [He Hr]. split; simpl; [done|apply u16_range]. Qed.

(** Only the holder of the last reference is told so. *)
Lemma reflock_release_spec r fuel : 1 <= ref_count r < 2 ^ 32 -> spin_idle (ref_lock r) -> (0 < fuel)%nat ->
  exists l, reflock_release_or_lock fuel r = Ok (ref_count r =? 1, mk_ref l (ref_count r - 1)) /\
    (ref_count r <> 1 -> l = ref_lock r).
Proof.
  intros Hc Hidle Hf. unfold reflock_release_or_lock. rewrite (u32_small (ref_count r - 1)) by lia.
  destruct (Z.ltb_spec 1 (ref_count r)); destruct (Z.eqb_spec (ref_count r) 1); try lia.
  - by eexists.
  - simpl. rewrite spinlock_acquire_idle by done. simpl. by eexists.
Qed.
