(* ===== verification/Sched.v ===== *)
(** * Tasks and the scheduler

    kernel/include/sched/task.h, kernel/sched/scheduler.c and the task table of
    kernel/sched/task.c.  A task is named by its address; 0 is the null
    pointer.  The global task list, the children of a task and the run queues
    are intrusive lists, here sequences of task addresses (KList.v shows that
    the list operations refine them).  Each processor has its run queue, its
    idle task and the task it runs. *)

From stdpp Require Import base numbers list gmap sets.
From Stdlib Require Import ZArith Lia.
From S2P Require Import Prelude.

Inductive task_status :=
  | TASK_RUNNING | TASK_SLEEPING | TASK_INTR_SLEEPING | TASK_ZOMBIE | TASK_STOPPED.

#[export] Instance task_status_eq_dec : EqDecision task_status.
Proof. solve_decision. Defined.

Definition TASK_CAN_REAP : Z := 1.

Record cred_t := mk_cred { c_uid : Z; c_euid : Z; c_suid : Z; c_gid : Z; c_egid : Z; c_sgid : Z }.

Record task := mk_task {
  t_name : list Z;
  t_flags : Z;
  t_status : task_status;
  t_rsp0 : Z;
  t_rsp : Z;
  t_vm_space : Z;
  t_pid : Z;
  t_tgid : Z;
  t_pgid : Z;
  t_sid : Z;
  t_parent : Z;
  t_children : list Z;
  t_cred : cred_t;
  t_cwd : Z;
  t_tty : Z;
  t_open_files : list Z;
  t_return_status : Z;
  t_return_signal : Z;
  t_sig_pending : Z;
  t_sig_blocked : Z;
}.

Definition set_t_name (v : list Z) (t : task) : task :=
  mk_task v (t_flags t) (t_status t) (t_rsp0 t) (t_rsp t) (t_vm_space t) (t_pid t) (t_tgid t) (t_pgid t) (t_sid t) (t_parent t) (t_children t) (t_cred t) (t_cwd t) (t_tty t) (t_open_files t) (t_return_status t) (t_return_signal t) (t_sig_pending t) (t_sig_blocked t).
Definition set_t_flags (v : Z) (t : task) : task :=
  mk_task (t_name t) v (t_status t) (t_rsp0 t) (t_rsp t) (t_vm_space t) (t_pid t) (t_tgid t) (t_pgid t) (t_sid t) (t_parent t) (t_children t) (t_cred t) (t_cwd t) (t_tty t) (t_open_files t) (t_return_status t) (t_return_signal t) (t_sig_pending t) (t_sig_blocked t).
Definition set_t_status (v : task_status) (t : task) : task :=
  mk_task (t_name t) (t_flags t) v (t_rsp0 t) (t_rsp t) (t_vm_space t) (t_pid t) (t_tgid t) (t_pgid t) (t_sid t) (t_parent t) (t_children t) (t_cred t) (t_cwd t) (t_tty t) (t_open_files t) (t_return_status t) (t_return_signal t) (t_sig_pending t) (t_sig_blocked t).
Definition set_t_rsp0 (v : Z) (t : task) : task :=
  mk_task (t_name t) (t_flags t) (t_status t) v (t_rsp t) (t_vm_space t) (t_pid t) (t_tgid t) (t_pgid t) (t_sid t) (t_parent t) (t_children t) (t_cred t) (t_cwd t) (t_tty t) (t_open_files t) (t_return_status t) (t_return_signal t) (t_sig_pending t) (t_sig_blocked t).
Definition set_t_rsp (v : Z) (t : task) : task :=
  mk_task (t_name t) (t_flags t) (t_status t) (t_rsp0 t) v (t_vm_space t) (t_pid t) (t_tgid t) (t_pgid t) (t_sid t) (t_parent t) (t_children t) (t_cred t) (t_cwd t) (t_tty t) (t_open_files t) (t_return_status t) (t_return_signal t) (t_sig_pending t) (t_sig_blocked t).
Definition set_t_vm_space (v : Z) (t : task) : task :=
  mk_task (t_name t) (t_flags t) (t_status t) (t_rsp0 t) (t_rsp t) v (t_pid t) (t_tgid t) (t_pgid t) (t_sid t) (t_parent t) (t_children t) (t_cred t) (t_cwd t) (t_tty t) (t_open_files t) (t_return_status t) (t_return_signal t) (t_sig_pending t) (t_sig_blocked t).
Definition set_t_pid (v : Z) (t : task) : task :=
  mk_task (t_name t) (t_flags t) (t_status t) (t_rsp0 t) (t_rsp t) (t_vm_space t) v (t_tgid t) (t_pgid t) (t_sid t) (t_parent t) (t_children t) (t_cred t) (t_cwd t) (t_tty t) (t_open_files t) (t_return_status t) (t_return_signal t) (t_sig_pending t) (t_sig_blocked t).
Definition set_t_tgid (v : Z) (t : task) : task :=
  mk_task (t_name t) (t_flags t) (t_status t) (t_rsp0 t) (t_rsp t) (t_vm_space t) (t_pid t) v (t_pgid t) (t_sid t) (t_parent t) (t_children t) (t_cred t) (t_cwd t) (t_tty t) (t_open_files t) (t_return_status t) (t_return_signal t) (t_sig_pending t) (t_sig_blocked t).
Definition set_t_pgid (v : Z) (t : task) : task :=
  mk_task (t_name t) (t_flags t) (t_status t) (t_rsp0 t) (t_rsp t) (t_vm_space t) (t_pid t) (t_tgid t) v (t_sid t) (t_parent t) (t_children t) (t_cred t) (t_cwd t) (t_tty t) (t_open_files t) (t_return_status t) (t_return_signal t) (t_sig_pending t) (t_sig_blocked t).
Definition set_t_sid (v : Z) (t : task) : task :=
  mk_task (t_name t) (t_flags t) (t_status t) (t_rsp0 t) (t_rsp t) (t_vm_space t) (t_pid t) (t_tgid t) (t_pgid t) v (t_parent t) (t_children t) (t_cred t) (t_cwd t) (t_tty t) (t_open_files t) (t_return_status t) (t_return_signal t) (t_sig_pending t) (t_sig_blocked t).
Definition set_t_parent (v : Z) (t : task) : task :=
  mk_task (t_name t) (t_flags t) (t_status t) (t_rsp0 t) (t_rsp t) (t_vm_space t) (t_pid t) (t_tgid t) (t_pgid t) (t_sid t) v (t_children t) (t_cred t) (t_cwd t) (t_tty t) (t_open_files t) (t_return_status t) (t_return_signal t) (t_sig_pending t) (t_sig_blocked t).
Definition set_t_children (v : list Z) (t : task) : task :=
  mk_task (t_name t) (t_flags t) (t_status t) (t_rsp0 t) (t_rsp t) (t_vm_space t) (t_pid t) (t_tgid t) (t_pgid t) (t_sid t) (t_parent t) v (t_cred t) (t_cwd t) (t_tty t) (t_open_files t) (t_return_status t) (t_return_signal t) (t_sig_pending t) (t_sig_blocked t).
Definition set_t_cred (v : cred_t) (t : task) : task :=
  mk_task (t_name t) (t_flags t) (t_status t) (t_rsp0 t) (t_rsp t) (t_vm_space t) (t_pid t) (t_tgid t) (t_pgid t) (t_sid t) (t_parent t) (t_children t) v (t_cwd t) (t_tty t) (t_open_files t) (t_return_status t) (t_return_signal t) (t_sig_pending t) (t_sig_blocked t).
Definition set_t_cwd (v : Z) (t : task) : task :=
  mk_task (t_name t) (t_flags t) (t_status t) (t_rsp0 t) (t_rsp t) (t_vm_space t) (t_pid t) (t_tgid t) (t_pgid t) (t_sid t) (t_parent t) (t_children t) (t_cred t) v (t_tty t) (t_open_files t) (t_return_status t) (t_return_signal t) (t_sig_pending t) (t_sig_blocked t).
Definition set_t_tty (v : Z) (t : task) : task :=
  mk_task (t_name t) (t_flags t) (t_status t) (t_rsp0 t) (t_rsp t) (t_vm_space t) (t_pid t) (t_tgid t) (t_pgid t) (t_sid t) (t_parent t) (t_children t) (t_cred t) (t_cwd t) v (t_open_files t) (t_return_status t) (t_return_signal t) (t_sig_pending t) (t_sig_blocked t).
Definition set_t_open_files (v : list Z) (t : task) : task :=
  mk_task (t_name t) (t_flags t) (t_status t) (t_rsp0 t) (t_rsp t) (t_vm_space t) (t_pid t) (t_tgid t) (t_pgid t) (t_sid t) (t_parent t) (t_children t) (t_cred t) (t_cwd t) (t_tty t) v (t_return_status t) (t_return_signal t) (t_sig_pending t) (t_sig_blocked t).
Definition set_t_return_status (v : Z) (t : task) : task :=
  mk_task (t_name t) (t_flags t) (t_status t) (t_rsp0 t) (t_rsp t) (t_vm_space t) (t_pid t) (t_tgid t) (t_pgid t) (t_sid t) (t_parent t) (t_children t) (t_cred t) (t_cwd t) (t_tty t) (t_open_files t) v (t_return_signal t) (t_sig_pending t) (t_sig_blocked t).
Definition set_t_return_signal (v : Z) (t : task) : task :=
  mk_task (t_name t) (t_flags t) (t_status t) (t_rsp0 t) (t_rsp t) (t_vm_space t) (t_pid t) (t_tgid t) (t_pgid t) (t_sid t) (t_parent t) (t_children t) (t_cred t) (t_cwd t) (t_tty t) (t_open_files t) (t_return_status t) v (t_sig_pending t) (t_sig_blocked t).
Definition set_t_sig_pending (v : Z) (t : task) : task :=
  mk_task (t_name t) (t_flags t) (t_status t) (t_rsp0 t) (t_rsp t) (t_vm_space t) (t_pid t) (t_tgid t) (t_pgid t) (t_sid t) (t_parent t) (t_children t) (t_cred t) (t_cwd t) (t_tty t) (t_open_files t) (t_return_status t) (t_return_signal t) v (t_sig_blocked t).
Definition set_t_sig_blocked (v : Z) (t : task) : task :=
  mk_task (t_name t) (t_flags t) (t_status t) (t_rsp0 t) (t_rsp t) (t_vm_space t) (t_pid t) (t_tgid t) (t_pgid t) (t_sid t) (t_parent t) (t_children t) (t_cred t) (t_cwd t) (t_tty t) (t_open_files t) (t_return_status t) (t_return_signal t) (t_sig_pending t) v.

Record sched_percpu := mk_percpu {
  idle : Z;
  runqueue : list Z;
  queue_entry_count : Z;
  current : Z;
}.

Definition set_runqueue (v : list Z) (c : sched_percpu) : sched_percpu :=
  mk_percpu (idle c) v (queue_entry_count c) (current c).
Definition set_queue_entry_count (v : Z) (c : sched_percpu) : sched_percpu :=
  mk_percpu (idle c) (runqueue c) v (current c).
Definition set_current (v : Z) (c : sched_percpu) : sched_percpu :=
  mk_percpu (idle c) (runqueue c) (queue_entry_count c) v.

Record sched := mk_sched {
  tasks : gmap Z task;
  task_list : list Z;
  next_pid : Z;
  init_task : Z;
  cpus : list sched_percpu;
}.

Definition set_tasks (v : gmap Z task) (s : sched) : sched :=
  mk_sched v (task_list s) (next_pid s) (init_task s) (cpus s).
Definition set_task_list (v : list Z) (s : sched) : sched :=
  mk_sched (tasks s) v (next_pid s) (init_task s) (cpus s).
Definition set_next_pid (v : Z) (s : sched) : sched :=
  mk_sched (tasks s) (task_list s) v (init_task s) (cpus s).
Definition set_init_task (v : Z) (s : sched) : sched :=
  mk_sched (tasks s) (task_list s) (next_pid s) v (cpus s).
Definition set_cpus (v : list sched_percpu) (s : sched) : sched :=
  mk_sched (tasks s) (task_list s) (next_pid s) (init_task s) v.

Definition is_session_leader (t : task) : bool := t_sid t =? t_tgid t.

Definition get_task (s : sched) (tid : Z) : outcome task := deref (tasks s !! tid).
Definition put_task (s : sched) (tid : Z) (t : task) : sched := set_tasks (<[tid := t]> (tasks s)) s.

(** Change a task through its pointer. *)
Definition upd_task (s : sched) (tid : Z) (f : task -> task) : outcome sched :=
  let* t := get_task s tid in Ok (put_task s tid (f t)).

(** atomic_compare_exchange_strong on the status: success and the new state, or the status found. *)
Definition cas_status (s : sched) (tid : Z) (expected new : task_status) : outcome (option task_status * sched) :=
  let* t := get_task s tid in
  if decide (t_status t = expected) then Ok (None, put_task s tid (set_t_status new t))
  else Ok (Some (t_status t), s).

(** ** scheduler.c *)

Definition sched_add_ready (s : sched) (cpu tid : Z) : outcome sched :=
  let* sdata := aget (cpus s) cpu in
  let sdata := set_runqueue (runqueue sdata ++ [tid]) sdata in
  let sdata := set_queue_entry_count (u64 (queue_entry_count sdata + 1)) sdata in
  let* cs := aset (cpus s) cpu sdata in
  Ok (set_cpus cs s).

(** [n] rounds of the loop are left; [start] is the queue looked at.  A queue
    without entries takes the [continue], which skips [start++]. *)
Fixpoint most_loaded_loop (n : nat) (cs : list sched_percpu) (start : Z) (maxq : option Z) (maxc : Z)
    : outcome (option Z) :=
  match n with
  | O => Ok maxq
  | S n =>
      let* q := aget cs start in
      let queue_size := queue_entry_count q in
      if queue_size =? 0 then most_loaded_loop n cs start maxq maxc
      else if maxc <? queue_size then most_loaded_loop n cs (start + 1) (Some start) queue_size
      else most_loaded_loop n cs (start + 1) maxq maxc
  end.

Definition sched_find_most_loaded_queue (s : sched) : outcome (option Z) :=
  most_loaded_loop (length (cpus s)) (cpus s) 0 None 0.

(** Take the first task of a run queue. *)
Definition take_first (s : sched) (cpu : Z) : outcome (Z * sched) :=
  let* q := aget (cpus s) cpu in
  let* next := deref (head (runqueue q)) in
  let q := set_queue_entry_count (u64 (queue_entry_count q - 1)) (set_runqueue (tail (runqueue q)) q) in
  let* cs := aset (cpus s) cpu q in
  Ok (next, set_cpus cs s).

(** The choice of the next task in [schedule]. *)
Definition pick_next (s : sched) (cpu : Z) : outcome (Z * sched) :=
  let* sdata := aget (cpus s) cpu in
  if queue_entry_count sdata =? 0 then
    let* steal := sched_find_most_loaded_queue s in
    match steal with
    | None => Ok (idle sdata, s)
    | Some victim =>
        let* q := aget (cpus s) victim in
        if queue_entry_count q =? 0 then Ok (idle sdata, s) else take_first s victim
    end
  else take_first s cpu.

(** The context switch at the end makes [next] the processor's current task. *)
Definition schedule (s : sched) (cpu : Z) : outcome sched :=
  let* sdata := aget (cpus s) cpu in
  let cur_task := current sdata in
  let* t := get_task s cur_task in
  let cur_running := bool_decide (t_status t = TASK_RUNNING) in
  if (queue_entry_count sdata =? 0) && cur_running && negb (cur_task =? idle sdata) then Ok s
  else
    let* (next, s) := pick_next s cpu in
    let* s :=
      if cur_running && negb (cur_task =? idle sdata) then sched_add_ready s cpu cur_task else Ok s in
    let* nt := get_task s next in
    if t_rsp0 nt =? 0 then Panic
    else
      let* sdata := aget (cpus s) cpu in
      let* cs := aset (cpus s) cpu (set_current next sdata) in
      Ok (set_cpus cs s).

Definition sched_yield (s : sched) (cpu : Z) : outcome sched := schedule s cpu.

(** ** Scheduler invariant *)

(** What a processor accounts for: its queue and the task it runs, unless idle. *)
Definition busy (c : sched_percpu) : list Z := if current c =? idle c then [] else [current c].
Definition content (c : sched_percpu) : list Z := runqueue c ++ busy c.
Definition contents (s : sched) : list Z := cpus s ≫= content.

Definition can_switch (s : sched) (tid : Z) : Prop := exists t, tasks s !! tid = Some t /\ t_rsp0 t <> 0.

(** Every task is queued or running at most once; queued tasks and idle tasks
    can be switched to; the counters give the lengths of the queues. *)
Record sched_inv (s : sched) : Prop := {
  sc_nodup : NoDup (contents s);
  sc_small : zlen (contents s) < 2 ^ 63;
  sc_count : Forall (fun c => queue_entry_count c = zlen (runqueue c)) (cpus s);
  sc_idle : Forall (fun c => can_switch s (idle c) /\ (idle c ∉ contents s)) (cpus s);
  sc_queued : Forall (fun c => Forall (can_switch s) (runqueue c)) (cpus s);
  sc_current : Forall (fun c => is_Some (tasks s !! current c)) (cpus s);
}.

(** Replacing one element of a list replaces its share of the concatenation. *)
Lemma bind_insert_perm {A B} (f : A -> list B) (l : list A) i x y : l !! i = Some x ->
  f x ++ (<[i := y]> l ≫= f) ≡ₚ f y ++ (l ≫= f).
Proof.
  intros Hi. assert (l ≫= f = (take i l ≫= f) ++ f x ++ (drop (S i) l ≫= f)) as ->.
  { rewrite <- (take_drop_middle l i x Hi) at 1. by rewrite bind_app, bind_cons. }
  rewrite insert_take_drop by (by eapply lookup_lt_Some). rewrite bind_app, bind_cons. solve_Permutation.
Qed.

Lemma aset_cpus (cs : list sched_percpu) i c c' : aget cs i = Ok c ->
  cs !! Z.to_nat i = Some c /\ aset cs i c' = Ok (<[Z.to_nat i := c']> cs) /\ 0 <= i < zlen cs.
Proof.
  intros Hget. apply aget_Ok in Hget as [Hi Hc]. pose proof (lookup_lt_Some _ _ _ Hc).
  assert (0 <= i < zlen cs) by (unfold zlen; lia). split; [done|]. split; [by apply aset_in|done].
Qed.

Lemma aget_insert (cs : list sched_percpu) i j c' : 0 <= i < zlen cs -> 0 <= j < zlen cs ->
  aget (<[Z.to_nat i := c']> cs) j = if decide (i = j) then Ok c' else aget cs j.
Proof.
  intros Hi Hj. destruct (aget_in (<[Z.to_nat i := c']> cs) j) as (x & -> & Hx); [by rewrite zlen_insert|].
  destruct (decide (i = j)) as [->|].
  - rewrite list_lookup_insert_eq in Hx by (unfold zlen in *; lia). by simplify_eq.
  - rewrite list_lookup_insert_ne in Hx by lia. destruct (aget_in cs j Hj) as (y & -> & Hy). by simplify_eq.
Qed.

Lemma elem_contents s i c x : cpus s !! i = Some c -> x ∈ content c -> x ∈ contents s.
Proof. intros Hc Hx. apply list_elem_of_bind. exists c. split; [done|]. by eapply list_elem_of_lookup_2. Qed.


(** The search as a pass over the queues that stops at the first empty one. *)
Fixpoint best_queue (start : Z) (rest : list sched_percpu) (maxq : option Z) (maxc : Z) : option Z :=
  match rest with
  | [] => maxq
  | q :: rest =>
      if queue_entry_count q =? 0 then maxq
      else if maxc <? queue_entry_count q then best_queue (start + 1) rest (Some start) (queue_entry_count q)
      else best_queue (start + 1) rest maxq maxc
  end.

Lemma aget_drop (cs : list sched_percpu) k q rest : drop k cs = q :: rest ->
  aget cs (Z.of_nat k) = Ok q /\ drop (S k) cs = rest.
Proof.
  intros Hd. assert (cs !! k = Some q) as Hk by (rewrite <- (Nat.add_0_r k), <- lookup_drop, Hd; done). split.
  - pose proof (lookup_lt_Some _ _ _ Hk). destruct (aget_in cs (Z.of_nat k)) as (x & -> & Hx); [unfold zlen; lia|].
    rewrite Nat2Z.id in Hx. by simplify_eq.
  - rewrite (drop_S cs q k Hk) in Hd. by injection Hd.
Qed.

Lemma most_loaded_best rest : forall cs k maxq maxc, drop k cs = rest ->
  most_loaded_loop (length rest) cs (Z.of_nat k) maxq maxc = Ok (best_queue (Z.of_nat k) rest maxq maxc).
Proof.
  induction rest as [|q rest IH]; intros cs k maxq maxc Hd; [done|].
  destruct (aget_drop cs k q rest Hd) as [Hget Hd']. cbn [length best_queue].
  destruct (Z.eqb_spec (queue_entry_count q) 0) as [H0|H0].
  - clear IH. generalize (S (length rest)) as n. induction n as [|n IHn]; [done|]. simpl. rewrite Hget. simpl. by rewrite H0.
  - cbn [most_loaded_loop]. rewrite Hget. cbn [outcome_bind]. destruct (Z.eqb_spec (queue_entry_count q) 0); [done|].
    replace (Z.of_nat k + 1) with (Z.of_nat (S k)) by lia. destruct (maxc <? queue_entry_count q); by apply IH.
Qed.

(** The non-empty queues before the first empty one. *)
Fixpoint loaded_prefix (cs : list sched_percpu) : list sched_percpu :=
  match cs with
  | [] => []
  | q :: cs => if queue_entry_count q =? 0 then [] else q :: loaded_prefix cs
  end.

Lemma best_queue_spec rest : forall k maxq maxc, 0 <= maxc -> Forall (fun q => 0 <= queue_entry_count q) rest ->
  (best_queue k rest maxq maxc = maxq /\ Forall (fun q => queue_entry_count q <= maxc) (loaded_prefix rest)) \/
  (exists j q, best_queue k rest maxq maxc = Some (k + Z.of_nat j) /\ loaded_prefix rest !! j = Some q /\
     rest !! j = Some q /\ maxc < queue_entry_count q /\
     Forall (fun q' => queue_entry_count q' <= queue_entry_count q) (loaded_prefix rest)).
Proof.
  induction rest as [|q rest IH]; intros k maxq maxc Hm Hnn; [left; split; [done|constructor]|].
  apply Forall_cons in Hnn as [Hq Hnn]. simpl. destruct (Z.eqb_spec (queue_entry_count q) 0) as [H0|H0].
  { left. split; [done|constructor]. }
  destruct (Z.ltb_spec maxc (queue_entry_count q)) as [Hlt|Hge].
  - right. destruct (IH (k + 1) (Some k) (queue_entry_count q) Hq Hnn) as [[-> Hall]|(j & q' & -> & Hj & Hj' & Hgt & Hall)].
    + exists 0%nat, q. rewrite Z.add_0_r. do 4 (split; [done|]). by constructor.
    + exists (S j), q'. split; [f_equal; lia|]. do 2 (split; [done|]). split; [lia|]. constructor; [lia|done].
  - destruct (IH (k + 1) maxq maxc Hm Hnn) as [[-> Hall]|(j & q' & -> & Hj & Hj' & Hgt & Hall)].
    + left. split; [done|]. by constructor.
    + right. exists (S j), q'. split; [f_equal; lia|]. do 3 (split; [done|]). constructor; [lia|done].
Qed.

Lemma find_most_loaded_spec s : Forall (fun q => 0 <= queue_entry_count q) (cpus s) ->
  (sched_find_most_loaded_queue s = Ok None /\ loaded_prefix (cpus s) = []) \/
  (exists j q, sched_find_most_loaded_queue s = Ok (Some (Z.of_nat j)) /\ loaded_prefix (cpus s) !! j = Some q /\
     cpus s !! j = Some q /\ 0 < queue_entry_count q /\
     Forall (fun q' => queue_entry_count q' <= queue_entry_count q) (loaded_prefix (cpus s))).
Proof.
  intros Hnn. unfold sched_find_most_loaded_queue.
  pose proof (most_loaded_best (cpus s) (cpus s) 0 None 0 eq_refl) as Hb. change (Z.of_nat 0) with 0 in Hb. rewrite Hb. clear Hb.
  destruct (best_queue_spec (cpus s) 0 None 0 ltac:(lia) Hnn) as [[-> Hall]|(j & q & -> & Hrest)].
  - left. split; [done|]. destruct (cpus s) as [|q cs]; [done|]. simpl in *.
    destruct (Z.eqb_spec (queue_entry_count q) 0); [done|]. apply Forall_cons in Hall as [? _].
    apply Forall_cons in Hnn as [? _]. lia.
  - right. exists j, q. rewrite Z.add_0_l. done.
Qed.

(** Replacing one processor's data keeps the invariant when no task is
    accounted for twice and no idle task is. *)
Lemma sched_inv_set s i c c' : sched_inv s -> cpus s !! i = Some c -> idle c' = idle c ->
  queue_entry_count c' = zlen (runqueue c') -> Forall (can_switch s) (runqueue c') ->
  is_Some (tasks s !! current c') ->
  let s' := set_cpus (<[i := c']> (cpus s)) s in
  NoDup (contents s') -> Forall (fun i => i ∉ contents s') (idle <$> cpus s) -> zlen (contents s') < 2 ^ 63 ->
  sched_inv s'.
Proof.
  intros Hinv Hi Hid Hcnt Hsw Hcur s' Hnd Hsub Hsm. rewrite Forall_forall in Hsub. split; [done|done|..]; simpl.
  - apply Forall_insert; [apply Hinv|done].
  - pose proof (sc_idle _ Hinv) as Hidle. rewrite Forall_forall in Hidle.
    assert (forall c0, c0 ∈ cpus s -> can_switch s' (idle c0) /\ (idle c0 ∉ contents s')) as Hall.
    { intros c0 Hc0. destruct (Hidle c0 Hc0) as [? _]. split; [done|]. by apply Hsub, list_elem_of_fmap_2. }
    apply Forall_insert; [by apply Forall_forall|]. rewrite Hid. apply Hall. by eapply list_elem_of_lookup_2.
  - apply Forall_insert; [apply Hinv|done].
  - apply Forall_insert; [apply Hinv|done].
Qed.

Lemma zlen_perm {A} (l k : list A) : l ≡ₚ k -> zlen l = zlen k.
Proof. intros H. unfold zlen. by rewrite H. Qed.

Lemma runqueue_len s i c : cpus s !! i = Some c -> zlen (runqueue c) <= zlen (contents s).
Proof.
  intros Hi. unfold contents. rewrite <- (take_drop_middle _ _ _ Hi), bind_app, bind_cons.
  unfold zlen, content. rewrite !length_app. lia.
Qed.

Lemma take_first_spec s cpu q t r : sched_inv s -> aget (cpus s) cpu = Ok q -> runqueue q = t :: r ->
  exists s1, take_first s cpu = Ok (t, s1) /\ sched_inv s1 /\ tasks s1 = tasks s /\ contents s ≡ₚ t :: contents s1 /\
    can_switch s t /\ idle <$> cpus s1 = idle <$> cpus s /\
    forall j c, aget (cpus s) j = Ok c -> exists c1, aget (cpus s1) j = Ok c1 /\ idle c1 = idle c /\ current c1 = current c.
Proof.
  intros Hinv Hget Hrq. unfold take_first. rewrite Hget. simpl. rewrite Hrq. simpl.
  set (q' := set_queue_entry_count _ _). destruct (aset_cpus _ _ _ q' Hget) as (Hq & -> & Hr). simpl.
  eexists. split; [done|]. set (s1 := set_cpus _ _).
  pose proof (bind_insert_perm content (cpus s) _ q q' Hq) as Hperm.
  assert (content q = t :: content q') as Hc by (unfold content; rewrite Hrq; done).
  assert (contents s ≡ₚ t :: contents s1) as Hcont.
  { rewrite Hc in Hperm. simpl in Hperm. rewrite Permutation_middle in Hperm. by apply Permutation_app_inv_l in Hperm. }
  pose proof (sc_queued _ Hinv) as Hsw. rewrite Forall_lookup in Hsw. specialize (Hsw _ _ Hq). rewrite Hrq in Hsw.
  apply Forall_cons in Hsw as [Hst Hsw].
  pose proof (sc_count _ Hinv) as Hcnt. rewrite Forall_lookup in Hcnt. specialize (Hcnt _ _ Hq). rewrite Hrq, zlen_cons in Hcnt.
  pose proof (runqueue_len _ _ _ Hq) as Hle. rewrite Hrq, zlen_cons in Hle.
  pose proof (sc_small _ Hinv) as Hsmall. pose proof (zlen_nonneg r).
  pose proof (sc_current _ Hinv) as Hcur. rewrite Forall_lookup in Hcur. specialize (Hcur _ _ Hq).
  pose proof (sc_nodup _ Hinv) as Hnd. rewrite Hcont in Hnd. apply NoDup_cons in Hnd as [_ Hnd].
  split; [|split; [done|split; [done|split; [done|split]]]].
  - apply (sched_inv_set s _ q); try done; simpl.
    + rewrite u64_small; lia.
    + apply Forall_fmap. eapply Forall_impl; [apply (sc_idle _ Hinv)|]. intros c [_ Hn] Hx. apply Hn.
      rewrite Hcont. by apply elem_of_cons; right.
    + apply zlen_perm in Hcont. rewrite zlen_cons in Hcont. fold s1. lia.
  - simpl. rewrite list_fmap_insert. apply list_insert_id. by rewrite list_lookup_fmap, Hq.
  - intros j c Hj. destruct (aset_cpus _ _ _ c Hj) as (_ & _ & Hjr). simpl. rewrite aget_insert by done.
    destruct (decide (cpu = j)) as [->|]; [|by exists c]. exists q'. rewrite Hget in Hj. by simplify_eq.
Qed.

Lemma pick_next_spec s cpu sdata : sched_inv s -> aget (cpus s) cpu = Ok sdata ->
  exists next s1, pick_next s cpu = Ok (next, s1) /\ sched_inv s1 /\ tasks s1 = tasks s /\ can_switch s next /\
    contents s ≡ₚ (if next =? idle sdata then [] else [next]) ++ contents s1 /\
    (queue_entry_count sdata <> 0 -> head (runqueue sdata) = Some next) /\
    idle <$> cpus s1 = idle <$> cpus s /\
    exists c1, aget (cpus s1) cpu = Ok c1 /\ idle c1 = idle sdata /\ current c1 = current sdata.
Proof.
  intros Hinv Hget. unfold pick_next. rewrite Hget. simpl. pose proof (proj2 (proj1 (aget_Ok _ _ _) Hget)) as Hq.
  pose proof (sc_count _ Hinv) as Hcnt. rewrite Forall_lookup in Hcnt.
  pose proof (sc_idle _ Hinv) as Hid. rewrite Forall_lookup in Hid. destruct (Hid _ _ Hq) as [Hsw Hnid].
  assert (forall v q, aget (cpus s) v = Ok q -> queue_entry_count q <> 0 ->
    exists t r, runqueue q = t :: r /\ t <> idle sdata) as Hne.
  { intros v q Hv Hc. apply aget_Ok in Hv as [_ Hv]. specialize (Hcnt _ _ Hv).
    destruct (runqueue q) as [|t r] eqn:E; [done|]. exists t, r. split; [done|]. intros ->. apply Hnid.
    eapply elem_contents; [exact Hv|]. unfold content. rewrite E. set_solver. }
  assert (forall v q, aget (cpus s) v = Ok q -> queue_entry_count q <> 0 -> exists t s1, head (runqueue q) = Some t /\
    take_first s v = Ok (t, s1) /\ sched_inv s1 /\ tasks s1 = tasks s /\ can_switch s t /\
    contents s ≡ₚ (if t =? idle sdata then [] else [t]) ++ contents s1 /\
    idle <$> cpus s1 = idle <$> cpus s /\
    exists c1, aget (cpus s1) cpu = Ok c1 /\ idle c1 = idle sdata /\ current c1 = current sdata) as Htake.
  { intros v q Hv Hc. destruct (Hne v q Hv Hc) as (t & r & Hrq & Ht).
    destruct (take_first_spec s v q t r Hinv Hv Hrq) as (s1 & Hrun & Hinv1 & Ht1 & Hcont & Hst & Hids & Hothers).
    exists t, s1. rewrite Hrq. destruct (Z.eqb_spec t (idle sdata)); [done|].
    do 7 (split; [done|]). by apply Hothers. }
  destruct (Z.eqb_spec (queue_entry_count sdata) 0) as [H0|H0].
  - assert (Forall (fun q => 0 <= queue_entry_count q) (cpus s)) as Hnn.
    { apply Forall_lookup. intros j c Hj. rewrite (Hcnt j c Hj). apply zlen_nonneg. }
    destruct (find_most_loaded_spec s Hnn) as [[-> _]|(j & q & -> & _ & Hj & Hpos & _)]; simpl.
    + exists (idle sdata), s. rewrite Z.eqb_refl. do 6 (split; [done|]). split; [done|]. by exists sdata.
    + assert (aget (cpus s) (Z.of_nat j) = Ok q) as Hjq by (apply aget_Ok; rewrite Nat2Z.id; split; [lia|done]).
      rewrite Hjq. simpl. destruct (Z.eqb_spec (queue_entry_count q) 0); [lia|].
      destruct (Htake _ _ Hjq) as (t & s1 & _ & -> & Hrest); [lia|]. exists t, s1. split; [done|].
      destruct Hrest as (?&?&?&?&?&?). done.
  - destruct (Htake _ _ Hget H0) as (t & s1 & Hh & -> & ?&?&?&?&?&?). by exists t, s1.
Qed.

(** The last part of [schedule] as one change of the processor's data. *)
Definition switch_to (next : Z) (requeue : bool) (c : sched_percpu) : sched_percpu :=
  if requeue
  then mk_percpu (idle c) (runqueue c ++ [current c]) (u64 (queue_entry_count c + 1)) next
  else mk_percpu (idle c) (runqueue c) (queue_entry_count c) next.

Lemma switch_run s cpu c next (requeue : bool) nt : aget (cpus s) cpu = Ok c -> tasks s !! next = Some nt -> t_rsp0 nt <> 0 ->
  (let* s := if requeue then sched_add_ready s cpu (current c) else Ok s in
   let* nt := get_task s next in
   if t_rsp0 nt =? 0 then Panic
   else
     let* sdata := aget (cpus s) cpu in
     let* cs := aset (cpus s) cpu (set_current next sdata) in
     Ok (set_cpus cs s))
  = Ok (set_cpus (<[Z.to_nat cpu := switch_to next requeue c]> (cpus s)) s).
Proof.
  intros Hc Hn Hr. destruct requeue.
  - unfold sched_add_ready. rewrite Hc. simpl. set (c1 := set_queue_entry_count _ _).
    destruct (aset_cpus _ _ _ c1 Hc) as (_ & -> & Hrange). simpl. unfold get_task. simpl. rewrite Hn. simpl.
    destruct (Z.eqb_spec (t_rsp0 nt) 0); [done|]. rewrite aget_insert, decide_True by done. simpl.
    rewrite aset_in by (by rewrite zlen_insert). simpl. unfold set_cpus. simpl. by rewrite list_insert_insert_eq.
  - simpl. unfold get_task. rewrite Hn. simpl. destruct (Z.eqb_spec (t_rsp0 nt) 0); [done|]. rewrite Hc. simpl.
    destruct (aset_cpus _ _ _ (set_current next c) Hc) as (_ & -> & _). done.
Qed.

Lemma switch_contents s cpu c next (requeue : bool) :
  aget (cpus s) cpu = Ok c -> (requeue = true -> current c <> idle c) ->
  let s' := set_cpus (<[Z.to_nat cpu := switch_to next requeue c]> (cpus s)) s in
  (if next =? idle c then [] else [next]) ++ contents s
  ≡ₚ (if requeue || (current c =? idle c) then [] else [current c]) ++ contents s'.
Proof.
  intros Hc Hrq s'. destruct (aset_cpus _ _ _ c Hc) as (Hq & _ & _).
  assert (content c ++ contents s' ≡ₚ content (switch_to next requeue c) ++ contents s) as Hp
    by exact (bind_insert_perm content (cpus s) _ c (switch_to next requeue c) Hq).
  unfold content, switch_to, busy in Hp. destruct requeue; simpl in Hp |- *; rewrite <- !app_assoc in Hp.
  - destruct (Z.eqb_spec (current c) (idle c)); [by destruct (Hrq eq_refl)|].
    apply Permutation_app_inv_l, Permutation_app_inv_l in Hp. by rewrite Hp.
  - apply Permutation_app_inv_l in Hp. rewrite <- Hp. by destruct (Z.eqb_spec (current c) (idle c)).
Qed.

Lemma switch_sched_inv s cpu c next (requeue : bool) nt : sched_inv s -> aget (cpus s) cpu = Ok c ->
  tasks s !! next = Some nt -> (requeue = true -> can_switch s (current c)) ->
  let s' := set_cpus (<[Z.to_nat cpu := switch_to next requeue c]> (cpus s)) s in
  NoDup (contents s') -> zlen (contents s') < 2 ^ 63 ->
  Forall (fun i => i ∉ contents s') (idle <$> cpus s) -> sched_inv s'.
Proof.
  intros Hinv Hc Hnt Hrq s' Hnd Hsm Hids. destruct (aset_cpus _ _ _ c Hc) as (Hq & _ & _).
  apply (sched_inv_set s _ c); try done.
  - by destruct requeue.
  - pose proof (sc_count _ Hinv) as Hcnt. rewrite Forall_lookup in Hcnt. specialize (Hcnt _ _ Hq).
    pose proof (runqueue_len _ _ _ Hq). pose proof (sc_small _ Hinv). pose proof (zlen_nonneg (runqueue c)).
    destruct requeue; simpl; [rewrite zlen_app, u64_small; unfold zlen in *; simpl; lia|done].
  - pose proof (sc_queued _ Hinv) as Hqd. rewrite Forall_lookup in Hqd. specialize (Hqd _ _ Hq).
    destruct requeue; simpl; [|done]. apply Forall_app_2; [done|]. constructor; [by apply Hrq|constructor].
  - exists nt. by destruct requeue.
Qed.

(** Replacing a task by one with the same kernel stack keeps the invariant. *)
Lemma sched_inv_put s tid t t' : sched_inv s -> tasks s !! tid = Some t -> t_rsp0 t' = t_rsp0 t -> sched_inv (put_task s tid t').
Proof.
  intros [H1 H2 H3 H4 H5 H6] Ht Hr.
  assert (forall x, can_switch s x -> can_switch (put_task s tid t') x) as Hc.
  { intros x (xt & Hx & Hx0). unfold can_switch. simpl. destruct (decide (tid = x)) as [->|Hne].
    - exists t'. rewrite lookup_insert_eq. split; [done|]. congruence.
    - exists xt. by rewrite lookup_insert_ne. }
  split; try done.
  - eapply Forall_impl; [exact H4|]. intros c [Hi Hn]. by split; [apply Hc|].
  - eapply Forall_impl; [exact H5|]. intros c Hi. eapply Forall_impl; [exact Hi|exact Hc].
  - eapply Forall_impl; [exact H6|]. intros c Hi. simpl in *. destruct (decide (tid = current c)) as [->|].
    + rewrite lookup_insert_eq. by eexists.
    + by rewrite lookup_insert_ne.
Qed.

(** What [schedule] does, for the callers that give up the processor. *)
Lemma schedule_spec s cpu sdata t : sched_inv s -> aget (cpus s) cpu = Ok sdata ->
  tasks s !! current sdata = Some t ->
  (t_status t = TASK_RUNNING -> current sdata <> idle sdata -> t_rsp0 t <> 0) ->
  exists s', schedule s cpu = Ok s' /\ sched_inv s' /\ tasks s' = tasks s /\
    contents s ≡ₚ (if bool_decide (t_status t = TASK_RUNNING) || (current sdata =? idle sdata)
                   then [] else [current sdata]) ++ contents s' /\
    (queue_entry_count sdata <> 0 -> exists sdata', aget (cpus s') cpu = Ok sdata' /\
       head (runqueue sdata) = Some (current sdata')).
Proof.
  intros Hinv Hget Ht Hstk. unfold schedule. rewrite Hget. cbn [outcome_bind]. unfold get_task at 1. rewrite Ht.
  cbn [deref outcome_bind]. set (cr := bool_decide (t_status t = TASK_RUNNING)).
  destruct ((queue_entry_count sdata =? 0) && cr && negb (current sdata =? idle sdata)) eqn:Hearly.
  { bool_to_prop. exists s. do 3 (split; [done|]). split; [|done]. by replace cr with true. }
  destruct (pick_next_spec s cpu sdata Hinv Hget) as (next & s1 & -> & Hinv1 & Ht1 & [nt [Hnt Hr0]] & Hcont & Hhead & Hids & c1 & Hc1 & Hid & Hcu).
  cbn [outcome_bind]. set (rq := cr && negb (current sdata =? idle sdata)). rewrite <- Hcu.
  rewrite (switch_run s1 cpu c1 next rq nt Hc1) by (by rewrite ?Ht1). eexists. split; [done|].
  assert (rq = true -> current c1 <> idle c1) as Hrq.
  { unfold rq. rewrite Hcu, Hid. intros H. bool_to_prop. done. }
  pose proof (switch_contents s1 cpu c1 next rq Hc1 Hrq) as Hsw. cbv zeta in Hsw. set (s' := set_cpus _ _) in *.
  rewrite Hid in Hsw. rewrite Hid in Hrq. rewrite <- Hcont, Hcu in Hsw.
  assert (rq || (current sdata =? idle sdata) = cr || (current sdata =? idle sdata))%bool as Hb.
  { unfold rq. destruct cr, (current sdata =? idle sdata); done. }
  rewrite Hb in Hsw. assert (forall x, x ∈ contents s' -> x ∈ contents s) as Hsub by (intros x Hx; rewrite Hsw; set_solver).
  destruct (aset_cpus _ _ _ c1 Hc1) as (_ & _ & Hrange).
  split; [|split; [exact Ht1|split; [by rewrite Hcu|]]].
  - assert (NoDup (contents s') /\ zlen (contents s') < 2 ^ 63) as [Hnd Hsm].
    { pose proof (sc_nodup _ Hinv) as Hnd. pose proof (sc_small _ Hinv) as Hs0. rewrite Hsw in Hnd.
      apply NoDup_app in Hnd as (_ & _ & ?). split; [done|]. apply zlen_perm in Hsw. rewrite Hsw, zlen_app in Hs0.
      pose proof (zlen_nonneg (if (cr || (current sdata =? idle sdata))%bool then [] else [current sdata])). lia. }
    apply (switch_sched_inv s1 cpu c1 next rq nt); try done; [by rewrite Ht1| |].
    + intros Erq. exists t. rewrite Hcu, Ht1. split; [done|]. unfold rq in Erq. bool_to_prop. apply Hstk; [|done].
      by apply (bool_decide_eq_true_1 (t_status t = TASK_RUNNING)).
    + rewrite Hids. apply Forall_fmap. eapply Forall_impl; [apply (sc_idle _ Hinv)|]. intros c [_ Hn] Hx. by apply Hn, Hsub.
  - intros Hne. specialize (Hhead Hne). exists (switch_to next rq c1). simpl.
    rewrite aget_insert, decide_True by done. split; [done|]. rewrite Hhead. by destruct rq.
Qed.

(** C13: [schedule] loses and duplicates no task.  From a state in which every
    task is queued or running at most once, it never panics or faults and
    keeps that invariant; the tasks accounted for stay the same, except that a
    task that is no longer running leaves its processor; and a processor with
    a non-empty queue switches to the head of that queue. *)
Theorem schedule_correct s cpu sdata t : sched_inv s -> aget (cpus s) cpu = Ok sdata ->
  tasks s !! current sdata = Some t ->
  (t_status t = TASK_RUNNING -> current sdata <> idle sdata -> t_rsp0 t <> 0) ->
  exists s', schedule s cpu = Ok s' /\ sched_inv s' /\ tasks s' = tasks s /\
    contents s ≡ₚ (if bool_decide (t_status t = TASK_RUNNING) || (current sdata =? idle sdata)
                   then [] else [current sdata]) ++ contents s' /\
    (queue_entry_count sdata <> 0 -> exists sdata', aget (cpus s') cpu = Ok sdata' /\
       head (runqueue sdata) = Some (current sdata')).
Proof. apply schedule_spec. Qed.

(** Two processors: task 11 runs on the first with 12 queued behind it, the second is idle. *)
Definition task_at (pid : Z) (st : task_status) : task :=
  mk_task [] 0 st 0x1000 0x2000 0 pid pid pid pid 0 [] (mk_cred 0 0 0 0 0 0) 0 0 (replicate 32 (-1)) 0 0 0 0.

Definition two_cpus : sched :=
  mk_sched {[1 := task_at 0 TASK_RUNNING; 2 := task_at 0 TASK_RUNNING; 11 := task_at 3 TASK_RUNNING;
             12 := task_at 4 TASK_RUNNING]} [11; 12] 5 11
    [mk_percpu 1 [12] 1 11; mk_percpu 2 [] 0 2].

Lemma two_cpus_inv : sched_inv two_cpus.
Proof.
  split.
  - vm_compute. repeat constructor; set_solver.
  - reflexivity.
  - repeat constructor.
  - repeat constructor; try (eexists; split; [reflexivity|discriminate]); vm_compute; set_solver.
  - repeat constructor; eexists; split; [reflexivity|discriminate].
  - repeat constructor; eexists; reflexivity.
Qed.

Lemma schedule_correct_witness : exists s', schedule two_cpus 0 = Ok s' /\ sched_inv s' /\
  current <$> cpus s' = [12; 2].
Proof.
  destruct (schedule_correct two_cpus 0 (mk_percpu 1 [12] 1 11) (task_at 3 TASK_RUNNING) two_cpus_inv)
    as (s' & Hrun & Hinv & _); [reflexivity|reflexivity|discriminate|].
  exists s'. split; [exact Hrun|]. split; [exact Hinv|]. vm_compute in Hrun. injection Hrun as <-. reflexivity.
Defined.

(** [sched_find_most_loaded_queue] does not look past the first empty
    queue, because [continue] skips the pointer increment: it returns a
    longest queue among those before the first empty one, and none at all when
    the first queue is empty, however long the others are. *)
Theorem most_loaded_prefix s : Forall (fun q => 0 <= queue_entry_count q) (cpus s) ->
  exists r, sched_find_most_loaded_queue s = Ok r /\
  match r with
  | None => loaded_prefix (cpus s) = []
  | Some v => exists q, loaded_prefix (cpus s) !! Z.to_nat v = Some q /\ 0 < queue_entry_count q /\
      Forall (fun q' => queue_entry_count q' <= queue_entry_count q) (loaded_prefix (cpus s))
  end.
Proof.
  intros Hnn. destruct (find_most_loaded_spec s Hnn) as [[-> Hp]|(j & q & -> & Hj & _ & Hpos & Hall)].
  - by exists None.
  - exists (Some (Z.of_nat j)). split; [done|]. exists q. by rewrite Nat2Z.id.
Qed.

(** The second of two processors has a long queue, which is not found. *)
Lemma most_loaded_prefix_witness :
  sched_find_most_loaded_queue (mk_sched ∅ [] 1 0 [mk_percpu 1 [] 0 1; mk_percpu 2 [5; 6; 7] 3 4]) = Ok None.
Proof.
  destruct (most_loaded_prefix (mk_sched ∅ [] 1 0 [mk_percpu 1 [] 0 1; mk_percpu 2 [5; 6; 7] 3 4])) as ([v|] & Hr & H).
  - repeat constructor; discriminate.
  - destruct H as (q & Hq & _). vm_compute in Hq. discriminate.
  - exact Hr.
Defined.
