(* ===== verification/Wait.v ===== *)
(** * Blocking: signals, mutexes, wait queues and timed sleep

    kernel/sched/signal.c, kernel/sys/mutex.c, kernel/sched/waitqueue.c and
    kernel/sched/task_sleep.c, over the task table and run queues of Sched.v.
    The processor a function runs on is an argument. *)

From stdpp Require Import base numbers list gmap sets relations.
From Stdlib Require Import ZArith Lia.
From S2P Require Import Prelude KList Sched.

(** ** signal.c *)

Definition SIGCHLD : Z := 17.
Definition NSIG : Z := 32.

Definition signal_pending (t : task) : bool :=
  0 <? Z.land (t_sig_pending t) (u32 (Z.lnot (t_sig_blocked t))).

Definition send_signal (s : sched) (cpu tid signal : Z) : outcome sched :=
  let idx := u32 (signal - 1) in
  let* s := upd_task s tid (fun t => set_t_sig_pending (Z.lor (t_sig_pending t) (u32 (Z.shiftl 1 idx))) t) in
  let* (fail, s) := cas_status s tid TASK_INTR_SLEEPING TASK_RUNNING in
  match fail with
  | None => sched_add_ready s cpu tid
  | Some _ => Ok s
  end.

(** First task of the list with this pid. *)
Fixpoint find_pid (ts : gmap Z task) (l : list Z) (pid : Z) : outcome (option Z) :=
  match l with
  | [] => Ok None
  | tid :: l =>
      let* t := deref (ts !! tid) in
      if t_pid t =? pid then Ok (Some tid) else find_pid ts l pid
  end.

Definition pid_send_signal (s : sched) (cpu pid signal : Z) : outcome (ret * sched) :=
  if (signal <? 1) || (NSIG <=? signal) then Ok (RErr EINVAL, s)
  else
    let* found := find_pid (tasks s) (task_list s) pid in
    match found with
    | Some tid => let* s := send_signal s cpu tid signal in Ok (RVal 0, s)
    | None => Ok (RErr ESRCH, s)
    end.

Fixpoint pgrp_loop (l : list Z) (s : sched) (cpu pgrp signal : Z) (result : ret) : outcome (ret * sched) :=
  match l with
  | [] => Ok (result, s)
  | tid :: l =>
      let* t := get_task s tid in
      if t_pgid t =? pgrp then
        let* s := send_signal s cpu tid signal in pgrp_loop l s cpu pgrp signal (RVal 0)
      else pgrp_loop l s cpu pgrp signal result
  end.

Definition pgrp_send_signal (s : sched) (cpu pgrp signal : Z) : outcome (ret * sched) :=
  if (signal <? 1) || (NSIG <=? signal) then Ok (RErr EINVAL, s)
  else pgrp_loop (task_list s) s cpu pgrp signal (RErr ESRCH).

(** ** mutex.c *)

(** The tasks waiting, chained through their [next] fields, newest first. *)
Record mutex_t := mk_mutex { m_waitqueue : list Z; m_locked : bool }.

Definition mutex_init : mutex_t := mk_mutex [] false.

(** The section of [mutex_lock] under the spin lock: did it take the mutex? *)
Definition mutex_try (m : mutex_t) (tid : Z) : bool * mutex_t :=
  if m_locked m then (false, mk_mutex (tid :: m_waitqueue m) true)
  else (true, mk_mutex (m_waitqueue m) true).

(** What a task that queued itself does before it yields. *)
Definition mutex_sleep (s : sched) (tid : Z) : outcome sched :=
  let* (fail, s) := cas_status s tid TASK_RUNNING TASK_SLEEPING in
  match fail with
  | Some found => if decide (found = TASK_SLEEPING) then Ok s else Panic
  | None => Ok s
  end.

(** [mutex_lock] up to the point where it returns or gives up the processor. *)
Definition mutex_lock (m : mutex_t) (s : sched) (cpu tid : Z) : outcome (mutex_t * sched) :=
  match mutex_try m tid with
  | (true, m) => Ok (m, s)
  | (false, m) =>
      let* s := mutex_sleep s tid in
      let* s := sched_yield s cpu in
      Ok (m, s)
  end.

(** The loop at [retry_awake]. *)
Fixpoint awake (queue : list Z) (s : sched) (cpu : Z) : outcome (list Z * sched) :=
  match queue with
  | [] => Ok ([], s)
  | tid :: queue =>
      let* (fail, s) := cas_status s tid TASK_SLEEPING TASK_RUNNING in
      match fail with
      | Some found => if decide (found = TASK_ZOMBIE) then awake queue s cpu else Panic
      | None => let* s := sched_add_ready s cpu tid in Ok (queue, s)
      end
  end.

Definition mutex_unlock (m : mutex_t) (s : sched) (cpu : Z) : outcome (mutex_t * sched) :=
  let* (queue, s) := awake (m_waitqueue m) s cpu in
  Ok (mk_mutex queue false, s).

(** The mutex between tasks: a task is outside, queued but still running,
    asleep, or past [mutex_lock].  Each section under the spin lock, and the
    change of status in between, is one step. *)
Inductive mutex_pc := MOutside | MQueued | MAsleep | MHolds.

Record mutex_sys := mk_msys { ms_mutex : mutex_t; ms_sched : sched; ms_pc : gmap Z mutex_pc }.

Inductive mutex_step : mutex_sys -> outcome mutex_sys -> Prop :=
  | mstep_lock y tid m taken :
      ms_pc y !! tid = Some MOutside -> mutex_try (ms_mutex y) tid = (taken, m) ->
      mutex_step y (Ok (mk_msys m (ms_sched y) (<[tid := if taken then MHolds else MQueued]> (ms_pc y))))
  | mstep_sleep y tid o :
      ms_pc y !! tid = Some MQueued ->
      o = (let* s := mutex_sleep (ms_sched y) tid in
           Ok (mk_msys (ms_mutex y) s (<[tid := MAsleep]> (ms_pc y)))) ->
      mutex_step y o
  | mstep_resume y tid t :
      ms_pc y !! tid = Some MAsleep -> tasks (ms_sched y) !! tid = Some t -> t_status t = TASK_RUNNING ->
      mutex_step y (Ok (mk_msys (ms_mutex y) (ms_sched y) (<[tid := MHolds]> (ms_pc y))))
  | mstep_unlock y tid cpu o :
      ms_pc y !! tid = Some MHolds ->
      o = (let* (m, s) := mutex_unlock (ms_mutex y) (ms_sched y) cpu in
           Ok (mk_msys m s (<[tid := MOutside]> (ms_pc y)))) ->
      mutex_step y o.

Inductive mutex_reach (y0 : mutex_sys) : outcome mutex_sys -> Prop :=
  | mreach_refl : mutex_reach y0 (Ok y0)
  | mreach_step y o : mutex_reach y0 (Ok y) -> mutex_step y o -> mutex_reach y0 o.

(** ** waitqueue.c *)

(** [wq_nodes] gives the queue a node is registered on (0 for none) and its task. *)
Record wait_sys := mk_wait { wq_queues : gmap Z (list Z); wq_nodes : gmap Z (Z * Z) }.

Definition wait_queue_init (w : wait_sys) (q : Z) : wait_sys :=
  mk_wait (<[q := []]> (wq_queues w)) (wq_nodes w).

Definition wait_queue_node_init (w : wait_sys) (node tid : Z) : wait_sys :=
  mk_wait (wq_queues w) (<[node := (0, tid)]> (wq_nodes w)).

(** A node is linked exactly when some queue lists it. *)
Definition node_linked (w : wait_sys) (node : Z) : bool :=
  bool_decide (Exists (fun kv => node ∈ kv.2) (map_to_list (wq_queues w))).

Definition wait_queue_register (w : wait_sys) (q node : Z) : outcome wait_sys :=
  let* (nq, tid) := deref (wq_nodes w !! node) in
  let* queue := deref (wq_queues w !! q) in
  if negb (node_linked w node) then
    Ok (mk_wait (<[q := queue ++ [node]]> (wq_queues w)) (<[node := (q, tid)]> (wq_nodes w)))
  else if negb (nq =? q) then Panic
  else Ok w.

Definition wait_queue_unregister (w : wait_sys) (node : Z) : outcome wait_sys :=
  let* (q, tid) := deref (wq_nodes w !! node) in
  if q =? 0 then Ok w
  else
    let* queue := deref (wq_queues w !! q) in
    if node_linked w node then
      Ok (mk_wait (<[q := filter (fun n => n <> node) queue]> (wq_queues w)) (<[node := (0, tid)]> (wq_nodes w)))
    else Panic.

(** The loop of [wait_queue_wake] over the nodes of the queue. *)
Fixpoint wake_loop (nodes : list Z) (q : Z) (w : wait_sys) (s : sched) (cpu : Z) : outcome (wait_sys * sched) :=
  match nodes with
  | [] => Ok (w, s)
  | node :: nodes =>
      let* (_, tid) := deref (wq_nodes w !! node) in
      let w := mk_wait (<[q := nodes]> (wq_queues w)) (<[node := (0, tid)]> (wq_nodes w)) in
      let* (fail, s) := cas_status s tid TASK_INTR_SLEEPING TASK_RUNNING in
      match fail with
      | Some _ => Panic
      | None => let* s := sched_add_ready s cpu tid in wake_loop nodes q w s cpu
      end
  end.

Definition wait_queue_wake (w : wait_sys) (s : sched) (cpu q : Z) : outcome (wait_sys * sched) :=
  let* nodes := deref (wq_queues w !! q) in
  wake_loop nodes q w s cpu.

(** ** task_sleep.c

    The sleep queue of a processor, at the level of its list nodes: [sq_heap]
    holds the links, [sq_delta] and [sq_task] the fields of the descriptor that
    contains a node.  [sq_delta] has a cell for the head as well, for the
    memory that container_of of the head designates. *)
Record sleep_queue := mk_sleepq { sq_heap : node_heap; sq_delta : gmap Z Z; sq_task : gmap Z Z }.

Definition CLOCK_REALTIME : Z := 0.

(** The search loop of [sys_clock_nanosleep]: where it stops and what is left of the delay. *)
Fixpoint sleep_search (fuel : nat) (sq : sleep_queue) (head cur delta : Z) : outcome (Z * Z) :=
  match fuel with
  | O => OutOfFuel
  | S fuel =>
      if cur =? head then Ok (cur, delta)
      else
        let* d := deref (sq_delta sq !! cur) in
        if delta <? d then Ok (cur, delta)
        else
          let* next := get_next (sq_heap sq) cur in
          sleep_search fuel sq head next (u64 (delta - d))
  end.

(** The queue operation of [sys_clock_nanosleep]: enter the descriptor whose node is [node]. *)
Definition sleep_enqueue (fuel : nat) (sq : sleep_queue) (head node tid time_ns : Z) : outcome sleep_queue :=
  let* h := list_node_init (sq_heap sq) node in
  let sq := mk_sleepq h (sq_delta sq) (<[node := tid]> (sq_task sq)) in
  let* first := get_next h head in
  let* (cur, delta) := sleep_search fuel sq head first time_ns in
  let* empty := list_empty h head in
  if empty then
    let* h := list_add h head node in
    Ok (mk_sleepq h (<[node := delta]> (sq_delta sq)) (sq_task sq))
  else
    let* d := deref (sq_delta sq !! cur) in
    let ds := <[node := delta]> (<[cur := u64 (d - delta)]> (sq_delta sq)) in
    let* h := list_add_tail h node cur in
    Ok (mk_sleepq h ds (sq_task sq)).

(** [vm_validate_ptr] of the request is checked before; [tv_sec] and [tv_nsec] are 64-bit. *)
Definition sys_clock_nanosleep (fuel : nat) (sq : sleep_queue) (s : sched) (cpu head node tid clock tv_sec tv_nsec : Z)
    (tv_valid : bool) : outcome (ret * sleep_queue * sched) :=
  if negb (clock =? CLOCK_REALTIME) then Ok (RErr EINVAL, sq, s)
  else if negb tv_valid then Ok (RErr EFAULT, sq, s)
  else
    let time_ns := u64 (tv_sec * 1000000000 + tv_nsec) in
    let* sq := sleep_enqueue fuel sq head node tid time_ns in
    let* (_, s) := cas_status s tid TASK_RUNNING TASK_INTR_SLEEPING in
    let* s := sched_yield s cpu in
    Ok (RVal 0, sq, s).

(** The loop of [sleep_queue_tick]; [tmp] is the node after [cur], read before [cur] is removed. *)
Fixpoint tick_loop (fuel : nat) (sq : sleep_queue) (s : sched) (cpu head cur tmp ns : Z)
    : outcome (sleep_queue * sched) :=
  match fuel with
  | O => OutOfFuel
  | S fuel =>
      if cur =? head then Ok (sq, s)
      else
        let* d := deref (sq_delta sq !! cur) in
        if d <=? ns then
          let ns := ns - d in
          let sq := mk_sleepq (sq_heap sq) (<[cur := 0]> (sq_delta sq)) (sq_task sq) in
          let* tid := deref (sq_task sq !! cur) in
          let* (fail, s) := cas_status s tid TASK_INTR_SLEEPING TASK_RUNNING in
          match fail with
          | Some _ => Ok (sq, s)
          | None =>
              let* h := list_del (sq_heap sq) cur in
              let sq := mk_sleepq h (sq_delta sq) (sq_task sq) in
              let* s := sched_add_ready s cpu tid in
              if ns =? 0 then Ok (sq, s)
              else
                let* tmp' := get_next (sq_heap sq) tmp in
                tick_loop fuel sq s cpu head tmp tmp' ns
          end
        else Ok (mk_sleepq (sq_heap sq) (<[cur := d - ns]> (sq_delta sq)) (sq_task sq), s)
  end.

Definition sleep_queue_tick (fuel : nat) (sq : sleep_queue) (s : sched) (cpu head ns : Z)
    : outcome (sleep_queue * sched) :=
  let* cur := get_next (sq_heap sq) head in
  let* tmp := get_next (sq_heap sq) cur in
  tick_loop fuel sq s cpu head cur tmp ns.

(** ** Lemmas on statuses and run queues *)

Lemma cas_status_ok s tid t e n : tasks s !! tid = Some t -> t_status t = e ->
  cas_status s tid e n = Ok (None, put_task s tid (set_t_status n t)).
Proof. intros Ht He. unfold cas_status, get_task. rewrite Ht. simpl. by rewrite decide_True. Qed.

Lemma cas_status_no s tid t e n : tasks s !! tid = Some t -> t_status t <> e ->
  cas_status s tid e n = Ok (Some (t_status t), s).
Proof. intros Ht He. unfold cas_status, get_task. rewrite Ht. simpl. by rewrite decide_False. Qed.

Lemma sched_add_ready_run s cpu tid s' : sched_add_ready s cpu tid = Ok s' -> tasks s' = tasks s.
Proof.
  unfold sched_add_ready. destruct (aget (cpus s) cpu); simpl; [|done..].
  destruct (aset (cpus s) cpu _); simpl; [|done..]. by intros [= <-].
Qed.

Lemma sched_add_ready_init s cpu tid s' : sched_add_ready s cpu tid = Ok s' -> init_task s' = init_task s.
Proof.
  unfold sched_add_ready. destruct (aget (cpus s) cpu); simpl; [|done..].
  destruct (aset (cpus s) cpu _); simpl; [|done..]. by intros [= <-].
Qed.

(** ** Mutex: two holders *)

Definition mutex_tasks : sched :=
  mk_sched {[1 := task_at 0 TASK_RUNNING; 11 := task_at 3 TASK_RUNNING; 12 := task_at 4 TASK_RUNNING;
             13 := task_at 5 TASK_RUNNING]} [11; 12; 13] 6 11
    [mk_percpu 1 [] 0 1].

Definition mutex_start : mutex_sys :=
  mk_msys mutex_init mutex_tasks {[11 := MOutside; 12 := MOutside; 13 := MOutside]}.

(** The mutex does not exclude once a task has waited for it.
    [mutex_unlock] clears [locked] and wakes a waiter, which returns from
    [mutex_lock] without setting [locked] again, so that a third task can take
    the mutex as well: a state with two holders is reachable.  A waiter that
    has queued itself but not yet gone to sleep when the mutex is released
    makes [mutex_unlock] panic. *)
Theorem mutex_not_exclusive :
  (exists y, mutex_reach mutex_start (Ok y) /\ ms_pc y !! 12 = Some MHolds /\ ms_pc y !! 13 = Some MHolds) /\
  mutex_reach mutex_start Panic.
Proof.
  split.
  - eexists. split; [|split].
    + eapply mreach_step; [eapply mreach_step; [eapply mreach_step; [eapply mreach_step; [eapply mreach_step;
        [eapply mreach_step; [apply mreach_refl|]|]|]|]|]|].
      * by eapply (mstep_lock _ 11).
      * by eapply (mstep_lock _ 12).
      * by eapply (mstep_sleep _ 12).
      * by eapply (mstep_unlock _ 11 0).
      * by eapply (mstep_resume _ 12).
      * by eapply (mstep_lock _ 13).
    + reflexivity.
    + reflexivity.
  - eapply mreach_step; [eapply mreach_step; [eapply mreach_step; [apply mreach_refl|]|]|].
    + by eapply (mstep_lock _ 11).
    + by eapply (mstep_lock _ 12).
    + by eapply (mstep_unlock _ 11 0).
Qed.

(** ** Wait queues *)

(** [ready cpu s tids]: [s] with the tasks [tids] made runnable and appended,
    in order, to the processor's run queue. *)
Definition made_ready (s s' : sched) (cpu : Z) (tids : list Z) : Prop :=
  (forall tid, tid ∈ tids -> exists t, tasks s !! tid = Some t /\ tasks s' !! tid = Some (set_t_status TASK_RUNNING t)) /\
  (forall tid, tid ∉ tids -> tasks s' !! tid = tasks s !! tid) /\
  exists c c', aget (cpus s) cpu = Ok c /\ aget (cpus s') cpu = Ok c' /\ runqueue c' = runqueue c ++ tids /\
    (forall k, k <> Z.to_nat cpu -> cpus s' !! k = cpus s !! k).

Lemma sched_add_ready_spec s cpu tid c : aget (cpus s) cpu = Ok c ->
  exists s' c', sched_add_ready s cpu tid = Ok s' /\ tasks s' = tasks s /\ aget (cpus s') cpu = Ok c' /\
    runqueue c' = runqueue c ++ [tid] /\ (forall k, k <> Z.to_nat cpu -> cpus s' !! k = cpus s !! k).
Proof.
  intros Hc. unfold sched_add_ready. rewrite Hc. simpl. set (c' := set_queue_entry_count _ _).
  destruct (aset_cpus _ _ _ c' Hc) as (_ & -> & Hr). simpl. eexists _, c'. split; [done|]. split; [done|]. simpl.
  rewrite aget_insert, decide_True by done. do 2 (split; [done|]). intros k Hk. by apply list_lookup_insert_ne.
Qed.

Lemma made_ready_nil s cpu c : aget (cpus s) cpu = Ok c -> made_ready s s cpu [].
Proof. intros Hc. split; [set_solver|]. split; [done|]. exists c, c. by rewrite app_nil_r. Qed.

Lemma made_ready_cons s s1 s' cpu tid t c c1 tids : tasks s !! tid = Some t -> tid ∉ tids ->
  aget (cpus s) cpu = Ok c -> tasks s1 = <[tid := set_t_status TASK_RUNNING t]> (tasks s) ->
  aget (cpus s1) cpu = Ok c1 -> runqueue c1 = runqueue c ++ [tid] ->
  (forall k, k <> Z.to_nat cpu -> cpus s1 !! k = cpus s !! k) ->
  made_ready s1 s' cpu tids -> made_ready s s' cpu (tid :: tids).
Proof.
  intros Ht Hnt Hc Ht1 Hc1 Hrq1 Hk1 (Hr1 & Hr2 & c2 & c' & Hg & Hg' & Hrq' & Hk'). split; [|split].
  - intros x [->|Hx]%elem_of_cons.
    + exists t. split; [done|]. rewrite Hr2, Ht1 by done. apply lookup_insert_eq.
    + destruct (Hr1 x Hx) as (xt & Hxt & Hxt'). rewrite Ht1 in Hxt.
      rewrite lookup_insert_ne in Hxt by (intros <-; done). by exists xt.
  - intros x [Hx Hx']%not_elem_of_cons. rewrite Hr2, Ht1 by done. by apply lookup_insert_ne.
  - exists c, c'. split; [done|]. split; [done|]. rewrite Hc1 in Hg. injection Hg as <-.
    split; [rewrite Hrq', Hrq1, <- app_assoc; done|]. intros k Hk. by rewrite Hk', Hk1.
Qed.

(** The task a node belongs to. *)
Definition node_task (w : wait_sys) (n : Z) : Z := default 0 (snd <$> wq_nodes w !! n).

(** The nodes belong to different tasks, all in interruptible sleep. *)
Definition sleepers (w : wait_sys) (s : sched) (nodes : list Z) : Prop :=
  NoDup (node_task w <$> nodes) /\
  forall n, n ∈ nodes -> exists nq t, wq_nodes w !! n = Some (nq, node_task w n) /\
    tasks s !! node_task w n = Some t /\ t_status t = TASK_INTR_SLEEPING.

Lemma wake_loop_spec nodes : forall q w s cpu c,
  aget (cpus s) cpu = Ok c -> sleepers w s nodes -> wq_queues w !! q = Some nodes ->
  exists w' s', wake_loop nodes q w s cpu = Ok (w', s') /\ made_ready s s' cpu (node_task w <$> nodes) /\
    wq_queues w' !! q = Some [] /\ (forall n, n ∈ nodes -> wq_nodes w' !! n = Some (0, node_task w n)) /\
    (forall n, n ∉ nodes -> wq_nodes w' !! n = wq_nodes w !! n).
Proof.
  induction nodes as [|n nodes IH]; intros q w s cpu c Hc [Hnd Hsl] Hq.
  { exists w, s. split; [done|]. split; [by eapply made_ready_nil|]. split; [done|]. split; [set_solver|done]. }
  cbn [fmap list_fmap] in Hnd. apply NoDup_cons in Hnd as [Hn Hnd].
  destruct (Hsl n) as (nq & t & Hwn & Ht & Hst); [set_solver|]. set (tid := node_task w n) in *.
  cbn [wake_loop]. rewrite Hwn. cbn [deref outcome_bind]. rewrite (cas_status_ok _ _ t) by done. cbn [outcome_bind].
  destruct (sched_add_ready_spec (put_task s tid (set_t_status TASK_RUNNING t)) cpu tid c Hc)
    as (s1 & c1 & -> & Ht1 & Hc1 & Hrq1 & Hk1). cbn [outcome_bind]. set (w1 := mk_wait _ _).
  assert (forall m, m ∈ nodes -> m <> n /\ node_task w m <> tid) as Hdiff.
  { intros m Hm. assert (node_task w m <> tid) as Hne.
    { intros He. apply Hn. fold tid. rewrite <- He. by apply list_elem_of_fmap_2. }
    split; [|done]. by intros ->. }
  assert (forall m, m ∈ nodes -> wq_nodes w1 !! m = wq_nodes w !! m) as Hw1.
  { intros m Hm. unfold w1. simpl. apply lookup_insert_ne. apply not_eq_sym, (Hdiff m Hm). }
  assert (forall m, m ∈ nodes -> node_task w1 m = node_task w m) as Hnt by (intros m Hm; unfold node_task; by rewrite Hw1).
  assert (node_task w1 <$> nodes = node_task w <$> nodes) as Hmap by (apply list_fmap_ext; intros i m Hm; apply Hnt; by eapply list_elem_of_lookup_2).
  destruct (IH q w1 s1 cpu c1 Hc1) as (w' & s' & -> & Hready & Hq' & Hall & Hoth).
  { split; [by rewrite Hmap|]. intros m Hm. rewrite Hw1, Hnt by done.
    destruct (Hsl m) as (mq & mt & Hwm & Hmt & Hms); [set_solver|]. exists mq, mt. rewrite Ht1. simpl.
    rewrite lookup_insert_ne by (apply not_eq_sym, (Hdiff m Hm)). done. }
  { unfold w1. simpl. apply lookup_insert_eq. }
  rewrite Hmap in *. exists w', s'. split; [done|]. split; [|split; [done|split]].
  - by eapply made_ready_cons.
  - intros m [->|Hm]%elem_of_cons; [|by rewrite Hall, Hnt].
    rewrite Hoth by (intros Hin; by destruct (Hdiff n Hin)). unfold w1. simpl. apply lookup_insert_eq.
  - intros m [Hm Hm']%not_elem_of_cons. rewrite Hoth by done. unfold w1. simpl. by apply lookup_insert_ne.
Qed.

(** Waking one queue leaves the others alone. *)
Lemma wake_loop_queues nodes : forall q w s cpu w' s', wake_loop nodes q w s cpu = Ok (w', s') ->
  forall q', q' <> q -> wq_queues w' !! q' = wq_queues w !! q'.
Proof.
  induction nodes as [|n nodes IH]; intros q w s cpu w' s' H q' Hq; [by injection H as <- <-|]. cbn [wake_loop] in H.
  destruct (wq_nodes w !! n) as [[nq tid]|]; [|done]. cbn [deref outcome_bind] in H.
  destruct (cas_status s tid TASK_INTR_SLEEPING TASK_RUNNING) as [[[f|] s1]| | |]; cbn [outcome_bind] in H; try done.
  destruct (sched_add_ready s1 cpu tid); cbn [outcome_bind] in H; try done.
  rewrite (IH _ _ _ _ _ _ H q' Hq). simpl. by apply lookup_insert_ne.
Qed.

Lemma node_linked_spec w node : node_linked w node = true <-> exists q l, wq_queues w !! q = Some l /\ node ∈ l.
Proof.
  unfold node_linked. rewrite bool_decide_eq_true, Exists_exists. split.
  - intros ([q l] & Hin & Hn). apply elem_of_map_to_list in Hin. eauto.
  - intros (q & l & Hq & Hn). exists (q, l). split; [by apply elem_of_map_to_list|done].
Qed.

(** [wait_queue_wake] on a queue of sleeping tasks wakes all of them and
    nobody else, in the order in which they registered, and leaves the queue
    empty with every node detached. *)
Theorem wait_queue_wake_correct w s cpu q nodes c : aget (cpus s) cpu = Ok c ->
  wq_queues w !! q = Some nodes -> sleepers w s nodes ->
  exists w' s', wait_queue_wake w s cpu q = Ok (w', s') /\ made_ready s s' cpu (node_task w <$> nodes) /\
    wq_queues w' !! q = Some [] /\ (forall n, n ∈ nodes -> wq_nodes w' !! n = Some (0, node_task w n)).
Proof.
  intros Hc Hq Hsl. unfold wait_queue_wake. rewrite Hq. simpl.
  destruct (wake_loop_spec nodes q w s cpu c Hc Hsl Hq) as (w' & s' & ? & ? & ? & ? & _). by exists w', s'.
Qed.

Definition sleepy : sched :=
  mk_sched {[1 := task_at 0 TASK_RUNNING; 11 := task_at 3 TASK_INTR_SLEEPING; 12 := task_at 4 TASK_INTR_SLEEPING]}
    [11; 12] 5 11 [mk_percpu 1 [] 0 1].
Definition sleepy_queue : wait_sys := mk_wait {[100 := [21; 22]]} {[21 := (100, 11); 22 := (100, 12)]}.

Lemma wait_queue_wake_correct_witness : exists w' s', wait_queue_wake sleepy_queue sleepy 0 100 = Ok (w', s') /\
  wq_queues w' !! 100 = Some [].
Proof.
  destruct (wait_queue_wake_correct sleepy_queue sleepy 0 100 [21; 22] (mk_percpu 1 [] 0 1))
    as (w' & s' & Hrun & _ & Hq & _); [reflexivity|reflexivity| |].
  - split; [vm_compute; repeat constructor; set_solver|]. intros n Hn.
    repeat (apply elem_of_cons in Hn as [->|Hn]; [do 2 eexists; repeat split; reflexivity|]). by apply not_elem_of_nil in Hn.
  - exists w', s'. split; [exact Hrun|exact Hq].
Defined.

(** A signal to a task that sleeps on a wait queue makes it runnable but
    leaves its node on the queue; if the queue is woken before the task has
    run and unregistered itself, [wait_queue_wake] panics. *)
Theorem wake_after_signal_panics w s cpu q node nodes tid t signal s1 :
  tasks s !! tid = Some t -> t_status t = TASK_INTR_SLEEPING ->
  wq_queues w !! q = Some (node :: nodes) -> wq_nodes w !! node = Some (q, tid) ->
  send_signal s cpu tid signal = Ok s1 -> wait_queue_wake w s1 cpu q = Panic.
Proof.
  intros Ht Hst Hq Hn Hsend. unfold wait_queue_wake. rewrite Hq. cbn [deref outcome_bind wake_loop]. rewrite Hn.
  cbn [deref outcome_bind]. assert (exists t1, tasks s1 !! tid = Some t1 /\ t_status t1 = TASK_RUNNING) as (t1 & Ht1 & Hr1).
  { revert Hsend. unfold send_signal, upd_task, get_task. rewrite Ht. cbn [deref outcome_bind].
    set (t0 := set_t_sig_pending _ t). rewrite (cas_status_ok _ tid t0) by (done || apply lookup_insert_eq).
    cbn [outcome_bind]. intros Hadd. apply sched_add_ready_run in Hadd. rewrite Hadd. simpl.
    rewrite lookup_insert_eq. by eexists. }
  rewrite (cas_status_no _ _ t1) by congruence. done.
Qed.

Lemma wake_after_signal_panics_witness : exists s1,
  send_signal sleepy 0 11 2 = Ok s1 /\ wait_queue_wake sleepy_queue s1 0 100 = Panic.
Proof.
  eexists. split; [reflexivity|].
  eapply (wake_after_signal_panics sleepy_queue sleepy 0 100 21 [22] 11 (task_at 3 TASK_INTR_SLEEPING) 2); reflexivity.
Defined.

(** ** The sleep queue *)

Lemma sleep_search_spec sq head : forall l2 l1 fuel delta, dlist (sq_heap sq) head (l1 ++ l2) ->
  (forall n, n ∈ l1 ++ l2 -> is_Some (sq_delta sq !! n)) -> (length l2 < fuel)%nat ->
  exists cur delta', sleep_search fuel sq head (hd head l2) delta = Ok (cur, delta') /\ (cur = head \/ cur ∈ l2).
Proof.
  induction l2 as [|x l2 IH]; intros l1 fuel delta Hd Hds Hf; (destruct fuel as [|fuel]; [simpl in Hf; lia|]);
    cbn [sleep_search hd].
  - rewrite Z.eqb_refl. exists head, delta. split; [done|by left].
  - destruct (Z.eqb_spec x head) as [->|Hxh]; [exists head, delta; split; [done|by left]|].
    destruct (Hds x) as [d Hx]; [set_solver|]. rewrite Hx. cbn [deref outcome_bind].
    destruct (delta <? d); [exists x, delta; split; [done|right; set_solver]|].
    rewrite (app_assoc l1 [x] l2 : l1 ++ x :: l2 = (l1 ++ [x]) ++ l2) in Hd.
    destruct (dlist_neighbours _ _ _ _ Hd) as [Hn _]. rewrite List.last_last in Hn.
    unfold get_next. rewrite Hn. cbn [deref outcome_bind].
    destruct (IH (l1 ++ [x]) fuel (u64 (delta - d)) Hd) as (cur & delta' & -> & Hcur).
    + intros n Hin. apply Hds. set_solver.
    + simpl in Hf. lia.
    + exists cur, delta'. split; [done|]. set_solver.
Qed.

(** [list_add_tail] with its arguments exchanged: [node] is a detached node and
    [x] a node of a ring.  It links the two to each other and leaves the
    neighbours of [x] pointing at it. *)
Lemma swapped_add_run h node x : node <> x -> dlist h node [] -> allocated h x ->
  list_add_tail h node x = Ok (spliced h x node node).
Proof.
  intros Hne [_ [Hn Hp]] Hal. unfold list_add_tail, get_prev. rewrite Hp. cbn [deref outcome_bind].
  apply __list_add_run; eauto; done.
Qed.

Lemma hd_app_cons (d x : Z) l1 l2 : hd d (l1 ++ x :: l2) = hd x l1.
Proof. by destruct l1. Qed.

Section swapped.
Context (h : node_heap) (head node x : Z) (l1 l2 : list Z).
Context (Hring : dlist h head (l1 ++ x :: l2)) (Hnode : node ∉ head :: l1 ++ x :: l2).

Let h' := spliced h x node node.

Lemma swapped_next m : hnext h' !! m = if decide (m = node) then Some x else if decide (m = x) then Some node else hnext h !! m.
Proof.
  unfold h', spliced. simpl. destruct (decide (m = node)) as [->|]; [apply lookup_insert_eq|].
  rewrite lookup_insert_ne by done. destruct (decide (m = x)) as [->|]; [apply lookup_insert_eq|by apply lookup_insert_ne].
Qed.

(** The walk enters the pair and goes round in it. *)
Lemma swapped_cycle fuel : for_each_from fuel h' head x = OutOfFuel /\ for_each_from fuel h' head node = OutOfFuel.
Proof.
  destruct Hring as [Hnd _]. assert (x <> head /\ node <> head /\ node <> x) as (Hx & Hn & Hnx).
  { apply NoDup_cons in Hnd as [Hh _]. set_solver. }
  induction fuel as [|fuel [IH1 IH2]]; [done|]. simpl. unfold get_next. rewrite !swapped_next.
  rewrite (decide_False (P := x = node)), !decide_True by done. simpl.
  destruct (Z.eqb_spec x head); [done|]. destruct (Z.eqb_spec node head); [done|]. by rewrite IH1, IH2.
Qed.

Lemma swapped_prefix k1 : forall k0 fuel, l1 = k0 ++ k1 -> for_each_from fuel h' head (hd x k1) = OutOfFuel.
Proof.
  induction k1 as [|y k1 IH]; intros k0 fuel Hl; [apply swapped_cycle|]. destruct fuel as [|fuel]; [done|].
  assert (y <> head /\ y <> x /\ y <> node) as (Hyh & Hyx & Hyn).
  { destruct Hring as [Hnd _]. rewrite Hl in Hnd, Hnode. apply NoDup_cons in Hnd as [Hh Hnd].
    apply NoDup_app in Hnd as (_ & Hdis & _). split; [set_solver|]. split; [|set_solver].
    intros ->. apply (Hdis x); set_solver. }
  cbn [for_each_from hd]. destruct (Z.eqb_spec y head); [done|].
  unfold get_next. rewrite swapped_next, !decide_False by done.
  pose proof Hring as Hr. rewrite Hl, <- app_assoc in Hr.
  change ((y :: k1) ++ x :: l2) with ([y] ++ (k1 ++ x :: l2)) in Hr. rewrite app_assoc in Hr.
  destruct (dlist_neighbours _ _ _ _ Hr) as [Hn _]. rewrite List.last_last in Hn. rewrite Hn. cbn [deref outcome_bind].
  rewrite hd_app_cons.
  rewrite (IH (k0 ++ [y])); [done|]. by rewrite Hl, <- app_assoc.
Qed.

(** The ring of [head] is destroyed: a walk never comes back to it. *)
Lemma swapped_diverges fuel : list_for_each_entry fuel h' head = OutOfFuel.
Proof.
  unfold list_for_each_entry, get_next. assert (head <> node /\ head <> x) as [Hn Hx].
  { destruct Hring as [Hnd _]. apply NoDup_cons in Hnd as [Hh _]. set_solver. }
  rewrite swapped_next, !decide_False by done. destruct (dlist_neighbours _ _ [] _ Hring) as [Hh _]. simpl in Hh. rewrite Hh.
  cbn [deref outcome_bind]. rewrite hd_app_cons.
  by apply (swapped_prefix l1 []).
Qed.
End swapped.

(** [sys_clock_nanosleep] passes the arguments of [list_add_tail] in the
    wrong order.  Whenever another task already sleeps on the processor,
    entering a second one destroys the queue: either a walk of the queue never
    returns to its head, or the queue holds only the new entry and the earlier
    sleepers are lost. *)
Theorem nanosleep_breaks_queue fuel sq head xs node tid time_ns :
  xs <> [] -> dlist (sq_heap sq) head xs -> node ∉ head :: xs -> allocated (sq_heap sq) node ->
  (forall n, n ∈ head :: xs -> is_Some (sq_delta sq !! n)) -> (length xs < fuel)%nat ->
  exists sq', sleep_enqueue fuel sq head node tid time_ns = Ok sq' /\
    ((forall f, list_for_each_entry f (sq_heap sq') head = OutOfFuel) \/ dlist (sq_heap sq') head [node]).
Proof.
  intros Hxs Hd Hnode Hal Hds Hf. unfold sleep_enqueue. rewrite list_node_init_run by done. cbn [outcome_bind].
  set (h := mk_heap _ _). assert (frame (sq_heap sq) h [node]) as Hfr.
  { intros m Hm. unfold h. simpl. rewrite !lookup_insert_ne by set_solver. done. }
  assert (dlist h head xs) as Hd1 by (eapply dlist_frame; [exact Hfr|set_solver|done]).
  assert (dlist h node []) as Hdn.
  { split; [apply NoDup_singleton|]. unfold h. simpl. by rewrite !lookup_insert_eq. }
  destruct (dlist_neighbours h head [] xs Hd1) as [Hfirst _]. cbn [List.last] in Hfirst.
  unfold get_next, list_empty, get_next. rewrite Hfirst. cbn [deref outcome_bind sq_heap].
  destruct (sleep_search_spec (mk_sleepq h (sq_delta sq) (<[node:=tid]> (sq_task sq))) head xs [] fuel time_ns Hd1)
    as (cur & delta & -> & Hcur); [set_solver|done|]. cbn [outcome_bind sq_delta sq_task].
  destruct (Z.eqb_spec head (hd head xs)) as [He|He].
  { destruct xs as [|y xs]; [done|]. simpl in He. subst y. destruct Hd as [Hnd _]. apply NoDup_cons in Hnd as [Hn _]. set_solver. }
  destruct (Hds cur) as [d Hdc]; [set_solver|]. rewrite Hdc. cbn [deref outcome_bind].
  assert (allocated h cur) as Hac.
  { destruct Hcur as [->|Hin]; [by eapply dlist_alloc_head|]. eapply chain_alloc; [apply Hd1|done]. }
  rewrite swapped_add_run; [|set_solver|done|done]. cbn [outcome_bind]. eexists. split; [done|]. cbn [sq_heap].
  destruct Hcur as [->|Hin]; [right|left].
  - assert (head <> node) by set_solver. split.
    + apply NoDup_cons. split; [set_solver|apply NoDup_singleton].
    + cbn [chain]. unfold spliced. cbn [hnext hprev]. by simplify_map_eq.
  - apply list_elem_of_split in Hin as (l1 & l2 & ->). intros f. by eapply swapped_diverges.
Qed.

(** One sleeper (node 51) on the queue with head 50, another (node 52) enters. *)
Definition one_sleeper : sleep_queue :=
  mk_sleepq (mk_heap {[50 := 51; 51 := 50; 52 := 0]} {[50 := 51; 51 := 50; 52 := 0]})
    {[50 := 0; 51 := 1000]} {[51 := 11]}.

Lemma nanosleep_breaks_queue_witness : exists sq', sleep_enqueue 5 one_sleeper 50 52 12 400 = Ok sq' /\
  forall f, list_for_each_entry f (sq_heap sq') 50 = OutOfFuel.
Proof.
  destruct (nanosleep_breaks_queue 5 one_sleeper 50 [51] 52 12 400) as (sq' & Hrun & [H|H]).
  - done.
  - split; [repeat constructor; set_solver|]. repeat split; reflexivity.
  - set_solver.
  - split; eexists; reflexivity.
  - intros n Hn. repeat (apply elem_of_cons in Hn as [->|Hn]; [eexists; reflexivity|]). by apply not_elem_of_nil in Hn.
  - simpl. lia.
  - exists sq'. split; [exact Hrun|exact H].
  - exfalso. destruct H as [_ [H _]]. vm_compute in Hrun. injection Hrun as <-. vm_compute in H. discriminate.
Defined.

(** The time until the [k]-th sleeper of the queue is due: the sum of the deltas up to it. *)
Definition delta_of (sq : sleep_queue) (n : Z) : Z := default 0 (sq_delta sq !! n).
Definition sleep_tid (sq : sleep_queue) (n : Z) : Z := default 0 (sq_task sq !! n).
Definition expiry (sq : sleep_queue) (xs : list Z) (k : nat) : Z :=
  foldr Z.add 0 (delta_of sq <$> take (S k) xs).

(** The queue [xs] of different sleeping tasks. *)
Record sleeping (sq : sleep_queue) (s : sched) (head : Z) (xs : list Z) : Prop := {
  sl_ring : dlist (sq_heap sq) head xs;
  sl_data : forall n, n ∈ xs -> sq_delta sq !! n = Some (delta_of sq n) /\ 0 <= delta_of sq n /\
    sq_task sq !! n = Some (sleep_tid sq n) /\
    exists t, tasks s !! sleep_tid sq n = Some t /\ t_status t = TASK_INTR_SLEEPING;
  sl_tids : NoDup (sleep_tid sq <$> xs);
}.

Lemma expiry_cons sq n xs k :
  expiry sq (n :: xs) k = delta_of sq n + match k with O => 0 | S k => expiry sq xs k end.
Proof. by destruct k. Qed.

Lemma expiry_ext sq sq' xs : forall k, (forall n, n ∈ xs -> delta_of sq' n = delta_of sq n) ->
  expiry sq' xs k = expiry sq xs k.
Proof.
  induction xs as [|n xs IH]; intros k H; [done|]. rewrite !expiry_cons, H by set_solver.
  destruct k; [done|]. rewrite IH; [done|]. set_solver.
Qed.

(** Waking the first sleeper. *)
Lemma sleeping_tail sq s head n ys h1 s1 t : sleeping sq s head (n :: ys) -> dlist h1 head ys ->
  tasks s1 = <[sleep_tid sq n := t]> (tasks s) ->
  let sq1 := mk_sleepq h1 (<[n := 0]> (sq_delta sq)) (sq_task sq) in
  sleeping sq1 s1 head ys /\ (forall m, m ∈ ys -> delta_of sq1 m = delta_of sq m) /\
  (sleep_tid sq n ∉ sleep_tid sq <$> ys).
Proof.
  intros [Hring Hdata Htids] Hd1 Ht1 sq1. cbn [fmap list_fmap] in Htids. apply NoDup_cons in Htids as [Hnt Htids].
  assert (n ∉ ys) as Hn by (destruct Hring as [Hnd _]; apply NoDup_cons in Hnd as [_ Hnd]; by apply NoDup_cons in Hnd as [? _]).
  assert (forall m, m ∈ ys -> sq_delta sq1 !! m = sq_delta sq !! m) as Hdl.
  { intros m Hm. unfold sq1. cbn [sq_delta]. apply lookup_insert_ne. intros ->. done. }
  assert (forall m, m ∈ ys -> delta_of sq1 m = delta_of sq m) as Hdo by (intros m Hm; unfold delta_of; by rewrite Hdl).
  split; [|done]. split; [done| |done]. intros m Hm. rewrite Hdo, Hdl by done.
  destruct (Hdata m) as (? & ? & ? & t' & Ht' & Hst); [set_solver|]. do 3 (split; [done|]). exists t'. split; [|done].
  rewrite Ht1. change (sleep_tid sq1 m) with (sleep_tid sq m). rewrite lookup_insert_ne; [done|].
  intros He. apply Hnt. rewrite He. by apply list_elem_of_fmap_2.
Qed.

Lemma tick_loop_spec head cpu ys : forall fuel sq s c tmp ns,
  sleeping sq s head ys -> aget (cpus s) cpu = Ok c -> 0 <= ns -> (length ys < fuel)%nat ->
  (ys <> [] -> tmp = hd head (tail ys)) ->
  exists w sq' s', tick_loop fuel sq s cpu head (hd head ys) tmp ns = Ok (sq', s') /\
    dlist (sq_heap sq') head (drop w ys) /\ made_ready s s' cpu (sleep_tid sq <$> take w ys) /\
    (forall k, (k < w)%nat -> expiry sq ys k <= ns) /\
    (forall k, (w + k < length ys)%nat -> expiry sq' (drop w ys) k = expiry sq ys (w + k) - ns).
Proof.
  induction ys as [|n ys IH]; intros fuel sq s c tmp ns Hsl Hc Hns Hf Htmp;
    (destruct fuel as [|fuel]; [simpl in Hf; lia|]); cbn [tick_loop hd].
  { rewrite Z.eqb_refl. exists 0%nat, sq, s. split; [done|]. split; [apply Hsl|].
    split; [by eapply made_ready_nil|]. split; [lia|]. simpl; lia. }
  pose proof Hsl as [Hring Hdata _]. destruct (Hdata n) as (Hd & Hd0 & Htask & t & Ht & Hst); [set_solver|].
  assert (n <> head /\ (n ∉ ys)) as [Hnh Hny].
  { destruct Hring as [Hnd _]. apply NoDup_cons in Hnd as [? Hnd]. apply NoDup_cons in Hnd as [? _]. set_solver. }
  destruct (Z.eqb_spec n head); [done|].
  rewrite Hd. cbn [deref outcome_bind]. destruct (Z.leb_spec (delta_of sq n) ns) as [Hle|Hgt].
  - cbn [sq_task]. rewrite Htask. cbn [deref outcome_bind]. rewrite (cas_status_ok _ _ t) by done. cbn [outcome_bind sq_heap].
    destruct (list_del_spec (sq_heap sq) head [] n ys Hring) as (h1 & -> & Hd1 & _). cbn [outcome_bind sq_task sq_delta].
    set (sq1 := mk_sleepq h1 _ _).
    destruct (sched_add_ready_spec (put_task s (sleep_tid sq n) (set_t_status TASK_RUNNING t)) cpu (sleep_tid sq n) c Hc)
      as (s1 & c1 & -> & Ht1 & Hc1 & Hrq1 & Hk1). cbn [outcome_bind].
    destruct (sleeping_tail sq s head n ys h1 s1 _ Hsl Hd1 Ht1) as (Hsl1 & Hdo & Hnt).
    destruct (Z.eqb_spec (ns - delta_of sq n) 0) as [Hz|Hz].
    + exists 1%nat, sq1, s1. split; [done|]. split; [done|]. split; [|split].
      * eapply (made_ready_cons _ s1); [done|apply not_elem_of_nil|done|exact Ht1|done|done|done|]. by eapply made_ready_nil.
      * intros k Hk. assert (k = 0%nat) as -> by lia. rewrite expiry_cons. lia.
      * intros k Hk. cbn [Nat.add]. change (drop 1 (n :: ys)) with ys. rewrite expiry_cons. cbn iota. rewrite (expiry_ext sq sq1) by done. lia.
    + assert (tmp = hd head ys) as -> by (by apply Htmp).
      assert (exists tmp', get_next h1 (hd head ys) = Ok tmp' /\ (ys <> [] -> tmp' = hd head (tail ys))) as (tmp' & Hg & Htmp').
      { unfold get_next. destruct ys as [|y ys].
        - destruct (dlist_neighbours h1 head [] [] Hd1) as [Hx _]. cbn [List.last hd] in *. rewrite Hx. by eexists.
        - destruct (dlist_neighbours h1 head [y] ys Hd1) as [Hx _]. cbn [List.last hd tail] in *. rewrite Hx. by eexists. }
      cbn [sq_heap sq1]. rewrite Hg. cbn [outcome_bind].
      destruct (IH fuel sq1 s1 c1 tmp' (ns - delta_of sq n) Hsl1 Hc1) as (w & sq' & s' & -> & Hd' & Hr' & He1 & He2);
        [lia|simpl in Hf; lia|done|].
      exists (S w), sq', s'. split; [done|]. split; [done|]. split; [|split].
      * cbn [take fmap list_fmap]. eapply (made_ready_cons _ s1); [done| |done|exact Ht1|done|done|done|exact Hr'].
        intros Hin. apply Hnt. apply list_elem_of_fmap in Hin as (m & He & Hm). rewrite He.
        apply list_elem_of_fmap_2. rewrite <- (take_drop w ys). set_solver.
      * intros k Hk. rewrite expiry_cons. destruct k as [|k]; [lia|]. specialize (He1 k ltac:(lia)).
        rewrite (expiry_ext sq sq1) in He1 by done. lia.
      * intros k Hk. cbn [drop Nat.add]. rewrite expiry_cons. cbn iota. rewrite He2 by (simpl in Hk; lia). rewrite (expiry_ext sq sq1) by done. lia.
  - exists 0%nat, (mk_sleepq (sq_heap sq) (<[n := delta_of sq n - ns]> (sq_delta sq)) (sq_task sq)), s.
    split; [done|]. split; [done|]. split; [by eapply made_ready_nil|]. split; [lia|].
    intros k Hk. cbn [drop Nat.add]. rewrite !expiry_cons. unfold delta_of at 1. cbn [sq_delta]. rewrite lookup_insert_eq. simpl default.
    destruct k as [|k]; [lia|]. rewrite (expiry_ext sq (mk_sleepq _ _ _)); [lia|].
    intros m Hm. unfold delta_of. cbn [sq_delta]. rewrite lookup_insert_ne; [done|]. intros ->. done.
Qed.


