(* ===== verification/Process.v ===== *)
(** * Processes

    kernel/sched/task.c and kernel/sched/task_sys.c: creation, exit, waiting
    and identity of processes, and the copy of program arguments to a new
    stack.  What these functions ask of the file system, the address spaces,
    the terminals and the heap goes through the interface [TaskServices];
    the task table, the process tree and the run queues are those of Sched.v. *)

From stdpp Require Import base numbers list gmap sets.
From Stdlib Require Import ZArith Lia.
From S2P Require Import Prelude KString Pages Pmm Sched Wait.

(** What process management uses of the other components.  [E] is their state. *)
Class TaskServices (E : Type) := {
  sv_alloc_task : E -> outcome (Z * E);               (** kmalloc of a task *)
  sv_free_task : E -> Z -> outcome E;                 (** kfree *)
  sv_kernel_stack : E -> outcome (Z * E);             (** vmalloc of a kernel stack *)
  sv_free_kernel_stack : E -> Z -> outcome E;         (** vfree *)
  sv_userspace_new : E -> outcome (Z * E);            (** vm_userspace_new *)
  sv_space_destroy : E -> Z -> outcome E;             (** vm_space_destroy *)
  sv_user_stack : E -> Z -> outcome (Z * E);          (** vm_space_map of the user stack *)
  sv_root : E -> Z;                                   (** vfs_context()->root_node *)
  sv_ventry_ref : E -> Z -> outcome E;
  sv_ventry_put : E -> Z -> outcome E;
  sv_close : E -> Z -> outcome E;                     (** vfs_close *)
  sv_dup : E -> Z -> outcome (Z * E);                 (** vfs_dup *)
  sv_tty_hangup : E -> Z -> outcome E;                (** session_id = fg_pgrp = 0 *)
  sv_proc_register : E -> Z -> outcome E;             (** procfs_register_process *)
  sv_proc_unregister : E -> Z -> outcome E;
}.

(** ** task.c *)

Definition kernel_stack_size : Z := 0x2000.

(** [kernel_stack_init] leaves seven words on the new stack. *)
Definition initial_rsp0 (stack_alloc : Z) : Z := stack_alloc + kernel_stack_size - 7 * 8.

(** The empty descriptor table of [fd_table_init]. *)
Definition fd_table_init : list Z := replicate 32 (-1).

Section process.
Context {E : Type} {SV : TaskServices E}.

Record kernel := mk_kernel { k_sched : sched; k_env : E }.

(** The fields [task_new] sets in a new task; [name] is cut to 32 bytes. *)
Definition new_task (name : list Z) (pid : Z) : task :=
  mk_task (take 32 name) 0 TASK_RUNNING 0 0 0 pid pid pid pid 0 [] (mk_cred 0 0 0 0 0 0) 0 0 [] 0 0 0 0.

Definition task_new (k : kernel) (name : list Z) (forcepid : Z) : outcome (Z * kernel) :=
  let* (tid, e) := sv_alloc_task (k_env k) in
  let s := k_sched k in
  let '(pid, s) :=
    if 0 <=? forcepid then (forcepid, s)
    else
      let pid := next_pid s in
      let s := set_next_pid (s32 (pid + 1)) s in
      (pid, if pid =? 1 then set_init_task tid s else s) in
  let s := put_task s tid (new_task name pid) in
  let s := if negb (pid =? 0) then set_task_list (task_list s ++ [tid]) s else s in
  Ok (tid, mk_kernel s e).

Definition thread_kernel_new (k : kernel) (name : list Z) : outcome (Z * kernel) :=
  let* (tid, k) := task_new k name 0 in
  let* (stack, e) := sv_kernel_stack (k_env k) in
  let* s := upd_task (k_sched k) tid (fun t => set_t_open_files fd_table_init (set_t_rsp0 (initial_rsp0 stack) t)) in
  Ok (tid, mk_kernel s e).

Definition process_userspace_new (k : kernel) (name : list Z) : outcome (Z * kernel) :=
  let* (tid, k) := task_new k name (-1) in
  let* (space, e) := sv_userspace_new (k_env k) in
  let cwd := sv_root e in
  let* (stack, e) := sv_kernel_stack e in
  let* (rsp, e) := sv_user_stack e space in
  let* s := upd_task (k_sched k) tid (fun t =>
    set_t_rsp rsp (set_t_open_files fd_table_init (set_t_rsp0 (initial_rsp0 stack) (set_t_cwd cwd (set_t_vm_space space t))))) in
  let* e := sv_proc_register e tid in
  Ok (tid, mk_kernel s e).

(** Detach the tasks of a session from its terminal. *)
Fixpoint drop_tty (l : list Z) (s : sched) (sid : Z) : outcome sched :=
  match l with
  | [] => Ok s
  | tid :: l =>
      let* t := get_task s tid in
      drop_tty l (if t_sid t =? sid then put_task s tid (set_t_tty 0 t) else s) sid
  end.

(** Move the children of [task] to the front of init's, first child first. *)
Fixpoint reparent (children : list Z) (s : sched) (cpu task : Z) : outcome sched :=
  match children with
  | [] => Ok s
  | child :: rest =>
      let init := init_task s in
      let* s := upd_task s task (set_t_children rest) in
      let* s := upd_task s init (fun t => set_t_children (child :: t_children t) t) in
      let* s := upd_task s child (set_t_parent init) in
      let* t := get_task s child in
      let* s := if decide (t_status t = TASK_ZOMBIE) then send_signal s cpu init SIGCHLD else Ok s in
      reparent rest s cpu task
  end.

Fixpoint close_files (fds : list Z) (e : E) : outcome E :=
  match fds with
  | [] => Ok e
  | fd :: fds => let* e := if 0 <=? fd then sv_close e fd else Ok e in close_files fds e
  end.

Definition task_zombify (k : kernel) (cpu tid : Z) : outcome kernel :=
  let* t := get_task (k_sched k) tid in
  let* k :=
    if is_session_leader t && negb (t_tty t =? 0) then
      let* s := drop_tty (task_list (k_sched k)) (k_sched k) (t_sid t) in
      let* e := sv_tty_hangup (k_env k) (t_tty t) in
      Ok (mk_kernel s e)
    else Ok k in
  let* s := reparent (t_children t) (k_sched k) cpu tid in
  let* e := close_files (t_open_files t) (k_env k) in
  let* e := if negb (t_cwd t =? 0) then sv_ventry_put e (t_cwd t) else Ok e in
  let* s := upd_task s tid (set_t_cwd 0) in
  let* e := if negb (t_vm_space t =? 0) then sv_space_destroy e (t_vm_space t) else Ok e in
  let* s := upd_task s tid (fun t => set_t_status TASK_ZOMBIE (set_t_flags (Z.lor (t_flags t) TASK_CAN_REAP) t)) in
  Ok (mk_kernel s e).

Definition task_destroy (k : kernel) (tid : Z) : outcome kernel :=
  let s := k_sched k in
  let* t := get_task s tid in
  let s := set_task_list (filter (fun x => x <> tid) (task_list s)) s in
  let* e := if negb (t_pid t =? 0) && (t_pid t =? t_tgid t) then sv_proc_unregister (k_env k) tid else Ok (k_env k) in
  let* e := sv_free_kernel_stack e (t_rsp0 t - kernel_stack_size + 56) in
  let* e := sv_free_task e tid in
  Ok (mk_kernel (set_tasks (delete tid (tasks s)) s) e).

Definition lookup_by_pid (s : sched) (pid : Z) : outcome (option Z) := find_pid (tasks s) (task_list s) pid.
Definition get_pgrp_leader (s : sched) (pgrp : Z) : outcome (option Z) := find_pid (tasks s) (task_list s) pgrp.

(** ** task_sys.c *)

Definition SPAWN_SETPGID : Z := 1.

(** Duplicate the open descriptors of the parent, slot by slot. *)
Fixpoint dup_files (pfiles cfiles : list Z) (e : E) : outcome (list Z * E) :=
  match pfiles, cfiles with
  | fd :: pfiles, old :: cfiles =>
      let* (new, e) := if 0 <=? fd then sv_dup e fd else Ok (old, e) in
      let* (rest, e) := dup_files pfiles cfiles e in
      Ok (new :: rest, e)
  | _, _ => Ok (cfiles, e)
  end.

(** [sys_spawn] after the pointer checks, with [copy] the outcome of
    [task_copy_args]: [None] when it runs out of memory, otherwise the new
    stack pointer. *)
Definition sys_spawn (k : kernel) (cpu parent : Z) (name : list Z) (flags : Z) (copy : Z -> option Z)
    : outcome (ret * kernel) :=
  let* (tid, k) := process_userspace_new k name in
  let s := k_sched k in
  let* p := get_task s parent in
  let* c := get_task s tid in
  let c := set_t_parent parent c in
  let c := set_t_pgid (if has flags SPAWN_SETPGID then t_pid c else t_pgid p) c in
  let c := set_t_sid (t_sid p) c in
  let s := put_task s tid c in
  let s := put_task s parent (set_t_children (tid :: t_children p) p) in
  match copy (t_rsp c) with
  | None => let* k := task_zombify (mk_kernel s (k_env k)) cpu tid in Ok (RErr ENOMEM, k)
  | Some rsp =>
      let* e := sv_ventry_ref (k_env k) (t_cwd p) in
      let* (files, e) := dup_files (t_open_files p) (t_open_files c) e in
      let c := set_t_open_files files (set_t_tty (t_tty p) (set_t_cred (t_cred p) (set_t_cwd (t_cwd p) (set_t_rsp rsp c)))) in
      let* s := sched_add_ready (put_task s tid c) cpu tid in
      Ok (RVal (t_pid c), mk_kernel s e)
  end.

Definition sys_exit (k : kernel) (cpu tid status : Z) : outcome kernel :=
  let* t := get_task (k_sched k) tid in
  if t_pid t =? 1 then Panic
  else
    let* s := upd_task (k_sched k) tid (set_t_return_status status) in
    let* (fail, s) := cas_status s tid TASK_RUNNING TASK_ZOMBIE in
    let* s :=
      match fail with
      | None => Ok s
      | Some _ =>
          let* (fail, s) := cas_status s tid TASK_INTR_SLEEPING TASK_ZOMBIE in
          match fail with None => Ok s | Some _ => Panic end
      end in
    let* k := task_zombify (mk_kernel s (k_env k)) cpu tid in
    let* t := get_task (k_sched k) tid in
    let* s := if negb (t_parent t =? 0) then send_signal (k_sched k) cpu (t_parent t) SIGCHLD else Ok (k_sched k) in
    let* s := sched_yield s cpu in
    Ok (mk_kernel s (k_env k)).

(** The status word a parent sees. *)
Definition wait_status (child : task) : Z :=
  if negb (t_return_signal child =? 0) then Z.land (t_return_signal child) 0x7F
  else Z.shiftl (Z.land (t_return_status child) 0xFF) 8.

(** The first child that has exited and may be reaped. *)
Fixpoint find_reapable (s : sched) (children : list Z) : outcome (option (Z * task)) :=
  match children with
  | [] => Ok None
  | c :: children =>
      let* t := get_task s c in
      if bool_decide (t_status t = TASK_ZOMBIE) && has (t_flags t) TASK_CAN_REAP
      then Ok (Some (c, t)) else find_reapable s children
  end.

(** One pass of the loop of [sys_waitpid]: it returns with a value and the
    status word, or goes to sleep and will make another pass when woken. *)
Inductive wait_result := WReturn (r : ret) (status : option Z) | WSlept.

Definition waitpid_pass (k : kernel) (cpu tid : Z) : outcome (wait_result * kernel) :=
  let s := k_sched k in
  let* t := get_task s tid in
  match t_children t with
  | [] => Ok (WReturn (RErr ECHILD) None, k)
  | children =>
      let* found := find_reapable s children in
      match found with
      | Some (c, child) =>
          let* s := upd_task s tid (set_t_children (filter (fun x => x <> c) children)) in
          let* k := task_destroy (mk_kernel s (k_env k)) c in
          Ok (WReturn (RVal (t_pid child)) (Some (wait_status child)), k)
      | None =>
          if signal_pending t then Ok (WReturn (RErr EINTR) None, k)
          else
            let* (fail, s) := cas_status s tid TASK_RUNNING TASK_INTR_SLEEPING in
            match fail with
            | Some _ => Panic
            | None => let* s := sched_yield s cpu in Ok (WSlept, mk_kernel s (k_env k))
            end
      end
  end.

Definition sys_getpid (t : task) : Z := t_tgid t.

Definition sys_setsid (t : task) : ret * task :=
  if t_tgid t =? t_pgid t then (RErr EPERM, t)
  else (RVal 0, set_t_tty 0 (set_t_sid (t_tgid t) (set_t_pgid (t_tgid t) t))).

Definition sys_getpgid (s : sched) (tid pid : Z) : outcome ret :=
  let* t := get_task s tid in
  if pid =? 0 then Ok (RVal (t_pgid t))
  else
    let* found := lookup_by_pid s pid in
    match found with
    | None => Ok (RErr ESRCH)
    | Some x =>
        let* o := get_task s x in
        if negb (t_sid o =? t_sid t) then Ok (RErr EPERM) else Ok (RVal (t_pgid o))
    end.

Definition sys_setpgid (s : sched) (tid pgid : Z) : outcome (ret * sched) :=
  let* t := get_task s tid in
  if t_tgid t =? t_sid t then Ok (RErr EPERM, s)
  else if pgid =? 0 then Ok (RVal 0, put_task s tid (set_t_pgid (t_tgid t) t))
  else
    let* found := get_pgrp_leader s pgid in
    match found with
    | None => Ok (RErr ESRCH, s)
    | Some x =>
        let* leader := get_task s x in
        if negb (t_sid leader =? t_sid t) then Ok (RErr EPERM, s)
        else Ok (RVal 0, put_task s tid (set_t_pgid pgid t))
    end.
End process.

Definition sys_getuid (c : cred_t) : Z := c_uid c.
Definition sys_getgid (c : cred_t) : Z := c_gid c.

Definition sys_setuid (c : cred_t) (uid : Z) : ret * cred_t :=
  if c_euid c =? 0 then (RVal 0, mk_cred uid uid uid (c_gid c) (c_egid c) (c_sgid c))
  else if (c_uid c =? uid) || (c_suid c =? uid)
  then (RVal 0, mk_cred (c_uid c) uid (c_suid c) (c_gid c) (c_egid c) (c_sgid c))
  else (RErr EPERM, c).

Definition sys_setgid (c : cred_t) (gid : Z) : ret * cred_t :=
  if c_euid c =? 0 then (RVal 0, mk_cred (c_uid c) (c_euid c) (c_suid c) gid gid gid)
  else if (c_gid c =? gid) || (c_sgid c =? gid)
  then (RVal 0, mk_cred (c_uid c) (c_euid c) (c_suid c) (c_gid c) gid (c_sgid c))
  else (RErr EPERM, c).

(** The loop of [signal_try_handle]: the pending set it leaves and the signal
    that ends the process, if any.  Each round clears a bit of a 32-bit set. *)
Fixpoint signal_loop (fuel : nat) (pending blocked : Z) : outcome (Z * option Z) :=
  match fuel with
  | O => OutOfFuel
  | S fuel =>
      let live := Z.land pending (u32 (Z.lnot blocked)) in
      if live =? 0 then Ok (pending, None)
      else
        let sigidx := ctz live in
        let pending := Z.land pending (u32 (Z.lnot (u32 (Z.shiftl 1 sigidx)))) in
        if sigidx + 1 =? SIGCHLD then signal_loop fuel pending blocked
        else Ok (pending, Some (sigidx + 1))
  end.

Definition signal_try_handle {E} `{TaskServices E} (k : kernel (E := E)) (cpu tid : Z) : outcome kernel :=
  let* t := get_task (k_sched k) tid in
  if (t_rsp t =? 0) || (t_sig_pending t =? 0) then Ok k
  else
    let* (pending, fatal) := signal_loop 33 (t_sig_pending t) (t_sig_blocked t) in
    let t := set_t_sig_pending pending t in
    match fatal with
    | None => Ok (mk_kernel (put_task (k_sched k) tid t) (k_env k))
    | Some sig =>
        let s := put_task (k_sched k) tid (set_t_return_signal sig t) in
        sys_exit (mk_kernel s (k_env k)) cpu tid 0
    end.

(** ** Program arguments (task_copy_args)

    Strings are pushed below [stack], a direct map view of the top page of the
    new stack; the bytes are stored from the end of the string backwards. *)
Fixpoint push_bytes (m : mem) (stack : Z) (rev_s : list Z) : outcome (mem * Z) :=
  match rev_s with
  | [] => Ok (m, stack)
  | b :: rev_s => let* m := store m (stack - 1) b in push_bytes m (stack - 1) rev_s
  end.

Definition push_string (m : mem) (stack : Z) (s : list Z) : outcome (mem * Z) :=
  let* m := store m (stack - 1) 0 in
  push_bytes m (stack - 1) (rev s).

(** The user address of each string: the new stack shows at [rsp] what the
    kernel sees at [orig]. *)
Fixpoint push_strings (m : mem) (stack rsp orig : Z) (ss : list (list Z)) : outcome (mem * Z * list Z) :=
  match ss with
  | [] => Ok (m, stack, [])
  | s :: ss =>
      let* (m, stack) := push_string m stack s in
      let* (ms, ptrs) := push_strings m stack rsp orig ss in
      Ok (ms, (rsp - (orig - stack)) :: ptrs)
  end.

(** The copied memory, the [envp] and [argv] arrays and the new stack pointer. *)
Definition task_copy_args (m : mem) (stack_base rsp : Z) (argv envp : list (list Z))
    : outcome (mem * list Z * list Z * Z) :=
  let orig_stack := stack_base + VM_DMAP_BASE + 0x1000 in
  let* (me, eptrs) := push_strings m orig_stack rsp orig_stack envp in
  let* (ma, aptrs) := push_strings (fst me) (snd me) rsp orig_stack argv in
  Ok (fst ma, eptrs, aptrs, align_down (rsp - (orig_stack - snd ma)) 16).

(** ** Signals *)

Lemma land_lnot_testbit w x y i : 0 <= w -> 0 <= x < 2 ^ w -> 0 <= i ->
  Z.testbit (Z.land x (wrap w (Z.lnot y))) i = (Z.testbit x i && negb (Z.testbit y i))%bool.
Proof.
  intros Hw Hx Hi. rewrite Z.land_spec, wrap_testbit, Z.lnot_spec by lia.
  destruct (Z.ltb_spec i w); simpl; [done|]. by rewrite (testbit_small w x) by (done || lia).
Qed.

Lemma pow2_u32 k : 0 <= k < 32 -> u32 (Z.shiftl 1 k) = 2 ^ k.
Proof.
  intros Hk. rewrite Z.shiftl_1_l. apply u32_small. split; [apply Z.pow_nonneg; lia|]. apply Z.pow_lt_mono_r; lia.
Qed.

(** A signal is deliverable when it is pending and not blocked. *)
Definition deliverable (pending blocked i : Z) : bool := (Z.testbit pending i && negb (Z.testbit blocked i))%bool.

Lemma nonzero_bit w x : 0 <= w -> 0 <= x < 2 ^ w -> x <> 0 -> exists i, 0 <= i < w /\ Z.testbit x i = true.
Proof.
  intros Hw Hx Hne. exists (Z.log2 x). split; [|apply Z.bit_log2; lia].
  split; [apply Z.log2_nonneg|]. apply Z.log2_lt_pow2; lia.
Qed.

(** One round of the loop. *)
Lemma signal_round fuel pending blocked : 0 <= pending < 2 ^ 32 ->
  ((forall i, 0 <= i -> deliverable pending blocked i = false) /\ signal_loop (S fuel) pending blocked = Ok (pending, None)) \/
  exists idx pending', 0 <= idx < 32 /\ deliverable pending blocked idx = true /\
    (forall i, 0 <= i < idx -> deliverable pending blocked i = false) /\ 0 <= pending' < 2 ^ 32 /\
    (forall i, 0 <= i -> Z.testbit pending' i = Z.testbit pending i && negb (i =? idx))%bool /\
    signal_loop (S fuel) pending blocked
    = if idx + 1 =? SIGCHLD then signal_loop fuel pending' blocked else Ok (pending', Some (idx + 1)).
Proof.
  intros Hp. cbn [signal_loop]. set (live := Z.land pending (u32 (Z.lnot blocked))).
  assert (0 <= live < 2 ^ 32) as Hl by (apply land_range; [lia|done|]; pose proof (u32_range (Z.lnot blocked)); lia).
  assert (forall i, 0 <= i -> Z.testbit live i = deliverable pending blocked i) as Hb
    by (intros i Hi; by apply (land_lnot_testbit 32)).
  destruct (Z.eqb_spec live 0) as [H0|H0].
  { left. split; [|done]. intros i Hi. by rewrite <- Hb, H0, Z.bits_0. }
  right. destruct (ctz_spec live) as (Hc & Ht & Hlow); [lia|]. set (idx := ctz live) in *.
  assert (idx < 32) as H32. { destruct (Z.lt_ge_cases idx 32); [done|]. rewrite (testbit_small 32) in Ht by lia. done. }
  exists idx, (Z.land pending (u32 (Z.lnot (u32 (Z.shiftl 1 idx))))). split; [lia|]. split; [by rewrite <- Hb by lia|].
  split; [intros i Hi; rewrite <- Hb by lia; apply Hlow; lia|].
  split; [apply land_range; [lia|done|]; pose proof (u32_range (Z.lnot (u32 (Z.shiftl 1 idx)))); lia|].
  split; [|done]. intros i Hi. rewrite (land_lnot_testbit 32), pow2_u32, pow2_testbit by lia. done.
Qed.

(** C26: the signal loop always ends, and it ends the process with the lowest
    deliverable signal other than SIGCHLD, if there is one; it clears nothing
    but that signal and SIGCHLD. *)
Theorem signal_loop_correct pending blocked : 0 <= pending < 2 ^ 32 ->
  exists pending' fatal, signal_loop 33 pending blocked = Ok (pending', fatal) /\
  match fatal with
  | None => forall i, 0 <= i -> i <> SIGCHLD - 1 -> deliverable pending blocked i = false
  | Some sig => sig <> SIGCHLD /\ 1 <= sig <= 32 /\ deliverable pending blocked (sig - 1) = true /\
      forall i, 0 <= i < sig - 1 -> i <> SIGCHLD - 1 -> deliverable pending blocked i = false
  end /\
  (forall i, 0 <= i -> i <> SIGCHLD - 1 -> fatal <> Some (i + 1) -> Z.testbit pending' i = Z.testbit pending i).
Proof.
  intros Hp. unfold SIGCHLD.
  destruct (signal_round 32 pending blocked Hp) as [[Hno ->]|(idx & p1 & Hidx & Hd & Hlow & Hp1 & Hb1 & ->)].
  { exists pending, None. split; [done|]. split; [|done]. intros i Hi _. by apply Hno. }
  destruct (Z.eqb_spec (idx + 1) SIGCHLD) as [Hs|Hs].
  - unfold SIGCHLD in Hs. assert (idx = 16) as -> by lia.
    assert (forall i, 0 <= i -> i <> 16 -> deliverable p1 blocked i = deliverable pending blocked i) as Hsame.
    { intros i Hi Hne. unfold deliverable. rewrite Hb1 by done. destruct (Z.eqb_spec i 16); [done|]. by rewrite andb_true_r. }
    assert (deliverable p1 blocked 16 = false) as H16 by (unfold deliverable; rewrite Hb1 by done; by rewrite andb_false_r).
    destruct (signal_round 31 p1 blocked Hp1) as [[Hno ->]|(idx & p2 & Hidx2 & Hd2 & Hlow2 & _ & Hb2 & ->)].
    + exists p1, None. split; [done|]. split; [intros i Hi Hne; rewrite <- Hsame by lia; by apply Hno|].
      intros i Hi Hne _. rewrite Hb1 by done. destruct (Z.eqb_spec i 16); [lia|]. by rewrite andb_true_r.
    + assert (idx <> 16) by (intros ->; congruence).
      destruct (Z.eqb_spec (idx + 1) SIGCHLD) as [Hs2|Hs2]; [unfold SIGCHLD in Hs2; lia|].
      exists p2, (Some (idx + 1)). split; [done|]. rewrite Z.add_simpl_r. split.
      * split; [done|]. split; [lia|]. split; [by rewrite <- Hsame by lia|].
        intros i Hi Hne. rewrite <- Hsame by lia. by apply Hlow2.
      * intros i Hi Hne Hnf. assert (i <> idx) by congruence. rewrite Hb2, Hb1 by done.
        destruct (Z.eqb_spec i 16); [lia|]. destruct (Z.eqb_spec i idx); [done|]. by rewrite !andb_true_r.
  - exists p1, (Some (idx + 1)). split; [done|]. rewrite Z.add_simpl_r. split.
    + split; [done|]. split; [lia|]. split; [done|]. intros i Hi _. by apply Hlow.
    + intros i Hi Hne Hnf. assert (i <> idx) by congruence. rewrite Hb1 by done.
      destruct (Z.eqb_spec i idx); [done|]. by rewrite andb_true_r.
Qed.

Lemma signal_loop_correct_witness : exists p f, signal_loop 33 0x10800 0 = Ok (p, f) /\ f = Some 12 /\
  deliverable 0x10800 0 11 = true.
Proof.
  destruct (signal_loop_correct 0x10800 0 ltac:(lia)) as (p & f & Hrun & Hf & _). exists p, f. split; [exact Hrun|].
  vm_compute in Hrun. injection Hrun as _ <-. split; [reflexivity|]. apply Hf.
Defined.

(** ** Credentials *)

Definition sys_setuid_seq (c : cred_t) (uids : list Z) : cred_t := foldl (fun c u => snd (sys_setuid c u)) c uids.

Lemma sys_setuid_step c u : c_uid c <> 0 -> c_euid c <> 0 -> c_suid c <> 0 ->
  let c' := snd (sys_setuid c u) in
  c_uid c' = c_uid c /\ c_suid c' = c_suid c /\ c_euid c' <> 0 /\
  (c_euid c' = c_euid c \/ c_euid c' = c_uid c \/ c_euid c' = c_suid c).
Proof.
  intros Hu He Hs. unfold sys_setuid. destruct (Z.eqb_spec (c_euid c) 0); [done|].
  destruct (Z.eqb_spec (c_uid c) u) as [<-|]; [simpl; tauto|].
  destruct (Z.eqb_spec (c_suid c) u) as [<-|]; simpl; tauto.
Qed.

(** C27: without privilege there is no way back to it: a process none of whose
    user ids is 0 has none after any sequence of [sys_setuid] calls, and its
    effective id is always one of its real and saved ids or its old one. *)
Theorem setuid_no_escalation c uids : c_uid c <> 0 -> c_euid c <> 0 -> c_suid c <> 0 ->
  let c' := sys_setuid_seq c uids in
  c_uid c' = c_uid c /\ c_suid c' = c_suid c /\ c_euid c' <> 0 /\
  (c_euid c' = c_euid c \/ c_euid c' = c_uid c \/ c_euid c' = c_suid c).
Proof.
  revert c. induction uids as [|u uids IH]; intros c Hu He Hs; simpl; [tauto|].
  destruct (sys_setuid_step c u Hu He Hs) as (H1 & H2 & H3 & H4).
  destruct (IH (snd (sys_setuid c u))) as (H5 & H6 & H7 & H8); [congruence|done|congruence|]. simpl in *.
  rewrite H1, H2 in *. do 3 (split; [done|]). destruct H8 as [->|?]; tauto.
Qed.

Lemma setuid_no_escalation_witness :
  c_euid (sys_setuid_seq (mk_cred 1000 1001 1002 5 5 5) [0; 1000; 1002; 0]) <> 0.
Proof.
  apply (setuid_no_escalation (mk_cred 1000 1001 1002 5 5 5) [0; 1000; 1002; 0]); discriminate.
Defined.

(** ** Program arguments *)

Lemma push_bytes_spec rs : forall m stack,
  (forall a, stack - zlen rs <= a < stack -> is_Some (m !! a)) ->
  exists m', push_bytes m stack rs = Ok (m', stack - zlen rs) /\ bytes_at m' (stack - zlen rs) (rev rs) /\
    (forall a, a < stack - zlen rs \/ stack <= a -> m' !! a = m !! a).
Proof.
  induction rs as [|b rs IH]; intros m stack Hm.
  { exists m. unfold zlen. simpl. rewrite Z.sub_0_r. split; [done|]. split; [|done]. intros k c Hk. by rewrite lookup_nil in Hk. }
  rewrite zlen_cons in *. pose proof (zlen_nonneg rs). destruct (Hm (stack - 1)) as [c Hc]; [lia|].
  cbn [push_bytes]. rewrite (store_run _ _ _ _ Hc). cbn [outcome_bind].
  destruct (IH (<[stack - 1 := b]> m) (stack - 1)) as (m' & Hrun & Hb & Hout).
  { intros a Ha. rewrite lookup_insert_ne by lia. apply Hm. lia. }
  exists m'. replace (stack - 1 - zlen rs) with (stack - (1 + zlen rs)) in * by lia.
  split; [done|]. split.
  - intros k x Hk. cbn [rev] in Hk. apply lookup_app_Some in Hk as [Hk|[Hk1 Hk2]]; [by apply Hb|].
    apply list_lookup_singleton_Some in Hk2 as [Hk2 <-]. rewrite length_rev in *.
    replace (stack - (1 + zlen rs) + Z.of_nat k) with (stack - 1) by (unfold zlen; lia).
    rewrite Hout by lia. apply lookup_insert_eq.
  - intros a Ha. rewrite Hout by lia. apply lookup_insert_ne. lia.
Qed.

Lemma push_string_spec s m stack : 0 ∉ s ->
  (forall a, stack - (zlen s + 1) <= a < stack -> is_Some (m !! a)) ->
  exists m', push_string m stack s = Ok (m', stack - (zlen s + 1)) /\ cstr m' (stack - (zlen s + 1)) s /\
    (forall a, a < stack - (zlen s + 1) \/ stack <= a -> m' !! a = m !! a).
Proof.
  intros Hs Hm. pose proof (zlen_nonneg s). unfold push_string. destruct (Hm (stack - 1)) as [c Hc]; [lia|].
  rewrite (store_run _ _ _ _ Hc). cbn [outcome_bind].
  assert (zlen (rev s) = zlen s) as Hrev by (unfold zlen; by rewrite length_rev).
  destruct (push_bytes_spec (rev s) (<[stack - 1 := 0]> m) (stack - 1)) as (m' & Hrun & Hb & Hout).
  { intros a Ha. rewrite lookup_insert_ne by lia. apply Hm. lia. }
  rewrite Hrev, rev_involutive in *. replace (stack - 1 - zlen s) with (stack - (zlen s + 1)) in * by lia.
  exists m'. split; [done|]. split; [|intros a Ha; rewrite Hout by lia; apply lookup_insert_ne; lia].
  split; [|done]. intros k x Hk. apply lookup_app_Some in Hk as [Hk|[Hk1 Hk2]]; [by apply Hb|].
  apply list_lookup_singleton_Some in Hk2 as [Hk2 <-].
  replace (stack - (zlen s + 1) + Z.of_nat k) with (stack - 1) by (unfold zlen; lia).
  rewrite Hout by lia. apply lookup_insert_eq.
Qed.

(** The bytes a list of strings takes, with the NUL bytes. *)
Definition strings_size (ss : list (list Z)) : Z := foldr (fun s n => zlen s + 1 + n) 0 ss.

Lemma strings_size_nonneg ss : 0 <= strings_size ss.
Proof. induction ss as [|s ss IH]; simpl; [lia|]. pose proof (zlen_nonneg s). lia. Qed.

Lemma cstr_frame m m' a s : (forall b, a <= b -> m' !! b = m !! b) -> cstr m a s -> cstr m' a s.
Proof. intros Hf [Hb Hs]. split; [|done]. intros k x Hk. rewrite Hf by lia. by apply Hb. Qed.

Lemma push_strings_spec rsp orig ss : forall m stack, Forall (fun s => 0 ∉ s) ss ->
  (forall a, stack - strings_size ss <= a < stack -> is_Some (m !! a)) ->
  exists m' ptrs, push_strings m stack rsp orig ss = Ok (m', stack - strings_size ss, ptrs) /\
    Forall2 (fun s p => cstr m' (p - rsp + orig) s /\ stack - strings_size ss <= p - rsp + orig) ss ptrs /\
    (forall a, a < stack - strings_size ss \/ stack <= a -> m' !! a = m !! a).
Proof.
  induction ss as [|s ss IH]; intros m stack Hnz Hm; simpl strings_size in *.
  { exists m, []. simpl. rewrite Z.sub_0_r. split; [done|]. split; [constructor|done]. }
  apply Forall_cons in Hnz as [Hs Hnz]. pose proof (zlen_nonneg s). pose proof (strings_size_nonneg ss).
  destruct (push_string_spec s m stack Hs) as (m1 & Hrun & Hc & Hout); [intros a Ha; apply Hm; lia|].
  cbn [push_strings]. rewrite Hrun. cbn [outcome_bind].
  destruct (IH m1 (stack - (zlen s + 1)) Hnz) as (m' & ptrs & Hrun' & Hall & Hout').
  { intros a Ha. rewrite Hout by lia. apply Hm. lia. }
  rewrite Hrun'. cbn [outcome_bind].
  replace (stack - (zlen s + 1) - strings_size ss) with (stack - (zlen s + 1 + strings_size ss)) in * by lia.
  exists m', (rsp - (orig - (stack - (zlen s + 1))) :: ptrs). split; [done|]. split.
  - constructor; [|done]. replace (rsp - (orig - (stack - (zlen s + 1))) - rsp + orig) with (stack - (zlen s + 1)) by lia.
    split; [|lia]. eapply cstr_frame; [|exact Hc]. intros b Hb. apply Hout'. lia.
  - intros a Ha. rewrite Hout', Hout by lia. done.
Qed.

(** When the environment and argument strings fit in the page at the top
    of the new stack, [task_copy_args] copies them all: every pointer of
    [envp] and [argv] designates, in the new process, a NUL-terminated copy of
    the string at its index, the new stack pointer is 16-aligned and below all
    of them, and nothing outside the page is written. *)
Theorem task_copy_args_correct m stack_base rsp argv envp :
  let orig := stack_base + VM_DMAP_BASE + 0x1000 in
  let used := strings_size envp + strings_size argv in
  Forall (fun s => 0 ∉ s) envp -> Forall (fun s => 0 ∉ s) argv -> used <= 0x1000 -> used <= rsp < 2 ^ 64 ->
  (forall a, orig - 0x1000 <= a < orig -> is_Some (m !! a)) ->
  exists m' eptrs aptrs rsp', task_copy_args m stack_base rsp argv envp = Ok (m', eptrs, aptrs, rsp') /\
    Forall2 (fun s p => cstr m' (p - rsp + orig) s /\ rsp' <= p) envp eptrs /\
    Forall2 (fun s p => cstr m' (p - rsp + orig) s /\ rsp' <= p) argv aptrs /\
    rsp' mod 16 = 0 /\ rsp - used - 16 < rsp' <= rsp /\
    (forall a, a < orig - 0x1000 \/ orig <= a -> m' !! a = m !! a).
Proof.
  intros orig used He Ha Hfit Hrsp Hpage. pose proof (strings_size_nonneg envp). pose proof (strings_size_nonneg argv).
  unfold task_copy_args. fold orig.
  destruct (push_strings_spec rsp orig envp m orig He) as (m1 & eptrs & -> & Hall1 & Hout1); [intros a ?; apply Hpage; lia|].
  cbn [outcome_bind fst snd].
  destruct (push_strings_spec rsp orig argv m1 (orig - strings_size envp) Ha) as (m2 & aptrs & -> & Hall2 & Hout2).
  { intros a ?. rewrite Hout1 by lia. apply Hpage. lia. }
  cbn [outcome_bind fst snd]. eexists m2, eptrs, aptrs, _. split; [done|].
  replace (orig - strings_size envp - strings_size argv) with (orig - used) in * by lia.
  replace (rsp - (orig - (orig - used))) with (rsp - used) by lia.
  pose proof (align_down_bounds (rsp - used) 4 ltac:(lia) ltac:(lia)) as [Hd1 Hd2]. change (2 ^ 4) with 16 in Hd1, Hd2.
  split; [|split; [|split; [done|split; [lia|]]]].
  - eapply Forall2_impl; [exact Hall1|]. intros s p [Hc Hle]. split; [|lia].
    eapply cstr_frame; [|exact Hc]. intros b Hb. apply Hout2. lia.
  - eapply Forall2_impl; [exact Hall2|]. intros s p [Hc Hle]. split; [done|lia].
  - intros a ?. rewrite Hout2, Hout1 by lia. done.
Qed.

(** A page of zeroes at physical address 0x5000. *)
Definition stack_page : mem := gset_to_gmap 0 (list_to_set (seqZ (0x5000 + VM_DMAP_BASE) 0x1000)).

Lemma task_copy_args_correct_witness : exists m' eptrs aptrs rsp',
  task_copy_args stack_page 0x5000 0x8000 [[108; 115]; [47]] [[65; 61; 66]] = Ok (m', eptrs, aptrs, rsp') /\ rsp' mod 16 = 0.
Proof.
  destruct (task_copy_args_correct stack_page 0x5000 0x8000 [[108; 115]; [47]] [[65; 61; 66]])
    as (m' & eptrs & aptrs & rsp' & Hrun & _ & _ & Hal & _).
  - repeat constructor; set_solver.
  - repeat constructor; set_solver.
  - vm_compute. discriminate.
  - split; [vm_compute; discriminate|lia].
  - intros a Ha. exists 0. apply lookup_gset_to_gmap_Some. split; [|reflexivity].
    apply elem_of_list_to_set, elem_of_seqZ. lia.
  - exists m', eptrs, aptrs, rsp'. split; [exact Hrun|exact Hal].
Defined.

(** ** Orphans *)
Section orphans.
Context {E : Type} {SV : TaskServices E}.

(** The parent and the children of a task. *)
Definition family (s : sched) (tid : Z) : option (Z * list Z) :=
  (fun t => (t_parent t, t_children t)) <$> tasks s !! tid.

Lemma upd_task_family s tid t f s' : tasks s !! tid = Some t -> upd_task s tid f = Ok s' ->
  tasks s' = <[tid := f t]> (tasks s) /\ init_task s' = init_task s /\ cpus s' = cpus s.
Proof. intros Ht. unfold upd_task, get_task. rewrite Ht. simpl. by intros [= <-]. Qed.

Lemma family_insert s s' tid t x : tasks s' = <[tid := t]> (tasks s) ->
  family s' x = if decide (x = tid) then Some (t_parent t, t_children t) else family s x.
Proof.
  intros Ht. unfold family. rewrite Ht. destruct (decide (x = tid)) as [->|]; [by rewrite lookup_insert_eq|].
  by rewrite lookup_insert_ne by done.
Qed.

(** Sending a signal changes no family, and succeeds for an existing task. *)
Lemma send_signal_family s cpu tid sig c : is_Some (tasks s !! tid) -> aget (cpus s) cpu = Ok c ->
  exists s' c', send_signal s cpu tid sig = Ok s' /\ (forall x, family s' x = family s x) /\
    init_task s' = init_task s /\ aget (cpus s') cpu = Ok c'.
Proof.
  intros [t Ht] Hc. unfold send_signal, upd_task, get_task. rewrite Ht. cbn [deref outcome_bind].
  set (t1 := set_t_sig_pending _ t). set (s1 := put_task s tid t1).
  assert (tasks s1 !! tid = Some t1) as Ht1 by apply lookup_insert_eq.
  assert (forall x, family s1 x = family s x) as Hf1.
  { intros x. rewrite (family_insert s s1 tid t1) by done. destruct (decide (x = tid)) as [->|]; [|done].
    unfold family. by rewrite Ht. }
  destruct (decide (t_status t1 = TASK_INTR_SLEEPING)) as [Hst|Hst].
  - rewrite (cas_status_ok _ _ t1) by done. cbn [outcome_bind].
    destruct (sched_add_ready_spec (put_task s1 tid (set_t_status TASK_RUNNING t1)) cpu tid c Hc)
      as (s' & c' & Hrun & Hts & Hc' & _). exists s', c'. split; [done|]. split; [|split; [|done]].
    + intros x. rewrite (family_insert s1 s' tid (set_t_status TASK_RUNNING t1)) by done.
      destruct (decide (x = tid)) as [->|]; [|done]. rewrite <- Hf1. unfold family. by rewrite Ht1.
    + by apply sched_add_ready_init in Hrun.
  - rewrite (cas_status_no _ _ t1) by done. cbn [outcome_bind]. by exists s1, c.
Qed.

Lemma reparent_spec tid cs : forall s cpu c pt init oldc pi,
  family s tid = Some (pt, cs) -> init_task s = init -> family s init = Some (pi, oldc) ->
  tid <> init -> NoDup cs -> (tid ∉ cs) -> (init ∉ cs) -> (forall x, x ∈ cs -> is_Some (tasks s !! x)) ->
  aget (cpus s) cpu = Ok c ->
  exists s', reparent cs s cpu tid = Ok s' /\ family s' tid = Some (pt, []) /\
    family s' init = Some (pi, rev cs ++ oldc) /\
    (forall x, x ∈ cs -> exists p ch, family s x = Some (p, ch) /\ family s' x = Some (init, ch)) /\
    (forall x, x <> tid -> x <> init -> x ∉ cs -> family s' x = family s x).
Proof.
  induction cs as [|x cs IH]; intros s cpu c pt init oldc pi Hft Hin Hfi Hne Hnd Htc Hic Hex Hc.
  { exists s. split; [done|]. split; [done|]. split; [done|]. split; [set_solver|done]. }
  apply NoDup_cons in Hnd as [Hx Hnd]. apply not_elem_of_cons in Htc as [Htx Htc], Hic as [Hix Hic].
  destruct (tasks s !! tid) as [t|] eqn:Ht; [|unfold family in Hft; by rewrite Ht in Hft].
  destruct (tasks s !! init) as [ti|] eqn:Hti; [|unfold family in Hfi; by rewrite Hti in Hfi].
  destruct (Hex x) as [tx Htxs]; [set_solver|].
  cbn [reparent]. rewrite Hin. unfold upd_task at 1, get_task. rewrite Ht. cbn [deref outcome_bind].
  set (s1 := put_task s tid _).
  assert (tasks s1 !! init = Some ti) as Hti1 by (simpl; by rewrite lookup_insert_ne).
  unfold upd_task at 1, get_task. rewrite Hti1. cbn [deref outcome_bind]. set (s2 := put_task s1 init _).
  assert (tasks s2 !! x = Some tx) as Htx2 by (simpl; by rewrite !lookup_insert_ne by done).
  unfold upd_task at 1, get_task. rewrite Htx2. cbn [deref outcome_bind]. set (s3 := put_task s2 x _).
  unfold get_task. assert (tasks s3 !! x = Some (set_t_parent init tx)) as -> by apply lookup_insert_eq. cbn [deref outcome_bind].
  assert (exists s4 c4, (if decide (t_status (set_t_parent init tx) = TASK_ZOMBIE) then send_signal s3 cpu init SIGCHLD else Ok s3) = Ok s4 /\
    (forall y, family s4 y = family s3 y) /\ init_task s4 = init /\ aget (cpus s4) cpu = Ok c4) as (s4 & c4 & -> & Hf4 & Hi4 & Hc4).
  { destruct (decide _); [|by exists s3, c].
    destruct (send_signal_family s3 cpu init SIGCHLD c) as (s4 & c4 & ? & ? & Hi3 & ?); [|done|].
    - simpl. rewrite lookup_insert_ne, lookup_insert_eq by done. by eexists.
    - exists s4, c4. split; [done|]. split; [done|]. split; [rewrite Hi3; exact Hin|done]. }
  cbn [outcome_bind].
  assert (forall y, family s4 y = if decide (y = x) then Some (init, t_children tx) else if decide (y = init)
     then Some (pi, x :: oldc) else if decide (y = tid) then Some (pt, cs) else family s y) as Hfam.
  { intros y. rewrite Hf4, (family_insert s2 s3 x (set_t_parent init tx)) by done. destruct (decide (y = x)); [done|].
    rewrite (family_insert s1 s2 init (set_t_children (x :: t_children ti) ti)) by done.
    unfold family in Hfi. rewrite Hti in Hfi. simpl in Hfi. injection Hfi as <- <-. destruct (decide (y = init)); [done|].
    rewrite (family_insert s s1 tid (set_t_children cs t)) by done.
    unfold family in Hft. rewrite Ht in Hft. simpl in Hft. injection Hft as <- _. by destruct (decide (y = tid)). }
  destruct (IH s4 cpu c4 pt init (x :: oldc) pi) as (s' & Hrun & H1 & H2 & H3 & H4); try done.
  - rewrite Hfam. rewrite !decide_False by done. by rewrite decide_True.
  - rewrite Hfam. rewrite decide_False by done. by rewrite decide_True.
  - intros y Hy. assert (is_Some (family s4 y)) as Hsome.
    { rewrite Hfam. assert (y <> x /\ y <> init /\ y <> tid) as (? & ? & ?) by set_solver. rewrite !decide_False by done.
      destruct (Hex y) as [ty Hty]; [set_solver|]. unfold family. by rewrite Hty. }
    unfold family in Hsome. by apply fmap_is_Some in Hsome.
  - exists s'. split; [done|]. split; [done|]. split; [|split].
    + cbn [rev]. by rewrite <- app_assoc.
    + intros y Hy. destruct (decide (y = x)) as [->|Hyx].
      * exists (t_parent tx), (t_children tx). split; [unfold family; by rewrite Htxs|]. rewrite H4 by done. by rewrite Hfam, decide_True.
      * destruct (H3 y) as (p & ch & Hy1 & Hy2); [set_solver|]. exists p, ch. split; [|done]. rewrite Hfam in Hy1.
        assert (y <> init /\ y <> tid) as [? ?] by set_solver. by rewrite !decide_False in Hy1 by done.
    + intros y Hy1 Hy2 Hy3. rewrite H4 by set_solver. rewrite Hfam. by rewrite !decide_False by set_solver.
Qed.

(** The services an exiting task uses do not fail. *)
Record services_total : Prop := {
  st_close : forall e fd, exists e', sv_close e fd = Ok e';
  st_put : forall e v, exists e', sv_ventry_put e v = Ok e';
  st_destroy : forall e v, exists e', sv_space_destroy e v = Ok e';
  st_hangup : forall e v, exists e', sv_tty_hangup e v = Ok e';
}.

Lemma close_files_total fds : services_total -> forall e, exists e', close_files fds e = Ok e'.
Proof.
  intros Htot. induction fds as [|fd fds IH]; intros e; simpl; [by eexists|].
  destruct (0 <=? fd); simpl; [|apply IH]. destruct (st_close Htot e fd) as [e' ->]. apply IH.
Qed.

Lemma drop_tty_spec l : forall s sid, (forall x, x ∈ l -> is_Some (tasks s !! x)) ->
  exists s', drop_tty l s sid = Ok s' /\ (forall x, family s' x = family s x) /\
    init_task s' = init_task s /\ cpus s' = cpus s.
Proof.
  induction l as [|x l IH]; intros s sid Hl; cbn [drop_tty]; [by exists s|].
  destruct (Hl x) as [t Ht]; [set_solver|]. unfold get_task. rewrite Ht. cbn [deref outcome_bind].
  set (s1 := if t_sid t =? sid then _ else _).
  assert ((forall y, family s1 y = family s y) /\ init_task s1 = init_task s /\ cpus s1 = cpus s) as (Hf1 & Hi1 & Hc1).
  { unfold s1. destruct (t_sid t =? sid); [|done]. split; [|done]. intros y.
    rewrite (family_insert s _ x (set_t_tty 0 t)) by done. destruct (decide (y = x)) as [->|]; [|done]. unfold family. by rewrite Ht. }
  destruct (IH s1 sid) as (s' & -> & Hf & Hi & Hc).
  { intros y Hy. destruct (Hl y) as [ty Hty]; [set_solver|]. specialize (Hf1 y). unfold family in Hf1. rewrite Hty in Hf1.
    destruct (tasks s1 !! y); [by eexists|done]. }
  exists s'. split; [done|]. split; [intros y; by rewrite Hf|]. split; congruence.
Qed.

Lemma family_task s tid f : family s tid = Some f -> exists t, tasks s !! tid = Some t /\ t_parent t = fst f /\ t_children t = snd f.
Proof. unfold family. destruct (tasks s !! tid) as [t|]; [|done]. intros [= <-]. by exists t. Qed.

(** The last updates of [task_zombify]. *)
Lemma zombify_tail s tid t : tasks s !! tid = Some t ->
  exists s', (let* s := upd_task s tid (set_t_cwd 0) in
              upd_task s tid (fun t => set_t_status TASK_ZOMBIE (set_t_flags (Z.lor (t_flags t) TASK_CAN_REAP) t))) = Ok s' /\
    tasks s' = <[tid := set_t_status TASK_ZOMBIE (set_t_flags (Z.lor (t_flags t) TASK_CAN_REAP) (set_t_cwd 0 t))]> (tasks s) /\
    init_task s' = init_task s /\ cpus s' = cpus s.
Proof.
  intros Ht. unfold upd_task, get_task. rewrite Ht. simpl. rewrite lookup_insert_eq. simpl. eexists. split; [done|].
  simpl. by rewrite insert_insert_eq.
Qed.

(** C25: no process is orphaned.  When a task other than init exits,
    [task_zombify] gives each of its children to init as parent and enters
    them in init's list of children, leaves the dying task without children
    and in the state in which it can be reaped, and changes no other family;
    it returns whenever the services it calls do. *)
Theorem task_zombify_reparents k cpu tid t init c pi oldc :
  services_total -> tasks (k_sched k) !! tid = Some t -> init_task (k_sched k) = init ->
  family (k_sched k) init = Some (pi, oldc) -> tid <> init ->
  NoDup (t_children t) -> (tid ∉ t_children t) -> (init ∉ t_children t) ->
  (forall x, x ∈ t_children t ++ task_list (k_sched k) -> is_Some (tasks (k_sched k) !! x)) ->
  aget (cpus (k_sched k)) cpu = Ok c ->
  exists k', task_zombify k cpu tid = Ok k' /\
    (exists t', tasks (k_sched k') !! tid = Some t' /\ t_status t' = TASK_ZOMBIE /\ has (t_flags t') TASK_CAN_REAP = true /\
       t_parent t' = t_parent t /\ t_children t' = []) /\
    family (k_sched k') init = Some (pi, rev (t_children t) ++ oldc) /\
    (forall x, x ∈ t_children t -> exists p ch, family (k_sched k) x = Some (p, ch) /\ family (k_sched k') x = Some (init, ch)) /\
    (forall x, x <> tid -> x <> init -> x ∉ t_children t -> family (k_sched k') x = family (k_sched k) x).
Proof.
  intros Htot Ht Hin Hfi Hne Hnd Htc Hic Hex Hc. unfold task_zombify, get_task at 1. rewrite Ht. cbn [deref outcome_bind].
  assert (exists k1, (if is_session_leader t && negb (t_tty t =? 0) then
      let* s := drop_tty (task_list (k_sched k)) (k_sched k) (t_sid t) in
      let* e := sv_tty_hangup (k_env k) (t_tty t) in Ok (mk_kernel s e) else Ok k) = Ok k1 /\
    (forall x, family (k_sched k1) x = family (k_sched k) x) /\ init_task (k_sched k1) = init /\
    cpus (k_sched k1) = cpus (k_sched k)) as (k1 & -> & Hf1 & Hi1 & Hc1).
  { destruct (is_session_leader t && negb (t_tty t =? 0)); [|by exists k].
    destruct (drop_tty_spec (task_list (k_sched k)) (k_sched k) (t_sid t)) as (s1 & -> & ? & ? & ?); [set_solver|]. simpl.
    destruct (st_hangup Htot (k_env k) (t_tty t)) as [e1 ->]. simpl. eexists. split; [done|]. simpl. split; [done|]. split; [congruence|done]. }
  cbn [outcome_bind].
  destruct (reparent_spec tid (t_children t) (k_sched k1) cpu c (t_parent t) init oldc pi) as (s2 & -> & Hf2 & Hfi2 & Hch2 & Hot2);
    try done; [rewrite Hf1; unfold family; by rewrite Ht|by rewrite Hf1| |congruence|].
  { intros x Hx. assert (is_Some (family (k_sched k1) x)) as Hs.
    { rewrite Hf1. destruct (Hex x) as [tx Htx]; [set_solver|]. unfold family. by rewrite Htx. }
    unfold family in Hs. by apply fmap_is_Some in Hs. }
  cbn [outcome_bind]. destruct (close_files_total (t_open_files t) Htot (k_env k1)) as [e2 ->]. cbn [outcome_bind].
  assert (exists e3, (if negb (t_cwd t =? 0) then sv_ventry_put e2 (t_cwd t) else Ok e2) = Ok e3) as [e3 ->].
  { destruct (negb (t_cwd t =? 0)); [apply (st_put Htot)|by eexists]. }
  cbn [outcome_bind]. destruct (family_task _ _ _ Hf2) as (t2 & Ht2 & Hp2 & Hc2). simpl in Hp2, Hc2.
  destruct (zombify_tail s2 tid t2 Ht2) as (s3 & Hrun3 & Ht3 & Hi3 & Hcp3). unfold upd_task in Hrun3 |- *.
  destruct (get_task s2 tid) as [t2'| | |]; cbn [outcome_bind] in Hrun3 |- *; try done.
  assert (exists e4, (if negb (t_vm_space t =? 0) then sv_space_destroy e3 (t_vm_space t) else Ok e3) = Ok e4) as [e4 ->].
  { destruct (negb (t_vm_space t =? 0)); [apply (st_destroy Htot)|by eexists]. }
  cbn [outcome_bind]. rewrite Hrun3. cbn [outcome_bind]. eexists. split; [done|]. cbn [k_sched].
  set (t3 := set_t_status _ _) in Ht3.
  assert (forall x, family s3 x = if decide (x = tid) then Some (t_parent t, []) else family s2 x) as Hf3.
  { intros x. rewrite (family_insert s2 s3 tid t3) by done. destruct (decide (x = tid)); [|done].
    unfold t3. simpl. by rewrite Hp2, Hc2. }
  split; [exists t3; rewrite Ht3, lookup_insert_eq; split; [done|]; split; [done|]; split; [|by rewrite <- Hp2, <- Hc2]|].
  - unfold t3. simpl. unfold has, TASK_CAN_REAP. rewrite Z.land_lor_distr_l. change (Z.land 1 1) with 1.
    apply negb_true_iff, Z.eqb_neq. intros H0. apply Z.lor_eq_0_iff in H0 as [_ H0]. done.
  - split; [by rewrite Hf3, decide_False by done|]. split.
    + intros x Hx. destruct (Hch2 x Hx) as (p & ch & H1 & H2). exists p, ch. rewrite <- Hf1. split; [done|].
      rewrite Hf3, decide_False; [done|]. by intros ->.
    + intros x Hx1 Hx2 Hx3. rewrite Hf3, decide_False, Hot2, Hf1 by done. done.
Qed.
End orphans.

(** Services that always succeed and do nothing, for concrete runs. *)
#[export] Instance unit_services : TaskServices unit := {|
  sv_alloc_task := fun e => Ok (100, e);
  sv_free_task := fun e _ => Ok e;
  sv_kernel_stack := fun e => Ok (0xffffc00000000000, e);
  sv_free_kernel_stack := fun e _ => Ok e;
  sv_userspace_new := fun e => Ok (200, e);
  sv_space_destroy := fun e _ => Ok e;
  sv_user_stack := fun e _ => Ok (0x7fff00000000, e);
  sv_root := fun _ => 300;
  sv_ventry_ref := fun e _ => Ok e;
  sv_ventry_put := fun e _ => Ok e;
  sv_close := fun e _ => Ok e;
  sv_dup := fun e fd => Ok (fd, e);
  sv_tty_hangup := fun e _ => Ok e;
  sv_proc_register := fun e _ => Ok e;
  sv_proc_unregister := fun e _ => Ok e;
|}.

(** init (10), a shell (11) and its child (12), which has a child of its own
    (13).  The child runs on processor 0, the shell on processor 1. *)
Definition family_tree : kernel :=
  mk_kernel (mk_sched
    {[1 := task_at 0 TASK_RUNNING; 2 := task_at 0 TASK_RUNNING;
      10 := set_t_children [11] (task_at 1 TASK_INTR_SLEEPING);
      11 := set_t_parent 10 (set_t_children [12] (task_at 2 TASK_RUNNING));
      12 := set_t_parent 11 (set_t_children [13] (task_at 3 TASK_RUNNING));
      13 := set_t_parent 12 (task_at 4 TASK_ZOMBIE)]}
    [10; 11; 12; 13] 5 10 [mk_percpu 1 [] 0 12; mk_percpu 2 [] 0 11]) tt.

Lemma task_zombify_reparents_witness : exists k', task_zombify family_tree 0 12 = Ok k' /\
  family (k_sched k') 10 = Some (0, [13; 11]).
Proof.
  destruct (task_zombify_reparents family_tree 0 12 (set_t_parent 11 (set_t_children [13] (task_at 3 TASK_RUNNING))) 10
    (mk_percpu 1 [] 0 12) 0 [11]) as (k' & Hrun & _ & Hi & _); try reflexivity.
  - split; intros; by eexists.
  - discriminate.
  - repeat constructor; set_solver.
  - simpl. set_solver.
  - simpl. set_solver.
  - intros x Hx. vm_compute in Hx.
    repeat (apply elem_of_cons in Hx as [->|Hx]; [eexists; reflexivity|]). by apply not_elem_of_nil in Hx.
  - exists k'. split; [exact Hrun|exact Hi].
Defined.

(** An exiting task can be freed while it runs.  [task_zombify] marks it
    reapable while it still has to signal its parent and yield; a parent that
    waits on another processor destroys the task and its kernel stack at that
    point, while the task is current on its own processor, whose next
    [schedule] reads the freed task. *)
Theorem exit_races_with_reap : exists k1 k2,
  task_zombify family_tree 0 12 = Ok k1 /\
  waitpid_pass k1 1 11 = Ok (WReturn (RVal 3) (Some 0), k2) /\
  (current <$> cpus (k_sched k2) !! 0%nat) = Some 12 /\ tasks (k_sched k2) !! 12 = None /\
  schedule (k_sched k2) 0 = Fault.
Proof. eexists _, _. split; [vm_compute; reflexivity|]. split; [vm_compute; reflexivity|]. repeat split; reflexivity. Qed.
