(* ===== verification/Vmm.v ===== *)
(** * Address spaces

    kernel/mm/vmm.c, kernel/mm/vm_syscall.c and include/mm/vm_space.h.  The
    mapped ranges of a space are a list kept in ascending order of base
    address; page tables are those of Mmu.v.  File-backed ranges use the file
    layer through [FileServices].  Range descriptors are values: their heap
    blocks come from kmalloc, modelled in Slab.v. *)

From stdpp Require Import base numbers list gmap sets.
From Stdlib Require Import ZArith Lia Sorted.
From S2P Require Import Prelude Pages Pmm Mmu.

Record vm_object := mk_object {
  o_base : Z; o_length : Z; o_prot : Z; o_flags : Z; o_file : Z; o_offset : Z;
}.

Record vm_space := mk_space {
  objects : list vm_object;
  start_address : Z;
  end_address : Z;
  mmu_root : Z;
  mapped_anon : Z;
  mapped_file : Z;
  resident_anon : Z;
  resident_file : Z;
}.

Definition set_objects (l : list vm_object) (sp : vm_space) : vm_space :=
  mk_space l (start_address sp) (end_address sp) (mmu_root sp) (mapped_anon sp) (mapped_file sp) (resident_anon sp) (resident_file sp).

(** The counters, each as a difference added with 64-bit wrap-around. *)
Definition count_pages (danon dfile ranon rfile : Z) (sp : vm_space) : vm_space :=
  mk_space (objects sp) (start_address sp) (end_address sp) (mmu_root sp) (u64 (mapped_anon sp + danon))
    (u64 (mapped_file sp + dfile)) (u64 (resident_anon sp + ranon)) (u64 (resident_file sp + rfile)).

Record vm_mapping_info := mk_info {
  i_length : Z; i_prot : Z; i_flags : Z; i_phys_base : Z; i_virt_base : Z; i_offset : Z; i_fd : Z;
}.

(** ** Ranges *)

Definition o_end (o : vm_object) : Z := u64 (o_base o + o_length o).

(** [space_replace_before]: the range goes before [before], which keeps the
    part above the range; [None] says that nothing of it is left. *)
Definition replace_before (before range : vm_object) : option vm_object :=
  let base := u64 (o_base range + o_length range) in
  let cut := u64 (base - o_base before) in
  if o_length before <=? cut then None
  else Some (mk_object base (o_length before - cut) (o_prot before) (o_flags before) (o_file before) (o_offset before)).

(** The loop of [space_check_range]; [done] holds the ranges passed.
    [None] is the return value [false]. *)
Fixpoint check_loop (done todo : list vm_object) (range : vm_object) (replace : bool) : option (list vm_object) :=
  match todo with
  | [] => Some (done ++ [range])
  | cur :: rest =>
      if o_base cur <=? o_base range then
        if o_base range <? o_end cur then
          if replace then
            match replace_before cur range with
            | Some cur' => Some (done ++ range :: cur' :: rest)
            | None => Some (done ++ range :: rest)
            end
          else None
        else check_loop (done ++ [cur]) rest range replace
      else if o_base cur <? o_end range then None
      else Some (done ++ range :: cur :: rest)
  end.

Definition space_check_range (sp : vm_space) (range : vm_object) (replace : bool) : option vm_space :=
  if o_base range <? start_address sp then None
  else if end_address sp <=? o_end range then None
  else (fun l => set_objects l sp) <$> check_loop [] (objects sp) range replace.

(** The loop of [space_find_free_range]: the base found and the ranges before
    and after the new one. *)
Fixpoint free_loop (done todo : list vm_object) (prev_end length : Z) : Z * list vm_object * list vm_object :=
  match todo with
  | [] => (prev_end, done, [])
  | cur :: rest =>
      if u64 (prev_end + length) <=? o_base cur then (prev_end, done, todo)
      else free_loop (done ++ [cur]) rest (o_end cur) length
  end.

Definition space_find_free_range (sp : vm_space) (range : vm_object) : option (Z * vm_space) :=
  let '(alloc_base, before, after) := free_loop [] (objects sp) (start_address sp) (o_length range) in
  if alloc_base =? 0 then None
  else
    let range := mk_object alloc_base (o_length range) (o_prot range) (o_flags range) (o_file range) (o_offset range) in
    Some (alloc_base, set_objects (before ++ range :: after) sp).

(** [vm_space_get_range]: the first range that contains the address. *)
Definition vm_space_get_range (sp : vm_space) (base : Z) : option vm_object :=
  list_find (fun o => o_base o <= base /\ base < o_end o) (objects sp) ≫= fun p => Some p.2.

(** What the address spaces use of the file layer. *)
Class FileServices (F : Type) := {
  fs_ref_file : F -> Z -> outcome F;
  fs_put_file : F -> Z -> outcome F;
  fs_mmap : F -> vm_object -> outcome F;
}.

Section vmm.
Context {St F : Type} {PA : PageAllocator St} {FS : FileServices F}.

(** The fault handler of a file-backed range, as installed by its file system. *)
Context (file_fault : mmu_state (St := St) -> F -> vm_object -> Z -> Z -> outcome (bool * mmu_state (St := St) * F)).

(** [frames] holds the contents of physical pages, by address. *)
Record vmm := mk_vmm { vm_mmu : mmu_state (St := St); frames : gmap Z (list Z); zero_cowmem : Z; vm_files : F }.

Definition with_mmu (v : vmm) (m : mmu_state) : vmm := mk_vmm m (frames v) (zero_cowmem v) (vm_files v).
Definition with_files (v : vmm) (f : F) : vmm := mk_vmm (vm_mmu v) (frames v) (zero_cowmem v) f.

Definition vm_alloc_page (v : vmm) : outcome (Z * vmm) :=
  let* (p, pgs) := page_alloc (mpages (vm_mmu v)) in
  Ok (p, with_mmu v (mk_mmu (tables (vm_mmu v)) pgs)).

Definition vm_free_page (v : vmm) (phys : Z) : outcome vmm :=
  let* pgs := page_free (mpages (vm_mmu v)) phys in
  Ok (with_mmu v (mk_mmu (tables (vm_mmu v)) pgs)).

Definition vm_space_get_mapping (v : vmm) (sp : vm_space) (base : Z) : outcome vm_mapping :=
  mmu_get_phys (vm_mmu v) (mmu_root sp) base.

(** One page of [vm_free_range]. *)
Definition free_one (v : vmm) (sp : vm_space) (range : vm_object) (addr : Z) : outcome (vmm * vm_space) :=
  let* (v, sp) :=
    if has (o_flags range) VM_FLAG_FILE then
      let* (v, sp) :=
        if has (o_prot range) PROT_WRITE then
          let* mapping := vm_space_get_mapping v sp addr in
          if negb (m_base mapping =? 0) && has (m_flags mapping) VM_FLAG_OWNER then
            let* v := vm_free_page v (m_base mapping) in
            Ok (v, count_pages 0 0 0 (-1) sp)
          else Ok (v, sp)
        else Ok (v, sp) in
      Ok (v, count_pages 0 (-1) 0 0 sp)
    else if negb (has (o_flags range) VM_FLAG_DEVICE) then
      let* mapping := vm_space_get_mapping v sp addr in
      if negb (m_base mapping =? 0) && negb (m_base mapping =? zero_cowmem v) && has (m_flags mapping) VM_FLAG_OWNER then
        let* v := vm_free_page v (m_base mapping) in Ok (v, sp)
      else Ok (v, sp)
    else Ok (v, sp) in
  let* m := mmu_unmap (vm_mmu v) (mmu_root sp) addr in
  Ok (with_mmu v m, sp).

Fixpoint free_range_loop (n : nat) (v : vmm) (sp : vm_space) (range : vm_object) (addr : Z) : outcome (vmm * vm_space) :=
  match n with
  | O => Ok (v, sp)
  | S n =>
      let* (v, sp) := free_one v sp range addr in
      free_range_loop n v sp range (u64 (addr + CONFIG_PAGE_SIZE))
  end.

(** One round for each page or part of a page. *)
Definition page_rounds (length : Z) : nat := Z.to_nat ((length + CONFIG_PAGE_SIZE - 1) / CONFIG_PAGE_SIZE).

Definition vm_free_range (v : vmm) (sp : vm_space) (range : vm_object) : outcome (vmm * vm_space) :=
  let* (v, sp) := free_range_loop (page_rounds (o_length range)) v sp range (o_base range) in
  let* v := if has (o_flags range) VM_FLAG_FILE
            then let* f := fs_put_file (vm_files v) (o_file range) in Ok (with_files v f) else Ok v in
  let* _ := mmu_invalidate (S (page_rounds (o_length range))) (o_base range) (o_length range) in
  Ok (v, sp).

(** The page loop of [vm_space_map]: [phys] is used by device mappings only. *)
Fixpoint map_loop (n : nat) (v : vmm) (sp : vm_space) (is_device prefault : bool) (phys addr prot : Z)
    : outcome (vmm * vm_space) :=
  match n with
  | O => Ok (v, sp)
  | S n =>
      let* (phys, mmuflags, v, sp) :=
        if is_device then Ok (phys, 0, v, sp)
        else if prefault then
          let* (p, v) := vm_alloc_page v in Ok (p, VM_FLAG_OWNER, v, count_pages 0 0 1 0 sp)
        else Ok (zero_cowmem v, 0, v, sp) in
      let* v :=
        if has prot PROT_READ then
          let* m := mmu_map (vm_mmu v) (mmu_root sp) phys addr prot mmuflags in Ok (with_mmu v m)
        else Ok v in
      let phys := if is_device then u64 (phys + CONFIG_PAGE_SIZE) else phys in
      map_loop n v (count_pages 1 0 0 0 sp) is_device prefault phys (u64 (addr + CONFIG_PAGE_SIZE)) prot
  end.

(** The range descriptor [vm_space_map] builds, and whether it is copy-on-write. *)
Definition map_range (info : vm_mapping_info) : vm_object * bool :=
  let length := align_up (i_length info) CONFIG_PAGE_SIZE in
  let is_device := has (i_flags info) VM_FLAG_DEVICE in
  let is_file := has (i_flags info) VM_FLAG_FILE in
  let prefault := has (i_flags info) VM_FLAG_ALLOCATE in
  let cow := has (i_prot info) PROT_WRITE && negb is_file && negb prefault && negb is_device in
  let vmflags := if cow then Z.lor (i_flags info) VM_FLAG_COW else i_flags info in
  (mk_object (align_down (i_virt_base info) CONFIG_PAGE_SIZE) length (i_prot info) vmflags
     (if is_file then i_fd info else 0) (if is_file then i_offset info else 0), cow).

(** The base address is 0 on failure. *)
Definition vm_space_map (v : vmm) (sp : vm_space) (info : vm_mapping_info) : outcome (Z * vmm * vm_space) :=
  let is_device := has (i_flags info) VM_FLAG_DEVICE in
  let is_file := has (i_flags info) VM_FLAG_FILE in
  if (if is_device then i_phys_base info =? 0 else negb (i_phys_base info =? 0)) then Panic
  else
    let '(range, cow) := map_range info in
    let* v := if is_file then let* f := fs_ref_file (vm_files v) (i_fd info) in Ok (with_files v f) else Ok v in
    let placed :=
      if negb (i_virt_base info =? 0) || has (o_flags range) VM_FLAG_REPLACE
      then (fun sp => (o_base range, sp)) <$> space_check_range sp range (has (o_flags range) VM_FLAG_REPLACE)
      else space_find_free_range sp range in
    match placed with
    | None => Ok (0, v, sp)
    | Some (base, sp) =>
        if is_file then
          let* f := fs_mmap (vm_files v) (mk_object base (o_length range) (o_prot range) (o_flags range) (o_file range) (o_offset range)) in
          Ok (base, with_files v f, count_pages 0 (o_length range / 0x1000) 0 0 sp)
        else
          let prot := if cow then Z.land (i_prot info) (u32 (Z.lnot PROT_WRITE)) else i_prot info in
          let phys := if is_device then align_down (i_phys_base info) CONFIG_PAGE_SIZE else zero_cowmem v in
          let* (v, sp) := map_loop (page_rounds (o_length range)) v sp is_device
                            (has (o_flags range) VM_FLAG_ALLOCATE) phys base prot in
          Ok (base, v, sp)
    end.

(** The search of [vm_space_unmap] for the range that starts at [addr]. *)
Fixpoint remove_range (done todo : list vm_object) (addr : Z) : option (vm_object * list vm_object) :=
  match todo with
  | [] => None
  | cur :: todo => if o_base cur =? addr then Some (cur, done ++ todo) else remove_range (done ++ [cur]) todo addr
  end.

(** A length that differs from the range's is only reported; the range goes as a whole. *)
Definition vm_space_unmap (v : vmm) (sp : vm_space) (addr length : Z) : outcome (vmm * vm_space) :=
  match remove_range [] (objects sp) addr with
  | Some (cur, rest) => vm_free_range v (set_objects rest sp) cur
  | None => Ok (v, sp)
  end.

Definition vm_userspace_new (v : vmm) (kernel_root : Z) : outcome (vm_space * vmm) :=
  let* (root, m) := mmu_new_pgdir (vm_mmu v) in
  let* m := mmu_clone m kernel_root root PROT_NONE in
  Ok (mk_space [] VM_USERSPACE_BASE VM_USERSPACE_END root 0 0 0 0, with_mmu v m).

Fixpoint free_all (l : list vm_object) (v : vmm) (sp : vm_space) : outcome (vmm * vm_space) :=
  match l with
  | [] => Ok (v, sp)
  | o :: l => let* (v, sp) := vm_free_range v sp o in free_all l v sp
  end.

Definition vm_space_destroy (v : vmm) (sp : vm_space) : outcome vmm :=
  let* (v, sp) := free_all (objects sp) v sp in
  let* m := mmu_destroy (vm_mmu v) (mmu_root sp) in
  Ok (with_mmu v m).

(** vm_space.h: page fault flags *)
Definition VM_FAULT_PRESENT : Z := 1.
Definition VM_FAULT_WRITE : Z := 2.
Definition VM_FAULT_USER : Z := 4.
Definition VM_FAULT_FETCH : Z := 8.

Definition fault_allowed (range : vm_object) (flags : Z) : bool :=
  negb (has flags VM_FAULT_WRITE && negb (has (o_prot range) PROT_WRITE)) &&
  negb (has flags VM_FAULT_USER && negb (has (o_prot range) PROT_USER)) &&
  negb (has flags VM_FAULT_FETCH && negb (has (o_prot range) PROT_EXEC)).

(** [sp] is the current space of the task that faulted, [None] when no task runs. *)
Definition vm_page_fault (v : vmm) (sp : option vm_space) (addr flags : Z) : outcome (bool * vmm * option vm_space) :=
  if (addr <? VM_USERSPACE_BASE) || (VM_USERSPACE_END <? addr) then Ok (false, v, sp)
  else
    match sp with
    | None => Ok (false, v, sp)
    | Some space =>
        match vm_space_get_range space addr with
        | None => Ok (false, v, sp)
        | Some range =>
            if negb (fault_allowed range flags) then Ok (false, v, sp)
            else
              let* mapping := vm_space_get_mapping v space addr in
              if has flags VM_FAULT_PRESENT then
                if has flags VM_FAULT_WRITE && has (o_prot range) (Z.lor PROT_READ PROT_WRITE) && has (o_flags range) VM_FLAG_COW then
                  let* (new_phys, v) := vm_alloc_page v in
                  if new_phys =? 0 then Ok (false, v, sp)
                  else
                    let* page :=
                      if m_base mapping =? zero_cowmem v then Ok (replicate 4096 0)
                      else deref (frames v !! m_base mapping) in
                    let v := mk_vmm (vm_mmu v) (<[new_phys := page]> (frames v)) (zero_cowmem v) (vm_files v) in
                    let* m := mmu_map (vm_mmu v) (mmu_root space) new_phys addr (Z.lor (o_prot range) PROT_WRITE)
                                (Z.lor (o_flags range) VM_FLAG_OWNER) in
                    let* _ := mmu_invalidate 2 addr CONFIG_PAGE_SIZE in
                    Ok (true, with_mmu v m, Some (count_pages 0 0 1 0 space))
                else Ok (false, v, sp)
              else if has (o_flags range) VM_FLAG_FILE then
                let* (handled, m, f) := file_fault (vm_mmu v) (vm_files v) range addr flags in
                Ok (handled, with_files (with_mmu v m) f, sp)
              else Ok (false, v, sp)
        end
    end.

Definition vm_validate_ptr (ptr : Z) : bool := negb ((ptr <? VM_USERSPACE_BASE) || (VM_USERSPACE_END <? ptr)).
End vmm.

(** ** vm_syscall.c *)

Definition MAP_SHARED : Z := 0x1.
Definition MAP_PRIVATE : Z := 0x2.
Definition MAP_FIXED : Z := 0x10.
Definition MAP_ANONYMOUS : Z := 0x20.

(** [sys_mmap] returns an address, or an error number that is not negated. *)
Inductive mmap_ret := MapAddr (a : Z) | MapErrno (e : errno).

Section vm_syscall.
Context {St F : Type} {PA : PageAllocator St} {FS : FileServices F}.

(** [open_files] is the task's descriptor table and [can_mmap] says whether the file has an [mmap] operation. *)
Definition sys_mmap (v : vmm (St := St) (F := F)) (sp : vm_space) (open_files : list Z) (can_mmap : Z -> bool)
    (addr size prot flags fd offset : Z) : outcome (mmap_ret * vmm * vm_space) :=
  if (size =? 0) || has offset 0xFFF then Ok (MapErrno EINVAL, v, sp)
  else if negb (has flags MAP_PRIVATE) && negb (has flags MAP_SHARED) then Ok (MapErrno EINVAL, v, sp)
  else if has flags MAP_PRIVATE && has flags MAP_SHARED then Ok (MapErrno EINVAL, v, sp)
  else
    let map_flags := if has flags MAP_FIXED then VM_FLAG_REPLACE else 0 in
    let vprot := Z.lor (Z.land prot 7) PROT_USER in
    let base := if has flags MAP_FIXED then addr else 0 in
    if has flags MAP_ANONYMOUS then
      if 0 <=? fd then Ok (MapErrno EINVAL, v, sp)
      else if has flags MAP_SHARED then Ok (MapErrno ENOTSUP, v, sp)
      else
        let* (a, v, sp) := vm_space_map v sp (mk_info size vprot map_flags 0 base 0 0) in
        Ok (MapAddr a, v, sp)
    else if fd <? 0 then Ok (MapErrno EBADF, v, sp)
    else
      let* v_fd := aget open_files fd in
      if v_fd <? 0 then Ok (MapErrno EBADF, v, sp)
      else if negb (can_mmap v_fd) then Ok (MapErrno ENODEV, v, sp)
      else
        let* (a, v, sp) := vm_space_map v sp (mk_info size vprot (Z.lor map_flags VM_FLAG_FILE) 0 base offset v_fd) in
        Ok (MapAddr a, v, sp).

Definition sys_munmap (v : vmm (St := St) (F := F)) (sp : vm_space) (addr size : Z) : outcome (ret * vmm * vm_space) :=
  if (size =? 0) || has addr 0xFFF then Ok (RErr EINVAL, v, sp)
  else if negb (vm_validate_ptr addr) then Ok (RErr EINVAL, v, sp)
  else let* (v, sp) := vm_space_unmap v sp addr size in Ok (RVal 0, v, sp).

Definition sys_mprotect : ret := RErr ENOSYS.
End vm_syscall.

(** ** The list of ranges *)

(** The ranges are non-empty, in order, disjoint and at or above [lo]. *)
Fixpoint ranges_ok (lo : Z) (l : list vm_object) : Prop :=
  match l with
  | [] => True
  | o :: l => lo <= o_base o /\ 0 < o_length o /\ o_base o + o_length o < 2 ^ 64 /\ ranges_ok (o_base o + o_length o) l
  end.

(** Two ranges share an address. *)
Definition overlap (o r : vm_object) : Prop :=
  o_base o < o_base r + o_length r /\ o_base r < o_base o + o_length o.

Lemma o_end_small o : 0 <= o_base o -> 0 < o_length o -> o_base o + o_length o < 2 ^ 64 -> o_end o = o_base o + o_length o.
Proof. intros. unfold o_end. apply u64_small. lia. Qed.

Lemma ranges_ok_app lo l1 l2 : ranges_ok lo (l1 ++ l2) <->
  ranges_ok lo l1 /\ ranges_ok (foldl (fun _ o => o_base o + o_length o) lo l1) l2.
Proof.
  revert lo. induction l1 as [|o l1 IH]; intros lo; simpl; [tauto|]. rewrite IH. tauto.
Qed.

Lemma ranges_ok_lower lo lo' l : lo' <= lo -> ranges_ok lo l -> ranges_ok lo' l.
Proof. destruct l as [|o l]; simpl; [done|]. intros ? (? & ?). split; [lia|done]. Qed.

Lemma ranges_ok_elem lo l o : ranges_ok lo l -> o ∈ l -> lo <= o_base o /\ 0 < o_length o /\ o_base o + o_length o < 2 ^ 64.
Proof.
  revert lo. induction l as [|x l IH]; intros lo Hok Ho; [set_solver|]. destruct Hok as (H1 & H2 & H3 & H4).
  apply elem_of_cons in Ho as [->|Ho]; [done|]. destruct (IH _ H4 Ho) as (? & ? & ?). lia.
Qed.

(** The end of the last range passed. *)
Definition last_end (lo : Z) (l : list vm_object) : Z := foldl (fun _ o => o_base o + o_length o) lo l.

Lemma last_end_snoc lo l o : last_end lo (l ++ [o]) = o_base o + o_length o.
Proof. unfold last_end. by rewrite foldl_snoc. Qed.

Lemma ranges_ok_below lo l o : ranges_ok lo l -> o ∈ l -> o_base o + o_length o <= last_end lo l.
Proof.
  revert lo. induction l as [|x l IH]; intros lo Hok Ho; [set_solver|]. destruct Hok as (H1 & H2 & H3 & H4). simpl.
  change (last_end lo (x :: l)) with (last_end (o_base x + o_length x) l).
  apply elem_of_cons in Ho as [->|Ho]; [|by apply IH]. clear IH. destruct l as [|y l]; [done|].
  assert (forall l a, ranges_ok a l -> a <= last_end a l) as Hmono; [|by apply Hmono].
  clear. induction l as [|z l IH]; intros a Hok; simpl; [done|]. destruct Hok as (? & ? & ? & Hok).
  specialize (IH _ Hok). change (last_end a (z :: l)) with (last_end (o_base z + o_length z) l). lia.
Qed.

Lemma ranges_ok_insert lo l1 r l2 : ranges_ok lo (l1 ++ l2) -> last_end lo l1 <= o_base r -> 0 < o_length r ->
  o_base r + o_length r < 2 ^ 64 -> (forall o, head l2 = Some o -> o_base r + o_length r <= o_base o) ->
  ranges_ok lo (l1 ++ r :: l2).
Proof.
  intros Hok Hb Hl Hr Hh. apply ranges_ok_app in Hok as [Hok1 Hok2]. apply ranges_ok_app. split; [done|].
  simpl. do 3 (split; [done|]). destruct l2 as [|o l2]; [done|]. destruct Hok2 as (? & ? & ? & ?).
  split; [by apply Hh|done].
Qed.

Lemma check_loop_spec lo range todo : forall dn, 0 <= lo -> ranges_ok lo (dn ++ todo) ->
  0 <= o_base range -> 0 < o_length range -> o_base range + o_length range < 2 ^ 64 -> lo <= o_base range ->
  last_end lo dn <= o_base range ->
  match check_loop dn todo range false with
  | Some l => ranges_ok lo l /\ l ≡ₚ range :: dn ++ todo /\ (forall o, o ∈ dn ++ todo -> ~ overlap o range)
  | None => exists o, o ∈ todo /\ overlap o range
  end.
Proof.
  induction todo as [|cur todo IH]; intros dn Hlo Hok Hb Hl Hr Hlb Hend; cbn [check_loop].
  - rewrite app_nil_r in *. split; [by apply ranges_ok_insert; rewrite ?app_nil_r|]. split; [solve_Permutation|].
    intros o Ho [_ Hov]. pose proof (ranges_ok_below _ _ _ Hok Ho). lia.
  - destruct (ranges_ok_elem _ _ cur Hok) as (Hc1 & Hc2 & Hc3); [set_solver|].
    assert (ranges_ok (o_base cur + o_length cur) todo) as Htail by (by apply ranges_ok_app in Hok as [_ (_ & _ & _ & ?)]).
    rewrite !o_end_small by lia.
    destruct (Z.leb_spec (o_base cur) (o_base range)) as [Hle|Hgt].
    + destruct (Z.ltb_spec (o_base range) (o_base cur + o_length cur)) as [Hov|Hno].
      { exists cur. split; [set_solver|]. split; lia. }
      specialize (IH (dn ++ [cur])). rewrite <- app_assoc in IH. specialize (IH Hlo Hok Hb Hl Hr Hlb).
      rewrite last_end_snoc in IH. specialize (IH Hno).
      destruct (check_loop (dn ++ [cur]) todo range false) as [l|]; [done|].
      destruct IH as (o & Ho & Hov). exists o. split; [set_solver|done].
    + destruct (Z.ltb_spec (o_base cur) (o_base range + o_length range)) as [Hov|Hno].
      { exists cur. split; [set_solver|]. split; lia. }
      split; [apply ranges_ok_insert; try done; by intros o [= <-]|]. split; [solve_Permutation|].
      intros o Ho [Hov1 Hov2]. apply ranges_ok_app in Hok as [Hok1 _]. apply elem_of_app in Ho as [Ho|Ho].
      * pose proof (ranges_ok_below _ _ _ Hok1 Ho). lia.
      * apply elem_of_cons in Ho as [->|Ho]; [lia|]. destruct (ranges_ok_elem _ _ _ Htail Ho). lia.
Qed.

(** Placing a range at a fixed address without replacement keeps the
    ranges of a space ordered, disjoint and inside its bounds; it succeeds
    exactly when the range lies inside the bounds and shares no address with a
    mapped range. *)
Theorem space_check_range_correct sp range :
  ranges_ok (start_address sp) (objects sp) -> 0 <= start_address sp -> 0 <= o_base range -> 0 < o_length range ->
  o_base range + o_length range < 2 ^ 64 ->
  match space_check_range sp range false with
  | Some sp' => ranges_ok (start_address sp) (objects sp') /\ objects sp' ≡ₚ range :: objects sp /\
      start_address sp <= o_base range /\ o_base range + o_length range < end_address sp /\
      (forall o, o ∈ objects sp -> ~ overlap o range)
  | None => o_base range < start_address sp \/ end_address sp <= o_base range + o_length range \/
      exists o, o ∈ objects sp /\ overlap o range
  end.
Proof.
  intros Hok Hlo Hb Hl Hr. unfold space_check_range. rewrite o_end_small by lia.
  destruct (Z.ltb_spec (o_base range) (start_address sp)); [by left|].
  destruct (Z.leb_spec (end_address sp) (o_base range + o_length range)); [right; by left|].
  pose proof (check_loop_spec (start_address sp) range (objects sp) [] Hlo Hok Hb Hl Hr ltac:(lia) ltac:(unfold last_end; simpl; lia)) as Hspec.
  destruct (check_loop [] (objects sp) range false) as [l|]; simpl.
  - destruct Hspec as (? & ? & ?). done.
  - right. right. done.
Qed.

(** A space with two ranges. *)
Definition space2 : vm_space :=
  mk_space [mk_object 0x10000 0x2000 3 0 0 0; mk_object 0x20000 0x1000 3 0 0 0] 0x10000 0x40000 0 0 0 0 0.

Lemma space_check_range_correct_witness :
  exists sp', space_check_range space2 (mk_object 0x12000 0x1000 3 0 0 0) false = Some sp' /\
    ranges_ok 0x10000 (objects sp').
Proof.
  pose proof (space_check_range_correct space2 (mk_object 0x12000 0x1000 3 0 0 0)) as H.
  destruct (space_check_range space2 _ false) as [sp'|] eqn:E; [|vm_compute in E; discriminate].
  destruct H as [H _]; [repeat split; vm_compute; congruence|vm_compute; congruence..|]. exists sp'. split; [reflexivity|exact H].
Defined.

Lemma free_loop_spec lo length todo : forall dn, 0 < lo -> 0 < length -> ranges_ok lo (dn ++ todo) ->
  (forall o, o ∈ dn ++ todo -> o_base o + o_length o + length < 2 ^ 64) -> lo + length < 2 ^ 64 ->
  (forall b, lo <= b < last_end lo dn -> exists o, o ∈ dn /\ o_base o < b + length /\ b < o_base o + o_length o) ->
  exists base before after, free_loop dn todo (last_end lo dn) length = (base, before, after) /\
    before ++ after = dn ++ todo /\ base = last_end lo before /\ lo <= base /\ base + length < 2 ^ 64 /\
    (forall o, head after = Some o -> base + length <= o_base o) /\
    (forall b, lo <= b < base -> exists o, o ∈ dn ++ todo /\ o_base o < b + length /\ b < o_base o + o_length o).
Proof.
  induction todo as [|cur todo IH]; intros dn Hlo Hlen Hok Hsm Hsm0 Hfull; cbn [free_loop].
  - rewrite app_nil_r in *. exists (last_end lo dn), dn, []. split; [done|]. rewrite app_nil_r. split; [done|]. split; [done|].
    assert (lo <= last_end lo dn /\ last_end lo dn + length < 2 ^ 64) as [? ?].
    { destruct dn as [|o dn _] using rev_ind; [done|]. rewrite last_end_snoc.
      destruct (ranges_ok_elem _ _ o Hok) as (? & ? & ?); [set_solver|]. split; [lia|]. apply Hsm. set_solver. }
    done.
  - assert (lo <= last_end lo dn /\ last_end lo dn + length < 2 ^ 64 /\ last_end lo dn <= o_base cur) as (Hle & Hend & Hcur).
    { apply ranges_ok_app in Hok as [Hok1 (Hc & _)]. split; [|split; [|done]].
      - destruct dn as [|o dn _] using rev_ind; [done|]. rewrite last_end_snoc.
        destruct (ranges_ok_elem _ _ o Hok1) as (? & ? & ?); [set_solver|]. lia.
      - destruct dn as [|o dn _] using rev_ind; [done|]. rewrite last_end_snoc. apply Hsm. set_solver. }
    rewrite u64_small by lia. destruct (Z.leb_spec (last_end lo dn + length) (o_base cur)) as [Hfit|Hno].
    + exists (last_end lo dn), dn, (cur :: todo). do 5 (split; [done|]). split; [by intros o [= <-]|].
      intros b Hb. destruct (Hfull b Hb) as (o & Ho & ?). exists o. split; [set_solver|done].
    + destruct (ranges_ok_elem _ _ cur Hok) as (Hc1 & Hc2 & Hc3); [set_solver|].
      rewrite o_end_small by lia. rewrite <- (last_end_snoc lo dn cur).
      assert (dn ++ cur :: todo = (dn ++ [cur]) ++ todo) as Happ by (by rewrite <- app_assoc). rewrite Happ in *.
      apply IH; try done. intros b Hb. rewrite last_end_snoc in Hb.
      destruct (Z.lt_ge_cases b (last_end lo dn)) as [Hlt|Hge].
      * destruct (Hfull b ltac:(lia)) as (o & Ho & ?). exists o. split; [set_solver|done].
      * exists cur. split; [set_solver|]. lia.
Qed.

(** [space_find_free_range] is first fit: it returns the lowest address
    at or above the start of the space at which the range fits between the
    mapped ones, and keeps the ranges ordered and disjoint. *)
Theorem space_find_free_first_fit sp range :
  ranges_ok (start_address sp) (objects sp) -> 0 < start_address sp -> 0 < o_length range ->
  start_address sp + o_length range < 2 ^ 64 ->
  (forall o, o ∈ objects sp -> o_base o + o_length o + o_length range < 2 ^ 64) ->
  exists base sp' range', space_find_free_range sp range = Some (base, sp') /\
    o_base range' = base /\ o_length range' = o_length range /\ objects sp' ≡ₚ range' :: objects sp /\
    ranges_ok (start_address sp) (objects sp') /\
    (forall b, start_address sp <= b < base -> exists o, o ∈ objects sp /\ o_base o < b + o_length range /\ b < o_base o + o_length o).
Proof.
  intros Hok Hlo Hl Hsm0 Hsm. unfold space_find_free_range.
  destruct (free_loop_spec (start_address sp) (o_length range) (objects sp) []) as (base & before & after & Hrun & Happ & Hbase & Hge & Hend & Hh & Hfirst);
    try done; [unfold last_end; simpl; lia|].
  change (last_end (start_address sp) []) with (start_address sp) in Hrun. rewrite Hrun. simpl in Happ.
  destruct (Z.eqb_spec base 0); [lia|]. set (r := mk_object base _ _ _ _ _). exists base, (set_objects (before ++ r :: after) sp), r.
  do 3 (split; [done|]). split; [simpl; rewrite <- Happ; solve_Permutation|]. split; [|done].
  simpl. apply ranges_ok_insert; [by rewrite Happ|simpl; lia|done|done|done].
Qed.

Lemma space_find_free_first_fit_witness : exists sp',
  space_find_free_range space2 (mk_object 0 0x3000 3 0 0 0) = Some (0x12000, sp') /\ ranges_ok 0x10000 (objects sp').
Proof.
  destruct (space_find_free_first_fit space2 (mk_object 0 0x3000 3 0 0 0)) as (base & sp' & r & Hrun & _ & _ & _ & Hok & _).
  - repeat split; vm_compute; congruence.
  - reflexivity.
  - reflexivity.
  - reflexivity.
  - intros o Ho. repeat (apply elem_of_cons in Ho as [->|Ho]; [reflexivity|]). by apply not_elem_of_nil in Ho.
  - exists sp'. split; [|exact Hok]. rewrite Hrun. vm_compute in Hrun. by injection Hrun as <- _.
Defined.

(** The bounds of a space are not enforced in two cases.  Without a fixed
    address the upper end is never looked at: when the ranges leave no room, a
    range beyond the end of the space is handed out.  With a fixed address the
    sum of base and length may wrap around and pass the test against the end. *)
Theorem space_bounds_not_enforced :
  (forall lo length prot, 0 < lo -> 0 < length -> lo + 2 * length < 2 ^ 64 ->
     let full := mk_space [mk_object lo length prot 0 0 0] lo (lo + length) 0 0 0 0 0 in
     exists sp', space_find_free_range full (mk_object 0 length prot 0 0 0) = Some (lo + length, sp')) /\
  (exists range sp', space_check_range (mk_space [] VM_USERSPACE_BASE VM_USERSPACE_END 0 0 0 0 0) range true = Some sp' /\
     VM_USERSPACE_END < o_base range + o_length range).
Proof.
  split.
  - intros lo length prot Hlo Hlen Hsm full. unfold space_find_free_range. simpl.
    rewrite u64_small by lia. destruct (Z.leb_spec (lo + length) lo); [lia|].
    rewrite o_end_small by (simpl; lia). simpl. destruct (Z.eqb_spec (lo + length) 0); [lia|]. by eexists.
  - exists (mk_object 0x20000 (2 ^ 64 - 0x10000) 11 0 0 0). eexists. split; reflexivity.
Qed.

(** The first range that contains an address. *)
Lemma get_range_none sp addr : (forall o, o ∈ objects sp -> ~ (o_base o <= addr /\ addr < o_end o)) ->
  vm_space_get_range sp addr = None.
Proof.
  intros H. unfold vm_space_get_range. rewrite (proj2 (list_find_None _ _)); [done|]. by apply Forall_forall.
Qed.

(** Mapping over the inside of a range loses the part of that range below
    the new one: its addresses belong to no range any more (while their pages
    stay mapped in the page tables). *)
Theorem replace_loses_front sp before range rest addr :
  objects sp = before :: rest -> ranges_ok (start_address sp) (objects sp) -> 0 <= start_address sp ->
  start_address sp <= o_base before < o_base range -> o_base range + o_length range < o_base before + o_length before ->
  0 < o_length range -> o_base range + o_length range < end_address sp ->
  o_base before <= addr < o_base range ->
  exists sp', space_check_range sp range true = Some sp' /\
    vm_space_get_range sp addr = Some before /\ vm_space_get_range sp' addr = None.
Proof.
  intros Hobj Hok Hlo Hb Hin Hl He Ha. unfold space_check_range. rewrite Hobj in *. destruct Hok as (Hk1 & Hk2 & Hk3 & Hk4).
  rewrite o_end_small by lia. destruct (Z.ltb_spec (o_base range) (start_address sp)); [lia|].
  destruct (Z.leb_spec (end_address sp) (o_base range + o_length range)); [lia|]. simpl.
  destruct (Z.leb_spec (o_base before) (o_base range)); [|lia]. rewrite o_end_small by lia.
  destruct (Z.ltb_spec (o_base range) (o_base before + o_length before)); [|lia].
  unfold replace_before. rewrite (u64_small (o_base range + o_length range)) by lia.
  rewrite (u64_small (o_base range + o_length range - o_base before)) by lia.
  destruct (Z.leb_spec (o_length before) (o_base range + o_length range - o_base before)); [lia|]. simpl.
  eexists. split; [done|]. split.
  - unfold vm_space_get_range. rewrite Hobj. simpl. rewrite o_end_small by lia. rewrite decide_True by lia. done.
  - apply get_range_none. simpl. intros o Ho [Ho1 Ho2]. apply elem_of_cons in Ho as [->|Ho]; [lia|].
    apply elem_of_cons in Ho as [->|Ho]; [simpl in Ho1; lia|]. destruct (ranges_ok_elem _ _ _ Hk4 Ho). lia.
Qed.

Lemma replace_loses_front_witness : exists sp',
  space_check_range (mk_space [mk_object 0x10000 0x4000 3 0 0 0] 0x10000 0x40000 0 0 0 0 0) (mk_object 0x12000 0x1000 3 0 0 0) true = Some sp' /\
  vm_space_get_range sp' 0x11000 = None.
Proof.
  destruct (replace_loses_front (mk_space [mk_object 0x10000 0x4000 3 0 0 0] 0x10000 0x40000 0 0 0 0 0)
    (mk_object 0x10000 0x4000 3 0 0 0) (mk_object 0x12000 0x1000 3 0 0 0) [] 0x11000) as (sp' & H1 & _ & H2);
    [reflexivity|repeat split; vm_compute; congruence|simpl; lia|simpl; lia|simpl; lia|simpl; lia|simpl; lia|simpl; lia|].
  exists sp'. split; [exact H1|exact H2].
Defined.

(** ** Page faults and unmapping *)
Section faults.
Context {St F : Type} {PA : PageAllocator St} {FS : FileServices F}.
Implicit Types (v : vmm (St := St) (F := F)).

(** Allocating a frame for other use does not disturb the page tables. *)
Lemma tree_alloc (st : mmu_state (St := St)) root G p pgs : tree st root G ->
  page_alloc (mpages st) = Ok (p * CONFIG_PAGE_SIZE, pgs) -> tree (mk_mmu (tables st) pgs) root G.
Proof.
  intros Htr Ha. destruct (page_alloc_owned _ _ _ (tr_pages _ _ _ Htr) Ha) as (Hok & _ & _ & _ & Howned).
  split; simpl; [apply (tr_root _ _ _ Htr)|apply (tr_depth _ _ _ Htr)|apply (tr_table _ _ _ Htr)| |done].
  intros t ents Ht. destruct (tr_own _ _ _ Htr t ents Ht) as (q & -> & Hq). exists q. split; [done|]. apply Howned. by left.
Qed.

(** The contents of a frame; the shared zero page is all zeroes. *)
Definition page_contents v (phys : Z) : option (list Z) :=
  if phys =? zero_cowmem v then Some (replicate 4096 0) else frames v !! phys.

(** A write to a present page of a copy-on-write range. *)
Definition cow_write_fault (range : vm_object) (flags : Z) : Prop :=
  has flags VM_FAULT_PRESENT = true /\ has flags VM_FAULT_WRITE = true /\ fault_allowed range flags = true /\
  has (o_prot range) (Z.lor PROT_READ PROT_WRITE) = true /\ has (o_flags range) VM_FLAG_COW = true.

(** C24: a write fault on a copy-on-write page gives the task a private copy:
    the page is remapped to a frame that was free, writable, holding what the
    page held before; the old frame, every other frame and every other
    translation are unchanged.  It panics only when memory runs out. *)
Theorem cow_fault_copies file_fault v sp range addr flags G m page :
  tree (vm_mmu v) (mmu_root sp) G -> VM_USERSPACE_BASE <= addr <= VM_USERSPACE_END ->
  vm_space_get_range sp addr = Some range -> cow_write_fault range flags ->
  vm_space_get_mapping v sp addr = Ok m -> page_contents v (m_base m) = Some page ->
  match vm_page_fault file_fault v (Some sp) addr flags with
  | Ok (handled, v', sp') => handled = true /\ exists p, p ∈ pages_free (mpages (vm_mmu v)) /\
      frames v' !! (p * CONFIG_PAGE_SIZE) = Some page /\
      (forall q, q <> p * CONFIG_PAGE_SIZE -> frames v' !! q = frames v !! q) /\
      mmu_get_phys (vm_mmu v') (mmu_root sp) addr = Ok (mk_mapping (p * CONFIG_PAGE_SIZE)
        (Z.land (Z.lor (o_prot range) PROT_WRITE) 63) VM_FLAG_OWNER (has (Z.lor (o_prot range) PROT_WRITE) PROT_READ)) /\
      (forall a, page_number a <> page_number addr -> translate (vm_mmu v') (mmu_root sp) a = translate (vm_mmu v) (mmu_root sp) a) /\
      exists G', tree (vm_mmu v') (mmu_root sp) G'
  | Panic => (length (pages_free (mpages (vm_mmu v))) < 4)%nat
  | Fault | OutOfFuel => False
  end.
Proof.
  intros Htr Ha Hr (Hf1 & Hf2 & Hf3 & Hf4 & Hf5) Hm Hpage. unfold vm_page_fault.
  destruct (Z.ltb_spec addr VM_USERSPACE_BASE); [lia|]. destruct (Z.ltb_spec VM_USERSPACE_END addr); [lia|].
  cbn [orb]. rewrite Hr, Hf3. cbn [negb]. rewrite Hm. cbn [outcome_bind]. rewrite Hf1, Hf2, Hf4, Hf5. cbn [andb].
  unfold vm_alloc_page. destruct (page_alloc_law _ (tr_pages _ _ _ Htr)) as [[-> ->]|(p & pgs & Halloc & Hok & Hperm & _)]; [simpl; lia|].
  rewrite Halloc. cbn [outcome_bind].
  destruct (page_alloc_owned _ _ _ (tr_pages _ _ _ Htr) Halloc) as (_ & Hin & [Hb _] & _).
  pose proof (pages_bound_dmap _ _ Hok (proj2 Hb)) as Hd. change dmap_frames with 17179869184 in Hd.
  destruct (Z.eqb_spec (p * CONFIG_PAGE_SIZE) 0); [page_lia|].
  assert ((if m_base m =? zero_cowmem v then Ok (replicate 4096 0) else deref (frames v !! m_base m)) = Ok page) as Hpg.
  { revert Hpage. unfold page_contents. destruct (m_base m =? zero_cowmem v); [by intros [= <-]|]. by intros ->. }
  cbn [with_mmu zero_cowmem frames vm_mmu vm_files]. rewrite Hpg. cbn [outcome_bind].
  pose proof (tree_alloc _ _ _ _ _ Htr Halloc) as Htr1.
  destruct (mmu_map_spec _ _ _ (p * CONFIG_PAGE_SIZE) addr (Z.lor (o_prot range) PROT_WRITE)
      (Z.lor (o_flags range) VM_FLAG_OWNER) Htr1 ltac:(page_lia)) as [[-> Hfew]|(st' & G' & -> & _ & Htr' & Hget & Hoth)].
  { cbn [outcome_bind]. apply Permutation_length in Hperm. simpl in Hperm, Hfew. lia. }
  cbn [outcome_bind mmu_invalidate]. split; [done|]. exists p. split; [done|]. cbn [with_mmu frames vm_mmu].
  split; [apply lookup_insert_eq|]. split; [intros q Hq; by apply lookup_insert_ne|]. split; [|split; [done|by exists G']].
  rewrite Hget. do 2 f_equal.
  - rewrite (align_down_spec _ 12 : _ -> _ -> align_down (p * CONFIG_PAGE_SIZE) CONFIG_PAGE_SIZE = _) by page_lia.
    change (2 ^ 12) with CONFIG_PAGE_SIZE. by rewrite Z.div_mul.
  - change VM_FLAG_OWNER with (2 ^ 4). bits_ext.
Qed.

(** Unmapping a range whose first page was never mapped, such as a range
    without read access or a file range before its first access, makes the
    kernel follow a null page table pointer. *)
Theorem unmap_untouched_faults v sp addr length o rest G :
  tree (vm_mmu v) (mmu_root sp) G -> remove_range [] (objects sp) addr = Some (o, rest) ->
  0 < o_length o -> entry_at (vm_mmu v) (mmu_root sp) (indices (o_base o)) = Ok None ->
  vm_space_unmap v sp addr length = Fault.
Proof.
  intros Htr Hrm Hl He. unfold vm_space_unmap. rewrite Hrm. unfold vm_free_range.
  assert (exists n, page_rounds (o_length o) = S n) as [n ->].
  { unfold page_rounds. exists (Nat.pred (Z.to_nat ((o_length o + CONFIG_PAGE_SIZE - 1) / CONFIG_PAGE_SIZE))).
    assert (1 <= (o_length o + CONFIG_PAGE_SIZE - 1) / CONFIG_PAGE_SIZE) by (apply Z.div_le_lower_bound; page_lia). lia. }
  cbn [free_range_loop]. assert (free_one v (set_objects rest sp) o (o_base o) = Fault) as ->; [|done].
  unfold free_one, vm_space_get_mapping. cbn [set_objects mmu_root]. rewrite mmu_get_phys_path, He. cbn [outcome_bind].
  pose proof (mmu_unmap_missing _ _ _ _ Htr He) as Hun.
  destruct (has (o_flags o) VM_FLAG_FILE); [destruct (has (o_prot o) PROT_WRITE)|destruct (negb (has (o_flags o) VM_FLAG_DEVICE))];
    cbn -[mmu_unmap]; by rewrite Hun.
Qed.
End faults.

(** No files, for concrete runs. *)
#[export] Instance no_files : FileServices unit := {|
  fs_ref_file := fun f _ => Ok f;
  fs_put_file := fun f _ => Ok f;
  fs_mmap := fun f _ => Ok f;
|}.

Definition no_fault (m : mmu_state (St := pmm)) (f : unit) (o : vm_object) (a fl : Z) : outcome (bool * mmu_state (St := pmm) * unit) :=
  Ok (false, m, f).

(** A page at 0x400000 that shows the zero page (frame 9) read-only, in a writable copy-on-write range. *)
Definition cow_space (root : Z) : vm_space :=
  mk_space [mk_object 0x400000 0x1000 11 VM_FLAG_COW 0 0] VM_USERSPACE_BASE VM_USERSPACE_END root 0 0 0 0.

Lemma cow_fault_copies_witness : exists r st1 v' sp' p,
  vm_page_fault no_fault (mk_vmm (F := unit) st1 ∅ 0x9000 tt) (Some (cow_space r)) 0x400000 7 = Ok (true, v', sp') /\
  frames v' !! (p * CONFIG_PAGE_SIZE) = Some (replicate 4096 0).
Proof.
  destruct (mmu_new_pgdir (mk_mmu ∅ pmm_eight)) as [[r st0]| | |] eqn:E0; [|vm_compute in E0; discriminate..].
  pose proof (new_pgdir_tree pmm_eight pmm_eight_ok r st0 E0) as Htr0.
  destruct (mmu_map_spec st0 r _ 0x9000 0x400000 9 0 Htr0 ltac:(lia)) as [[_ Hf]|(st1 & G1 & E1 & _ & Htr1 & Hget & _)].
  { exfalso. clear Htr0. vm_compute in E0. injection E0 as _ <-. vm_compute in Hf. lia. }
  pose proof (cow_fault_copies no_fault (mk_vmm (F := unit) st1 ∅ 0x9000 tt) (cow_space r)
    (mk_object 0x400000 0x1000 11 VM_FLAG_COW 0 0) 0x400000 7 G1 _ (replicate 4096 0) Htr1
    ltac:(vm_compute; split; discriminate) eq_refl ltac:(repeat split; reflexivity) Hget eq_refl) as H.
  destruct (vm_page_fault no_fault _ _ _ _) as [[[h v'] sp']| | |] eqn:Erun.
  - destruct H as (-> & p & _ & Hp & _). exists r, st1, v', sp', p. split; [exact Erun|exact Hp].
  - exfalso. clear - H E0 E1. vm_compute in E0. injection E0 as <- <-. vm_compute in E1. injection E1 as <-. vm_compute in H. lia.
  - destruct H.
  - destruct H.
Defined.

Lemma unmap_untouched_faults_witness : exists r st0,
  mmu_new_pgdir (mk_mmu ∅ pmm_eight) = Ok (r, st0) /\
  vm_space_unmap (mk_vmm (F := unit) st0 ∅ 0x9000 tt) (cow_space r) 0x400000 0x1000 = Fault.
Proof.
  destruct (mmu_new_pgdir (mk_mmu ∅ pmm_eight)) as [[r st0]| | |] eqn:E0; [|vm_compute in E0; discriminate..].
  pose proof (new_pgdir_tree pmm_eight pmm_eight_ok r st0 E0) as Htr0. exists r, st0. split; [reflexivity|].
  apply (unmap_untouched_faults (mk_vmm (F := unit) st0 ∅ 0x9000 tt) (cow_space r) 0x400000 0x1000
    (mk_object 0x400000 0x1000 11 VM_FLAG_COW 0 0) [] _ Htr0); [reflexivity|reflexivity|].
  clear Htr0. vm_compute in E0. injection E0 as <- <-. vm_compute. reflexivity.
Defined.
