(* ===== verification/Device.v ===== *)
(** * Device numbers and the device tables

    kernel/sys/device.c and kernel/include/sys/device.h: the tables of
    character and block devices, hashed by major number.  A chain of devices
    only grows at its head, so a bucket is the list of its device addresses,
    newest first. *)

From stdpp Require Import base numbers list gmap.
From Stdlib Require Import ZArith Lia.
From S2P Require Import Prelude.

Definition make_dev (major minor : Z) : Z := Z.lor (u64 (Z.shiftl major 32)) minor.
Definition dev_major (dev : Z) : Z := Z.land (Z.shiftr dev 32) 0xFFFFFFFF.
Definition dev_minor (dev : Z) : Z := Z.land dev 0xFFFFFFFF.

(** [struct char_device] and [struct block_device]; the operation tables are
    named by address and the chain field is in the table. *)
Record device := mk_device { d_dev : Z; d_data : Z; d_fops : Z; d_bd_ops : Z }.

Record devices := mk_devices { dev_table : list (list Z); dev_at : gmap Z device }.

Definition devices_init : devices := mk_devices (replicate 256 []) ∅.

Definition dev_hash (dev : Z) : nat := Z.to_nat (dev_major dev mod 256).

(** [default_fops] and [default_bd_ops] are tables without operations. *)
Definition default_fops : Z := 0x10.
Definition default_bd_ops : Z := 0x20.

(** The new device, at the address that the heap returned, heads its chain. *)
Definition device_new (t : devices) (dev addr bd_ops : Z) : devices :=
  let hash := dev_hash dev in
  let chain := default [] (dev_table t !! hash) in
  mk_devices (<[hash := addr :: chain]> (dev_table t)) (<[addr := mk_device dev 0 default_fops bd_ops]> (dev_at t)).

Definition chardev_new (t : devices) (dev addr : Z) : devices := device_new t dev addr 0.
Definition blockdev_new (t : devices) (dev addr : Z) : devices := device_new t dev addr default_bd_ops.

(** The walk along a chain: the first device with the number, or null. *)
Fixpoint device_walk (at_ : gmap Z device) (chain : list Z) (dev : Z) : outcome Z :=
  match chain with
  | [] => Ok 0
  | cur :: chain =>
      let* d := deref (at_ !! cur) in
      if d_dev d =? dev then Ok cur else device_walk at_ chain dev
  end.

Definition chardev_lookup (t : devices) (dev : Z) : outcome Z :=
  device_walk (dev_at t) (default [] (dev_table t !! dev_hash dev)) dev.
Definition blockdev_lookup (t : devices) (dev : Z) : outcome Z :=
  device_walk (dev_at t) (default [] (dev_table t !! dev_hash dev)) dev.

#[global] Arguments dev_hash : simpl never.

(** ** Device numbers *)

(** A device number determines its major and minor numbers. *)
Lemma make_dev_parts major minor : 0 <= major < 2 ^ 32 -> 0 <= minor < 2 ^ 32 ->
  dev_major (make_dev major minor) = major /\ dev_minor (make_dev major minor) = minor.
Proof.
  intros Ha Hi. unfold make_dev, dev_major, dev_minor, u64. change 0xFFFFFFFF with (Z.ones 32).
  split; apply Z.bits_inj'; intros i Hi'; bits_rewrite; destruct (Z.ltb_spec i 32).
  - rewrite (testbit_small 32 minor), orb_false_r, andb_true_r by lia.
    destruct (Z.ltb_spec (i + 32) 64), (Z.leb_spec 32 (i + 32)); try lia. simpl. f_equal. lia.
  - by rewrite andb_false_r, (testbit_small 32 major) by lia.
  - destruct (Z.leb_spec 32 i); [lia|]. by rewrite andb_true_r, andb_false_r.
  - by rewrite andb_false_r, (testbit_small 32 minor) by lia.
Qed.

(** ** The tables *)

(** A table is well formed when it has 256 chains of live devices. *)
Definition devices_ok (t : devices) : Prop :=
  length (dev_table t) = 256%nat /\
  forall hash chain a, dev_table t !! hash = Some chain -> a ∈ chain -> is_Some (dev_at t !! a).

Lemma devices_init_ok : devices_ok devices_init.
Proof.
  split; [done|]. intros hash chain a Hc. apply lookup_replicate in Hc as [-> _]. set_solver.
Qed.

Lemma device_new_ok t dev addr ops : devices_ok t -> devices_ok (device_new t dev addr ops).
Proof.
  intros [Hl Hok]. unfold device_new. split; cbn [dev_table dev_at]; [rewrite length_insert; exact Hl|]. intros hash chain a Hc Ha.
  rewrite lookup_insert_is_Some. destruct (decide (addr = a)); [by left|right; split; [done|]].
  rewrite list_lookup_insert_Some in Hc. destruct Hc as [(-> & <- & _)|[_ Hc]]; [|exact (Hok _ _ _ Hc Ha)].
  apply elem_of_cons in Ha as [->|Ha]; [done|].
  revert Ha. destruct (dev_table t !! hash) as [l|] eqn:E; intros Ha; [exact (Hok _ _ _ E Ha)|by apply not_elem_of_nil in Ha].
Qed.

Lemma device_walk_total t hash chain dev : devices_ok t -> dev_table t !! hash = Some chain ->
  exists a, device_walk (dev_at t) chain dev = Ok a.
Proof.
  intros [_ Hok] Hc. assert (forall a, a ∈ chain -> is_Some (dev_at t !! a)) as Hlive by eauto.
  clear Hc Hok. induction chain as [|a chain IH]; [by eexists|]. simpl.
  destruct (Hlive a ltac:(set_solver)) as [d ->]. simpl. case_match; [by eexists|]. apply IH. set_solver.
Qed.

Lemma device_walk_insert at_ chain dev addr d : addr ∉ chain ->
  device_walk (<[addr := d]> at_) chain dev = device_walk at_ chain dev.
Proof.
  induction chain as [|a chain IH]; intros Hn; [done|]. simpl.
  rewrite lookup_insert_ne by set_solver. destruct (at_ !! a); simpl; [|done].
  rewrite IH by set_solver. done.
Qed.

(** A new device is found under its number, and no other number is affected. *)
Lemma device_lookup_new t dev addr dev' : devices_ok t -> dev_at t !! addr = None ->
  chardev_lookup (chardev_new t dev addr) dev' = if dev =? dev' then Ok addr else chardev_lookup t dev'.
Proof.
  intros [Hl Hok] Hf. unfold chardev_lookup, chardev_new, device_new. cbn [dev_table dev_at].
  assert (forall hash, addr ∉ default [] (dev_table t !! hash)) as Hn.
  { intros hash. destruct (dev_table t !! hash) as [l|] eqn:E; [|apply not_elem_of_nil].
    intros Hin. destruct (Hok hash l addr E Hin). congruence. }
  assert (dev_hash dev < 256)%nat as Hh.
  { unfold dev_hash. pose proof (Z.mod_pos_bound (dev_major dev) 256 ltac:(lia)). lia. }
  destruct (decide (dev_hash dev' = dev_hash dev)) as [E|E].
  - rewrite E, list_lookup_insert_eq by lia. cbn [from_option id device_walk]. rewrite lookup_insert_eq. cbn [deref outcome_bind d_dev].
    destruct (Z.eqb_spec dev dev'); [done|]. by rewrite device_walk_insert by apply Hn.
  - rewrite list_lookup_insert_ne by done. destruct (Z.eqb_spec dev dev'); [congruence|].
    by rewrite device_walk_insert by apply Hn.
Qed.
