(* ===== verification/Dcache.v ===== *)
(** * Vnodes, directory entries and the directory entry cache

    kernel/fs/vnode.c, kernel/fs/ventry.c and the data of the file layer
    (kernel/include/fs/vfs.h, vnode.h, ventry.h, ops.h, super.h, stat.h).

    Objects of the heap are named by address, 0 being null; an object that
    was freed is no longer in its map, and every use of its address is a
    fault.  [entries] holds the directory entries with their links: the hash
    chains of the cache are followed through [e_next] as the code does, the
    list of a directory's children is a list of addresses.  Operation tables
    ([iops], [fops], [sb_ops]) are addresses, interpreted by the tables of
    Lookup.v and Vfs.v.  The spin lock inside a reference lock is left out:
    each operation below runs under it in the code, and Sync.v shows what
    [reflock_release_or_lock] does to the count. *)

From stdpp Require Import base numbers list gmap sets.
From Stdlib Require Import ZArith Lia.
From S2P Require Import Prelude Sched Device.

(** ** Data *)

Definition S_IFMT : Z := 0xF000.
Definition S_IFDIR : Z := 0x4000.
Definition S_IFCHR : Z := 0x2000.
Definition S_IFBLK : Z := 0x6000.
Definition S_IFREG : Z := 0x8000.
Definition S_IFSOCK : Z := 0xC000.
Definition S_IFIFO : Z := 0x1000.

Definition S_ISREG (flags : Z) : bool := Z.land flags S_IFMT =? S_IFREG.
Definition S_ISDIR (flags : Z) : bool := Z.land flags S_IFMT =? S_IFDIR.
Definition S_ISBLK (flags : Z) : bool := Z.land flags S_IFMT =? S_IFBLK.
Definition S_ISCHR (flags : Z) : bool := Z.land flags S_IFMT =? S_IFCHR.
Definition S_ISSOCK (flags : Z) : bool := Z.land flags S_IFMT =? S_IFSOCK.
Definition S_ISFIFO (flags : Z) : bool := Z.land flags S_IFMT =? S_IFIFO.

Record vnode := mk_vnode {
  n_mode : Z;
  n_size : Z;
  n_uid : Z;
  n_gid : Z;
  n_dev : Z;
  n_nlink : Z;
  n_ref : Z;
  n_data : Z;
  n_iops : Z;
  n_fops : Z;
}.

Definition set_n_size (v : Z) (n : vnode) : vnode :=
  mk_vnode (n_mode n) v (n_uid n) (n_gid n) (n_dev n) (n_nlink n) (n_ref n) (n_data n) (n_iops n) (n_fops n).
Definition set_n_uid (v : Z) (n : vnode) : vnode :=
  mk_vnode (n_mode n) (n_size n) v (n_gid n) (n_dev n) (n_nlink n) (n_ref n) (n_data n) (n_iops n) (n_fops n).
Definition set_n_gid (v : Z) (n : vnode) : vnode :=
  mk_vnode (n_mode n) (n_size n) (n_uid n) v (n_dev n) (n_nlink n) (n_ref n) (n_data n) (n_iops n) (n_fops n).
Definition set_n_dev (v : Z) (n : vnode) : vnode :=
  mk_vnode (n_mode n) (n_size n) (n_uid n) (n_gid n) v (n_nlink n) (n_ref n) (n_data n) (n_iops n) (n_fops n).
Definition set_n_nlink (v : Z) (n : vnode) : vnode :=
  mk_vnode (n_mode n) (n_size n) (n_uid n) (n_gid n) (n_dev n) v (n_ref n) (n_data n) (n_iops n) (n_fops n).
Definition set_n_ref (v : Z) (n : vnode) : vnode :=
  mk_vnode (n_mode n) (n_size n) (n_uid n) (n_gid n) (n_dev n) (n_nlink n) v (n_data n) (n_iops n) (n_fops n).
Definition set_n_data (v : Z) (n : vnode) : vnode :=
  mk_vnode (n_mode n) (n_size n) (n_uid n) (n_gid n) (n_dev n) (n_nlink n) (n_ref n) v (n_iops n) (n_fops n).
Definition set_n_iops (v : Z) (n : vnode) : vnode :=
  mk_vnode (n_mode n) (n_size n) (n_uid n) (n_gid n) (n_dev n) (n_nlink n) (n_ref n) (n_data n) v (n_fops n).
Definition set_n_fops (v : Z) (n : vnode) : vnode :=
  mk_vnode (n_mode n) (n_size n) (n_uid n) (n_gid n) (n_dev n) (n_nlink n) (n_ref n) (n_data n) (n_iops n) v.

Definition FS_FLAG_NODEV : Z := 1.

Record filesystem := mk_filesystem { fs_name : list Z; fs_flags : Z; fs_iops : Z; fs_fops : Z; fs_sb_ops : Z }.
Record superblock := mk_superblock { sb_fs : filesystem; sb_bdev : Z; sb_data : Z }.

(** A mount never changes after its creation, so its users carry its value. *)
Record mount := mk_mount { m_fs : filesystem; m_sb : superblock; m_mountpoint : Z }.

(** [e_name] is the string in [name[64]], whose unused bytes are zero. *)
Record ventry := mk_ventry {
  e_name : list Z;
  e_node : Z;
  e_parent : Z;
  e_children : list Z;
  e_next : Z;
  e_mount : option mount;
  e_ref : Z;
}.

Definition set_e_node (v : Z) (e : ventry) : ventry :=
  mk_ventry (e_name e) v (e_parent e) (e_children e) (e_next e) (e_mount e) (e_ref e).
Definition set_e_parent (v : Z) (e : ventry) : ventry :=
  mk_ventry (e_name e) (e_node e) v (e_children e) (e_next e) (e_mount e) (e_ref e).
Definition set_e_children (v : list Z) (e : ventry) : ventry :=
  mk_ventry (e_name e) (e_node e) (e_parent e) v (e_next e) (e_mount e) (e_ref e).
Definition set_e_next (v : Z) (e : ventry) : ventry :=
  mk_ventry (e_name e) (e_node e) (e_parent e) (e_children e) v (e_mount e) (e_ref e).
Definition set_e_mount (v : option mount) (e : ventry) : ventry :=
  mk_ventry (e_name e) (e_node e) (e_parent e) (e_children e) (e_next e) v (e_ref e).
Definition set_e_ref (v : Z) (e : ventry) : ventry :=
  mk_ventry (e_name e) (e_node e) (e_parent e) (e_children e) (e_next e) (e_mount e) v.

Record file_descriptor := mk_fd {
  f_pos : Z;
  f_inode : Z;
  f_path : Z;
  f_fs_id : Z;
  f_refcount : Z;
}.

Definition set_f_pos (v : Z) (f : file_descriptor) : file_descriptor :=
  mk_fd v (f_inode f) (f_path f) (f_fs_id f) (f_refcount f).
Definition set_f_refcount (v : Z) (f : file_descriptor) : file_descriptor :=
  mk_fd (f_pos f) (f_inode f) (f_path f) (f_fs_id f) v.

(** The state of the file layer: the static data of vfs.c, ventry.c, device.c
    and filesystem.c, the objects of the heap, the current task and the
    private data [D] of the file systems.  [brk] is the address of the next
    heap object. *)
Section state.
Context {D : Type}.

Record vfs := mk_vfs {
  nodes : gmap Z vnode;
  entries : gmap Z ventry;
  hash_table : list Z;
  root_node : Z;
  mounts : list mount;
  open_files : list file_descriptor;
  filesystems : list filesystem;
  char_devices : devices;
  block_devices : devices;
  cur_task : option task;
  brk : Z;
  priv : D;
}.

Definition set_nodes (v : gmap Z vnode) (s : vfs) : vfs :=
  mk_vfs v (entries s) (hash_table s) (root_node s) (mounts s) (open_files s) (filesystems s) (char_devices s) (block_devices s) (cur_task s) (brk s) (priv s).
Definition set_entries (v : gmap Z ventry) (s : vfs) : vfs :=
  mk_vfs (nodes s) v (hash_table s) (root_node s) (mounts s) (open_files s) (filesystems s) (char_devices s) (block_devices s) (cur_task s) (brk s) (priv s).
Definition set_hash_table (v : list Z) (s : vfs) : vfs :=
  mk_vfs (nodes s) (entries s) v (root_node s) (mounts s) (open_files s) (filesystems s) (char_devices s) (block_devices s) (cur_task s) (brk s) (priv s).
Definition set_root_node (v : Z) (s : vfs) : vfs :=
  mk_vfs (nodes s) (entries s) (hash_table s) v (mounts s) (open_files s) (filesystems s) (char_devices s) (block_devices s) (cur_task s) (brk s) (priv s).
Definition set_mounts (v : list mount) (s : vfs) : vfs :=
  mk_vfs (nodes s) (entries s) (hash_table s) (root_node s) v (open_files s) (filesystems s) (char_devices s) (block_devices s) (cur_task s) (brk s) (priv s).
Definition set_open_files (v : list file_descriptor) (s : vfs) : vfs :=
  mk_vfs (nodes s) (entries s) (hash_table s) (root_node s) (mounts s) v (filesystems s) (char_devices s) (block_devices s) (cur_task s) (brk s) (priv s).
Definition set_filesystems (v : list filesystem) (s : vfs) : vfs :=
  mk_vfs (nodes s) (entries s) (hash_table s) (root_node s) (mounts s) (open_files s) v (char_devices s) (block_devices s) (cur_task s) (brk s) (priv s).
Definition set_cur_task (v : option task) (s : vfs) : vfs :=
  mk_vfs (nodes s) (entries s) (hash_table s) (root_node s) (mounts s) (open_files s) (filesystems s) (char_devices s) (block_devices s) v (brk s) (priv s).
Definition set_brk (v : Z) (s : vfs) : vfs :=
  mk_vfs (nodes s) (entries s) (hash_table s) (root_node s) (mounts s) (open_files s) (filesystems s) (char_devices s) (block_devices s) (cur_task s) v (priv s).
Definition set_priv (v : D) (s : vfs) : vfs :=
  mk_vfs (nodes s) (entries s) (hash_table s) (root_node s) (mounts s) (open_files s) (filesystems s) (char_devices s) (block_devices s) (cur_task s) (brk s) v.

Definition get_node (s : vfs) (n : Z) : outcome vnode := deref (nodes s !! n).
Definition get_entry (s : vfs) (e : Z) : outcome ventry := deref (entries s !! e).
Definition put_node (n : Z) (v : vnode) (s : vfs) : vfs := set_nodes (<[n := v]> (nodes s)) s.
Definition put_entry (e : Z) (v : ventry) (s : vfs) : vfs := set_entries (<[e := v]> (entries s)) s.

(** [kmalloc]: an address at which no object lies. *)
Definition fs_alloc (s : vfs) : Z * vfs := (brk s, set_brk (brk s + 16) s).

(** ** vnode.c *)

Definition vnode_new (s : vfs) (mode : Z) : Z * vfs :=
  let '(node, s) := fs_alloc s in
  (node, put_node node (mk_vnode mode 0 0 0 0 0 0 0 0 0) s).

(** [socket_put] of net/socket.c, which acts on the private data. *)
Context (socket_put : D -> Z -> outcome D).

Definition vnode_free (s : vfs) (node : Z) : outcome vfs :=
  let* n := get_node s node in
  let* s :=
    if S_ISSOCK (n_mode n) then let* d := socket_put (priv s) (n_data n) in Ok (set_priv d s) else Ok s in
  Ok (set_nodes (delete node (nodes s)) s).

Definition vnode_ref (s : vfs) (node : Z) : outcome vfs :=
  let* n := get_node s node in
  Ok (put_node node (set_n_ref (u32 (n_ref n + 1)) n) s).

Definition vnode_put (s : vfs) (node : Z) : outcome vfs :=
  let* n := get_node s node in
  let cur_refcnt := n_ref n in
  let s := put_node node (set_n_ref (u32 (n_ref n - 1)) n) s in
  if (cur_refcnt <=? 1) && (n_nlink n =? 0) then vnode_free s node else Ok s.

(** ** ventry.c: the cache *)

(** A [char] is signed, so its conversion to [uint64_t] extends the sign. *)
Definition hash_step (hash c : Z) : Z := u64 (Z.lxor hash (u64 (s8 c)) * 0x100000001b3).

Definition dcache_hash (parent : Z) (name : list Z) : nat :=
  Z.to_nat (Z.lxor (foldl hash_step 0xcbf29ce484222325 name) parent mod 1024).

(** The comparison of [dcache_get] between the array of an entry and a name:
    [name[len] == '\0'] reads outside the array when [len] is 64 or more. *)
Definition name_match (array name : list Z) : outcome bool :=
  let len := length name in
  if (64 <=? len)%nat then Fault
  else Ok ((nth len array 0 =? 0) && bool_decide (take len (array ++ replicate 64 0) = name)).

Fixpoint dcache_walk (fuel : nat) (s : vfs) (cur parent : Z) (name : list Z) : outcome Z :=
  if cur =? 0 then Ok 0
  else match fuel with
  | O => OutOfFuel
  | S fuel =>
      let* e := get_entry s cur in
      let* found := if e_parent e =? parent then name_match (e_name e) name else Ok false in
      if found then Ok cur else dcache_walk fuel s (e_next e) parent name
  end.

(** A chain of distinct live entries is no longer than the number of entries. *)
Definition dcache_fuel (s : vfs) : nat := size (entries s).

Definition dcache_get (s : vfs) (parent : Z) (name : list Z) : outcome Z :=
  let* head := deref (hash_table s !! dcache_hash parent name) in
  dcache_walk (dcache_fuel s) s head parent name.

Definition dcache_insert (s : vfs) (ventry : Z) : outcome vfs :=
  let* e := get_entry s ventry in
  let hash := dcache_hash (e_parent e) (e_name e) in
  let* head := deref (hash_table s !! hash) in
  let s := put_entry ventry (set_e_next head e) s in
  Ok (set_hash_table (<[hash := ventry]> (hash_table s)) s).

(** [cur] points to the table cell ([prev = 0]) or to the [next] field of [prev]. *)
Definition write_link (s : vfs) (hash : nat) (prev target : Z) : outcome vfs :=
  if prev =? 0 then Ok (set_hash_table (<[hash := target]> (hash_table s)) s)
  else let* p := get_entry s prev in Ok (put_entry prev (set_e_next target p) s).

Fixpoint remove_walk (fuel : nat) (s : vfs) (hash : nat) (prev cur ventry : Z) : outcome vfs :=
  if cur =? 0 then Ok s
  else match fuel with
  | O => OutOfFuel
  | S fuel =>
      let* e := get_entry s cur in
      if cur =? ventry then
        let* s := write_link s hash prev (e_next e) in
        let* e := get_entry s ventry in
        Ok (put_entry ventry (set_e_next 0 e) s)
      else remove_walk fuel s hash cur (e_next e) ventry
  end.

Definition dcache_remove (s : vfs) (ventry : Z) : outcome vfs :=
  let* e := get_entry s ventry in
  let hash := dcache_hash (e_parent e) (e_name e) in
  let* head := deref (hash_table s !! hash) in
  remove_walk (dcache_fuel s) s hash 0 head ventry.

(** ** ventry.c: entries *)

(** The string left in [name[64]]: without a NUL among the 64 bytes that
    [strncpy] copies, [strlen] reads outside the array. *)
Definition entry_name (name : list Z) : outcome (list Z) :=
  if (64 <=? length name)%nat then Fault
  else Ok (if (1 <? length name)%nat && (nth (length name - 1) name 0 =? 47)
           then take (length name - 1) name else name).

Definition ventry_new (s : vfs) (name : list Z) (node : Z) : outcome (Z * vfs) :=
  let '(ventry, s) := fs_alloc s in
  let* name := entry_name name in
  let* n := get_node s node in
  let s := put_node node (set_n_nlink (u64 (n_nlink n + 1)) n) s in
  Ok (ventry, put_entry ventry (mk_ventry name node 0 [] 0 None 0) s).

Definition ventry_free (s : vfs) (ventry : Z) : vfs := set_entries (delete ventry (entries s)) s.

Definition ventry_ref (s : vfs) (ventry : Z) : outcome vfs :=
  let* e := get_entry s ventry in
  Ok (put_entry ventry (set_e_ref (u32 (e_ref e + 1)) e) s).

Definition ventry_put (s : vfs) (ventry : Z) : outcome vfs :=
  let* e := get_entry s ventry in
  let released := negb (1 <? e_ref e) in
  let s := put_entry ventry (set_e_ref (u32 (e_ref e - 1)) e) s in
  if released && (e_node e =? 0) then
    let* s := dcache_remove s ventry in
    Ok (ventry_free s ventry)
  else Ok s.

End state.
Arguments vfs D : clear implicits.
#[global] Arguments dcache_hash : simpl never.
#[global] Arguments name_match : simpl never.

(** ** The cache as a set of entries *)

Section dcache.
Context {D : Type}.
Implicit Types (s : vfs D) (m : gmap Z ventry).

(** The state without the links of the cache. *)
Definition erase_links (s : vfs D) : vfs D :=
  set_hash_table [] (set_entries (set_e_next 0 <$> entries s) s).

(** Two states with the same files, directories and references. *)
Definition same_tree (s s' : vfs D) : Prop := erase_links s = erase_links s'.

(** A name as the entries hold it: a string of fewer than 64 bytes. *)
Definition name_ok (name : list Z) : Prop := (length name < 64)%nat /\ 0 ∉ name.

(** The entries [l] linked from address [a]. *)
Fixpoint dchain (m : gmap Z ventry) (a : Z) (l : list Z) : Prop :=
  match l with
  | [] => a = 0
  | x :: l => a = x /\ x <> 0 /\ exists e, m !! x = Some e /\ dchain m (e_next e) l
  end.

Definition in_bucket (m : gmap Z ventry) (hash : nat) (x : Z) : Prop :=
  exists e, m !! x = Some e /\ dcache_hash (e_parent e) (e_name e) = hash /\ name_ok (e_name e).

Definition bucket_ok (s : vfs D) (hash : nat) (l : list Z) : Prop :=
  (exists a, hash_table s !! hash = Some a /\ dchain (entries s) a l) /\
  NoDup l /\ Forall (in_bucket (entries s) hash) l.

(** [dcache_rep s C]: the cache of [s] holds the entries [C]. *)
Definition dcache_rep (s : vfs D) (C : gset Z) : Prop :=
  length (hash_table s) = 1024%nat /\
  exists B : nat -> list Z,
    (forall hash, (hash < 1024)%nat -> bucket_ok s hash (B hash)) /\
    forall x, x ∈ C <-> exists hash, (hash < 1024)%nat /\ x ∈ B hash.

(** The answer of the cache for a key. *)
Definition found (s : vfs D) (C : gset Z) (parent : Z) (name : list Z) (r : Z) : Prop :=
  (r = 0 /\ forall x e, x ∈ C -> entries s !! x = Some e -> ~ (e_parent e = parent /\ e_name e = name)) \/
  (r ∈ C /\ exists e, entries s !! r = Some e /\ e_parent e = parent /\ e_name e = name).

Lemma dcache_hash_lt parent name : (dcache_hash parent name < 1024)%nat.
Proof.
  unfold dcache_hash.
  pose proof (Z.mod_pos_bound (Z.lxor (foldl hash_step 0xcbf29ce484222325 name) parent) 1024 ltac:(lia)). lia.
Qed.

Lemma name_match_spec array name : name_ok array -> name_ok name ->
  name_match array name = Ok (bool_decide (array = name)).
Proof.
  intros [Ha Hza] [Hn Hzn]. unfold name_match. destruct (Nat.leb_spec 64 (length name)); [lia|]. f_equal.
  destruct (decide (array = name)) as [->|Hne].
  - rewrite nth_overflow by lia. rewrite take_app_length. by rewrite !bool_decide_eq_true_2.
  - rewrite (bool_decide_eq_false_2 (array = name)) by done. apply andb_false_iff.
    destruct (le_lt_dec (length array) (length name)) as [Hle|Hlt].
    + right. apply bool_decide_eq_false_2. intros E. rewrite take_app_ge in E by done.
      destruct (length name - length array)%nat eqn:Hd.
      * rewrite take_0, app_nil_r in E. done.
      * apply Hzn. rewrite <- E. simpl. set_solver.
    + left. apply Z.eqb_neq. intros E. apply Hza. rewrite <- E.
      apply list_elem_of_In. by apply nth_In.
Qed.

Lemma dchain_ext m m' a l : dchain m a l -> (forall x, x ∈ l -> m' !! x = m !! x) -> dchain m' a l.
Proof.
  revert a. induction l as [|x l IH]; intros a; [done|]. simpl. intros (-> & Hx & e & He & Hc) Hext.
  split; [done|]. split; [done|]. exists e. rewrite Hext by set_solver. split; [done|]. apply IH; [done|]. set_solver.
Qed.

Lemma dchain_live m a l x : dchain m a l -> x ∈ l -> is_Some (m !! x) /\ x <> 0.
Proof.
  revert a. induction l as [|y l IH]; intros a; [set_solver|]. simpl. intros (-> & Hy & e & He & Hc) Hx.
  apply elem_of_cons in Hx as [->|Hx]; [by rewrite He|]. by eapply IH.
Qed.

Lemma dchain_length m a l : dchain m a l -> NoDup l -> (length l <= size m)%nat.
Proof.
  intros Hc Hnd. rewrite <- size_dom, <- (size_list_to_set (C := gset Z)) by done.
  apply subseteq_size. intros x Hx. apply elem_of_dom. apply elem_of_list_to_set in Hx. by eapply dchain_live.
Qed.

Lemma dcache_walk_spec s parent name fuel : name_ok name ->
  forall l a, dchain (entries s) a l -> (length l <= fuel)%nat ->
  (forall x, x ∈ l -> exists e, entries s !! x = Some e /\ name_ok (e_name e)) ->
  exists r, dcache_walk fuel s a parent name = Ok r /\ found s (list_to_set l) parent name r.
Proof.
  intros Hname. induction fuel as [|fuel IH]; intros l a Hc Hf Hok; destruct l as [|x l]; simpl in Hf; try lia.
  1,2: simpl in Hc; subst a; exists 0; split; [done|left; split; [done|set_solver]].
  destruct Hc as (-> & Hx & e & He & Hc). simpl. destruct (Z.eqb_spec x 0); [done|].
  unfold get_entry. rewrite He. simpl.
  destruct (Hok x ltac:(set_solver)) as (e' & He' & Hno). simplify_eq.
  assert ((if e_parent e =? parent then name_match (e_name e) name else Ok false) =
    Ok (bool_decide (e_parent e = parent /\ e_name e = name))) as ->.
  { destruct (Z.eqb_spec (e_parent e) parent).
    - rewrite name_match_spec by done. f_equal. apply bool_decide_ext. naive_solver.
    - f_equal. symmetry. apply bool_decide_eq_false_2. naive_solver. }
  simpl. case_bool_decide as Hm; simpl.
  - exists x. split; [done|right]. split; [set_solver|]. by exists e.
  - destruct (IH l (e_next e) Hc ltac:(lia)) as (r & Hr & Hfound); [set_solver|].
    exists r. split; [done|]. destruct Hfound as [[-> Hn]|[Hr' Hn]]; [left|right].
    + split; [done|]. intros y ey Hy Hey. apply elem_of_union in Hy as [Hy|Hy]; [|by eapply Hn].
      apply elem_of_singleton in Hy as ->. by simplify_eq.
    + split; [set_solver|done].
Qed.

Lemma in_bucket_hash m h h' x : in_bucket m h x -> in_bucket m h' x -> h = h'.
Proof. intros (e & He & <- & _) (e' & He' & <- & _). by simplify_eq. Qed.

(** A key is searched in its own bucket only. *)
Lemma found_bucket s C (B : nat -> list Z) parent name r :
  (forall hash, (hash < 1024)%nat -> bucket_ok s hash (B hash)) ->
  (forall x, x ∈ C <-> exists hash, (hash < 1024)%nat /\ x ∈ B hash) ->
  found s (list_to_set (B (dcache_hash parent name))) parent name r -> found s C parent name r.
Proof.
  intros HB HC [[-> Hn]|[Hr Hn]].
  - left. split; [done|]. intros x e Hx He [<- <-]. apply HC in Hx as (h & Hh & Hx).
    destruct (HB h Hh) as (_ & _ & Hin). rewrite Forall_forall in Hin.
    destruct (Hin x Hx) as (e' & He' & <- & _). simplify_eq.
    eapply Hn; [by apply elem_of_list_to_set|done|done].
  - right. split; [|done]. apply HC. exists (dcache_hash parent name).
    split; [apply dcache_hash_lt|]. by apply elem_of_list_to_set in Hr.
Qed.

Lemma dcache_get_spec s C parent name : dcache_rep s C -> name_ok name ->
  exists r, dcache_get s parent name = Ok r /\ found s C parent name r.
Proof.
  intros (_ & B & HB & HC) Hname. unfold dcache_get.
  destruct (HB _ (dcache_hash_lt parent name)) as ((a & -> & Hc) & Hnd & Hin). simpl.
  destruct (dcache_walk_spec s parent name (dcache_fuel s) Hname _ _ Hc) as (r & Hr & Hf).
  - by eapply dchain_length.
  - intros x Hx. rewrite Forall_forall in Hin. destruct (Hin x Hx) as (e & He & _ & Hok). by exists e.
  - exists r. split; [done|]. by eapply found_bucket.
Qed.

(** A state of the cache after a change of links in one bucket. *)
Lemma dcache_rep_update s s' (C C' : gset Z) hash (l l' : list Z) (B : nat -> list Z) :
  length (hash_table s) = 1024%nat ->
  (forall hash, (hash < 1024)%nat -> bucket_ok s hash (B hash)) ->
  (forall x, x ∈ C <-> exists hash, (hash < 1024)%nat /\ x ∈ B hash) ->
  (hash < 1024)%nat -> B hash = l ->
  (exists a, hash_table s' = <[hash := a]> (hash_table s) /\ dchain (entries s') a l') ->
  (forall x, x ∉ l -> x ∉ l' -> entries s' !! x = entries s !! x) ->
  NoDup l' -> Forall (in_bucket (entries s') hash) l' ->
  (forall x, x ∈ l' -> x ∈ l \/ x ∉ C) ->
  (forall x, x ∈ C' <-> x ∈ l' \/ (x ∈ C /\ x ∉ l)) -> dcache_rep s' C'.
Proof.
  intros Hlen HB HC Hh <- (a & Ht & Hc) Hext Hnd Hin Hl' HC'. split; [by rewrite Ht, length_insert|].
  assert (forall h x, (h < 1024)%nat -> h <> hash -> x ∈ B h -> (x ∉ B hash) /\ (x ∉ l')) as Hsep.
  { intros h x Hh' Hne Hx. destruct (HB h Hh') as (_ & _ & Hb1). destruct (HB hash Hh) as (_ & _ & Hb2).
    rewrite Forall_forall in Hb1, Hb2. assert (x ∉ B hash) as Hnot.
    { intros Hx'. apply Hne. eapply in_bucket_hash; [by apply Hb1|by apply Hb2]. }
    split; [done|]. intros Hx'. destruct (Hl' x Hx') as [?|Hn]; [done|]. apply Hn. apply HC. by exists h. }
  exists (fun h => if decide (h = hash) then l' else B h). split.
  - intros h Hh'. case_decide as E; [subst h|].
    + split; [|done]. exists a. by rewrite Ht, list_lookup_insert_eq by lia.
    + destruct (HB h Hh') as ((b & Hb & Hcb) & Hndb & Hinb). split; [|split; [done|]].
      * exists b. rewrite Ht, list_lookup_insert_ne by done. split; [done|].
        eapply dchain_ext; [done|]. intros x Hx. apply Hext; by eapply Hsep.
      * apply Forall_forall. intros x Hx. rewrite Forall_forall in Hinb.
        destruct (Hinb x Hx) as (e & He & Hrest). exists e. split; [|done].
        rewrite Hext; [done| |]; by eapply Hsep.
  - intros x. rewrite HC'. split.
    + intros [Hx|[Hx Hn]]; [exists hash; by rewrite decide_True|].
      apply HC in Hx as (h & Hh' & Hx). exists h. split; [done|]. rewrite decide_False by congruence. done.
    + intros (h & Hh' & Hx). case_decide as E; [by left|right]. split; [|by eapply Hsep]. apply HC. by exists h.
Qed.

Lemma erase_put_next s x e a : entries s !! x = Some e -> same_tree s (put_entry x (set_e_next a e) s).
Proof.
  intros He. unfold same_tree, erase_links, put_entry, set_entries, set_hash_table. simpl. f_equal.
  rewrite fmap_insert. symmetry. apply insert_id. rewrite lookup_fmap, He. by destruct e.
Qed.

Lemma same_tree_table s t : same_tree s (set_hash_table t s).
Proof. done. Qed.

#[global] Instance same_tree_equiv : Equivalence same_tree.
Proof. split; unfold same_tree; [by intros ?|by intros ??|intros ???; congruence]. Qed.

Lemma dcache_insert_spec s C x e : dcache_rep s C -> entries s !! x = Some e -> name_ok (e_name e) ->
  x ∉ C -> x <> 0 ->
  exists s', dcache_insert s x = Ok s' /\ dcache_rep s' ({[x]} ∪ C) /\ same_tree s s' /\
    dcache_get s' (e_parent e) (e_name e) = Ok x.
Proof.
  intros (Hlen & B & HB & HC) He Hok Hx Hx0. unfold dcache_insert, get_entry. rewrite He. cbn [deref outcome_bind].
  set (hash := dcache_hash (e_parent e) (e_name e)). assert (hash < 1024)%nat as Hh by apply dcache_hash_lt.
  destruct (HB hash Hh) as ((a & Ha & Hc) & Hnd & Hin). rewrite Ha. cbn [deref outcome_bind].
  set (s' := set_hash_table _ _). exists s'.
  assert (x ∉ B hash) as HxB by (intros ?; apply Hx, HC; by exists hash).
  assert (entries s' !! x = Some (set_e_next a e)) as He' by apply lookup_insert_eq.
  assert (dchain (entries s') x (x :: B hash)) as Hc'.
  { split; [done|]. split; [done|]. exists (set_e_next a e). split; [done|]. simpl.
    eapply dchain_ext; [done|]. intros y Hy. apply lookup_insert_ne. set_solver. }
  split; [done|]. split; [|split].
  - eapply (dcache_rep_update s s' C _ hash (B hash) (x :: B hash) B); try done.
    + by exists x.
    + intros y Hy1 Hy2. apply lookup_insert_ne. set_solver.
    + by apply NoDup_cons.
    + apply Forall_cons. split; [by exists (set_e_next a e)|].
      apply Forall_forall. intros y Hy. rewrite Forall_forall in Hin. destruct (Hin y Hy) as (ey & Hey & Hrest).
      exists ey. split; [|done]. rewrite <- Hey. apply lookup_insert_ne. set_solver.
    + intros y Hy. apply elem_of_cons in Hy as [->|Hy]; [by right|by left].
    + intros y. rewrite elem_of_union, elem_of_singleton, elem_of_cons. split; [|set_solver].
      intros [->|Hy]; [by left; left|]. destruct (decide (y ∈ B hash)); [by left; right|by right].
  - unfold s'. etransitivity; [by apply (erase_put_next s x e a)|apply same_tree_table].
  - unfold dcache_get. fold hash. cbn [hash_table s' set_hash_table].
    rewrite list_lookup_insert_eq by (change (hash < length (hash_table s))%nat; by rewrite Hlen). cbn [deref outcome_bind].
    destruct (dcache_fuel s') as [|fuel] eqn:Hf.
    + apply dchain_length in Hc'; [|by apply NoDup_cons]. unfold dcache_fuel in Hf. rewrite Hf in Hc'. simpl in Hc'. lia.
    + simpl. destruct (Z.eqb_spec x 0); [done|]. unfold get_entry. rewrite He'. simpl.
      rewrite Z.eqb_refl, name_match_spec by done. simpl. by rewrite bool_decide_eq_true_2.
Qed.

Lemma filter_neq_id (x : Z) (l : list Z) : x ∉ l -> filter (fun y => y <> x) l = l.
Proof.
  induction l as [|y l IH]; intros Hn; [done|]. rewrite filter_cons_True by set_solver. f_equal. apply IH. set_solver.
Qed.

Lemma remove_walk_spec hash x fuel : forall l s prev cur, dchain (entries s) cur l -> NoDup l ->
  (length l <= fuel)%nat -> (prev ∉ l) -> prev <> x ->
  (prev = 0 -> hash_table s !! hash = Some cur) ->
  (prev <> 0 -> exists p, entries s !! prev = Some p /\ e_next p = cur) ->
  exists s' a, remove_walk fuel s hash prev cur x = Ok s' /\ same_tree s s' /\
    dchain (entries s') a (filter (fun y => y <> x) l) /\
    (if decide (prev = 0) then hash_table s' = <[hash := a]> (hash_table s)
     else hash_table s' = hash_table s /\ entries s' !! prev = set_e_next a <$> entries s !! prev) /\
    (forall y, y ∉ l -> (prev <> 0 -> y <> prev) -> entries s' !! y = entries s !! y).
Proof.
  induction fuel as [|fuel IH]; intros l s prev cur Hc Hnd Hf Hp Hpx Ht He; destruct l as [|y l]; simpl in Hf; try lia.
  1,2: simpl in Hc; subst cur; exists s, 0; split; [done|]; split; [done|]; split; [done|]; split; [|done];
    case_decide as Hz; [symmetry; apply list_insert_id; auto|split; [done|]];
    destruct (He Hz) as (p & -> & E); simpl; rewrite <- E; by destruct p.
  destruct Hc as (-> & Hy & e & Hey & Hc). apply NoDup_cons in Hnd as [Hyl Hnd]. simpl.
  destruct (Z.eqb_spec y 0); [done|]. unfold get_entry at 1. rewrite Hey. cbn [deref outcome_bind].
  destruct (Z.eqb_spec y x) as [->|Hyx].
  - rewrite filter_cons_False, filter_neq_id by naive_solver. unfold write_link.
    destruct (Z.eqb_spec prev 0) as [->|Hp0]; cbn [outcome_bind].
    + unfold get_entry. cbn [entries set_hash_table]. rewrite Hey. cbn [deref outcome_bind].
      exists (put_entry x (set_e_next 0 e) (set_hash_table (<[hash := e_next e]> (hash_table s)) s)), (e_next e).
      split; [done|]. split; [by apply (erase_put_next (set_hash_table _ s))|].
      split; [eapply dchain_ext; [done|]; intros z Hz; apply lookup_insert_ne; set_solver|].
      split; [by rewrite decide_True|]. intros z Hz Hz'. apply lookup_insert_ne. set_solver.
    + destruct (He Hp0) as (p & Hpe & Hpn). unfold get_entry. rewrite Hpe. cbn [deref outcome_bind].
      cbn [entries put_entry set_entries]. rewrite lookup_insert_ne, Hey by done. cbn [deref outcome_bind].
      exists (put_entry x (set_e_next 0 e) (put_entry prev (set_e_next (e_next e) p) s)), (e_next e).
      split; [done|]. split; [|split; [|split]].
      * etransitivity; [by apply (erase_put_next s prev p (e_next e))|]. apply erase_put_next.
        by apply lookup_insert_Some; right.
      * eapply dchain_ext; [done|]. intros z Hz. cbn [entries put_entry set_entries].
        rewrite !lookup_insert_ne; set_solver.
      * rewrite decide_False by done. split; [done|]. cbn [entries put_entry set_entries].
        by rewrite lookup_insert_ne, lookup_insert_eq by done.
      * intros z Hz Hz'. cbn [entries put_entry set_entries]. rewrite !lookup_insert_ne; set_solver.
  - rewrite filter_cons_True by done.
    destruct (IH l s y (e_next e) Hc Hnd ltac:(lia) Hyl Hyx) as (s' & a & Hr & Hs & Hc' & Hcell & Hext); [done|by exists e|].
    rewrite decide_False in Hcell by done. destruct Hcell as [Htab Hya].
    exists s', y. split; [done|]. split; [done|]. split.
    { split; [done|]. split; [done|]. rewrite Hya, Hey. simpl. by eexists. }
    split; [|intros z Hz Hz'; apply Hext; set_solver].
    case_decide as Hz; [rewrite Htab; symmetry; apply list_insert_id; auto|]. split; [done|].
    rewrite Hext by set_solver. destruct (He Hz) as (p & -> & <-). by destruct p.
Qed.

Lemma dcache_remove_spec s C x e : dcache_rep s C -> entries s !! x = Some e -> name_ok (e_name e) -> x <> 0 ->
  exists s', dcache_remove s x = Ok s' /\ dcache_rep s' (C ∖ {[x]}) /\ same_tree s s'.
Proof.
  intros (Hlen & B & HB & HC) He Hok Hx0. unfold dcache_remove, get_entry. rewrite He. cbn [deref outcome_bind].
  set (hash := dcache_hash (e_parent e) (e_name e)). assert (hash < 1024)%nat as Hh by apply dcache_hash_lt.
  destruct (HB hash Hh) as ((a & Ha & Hc) & Hnd & Hin). rewrite Ha. cbn [deref outcome_bind].
  destruct (remove_walk_spec hash x (dcache_fuel s) (B hash) s 0 a) as (s' & a' & Hr & Hs & Hc' & Ht & Hext); try done.
  { by eapply dchain_length. }
  { intros H0. by destruct (dchain_live _ _ _ _ Hc H0). }
  exists s'. split; [done|]. split; [|done]. rewrite decide_True in Ht by done.
  assert (forall y ey, entries s !! y = Some ey -> exists ey', entries s' !! y = Some ey' /\
    e_parent ey' = e_parent ey /\ e_name ey' = e_name ey) as Hkeep.
  { intros y ey Hey. unfold same_tree, erase_links in Hs. apply (f_equal entries) in Hs. simpl in Hs.
    apply (f_equal (lookup y)) in Hs. rewrite !lookup_fmap, Hey in Hs. simpl in Hs.
    destruct (entries s' !! y) as [ey'|]; [|done]. simpl in Hs. exists ey'. split; [done|]. by injection Hs. }
  eapply (dcache_rep_update s s' C _ hash (B hash) (filter (fun y => y <> x) (B hash)) B); try done.
  - by exists a'.
  - intros y Hy _. by apply Hext.
  - by apply NoDup_filter.
  - apply Forall_forall. intros y Hy. apply list_elem_of_filter in Hy as [_ Hy].
    rewrite Forall_forall in Hin. destruct (Hin y Hy) as (ey & Hey & Hk & Hn).
    destruct (Hkeep y ey Hey) as (ey' & Hey' & Hp' & Hn'). exists ey'. by rewrite Hp', Hn'.
  - intros y Hy. apply list_elem_of_filter in Hy as [_ Hy]. by left.
  - intros y. rewrite elem_of_difference, elem_of_singleton, list_elem_of_filter. split.
    + intros [Hy Hyx]. destruct (decide (y ∈ B hash)); [by left|by right].
    + intros [[Hyx Hy]|[Hy Hny]]; [split; [|done]; apply HC; by exists hash|]. split; [done|]. intros ->.
      apply HC in Hy as (h & Hh' & Hxh). destruct (HB h Hh') as (_ & _ & Hb). rewrite Forall_forall in Hb.
      destruct (Hb x Hxh) as (e' & He' & <- & _). by simplify_eq.
Qed.

(** The fields of an entry that the cache depends on. *)
Definition cache_key (e : ventry) : Z * Z * list Z := (e_next e, e_parent e, e_name e).

(** Every entry of [m] is in [m'] with the same key. *)
Definition keys_kept (m m' : gmap Z ventry) : Prop :=
  forall x e, m !! x = Some e -> exists e', m' !! x = Some e' /\ cache_key e' = cache_key e.

Lemma dchain_kept m m' a l : keys_kept m m' -> dchain m a l -> dchain m' a l.
Proof.
  intros Hk. revert a. induction l as [|x l IH]; intros a; [done|]. simpl. intros (-> & Hx & e & He & Hc).
  destruct (Hk x e He) as (e' & He' & E). injection E as En _ _. split; [done|]. split; [done|].
  exists e'. split; [done|]. rewrite En. by apply IH.
Qed.

(** The cache is the same in a state with the same table that keeps the entries. *)
Lemma dcache_rep_extend s s' C : hash_table s' = hash_table s -> keys_kept (entries s) (entries s') ->
  dcache_rep s C -> dcache_rep s' C.
Proof.
  intros Ht Hk (Hlen & B & HB & HC). split; [by rewrite Ht|]. exists B. split; [|done].
  intros hash Hh. destruct (HB hash Hh) as ((b & Hb & Hc) & Hnd & Hin). split; [|split; [done|]].
  - exists b. rewrite Ht. split; [done|]. by eapply dchain_kept.
  - apply Forall_forall. intros x Hx. rewrite Forall_forall in Hin. destruct (Hin x Hx) as (e & He & Hkey & Hn).
    destruct (Hk x e He) as (e' & He' & E). injection E as _ Ep En. exists e'. by rewrite Ep, En.
Qed.

Lemma dcache_rep_keys s s' C : hash_table s' = hash_table s ->
  (forall a, cache_key <$> entries s' !! a = cache_key <$> entries s !! a) -> dcache_rep s C -> dcache_rep s' C.
Proof.
  intros Ht Hk. apply dcache_rep_extend; [done|]. intros x e He. specialize (Hk x). rewrite He in Hk.
  destruct (entries s' !! x) as [e'|]; [|done]. exists e'. split; [done|]. simpl in Hk. congruence.
Qed.

Lemma dcache_rep_live s C x : dcache_rep s C -> x ∈ C -> is_Some (entries s !! x).
Proof.
  intros (_ & B & HB & HC) Hx. apply HC in Hx as (h & Hh & Hx). destruct (HB h Hh) as (_ & _ & Hin).
  rewrite Forall_forall in Hin. destruct (Hin x Hx) as (e & He & _). by eexists.
Qed.

(** C10: the directory entry cache implements a set of entries.  A search
    returns an entry of the set with the parent and name asked for, and null
    exactly when the set has none; inserting an entry adds it to the set and
    it is then found under its key; removing takes exactly it out.  None of
    the operations faults, runs forever or touches anything but the links of
    the cache. *)
Theorem dcache_refines s C : dcache_rep s C ->
  (forall parent name, name_ok name ->
     exists r, dcache_get s parent name = Ok r /\ found s C parent name r) /\
  (forall x e, entries s !! x = Some e -> name_ok (e_name e) -> x ∉ C -> x <> 0 ->
     exists s', dcache_insert s x = Ok s' /\ dcache_rep s' ({[x]} ∪ C) /\ same_tree s s' /\
       dcache_get s' (e_parent e) (e_name e) = Ok x) /\
  (forall x e, entries s !! x = Some e -> name_ok (e_name e) -> x <> 0 ->
     exists s', dcache_remove s x = Ok s' /\ dcache_rep s' (C ∖ {[x]}) /\ same_tree s s').
Proof.
  intros Hrep. split; [|split].
  - intros. by apply dcache_get_spec.
  - intros. by apply dcache_insert_spec.
  - intros. by eapply dcache_remove_spec.
Qed.

End dcache.

(** A root directory at 16 with one file entry at 32, nothing cached. *)
Definition uncached : vfs unit :=
  mk_vfs ∅ {[16 := mk_ventry [47] 100 0 [32] 0 None 0; 32 := mk_ventry [97] 116 16 [] 0 None 0]}
    (replicate 1024 0) 16 [] [] [] devices_init devices_init None 256 tt.

Lemma uncached_rep : dcache_rep uncached ∅.
Proof.
  split; [apply length_replicate|]. exists (fun _ => []). split; [|set_solver].
  intros hash Hh. split; [|split; [constructor|done]]. exists 0. split; [|done]. by apply lookup_replicate_2.
Qed.

Lemma dcache_refines_witness :
  dcache_rep uncached ∅ /\
  exists s', dcache_insert uncached 32 = Ok s' /\ dcache_rep s' ({[32]} ∪ ∅) /\ same_tree uncached s' /\
    dcache_get s' 16 [97] = Ok 32.
Proof.
  split; [apply uncached_rep|].
  apply (proj1 (proj2 (dcache_refines uncached ∅ uncached_rep)) 32 (mk_ventry [97] 116 16 [] 0 None 0)).
  - reflexivity.
  - split; [simpl; lia|set_solver].
  - set_solver.
  - lia.
Defined.
