(* ===== verification/Lookup.v ===== *)
(** * Path lookup and the in-memory directory tree

    kernel/fs/lookup.c and kernel/fs/generic.c.  A path is the list of its
    bytes without the terminating NUL.  The operations of a file system are
    reached through tables of function pointers, as in the code; generic.c
    provides the ones that the memory file systems use. *)

From stdpp Require Import base numbers list gmap sets.
From Stdlib Require Import ZArith Lia.
From S2P Require Import Prelude Sched Device Dcache.

(** ** The operation tables of ops.h and super.h *)

Section tables.
Context {D : Type}.

(** A read into a buffer returns the bytes that it stored. *)
Record inode_ops := mk_inode_ops {
  io_lookup : option (vfs D -> Z -> list Z -> outcome (Z * vfs D));
  io_mkdir : option (vfs D -> Z -> list Z -> Z -> outcome (ret * vfs D));
  io_create : option (vfs D -> Z -> list Z -> Z -> outcome (ret * vfs D));
  io_mknod : option (vfs D -> Z -> list Z -> Z -> Z -> outcome (ret * vfs D));
  io_getdents : option (vfs D -> Z -> Z -> outcome (ret * list Z * vfs D));
}.

Record super_ops := mk_super_ops {
  so_init : vfs D -> Z -> outcome (ret * superblock * vfs D);
  so_root : vfs D -> superblock -> outcome (ret * Z * vfs D);
}.
End tables.
Arguments inode_ops D : clear implicits.
Arguments super_ops D : clear implicits.

(** ** generic.c *)

Section generic.
Context {D : Type}.

(** [strncmp(a, b, n) == 0] on strings. *)
Definition strncmp_eq (a b : list Z) (n : nat) : bool := bool_decide (take n a = take n b).

Fixpoint generic_lookup_loop (s : vfs D) (children : list Z) (path : list Z) : outcome (Z * vfs D) :=
  match children with
  | [] => Ok (0, s)
  | current :: children =>
      let* s := ventry_ref s current in
      let* e := get_entry s current in
      let* s := ventry_put s current in
      if strncmp_eq (e_name e) path 64 then Ok (current, s) else generic_lookup_loop s children path
  end.

Definition generic_fs_lookup (s : vfs D) (parent : Z) (path : list Z) : outcome (Z * vfs D) :=
  let* p := get_entry s parent in
  generic_lookup_loop s (e_children p) path.

(** The owner of a new node: the effective ids of the current task, if there is one. *)
Definition set_owner (s : vfs D) (n : vnode) : vnode :=
  match cur_task s with
  | Some t => set_n_gid (c_egid (t_cred t)) (set_n_uid (c_euid (t_cred t)) n)
  | None => n
  end.

(** [list_add_tail(&parent->children, &dirent->sibling)]. *)
Definition add_child (s : vfs D) (parent dirent : Z) : outcome (vfs D) :=
  let* p := get_entry s parent in
  Ok (put_entry parent (set_e_children (e_children p ++ [dirent]) p) s).

(** The entry of a new node: named, given a parent, linked and cached.  A
    directory also adds a link to its parent. *)
Definition link_new (s : vfs D) (parent : Z) (path : list Z) (inode : Z) (dir : bool) : outcome (ret * vfs D) :=
  let* (dirent, s) := ventry_new s path inode in
  let* d := get_entry s dirent in
  let s := put_entry dirent (set_e_parent parent d) s in
  let* p := get_entry s parent in
  let* pn := get_node s (e_node p) in
  let s := if dir then put_node (e_node p) (set_n_nlink (u64 (n_nlink pn + 1)) pn) s else s in
  let* s := add_child s parent dirent in
  let* s := dcache_insert s dirent in
  Ok (RVal 0, s).

(** A node with the operations of the parent's node and the owner set. *)
Definition inherit_node (s : vfs D) (parent mode nlink : Z) : outcome (Z * vfs D) :=
  let '(inode, s) := vnode_new s mode in
  let* p := get_entry s parent in
  let* pn := get_node s (e_node p) in
  let* n := get_node s inode in
  let n := set_owner s (set_n_nlink nlink (set_n_fops (n_fops pn) (set_n_iops (n_iops pn) n))) in
  Ok (inode, put_node inode n s).

Definition generic_fs_create (s : vfs D) (parent : Z) (path : list Z) (mode : Z) : outcome (ret * vfs D) :=
  let* (inode, s) := inherit_node s parent (Z.lor S_IFREG mode) 0 in
  link_new s parent path inode false.

(** A directory has a second link from the start. *)
Definition generic_fs_mkdir (s : vfs D) (parent : Z) (path : list Z) (mode : Z) : outcome (ret * vfs D) :=
  let* (inode, s) := inherit_node s parent (Z.lor S_IFDIR mode) 1 in
  link_new s parent path inode true.

Definition generic_fs_mknod (s : vfs D) (parent : Z) (path : list Z) (mode dev : Z) : outcome (ret * vfs D) :=
  let '(inode, s) := vnode_new s mode in
  let* p := get_entry s parent in
  let* pn := get_node s (e_node p) in
  let* n := get_node s inode in
  let n := set_n_iops (n_iops pn) n in
  if S_ISCHR mode then
    let* a := chardev_lookup (char_devices s) dev in
    let* d := deref (dev_at (char_devices s) !! a) in
    link_new (put_node inode (set_owner s (set_n_dev dev (set_n_fops (d_fops d) n))) s) parent path inode false
  else if S_ISBLK mode then
    let* a := blockdev_lookup (block_devices s) dev in
    let* d := deref (dev_at (block_devices s) !! a) in
    link_new (put_node inode (set_owner s (set_n_dev dev (set_n_fops (d_fops d) n))) s) parent path inode false
  else Ok (RErr EINVAL, set_nodes (delete inode (nodes s)) s).

(** One [struct posix_dent]: number, offset, record length and type, then the
    name with its NUL; the name is at offset 19. *)
Definition dent_bytes (name : list Z) : list Z :=
  let reclen := 19 + zlen name + 1 in
  replicate 16 0 ++ [reclen mod 256; reclen / 256; 0] ++ name ++ [0].

(** The loop over the children: two references are taken and one is dropped. *)
Fixpoint getdents_loop (s : vfs D) (children : list Z) (length : Z) (out : list Z) : outcome (list Z * vfs D) :=
  match children with
  | [] => Ok (out, s)
  | current :: children =>
      if length <=? zlen out then Ok (out, s)
      else
        let* s := ventry_ref s current in
        let* s := ventry_ref s current in
        let* e := get_entry s current in
        let out := out ++ dent_bytes (e_name e) in
        let* s := ventry_put s current in
        getdents_loop s children length out
  end.

Definition generic_fs_getdents (s : vfs D) (file length : Z) : outcome (ret * list Z * vfs D) :=
  let out := if 0 <? length then dent_bytes [46] else [] in
  let out := if zlen out <? length then out ++ dent_bytes [46; 46] else out in
  let* f := aget (open_files s) file in
  let* p := get_entry s (f_path f) in
  let* (out, s) := getdents_loop s (e_children p) length out in
  Ok (RVal (zlen out), out, s).

End generic.

(** ** lookup.c *)

Definition LOOKUP_PARENT : Z := 1.

Section lookup.
Context {D : Type}.

(** The tables at the addresses that nodes and file systems carry. *)
Context (iops_at : Z -> option (inode_ops D)) (sops_at : Z -> option (super_ops D)).

(** The entry at the root of what is mounted on [source], or null. *)
Definition mount_root (s : vfs D) (m : mount) : outcome (ret * Z * vfs D) :=
  let* ops := deref (sops_at (fs_sb_ops (m_fs m))) in
  so_root ops s (m_sb m).

Definition traverse_mount (s : vfs D) (source : Z) : outcome (Z * vfs D) :=
  let* e := get_entry s source in
  let* m := deref (e_mount e) in
  let* (r, root, s) := mount_root s m in
  Ok (if failed r then 0 else root, s).

(** [e != vfs_context()->root_node && e->mount]. *)
Definition is_mountpoint (s : vfs D) (a : Z) : outcome bool :=
  if a =? root_node s then Ok false
  else let* e := get_entry s a in Ok (bool_decide (is_Some (e_mount e))).

(** The walk along the mounts for the one whose root is [current]. *)
Fixpoint find_mount (s : vfs D) (ms : list mount) (current : Z) : outcome (option mount * vfs D) :=
  match ms with
  | [] => Ok (None, s)
  | mp :: ms =>
      let* (r, root, s) := mount_root s mp in
      if negb (failed r) && (root =? current) then Ok (Some mp, s) else find_mount s ms current
  end.

(** What the loop of [vfs_lookup_at] does with a component: an early return,
    or the next entry together with the entry whose reference is dropped. *)
Inductive walk := WErr (e : errno) | WGo (next current : Z).

Definition dotdot (s : vfs D) (current : Z) : outcome (walk * vfs D) :=
  let* e := get_entry s current in
  if negb (e_parent e =? 0) then Ok (WGo (e_parent e) current, s)
  else
    let* (found, s) := find_mount s (mounts s) current in
    match found with
    | None => Ok (WGo 0 current, s)
    | Some mp =>
        if m_mountpoint mp =? root_node s then Ok (WGo (root_node s) current, s)
        else let* pe := get_entry s (m_mountpoint mp) in Ok (WGo (e_parent pe) current, s)
    end.

Definition child_entry (s : vfs D) (current : Z) (component : list Z) : outcome (walk * vfs D) :=
  let* hit := dcache_get s current component in
  if negb (hit =? 0) then Ok (WGo hit current, s)
  else
    let* e := get_entry s current in
    let* n := get_node s (e_node e) in
    let* ops := deref (iops_at (n_iops n)) in
    match io_lookup ops with
    | None => let* s := ventry_put s current in Ok (WErr ENOENT, s)
    | Some lookup =>
        let* (next, s) := lookup s current component in
        if next =? 0 then Ok (WGo next current, s)
        else let* s := dcache_insert s next in Ok (WGo next current, s)
    end.

Definition next_entry (s : vfs D) (current : Z) (component : list Z) : outcome (walk * vfs D) :=
  if bool_decide (component = [46]) then Ok (WGo current current, s)
  else if bool_decide (component = [46; 46]) then dotdot s current
  else
    let* mounted := is_mountpoint s current in
    if mounted then
      let* (root, s) := traverse_mount s current in
      if root =? 0 then let* s := ventry_put s current in Ok (WErr ENOENT, s)
      else
        let* s := ventry_put s current in
        let* s := ventry_ref s root in
        child_entry s root component
    else child_entry s current component.

(** The bytes up to the next NUL. *)
Fixpoint component_of (cbuffer : list Z) : list Z :=
  match cbuffer with
  | c :: rest => if c =? 0 then [] else c :: component_of rest
  | [] => []
  end.

(** The loop over the copy of the path with its slashes replaced by NULs;
    [cbuffer] is what lies at and after index [i].  A component is the last
    when only NULs follow. *)
Fixpoint lookup_loop (fuel : nat) (s : vfs D) (cbuffer : list Z) (current flags : Z) :
    outcome ((errno + Z) * vfs D) :=
  match fuel, cbuffer with
  | _, [] => Ok (inr current, s)
  | O, _ => OutOfFuel
  | S fuel, c :: rest =>
      if c =? 0 then lookup_loop fuel s rest current flags
      else if current =? 0 then Ok (inr current, s)
      else
        let* s := ventry_ref s current in
        let* e := get_entry s current in
        let* n := get_node s (e_node e) in
        if negb (S_ISDIR (n_mode n)) then
          let* s := ventry_put s current in Ok (inl ENOTDIR, s)
        else
          let component := component_of cbuffer in
          let clen := length component in
          let is_last := forallb (fun c => c =? 0) (drop clen cbuffer) in
          if is_last && has flags LOOKUP_PARENT then
            let* s := ventry_put s current in Ok (inr current, s)
          else
            let* (w, s) := next_entry s current component in
            match w with
            | WErr e => Ok (inl e, s)
            | WGo next current =>
                let* s := ventry_put s current in
                lookup_loop fuel s (drop (S clen) cbuffer) next flags
            end
  end.

(** The result of a lookup crosses a mount on the way out. *)
Definition cross_mount (s : vfs D) (a : Z) : outcome (ret * Z * vfs D) :=
  let* mounted := is_mountpoint s a in
  if mounted then
    let* (root, s) := traverse_mount s a in
    Ok (if root =? 0 then (RErr ENOENT, 0, s) else (RVal 0, root, s))
  else Ok (RVal 0, a, s).

Definition vfs_lookup_at (s : vfs D) (parent : Z) (path : list Z) (flags : Z) : outcome (ret * Z * vfs D) :=
  let* hit := dcache_get s parent path in
  if negb (hit =? 0) then
    let* e := get_entry s hit in
    cross_mount s (if has flags LOOKUP_PARENT then e_parent e else hit)
  else
    let cbuffer := (fun c => if c =? 47 then 0 else c) <$> path in
    let* (r, s) := lookup_loop (length path) s cbuffer parent flags in
    match r with
    | inl e => Ok (RErr e, 0, s)
    | inr current => if current =? 0 then Ok (RErr ENOENT, 0, s) else cross_mount s current
    end.

Definition vfs_lookup (s : vfs D) (path : list Z) (flags : Z) : outcome (ret * Z * vfs D) :=
  match path with
  | 47 :: rest => vfs_lookup_at s (root_node s) rest flags
  | _ => let* t := deref (cur_task s) in vfs_lookup_at s (t_cwd t) path flags
  end.
End lookup.
