(* ===== verification/Tree.v ===== *)
(** * Path lookup against the directory tree

    A reference definition of path resolution (split the path at its slashes
    and walk the tree), and the proof that kernel/fs/lookup.c computes it on a
    tree of in-memory file systems, with the cache, the reference counts and
    the mounts in between. *)

From stdpp Require Import base numbers list gmap sets.
From Stdlib Require Import ZArith Lia.
From S2P Require Import Prelude Sched Device Dcache Lookup.

(** ** The reference definition *)

(** The components of a path: the non-empty stretches between slashes. *)
Fixpoint components_from (word path : list Z) : list (list Z) :=
  match path with
  | [] => if bool_decide (word = []) then [] else [word]
  | c :: path =>
      if c =? 47 then (if bool_decide (word = []) then [] else [word]) ++ components_from [] path
      else components_from (word ++ [c]) path
  end.
Definition components : list Z -> list (list Z) := components_from [].

Section reference.
Context {D : Type}.
Implicit Types s : vfs D.

Definition is_dir (s : vfs D) (a : Z) : bool :=
  match entries s !! a with
  | Some e => match nodes s !! e_node e with Some n => S_ISDIR (n_mode n) | None => false end
  | None => false
  end.

Definition named (s : vfs D) (name : list Z) (c : Z) : Prop := e_name <$> entries s !! c = Some name.
#[global] Instance named_dec s name c : Decision (named s name c).
Proof. unfold named. apply _. Defined.

(** The child of a directory with a name, or 0. *)
Definition child (s : vfs D) (a : Z) (name : list Z) : Z :=
  match entries s !! a with
  | Some e => default 0 (head (filter (named s name) (e_children e)))
  | None => 0
  end.

(** The root of the file system mounted on an entry, or the entry itself. *)
Definition crossed (s : vfs D) (a : Z) : Z :=
  if a =? root_node s then a
  else match entries s !! a ≫= e_mount with Some m => sb_data (m_sb m) | None => a end.

Definition parent_of (s : vfs D) (a : Z) : Z := default 0 (e_parent <$> entries s !! a).

(** The parent; at the root of a file system, the parent of its mount point,
    except that the root of the tree is its own parent. *)
Definition up (s : vfs D) (a : Z) : Z :=
  if negb (parent_of s a =? 0) then parent_of s a
  else match head (filter (fun m => sb_data (m_sb m) = a) (mounts s)) with
       | Some m => if m_mountpoint m =? root_node s then root_node s else parent_of s (m_mountpoint m)
       | None => 0
       end.

Definition step (s : vfs D) (a : Z) (component : list Z) : Z :=
  if bool_decide (component = [46]) then a
  else if bool_decide (component = [46; 46]) then up s a
  else child s (crossed s a) component.

(** Walk the components from [a]; with [parent] stop before the last one. *)
Fixpoint resolve (s : vfs D) (a : Z) (path : list (list Z)) (parent : bool) : errno + Z :=
  match path with
  | [] => inr a
  | component :: path =>
      if a =? 0 then inr 0
      else if negb (is_dir s a) then inl ENOTDIR
      else if parent && bool_decide (path = []) then inr a
      else resolve s (step s a component) path parent
  end.

Definition lookup_result (s : vfs D) (r : errno + Z) : ret * Z :=
  match r with
  | inl e => (RErr e, 0)
  | inr a => if a =? 0 then (RErr ENOENT, 0) else (RVal 0, crossed s a)
  end.

(** ** States that differ in links and reference counts only *)

Definition erase_entry (e : ventry) : ventry := set_e_ref 0 (set_e_next 0 e).
Definition shape (s : vfs D) : vfs D := set_hash_table [] (set_entries (erase_entry <$> entries s) s).

Definition with_ref (a r : Z) (s : vfs D) : vfs D := set_entries (alter (set_e_ref r) a (entries s)) s.

Lemma shape_lookup s a : entries (shape s) !! a = erase_entry <$> entries s !! a.
Proof. apply lookup_fmap. Qed.

Lemma same_tree_shape s s' : same_tree s s' -> shape s = shape s'.
Proof.
  unfold same_tree, erase_links, shape. intros H.
  assert (forall t : vfs D, set_hash_table [] (set_entries (erase_entry <$> entries t) t) =
    set_entries (set_e_ref 0 <$> entries (set_hash_table [] (set_entries (set_e_next 0 <$> entries t) t)))
      (set_hash_table [] (set_entries (set_e_next 0 <$> entries t) t))) as Hs.
  { intros t. unfold set_hash_table, set_entries. simpl. f_equal. by rewrite <- map_fmap_compose. }
  by rewrite !Hs, H.
Qed.

Lemma with_ref_shape a r s : shape (with_ref a r s) = shape s.
Proof.
  unfold shape, with_ref, set_hash_table, set_entries. simpl. f_equal. apply map_eq. intros x.
  rewrite !lookup_fmap. destruct (decide (a = x)) as [->|]; [rewrite lookup_alter_eq|by rewrite lookup_alter_ne].
  by destruct (entries s !! x).
Qed.

Lemma is_dir_shape s a : is_dir (shape s) a = is_dir s a.
Proof. unfold is_dir. rewrite shape_lookup. by destruct (entries s !! a). Qed.

Lemma named_shape s name c : named (shape s) name c <-> named s name c.
Proof. unfold named. rewrite shape_lookup. by destruct (entries s !! c). Qed.

Lemma child_shape s a name : child (shape s) a name = child s a name.
Proof.
  unfold child. rewrite shape_lookup. destruct (entries s !! a) as [e|]; [|done]. simpl. do 2 f_equal.
  apply filter_ext_in. intros x _. apply named_shape.
Qed.

Lemma crossed_shape s a : crossed (shape s) a = crossed s a.
Proof. unfold crossed. rewrite shape_lookup. by destruct (entries s !! a). Qed.

Lemma parent_of_shape s a : parent_of (shape s) a = parent_of s a.
Proof. unfold parent_of. rewrite shape_lookup. by destruct (entries s !! a). Qed.

Lemma step_shape s a c : step (shape s) a c = step s a c.
Proof.
  unfold step, up. rewrite crossed_shape, child_shape, parent_of_shape. simpl.
  repeat case_match; try done. apply parent_of_shape.
Qed.

Lemma resolve_shape s a path parent : resolve (shape s) a path parent = resolve s a path parent.
Proof.
  revert a. induction path as [|c path IH]; intros a; [done|]. simpl. by rewrite is_dir_shape, step_shape, IH.
Qed.

Lemma lookup_result_shape s r : lookup_result (shape s) r = lookup_result s r.
Proof. destruct r; simpl; [done|]. by rewrite crossed_shape. Qed.

End reference.

(** ** Trees of in-memory file systems *)

Definition component_ok (name : list Z) : Prop :=
  name <> [] /\ (47 ∉ name) /\ name <> [46] /\ name <> [46; 46].

Section tree.
Context {D : Type} (iops_at : Z -> option (inode_ops D)) (sops_at : Z -> option (super_ops D)).
Implicit Types (s : vfs D) (C : gset Z).

(** Every entry is live with a node whose directory operation is the generic
    one; children and parents match; siblings have different names; a mount
    has a live root, found by the in-memory file systems' root operation. *)
Record tree_shape (s : vfs D) : Prop := {
  ts_entry : forall a e, entries s !! a = Some e ->
    a <> 0 /\ name_ok (e_name e) /\ e_node e <> 0 /\
    exists n ops, nodes s !! e_node e = Some n /\ iops_at (n_iops n) = Some ops /\
      io_lookup ops = Some generic_fs_lookup;
  ts_child : forall a e c, entries s !! a = Some e -> c ∈ e_children e ->
    is_dir s a = true /\ exists ec, entries s !! c = Some ec /\ e_parent ec = a /\ component_ok (e_name ec);
  ts_parent : forall a e, entries s !! a = Some e -> e_parent e <> 0 ->
    exists p, entries s !! e_parent e = Some p /\ a ∈ e_children p;
  ts_unique : forall a e c c' name, entries s !! a = Some e -> c ∈ e_children e -> c' ∈ e_children e ->
    named s name c -> named s name c' -> c = c';
  ts_root : is_Some (entries s !! root_node s);
  ts_mount : forall m, m ∈ mounts s ->
    is_Some (entries s !! sb_data (m_sb m)) /\ is_Some (entries s !! m_mountpoint m) /\
    exists ops, sops_at (fs_sb_ops (m_fs m)) = Some ops /\
      forall s' sb, so_root ops s' sb = Ok (RVal 0, sb_data sb, s');
  ts_mounted : forall a e m, entries s !! a = Some e -> e_mount e = Some m -> m ∈ mounts s;
}.

(** The cache holds entries of the tree. *)
Definition tree_ok (s : vfs D) (C : gset Z) : Prop :=
  tree_shape s /\ dcache_rep s C /\ forall x, x ∈ C -> parent_of s x <> 0.

(** No reference count is near its limit. *)
Definition refs_below (s : vfs D) (bound : Z) : Prop :=
  forall a e, entries s !! a = Some e -> 0 <= e_ref e < bound.

Lemma shape_back s s' a e' : shape s = shape s' -> entries s' !! a = Some e' ->
  exists e, entries s !! a = Some e /\ e_name e = e_name e' /\ e_node e = e_node e' /\
    e_parent e = e_parent e' /\ e_children e = e_children e' /\ e_mount e = e_mount e'.
Proof.
  intros Hs He. apply (f_equal (fun t => entries t !! a)) in Hs. rewrite !shape_lookup, He in Hs.
  destruct (entries s !! a) as [e|]; [|done]. exists e. split; [done|]. by injection Hs.
Qed.

Lemma shape_live s s' a : shape s = shape s' -> is_Some (entries s !! a) -> is_Some (entries s' !! a).
Proof. intros Hs [e He]. destruct (shape_back s' s a e) as (e' & -> & _); [done..|]. by eexists. Qed.

Lemma shape_fields s s' : shape s = shape s' ->
  nodes s = nodes s' /\ mounts s = mounts s' /\ root_node s = root_node s' /\
  (forall a, is_dir s a = is_dir s' a) /\ (forall name a, named s name a <-> named s' name a) /\
  (forall a, parent_of s a = parent_of s' a).
Proof.
  intros Hs. split; [apply (f_equal nodes Hs)|]. split; [apply (f_equal mounts Hs)|].
  split; [apply (f_equal root_node Hs)|].
  split; [intros a; by rewrite <- (is_dir_shape s), Hs, is_dir_shape|].
  split; [intros name a; by rewrite <- (named_shape s), Hs, named_shape|].
  intros a. by rewrite <- (parent_of_shape s), Hs, parent_of_shape.
Qed.

Lemma tree_shape_same s s' : shape s = shape s' -> tree_shape s -> tree_shape s'.
Proof.
  intros Hs [T1 T2 T3 T4 T5 T6 T7].
  destruct (shape_fields s s' Hs) as (Hn & Hm & Hr & Hd & Hnm & _).
  split.
  - intros a e' He'. destruct (shape_back s s' a e' Hs He') as (e & He & <- & <- & _). rewrite <- Hn. eauto.
  - intros a e' c He' Hc. destruct (shape_back s s' a e' Hs He') as (e & He & _ & _ & _ & Ec & _).
    rewrite <- Ec in Hc. destruct (T2 a e c He Hc) as (Hdir & ec & Hec & Hp & Hok). rewrite <- Hd. split; [done|].
    destruct (shape_back s' s c ec (eq_sym Hs) Hec) as (ec' & Hec' & En & _ & Ep & _).
    exists ec'. by rewrite En, Ep.
  - intros a e' He' Hp. destruct (shape_back s s' a e' Hs He') as (e & He & _ & _ & Ep & _).
    rewrite <- Ep in *. destruct (T3 a e He Hp) as (p & Hpe & Hin).
    destruct (shape_back s' s _ p (eq_sym Hs) Hpe) as (p' & Hp' & _ & _ & _ & Ec & _).
    exists p'. by rewrite Ec.
  - intros a e' c c' name He' Hc Hc'. rewrite <- !Hnm.
    destruct (shape_back s s' a e' Hs He') as (e & He & _ & _ & _ & Ec & _).
    rewrite <- Ec in Hc, Hc'. eauto.
  - rewrite <- Hr. by eapply shape_live.
  - intros m. rewrite <- Hm. intros Hin. destruct (T6 m Hin) as (H1 & H2 & H3).
    split; [by eapply shape_live|]. split; [by eapply shape_live|done].
  - intros a e' m He' Hme. rewrite <- Hm.
    destruct (shape_back s s' a e' Hs He') as (e & He & _ & _ & _ & _ & Em).
    rewrite <- Em in Hme. eauto.
Qed.

(** ** References *)

Lemma with_ref_id a e s : entries s !! a = Some e -> with_ref a (e_ref e) s = s.
Proof.
  intros He. unfold with_ref, set_entries. destruct s. simpl in *. f_equal. apply map_eq. intros x.
  destruct (decide (a = x)) as [->|]; [|by rewrite lookup_alter_ne].
  rewrite lookup_alter_eq, He. simpl. by destruct e.
Qed.

Lemma with_ref_twice a r r' s : with_ref a r (with_ref a r' s) = with_ref a r s.
Proof.
  unfold with_ref, set_entries. simpl. f_equal. apply map_eq. intros x.
  destruct (decide (a = x)) as [->|]; [|by rewrite !lookup_alter_ne].
  rewrite !lookup_alter_eq. by destruct (entries s !! x).
Qed.

Lemma with_ref_lookup a r s e : entries s !! a = Some e -> entries (with_ref a r s) !! a = Some (set_e_ref r e).
Proof. intros He. simpl. by rewrite lookup_alter_eq, He. Qed.

Lemma with_ref_put a r s e : entries s !! a = Some e -> put_entry a (set_e_ref r e) s = with_ref a r s.
Proof.
  intros He. unfold put_entry, with_ref, set_entries. f_equal. apply map_eq. intros x.
  destruct (decide (a = x)) as [->|]; [|by rewrite lookup_alter_ne, lookup_insert_ne].
  by rewrite lookup_alter_eq, lookup_insert_eq, He.
Qed.

Lemma with_ref_tree a r s s' : same_tree s s' -> same_tree (with_ref a r s) (with_ref a r s').
Proof.
  unfold same_tree, erase_links, with_ref, set_entries, set_hash_table. simpl. intros H.
  injection H as Hn He Hrest. f_equal; try done. apply map_eq. intros x.
  apply (f_equal (lookup x)) in He. rewrite !lookup_fmap in *.
  destruct (decide (a = x)) as [->|]; [|by rewrite !lookup_alter_ne]. rewrite !lookup_alter_eq.
  destruct (entries s !! x), (entries s' !! x); simpl in *; try done. f_equal. injection He. intros. 
  unfold set_e_next, set_e_ref. simpl. congruence.
Qed.

Lemma ventry_ref_spec s a e : entries s !! a = Some e -> 0 <= e_ref e < 2 ^ 32 - 1 ->
  ventry_ref s a = Ok (with_ref a (e_ref e + 1) s).
Proof.
  intros He Hr. unfold ventry_ref, get_entry. rewrite He. cbn [deref outcome_bind].
  by rewrite u32_small, with_ref_put by (done || lia).
Qed.

Lemma ventry_put_spec s a e : entries s !! a = Some e -> e_node e <> 0 -> 1 <= e_ref e < 2 ^ 32 ->
  ventry_put s a = Ok (with_ref a (e_ref e - 1) s).
Proof.
  intros He Hn Hr. unfold ventry_put, get_entry. rewrite He. cbn [deref outcome_bind].
  destruct (Z.eqb_spec (e_node e) 0); [done|]. rewrite andb_false_r.
  by rewrite u32_small, with_ref_put by (done || lia).
Qed.

Lemma dcache_rep_with_ref a r s C : dcache_rep s C -> dcache_rep (with_ref a r s) C.
Proof.
  apply dcache_rep_keys; [done|]. intros x. simpl.
  destruct (decide (a = x)) as [->|]; [rewrite lookup_alter_eq|by rewrite lookup_alter_ne].
  by destruct (entries s !! x).
Qed.

Lemma tree_ok_with_ref a r s C : tree_ok s C -> tree_ok (with_ref a r s) C.
Proof.
  intros (Ht & Hr & Hc). assert (shape s = shape (with_ref a r s)) as Hs by (symmetry; apply with_ref_shape).
  split; [by eapply tree_shape_same|]. split; [by apply dcache_rep_with_ref|].
  destruct (shape_fields s _ Hs) as (_ & _ & _ & _ & _ & Hp). intros x Hx. rewrite <- Hp. by apply Hc.
Qed.

Lemma same_tree_entry s s' a e : same_tree s s' -> entries s !! a = Some e ->
  exists e', entries s' !! a = Some e' /\ e_ref e' = e_ref e /\ e_node e' = e_node e.
Proof.
  intros Hs He. apply (f_equal (fun t => entries t !! a)) in Hs. simpl in Hs. rewrite !lookup_fmap, He in Hs.
  destruct (entries s' !! a) as [e'|]; [|done]. exists e'. split; [done|]. by injection Hs.
Qed.

Lemma tree_ok_same s s' C C' : tree_ok s C -> same_tree s s' -> dcache_rep s' C' ->
  (forall x, x ∈ C' -> x ∈ C \/ parent_of s x <> 0) -> tree_ok s' C'.
Proof.
  intros (Ht & _ & Hc) Hs Hrep HC. apply same_tree_shape in Hs.
  split; [by eapply tree_shape_same|]. split; [done|].
  destruct (shape_fields s s' Hs) as (_ & _ & _ & _ & _ & Hp). intros x Hx. rewrite <- Hp.
  destruct (HC x Hx); [by apply Hc|done].
Qed.

(** An operation between taking and dropping a reference. *)
Lemma ref_bracket s C a e : tree_ok s C -> entries s !! a = Some e -> refs_below s (2 ^ 32 - 2) ->
  let s1 := with_ref a (e_ref e + 1) s in
  ventry_ref s a = Ok s1 /\ tree_ok s1 C /\ refs_below s1 (2 ^ 32 - 1) /\
  forall s2 C', same_tree s1 s2 -> tree_ok s2 C' ->
    exists s3, ventry_put s2 a = Ok s3 /\ same_tree s s3 /\ tree_ok s3 C'.
Proof.
  intros Ht He Hb s1. pose proof (Hb a e He) as Hr. split; [apply ventry_ref_spec; [done|lia]|].
  split; [by apply tree_ok_with_ref|]. split.
  - intros x ex Hx. unfold s1, with_ref in Hx. simpl in Hx. destruct (decide (a = x)) as [<-|].
    + rewrite lookup_alter_eq, He in Hx. injection Hx as <-. simpl. lia.
    + rewrite lookup_alter_ne in Hx by done. pose proof (Hb x ex Hx). lia.
  - intros s2 C' Hs2 Ht2. destruct (same_tree_entry s1 s2 a _ Hs2 (with_ref_lookup a _ s e He)) as (e2 & He2 & Hr2 & Hn2).
    simpl in Hr2, Hn2. destruct Ht as ([T1 _ _ _ _ _ _] & _). destruct (T1 a e He) as (_ & _ & Hn & _).
    rewrite (ventry_put_spec s2 a e2), Hr2 by (congruence || lia).
    eexists. split; [done|]. split; [|by apply tree_ok_with_ref].
    replace (e_ref e + 1 - 1) with (e_ref e) by lia.
    rewrite <- (with_ref_id a e s He) at 1. rewrite <- (with_ref_twice a _ (e_ref e + 1) s). by apply with_ref_tree.
Qed.

(** ** The steps of the walk *)

Lemma strncmp_eq_name a b : name_ok a -> name_ok b -> strncmp_eq a b 64 = bool_decide (a = b).
Proof. intros [Ha _] [Hb _]. unfold strncmp_eq. by rewrite !take_ge by lia. Qed.

Lemma generic_lookup_loop_spec s l name : name_ok name ->
  (forall c, c ∈ l -> exists e, entries s !! c = Some e /\ e_node e <> 0 /\ name_ok (e_name e)) ->
  refs_below s (2 ^ 32 - 1) ->
  generic_lookup_loop s l name = Ok (default 0 (head (filter (named s name) l)), s).
Proof.
  intros Hname Hl Hb. induction l as [|c l IH]; [done|]. simpl.
  destruct (Hl c ltac:(set_solver)) as (e & He & Hn & Hok). pose proof (Hb c e He) as Hr.
  rewrite (ventry_ref_spec s c e He) by lia. cbn [outcome_bind]. unfold get_entry.
  rewrite (with_ref_lookup c _ s e He). cbn [deref outcome_bind].
  rewrite (ventry_put_spec _ c (set_e_ref (e_ref e + 1) e)) by (done || apply (with_ref_lookup c _ s e He) || (simpl; lia)).
  cbn [outcome_bind]. rewrite with_ref_twice. simpl. replace (e_ref e + 1 - 1) with (e_ref e) by lia.
  rewrite with_ref_id, strncmp_eq_name by done. case_bool_decide as Hm.
  - by rewrite filter_cons_True by (unfold named; by rewrite He, <- Hm).
  - rewrite filter_cons_False by (unfold named; rewrite He; simpl; congruence). apply IH. set_solver.
Qed.

Lemma child_in s a name : child s a name <> 0 ->
  exists e, entries s !! a = Some e /\ child s a name ∈ e_children e /\ named s name (child s a name).
Proof.
  unfold child. destruct (entries s !! a) as [e|]; [|done]. intros Hc. exists e. split; [done|].
  destruct (filter (named s name) (e_children e)) as [|c l] eqn:E; [done|]. simpl in *.
  assert (c ∈ filter (named s name) (e_children e)) as Hin by (rewrite E; set_solver).
  apply list_elem_of_filter in Hin as [??]. done.
Qed.

Lemma child_eq s a e name c : tree_shape s -> entries s !! a = Some e -> c ∈ e_children e -> named s name c ->
  child s a name = c.
Proof.
  intros Ht He Hc Hn. unfold child. rewrite He.
  destruct (filter (named s name) (e_children e)) as [|x l] eqn:E.
  - assert (c ∈ filter (named s name) (e_children e)) as Hin by (by apply list_elem_of_filter).
    rewrite E in Hin. set_solver.
  - assert (x ∈ filter (named s name) (e_children e)) as Hin by (rewrite E; set_solver).
    apply list_elem_of_filter in Hin as [Hnx Hx]. simpl. by eapply (ts_unique s Ht).
Qed.

Lemma child_entry_spec s C a name : tree_ok s C -> is_Some (entries s !! a) -> refs_below s (2 ^ 32 - 1) ->
  name_ok name ->
  exists s' C', child_entry iops_at s a name = Ok (WGo (child s a name) a, s') /\ same_tree s s' /\ tree_ok s' C'.
Proof.
  intros Htree [e He] Hb Hname. pose proof Htree as (Ht & Hrep & Hcp). unfold child_entry.
  destruct (dcache_get_spec s C a name Hrep Hname) as (r & -> & Hf). cbn [outcome_bind].
  destruct (Z.eqb_spec r 0) as [->|Hr]; cbn [negb].
  - destruct (ts_entry s Ht a e He) as (_ & _ & _ & n & ops & Hn & Hops & Hlk).
    unfold get_entry, get_node. rewrite He. cbn [deref outcome_bind]. rewrite Hn. cbn [deref outcome_bind].
    rewrite Hops. cbn [deref outcome_bind]. rewrite Hlk. unfold generic_fs_lookup, get_entry. rewrite He.
    cbn [deref outcome_bind]. rewrite generic_lookup_loop_spec; [|done| |done].
    2: { intros c Hc. destruct (ts_child s Ht a e c He Hc) as (_ & ec & Hec & _). exists ec. split; [done|].
         destruct (ts_entry s Ht c ec Hec) as (_ & Hok & Hnz & _). done. }
    cbn [outcome_bind]. assert (default 0 (head (filter (named s name) (e_children e))) = child s a name) as ->
      by (unfold child; by rewrite He).
    destruct (Z.eqb_spec (child s a name) 0) as [E|E].
    + exists s, C. split; [by rewrite E|done].
    + destruct (child_in s a name E) as (e' & He' & Hin & Hnm). simplify_eq.
      destruct (ts_child s Ht a e _ He Hin) as (_ & ec & Hec & Hp & _).
      destruct (ts_entry s Ht _ ec Hec) as (_ & Hok & _). unfold named in Hnm. rewrite Hec in Hnm. simplify_eq/=.
      destruct (ts_entry s Ht _ e He) as (Ha0 & _).
      destruct (dcache_insert_spec s C (child s (e_parent ec) (e_name ec)) ec) as (s' & -> & Hrep' & Hs' & _); try done.
      { intros Hin'. destruct Hf as [[_ Hn']|[_ (e0 & He0 & _)]]; [by eapply Hn'|]. by destruct (ts_entry s Ht 0 e0 He0). }
      exists s', ({[child s (e_parent ec) (e_name ec)]} ∪ C). split; [done|]. split; [done|].
      eapply tree_ok_same; [done..|]. intros x. rewrite elem_of_union, elem_of_singleton. intros [->|?]; [right|by left].
      unfold parent_of. by rewrite Hec.
  - destruct Hf as [[? _]|[Hin (er & Her & <- & <-)]]; [done|].
    assert (e_parent er <> 0) as Hp by (specialize (Hcp r Hin); unfold parent_of in Hcp; by rewrite Her in Hcp).
    destruct (ts_parent s Ht r er Her Hp) as (p & Hpe & Hr'). simplify_eq.
    rewrite (child_eq s (e_parent er) e (e_name er) r) by (done || unfold named; by rewrite Her).
    by exists s, C.
Qed.

Lemma find_mount_spec s ms a : (forall m, m ∈ ms -> exists ops, sops_at (fs_sb_ops (m_fs m)) = Some ops /\
    forall s' sb, so_root ops s' sb = Ok (RVal 0, sb_data sb, s')) ->
  find_mount sops_at s ms a = Ok (head (filter (fun m => sb_data (m_sb m) = a) ms), s).
Proof.
  induction ms as [|m ms IH]; intros Hm; [done|]. simpl. unfold mount_root.
  destruct (Hm m ltac:(set_solver)) as (ops & -> & Hroot). cbn [deref outcome_bind]. rewrite Hroot.
  cbn [outcome_bind failed]. change (0 <? 0) with false. cbn [negb andb].
  destruct (Z.eqb_spec (sb_data (m_sb m)) a) as [E|E].
  - by rewrite filter_cons_True.
  - rewrite filter_cons_False by done. apply IH. set_solver.
Qed.

Lemma dotdot_spec s C a : tree_ok s C -> is_Some (entries s !! a) ->
  dotdot sops_at s a = Ok (WGo (up s a) a, s).
Proof.
  intros (Ht & _) [e He]. unfold dotdot, up, parent_of, get_entry. rewrite He. cbn [deref outcome_bind fmap option_fmap option_map default].
  simpl. destruct (Z.eqb_spec (e_parent e) 0) as [E|E]; [|done]. simpl.
  rewrite find_mount_spec by (intros m Hm; apply (ts_mount s Ht m Hm)). cbn [outcome_bind].
  destruct (head _) as [m|] eqn:Eh; [|done].
  assert (m ∈ mounts s) as Hm.
  { destruct (filter _ (mounts s)) as [|m' l] eqn:Ef; simplify_eq/=.
    assert (m ∈ filter (fun m => sb_data (m_sb m) = a) (mounts s)) as Hin by (rewrite Ef; set_solver).
    by apply list_elem_of_filter in Hin as [_ ?]. }
  destruct (Z.eqb_spec (m_mountpoint m) (root_node s)); [done|].
  destruct (ts_mount s Ht m Hm) as (_ & [pe Hpe] & _). by rewrite Hpe.
Qed.

(** Crossing a mount in the code is [crossed]. *)
Lemma cross_spec s C a : tree_ok s C -> is_Some (entries s !! a) ->
  is_Some (entries s !! crossed s a) /\
  ((is_mountpoint s a = Ok false /\ crossed s a = a) \/
   (is_mountpoint s a = Ok true /\ traverse_mount sops_at s a = Ok (crossed s a, s))).
Proof.
  intros (Ht & _) [e He]. unfold crossed, is_mountpoint, traverse_mount, get_entry.
  destruct (Z.eqb_spec a (root_node s)) as [->|Ha]; [split; [by eexists|by left]|].
  rewrite He. simpl. destruct (e_mount e) as [m|] eqn:Em; simpl.
  - destruct (ts_mount s Ht m (ts_mounted s Ht a e m He Em)) as (Hlive & _ & ops & Hops & Hroot).
    split; [done|]. right. split; [done|]. unfold mount_root. rewrite Hops. simpl. by rewrite Hroot.
  - split; [by eexists|]. by left.
Qed.

Lemma refs_below_same s s' n : same_tree s s' -> refs_below s n -> refs_below s' n.
Proof.
  intros Hs Hb a e He. destruct (same_tree_entry s' s a e (eq_sym Hs) He) as (e' & He' & <- & _). eauto.
Qed.

Lemma live_same s s' a : same_tree s s' -> is_Some (entries s !! a) -> is_Some (entries s' !! a).
Proof. intros Hs. apply shape_live. by apply same_tree_shape. Qed.

Lemma step_same s s' a c : shape s = shape s' -> step s a c = step s' a c.
Proof. intros Hs. by rewrite <- (step_shape s), Hs, step_shape. Qed.

(** One step of the walk, from a state in which [a] has been referenced. *)
Lemma next_entry_spec s C a e c : tree_ok s C -> entries s !! a = Some e -> refs_below s (2 ^ 32 - 2) -> name_ok c ->
  exists cur s2 s3 C',
    next_entry iops_at sops_at (with_ref a (e_ref e + 1) s) a c = Ok (WGo (step s a c) cur, s2) /\
    ventry_put s2 cur = Ok s3 /\ same_tree s s3 /\ tree_ok s3 C'.
Proof.
  intros Htree He Hb Hc. destruct (ref_bracket s C a e Htree He Hb) as (_ & Ht1 & Hb1 & Hput).
  set (s1 := with_ref a (e_ref e + 1) s) in *.
  assert (is_Some (entries s1 !! a)) as Hlive by (eexists; by apply with_ref_lookup).
  rewrite (step_same s s1) by (symmetry; apply with_ref_shape). unfold next_entry, step.
  case_bool_decide; [|case_bool_decide].
  - destruct (Hput s1 C) as (s3 & Hs3 & ? & ?); [done..|]. by exists a, s1, s3, C.
  - rewrite (dotdot_spec s1 C) by done. destruct (Hput s1 C) as (s3 & Hs3 & ? & ?); [done..|]. by exists a, s1, s3, C.
  - destruct (cross_spec s1 C a Ht1 Hlive) as ([eb Heb] & [[-> Hcr]|[-> ->]]); cbn [outcome_bind].
    + rewrite Hcr. destruct (child_entry_spec s1 C a c Ht1 Hlive Hb1 Hc) as (s2 & C' & -> & Hs2 & Ht2).
      destruct (Hput s2 C' Hs2 Ht2) as (s3 & Hs3 & ? & ?). by exists a, s2, s3, C'.
    + set (b := crossed s1 a) in *. destruct (Z.eqb_spec b 0) as [E|_].
      { destruct Ht1 as (Ht & _). by destruct (ts_entry s1 Ht b eb Heb). }
      destruct (Hput s1 C) as (s1' & -> & Hs1' & Ht1'); [done..|]. cbn [outcome_bind].
      assert (shape s1 = shape s1') as Hsh.
      { unfold s1. rewrite with_ref_shape. by apply same_tree_shape. }
      destruct (shape_live s1 s1' b Hsh) as [eb' Heb']; [by eexists|].
      destruct (ref_bracket s1' C b eb' Ht1' Heb') as (-> & Ht2 & Hb2 & Hput'); [by eapply refs_below_same|].
      cbn [outcome_bind].
      destruct (child_entry_spec _ C b c Ht2) as (s2 & C' & -> & Hs2 & Ht2'); [eexists; by apply with_ref_lookup|done..|].
      destruct (Hput' s2 C' Hs2 Ht2') as (s3 & Hs3 & Hs3' & Ht3). exists b, s2, s3, C'.
      split; [|split; [done|split; [by etransitivity|done]]].
      by rewrite <- (child_shape (with_ref _ _ _)), with_ref_shape, <- Hsh, child_shape.
Qed.

Lemma up_live s C a : tree_ok s C -> is_Some (entries s !! a) -> up s a = 0 \/ is_Some (entries s !! up s a).
Proof.
  intros (Ht & _) [e He].
  assert (forall x, is_Some (entries s !! x) -> parent_of s x = 0 \/ is_Some (entries s !! parent_of s x)) as Hpar.
  { intros x [ex Hx]. unfold parent_of. rewrite Hx. simpl. destruct (Z.eq_dec (e_parent ex) 0); [by left|right].
    destruct (ts_parent s Ht x ex Hx) as (p & -> & _); by eauto. }
  unfold up. destruct (Hpar a ltac:(by eexists)) as [->|Hp]; simpl.
  - destruct (head _) as [m|] eqn:Eh; [|by left].
    destruct (Z.eqb_spec (m_mountpoint m) (root_node s)); [right; apply (ts_root s Ht)|]. apply Hpar.
    destruct (filter _ (mounts s)) as [|m' l] eqn:Ef; simplify_eq/=.
    assert (m ∈ filter (fun m => sb_data (m_sb m) = a) (mounts s)) as Hin by (rewrite Ef; set_solver).
    apply list_elem_of_filter in Hin as [_ Hin]. by destruct (ts_mount s Ht m Hin) as (_ & ? & _).
  - destruct (Z.eqb_spec (parent_of s a) 0); simpl; [|by right]. destruct Hp as [p Hp]. by destruct (ts_entry s Ht _ p Hp).
Qed.

Lemma child_live s a name : tree_shape s -> child s a name = 0 \/ is_Some (entries s !! child s a name).
Proof.
  intros Ht. destruct (Z.eq_dec (child s a name) 0) as [|Hc]; [by left|right].
  destruct (child_in s a name Hc) as (e & He & Hin & _). destruct (ts_child s Ht a e _ He Hin) as (_ & ec & -> & _). by eexists.
Qed.

Lemma step_live s C a c : tree_ok s C -> is_Some (entries s !! a) -> step s a c = 0 \/ is_Some (entries s !! step s a c).
Proof.
  intros Ht Ha. unfold step. case_bool_decide; [by right|]. case_bool_decide; [by eapply up_live|].
  apply child_live, Ht.
Qed.

(** ** Components *)

Definition nul_slash (c : Z) : Z := if c =? 47 then 0 else c.

Lemma component_of_slash p : component_of (nul_slash <$> 47 :: p) = [].
Proof. done. Qed.

Lemma component_of_char c p : c <> 47 -> c <> 0 ->
  component_of (nul_slash <$> c :: p) = c :: component_of (nul_slash <$> p).
Proof.
  intros Hc H0. rewrite fmap_cons. cbn [component_of]. unfold nul_slash at 1 2.
  destruct (Z.eqb_spec c 47); [done|]. by destruct (Z.eqb_spec c 0).
Qed.

Lemma components_word p : forall u, 0 ∉ p ->
  let w := component_of (nul_slash <$> p) in
  components_from u p = (if bool_decide (u ++ w = []) then [] else [u ++ w]) ++ components (drop (S (length w)) p).
Proof.
  induction p as [|c p IH]; intros u Hz; cbn zeta; [by simpl; rewrite app_nil_r, app_nil_r|].
  cbn [components_from]. destruct (Z.eqb_spec c 47) as [->|Hc].
  - rewrite component_of_slash, app_nil_r. done.
  - assert (c <> 0) by set_solver. rewrite component_of_char, IH by set_solver. cbn [length drop].
    by rewrite <- !app_assoc.
Qed.

Lemma components_none p : 0 ∉ p -> forallb (fun c => c =? 0) (nul_slash <$> p) = bool_decide (components p = []).
Proof.
  induction p as [|c p IH]; intros Hz; [done|]. rewrite fmap_cons. cbn [forallb]. unfold nul_slash at 1, components.
  cbn [components_from]. destruct (Z.eqb_spec c 47) as [->|Hc].
  - apply IH. set_solver.
  - destruct (Z.eqb_spec c 0) as [->|]; [set_solver|]. cbn [andb]. by rewrite (components_word p ([] ++ [c])) by set_solver.
Qed.

Lemma component_of_facts q : 0 ∉ q ->
  let w := component_of (nul_slash <$> q) in
  (length w <= length q)%nat /\ (0 ∉ w) /\
  forallb (fun c => c =? 0) (drop (length w) (nul_slash <$> q)) =
    bool_decide (components (drop (S (length w)) q) = []).
Proof.
  cbn zeta. induction q as [|d q IH]; intros Hz; [split; [done|split; [set_solver|done]]|].
  destruct (decide (d = 47)) as [->|Hd].
  - rewrite component_of_slash. split; [simpl; lia|]. split; [set_solver|].
    change (forallb (fun c => c =? 0) (nul_slash <$> q) = bool_decide (components q = [])).
    apply components_none. set_solver.
  - assert (d <> 0) by set_solver. rewrite component_of_char by done.
    destruct IH as (H1 & H2 & H3); [set_solver|]. split; [simpl; lia|]. split; [set_solver|]. exact H3.
Qed.

(** The head of a path that starts with a character of a component. *)
Lemma components_cons c p : c <> 47 -> 0 ∉ c :: p ->
  let w := component_of (nul_slash <$> c :: p) in
  components (c :: p) = w :: components (drop (S (length w)) (c :: p)).
Proof.
  intros Hc Hz. assert (c <> 0) by set_solver. cbn zeta.
  unfold components at 1. rewrite (components_word (c :: p) []) by done.
  rewrite bool_decide_eq_false_2; [done|]. by rewrite component_of_char.
Qed.

(** ** The whole walk *)

Lemma resolve_same s s' a p parent : shape s = shape s' -> resolve s a p parent = resolve s' a p parent.
Proof. intros Hs. by rewrite <- (resolve_shape s), Hs, resolve_shape. Qed.

Lemma lookup_loop_spec fuel flags : forall s C a p, (length p <= fuel)%nat -> (length p < 64)%nat -> 0 ∉ p ->
  tree_ok s C -> refs_below s (2 ^ 32 - 2) -> (a = 0 \/ is_Some (entries s !! a)) ->
  exists s' C',
    lookup_loop iops_at sops_at fuel s (nul_slash <$> p) a flags =
      Ok (resolve s a (components p) (has flags LOOKUP_PARENT), s') /\
    same_tree s s' /\ tree_ok s' C'.
Proof.
  induction fuel as [|fuel IH]; intros s C a p Hf Hl Hz Ht Hb Ha; (destruct p as [|c p]; [by exists s, C|]); [simpl in Hf; lia|].
  assert (c <> 0) as Hc0 by set_solver. simpl in Hf.
  destruct (decide (c = 47)) as [->|Hc].
  { destruct (IH s C a p) as (s' & C' & Hr & Hs); [lia|simpl in Hl; lia|set_solver|done..|]. exists s', C'. by split. }
  pose proof (component_of_facts (c :: p) Hz) as (Hlen & Hzw & Hlast). rewrite (components_cons c p Hc Hz).
  set (w := component_of (nul_slash <$> c :: p)) in *.
  assert (name_ok w) as Hname by (split; [simpl in Hlen, Hl; lia|done]).
  assert (nul_slash c = c) as Hns by (unfold nul_slash; by destruct (Z.eqb_spec c 47)).
  assert (component_of (c :: (nul_slash <$> p)) = w) as Hw by (unfold w; by rewrite fmap_cons, Hns).
  rewrite fmap_cons, Hns in *. cbn [lookup_loop resolve]. rewrite Hw.
  destruct (Z.eqb_spec c 0) as [|_]; [done|]. destruct (Z.eqb_spec a 0) as [->|Ha0]; [by exists s, C|].
  destruct Ha as [|[e He]]; [done|]. destruct (ref_bracket s C a e Ht He Hb) as (-> & Ht1 & _ & Hput).
  cbn [outcome_bind]. unfold get_entry at 1. rewrite (with_ref_lookup a _ s e He). cbn [deref outcome_bind].
  pose proof Ht as (Hsh & _). destruct (ts_entry s Hsh a e He) as (_ & _ & _ & n & ops & Hn & _).
  unfold get_node at 1. change (nodes (with_ref a (e_ref e + 1) s)) with (nodes s).
  change (e_node (set_e_ref (e_ref e + 1) e)) with (e_node e). rewrite Hn. cbn [deref outcome_bind].
  assert (is_dir s a = S_ISDIR (n_mode n)) as -> by (unfold is_dir; by rewrite He, Hn).
  destruct (Hput _ C ltac:(done) Ht1) as (s3 & Hs3 & Hsame3 & Ht3).
  destruct (S_ISDIR (n_mode n)); cbn [negb]; [|rewrite Hs3; by exists s3, C].
  rewrite Hlast, (andb_comm _ (has _ _)). destruct (has flags LOOKUP_PARENT && _); [rewrite Hs3; by exists s3, C|].
  destruct (next_entry_spec s C a e w Ht He Hb Hname) as (cur & s4 & s5 & C5 & -> & Hput5 & Hsame5 & Ht5).
  cbn [outcome_bind]. rewrite Hput5. cbn [outcome_bind].
  replace (drop (S (length w)) (c :: (nul_slash <$> p))) with (nul_slash <$> drop (S (length w)) (c :: p))
    by (rewrite fmap_drop, fmap_cons, Hns; done).
  destruct (IH s5 C5 (step s a w) (drop (S (length w)) (c :: p))) as (s' & C' & Hr & Hs & Ht'); [..|].
  - rewrite length_drop. simpl. lia.
  - rewrite length_drop. lia.
  - intros Hin. apply Hz. rewrite <- (take_drop (S (length w)) (c :: p)). set_solver.
  - done.
  - by eapply refs_below_same.
  - destruct (step_live s C a w Ht ltac:(by eexists)); [by left|right; by eapply live_same].
  - exists s', C'. rewrite Hr. split; [|split; [by etransitivity|done]].
    do 2 f_equal. apply resolve_same. symmetry. by apply same_tree_shape.
Qed.

Lemma cross_mount_spec s C a : tree_ok s C -> is_Some (entries s !! a) ->
  cross_mount sops_at s a = Ok (RVal 0, crossed s a, s).
Proof.
  intros Ht Ha. unfold cross_mount. destruct (cross_spec s C a Ht Ha) as ([e He] & [[-> ->]|[-> ->]]); cbn [outcome_bind]; [done|].
  destruct Ht as (Hsh & _). destruct (Z.eqb_spec (crossed s a) 0); [|done]. by destruct (ts_entry s Hsh _ e He).
Qed.

Lemma components_single name : component_ok name -> 0 ∉ name -> components name = [name].
Proof.
  intros (Hne & Hs & _) Hz. assert (forall u p, 47 ∉ p -> u ++ p <> [] -> components_from u p = [u ++ p]) as H.
  { intros u p. revert u. induction p as [|c p IH]; intros u Hp Hu.
    - rewrite app_nil_r in *. simpl. by rewrite bool_decide_eq_false_2.
    - cbn [components_from]. destruct (Z.eqb_spec c 47); [set_solver|].
      rewrite IH, <- app_assoc; [done|set_solver|by destruct u]. }
  by apply H.
Qed.

Lemma lookup_result_same s s' r : shape s = shape s' -> lookup_result s r = lookup_result s' r.
Proof. intros Hs. by rewrite <- (lookup_result_shape s), Hs, lookup_result_shape. Qed.

Lemma resolve_live s C parent p : forall a r, tree_ok s C -> (a = 0 \/ is_Some (entries s !! a)) ->
  resolve s a p parent = inr r -> r = 0 \/ is_Some (entries s !! r).
Proof.
  induction p as [|c p IH]; intros a r Ht Ha Hr; simpl in Hr; [by simplify_eq|].
  destruct (Z.eqb_spec a 0) as [|Ha0]; [simplify_eq; by left|]. destruct Ha as [|Ha]; [done|].
  destruct (negb (is_dir s a)); [done|]. case_match; [simplify_eq; by right|].
  eapply IH; [done| |done]. by eapply step_live.
Qed.

Lemma vfs_lookup_at_spec s C parent path flags : tree_ok s C -> refs_below s (2 ^ 32 - 2) ->
  is_Some (entries s !! parent) -> crossed s parent = parent -> name_ok path ->
  exists s' C' r a, vfs_lookup_at iops_at sops_at s parent path flags = Ok (r, a, s') /\
    (r, a) = lookup_result s (resolve s parent (components path) (has flags LOOKUP_PARENT)) /\
    same_tree s s' /\ tree_ok s' C'.
Proof.
  intros Htree Hb [ep Hep] Hcr Hpath. pose proof Htree as (Hsh & Hrep & Hcp).
  assert (parent <> 0) as Hp0 by by destruct (ts_entry s Hsh parent ep Hep).
  unfold vfs_lookup_at. destruct (dcache_get_spec s C parent path Hrep Hpath) as (hit & -> & Hf). cbn [outcome_bind].
  destruct (Z.eqb_spec hit 0) as [->|Hhit]; cbn [negb].
  - destruct (lookup_loop_spec (length path) flags s C parent path) as (s' & C' & Hr & Hs & Ht');
      [done|apply Hpath|apply Hpath|done|done|right; by eexists|].
    change (fun c => if c =? 47 then 0 else c) with nul_slash. rewrite Hr. cbn [outcome_bind].
    destruct (resolve s parent (components path) _) as [e|a] eqn:Er; cbn [lookup_result]; [by eexists s', C', _, _|].
    destruct (Z.eqb_spec a 0) as [|Ha0]; [by eexists s', C', _, _|].
    destruct (resolve_live s C _ _ parent a Htree (or_intror (ex_intro _ ep Hep)) Er) as [|Ha]; [done|].
    rewrite (cross_mount_spec s' C') by (done || by eapply live_same).
    eexists s', C', _, _. split; [done|]. split; [|done].
    by rewrite <- (crossed_shape s), (same_tree_shape s s' Hs), crossed_shape.
  - destruct Hf as [[? _]|[Hin (er & Her & <- & <-)]]; [done|].
    destruct (ts_parent s Hsh hit er Her Hp0) as (p & Hpe & Hch). simplify_eq.
    destruct (ts_child s Hsh _ ep hit Hep Hch) as (Hdir & ec & Hec & _ & Hcok). simplify_eq.
    assert (child s (e_parent er) (e_name er) = hit) as Hchild
      by (eapply child_eq; [done|done|done|unfold named; by rewrite Her]).
    unfold get_entry. rewrite Her. cbn [deref outcome_bind].
    rewrite (components_single (e_name er)) by (done || apply Hpath). cbn [resolve].
    destruct (Z.eqb_spec (e_parent er) 0); [done|]. rewrite Hdir, bool_decide_eq_true_2, andb_true_r by done. cbn [negb].
    assert (step s (e_parent er) (e_name er) = hit) as ->.
    { unfold step. rewrite Hcr. destruct Hcok as (_ & _ & H1 & H2). by rewrite !bool_decide_eq_false_2. }
    destruct (has flags LOOKUP_PARENT); (rewrite (cross_mount_spec s C) by (done || by eexists));
      eexists s, C, _, _; (split; [done|]); cbn [lookup_result];
      [by destruct (Z.eqb_spec (e_parent er) 0)|by destruct (Z.eqb_spec hit 0)].
Qed.

(** Where [vfs_lookup] starts, and the rest of the path. *)
Definition lookup_start (s : vfs D) (path : list Z) : option (Z * list Z) :=
  match path with
  | 47 :: rest => Some (root_node s, rest)
  | _ => t ← cur_task s; Some (t_cwd t, path)
  end.

(** A path that starts at a live directory that nothing is mounted on. *)
Definition path_ok (s : vfs D) (path : list Z) (start : Z) (rest : list Z) : Prop :=
  lookup_start s path = Some (start, rest) /\ is_Some (entries s !! start) /\ crossed s start = start /\ name_ok rest.

Lemma vfs_lookup_start s path start rest flags : lookup_start s path = Some (start, rest) ->
  vfs_lookup iops_at sops_at s path flags = vfs_lookup_at iops_at sops_at s start rest flags.
Proof.
  intros Hst. unfold vfs_lookup, lookup_start in *. repeat case_match; simplify_option_eq; try done.
  all: by repeat match goal with H : cur_task _ = _ |- _ => rewrite H end.
Qed.

Lemma vfs_lookup_spec s C path start rest flags : tree_ok s C -> refs_below s (2 ^ 32 - 2) ->
  path_ok s path start rest ->
  exists s' C' r a, vfs_lookup iops_at sops_at s path flags = Ok (r, a, s') /\
    (r, a) = lookup_result s (resolve s start (components rest) (has flags LOOKUP_PARENT)) /\
    same_tree s s' /\ tree_ok s' C'.
Proof.
  intros Ht Hb (Hst & Hlive & Hcr & Hname). rewrite (vfs_lookup_start s path start rest) by done.
  by apply vfs_lookup_at_spec with C.
Qed.

(** C4: path lookup is path resolution.  On a tree of in-memory file systems
    [vfs_lookup_at] returns what the reference walk over the components of
    the path returns, with its error when a component is missing or is not a
    directory, crossing mounts in both directions; it terminates, leaves no
    reference behind and changes nothing but the links of the cache. *)
Theorem vfs_lookup_at_resolves s C parent path flags : tree_ok s C -> refs_below s (2 ^ 32 - 2) ->
  is_Some (entries s !! parent) -> crossed s parent = parent -> name_ok path ->
  exists s' C' r a, vfs_lookup_at iops_at sops_at s parent path flags = Ok (r, a, s') /\
    (r, a) = lookup_result s (resolve s parent (components path) (has flags LOOKUP_PARENT)) /\
    same_tree s s' /\ tree_ok s' C'.
Proof. apply vfs_lookup_at_spec. Qed.

End tree.

(** ** An example tree: [/a/b], where [/a] is a directory and [/a/b] a file *)

Section example.
Context {D : Type} (d : D).

Definition generic_iops : inode_ops D :=
  mk_inode_ops (Some generic_fs_lookup) (Some generic_fs_mkdir) (Some generic_fs_create) (Some generic_fs_mknod)
    (Some generic_fs_getdents).

Definition example_iops (a : Z) : option (inode_ops D) := if a =? 1 then Some generic_iops else None.
Definition example_sops (a : Z) : option (super_ops D) :=
  if a =? 1 then Some (mk_super_ops (fun s _ => Panic) (fun s sb => Ok (RVal 0, sb_data sb, s))) else None.

Definition example_fs : filesystem := mk_filesystem [114] FS_FLAG_NODEV 1 1 1.
Definition example_mount : mount := mk_mount example_fs (mk_superblock example_fs 0 16) 16.

Definition example_dir : vnode := mk_vnode (S_IFDIR + 0x1ff) 0 0 0 0 1 0 0 1 1.
Definition example_file (refs : Z) : vnode := mk_vnode (S_IFREG + 0x1b6) 0 0 0 0 1 refs 0 1 1.

(** [refs] descriptors of [files] are open on [/a/b]. *)
Definition example_state (refs : Z) (files : list file_descriptor) : vfs D :=
  mk_vfs {[100 := example_dir; 116 := example_dir; 132 := example_file refs]}
    {[16 := mk_ventry [47] 100 0 [32] 0 (Some example_mount) 0;
      32 := mk_ventry [97] 116 16 [48] 0 None 0;
      48 := mk_ventry [98] 132 32 [] 0 None refs]}
    (replicate 1024 0) 16 [example_mount] files [example_fs] devices_init devices_init None 256 d.

Definition no_files : list file_descriptor := replicate 64 (mk_fd 0 0 0 0 0).
Definition example_tree : vfs D := example_state 0 no_files.

Section facts.
Context (refs : Z) (files : list file_descriptor).

Lemma example_entries a e : entries (example_state refs files) !! a = Some e ->
  (a = 16 /\ e = mk_ventry [47] 100 0 [32] 0 (Some example_mount) 0) \/
  (a = 32 /\ e = mk_ventry [97] 116 16 [48] 0 None 0) \/
  (a = 48 /\ e = mk_ventry [98] 132 32 [] 0 None refs).
Proof.
  unfold example_state. cbn [entries]. rewrite !lookup_insert_Some, lookup_singleton_Some. naive_solver.
Qed.

Lemma example_shape : tree_shape example_iops example_sops (example_state refs files).
Proof.
  split.
  - intros a e He. apply example_entries in He as [[-> ->]|[[-> ->]|[-> ->]]];
      (split; [done|]); (split; [split; [simpl; lia|set_solver]|]); (split; [done|]);
      eexists _, generic_iops; by repeat split.
  - intros a e c He Hc. apply example_entries in He as [[-> ->]|[[-> ->]|[-> ->]]]; simpl in Hc;
      [| |set_solver]; apply list_elem_of_singleton in Hc as ->; (split; [done|]); eexists; (split; [done|]);
      (split; [done|]); by repeat split; set_solver.
  - intros a e He. apply example_entries in He as [[-> ->]|[[-> ->]|[-> ->]]]; simpl; intros; [done| |];
      eexists; (split; [done|]); set_solver.
  - intros a e c c' name He Hc Hc' _ _. apply example_entries in He as [[-> ->]|[[-> ->]|[-> ->]]]; set_solver.
  - by eexists.
  - intros m Hm. apply list_elem_of_singleton in Hm as ->. split; [by eexists|]. split; [by eexists|].
    eexists. split; [done|]. done.
  - intros a e m He Hm. apply example_entries in He as [[-> ->]|[[-> ->]|[-> ->]]]; simplify_eq/=. set_solver.
Qed.

Lemma example_ok : tree_ok example_iops example_sops (example_state refs files) ∅.
Proof.
  split; [apply example_shape|]. split; [|set_solver].
  split; [apply length_replicate|]. exists (fun _ => []). split; [|set_solver].
  intros hash Hh. split; [|split; [constructor|done]]. exists 0. split; [|done]. by apply lookup_replicate_2.
Qed.

Lemma example_refs : 0 <= refs < 100 -> refs_below (example_state refs files) (2 ^ 32 - 2).
Proof. intros Hr a e He. apply example_entries in He as [[-> ->]|[[-> ->]|[-> ->]]]; simpl; lia. Qed.
End facts.
End example.

(** [/a/../a//b] resolves to the file. *)
Lemma vfs_lookup_at_resolves_witness :
  exists s' C' r a,
    vfs_lookup_at example_iops example_sops (example_tree tt) 16 [97; 47; 46; 46; 47; 97; 47; 47; 98] 0 = Ok (r, a, s') /\
    (r, a) = (RVal 0, 48) /\ same_tree (example_tree tt) s' /\ tree_ok example_iops example_sops s' C'.
Proof.
  apply (vfs_lookup_at_resolves example_iops example_sops (example_tree tt) ∅ 16 [97; 47; 46; 46; 47; 97; 47; 47; 98] 0).
  - apply example_ok.
  - apply example_refs. lia.
  - eexists. reflexivity.
  - reflexivity.
  - split; [simpl; lia|set_solver].
Defined.
