(* ===== verification/Vfs.v ===== *)
(** * The virtual file system

    kernel/fs/vfs.c, kernel/fs/super.c, kernel/fs/filesystem.c and the system
    calls of kernel/fs/vfs_sys.c.  An open file is an index of the table
    [open_files]; a task's descriptors are indices of its own table, which
    holds indices of [open_files].  Reads return the bytes that they store in
    the caller's buffer, writes are given the bytes of theirs. *)

From stdpp Require Import base numbers list gmap sets.
From Stdlib Require Import ZArith Lia.
From S2P Require Import Prelude Sched Device Dcache Lookup Vmm.

Definition O_CREAT : Z := 0x40.
Definition SEEK_SET : Z := 0.
Definition SEEK_CUR : Z := 1.
Definition SEEK_END : Z := 2.
Definition AT_FDCWD : Z := -100.

(** The fields of [struct stat] that [stat_fill] takes from the node; the
    others are set to zero or left alone. *)
Record stat := mk_stat {
  st_nlink : Z; st_mode : Z; st_uid : Z; st_gid : Z; st_rdev : Z; st_size : Z
}.

(** The file operations of ops.h; [mmap] is called by the address space layer
    and appears in the interface of Vmm.v. *)
Record file_ops (D : Type) := mk_file_ops {
  fo_open : option (vfs D -> Z -> Z -> outcome (ret * vfs D));
  fo_close : option (vfs D -> Z -> outcome (ret * vfs D));
  fo_read : option (vfs D -> Z -> Z -> outcome (ret * list Z * vfs D));
  fo_write : option (vfs D -> Z -> list Z -> outcome (ret * vfs D));
  fo_ioctl : option (vfs D -> Z -> Z -> Z -> outcome (ret * vfs D));
}.
Arguments fo_open {D}.
Arguments fo_close {D}.
Arguments fo_read {D}.
Arguments fo_write {D}.
Arguments fo_ioctl {D}.

(** ** filesystem.c *)

Section filesystem.
Context {D : Type}.

Definition filesystem_register (s : vfs D) (fs : filesystem) (name : list Z) : vfs D :=
  set_filesystems (filesystems s ++
    [mk_filesystem (take 32 name) (fs_flags fs) (fs_iops fs) (fs_fops fs) (fs_sb_ops fs)]) s.

Fixpoint find_filesystem (l : list filesystem) (name : list Z) : option filesystem :=
  match l with
  | [] => None
  | cur :: l => if strncmp_eq (fs_name cur) name 32 then Some cur else find_filesystem l name
  end.

Definition filesystem_lookup (s : vfs D) (name : list Z) : option filesystem := find_filesystem (filesystems s) name.
End filesystem.

(** ** vfs.c *)

Section vfs.
Context {D : Type}.
Context (iops_at : Z -> option (inode_ops D)) (sops_at : Z -> option (super_ops D)) (fops_at : Z -> option (file_ops D)).
Context (socket_put : D -> Z -> outcome D).

(** The value of a function that ends without a return statement. *)
Context (no_return : ret).

Abbreviation vfs_lookup := (vfs_lookup iops_at sops_at).
Abbreviation vfs_lookup_at := (vfs_lookup_at iops_at sops_at).

(** What follows the last slash before the final character.  On an empty path
    the bound [plen - 1] wraps and the loop reads past the string. *)
Fixpoint basename_loop (path : list Z) (plen : nat) (basename : list Z) : list Z :=
  match plen, path with
  | S (S plen), c :: rest => basename_loop rest (S plen) (if c =? 47 then rest else basename)
  | _, _ => basename
  end.

Definition basename_of (path : list Z) : outcome (list Z) :=
  match path with [] => Fault | _ => Ok (basename_loop path (length path) path) end.

Definition node_iops (s : vfs D) (entry : Z) : outcome (inode_ops D) :=
  let* e := get_entry s entry in
  let* n := get_node s (e_node e) in
  deref (iops_at (n_iops n)).

(** The common beginning of [vfs_create], [vfs_mkdir] and [vfs_mknod]: the
    parent directory and the name that is still free in it. *)
Definition lookup_free (s : vfs D) (path : list Z) : outcome ((ret + Z * list Z) * vfs D) :=
  let* (status, parent, s) := vfs_lookup s path LOOKUP_PARENT in
  if failed status then Ok (inl status, s)
  else
    let* basename := basename_of path in
    let* (status, _, s) := vfs_lookup_at s parent basename 0 in
    if negb (failed status) then Ok (inl (RErr EEXIST), s) else Ok (inr (parent, basename), s).

Definition vfs_create (s : vfs D) (path : list Z) (mode : Z) : outcome (ret * vfs D) :=
  let* (r, s) := lookup_free s path in
  match r with
  | inl status => Ok (status, s)
  | inr (parent, basename) =>
      let* iops := node_iops s parent in
      match io_create iops with
      | None => Ok (RErr ENOENT, s)
      | Some create => create s parent basename mode
      end
  end.

Definition vfs_mkdir (s : vfs D) (path : list Z) (mode : Z) : outcome (ret * vfs D) :=
  let* (r, s) := lookup_free s path in
  match r with
  | inl status => Ok (status, s)
  | inr (parent, basename) =>
      let* iops := node_iops s parent in
      match io_mkdir iops with
      | None => Ok (RErr ENOENT, s)
      | Some mkdir => mkdir s parent basename (Z.land mode 0x1ff)
      end
  end.

Definition vfs_mknod (s : vfs D) (path : list Z) (mode device : Z) : outcome (ret * vfs D) :=
  let* (r, s) := lookup_free s path in
  match r with
  | inl status => Ok (status, s)
  | inr (parent, basename) =>
      let* iops := node_iops s parent in
      match io_mknod iops with
      | None => Ok (RErr ENOENT, s)
      | Some mknod => mknod s parent basename mode device
      end
  end.

(** [list_del(&entry->sibling)]: the entry leaves the list that it is in. *)
Definition unlink_sibling (s : vfs D) (entry : Z) : vfs D :=
  set_entries ((fun e => set_e_children (filter (fun c => c <> entry) (e_children e)) e) <$> entries s) s.

Definition vfs_unlink (s : vfs D) (path : list Z) : outcome (ret * vfs D) :=
  let* (status, dentry, s) := vfs_lookup s path 0 in
  if failed status then Ok (status, s)
  else
    let* e := get_entry s dentry in
    let* n := get_node s (e_node e) in
    if S_ISDIR (n_mode n) then Ok (RErr EISDIR, s)
    else
      let* s :=
        if n_nlink n <=? 1 then vnode_put socket_put (put_node (e_node e) (set_n_nlink 0 n) s) (e_node e)
        else Ok (put_node (e_node e) (set_n_nlink (n_nlink n - 1) n) s) in
      let s := unlink_sibling (put_entry dentry (set_e_node 0 e) s) dentry in
      let* s := ventry_put s dentry in
      Ok (RVal 0, s).

Definition put_file (s : vfs D) (fd : Z) (f : file_descriptor) : outcome (vfs D) :=
  let* files := aset (open_files s) fd f in Ok (set_open_files files s).

Definition vfs_ref_file (s : vfs D) (fd : Z) : outcome (vfs D) :=
  let* f := aget (open_files s) fd in
  put_file s fd (set_f_refcount (u32 (f_refcount f + 1)) f).

Definition file_fops (s : vfs D) (inode : Z) : outcome (file_ops D) :=
  let* n := get_node s inode in
  deref (fops_at (n_fops n)).

(** The release of the last reference: the descriptor gives up its node and path. *)
Definition release_file (s : vfs D) (fd : Z) : outcome (vfs D) :=
  let* f := aget (open_files s) fd in
  let* s := vnode_put socket_put s (f_inode f) in
  let* s := put_file s fd (mk_fd 0 0 (f_path f) (f_fs_id f) (f_refcount f)) in
  let* s := if f_path f =? 0 then Ok s else ventry_put s (f_path f) in
  put_file s fd (mk_fd 0 0 0 (-1) (f_refcount f)).

Definition vfs_put_file (s : vfs D) (fd : Z) : outcome (ret * vfs D) :=
  let* f := aget (open_files s) fd in
  let last := f_refcount f in
  let* s := put_file s fd (set_f_refcount (u32 (f_refcount f - 1)) f) in
  if 1 <? last then Ok (RVal 0, s)
  else
    let* fops := file_fops s (f_inode f) in
    let* (cres, s) := match fo_close fops with Some close => close s fd | None => Ok (RVal 0, s) end in
    if failed cres then Ok (cres, s)
    else let* s := release_file s fd in Ok (no_return, s).

(** The first descriptor without references, from index [i]. *)
Fixpoint free_slot (files : list file_descriptor) (i : Z) : option Z :=
  match files with
  | [] => None
  | f :: files => if f_refcount f =? 0 then Some i else free_slot files (i + 1)
  end.

Definition vfs_open_internal (s : vfs D) (node flags path : Z) : outcome (ret * vfs D) :=
  let* fops := file_fops s node in
  let* (r, s) := match fo_open fops with Some open => open s node flags | None => Ok (RVal 0, s) end in
  match r with
  | RErr e => Ok (RErr e, s)
  | RVal fs_id =>
      if fs_id <? 0 then Ok (RVal fs_id, s)
      else
        let* s := vnode_ref s node in
        match free_slot (open_files s) 0 with
        | None => Ok (RErr ENFILE, s)
        | Some i => let* s := put_file s i (mk_fd 0 node path fs_id 1) in Ok (RVal i, s)
        end
  end.

(** Opening the entry that a lookup found. *)
Definition open_entry (s : vfs D) (query flags : Z) : outcome (ret * vfs D) :=
  let* s := ventry_ref s query in
  let* e := get_entry s query in
  if e_node e =? 0 then let* s := ventry_put s query in Ok (RErr EBADF, s)
  else
    let* (fd, s) := vfs_open_internal s (e_node e) flags query in
    if failed fd then let* s := ventry_put s query in Ok (fd, s) else Ok (fd, s).

Definition vfs_open (s : vfs D) (path : list Z) (flags : Z) : outcome (ret * vfs D) :=
  let* (status, query, s) := vfs_lookup s path 0 in
  if failed status then
    if negb (bool_decide (status = RErr ENOENT)) then Ok (status, s)
    else if has flags O_CREAT then
      let* (c_res, s) := vfs_create s path 0x1b6 in
      if failed c_res then Ok (c_res, s)
      else let* (_, query, s) := vfs_lookup s path 0 in open_entry s query flags
    else Ok (RErr ENOENT, s)
  else open_entry s query flags.

Definition vfs_openat (s : vfs D) (fd : Z) (path : list Z) (flags : Z) : outcome (ret * vfs D) :=
  let* dir :=
    if fd =? AT_FDCWD then let* t := deref (cur_task s) in Ok (t_cwd t)
    else let* f := aget (open_files s) fd in Ok (f_path f) in
  let* (status, query, s) := vfs_lookup_at s dir path 0 in
  if failed status then Ok (status, s) else open_entry s query flags.

Definition vfs_read (s : vfs D) (fd length : Z) : outcome (ret * list Z * vfs D) :=
  let* f := aget (open_files s) fd in
  if f_inode f =? 0 then Ok (RErr EBADF, [], s)
  else
    let* n := get_node s (f_inode f) in
    if S_ISDIR (n_mode n) then Ok (RErr EISDIR, [], s)
    else
      let* fops := file_fops s (f_inode f) in
      match fo_read fops with
      | None => Ok (RErr EINVAL, [], s)
      | Some read => read s fd length
      end.

Definition vfs_write (s : vfs D) (fd : Z) (buffer : list Z) : outcome (ret * vfs D) :=
  let* f := aget (open_files s) fd in
  if f_inode f =? 0 then Ok (RErr EBADF, s)
  else
    let* n := get_node s (f_inode f) in
    if S_ISDIR (n_mode n) then Ok (RErr EISDIR, s)
    else
      let* fops := file_fops s (f_inode f) in
      match fo_write fops with
      | None => Ok (RErr EINVAL, s)
      | Some write => write s fd buffer
      end.

Definition vfs_close (s : vfs D) (fd : Z) : outcome (ret * vfs D) :=
  let* f := aget (open_files s) fd in
  if f_inode f =? 0 then Ok (RErr EBADF, s)
  else
    let* (cres, s) := vfs_put_file s fd in
    if failed cres then Ok (cres, s) else Ok (RVal 0, s).

Definition vfs_seek (s : vfs D) (fd offset flags : Z) : outcome (ret * vfs D) :=
  let* f := aget (open_files s) fd in
  let* n := get_node s (f_inode f) in
  if S_ISFIFO (n_mode n) || S_ISSOCK (n_mode n) then Ok (RErr ESPIPE, s)
  else
    let pos :=
      if flags =? SEEK_SET then offset
      else if flags =? SEEK_CUR then s64 (f_pos f + offset)
      else if flags =? SEEK_END then s64 (offset + n_size n)
      else f_pos f in
    let* s := put_file s fd (set_f_pos pos f) in
    Ok (RVal pos, s).

Definition vfs_ioctl (s : vfs D) (fd op arg : Z) : outcome (ret * vfs D) :=
  let* f := aget (open_files s) fd in
  if f_inode f =? 0 then Ok (RErr EBADF, s)
  else
    let* fops := file_fops s (f_inode f) in
    match fo_ioctl fops with
    | None => Ok (RErr ENOTTY, s)
    | Some ioctl => ioctl s fd op arg
    end.

Definition stat_fill (n : vnode) : stat :=
  mk_stat (n_nlink n) (n_mode n) (n_uid n) (n_gid n) (n_dev n) (n_size n).

(** The result is the filled structure, or the error. *)
Definition vfs_stat (s : vfs D) (path : list Z) : outcome ((ret + stat) * vfs D) :=
  let* (status, query, s) := vfs_lookup s path 0 in
  if failed status then Ok (inl status, s)
  else
    let* e := get_entry s query in
    let* n := get_node s (e_node e) in
    Ok (inr (stat_fill n), s).

Definition vfs_fstat (s : vfs D) (fd : Z) : outcome stat :=
  let* f := aget (open_files s) fd in
  let* n := get_node s (f_inode f) in
  Ok (stat_fill n).

Definition vfs_getdents (s : vfs D) (fd length : Z) : outcome (ret * list Z * vfs D) :=
  let* f := aget (open_files s) fd in
  if f_inode f =? 0 then Ok (RErr EBADF, [], s)
  else
    let* n := get_node s (f_inode f) in
    if negb (S_ISDIR (n_mode n)) then Ok (RErr ENOTDIR, [], s)
    else
      let* iops := deref (iops_at (n_iops n)) in
      match io_getdents iops with
      | None => Ok (RErr EINVAL, [], s)
      | Some getdents => getdents s fd length
      end.

Definition vfs_dup (s : vfs D) (fd : Z) : outcome (ret * vfs D) :=
  let* f := aget (open_files s) fd in
  if f_inode f =? 0 then Ok (RErr EBADF, s)
  else let* s := vfs_ref_file s fd in Ok (RVal fd, s).

(** ** super.c *)

(** The block device of a mount source: the number in the node of its path. *)
Definition source_device (s : vfs D) (src : option (list Z)) : outcome ((ret + Z) * vfs D) :=
  match src with
  | None => Ok (inr 0, s)
  | Some path =>
      let* (sq_status, s_query, s) := vfs_lookup s path 0 in
      if failed sq_status then Ok (inl sq_status, s)
      else
        let* e := get_entry s s_query in
        let* n := get_node s (e_node e) in
        let* dev := blockdev_lookup (block_devices s) (n_dev n) in
        Ok (inr dev, s)
  end.

Definition vfs_mount (s : vfs D) (src : option (list Z)) (target fstype : list Z) : outcome (ret * vfs D) :=
  match filesystem_lookup s fstype with
  | None => Ok (RErr ENODEV, s)
  | Some fs =>
      if has (fs_flags fs) FS_FLAG_NODEV && bool_decide (is_Some src) then Ok (RErr EINVAL, s)
      else if negb (has (fs_flags fs) FS_FLAG_NODEV) && bool_decide (src = None) then Ok (RErr ENOTBLK, s)
      else
        let* (q_status, query, s) := vfs_lookup s target 0 in
        if failed q_status then Ok (q_status, s)
        else
          let* (r, s) := source_device s src in
          match r with
          | inl sq_status => Ok (sq_status, s)
          | inr blockdev =>
              let* ops := deref (sops_at (fs_sb_ops fs)) in
              let* (sb_status, sb, s) := so_init ops s blockdev in
              if failed sb_status then Ok (sb_status, s)
              else
                let mp := mk_mount fs (mk_superblock fs blockdev (sb_data sb)) query in
                let* e := get_entry s query in
                let s := put_entry query (set_e_mount (Some mp) e) s in
                Ok (RVal 0, set_mounts (mounts s ++ [mp]) s)
          end
  end.
End vfs.

(** ** vfs_sys.c *)

Section vfs_sys.
Context {D : Type}.
Context (iops_at : Z -> option (inode_ops D)) (sops_at : Z -> option (super_ops D)) (fops_at : Z -> option (file_ops D)).
Context (socket_put : D -> Z -> outcome D) (no_return : ret).

(** The string at an address of the calling process. *)
Context (user_string : Z -> list Z).

Definition task_file (s : vfs D) (fd : Z) : outcome Z :=
  let* t := deref (cur_task s) in aget (t_open_files t) fd.

Definition set_task_file (s : vfs D) (fd v : Z) : outcome (vfs D) :=
  let* t := deref (cur_task s) in
  let* files := aset (t_open_files t) fd v in
  Ok (set_cur_task (Some (set_t_open_files files t)) s).

(** The guard of most calls: [fd < 0 || task->open_files[fd] < 0].  The index
    has no upper bound. *)
Definition with_file (s : vfs D) (fd : Z) : outcome (option Z) :=
  if fd <? 0 then Ok None
  else let* v := task_file s fd in Ok (if v <? 0 then None else Some v).

(** The first descriptor whose entry satisfies the test of the loop. *)
Fixpoint first_fd (test : Z -> bool) (files : list Z) (i : Z) : option Z :=
  match files with
  | [] => None
  | f :: files => if test f then Some i else first_fd test files (i + 1)
  end.

Definition task_files (s : vfs D) : outcome (list Z) := let* t := deref (cur_task s) in Ok (t_open_files t).

Definition sys_open (s : vfs D) (path flags : Z) : outcome (ret * vfs D) :=
  if path =? 0 then Ok (RErr EINVAL, s)
  else if negb (vm_validate_ptr path) then Ok (RErr EFAULT, s)
  else
    let* files := task_files s in
    match first_fd (fun f => f =? -1) files 0 with
    | None => Ok (RErr EMFILE, s)
    | Some fd =>
        let* (v_fd, s) := vfs_open iops_at sops_at fops_at s (user_string path) flags in
        match v_fd with
        | RVal v => if v <? 0 then Ok (v_fd, s) else let* s := set_task_file s fd v in Ok (RVal fd, s)
        | RErr _ => Ok (v_fd, s)
        end
    end.

Definition sys_openat (s : vfs D) (fd path flags : Z) : outcome (ret * vfs D) :=
  if path =? 0 then Ok (RErr EINVAL, s)
  else if negb (vm_validate_ptr path) then Ok (RErr EFAULT, s)
  else
    let* files := task_files s in
    match first_fd (fun f => f =? -1) files 0 with
    | None => Ok (RErr EMFILE, s)
    | Some user_fd =>
        let* sys_fd := if fd =? AT_FDCWD then Ok (Some fd) else with_file s fd in
        match sys_fd with
        | None => Ok (RErr EBADF, s)
        | Some sys_fd =>
            let* (v_fd, s) := vfs_openat iops_at sops_at fops_at s sys_fd (user_string path) flags in
            match v_fd with
            | RVal v => if v <? 0 then Ok (v_fd, s) else let* s := set_task_file s user_fd v in Ok (RVal user_fd, s)
            | RErr _ => Ok (v_fd, s)
            end
        end
    end.

Definition sys_close (s : vfs D) (fd : Z) : outcome (ret * vfs D) :=
  let* v := with_file s fd in
  match v with
  | None => Ok (RErr EBADF, s)
  | Some v_fd =>
      let* s := set_task_file s fd (-1) in
      vfs_close fops_at socket_put no_return s v_fd
  end.

Definition sys_read (s : vfs D) (fd buffer length : Z) : outcome (ret * list Z * vfs D) :=
  let* v := with_file s fd in
  match v with
  | None => Ok (RErr EBADF, [], s)
  | Some v_fd =>
      if negb (vm_validate_ptr buffer) then Ok (RErr EFAULT, [], s) else vfs_read fops_at s v_fd length
  end.

Definition sys_write (s : vfs D) (fd buffer : Z) (bytes : list Z) : outcome (ret * vfs D) :=
  let* v := with_file s fd in
  match v with
  | None => Ok (RErr EBADF, s)
  | Some v_fd =>
      if negb (vm_validate_ptr buffer) then Ok (RErr EFAULT, s) else vfs_write fops_at s v_fd bytes
  end.

Definition sys_seek (s : vfs D) (fd offset flags : Z) : outcome (ret * vfs D) :=
  let* v := with_file s fd in
  match v with None => Ok (RErr EBADF, s) | Some v_fd => vfs_seek s v_fd offset flags end.

(** The result of [vfs_dup] is stored without a test. *)
Definition sys_dup (s : vfs D) (fd : Z) (errno_value : errno -> Z) : outcome (ret * vfs D) :=
  let* v := with_file s fd in
  match v with
  | None => Ok (RErr EBADF, s)
  | Some v_fd =>
      let* files := task_files s in
      match first_fd (fun f => f <? 0) files 0 with
      | None => Ok (RErr EMFILE, s)
      | Some newfd =>
          let* (r, s) := vfs_dup s v_fd in
          let* s := set_task_file s newfd (match r with RVal v => v | RErr e => - errno_value e end) in
          Ok (RVal newfd, s)
      end
  end.

Definition sys_ioctl (s : vfs D) (fd op arg : Z) : outcome (ret * vfs D) :=
  let* v := with_file s fd in
  match v with None => Ok (RErr EBADF, s) | Some v_fd => vfs_ioctl fops_at s v_fd op arg end.

Definition sys_stat (s : vfs D) (path buffer : Z) : outcome ((ret + stat) * vfs D) :=
  if negb (vm_validate_ptr path) then Ok (inl (RErr EFAULT), s)
  else if negb (vm_validate_ptr buffer) then Ok (inl (RErr EFAULT), s)
  else vfs_stat iops_at sops_at s (user_string path).

Definition sys_fstat (s : vfs D) (fd buffer : Z) : outcome (ret + stat) :=
  let* v := with_file s fd in
  match v with
  | None => Ok (inl (RErr EBADF))
  | Some v_fd =>
      if negb (vm_validate_ptr buffer) then Ok (inl (RErr EFAULT)) else let* st := vfs_fstat s v_fd in Ok (inr st)
  end.

Definition sys_getdents (s : vfs D) (fd buffer length : Z) : outcome (ret * list Z * vfs D) :=
  let* v := with_file s fd in
  match v with
  | None => Ok (RErr EBADF, [], s)
  | Some v_fd =>
      if negb (vm_validate_ptr buffer) then Ok (RErr EFAULT, [], s) else vfs_getdents iops_at s v_fd length
  end.

Definition sys_mkdir (s : vfs D) (path mode : Z) : outcome (ret * vfs D) :=
  if negb (vm_validate_ptr path) then Ok (RErr EFAULT, s)
  else vfs_mkdir iops_at sops_at s (user_string path) mode.

Definition sys_mount (s : vfs D) (source target fsname : Z) : outcome (ret * vfs D) :=
  if negb (source =? 0) && negb (vm_validate_ptr source) then Ok (RErr EFAULT, s)
  else if negb (vm_validate_ptr target) then Ok (RErr EFAULT, s)
  else if negb (vm_validate_ptr fsname) then Ok (RErr EFAULT, s)
  else
    vfs_mount iops_at sops_at s (if source =? 0 then None else Some (user_string source))
      (user_string target) (user_string fsname).

Definition sys_umount : ret := RErr ENOSYS.
End vfs_sys.
