(* ===== verification/Files.v ===== *)
(** * Open files and unlinking

    Properties of kernel/fs/vfs.c over the directory tree of Tree.v: the table
    of open files keeps its nodes alive, and unlinking a file that is open does
    not. *)

From stdpp Require Import base numbers list gmap sets.
From Stdlib Require Import ZArith Lia.
From S2P Require Import Prelude Sched Device Dcache Lookup Tree Vfs.

Section files.
Context {D : Type}.
Context (iops_at : Z -> option (inode_ops D)) (sops_at : Z -> option (super_ops D)) (fops_at : Z -> option (file_ops D)).
Context (socket_put : D -> Z -> outcome D) (no_return : ret).
Implicit Types (s : vfs D) (C : gset Z).

(** ** Unlinking *)

(** Same files, descriptors and tasks after a lookup. *)
Lemma same_tree_fields s s' : same_tree s s' -> nodes s' = nodes s /\ open_files s' = open_files s /\
  mounts s' = mounts s /\ root_node s' = root_node s /\ cur_task s' = cur_task s /\ priv s' = priv s /\ brk s' = brk s.
Proof.
  unfold same_tree. intros Hs. repeat split; symmetry.
  - apply (f_equal nodes Hs).
  - apply (f_equal open_files Hs).
  - apply (f_equal mounts Hs).
  - apply (f_equal root_node Hs).
  - apply (f_equal cur_task Hs).
  - apply (f_equal priv Hs).
  - apply (f_equal brk Hs).
Qed.

(** Dropping the last reference of an entry without a node frees it. *)
Lemma ventry_put_last s C a e : dcache_rep s C -> entries s !! a = Some e -> name_ok (e_name e) -> a <> 0 ->
  e_node e = 0 -> e_ref e <= 1 ->
  exists s', ventry_put s a = Ok s' /\ entries s' !! a = None /\ nodes s' = nodes s /\ open_files s' = open_files s.
Proof.
  intros Hrep He Hname Ha Hn Hr. unfold ventry_put, get_entry. rewrite He. cbn [deref outcome_bind].
  destruct (Z.ltb_spec 1 (e_ref e)); [lia|]. rewrite Hn. cbn [negb andb Z.eqb].
  set (s1 := put_entry a _ s).
  assert (dcache_rep s1 C) as Hrep1.
  { eapply dcache_rep_keys; [| |exact Hrep]; [done|]. intros x. unfold s1, put_entry. simpl.
    destruct (decide (a = x)) as [<-|]; [by rewrite lookup_insert_eq, He|by rewrite lookup_insert_ne]. }
  destruct (dcache_remove_spec s1 C a (set_e_ref (u32 (e_ref e - 1)) e)) as (s2 & -> & _ & Hs2); [done| |done..|].
  { apply lookup_insert_eq. }
  cbn [outcome_bind]. exists (ventry_free s2 a). split; [done|]. split; [apply lookup_delete_eq|].
  by destruct (same_tree_fields s1 s2 Hs2) as (Hnodes & Hfiles & _).
Qed.

(** Taking an entry out of the lists of children changes no key of the cache. *)
Lemma unlink_sibling_keys s a x : cache_key <$> entries (unlink_sibling s a) !! x = cache_key <$> entries s !! x.
Proof. unfold unlink_sibling. simpl. rewrite lookup_fmap. by destruct (entries s !! x). Qed.

Lemma same_tree_entry_full s s' a e : same_tree s s' -> entries s !! a = Some e ->
  exists e', entries s' !! a = Some e' /\ e_name e' = e_name e /\ e_node e' = e_node e /\ e_ref e' = e_ref e.
Proof.
  intros Hs He. apply (f_equal (fun t => entries t !! a)) in Hs. simpl in Hs. rewrite !lookup_fmap, He in Hs.
  destruct (entries s' !! a) as [e'|]; [|done]. exists e'. split; [done|]. by injection Hs.
Qed.

(** What [vfs_unlink] does to a file with one link, one open descriptor and
    no other reference: it frees the node and the entry. *)
Lemma unlink_last s C path start rest a e n : tree_ok iops_at sops_at s C -> refs_below s (2 ^ 32 - 2) ->
  path_ok s path start rest -> lookup_result s (resolve s start (components rest) false) = (RVal 0, a) ->
  entries s !! a = Some e -> e_ref e <= 1 -> nodes s !! e_node e = Some n ->
  S_ISDIR (n_mode n) = false -> S_ISSOCK (n_mode n) = false -> n_nlink n <= 1 -> n_ref n <= 1 ->
  exists s', vfs_unlink iops_at sops_at socket_put s path = Ok (RVal 0, s') /\
    nodes s' !! e_node e = None /\ entries s' !! a = None /\ open_files s' = open_files s.
Proof.
  intros Ht Hb Hp Hres He Her Hn Hdir Hsock Hlink Href. unfold vfs_unlink.
  destruct (vfs_lookup_spec iops_at sops_at s C path start rest 0 Ht Hb Hp) as (s1 & C1 & r & a' & -> & Hr & Hs1 & Ht1).
  change (has 0 LOOKUP_PARENT) with false in Hr. rewrite Hres in Hr. injection Hr as -> ->.
  destruct (same_tree_entry_full s s1 a e Hs1 He) as (e1 & He1 & Hen1 & Hnode1 & Href1).
  destruct (same_tree_fields s s1 Hs1) as (Hnodes & Hfiles & _).
  destruct Ht as (Hsh & _). destruct (ts_entry _ _ s Hsh a e He) as (Ha0 & Hname & _).
  cbn [outcome_bind failed Z.ltb Z.compare]. unfold get_entry, get_node. rewrite He1. cbn [deref outcome_bind].
  rewrite Hnodes, Hnode1, Hn. cbn [deref outcome_bind]. rewrite Hdir.
  destruct (Z.leb_spec (n_nlink n) 1); [|lia]. unfold vnode_put, get_node.
  cbn [nodes put_node set_nodes]. rewrite lookup_insert_eq. cbn [deref outcome_bind n_ref n_nlink set_n_nlink].
  destruct (Z.leb_spec (n_ref n) 1); [|lia]. cbn [andb Z.eqb]. unfold vnode_free, get_node.
  cbn [nodes put_node set_nodes]. rewrite lookup_insert_eq. cbn [deref outcome_bind n_mode set_n_ref set_n_nlink].
  rewrite Hsock. cbn [outcome_bind]. set (s2 := set_nodes _ _).
  set (s3 := unlink_sibling _ a). destruct Ht1 as (_ & Hrep1 & _).
  destruct (ventry_put_last s3 C1 a (set_e_children (filter (fun c => c <> a) (e_children e1)) (set_e_node 0 e1)))
    as (s4 & -> & Hgone & Hn4 & Hf4).
  - eapply dcache_rep_keys; [| |exact Hrep1]; [done|]. intros x. unfold s3. rewrite unlink_sibling_keys.
    unfold s2. cbn [entries put_entry set_entries set_nodes put_node].
    destruct (decide (a = x)) as [<-|]; [by rewrite lookup_insert_eq, He1|by rewrite lookup_insert_ne].
  - unfold s3, unlink_sibling. cbn [entries put_entry set_entries]. rewrite lookup_fmap, lookup_insert_eq. done.
  - simpl. by rewrite Hen1.
  - done.
  - done.
  - simpl. lia.
  - cbn [outcome_bind]. exists s4. split; [done|]. rewrite Hn4, Hf4. split; [|by split].
    unfold s3, s2. simpl. apply lookup_delete_eq.
Qed.

(** Unlinking a file that is open frees it under its descriptor.  If the
    only references to a file are its one link and one open descriptor, then
    [vfs_unlink] succeeds and frees both the node and the entry, the
    descriptor keeps pointing at the freed node, and the next read, write,
    seek, stat or close through it uses freed memory. *)
Theorem unlink_open_frees s C path start rest a e n fd f : tree_ok iops_at sops_at s C -> refs_below s (2 ^ 32 - 2) ->
  path_ok s path start rest -> lookup_result s (resolve s start (components rest) false) = (RVal 0, a) ->
  entries s !! a = Some e -> e_ref e = 1 -> nodes s !! e_node e = Some n ->
  S_ISREG (n_mode n) = true -> n_nlink n = 1 -> n_ref n = 1 ->
  aget (open_files s) fd = Ok f -> f_inode f = e_node e -> f_refcount f = 1 ->
  exists s', vfs_unlink iops_at sops_at socket_put s path = Ok (RVal 0, s') /\
    nodes s' !! e_node e = None /\ entries s' !! a = None /\ aget (open_files s') fd = Ok f /\
    (forall length, vfs_read fops_at s' fd length = Fault) /\ (forall buffer, vfs_write fops_at s' fd buffer = Fault) /\
    (forall offset flags, vfs_seek s' fd offset flags = Fault) /\ vfs_fstat s' fd = Fault /\
    vfs_close fops_at socket_put no_return s' fd = Fault.
Proof.
  intros Ht Hb Hp Hres He Her Hn Hreg Hlink Href Hfd Hino Hcnt.
  assert (S_ISDIR (n_mode n) = false /\ S_ISSOCK (n_mode n) = false) as [Hdir Hsock].
  { unfold S_ISREG, S_ISDIR, S_ISSOCK in *. apply Z.eqb_eq in Hreg. by rewrite Hreg. }
  assert (e_node e <> 0) as Hne by (destruct Ht as (Hsh & _); by destruct (ts_entry _ _ s Hsh a e He) as (_ & _ & ? & _)).
  destruct (unlink_last s C path start rest a e n) as (s' & Hun & Hgone & Hgone' & Hf); try done; try lia.
  exists s'. rewrite Hf. do 4 (split; [done|]).
  unfold vfs_read, vfs_write, vfs_seek, vfs_fstat, vfs_close, vfs_put_file, file_fops, get_node. rewrite Hf, Hfd.
  cbn [outcome_bind]. rewrite Hino, Hgone. destruct (Z.eqb_spec (e_node e) 0) as [|_]; [done|].
  cbn [deref outcome_bind]. split; [done|]. split; [done|]. split; [done|]. split; [done|].
  rewrite Hcnt. unfold put_file. apply aget_Ok in Hfd as [H0 Hlk]. rewrite Hf, aset_in.
  - simpl. by rewrite Hgone.
  - apply lookup_lt_Some in Hlk. unfold zlen. lia.
Qed.

End files.

(** ** The table of open files *)

Section open_table.
Context {D : Type} (fops_at : Z -> option (file_ops D)) (socket_put : D -> Z -> outcome D) (no_return : ret).
Implicit Types s : vfs D.

Definition opened (n : Z) (f : file_descriptor) : Prop := f_refcount f <> 0 /\ f_inode f = n.
#[local] Instance opened_dec n f : Decision (opened n f).
Proof. unfold opened. apply _. Defined.

(** How many descriptors are open on a node. *)
Definition open_count (s : vfs D) (n : Z) : nat := length (filter (opened n) (open_files s)).

Definition slot_ok (s : vfs D) (f : file_descriptor) : Prop :=
  0 <= f_refcount f < 2 ^ 32 /\
  if decide (f_refcount f = 0) then f_inode f = 0
  else f_inode f <> 0 /\ is_Some (nodes s !! f_inode f) /\
    (f_path f = 0 \/ exists e, entries s !! f_path f = Some e /\ e_node e <> 0).

(** Every open descriptor has a live node and entry, and a node counts at
    least the descriptors that are open on it. *)
Definition files_inv (s : vfs D) : Prop :=
  length (open_files s) = 64%nat /\ Forall (slot_ok s) (open_files s) /\
  forall n v, nodes s !! n = Some v ->
    Z.of_nat (open_count s n) <= n_ref v < 2 ^ 32 /\ is_Some (fops_at (n_fops v)).

(** What the callbacks of a file system may do: change its private data. *)
Definition fops_frame : Prop := forall a ops, fops_at a = Some ops ->
  (forall open s node flags, fo_open ops = Some open ->
     exists r d, open s node flags = Ok (r, set_priv d s)) /\
  (forall close s fd, fo_close ops = Some close ->
     exists v d, close s fd = Ok (RVal v, set_priv d s) /\ 0 <= v).

Hypothesis fops_ok : fops_frame.
Hypothesis socket_put_total : forall d a, exists d', socket_put d a = Ok d'.

Lemma filter_insert_count {A} (P : A -> Prop) `{!forall x, Decision (P x)} (l : list A) i x y : l !! i = Some x ->
  (length (filter P (<[i := y]> l)) + (if decide (P x) then 1 else 0) =
   length (filter P l) + (if decide (P y) then 1 else 0))%nat.
Proof.
  intros Hi. rewrite <- (take_drop_middle l i x Hi) at 2.
  rewrite insert_take_drop by (by eapply lookup_lt_Some). rewrite !filter_app, !length_app, !filter_cons.
  repeat case_decide; simpl; lia.
Qed.

Lemma open_count_pos s i f : open_files s !! i = Some f -> f_refcount f <> 0 -> (0 < open_count s (f_inode f))%nat.
Proof.
  intros Hi Hr. unfold open_count. assert (f ∈ filter (opened (f_inode f)) (open_files s)) as Hin.
  { apply list_elem_of_filter. split; [done|]. by eapply list_elem_of_lookup_2. }
  destruct (filter _ _); [set_solver|simpl; lia].
Qed.

Lemma open_count_insert s s' i f f' n : open_files s !! i = Some f -> open_files s' = <[i := f']> (open_files s) ->
  (open_count s' n + (if decide (opened n f) then 1 else 0) = open_count s n + (if decide (opened n f') then 1 else 0))%nat.
Proof. intros Hi E. unfold open_count. rewrite E. by apply filter_insert_count. Qed.

Lemma slot_ok_mono s s' g : slot_ok s g ->
  (f_refcount g <> 0 -> is_Some (nodes s !! f_inode g) -> is_Some (nodes s' !! f_inode g)) ->
  (forall a e, entries s !! a = Some e -> e_node e <> 0 -> exists e', entries s' !! a = Some e' /\ e_node e' <> 0) ->
  slot_ok s' g.
Proof.
  intros [Hr Hg] Hn He. split; [done|]. case_decide as Hz; [done|]. destruct Hg as (H1 & H2 & H3).
  split; [done|]. split; [auto|]. destruct H3 as [|(e & H4 & H5)]; [by left|right]. eauto.
Qed.

(** One descriptor changes, the others stay in order. *)
Lemma files_inv_insert s s' i f f' : files_inv s -> open_files s !! i = Some f ->
  open_files s' = <[i := f']> (open_files s) -> slot_ok s' f' ->
  (forall j g, j <> i -> open_files s !! j = Some g -> slot_ok s' g) ->
  (forall n v, nodes s' !! n = Some v ->
    Z.of_nat (open_count s' n) <= n_ref v < 2 ^ 32 /\ is_Some (fops_at (n_fops v))) -> files_inv s'.
Proof.
  intros (Hlen & _ & _) Hi E Hf' Hothers Hnodes. split; [by rewrite E, length_insert|]. split; [|done].
  rewrite E. apply Forall_lookup. intros j g Hj. rewrite list_lookup_insert_Some in Hj.
  destruct Hj as [(<- & <- & _)|[Hne Hj]]; [done|]. by eapply Hothers.
Qed.

Lemma free_slot_spec files k : match free_slot files k with
  | Some i => exists j f, i = k + Z.of_nat j /\ files !! j = Some f /\ f_refcount f = 0
  | None => Forall (fun f => f_refcount f <> 0) files
  end.
Proof.
  revert k. induction files as [|f files IH]; intros k; simpl; [done|].
  destruct (Z.eqb_spec (f_refcount f) 0) as [E|E]; [exists 0%nat, f; split; [lia|done]|].
  specialize (IH (k + 1)). destruct (free_slot files (k + 1)) as [i|]; [|by constructor].
  destruct IH as (j & g & -> & Hj & Hg). exists (S j), g. split; [lia|done].
Qed.

Lemma put_file_spec s i f : (i < length (open_files s))%nat ->
  put_file s (Z.of_nat i) f = Ok (set_open_files (<[i := f]> (open_files s)) s).
Proof. intros Hi. unfold put_file. rewrite aset_in by (unfold zlen; lia). simpl. by rewrite Nat2Z.id. Qed.

(** A node that gains a reference. *)
Lemma vnode_ref_inv s d node v : files_inv s -> nodes s !! node = Some v -> n_ref v < 2 ^ 32 - 1 ->
  exists s1, vnode_ref (set_priv d s) node = Ok s1 /\ nodes s1 = <[node := set_n_ref (n_ref v + 1) v]> (nodes s) /\
    open_files s1 = open_files s /\ entries s1 = entries s /\ (forall g, slot_ok s g -> slot_ok s1 g).
Proof.
  intros (_ & _ & Hnodes) Hv Href. destruct (Hnodes node v Hv) as (Hcnt & _).
  unfold vnode_ref, get_node. cbn [nodes set_priv]. rewrite Hv. cbn [deref outcome_bind].
  rewrite u32_small by lia. eexists. split; [done|]. split; [done|]. split; [done|]. split; [done|].
  intros g Hg. eapply slot_ok_mono; [done| |by eauto]. intros _ [w Hw]. simpl.
  rewrite lookup_insert_is_Some'. right. by eexists.
Qed.

Lemma vfs_open_internal_inv s node v flags path : files_inv s -> node <> 0 -> nodes s !! node = Some v ->
  n_ref v < 2 ^ 32 - 1 -> (path = 0 \/ exists e, entries s !! path = Some e /\ e_node e <> 0) ->
  exists r s', vfs_open_internal fops_at s node flags path = Ok (r, s') /\ files_inv s' /\
    match r with
    | RVal i => i < 0 /\ open_files s' = open_files s \/
        exists j f id, i = Z.of_nat j /\ open_files s !! j = Some f /\ f_refcount f = 0 /\
          open_files s' = <[j := mk_fd 0 node path id 1]> (open_files s)
    | RErr _ => open_files s' = open_files s
    end.
Proof.
  intros Hinv Hn0 Hv Href Hpath. pose proof Hinv as (Hlen & Hslots & Hnodes).
  destruct (Hnodes node v Hv) as (Hcnt & ops & Hops). unfold vfs_open_internal, file_fops, get_node.
  rewrite Hv. cbn [deref outcome_bind]. rewrite Hops. cbn [deref outcome_bind].
  assert (exists r d, match fo_open ops with Some open => open s node flags | None => Ok (RVal 0, s) end
    = Ok (r, set_priv d s)) as (r & d & ->).
  { destruct (fo_open ops) as [open|] eqn:E; [by apply (proj1 (fops_ok _ _ Hops))|].
    exists (RVal 0), (priv s). by destruct s. }
  cbn [outcome_bind]. destruct r as [id|e]; [|by eexists _, _].
  destruct (Z.ltb_spec id 0); [eexists _, _; split; [done|]; split; [done|]; by left|].
  destruct (vnode_ref_inv s d node v Hinv Hv Href) as (s1 & -> & Hn1 & Hf1 & He1 & Hmono). cbn [outcome_bind].
  assert (forall n w, nodes s1 !! n = Some w -> n <> node -> nodes s !! n = Some w) as Hother.
  { intros n w. rewrite Hn1. intros Hw Hne. by rewrite lookup_insert_ne in Hw. }
  pose proof (free_slot_spec (open_files s1) 0) as Hfree. rewrite Hf1 in *.
  destruct (free_slot (open_files s) 0) as [i|].
  - destruct Hfree as (j & f & -> & Hj & Hrf). replace (0 + Z.of_nat j) with (Z.of_nat j) by lia.
    pose proof (lookup_lt_Some _ _ _ Hj) as Hlt. rewrite put_file_spec by (by rewrite Hf1). cbn [outcome_bind].
    set (s2 := set_open_files _ s1). exists (RVal (Z.of_nat j)), s2. split; [done|].
    assert (open_files s2 = <[j := mk_fd 0 node path id 1]> (open_files s)) as E2 by (unfold s2; simpl; by rewrite Hf1).
    split; [|right; by eexists j, f, id].
    eapply (files_inv_insert s s2 j f); try done.
    + split; [simpl; lia|]. simpl. split; [done|]. rewrite Hn1, lookup_insert_eq, He1. by eauto.
    + intros k g _ Hk. apply Hmono. rewrite Forall_lookup in Hslots. eauto.
    + intros n w Hw. change (nodes s1 !! n = Some w) in Hw.
      pose proof (open_count_insert s s2 j f _ n Hj E2) as Hc.
      rewrite (decide_False (P := opened n f)) in Hc by (intros []; done).
      destruct (decide (n = node)) as [->|Hne].
      * rewrite Hn1, lookup_insert_eq in Hw. injection Hw as <-. simpl. split; [|by eexists].
        destruct (decide (opened node _)); lia.
      * rewrite decide_False in Hc by (intros [_ E]; simpl in E; congruence).
        destruct (Hnodes n w (Hother n w Hw Hne)). split; [lia|done].
  - exists (RErr ENFILE), s1. split; [done|]. split; [|done].
    split; [by rewrite Hf1|]. split; [rewrite Hf1; exact (Forall_impl _ _ _ Hslots Hmono)|].
    intros n w Hw. assert (open_count s1 n = open_count s n) as -> by (unfold open_count; by rewrite Hf1).
    destruct (decide (n = node)) as [->|Hne]; [|by apply Hnodes, Hother].
    rewrite Hn1, lookup_insert_eq in Hw. injection Hw as <-. simpl. split; [lia|by eexists].
Qed.

(** A descriptor stays open while its count changes. *)
Lemma set_refcount_inv s j f r : files_inv s -> open_files s !! j = Some f -> f_refcount f <> 0 -> 0 < r < 2 ^ 32 ->
  files_inv (set_open_files (<[j := set_f_refcount r f]> (open_files s)) s).
Proof.
  intros Hinv Hj Hr0 Hr. pose proof Hinv as (_ & Hslots & Hnodes). rewrite Forall_lookup in Hslots.
  set (s' := set_open_files _ s). eapply (files_inv_insert s s' j f); try done.
  - split; [simpl; lia|]. rewrite decide_False by (simpl; lia).
    destruct (Hslots j f Hj) as [_ Hf]. by rewrite decide_False in Hf.
  - intros k g _ Hk. apply (Hslots k g Hk).
  - intros n w Hw. pose proof (open_count_insert s s' j f _ n Hj eq_refl) as Hc.
    assert (opened n (set_f_refcount r f) <-> opened n f) as Hiff
      by (unfold opened; simpl; split; intros []; split; (done || lia)).
    destruct (Hnodes n w Hw). split; [|done]. repeat case_decide; (lia || tauto).
Qed.

Lemma file_get s j f : open_files s !! j = Some f -> aget (open_files s) (Z.of_nat j) = Ok f.
Proof. intros Hj. apply aget_Ok. rewrite Nat2Z.id. split; [lia|done]. Qed.

Lemma files_inv_slot s j f : files_inv s -> open_files s !! j = Some f -> f_refcount f <> 0 ->
  0 < f_refcount f < 2 ^ 32 /\ f_inode f <> 0 /\ (exists v, nodes s !! f_inode f = Some v /\ 1 <= n_ref v < 2 ^ 32 /\
    Z.of_nat (open_count s (f_inode f)) <= n_ref v /\ is_Some (fops_at (n_fops v))) /\
  (f_path f = 0 \/ exists e, entries s !! f_path f = Some e /\ e_node e <> 0).
Proof.
  intros (_ & Hslots & Hnodes) Hj Hr0. rewrite Forall_lookup in Hslots. destruct (Hslots j f Hj) as [Hr Hf].
  rewrite decide_False in Hf by done. destruct Hf as (Hf0 & [v Hv] & Hp). split; [lia|]. split; [done|]. split; [|done].
  exists v. pose proof (open_count_pos s j f Hj Hr0). destruct (Hnodes _ v Hv). split; [done|]. split; [lia|]. split; [lia|done].
Qed.

Lemma vfs_dup_inv s j f : files_inv s -> open_files s !! j = Some f -> 0 < f_refcount f < 2 ^ 32 - 1 ->
  exists s', vfs_dup s (Z.of_nat j) = Ok (RVal (Z.of_nat j), s') /\ files_inv s' /\
    open_files s' = <[j := set_f_refcount (f_refcount f + 1) f]> (open_files s).
Proof.
  intros Hinv Hj Hr. destruct (files_inv_slot s j f Hinv Hj ltac:(lia)) as (_ & Hf0 & _).
  unfold vfs_dup, vfs_ref_file. rewrite (file_get s j f Hj). cbn [outcome_bind].
  destruct (Z.eqb_spec (f_inode f) 0) as [|_]; [done|].
  rewrite put_file_spec by (by eapply lookup_lt_Some). cbn [outcome_bind]. rewrite u32_small by lia.
  eexists. split; [done|]. split; [|done]. apply set_refcount_inv; [done..|lia|lia].
Qed.

Lemma vnode_put_cases s n v : nodes s !! n = Some v -> 1 <= n_ref v < 2 ^ 32 ->
  exists s', vnode_put socket_put s n = Ok s' /\ open_files s' = open_files s /\ entries s' = entries s /\
    nodes s' = if decide (n_ref v = 1 /\ n_nlink v = 0) then delete n (nodes s)
               else <[n := set_n_ref (n_ref v - 1) v]> (nodes s).
Proof.
  intros Hv Hr. unfold vnode_put, get_node. rewrite Hv. cbn [deref outcome_bind]. rewrite u32_small by lia.
  destruct (Z.leb_spec (n_ref v) 1), (Z.eqb_spec (n_nlink v) 0); cbn [andb];
    [rewrite decide_True by lia|rewrite decide_False by lia; by eexists..].
  unfold vnode_free, get_node. cbn [nodes put_node set_nodes]. rewrite lookup_insert_eq. cbn [deref outcome_bind].
  assert (forall s', nodes s' = nodes (put_node n (set_n_ref (n_ref v - 1) v) s) ->
    nodes (set_nodes (delete n (nodes s')) s') = delete n (nodes s)) as Hdel.
  { intros s' E. simpl. rewrite E. simpl. apply delete_insert_eq. }
  case_match; [|eexists; split; [done|]; split; [done|]; split; [done|]; by apply Hdel].
  destruct (socket_put_total (priv (put_node n (set_n_ref (n_ref v - 1) v) s)) (n_data (set_n_ref (n_ref v - 1) v))) as (d' & ->).
  eexists. split; [done|]. split; [done|]. split; [done|]. by apply Hdel.
Qed.

Lemma ventry_put_live s a e : entries s !! a = Some e -> e_node e <> 0 ->
  exists s', ventry_put s a = Ok s' /\ nodes s' = nodes s /\ open_files s' = open_files s /\
    forall b eb, entries s !! b = Some eb -> e_node eb <> 0 -> exists eb', entries s' !! b = Some eb' /\ e_node eb' <> 0.
Proof.
  intros He Hn. unfold ventry_put, get_entry. rewrite He. cbn [deref outcome_bind].
  destruct (Z.eqb_spec (e_node e) 0); [done|]. rewrite andb_false_r. eexists. split; [done|]. split; [done|]. split; [done|].
  intros b eb Hb Hnb. simpl. destruct (decide (a = b)) as [->|].
  - rewrite lookup_insert_eq. eexists. split; [done|]. simpl. congruence.
  - rewrite lookup_insert_ne by done. eauto.
Qed.

(** The release of a descriptor whose count has dropped to zero. *)
Lemma release_file_spec s j f v : open_files s !! j = Some f -> nodes s !! f_inode f = Some v -> 1 <= n_ref v < 2 ^ 32 ->
  (f_path f = 0 \/ exists e, entries s !! f_path f = Some e /\ e_node e <> 0) ->
  exists s', release_file socket_put s (Z.of_nat j) = Ok s' /\
    open_files s' = <[j := mk_fd 0 0 0 (-1) (f_refcount f)]> (open_files s) /\
    nodes s' = (if decide (n_ref v = 1 /\ n_nlink v = 0) then delete (f_inode f) (nodes s)
                else <[f_inode f := set_n_ref (n_ref v - 1) v]> (nodes s)) /\
    forall b eb, entries s !! b = Some eb -> e_node eb <> 0 -> exists eb', entries s' !! b = Some eb' /\ e_node eb' <> 0.
Proof.
  intros Hj Hv Hr Hp. pose proof (lookup_lt_Some _ _ _ Hj) as Hlt.
  assert (aget (open_files s) (Z.of_nat j) = Ok f) as Hget by (apply aget_Ok; rewrite Nat2Z.id; split; [lia|done]).
  unfold release_file. rewrite Hget. cbn [outcome_bind].
  destruct (vnode_put_cases s (f_inode f) v Hv Hr) as (s1 & -> & Hf1 & He1 & Hn1). cbn [outcome_bind].
  rewrite put_file_spec by (by rewrite Hf1). cbn [outcome_bind]. set (s2 := set_open_files _ s1).
  assert (exists s3, (if f_path f =? 0 then Ok s2 else ventry_put s2 (f_path f)) = Ok s3 /\ nodes s3 = nodes s2 /\
    open_files s3 = open_files s2 /\
    forall b eb, entries s2 !! b = Some eb -> e_node eb <> 0 -> exists eb', entries s3 !! b = Some eb' /\ e_node eb' <> 0)
    as (s3 & -> & Hn3 & Hf3 & He3).
  { destruct (Z.eqb_spec (f_path f) 0); [exists s2; by eauto 10|]. destruct Hp as [|(e & He & Hne)]; [done|].
    apply (ventry_put_live s2 (f_path f) e); [|done]. unfold s2. simpl. by rewrite He1. }
  cbn [outcome_bind]. rewrite put_file_spec by (rewrite Hf3; unfold s2; simpl; by rewrite length_insert, Hf1).
  eexists. split; [done|]. simpl. rewrite Hf3, Hn3. unfold s2. simpl. rewrite Hf1, list_insert_insert_eq.
  split; [done|]. split; [done|]. intros b eb Hb. rewrite <- He1 in Hb. by apply He3.
Qed.

(** The state after the last close of a descriptor. *)
Lemma close_last_inv s s' j f v : files_inv s -> open_files s !! j = Some f -> f_refcount f <> 0 ->
  nodes s !! f_inode f = Some v -> open_files s' = <[j := mk_fd 0 0 0 (-1) 0]> (open_files s) ->
  nodes s' = (if decide (n_ref v = 1 /\ n_nlink v = 0) then delete (f_inode f) (nodes s)
              else <[f_inode f := set_n_ref (n_ref v - 1) v]> (nodes s)) ->
  (forall b eb, entries s !! b = Some eb -> e_node eb <> 0 -> exists eb', entries s' !! b = Some eb' /\ e_node eb' <> 0) ->
  files_inv s'.
Proof.
  intros Hinv Hj Hr0 Hv E Hn' He'. pose proof Hinv as (_ & Hslots & Hnodes). rewrite Forall_lookup in Hslots.
  destruct (files_inv_slot s j f Hinv Hj Hr0) as (_ & _ & (v' & Hv' & Href & Hcnt & Hfo) & _). simplify_eq.
  assert (forall n, (open_count s' n + (if decide (opened n f) then 1 else 0) = open_count s n)%nat) as Hc.
  { intros n. rewrite (open_count_insert s s' j f _ n Hj E). rewrite (decide_False (P := opened n (mk_fd 0 0 0 (-1) 0))) by (by intros []).
    lia. }
  eapply (files_inv_insert s s' j f); try done.
  - intros k g Hk Hg. eapply slot_ok_mono; [by apply (Hslots k g Hg)| |done]. intros Hgr [w Hw]. rewrite Hn'.
    case_decide as Hd; [|rewrite lookup_insert_is_Some'; right; by eexists].
    destruct (decide (f_inode g = f_inode f)) as [Eg|Eg]; [|rewrite lookup_delete_ne by done; by eexists].
    assert (open_files s' !! k = Some g) as Hk' by (rewrite E, list_lookup_insert_ne by done; done).
    pose proof (open_count_pos s' k g Hk' Hgr) as Hpos. specialize (Hc (f_inode f)).
    rewrite decide_True in Hc by done. rewrite Eg in Hpos. lia.
  - intros n w Hw. specialize (Hc n). rewrite Hn' in Hw. destruct (decide (n = f_inode f)) as [->|Hne].
    + rewrite decide_True in Hc by done. case_decide; [by rewrite lookup_delete_eq in Hw|].
      rewrite lookup_insert_eq in Hw. injection Hw as <-. simpl. split; [lia|done].
    + assert (nodes s !! n = Some w) as Hw'
        by (case_decide; [rewrite lookup_delete_ne in Hw by done|rewrite lookup_insert_ne in Hw by done]; done).
      destruct (Hnodes n w Hw'). split; [|done]. case_decide; lia.
Qed.

Lemma vfs_close_inv s j f : files_inv s -> open_files s !! j = Some f -> f_refcount f <> 0 ->
  exists r s', vfs_close fops_at socket_put no_return s (Z.of_nat j) = Ok (r, s') /\ files_inv s' /\
    open_files s' = <[j := if f_refcount f =? 1 then mk_fd 0 0 0 (-1) 0
                           else set_f_refcount (f_refcount f - 1) f]> (open_files s).
Proof.
  intros Hinv Hj Hr0. pose proof (lookup_lt_Some _ _ _ Hj) as Hlt.
  destruct (files_inv_slot s j f Hinv Hj Hr0) as (Hr & Hf0 & (v & Hv & Href & Hcnt & ops & Hops) & Hp).
  unfold vfs_close, vfs_put_file. rewrite (file_get s j f Hj). cbn [outcome_bind].
  destruct (Z.eqb_spec (f_inode f) 0) as [|_]; [done|].
  rewrite put_file_spec by done. cbn [outcome_bind]. rewrite u32_small by lia. set (s1 := set_open_files _ s).
  destruct (Z.ltb_spec 1 (f_refcount f)); [destruct (Z.eqb_spec (f_refcount f) 1) as [|_]; [lia|]|].
  { exists (RVal 0), s1. split; [done|]. split; [|done]. apply set_refcount_inv; [done..|lia]. }
  assert (f_refcount f = 1) as Er by lia. rewrite Er. cbn [Z.eqb Pos.eqb].
  unfold file_fops, get_node. change (nodes s1) with (nodes s). rewrite Hv. cbn [deref outcome_bind]. rewrite Hops.
  cbn [deref outcome_bind].
  assert (exists w d, match fo_close ops with Some close => close s1 (Z.of_nat j) | None => Ok (RVal 0, s1) end
    = Ok (RVal w, set_priv d s1) /\ 0 <= w) as (w & d & -> & Hw).
  { destruct (fo_close ops) as [close|] eqn:E; [by apply (proj2 (fops_ok _ _ Hops))|].
    exists 0, (priv s). by destruct s. }
  cbn [outcome_bind failed]. destruct (Z.ltb_spec w 0); [lia|].
  destruct (release_file_spec (set_priv d s1) j (set_f_refcount (f_refcount f - 1) f) v) as (s2 & -> & Hf2 & Hn2 & He2); try done.
  { unfold s1. simpl. by apply list_lookup_insert_eq. }
  cbn [outcome_bind]. exists (if failed no_return then no_return else RVal 0), s2.
  assert (open_files s2 = <[j := mk_fd 0 0 0 (-1) 0]> (open_files s)) as E2.
  { rewrite Hf2. unfold s1. simpl. rewrite list_insert_insert_eq. do 2 f_equal. lia. }
  split; [by destruct (failed no_return)|]. split; [|done]. by eapply close_last_inv.
Qed.


End open_table.

(** ** Examples *)

Definition plain_fops : file_ops unit := mk_file_ops unit None None None None None.
Definition example_fops (a : Z) : option (file_ops unit) := if a =? 1 then Some plain_fops else None.
Definition no_sockets (d : unit) (a : Z) : outcome unit := Ok d.

(** The state with [/a/b] open once, as descriptor 0. *)
Definition one_open : vfs unit := example_state tt 1 (mk_fd 0 132 48 0 1 :: replicate 63 (mk_fd 0 0 0 0 0)).

Lemma unlink_open_frees_witness :
  exists s', vfs_unlink example_iops example_sops no_sockets one_open [47; 97; 47; 98] = Ok (RVal 0, s') /\
    nodes s' !! 132 = None /\ entries s' !! 48 = None /\ aget (open_files s') 0 = Ok (mk_fd 0 132 48 0 1) /\
    (forall length, vfs_read example_fops s' 0 length = Fault) /\ (forall buffer, vfs_write example_fops s' 0 buffer = Fault) /\
    (forall offset flags, vfs_seek s' 0 offset flags = Fault) /\ vfs_fstat s' 0 = Fault /\
    vfs_close example_fops no_sockets (RVal 0) s' 0 = Fault.
Proof.
  apply (unlink_open_frees example_iops example_sops example_fops no_sockets (RVal 0) one_open ∅ [47; 97; 47; 98] 16
    [97; 47; 98] 48 (mk_ventry [98] 132 32 [] 0 None 1) (example_file 1) 0 (mk_fd 0 132 48 0 1)); try reflexivity.
  - apply example_ok.
  - apply example_refs. lia.
  - split; [reflexivity|]. split; [eexists; reflexivity|]. split; [reflexivity|]. split; [simpl; lia|set_solver].
Defined.

Lemma one_open_inv : files_inv example_fops one_open.
Proof.
  split; [reflexivity|]. split.
  - constructor.
    + split; [simpl; lia|]. simpl. split; [lia|]. split; [by eexists|]. right. eexists. split; [reflexivity|simpl; lia].
    + apply Forall_replicate. split; [simpl; lia|done].
  - intros n v Hv. unfold one_open, example_state in Hv. cbn [nodes] in Hv.
    rewrite !lookup_insert_Some, lookup_singleton_Some in Hv.
    destruct Hv as [(<- & <-)|(_ & [(<- & <-)|(_ & <- & <-)])]; (split; [vm_compute; split; congruence|by eexists]).
Qed.

