(* ===== verification/Create.v ===== *)
(** * Creating a file

    A file made by [vfs_create] (kernel/fs/vfs.c, kernel/fs/generic.c) is what
    a later lookup of its path finds, and the tree is otherwise the same. *)

From stdpp Require Import base numbers list gmap sets.
From Stdlib Require Import ZArith Lia.
From S2P Require Import Prelude Sched Device Dcache Lookup Tree Vfs.

(** ** Paths that end in a name *)

Lemma components_from_app u p q : 0 ∉ p -> q <> [] -> (forall c, c ∈ q -> c <> 47 /\ c <> 0) ->
  (p = [] /\ u = [] \/ last p = Some 47) -> components_from u (p ++ q) = components_from u p ++ [q].
Proof.
  intros Hz Hq Hchars. assert (forall w l, (forall c, c ∈ l -> c <> 47 /\ c <> 0) -> w ++ l <> [] -> components_from w l = [w ++ l]) as Hword.
  { intros w l. revert w. induction l as [|c l IH]; intros w Hl Hw.
    - rewrite app_nil_r in *. simpl. by rewrite bool_decide_eq_false_2.
    - cbn [components_from]. destruct (Hl c ltac:(set_solver)). destruct (Z.eqb_spec c 47); [done|].
      rewrite IH, <- app_assoc; [done|set_solver|by destruct w]. }
  revert u. induction p as [|c p IH]; intros u Hp.
  - destruct Hp as [[_ ->]|Hl]; [|done]. simpl. by rewrite (Hword [] q).
  - destruct Hp as [[? _]|Hl]; [done|]. cbn [components_from app].
    destruct (Z.eqb_spec c 47) as [->|Hc].
    + rewrite <- app_assoc. f_equal. apply IH; [set_solver|]. destruct p; [by left|right; done].
    + apply IH; [set_solver|]. destruct p; [simpl in Hl; congruence|by right].
Qed.

(** A path to a new file: a directory part, empty or ending in a slash, and a name. *)
Definition file_path (dir name : list Z) : Prop :=
  component_ok name /\ (0 ∉ name) /\ (0 ∉ dir) /\ (dir = [] \/ last dir = Some 47).

Lemma components_file dir name : file_path dir name -> components (dir ++ name) = components dir ++ [name].
Proof.
  intros ((Hne & Hs & _) & Hzn & Hzd & Hd). apply components_from_app; [done|done| |naive_solver].
  intros c Hc. split; intros ->; done.
Qed.

Lemma basename_loop_spec dir : forall name b, (47 ∉ name) -> name <> [] -> (dir = [] \/ last dir = Some 47) ->
  basename_loop (dir ++ name) (length (dir ++ name)) b = if bool_decide (dir = []) then b else name.
Proof.
  induction dir as [|c dir IH]; intros name b Hs Hne Hd.
  - rewrite bool_decide_eq_true_2 by done. simpl. clear Hne Hd. revert b.
    induction name as [|c name IHn]; intros b; [done|]. simpl. destruct name as [|d name]; [done|].
    cbn [basename_loop length] in *. destruct (Z.eqb_spec c 47); [set_solver|]. apply IHn. set_solver.
  - rewrite bool_decide_eq_false_2 by done. destruct Hd as [|Hl]; [done|].
    cbn [app length basename_loop]. destruct (length (dir ++ name)) as [|k] eqn:Hk.
    { rewrite length_app in Hk. destruct name; simpl in Hk; [done|lia]. }
    rewrite <- Hk, IH; [|done..|destruct dir; [by left|by right]].
    case_bool_decide as Hdir; [|done]. subst dir. simpl in Hl. injection Hl as ->. done.
Qed.

Lemma basename_of_file pre name : (47 ∉ name) -> name <> [] -> (pre = [] \/ last pre = Some 47) ->
  basename_of (pre ++ name) = Ok name.
Proof.
  intros Hs Hne Hd. unfold basename_of. destruct (pre ++ name) as [|x l] eqn:E.
  { apply app_eq_nil in E as [_ ?]. done. }
  rewrite <- E, basename_loop_spec by done. case_bool_decide; [|done]. by subst pre.
Qed.

(** ** A tree with one more file *)

Section grown.
Context {D : Type} (iops_at : Z -> option (inode_ops D)) (sops_at : Z -> option (super_ops D)).
Implicit Types (s : vfs D) (C : gset Z).

(** [s'] is [s] with the entry [new] of a fresh node [inode] added to the directory [q]. *)
Record grown (s s' : vfs D) (q : Z) (pe : ventry) (new inode : Z) (n : vnode) (name : list Z) : Prop := {
  g_dir : entries s !! q = Some pe;
  g_isdir : is_dir s q = true;
  g_fresh : entries s !! new = None;
  g_inode : nodes s !! inode = None;
  g_new0 : new <> 0;
  g_inode0 : inode <> 0;
  g_name : component_ok name /\ name_ok name;
  g_free : child s q name = 0;
  g_iops : exists ops, iops_at (n_iops n) = Some ops /\ io_lookup ops = Some generic_fs_lookup;
  g_entries : entries s' =
    <[q := set_e_children (e_children pe ++ [new]) pe]> (<[new := mk_ventry name inode q [] 0 None 0]> (entries s));
  g_nodes : nodes s' = <[inode := n]> (nodes s);
  g_mounts : mounts s' = mounts s;
  g_root : root_node s' = root_node s;
}.

#[local] Arguments g_dir {s s' q pe new inode n name} _.
#[local] Arguments g_isdir {s s' q pe new inode n name} _.
#[local] Arguments g_fresh {s s' q pe new inode n name} _.
#[local] Arguments g_inode {s s' q pe new inode n name} _.
#[local] Arguments g_new0 {s s' q pe new inode n name} _.
#[local] Arguments g_inode0 {s s' q pe new inode n name} _.
#[local] Arguments g_name {s s' q pe new inode n name} _.
#[local] Arguments g_free {s s' q pe new inode n name} _.
#[local] Arguments g_iops {s s' q pe new inode n name} _.
#[local] Arguments g_entries {s s' q pe new inode n name} _.
#[local] Arguments g_nodes {s s' q pe new inode n name} _.
#[local] Arguments g_mounts {s s' q pe new inode n name} _.
#[local] Arguments g_root {s s' q pe new inode n name} _.

Section grown_facts.
Context (s s' : vfs D) (q : Z) (pe : ventry) (new inode : Z) (n : vnode) (name : list Z).
Context (G : grown s s' q pe new inode n name) (T : tree_shape iops_at sops_at s).

Lemma grown_neq : q <> new.
Proof. intros ->. pose proof (g_dir G). pose proof (g_fresh G). congruence. Qed.

(** Where the entries of the new tree come from. *)
Lemma grown_lookup a e' : entries s' !! a = Some e' ->
  (a = new /\ e' = mk_ventry name inode q [] 0 None 0) \/
  (a = q /\ e' = set_e_children (e_children pe ++ [new]) pe) \/
  (a <> new /\ a <> q /\ entries s !! a = Some e').
Proof.
  rewrite (g_entries G). pose proof grown_neq.
  rewrite !lookup_insert_Some. naive_solver.
Qed.

Lemma grown_new : entries s' !! new = Some (mk_ventry name inode q [] 0 None 0).
Proof. rewrite (g_entries G), lookup_insert_ne, lookup_insert_eq by apply grown_neq. done. Qed.

Lemma grown_old a e : entries s !! a = Some e ->
  exists e', entries s' !! a = Some e' /\ e_name e' = e_name e /\ e_node e' = e_node e /\ e_parent e' = e_parent e /\
    e_mount e' = e_mount e /\ e_children e' = (if decide (a = q) then e_children e ++ [new] else e_children e).
Proof.
  intros He. rewrite (g_entries G). destruct (decide (a = q)) as [->|Hq].
  - rewrite lookup_insert_eq. rewrite (g_dir G) in He. injection He as ->. by eexists.
  - assert (a <> new) by (intros ->; pose proof (g_fresh G); congruence).
    rewrite !lookup_insert_ne by done. by eexists.
Qed.

Lemma grown_named a m : is_Some (entries s !! a) -> named s' m a <-> named s m a.
Proof. intros [e He]. unfold named. destruct (grown_old a e He) as (e' & -> & Hn & _). rewrite He. simpl. by rewrite Hn. Qed.

Lemma grown_is_dir a : is_dir s a = true -> is_dir s' a = true.
Proof.
  unfold is_dir. destruct (entries s !! a) as [e|] eqn:He; [|done].
  destruct (grown_old a e He) as (e' & -> & _ & -> & _). rewrite (g_nodes G).
  destruct (nodes s !! e_node e) as [v|] eqn:Hv; [|done].
  rewrite lookup_insert_ne by (intros E; pose proof (g_inode G); congruence). by rewrite Hv.
Qed.

Lemma grown_node a v : nodes s !! a = Some v -> nodes s' !! a = Some v.
Proof.
  intros Hv. rewrite (g_nodes G), lookup_insert_ne; [done|].
  intros ->. pose proof (g_inode G). congruence.
Qed.

Lemma grown_live a : is_Some (entries s !! a) -> is_Some (entries s' !! a).
Proof. intros [e He]. destruct (grown_old a e He) as (e' & -> & _). by eexists. Qed.

Lemma grown_no_sibling c : c ∈ e_children pe -> ~ named s name c.
Proof.
  intros Hc Hn. pose proof (child_eq iops_at sops_at s q pe name c T (g_dir G) Hc Hn) as E.
  rewrite (g_free G) in E. subst c.
  destruct (ts_child _ _ s T q pe 0 (g_dir G) Hc) as (_ & ec & Hec & _).
  by destruct (ts_entry _ _ s T 0 ec Hec).
Qed.

Lemma grown_unique a e' c c' m : entries s' !! a = Some e' -> c ∈ e_children e' -> c' ∈ e_children e' ->
  named s' m c -> named s' m c' -> c = c'.
Proof.
  pose proof (g_dir G) as Hdir. assert (forall c, c ∈ e_children pe -> is_Some (entries s !! c)) as Hclive.
  { intros x Hx. destruct (ts_child _ _ s T q pe x Hdir Hx) as (_ & ec & ? & _). by eexists. }
  intros He' Hc Hc' Hn Hn'. destruct (grown_lookup a e' He') as [[-> ->]|[[-> ->]|(_ & _ & He)]]; [set_solver| |].
  - simpl in Hc, Hc'. rewrite elem_of_app, list_elem_of_singleton in Hc, Hc'.
    assert (forall x, x ∈ e_children pe -> named s' name x -> False) as Hno
      by (intros x Hx Hnx; apply (grown_no_sibling x Hx); by apply grown_named; [apply Hclive|]).
    assert (named s' name new) as Hnew by (unfold named; by rewrite grown_new).
    assert (forall x, named s' m x -> x = new -> m = name) as Hm
      by (intros x Hx ->; unfold named in Hx; rewrite grown_new in Hx; by injection Hx).
    destruct Hc as [Hc|Ec], Hc' as [Hc'|Ec'].
    + rewrite grown_named in Hn, Hn' by auto. by eapply (ts_unique _ _ s T q pe).
    + rewrite (Hm c' Hn' Ec') in Hn. by destruct (Hno c Hc).
    + rewrite (Hm c Hn Ec) in Hn'. by destruct (Hno c' Hc').
    + congruence.
  - assert (forall x, x ∈ e_children e' -> is_Some (entries s !! x)) as Hl.
    { intros x Hx. destruct (ts_child _ _ s T a e' x He Hx) as (_ & ec & ? & _). by eexists. }
    rewrite grown_named in Hn, Hn' by auto. by eapply (ts_unique _ _ s T a e').
Qed.

Lemma grown_tree : tree_shape iops_at sops_at s'.
Proof.
  pose proof (g_dir G) as Hdir. pose proof (g_name G) as [Hcok Hnok]. split.
  - intros a e' He'. destruct (grown_lookup a e' He') as [[-> ->]|[[-> ->]|(_ & _ & He)]].
    + split; [apply (g_new0 G)|]. split; [done|]. split; [apply (g_inode0 G)|].
      destruct (g_iops G) as (ops & H1 & H2). exists n, ops. simpl.
      by rewrite (g_nodes G), lookup_insert_eq.
    + destruct (ts_entry _ _ s T q pe Hdir) as (H1 & H2 & H3 & v & ops & H4 & H5). simpl.
      do 3 (split; [done|]). exists v, ops. by rewrite (grown_node _ v).
    + destruct (ts_entry _ _ s T a e' He) as (H1 & H2 & H3 & v & ops & H4 & H5).
      do 3 (split; [done|]). exists v, ops. by rewrite (grown_node _ v).
  - assert (forall a e c, entries s !! a = Some e -> c ∈ e_children e -> is_dir s' a = true /\
      exists ec, entries s' !! c = Some ec /\ e_parent ec = a /\ component_ok (e_name ec)) as Hold.
    { intros a e c He Hc. destruct (ts_child _ _ s T a e c He Hc) as (H1 & ec & Hec & H2 & H3).
      split; [by apply grown_is_dir|]. destruct (grown_old c ec Hec) as (ec' & ? & Hn & _ & Hp & _).
      exists ec'. by rewrite Hn, Hp. }
    intros a e' c He' Hc. destruct (grown_lookup a e' He') as [[-> ->]|[[-> ->]|(_ & _ & He)]]; [set_solver| |by eapply Hold].
    simpl in Hc. apply elem_of_app in Hc as [Hc|Hc]; [by eapply Hold|]. apply list_elem_of_singleton in Hc as ->.
    split; [apply grown_is_dir, (g_isdir G)|]. eexists. split; [apply grown_new|]. done.
  - intros a e' He' Hp. destruct (grown_lookup a e' He') as [[-> ->]|He].
    { simpl. eexists. rewrite (g_entries G), lookup_insert_eq. split; [done|]. simpl. set_solver. }
    assert (exists e, entries s !! a = Some e /\ e_parent e = e_parent e') as (e & Hea & Hpe).
    { destruct He as [[-> ->]|(_ & _ & He)]; [by exists pe|by exists e']. }
    rewrite <- Hpe in *. destruct (ts_parent _ _ s T a e Hea Hp) as (p & Hpp & Hin).
    destruct (grown_old _ p Hpp) as (p' & -> & _ & _ & _ & _ & Hch). exists p'. split; [done|]. rewrite Hch.
    case_decide; set_solver.
  - intros. by eapply grown_unique.
  - rewrite (g_root G). apply grown_live, (ts_root _ _ s T).
  - intros m. rewrite (g_mounts G). intros Hm. destruct (ts_mount _ _ s T m Hm) as (H1 & H2 & H3).
    split; [by apply grown_live|]. split; [by apply grown_live|done].
  - intros a e' m He' Hm. rewrite (g_mounts G).
    destruct (grown_lookup a e' He') as [[-> ->]|[[-> ->]|(_ & _ & He)]]; [done| |by eapply (ts_mounted _ _ s T)].
    by eapply (ts_mounted _ _ s T q pe).
Qed.

Lemma grown_child a m : child s a m <> 0 -> child s' a m = child s a m.
Proof.
  intros Hc. destruct (child_in iops_at sops_at s a m Hc) as (e & He & Hin & Hn).
  destruct (grown_old a e He) as (e' & He' & _ & _ & _ & _ & Hch).
  destruct (ts_child _ _ s T a e _ He Hin) as (_ & ec & Hec & _).
  eapply (child_eq iops_at sops_at); [apply grown_tree|done| |].
  - rewrite Hch. case_decide; set_solver.
  - apply grown_named; [by eexists|done].
Qed.

Lemma grown_parent_of a : is_Some (entries s !! a) -> parent_of s' a = parent_of s a.
Proof.
  intros [e He]. unfold parent_of. destruct (grown_old a e He) as (e' & -> & _ & _ & Hp & _). rewrite He. simpl. done.
Qed.

Lemma grown_crossed a : is_Some (entries s !! a) -> crossed s' a = crossed s a.
Proof.
  intros [e He]. unfold crossed. rewrite (g_root G). destruct (grown_old a e He) as (e' & -> & _ & _ & _ & Hm & _).
  rewrite He. simpl. by rewrite Hm.
Qed.

Lemma grown_step a c : is_Some (entries s !! a) -> step s a c <> 0 -> step s' a c = step s a c.
Proof.
  intros Ha. unfold step. case_bool_decide; [done|]. case_bool_decide.
  - intros _. unfold up. rewrite grown_parent_of, (g_mounts G), (g_root G) by done.
    destruct (negb (parent_of s a =? 0)); [done|]. destruct (head _) as [m|] eqn:Eh; [|done].
    case_match; [done|]. apply grown_parent_of.
    destruct (filter _ (mounts s)) as [|m' l] eqn:Ef; simplify_eq/=.
    assert (m ∈ filter (fun m => sb_data (m_sb m) = a) (mounts s)) as Hin by (rewrite Ef; set_solver).
    apply list_elem_of_filter in Hin as [_ Hin]. by destruct (ts_mount _ _ s T m Hin) as (_ & ? & _).
  - rewrite grown_crossed by done. apply grown_child.
Qed.

(** Paths that led somewhere still lead there. *)
Lemma grown_resolve C cs : tree_ok iops_at sops_at s C -> forall a p, is_Some (entries s !! a) -> resolve s a cs false = inr p -> p <> 0 ->
  resolve s' a cs false = inr p.
Proof.
  intros Htree. induction cs as [|c cs IH]; intros a p Ha Hr Hp; [done|]. simpl in *.
  destruct (Z.eqb_spec a 0); [congruence|]. destruct (is_dir s a) eqn:Hd; [|done]. simpl in Hr.
  rewrite (grown_is_dir a Hd). simpl.
  destruct (step_live iops_at sops_at s C a c Htree Ha) as [E|Hl].
  - rewrite E in Hr. destruct cs; simpl in Hr; congruence.
  - assert (step s a c <> 0) as Hs0.
    { intros E. rewrite E in Hl. destruct Hl as [e He]. by destruct (ts_entry _ _ s T 0 e He). }
    rewrite grown_step by done. by apply IH.
Qed.

Lemma grown_found : child s' q name = new.
Proof.
  destruct (grown_old q pe (g_dir G)) as (e' & He' & _ & _ & _ & _ & Hch).
  rewrite decide_True in Hch by done.
  eapply (child_eq iops_at sops_at); [apply grown_tree|done|rewrite Hch; set_solver|].
  unfold named. by rewrite grown_new.
Qed.

End grown_facts.
(** ** Making the file *)

(** No object lies at or above the next heap address. *)
Definition heap_fresh (s : vfs D) : Prop :=
  0 < brk s /\ forall a, brk s <= a -> entries s !! a = None /\ nodes s !! a = None.

Lemma entry_name_plain name : (length name < 64)%nat -> (47 ∉ name) -> entry_name name = Ok name.
Proof.
  intros Hl Hs. unfold entry_name. destruct (Nat.leb_spec 64 (length name)); [lia|]. f_equal.
  destruct (Nat.ltb_spec 1 (length name)); [|done]. simpl.
  destruct (Z.eqb_spec (nth (length name - 1) name 0) 47) as [E|]; [|done].
  exfalso. apply Hs. rewrite <- E. apply list_elem_of_In, nth_In. lia.
Qed.

(** The node of a file created with [mode] in the directory of node [pv]. *)
Definition created_node (s : vfs D) (pv : vnode) (mode : Z) : vnode :=
  set_n_nlink 1 (set_owner s (set_n_nlink 0 (set_n_fops (n_fops pv) (set_n_iops (n_iops pv)
    (mk_vnode (Z.lor S_IFREG mode) 0 0 0 0 0 0 0 0 0))))).

Lemma set_owner_nlink s n : n_nlink (set_owner s n) = n_nlink n.
Proof. unfold set_owner. by destruct (cur_task s). Qed.

(** The fields of the state that making a file leaves alone. *)
Definition rest_same (s s' : vfs D) : Prop :=
  hash_table s' = hash_table s /\ mounts s' = mounts s /\ root_node s' = root_node s /\ cur_task s' = cur_task s /\
  open_files s' = open_files s.

Lemma inherit_node_run s q pe pv mode nlink : nodes s !! brk s = None -> entries s !! q = Some pe ->
  nodes s !! e_node pe = Some pv ->
  exists s1 n, inherit_node s q mode nlink = Ok (brk s, s1) /\
    n = set_owner s (set_n_nlink nlink (set_n_fops (n_fops pv) (set_n_iops (n_iops pv) (mk_vnode mode 0 0 0 0 0 0 0 0 0)))) /\
    nodes s1 = <[brk s := n]> (nodes s) /\ entries s1 = entries s /\ brk s1 = brk s + 16 /\ rest_same s s1.
Proof.
  intros Hf Hq Hpv. assert (brk s <> e_node pe) by congruence.
  unfold inherit_node, vnode_new, fs_alloc, get_entry, get_node. cbn [entries put_node set_nodes set_brk nodes brk].
  rewrite Hq. cbn [deref outcome_bind]. rewrite lookup_insert_ne, Hpv by done. cbn [deref outcome_bind].
  rewrite lookup_insert_eq. cbn [deref outcome_bind]. eexists _, _. split; [reflexivity|]. split; [reflexivity|].
  split; [|done]. cbn [nodes put_node set_nodes set_brk]. apply insert_insert_eq.
Qed.

Lemma link_new_run s q pe pv inode n name : entries s !! brk s = None -> entries s !! q = Some pe ->
  nodes s !! e_node pe = Some pv -> nodes s !! inode = Some n -> e_node pe <> inode ->
  (length name < 64)%nat -> (47 ∉ name) ->
  exists s1, link_new s q name inode false = (let* s := dcache_insert s1 (brk s) in Ok (RVal 0, s)) /\
    entries s1 = <[q := set_e_children (e_children pe ++ [brk s]) pe]>
      (<[brk s := mk_ventry name inode q [] 0 None 0]> (entries s)) /\
    nodes s1 = <[inode := set_n_nlink (u64 (n_nlink n + 1)) n]> (nodes s) /\ rest_same s s1.
Proof.
  intros Hf Hq Hpv Hn Hne Hl Hs. assert (brk s <> q) as Hq1 by congruence.
  unfold link_new, ventry_new. destruct (fs_alloc s) as [a s0] eqn:Ea. injection Ea as <- <-.
  rewrite entry_name_plain by done. cbn [outcome_bind]. unfold get_node at 1. cbn [nodes set_brk]. rewrite Hn.
  cbn [deref outcome_bind]. unfold get_entry at 1. cbn [entries put_entry set_entries put_node set_nodes set_brk].
  rewrite lookup_insert_eq. cbn [deref outcome_bind]. unfold get_entry at 1.
  cbn [entries put_entry set_entries put_node set_nodes set_brk]. rewrite !lookup_insert_ne, Hq by done.
  cbn [deref outcome_bind]. unfold get_node at 1. cbn [nodes put_entry set_entries put_node set_nodes set_brk].
  rewrite lookup_insert_ne, Hpv by done. cbn [deref outcome_bind]. unfold add_child, get_entry at 1.
  cbn [entries put_entry set_entries put_node set_nodes set_brk]. rewrite !lookup_insert_ne, Hq by done.
  cbn [deref outcome_bind]. eexists. split; [reflexivity|].
  cbn [entries nodes put_entry set_entries put_node set_nodes set_brk]. split; [|done]. by rewrite insert_insert_eq.
Qed.

(** The state that [generic_fs_create] reaches before it caches the entry. *)
Lemma generic_fs_create_run s q pe pv name mode : heap_fresh s -> entries s !! q = Some pe ->
  nodes s !! e_node pe = Some pv -> (length name < 64)%nat -> (47 ∉ name) ->
  exists s1, generic_fs_create s q name mode = (let* s := dcache_insert s1 (brk s + 16) in Ok (RVal 0, s)) /\
    entries s1 = <[q := set_e_children (e_children pe ++ [brk s + 16]) pe]>
      (<[brk s + 16 := mk_ventry name (brk s) q [] 0 None 0]> (entries s)) /\
    nodes s1 = <[brk s := created_node s pv mode]> (nodes s) /\ rest_same s s1.
Proof.
  intros [Hb Hf] Hq Hpv Hl Hs. unfold generic_fs_create.
  destruct (inherit_node_run s q pe pv (Z.lor S_IFREG mode) 0) as (s0 & n & -> & En & Hn0 & He0 & Hb0 & Hr0); [by apply Hf|done..|].
  cbn [outcome_bind].
  destruct (link_new_run s0 q pe pv (brk s) n name) as (s1 & Hrun & He1 & Hn1 & Hr1).
  - rewrite He0, Hb0. apply Hf. lia.
  - by rewrite He0.
  - rewrite Hn0, lookup_insert_ne; [done|]. destruct (Hf (brk s) ltac:(lia)). congruence.
  - by rewrite Hn0, lookup_insert_eq.
  - destruct (Hf (brk s) ltac:(lia)). congruence.
  - done.
  - done.
  - exists s1. rewrite Hrun, He1, Hn1, He0, Hb0, Hn0, insert_insert_eq. split; [done|]. split; [done|].
    split; [|unfold rest_same in *; intuition congruence].
    f_equal. unfold created_node. subst n. rewrite set_owner_nlink. reflexivity.
Qed.


Lemma is_dir_node s a : is_dir s a = true -> exists e v, entries s !! a = Some e /\ nodes s !! e_node e = Some v.
Proof.
  unfold is_dir. destruct (entries s !! a) as [e|]; [|done]. destruct (nodes s !! e_node e) as [v|] eqn:E; [|done]. by eauto.
Qed.

(** A grown tree with the same cache is a tree. *)
Lemma grown_tree_ok s s1 C q pe new inode n name : tree_ok iops_at sops_at s C -> grown s s1 q pe new inode n name ->
  hash_table s1 = hash_table s -> tree_ok iops_at sops_at s1 C.
Proof.
  intros (Hsh & Hrep & Hcp) G Ht. split; [by eapply grown_tree|]. split.
  - eapply dcache_rep_extend; [done| |exact Hrep]. intros x e He. rewrite (g_entries G).
    destruct (decide (x = q)) as [->|]; [rewrite lookup_insert_eq|rewrite lookup_insert_ne by done].
    + rewrite (g_dir G) in He. injection He as <-. by eexists.
    + rewrite lookup_insert_ne; [by eexists|]. intros <-. pose proof (g_fresh G). congruence.
  - intros x Hx. rewrite (grown_parent_of s s1 q pe new inode n name G) by (by eapply dcache_rep_live). by apply Hcp.
Qed.

(** An entry that is linked and cached grows the tree, whatever made the node. *)
Lemma linked_grows s C q pe pv name n run s1 : tree_ok iops_at sops_at s C -> heap_fresh s ->
  entries s !! q = Some pe -> nodes s !! e_node pe = Some pv -> is_dir s q = true -> child s q name = 0 ->
  component_ok name -> name_ok name -> n_iops n = n_iops pv ->
  run = (let* s := dcache_insert s1 (brk s + 16) in Ok (RVal 0, s)) ->
  entries s1 = <[q := set_e_children (e_children pe ++ [brk s + 16]) pe]>
      (<[brk s + 16 := mk_ventry name (brk s) q [] 0 None 0]> (entries s)) ->
  nodes s1 = <[brk s := n]> (nodes s) -> rest_same s s1 ->
  exists s', run = Ok (RVal 0, s') /\ grown s s1 q pe (brk s + 16) (brk s) n name /\ same_tree s1 s' /\
    tree_ok iops_at sops_at s' ({[brk s + 16]} ∪ C).
Proof.
  intros Htree Hfresh Hq Hpv Hdir Hchild Hcok Hnok Hio Hrun He1 Hn1 Hr1. pose proof Htree as (Hsh & Hrep & Hcp).
  pose proof Hfresh as [Hb Hf]. destruct Hr1 as (Ht1 & Hm1 & Hroot1 & Hc1 & Hf1).
  assert (grown s s1 q pe (brk s + 16) (brk s) n name) as G.
  { split; try done; try lia; try (apply Hf; lia). destruct (ts_entry _ _ s Hsh q pe Hq) as (_ & _ & _ & v & ops & Hv & H1 & H2).
    exists ops. rewrite Hpv in Hv. injection Hv as <-. by rewrite Hio. }
  assert (tree_ok iops_at sops_at s1 C) as Ht1' by (by eapply grown_tree_ok). pose proof Ht1' as (_ & Hrep1 & _).
  assert (brk s + 16 ∉ C) as Hnot.
  { intros Hin. destruct (dcache_rep_live s C _ Hrep Hin) as [e He]. destruct (Hf (brk s + 16) ltac:(lia)). congruence. }
  destruct (dcache_insert_spec s1 C (brk s + 16) (mk_ventry name (brk s) q [] 0 None 0)) as (s' & Hins & Hrep' & Hs' & _);
    [done|by eapply grown_new|done|done|lia|].
  exists s'. rewrite Hrun, Hins. split; [done|]. split; [done|]. split; [done|].
  eapply tree_ok_same; [done..|]. intros x. rewrite elem_of_union, elem_of_singleton. intros [->|?]; [right|by left].
  unfold parent_of. rewrite (grown_new s s1 q pe _ _ _ _ G). simpl.
  by destruct (ts_entry _ _ s Hsh q pe Hq).
Qed.

Lemma set_owner_iops s n : n_iops (set_owner s n) = n_iops n.
Proof. unfold set_owner. by destruct (cur_task s). Qed.

Lemma resolve_snoc s cs c parent : forall a p, resolve s a cs false = inr p -> p <> 0 -> is_dir s p = true ->
  resolve s a (cs ++ [c]) parent = if parent then inr p else inr (step s p c).
Proof.
  induction cs as [|x cs IH]; intros a p Hr Hp Hd; simpl in *.
  - injection Hr as ->. destruct (Z.eqb_spec p 0); [done|]. rewrite Hd. simpl. by destruct parent.
  - destruct (Z.eqb_spec a 0); [congruence|]. destruct (negb (is_dir s a)); [done|].
    rewrite (bool_decide_eq_false_2 (cs ++ [c] = [])) by (by destruct cs). rewrite andb_false_r. by apply IH.
Qed.

(** The directory [p] that a path leads to and the file system root [q] that
    is mounted on it, if any, in which [name] is free. *)
Definition free_in (s : vfs D) (start : Z) (dir name : list Z) (p q : Z) : Prop :=
  resolve s start (components dir) false = inr p /\ p <> 0 /\ is_dir s p = true /\
  crossed s p = q /\ crossed s q = q /\ is_dir s q = true /\ child s q name = 0.

Lemma path_split s path start dir name : lookup_start s path = Some (start, dir ++ name) -> name <> [] ->
  (dir = [] \/ last dir = Some 47) -> exists pre, path = pre ++ name /\ (pre = [] \/ last pre = Some 47).
Proof.
  intros Hst Hne Hd. assert (path = 47 :: (dir ++ name) \/ path = dir ++ name) as [->| ->].
  { unfold lookup_start in Hst. repeat case_match; simplify_option_eq; auto. }
  - exists (47 :: dir). split; [done|]. right. destruct Hd as [->|Hl]; [done|]. by destruct dir.
  - by exists dir.
Qed.

(** A directory in which nothing is mounted, and a path from it. *)
Definition start_ok (s : vfs D) (start : Z) (path : list Z) : Prop :=
  is_Some (entries s !! start) /\ crossed s start = start /\ name_ok path.

(** The lookups at the start of a creation find the directory and the free name. *)
Lemma lookup_at_free s C start dir name p q : tree_ok iops_at sops_at s C -> refs_below s (2 ^ 32 - 2) ->
  start_ok s start (dir ++ name) -> file_path dir name -> free_in s start dir name p q ->
  exists s1 s2 C2, vfs_lookup_at iops_at sops_at s start (dir ++ name) LOOKUP_PARENT = Ok (RVal 0, q, s1) /\
    vfs_lookup_at iops_at sops_at s1 q name 0 = Ok (RErr ENOENT, 0, s2) /\ same_tree s s2 /\ tree_ok iops_at sops_at s2 C2.
Proof.
  intros Ht Hb (Hlive & Hcst & Hnok) Hfile (Hres & Hp0 & Hdp & Hcr & Hcq & Hdq & Hch). pose proof Hfile as (Hcok & Hzn & _ & Hd).
  destruct (vfs_lookup_at_spec iops_at sops_at s C start (dir ++ name) LOOKUP_PARENT Ht Hb Hlive Hcst Hnok)
    as (s1 & C1 & r & a & E1 & Hr & Hs1 & Ht1).
  change (has LOOKUP_PARENT LOOKUP_PARENT) with true in Hr.
  rewrite components_file, (resolve_snoc s _ _ true start p) in Hr by done. cbn [lookup_result] in Hr.
  destruct (Z.eqb_spec p 0); [done|]. rewrite Hcr in Hr. injection Hr as -> ->.
  destruct (is_dir_node s q Hdq) as (eq & vq & Heq & _).
  assert (shape s = shape s1) as Hsh1 by (by apply same_tree_shape).
  destruct (vfs_lookup_at_spec iops_at sops_at s1 C1 q name 0 Ht1) as (s2 & C2 & r & a & E2 & Hr & Hs2 & Ht2).
  - by eapply refs_below_same.
  - by eapply live_same.
  - by rewrite <- (crossed_shape s1), <- Hsh1, crossed_shape.
  - split; [|done]. destruct Hnok as [Hl _]. rewrite length_app in Hl. lia.
  - change (has 0 LOOKUP_PARENT) with false in Hr. rewrite components_single in Hr by done.
    rewrite <- (resolve_shape s1), <- Hsh1, resolve_shape in Hr. cbn [resolve] in Hr.
    assert (q <> 0) as Hq0 by (destruct Ht as (Hsh & _); by destruct (ts_entry _ _ s Hsh q eq Heq)).
    destruct (Z.eqb_spec q 0); [done|]. rewrite Hdq in Hr. cbn [negb andb] in Hr.
    assert (step s q name = 0) as E.
    { unfold step. rewrite Hcq. destruct Hcok as (_ & _ & H1 & H2). by rewrite !bool_decide_eq_false_2. }
    rewrite E in Hr. injection Hr as -> ->. exists s1, s2, C2. split; [done|]. split; [done|]. split; [by etransitivity|done].
Qed.

Lemma lookup_free_spec s C path start dir name p q : tree_ok iops_at sops_at s C -> refs_below s (2 ^ 32 - 2) ->
  path_ok s path start (dir ++ name) -> file_path dir name -> free_in s start dir name p q ->
  exists s2 C2, lookup_free iops_at sops_at s path = Ok (inr (q, name), s2) /\ same_tree s s2 /\
    tree_ok iops_at sops_at s2 C2.
Proof.
  intros Ht Hb (Hst & Hstart) Hfile Hfree. pose proof Hfile as (Hcok & _ & _ & Hd).
  destruct (lookup_at_free s C start dir name p q) as (s1 & s2 & C2 & E1 & E2 & Hs2 & Ht2); [done..|].
  destruct (path_split s path start dir name Hst) as (pre & Epath & Hpre); [apply Hcok|done|].
  unfold lookup_free. rewrite (vfs_lookup_start _ _ _ _ _ _ _ Hst), E1. cbn [outcome_bind failed Z.ltb Z.compare].
  rewrite Epath, basename_of_file by (done || apply Hcok). cbn [outcome_bind]. rewrite E2. cbn [outcome_bind failed negb].
  by exists s2, C2.
Qed.

Lemma heap_fresh_same s s' : same_tree s s' -> heap_fresh s -> heap_fresh s'.
Proof.
  intros Hs [Hb Hf]. assert (brk s' = brk s) as Eb by (symmetry; apply (f_equal brk Hs)).
  assert (nodes s' = nodes s) as En by (symmetry; apply (f_equal nodes Hs)).
  split; [by rewrite Eb|]. intros a Ha. rewrite Eb in Ha. destruct (Hf a Ha) as [He Hn]. rewrite En. split; [|done].
  destruct (entries s' !! a) as [e|] eqn:E; [|done].
  destruct (shape_live s' s a) as [e' He']; [symmetry; by apply same_tree_shape|by eexists|congruence].
Qed.

(** The path of the new file leads to it. *)
Lemma grown_lookup_at s s1 s' C C' start dir name p q pe inode new n :
  tree_ok iops_at sops_at s C -> refs_below s (2 ^ 32 - 2) -> start_ok s start (dir ++ name) -> file_path dir name ->
  free_in s start dir name p q -> grown s s1 q pe new inode n name ->
  same_tree s1 s' -> tree_ok iops_at sops_at s' C' ->
  exists s'', vfs_lookup_at iops_at sops_at s' start (dir ++ name) 0 = Ok (RVal 0, new, s'').
Proof.
  intros Ht Hb (Hlive & Hcst & Hnok) Hfile (Hres & Hp0 & Hdp & Hcr & Hcq & Hdq & Hch) G Hs' Ht'.
  pose proof Hfile as (Hcok & Hzn & _ & Hd). pose proof Ht as (Hsh & _).
  assert (shape s1 = shape s') as Hshape by (by apply same_tree_shape).
  assert (is_Some (entries s !! p)) as Hplive by (destruct (is_dir_node s p Hdp) as (ep & _ & Hep & _); by eexists).
  destruct (vfs_lookup_at_spec iops_at sops_at s' C' start (dir ++ name) 0 Ht') as (s'' & C'' & r & a & Hrun & Hr & _); [| | |done|].
  - intros x ex Hx. destruct (same_tree_entry s' s1 x ex (eq_sym Hs') Hx) as (e1 & He1 & <- & _).
    destruct (grown_lookup s s1 q pe new inode n name G x e1 He1) as [[-> ->]|[[-> ->]|(_ & _ & He)]]; [simpl; lia| |by eapply Hb].
    apply (Hb q pe (g_dir G)).
  - eapply live_same; [done|]. by eapply grown_live.
  - by rewrite <- (crossed_shape s'), <- Hshape, crossed_shape, (grown_crossed s s1 q pe new inode n name G).
  - change (has 0 LOOKUP_PARENT) with false in Hr. rewrite components_file in Hr by done.
    rewrite <- (resolve_shape s'), <- Hshape, resolve_shape in Hr.
    rewrite (resolve_snoc s1 _ _ false start p) in Hr;
      [|by eapply grown_resolve|done|by eapply grown_is_dir].
    assert (step s1 p name = new) as E.
    { unfold step. destruct Hcok as (_ & _ & H1 & H2). rewrite !bool_decide_eq_false_2 by done.
      rewrite (grown_crossed s s1 q pe new inode n name G), Hcr by done. by eapply grown_found. }
    rewrite E, <- (lookup_result_shape s'), <- Hshape, lookup_result_shape in Hr. cbn [lookup_result] in Hr.
    destruct (Z.eqb_spec new 0) as [|_]; [by destruct (g_new0 G)|].
    assert (crossed s1 new = new) as Ec.
    { unfold crossed. rewrite (g_root G). destruct (Z.eqb_spec new (root_node s)); [done|].
      by rewrite (grown_new s s1 q pe new inode n name G). }
    rewrite Ec in Hr. injection Hr as -> ->. by exists s''.
Qed.

Lemma start_ok_same s s' start path : same_tree s s' -> start_ok s start path -> start_ok s' start path.
Proof.
  intros Hs (H1 & H2 & H3). assert (shape s = shape s') as Hsh by (by apply same_tree_shape).
  split; [by eapply live_same|]. split; [|done]. by rewrite <- (crossed_shape s'), <- Hsh, crossed_shape.
Qed.

Lemma free_in_same s s' start dir name p q : same_tree s s' -> free_in s start dir name p q -> free_in s' start dir name p q.
Proof.
  intros Hs. assert (shape s = shape s') as Hsh by (by apply same_tree_shape).
  unfold free_in. rewrite <- (resolve_shape s'), <- !(is_dir_shape s'), <- !(crossed_shape s'), <- (child_shape s'), <- Hsh.
  by rewrite resolve_shape, !is_dir_shape, !crossed_shape, child_shape.
Qed.

Lemma lookup_start_same s s0 s1 s2 path : same_tree s s0 -> rest_same s0 s1 -> same_tree s1 s2 -> lookup_start s path = lookup_start s2 path.
Proof.
  intros H0 (_ & _ & Hr & Hc & _) H1. unfold lookup_start.
  assert (root_node s = root_node s2) as -> by (transitivity (root_node s0); [apply (f_equal root_node H0)|]; rewrite <- Hr; apply (f_equal root_node H1)).
  by assert (cur_task s = cur_task s2) as -> by (transitivity (cur_task s0); [apply (f_equal cur_task H0)|]; rewrite <- Hc; apply (f_equal cur_task H1)).
Qed.

(** What [make] does in a directory: it links a node [node s pv], where [pv] is
    the directory's node, and caches the entry. *)
Definition makes (make : vfs D -> Z -> list Z -> outcome (ret * vfs D)) (node : vfs D -> vnode -> vnode) (s : vfs D) : Prop :=
  forall s0 q pe pv name, same_tree s s0 -> heap_fresh s0 -> entries s0 !! q = Some pe -> nodes s0 !! e_node pe = Some pv ->
    (length name < 64)%nat -> (47 ∉ name) -> n_iops (node s0 pv) = n_iops pv /\
    exists s1, make s0 q name = (let* s := dcache_insert s1 (brk s0 + 16) in Ok (RVal 0, s)) /\
      entries s1 = <[q := set_e_children (e_children pe ++ [brk s0 + 16]) pe]>
        (<[brk s0 + 16 := mk_ventry name (brk s0) q [] 0 None 0]> (entries s0)) /\
      nodes s1 = <[brk s0 := node s0 pv]> (nodes s0) /\ rest_same s0 s1.

(** An entry that is made where a path leads is found there. *)
Lemma make_then_lookup s C path start dir name p q make node : tree_ok iops_at sops_at s C ->
  refs_below s (2 ^ 32 - 2) -> heap_fresh s -> path_ok s path start (dir ++ name) -> file_path dir name ->
  free_in s start dir name p q -> makes make node s ->
  exists s0 s1 s2 s3 C' pe pv ops, lookup_free iops_at sops_at s path = Ok (inr (q, name), s0) /\
    same_tree s s0 /\ node_iops iops_at s0 q = Ok ops /\ (exists a, iops_at a = Some ops) /\
    make s0 q name = Ok (RVal 0, s2) /\ tree_ok iops_at sops_at s2 C' /\
    grown s0 s1 q pe (brk s0 + 16) (brk s0) (node s0 pv) name /\ same_tree s1 s2 /\
    vfs_lookup iops_at sops_at s2 path 0 = Ok (RVal 0, brk s0 + 16, s3).
Proof.
  intros Ht Hb Hfresh Hpath Hfile Hfree Hmake.
  destruct (lookup_free_spec s C path start dir name p q Ht Hb Hpath Hfile Hfree) as (s0 & C0 & E0 & Hs0 & Ht0).
  pose proof (free_in_same s s0 start dir name p q Hs0 Hfree) as Hfree0. pose proof Hpath as (Hst & Hstart).
  pose proof (start_ok_same s s0 start _ Hs0 Hstart) as Hstart0.
  pose proof Hfree0 as (_ & _ & _ & _ & _ & Hdq & Hch). destruct (is_dir_node s0 q Hdq) as (pe & pv & Hpe & Hpv).
  pose proof Ht0 as (Hsh0 & _). destruct (ts_entry _ _ s0 Hsh0 q pe Hpe) as (_ & _ & _ & v & ops & Hv & Hops & _).
  pose proof Hfile as (Hcok & Hzn & _). pose proof Hpath as (_ & _ & _ & [Hlen _]).
  assert (name_ok name) as Hnok by (split; [rewrite length_app in Hlen; lia|done]).
  pose proof (heap_fresh_same s s0 Hs0 Hfresh) as Hfresh0.
  destruct (Hmake s0 q pe pv name Hs0 Hfresh0 Hpe Hpv) as (Hio & s1 & Hrun & He1 & Hn1 & Hr1); [apply Hnok|apply Hcok|].
  destruct (linked_grows s0 C0 q pe pv name (node s0 pv) _ s1 Ht0 Hfresh0 Hpe Hpv Hdq Hch Hcok Hnok Hio Hrun He1 Hn1 Hr1)
    as (s2 & E2 & G & Hs12 & Ht2).
  destruct (grown_lookup_at s0 s1 s2 C0 ({[brk s0 + 16]} ∪ C0) start dir name p q pe (brk s0) (brk s0 + 16) (node s0 pv))
    as (s3 & Hlk); try done; [by eapply refs_below_same|].
  rewrite <- (vfs_lookup_start iops_at sops_at s2 path) in Hlk; [|rewrite <- Hst; symmetry; by apply (lookup_start_same s s0 s1 s2)].
  exists s0, s1, s2, s3, ({[brk s0 + 16]} ∪ C0), pe, pv, ops. split; [done|]. split; [done|]. split; [|by eauto 10].
  unfold node_iops, get_entry, get_node. rewrite Hpe. cbn [deref outcome_bind]. rewrite Hv. cbn [deref outcome_bind]. by rewrite Hops.
Qed.

Lemma generic_fs_create_makes s mode : makes (fun s q name => generic_fs_create s q name mode) (fun s pv => created_node s pv mode) s.
Proof.
  intros s0 q pe pv name _ Hfresh Hq Hpv Hl Hn. split; [exact (set_owner_iops s0 _)|]. by apply generic_fs_create_run.
Qed.

(** C11: a created file is found.  Where the directory part of a path leads to
    a directory with no entry of that name, [vfs_create] succeeds, the tree
    gains exactly one entry, a regular file of size 0 with one link and the
    requested mode, nothing else changes in it, and a lookup of the path then
    returns the new entry. *)
Theorem create_then_lookup s C path start dir name p q mode : tree_ok iops_at sops_at s C ->
  refs_below s (2 ^ 32 - 2) -> heap_fresh s -> path_ok s path start (dir ++ name) -> file_path dir name ->
  free_in s start dir name p q ->
  (forall a ops, iops_at a = Some ops -> io_create ops = Some generic_fs_create) ->
  exists s1 s2 s3 C' pe n new inode,
    vfs_create iops_at sops_at s path mode = Ok (RVal 0, s2) /\ tree_ok iops_at sops_at s2 C' /\
    same_tree s1 s2 /\ (exists s0, same_tree s s0 /\ grown s0 s1 q pe new inode n name) /\
    n_mode n = Z.lor S_IFREG mode /\ n_size n = 0 /\ n_nlink n = 1 /\
    vfs_lookup iops_at sops_at s2 path 0 = Ok (RVal 0, new, s3).
Proof.
  intros Ht Hb Hfresh Hpath Hfile Hfree Hcreate. unfold vfs_create.
  destruct (make_then_lookup s C path start dir name p q _ _ Ht Hb Hfresh Hpath Hfile Hfree (generic_fs_create_makes s mode))
    as (s0 & s1 & s2 & s3 & C' & pe & pv & ops & -> & Hs0 & Hio & (a & Ha) & Hrun & Ht2 & G & Hs12 & Hlk).
  cbn [outcome_bind]. rewrite Hio. cbn [outcome_bind]. rewrite (Hcreate _ _ Ha), Hrun.
  exists s1, s2, s3, C', pe, (created_node s0 pv mode), (brk s0 + 16), (brk s0).
  split; [done|]. split; [done|]. split; [done|]. split; [by exists s0|].
  unfold created_node, set_owner. by destruct (cur_task s0).
Qed.

End grown.

(** Creating [/a/c]. *)
Lemma create_then_lookup_witness :
  exists s1 s2 s3 C' pe n new inode,
    vfs_create example_iops example_sops (example_tree tt) [47; 97; 47; 99] 0x1a4 = Ok (RVal 0, s2) /\
    tree_ok example_iops example_sops s2 C' /\ same_tree s1 s2 /\
    (exists s0, same_tree (example_tree tt) s0 /\ grown example_iops s0 s1 32 pe new inode n [99]) /\
    n_mode n = Z.lor S_IFREG 0x1a4 /\ n_size n = 0 /\ n_nlink n = 1 /\
    vfs_lookup example_iops example_sops s2 [47; 97; 47; 99] 0 = Ok (RVal 0, new, s3).
Proof.
  apply (create_then_lookup example_iops example_sops (example_tree tt) ∅ [47; 97; 47; 99] 16 [97; 47] [99] 32 32 0x1a4).
  - apply example_ok.
  - apply example_refs. lia.
  - split; [reflexivity|]. intros a Ha. simpl in Ha.
    split; apply not_elem_of_dom; unfold example_tree, example_state; simpl; set_unfold; lia.
  - split; [reflexivity|]. split; [eexists; reflexivity|]. split; [reflexivity|]. split; [simpl; lia|set_solver].
  - split; [repeat split; [done|set_solver|done|done]|]. split; [set_solver|]. split; [set_solver|right; reflexivity].
  - by repeat split.
  - intros a ops Ha. unfold example_iops in Ha. destruct (a =? 1); [|done]. by injection Ha as <-.
Defined.
