(* ===== verification/Ramfs.v ===== *)
(** * The memory file system

    kernel/fs/ramfs/ramfs.c: a file is a list of 4096-byte pages taken from
    the page frame allocator and reached through the direct map.  The private
    data of the file layer holds, for the [ramfs_data] at each address, the
    data pages in order, the contents of the pages and the allocator.  A list
    of pages is circular in the code; its head, met after the last page, is
    no page, and using its [data] is a fault.  The mutex of the node is left
    out. *)

From stdpp Require Import base numbers list gmap sets.
From Stdlib Require Import ZArith Lia.
From S2P Require Import Prelude Pages Pmm Sched Device Dcache Lookup Tree Vfs Mmu Vmm.

Definition page_bytes : nat := Z.to_nat 4096.
#[global] Opaque page_bytes.

Lemma page_bytes_Z : Z.of_nat page_bytes = 4096.
Proof. done. Qed.

Section ramfs.
Context {St : Type} {PA : PageAllocator St}.

(** What a frame holds when it is handed out. *)
Context (junk : Z -> list Z).

Record ramfs := mk_ramfs { r_files : gmap Z (list Z); r_mem : gmap Z (list Z); r_pages : St }.

Implicit Types s : vfs ramfs.

(** ** Reading *)

(** The walk to the page that holds the position; past the head it gives up. *)
Fixpoint skip_pages (pages : list Z) (rp : Z) : option (list Z) :=
  if rp <? 4096 then Some pages
  else match pages with
  | [] => None
  | _ :: pages => skip_pages pages (rp - 4096)
  end.

Fixpoint read_loop (mem : gmap Z (list Z)) (spages : list Z) (pos length : Z) : outcome (list Z) :=
  if length =? 0 then Ok []
  else match spages with
  | [] => Fault
  | p :: spages =>
      let page_offset := Z.rem pos 4096 in
      let amount := 4096 - page_offset in
      let amount := if length <? amount then length else amount in
      if page_offset <? 0 then Fault
      else
        let* data := deref (mem !! p) in
        let* rest := read_loop mem spages (pos + amount) (length - amount) in
        Ok (take (Z.to_nat amount) (drop (Z.to_nat page_offset) data) ++ rest)
  end.

Definition ramfs_read (s : vfs ramfs) (file length : Z) : outcome (ret * list Z * vfs ramfs) :=
  let* f := aget (open_files s) file in
  let* n := get_node s (f_inode f) in
  if n_data n =? 0 then Ok (RVal 0, [], s)
  else
    let* pages := deref (r_files (priv s) !! n_data n) in
    match skip_pages pages (f_pos f) with
    | None => Ok (RErr ENXIO, [], s)
    | Some spages =>
        let* bytes := read_loop (r_mem (priv s)) spages (f_pos f) length in
        let* s := put_file s file (set_f_pos (f_pos f + length) f) in
        Ok (RVal length, bytes, s)
    end.

(** ** Writing *)

(** The [ramfs_data] of a node, made when the file gets its first page. *)
Definition ensure_data (s : vfs ramfs) (n : vnode) : Z * vfs ramfs :=
  if n_data n =? 0 then
    let '(data, s) := fs_alloc s in
    (data, set_priv (mk_ramfs (<[data := []]> (r_files (priv s))) (r_mem (priv s)) (r_pages (priv s))) s)
  else (n_data n, s).

(** One more page at the end of the file of node [inode]. *)
Definition add_page (s : vfs ramfs) (inode : Z) : outcome (vfs ramfs) :=
  let* (phys, st) := page_alloc (r_pages (priv s)) in
  let dpage := u64 (phys + VM_DMAP_BASE) in
  let* n := get_node s inode in
  let '(data, s) := ensure_data s n in
  let* pages := deref (r_files (priv s) !! data) in
  let r := mk_ramfs (<[data := pages ++ [dpage]]> (r_files (priv s))) (<[dpage := junk dpage]> (r_mem (priv s))) st in
  Ok (put_node inode (set_n_size (u64 (n_size n + 4096)) (set_n_data data n)) (set_priv r s)).

Fixpoint grow_loop (fuel : nat) (s : vfs ramfs) (inode req : Z) : outcome (vfs ramfs) :=
  if req =? 0 then Ok s
  else match fuel with
  | O => OutOfFuel
  | S fuel =>
      let* s := add_page s inode in
      if req <? 4096 then Ok s else grow_loop fuel s inode (req - 4096)
  end.

(** The walk of the writer does not stop at the head of the circular list. *)
Definition skip_circular (pages : list Z) (wp : Z) : list Z :=
  drop (Z.to_nat (wp / 4096) mod S (length pages)) pages.

(** The page after writing [bytes] at [off]; what follows them is cleared. *)
Definition write_page (data : list Z) (off : nat) (bytes : list Z) : list Z :=
  take off data ++ bytes ++ replicate (page_bytes - (off + length bytes)) 0.

Fixpoint write_loop (mem : gmap Z (list Z)) (spages : list Z) (pos : Z) (buffer : list Z) : outcome (gmap Z (list Z)) :=
  match buffer with
  | [] => Ok mem
  | _ =>
      match spages with
      | [] => Fault
      | p :: spages =>
          let page_offset := Z.rem pos 4096 in
          let amount := 4096 - page_offset in
          let amount := if zlen buffer <? amount then zlen buffer else amount in
          if page_offset <? 0 then Fault
          else
            let* data := deref (mem !! p) in
            let mem := <[p := write_page data (Z.to_nat page_offset) (take (Z.to_nat amount) buffer)]> mem in
            write_loop mem spages (pos + amount) (drop (Z.to_nat amount) buffer)
      end
  end.

Definition ramfs_write (s : vfs ramfs) (file : Z) (buffer : list Z) : outcome (ret * vfs ramfs) :=
  let* f := aget (open_files s) file in
  let* n := get_node s (f_inode f) in
  let fsize := s64 (n_size n) in
  let wr_len := s64 (f_pos f + zlen buffer) in
  let* s :=
    if fsize <? wr_len then grow_loop (Z.to_nat ((wr_len - fsize) / 4096 + 1)) s (f_inode f) (wr_len - fsize)
    else Ok s in
  let* n := get_node s (f_inode f) in
  let* pages := deref (r_files (priv s) !! n_data n) in
  let spages := if 4096 <=? f_pos f then skip_circular pages (f_pos f) else pages in
  let* mem := write_loop (r_mem (priv s)) spages (f_pos f) buffer in
  let s := set_priv (mk_ramfs (r_files (priv s)) mem (r_pages (priv s))) s in
  let* s := put_file s file (set_f_pos (f_pos f + zlen buffer) f) in
  Ok (RVal (zlen buffer), s).

(** ** Mapped files *)

(** The walk to the page at [offset]: what is left of the offset and of the list. *)
Fixpoint fault_walk (pages : list Z) (offset : Z) : Z * list Z :=
  if offset =? 0 then (offset, pages)
  else match pages with
  | [] => (offset, [])
  | _ :: pages => fault_walk pages (s64 (offset - 0x1000))
  end.

(** A fault on a range that maps a file with the given pages.  [mem] holds the
    contents of pages by direct map address, those of private copies too. *)
Definition ramfs_vm_fault (m : mmu_state (St := St)) (mem : gmap Z (list Z)) (sp : vm_space) (pages : list Z)
    (object : vm_object) (addr flags : Z) : outcome (bool * mmu_state (St := St) * gmap Z (list Z) * vm_space) :=
  let '(offset, spages) := fault_walk pages (s64 (o_offset object + (addr - o_base object))) in
  if negb (offset =? 0) then Ok (false, m, mem, sp)
  else if has (o_prot object) PROT_WRITE && has flags VM_FAULT_WRITE then
    let* (new_page, pgs) := page_alloc (mpages m) in
    let* m := mmu_map (mk_mmu (tables m) pgs) (mmu_root sp) new_page addr (o_prot object) VM_FLAG_OWNER in
    let* _ := mmu_invalidate 2 addr 0x1000 in
    let* spage := deref (head spages) in
    let* data := deref (mem !! spage) in
    Ok (true, m, <[u64 (new_page + VM_DMAP_BASE) := data]> mem, count_pages 0 0 0 1 sp)
  else if has (o_prot object) PROT_READ then
    let* spage := deref (head spages) in
    let* m := mmu_map m (mmu_root sp) (u64 (spage - VM_DMAP_BASE)) addr (Z.land (o_prot object) (u32 (Z.lnot PROT_WRITE))) 0 in
    Ok (true, m, mem, sp)
  else Ok (false, m, mem, sp).

Definition ramfs_mmap (range : vm_object) : vm_object :=
  if has (o_prot range) PROT_WRITE
  then mk_object (o_base range) (o_length range) (o_prot range) (Z.lor (o_flags range) VM_FLAG_COW) (o_file range) (o_offset range)
  else range.

(** ** The file system *)

(** The addresses of the operation tables. *)
Definition ramfs_iops : Z := 0x101.
Definition ramfs_fops : Z := 0x102.
Definition ramfs_sb_ops : Z := 0x103.

Definition ramfs_iops_table : inode_ops (ramfs) :=
  mk_inode_ops (Some generic_fs_lookup) (Some generic_fs_mkdir) (Some generic_fs_create) (Some generic_fs_mknod)
    (Some generic_fs_getdents).

Definition ramfs_fops_table : file_ops (ramfs) :=
  mk_file_ops ramfs None None (Some ramfs_read) (Some ramfs_write) None.

Definition ramfs_super_init (s : vfs ramfs) (bdev : Z) : outcome (ret * superblock * vfs ramfs) :=
  let '(node, s) := vnode_new s (Z.lor S_IFDIR 0x1ed) in
  let* n := get_node s node in
  let s := put_node node (set_n_fops ramfs_fops (set_n_iops ramfs_iops n)) s in
  let* (dentry, s) := ventry_new s [114; 97; 109; 102; 115] node in
  Ok (RVal 0, mk_superblock (mk_filesystem [] 0 0 0 0) 0 dentry, s).

Definition ramfs_super_root (s : vfs ramfs) (sb : superblock) : outcome (ret * Z * vfs ramfs) :=
  Ok (RVal 0, sb_data sb, s).

Definition ramfs_sb_table : super_ops ramfs := mk_super_ops ramfs_super_init ramfs_super_root.

Definition ramfs_init (s : vfs ramfs) : vfs ramfs :=
  filesystem_register s (mk_filesystem [] FS_FLAG_NODEV ramfs_iops ramfs_fops ramfs_sb_ops) [114; 97; 109; 102; 115].

(** [vfs_init] of vfs.c: the root directory, itself the mount point and the root of a ramfs. *)
Definition vfs_init (s : vfs ramfs) : outcome (vfs ramfs) :=
  let s := ramfs_init s in
  match filesystem_lookup s [114; 97; 109; 102; 115] with
  | None => Panic
  | Some fs =>
      let '(rootnode, s) := vnode_new s (Z.lor S_IFDIR 0x1ff) in
      let* n := get_node s rootnode in
      let s := put_node rootnode (set_n_fops (fs_fops fs) (set_n_iops (fs_iops fs) n)) s in
      let* (root, s) := ventry_new s [47] rootnode in
      let s := set_root_node root s in
      let rootfs := mk_mount fs (mk_superblock fs 0 root) root in
      let* e := get_entry s root in
      let s := put_entry root (set_e_mount (Some rootfs) e) s in
      Ok (set_open_files (replicate 64 (mk_fd 0 0 0 0 0)) (set_mounts [rootfs] s))
  end.
End ramfs.
Arguments ramfs St : clear implicits.

(** ** Contents *)

Section contents.
Implicit Types mem : gmap Z (list Z).

Definition page_ok (mem : gmap Z (list Z)) (p : Z) : Prop := exists b, mem !! p = Some b /\ length b = page_bytes.

Definition page_data (mem : gmap Z (list Z)) (p : Z) : list Z := default [] (mem !! p).

(** The bytes of a file, page after page. *)
Definition content (mem : gmap Z (list Z)) (pages : list Z) : list Z := concat (page_data mem <$> pages).

Lemma page_data_length mem p : page_ok mem p -> length (page_data mem p) = page_bytes.
Proof. intros (b & Hb & Hl). unfold page_data. by rewrite Hb. Qed.

Lemma content_length mem pages : Forall (page_ok mem) pages -> length (content mem pages) = (page_bytes * length pages)%nat.
Proof.
  induction 1 as [|p pages Hp _ IH]; [done|]. unfold content in *. rewrite fmap_cons. simpl.
  rewrite length_app, IH, page_data_length, Nat.mul_succ_r by done. lia.
Qed.

Lemma content_drop mem pages k : Forall (page_ok mem) pages ->
  content mem (drop k pages) = drop (page_bytes * k) (content mem pages).
Proof.
  intros Hok. revert k. induction Hok as [|p pages Hp _ IH]; intros k; [unfold content; rewrite drop_nil; simpl; by rewrite drop_nil|].
  destruct k as [|k]; [by rewrite Nat.mul_0_r, !drop_0|]. rewrite skipn_cons, IH. unfold content. rewrite fmap_cons. simpl concat.
  rewrite drop_app_ge by (rewrite page_data_length, Nat.mul_succ_r by done; lia). f_equal.
  rewrite page_data_length, Nat.mul_succ_r by done. lia.
Qed.

Lemma content_app mem l k : content mem (l ++ k) = content mem l ++ content mem k.
Proof. unfold content. by rewrite fmap_app, concat_app. Qed.

Lemma content_ext mem mem' pages : (forall p, p ∈ pages -> mem' !! p = mem !! p) -> content mem' pages = content mem pages.
Proof.
  intros H. unfold content. f_equal. apply list_fmap_ext. intros i p Hp. unfold page_data.
  by rewrite H by (by eapply list_elem_of_lookup_2).
Qed.

Lemma pos_split pos : 0 <= pos -> pos = 4096 * (pos / 4096) + pos mod 4096 /\ 0 <= pos mod 4096 < 4096 /\ 0 <= pos / 4096.
Proof.
  intros. pose proof (Z.div_mod pos 4096 ltac:(lia)). pose proof (Z.mod_pos_bound pos 4096 ltac:(lia)).
  split; [lia|]. split; [lia|]. apply Z.div_pos; lia.
Qed.

Lemma skip_pages_spec pages : forall rp, 0 <= rp ->
  skip_pages pages rp = if rp / 4096 <=? zlen pages then Some (drop (Z.to_nat (rp / 4096)) pages) else None.
Proof.
  induction pages as [|p pages IH]; intros rp Hrp; simpl.
  - destruct (Z.ltb_spec rp 4096).
    + by rewrite Z.div_small by lia.
    + destruct (Z.leb_spec (rp / 4096) (zlen (A := Z) [])) as [Hle|]; [|done].
      assert (1 <= rp / 4096) by (apply Z.div_le_lower_bound; lia). unfold zlen in Hle. simpl in Hle. lia.
  - destruct (Z.ltb_spec rp 4096); [by rewrite Z.div_small by lia|].
    rewrite IH by lia. replace (rp - 4096) with (rp + (-1) * 4096) by lia. rewrite Z.div_add by lia.
    assert (1 <= rp / 4096) by (apply Z.div_le_lower_bound; lia). rewrite zlen_cons.
    destruct (Z.leb_spec (rp / 4096 + -1) (zlen pages)), (Z.leb_spec (rp / 4096) (1 + zlen pages)); try lia; [|done].
    f_equal. replace (Z.to_nat (rp / 4096)) with (S (Z.to_nat (rp / 4096 + -1))) by lia. done.
Qed.

Lemma read_loop_spec mem pages : Forall (page_ok mem) pages -> forall pos length, 0 <= pos -> 0 <= length ->
  read_loop mem pages pos length =
    if (length =? 0) || (pos mod 4096 + length <=? 4096 * zlen pages)
    then Ok (take (Z.to_nat length) (drop (Z.to_nat (pos mod 4096)) (content mem pages))) else Fault.
Proof.
  induction 1 as [|p pages Hp Hok IH]; intros pos len Hpos Hlen.
  - simpl. destruct (Z.eqb_spec len 0) as [->|]; [done|]. simpl. pose proof (Z.mod_pos_bound pos 4096 ltac:(lia)).
    change (4096 * zlen (A := Z) []) with 0. destruct (Z.leb_spec (pos mod 4096 + len) 0); [lia|done].
  - cbn [read_loop]. destruct (Z.eqb_spec len 0) as [->|Hl0]; [by rewrite take_0|]. cbn [orb].
    rewrite Z.rem_mod_nonneg by lia. destruct (pos_split pos Hpos) as (Hsplit & Hoff & Hq).
    set (off := pos mod 4096) in *. destruct (Z.ltb_spec off 0) as [|_]; [lia|].
    destruct Hp as (b & Hb & Hlb). pose proof page_bytes_Z as Hpb. rewrite Hb. cbn [deref outcome_bind].
    assert (content mem (p :: pages) = b ++ content mem pages) as ->.
    { unfold content. rewrite fmap_cons. simpl. unfold page_data at 1. by rewrite Hb. }
    rewrite zlen_cons, drop_app_le by lia. pose proof (zlen_nonneg pages).
    destruct (Z.ltb_spec len (4096 - off)).
    + rewrite IH by lia. rewrite Z.sub_diag. cbn [Z.eqb orb outcome_bind].
      destruct (Z.leb_spec (off + len) (4096 * (1 + zlen pages))); [|lia].
      rewrite take_0, app_nil_r. rewrite take_app_le by (rewrite length_drop; lia). done.
    + assert ((pos + (4096 - off)) mod 4096 = 0) as Hm.
      { replace (pos + (4096 - off)) with ((pos / 4096 + 1) * 4096) by lia. apply Z.mod_mul. lia. }
      rewrite IH by lia. rewrite Hm. cbn [Z.to_nat]. rewrite drop_0.
      rewrite (take_ge (drop (Z.to_nat off) b)) by (rewrite length_drop; lia).
      rewrite take_app_ge by (rewrite length_drop; lia). rewrite length_drop, Hlb.
      replace (Z.to_nat len - (page_bytes - Z.to_nat off))%nat with (Z.to_nat (len - (4096 - off))) by lia.
      destruct (Z.eqb_spec (len - (4096 - off)) 0), (Z.leb_spec (0 + (len - (4096 - off))) (4096 * zlen pages)),
        (Z.leb_spec (off + len) (4096 * (1 + zlen pages))); cbn [orb outcome_bind]; first [lia|done].
Qed.
End contents.

(** ** Writing into pages *)

(** The zeros that a write puts after its last byte, up to the end of the page. *)
Definition padding (e : Z) : nat := Z.to_nat (- e mod 4096).

(** The contents after [buffer] is written at [pos]. *)
Definition written (c : list Z) (pos : Z) (buffer : list Z) : list Z :=
  take (Z.to_nat pos) c ++ buffer ++ replicate (padding (pos + zlen buffer)) 0 ++
    drop (Z.to_nat pos + length buffer + padding (pos + zlen buffer)) c.

Lemma padding_small e : 0 < e <= 4096 -> padding e = Z.to_nat (4096 - e).
Proof.
  intros He. unfold padding. destruct (Z.eq_dec e 4096) as [->|]; [done|].
  rewrite Z.mod_opp_l_nz; rewrite ?Z.mod_small; lia.
Qed.

Lemma padding_shift e k : padding (e + 4096 * k) = padding e.
Proof. unfold padding. f_equal. replace (- (e + 4096 * k)) with (- e + (- k) * 4096) by lia. apply Z.mod_add. lia. Qed.

Section write.
Implicit Types mem : gmap Z (list Z).

Lemma write_page_ok data off bytes : length data = page_bytes -> (off + length bytes <= page_bytes)%nat ->
  length (write_page data off bytes) = page_bytes.
Proof. intros Hd Hl. unfold write_page. rewrite !length_app, length_take, length_replicate. lia. Qed.

Lemma content_cons mem p pages b : mem !! p = Some b -> content mem (p :: pages) = b ++ content mem pages.
Proof. intros Hb. unfold content. rewrite fmap_cons. simpl. unfold page_data at 1. by rewrite Hb. Qed.

(** The bytes of one page and what follows, after a write that ends in the page. *)
Lemma written_inside b c off buffer : length b = page_bytes -> 0 <= off -> buffer <> [] ->
  off + zlen buffer <= 4096 -> write_page b (Z.to_nat off) buffer ++ c = written (b ++ c) off buffer.
Proof.
  intros Hb Ho Hne Hl. pose proof page_bytes_Z. assert (0 < zlen buffer) by (destruct buffer; [done|]; unfold zlen; simpl; lia).
  unfold written, write_page. rewrite padding_small by lia. rewrite take_app_le by lia. rewrite <- !app_assoc. do 3 f_equal.
  - f_equal. unfold zlen in *. lia.
  - rewrite drop_app_ge by (unfold zlen in *; lia). rewrite Hb. unfold zlen in *.
    replace (Z.to_nat off + length buffer + Z.to_nat (4096 - (off + Z.of_nat (length buffer))) - page_bytes)%nat with O by lia. done.
Qed.

(** A write that goes on in the next page. *)
Lemma written_across b c off buffer : length b = page_bytes -> 0 <= off < 4096 -> 4096 < off + zlen buffer ->
  write_page b (Z.to_nat off) (take (Z.to_nat (4096 - off)) buffer) ++ written c 0 (drop (Z.to_nat (4096 - off)) buffer) =
  written (b ++ c) off buffer.
Proof.
  intros Hb Ho Hl. pose proof page_bytes_Z. unfold zlen in Hl.
  unfold write_page. rewrite length_take_le by lia.
  replace (page_bytes - (Z.to_nat off + Z.to_nat (4096 - off)))%nat with O by lia. simpl replicate. rewrite app_nil_r.
  unfold written. rewrite take_app_le by lia. rewrite take_0. simpl app. rewrite <- !app_assoc. f_equal.
  rewrite (app_assoc (take _ buffer)), take_drop. f_equal.
  assert (zlen (drop (Z.to_nat (4096 - off)) buffer) = off + zlen buffer - 4096) as Hz
    by (unfold zlen; rewrite length_drop; lia).
  replace (0 + zlen (drop (Z.to_nat (4096 - off)) buffer)) with (off + zlen buffer + 4096 * (-1)) by lia.
  rewrite padding_shift. f_equal. rewrite drop_app_ge by lia. rewrite length_drop. f_equal. lia.
Qed.

Lemma write_loop_spec pages : NoDup pages -> forall mem pos buffer, Forall (page_ok mem) pages -> 0 <= pos ->
  buffer <> [] -> pos mod 4096 + zlen buffer <= 4096 * zlen pages ->
  exists mem', write_loop mem pages pos buffer = Ok mem' /\ Forall (page_ok mem') pages /\
    content mem' pages = written (content mem pages) (pos mod 4096) buffer /\
    forall a, a ∉ pages -> mem' !! a = mem !! a.
Proof.
  induction 1 as [|p pages Hp Hnd IH]; intros mem pos buffer Hok Hpos Hne Hl.
  { assert (0 < zlen buffer) by (destruct buffer; [done|]; unfold zlen; simpl; lia).
    pose proof (Z.mod_pos_bound pos 4096 ltac:(lia)). change (zlen (A := Z) []) with 0 in Hl. lia. }
  apply Forall_cons in Hok as [(b & Hb & Hlb) Hok]. pose proof page_bytes_Z as Hpb.
  destruct (pos_split pos Hpos) as (Hsplit & Hoff & Hq).
  assert (write_loop mem (p :: pages) pos buffer =
    let amount := if zlen buffer <? 4096 - pos mod 4096 then zlen buffer else 4096 - pos mod 4096 in
    write_loop (<[p := write_page b (Z.to_nat (pos mod 4096)) (take (Z.to_nat amount) buffer)]> mem) pages
      (pos + amount) (drop (Z.to_nat amount) buffer)) as ->.
  { destruct buffer as [|x buffer]; [done|]. cbn [write_loop]. rewrite Z.rem_mod_nonneg by lia.
    destruct (Z.ltb_spec (pos mod 4096) 0); [lia|]. by rewrite Hb. }
  cbn zeta. set (off := pos mod 4096) in *. rewrite zlen_cons in Hl. rewrite (content_cons mem p pages b Hb).
  set (amount := if zlen buffer <? 4096 - off then zlen buffer else 4096 - off).
  set (mem1 := <[p := _]> mem).
  assert (Forall (page_ok mem1) pages) as Hok1.
  { apply Forall_forall. intros x Hx. rewrite Forall_forall in Hok. destruct (Hok x Hx) as (bx & Hbx & Hlx).
    exists bx. split; [|done]. unfold mem1. rewrite lookup_insert_ne; [done|]. set_solver. }
  assert (content mem1 pages = content mem pages) as Hc1.
  { apply content_ext. intros x Hx. apply lookup_insert_ne. set_solver. }
  assert (0 < amount <= zlen buffer /\ off + amount <= 4096 /\ (amount = zlen buffer \/ off + amount = 4096)) as (Ha1 & Ha2 & Ha3).
  { assert (0 < zlen buffer) by (destruct buffer; [done|]; unfold zlen; simpl; lia). unfold amount.
    destruct (Z.ltb_spec (zlen buffer) (4096 - off)); lia. }
  assert (length (write_page b (Z.to_nat off) (take (Z.to_nat amount) buffer)) = page_bytes) as Hwl.
  { apply write_page_ok; [done|]. rewrite length_take. unfold zlen in *. lia. }
  destruct (decide (amount = zlen buffer)) as [Ea|Ea].
  - rewrite Ea. rewrite (drop_ge buffer) by (unfold zlen; lia). exists mem1. split; [by destruct pages|]. split; [|split].
    + constructor; [|done]. eexists. split; [apply lookup_insert_eq|done].
    + rewrite (content_cons mem1 p pages _ (lookup_insert_eq _ _ _)), Hc1. rewrite take_ge by (unfold zlen in *; lia).
      apply written_inside; (done || lia).
    + intros a Ha. apply lookup_insert_ne. set_solver.
  - assert (amount = 4096 - off) as Ea' by lia.
    destruct (IH mem1 (pos + amount) (drop (Z.to_nat amount) buffer)) as (mem' & Hr & Hok' & Hc' & Hext); [done|lia| | |].
    { intros E. apply (f_equal length) in E. rewrite length_drop in E. simpl in E. unfold zlen in *. lia. }
    { assert ((pos + amount) mod 4096 = 0) as ->.
      { replace (pos + amount) with ((pos / 4096 + 1) * 4096) by lia. apply Z.mod_mul. lia. }
      unfold zlen in *. rewrite length_drop. lia. }
    assert (mem' !! p = Some (write_page b (Z.to_nat off) (take (Z.to_nat amount) buffer))) as Hp'
      by (rewrite Hext by done; apply lookup_insert_eq).
    exists mem'. split; [done|]. split; [|split].
    + constructor; [|done]. eexists. by split.
    + rewrite (content_cons mem' p pages _ Hp'), Hc', Hc1.
      assert ((pos + amount) mod 4096 = 0) as ->.
      { replace (pos + amount) with ((pos / 4096 + 1) * 4096) by lia. apply Z.mod_mul. lia. }
      rewrite Ea'. apply written_across; (done || lia).
    + intros a Ha. rewrite Hext by set_solver. apply lookup_insert_ne. set_solver.
Qed.
End write.

(** ** Files *)

Lemma written_shift c k off buffer : 0 <= off -> 0 <= k -> 4096 * k + off <= zlen c ->
  take (Z.to_nat (4096 * k)) c ++ written (drop (Z.to_nat (4096 * k)) c) off buffer = written c (4096 * k + off) buffer.
Proof.
  intros Ho Hk Hl. unfold written, zlen in *. rewrite take_drop_commute, drop_drop.
  replace (Z.to_nat (4096 * k) + Z.to_nat off)%nat with (Z.to_nat (4096 * k + off)) by lia.
  rewrite app_assoc. f_equal.
  { rewrite <- (take_drop (Z.to_nat (4096 * k)) (take (Z.to_nat (4096 * k + off)) c)) at 2. f_equal.
    rewrite take_take. f_equal. lia. }
  replace (4096 * k + off + Z.of_nat (length buffer)) with (off + Z.of_nat (length buffer) + 4096 * k) by lia.
  rewrite padding_shift. do 3 f_equal. lia.
Qed.

Section files.
Context {St : Type} {PA : PageAllocator St} (junk : Z -> list Z).
Hypothesis junk_page : forall p, length (junk p) = page_bytes.

Abbreviation ramfs := (ramfs St).
Implicit Types (s : vfs ramfs) (n : vnode) (pages : list Z).

(** The file of node [inode]: its size is that of its pages, which are
    distinct, hold 4096 bytes each, and are not free. *)
Record file_ok (s : vfs ramfs) (inode : Z) (n : vnode) (pages : list Z) : Prop := {
  fo_node : nodes s !! inode = Some n;
  fo_null : n_data n = 0 -> pages = [];
  fo_pages : n_data n <> 0 -> r_files (priv s) !! n_data n = Some pages;
  fo_size : n_size n = 4096 * zlen pages;
  fo_nodup : NoDup pages;
  fo_mem : Forall (page_ok (r_mem (priv s))) pages;
  fo_alloc : pages_ok (r_pages (priv s));
  fo_owned : forall p, p ∈ pages_free (r_pages (priv s)) -> dmap p ∉ pages;
  fo_brk : 0 < brk s;
}.

Definition file_content (s : vfs ramfs) (pages : list Z) : list Z := content (r_mem (priv s)) pages.

(** Fresh pages: the direct map addresses of frames that were free in [s]. *)
Definition fresh_pages (s s' : vfs ramfs) (new : list Z) : Prop :=
  (forall a, a ∈ new -> exists p, a = dmap p /\ p ∈ pages_free (r_pages (priv s))) /\
  (length new + length (pages_free (r_pages (priv s'))) = length (pages_free (r_pages (priv s))))%nat /\
  (forall a, a ∉ new -> r_mem (priv s') !! a = r_mem (priv s) !! a) /\
  (forall p, p ∈ pages_free (r_pages (priv s')) -> p ∈ pages_free (r_pages (priv s))).

(** What growing a file changes in its node and the table of open files. *)
Definition node_grown (s s' : vfs ramfs) (n n' : vnode) : Prop :=
  n_mode n' = n_mode n /\ open_files s' = open_files s.

Lemma ensure_data_spec s inode n pages : file_ok s inode n pages ->
  exists data s0, ensure_data s n = (data, s0) /\ data <> 0 /\ r_files (priv s0) !! data = Some pages /\
    r_mem (priv s0) = r_mem (priv s) /\ nodes s0 = nodes s /\ open_files s0 = open_files s /\ 0 < brk s0.
Proof.
  intros F. pose proof (fo_brk _ _ _ _ F). unfold ensure_data. destruct (Z.eqb_spec (n_data n) 0) as [E|E].
  - rewrite (fo_null _ _ _ _ F E). eexists _, _. split; [reflexivity|]. split; [lia|]. split; [apply lookup_insert_eq|].
    repeat split. simpl. lia.
  - eexists _, _. split; [reflexivity|]. split; [done|]. split; [by apply (fo_pages _ _ _ _ F)|]. done.
Qed.

Lemma add_page_spec s inode n pages : file_ok s inode n pages -> pages_free (r_pages (priv s)) <> [] ->
  4096 * zlen pages + 4096 < 2 ^ 63 ->
  exists s' n' a, add_page junk s inode = Ok s' /\ file_ok s' inode n' (pages ++ [a]) /\ n_data n' <> 0 /\
    fresh_pages s s' [a] /\ r_mem (priv s') !! a = Some (junk a) /\ node_grown s s' n n'.
Proof.
  intros [F1 F2 F3 F4 F5 F6 F7 F8 F9] Hfree Hsz. unfold add_page.
  destruct (page_alloc_law (r_pages (priv s)) F7) as [[_ ?]|(p & st & -> & Hok & Hperm & Hm)]; [done|].
  assert (p ∈ pages_free (r_pages (priv s))) as Hp by (rewrite Hperm; set_solver).
  pose proof (pages_nodup _ F7) as Hnd. rewrite Hperm in Hnd. apply NoDup_cons in Hnd as [Hpn _].
  pose proof (pages_bound _ p F7 Hp) as Hbound. pose proof (pages_bound_dmap _ p F7 ltac:(lia)) as Hd.
  cbn [outcome_bind]. rewrite dmap_u64 by lia. unfold get_node. rewrite F1. cbn [deref outcome_bind].
  destruct (ensure_data_spec s inode n pages) as (data & s0 & -> & Hd0 & Hf0 & Hm0 & Hn0 & Ho0 & Hb0); [by split|].
  rewrite Hf0. cbn [deref outcome_bind]. set (n' := set_n_size _ _). set (r' := mk_ramfs _ _ st).
  set (s' := put_node inode n' _). assert (nodes s' = <[inode := n']> (nodes s)) as Hn' by (unfold s'; simpl; by rewrite Hn0).
  assert (r_mem (priv s') = <[dmap p := junk (dmap p)]> (r_mem (priv s))) as Em by (simpl; by rewrite Hm0).
  assert (r_pages (priv s') = st) as Ep by done.
  assert (r_files (priv s') !! data = Some (pages ++ [dmap p])) as Ef by apply lookup_insert_eq.
  exists s', n', (dmap p). split; [done|]. split; [|split; [done|]].
  - split; rewrite ?Em, ?Ep, ?Hn'; try done.
    + by rewrite lookup_insert_eq.
    + unfold n'. cbn [n_size set_n_size]. rewrite F4, zlen_app. pose proof (zlen_nonneg pages). rewrite u64_small by lia.
      unfold zlen at 3. simpl. lia.
    + apply NoDup_app. split; [done|]. split; [|apply NoDup_singleton]. intros x Hx Hx'.
      apply list_elem_of_singleton in Hx' as ->. by apply (F8 p Hp).
    + apply Forall_app. split; [|apply Forall_singleton; eexists; split; [apply lookup_insert_eq|done]].
      apply Forall_forall. intros x Hx. rewrite Forall_forall in F6. destruct (F6 x Hx) as (b & Hb & Hlb).
      exists b. split; [|done]. rewrite lookup_insert_ne; [done|]. intros <-. by apply (F8 p Hp).
    + intros q Hq. rewrite not_elem_of_app, list_elem_of_singleton. split.
      * apply F8. rewrite Hperm. set_solver.
      * intros E. apply dmap_inj in E. subst q. done.
  - unfold fresh_pages. rewrite Em, Ep. split; [|split; [apply lookup_insert_eq|by split]]. split; [|split; [|split]].
    + intros a Ha. apply list_elem_of_singleton in Ha as ->. by exists p.
    + rewrite Hperm. simpl. lia.
    + intros a Ha. rewrite lookup_insert_ne; [done|]. set_solver.
    + intros q Hq. rewrite Hperm. set_solver.
Qed.

Lemma fresh_pages_trans s s1 s' new new' : fresh_pages s s1 new -> fresh_pages s1 s' new' -> fresh_pages s s' (new ++ new').
Proof.
  intros (A1 & A2 & A3 & A4) (B1 & B2 & B3 & B4). split; [|split; [|split]].
  - intros a Ha. apply elem_of_app in Ha as [Ha|Ha]; [by apply A1|]. destruct (B1 a Ha) as (p & -> & Hp). eauto.
  - rewrite length_app. lia.
  - intros a Ha. rewrite not_elem_of_app in Ha. rewrite B3, A3 by naive_solver. done.
  - eauto.
Qed.

Lemma grow_loop_spec inode fuel : forall s n pages req, file_ok s inode n pages -> 0 < req ->
  (req - 1) / 4096 + 1 <= Z.of_nat fuel -> (req - 1) / 4096 + 1 <= zlen (pages_free (r_pages (priv s))) ->
  4096 * zlen pages + req + 4096 < 2 ^ 63 ->
  exists s' n' new, grow_loop junk fuel s inode req = Ok s' /\ file_ok s' inode n' (pages ++ new) /\ n_data n' <> 0 /\
    zlen new = (req - 1) / 4096 + 1 /\ fresh_pages s s' new /\ content (r_mem (priv s')) new = concat (junk <$> new) /\
    node_grown s s' n n'.
Proof.
  induction fuel as [|fuel IH]; intros s n pages req F Hreq Hfuel Hfree Hsz.
  { assert (0 <= (req - 1) / 4096) by (apply Z.div_pos; lia). lia. }
  assert (0 <= (req - 1) / 4096) by (apply Z.div_pos; lia).
  destruct (add_page_spec s inode n pages F) as (s1 & n1 & a & Hadd & F1 & Hd1 & Hfr1 & Hm1 & Hg1).
  { intros E. rewrite E in Hfree. change (zlen (A := Z) []) with 0 in Hfree. lia. }
  { lia. }
  cbn [grow_loop]. destruct (Z.eqb_spec req 0); [lia|]. rewrite Hadd. cbn [outcome_bind].
  assert (content (r_mem (priv s1)) [a] = junk a) as Hca.
  { rewrite (content_cons _ a [] (junk a) Hm1). apply app_nil_r. }
  assert (grow_loop junk fuel s1 inode 0 = Ok s1) as Hzero by (by destruct fuel).
  destruct (Z.ltb_spec req 4096); [|destruct (Z.eq_dec req 4096) as [->|]].
  - exists s1, n1, [a]. rewrite Z.div_small by lia. do 5 (split; [done|]). split; [|exact Hg1]. rewrite Hca. simpl. by rewrite app_nil_r.
  - change (4096 - 4096) with 0. rewrite Hzero. exists s1, n1, [a].
    change ((4096 - 1) / 4096) with 0. do 5 (split; [done|]). split; [|exact Hg1].
    rewrite Hca. simpl. by rewrite app_nil_r.
  - replace ((req - 1) / 4096) with ((req - 4096 - 1) / 4096 + 1) in *
      by (replace (req - 1) with (req - 4096 - 1 + 1 * 4096) by lia; rewrite Z.div_add by lia; lia).
    pose proof Hfr1 as (_ & Hlen1 & _). simpl in Hlen1.
    destruct (IH s1 n1 (pages ++ [a]) (req - 4096) F1) as (s' & n' & new & -> & F' & Hd' & Hl' & Hfr' & Hc' & Hg').
    { lia. } { lia. } { unfold zlen in *. lia. } { rewrite zlen_app. change (zlen [a]) with 1. lia. }
    exists s', n', (a :: new). split; [done|]. split; [by rewrite <- app_assoc in F'|]. split; [done|].
    split; [rewrite zlen_cons; lia|]. split; [by apply (fresh_pages_trans s s1 s' [a] new)|]. split.
    + pose proof (fo_nodup _ _ _ _ F') as Hnd. destruct Hfr' as (_ & _ & Hext & _).
      assert (r_mem (priv s') !! a = Some (junk a)) as Ha.
      { rewrite Hext; [done|]. intros Hin. apply NoDup_app in Hnd as (_ & Hnd & _). apply (Hnd a); set_solver. }
      rewrite (content_cons _ a new (junk a) Ha), Hc'. done.
    + destruct Hg1, Hg'. split; congruence.
Qed.

(** ** Reads and writes of files *)

Lemma ramfs_read_spec s file f n pages len : aget (open_files s) file = Ok f -> file_ok s (f_inode f) n pages ->
  0 <= f_pos f -> 0 <= len ->
  ramfs_read s file len =
    if n_data n =? 0 then Ok (RVal 0, [], s)
    else if zlen pages <? f_pos f / 4096 then Ok (RErr ENXIO, [], s)
    else if (len =? 0) || (f_pos f + len <=? n_size n) then
      let* s := put_file s file (set_f_pos (f_pos f + len) f) in
      Ok (RVal len, take (Z.to_nat len) (drop (Z.to_nat (f_pos f)) (file_content s pages)), s)
    else Fault.
Proof.
  intros Hf F Hpos Hlen. unfold ramfs_read, get_node. rewrite Hf. cbn [outcome_bind]. rewrite (fo_node _ _ _ _ F).
  cbn [deref outcome_bind]. destruct (Z.eqb_spec (n_data n) 0) as [|Hd]; [done|].
  rewrite (fo_pages _ _ _ _ F Hd). cbn [deref outcome_bind]. rewrite skip_pages_spec by done.
  destruct (Z.leb_spec (f_pos f / 4096) (zlen pages)) as [Hle|], (Z.ltb_spec (zlen pages) (f_pos f / 4096)); try lia; [|done].
  destruct (pos_split (f_pos f) Hpos) as (Hsplit & Hoff & Hq). pose proof page_bytes_Z.
  rewrite read_loop_spec by (try lia; apply Forall_drop, (fo_mem _ _ _ _ F)).
  rewrite (fo_size _ _ _ _ F). unfold zlen in *. rewrite length_drop.
  replace (f_pos f mod 4096 + len <=? 4096 * Z.of_nat (length pages - Z.to_nat (f_pos f / 4096)))
    with (f_pos f + len <=? 4096 * Z.of_nat (length pages)) by (apply Bool.eq_iff_eq_true; rewrite !Z.leb_le; lia).
  destruct ((len =? 0) || _); [|done]. cbn [outcome_bind].
  rewrite content_drop by apply (fo_mem _ _ _ _ F). rewrite drop_drop. unfold file_content.
  replace (page_bytes * Z.to_nat (f_pos f / 4096) + Z.to_nat (f_pos f mod 4096))%nat with (Z.to_nat (f_pos f)) by lia.
  unfold put_file. by destruct (aset (open_files s) file (set_f_pos (f_pos f + len) f)).
Qed.

(** Writing into the pages of a file that is long enough. *)
Lemma write_pages_spec mem pages pos buffer : NoDup pages -> Forall (page_ok mem) pages -> 0 <= pos -> buffer <> [] ->
  pos + zlen buffer <= 4096 * zlen pages ->
  exists mem', write_loop mem (if 4096 <=? pos then skip_circular pages pos else pages) pos buffer = Ok mem' /\
    Forall (page_ok mem') pages /\ content mem' pages = written (content mem pages) pos buffer /\
    forall a, a ∉ pages -> mem' !! a = mem !! a.
Proof.
  intros Hnd Hok Hpos Hne Hl. destruct (pos_split pos Hpos) as (Hsplit & Hoff & Hq). pose proof page_bytes_Z as Hpb.
  assert (0 < zlen buffer) as Hlb by (destruct buffer; [done|]; unfold zlen; simpl; lia).
  set (k := Z.to_nat (pos / 4096)). assert (k < length pages)%nat as Hk by (unfold k, zlen in *; lia).
  assert ((if 4096 <=? pos then skip_circular pages pos else pages) = drop k pages) as ->.
  { destruct (Z.leb_spec 4096 pos).
    - unfold skip_circular. fold k. by rewrite Nat.mod_small by lia.
    - unfold k. by rewrite Z.div_small, drop_0 by lia. }
  pose proof Hnd as Hnd'. rewrite <- (take_drop k pages) in Hnd'. apply NoDup_app in Hnd' as (_ & Hdis & Hndk).
  destruct (write_loop_spec (drop k pages) Hndk mem pos buffer) as (mem' & -> & Hok' & Hc & Hext);
    [by apply Forall_drop|done|done|unfold zlen in *; rewrite length_drop; lia|].
  assert (forall x, x ∈ take k pages -> mem' !! x = mem !! x) as Hfront by (intros x Hx; apply Hext; by apply Hdis).
  exists mem'. split; [done|]. split; [|split].
  - rewrite <- (take_drop k pages). apply Forall_app. split; [|done]. apply Forall_forall. intros x Hx.
    rewrite Forall_forall in Hok.
    assert (x ∈ pages) as Hxp by (rewrite <- (take_drop k pages); set_solver).
    destruct (Hok x Hxp) as (b & Hb & Hbl). exists b. by rewrite Hfront.
  - rewrite <- (take_drop k pages) at 1. rewrite content_app, Hc, (content_ext mem mem') by done.
    rewrite content_drop by done.
    assert (content mem (take k pages) = take (page_bytes * k) (content mem pages)) as ->.
    { rewrite <- (take_drop k pages) at 2. rewrite content_app. rewrite take_app_length'; [done|].
      rewrite content_length, length_take_le by (lia || by apply Forall_take). done. }
    replace (page_bytes * k)%nat with (Z.to_nat (4096 * (pos / 4096))) by lia. rewrite written_shift; [by rewrite <- Hsplit|lia..|].
    unfold zlen. rewrite content_length by done. unfold zlen in *. lia.
  - intros a Ha. apply Hext. intros Hin. apply Ha. rewrite <- (take_drop k pages). set_solver.
Qed.

(** Growing a file to the end of a write, if it is too short. *)
Lemma grow_to_spec s inode n pages e : file_ok s inode n pages -> 0 < e -> e + 4096 < 2 ^ 62 -> n_size n < 2 ^ 62 ->
  (e - 1) / 4096 + 1 - zlen pages <= zlen (pages_free (r_pages (priv s))) ->
  exists s' n' new,
    (if s64 (n_size n) <? e then grow_loop junk (Z.to_nat ((e - s64 (n_size n)) / 4096 + 1)) s inode (e - s64 (n_size n)) else Ok s) = Ok s' /\
    file_ok s' inode n' (pages ++ new) /\ n_data n' <> 0 /\ zlen (pages ++ new) = Z.max (zlen pages) ((e - 1) / 4096 + 1) /\
    fresh_pages s s' new /\ content (r_mem (priv s')) new = concat (junk <$> new) /\ node_grown s s' n n'.
Proof.
  intros F He Hmax Hsz Hfree. pose proof (zlen_nonneg pages) as Hp. pose proof (fo_size _ _ _ _ F) as Hn.
  rewrite s64_small by lia. destruct (pos_split (e - 1) ltac:(lia)) as (Hs & Ho & Hq).
  destruct (Z.ltb_spec (n_size n) e) as [Hlt|Hge].
  - assert ((e - n_size n - 1) / 4096 = (e - 1) / 4096 - zlen pages) as Hdiv.
    { replace (e - n_size n - 1) with (e - 1 + (- zlen pages) * 4096) by lia. rewrite Z.div_add by lia. lia. }
    destruct (grow_loop_spec inode (Z.to_nat ((e - n_size n) / 4096 + 1)) s n pages (e - n_size n) F)
      as (s' & n' & new & Hr & F' & Hd & Hl & Hrest).
    { lia. } { rewrite Z2Nat.id by (pose proof (Z.div_pos (e - n_size n) 4096); lia).
      pose proof (Z.div_le_mono (e - n_size n - 1) (e - n_size n) 4096). lia. }
    { lia. } { lia. }
    exists s', n', new. do 3 (split; [done|]). split; [|done]. rewrite zlen_app. lia.
  - exists s, n, []. rewrite app_nil_r. split; [done|]. split; [done|]. split.
    { intros E. rewrite (fo_null _ _ _ _ F E) in Hn. change (zlen (A := Z) []) with 0 in Hn. lia. }
    split; [lia|]. split; [split; [set_solver|split; [done|done]]|]. done.
Qed.

Lemma ramfs_write_spec s file f n pages buffer : aget (open_files s) file = Ok f -> file_ok s (f_inode f) n pages ->
  0 <= f_pos f -> buffer <> [] -> f_pos f + zlen buffer + 4096 < 2 ^ 62 -> n_size n < 2 ^ 62 ->
  (f_pos f + zlen buffer - 1) / 4096 + 1 - zlen pages <= zlen (pages_free (r_pages (priv s))) ->
  exists s' n' new, ramfs_write junk s file buffer = Ok (RVal (zlen buffer), s') /\
    file_ok s' (f_inode f) n' (pages ++ new) /\ n_data n' <> 0 /\ n_mode n' = n_mode n /\
    zlen (pages ++ new) = Z.max (zlen pages) ((f_pos f + zlen buffer - 1) / 4096 + 1) /\
    file_content s' (pages ++ new) = written (file_content s pages ++ concat (junk <$> new)) (f_pos f) buffer /\
    aget (open_files s') file = Ok (set_f_pos (f_pos f + zlen buffer) f) /\
    (forall a, a ∉ pages ++ new -> r_mem (priv s') !! a = r_mem (priv s) !! a) /\
    (forall a, a ∈ new -> exists p, a = dmap p /\ p ∈ pages_free (r_pages (priv s))).
Proof.
  intros Hf F Hpos Hne Hmax Hsz Hfree. assert (0 < zlen buffer) by (destruct buffer; [done|]; unfold zlen; simpl; lia).
  unfold ramfs_write, get_node. rewrite Hf. cbn [outcome_bind]. rewrite (fo_node _ _ _ _ F). cbn [deref outcome_bind].
  rewrite (s64_small (f_pos f + zlen buffer)) by lia.
  destruct (grow_to_spec s (f_inode f) n pages (f_pos f + zlen buffer) F) as (s1 & n1 & new & -> & F1 & Hd1 & Hl1 & Hfr & Hc1 & Hm1 & Ho1);
    [lia..|]. cbn [outcome_bind]. rewrite (fo_node _ _ _ _ F1). cbn [deref outcome_bind].
  rewrite (fo_pages _ _ _ _ F1 Hd1). cbn [deref outcome_bind].
  destruct (pos_split (f_pos f + zlen buffer - 1) ltac:(lia)) as (Hs & Ho & Hq).
  destruct (write_pages_spec (r_mem (priv s1)) (pages ++ new) (f_pos f) buffer) as (mem' & -> & Hok' & Hc' & Hext);
    [apply (fo_nodup _ _ _ _ F1)|apply (fo_mem _ _ _ _ F1)|done|done|lia|]. cbn [outcome_bind].
  destruct Hfr as (Hnew & _ & Hmem & Hsub). apply aget_Ok in Hf as [H0 Hlk]. pose proof (lookup_lt_Some _ _ _ Hlk) as Hlt.
  unfold put_file. cbn [open_files set_priv]. rewrite Ho1, aset_in by (unfold zlen; lia). cbn [outcome_bind].
  eexists _, n1, new. split; [reflexivity|]. split; [|split; [done|split; [done|split; [done|]]]].
  - destruct F1 as [G1 G2 G3 G4 G5 G6 G7 G8 G9]. split; try done.
  - split; [|split; [|split]].
    + unfold file_content. cbn [priv set_open_files set_priv r_mem]. rewrite Hc', content_app, Hc1. do 2 f_equal.
      apply content_ext. intros x Hx. apply Hmem. intros Hin.
      pose proof (fo_nodup _ _ _ _ F1) as Hnd. apply NoDup_app in Hnd as (_ & Hnd & _). by apply (Hnd x).
    + cbn [open_files set_open_files]. apply aget_Ok. split; [done|]. apply list_lookup_insert_eq. lia.
    + intros a Ha. cbn [priv set_open_files set_priv r_mem]. rewrite Hext, Hmem; [done| |done]. rewrite not_elem_of_app in Ha. naive_solver.
    + done.
Qed.

Lemma written_back c pos buffer : 0 <= pos -> pos <= zlen c ->
  take (length buffer) (drop (Z.to_nat pos) (written c pos buffer)) = buffer.
Proof.
  intros Hpos Hl. unfold written, zlen in *. rewrite drop_app_length' by (rewrite length_take; lia). apply take_app_length.
Qed.

Lemma junk_length new : zlen (concat (junk <$> new)) = 4096 * zlen new.
Proof.
  induction new as [|a new IH]; [done|]. rewrite fmap_cons. simpl concat. rewrite zlen_app, zlen_cons, IH.
  unfold zlen at 1. rewrite junk_page, page_bytes_Z. lia.
Qed.

(** Seeking to a position in a regular file. *)
Lemma seek_set s file f g n : aget (open_files s) file = Ok g -> nodes s !! f_inode g = Some n -> S_ISREG (n_mode n) = true ->
  f = set_f_pos (f_pos f) g ->
  exists s', vfs_seek s file (f_pos f) SEEK_SET = Ok (RVal (f_pos f), s') /\ aget (open_files s') file = Ok f /\
    nodes s' = nodes s /\ priv s' = priv s /\ brk s' = brk s.
Proof.
  intros Hg Hn Hreg Ef. unfold vfs_seek, get_node. rewrite Hg. cbn [outcome_bind]. rewrite Hn. cbn [deref outcome_bind].
  assert (S_ISFIFO (n_mode n) || S_ISSOCK (n_mode n) = false) as ->.
  { unfold S_ISREG, S_ISFIFO, S_ISSOCK in *. apply Z.eqb_eq in Hreg. by rewrite Hreg. }
  cbn [Z.eqb SEEK_SET]. rewrite <- Ef. apply aget_Ok in Hg as [H0 Hlk]. pose proof (lookup_lt_Some _ _ _ Hlk).
  unfold put_file. rewrite aset_in by (unfold zlen; lia). cbn [outcome_bind]. eexists. split; [reflexivity|].
  split; [|done]. apply aget_Ok. split; [done|]. apply list_lookup_insert_eq. lia.
Qed.

(** Reading bytes that are all in the file. *)
Lemma read_inside s file f n pages len : aget (open_files s) file = Ok f -> file_ok s (f_inode f) n pages -> n_data n <> 0 ->
  0 <= f_pos f -> 0 < len -> f_pos f + len <= 4096 * zlen pages ->
  exists s', ramfs_read s file len = Ok (RVal len, take (Z.to_nat len) (drop (Z.to_nat (f_pos f)) (file_content s pages)), s').
Proof.
  intros Hf F Hd Hpos Hlen Hl. rewrite (ramfs_read_spec s file f n pages len Hf F) by lia.
  destruct (Z.eqb_spec (n_data n) 0); [done|]. rewrite (fo_size _ _ _ _ F).
  assert (f_pos f / 4096 < zlen pages) by (apply Z.div_lt_upper_bound; lia).
  destruct (Z.ltb_spec (zlen pages) (f_pos f / 4096)); [lia|].
  destruct (Z.leb_spec (f_pos f + len) (4096 * zlen pages)); [|lia]. rewrite orb_true_r.
  apply aget_Ok in Hf as [Hf0 Hlk]. pose proof (lookup_lt_Some _ _ _ Hlk).
  unfold put_file. rewrite aset_in by (unfold zlen; lia). cbn [outcome_bind]. by eexists.
Qed.

(** What a read of a memory file returns, in every case: nothing from a
    file without pages, an error when the position is more than a page past
    the end, the bytes of the file at the position when they are all there,
    and otherwise, when the read crosses the end of the last page, a use of
    the list head as if it were a page. *)
Theorem ramfs_read_correct s file f n pages len : aget (open_files s) file = Ok f -> file_ok s (f_inode f) n pages ->
  0 <= f_pos f -> 0 <= len ->
  ramfs_read s file len =
    if n_data n =? 0 then Ok (RVal 0, [], s)
    else if zlen pages <? f_pos f / 4096 then Ok (RErr ENXIO, [], s)
    else if (len =? 0) || (f_pos f + len <=? n_size n) then
      let* s := put_file s file (set_f_pos (f_pos f + len) f) in
      Ok (RVal len, take (Z.to_nat len) (drop (Z.to_nat (f_pos f)) (file_content s pages)), s)
    else Fault.
Proof. apply ramfs_read_spec. Qed.

(** C5: a write to a memory file and what is read back.  With enough free
    frames a write of at least one byte succeeds; the file grows to the page
    that holds its last byte, by frames that were free; its contents are the
    old ones, extended by what the new frames held, with the bytes written at
    the position and zeros after them to the end of their page; no other page
    changes; and seeking back and reading returns the bytes. *)
Theorem ramfs_write_read s file f n pages buffer : aget (open_files s) file = Ok f -> file_ok s (f_inode f) n pages ->
  S_ISREG (n_mode n) = true -> 0 <= f_pos f -> buffer <> [] -> f_pos f + zlen buffer + 4096 < 2 ^ 62 -> n_size n < 2 ^ 62 ->
  (f_pos f + zlen buffer - 1) / 4096 + 1 - zlen pages <= zlen (pages_free (r_pages (priv s))) ->
  exists s1 s2 s3 n' new, ramfs_write junk s file buffer = Ok (RVal (zlen buffer), s1) /\
    file_ok s1 (f_inode f) n' (pages ++ new) /\
    zlen (pages ++ new) = Z.max (zlen pages) ((f_pos f + zlen buffer - 1) / 4096 + 1) /\
    (forall a, a ∈ new -> exists p, a = dmap p /\ p ∈ pages_free (r_pages (priv s))) /\
    file_content s1 (pages ++ new) = written (file_content s pages ++ concat (junk <$> new)) (f_pos f) buffer /\
    (forall a, a ∉ pages ++ new -> r_mem (priv s1) !! a = r_mem (priv s) !! a) /\
    vfs_seek s1 file (f_pos f) SEEK_SET = Ok (RVal (f_pos f), s2) /\
    ramfs_read s2 file (zlen buffer) = Ok (RVal (zlen buffer), buffer, s3).
Proof.
  intros Hf F Hreg Hpos Hne Hmax Hsz Hfree. assert (0 < zlen buffer) as Hlb by (destruct buffer; [done|]; unfold zlen; simpl; lia).
  destruct (ramfs_write_spec s file f n pages buffer Hf F Hpos Hne Hmax Hsz Hfree)
    as (s1 & n' & new & Hw & F1 & Hd & Hmode & Hl & Hc & Hf1 & Hext & Hnew).
  destruct (pos_split (f_pos f + zlen buffer - 1)) as (Hs & Ho & Hq); [lia|].
  destruct (seek_set s1 file f _ n' Hf1) as (s2 & Hseek & Hf2 & Hn2 & Hp2 & Hb2);
    [apply (fo_node _ _ _ _ F1)|by rewrite Hmode|by destruct f|].
  assert (file_ok s2 (f_inode f) n' (pages ++ new)) as F2 by (destruct F1; split; rewrite ?Hn2, ?Hp2, ?Hb2; done).
  destruct (read_inside s2 file f n' (pages ++ new) (zlen buffer) Hf2 F2 Hd Hpos Hlb) as (s3 & Hread); [lia|].
  exists s1, s2, s3, n', new. do 7 (split; [done|]). rewrite Hread. do 3 f_equal.
  unfold file_content at 1. rewrite Hp2. fold (file_content s1 (pages ++ new)). rewrite Hc. unfold zlen at 1. rewrite Nat2Z.id.
  apply written_back; [done|]. rewrite zlen_app, junk_length. rewrite zlen_app in Hl.
  assert (zlen (file_content s pages) = 4096 * zlen pages) as ->.
  { unfold zlen, file_content. rewrite content_length by apply (fo_mem _ _ _ _ F). pose proof page_bytes_Z. lia. }
  lia.
Qed.
End files.

(** ** Examples *)

Definition blank (p : Z) : list Z := replicate page_bytes 170.

(** The example tree with its file open and empty, and eight frames of memory. *)
Definition empty_file : vfs (ramfs pmm) :=
  example_state (mk_ramfs ∅ ∅ pmm_eight) 1 (mk_fd 0 132 48 0 1 :: replicate 63 (mk_fd 0 0 0 0 0)).

Lemma empty_file_ok : file_ok empty_file 132 (example_file 1) [].
Proof.
  split; try done.
  - constructor.
  - apply pmm_eight_ok.
  - intros p _. set_solver.
Qed.

Lemma ramfs_write_read_witness :
  exists s1 s2 s3, ramfs_write blank empty_file 0 [104; 105] = Ok (RVal 2, s1) /\
    vfs_seek s1 0 0 SEEK_SET = Ok (RVal 0, s2) /\ ramfs_read s2 0 2 = Ok (RVal 2, [104; 105], s3).
Proof.
  destruct (ramfs_write_read blank ltac:(intros p; apply length_replicate) empty_file 0 (mk_fd 0 132 48 0 1) (example_file 1) []
    [104; 105]) as (s1 & s2 & s3 & n' & new & H1 & _ & _ & _ & _ & _ & H2 & H3); try done.
  - apply empty_file_ok.
  - exists s1, s2, s3. split; [exact H1|]. split; [exact H2|exact H3].
Defined.

(** A file of one page that holds the byte 170 throughout, and two frames taken. *)
Definition one_page_file : vfs (ramfs pmm) :=
  put_node 132 (set_n_size 4096 (set_n_data 500 (example_file 1)))
    (set_brk 600 (example_state (mk_ramfs {[500 := [dmap 0]]} {[dmap 0 := blank 0]} pmm_eight) 1
      (mk_fd 4094 132 48 0 1 :: replicate 63 (mk_fd 0 0 0 0 0)))).

Lemma one_page_file_ok : file_ok one_page_file 132 (set_n_size 4096 (set_n_data 500 (example_file 1))) [dmap 0].
Proof.
  split; try done.
  - repeat constructor. set_solver.
  - repeat constructor. exists (blank 0). split; [done|apply length_replicate].
  - apply pmm_eight_ok.
  - intros p Hp. pose proof (pages_bound pmm_eight p pmm_eight_ok Hp). rewrite list_elem_of_singleton.
    intros E. apply dmap_inj in E. lia.
Qed.

Lemma ramfs_read_correct_witness :
  ramfs_read one_page_file 0 3 = Fault /\
  exists s', ramfs_read one_page_file 0 2 = Ok (RVal 2, [170; 170], s').
Proof.
  split.
  - rewrite (ramfs_read_correct one_page_file 0 (mk_fd 4094 132 48 0 1) _ [dmap 0] 3 eq_refl one_page_file_ok); done.
  - rewrite (ramfs_read_correct one_page_file 0 (mk_fd 4094 132 48 0 1) _ [dmap 0] 2 eq_refl one_page_file_ok); [|done..].
    eexists. vm_compute. reflexivity.
Defined.
