(* ===== verification/Printf.v ===== *)
(** * Formatted output

    kernel/libk/vsprintf.c and kernel/klog.c.  A string is the list of its
    bytes without the terminating NUL.  The functions return the bytes that
    they store at [buf]; nothing in the code bounds them by the size of the
    buffer, which is tested where the caller owns it ([klog]).  A variable
    argument is a number or a string; taking one of the wrong kind, or more
    than were given, is undefined. *)

From stdpp Require Import base numbers list sets.
From Stdlib Require Import ZArith Lia.
From S2P Require Import Prelude.

Definition FLAG_SIGNED : Z := 1.
Definition FLAG_ZERO : Z := 2.

Definition digits : list Z := [48; 49; 50; 51; 52; 53; 54; 55; 56; 57; 97; 98; 99; 100; 101; 102].

(** [tmp_str[len++] = c] on a local array of [size] bytes. *)
Definition push (size : Z) (tmp_str : list Z) (c : Z) : outcome (list Z) :=
  if zlen tmp_str <? size then Ok (tmp_str ++ [c]) else Fault.

(** The digits of a non-positive number, the lowest first; at most 64 rounds
    for a number of 64 bits. *)
Fixpoint num_loop (fuel : nat) (negative_num base : Z) (tmp_str : list Z) : outcome (list Z) :=
  match fuel with
  | O => OutOfFuel
  | S fuel =>
      let* c := aget digits (- Z.rem negative_num base) in
      let* tmp_str := push 64 tmp_str c in
      let negative_num := Z.quot negative_num base in
      if negative_num =? 0 then Ok tmp_str else num_loop fuel negative_num base tmp_str
  end.

(** [while(padding-- > 0)] *)
Definition pad (flags padding : Z) : list Z := replicate (Z.to_nat padding) (if has flags FLAG_ZERO then 48 else 32).

Definition num_to_str (num base flags padding : Z) : outcome (list Z) :=
  if (base <? 2) || (16 <? base) then Ok []
  else
    let negative_num := if num <? 0 then num else - num in
    let* tmp_str := num_loop 64 negative_num base [] in
    let* tmp_str := if (num <? 0) && has flags FLAG_SIGNED then push 64 tmp_str 45 else Ok tmp_str in
    Ok (pad flags (padding - zlen tmp_str) ++ rev tmp_str).

Fixpoint ptr_loop (fuel : nat) (ptr : Z) (tmp_str : list Z) : outcome (list Z) :=
  match fuel with
  | O => OutOfFuel
  | S fuel =>
      let* c := aget digits (ptr mod 16) in
      let* tmp_str := push 32 tmp_str c in
      let ptr := ptr / 16 in
      if ptr =? 0 then Ok tmp_str else ptr_loop fuel ptr tmp_str
  end.

Definition ptr_to_str (ptr flags padding : Z) : outcome (list Z) :=
  let* tmp_str := ptr_loop 16 ptr [] in
  Ok ([48; 120] ++ pad flags (padding - zlen tmp_str) ++ rev tmp_str).

Inductive arg := Num (z : Z) | Str (s : list Z).

Definition va_num (args : list arg) : outcome (Z * list arg) :=
  match args with Num z :: args => Ok (z, args) | _ => Fault end.

Definition va_str (args : list arg) : outcome (list Z * list arg) :=
  match args with Str s :: args => Ok (s, args) | _ => Fault end.

Definition is_digit (c : Z) : bool := (48 <=? c) && (c <=? 57).

(** The optional zero after the percent sign. *)
Definition zero_flag (fmt : list Z) : Z * list Z :=
  match fmt with c :: rest => if c =? 48 then (FLAG_ZERO, rest) else (0, fmt) | [] => (0, []) end.

(** The field width, an [int]. *)
Fixpoint width_loop (fmt : list Z) (width : Z) : outcome (Z * list Z) :=
  match fmt with
  | c :: rest =>
      if is_digit c then
        let width := width * 10 + (c - 48) in
        if width <? 2 ^ 31 then width_loop rest width else Fault
      else Ok (width, fmt)
  | [] => Ok (width, [])
  end.

(** The length modifier [l] or [z], 0 if there is none. *)
Definition length_modifier (fmt : list Z) : Z * list Z :=
  match fmt with c :: rest => if (c =? 108) || (c =? 122) then (c, rest) else (0, fmt) | [] => (0, []) end.

(** The first switch on the specifier: flags, base and the specifier [u]. *)
Definition number_kind (specifier flags : Z) : Z * Z * Z :=
  if (specifier =? 100) || (specifier =? 105) then (Z.lor flags FLAG_SIGNED, 10, 117)
  else if specifier =? 120 then (flags, 16, 117)
  else if specifier =? 111 then (flags, 8, 117)
  else (flags, 10, specifier).

(** The second switch: the output of one conversion and the arguments left. *)
Definition convert (specifier length flags width : Z) (args : list arg) : outcome (list Z * list arg) :=
  let '(flags, base, specifier) := number_kind specifier flags in
  if specifier =? 37 then Ok ([37], args)
  else if specifier =? 99 then let* (z, args) := va_num args in Ok ([u8 z], args)
  else if specifier =? 115 then va_str args
  else if specifier =? 117 then
    let* (z, args) := va_num args in
    let num := if length =? 0 then s32 z else if length =? 108 then s64 z else s64 (u64 z) in
    let* bytes := num_to_str num base flags width in Ok (bytes, args)
  else if specifier =? 112 then
    let* (z, args) := va_num args in
    let* bytes := ptr_to_str (u64 z) flags width in Ok (bytes, args)
  else Ok ([], args).

(** The loop over the format.  A percent sign with nothing to convert after it
    lets the code step over the end of the string. *)
Fixpoint vsprintf_loop (fuel : nat) (buf fmt : list Z) (args : list arg) : outcome (list Z) :=
  match fmt with
  | [] => Ok (buf ++ [0])
  | c :: fmt =>
      match fuel with
      | O => OutOfFuel
      | S fuel =>
          if negb (c =? 37) then vsprintf_loop fuel (buf ++ [c]) fmt args
          else
            let '(flags, fmt) := zero_flag fmt in
            let* (width, fmt) := width_loop fmt 0 in
            let '(length, fmt) := length_modifier fmt in
            match fmt with
            | [] => Fault
            | specifier :: fmt =>
                let* (bytes, args) := convert specifier length flags width args in
                vsprintf_loop fuel (buf ++ bytes) fmt args
            end
      end
  end.

(** The bytes stored, the final NUL included; their number is the result. *)
Definition vsprintf (fmt : list Z) (args : list arg) : outcome (list Z) := vsprintf_loop (length fmt) [] fmt args.

Definition sprintf (fmt : list Z) (args : list arg) : outcome (list Z) := vsprintf fmt args.

(** [early_serial_write]: the bytes before the first NUL. *)
Fixpoint serial_write (s : list Z) : list Z :=
  match s with c :: s => if c =? 0 then [] else c :: serial_write s | [] => [] end.

(** [klog]: the text sent to the serial port.  [log_buffer] has 1024 bytes,
    and one more NUL is stored after the one of [vsprintf]. *)
Definition klog (fmt : list Z) (args : list arg) : outcome (list Z) :=
  let* out := vsprintf fmt args in
  if 1024 <? zlen out + 1 then Fault else Ok (serial_write (out ++ [0])).

(** ** What a format means

    A numeral is a string of digits without superfluous zeros; [value] reads
    it back. *)

Definition digit_value (c : Z) : Z := if c <=? 57 then c - 48 else c - 87.

Definition value (base : Z) (s : list Z) : Z := fold_left (fun acc c => acc * base + digit_value c) s 0.

Definition numeral (base n : Z) (s : list Z) : Prop :=
  Forall (fun c => c ∈ digits /\ digit_value c < base) s /\ value base s = n /\
  (s = [48] \/ exists c s', s = c :: s' /\ c <> 48).

(** A parsed format with its arguments. *)
Record field := mk_field { f_zero : bool; f_width : list Z; f_length : option Z }.

Inductive number := Decimal | Unsigned | Hex | Octal.

#[export] Instance number_eq_dec : EqDecision number.
Proof. solve_decision. Defined.

Inductive piece :=
  | Lit (c : Z)
  | Percent (f : field)
  | Char (f : field) (z : Z)
  | String (f : field) (s : list Z)
  | Number (f : field) (k : number) (z : Z)
  | Pointer (f : field) (z : Z).

Definition field_ok (f : field) : Prop :=
  Forall (fun c => is_digit c = true) (f_width f) /\ value 10 (f_width f) < 2 ^ 31 /\
  (f_zero f = false -> head (f_width f) <> Some 48) /\ (f_length f = None \/ f_length f = Some 108 \/ f_length f = Some 122).

Definition piece_ok (p : piece) : Prop :=
  match p with
  | Lit c => c <> 37 /\ c <> 0
  | Percent f | Char f _ | String f _ | Number f _ _ | Pointer f _ => field_ok f
  end.

Definition spec_char (k : number) : Z := match k with Decimal => 100 | Unsigned => 117 | Hex => 120 | Octal => 111 end.
Definition spec_base (k : number) : Z := match k with Decimal | Unsigned => 10 | Hex => 16 | Octal => 8 end.

Definition field_text (f : field) : list Z :=
  [37] ++ (if f_zero f then [48] else []) ++ f_width f ++ match f_length f with Some l => [l] | None => [] end.

Definition text (p : piece) : list Z :=
  match p with
  | Lit c => [c]
  | Percent f => field_text f ++ [37]
  | Char f _ => field_text f ++ [99]
  | String f _ => field_text f ++ [115]
  | Number f k _ => field_text f ++ [spec_char k]
  | Pointer f _ => field_text f ++ [112]
  end.

Definition piece_args (p : piece) : list arg :=
  match p with
  | Lit _ | Percent _ => []
  | Char _ z | Number _ _ z | Pointer _ z => [Num z]
  | String _ s => [Str s]
  end.

(** [body] right-aligned in the field. *)
Definition padded (f : field) (body : list Z) : list Z :=
  replicate (Z.to_nat (value 10 (f_width f) - zlen body)) (if f_zero f then 48 else 32) ++ body.

(** The number that a conversion without or with a length modifier sees. *)
Definition seen (f : field) (z : Z) : Z := match f_length f with None => s32 z | Some _ => s64 z end.

(** The output of a piece.  A conversion that is not signed prints the
    magnitude of the number read as a signed one. *)
Definition renders (p : piece) (out : list Z) : Prop :=
  match p with
  | Lit c => out = [c]
  | Percent _ => out = [37]
  | Char _ z => out = [u8 z]
  | String _ s => out = s
  | Number f k z => exists ds, numeral (spec_base k) (Z.abs (seen f z)) ds /\
      out = padded f ((if bool_decide (k = Decimal /\ seen f z < 0) then [45] else []) ++ ds)
  | Pointer f z => exists ds, numeral 16 (u64 z) ds /\ out = [48; 120] ++ padded f ds
  end.

(** ** Numerals *)

Lemma digits_lookup i : 0 <= i < 16 -> exists c, aget digits i = Ok c /\ c ∈ digits /\ digit_value c = i /\ (c = 48 <-> i = 0).
Proof.
  intros H. assert (In i (map Z.of_nat (seq 0 16))) as Hin.
  { apply in_map_iff. exists (Z.to_nat i). rewrite Z2Nat.id by lia. split; [done|]. apply in_seq. lia. }
  revert Hin. cbn [map seq Z.of_nat Pos.of_succ_nat Pos.succ]. intros Hin.
  repeat (destruct Hin as [<-|Hin]; [eexists; split; [reflexivity|]; split; [set_solver|]; split; [reflexivity|]; lia|]). done.
Qed.

Lemma value_snoc base s c : value base (s ++ [c]) = value base s * base + digit_value c.
Proof. unfold value. by rewrite fold_left_app. Qed.

Lemma numeral_digit base n c : c ∈ digits -> digit_value c = n -> n < base -> numeral base n [c].
Proof.
  intros Hc Hv Hn. split; [|split].
  - constructor; [|done]. split; [done|lia].
  - unfold value. simpl. lia.
  - destruct (Z.eq_dec c 48) as [->|]; [by left|right; eauto].
Qed.

Lemma numeral_snoc base n s c : 0 < n / base -> numeral base (n / base) s -> 0 < base -> c ∈ digits -> digit_value c = n mod base ->
  numeral base n (s ++ [c]).
Proof.
  intros Hn (Hs & Hv & Hz) Hb Hc Hd. split; [|split].
  - apply Forall_app. split; [done|]. constructor; [|done]. split; [done|]. pose proof (Z.mod_pos_bound n base). lia.
  - rewrite value_snoc, Hv, Hd. pose proof (Z.div_mod n base). lia.
  - right. destruct Hz as [->|(c' & s' & -> & Hc')].
    + unfold value in Hv. simpl in Hv. unfold digit_value in Hv. simpl in Hv. lia.
    + by exists c', (s' ++ [c]).
Qed.

Lemma push_spec size tmp c : zlen tmp < size -> push size tmp c = Ok (tmp ++ [c]).
Proof. intros H. unfold push. by destruct (Z.ltb_spec (zlen tmp) size); [|lia]. Qed.

(** The loop stores the numeral in reverse; [k] bounds the number of digits. *)
Lemma num_loop_spec base k : 2 <= base <= 16 -> forall fuel n tmp, (k <= fuel)%nat -> 0 <= n < base ^ Z.of_nat k ->
  (0 < k)%nat -> zlen tmp + Z.of_nat k <= 64 ->
  exists ds, num_loop fuel (- n) base tmp = Ok (tmp ++ ds) /\ numeral base n (rev ds) /\ zlen ds <= Z.of_nat k.
Proof.
  intros Hb. induction k as [|k IH]; intros fuel n tmp Hf Hn Hk Ht; [lia|]. destruct fuel as [|fuel]; [lia|]. simpl.
  rewrite Z.rem_opp_l', Z.opp_involutive, Z.quot_opp_l, Z.quot_div_nonneg, Z.rem_mod_nonneg by lia.
  pose proof (Z.mod_pos_bound n base ltac:(lia)). pose proof (Z.div_mod n base ltac:(lia)).
  destruct (digits_lookup (n mod base)) as (c & -> & Hc & Hd & Hz); [lia|]. cbn [outcome_bind].
  rewrite push_spec by lia. cbn [outcome_bind]. assert (0 <= n / base) by (apply Z.div_pos; lia).
  destruct (Z.eqb_spec (- (n / base)) 0) as [E|E].
  - exists [c]. split; [done|]. split; [|unfold zlen; simpl; lia]. apply numeral_digit; [done|nia|nia].
  - destruct k as [|k].
    { change (Z.of_nat 1) with 1 in Hn. rewrite Z.pow_1_r in Hn. rewrite Z.div_small in E; lia. }
    destruct (IH fuel (n / base) (tmp ++ [c])) as (ds & -> & Hnum & Hlen); [lia| |lia| |].
    + split; [done|]. apply Z.div_lt_upper_bound; [lia|].
      replace (Z.of_nat (S (S k))) with (Z.succ (Z.of_nat (S k))) in Hn by lia. rewrite Z.pow_succ_r in Hn by lia. lia.
    + rewrite zlen_app. unfold zlen at 2. simpl. lia.
    + exists (c :: ds). rewrite <- app_assoc. split; [done|]. split; [|rewrite zlen_cons; lia].
      simpl. apply numeral_snoc; try done; lia.
Qed.

Lemma ptr_loop_spec k : forall fuel n tmp, (k <= fuel)%nat -> 0 <= n < 16 ^ Z.of_nat k -> (0 < k)%nat -> zlen tmp + Z.of_nat k <= 32 ->
  exists ds, ptr_loop fuel n tmp = Ok (tmp ++ ds) /\ numeral 16 n (rev ds).
Proof.
  induction k as [|k IH]; intros fuel n tmp Hf Hn Hk Ht; [lia|]. destruct fuel as [|fuel]; [lia|]. cbn [ptr_loop].
  pose proof (Z.mod_pos_bound n 16 ltac:(lia)). pose proof (Z.div_mod n 16 ltac:(lia)).
  destruct (digits_lookup (n mod 16)) as (c & -> & Hc & Hd & Hz); [lia|]. cbn [outcome_bind].
  rewrite push_spec by lia. cbn [outcome_bind]. assert (0 <= n / 16) by (apply Z.div_pos; lia).
  destruct (Z.eqb_spec (n / 16) 0) as [E|E].
  - exists [c]. split; [done|]. apply numeral_digit; [done|lia|lia].
  - destruct k as [|k].
    { change (Z.of_nat 1) with 1 in Hn. rewrite Z.pow_1_r in Hn. rewrite Z.div_small in E; lia. }
    destruct (IH fuel (n / 16) (tmp ++ [c])) as (ds & -> & Hnum); [lia| |lia| |].
    + split; [done|]. apply Z.div_lt_upper_bound; [lia|].
      replace (Z.of_nat (S (S k))) with (Z.succ (Z.of_nat (S k))) in Hn by lia. rewrite Z.pow_succ_r in Hn by lia. lia.
    + rewrite zlen_app. unfold zlen at 2. simpl. lia.
    + exists (c :: ds). rewrite <- app_assoc. split; [done|]. simpl. apply numeral_snoc; try done; lia.
Qed.

(** The shared end of both conversions. *)
Lemma num_to_str_spec num base flags padding : base = 8 \/ base = 10 \/ base = 16 -> - 2 ^ 63 <= num < 2 ^ 63 ->
  exists ds, let body := (if (num <? 0) && has flags FLAG_SIGNED then [45] else []) ++ ds in
    num_to_str num base flags padding = Ok (pad flags (padding - zlen body) ++ body) /\ numeral base (Z.abs num) ds.
Proof.
  intros Hb Hn. unfold num_to_str. destruct (Z.ltb_spec base 2); [lia|]. destruct (Z.ltb_spec 16 base); [lia|]. simpl orb.
  assert (2 ^ 63 < base ^ Z.of_nat 22) as Hpow by (destruct Hb as [->|[->| ->]]; vm_compute; reflexivity).
  destruct (num_loop_spec base 22 ltac:(lia) 64 (Z.abs num) []) as (ds & Hl & Hnum & Hlen); [lia|lia|lia|done|].
  replace (if num <? 0 then num else - num) with (- Z.abs num) by (destruct (Z.ltb_spec num 0); lia).
  rewrite Hl. cbn [outcome_bind app]. exists (rev ds). cbn zeta.
  destruct ((num <? 0) && has flags FLAG_SIGNED).
  - rewrite push_spec by lia. cbn [outcome_bind]. rewrite rev_app_distr. split; [|done].
    do 3 f_equal. unfold zlen. rewrite !length_app, length_rev. simpl. lia.
  - cbn [outcome_bind app]. split; [|done]. do 3 f_equal. unfold zlen. rewrite length_rev. done.
Qed.

Lemma ptr_to_str_spec z flags padding :
  exists ds, ptr_to_str (u64 z) flags padding = Ok ([48; 120] ++ pad flags (padding - zlen ds) ++ ds) /\ numeral 16 (u64 z) ds.
Proof.
  unfold ptr_to_str. destruct (ptr_loop_spec 16 16 (u64 z) []) as (ds & -> & Hnum); [lia|apply u64_range|lia|done|].
  cbn [outcome_bind app]. exists (rev ds). split; [|done]. do 5 f_equal. unfold zlen. by rewrite length_rev.
Qed.

(** ** Parsing a conversion *)

Lemma digit_value_digit c : is_digit c = true -> digit_value c = c - 48 /\ 0 <= digit_value c.
Proof. unfold is_digit, digit_value. intros H. bool_to_prop. destruct (Z.leb_spec c 57); lia. Qed.

Lemma width_grows w acc : Forall (fun c => is_digit c = true) w -> 0 <= acc ->
  acc <= fold_left (fun acc c => acc * 10 + digit_value c) w acc.
Proof.
  intros Hw. revert acc. induction Hw as [|c w Hc Hw IH]; intros acc Ha; [done|]. simpl.
  apply digit_value_digit in Hc. etrans; [|apply IH]; lia.
Qed.

Lemma width_loop_spec w sp rest : Forall (fun c => is_digit c = true) w -> is_digit sp = false -> forall acc, 0 <= acc ->
  fold_left (fun acc c => acc * 10 + digit_value c) w acc < 2 ^ 31 ->
  width_loop (w ++ sp :: rest) acc = Ok (fold_left (fun acc c => acc * 10 + digit_value c) w acc, sp :: rest).
Proof.
  intros Hw Hsp. induction Hw as [|c w Hc Hw IH]; intros acc Ha Hlt; [simpl; by rewrite Hsp|].
  cbn [app width_loop fold_left] in *. rewrite Hc. pose proof (digit_value_digit c Hc) as [Ed Hd0].
  assert (acc * 10 + digit_value c <= fold_left (fun acc c => acc * 10 + digit_value c) w (acc * 10 + digit_value c))
    by (apply width_grows; [done|lia]).
  rewrite Ed in *. destruct (Z.ltb_spec (acc * 10 + (c - 48)) (2 ^ 31)); [|lia]. apply IH; lia.
Qed.

Lemma zero_flag_spec (z : bool) rest : (z = false -> head rest <> Some 48) ->
  zero_flag ((if z then [48] else []) ++ rest) = (if z then FLAG_ZERO else 0, rest).
Proof.
  intros H. destruct z; [done|]. destruct rest as [|c rest]; [done|]. simpl.
  destruct (Z.eqb_spec c 48) as [->|]; [|done]. exfalso. by apply H.
Qed.

(** The characters that end a conversion. *)
Definition specifier_ok (sp : Z) : Prop := is_digit sp = false /\ sp <> 108 /\ sp <> 122.

Lemma field_spec f sp rest fuel buf args : field_ok f -> specifier_ok sp ->
  vsprintf_loop (S fuel) buf (field_text f ++ sp :: rest) args =
  (let* (bytes, args) := convert sp (default 0 (f_length f)) (if f_zero f then FLAG_ZERO else 0) (value 10 (f_width f)) args in
   vsprintf_loop fuel (buf ++ bytes) rest args).
Proof.
  intros (Hw & Hlt & Hz & Hl) (Hsd & Hs1 & Hs2). unfold field_text. rewrite <- !app_assoc. cbn [app vsprintf_loop].
  rewrite Z.eqb_refl. cbn [negb]. rewrite zero_flag_spec.
  - destruct Hl as [->|[->| ->]]; cbn [app default]; rewrite (width_loop_spec _ _ _ Hw) by done; cbn [outcome_bind].
    + unfold length_modifier. destruct (Z.eqb_spec sp 108); [done|]. by destruct (Z.eqb_spec sp 122).
    + done.
    + done.
  - intros Hf. specialize (Hz Hf). destruct (f_width f) as [|c w]; [|done].
    destruct Hl as [->|[->| ->]]; try done. simpl. intros [= ->]. done.
Qed.

Lemma has_zero (z : bool) signed : has (Z.lor (if z then FLAG_ZERO else 0) (if signed : bool then FLAG_SIGNED else 0)) FLAG_ZERO = z /\
  has (Z.lor (if z then FLAG_ZERO else 0) (if signed then FLAG_SIGNED else 0)) FLAG_SIGNED = signed.
Proof. by destruct z, signed. Qed.

Lemma seen_range f z : - 2 ^ 63 <= seen f z < 2 ^ 63.
Proof.
  unfold seen, s32, s64, sint. destruct (f_length f).
  - pose proof (wrap_range 64 z ltac:(lia)). destruct (Z.ltb_spec (wrap 64 z) (2 ^ (64 - 1))); lia.
  - pose proof (wrap_range 32 z ltac:(lia)). destruct (Z.ltb_spec (wrap 32 z) (2 ^ (32 - 1))); lia.
Qed.

Lemma s64_u64 z : s64 (u64 z) = s64 z.
Proof. unfold s64, sint, u64. unfold wrap at 2. unfold wrap. by rewrite Z.mod_mod. Qed.

Lemma number_spec f k z args : field_ok f ->
  exists out, convert (spec_char k) (default 0 (f_length f)) (if f_zero f then FLAG_ZERO else 0) (value 10 (f_width f)) (Num z :: args)
    = Ok (out, args) /\ renders (Number f k z) out.
Proof.
  intros (_ & _ & _ & Hl). set (flags := Z.lor (if f_zero f then FLAG_ZERO else 0) (if bool_decide (k = Decimal) then FLAG_SIGNED else 0)).
  destruct (num_to_str_spec (seen f z) (spec_base k) flags (value 10 (f_width f))) as (ds & Hrun & Hnum);
    [destruct k; simpl; lia|apply seen_range|].
  destruct (has_zero (f_zero f) (bool_decide (k = Decimal))) as [Hf1 Hf2]. fold flags in Hf1, Hf2.
  eexists. split; [|exists ds; split; [done|reflexivity]].
  transitivity (let* bytes := num_to_str (seen f z) (spec_base k) flags (value 10 (f_width f)) in Ok (bytes, args)).
  - unfold flags, convert, seen. destruct k; cbn [number_kind spec_char spec_base va_num outcome_bind Z.eqb Pos.eqb orb bool_decide decide_rel];
      rewrite ?Z.lor_0_r; destruct Hl as [->|[->| ->]]; cbn [default Z.eqb Pos.eqb]; by rewrite ?s64_u64.
  - rewrite Hrun. cbn [outcome_bind]. unfold padded, pad. rewrite Hf1, Hf2.
    replace ((seen f z <? 0) && bool_decide (k = Decimal)) with (bool_decide (k = Decimal /\ seen f z < 0)); [done|].
    destruct (Z.ltb_spec (seen f z) 0), (decide (k = Decimal)).
    + rewrite !bool_decide_true by done. done.
    + rewrite !bool_decide_false by tauto. done.
    + rewrite bool_decide_false by lia. done.
    + rewrite bool_decide_false by tauto. done.
Qed.

Lemma piece_spec p fuel buf fmt args : piece_ok p ->
  exists out, renders p out /\
    vsprintf_loop (S fuel) buf (text p ++ fmt) (piece_args p ++ args) = vsprintf_loop fuel (buf ++ out) fmt args.
Proof.
  intros Hp. destruct p as [c|f|f z|f s|f k z|f z]; cbn [text piece_args app]; cbn [piece_ok] in Hp;
    rewrite <- ?app_assoc; cbn [app].
  - exists [c]. split; [done|]. destruct Hp as [Hc _]. cbn [vsprintf_loop]. by destruct (Z.eqb_spec c 37).
  - exists [37]. split; [done|]. by rewrite field_spec.
  - exists [u8 z]. split; [done|]. by rewrite field_spec.
  - exists s. split; [done|]. by rewrite field_spec.
  - destruct (number_spec f k z args Hp) as (out & Hrun & Hr). exists out. split; [done|].
    rewrite field_spec, Hrun; [done|done|]. by destruct k.
  - destruct (ptr_to_str_spec z (if f_zero f then FLAG_ZERO else 0) (value 10 (f_width f))) as (ds & Hrun & Hnum).
    eexists. split; [exists ds; split; [done|reflexivity]|]. rewrite field_spec by done.
    change (convert 112 ?l ?fl ?w (Num z :: args)) with (let* bytes := ptr_to_str (u64 z) fl w in Ok (bytes, args)).
    rewrite Hrun. cbn [outcome_bind]. unfold pad, padded.
    assert (has (if f_zero f then FLAG_ZERO else 0) FLAG_ZERO = f_zero f) as -> by by destruct (f_zero f). done.
Qed.

Lemma text_nonempty p : (1 <= length (text p))%nat.
Proof. destruct p; simpl; try lia. Qed.

Lemma pieces_spec ps : Forall piece_ok ps -> forall fuel buf, (length ps <= fuel)%nat ->
  exists outs, Forall2 renders ps outs /\
    vsprintf_loop fuel buf (concat (text <$> ps)) (concat (piece_args <$> ps)) = Ok (buf ++ concat outs ++ [0]).
Proof.
  induction 1 as [|p ps Hp _ IH]; intros fuel buf Hf.
  { exists []. split; [done|]. by destruct fuel. }
  destruct fuel as [|fuel]; [simpl in Hf; lia|]. rewrite !fmap_cons. simpl concat.
  destruct (piece_spec p fuel buf (concat (text <$> ps)) (concat (piece_args <$> ps)) Hp) as (out & Hr & ->).
  destruct (IH fuel (buf ++ out)) as (outs & Hrs & ->); [simpl in Hf; lia|].
  exists (out :: outs). split; [by constructor|]. simpl. by rewrite <- !app_assoc.
Qed.

Lemma pieces_length ps : (length ps <= length (concat (text <$> ps)))%nat.
Proof.
  induction ps as [|p ps IH]; [done|]. rewrite fmap_cons. simpl concat. rewrite length_app.
  pose proof (text_nonempty p). simpl. lia.
Qed.

(** C40: formatted output means what its format says.  On the text of any
    sequence of literal characters and conversions, with the arguments these
    take, [vsprintf] terminates without leaving its local arrays, takes
    exactly those arguments, and stores the concatenation of the outputs of
    the pieces and a final NUL.  The output of a numeric conversion is the
    shortest numeral of the number's magnitude in the base of the
    conversion, behind a minus sign for a negative number under a signed
    one, and right-aligned in its field with zeros or spaces. *)
Theorem vsprintf_correct ps : Forall piece_ok ps ->
  exists outs, Forall2 renders ps outs /\ vsprintf (concat (text <$> ps)) (concat (piece_args <$> ps)) = Ok (concat outs ++ [0]).
Proof. intros Hps. apply (pieces_spec ps Hps _ []). apply pieces_length. Qed.

(** [a=%05d %x] with -42 and 255 *)
Lemma vsprintf_correct_witness :
  exists outs, vsprintf [97; 61; 37; 48; 53; 100; 32; 37; 108; 120] [Num (-42); Num 255] = Ok (concat outs ++ [0]) /\
    concat outs = [97; 61; 48; 48; 45; 52; 50; 32; 102; 102].
Proof.
  destruct (vsprintf_correct [Lit 97; Lit 61; Number (mk_field true [53] None) Decimal (-42); Lit 32;
    Number (mk_field false [] (Some 108)) Hex 255]) as (outs & _ & E).
  - repeat constructor; try done; by right; left.
  - exists outs. split; [exact E|].
    assert (Ok (concat outs ++ [0]) = Ok [97; 61; 48; 48; 45; 52; 50; 32; 102; 102; 0]) as E2 by (rewrite <- E; vm_compute; reflexivity).
    injection E2 as E2. change [97; 61; 48; 48; 45; 52; 50; 32; 102; 102; 0] with ([97; 61; 48; 48; 45; 52; 50; 32; 102; 102] ++ [0]) in E2.
    by apply app_inj_tail in E2 as [E2 _].
Defined.

(** An unsigned conversion of a number with the top bit set: [%u] of 4294967295. *)
Lemma unsigned_prints_magnitude : vsprintf [37; 117] [Num (2 ^ 32 - 1)] = Ok [49; 0] /\
  vsprintf [37; 108; 120] [Num VM_DMAP_BASE] = Ok [56; 48; 48; 48; 48; 48; 48; 48; 48; 48; 48; 48; 0].
Proof. by split; vm_compute. Qed.
