(* ===== verification/Procfs.v ===== *)
(** * The process file system

    kernel/fs/procfs/procfs.c: a tree of directory entries that the kernel
    itself grows and prunes as processes come and go, and whose files are
    text made on each read.  Locks are left out.  The addresses of tasks,
    address spaces and open files that the text is made from are resolved by
    parameters over the private data of the file layer. *)

From stdpp Require Import base numbers list gmap sets strings.
From Stdlib Require Import ZArith Lia Ascii.
From S2P Require Import Prelude Sched Device Dcache Lookup Tree Mmu Vmm Vfs Create Printf.

(** The bytes of a string literal. *)
Fixpoint codes (s : string) : list Z :=
  match s with
  | EmptyString => []
  | String.String c s => Z.of_N (N_of_ascii c) :: codes s
  end.

(** task.h: [get_status_name] *)
Definition get_status_name (status : task_status) : list Z :=
  match status with
  | TASK_RUNNING => codes "R (running)"
  | TASK_INTR_SLEEPING => codes "S (sleeping)"
  | TASK_SLEEPING => codes "D (uninterruptible sleep)"
  | TASK_ZOMBIE => codes "Z (zombie)"
  | TASK_STOPPED => codes "T (stopped)"
  end.

Section procfs.
Context {D : Type}.
Context (iops_at : Z -> option (inode_ops D)) (sops_at : Z -> option (super_ops D)).

(** The tables of this file, by address. *)
Definition procfs_iops : Z := 0x70.
Definition procfs_fops : Z := 0x71.
Definition procfs_sb_ops : Z := 0x72.
Definition proc_status_fops : Z := 0x73.
Definition proc_maps_fops : Z := 0x74.

Definition procfs_inode_ops : inode_ops D := mk_inode_ops (Some generic_fs_lookup) None None None (Some generic_fs_getdents).

(** [g_procfs]: null before [procfs_init]. *)
Definition procfs_super_init (g_procfs : superblock) (s : vfs D) (bdev : Z) : outcome (ret * superblock * vfs D) := Ok (RVal 0, g_procfs, s).

Definition procfs_super_root (s : vfs D) (sb : superblock) : outcome (ret * Z * vfs D) := Ok (RVal 0, sb_data sb, s).

(** The file system is registered and its superblock made; [sb->fs] is set when it is mounted. *)
Definition procfs_init (s : vfs D) : outcome (option superblock * vfs D) :=
  let s := filesystem_register s (mk_filesystem [] FS_FLAG_NODEV procfs_iops procfs_fops procfs_sb_ops) (codes "procfs") in
  let '(node, s) := vnode_new s (Z.lor S_IFDIR 0x1ed) in
  let* n := get_node s node in
  let s := put_node node (set_n_fops procfs_fops (set_n_iops procfs_iops n)) s in
  let* (dentry, s) := ventry_new s (codes "proc") node in
  Ok (Some (mk_superblock (mk_filesystem [] 0 0 0 0) 0 dentry), s).

(** The common beginning of [procfs_mkdir] and [procfs_create]. *)
Definition procfs_free (g_procfs : option superblock) (s : vfs D) (path : list Z) : outcome (option (Z * list Z) * vfs D) :=
  match g_procfs with
  | None => Ok (None, s)
  | Some sb =>
      let* (status, parent, s) := vfs_lookup_at iops_at sops_at s (sb_data sb) path LOOKUP_PARENT in
      if failed status then Ok (None, s)
      else
        let* basename := basename_of path in
        let* (status, _, s) := vfs_lookup_at iops_at sops_at s parent basename 0 in
        if negb (failed status) then Ok (None, s) else Ok (Some (parent, basename), s)
  end.

Definition procfs_mkdir (g_procfs : option superblock) (s : vfs D) (path : list Z) : outcome (vfs D) :=
  let* (r, s) := procfs_free g_procfs s path in
  match r with
  | None => Ok s
  | Some (parent, basename) =>
      let* (_, s) := generic_fs_mkdir s parent basename 0x1ed in
      Ok s
  end.

(** The new entry is linked into its directory but not cached. *)
Definition procfs_create (g_procfs : option superblock) (s : vfs D) (path : list Z) (fops priv_data : Z) : outcome (vfs D) :=
  let* (r, s) := procfs_free g_procfs s path in
  match r with
  | None => Ok s
  | Some (parent, basename) =>
      let '(inode, s) := vnode_new s (Z.lor S_IFREG 0x124) in
      let* p := get_entry s parent in
      let* pn := get_node s (e_node p) in
      let* n := get_node s inode in
      let s := put_node inode (set_n_data priv_data (set_n_fops fops (set_n_iops (n_iops pn) n))) s in
      let* (dirent, s) := ventry_new s basename inode in
      let* d := get_entry s dirent in
      let s := put_entry dirent (set_e_parent parent d) s in
      add_child s parent dirent
  end.

(** The node is freed whoever uses it; the entry lives on while it is referenced. *)
Definition procfs_remove (g_procfs : option superblock) (s : vfs D) (path : list Z) : outcome (vfs D) :=
  match g_procfs with
  | None => Ok s
  | Some sb =>
      let* (status, dentry, s) := vfs_lookup_at iops_at sops_at s (sb_data sb) path 0 in
      if failed status then Ok s
      else
        let* e := get_entry s dentry in
        let* _ := get_node s (e_node e) in
        let* s :=
          if negb (e_parent e =? 0) then
            let* pe := get_entry s (e_parent e) in
            if negb (e_node pe =? 0) then
              let* pn := get_node s (e_node pe) in
              Ok (put_node (e_node pe) (set_n_nlink (u64 (n_nlink pn - 1)) pn) s)
            else Ok s
          else Ok s in
        let s := set_nodes (delete (e_node e) (nodes s)) s in
        let s := unlink_sibling (put_entry dentry (set_e_node 0 e) s) dentry in
        ventry_put s dentry
  end.

(** ** The directory of a process *)

(** [sprintf] stores the path and a NUL in [str_buf[64]]. *)
Definition proc_path (fmt : list Z) (tgid : Z) : outcome (list Z) :=
  let* out := sprintf fmt [Num tgid] in
  if 64 <? zlen out then Fault else Ok (serial_write out).

Definition procfs_register_process (g_procfs : option superblock) (s : vfs D) (addr : Z) (t : task) : outcome (vfs D) :=
  let* path := proc_path (codes "%d") (t_tgid t) in
  let* s := procfs_mkdir g_procfs s path in
  let* path := proc_path (codes "%d/status") (t_tgid t) in
  let* s := procfs_create g_procfs s path proc_status_fops addr in
  let* path := proc_path (codes "%d/maps") (t_tgid t) in
  procfs_create g_procfs s path proc_maps_fops addr.

Definition procfs_unregister_process (g_procfs : option superblock) (s : vfs D) (t : task) : outcome (vfs D) :=
  let* path := proc_path (codes "%d/maps") (t_tgid t) in
  let* s := procfs_remove g_procfs s path in
  let* path := proc_path (codes "%d/status") (t_tgid t) in
  let* s := procfs_remove g_procfs s path in
  let* path := proc_path (codes "%d") (t_tgid t) in
  procfs_remove g_procfs s path.

(** ** The files *)

(** The task and the address space at an address, and the index of the open
    file at an address. *)
Context (task_at : D -> Z -> option task) (space_at : D -> Z -> option vm_space) (fd_at : Z -> Z).

Definition status_format : list Z :=
  codes "Name: %s" ++ [10] ++ codes "State: %s" ++ [10] ++ codes "Pid: %d" ++ [10] ++ codes "Pgid: %d" ++ [10] ++
  codes "Sid: %d" ++ [10] ++ codes "Uid: %u" ++ [10] ++ codes "Gid: %u" ++ [10] ++ codes "VirtAnon: %u kB" ++ [10] ++
  codes "RssAnon: %u kB" ++ [10] ++ codes "VirtFile: %u kB" ++ [10] ++ codes "RssFile: %u kB" ++ [10].

Definition read_proc_status (s : vfs D) (file length : Z) : outcome (ret * list Z * vfs D) :=
  let* f := aget (open_files s) file in
  let* n := get_node s (f_inode f) in
  let* target := deref (task_at (priv s) (n_data n)) in
  let* targetvm := deref (space_at (priv s) (t_vm_space target)) in
  let* out := sprintf status_format
    [Str (t_name target); Str (get_status_name (t_status target)); Num (t_pid target); Num (t_pgid target); Num (t_sid target);
     Num (c_uid (t_cred target)); Num (c_gid (t_cred target)); Num (u64 (mapped_anon targetvm * 4)); Num (u64 (resident_anon targetvm * 4));
     Num (u64 (mapped_file targetvm * 4)); Num (u64 (resident_file targetvm * 4))] in
  Ok (RVal length, out, s).

Definition map_line (s : vfs D) (range : vm_object) : outcome (list Z) :=
  let* name :=
    if negb (o_file range =? 0) then
      let* f := aget (open_files s) (fd_at (o_file range)) in
      let* e := get_entry s (f_path f) in
      Ok (e_name e)
    else Ok (codes "[anon]") in
  sprintf (codes "%012zx - %012zx %c%c%c %08x %s" ++ [10])
    [Num (o_base range); Num (u64 (o_base range + o_length range));
     Num (if has (o_prot range) PROT_READ then 114 else 45); Num (if has (o_prot range) PROT_WRITE then 119 else 45);
     Num (if has (o_prot range) PROT_EXEC then 120 else 45); Num (o_offset range); Str name].

(** [out] is what lies in the buffer; each line overwrites the NUL of the one before. *)
Fixpoint maps_loop (s : vfs D) (ranges : list vm_object) (length : Z) (out : list Z) : outcome (list Z) :=
  match ranges with
  | [] => Ok out
  | range :: ranges =>
      let out_buffer := take (List.length out - 1) out in
      if length <=? zlen out_buffer then Ok out
      else
        let* line := map_line s range in
        maps_loop s ranges length (out_buffer ++ line)
  end.

Definition read_proc_maps (s : vfs D) (file length : Z) : outcome (ret * list Z * vfs D) :=
  let* f := aget (open_files s) file in
  let* n := get_node s (f_inode f) in
  let* target := deref (task_at (priv s) (n_data n)) in
  let* targetvm := deref (space_at (priv s) (t_vm_space target)) in
  let* out := maps_loop s (objects targetvm) length [] in
  Ok (RVal length, out, s).

(** ** A published file is found *)

Definition published_node (pv : vnode) (fops data : Z) : vnode := mk_vnode (Z.lor S_IFREG 0x124) 0 0 0 0 1 0 data (n_iops pv) fops.

(** What [procfs_create] does once it knows the directory and the name. *)
Lemma publish_run (s : vfs D) q pe pv name fops data : heap_fresh s -> entries s !! q = Some pe -> nodes s !! e_node pe = Some pv ->
  (length name < 64)%nat -> (47 ∉ name) ->
  exists s1 : vfs D,
    (let '(inode, s) := vnode_new s (Z.lor S_IFREG 0x124) in
     let* p := get_entry s q in
     let* pn := get_node s (e_node p) in
     let* n := get_node s inode in
     let s := put_node inode (set_n_data data (set_n_fops fops (set_n_iops (n_iops pn) n))) s in
     let* (dirent, s) := ventry_new s name inode in
     let* d := get_entry s dirent in
     let s := put_entry dirent (set_e_parent q d) s in
     add_child s q dirent) = Ok s1 /\
    entries s1 = <[q := set_e_children (e_children pe ++ [brk s + 16]) pe]>
      (<[brk s + 16 := mk_ventry name (brk s) q [] 0 None 0]> (entries s)) /\
    nodes s1 = <[brk s := published_node pv fops data]> (nodes s) /\ rest_same s s1.
Proof.
  intros [Hb Hf] Hq Hpv Hl Hs. destruct (Hf (brk s) ltac:(lia)) as [_ Hn0]. destruct (Hf (brk s + 16) ltac:(lia)) as [He0 _].
  assert (brk s <> e_node pe) by congruence. assert (brk s + 16 <> q) by congruence.
  unfold vnode_new, ventry_new, fs_alloc, get_entry, get_node. cbn [entries put_node set_nodes set_brk nodes brk].
  rewrite Hq. cbn [deref outcome_bind]. rewrite lookup_insert_ne, Hpv by done. cbn [deref outcome_bind].
  rewrite lookup_insert_eq. cbn [deref outcome_bind]. rewrite entry_name_plain by done. cbn [outcome_bind].
  cbn [entries put_entry set_entries put_node set_nodes set_brk nodes brk]. rewrite lookup_insert_eq. cbn [deref outcome_bind].
  cbn [entries put_entry set_entries put_node set_nodes set_brk nodes brk]. rewrite lookup_insert_eq. cbn [deref outcome_bind].
  unfold add_child, get_entry. cbn [entries put_entry set_entries put_node set_nodes set_brk nodes brk].
  rewrite !lookup_insert_ne, Hq by done. cbn [deref outcome_bind]. eexists. split; [reflexivity|].
  cbn [entries nodes put_entry set_entries put_node set_nodes set_brk]. split; [by rewrite insert_insert_eq|].
  split; [by rewrite !insert_insert_eq|done].
Qed.

(** A file that the kernel publishes in the process file system is found.
    Where the directory part of a path below its root leads to a directory
    with no entry of that name, [procfs_create] adds exactly one entry to the
    tree, a read-only regular file with the given operations and data, and a
    lookup of the path then returns it; the tree stays well formed. *)
Theorem procfs_create_publishes (s : vfs D) C sb dir name p q fops data : tree_ok iops_at sops_at s C -> refs_below s (2 ^ 32 - 2) ->
  heap_fresh s -> start_ok s (sb_data sb) (dir ++ name) -> file_path dir name -> free_in s (sb_data sb) dir name p q ->
  exists s0 s1 s2 C' pe n new inode,
    procfs_create (Some sb) s (dir ++ name) fops data = Ok s1 /\ tree_ok iops_at sops_at s1 C' /\
    same_tree s s0 /\ grown iops_at s0 s1 q pe new inode n name /\
    n_mode n = S_IFREG + 0x124 /\ n_fops n = fops /\ n_data n = data /\ n_nlink n = 1 /\
    vfs_lookup_at iops_at sops_at s1 (sb_data sb) (dir ++ name) 0 = Ok (RVal 0, new, s2).
Proof.
  intros Ht Hb Hfresh Hstart Hfile Hfree. pose proof Hfile as (Hcok & Hzn & _ & Hd).
  destruct (lookup_at_free iops_at sops_at s C (sb_data sb) dir name p q) as (s' & s0 & C0 & E1 & E2 & Hs0 & Ht0); [done..|].
  pose proof (free_in_same s s0 _ _ _ _ _ Hs0 Hfree) as Hfree0. pose proof Hfree0 as (_ & _ & _ & _ & _ & Hdq & Hch).
  destruct (is_dir_node s0 q Hdq) as (pe & pv & Hpe & Hpv). pose proof (heap_fresh_same _ _ Hs0 Hfresh) as Hfresh0.
  assert (name_ok name) as Hnok by (destruct Hstart as (_ & _ & [Hl _]); rewrite length_app in Hl; split; [lia|done]).
  destruct (publish_run s0 q pe pv name fops data) as (s1 & Hrun & He1 & Hn1 & Hr1); [done..|apply Hnok|apply Hcok|].
  assert (grown iops_at s0 s1 q pe (brk s0 + 16) (brk s0) (published_node pv fops data) name) as G.
  { destruct Hfresh0 as [Hb0 Hf0]. destruct Hr1 as (_ & Hm1 & Hroot1 & _). split; try done; try lia; try (apply Hf0; lia).
    destruct Ht0 as (Hsh & _). destruct (ts_entry _ _ s0 Hsh q pe Hpe) as (_ & _ & _ & v & ops & Hv & H1 & H2).
    exists ops. rewrite Hpv in Hv. by injection Hv as <-. }
  assert (tree_ok iops_at sops_at s1 C0) as Ht1 by (eapply grown_tree_ok; [done|done|apply Hr1]).
  destruct (grown_lookup_at iops_at sops_at s0 s1 s1 C0 C0 (sb_data sb) dir name p q pe (brk s0) (brk s0 + 16)
    (published_node pv fops data)) as (s2 & Hlk); try done.
  { by eapply refs_below_same. }
  { by eapply start_ok_same. }
  exists s0, s1, s2, C0, pe, (published_node pv fops data), (brk s0 + 16), (brk s0). split; [|done].
  unfold procfs_create, procfs_free. rewrite E1. cbn [outcome_bind failed Z.ltb Z.compare].
  rewrite basename_of_file by (done || apply Hcok). cbn [outcome_bind]. rewrite E2. cbn [outcome_bind failed negb]. exact Hrun.
Qed.

End procfs.

(** Publishing [a/c] in the tree of Tree.v. *)
Lemma procfs_create_publishes_witness :
  exists s0 s1 s2 C' pe n new inode,
    procfs_create example_iops example_sops (Some (mk_superblock example_fs 0 16)) (example_tree tt) [97; 47; 99] 0x73 0x500 = Ok s1 /\
    tree_ok example_iops example_sops s1 C' /\
    same_tree (example_tree tt) s0 /\ grown example_iops s0 s1 32 pe new inode n [99] /\
    n_mode n = S_IFREG + 0x124 /\ n_fops n = 0x73 /\ n_data n = 0x500 /\ n_nlink n = 1 /\
    vfs_lookup_at example_iops example_sops s1 16 [97; 47; 99] 0 = Ok (RVal 0, new, s2).
Proof.
  apply (procfs_create_publishes example_iops example_sops (example_tree tt) ∅ (mk_superblock example_fs 0 16) [97; 47] [99] 32 32).
  - apply example_ok.
  - apply example_refs. lia.
  - split; [reflexivity|]. intros a Ha. simpl in Ha.
    split; apply not_elem_of_dom; unfold example_tree, example_state; simpl; set_unfold; lia.
  - split; [eexists; reflexivity|]. split; [reflexivity|]. split; [simpl; lia|set_solver].
  - split; [repeat split; [done|set_solver|done|done]|]. split; [set_solver|]. split; [set_solver|right; reflexivity].
  - by repeat split.
Defined.

(** ** A process that comes and goes *)

Definition proc_iops_at (a : Z) : option (inode_ops unit) := if a =? procfs_iops then Some procfs_inode_ops else None.
Definition proc_sops_at (a : Z) : option (super_ops unit) := None.

(** Task 7 with an address space of one anonymous range. *)
Definition sample_task : task := set_t_vm_space 0x900 (set_t_tgid 7 (set_t_name (codes "init") (Sched.task_at 7 TASK_RUNNING))).
Definition sample_space : vm_space := mk_space [mk_object 0x400000 0x2000 5 0 0 0] 0 0 0 2 0 1 0.

Definition task_of (_ : unit) (a : Z) : option task := if a =? 0x800 then Some sample_task else None.
Definition space_of (_ : unit) (a : Z) : option vm_space := if a =? 0x900 then Some sample_space else None.

Definition proc_fops_at (a : Z) : option (file_ops unit) :=
  if a =? proc_status_fops then Some (mk_file_ops unit None None (Some (read_proc_status task_of space_of)) None None)
  else if a =? proc_maps_fops then Some (mk_file_ops unit None None (Some (read_proc_maps task_of space_of id)) None None)
  else None.

(** A file layer with nothing but the process file system. *)
Definition bare : vfs unit := mk_vfs ∅ ∅ (replicate 1024 0) 1 [] Tree.no_files [] devices_init devices_init None 16 tt.

(** The process file system with task 7 registered, its [name] file opened. *)
Definition opened (name : list Z) : outcome (superblock * vfs unit) :=
  let* (g, s) := procfs_init bare in
  let* s := procfs_register_process proc_iops_at proc_sops_at g s 0x800 sample_task in
  let* sb := deref g in
  let* (_, dentry, s) := vfs_lookup_at proc_iops_at proc_sops_at s (sb_data sb) (codes "7/" ++ name) 0 in
  let* (_, s) := open_entry proc_fops_at s dentry 0 in
  Ok (sb, s).

Definition read_opened (name : list Z) : outcome (list Z) :=
  let* (_, s) := opened name in
  let* (_, out, _) := vfs_read proc_fops_at s 0 512 in
  Ok out.

(** The text of the two files. *)
Lemma proc_files_text :
  read_opened (codes "maps") = Ok (codes "000000400000 - 000000402000 r-x 00000000 [anon]" ++ [10; 0]) /\
  (let* out := read_opened (codes "status") in Ok (take 31 out)) = Ok (codes "Name: init" ++ [10] ++ codes "State: R (running)" ++ [10; 80]).
Proof. split; vm_compute; reflexivity. Qed.

(** The outcomes of the end of the process and of a read of its file after it. *)
Definition read_after_exit : outcome bool * outcome (list Z) :=
  let after := let* (sb, s) := opened (codes "status") in procfs_unregister_process proc_iops_at proc_sops_at (Some sb) s sample_task in
  (let* _ := after in Ok true, let* s := after in let* (_, out, _) := vfs_read proc_fops_at s 0 512 in Ok out).

(** The node of a file that is open is freed with the process, and the next
    read uses it. *)
Lemma read_after_exit_faults : read_after_exit = (Ok true, Fault).
Proof. vm_compute. reflexivity. Qed.
