(* ===== verification/Chardev.v ===== *)
(** * Character devices in the file system

    kernel/dev/pseudo.c, the registration of the devices of console.c, tty.c,
    ps2.c and efifb.c, and their order in [kernel_main] of kernel/init.c.  A
    driver makes a device with its operations and then a node under /dev, which
    takes its operations from the device. *)

From stdpp Require Import base numbers list gmap sets.
From Stdlib Require Import ZArith Lia.
From S2P Require Import Prelude Device Dcache Lookup Tree Vfs Create Printf.

Definition S_IRUSR : Z := 0x100.
Definition S_IWUSR : Z := 0x80.
Definition S_IRGRP : Z := 0x20.
Definition S_IWGRP : Z := 0x10.

(** ** pseudo.c *)

(** What a read returns and the bytes it stores; what a write returns. *)
Definition null_read (length : Z) : ret * list Z := (RVal 0, []).
Definition null_write (buffer : list Z) : ret := RVal 0.
Definition zero_read (length : Z) : ret * list Z := (RVal length, replicate (Z.to_nat length) 0).
Definition full_write (buffer : list Z) : ret := RErr ENOSPC.

(** The addresses of the tables of operations. *)
Definition null_fops : Z := 0x301.
Definition full_fops : Z := 0x302.
Definition zero_fops : Z := 0x303.
Definition tty_fops : Z := 0x304.
Definition console_fops : Z := 0x305.
Definition kbd_fops : Z := 0x306.
Definition efifb_fops : Z := 0x307.

Section devices.
Context {D : Type}.
Context (iops_at : Z -> option (inode_ops D)) (sops_at : Z -> option (super_ops D)).
Implicit Types s : vfs D.

Definition set_char_devices (v : devices) (s : vfs D) : vfs D :=
  mk_vfs (nodes s) (entries s) (hash_table s) (root_node s) (mounts s) (open_files s) (filesystems s) v (block_devices s) (cur_task s) (brk s) (priv s).

(** [chardev_new] and the stores to the new device's [data] and [fops]. *)
Definition new_device (s : vfs D) (id data fops : Z) : vfs D :=
  let '(addr, s) := fs_alloc s in
  let t := chardev_new (char_devices s) id addr in
  set_char_devices (mk_devices (dev_table t) (<[addr := mk_device id data fops 0]> (dev_at t))) s.

(** A driver's device and its node; the result of [vfs_mknod] is ignored. *)
Definition install_device (s : vfs D) (id data fops : Z) (path : list Z) (mode : Z) : outcome (vfs D) :=
  let* (_, s) := vfs_mknod iops_at sops_at (new_device s id data fops) path mode id in Ok s.

(** "/dev/" *)
Definition dev_dir : list Z := [47; 100; 101; 118; 47].

Definition pseudo_init (s : vfs D) : outcome (vfs D) :=
  let* s := install_device s (make_dev 1 0) 0 null_fops (dev_dir ++ [110; 117; 108; 108]) (Z.lor S_IFCHR 0x1b6) in
  let* s := install_device s (make_dev 1 1) 0 full_fops (dev_dir ++ [102; 117; 108; 108]) (Z.lor S_IFCHR 0x1b6) in
  install_device s (make_dev 1 2) 0 zero_fops (dev_dir ++ [122; 101; 114; 111]) (Z.lor S_IFCHR 0x1b6).

(** The node of [tty_create], by the format [/dev/tty%u]; [device] is the
    terminal's address. *)
Definition tty_create_node (s : vfs D) (index device : Z) : outcome (vfs D) :=
  let* devname := sprintf (dev_dir ++ [116; 116; 121; 37; 117]) [Num index] in
  install_device s (make_dev 3 index) device tty_fops (removelast devname) (Z.lor (Z.lor S_IFCHR S_IRUSR) S_IWUSR).

(** There is one virtual console. *)
Definition console_init (s : vfs D) (vt_tty : Z) : outcome (vfs D) :=
  let* s := tty_create_node s 1 vt_tty in
  install_device s (make_dev 2 0) 0 console_fops (dev_dir ++ [99; 111; 110; 115; 111; 108; 101]) (Z.lor (Z.lor S_IFCHR S_IRUSR) S_IWUSR).

(** The node that [ps2_init] makes. *)
Definition ps2_node (s : vfs D) : outcome (vfs D) :=
  install_device s (make_dev 10 0) 0 kbd_fops (dev_dir ++ [107; 101; 121; 98; 111; 97; 114; 100]) (Z.lor (Z.lor S_IFCHR S_IRUSR) S_IWUSR).

(** The node that [efifb_init] makes for the frame buffer at address [fb]. *)
Definition efifb_node (s : vfs D) (fb : Z) : outcome (vfs D) :=
  install_device s (make_dev 6 0) fb efifb_fops (dev_dir ++ [102; 98; 48])
    (Z.lor (Z.lor (Z.lor (Z.lor S_IFCHR S_IRUSR) S_IWUSR) S_IRGRP) S_IWGRP).

(** The part of [kernel_main] that fills /dev, on a file system with its root. *)
Definition kernel_main_devices (s : vfs D) (fb vt_tty : Z) : outcome (vfs D) :=
  let* (_, s) := vfs_mkdir iops_at sops_at s [47; 100; 101; 118] 0x1ed in
  let* s := efifb_node s fb in
  let* s := ps2_node s in
  let* s := console_init s vt_tty in
  let* (_, s) := vfs_mkdir iops_at sops_at s [47; 112; 114; 111; 99] 0x1ed in
  pseudo_init s.

(** The device that a number leads to has the driver's operations. *)
Lemma new_device_lookup s id data fops : devices_ok (char_devices s) -> dev_at (char_devices s) !! brk s = None ->
  chardev_lookup (char_devices (new_device s id data fops)) id = Ok (brk s) /\
  dev_at (char_devices (new_device s id data fops)) !! brk s = Some (mk_device id data fops 0).
Proof.
  intros Hok Hf. split; [|by cbn; rewrite lookup_insert_eq].
  pose proof (device_lookup_new (char_devices s) id (brk s) id Hok Hf) as E. rewrite Z.eqb_refl in E. rewrite <- E.
  unfold chardev_lookup, chardev_new, device_new. cbn. rewrite list_lookup_insert_eq.
  - cbn. rewrite !lookup_insert_eq. cbn. by rewrite Z.eqb_refl.
  - destruct Hok as [-> _]. unfold dev_hash. pose proof (Z.mod_pos_bound (dev_major id) 256 ltac:(lia)). lia.
Qed.

(** The device tables are no part of the tree. *)
Lemma new_device_tree s C id data fops : tree_ok iops_at sops_at s C -> tree_ok iops_at sops_at (new_device s id data fops) C.
Proof. intros (Hsh & Hrep & Hcp). split; [by destruct Hsh; split|]. split; [|done]. by destruct Hrep; split. Qed.

Lemma new_device_resolve s id data fops path : forall a parent,
  resolve (new_device s id data fops) a path parent = resolve s a path parent.
Proof. induction path as [|c path IH]; intros a parent; [done|]. simpl. rewrite IH. reflexivity. Qed.

Lemma new_device_free s start dir name p q id data fops :
  free_in s start dir name p q -> free_in (new_device s id data fops) start dir name p q.
Proof. intros (Hr & H). split; [by rewrite new_device_resolve|exact H]. Qed.

(** The node of a device made with [mode] in the directory of node [pv]. *)
Definition device_node (s : vfs D) (pv : vnode) (mode dev fops : Z) : vnode :=
  set_n_nlink 1 (set_owner s (set_n_dev dev (set_n_fops fops (set_n_iops (n_iops pv) (mk_vnode mode 0 0 0 0 0 0 0 0 0))))).

Lemma generic_fs_mknod_run s q pe pv name mode dev a d : heap_fresh s -> entries s !! q = Some pe ->
  nodes s !! e_node pe = Some pv -> (length name < 64)%nat -> (47 ∉ name) -> S_ISCHR mode = true ->
  chardev_lookup (char_devices s) dev = Ok a -> dev_at (char_devices s) !! a = Some d ->
  exists s1, generic_fs_mknod s q name mode dev = (let* s := dcache_insert s1 (brk s + 16) in Ok (RVal 0, s)) /\
    entries s1 = <[q := set_e_children (e_children pe ++ [brk s + 16]) pe]>
      (<[brk s + 16 := mk_ventry name (brk s) q [] 0 None 0]> (entries s)) /\
    nodes s1 = <[brk s := device_node s pv mode dev (d_fops d)]> (nodes s) /\ rest_same s s1.
Proof.
  intros [Hb Hf] Hq Hpv Hl Hs Hchr Ha Hd. assert (brk s <> e_node pe) by (destruct (Hf (brk s) ltac:(lia)); congruence).
  unfold generic_fs_mknod, vnode_new, fs_alloc, get_entry, get_node. cbn [entries put_node set_nodes set_brk nodes brk char_devices].
  rewrite Hq. cbn [deref outcome_bind]. rewrite lookup_insert_ne, Hpv by done. cbn [deref outcome_bind].
  rewrite lookup_insert_eq. cbn [deref outcome_bind]. rewrite Hchr, Ha. cbn [outcome_bind]. rewrite Hd. cbn [deref outcome_bind].
  match goal with |- context [link_new ?u q name (brk s) false] => set (s0 := u) end.
  destruct (link_new_run s0 q pe pv (brk s) (set_owner s (set_n_dev dev (set_n_fops (d_fops d) (set_n_iops (n_iops pv) (mk_vnode mode 0 0 0 0 0 0 0 0 0))))) name)
    as (s1 & Hrun & He1 & Hn1 & Hr1); try done.
  - apply Hf. cbn. lia.
  - cbn. by rewrite !lookup_insert_ne.
  - cbn. by rewrite lookup_insert_eq.
  - exists s1. rewrite Hrun, He1, Hn1. split; [done|]. split; [done|]. split; [|done].
    cbn [nodes s0 put_node set_nodes set_brk]. rewrite !insert_insert_eq. f_equal. unfold device_node. by rewrite set_owner_nlink.
Qed.

Lemma mknod_makes s id data fops mode : devices_ok (char_devices s) -> dev_at (char_devices s) !! brk s = None -> S_ISCHR mode = true ->
  makes (fun s q name => generic_fs_mknod s q name mode id) (fun s pv => device_node s pv mode id fops) (new_device s id data fops).
Proof.
  intros Hdev Hd0 Hchr s0 q pe pv name Hs0 Hfresh Hq Hpv Hl Hn. destruct (new_device_lookup s id data fops Hdev Hd0) as [Hlk Hat].
  assert (char_devices s0 = char_devices (new_device s id data fops)) as Ecd by (symmetry; apply (f_equal char_devices Hs0)).
  rewrite <- Ecd in Hlk, Hat. split; [exact (set_owner_iops s0 _)|].
  by apply (generic_fs_mknod_run s0 q pe pv name mode id (brk s) (mk_device id data fops 0)).
Qed.

(** A driver's device is found under its path.  Where the directory part of
    a path leads to a directory with no entry of that name, a driver that makes
    a character device and its node, as the drivers of the frame buffer, the
    keyboard, the console, the terminals and the pseudo devices do, leaves a
    sound tree in which a lookup of the path returns an entry whose node has
    the device's number, the requested mode and the driver's own operations. *)
Theorem install_device_found s C path start dir name p q id data fops mode : tree_ok iops_at sops_at s C ->
  refs_below s (2 ^ 32 - 2) -> heap_fresh s -> devices_ok (char_devices s) -> dev_at (char_devices s) !! brk s = None ->
  path_ok s path start (dir ++ name) -> file_path dir name -> free_in s start dir name p q -> S_ISCHR mode = true ->
  (forall a ops, iops_at a = Some ops -> io_mknod ops = Some generic_fs_mknod) ->
  exists s' s3 C' new e n, install_device s id data fops path mode = Ok s' /\ tree_ok iops_at sops_at s' C' /\
    vfs_lookup iops_at sops_at s' path 0 = Ok (RVal 0, new, s3) /\
    entries s' !! new = Some e /\ nodes s' !! e_node e = Some n /\
    n_dev n = id /\ n_fops n = fops /\ n_mode n = mode /\ n_nlink n = 1.
Proof.
  intros Ht Hb [H0 Hf] Hdev Hd0 Hpath Hfile Hfree Hchr Hmknod. unfold install_device, vfs_mknod.
  assert (heap_fresh (new_device s id data fops)) as Hfresh.
  { split; [cbn; lia|]. intros b Hb'. apply Hf. cbn in Hb'. lia. }
  destruct (make_then_lookup iops_at sops_at (new_device s id data fops) C path start dir name p q _ _
    (new_device_tree _ _ _ _ _ Ht) Hb Hfresh Hpath Hfile (new_device_free _ _ _ _ _ _ _ _ _ Hfree) (mknod_makes s id data fops mode Hdev Hd0 Hchr))
    as (s0 & s1 & s2 & s3 & C' & pe & pv & ops & -> & Hs0 & Hio & (a & Ha) & Hrun & Ht2 & G & Hs12 & Hlk).
  cbn [outcome_bind]. rewrite Hio. cbn [outcome_bind]. rewrite (Hmknod _ _ Ha), Hrun. cbn [outcome_bind].
  destruct (same_tree_entry s1 s2 (brk s0 + 16) _ Hs12 (grown_new _ _ _ _ _ _ _ _ _ G)) as (e & He & _ & Hn).
  exists s2, s3, C', (brk s0 + 16), e, (device_node s0 pv mode id fops). split; [done|]. split; [done|]. split; [done|]. split; [done|].
  split; [|unfold device_node, set_owner; by destruct (cur_task s0)].
  rewrite Hn. simpl. rewrite <- (f_equal nodes Hs12 : nodes s1 = nodes s2), (g_nodes _ _ _ _ _ _ _ _ _ G). apply lookup_insert_eq.
Qed.

End devices.

(** Making /a/null. *)
Lemma install_device_found_witness :
  exists s' s3 C' new e n,
    install_device example_iops example_sops (example_tree tt) (make_dev 1 0) 0 null_fops [47; 97; 47; 110] (Z.lor S_IFCHR 0x1b6) = Ok s' /\
    tree_ok example_iops example_sops s' C' /\ vfs_lookup example_iops example_sops s' [47; 97; 47; 110] 0 = Ok (RVal 0, new, s3) /\
    entries s' !! new = Some e /\ nodes s' !! e_node e = Some n /\
    n_dev n = make_dev 1 0 /\ n_fops n = null_fops /\ n_mode n = Z.lor S_IFCHR 0x1b6 /\ n_nlink n = 1.
Proof.
  apply (install_device_found example_iops example_sops (example_tree tt) ∅ [47; 97; 47; 110] 16 [97; 47] [110] 32 32).
  - apply example_ok.
  - apply example_refs. lia.
  - split; [reflexivity|]. intros a Ha. simpl in Ha.
    split; apply not_elem_of_dom; unfold example_tree, example_state; simpl; set_unfold; lia.
  - apply devices_init_ok.
  - reflexivity.
  - split; [reflexivity|]. split; [eexists; reflexivity|]. split; [reflexivity|]. split; [simpl; lia|set_solver].
  - split; [repeat split; [done|set_solver|done|done]|]. split; [set_solver|]. split; [set_solver|right; reflexivity].
  - by repeat split.
  - reflexivity.
  - intros a ops Ha. unfold example_iops in Ha. destruct (a =? 1); [|done]. by injection Ha as <-.
Defined.

(** A path leads to a node with a number and a table of operations. *)
Definition leads_to {D} iops sops (s : vfs D) (path : list Z) (id fops : Z) : bool :=
  match vfs_lookup iops sops s path 0 with
  | Ok (RVal _, a, s) =>
      match entries s !! a ≫= fun e => nodes s !! e_node e with
      | Some n => S_ISCHR (n_mode n) && (n_dev n =? id) && (n_fops n =? fops)
      | None => false
      end
  | _ => false
  end.

(** After the start every device is found: the frame buffer, the keyboard, the
    first terminal, the console and the three pseudo devices. *)
Example boot_devices :
  match kernel_main_devices example_iops example_sops (example_tree tt) 0x9000 0xa000 with
  | Ok s => forallb (fun '(name, id, fops) => leads_to example_iops example_sops s (dev_dir ++ name) id fops)
      [([102; 98; 48], make_dev 6 0, efifb_fops); ([107; 101; 121; 98; 111; 97; 114; 100], make_dev 10 0, kbd_fops);
       ([116; 116; 121; 49], make_dev 3 1, tty_fops); ([99; 111; 110; 115; 111; 108; 101], make_dev 2 0, console_fops);
       ([110; 117; 108; 108], make_dev 1 0, null_fops); ([102; 117; 108; 108], make_dev 1 1, full_fops);
       ([122; 101; 114; 111], make_dev 1 2, zero_fops)]
  | _ => false
  end = true.
Proof. vm_compute. reflexivity. Qed.
