(* ===== verification/Cwd.v ===== *)
(** * The working directory

    [sys_chdir] and [sys_getcwd] of kernel/sched/task_sys.c: a lookup of a
    relative path starts where the last change of directory led. *)

From stdpp Require Import base numbers list gmap sets.
From Stdlib Require Import ZArith Lia.
From S2P Require Import Prelude Sched Vmm Device Dcache Lookup Tree Vfs Create.

Section cwd.
Context {D : Type}.
Context (iops_at : Z -> option (inode_ops D)) (sops_at : Z -> option (super_ops D)).

(** The string at an address of the calling process. *)
Context (user_string : Z -> list Z).

Definition sys_chdir (s : vfs D) (path : Z) : outcome (ret * vfs D) :=
  if negb (vm_validate_ptr path) then Ok (RErr EFAULT, s)
  else
    let* (status, query, s) := vfs_lookup iops_at sops_at s (user_string path) 0 in
    if failed status then Ok (status, s)
    else
      let* e := get_entry s query in
      let* n := get_node s (e_node e) in
      if negb (S_ISDIR (n_mode n)) then Ok (RErr ENOTDIR, s)
      else
        let* t := deref (cur_task s) in
        let* s := ventry_ref s query in
        let* s := ventry_put s (t_cwd t) in
        Ok (RVal 0, set_cur_task (Some (set_t_cwd query t)) s).

(** The bytes that [strncpy] stores: the name, cut or followed by NULs. *)
Definition sys_getcwd (s : vfs D) (buffer length : Z) : outcome (ret * list Z) :=
  if negb (vm_validate_ptr buffer) then Ok (RErr EFAULT, [])
  else
    let* t := deref (cur_task s) in
    let* e := get_entry s (t_cwd t) in
    Ok (RVal 0, take (Z.to_nat length) (e_name e) ++ replicate (Z.to_nat length - List.length (e_name e)) 0).

(** The running task is no part of the tree. *)
Lemma set_task_tree (s : vfs D) C t : tree_ok iops_at sops_at s C -> tree_ok iops_at sops_at (set_cur_task t s) C.
Proof. intros (Hsh & Hrep & Hcp). split; [by destruct Hsh; split|]. split; [|done]. by destruct Hrep; split. Qed.

Lemma set_task_resolve (s : vfs D) t path : forall a parent, resolve (set_cur_task t s) a path parent = resolve s a path parent.
Proof. induction path as [|c path IH]; intros a parent; [done|]. simpl. rewrite IH. reflexivity. Qed.

(** What the working directory counts: the new one gains a reference and the
    old one loses one. *)
Lemma move_reference (s : vfs D) C d old ed eo : tree_ok iops_at sops_at s C -> entries s !! d = Some ed -> entries s !! old = Some eo ->
  0 <= e_ref ed < 2 ^ 32 - 2 -> 1 <= e_ref eo < 2 ^ 32 - 2 ->
  exists s', (let* s := ventry_ref s d in ventry_put s old) = Ok s' /\ shape s = shape s' /\ tree_ok iops_at sops_at s' C /\
    forall a e, entries s' !! a = Some e -> exists e0, entries s !! a = Some e0 /\
      e_ref e = e_ref e0 + (if a =? d then 1 else 0) - (if a =? old then 1 else 0).
Proof.
  intros Ht Hd Ho Hrd Hro. pose proof Ht as (Hsh & _). destruct (ts_entry _ _ s Hsh old eo Ho) as (_ & _ & Hn0 & _).
  rewrite (ventry_ref_spec s d ed) by (done || lia). cbn [outcome_bind].
  assert (exists eo', entries (with_ref d (e_ref ed + 1) s) !! old = Some eo' /\ e_node eo' = e_node eo /\
    e_ref eo' = e_ref eo + (if old =? d then 1 else 0)) as (eo' & Ho' & En & Er).
  { destruct (Z.eqb_spec old d) as [->|Hne].
    - rewrite (with_ref_lookup d _ s ed Hd). rewrite Hd in Ho. injection Ho as <-. by eexists.
    - exists eo. cbn. rewrite lookup_alter_ne by congruence. split_and!; try done. lia. }
  rewrite (ventry_put_spec _ old eo') by (done || congruence || (rewrite Er; destruct (old =? d); lia)).
  eexists. split; [reflexivity|]. split_and!.
  - by rewrite !with_ref_shape.
  - by apply tree_ok_with_ref, tree_ok_with_ref.
  - intros a e He. unfold with_ref in He. cbn [entries set_entries] in He.
    rewrite lookup_alter_Some in He. destruct He as [(<- & e1 & He1 & ->)|[Hne He]].
    + rewrite Z.eqb_refl. unfold with_ref in Ho'. cbn [entries set_entries] in Ho'. rewrite Ho' in He1. injection He1 as <-.
      exists eo. split; [done|]. cbn. lia.
    + destruct (Z.eqb_spec a old); [congruence|]. rewrite lookup_alter_Some in He. destruct He as [(<- & e1 & He1 & ->)|[Hnd He]].
      * rewrite Z.eqb_refl. rewrite Hd in He1. injection He1 as <-. exists ed. split; [done|]. cbn. lia.
      * destruct (Z.eqb_spec a d); [congruence|]. exists e. split; [done|]. lia.
Qed.

(** A relative path is looked up from the working directory. *)
Lemma relative_lookup (s s' : vfs D) C t d rel flags : shape s = shape s' -> tree_ok iops_at sops_at s' C ->
  refs_below s' (2 ^ 32 - 2) -> is_Some (entries s !! d) -> crossed s d = d -> head rel <> Some 47 -> name_ok rel ->
  exists s'' r a, vfs_lookup iops_at sops_at (set_cur_task (Some (set_t_cwd d t)) s') rel flags = Ok (r, a, s'') /\
    (r, a) = lookup_result s (resolve s d (components rel) (has flags LOOKUP_PARENT)).
Proof.
  intros Hs Ht Hb Hlive Hcr Hrel Hname.
  destruct (vfs_lookup_spec iops_at sops_at (set_cur_task (Some (set_t_cwd d t)) s') C rel d rel flags)
    as (s'' & C' & r & a & Hrun & Hra & _); [by apply set_task_tree|exact Hb| |].
  - split; [|split; [by apply (shape_live s s')|]].
    + unfold lookup_start. repeat case_match; simplify_eq/=; try done.
    + split; [|done]. change (crossed s' d = d). by rewrite <- (crossed_shape s'), <- Hs, crossed_shape.
  - exists s'', r, a. split; [done|]. rewrite Hra, set_task_resolve, <- (resolve_same s s') by done.
    symmetry. exact (lookup_result_same s s' _ Hs).
Qed.

(** A change of directory is where relative paths start.  When the path leads
    to a directory that nothing is mounted on, [sys_chdir] succeeds, leaves the
    shape of the tree as it is, moves one reference from the old working
    directory to the new one, and from then on a relative path resolves from
    there. *)
Theorem chdir_then_relative (s : vfs D) C path start rest t eo d :
  tree_ok iops_at sops_at s C -> refs_below s (2 ^ 32 - 3) -> vm_validate_ptr path = true ->
  path_ok s (user_string path) start rest -> lookup_result s (resolve s start (components rest) false) = (RVal 0, d) ->
  is_dir s d = true -> crossed s d = d -> cur_task s = Some t -> entries s !! t_cwd t = Some eo -> 1 <= e_ref eo ->
  exists s' C', sys_chdir s path = Ok (RVal 0, s') /\ tree_ok iops_at sops_at s' C' /\
    shape s' = set_cur_task (Some (set_t_cwd d t)) (shape s) /\
    (forall a e, entries s' !! a = Some e -> exists e0, entries s !! a = Some e0 /\
      e_ref e = e_ref e0 + (if a =? d then 1 else 0) - (if a =? t_cwd t then 1 else 0)) /\
    forall rel flags, head rel <> Some 47 -> name_ok rel ->
      exists s'' r a, vfs_lookup iops_at sops_at s' rel flags = Ok (r, a, s'') /\
        (r, a) = lookup_result s (resolve s d (components rel) (has flags LOOKUP_PARENT)).
Proof.
  intros Ht Hb Hptr Hpath Hres Hdir Hcr Hcur Ho Hro. unfold sys_chdir. rewrite Hptr. cbn [negb].
  assert (refs_below s (2 ^ 32 - 2)) as Hb2 by (intros a e He; specialize (Hb a e He); lia).
  destruct (vfs_lookup_spec iops_at sops_at s C _ start rest 0 Ht Hb2 Hpath) as (s1 & C1 & r & a & -> & Hra & Hs1 & Ht1).
  change (has 0 LOOKUP_PARENT) with false in Hra. rewrite Hres in Hra. injection Hra as -> ->. cbn [outcome_bind failed].
  pose proof (same_tree_shape s s1 Hs1) as Hsh1. destruct (shape_fields s s1 Hsh1) as (Hn1 & _ & _ & Hd1 & _).
  destruct (is_dir_node s1 d) as (ed & nd & Hed & Hnd); [by rewrite <- Hd1|].
  assert (S_ISDIR (n_mode nd) = true) as Hmode by (rewrite Hd1 in Hdir; unfold is_dir in Hdir; by rewrite Hed, Hnd in Hdir).
  unfold get_entry at 1. rewrite Hed. cbn [deref outcome_bind]. unfold get_node. rewrite Hnd. cbn [deref outcome_bind].
  rewrite Hmode. cbn [negb]. assert (cur_task s1 = Some t) as Hcur1 by (rewrite <- Hcur; symmetry; exact (f_equal cur_task Hs1)). rewrite Hcur1. cbn [deref outcome_bind].
  destruct (same_tree_entry s s1 _ eo Hs1 Ho) as (eo1 & Ho1 & Er1 & _).
  pose proof (refs_below_same s s1 _ Hs1 Hb) as Hb1.
  destruct (move_reference s1 C1 d (t_cwd t) ed eo1) as (s2 & Hrun & Hsh2 & Ht2 & Hrefs);
    [done..|specialize (Hb1 _ _ Hed); lia|specialize (Hb1 _ _ Ho1); lia|].
  destruct (ventry_ref s1 d) as [s1'| | |]; cbn [outcome_bind] in *; try done. rewrite Hrun. cbn [outcome_bind].
  assert (shape s = shape s2) as Hsh by congruence.
  assert (forall a e, entries s2 !! a = Some e -> exists e0, entries s !! a = Some e0 /\
      e_ref e = e_ref e0 + (if a =? d then 1 else 0) - (if a =? t_cwd t then 1 else 0)) as Hmoved.
  { intros a e He. destruct (Hrefs a e He) as (e1 & He1 & ->). destruct (shape_back s s1 a e1 Hsh1 He1) as (e0 & He0 & _).
    exists e0. split; [done|]. destruct (same_tree_entry s s1 a e0 Hs1 He0) as (e1' & He1' & <- & _). congruence. }
  exists (set_cur_task (Some (set_t_cwd d t)) s2), C1. split; [done|]. split; [by apply set_task_tree|].
  split; [by rewrite Hsh|]. split; [exact Hmoved|]. intros rel flags Hrel Hname.
  apply (relative_lookup s s2 C1 t d rel flags Hsh Ht2); [| |done..].
  2: { apply (shape_live s1 s); [done|by eexists]. }
  intros a e He. destruct (Hmoved a e He) as (e0 & He0 & Er). specialize (Hb a e0 He0). rewrite Er.
  destruct (Z.eqb_spec a (t_cwd t)) as [->|]; [rewrite Ho in He0; injection He0 as <-|]; destruct (_ =? d); lia.
Qed.

(** A lookup that succeeds returns an entry of the tree. *)
Lemma lookup_result_live (s : vfs D) C start p a : tree_ok iops_at sops_at s C -> is_Some (entries s !! start) ->
  lookup_result s (resolve s start p false) = (RVal 0, a) -> is_Some (entries s !! a).
Proof.
  intros Ht Hst Hr. pose proof Ht as (Hsh & _). destruct (resolve s start p false) as [|x] eqn:Er; [done|]. cbn [lookup_result] in Hr.
  destruct (Z.eqb_spec x 0); [done|]. injection Hr as <-.
  destruct (resolve_live _ _ s C _ _ start x Ht (or_intror Hst) Er) as [|[e He]]; [done|].
  unfold crossed. rewrite He. cbn. destruct (x =? root_node s); [by eexists|].
  destruct (e_mount e) as [m|] eqn:Em; [|by eexists].
  by destruct (ts_mount _ _ s Hsh m (ts_mounted _ _ s Hsh x e m He Em)).
Qed.

(** A path that leads to no directory changes no working directory. *)
Lemma chdir_refused (s : vfs D) C path start rest r a : tree_ok iops_at sops_at s C -> refs_below s (2 ^ 32 - 2) ->
  vm_validate_ptr path = true -> path_ok s (user_string path) start rest ->
  lookup_result s (resolve s start (components rest) false) = (r, a) -> failed r = true \/ (r = RVal 0 /\ is_dir s a = false) ->
  exists s', sys_chdir s path = Ok (if failed r then r else RErr ENOTDIR, s') /\ same_tree s s'.
Proof.
  intros Ht Hb Hptr Hpath Hres Hbad. unfold sys_chdir. rewrite Hptr. cbn [negb].
  destruct (vfs_lookup_spec iops_at sops_at s C _ start rest 0 Ht Hb Hpath) as (s1 & C1 & r' & a' & -> & Hra & Hs1 & Ht1).
  change (has 0 LOOKUP_PARENT) with false in Hra. rewrite Hres in Hra. injection Hra as -> ->. cbn [outcome_bind].
  destruct (failed r) eqn:Hf; [by exists s1|]. destruct Hbad as [|[-> Hdir]]; [done|].
  exists s1. split; [|done]. pose proof (same_tree_shape s s1 Hs1) as Hsh. destruct (shape_fields s s1 Hsh) as (_ & _ & _ & Hd & _).
  assert (is_Some (entries s !! a)) as Ha by (eapply lookup_result_live; [done|apply Hpath|done]).
  destruct (shape_live s s1 a Hsh Ha) as [e He]. pose proof Ht1 as (Hs & _).
  destruct (ts_entry _ _ s1 Hs a e He) as (_ & _ & _ & n & ops & Hn & _). rewrite Hd in Hdir. unfold is_dir in Hdir.
  rewrite He, Hn in Hdir. unfold get_entry, get_node. rewrite He. cbn [deref outcome_bind]. rewrite Hn. cbn [deref outcome_bind].
  by rewrite Hdir.
Qed.

(** What [sys_getcwd] stores fills the buffer, and is the name of the working
    directory as a C string exactly when the buffer is longer than the name. *)
Lemma getcwd_name (s : vfs D) buffer length t e : vm_validate_ptr buffer = true -> 0 <= length ->
  cur_task s = Some t -> entries s !! t_cwd t = Some e -> name_ok (e_name e) ->
  exists bytes, sys_getcwd s buffer length = Ok (RVal 0, bytes) /\ Z.of_nat (List.length bytes) = length /\
    (0 ∈ bytes <-> Z.of_nat (List.length (e_name e)) < length).
Proof.
  intros Hptr Hl Ht He [_ Hz]. unfold sys_getcwd. rewrite Hptr, Ht. cbn [negb deref outcome_bind].
  unfold get_entry. rewrite He. cbn [deref outcome_bind]. eexists. split; [reflexivity|].
  rewrite length_app, length_take, length_replicate. split; [lia|]. rewrite elem_of_app, elem_of_replicate. split.
  - intros [Hin|[_ Hn]]; [|lia]. apply elem_of_take in Hin as (i & Hi & _). by apply list_elem_of_lookup_2 in Hi.
  - intros Hlt. right. split; [done|lia].
Qed.
End cwd.

(** From [/], [chdir("a")] moves the reference from [/] to [/a], and [b] is
    then the file [/a/b]. *)
Definition at_root : vfs unit := set_cur_task (Some (set_t_cwd 16 (Sched.task_at 7 TASK_RUNNING))) (with_ref 16 1 (example_tree tt)).

Lemma chdir_then_relative_witness :
  exists s' s'', sys_chdir example_iops example_sops (fun _ => [97]) at_root VM_USERSPACE_BASE = Ok (RVal 0, s') /\
    vfs_lookup example_iops example_sops s' [98] 0 = Ok (RVal 0, 48, s'').
Proof.
  destruct (chdir_then_relative example_iops example_sops (fun _ => [97]) at_root ∅ VM_USERSPACE_BASE 16 [97]
    (set_t_cwd 16 (Sched.task_at 7 TASK_RUNNING)) (mk_ventry [47] 100 0 [32] 0 (Some example_mount) 1) 32)
    as (s' & C' & Hrun & _ & _ & _ & Hrel); try reflexivity.
  - apply set_task_tree, tree_ok_with_ref, example_ok.
  - intros a e He. change (alter (set_e_ref 1) 16 (entries (example_tree tt)) !! a = Some e) in He.
    rewrite lookup_alter_Some in He. destruct He as [(_ & e0 & _ & ->)|[_ He]]; [simpl; lia|].
    apply example_entries in He as [[-> ->]|[[-> ->]|[-> ->]]]; simpl; lia.
  - split; [reflexivity|]. split; [eexists; reflexivity|]. split; [reflexivity|]. split; [simpl; lia|set_solver].
  - destruct (Hrel [98] 0) as (s'' & r & a & Hlk & Hra); [done|split; [simpl; lia|set_solver]|].
    exists s', s''. split; [exact Hrun|]. vm_compute in Hra. injection Hra as -> ->. exact Hlk.
Defined.
