(* ===== verification/Wire.v ===== *)
(** * Packets as bytes

    The packed structures of kernel/include/net, the byte order helpers of
    arch/x86_64/cpu.h and the header checksum of kernel/net/ipv4/ipv4.c.  A
    packet is the list of its bytes.  Fields are kept as the processor, which
    is little-endian, reads them from memory: a 16-bit field in network order
    is the swapped number.  Reading a field that is not inside the packet is
    counted as a fault. *)

From stdpp Require Import base numbers list.
From Stdlib Require Import ZArith Lia.
From S2P Require Import Prelude.

(** ** Byte order *)

Definition bswap16 (x : Z) : Z := Z.lor (Z.shiftl (Z.land x 0xff) 8) (Z.land (Z.shiftr x 8) 0xff).
Definition be16_to_native (data : Z) : Z := bswap16 data.
Definition native_to_be16 (data : Z) : Z := bswap16 (u16 data).

(** A field in memory. *)
Definition le16 (v : Z) : list Z := [v mod 256; v / 256 mod 256].
Definition le32 (v : Z) : list Z := [v mod 256; v / 256 mod 256; v / 65536 mod 256; v / 16777216 mod 256].

Definition rd8 (p : list Z) (off : Z) : outcome Z := aget p off.
Definition rd16 (p : list Z) (off : Z) : outcome Z :=
  let* a := aget p off in let* b := aget p (off + 1) in Ok (a + 256 * b).
Definition rd32 (p : list Z) (off : Z) : outcome Z :=
  let* a := rd16 p off in let* b := rd16 p (off + 2) in Ok (a + 65536 * b).

(** [len] bytes from [off], as [memcpy] reads them. *)
Definition rdbytes (p : list Z) (off len : Z) : outcome (list Z) :=
  if (0 <=? off) && (0 <=? len) && (off + len <=? zlen p) then Ok (take (Z.to_nat len) (drop (Z.to_nat off) p)) else Fault.

(** ** Formats *)

Definition ETHER_TYPE_IPV4 : Z := 0x0800.
Definition ETHER_TYPE_ARP : Z := 0x0806.
Definition ether_size : Z := 14.
Definition ether_mac_broadcast : list Z := [0xFF; 0xFF; 0xFF; 0xFF; 0xFF; 0xFF].

Record ether_packet := mk_ether { mac_dst : list Z; mac_src : list Z; ether_type : Z }.
Definition ether_bytes (e : ether_packet) : list Z := mac_dst e ++ mac_src e ++ le16 (ether_type e).
Definition ether_parse (p : list Z) : outcome ether_packet :=
  let* d := rdbytes p 0 6 in let* s := rdbytes p 6 6 in let* t := rd16 p 12 in Ok (mk_ether d s t).

Definition ARP_OPCODE_REQUEST : Z := 1.
Definition ARP_OPCODE_REPLY : Z := 2.
Definition arp_htype_ethernet : Z := 1.
Definition arp_ptype_ipv4 : Z := 0x0800.
Definition arp_size : Z := 28.

Record arp_packet := mk_arp {
  a_htype : Z; a_ptype : Z; a_hlen : Z; a_plen : Z; a_opcode : Z;
  a_src_hw : list Z; a_src_proto : Z; a_dst_hw : list Z; a_dst_proto : Z
}.
Definition arp_bytes (a : arp_packet) : list Z :=
  le16 (a_htype a) ++ le16 (a_ptype a) ++ [a_hlen a; a_plen a] ++ le16 (a_opcode a) ++
  a_src_hw a ++ le32 (a_src_proto a) ++ a_dst_hw a ++ le32 (a_dst_proto a).
Definition arp_parse (p : list Z) : outcome arp_packet :=
  let* ht := rd16 p 0 in let* pt := rd16 p 2 in let* hl := rd8 p 4 in let* pl := rd8 p 5 in let* op := rd16 p 6 in
  let* sh := rdbytes p 8 6 in let* sp := rd32 p 14 in let* dh := rdbytes p 18 6 in let* dp := rd32 p 24 in
  Ok (mk_arp ht pt hl pl op sh sp dh dp).

Definition ipv4_size : Z := 20.

Record ipv4_packet := mk_ipv4 {
  version_ihl : Z; dscp_ecn : Z; ip_length : Z; ip_id : Z; ip_offset : Z; ip_ttl : Z; ip_protocol : Z; ip_check : Z;
  src_addr : Z; dst_addr : Z
}.
Definition ipv4_bytes (h : ipv4_packet) : list Z :=
  [version_ihl h; dscp_ecn h] ++ le16 (ip_length h) ++ le16 (ip_id h) ++ le16 (ip_offset h) ++
  [ip_ttl h; ip_protocol h] ++ le16 (ip_check h) ++ le32 (src_addr h) ++ le32 (dst_addr h).
Definition ipv4_parse (p : list Z) : outcome ipv4_packet :=
  let* vi := rd8 p 0 in let* de := rd8 p 1 in let* len := rd16 p 2 in let* id := rd16 p 4 in let* off := rd16 p 6 in
  let* ttl := rd8 p 8 in let* proto := rd8 p 9 in let* ck := rd16 p 10 in let* src := rd32 p 12 in let* dst := rd32 p 16 in
  Ok (mk_ipv4 vi de len id off ttl proto ck src dst).

Definition udp_size : Z := 8.

Record udp_packet := mk_udp { src_port : Z; dst_port : Z; udp_length : Z; udp_checksum : Z }.
Definition udp_bytes (u : udp_packet) : list Z :=
  le16 (src_port u) ++ le16 (dst_port u) ++ le16 (udp_length u) ++ le16 (udp_checksum u).
Definition udp_parse (p : list Z) : outcome udp_packet :=
  let* s := rd16 p 0 in let* d := rd16 p 2 in let* l := rd16 p 4 in let* c := rd16 p 6 in Ok (mk_udp s d l c).

(** ** The checksum of ipv4.c *)

Fixpoint checksum_loop (n : nat) (ptr : list Z) (sum : Z) : outcome Z :=
  match n with
  | O => Ok sum
  | S n =>
      match ptr with
      | lo :: hi :: ptr =>
          let sum := u32 (sum + be16_to_native (lo + 256 * hi)) in
          let sum := if 0xFFFF <? sum then Z.shiftr sum 16 + Z.land sum 0xFFFF else sum in
          checksum_loop n ptr sum
      | _ => Fault
      end
  end.

Definition ip_checksum (packet : list Z) (size : Z) : outcome Z :=
  let* sum := checksum_loop (Z.to_nat (size / 2)) packet 0 in
  Ok (Z.land (Z.lnot (Z.land sum 0xFFFF)) 0xFFFF).

(** The header that [ipv4_tx_packet] builds for [len] bytes of payload. *)
Definition ipv4_header (pkt_id ip_addr dst protocol len : Z) : outcome ipv4_packet :=
  let h := mk_ipv4 (Z.lor (Z.shiftl 4 4) 5) 0 (native_to_be16 (ipv4_size + len)) (native_to_be16 pkt_id) 0 64 (u8 protocol) 0
    ip_addr dst in
  let* sum := ip_checksum (ipv4_bytes h) 20 in
  Ok (mk_ipv4 (version_ihl h) (dscp_ecn h) (ip_length h) (ip_id h) (ip_offset h) (ip_ttl h) (ip_protocol h)
    (native_to_be16 sum) (src_addr h) (dst_addr h)).

(** ** Bytes and words *)

Definition byte_ok (b : Z) : Prop := 0 <= b < 256.

Lemma lor_disjoint a b k : 0 <= k -> 0 <= b < 2 ^ k -> Z.lor (a * 2 ^ k) b = a * 2 ^ k + b.
Proof.
  intros Hk Hb. rewrite <- Z.add_lor_land. assert (Z.land (a * 2 ^ k) b = 0) as ->; [|lia].
  rewrite <- Z.shiftl_mul_pow2 by done. apply Z.bits_inj'. intros i Hi.
  rewrite Z.land_spec, Z.shiftl_spec, Z.bits_0 by done. destruct (Z.lt_ge_cases i k).
  - by rewrite Z.testbit_neg_r by lia.
  - rewrite (testbit_small k b i) by lia. by rewrite andb_false_r.
Qed.

Lemma bswap16_spec x : bswap16 x = x mod 256 * 256 + x / 256 mod 256.
Proof.
  unfold bswap16. change 0xff with (Z.ones 8). rewrite !Z.land_ones, Z.shiftl_mul_pow2, Z.shiftr_div_pow2 by lia.
  apply lor_disjoint; [lia|]. apply Z.mod_pos_bound. lia.
Qed.

Lemma bswap16_range x : 0 <= bswap16 x < 65536.
Proof. rewrite bswap16_spec. pose proof (Z.mod_pos_bound x 256). pose proof (Z.mod_pos_bound (x / 256) 256). lia. Qed.

Lemma pair_mod lo hi : byte_ok lo -> byte_ok hi -> (lo + 256 * hi) mod 256 = lo /\ (lo + 256 * hi) / 256 = hi.
Proof. unfold byte_ok. intros. split; [symmetry; apply (Z.mod_unique _ _ hi); lia|symmetry; apply (Z.div_unique _ _ _ lo); lia]. Qed.

Lemma bswap16_pair lo hi : byte_ok lo -> byte_ok hi -> bswap16 (lo + 256 * hi) = lo * 256 + hi.
Proof.
  intros H1 H2. destruct (pair_mod lo hi H1 H2) as [E1 E2]. rewrite bswap16_spec, E1, E2.
  unfold byte_ok in *. by rewrite (Z.mod_small hi) by lia.
Qed.

Lemma bswap16_involutive x : 0 <= x < 65536 -> bswap16 (bswap16 x) = x.
Proof.
  intros H. rewrite (bswap16_spec x). pose proof (Z.mod_pos_bound x 256). pose proof (Z.mod_pos_bound (x / 256) 256).
  rewrite (Z.add_comm (_ * 256)), (Z.mul_comm _ 256). rewrite bswap16_pair by (unfold byte_ok; lia).
  assert (0 <= x / 256 < 256) by (split; [apply Z.div_pos; lia|apply Z.div_lt_upper_bound; lia]).
  rewrite (Z.mod_small (x / 256)) by lia. pose proof (Z.div_mod x 256). lia.
Qed.

Lemma le16_ok v : Forall byte_ok (le16 v).
Proof. repeat constructor; unfold byte_ok; first [apply Z.mod_pos_bound; lia|lia]. Qed.

(** ** The ones' complement sum *)

(** The sum of the 16-bit words in network order. *)
Fixpoint word_sum (bytes : list Z) : Z :=
  match bytes with hi :: lo :: bytes => hi * 256 + lo + word_sum bytes | _ => 0 end.

(** The representative of a class modulo 65535 that the folding keeps: zero
    only for zero itself. *)
Definition folded (total sum : Z) : Prop :=
  0 <= sum <= 0xFFFF /\ sum mod 0xFFFF = total mod 0xFFFF /\ (sum = 0 <-> total = 0).

Lemma fold_step total sum w : 0 <= total -> folded total sum -> 0 <= w <= 0xFFFF ->
  folded (total + w) (let s := u32 (sum + w) in if 0xFFFF <? s then Z.shiftr s 16 + Z.land s 0xFFFF else s).
Proof.
  intros Ht (Hs & Hm & Hz) Hw. cbn zeta. rewrite u32_small by lia. destruct (Z.ltb_spec 0xFFFF (sum + w)).
  - change (Z.land ?x 0xFFFF) with (Z.land x (Z.ones 16)). rewrite Z.land_ones, Z.shiftr_div_pow2 by lia. change (2 ^ 16) with 65536.
    assert ((sum + w) / 65536 = 1) as -> by (symmetry; apply (Z.div_unique _ _ _ (sum + w - 65536)); lia).
    assert ((sum + w) mod 65536 = sum + w - 65536) as -> by (symmetry; apply (Z.mod_unique _ _ 1); lia).
    split; [lia|]. split; [|lia].
    replace (1 + (sum + w - 65536)) with (sum + w + (-1) * 65535) by lia. rewrite Z.mod_add by lia.
    by rewrite Z.add_mod, Hm, <- Z.add_mod by lia.
  - split; [lia|]. split; [|lia]. by rewrite Z.add_mod, Hm, <- Z.add_mod by lia.
Qed.

Lemma word_sum_nonneg bytes : Forall byte_ok bytes -> 0 <= word_sum bytes.
Proof.
  revert bytes. fix IH 1. intros [|a [|b bytes]] H; simpl; try lia.
  inversion H as [|? ? Ha H']; subst. inversion H' as [|? ? Hb H'']; subst. specialize (IH bytes H''). unfold byte_ok in *. lia.
Qed.

Lemma checksum_loop_spec n : forall bytes total sum, length bytes = (2 * n)%nat -> Forall byte_ok bytes -> 0 <= total ->
  folded total sum -> exists r, checksum_loop n bytes sum = Ok r /\ folded (total + word_sum bytes) r.
Proof.
  induction n as [|n IH]; intros bytes total sum Hl Hb Ht Hf.
  - destruct bytes; [|simpl in Hl; lia]. exists sum. simpl. by rewrite Z.add_0_r.
  - destruct bytes as [|a [|b bytes]]; [simpl in Hl; lia|simpl in Hl; lia|].
    inversion Hb as [|? ? Ha Hb']; subst. inversion Hb' as [|? ? Hb0 Hb'']; subst.
    cbn [checksum_loop word_sum]. cbn zeta. unfold be16_to_native. rewrite bswap16_pair by done. unfold byte_ok in Ha, Hb0.
    pose proof (fold_step total sum (a * 256 + b) Ht Hf ltac:(lia)) as Hf'. cbn zeta in Hf'.
    destruct (IH bytes (total + (a * 256 + b)) _ ltac:(simpl in Hl; lia) Hb'' ltac:(lia) Hf') as (r & -> & Hr).
    exists r. split; [done|]. by rewrite Z.add_assoc.
Qed.

Lemma ip_checksum_spec bytes n : length bytes = (2 * n)%nat -> Forall byte_ok bytes ->
  exists c, ip_checksum bytes (2 * Z.of_nat n) = Ok c /\ folded (word_sum bytes) (0xFFFF - c).
Proof.
  intros Hl Hb. unfold ip_checksum. rewrite (Z.mul_comm 2), Z.div_mul, Nat2Z.id by lia.
  destruct (checksum_loop_spec n bytes 0 0 Hl Hb ltac:(lia)) as (r & -> & Hr); [split; [lia|done]|].
  cbn [outcome_bind]. eexists. split; [reflexivity|]. destruct Hr as (Hr & Hm & Hz).
  assert (Z.land (Z.lnot (Z.land r 0xFFFF)) 0xFFFF = 0xFFFF - r) as ->.
  - change 0xFFFF with (Z.ones 16). rewrite (Z.land_ones r), (Z.mod_small r) by (change (2 ^ 16) with 65536; lia).
    rewrite Z.land_ones by lia. unfold Z.lnot. symmetry. apply (Z.mod_unique _ _ (-1)); change (Z.ones 16) with 0xFFFF; lia.
  - replace (0xFFFF - (0xFFFF - r)) with r by lia. by split.
Qed.

(** ** Headers *)

Lemma native_to_be16_range x : 0 <= native_to_be16 x < 65536.
Proof. apply bswap16_range. Qed.

Lemma le32_ok v : Forall byte_ok (le32 v).
Proof. repeat constructor; unfold byte_ok; first [apply Z.mod_pos_bound; lia|lia]. Qed.

(** All fields in the range of their types. *)
Definition ipv4_ok (h : ipv4_packet) : Prop :=
  byte_ok (version_ihl h) /\ byte_ok (dscp_ecn h) /\ byte_ok (ip_ttl h) /\ byte_ok (ip_protocol h) /\
  0 <= ip_length h < 65536 /\ 0 <= ip_id h < 65536 /\ 0 <= ip_offset h < 65536 /\ 0 <= ip_check h < 65536 /\
  0 <= src_addr h < 2 ^ 32 /\ 0 <= dst_addr h < 2 ^ 32.

Lemma ipv4_bytes_ok h : ipv4_ok h -> Forall byte_ok (ipv4_bytes h).
Proof.
  intros (H1 & H2 & H3 & H4 & _). unfold ipv4_bytes.
  rewrite !Forall_app. split_and!; first [apply le16_ok|apply le32_ok|by repeat (apply Forall_cons_2; [done|])].
Qed.

Definition set_check (c : Z) (h : ipv4_packet) : ipv4_packet :=
  mk_ipv4 (version_ihl h) (dscp_ecn h) (ip_length h) (ip_id h) (ip_offset h) (ip_ttl h) (ip_protocol h) c (src_addr h) (dst_addr h).

(** Storing the checksum in network order adds its value to the sum. *)
Lemma word_sum_check h c : 0 <= c < 65536 ->
  word_sum (ipv4_bytes (set_check (native_to_be16 c) h)) = word_sum (ipv4_bytes (set_check 0 h)) + c.
Proof.
  intros Hc. unfold ipv4_bytes, native_to_be16. rewrite (u16_small c) by lia. cbn [app le16 le32 word_sum set_check ip_check
    version_ihl dscp_ecn ip_length ip_id ip_offset ip_ttl ip_protocol src_addr dst_addr].
  assert (bswap16 c mod 256 * 256 + bswap16 c / 256 mod 256 = c) by (rewrite <- bswap16_spec; by apply bswap16_involutive).
  assert (0 mod 256 * 256 + 0 / 256 mod 256 = 0) by done. lia.
Qed.

Lemma folded_zero total c : 0 <= c < 65536 -> 0 <= total -> folded total (0xFFFF - c) -> folded (total + c) 0xFFFF.
Proof.
  intros Hc Ht (Hr & Hm & Hz). split; [lia|]. split; [|lia].
  rewrite Z.add_mod, <- Hm, <- Z.add_mod by lia. replace (0xFFFF - c + c) with 0xFFFF by lia. done.
Qed.

Lemma folded_full total sum : 0 <= total -> folded total sum -> sum = 0xFFFF <-> 0 < total /\ total mod 0xFFFF = 0.
Proof.
  intros Ht (Hs & Hm & Hz). split.
  - intros ->. change (0xFFFF mod 0xFFFF) with 0 in Hm. lia.
  - intros [Hp Hzero]. rewrite Hzero in Hm. apply Z.mod_divide in Hm as [k Hk]; [|done]. lia.
Qed.

Lemma ipv4_bytes_length h : length (ipv4_bytes h) = 20%nat.
Proof. done. Qed.

Lemma checksum_zero bytes : length bytes = 20%nat -> Forall byte_ok bytes ->
  ip_checksum bytes 20 = Ok 0 <-> 0 < word_sum bytes /\ word_sum bytes mod 0xFFFF = 0.
Proof.
  intros Hl Hb. destruct (ip_checksum_spec bytes 10 Hl Hb) as (c & Hc & Hf). change (2 * Z.of_nat 10) with 20 in Hc.
  rewrite <- (folded_full _ _ (word_sum_nonneg bytes Hb) Hf), Hc. split; [intros [= ->]; done|]. intros. f_equal. lia.
Qed.

Lemma ipv4_header_spec pkt_id ip dst protocol len : 0 <= ip < 2 ^ 32 -> 0 <= dst < 2 ^ 32 ->
  exists h, ipv4_header pkt_id ip dst protocol len = Ok h /\ ipv4_ok h /\ ip_checksum (ipv4_bytes h) 20 = Ok 0 /\
    src_addr h = ip /\ dst_addr h = dst /\ ip_protocol h = u8 protocol.
Proof.
  intros Hip Hdst. unfold ipv4_header.
  set (h0 := mk_ipv4 (Z.lor (Z.shiftl 4 4) 5) 0 (native_to_be16 (ipv4_size + len)) (native_to_be16 pkt_id) 0 64 (u8 protocol) 0 ip dst).
  assert (forall c, 0 <= c < 65536 -> ipv4_ok (set_check c h0)) as Hok.
  { intros c Hc. pose proof (native_to_be16_range (ipv4_size + len)). pose proof (native_to_be16_range pkt_id).
    pose proof (u8_range protocol). unfold ipv4_ok, byte_ok, h0. change (Z.lor (Z.shiftl 4 4) 5) with 69.
    cbn [set_check version_ihl dscp_ecn ip_length ip_id ip_offset ip_ttl ip_protocol ip_check src_addr dst_addr]. split_and!; lia. }
  pose proof (ipv4_bytes_ok _ (Hok 0 ltac:(lia))) as Hb0. change (set_check 0 h0) with h0 in Hb0.
  destruct (ip_checksum_spec (ipv4_bytes h0) 10 eq_refl Hb0) as (c & Hc & Hf). change (2 * Z.of_nat 10) with 20 in Hc.
  cbn zeta. rewrite Hc. cbn [outcome_bind]. eexists. split; [reflexivity|]. fold (set_check (native_to_be16 c) h0).
  pose proof (native_to_be16_range c). pose proof (word_sum_nonneg _ Hb0) as Hnn.
  assert (0 <= c < 65536) as Hcr by (destruct Hf; lia).
  split; [by apply Hok|]. split; [|done]. apply checksum_zero; [done|by apply ipv4_bytes_ok, Hok|].
  rewrite word_sum_check by done. change (set_check 0 h0) with h0.
  apply (folded_full _ 0xFFFF); [lia|by apply folded_zero|done].
Qed.

(** The header checksum.  The loop computes the complement of the ones'
    complement sum of the 16-bit words; a header passes verification exactly
    when its words sum to a positive multiple of 0xFFFF.  The header that is
    built for a packet passes, so a header that differs from it fails
    exactly when the sums of the words differ modulo 0xFFFF. *)
Theorem ip_checksum_correct pkt_id ip dst protocol len : 0 <= ip < 2 ^ 32 -> 0 <= dst < 2 ^ 32 ->
  (forall bytes n, length bytes = (2 * n)%nat -> Forall byte_ok bytes ->
    exists c, ip_checksum bytes (2 * Z.of_nat n) = Ok c /\ 0 <= c <= 0xFFFF /\ (c + word_sum bytes) mod 0xFFFF = 0) /\
  exists h, ipv4_header pkt_id ip dst protocol len = Ok h /\ ip_checksum (ipv4_bytes h) 20 = Ok 0 /\
    forall bytes, length bytes = 20%nat -> Forall byte_ok bytes -> 0 < word_sum bytes ->
      (ip_checksum bytes 20 = Ok 0 <-> word_sum bytes mod 0xFFFF = word_sum (ipv4_bytes h) mod 0xFFFF).
Proof.
  intros Hip Hdst. split.
  - intros bytes n Hl Hb. destruct (ip_checksum_spec bytes n Hl Hb) as (c & Hc & Hr & Hm & _). exists c. split; [done|]. split; [lia|].
    rewrite Z.add_mod, <- Hm, <- Z.add_mod by lia. by replace (c + (0xFFFF - c)) with 0xFFFF by lia.
  - destruct (ipv4_header_spec pkt_id ip dst protocol len Hip Hdst) as (h & Hh & Hok & Hc & _). exists h. split; [done|]. split; [done|].
    intros bytes Hl Hb Hp. pose proof (ipv4_bytes_ok h Hok) as Hbh. apply checksum_zero in Hc as [_ Hc]; [|done..].
    rewrite checksum_zero, Hc by done. tauto.
Qed.

Lemma ip_checksum_correct_witness :
  exists h, ipv4_header 7 (10 + 256 * 256 * 256 * 15) (10 + 256 * 256 * 256 * 2) 17 12 = Ok h /\ ip_checksum (ipv4_bytes h) 20 = Ok 0.
Proof.
  destruct (ip_checksum_correct 7 (10 + 256 * 256 * 256 * 15) (10 + 256 * 256 * 256 * 2) 17 12 ltac:(lia) ltac:(lia))
    as [_ (h & H1 & H2 & _)]. by exists h.
Defined.

(** ** Reading back what was written *)

Definition val16 (v : Z) : Z := v mod 256 + 256 * (v / 256 mod 256).
Definition val32 (v : Z) : Z := val16 v + 65536 * (v / 65536 mod 256 + 256 * (v / 16777216 mod 256)).

Lemma le16_value v : 0 <= v < 65536 -> val16 v = v.
Proof.
  intros H. unfold val16. assert (0 <= v / 256 < 256) by (split; [apply Z.div_pos; lia|apply Z.div_lt_upper_bound; lia]).
  rewrite (Z.mod_small (v / 256)) by lia. pose proof (Z.div_mod v 256). lia.
Qed.

Lemma le32_value v : 0 <= v < 2 ^ 32 -> val32 v = v.
Proof.
  intros H. unfold val32. replace (v / 16777216) with (v / 65536 / 256) by (rewrite Z.div_div by lia; done).
  assert (0 <= v / 65536 < 65536) by (split; [apply Z.div_pos; lia|apply Z.div_lt_upper_bound; lia]).
  fold (val16 (v / 65536)). rewrite (le16_value (v / 65536)) by lia. unfold val16. pose proof (Z.div_mod v 65536 ltac:(lia)). pose proof (Z.mod_pos_bound v 65536 ltac:(lia)).
  pose proof (le16_value (v mod 65536) ltac:(lia)) as Hv. unfold val16 in Hv.
  assert ((v mod 65536) mod 256 = v mod 256) as E1 by (apply Z.mod_mod_divide; by exists 256).
  assert ((v mod 65536) / 256 mod 256 = v / 256 mod 256) as E2.
  { rewrite (Z.div_mod v 65536) at 2 by lia. rewrite Z.add_comm, (Z.mul_comm 65536).
    replace (v / 65536 * 65536) with (v / 65536 * 256 * 256) by lia. rewrite Z.div_add by lia. by rewrite Z.mod_add. }
  rewrite E1, E2 in Hv. lia.
Qed.

(** A hardware address is a list of six bytes. *)
Lemma mac_cases (m : list Z) : length m = 6%nat -> exists a b c d e f, m = [a; b; c; d; e; f].
Proof. intros H. do 6 (destruct m as [|? m]; [simpl in H; lia|]). destruct m; [|simpl in H; lia]. eauto 7. Qed.

Lemma ether_parse_bytes e rest : length (mac_dst e) = 6%nat -> length (mac_src e) = 6%nat -> 0 <= ether_type e < 65536 ->
  ether_parse (ether_bytes e ++ rest) = Ok e /\ drop (Z.to_nat ether_size) (ether_bytes e ++ rest) = rest.
Proof.
  intros Hd Hs Ht. destruct e as [md ms t]. simpl in Hd, Hs, Ht.
  destruct (mac_cases md Hd) as (?&?&?&?&?&?& ->). destruct (mac_cases ms Hs) as (?&?&?&?&?&?& ->). split; [|done].
  unfold ether_parse, rdbytes. cbn [ether_bytes mac_dst mac_src ether_type app le16].
  rewrite !zlen_cons. pose proof (zlen_nonneg rest).
  destruct (Z.leb_spec (0 + 6) (1 + (1 + (1 + (1 + (1 + (1 + (1 + (1 + (1 + (1 + (1 + (1 + (1 + (1 + zlen rest))))))))))))))); [|lia].
  destruct (Z.leb_spec (6 + 6) (1 + (1 + (1 + (1 + (1 + (1 + (1 + (1 + (1 + (1 + (1 + (1 + (1 + (1 + zlen rest))))))))))))))); [|lia].
  transitivity (Ok (mk_ether [x; x0; x1; x2; x3; x4] [x5; x6; x7; x8; x9; x10] (val16 t))); [reflexivity|].
  by rewrite le16_value.
Qed.

Definition udp_ok (u : udp_packet) : Prop :=
  0 <= src_port u < 65536 /\ 0 <= dst_port u < 65536 /\ 0 <= udp_length u < 65536 /\ 0 <= udp_checksum u < 65536.

Lemma udp_parse_bytes u rest : udp_ok u -> udp_parse (udp_bytes u ++ rest) = Ok u.
Proof.
  intros (H1 & H2 & H3 & H4). destruct u as [s d l c]. simpl in *.
  transitivity (Ok (mk_udp (val16 s) (val16 d) (val16 l) (val16 c))); [reflexivity|]. by rewrite !le16_value.
Qed.

Lemma ipv4_parse_bytes h rest : ipv4_ok h -> ipv4_parse (ipv4_bytes h ++ rest) = Ok h.
Proof.
  intros (_ & _ & _ & _ & H1 & H2 & H3 & H4 & H5 & H6). destruct h as [vi de len id off ttl proto ck src dst]. simpl in *.
  transitivity (Ok (mk_ipv4 vi de (val16 len) (val16 id) (val16 off) ttl proto (val16 ck) (val32 src) (val32 dst))); [reflexivity|].
  by rewrite !le16_value, !le32_value.
Qed.

(** The fields that the receivers read. *)
Lemma ipv4_fields h rest : ipv4_ok h -> let p := ipv4_bytes h ++ rest in
  rd8 p 9 = Ok (ip_protocol h) /\ rd32 p 12 = Ok (src_addr h) /\ rd32 p 16 = Ok (dst_addr h) /\
  drop (Z.to_nat ipv4_size) p = rest /\ zlen p = ipv4_size + zlen rest.
Proof.
  intros (_ & _ & _ & _ & H1 & H2 & H3 & H4 & H5 & H6). cbn zeta. split; [done|].
  split; [transitivity (Ok (val32 (src_addr h))); [reflexivity|by rewrite le32_value]|].
  split; [transitivity (Ok (val32 (dst_addr h))); [reflexivity|by rewrite le32_value]|].
  split; [done|]. by rewrite zlen_app.
Qed.

Lemma rdbytes_tail (l rest : list Z) off : zlen l = off -> rdbytes (l ++ rest) off (zlen (l ++ rest) - off) = Ok rest.
Proof.
  intros <-. unfold rdbytes. rewrite zlen_app. pose proof (zlen_nonneg l). pose proof (zlen_nonneg rest).
  destruct (Z.leb_spec 0 (zlen l)); [|lia]. destruct (Z.leb_spec 0 (zlen l + zlen rest - zlen l)); [|lia].
  destruct (Z.leb_spec (zlen l + (zlen l + zlen rest - zlen l)) (zlen l + zlen rest)); [|lia]. simpl. f_equal.
  replace (Z.to_nat (zlen l)) with (length l) by (unfold zlen; lia). rewrite drop_app_length.
  apply take_ge. unfold zlen. lia.
Qed.

Lemma rdbytes_front (frame rest : list Z) : rdbytes (frame ++ rest) 0 (zlen frame) = Ok frame.
Proof.
  unfold rdbytes. rewrite zlen_app. pose proof (zlen_nonneg frame). pose proof (zlen_nonneg rest).
  destruct (Z.leb_spec 0 0), (Z.leb_spec 0 (zlen frame)), (Z.leb_spec (0 + zlen frame) (zlen frame + zlen rest)); try lia.
  cbn [andb]. change (Z.to_nat 0) with 0%nat. rewrite drop_0. by rewrite take_app_length' by (unfold zlen; lia).
Qed.

Lemma arp_parse_bytes a rest : length (a_src_hw a) = 6%nat -> length (a_dst_hw a) = 6%nat ->
  0 <= a_htype a < 65536 -> 0 <= a_ptype a < 65536 -> 0 <= a_opcode a < 65536 ->
  0 <= a_src_proto a < 2 ^ 32 -> 0 <= a_dst_proto a < 2 ^ 32 -> arp_parse (arp_bytes a ++ rest) = Ok a.
Proof.
  intros Hs Hd H1 H2 H3 H4 H5. destruct a as [ht pt hl pl op sh sp dh dp]. simpl in Hs, Hd, H1, H2, H3, H4, H5.
  destruct (mac_cases sh Hs) as (?&?&?&?&?&?& ->). destruct (mac_cases dh Hd) as (?&?&?&?&?&?& ->).
  unfold arp_parse, rdbytes. set (p := arp_bytes _ ++ rest).
  assert (28 <= zlen p) by (unfold p; rewrite zlen_app; pose proof (zlen_nonneg rest); change (28 <= 28 + zlen rest); lia).
  destruct (Z.leb_spec (8 + 6) (zlen p)); [|lia]. destruct (Z.leb_spec (18 + 6) (zlen p)); [|lia]. unfold p.
  transitivity (Ok (mk_arp (val16 ht) (val16 pt) hl pl (val16 op) [x; x0; x1; x2; x3; x4] (val32 sp) [x5; x6; x7; x8; x9; x10] (val32 dp)));
    [reflexivity|]. by rewrite !le16_value, !le32_value.
Qed.
