(* ===== verification/Net.v ===== *)
(** * The network stack

    kernel/net: interfaces (netdev.c), Ethernet (ether.c), address resolution
    (arp.c), IPv4 (ipv4/ipv4.c, route.c, raw.c, udp.c) and sockets (socket.c).
    Packets are lists of bytes (Wire.v).  Blocking uses the wait queues and
    tasks of Wait.v and Sched.v: a wait queue inside a structure is named by
    the address of the structure, the wait node of a task by the task.  The
    driver behind an interface is a parameter with its own state.  The mutexes
    of the tables are left out. *)

From stdpp Require Import base numbers list gmap sets.
From Stdlib Require Import ZArith Lia.
From S2P Require Import Prelude Sched Wait Lookup Wire.

(** ** State *)

Record netdev := mk_netdev {
  nd_name : list Z;
  nd_mac : list Z;
  nd_ip_addr : Z;
  nd_ip_subnet : Z;
  nd_ip_broadcast : Z;
  nd_ip_tx_id : Z;
  nd_ops : Z;
}.

Definition set_nd_ip_addr (v : Z) (d : netdev) : netdev :=
  mk_netdev (nd_name d) (nd_mac d) v (nd_ip_subnet d) (nd_ip_broadcast d) (nd_ip_tx_id d) (nd_ops d).
Definition set_nd_ip_subnet (v : Z) (d : netdev) : netdev :=
  mk_netdev (nd_name d) (nd_mac d) (nd_ip_addr d) v (nd_ip_broadcast d) (nd_ip_tx_id d) (nd_ops d).
Definition set_nd_ip_tx_id (v : Z) (d : netdev) : netdev :=
  mk_netdev (nd_name d) (nd_mac d) (nd_ip_addr d) (nd_ip_subnet d) (nd_ip_broadcast d) v (nd_ops d).

Record arp_entry := mk_arp_entry { ae_address : Z; ae_htype : Z; ae_mac : list Z; ae_netdev : Z }.

(** An entry of the wait table; [aw_queue] names its wait queue. *)
Record arp_waittable_entry := mk_arp_wait { aw_address : Z; aw_queue : Z }.

Record arp_state := mk_arp_state { arp_table : list (list arp_entry); arp_waittable : list (list arp_waittable_entry) }.

Record ip_route_entry := mk_route {
  rt_device : Z; rt_dest : Z; rt_gateway : Z; rt_mask : Z; rt_metric : Z; rt_mtu : Z
}.

Record sockaddr_in := mk_sockaddr { sin_family : Z; sin_port : Z; sin_addr : Z }.

Record recv_queue_entry := mk_recv { re_bytes : list Z; re_addrlen : Z; re_source : sockaddr_in }.

Inductive socket_ops := ipv4_raw_ops | udp_ops.

Record ipv4_sdata := mk_sdata {
  sd_device : Z;
  sd_addr : Z;
  sd_port : Z;
  sd_protocol : Z;
}.

Definition set_sd_device (v : Z) (d : ipv4_sdata) : ipv4_sdata :=
  mk_sdata v (sd_addr d) (sd_port d) (sd_protocol d).
Definition set_sd_addr (v : Z) (d : ipv4_sdata) : ipv4_sdata :=
  mk_sdata (sd_device d) v (sd_port d) (sd_protocol d).
Definition set_sd_port (v : Z) (d : ipv4_sdata) : ipv4_sdata :=
  mk_sdata (sd_device d) (sd_addr d) v (sd_protocol d).

Record socket := mk_socket {
  s_vnode : Z;
  s_iops : Z;
  s_fops : Z;
  s_ops : socket_ops;
  s_data : option ipv4_sdata;
  s_next : Z;
  s_recv_queue : list recv_queue_entry;
  s_bound : bool;
}.

Definition set_s_vnode (v : Z) (k : socket) : socket :=
  mk_socket v (s_iops k) (s_fops k) (s_ops k) (s_data k) (s_next k) (s_recv_queue k) (s_bound k).
Definition set_s_data (v : option ipv4_sdata) (k : socket) : socket :=
  mk_socket (s_vnode k) (s_iops k) (s_fops k) (s_ops k) v (s_next k) (s_recv_queue k) (s_bound k).
Definition set_s_next (v : Z) (k : socket) : socket :=
  mk_socket (s_vnode k) (s_iops k) (s_fops k) (s_ops k) (s_data k) v (s_recv_queue k) (s_bound k).
Definition set_s_recv_queue (v : list recv_queue_entry) (k : socket) : socket :=
  mk_socket (s_vnode k) (s_iops k) (s_fops k) (s_ops k) (s_data k) (s_next k) v (s_bound k).
Definition set_s_bound (v : bool) (k : socket) : socket :=
  mk_socket (s_vnode k) (s_iops k) (s_fops k) (s_ops k) (s_data k) (s_next k) (s_recv_queue k) v.

Record udp_state := mk_udp_state { udp_table : list Z; next_eph_port : Z }.

Section state.
Context {D : Type}.

Record net := mk_net {
  netdevs : gmap Z netdev;
  netdev_list : list Z;
  arp : arp_state;
  routes : list ip_route_entry;
  domains : list Z;
  sockets : gmap Z socket;
  raw_sockets : list Z;
  udp : udp_state;
  nwait : wait_sys;
  nsched : sched;
  nbrk : Z;
  driver : D;
}.

Definition set_netdevs (v : gmap Z netdev) (st : net) : net :=
  mk_net v (netdev_list st) (arp st) (routes st) (domains st) (sockets st) (raw_sockets st) (udp st) (nwait st)
    (nsched st) (nbrk st) (driver st).
Definition set_netdev_list (v : list Z) (st : net) : net :=
  mk_net (netdevs st) v (arp st) (routes st) (domains st) (sockets st) (raw_sockets st) (udp st) (nwait st)
    (nsched st) (nbrk st) (driver st).
Definition set_arp (v : arp_state) (st : net) : net :=
  mk_net (netdevs st) (netdev_list st) v (routes st) (domains st) (sockets st) (raw_sockets st) (udp st)
    (nwait st) (nsched st) (nbrk st) (driver st).
Definition set_routes (v : list ip_route_entry) (st : net) : net :=
  mk_net (netdevs st) (netdev_list st) (arp st) v (domains st) (sockets st) (raw_sockets st) (udp st) (nwait st)
    (nsched st) (nbrk st) (driver st).
Definition set_domains (v : list Z) (st : net) : net :=
  mk_net (netdevs st) (netdev_list st) (arp st) (routes st) v (sockets st) (raw_sockets st) (udp st) (nwait st)
    (nsched st) (nbrk st) (driver st).
Definition set_sockets (v : gmap Z socket) (st : net) : net :=
  mk_net (netdevs st) (netdev_list st) (arp st) (routes st) (domains st) v (raw_sockets st) (udp st) (nwait st)
    (nsched st) (nbrk st) (driver st).
Definition set_raw_sockets (v : list Z) (st : net) : net :=
  mk_net (netdevs st) (netdev_list st) (arp st) (routes st) (domains st) (sockets st) v (udp st) (nwait st)
    (nsched st) (nbrk st) (driver st).
Definition set_udp (v : udp_state) (st : net) : net :=
  mk_net (netdevs st) (netdev_list st) (arp st) (routes st) (domains st) (sockets st) (raw_sockets st) v
    (nwait st) (nsched st) (nbrk st) (driver st).
Definition set_nwait (v : wait_sys) (st : net) : net :=
  mk_net (netdevs st) (netdev_list st) (arp st) (routes st) (domains st) (sockets st) (raw_sockets st) (udp st) v
    (nsched st) (nbrk st) (driver st).
Definition set_nsched (v : sched) (st : net) : net :=
  mk_net (netdevs st) (netdev_list st) (arp st) (routes st) (domains st) (sockets st) (raw_sockets st) (udp st)
    (nwait st) v (nbrk st) (driver st).
Definition set_nbrk (v : Z) (st : net) : net :=
  mk_net (netdevs st) (netdev_list st) (arp st) (routes st) (domains st) (sockets st) (raw_sockets st) (udp st)
    (nwait st) (nsched st) v (driver st).
Definition set_driver (v : D) (st : net) : net :=
  mk_net (netdevs st) (netdev_list st) (arp st) (routes st) (domains st) (sockets st) (raw_sockets st) (udp st)
    (nwait st) (nsched st) (nbrk st) v.
End state.
Arguments net D : clear implicits.

Definition AF_INET : Z := 2.
Definition SOCK_DGRAM : Z := 2.
Definition SOCK_RAW : Z := 3.
Definition IPPROTO_UDP : Z := 17.
Definition INADDR_ANY : Z := 0.
Definition INADDR_BROADCAST : Z := 0xFFFFFFFF.
Definition sockaddr_in_size : Z := 16.
Definition ephemeral_port_start : Z := 49152.

(** The addresses of the operation tables of socket nodes. *)
Definition ipv4_raw_iops : Z := 0x201.
Definition ipv4_raw_fops : Z := 0x202.

Section net.
Context {D : Type}.

(** [netdev->ops->send] of the driver. *)
Context (send : D -> Z -> list Z -> outcome (ret * D)).

Implicit Types st : net D.

Definition get_netdev st (dev : Z) : outcome netdev := deref (netdevs st !! dev).
Definition put_netdev (dev : Z) (d : netdev) st : net D := set_netdevs (<[dev := d]> (netdevs st)) st.
Definition get_socket st (sock : Z) : outcome socket := deref (sockets st !! sock).
Definition put_socket (sock : Z) (k : socket) st : net D := set_sockets (<[sock := k]> (sockets st)) st.

(** A fresh address for an allocated structure. *)
Definition net_alloc st : Z * net D := (nbrk st, set_nbrk (nbrk st + 16) st).

Definition wake_queue st (cpu q : Z) : outcome (net D) :=
  let* (w, s) := wait_queue_wake (nwait st) (nsched st) cpu q in
  Ok (set_nsched s (set_nwait w st)).

(** ** netdev.c *)

Definition netdev_init st : net D := set_netdev_list [] st.

Fixpoint find_netdev st (l : list Z) (name : list Z) : outcome Z :=
  match l with
  | [] => Ok 0
  | cur :: l =>
      let* d := get_netdev st cur in
      if strncmp_eq (nd_name d) name 24 then Ok cur else find_netdev st l name
  end.

Definition netdev_lookup st (name : list Z) : outcome Z := find_netdev st (netdev_list st) name.

(** The name and the hardware address are left for the driver to fill in. *)
Definition netdev_create st (name mac : list Z) : Z * net D :=
  let '(dev, st) := net_alloc st in
  (dev, set_netdev_list (netdev_list st ++ [dev]) (put_netdev dev (mk_netdev name mac 0 0 0xFFFFFFFF 0 0) st)).

(** ** ether.c *)

Definition ether_tx_packet st (dev : Z) (mac : list Z) (type : Z) (payload : list Z) : outcome (ret * net D) :=
  let* d := get_netdev st dev in
  let packet := ether_bytes (mk_ether mac (nd_mac d) (native_to_be16 type)) ++ payload in
  if nd_ops d =? 0 then Fault
  else
    let* (sent, drv) := send (driver st) dev packet in
    Ok (sent, set_driver drv st).

(** ** arp.c *)

Definition arp_init st : net D := set_arp (mk_arp_state (replicate 32 []) (replicate 32 [])) st.

Fixpoint arp_find (l : list arp_entry) (address : Z) : option arp_entry :=
  match l with
  | [] => None
  | e :: l => if ae_address e =? address then Some e else arp_find l address
  end.

Definition arp_get_entry st (address : Z) : outcome (option arp_entry) :=
  let* chain := aget (arp_table (arp st)) (address mod 32) in
  Ok (arp_find chain address).

(** The wait entry for [address] and what follows it in its chain. *)
Fixpoint wait_find (l : list arp_waittable_entry) (address : Z) : option (arp_waittable_entry * list arp_waittable_entry) :=
  match l with
  | [] => None
  | e :: l => if aw_address e =? address then Some (e, l) else wait_find l address
  end.

(** Freeing a wait entry frees its queue. *)
Definition drop_queue st (q : Z) : net D := set_nwait (mk_wait (delete q (wq_queues (nwait st))) (wq_nodes (nwait st))) st.

(** The head of the wait chain is set to what follows the entry that was
    woken, so entries in front of it are lost. *)
Definition arp_add_entry st (cpu address : Z) (mac : list Z) (htype dev : Z) : outcome (net D) :=
  let hash := address mod 32 in
  let* chain := aget (arp_table (arp st)) hash in
  let* table := aset (arp_table (arp st)) hash (mk_arp_entry address htype mac dev :: chain) in
  let st := set_arp (mk_arp_state table (arp_waittable (arp st))) st in
  let* waiting := aget (arp_waittable (arp st)) hash in
  match wait_find waiting address with
  | None => Ok st
  | Some (e, rest) =>
      let* st := wake_queue st cpu (aw_queue e) in
      let* waittable := aset (arp_waittable (arp st)) hash rest in
      Ok (drop_queue (set_arp (mk_arp_state (arp_table (arp st)) waittable) st) (aw_queue e))
  end.

Definition arp_send_reply st (dev : Z) (packet : arp_packet) : outcome (net D) :=
  let* d := get_netdev st dev in
  let reply := mk_arp (native_to_be16 arp_htype_ethernet) (native_to_be16 arp_ptype_ipv4) 6 4
    (native_to_be16 ARP_OPCODE_REPLY) (nd_mac d) (nd_ip_addr d) (a_src_hw packet) (a_src_proto packet) in
  let* (_, st) := ether_tx_packet st dev (a_dst_hw reply) ETHER_TYPE_ARP (arp_bytes reply) in
  Ok st.

(** [dst_hw] of a request is not written; [junk] is what the stack held. *)
Definition arp_send_request st (dev address : Z) (junk : list Z) : outcome (net D) :=
  let* d := get_netdev st dev in
  let request := mk_arp (native_to_be16 arp_htype_ethernet) (native_to_be16 arp_ptype_ipv4) 6 4
    (native_to_be16 ARP_OPCODE_REQUEST) (nd_mac d) (nd_ip_addr d) junk address in
  let* (_, st) := ether_tx_packet st dev ether_mac_broadcast ETHER_TYPE_ARP (arp_bytes request) in
  Ok st.

(** The section of [arp_search] under the lock: enter the wait table. *)
Definition arp_wait_enter st (address tid : Z) : outcome (net D) :=
  let hash := address mod 32 in
  let* waiting := aget (arp_waittable (arp st)) hash in
  let* (e, st) :=
    match wait_find waiting address with
    | Some (e, _) => Ok (e, st)
    | None =>
        let '(q, st) := net_alloc st in
        let e := mk_arp_wait address q in
        let* waittable := aset (arp_waittable (arp st)) hash (e :: waiting) in
        Ok (e, set_nwait (wait_queue_init (nwait st) q) (set_arp (mk_arp_state (arp_table (arp st)) waittable) st))
    end in
  let* (_, s) := cas_status (nsched st) tid TASK_RUNNING TASK_INTR_SLEEPING in
  let* w := wait_queue_register (nwait st) (aw_queue e) tid in
  Ok (set_nwait w (set_nsched s st)).

(** [arp_search] up to its result or to giving up the processor. *)
Definition arp_search st (cpu tid dev address : Z) (junk : list Z) : outcome (option arp_entry * net D) :=
  let* found := arp_get_entry st address in
  match found with
  | Some e => Ok (Some e, st)
  | None =>
      let* st := arp_send_request st dev address junk in
      let* st := arp_wait_enter st address tid in
      let* s := sched_yield (nsched st) cpu in
      Ok (None, set_nsched s st)
  end.

(** What [arp_search] does when it runs again: the entry, nothing, or the
    number [-EINTR] as a pointer. *)
Definition arp_search_resume st (tid address : Z) : outcome ((errno + option arp_entry) * net D) :=
  let* w := wait_queue_unregister (nwait st) tid in
  let* (_, s) := cas_status (nsched st) tid TASK_INTR_SLEEPING TASK_RUNNING in
  let st := set_nsched s (set_nwait w st) in
  let* t := get_task s tid in
  if signal_pending t then Ok (inl EINTR, st)
  else let* found := arp_get_entry st address in Ok (inr found, st).

Definition arp_rx_packet st (cpu dev : Z) (p : list Z) : outcome (net D) :=
  let* htype := rd16 p 0 in
  if negb (be16_to_native htype =? arp_htype_ethernet) then Ok st
  else
    let* ptype := rd16 p 2 in
    if negb (be16_to_native ptype =? arp_ptype_ipv4) then Ok st
    else
      let* packet := arp_parse p in
      let op := be16_to_native (a_opcode packet) in
      if op =? ARP_OPCODE_REQUEST then
        let* known := arp_get_entry st (a_src_proto packet) in
        let* st :=
          match known with
          | None => arp_add_entry st cpu (a_src_proto packet) (a_src_hw packet) arp_htype_ethernet dev
          | Some _ => Ok st
          end in
        let* d := get_netdev st dev in
        if negb (nd_ip_addr d =? 0) && (nd_ip_addr d =? a_dst_proto packet) then arp_send_reply st dev packet else Ok st
      else if op =? ARP_OPCODE_REPLY then
        arp_add_entry st cpu (a_src_proto packet) (a_src_hw packet) arp_htype_ethernet dev
      else Ok st.

(** ** route.c *)

Definition ipv4_init_route st : net D := set_routes [] st.

Definition ip_route_add st (entry : ip_route_entry) : net D := set_routes (routes st ++ [entry]) st.

Fixpoint route_loop (l : list ip_route_entry) (ip : Z) (best : option ip_route_entry) (best_metric : Z) : option ip_route_entry :=
  match l with
  | [] => best
  | cur :: l =>
      if (Z.land ip (rt_mask cur) =? Z.land (rt_dest cur) (rt_mask cur)) && (best_metric <? rt_metric cur)
      then route_loop l ip (Some cur) (rt_metric cur)
      else route_loop l ip best best_metric
  end.

Definition ip_route_get st (ip : Z) : option ip_route_entry := route_loop (routes st) ip None 0.

(** ** socket.c: the receive queue *)

Definition socket_rx_packet st (cpu sock : Z) (source : sockaddr_in) (addrlen : Z) (payload : list Z) : outcome (net D) :=
  let* k := get_socket st sock in
  let st := put_socket sock (set_s_recv_queue (s_recv_queue k ++ [mk_recv payload addrlen source]) k) st in
  wake_queue st cpu sock.

(** What a call that may block has come to. *)
Inductive recv_result :=
  | Received (r : ret) (bytes : list Z) (source : option sockaddr_in) (addrlen : Z)
  | RecvBlocked (exp_status : task_status).

(** The end of [socket_recvfrom]: take the first packet. *)
Definition recv_take st (sock len : Z) : outcome (recv_result * net D) :=
  let* k := get_socket st sock in
  match s_recv_queue k with
  | [] => Fault
  | entry :: rest =>
      let readlen := if len <? zlen (re_bytes entry) then len else zlen (re_bytes entry) in
      let st := put_socket sock (set_s_recv_queue rest k) st in
      Ok (Received (RVal readlen) (take (Z.to_nat readlen) (re_bytes entry)) (Some (re_source entry)) (re_addrlen entry), st)
  end.

(** After the loop: leave the wait queue and run again. *)
Definition recv_leave st (tid : Z) : outcome (net D) :=
  let* w := wait_queue_unregister (nwait st) tid in
  let* (_, s) := cas_status (nsched st) tid TASK_INTR_SLEEPING TASK_RUNNING in
  Ok (set_nsched s (set_nwait w st)).

(** One round of the loop, from its start to a break or to the return of the
    processor; a task that runs again starts the next round.  [exp_status] is
    the local variable that the compare-and-swap expects and updates. *)
Definition recv_round st (cpu tid sock len : Z) (exp_status : task_status) : outcome (recv_result * net D) :=
  let* w := wait_queue_register (nwait st) sock tid in
  let* (fail, s) := cas_status (nsched st) tid exp_status TASK_INTR_SLEEPING in
  let* exp_status :=
    match fail with
    | Some found => if decide (found = TASK_INTR_SLEEPING) then Ok found else Panic
    | None => Ok exp_status
    end in
  let st := set_nsched s (set_nwait w st) in
  let* k := get_socket st sock in
  if negb (bool_decide (s_recv_queue k = [])) then
    let* st := recv_leave st tid in recv_take st sock len
  else
    let* t := get_task s tid in
    if signal_pending t then
      let* st := recv_leave st tid in Ok (Received (RErr EINTR) [] None 0, st)
    else
      let* s := sched_yield s cpu in
      Ok (RecvBlocked exp_status, set_nsched s st).

Definition socket_recvfrom st (cpu tid sock len : Z) : outcome (recv_result * net D) :=
  let* k := get_socket st sock in
  if bool_decide (s_recv_queue k = []) then recv_round st cpu tid sock len TASK_RUNNING else recv_take st sock len.

(** ** ipv4.c: sending *)

(** A packet that waits for the hardware address of [tx_route]. *)
Inductive tx :=
  | TxDone (r : ret)
  | TxBlocked (dev tx_route : Z) (packet : list Z).

Definition ipv4_tx_packet st (cpu tid dev route dst protocol : Z) (payload junk : list Z) : outcome (tx * net D) :=
  let* d := get_netdev st dev in
  let pkt_id := nd_ip_tx_id d in
  let st := put_netdev dev (set_nd_ip_tx_id (u16 (pkt_id + 1)) d) st in
  let* h := ipv4_header pkt_id (nd_ip_addr d) dst protocol (zlen payload) in
  let packet := ipv4_bytes h ++ payload in
  if route =? nd_ip_broadcast d then
    let* (res, st) := ether_tx_packet st dev ether_mac_broadcast ETHER_TYPE_IPV4 packet in Ok (TxDone res, st)
  else
    let* (found, st) := arp_search st cpu tid dev route junk in
    match found with
    | Some e => let* (res, st) := ether_tx_packet st dev (ae_mac e) ETHER_TYPE_IPV4 packet in Ok (TxDone res, st)
    | None => Ok (TxBlocked dev route packet, st)
    end.

(** The rest of [ipv4_tx_packet] after [arp_search] gave up the processor; the
    pointer [-EINTR] is not null and is dereferenced. *)
Definition ipv4_tx_resume st (tid dev route : Z) (packet : list Z) : outcome (ret * net D) :=
  let* (found, st) := arp_search_resume st tid route in
  match found with
  | inl _ => Fault
  | inr None => Ok (RErr ENETUNREACH, st)
  | inr (Some e) => ether_tx_packet st dev (ae_mac e) ETHER_TYPE_IPV4 packet
  end.

(** The interface and the next hop for a destination: the choice that
    [udp_sendto] and [ipv4_raw_sendto] make. *)
Definition next_hop st (data : ipv4_sdata) (addr : Z) : outcome (option (Z * Z)) :=
  if addr =? INADDR_BROADCAST then
    let* d := get_netdev st (sd_device data) in Ok (Some (sd_device data, nd_ip_broadcast d))
  else
    match ip_route_get st addr with
    | None => Ok None
    | Some route => if rt_device route =? 0 then Ok None else Ok (Some (rt_device route, rt_gateway route))
    end.

(** ** raw.c *)

Definition ipv4_init_raw st : net D := set_raw_sockets [] st.

Definition ipv4_raw_release st (sock : Z) : outcome (net D) :=
  let* k := get_socket st sock in
  Ok (put_socket sock (set_s_data None k) (set_raw_sockets (filter (fun x => x <> sock) (raw_sockets st)) st)).

Definition ipv4_raw_bind st (sock : Z) (addr : sockaddr_in) (addrlen : Z) : outcome (ret * net D) :=
  if addrlen <? sockaddr_in_size then Ok (RErr EFAULT, st)
  else if negb (sin_family addr =? AF_INET) then Ok (RErr EINVAL, st)
  else
    let* k := get_socket st sock in
    let* data := deref (s_data k) in
    Ok (RVal 0, put_socket sock (set_s_data (Some (set_sd_addr (sin_addr addr) data)) k) st).

Definition ipv4_raw_sendto st (cpu tid sock : Z) (buf : list Z) (dest : sockaddr_in) (addrlen : Z) (junk : list Z)
    : outcome (tx * net D) :=
  if zlen buf =? 0 then Ok (TxDone (RVal 0), st)
  else if addrlen <? sockaddr_in_size then Ok (TxDone (RErr EFAULT), st)
  else if negb (sin_family dest =? AF_INET) then Ok (TxDone (RErr EINVAL), st)
  else
    let* k := get_socket st sock in
    let* data := deref (s_data k) in
    let* hop := next_hop st data (sin_addr dest) in
    match hop with
    | None => Ok (TxDone (RErr ENETUNREACH), st)
    | Some (dev, route) => ipv4_tx_packet st cpu tid dev route (sin_addr dest) (sd_protocol data) buf junk
    end.

(** The loop of [ipv4_raw_rx_packet] over the raw sockets. *)
Fixpoint raw_loop (l : list Z) st (cpu protocol : Z) (source : sockaddr_in) (p : list Z) (found : bool)
    : outcome (bool * net D) :=
  match l with
  | [] => Ok (found, st)
  | cur :: l =>
      let* k := get_socket st cur in
      let* data := deref (s_data k) in
      if sd_protocol data =? protocol then
        let* payload := rdbytes p ipv4_size (zlen p - ipv4_size) in
        let* st := socket_rx_packet st cpu cur source sockaddr_in_size payload in
        raw_loop l st cpu protocol source p true
      else raw_loop l st cpu protocol source p found
  end.

Definition ipv4_raw_rx_packet st (cpu : Z) (p : list Z) : outcome (bool * net D) :=
  let* protocol := rd8 p 9 in
  let* src := rd32 p 12 in
  raw_loop (raw_sockets st) st cpu protocol (mk_sockaddr AF_INET protocol src) p false.

Definition ipv4_raw_create_socket st (sock : Z) : net D := set_raw_sockets (raw_sockets st ++ [sock]) st.

(** ** udp.c *)

Definition ip_port_hashf (addr port : Z) : Z := u32 (u32 (17 * 5 + addr) * 5 + port) mod 256.

(** The chains are linked through [s_next].  A walk of more sockets than there
    are goes around in a cycle. *)
Fixpoint udp_walk (fuel : nat) st (entry addr port : Z) : outcome Z :=
  if entry =? 0 then Ok 0
  else match fuel with
  | O => OutOfFuel
  | S fuel =>
      let* k := get_socket st entry in
      let* data := deref (s_data k) in
      if (sd_addr data =? addr) && (sd_port data =? port) then Ok entry else udp_walk fuel st (s_next k) addr port
  end.

Definition udp_fuel st : nat := S (size (sockets st)).

Definition udp_table_get st (addr port : Z) : outcome Z :=
  let* head := aget (udp_table (udp st)) (ip_port_hashf addr port) in
  udp_walk (udp_fuel st) st head addr port.

Definition udp_table_insert st (sock addr port : Z) : outcome (net D) :=
  let hash := ip_port_hashf addr port in
  let* k := get_socket st sock in
  let* head := aget (udp_table (udp st)) hash in
  let st := put_socket sock (set_s_next head k) st in
  let* table := aset (udp_table (udp st)) hash sock in
  Ok (set_udp (mk_udp_state table (next_eph_port (udp st))) st).

(** [cur] is the link at [prev], the table slot when [prev] is 0. *)
Fixpoint udp_remove_walk (fuel : nat) st (hash prev cur sock : Z) : outcome (net D) :=
  if cur =? 0 then Ok st
  else match fuel with
  | O => OutOfFuel
  | S fuel =>
      let* k := get_socket st cur in
      if cur =? sock then
        let* st :=
          if prev =? 0 then
            let* table := aset (udp_table (udp st)) hash (s_next k) in
            Ok (set_udp (mk_udp_state table (next_eph_port (udp st))) st)
          else let* p := get_socket st prev in Ok (put_socket prev (set_s_next (s_next k) p) st) in
        let* k := get_socket st sock in
        Ok (put_socket sock (set_s_next 0 k) st)
      else udp_remove_walk fuel st hash cur (s_next k) sock
  end.

Definition udp_table_remove st (sock addr port : Z) : outcome (net D) :=
  let hash := ip_port_hashf addr port in
  let* head := aget (udp_table (udp st)) hash in
  udp_remove_walk (udp_fuel st) st hash 0 head sock.

Definition udp_register st (sock : Z) (data : ipv4_sdata) : outcome (bool * net D) :=
  let* query := udp_table_get st (sd_addr data) (sd_port data) in
  if negb (query =? 0) then Ok (false, st)
  else let* st := udp_table_insert st sock (sd_addr data) (sd_port data) in Ok (true, st).

(** Every port is tried after 65536 rounds. *)
Fixpoint eph_loop (fuel : nat) st : outcome (Z * net D) :=
  match fuel with
  | O => OutOfFuel
  | S fuel =>
      let next_port := next_eph_port (udp st) in
      let st := set_udp (mk_udp_state (udp_table (udp st)) (u16 (next_port + 1))) st in
      let nport := native_to_be16 next_port in
      let* query := udp_table_get st 0 nport in
      if query =? 0 then Ok (nport, st) else eph_loop fuel st
  end.

Definition eph_fuel : nat := Z.to_nat 65536.
#[global] Opaque eph_fuel.

Definition udp_get_ephemeral_port st : outcome (Z * net D) := eph_loop eph_fuel st.

Definition udp_release st (sock : Z) : outcome (net D) :=
  let* k := get_socket st sock in
  if negb (s_bound k) then Ok st
  else
    let* data := deref (s_data k) in
    let* query := udp_table_get st (sd_addr data) (sd_port data) in
    if query =? 0 then Ok st
    else
      let* st := udp_table_remove st sock (sd_addr data) (sd_port data) in
      let* k := get_socket st sock in
      Ok (put_socket sock (set_s_data None k) st).

Definition udp_bind st (sock : Z) (addr : sockaddr_in) (addrlen : Z) : outcome (ret * net D) :=
  if addrlen <? sockaddr_in_size then Ok (RErr EFAULT, st)
  else if negb (sin_family addr =? AF_INET) then Ok (RErr EINVAL, st)
  else
    let* k := get_socket st sock in
    let* data := deref (s_data k) in
    let data := set_sd_port (sin_port addr) (set_sd_addr (sin_addr addr) data) in
    let st := put_socket sock (set_s_data (Some data) k) st in
    let* (registered, st) := udp_register st sock data in
    if negb registered then
      let* k := get_socket st sock in
      Ok (RErr EADDRINUSE, put_socket sock (set_s_bound false (set_s_data (Some (set_sd_port 0 data)) k)) st)
    else Ok (RVal 0, st).

(** A socket without a port gets one: the part of [udp_sendto] that does so. *)
Definition udp_autobind st (sock : Z) (data : ipv4_sdata) : outcome (option ipv4_sdata * net D) :=
  if negb (be16_to_native (sd_port data) =? 0) then Ok (Some data, st)
  else
    let* k := get_socket st sock in
    let st := put_socket sock (set_s_data (Some (set_sd_addr INADDR_ANY data)) k) st in
    let* (port, st) := udp_get_ephemeral_port st in
    let data := set_sd_port port (set_sd_addr INADDR_ANY data) in
    let* k := get_socket st sock in
    let st := put_socket sock (set_s_data (Some data) k) st in
    if negb (port =? 0) then let* st := udp_table_insert st sock (sd_addr data) port in Ok (Some data, st)
    else Ok (None, st).

Definition udp_sendto st (cpu tid sock : Z) (buf : list Z) (dest : sockaddr_in) (addrlen : Z) (junk : list Z)
    : outcome (tx * net D) :=
  if zlen buf =? 0 then Ok (TxDone (RVal 0), st)
  else if addrlen <? sockaddr_in_size then Ok (TxDone (RErr EFAULT), st)
  else if negb (sin_family dest =? AF_INET) then Ok (TxDone (RErr EINVAL), st)
  else
    let* k := get_socket st sock in
    let* data := deref (s_data k) in
    let* (bound, st) := udp_autobind st sock data in
    match bound with
    | None => Ok (TxDone (RErr EADDRINUSE), st)
    | Some data =>
        let* hop := next_hop st data (sin_addr dest) in
        match hop with
        | None => Ok (TxDone (RErr ENETUNREACH), st)
        | Some (dev, route) =>
            let packet := udp_bytes (mk_udp (sd_port data) (sin_port dest) (native_to_be16 (udp_size + zlen buf)) 0) ++ buf in
            ipv4_tx_packet st cpu tid dev route (sin_addr dest) IPPROTO_UDP packet junk
        end
    end.

Definition udp_rx_packet st (cpu : Z) (p : list Z) : outcome (net D) :=
  if zlen p <? ipv4_size + udp_size then Ok st
  else
    let* dst := rd32 p 16 in
    let* u := udp_parse (drop (Z.to_nat ipv4_size) p) in
    let* sock := udp_table_get st dst (dst_port u) in
    let* sock := if sock =? 0 then udp_table_get st 0 (dst_port u) else Ok sock in
    if sock =? 0 then Ok st
    else
      let* src := rd32 p 12 in
      let* payload := rdbytes p (ipv4_size + udp_size) (zlen p - ipv4_size - udp_size) in
      socket_rx_packet st cpu sock (mk_sockaddr AF_INET (src_port u) src) sockaddr_in_size payload.

(** ** Receiving: ipv4.c and ether.c *)

Definition ipv4_rx_packet st (cpu : Z) (p : list Z) : outcome (net D) :=
  let* (_, st) := ipv4_raw_rx_packet st cpu p in
  let* protocol := rd8 p 9 in
  if protocol =? IPPROTO_UDP then udp_rx_packet st cpu p else Ok st.

Definition ether_rx_packet st (cpu dev : Z) (p : list Z) : outcome (net D) :=
  let* d := get_netdev st dev in
  let* e := ether_parse p in
  if bool_decide (mac_dst e = nd_mac d) || bool_decide (mac_dst e = ether_mac_broadcast) then
    let type := be16_to_native (ether_type e) in
    let payload := drop (Z.to_nat ether_size) p in
    if type =? ETHER_TYPE_ARP then arp_rx_packet st cpu dev payload
    else if type =? ETHER_TYPE_IPV4 then ipv4_rx_packet st cpu payload
    else Ok st
  else Ok st.

(** ** ipv4.c: sockets *)

Definition ipv4_create_socket st (sock type protocol : Z) (k : socket) : outcome (ret * net D) :=
  if type =? SOCK_DGRAM then
    if negb (protocol =? 0) && negb (protocol =? IPPROTO_UDP) then Ok (RErr EINVAL, st)
    else
      Ok (RVal 0, put_socket sock (mk_socket (s_vnode k) ipv4_raw_iops ipv4_raw_fops udp_ops (Some (mk_sdata 0 0 0 protocol))
        (s_next k) (s_recv_queue k) (s_bound k)) st)
  else if type =? SOCK_RAW then
    if (protocol <? 0) || (255 <? protocol) then Ok (RErr EINVAL, st)
    else
      let k := mk_socket (s_vnode k) ipv4_raw_iops ipv4_raw_fops ipv4_raw_ops (Some (mk_sdata 0 0 0 protocol))
        (s_next k) (s_recv_queue k) (s_bound k) in
      Ok (RVal 0, ipv4_raw_create_socket (put_socket sock k st) sock)
  else Ok (RErr EINVAL, st).

(** ** socket.c *)

Definition register_socket_domain st (domain : Z) : net D := set_domains (domains st ++ [domain]) st.

Definition socket_bind st (sock : Z) (addr : sockaddr_in) (addrlen : Z) : outcome (ret * net D) :=
  let* k := get_socket st sock in
  if s_bound k then Ok (RErr EINVAL, st)
  else
    let st := put_socket sock (set_s_bound true k) st in
    match s_ops k with
    | ipv4_raw_ops => ipv4_raw_bind st sock addr addrlen
    | udp_ops => udp_bind st sock addr addrlen
    end.

Definition socket_put st (cpu sock : Z) : outcome (net D) :=
  let* st := wake_queue st cpu sock in
  let* k := get_socket st sock in
  let st := put_socket sock (set_s_recv_queue [] k) st in
  let* st := match s_ops k with ipv4_raw_ops => ipv4_raw_release st sock | udp_ops => udp_release st sock end in
  Ok (drop_queue (set_sockets (delete sock (sockets st)) st) sock).

Definition socket_sendto st (cpu tid sock : Z) (buf : list Z) (dest : sockaddr_in) (addrlen : Z) (junk : list Z)
    : outcome (tx * net D) :=
  let* k := get_socket st sock in
  match s_ops k with
  | ipv4_raw_ops => ipv4_raw_sendto st cpu tid sock buf dest addrlen junk
  | udp_ops => udp_sendto st cpu tid sock buf dest addrlen junk
  end.

Definition ipv4_init st : net D :=
  ipv4_init_raw (ipv4_init_route (register_socket_domain st AF_INET)).
End net.
