(* ===== verification/Delivery.v ===== *)
(** * Delivery of datagrams

    What the network stack promises its users: routing picks the matching
    entry of highest metric; a datagram that [udp_sendto] hands to the driver
    arrives in the receive queue of the socket bound to its port, with its
    bytes and its source; a task that waits for a datagram is woken by it and
    gets it. *)

From stdpp Require Import base numbers list gmap sets.
From Stdlib Require Import ZArith Lia.
From S2P Require Import Prelude Sched Wait Lookup Wire Net.

(** ** Routes *)

Definition route_matches (ip : Z) (r : ip_route_entry) : Prop := Z.land ip (rt_mask r) = Z.land (rt_dest r) (rt_mask r).

Lemma route_loop_spec ip l : forall best m,
  match route_loop l ip best m with
  | None => best = None /\ forall r, r ∈ l -> route_matches ip r -> rt_metric r <= m
  | Some r =>
      (best = Some r /\ forall r', r' ∈ l -> route_matches ip r' -> rt_metric r' <= m) \/
      (exists l1 l2, l = l1 ++ r :: l2 /\ route_matches ip r /\ m < rt_metric r /\
        (forall r', r' ∈ l1 -> route_matches ip r' -> rt_metric r' < rt_metric r) /\
        (forall r', r' ∈ l2 -> route_matches ip r' -> rt_metric r' <= rt_metric r))
  end.
Proof.
  induction l as [|cur l IH]; intros best m; cbn [route_loop].
  { destruct best; [left|]; split; try done; set_solver. }
  unfold route_matches in *. destruct (Z.eqb_spec (Z.land ip (rt_mask cur)) (Z.land (rt_dest cur) (rt_mask cur))) as [Em|Em];
    [destruct (Z.ltb_spec m (rt_metric cur)) as [Hm|Hm]|]; cbn [andb].
  - specialize (IH (Some cur) (rt_metric cur)). destruct (route_loop l ip (Some cur) (rt_metric cur)) as [r|]; [|by destruct IH].
    right. destruct IH as [[[= <-] Hl]|(l1 & l2 & -> & Hr & Hlt & H1 & H2)].
    + exists [], l. split; [done|]. split; [done|]. split; [done|]. split; [set_solver|done].
    + exists (cur :: l1), l2. split; [done|]. split; [done|]. split; [lia|]. split; [|done].
      intros r' [->|Hr']%elem_of_cons Hm'; [lia|by apply H1].
  - specialize (IH best m). destruct (route_loop l ip best m) as [r|].
    + destruct IH as [[-> Hl]|(l1 & l2 & -> & Hr & Hlt & H1 & H2)]; [left|right].
      * split; [done|]. intros r' [->|Hr']%elem_of_cons Hm'; [lia|by apply Hl].
      * exists (cur :: l1), l2. split_and!; try done. intros r' [->|Hr']%elem_of_cons Hm'; [lia|by apply H1].
    + destruct IH as [-> Hl]. split; [done|]. intros r' [->|Hr']%elem_of_cons Hm'; [lia|by apply Hl].
  - specialize (IH best m). destruct (route_loop l ip best m) as [r|].
    + destruct IH as [[-> Hl]|(l1 & l2 & -> & Hr & Hlt & H1 & H2)]; [left|right].
      * split; [done|]. intros r' [->|Hr']%elem_of_cons Hm'; [done|by apply Hl].
      * exists (cur :: l1), l2. split_and!; try done. intros r' [->|Hr']%elem_of_cons Hm'; [done|by apply H1].
    + destruct IH as [-> Hl]. split; [done|]. intros r' [->|Hr']%elem_of_cons Hm'; [done|by apply Hl].
Qed.

(** ** From [udp_sendto] to the wire *)

Section sender.
Context {D : Type} (send : D -> Z -> list Z -> outcome (ret * D)).
Implicit Types st : net D.

(** The socket has a port, and the way to the destination is known. *)
Record sender_ready st (sock : Z) (data : ipv4_sdata) (dest : sockaddr_in) (dev route : Z) (d : netdev) (e : arp_entry) : Prop := {
  sr_socket : exists k, sockets st !! sock = Some k /\ s_data k = Some data;
  sr_port : 0 < sd_port data < 65536;
  sr_dest : sin_family dest = AF_INET /\ 0 <= sin_port dest < 65536 /\ 0 <= sin_addr dest < 2 ^ 32;
  sr_hop : next_hop st data (sin_addr dest) = Ok (Some (dev, route));
  sr_dev : netdevs st !! dev = Some d;
  sr_ops : nd_ops d <> 0;
  sr_mac : length (nd_mac d) = 6%nat;
  sr_ip : 0 <= nd_ip_addr d < 2 ^ 32;
  sr_unicast : route <> nd_ip_broadcast d;
  sr_arp : arp_get_entry st route = Ok (Some e);
  sr_arp_mac : length (ae_mac e) = 6%nat;
}.

(** The frame of a datagram. *)
Definition frame_of (mac : list Z) (d : netdev) (h : ipv4_packet) (u : udp_packet) (buf : list Z) : list Z :=
  ether_bytes (mk_ether mac (nd_mac d) (native_to_be16 ETHER_TYPE_IPV4)) ++ ipv4_bytes h ++ udp_bytes u ++ buf.

Lemma bswap16_zero p : 0 < p < 65536 -> bswap16 p <> 0.
Proof. intros H E. pose proof (bswap16_involutive p ltac:(lia)) as Hi. rewrite E in Hi. change (bswap16 0) with 0 in Hi. lia. Qed.

(** [udp_sendto] gives the driver exactly one frame, that of the datagram. *)
Lemma udp_sendto_spec st cpu tid sock data dest dev route d e buf junk addrlen :
  sender_ready st sock data dest dev route d e -> buf <> [] -> sockaddr_in_size <= addrlen ->
  exists h u, ipv4_ok h /\ udp_ok u /\ src_addr h = nd_ip_addr d /\ dst_addr h = sin_addr dest /\ ip_protocol h = IPPROTO_UDP /\
    src_port u = sd_port data /\ dst_port u = sin_port dest /\
    udp_sendto send st cpu tid sock buf dest addrlen junk =
      (let* (r, drv) := send (driver st) dev (frame_of (ae_mac e) d h u buf) in
       Ok (TxDone r, set_driver drv (put_netdev dev (set_nd_ip_tx_id (u16 (nd_ip_tx_id d + 1)) d) st))).
Proof.
  intros R Hbuf Hal. destruct R as [(k & Hk & Hdata) Hport (Hfam & Hdp & Hda) Hhop Hdev Hops Hmac Hip Huni Harp Hamac].
  set (u := mk_udp (sd_port data) (sin_port dest) (native_to_be16 (udp_size + zlen buf)) 0).
  destruct (ipv4_header_spec (nd_ip_tx_id d) (nd_ip_addr d) (sin_addr dest) IPPROTO_UDP (zlen (udp_bytes u ++ buf)) Hip Hda)
    as (h & Hh & Hok & _ & Hsrc & Hdst & Hproto).
  exists h, u. split; [done|]. split; [pose proof (native_to_be16_range (udp_size + zlen buf)); unfold udp_ok, u; simpl in *; lia|].
  do 5 (split; [done|]). unfold udp_sendto. pose proof (zlen_nonneg buf).
  destruct (Z.eqb_spec (zlen buf) 0) as [E0|_]; [destruct buf; [done|rewrite zlen_cons in E0; pose proof (zlen_nonneg buf); lia]|].
  destruct (Z.ltb_spec addrlen sockaddr_in_size); [lia|]. rewrite Hfam, Z.eqb_refl. cbn [negb].
  unfold get_socket. rewrite Hk. cbn [deref outcome_bind]. rewrite Hdata. cbn [deref outcome_bind].
  unfold udp_autobind, be16_to_native. destruct (Z.eqb_spec (bswap16 (sd_port data)) 0) as [E|_]; [by apply bswap16_zero in E|].
  cbn [negb outcome_bind]. rewrite Hhop. cbn [outcome_bind]. fold u. unfold ipv4_tx_packet, get_netdev. rewrite Hdev.
  cbn [deref outcome_bind]. rewrite Hh. cbn [outcome_bind].
  destruct (Z.eqb_spec route (nd_ip_broadcast d)) as [|_]; [done|].
  unfold arp_search. change (arp_get_entry (put_netdev _ _ st) route) with (arp_get_entry st route). rewrite Harp. cbn [outcome_bind].
  unfold ether_tx_packet, get_netdev. cbn [put_netdev set_netdevs netdevs]. rewrite lookup_insert_eq. cbn [deref outcome_bind].
  cbn [set_nd_ip_tx_id nd_mac nd_ops]. destruct (Z.eqb_spec (nd_ops d) 0) as [|_]; [done|].
  unfold frame_of. cbn [driver]. by destruct (send _ _ _) as [[r drv]| | |].
Qed.
End sender.

(** ** From the wire to the receive queue *)

Section receiver.
Context {D : Type} (send : D -> Z -> list Z -> outcome (ret * D)).
Implicit Types st : net D.

(** No raw socket listens to the protocol. *)
Definition no_raw st (protocol : Z) : Prop :=
  forall r, r ∈ raw_sockets st -> exists k data, sockets st !! r = Some k /\ s_data k = Some data /\ sd_protocol data <> protocol.

Lemma raw_loop_none st cpu protocol source p l found :
  (forall r, r ∈ l -> exists k data, sockets st !! r = Some k /\ s_data k = Some data /\ sd_protocol data <> protocol) ->
  raw_loop l st cpu protocol source p found = Ok (found, st).
Proof.
  induction l as [|r l IH]; intros Hl; [done|]. cbn [raw_loop]. destruct (Hl r) as (k & data & Hk & Hd & Hp); [set_solver|].
  unfold get_socket. rewrite Hk. cbn [deref outcome_bind]. rewrite Hd. cbn [deref outcome_bind].
  destruct (Z.eqb_spec (sd_protocol data) protocol); [done|]. apply IH. set_solver.
Qed.

(** The socket that receives what arrives for the address and port: the one
    bound to both, else the one bound to the port alone. *)
Definition listens st (addr port sock : Z) : Prop :=
  sock <> 0 /\ (udp_table_get st addr port = Ok sock \/ (udp_table_get st addr port = Ok 0 /\ udp_table_get st 0 port = Ok sock)).

Record receiver_ready st (dev : Z) (mac : list Z) (addr port sock : Z) : Prop := {
  rr_dev : exists d, netdevs st !! dev = Some d /\ nd_mac d = mac;
  rr_raw : no_raw st IPPROTO_UDP;
  rr_sock : listens st addr port sock;
}.

(** A frame of a datagram is handed to the socket, whatever follows. *)
Lemma ether_rx_datagram st cpu dev mac d h u buf sock : length mac = 6%nat -> length (nd_mac d) = 6%nat ->
  ipv4_ok h -> udp_ok u -> ip_protocol h = IPPROTO_UDP -> receiver_ready st dev mac (dst_addr h) (dst_port u) sock ->
  ether_rx_packet send st cpu dev (frame_of mac d h u buf) =
    socket_rx_packet st cpu sock (mk_sockaddr AF_INET (src_port u) (src_addr h)) sockaddr_in_size buf.
Proof.
  intros Hmac Hmac' Hh Hu Hproto [(d2 & Hd2 & Hm2) Hraw (Hs0 & Hl)]. unfold ether_rx_packet, get_netdev, frame_of.
  rewrite Hd2. cbn [deref outcome_bind].
  destruct (ether_parse_bytes (mk_ether mac (nd_mac d) (native_to_be16 ETHER_TYPE_IPV4)) (ipv4_bytes h ++ udp_bytes u ++ buf))
    as [-> ->]; [done|done|apply native_to_be16_range|]. cbn [outcome_bind mac_dst ether_type].
  rewrite (bool_decide_true (mac = nd_mac d2)) by done. cbn [orb].
  change (be16_to_native (native_to_be16 ETHER_TYPE_IPV4)) with ETHER_TYPE_IPV4.
  change (ETHER_TYPE_IPV4 =? ETHER_TYPE_ARP) with false. rewrite Z.eqb_refl.
  destruct (ipv4_fields h (udp_bytes u ++ buf) Hh) as (H9 & H12 & H16 & Hdrop & Hlen).
  unfold ipv4_rx_packet, ipv4_raw_rx_packet. rewrite H9, H12. cbn [outcome_bind].
  rewrite raw_loop_none by (rewrite Hproto; exact Hraw). cbn [outcome_bind]. rewrite Hproto, Z.eqb_refl.
  unfold udp_rx_packet. assert (zlen (udp_bytes u ++ buf) = udp_size + zlen buf) as Hlu by by rewrite zlen_app.
  pose proof (zlen_nonneg buf). rewrite Hlen, Hlu. destruct (Z.ltb_spec (ipv4_size + (udp_size + zlen buf)) (ipv4_size + udp_size)); [lia|].
  rewrite H16. cbn [outcome_bind]. rewrite Hdrop, udp_parse_bytes by done. cbn [outcome_bind].
  assert ((let* s := udp_table_get st (dst_addr h) (dst_port u) in
           if s =? 0 then udp_table_get st 0 (dst_port u) else Ok s) = Ok sock) as Hget.
  { destruct Hl as [->|[-> ->]]; cbn [outcome_bind]; [by destruct (Z.eqb_spec sock 0)|done]. }
  destruct (udp_table_get st (dst_addr h) (dst_port u)) as [s0| | |]; cbn [outcome_bind] in *; try done.
  rewrite Hget. cbn [outcome_bind]. destruct (Z.eqb_spec sock 0) as [|_]; [done|]. rewrite H12. cbn [outcome_bind].
  rewrite app_assoc. replace (ipv4_size + (udp_size + zlen buf) - ipv4_size - udp_size)
    with (zlen ((ipv4_bytes h ++ udp_bytes u) ++ buf) - (ipv4_size + udp_size)).
  - rewrite rdbytes_tail; [done|]. by rewrite zlen_app.
  - rewrite zlen_app. change (zlen (ipv4_bytes h ++ udp_bytes u)) with (ipv4_size + udp_size). lia.
Qed.

(** Delivery when nobody waits. *)
Lemma rx_unwaited st cpu sock k source addrlen payload : sockets st !! sock = Some k -> wq_queues (nwait st) !! sock = Some [] ->
  exists st', socket_rx_packet st cpu sock source addrlen payload = Ok st' /\ nwait st' = nwait st /\ nsched st' = nsched st /\
    sockets st' = <[sock := set_s_recv_queue (s_recv_queue k ++ [mk_recv payload addrlen source]) k]> (sockets st).
Proof.
  intros Hk Hq. unfold socket_rx_packet, get_socket. rewrite Hk. cbn [deref outcome_bind].
  unfold wake_queue, wait_queue_wake. cbn [put_socket set_sockets nwait nsched]. rewrite Hq. cbn [deref outcome_bind wake_loop].
  eexists. split; [reflexivity|]. done.
Qed.

(** A receiver that finds one packet gets its bytes, cut to its buffer. *)
Lemma recvfrom_only st cpu tid sock len k buf source addrlen m :
  0 <= len -> sockets st = <[sock := set_s_recv_queue [mk_recv buf addrlen source] k]> m ->
  exists st', socket_recvfrom st cpu tid sock len =
    Ok (Received (RVal (Z.min len (zlen buf))) (take (Z.to_nat len) buf) (Some source) addrlen, st').
Proof.
  intros Hlen Hsock. unfold socket_recvfrom, get_socket. rewrite Hsock, lookup_insert_eq. cbn [deref outcome_bind].
  cbn [set_s_recv_queue s_recv_queue]. rewrite bool_decide_false by done.
  unfold recv_take, get_socket. rewrite Hsock, lookup_insert_eq. cbn [deref outcome_bind].
  cbn [set_s_recv_queue s_recv_queue re_bytes re_source re_addrlen]. eexists. f_equal. f_equal.
  destruct (Z.ltb_spec len (zlen buf)).
  - by rewrite Z.min_l by lia.
  - rewrite Z.min_r by lia. f_equal. rewrite !take_ge; [done| |]; unfold zlen in *; lia.
Qed.
End receiver.


(** Two hosts, 10.0.0.1 and 10.0.0.2; the first has port 5000, the second 7. *)
Definition wire_send (sent : list (list Z)) (dev : Z) (frame : list Z) : outcome (ret * list (list Z)) :=
  Ok (RVal (zlen frame), sent ++ [frame]).

Definition ip_1 : Z := 10 + 2 ^ 24.
Definition ip_2 : Z := 10 + 2 * 2 ^ 24.
Definition mac_1 : list Z := [2; 0; 0; 0; 0; 1].
Definition mac_2 : list Z := [2; 0; 0; 0; 0; 2].

Definition host (mac : list Z) (ip peer port : Z) (peer_mac : list Z) : net (list (list Z)) :=
  mk_net {[16 := mk_netdev [101] mac ip 0 0xFFFFFFFF 0 1]} [16]
    (mk_arp_state (<[Z.to_nat (peer mod 32) := [mk_arp_entry peer 1 peer_mac 16]]> (replicate 32 [])) (replicate 32 []))
    [mk_route 16 0 peer 0 1 1500] [AF_INET]
    {[32 := mk_socket 0 ipv4_raw_iops ipv4_raw_fops udp_ops (Some (mk_sdata 0 0 (native_to_be16 port) 0)) 0 [] true]} []
    (mk_udp_state (<[Z.to_nat (ip_port_hashf 0 (native_to_be16 port)) := 32]> (replicate 256 0)) ephemeral_port_start)
    (mk_wait {[32 := []]} {[11 := (0, 11)]}) two_cpus 64 [].

Definition host_1 : net (list (list Z)) := host mac_1 ip_1 ip_2 5000 mac_2.
Definition host_2 : net (list (list Z)) := host mac_2 ip_2 ip_1 7 mac_1.
Definition to_host_2 : sockaddr_in := mk_sockaddr AF_INET (native_to_be16 7) ip_2.

Lemma host_1_ready : sender_ready host_1 32 (mk_sdata 0 0 (native_to_be16 5000) 0) to_host_2 16 ip_2
  (mk_netdev [101] mac_1 ip_1 0 0xFFFFFFFF 0 1) (mk_arp_entry ip_2 1 mac_2 16).
Proof. split; try done; by eexists. Qed.

Lemma host_2_ready : receiver_ready host_2 16 mac_2 ip_2 (native_to_be16 7) 32.
Proof.
  split.
  - by eexists.
  - intros r Hr. set_solver.
  - split; [done|]. right. by vm_compute.
Qed.


(** ** Waiting for a datagram *)

Section waiting.
Context {D : Type}.
Implicit Types st : net D.

(** The node of task [tid] is on no queue. *)
Definition detached st (tid : Z) : Prop :=
  wq_nodes (nwait st) !! tid = Some (0, tid) /\ forall q l, wq_queues (nwait st) !! q = Some l -> tid ∉ l.

(** Task [tid] sleeps, alone, on the queue of the empty socket. *)
Record waiting st (tid sock : Z) : Prop := {
  wt_socket : exists k, sockets st !! sock = Some k /\ s_recv_queue k = [];
  wt_queue : wq_queues (nwait st) !! sock = Some [tid];
  wt_node : wq_nodes (nwait st) !! tid = Some (sock, tid);
  wt_other : forall q l, q <> sock -> wq_queues (nwait st) !! q = Some l -> tid ∉ l;
  wt_task : exists t, tasks (nsched st) !! tid = Some t /\ t_status t = TASK_INTR_SLEEPING;
}.

(** Task [tid] may run again, and the packet is at the head of the queue. *)
Record woken st (tid sock : Z) (entry : recv_queue_entry) : Prop := {
  wk_socket : exists k rest, sockets st !! sock = Some k /\ s_recv_queue k = entry :: rest;
  wk_queue : exists l, wq_queues (nwait st) !! sock = Some l;
  wk_node : detached st tid;
  wk_task : exists t, tasks (nsched st) !! tid = Some t /\ t_status t = TASK_RUNNING;
}.

Lemma detached_unlinked st tid : detached st tid -> node_linked (nwait st) tid = false.
Proof.
  intros [_ Hd]. destruct (node_linked (nwait st) tid) eqn:E; [|done]. apply node_linked_spec in E as (q & l & Hq & Hl). by apply Hd in Hq.
Qed.

Lemma register_detached st tid q l : detached st tid -> wq_queues (nwait st) !! q = Some l ->
  wait_queue_register (nwait st) q tid =
    Ok (mk_wait (<[q := l ++ [tid]]> (wq_queues (nwait st))) (<[tid := (q, tid)]> (wq_nodes (nwait st)))).
Proof.
  intros Hd Hq. unfold wait_queue_register. rewrite (proj1 Hd). cbn [deref outcome_bind]. rewrite Hq. cbn [deref outcome_bind].
  by rewrite detached_unlinked.
Qed.

(** An empty queue puts the caller to sleep. *)
Lemma recv_blocks st cpu tid sock len k t c : sockets st !! sock = Some k -> s_recv_queue k = [] ->
  wq_queues (nwait st) !! sock = Some [] -> detached st tid -> sched_inv (nsched st) ->
  aget (cpus (nsched st)) cpu = Ok c -> current c = tid -> tasks (nsched st) !! tid = Some t ->
  t_status t = TASK_RUNNING -> signal_pending t = false ->
  exists st1, socket_recvfrom st cpu tid sock len = Ok (RecvBlocked TASK_RUNNING, st1) /\ waiting st1 tid sock /\ sched_inv (nsched st1).
Proof.
  intros Hk He Hq Hdet Hinv Hc Hcur Ht Hst Hsig. unfold socket_recvfrom, get_socket. rewrite Hk. cbn [deref outcome_bind].
  rewrite He, bool_decide_true by done. unfold recv_round. rewrite (register_detached st tid sock []) by done. cbn [outcome_bind app].
  rewrite (cas_status_ok _ _ t) by done. cbn [outcome_bind]. unfold get_socket. cbn [set_nsched set_nwait sockets]. rewrite Hk.
  cbn [deref outcome_bind]. rewrite He, bool_decide_true by done. cbn [negb]. unfold get_task. cbn [put_task set_tasks tasks].
  rewrite lookup_insert_eq. cbn [deref outcome_bind]. change (signal_pending (set_t_status TASK_INTR_SLEEPING t)) with (signal_pending t).
  rewrite Hsig. set (s1 := put_task (nsched st) tid (set_t_status TASK_INTR_SLEEPING t)).
  assert (tasks s1 !! tid = Some (set_t_status TASK_INTR_SLEEPING t)) as Ht1 by apply lookup_insert_eq.
  destruct (schedule_spec s1 cpu c (set_t_status TASK_INTR_SLEEPING t)) as (s2 & Hs2 & Hinv2 & Hts & _).
  { by apply sched_inv_put with t. }
  { done. }
  { by rewrite Hcur. }
  { done. }
  unfold sched_yield. rewrite Hs2. cbn [outcome_bind]. eexists. split; [reflexivity|]. split; [|done].
  split; cbn [set_nsched set_nwait sockets nwait nsched wq_queues wq_nodes].
  - by exists k.
  - apply lookup_insert_eq.
  - apply lookup_insert_eq.
  - intros q l Hne. rewrite lookup_insert_ne by done. apply (proj2 Hdet).
  - eexists. by rewrite Hts.
Qed.

(** A packet for the socket wakes the task. *)
Lemma rx_wakes st cpu tid sock source addrlen payload c : waiting st tid sock -> aget (cpus (nsched st)) cpu = Ok c ->
  exists st', socket_rx_packet st cpu sock source addrlen payload = Ok st' /\
    made_ready (nsched st) (nsched st') cpu [tid] /\ woken st' tid sock (mk_recv payload addrlen source).
Proof.
  intros [(k & Hk & He) Hq Hn Ho (t & Ht & Hst)] Hc. unfold socket_rx_packet, get_socket. rewrite Hk. cbn [deref outcome_bind].
  unfold wake_queue, wait_queue_wake. cbn [put_socket set_sockets nwait nsched]. rewrite Hq. cbn [deref outcome_bind].
  assert (node_task (nwait st) tid = tid) as Hnt by (unfold node_task; by rewrite Hn).
  destruct (wake_loop_spec [tid] sock (nwait st) (nsched st) cpu c Hc) as (w' & s' & Hrun & Hready & Hq' & Hnodes & _); [|done|].
  { split; [apply NoDup_singleton|]. intros n ->%list_elem_of_singleton. exists sock, t. by rewrite Hnt. }
  rewrite Hrun. cbn [outcome_bind]. cbn [fmap list_fmap] in Hready. rewrite Hnt in Hready. eexists. split; [reflexivity|]. split; [done|].
  destruct Hready as (Hr & _). destruct (Hr tid) as (t' & Ht' & Hrun'); [set_solver|].
  split; cbn [set_nsched set_nwait put_socket set_sockets sockets nwait nsched].
  - eexists _, []. rewrite lookup_insert_eq. split; [done|]. cbn [set_s_recv_queue s_recv_queue]. by rewrite He.
  - by exists [].
  - split; cbn [set_nsched set_nwait nwait]; [rewrite Hnodes by set_solver; by rewrite Hnt|].
    intros q l Hl. destruct (decide (q = sock)) as [->|Hne]; [rewrite Hq' in Hl; injection Hl as <-; set_solver|].
    rewrite (wake_loop_queues _ _ _ _ _ _ _ Hrun q Hne) in Hl. by apply Ho in Hl.
  - eexists. split; [done|]. done.
Qed.

(** Leaving the queue. *)
Lemma leave_registered st tid sock l t : wq_nodes (nwait st) !! tid = Some (sock, tid) -> sock <> 0 ->
  wq_queues (nwait st) !! sock = Some l -> tid ∈ l -> tasks (nsched st) !! tid = Some t -> t_status t = TASK_INTR_SLEEPING ->
  recv_leave st tid = Ok (set_nsched (put_task (nsched st) tid (set_t_status TASK_RUNNING t))
    (set_nwait (mk_wait (<[sock := filter (fun n => n <> tid) l]> (wq_queues (nwait st))) (<[tid := (0, tid)]> (wq_nodes (nwait st)))) st)).
Proof.
  intros Hn Hs0 Hq Hl Ht Hst. unfold recv_leave, wait_queue_unregister. rewrite Hn. cbn [deref outcome_bind].
  destruct (Z.eqb_spec sock 0) as [|_]; [done|]. rewrite Hq. cbn [deref outcome_bind].
  assert (node_linked (nwait st) tid = true) as -> by (apply node_linked_spec; eauto). cbn [outcome_bind].
  by rewrite (cas_status_ok _ _ t).
Qed.

(** The woken task takes the packet. *)
Lemma woken_receives st cpu tid sock len entry : woken st tid sock entry -> sock <> 0 -> 0 <= len ->
  exists st', recv_round st cpu tid sock len TASK_RUNNING =
      Ok (Received (RVal (Z.min len (zlen (re_bytes entry)))) (take (Z.to_nat len) (re_bytes entry)) (Some (re_source entry))
        (re_addrlen entry), st') /\
    detached st' tid /\ exists t, tasks (nsched st') !! tid = Some t /\ t_status t = TASK_RUNNING.
Proof.
  intros [(k & rest & Hk & He) (l & Hq) Hdet (t & Ht & Hst)] Hs0 Hlen. unfold recv_round.
  rewrite (register_detached st tid sock l) by done. cbn [outcome_bind]. rewrite (cas_status_ok _ _ t) by done. cbn [outcome_bind].
  set (st1 := set_nsched _ _). unfold get_socket. change (sockets st1) with (sockets st). rewrite Hk. cbn [deref outcome_bind].
  rewrite He, bool_decide_false by done. cbn [negb].
  rewrite (leave_registered st1 tid sock (l ++ [tid]) (set_t_status TASK_INTR_SLEEPING t));
    [|apply lookup_insert_eq|done|apply lookup_insert_eq|set_solver|apply lookup_insert_eq|done].
  cbn [outcome_bind]. unfold recv_take, get_socket. cbn [set_nsched set_nwait sockets]. change (sockets st1) with (sockets st).
  rewrite Hk. cbn [deref outcome_bind]. rewrite He. eexists. split; [|split].
  - f_equal. f_equal. destruct (Z.ltb_spec len (zlen (re_bytes entry))); [by rewrite Z.min_l by lia|].
    rewrite Z.min_r by lia. f_equal. rewrite !take_ge; [done| |]; unfold zlen in *; lia.
  - split; [apply lookup_insert_eq|]. intros q l' Hl'. cbn [put_socket set_sockets set_nsched set_nwait nwait wq_queues st1] in Hl'.
    destruct (decide (q = sock)) as [->|Hne].
    + rewrite lookup_insert_eq in Hl'. injection Hl' as <-. rewrite list_elem_of_filter. tauto.
    + rewrite !lookup_insert_ne in Hl' by done. by apply (proj2 Hdet) in Hl'.
  - eexists. split; [apply lookup_insert_eq|done].
Qed.

End waiting.

Lemma host_2_detached : detached host_2 11.
Proof. split; [done|]. intros q l Hq. change (({[32 := []]} : gmap Z (list Z)) !! q = Some l) in Hq. apply lookup_singleton_Some in Hq as [_ <-]. set_solver. Qed.

