(* ===== verification/Socket.v ===== *)
(** * Sockets as files

    The parts of kernel/net/socket.c that make and open the node of a socket,
    the device controls of kernel/net/ipv4/ipv4.c and the system calls of
    kernel/net/socket_sys.c.  The private data of the file layer (Dcache.v) is
    the network state (Net.v), so the node of a socket and the socket live in
    one state.  What a user pointer points at is an argument. *)

From stdpp Require Import base numbers list gmap sets.
From Stdlib Require Import ZArith Lia.
From S2P Require Import Prelude Sched Wait Device Dcache Lookup Vfs Vmm Wire Net Delivery.

(** [struct rtentry], the fields that are used. *)
Record rtentry := mk_rtentry {
  rte_dst : sockaddr_in; rte_gateway : sockaddr_in; rte_genmask : sockaddr_in; rte_metric : Z; rte_mtu : Z
}.

Section socket.
Context {D : Type} (send : D -> Z -> list Z -> outcome (ret * D)).
Context (iops_at : Z -> option (inode_ops (net D))) (sops_at : Z -> option (super_ops (net D))).
Context (fops_at : Z -> option (file_ops (net D))) (no_return : ret).

(** The processor and the task that run the call. *)
Context (cpu tid : Z).

Implicit Types s : vfs (net D).

(** ** ipv4_ioctl *)

(** What the argument of a control points at. *)
Record ioctl_arg := mk_ioctl_arg { ia_name : list Z; ia_addr : sockaddr_in; ia_route : rtentry }.

(** The socket of an open file, when its node has one. *)
Definition file_socket s (file : Z) : outcome Z :=
  let* f := aget (open_files s) file in
  let* n := get_node s (f_inode f) in
  Ok (n_data n).

(** The bytes stored at the argument, and the new state. *)
Definition ipv4_ioctl s (file op arg : Z) (user : ioctl_arg) : outcome (ret * list Z * vfs (net D)) :=
  let st := priv s in
  let* sock := file_socket s file in
  if sock =? 0 then Ok (RErr ENOTTY, [], s)
  else
    let* k := get_socket st sock in
    let* data := deref (s_data k) in
    if op =? 1 then
      if negb (vm_validate_ptr arg) then Ok (RErr EFAULT, [], s)
      else
        let* dev := netdev_lookup st (ia_name user) in
        if dev =? 0 then Ok (RErr ENODEV, [], s)
        else Ok (RVal 0, [], set_priv (put_socket sock (set_s_data (Some (set_sd_device dev data)) k) st) s)
    else if op =? 2 then
      if negb (vm_validate_ptr arg) then Ok (RErr EFAULT, [], s)
      else if sd_device data =? 0 then Ok (RErr ENODEV, [], s)
      else let* d := get_netdev st (sd_device data) in Ok (RVal 0, nd_mac d, s)
    else if (op =? 3) || (op =? 4) then
      if negb (vm_validate_ptr arg) then Ok (RErr EFAULT, [], s)
      else if sd_device data =? 0 then Ok (RErr ENODEV, [], s)
      else if negb (sin_family (ia_addr user) =? AF_INET) then Ok (RErr EINVAL, [], s)
      else
        let* d := get_netdev st (sd_device data) in
        let d := if op =? 3 then set_nd_ip_addr (sin_addr (ia_addr user)) d else set_nd_ip_subnet (sin_addr (ia_addr user)) d in
        Ok (RVal 0, [], set_priv (put_netdev (sd_device data) d st) s)
    else if op =? 5 then
      if negb (vm_validate_ptr arg) then Ok (RErr EFAULT, [], s)
      else if sd_device data =? 0 then Ok (RErr ENODEV, [], s)
      else
        let rt := ia_route user in
        if negb (sin_family (rte_dst rt) =? AF_INET) then Ok (RErr EINVAL, [], s)
        else if negb (sin_family (rte_gateway rt) =? AF_INET) then Ok (RErr EINVAL, [], s)
        else if negb (sin_family (rte_genmask rt) =? AF_INET) then Ok (RErr EINVAL, [], s)
        else
          let entry := mk_route (sd_device data) (sin_addr (rte_dst rt)) (sin_addr (rte_gateway rt)) (sin_addr (rte_genmask rt))
            (u16 (rte_metric rt)) (u16 (rte_mtu rt)) in
          Ok (RVal 0, [], set_priv (ip_route_add st entry) s)
    else Ok (RErr EINVAL, [], s).

(** ** socket.c *)

(** The result is the socket, or the error. *)
Definition socket_create s (domain type protocol : Z) : outcome ((errno + Z) * vfs (net D)) :=
  let '(sock, st) := net_alloc (priv s) in
  if negb (bool_decide (domain ∈ domains st)) then Ok (inl EAFNOSUPPORT, set_priv st s)
  else
    let* (status, st) := ipv4_create_socket st sock type protocol (mk_socket 0 0 0 udp_ops None 0 [] false) in
    match status with
    | RErr e => Ok (inl e, set_priv st s)
    | RVal _ =>
        let* k := get_socket st sock in
        let '(inode, s) := vnode_new (set_priv st s) (Z.lor S_IFSOCK 0x1fd) in
        let* n := get_node s inode in
        let s := put_node inode (set_n_fops (s_fops k) (set_n_iops (s_iops k) (set_n_data sock n))) s in
        let k := set_s_recv_queue [] (set_s_next 0 (set_s_bound false (set_s_vnode inode k))) in
        let st := put_socket sock k (priv s) in
        Ok (inr sock, set_priv (set_nwait (wait_queue_init (nwait st) sock) st) s)
    end.

Definition socket_open s (sock : Z) : outcome (ret * vfs (net D)) :=
  let* k := get_socket (priv s) sock in
  vfs_open_internal fops_at s (s_vnode k) 0 0.

(** [socket_put] as the release of nodes calls it. *)
Definition put_socket_node (st : net D) (sock : Z) : outcome (net D) := socket_put st cpu sock.

(** ** socket_sys.c *)

Definition sys_socket s (domain type protocol : Z) : outcome (ret * vfs (net D)) :=
  let* (r, s) := socket_create s domain type protocol in
  match r with
  | inl e => Ok (RErr e, s)
  | inr sock =>
      let* (s_fd, s) := socket_open s sock in
      match s_fd with
      | RErr _ => let* st := socket_put (priv s) cpu sock in Ok (s_fd, set_priv st s)
      | RVal v =>
          if v <? 0 then let* st := socket_put (priv s) cpu sock in Ok (s_fd, set_priv st s)
          else
            let* files := task_files s in
            match first_fd (fun f => f <? 0) files 0 with
            | None => let* (_, s) := vfs_close fops_at put_socket_node no_return s v in Ok (RErr EMFILE, s)
            | Some fd => let* s := set_task_file s fd v in Ok (RVal fd, s)
            end
      end
  end.

(** The socket behind a descriptor: the guard of the other calls. *)
Definition with_socket s (sockfd : Z) : outcome (errno + Z) :=
  let* v := with_file s sockfd in
  match v with
  | None => Ok (inl EBADF)
  | Some v_fd =>
      let* f := aget (open_files s) v_fd in
      let* n := get_node s (f_inode f) in
      Ok (if S_ISSOCK (n_mode n) then inr (n_data n) else inl ENOTSOCK)
  end.

Definition sys_bind s (sockfd addr : Z) (sa : sockaddr_in) (addrlen : Z) : outcome (ret * vfs (net D)) :=
  if negb (vm_validate_ptr addr) then Ok (RErr EFAULT, s)
  else
    let* r := with_socket s sockfd in
    match r with
    | inl e => Ok (RErr e, s)
    | inr sock => let* (r, st) := socket_bind (priv s) sock sa addrlen in Ok (r, set_priv st s)
    end.

Definition sys_recvfrom s (sockfd buffer len src_addr addrlen : Z) : outcome (recv_result * vfs (net D)) :=
  if negb (vm_validate_ptr buffer) then Ok (Received (RErr EFAULT) [] None 0, s)
  else if negb (vm_validate_ptr src_addr) then Ok (Received (RErr EFAULT) [] None 0, s)
  else if negb (vm_validate_ptr addrlen) then Ok (Received (RErr EFAULT) [] None 0, s)
  else
    let* r := with_socket s sockfd in
    match r with
    | inl e => Ok (Received (RErr e) [] None 0, s)
    | inr sock => let* (r, st) := socket_recvfrom (priv s) cpu tid sock len in Ok (r, set_priv st s)
    end.

Definition sys_sendto s (sockfd buffer : Z) (bytes : list Z) (dst_addr : Z) (sa : sockaddr_in) (addrlen : Z) (junk : list Z)
    : outcome (tx * vfs (net D)) :=
  if negb (vm_validate_ptr buffer) then Ok (TxDone (RErr EFAULT), s)
  else if negb (vm_validate_ptr dst_addr) then Ok (TxDone (RErr EFAULT), s)
  else
    let* r := with_socket s sockfd in
    match r with
    | inl e => Ok (TxDone (RErr e), s)
    | inr sock => let* (r, st) := socket_sendto send (priv s) cpu tid sock bytes sa addrlen junk in Ok (r, set_priv st s)
    end.
End socket.

(** ** A socket that got its port by sending *)

Section autobind.
Context {D : Type}.
Implicit Types st : net D.

Lemma eph_loop_frame fuel : forall st port st', eph_loop fuel st = Ok (port, st') ->
  sockets st' = sockets st /\ nwait st' = nwait st /\ nsched st' = nsched st.
Proof.
  induction fuel as [|fuel IH]; intros st port st' H; [done|]. cbn [eph_loop] in H.
  destruct (udp_table_get _ _ _) as [q| | |]; cbn [outcome_bind] in H; try done.
  destruct (q =? 0); [by injection H as <- <-|]. apply IH in H as (-> & -> & ->). done.
Qed.

Lemma ephemeral_frame st port st' : udp_get_ephemeral_port st = Ok (port, st') ->
  sockets st' = sockets st /\ nwait st' = nwait st /\ nsched st' = nsched st.
Proof. apply eph_loop_frame. Qed.

(** The first datagram of a socket without a port registers it but does not
    set [bound]; when the socket is closed it stays in the table, and the next
    search of its chain uses the freed socket. *)
Theorem autobind_dangles st cpu sock k data data' st1 :
  sockets st !! sock = Some k -> s_ops k = udp_ops -> s_bound k = false -> sock <> 0 -> wq_queues (nwait st) !! sock = Some [] ->
  be16_to_native (sd_port data) = 0 -> udp_autobind st sock data = Ok (Some data', st1) ->
  exists st2, socket_put st1 cpu sock = Ok st2 /\ udp_table_get st2 (sd_addr data') (sd_port data') = Fault.
Proof.
  intros Hk Hops Hb Hs0 Hq Hp H. unfold udp_autobind in H. rewrite Hp in H. cbn [Z.eqb negb] in H. unfold get_socket in H. rewrite Hk in H.
  cbn [deref outcome_bind] in H. destruct (udp_get_ephemeral_port _) as [[port sta]| | |] eqn:Ee; cbn [outcome_bind] in H; try done.
  apply ephemeral_frame in Ee as (Es & Ew & _). rewrite Es in H. cbn [put_socket set_sockets sockets] in H. rewrite lookup_insert_eq in H.
  cbn [deref outcome_bind] in H. destruct (Z.eqb_spec port 0); [done|]. cbn [negb] in H. unfold udp_table_insert, get_socket in H.
  cbn [put_socket set_sockets sockets udp] in H. rewrite lookup_insert_eq in H. cbn [deref outcome_bind] in H.
  cbn [set_sd_port set_sd_addr sd_addr] in H. set (hash := ip_port_hashf INADDR_ANY port) in H.
  destruct (aget (udp_table (udp sta)) hash) as [head| | |]; cbn [outcome_bind] in H; try done.
  destruct (aset (udp_table (udp sta)) hash sock) as [table| | |] eqn:Et; cbn [outcome_bind] in H; try done.
  injection H as <- <-. unfold socket_put, wake_queue, wait_queue_wake. cbn [set_udp put_socket set_sockets nwait nsched sockets].
  rewrite Ew. cbn [put_socket set_sockets nwait]. rewrite Hq. cbn [deref outcome_bind wake_loop]. unfold get_socket.
  cbn [set_nsched set_nwait set_udp put_socket set_sockets sockets]. rewrite lookup_insert_eq. cbn [deref outcome_bind].
  cbn [set_s_next set_s_data s_ops].
  rewrite Hops. unfold udp_release, get_socket. cbn [put_socket set_sockets sockets]. rewrite lookup_insert_eq. cbn [deref outcome_bind].
  cbn [set_s_recv_queue set_s_next set_s_data s_bound]. rewrite Hb. cbn [negb outcome_bind]. eexists. split; [reflexivity|].
  unfold udp_table_get. cbn [drop_queue set_nwait set_nsched set_udp put_socket set_sockets udp set_sd_port set_sd_addr sd_addr sd_port udp_table]. fold hash.
  assert (aget table hash = Ok sock) as ->.
  { unfold aset in Et. destruct ((0 <=? hash) && (hash <? zlen (udp_table (udp sta)))) eqn:Er; [|done]. injection Et as <-. bool_to_prop.
    apply aget_Ok. split; [done|]. apply list_lookup_insert_eq. unfold zlen in *. lia. }
  cbn [outcome_bind]. unfold udp_fuel. cbn [udp_walk]. destruct (Z.eqb_spec sock 0); [done|]. unfold get_socket.
  cbn [drop_queue set_nwait set_sockets sockets]. by rewrite lookup_delete_eq.
Qed.
End autobind.
