(* ===== verification/Time.v ===== *)
(** * Clocks and timers

    kernel/dev/rtc.c, kernel/sys/clock.c and kernel/sys/timer.c.  The
    registers of the clock chip are a parameter; the loop that waits for the
    end of an update sees one reading of the status register per round.  A
    clock source or a timer device is a record with what the selection uses;
    reading and starting a device are parameters. *)

From stdpp Require Import base numbers list gmap sets.
From Stdlib Require Import ZArith Lia.
From S2P Require Import Prelude KList Sched Wait Vmm.

(** ** rtc.c *)

Definition bcd_to_bin (bcd : Z) : Z := u8 (Z.shiftr bcd 4 * 10 + Z.land bcd 0xF).

Definition is_leap_year (y : Z) : bool :=
  (Z.rem y 4 =? 0) && (negb (Z.rem y 100 =? 0) || (Z.rem y 400 =? 0)).

Definition days_per_month : list Z := [31; 28; 31; 30; 31; 30; 31; 31; 30; 31; 30; 31].

(** The loop over the months before [month], from month [m]. *)
Fixpoint month_loop (n : nat) (m year y_day : Z) : outcome Z :=
  match n with
  | O => Ok y_day
  | S n =>
      let* days := if (m =? 2) && is_leap_year year then Ok 29 else aget days_per_month (m - 1) in
      month_loop n (m + 1) year (y_day + days)
  end.

(** The last expression of [rtc_read].  The terms of the year are [int], the
    days are 64-bit. *)
Definition rtc_epoch (r_year y_day hours minutes seconds : Z) : outcome Z :=
  let* a := int32 (Z.quot (r_year + 299) 400 * 86400) in
  let* b := int32 (Z.quot (r_year - 1) 100 * 86400) in
  let* c := int32 (Z.quot (r_year - 69) 4 * 86400) in
  let* d := int32 ((r_year - 70) * 31536000) in
  let* ab := int32 (a - b) in
  let* abc := int32 (ab + c) in
  let* abcd := int32 (abc + d) in
  Ok (s64 (abcd + y_day * 86400 + hours * 3600 + minutes * 60 + seconds)).

Section rtc.
(** [status n] is the [n]th reading of register A, [cmos] the registers after
    the update. *)
Context (status : nat -> Z) (cmos : Z -> Z).

Fixpoint rtc_wait (fuel : nat) (round : nat) : outcome unit :=
  match fuel with
  | O => OutOfFuel
  | S fuel => if has (status round) 0x80 then rtc_wait fuel (S round) else Ok tt
  end.

(** The four-digit year. *)
Definition full_year (century_register year : Z) : Z :=
  if negb (century_register =? 0) then u16 (bcd_to_bin (cmos century_register) * 100 + year)
  else if 70 <=? year then 1900 + year else 2000 + year.

Definition rtc_read (fuel : nat) (century_register : Z) : outcome Z :=
  let* _ := rtc_wait fuel 0 in
  let seconds := bcd_to_bin (cmos 0x00) in
  let minutes := bcd_to_bin (cmos 0x02) in
  let hours := bcd_to_bin (cmos 0x04) in
  let day := bcd_to_bin (cmos 0x07) in
  let month := bcd_to_bin (cmos 0x08) in
  let year := bcd_to_bin (cmos 0x09) in
  let r_year := full_year century_register year in
  let* y_day := month_loop (Z.to_nat (month - 1)) 1 r_year 0 in
  rtc_epoch (u16 (r_year - 1900)) (y_day + (day - 1)) hours minutes seconds.
End rtc.

(** ** clock.c *)

Record clocksource_t := mk_source { cs_id : Z; cs_priority : Z }.

(** [ck_enabled] lists the sources that were enabled and not disabled since. *)
Record clocks := mk_clocks {
  ck_sources : list clocksource_t; ck_current : option clocksource_t; ck_max_prio : Z; ck_boot_time : Z; ck_enabled : list Z
}.

Definition clocksource_register (c : clocks) (source : clocksource_t) : clocks :=
  let c := mk_clocks (ck_sources c ++ [source]) (ck_current c) (ck_max_prio c) (ck_boot_time c) (ck_enabled c) in
  if ck_max_prio c <? cs_priority source then
    let enabled :=
      match ck_current c with Some cur => filter (fun i => i <> cs_id cur) (ck_enabled c) | None => ck_enabled c end in
    mk_clocks (ck_sources c) (Some source) (cs_priority source) (ck_boot_time c) (enabled ++ [cs_id source])
  else c.

Definition clock_set_boottime (c : clocks) (boottime : Z) : clocks :=
  mk_clocks (ck_sources c) (ck_current c) (ck_max_prio c) boottime (ck_enabled c).

Section clock.
(** [now n source] is what the [n]th reading of a source returns. *)
Context (now : nat -> clocksource_t -> Z).

Definition clock_uptime (c : clocks) (n : nat) : Z := match ck_current c with None => 0 | Some cur => now n cur end.

Fixpoint wait_loop (fuel : nat) (c : clocks) (n : nat) (target : Z) : outcome nat :=
  match fuel with
  | O => OutOfFuel
  | S fuel => if clock_uptime c n <? target then wait_loop fuel c (S n) target else Ok n
  end.

(** The number of readings when the wait ends. *)
Definition clock_wait (fuel : nat) (c : clocks) (n : nat) (nanos : Z) : outcome nat :=
  if nanos =? 0 then Ok n else wait_loop fuel c (S n) (u64 (clock_uptime c n + nanos)).

(** The stored seconds and nanoseconds, or the error. *)
Definition sys_clock_gettime (c : clocks) (n : nat) (clock tv : Z) : errno + Z * Z :=
  if negb (clock =? CLOCK_REALTIME) then inl EINVAL
  else if negb (vm_validate_ptr tv) then inl EFAULT
  else
    let uptime := clock_uptime c n in
    inr (s64 (uptime / 1000000000 + ck_boot_time c), uptime mod 1000000000).
End clock.

(** ** timer.c *)

Record timer_device := mk_timer { td_id : Z; td_priority : Z }.
Record timers := mk_timers { tm_devices : list timer_device; tm_current : option timer_device; tm_max_prio : Z }.

Definition timer_device_register (t : timers) (device : timer_device) : timers :=
  let devices := tm_devices t ++ [device] in
  if tm_max_prio t <? td_priority device then mk_timers devices (Some device) (td_priority device)
  else mk_timers devices (tm_current t) (tm_max_prio t).

(** The device that is started. *)
Definition timer_start (t : timers) : outcome timer_device :=
  match tm_current t with None => Panic | Some d => Ok d end.

(** One tick of a millisecond on a processor. *)
Definition timer_interrupt (fuel : nat) (t : timers) (sq : sleep_queue) (s : sched) (cpu head : Z) : outcome (sleep_queue * sched) :=
  let* _ := deref (tm_current t) in
  let* (sq, s) := sleep_queue_tick fuel sq s cpu head 1000000 in
  let* s := schedule s cpu in
  Ok (sq, s).

(** ** The calendar *)

Definition days_in_year (y : Z) : Z := if is_leap_year y then 366 else 365.
Definition days_in_month (y m : Z) : Z :=
  if m =? 2 then (if is_leap_year y then 29 else 28)
  else if bool_decide (m ∈ [4; 6; 9; 11]) then 30 else 31.

(** Days of the [n] years from 1970 and of the [n] months from January. *)
Fixpoint days_of_years (n : nat) : Z := match n with O => 0 | S n => days_of_years n + days_in_year (1970 + Z.of_nat n) end.
Fixpoint days_of_months (y : Z) (n : nat) : Z := match n with O => 0 | S n => days_of_months y n + days_in_month y (1 + Z.of_nat n) end.

(** Seconds since the epoch. *)
Definition unix_time (y mo d h mi s : Z) : Z :=
  (days_of_years (Z.to_nat (y - 1970)) + days_of_months y (Z.to_nat (mo - 1)) + (d - 1)) * 86400 + h * 3600 + mi * 60 + s.

Definition to_bcd (n : Z) : Z := n / 10 * 16 + n mod 10.

Lemma bcd_to_bin_bcd n : 0 <= n < 100 -> bcd_to_bin (to_bcd n) = n.
Proof.
  intros H. unfold bcd_to_bin, to_bcd. change 0xF with (Z.ones 4). rewrite Z.land_ones, Z.shiftr_div_pow2 by lia. change (2 ^ 4) with 16.
  pose proof (Z.mod_pos_bound n 10 ltac:(lia)). assert (0 <= n / 10 < 10) by (split; [apply Z.div_pos|apply Z.div_lt_upper_bound]; lia).
  assert ((n / 10 * 16 + n mod 10) / 16 = n / 10) as -> by (symmetry; apply (Z.div_unique _ _ _ (n mod 10)); lia).
  assert ((n / 10 * 16 + n mod 10) mod 16 = n mod 10) as -> by (symmetry; apply (Z.mod_unique _ _ (n / 10)); lia).
  pose proof (Z.div_mod n 10 ltac:(lia)). rewrite u8_small; lia.
Qed.

(** The days before a year, in closed form. *)
Definition year_days (r : Z) : Z := (r + 299) / 400 - (r - 1) / 100 + (r - 69) / 4 + (r - 70) * 365.

Lemma year_days_succ r : 70 <= r -> year_days (r + 1) = year_days r + days_in_year (1900 + r).
Proof.
  intros H. unfold year_days, days_in_year, is_leap_year. rewrite !Z.rem_mod_nonneg by lia.
  assert ((1900 + r) mod 4 = 0 -> (r + 1 - 69) / 4 = (r - 69) / 4 + 1) as A4 by (intros; Z.to_euclidean_division_equations; lia).
  assert ((1900 + r) mod 4 <> 0 -> (r + 1 - 69) / 4 = (r - 69) / 4) as B4 by (intros; Z.to_euclidean_division_equations; lia).
  assert ((1900 + r) mod 100 = 0 -> (r + 1 - 1) / 100 = (r - 1) / 100 + 1) as A100 by (intros; Z.to_euclidean_division_equations; lia).
  assert ((1900 + r) mod 100 <> 0 -> (r + 1 - 1) / 100 = (r - 1) / 100) as B100 by (intros; Z.to_euclidean_division_equations; lia).
  assert ((1900 + r) mod 400 = 0 -> (r + 1 + 299) / 400 = (r + 299) / 400 + 1) as A400 by (intros; Z.to_euclidean_division_equations; lia).
  assert ((1900 + r) mod 400 <> 0 -> (r + 1 + 299) / 400 = (r + 299) / 400) as B400 by (intros; Z.to_euclidean_division_equations; lia).
  assert ((1900 + r) mod 400 = 0 -> (1900 + r) mod 100 = 0) by (intros; Z.to_euclidean_division_equations; lia).
  assert ((1900 + r) mod 100 = 0 -> (1900 + r) mod 4 = 0) by (intros; Z.to_euclidean_division_equations; lia).
  destruct (Z.eqb_spec ((1900 + r) mod 4) 0) as [E4|E4]; [rewrite A4 by done|rewrite B4 by done];
    (destruct (Z.eqb_spec ((1900 + r) mod 100) 0) as [E1|E1]; [rewrite A100 by done|rewrite B100 by done]);
    (destruct (Z.eqb_spec ((1900 + r) mod 400) 0) as [E2|E2]; [rewrite A400 by done|rewrite B400 by done]);
    cbn [andb orb negb]; (lia || tauto).
Qed.

Lemma year_days_spec n : year_days (70 + Z.of_nat n) = days_of_years n.
Proof.
  induction n as [|n IH]; [done|]. cbn [days_of_years]. rewrite <- IH.
  replace (70 + Z.of_nat (S n)) with (70 + Z.of_nat n + 1) by lia. rewrite year_days_succ by lia. do 2 f_equal. lia.
Qed.

Lemma month_days y m : 1 <= m <= 12 ->
  (if (m =? 2) && is_leap_year y then Ok 29 else aget days_per_month (m - 1)) = Ok (days_in_month y m).
Proof.
  intros H. unfold days_in_month. assert (m ∈ [1; 2; 3; 4; 5; 6; 7; 8; 9; 10; 11; 12]) as Hin by (rewrite !elem_of_cons; lia).
  rewrite !elem_of_cons, elem_of_nil in Hin. destruct_or! Hin; subst; try done. by destruct (is_leap_year y).
Qed.

Lemma month_loop_spec y n : forall k acc, (n + k <= 12)%nat ->
  month_loop n (1 + Z.of_nat k) y (days_of_months y k + acc) = Ok (days_of_months y (n + k) + acc).
Proof.
  induction n as [|n IH]; intros k acc Hk; [done|]. cbn [month_loop]. rewrite month_days by lia. cbn [outcome_bind].
  replace (1 + Z.of_nat k + 1) with (1 + Z.of_nat (S k)) by lia.
  replace (days_of_months y k + acc + days_in_month y (1 + Z.of_nat k)) with (days_of_months y (S k) + acc) by (simpl; lia).
  rewrite IH by lia. do 3 f_equal. lia.
Qed.

Lemma int32_ok x : - 2 ^ 31 <= x < 2 ^ 31 -> int32 x = Ok x.
Proof. intros H. unfold int32. destruct (Z.leb_spec (- 2 ^ 31) x); [|lia]. by destruct (Z.ltb_spec x (2 ^ 31)); [|lia]. Qed.

(** The bounds that decide about overflow. *)
Lemma year_terms r : 70 <= r < 10000 ->
  0 <= Z.quot (r + 299) 400 * 86400 <= 30 * 86400 /\ 0 <= Z.quot (r - 1) 100 * 86400 <= 100 * 86400 /\
  0 <= Z.quot (r - 69) 4 * 86400 <= 2500 * 86400.
Proof. intros H. rewrite !Z.quot_div_nonneg by lia. Z.to_euclidean_division_equations. lia. Qed.

Lemma rtc_epoch_spec r y_day h mi s : 70 <= r < 10000 -> 0 <= y_day <= 400 -> 0 <= h < 24 -> 0 <= mi < 60 -> 0 <= s < 60 ->
  rtc_epoch r y_day h mi s =
    if r <=? 138 then Ok ((year_days r + y_day) * 86400 + h * 3600 + mi * 60 + s) else Fault.
Proof.
  intros Hr Hd Hh Hm Hs. unfold rtc_epoch. destruct (year_terms r Hr) as (Ha & Hb & Hc).
  rewrite (int32_ok (Z.quot (r + 299) 400 * 86400)) by lia. cbn [outcome_bind].
  rewrite (int32_ok (Z.quot (r - 1) 100 * 86400)) by lia. cbn [outcome_bind].
  rewrite (int32_ok (Z.quot (r - 69) 4 * 86400)) by lia. cbn [outcome_bind].
  destruct (Z.leb_spec r 138).
  - assert (Z.quot (r - 69) 4 * 86400 <= 17 * 86400) by (rewrite Z.quot_div_nonneg by lia; Z.to_euclidean_division_equations; lia).
    assert (Z.quot (r + 299) 400 * 86400 <= 86400) by (rewrite Z.quot_div_nonneg by lia; Z.to_euclidean_division_equations; lia).
    do 4 (rewrite int32_ok by lia; cbn [outcome_bind]). rewrite s64_small by lia. f_equal. unfold year_days. rewrite !Z.quot_div_nonneg by lia. lia.
  - unfold int32 at 1. destruct (Z.leb_spec (- 2 ^ 31) ((r - 70) * 31536000)); [|lia].
    destruct (Z.ltb_spec ((r - 70) * 31536000) (2 ^ 31)); [lia|]. done.
Qed.

Lemma month_bounds y n : 0 <= days_of_months y n <= 31 * Z.of_nat n.
Proof.
  induction n as [|n IH]; [done|]. cbn [days_of_months]. unfold days_in_month.
  repeat case_match; lia.
Qed.

(** What the chip holds: a date in two-digit BCD fields. *)
Record chip_holds (cmos : Z -> Z) (century_register y mo d h mi s : Z) : Prop := {
  ch_date : 1970 <= y < 10000 /\ 1 <= mo <= 12 /\ 1 <= d <= days_in_month y mo /\ 0 <= h < 24 /\ 0 <= mi < 60 /\ 0 <= s < 60;
  ch_regs : cmos 0 = to_bcd s /\ cmos 2 = to_bcd mi /\ cmos 4 = to_bcd h /\ cmos 7 = to_bcd d /\ cmos 8 = to_bcd mo /\
    cmos 9 = to_bcd (y mod 100);
  ch_century : if century_register =? 0 then y < 2070 else cmos century_register = to_bcd (y / 100);
}.

Lemma full_year_spec cmos cr y mo d h mi s : chip_holds cmos cr y mo d h mi s -> full_year cmos cr (y mod 100) = y.
Proof.
  intros [(Hy & _) _ Hc]. unfold full_year. pose proof (Z.div_mod y 100 ltac:(lia)). pose proof (Z.mod_pos_bound y 100 ltac:(lia)).
  destruct (Z.eqb_spec cr 0); cbn [negb].
  - assert (y / 100 = 19 \/ y / 100 = 20) by (Z.to_euclidean_division_equations; lia). destruct (Z.leb_spec 70 (y mod 100)); lia.
  - assert (19 <= y / 100 < 100) by (Z.to_euclidean_division_equations; lia). rewrite Hc, bcd_to_bin_bcd by lia. rewrite u16_small; lia.
Qed.

Lemma rtc_wait_spec status n : (forall i, (i < n)%nat -> has (status i) 0x80 = true) -> has (status n) 0x80 = false ->
  forall k fuel, (k <= n)%nat -> (n - k < fuel)%nat -> rtc_wait status fuel k = Ok tt.
Proof.
  intros Hbusy Hdone k fuel. revert k. induction fuel as [|fuel IH]; intros k Hk Hf; [lia|]. cbn [rtc_wait].
  destruct (decide (k = n)) as [->|Hne]; [by rewrite Hdone|]. rewrite Hbusy by lia. apply IH; lia.
Qed.

(** The clock chip is read as the calendar says.  Once the update flag
    clears, the BCD registers of any date from 1970 to 2038 are turned into
    the seconds since the epoch that the Gregorian calendar gives it, with
    and without a century register; for a later date the 32-bit product of
    the years overflows. *)
Theorem rtc_read_correct status cmos cr y mo d h mi s n fuel : chip_holds cmos cr y mo d h mi s ->
  (forall i, (i < n)%nat -> has (status i) 0x80 = true) -> has (status n) 0x80 = false -> (n < fuel)%nat ->
  rtc_read status cmos fuel cr = if y <=? 2038 then Ok (unix_time y mo d h mi s) else Fault.
Proof.
  intros Hch Hbusy Hdone Hfuel. pose proof (full_year_spec cmos cr y mo d h mi s Hch) as Hfy.
  destruct Hch as [(Hy & Hmo & Hd & Hh & Hmi & Hs) (R0 & R2 & R4 & R7 & R8 & R9) _].
  assert (days_in_month y mo <= 31) by (unfold days_in_month; repeat case_match; lia).
  unfold rtc_read. rewrite (rtc_wait_spec status n) by (done || lia). cbn [outcome_bind]. cbn zeta.
  pose proof (Z.mod_pos_bound y 100 ltac:(lia)). rewrite R0, R2, R4, R7, R8, R9, !bcd_to_bin_bcd by lia. rewrite Hfy.
  pose proof (month_loop_spec y (Z.to_nat (mo - 1)) 0 0 ltac:(lia)) as Hml. change (1 + Z.of_nat 0) with 1 in Hml.
  change (days_of_months y 0 + 0) with 0 in Hml. rewrite Hml, Nat.add_0_r. cbn [outcome_bind].
  pose proof (month_bounds y (Z.to_nat (mo - 1))). rewrite u16_small by lia. rewrite rtc_epoch_spec by lia.
  replace (y - 1900 <=? 138) with (y <=? 2038) by (destruct (Z.leb_spec y 2038), (Z.leb_spec (y - 1900) 138); done || lia).
  destruct (y <=? 2038); [|done]. f_equal. unfold unix_time.
  replace (y - 1900) with (70 + Z.of_nat (Z.to_nat (y - 1970))) by lia. rewrite year_days_spec. lia.
Qed.

(** 2024-02-29 12:34:56 *)
Definition leap_day (reg : Z) : Z :=
  if reg =? 0 then 0x56 else if reg =? 2 then 0x34 else if reg =? 4 then 0x12 else if reg =? 7 then 0x29
  else if reg =? 8 then 0x02 else if reg =? 9 then 0x24 else 0x20.

Lemma rtc_read_correct_witness : rtc_read (fun i => if (i <? 3)%nat then 0xa6 else 0x26) leap_day 10 0x32 = Ok 1709210096.
Proof.
  rewrite (rtc_read_correct _ leap_day 0x32 2024 2 29 12 34 56 3 10).
  - vm_compute. reflexivity.
  - split; [vm_compute; intuition discriminate|done|done].
  - intros i Hi. destruct i as [|[|[|i]]]; [done..|lia].
  - done.
  - lia.
Defined.
