(* ===== verification/Irq.v ===== *)
(** * Interrupt routing

    kernel/sys/irq.c, kernel/arch/x86_64/ioapic.c, and the walks of the ACPI
    interrupt table in ioapic.c, lapic.c and cpu.c.  The table is the list of
    its bytes.  The registers of the I/O APIC, which are reached through an
    index and a data register, and the words of MSI-X tables are maps.  What
    an interrupt does is the list of handler calls and end-of-interrupt
    signals it leads to. *)

From stdpp Require Import base numbers list gmap sets.
From Stdlib Require Import ZArith Lia.
From S2P Require Import Prelude Wire.

(** ** The interrupt table of acpi.h *)

Definition sizeof_madt : Z := 44.
Definition MADT_LAPIC : Z := 0.
Definition MADT_IOAPIC : Z := 1.
Definition MADT_IOAPIC_ISO : Z := 2.
Definition MADT_LAPIC_NMI : Z := 4.
Definition MADT_LAPIC_AO : Z := 5.

Definition rd64 (p : list Z) (off : Z) : outcome Z :=
  let* a := rd32 p off in let* b := rd32 p (off + 4) in Ok (a + 2 ^ 32 * b).

(** The loop shared by the walks: [raw] starts with an entry, [len] bytes are
    left by the length of the table. *)
Fixpoint madt_loop {A} (step : A -> Z -> list Z -> outcome A) (fuel : nat) (raw : list Z) (len : Z) (acc : A) : outcome A :=
  if len =? 0 then Ok acc
  else match fuel with
  | O => OutOfFuel
  | S fuel =>
      let* type := rd8 raw 0 in
      let* acc := step acc type raw in
      let* length := rd8 raw 1 in
      madt_loop step fuel (drop (Z.to_nat length) raw) (u64 (len - length)) acc
  end.

(** A walk of a table of bytes [tbl]; the length is in its header. *)
Definition madt_walk {A} (step : A -> Z -> list Z -> outcome A) (fuel : nat) (tbl : list Z) (acc : A) : outcome A :=
  let* length := rd32 tbl 4 in
  madt_loop step fuel (drop (Z.to_nat sizeof_madt) tbl) (u64 (length - sizeof_madt)) acc.

(** [ioapic_get_base]: base address, interrupt base and overrides. *)
Record ioapic_config := mk_ioapic_config { io_base : Z; io_gsi_base : Z; io_override : list Z }.

Definition ioapic_entry (c : ioapic_config) (type : Z) (entry : list Z) : outcome ioapic_config :=
  if type =? MADT_IOAPIC then
    if negb (io_base c =? 0) then Ok c
    else
      let* address := rd32 entry 4 in
      let* gsi := rd32 entry 8 in
      Ok (mk_ioapic_config address gsi (io_override c))
  else if type =? MADT_IOAPIC_ISO then
    let* irq := rd8 entry 3 in
    let* gsi := rd32 entry 4 in
    let* override := aset (io_override c) irq (u8 gsi) in
    Ok (mk_ioapic_config (io_base c) (io_gsi_base c) override)
  else Ok c.

Definition ioapic_get_base (fuel : nat) (tbl : list Z) : outcome ioapic_config :=
  madt_walk ioapic_entry fuel tbl (mk_ioapic_config 0 0 (replicate 16 0)).

(** [lapic_get_base]: base address, and the pin and processor of the NMI. *)
Record lapic_config := mk_lapic_config { la_base : Z; la_nmi_lint : Z; la_nmi_cpu : Z }.

Definition lapic_entry (c : lapic_config) (type : Z) (entry : list Z) : outcome lapic_config :=
  if type =? MADT_LAPIC_NMI then
    let* cpu := rd8 entry 2 in
    let* lint := rd8 entry 5 in
    Ok (mk_lapic_config (la_base c) lint cpu)
  else if type =? MADT_LAPIC_AO then
    let* address := rd64 entry 4 in
    Ok (mk_lapic_config address (la_nmi_lint c) (la_nmi_cpu c))
  else Ok c.

Definition lapic_get_base (fuel : nat) (tbl : list Z) : outcome lapic_config :=
  let* c := madt_walk lapic_entry fuel tbl (mk_lapic_config 0 1 0xFF) in
  if la_base c =? 0 then let* address := rd32 tbl 36 in Ok (mk_lapic_config address (la_nmi_lint c) (la_nmi_cpu c)) else Ok c.

(** [smp_discover_cpus]: the interrupt ids of the processors, the first of
    which is the one that runs. *)
Definition CONFIG_MAX_CPUS : Z := 64.

Definition cpu_entry (lapic_ids : list Z) (type : Z) (entry : list Z) : outcome (list Z) :=
  if type =? MADT_LAPIC then
    let* apic_id := rd8 entry 3 in
    if apic_id =? 0 then Ok lapic_ids
    else if CONFIG_MAX_CPUS <=? zlen lapic_ids then Panic
    else Ok (lapic_ids ++ [apic_id])
  else Ok lapic_ids.

Definition smp_discover_cpus (fuel : nat) (tbl : list Z) : outcome (list Z) := madt_walk cpu_entry fuel tbl [0].

(** ** irq.c and ioapic.c *)

Inductive irq_chip := ioapic_chip | msix_chip.

Record irq_domain := mk_domain { d_chip : irq_chip; d_begin : Z; d_end : Z; d_msi_address : Z }.

(** A domain is named by its address, 0 is none. *)
Record virq := mk_virq { v_id : Z; v_hwirq : Z; v_domain : Z; v_payload : Z; v_handler : Z }.

Record irqs := mk_irqs {
  irq_domains : gmap Z irq_domain;
  irq_domain_list : list Z;
  virq_table : list virq;
  virq_alloc : Z;
  redir_entry_count : Z;
  isa_irq_override : list Z;
  ioapic_regs : gmap Z Z;
  msi_words : gmap Z Z;
}.

Definition set_virqs (t : list virq) (next : Z) (s : irqs) : irqs :=
  mk_irqs (irq_domains s) (irq_domain_list s) t next (redir_entry_count s) (isa_irq_override s) (ioapic_regs s) (msi_words s).
Definition set_ioapic_regs (r : gmap Z Z) (s : irqs) : irqs :=
  mk_irqs (irq_domains s) (irq_domain_list s) (virq_table s) (virq_alloc s) (redir_entry_count s) (isa_irq_override s) r (msi_words s).
Definition set_msi_words (w : gmap Z Z) (s : irqs) : irqs :=
  mk_irqs (irq_domains s) (irq_domain_list s) (virq_table s) (virq_alloc s) (redir_entry_count s) (isa_irq_override s) (ioapic_regs s) w.

Definition get_domain (s : irqs) (d : Z) : outcome irq_domain := deref (irq_domains s !! d).

(** Both ends of a domain count as inside. *)
Fixpoint find_domain (s : irqs) (l : list Z) (hwirq : Z) : outcome Z :=
  match l with
  | [] => Ok 0
  | cur :: l =>
      let* d := get_domain s cur in
      if (d_begin d <=? hwirq) && (hwirq <=? d_end d) then Ok cur else find_domain s l hwirq
  end.

Definition find_hwirq_domain (s : irqs) (hwirq : Z) : outcome Z := find_domain s (irq_domain_list s) hwirq.

Definition irq_domain_register (s : irqs) (domain : Z) : outcome irqs :=
  let* d := get_domain s domain in
  if d_end d <=? d_begin d then Ok s
  else
    Ok (mk_irqs (irq_domains s) (irq_domain_list s ++ [domain]) (virq_table s) (virq_alloc s) (redir_entry_count s)
      (isa_irq_override s) (ioapic_regs s) (msi_words s)).

Definition IOAPIC_REGISTER_REDTBL : Z := 0x10.

(** The bit fields of [ioapic_redir_entry_t]. *)
Record redir := mk_redir {
  re_vector : Z; re_delivery : Z; re_dest_mode : Z; re_status : Z; re_polarity : Z; re_irr : Z; re_trigger : Z; re_mask : Z; re_dest : Z
}.

Definition redir_raw (e : redir) : Z :=
  re_vector e + re_delivery e * 2 ^ 8 + re_dest_mode e * 2 ^ 11 + re_status e * 2 ^ 12 + re_polarity e * 2 ^ 13 +
  re_irr e * 2 ^ 14 + re_trigger e * 2 ^ 15 + re_mask e * 2 ^ 16 + re_dest e * 2 ^ 56.

Definition ioapic_write (s : irqs) (offset value : Z) : irqs := set_ioapic_regs (<[offset := value]> (ioapic_regs s)) s.

Definition ioapic_write_redirection_entry (s : irqs) (id : Z) (entry : redir) : irqs :=
  let id := u8 id in
  if redir_entry_count s <=? id then s
  else
    let s := ioapic_write s (u8 (IOAPIC_REGISTER_REDTBL + 2 * id)) (u32 (redir_raw entry)) in
    ioapic_write s (u8 (IOAPIC_REGISTER_REDTBL + 2 * id + 1)) (u32 (Z.shiftr (redir_raw entry) 32)).

(** The pin of an interrupt, after the overrides. *)
Definition ioapic_pin (s : irqs) (hwirq : Z) : outcome Z :=
  if hwirq <? 16 then let* o := aget (isa_irq_override s) hwirq in Ok (if o =? 0 then hwirq else o) else Ok hwirq.

Definition ioapic_enable (s : irqs) (lapic_id : Z) (v : virq) : outcome irqs :=
  let* dst := ioapic_pin s (v_hwirq v) in
  Ok (ioapic_write_redirection_entry s dst (mk_redir (u8 (v_id v)) 0 0 0 0 0 0 0 (u8 lapic_id))).

Definition ioapic_disable (s : irqs) (v : virq) : outcome irqs :=
  let* dst := ioapic_pin s (v_hwirq v) in
  Ok (ioapic_write_redirection_entry s dst (mk_redir 0 0 0 0 0 0 0 1 0)).

Definition msi_target_address : Z := 0xfee00000.

(** Four 32-bit words from the [hwirq]th word of the table. *)
Definition msix_enable (s : irqs) (v : virq) : outcome irqs :=
  let* d := get_domain s (v_domain v) in
  let table := d_msi_address d + 4 * v_hwirq v in
  Ok (set_msi_words (<[table + 12 := 0]> (<[table + 8 := Z.land (v_id v) 0xFF]> (<[table + 4 := Z.shiftr msi_target_address 32]>
    (<[table := Z.land msi_target_address (Z.lnot 3)]> (msi_words s))))) s).

Definition chip_enable (s : irqs) (lapic_id : Z) (v : virq) : outcome irqs :=
  let* d := get_domain s (v_domain v) in
  match d_chip d with ioapic_chip => ioapic_enable s lapic_id v | msix_chip => msix_enable s v end.

(** Taking the next vector: the common part of both registrations. *)
Definition virq_new (s : irqs) (lapic_id hwirq domain handler payload : Z) : outcome (option virq * irqs) :=
  let virqid := virq_alloc s in
  let v := mk_virq virqid hwirq domain payload handler in
  let* t := aset (virq_table s) (virqid - 32) v in
  let* s := chip_enable (set_virqs t (u32 (virqid + 1)) s) lapic_id v in
  Ok (Some v, s).

Definition irq_register (s : irqs) (lapic_id hwirq handler payload : Z) : outcome (option virq * irqs) :=
  let* domain := find_hwirq_domain s hwirq in
  if domain =? 0 then Ok (None, s) else virq_new s lapic_id hwirq domain handler payload.

Definition msix_domain_register (s : irqs) (addr num_irqs msi_address : Z) : irqs :=
  mk_irqs (<[addr := mk_domain msix_chip 0 num_irqs msi_address]> (irq_domains s)) (irq_domain_list s) (virq_table s) (virq_alloc s)
    (redir_entry_count s) (isa_irq_override s) (ioapic_regs s) (msi_words s).

Definition irq_register_msi (s : irqs) (lapic_id domain hwirq handler payload : Z) : outcome (option virq * irqs) :=
  let* d := get_domain s domain in
  if d_msi_address d =? 0 then Ok (None, s)
  else if d_end d <=? hwirq then Ok (None, s)
  else virq_new s lapic_id hwirq domain handler payload.

(** The calls an interrupt leads to; both chips signal the end to the local APIC. *)
Inductive irq_event := Handler (handler payload : Z) | Eoi.

Definition irq_dispatch (s : irqs) (id : Z) : outcome (list irq_event) :=
  let* v := aget (virq_table s) (id - 32) in
  if v_domain v =? 0 then Ok []
  else
    let* d := get_domain s (v_domain v) in
    Ok ((if v_handler v =? 0 then [] else [Handler (v_handler v) (v_payload v)]) ++ [Eoi]).

Definition IOAPIC_REGISTER_VER : Z := 1.

(** Reading is an index write and a data read. *)
Definition ioapic_read (s : irqs) (offset : Z) : outcome Z := deref (ioapic_regs s !! offset).

(** Mapping the registers is left out: the model names them by their index. *)
Definition ioapic_init (fuel : nat) (s : irqs) (tbl : list Z) (ioapic_domain : Z) : outcome irqs :=
  let* c := ioapic_get_base fuel tbl in
  let* version := ioapic_read s IOAPIC_REGISTER_VER in
  let count := u8 (Z.shiftr version 16 + 1) in
  let s := mk_irqs (<[ioapic_domain := mk_domain ioapic_chip 0 count 0]> (irq_domains s)) (irq_domain_list s) (virq_table s)
    (virq_alloc s) count (io_override c) (ioapic_regs s) (msi_words s) in
  irq_domain_register s ioapic_domain.

(** ** The interrupt table, as a list of items

    The bytes of each item are those of the structures of acpi.h. *)

Inductive madt_item :=
  | LapicItem (cpuid apic_id flags : Z)
  | IoapicItem (id address gsi : Z)
  | IsoItem (bus irq gsi flags : Z)
  | LapicNmiItem (cpuid flags lint : Z)
  | AddressItem (low high : Z)
  | OtherItem (type : Z) (body : list Z).

Definition item_bytes (i : madt_item) : list Z :=
  match i with
  | LapicItem c a f => [MADT_LAPIC; 8; c; a] ++ le32 f
  | IoapicItem d a g => [MADT_IOAPIC; 12; d; 0] ++ le32 a ++ le32 g
  | IsoItem b q g f => [MADT_IOAPIC_ISO; 10; b; q] ++ le32 g ++ le16 f
  | LapicNmiItem c f l => [MADT_LAPIC_NMI; 6; c] ++ le16 f ++ [l]
  | AddressItem lo hi => [MADT_LAPIC_AO; 12; 0; 0] ++ le32 lo ++ le32 hi
  | OtherItem t body => [t; 2 + zlen body] ++ body
  end.

Definition word (v : Z) : Prop := 0 <= v < 2 ^ 32.

Definition item_ok (i : madt_item) : Prop :=
  match i with
  | LapicItem _ _ _ => True
  | IoapicItem _ a g => word a /\ word g /\ a <> 0
  | IsoItem _ q g _ => word g /\ 0 <= q < 16
  | LapicNmiItem _ _ _ => True
  | AddressItem lo hi => word lo /\ word hi /\ lo + 2 ^ 32 * hi <> 0
  | OtherItem t body => (t ∉ [MADT_LAPIC; MADT_IOAPIC; MADT_IOAPIC_ISO; MADT_LAPIC_NMI; MADT_LAPIC_AO]) /\ zlen body <= 253
  end.

Definition items_bytes (items : list madt_item) : list Z := concat (map item_bytes items).

(** A table: the signature, the length, 28 more bytes of the common header,
    the address of the local APIC and the flags. *)
Definition madt_bytes (sig rest flags : list Z) (lapic_address : Z) (items : list madt_item) : list Z :=
  sig ++ le32 (sizeof_madt + zlen (items_bytes items)) ++ rest ++ le32 lapic_address ++ flags ++ items_bytes items.

(** What the three walks are to find. *)

Definition ioapic_of (i : madt_item) : option (Z * Z) := match i with IoapicItem _ a g => Some (a, g) | _ => None end.
Definition override_of (l : list Z) (i : madt_item) : list Z :=
  match i with IsoItem _ q g _ => <[Z.to_nat q := g mod 256]> l | _ => l end.
Definition first_ioapic (items : list madt_item) : Z * Z := default (0, 0) (head (omap ioapic_of items)).

Definition cpu_of (i : madt_item) : option Z :=
  match i with LapicItem _ a _ => if a =? 0 then None else Some a | _ => None end.

Definition nmi_of (c : Z * Z) (i : madt_item) : Z * Z := match i with LapicNmiItem cpu _ lint => (lint, cpu) | _ => c end.
Definition address_of (a : Z) (i : madt_item) : Z := match i with AddressItem lo hi => lo + 2 ^ 32 * hi | _ => a end.

(** ** The walks *)

Lemma item_head i : exists t rest, item_bytes i = t :: zlen (item_bytes i) :: rest.
Proof.
  destruct i as [| | | | |t body]; do 2 eexists; try reflexivity.
  replace (zlen (item_bytes (OtherItem t body))) with (2 + zlen body) by (unfold zlen, item_bytes; cbn [length app]; lia).
  reflexivity.
Qed.

Lemma item_length i : item_ok i -> 2 <= zlen (item_bytes i) <= 255.
Proof.
  intros H. unfold zlen. destruct i as [| | | | |t body]; cbn [item_bytes length app le16 le32]; try lia.
  destruct H as [_ H]. unfold zlen in H. lia.
Qed.

(** A walk whose step does to the bytes of an item what [f] does to the item. *)
Lemma madt_loop_items {A} (P : A -> Prop) (step : A -> Z -> list Z -> outcome A) (f : A -> madt_item -> outcome A) :
  (forall acc i t rest, P acc -> item_ok i -> item_bytes i !! 0%nat = Some t -> step acc t (item_bytes i ++ rest) = f acc i) ->
  (forall acc acc' i, P acc -> item_ok i -> f acc i = Ok acc' -> P acc') ->
  forall items fuel acc rest, P acc -> Forall item_ok items -> (length items <= fuel)%nat -> zlen (items_bytes items) < 2 ^ 64 ->
  madt_loop step fuel (items_bytes items ++ rest) (zlen (items_bytes items)) acc =
  foldl (fun o i => let* a := o in f a i) (Ok acc) items.
Proof.
  intros Hstep Hpres. induction items as [|i items IH]; intros fuel acc rest HP Hok Hf Hlen.
  - destruct fuel; reflexivity.
  - apply Forall_cons in Hok as [Hi Hok]. pose proof (item_length i Hi) as Hl.
    change (items_bytes (i :: items)) with (item_bytes i ++ items_bytes items) in *.
    rewrite zlen_app in Hlen |- *. pose proof (zlen_nonneg (items_bytes items)).
    destruct fuel as [|fuel]; cbn [length] in Hf; [lia|]. cbn [madt_loop].
    destruct (Z.eqb_spec (zlen (item_bytes i) + zlen (items_bytes items)) 0); [lia|].
    destruct (item_head i) as (t & tl & Hh). rewrite <- app_assoc.
    assert (rd8 (item_bytes i ++ items_bytes items ++ rest) 0 = Ok t) as Ht by (rewrite Hh; reflexivity).
    assert (item_bytes i !! 0%nat = Some t) by (rewrite Hh; reflexivity).
    rewrite Ht. cbn [outcome_bind]. rewrite (Hstep _ _ t) by done.
    assert (rd8 (item_bytes i ++ items_bytes items ++ rest) 1 = Ok (zlen (item_bytes i))) as Hl1 by (rewrite Hh at 1; reflexivity).
    cbn [foldl outcome_bind]. destruct (f acc i) as [acc'| | |] eqn:Hacc; cbn [outcome_bind].
    2-4: clear; by induction items.
    rewrite Hl1. cbn [outcome_bind]. unfold zlen at 1. rewrite Nat2Z.id, drop_app_length.
    replace (zlen (item_bytes i) + zlen (items_bytes items) - zlen (item_bytes i)) with (zlen (items_bytes items)) by lia.
    unfold u64, wrap. rewrite Z.mod_small by lia. apply IH; [by eapply Hpres|done|lia|lia].
Qed.

(** The walks, item by item. *)

Definition ioapic_item (c : ioapic_config) (i : madt_item) : ioapic_config :=
  match i with
  | IoapicItem _ a g => if io_base c =? 0 then mk_ioapic_config a g (io_override c) else c
  | _ => mk_ioapic_config (io_base c) (io_gsi_base c) (override_of (io_override c) i)
  end.

Definition lapic_item (c : lapic_config) (i : madt_item) : lapic_config :=
  let '(lint, cpu) := nmi_of (la_nmi_lint c, la_nmi_cpu c) i in mk_lapic_config (address_of (la_base c) i) lint cpu.

Definition cpu_item (ids : list Z) (i : madt_item) : outcome (list Z) :=
  match cpu_of i with
  | Some a => if CONFIG_MAX_CPUS <=? zlen ids then Panic else Ok (ids ++ [a])
  | None => Ok ids
  end.

Lemma rd32_le32 (pre : list Z) v rest off : word v -> zlen pre = off -> rd32 (pre ++ le32 v ++ rest) off = Ok v.
Proof.
  intros Hv <-. unfold rd32, rd16.
  assert (forall k b, 0 <= k -> le32 v !! Z.to_nat k = Some b -> aget (pre ++ le32 v ++ rest) (zlen pre + k) = Ok b) as Hget.
  { intros k b Hk Hb. pose proof (zlen_nonneg pre). apply aget_Ok. split; [lia|].
    rewrite lookup_app_r by (unfold zlen in *; lia). rewrite lookup_app_l; [rewrite <- Hb; f_equal; unfold zlen in *; lia|].
    apply lookup_lt_Some in Hb. unfold zlen in *. lia. }
  rewrite <- (Z.add_0_r (zlen pre)) at 1. rewrite <- Z.add_assoc. change (2 + 1) with 3.
  rewrite (Hget 0 _ ltac:(lia) eq_refl), (Hget 1 _ ltac:(lia) eq_refl), (Hget 2 _ ltac:(lia) eq_refl), (Hget 3 _ ltac:(lia) eq_refl).
  cbn [outcome_bind]. f_equal. apply (le32_value v Hv).
Qed.

Definition le64 (v : Z) : list Z := le32 (v mod 2 ^ 32) ++ le32 (v / 2 ^ 32).

Lemma rd64_le64 (pre : list Z) v rest off : 0 <= v < 2 ^ 64 -> zlen pre = off -> rd64 (pre ++ le64 v ++ rest) off = Ok v.
Proof.
  intros Hv Hoff. unfold rd64, le64. rewrite <- app_assoc.
  rewrite rd32_le32 by (done || (unfold word; apply Z.mod_pos_bound; lia)). cbn [outcome_bind].
  rewrite (app_assoc pre). rewrite rd32_le32; [cbn [outcome_bind]; f_equal; pose proof (Z.div_mod v (2 ^ 32)); lia| |].
  - unfold word. split; [apply Z.div_pos; lia|apply Z.div_lt_upper_bound; lia].
  - rewrite zlen_app. change (zlen (le32 (v mod 2 ^ 32))) with 4. lia.
Qed.

(** Finding a byte or a word of an item by computation. *)
Ltac item_field := cbn [item_bytes app]; first [reflexivity | apply (rd32_le32 [_; _; _; _]); [assumption | reflexivity]
  | match goal with |- rd32 _ 8 = _ => apply (rd32_le32 (_ :: _ :: _ :: _ :: le32 _)); [assumption | reflexivity] end].

Lemma ioapic_entry_item acc i t rest : item_ok i -> item_bytes i !! 0%nat = Some t -> length (io_override acc) = 16%nat ->
  ioapic_entry acc t (item_bytes i ++ rest) = Ok (ioapic_item acc i).
Proof.
  intros Hok Ht Hlen. destruct i as [c a f|d a g|b q g f|c f l|lo hi|ty body]; cbn [item_bytes app lookup list_lookup] in Ht;
    injection Ht as <-; unfold ioapic_entry.
  - by destruct acc.
  - destruct Hok as (Ha & Hg & Hn). change (MADT_IOAPIC =? MADT_IOAPIC) with true. cbv iota. unfold ioapic_item.
    destruct (Z.eqb_spec (io_base acc) 0); [|done]. cbn [negb].
    assert (rd32 (item_bytes (IoapicItem d a g) ++ rest) 4 = Ok a) as -> by item_field.
    assert (rd32 (item_bytes (IoapicItem d a g) ++ rest) 8 = Ok g) as -> by item_field. done.
  - destruct Hok as (Hg & Hq). change (MADT_IOAPIC_ISO =? MADT_IOAPIC) with false.
    change (MADT_IOAPIC_ISO =? MADT_IOAPIC_ISO) with true. cbv iota.
    assert (rd8 (item_bytes (IsoItem b q g f) ++ rest) 3 = Ok q) as -> by item_field.
    assert (rd32 (item_bytes (IsoItem b q g f) ++ rest) 4 = Ok g) as -> by item_field. cbn [outcome_bind].
    rewrite aset_in by (unfold zlen; lia). done.
  - by destruct acc.
  - by destruct acc.
  - destruct Hok as [Hty _]. destruct (Z.eqb_spec ty MADT_IOAPIC) as [->|]; [set_solver|].
    destruct (Z.eqb_spec ty MADT_IOAPIC_ISO) as [->|]; [set_solver|]. by destruct acc.
Qed.

Lemma lapic_entry_item acc i t rest : item_ok i -> item_bytes i !! 0%nat = Some t ->
  lapic_entry acc t (item_bytes i ++ rest) = Ok (lapic_item acc i).
Proof.
  intros Hok Ht. destruct i as [c a f|d a g|b q g f|c f l|lo hi|ty body]; cbn [item_bytes app lookup list_lookup] in Ht;
    injection Ht as <-; unfold lapic_entry; try (by destruct acc).
  - destruct Hok as (Hlo & Hhi & _). change (MADT_LAPIC_AO =? MADT_LAPIC_NMI) with false.
    change (MADT_LAPIC_AO =? MADT_LAPIC_AO) with true. cbv iota. unfold rd64.
    assert (rd32 (item_bytes (AddressItem lo hi) ++ rest) 4 = Ok lo) as -> by item_field.
    assert (rd32 (item_bytes (AddressItem lo hi) ++ rest) (4 + 4) = Ok hi) as -> by (change (4 + 4) with 8; item_field). done.
  - destruct Hok as [Hty _]. destruct (Z.eqb_spec ty MADT_LAPIC_NMI) as [->|]; [set_solver|].
    destruct (Z.eqb_spec ty MADT_LAPIC_AO) as [->|]; [set_solver|]. by destruct acc.
Qed.

Lemma cpu_entry_item acc i t rest : item_ok i -> item_bytes i !! 0%nat = Some t ->
  cpu_entry acc t (item_bytes i ++ rest) = cpu_item acc i.
Proof.
  intros Hok Ht. destruct i as [c a f|d a g|b q g f|c f l|lo hi|ty body]; cbn [item_bytes app lookup list_lookup] in Ht;
    injection Ht as <-; unfold cpu_entry, cpu_item; try done.
  - cbn [item_bytes cpu_of]. change (rd8 _ 3) with (Ok a). cbn [outcome_bind]. change (MADT_LAPIC =? MADT_LAPIC) with true. cbv iota.
    by destruct (a =? 0).
  - destruct Hok as [Hty _]. destruct (Z.eqb_spec ty MADT_LAPIC) as [->|]; [set_solver|]. done.
Qed.

(** A table the firmware may hand over. *)
Definition table_ok (sig rest flags : list Z) (lapic_address : Z) (items : list madt_item) : Prop :=
  length sig = 4%nat /\ length rest = 28%nat /\ length flags = 4%nat /\ word lapic_address /\ Forall item_ok items /\
  sizeof_madt + zlen (items_bytes items) < 2 ^ 32.

Lemma table_address sig rest flags la items : table_ok sig rest flags la items ->
  rd32 (madt_bytes sig rest flags la items) 36 = Ok la.
Proof.
  intros (Hs & Hr & Hf & Hla & _ & _). unfold madt_bytes. rewrite !app_assoc, <- (app_assoc _ flags), <- (app_assoc _ (le32 la)).
  apply rd32_le32; [done|]. rewrite !zlen_app. unfold zlen. cbn [length le32]. lia.
Qed.

Lemma madt_walk_items {A} (P : A -> Prop) (step : A -> Z -> list Z -> outcome A) (f : A -> madt_item -> outcome A) sig rest flags la items fuel acc :
  (forall acc i t rest, P acc -> item_ok i -> item_bytes i !! 0%nat = Some t -> step acc t (item_bytes i ++ rest) = f acc i) ->
  (forall acc acc' i, P acc -> item_ok i -> f acc i = Ok acc' -> P acc') ->
  table_ok sig rest flags la items -> P acc -> (length items <= fuel)%nat ->
  madt_walk step fuel (madt_bytes sig rest flags la items) acc = foldl (fun o i => let* a := o in f a i) (Ok acc) items.
Proof.
  intros Hstep Hpres (Hs & Hr & Hfl & Hla & Hok & Hlen) HP Hfuel. unfold madt_walk. unfold sizeof_madt in *.
  pose proof (zlen_nonneg (items_bytes items)).
  assert (rd32 (madt_bytes sig rest flags la items) 4 = Ok (44 + zlen (items_bytes items))) as ->.
  { unfold madt_bytes. apply rd32_le32; [unfold word, sizeof_madt; lia|unfold zlen; lia]. }
  cbn [outcome_bind].
  assert (drop (Z.to_nat 44) (madt_bytes sig rest flags la items) = items_bytes items) as ->.
  { unfold madt_bytes. rewrite !app_assoc. apply drop_app_length'. rewrite !length_app. cbn [length le32]. lia. }
  rewrite <- (app_nil_r (items_bytes items)) at 1.
  replace (44 + zlen (items_bytes items) - 44) with (zlen (items_bytes items)) by lia.
  unfold u64, wrap. rewrite Z.mod_small by lia. by apply (madt_loop_items P); [..|lia].
Qed.

Lemma foldl_pure {A} (g : A -> madt_item -> A) items acc :
  foldl (fun o i => let* a := o in Ok (g a i)) (Ok acc) items = Ok (foldl g acc items).
Proof. revert acc. induction items; intros acc; [done|]. cbn [foldl outcome_bind]. auto. Qed.

Lemma ioapic_items_spec items c : Forall item_ok items ->
  foldl ioapic_item c items =
  mk_ioapic_config (if io_base c =? 0 then default (io_base c) (fst <$> head (omap ioapic_of items)) else io_base c)
    (if io_base c =? 0 then default (io_gsi_base c) (snd <$> head (omap ioapic_of items)) else io_gsi_base c)
    (foldl override_of (io_override c) items).
Proof.
  intros Hok. revert c. induction Hok as [|i items Hi Hok IH]; intros c.
  { cbn. destruct c as [b g o]. cbn. by destruct (b =? 0). }
  cbn [foldl]. rewrite IH. destruct i; try (cbn; by destruct (io_base c =? 0)).
  destruct Hi as (_ & _ & Ha). cbn [ioapic_item]. destruct (Z.eqb_spec (io_base c) 0) as [E|E]; cbn.
  - by destruct (Z.eqb_spec address 0).
  - destruct (Z.eqb_spec (io_base c) 0); [done|]. done.
Qed.

Lemma lapic_items_spec items c : Forall item_ok items ->
  foldl lapic_item c items =
  let '(lint, cpu) := foldl nmi_of (la_nmi_lint c, la_nmi_cpu c) items in
  mk_lapic_config (foldl address_of (la_base c) items) lint cpu.
Proof.
  intros _. revert c. induction items as [|i items IH]; intros c; [by destruct c|]. cbn [foldl]. rewrite IH. by destruct i.
Qed.

Lemma cpu_items_spec items ids : zlen ids + zlen (omap cpu_of items) <= CONFIG_MAX_CPUS ->
  foldl (fun o i => let* a := o in cpu_item a i) (Ok ids) items = Ok (ids ++ omap cpu_of items).
Proof.
  revert ids. induction items as [|i items IH]; intros ids Hn; [cbn; by rewrite app_nil_r|].
  cbn [foldl outcome_bind]. unfold cpu_item at 2. cbn [omap list_omap] in Hn |- *. destruct (cpu_of i) as [a|].
  - rewrite zlen_cons in Hn. pose proof (zlen_nonneg (omap cpu_of items)).
    destruct (Z.leb_spec CONFIG_MAX_CPUS (zlen ids)); [lia|]. rewrite IH; [by rewrite <- app_assoc|].
    rewrite zlen_app, zlen_cons. change (zlen (@nil Z)) with 0. lia.
  - by apply IH.
Qed.

(** The three walks of the interrupt table end and find what the table
    holds.  Run on the bytes of a table with any sequence of items, with one
    step per item, [ioapic_get_base] returns the address and interrupt base
    of the first I/O APIC and, for each ISA interrupt, the last override;
    [lapic_get_base] returns the last 64-bit address of the local APIC, or
    the one of the header, and the last NMI pin; and [smp_discover_cpus]
    returns the boot processor and then every processor with another id than
    0, in order, as long as there is room for them. *)
Theorem madt_walks_correct sig rest flags la items fuel :
  table_ok sig rest flags la items -> (length items <= fuel)%nat -> zlen (omap cpu_of items) < CONFIG_MAX_CPUS ->
  let tbl := madt_bytes sig rest flags la items in
  ioapic_get_base fuel tbl =
    Ok (mk_ioapic_config (first_ioapic items).1 (first_ioapic items).2 (foldl override_of (replicate 16 0) items)) /\
  lapic_get_base fuel tbl =
    Ok (mk_lapic_config (let a := foldl address_of 0 items in if a =? 0 then la else a)
      (foldl nmi_of (1, 0xFF) items).1 (foldl nmi_of (1, 0xFF) items).2) /\
  smp_discover_cpus fuel tbl = Ok (0 :: omap cpu_of items).
Proof.
  intros Htbl Hf Hn tbl. assert (Forall item_ok items) as Hok by apply Htbl. split_and!.
  - unfold ioapic_get_base, tbl.
    rewrite (madt_walk_items (fun c => length (io_override c) = 16%nat) _ (fun c i => Ok (ioapic_item c i))); try done.
    + rewrite foldl_pure, ioapic_items_spec by done. cbn. unfold first_ioapic. by destruct (head (omap ioapic_of items)) as [[]|].
    + intros c i t rest' Hc Hi Ht. by apply ioapic_entry_item.
    + intros c c' i Hc Hi [= <-]. destruct i; cbn; try done; [by case_match|by rewrite length_insert].
  - unfold lapic_get_base, tbl.
    rewrite (madt_walk_items (fun _ => True) _ (fun c i => Ok (lapic_item c i))); try done.
    + rewrite foldl_pure, lapic_items_spec by done. cbn. destruct (foldl nmi_of (1, 255) items) as [lint cpu]. cbn.
      rewrite table_address by done. cbn. by destruct (foldl address_of 0 items =? 0).
    + intros c i t rest' _ Hi Ht. by apply lapic_entry_item.
  - unfold smp_discover_cpus, tbl. rewrite (madt_walk_items (fun _ => True) _ cpu_item); try done.
    + rewrite cpu_items_spec; [done|]. rewrite zlen_cons. change (zlen (@nil Z)) with 0. lia.
    + intros c i t rest' _ Hi Ht. by apply cpu_entry_item.
Qed.

(** Two processors, an I/O APIC with the timer on pin 2, and a local APIC NMI. *)
Definition sample_items : list madt_item :=
  [LapicItem 0 0 1; LapicItem 1 1 1; IoapicItem 0 0xFEC00000 0; IsoItem 0 0 2 0; LapicNmiItem 0xFF 0 1; OtherItem 9 (replicate 14 0)].

Lemma madt_walks_correct_witness :
  let tbl := madt_bytes [65; 80; 73; 67] (replicate 28 0) (replicate 4 0) 0xFEE00000 sample_items in
  ioapic_get_base 6 tbl = Ok (mk_ioapic_config 0xFEC00000 0 (2 :: replicate 15 0)) /\
  lapic_get_base 6 tbl = Ok (mk_lapic_config 0xFEE00000 1 0xFF) /\ smp_discover_cpus 6 tbl = Ok [0; 1].
Proof.
  apply (madt_walks_correct [65; 80; 73; 67] (replicate 28 0) (replicate 4 0) 0xFEE00000 sample_items 6).
  - unfold table_ok, word. split_and!; try done. repeat constructor; unfold word; try done; cbn; try lia.
    all: try (intros Hin; repeat (apply elem_of_cons in Hin as [Hin|Hin]; [done|]); by apply elem_of_nil in Hin).
  - cbn. lia.
  - done.
Defined.

(** An entry of length zero is never left. *)
Lemma madt_zero_entry {A} (step : A -> Z -> list Z -> outcome A) raw len type acc fuel :
  0 < len < 2 ^ 64 -> rd8 raw 0 = Ok type -> rd8 raw 1 = Ok 0 -> step acc type raw = Ok acc ->
  madt_loop step fuel raw len acc = OutOfFuel.
Proof.
  intros Hlen Ht Hl Hstep. induction fuel as [|fuel IH]; cbn [madt_loop]; (destruct (Z.eqb_spec len 0); [lia|]); [done|].
  rewrite Ht. cbn [outcome_bind]. rewrite Hstep. cbn [outcome_bind]. rewrite Hl. cbn [outcome_bind].
  rewrite Z.sub_0_r. unfold u64, wrap. by rewrite Z.mod_small by lia.
Qed.

(** ** Routing *)

(** Every vector below the next one has a registration with a known domain,
    the ones above have none; the registers of the I/O APIC are addressable. *)
Definition irq_inv (s : irqs) : Prop :=
  length (virq_table s) = 128%nat /\ 32 <= virq_alloc s <= 160 /\ length (isa_irq_override s) = 16%nat /\
  0 <= redir_entry_count s <= 120 /\
  (forall k v, virq_table s !! k = Some v ->
    if Z.of_nat k + 32 <? virq_alloc s then v_id v = Z.of_nat k + 32 /\ is_Some (irq_domains s !! v_domain v) /\ v_domain v <> 0
    else v_domain v = 0).

Lemma redir_raw_words id lapic : 0 <= id < 256 -> 0 <= lapic < 256 ->
  let raw := redir_raw (mk_redir id 0 0 0 0 0 0 0 lapic) in u32 raw = id /\ u32 (Z.shiftr raw 32) = lapic * 2 ^ 24.
Proof.
  intros Hi Hl. unfold redir_raw, u32, wrap. cbn [re_vector re_delivery re_dest_mode re_status re_polarity re_irr re_trigger re_mask re_dest].
  rewrite Z.shiftr_div_pow2 by lia.
  replace (_ + lapic * 2 ^ 56) with (id + lapic * 2 ^ 24 * 2 ^ 32) by lia.
  rewrite Z.mod_add, Z.div_add, (Z.mod_small id), (Z.div_small id) by lia. split; [done|]. apply Z.mod_small. lia.
Qed.

Lemma ioapic_pin_total s hwirq : length (isa_irq_override s) = 16%nat -> 0 <= hwirq -> exists pin, ioapic_pin s hwirq = Ok pin.
Proof.
  intros Hl Hh. unfold ioapic_pin. destruct (Z.ltb_spec hwirq 16); [|eauto].
  destruct (aget_in (isa_irq_override s) hwirq) as (o & -> & _); [unfold zlen; lia|]. cbn. eauto.
Qed.

(** Enabling changes nothing but registers, and those of the pin it serves. *)
Lemma ioapic_enable_spec s lapic v pin : redir_entry_count s <= 120 -> ioapic_pin s (v_hwirq v) = Ok pin -> 0 <= pin < 256 ->
  exists r, ioapic_enable s lapic v = Ok (set_ioapic_regs r s) /\
  (pin < redir_entry_count s -> 0 <= v_id v < 256 -> 0 <= lapic < 256 ->
   r !! (0x10 + 2 * pin) = Some (v_id v) /\ r !! (0x10 + 2 * pin + 1) = Some (lapic * 2 ^ 24)) /\
  (forall i, i <> 0x10 + 2 * pin -> i <> 0x10 + 2 * pin + 1 -> r !! i = ioapic_regs s !! i).
Proof.
  intros Hc Hpin Hp. unfold ioapic_enable. rewrite Hpin. cbn [outcome_bind]. unfold ioapic_write_redirection_entry.
  assert (forall x, 0 <= x < 256 -> u8 x = x) as H8 by (intros; unfold u8, wrap; by apply Z.mod_small).
  rewrite (H8 pin) by done. destruct (Z.leb_spec (redir_entry_count s) pin) as [Hout|Hin].
  { exists (ioapic_regs s). split_and!; [by destruct s|lia|done]. }
  unfold ioapic_write, IOAPIC_REGISTER_REDTBL. cbn [ioapic_regs set_ioapic_regs]. rewrite !(H8 (16 + _)), (H8 (16 + _ + _)) by lia.
  eexists. split; [reflexivity|]. split.
  - intros _ Hid Hlap. rewrite !H8 by done. destruct (redir_raw_words (v_id v) lapic Hid Hlap) as [-> ->].
    rewrite lookup_insert_eq, lookup_insert_ne, lookup_insert_eq by lia. done.
  - intros i H1 H2. by rewrite !lookup_insert_ne by done.
Qed.

Lemma find_domain_spec s l hwirq d : find_domain s l hwirq = Ok d -> d <> 0 ->
  d ∈ l /\ exists dom, irq_domains s !! d = Some dom /\ d_begin dom <= hwirq <= d_end dom.
Proof.
  induction l as [|cur l IH]; cbn [find_domain]; [intros [= <-]; done|]. unfold get_domain.
  destruct (irq_domains s !! cur) as [dom|] eqn:Hd; cbn [deref outcome_bind]; [|done].
  destruct (_ && _) eqn:E.
  - intros [= <-] _. bool_to_prop. split; [set_solver|]. exists dom. split; [done|lia].
  - intros H Hn. destruct (IH H Hn) as (Hin & ? & ?). set_solver.
Qed.

Lemma virq_new_inv s r v : irq_inv s -> virq_alloc s < 160 -> v_id v = virq_alloc s -> is_Some (irq_domains s !! v_domain v) ->
  v_domain v <> 0 ->
  irq_inv (set_ioapic_regs r (set_virqs (<[Z.to_nat (virq_alloc s - 32) := v]> (virq_table s)) (virq_alloc s + 1) s)).
Proof.
  intros (Hlen & Ha & Ho & Hc & Hent) Hroom Hid Hdom Hn0. unfold irq_inv. cbn. rewrite length_insert. split_and!; try lia.
  intros k w Hk. destruct (decide (k = Z.to_nat (virq_alloc s - 32))) as [->|Hne].
  - rewrite list_lookup_insert_eq in Hk by lia. injection Hk as <-.
    destruct (Z.ltb_spec (Z.of_nat (Z.to_nat (virq_alloc s - 32)) + 32) (virq_alloc s + 1)); [|lia]. split; [lia|done].
  - rewrite list_lookup_insert_ne in Hk by done. specialize (Hent k w Hk).
    destruct (Z.ltb_spec (Z.of_nat k + 32) (virq_alloc s)), (Z.ltb_spec (Z.of_nat k + 32) (virq_alloc s + 1)); (done || lia).
Qed.

Lemma dispatch_insert s r v n id : length (virq_table s) = 128%nat -> 32 <= v_id v < 160 -> 32 <= id < 160 ->
  irq_dispatch (set_ioapic_regs r (set_virqs (<[Z.to_nat (v_id v - 32) := v]> (virq_table s)) n s)) id =
  if id =? v_id v then
    if v_domain v =? 0 then Ok []
    else let* d := get_domain s (v_domain v) in
      Ok ((if v_handler v =? 0 then [] else [Handler (v_handler v) (v_payload v)]) ++ [Eoi])
  else irq_dispatch s id.
Proof.
  intros Hlen Hv Hid. unfold irq_dispatch. cbn [virq_table set_ioapic_regs set_virqs]. unfold get_domain.
  cbn [irq_domains set_ioapic_regs set_virqs]. unfold aget. destruct (Z.leb_spec 0 (id - 32)); [|lia].
  destruct (Z.eqb_spec id (v_id v)) as [->|Hne].
  - by rewrite list_lookup_insert_eq by lia.
  - by rewrite list_lookup_insert_ne by lia.
Qed.

(** C37: registering a handler for a line of the I/O APIC connects them.
    With a vector to spare, [irq_register] takes the next vector, keeps the
    table of registrations well formed and programs the pin the line is wired
    to, after the overrides, with that vector and the running processor as
    its target, unmasked, touching no register of another pin.  From then on
    an interrupt with this vector runs the handler on its payload and signals
    the end of the interrupt, and every other vector does what it did. *)
Theorem irq_register_routes s lapic hwirq handler payload d dom pin :
  irq_inv s -> virq_alloc s < 160 -> handler <> 0 -> 0 <= lapic < 256 ->
  find_hwirq_domain s hwirq = Ok d -> d <> 0 -> irq_domains s !! d = Some dom -> d_chip dom = ioapic_chip ->
  ioapic_pin s hwirq = Ok pin -> 0 <= pin < redir_entry_count s ->
  exists v s', irq_register s lapic hwirq handler payload = Ok (Some v, s') /\ irq_inv s' /\ v_id v = virq_alloc s /\
    ioapic_regs s' !! (0x10 + 2 * pin) = Some (v_id v) /\ ioapic_regs s' !! (0x10 + 2 * pin + 1) = Some (lapic * 2 ^ 24) /\
    (forall i, i <> 0x10 + 2 * pin -> i <> 0x10 + 2 * pin + 1 -> ioapic_regs s' !! i = ioapic_regs s !! i) /\
    irq_dispatch s' (v_id v) = Ok [Handler handler payload; Eoi] /\
    (forall id, 32 <= id < 160 -> id <> v_id v -> irq_dispatch s' id = irq_dispatch s id).
Proof.
  intros Hinv Hroom Hh Hlap Hfind Hd Hdom Hchip Hpin Hp. pose proof Hinv as (Hlen & Ha & Ho & Hc & Hent).
  set (v := mk_virq (virq_alloc s) hwirq d payload handler).
  set (s1 := set_virqs (<[Z.to_nat (virq_alloc s - 32) := v]> (virq_table s)) (virq_alloc s + 1) s).
  destruct (ioapic_enable_spec s1 lapic v pin) as (r & Hen & Hregs & Hframe); [apply Hc|done|lia|].
  exists v, (set_ioapic_regs r s1). split.
  { unfold irq_register. rewrite Hfind. cbn [outcome_bind]. destruct (Z.eqb_spec d 0); [done|]. unfold virq_new.
    rewrite aset_in by (unfold zlen; lia). cbn [outcome_bind]. fold v.
    replace (u32 (virq_alloc s + 1)) with (virq_alloc s + 1) by (unfold u32, wrap; rewrite Z.mod_small; lia). fold s1.
    unfold chip_enable, get_domain. change (irq_domains s1 !! v_domain v) with (irq_domains s !! d). rewrite Hdom.
    cbn [deref outcome_bind]. rewrite Hchip, Hen. done. }
  split; [apply virq_new_inv; eauto|]. split; [done|].
  destruct Hregs as [Hlo Hhi]; [apply Hp|cbn; lia|done|]. split_and!; try done.
  - unfold s1. change (virq_alloc s) with (v_id v) at 1. rewrite dispatch_insert by (cbn; lia). rewrite Z.eqb_refl.
    cbn [v v_domain v_handler v_payload]. destruct (Z.eqb_spec d 0); [done|]. unfold get_domain. rewrite Hdom. cbn.
    by destruct (Z.eqb_spec handler 0).
  - intros id Hid Hne. unfold s1. change (virq_alloc s) with (v_id v) at 1. rewrite dispatch_insert by (cbn; lia).
    by destruct (Z.eqb_spec id (v_id v)).
Qed.

(** A machine with one I/O APIC of 24 pins, named 1, and the timer on pin 2. *)
Definition sample_irqs : irqs :=
  mk_irqs {[ 1 := mk_domain ioapic_chip 0 24 0 ]} [1] (replicate 128 (mk_virq 0 0 0 0 0)) 32 24 (2 :: replicate 15 0) ∅ ∅.

Lemma irq_register_routes_witness : exists v s', irq_register sample_irqs 0 0 77 5 = Ok (Some v, s') /\ v_id v = 32 /\
  ioapic_regs s' !! 0x14 = Some 32 /\ irq_dispatch s' 32 = Ok [Handler 77 5; Eoi].
Proof.
  destruct (irq_register_routes sample_irqs 0 0 77 5 1 (mk_domain ioapic_chip 0 24 0) 2) as (v & s' & E & _ & Hid & Hr & _ & _ & Hd & _);
    try done; try lia.
  - unfold irq_inv. split_and!; try done. intros k w Hk. apply lookup_replicate in Hk as [-> Hk].
    change (virq_alloc sample_irqs) with 32. by destruct (Z.ltb_spec (Z.of_nat k + 32) 32); [lia|].
  - exists v, s'. change (virq_alloc sample_irqs) with 32 in Hid. rewrite Hid in *. done.
Defined.
