(* ===== verification/Acpi.v ===== *)
(** * The firmware's tables

    kernel/arch/x86_64/acpi.c.  A table is the list of its bytes, kept under
    the address at which the direct map shows it.  The root table lists the
    physical addresses of the others. *)

From stdpp Require Import base numbers list gmap.
From Stdlib Require Import ZArith Lia.
From S2P Require Import Prelude Wire Irq.

(** [find_table] and [acpi_parse_rsdp] read these fields of [rsdp_v2] and [sdt_header]. *)
Definition sizeof_sdt_header : Z := 36.

Record acpi_tables := mk_tables { a_xsdp : Z; a_xsdt : Z; a_fadt : Z; a_madt : Z; a_mcfg : Z; a_hpet : Z }.

(** Sets of table contents, by virtual address. *)
Definition firmware : Type := gmap Z (list Z).

(** [strncmp(a, b, n)] on the bytes at two addresses. *)
Fixpoint sig_cmp (a b : list Z) (n : nat) {struct n} : outcome Z :=
  match n with
  | O => Ok 0
  | S n =>
      match a, b with
      | x :: a, y :: b => if negb (x =? 0) && (x =? y) then sig_cmp a b n else Ok (x - y)
      | _, _ => Fault
      end
  end.

(** The loop of [find_table]: [n] entries are left, the next one is [i]. *)
Fixpoint find_table_loop (f : firmware) (root id : list Z) (n : nat) (i : Z) : outcome Z :=
  match n with
  | O => Ok 0
  | S n =>
      let* address := rd64 root (sizeof_sdt_header + i * 8) in
      let header := u64 (address + VM_DMAP_BASE) in
      let* tbl := deref (f !! header) in
      let* c := sig_cmp tbl id 4 in
      if c =? 0 then Ok header else find_table_loop f root id n (i + 1)
  end.

(** The number of entries is an [int]: a negative one gives no round. *)
Definition find_table (f : firmware) (root_table : Z) (id : list Z) : outcome Z :=
  let* root := deref (f !! root_table) in
  let* length := rd32 root 4 in
  let num_entries := s32 (u64 (length - sizeof_sdt_header) / 8) in
  find_table_loop f root id (Z.to_nat num_entries) 0.

Definition sig_FACP : list Z := [70; 65; 67; 80].
Definition sig_APIC : list Z := [65; 80; 73; 67].
Definition sig_MCFG : list Z := [77; 67; 70; 71].
Definition sig_HPET : list Z := [72; 80; 69; 84].

Definition acpi_parse_rsdp (f : firmware) (rsdp : Z) : outcome acpi_tables :=
  let* r := deref (f !! rsdp) in
  let* revision := rd8 r 15 in
  if revision <? 2 then Panic
  else
    let* xsdt_address := rd64 r 24 in
    if xsdt_address =? 0 then Panic
    else
      let xsdt := u64 (xsdt_address + VM_DMAP_BASE) in
      let* fadt := find_table f xsdt sig_FACP in
      if fadt =? 0 then Panic
      else
        let* madt := find_table f xsdt sig_APIC in
        if madt =? 0 then Panic
        else
          let* mcfg := find_table f xsdt sig_MCFG in
          if mcfg =? 0 then Panic
          else
            let* hpet := find_table f xsdt sig_HPET in
            Ok (mk_tables rsdp xsdt fadt madt mcfg hpet).

(** ** Tables as the firmware writes them *)

Definition dmap (address : Z) : Z := u64 (address + VM_DMAP_BASE).

(** A root table with the given entries; [pre] and [rest] are the header
    fields around the length. *)
Definition root_bytes (pre rest : list Z) (entries : list Z) : list Z :=
  pre ++ le32 (sizeof_sdt_header + 8 * zlen entries) ++ rest ++ concat (map le64 entries).

(** Every entry of the root table leads to a table. *)
Record root_ok (f : firmware) (root : Z) (entries : list Z) : Prop := {
  ro_bytes : exists pre rest, length pre = 4%nat /\ length rest = 28%nat /\ f !! root = Some (root_bytes pre rest entries);
  ro_count : zlen entries < 2 ^ 28;
  ro_entries : forall a, a ∈ entries -> 0 <= a < 2 ^ 64 /\ dmap a <> 0 /\ exists tbl, f !! dmap a = Some tbl /\ 4 <= zlen tbl;
}.

Definition signed (f : firmware) (id : list Z) (a : Z) : Prop := exists tbl, f !! dmap a = Some tbl /\ take 4 tbl = id.

#[export] Instance signed_dec f id a : Decision (signed f id a).
Proof.
  destruct (f !! dmap a) as [tbl|] eqn:E.
  - destruct (decide (take 4 tbl = id)) as [H|H]; [left; by exists tbl|right; intros (t & Ht & Hs)].
    rewrite E in Ht. by simplify_eq.
  - right. intros (t & Ht & _). by rewrite E in Ht.
Defined.

(** The address of the first table with the signature, 0 if there is none. *)
Fixpoint first_signed (f : firmware) (id entries : list Z) : Z :=
  match entries with
  | [] => 0
  | a :: entries => if decide (signed f id a) then dmap a else first_signed f id entries
  end.

(** Signatures contain no zero byte, so that comparing them is comparing bytes. *)
Lemma sig_cmp_spec n : forall a b, (n <= length a)%nat -> length b = n -> Forall (fun x => x <> 0) b ->
  exists r, sig_cmp a b n = Ok r /\ (r = 0 <-> take n a = b).
Proof.
  induction n as [|n IH]; intros a b Ha Hb Hz.
  { destruct b; [|done]. exists 0. split; [done|]. by rewrite take_0. }
  destruct a as [|x a]; [simpl in Ha; lia|]. destruct b as [|y b]; [done|]. inversion Hz as [|? ? Hy Hz']; subst.
  cbn [sig_cmp take]. destruct (Z.eqb_spec x y) as [->|Hxy].
  - destruct (Z.eqb_spec y 0); [done|]. cbn [negb andb]. destruct (IH a b) as (r & -> & Hr); [simpl in *; lia|simpl in *; lia|done|].
    exists r. split; [done|]. rewrite Hr. split; [by intros ->|by intros [= ->]].
  - rewrite andb_false_r. exists (x - y). split; [done|]. split; [lia|]. intros [= ? ?]. lia.
Qed.

Lemma le64_length v : length (le64 v) = 8%nat.
Proof. done. Qed.

Lemma concat_le64_length l : zlen (concat (map le64 l)) = 8 * zlen l.
Proof. induction l as [|v l IH]; [done|]. cbn [map concat]. rewrite zlen_app, zlen_cons, IH. change (zlen (le64 v)) with 8. lia. Qed.

Section find.
Context (f : firmware) (root : list Z) (entries pre rest id : list Z).
Hypothesis Hroot : root = root_bytes pre rest entries.
Hypothesis Hpre : length pre = 4%nat.
Hypothesis Hrest : length rest = 28%nat.
Hypothesis Hentries : forall a, a ∈ entries -> 0 <= a < 2 ^ 64 /\ dmap a <> 0 /\ exists tbl, f !! dmap a = Some tbl /\ 4 <= zlen tbl.
Hypothesis Hid : length id = 4%nat /\ Forall (fun x => x <> 0) id.

Lemma root_entry done a todo : entries = done ++ a :: todo ->
  rd64 root (sizeof_sdt_header + zlen done * 8) = Ok a.
Proof.
  intros E. assert (0 <= a < 2 ^ 64) by (apply Hentries; set_solver).
  assert (root = (pre ++ le32 (sizeof_sdt_header + 8 * zlen entries) ++ rest ++ concat (map le64 done)) ++ le64 a ++ concat (map le64 todo)) as ->.
  { rewrite Hroot. unfold root_bytes. rewrite E, map_app, concat_app. cbn [map concat]. by rewrite <- !app_assoc. }
  apply rd64_le64; [done|]. rewrite !zlen_app, concat_le64_length. change (zlen (le32 _)) with 4. unfold zlen, sizeof_sdt_header. lia.
Qed.

Lemma find_loop_spec todo : forall dn, entries = dn ++ todo ->
  find_table_loop f root id (length todo) (zlen dn) = Ok (first_signed f id todo).
Proof.
  induction todo as [|a todo IH]; intros dn E; [done|]. cbn [length find_table_loop first_signed].
  rewrite (root_entry dn a todo E). cbn [outcome_bind].
  destruct (Hentries a) as (Ha & Hnz & tbl & Htbl & Hlen); [set_solver|]. change (u64 (a + VM_DMAP_BASE)) with (dmap a).
  rewrite Htbl. cbn [deref outcome_bind]. destruct (sig_cmp_spec 4 tbl id) as (r & -> & Hr); [unfold zlen in Hlen; lia|apply Hid|apply Hid|].
  cbn [outcome_bind]. destruct (decide (signed f id a)) as [(t & Ht & Hs)|Hn].
  - rewrite Htbl in Ht. injection Ht as <-. by rewrite (proj2 Hr Hs).
  - destruct (Z.eqb_spec r 0) as [H0|_]; [destruct Hn; exists tbl; split; [done|by apply Hr]|].
    replace (zlen dn + 1) with (zlen (dn ++ [a])) by (rewrite zlen_app; done). apply IH. by rewrite <- app_assoc.
Qed.
End find.

Lemma find_table_spec f root entries id : root_ok f root entries -> length id = 4%nat -> Forall (fun x => x <> 0) id ->
  find_table f root id = Ok (first_signed f id entries).
Proof.
  intros [(pre & rest & Hp & Hr & Hf) Hn He] Hl Hid. unfold find_table. rewrite Hf. cbn [deref outcome_bind].
  pose proof (zlen_nonneg entries). unfold root_bytes at 1. rewrite rd32_le32; [|unfold word, sizeof_sdt_header; lia|unfold zlen; lia].
  cbn [outcome_bind]. replace (sizeof_sdt_header + 8 * zlen entries - sizeof_sdt_header) with (zlen entries * 8) by lia.
  rewrite u64_small, Z.div_mul by lia. unfold s32. rewrite sint_small by lia.
  replace (Z.to_nat (zlen entries)) with (length entries) by (unfold zlen; lia).
  by apply (find_loop_spec f _ entries pre rest id eq_refl Hp Hr He (conj Hl Hid) entries []).
Qed.

(** A table found has the signature and is listed; none is missed. *)
Lemma first_signed_spec f id entries : (forall a, a ∈ entries -> dmap a <> 0) ->
  (first_signed f id entries = 0 <-> forall a, a ∈ entries -> ~ signed f id a) /\
  (first_signed f id entries <> 0 -> exists a, a ∈ entries /\ first_signed f id entries = dmap a /\ signed f id a).
Proof.
  induction entries as [|a l IH]; intros Hnz; cbn [first_signed].
  { split; [|done]. split; [|done]. intros _ a Ha. set_solver. }
  destruct IH as [IH1 IH2]; [set_solver|]. destruct (decide (signed f id a)) as [Hs|Hs].
  - split.
    + split; [intros E; exfalso; apply (Hnz a); [set_solver|done]|intros H; destruct (H a); [set_solver|done]].
    + intros _. exists a. split; [set_solver|done].
  - split.
    + rewrite IH1. split; [intros H b [->|Hb]%elem_of_cons; [done|by apply H]|intros H b Hb; apply H; set_solver].
    + intros H. destruct (IH2 H) as (b & Hb & E & Hsb). exists b. split; [set_solver|done].
Qed.

(** Reading the tables of a firmware of version 2 or later: the tables kept
    are the first ones with their signatures, a missing event timer table is
    accepted, and any other missing table stops the machine. *)
Theorem acpi_parse_rsdp_correct f rsdp r revision xsdt_address entries :
  f !! rsdp = Some r -> rd8 r 15 = Ok revision -> 2 <= revision -> rd64 r 24 = Ok xsdt_address -> xsdt_address <> 0 ->
  root_ok f (dmap xsdt_address) entries ->
  let found id := first_signed f id entries in
  acpi_parse_rsdp f rsdp =
    (if bool_decide (found sig_FACP <> 0 /\ found sig_APIC <> 0 /\ found sig_MCFG <> 0)
     then Ok (mk_tables rsdp (dmap xsdt_address) (found sig_FACP) (found sig_APIC) (found sig_MCFG) (found sig_HPET))
     else Panic).
Proof.
  intros Hr Hrev Hge Hx Hnz Hroot found. unfold acpi_parse_rsdp. rewrite Hr. cbn [deref outcome_bind]. rewrite Hrev. cbn [outcome_bind].
  destruct (Z.ltb_spec revision 2); [lia|]. rewrite Hx. cbn [outcome_bind]. destruct (Z.eqb_spec xsdt_address 0); [done|].
  change (u64 (xsdt_address + VM_DMAP_BASE)) with (dmap xsdt_address).
  assert (forall id, length id = 4%nat -> Forall (fun x => x <> 0) id -> find_table f (dmap xsdt_address) id = Ok (found id)) as Hfind.
  { intros id Hl Hi. by apply find_table_spec. }
  rewrite !Hfind by (done || (repeat constructor; done)). cbn [outcome_bind].
  destruct (Z.eqb_spec (found sig_FACP) 0); [by rewrite bool_decide_false by naive_solver|].
  destruct (Z.eqb_spec (found sig_APIC) 0); [by rewrite bool_decide_false by naive_solver|].
  destruct (Z.eqb_spec (found sig_MCFG) 0); [by rewrite bool_decide_false by naive_solver|].
  by rewrite bool_decide_true by done.
Qed.
