(* ===== verification/Pcie.v ===== *)
(** * PCI Express

    kernel/dev/pcie/pcie.c and pci_class.c: configuration space, base address
    registers, the MSI-X capability, and the scan that finds the devices and
    starts their drivers.  Configuration space belongs to the hardware: it is
    a state behind the class [ConfigSpace].  What the drivers use of the
    kernel's address space is the class [KernelSpace], which the definitions
    of Vmm.v implement. *)

From stdpp Require Import base numbers list gmap strings.
From Stdlib Require Import ZArith Lia.
From S2P Require Import Prelude Pages Mmu Vmm Wire Irq Acpi.

(** Reads and writes of 32-bit words, by virtual address. *)
Class ConfigSpace (C : Type) := {
  cfg_read32 : C -> Z -> Z;
  cfg_write32 : C -> Z -> Z -> C;
}.

(** Mapping device memory, and memory for a device and for the processor
    alone; mapping a given range, and finding the frame of a page. *)
Class KernelSpace (K : Type) := {
  ks_map_device : K -> Z -> Z -> outcome (Z * K);
  ks_map_fresh : K -> Z -> outcome (Z * K);
  ks_vmalloc : K -> Z -> outcome (Z * K);
  ks_map_range : K -> Z -> Z -> Z -> outcome K;
  ks_phys : K -> Z -> outcome Z;
}.

Definition device_prot : Z := Z.lor PROT_READ (Z.lor PROT_WRITE PROT_UNCACHED).

Section implementation.
Context {St F : Type} {PA : PageAllocator St} {FS : FileServices F}.

(** The calls of [vm_space_map], [vm_space_get_mapping] and [mmu_map_range] in
    the drivers, on the kernel's address space. *)
#[export] Instance vmm_kernel_space : KernelSpace (vmm (St := St) (F := F) * vm_space) := {|
  ks_map_device := fun k length phys_base =>
    let* (base, v, sp) := vm_space_map k.1 k.2 (mk_info length device_prot VM_FLAG_DEVICE phys_base 0 0 0) in Ok (base, (v, sp));
  ks_map_fresh := fun k length =>
    let* (base, v, sp) := vm_space_map k.1 k.2 (mk_info length device_prot VM_FLAG_ALLOCATE 0 0 0 0) in Ok (base, (v, sp));
  ks_vmalloc := fun k length =>
    let* (base, v, sp) := vm_space_map k.1 k.2 (mk_info length (Z.lor PROT_READ PROT_WRITE) VM_FLAG_ALLOCATE 0 0 0 0) in Ok (base, (v, sp));
  ks_map_range := fun k phys virt length =>
    let* m := mmu_map_range (vm_mmu k.1) (mmu_root k.2) phys virt length device_prot 0 in Ok (with_mmu k.1 m, k.2);
  ks_phys := fun k virt => let* m := vm_space_get_mapping k.1 k.2 virt in Ok (m_base m);
|}.
End implementation.

(** ** pcie.h *)

(** [msi_domain] is the address of the interrupt domain, 0 is none. *)
Record pcie_device := mk_pcie_device { bus : Z; device : Z; function : Z; msi_domain : Z }.
Record pcie_bar := mk_bar { phys_base : Z; address : Z; bar_size : Z }.

Section pcie.
Context {C K : Type} {CS : ConfigSpace C} {KS : KernelSpace K}.

(** [pc_brk] is the address of the next structure allocated. *)
Record pci := mk_pci { pc_cfg : C; base_address : Z; pc_space : K; pc_irqs : irqs; pc_brk : Z }.

Definition set_cfg (c : C) (s : pci) : pci := mk_pci c (base_address s) (pc_space s) (pc_irqs s) (pc_brk s).
Definition set_space (k : K) (s : pci) : pci := mk_pci (pc_cfg s) (base_address s) k (pc_irqs s) (pc_brk s).

Definition pcie_device_address (s : pci) (dev : pcie_device) : Z :=
  u64 (base_address s + (bus dev * 256 + device dev * 8 + function dev) * 4096).

Definition pcie_write32 (s : pci) (dev : pcie_device) (offset data : Z) : pci :=
  set_cfg (cfg_write32 (pc_cfg s) (u64 (pcie_device_address s dev + offset)) (u32 data)) s.

Definition pcie_read32 (s : pci) (dev : pcie_device) (offset : Z) : Z :=
  u32 (cfg_read32 (pc_cfg s) (u64 (pcie_device_address s dev + offset))).

Definition pcie_read16 (s : pci) (dev : pcie_device) (offset : Z) : Z :=
  let reg32 := pcie_read32 s dev (align_down offset 0x4) in
  let reg32 := Z.shiftr reg32 (Z.land offset 0x2 * 8) in
  Z.land reg32 0xFFFF.

Definition pcie_read8 (s : pci) (dev : pcie_device) (offset : Z) : Z :=
  let reg32 := pcie_read32 s dev (align_down offset 0x4) in
  let reg32 := Z.shiftr reg32 (Z.land offset 0x3 * 8) in
  Z.land reg32 0xFF.

Definition pcie_is_valid (s : pci) (dev : pcie_device) : bool :=
  negb (pcie_read16 s dev 0 =? 0xFFFF) && negb (pcie_read16 s dev 0x2 =? 0xFFFF).

Definition pcie_is_bridge (s : pci) (dev : pcie_device) : bool :=
  (pcie_read8 s dev 0xe =? 0x1) && (pcie_read8 s dev 0xb =? 0x6).

Definition pcie_sub_bus (s : pci) (dev : pcie_device) : Z := Z.land (pcie_read8 s dev 0xe) (Z.shiftl 1 7).

Definition pcie_get_bar (s : pci) (dev : pcie_device) (bir : Z) : outcome (pcie_bar * pci) :=
  let bar_low := pcie_read32 s dev (0x10 + bir * 4) in
  let s := pcie_write32 s dev (0x10 + bir * 4) 0xFFFFFFFF in
  let bar_size := u32 (Z.land (pcie_read32 s dev (0x10 + bir * 4)) 0xFFFFFFFF0) in
  let s := pcie_write32 s dev (0x10 + bir * 4) (Z.land bar_low 0xFFFFFFF0) in
  let size := u32 (u32 (Z.lnot bar_size) + 1) in
  let map phys_base :=
    let* (address, k) := ks_map_device (pc_space s) size phys_base in
    Ok (mk_bar phys_base address size, set_space k s) in
  if has bar_low 0x4 && negb (has bar_low 0x2) then
    let bar_high := pcie_read32 s dev (0x10 + bir * 4 + 4) in
    map (Z.lor (Z.shiftl (Z.land bar_high 0xFFFFFFFF) 32) (Z.land bar_low 0xFFFFFFF0))
  else if negb (has bar_low 0x2) && negb (has bar_low 0x1) then map (Z.land bar_low 0xFFFFFFF0)
  else Ok (mk_bar 0 0 size, s).

(** The loop of [pcie_enable_msix] over the capabilities; 0 says that there is
    no MSI-X capability. *)
Fixpoint msix_search (fuel : nat) (s : pci) (dev : pcie_device) (pcap_ptr : Z) : outcome Z :=
  if pcap_ptr =? 0 then Ok 0
  else match fuel with
  | O => OutOfFuel
  | S fuel =>
      let cap := pcie_read32 s dev pcap_ptr in
      if Z.land cap 0xFF =? 0x11 then Ok pcap_ptr else msix_search fuel s dev (Z.land (Z.shiftr cap 8) 0xFC)
  end.

Definition pcie_enable_msix (fuel : nat) (s : pci) (dev : pcie_device) : outcome (bool * pcie_device * pci) :=
  let* msix_ptr := msix_search fuel s dev (Z.land (pcie_read8 s dev 0x34) 0xFC) in
  if msix_ptr =? 0 then Ok (false, dev, s)
  else
    let msix_reg0 := pcie_read32 s dev msix_ptr in
    let msix_reg1 := pcie_read32 s dev (msix_ptr + 4) in
    let msix_mctr := u16 (Z.shiftr msix_reg0 16) in
    let bir := Z.land msix_reg1 7 in
    let table_offset := Z.land msix_reg1 (u32 (Z.lnot 7)) in
    let table_size := Z.land msix_mctr 2047 in
    let* (bar, s) := pcie_get_bar s dev bir in
    let table := u64 (address bar + table_offset) in
    if table =? 0 then Ok (false, dev, s)
    else
      let msix_reg0 := Z.land msix_reg0 (u32 (Z.lnot (Z.shiftl 1 30))) in
      let msix_reg0 := Z.lor msix_reg0 (Z.shiftl 1 31) in
      let s := pcie_write32 s dev msix_ptr msix_reg0 in
      let domain := pc_brk s in
      let s := mk_pci (pc_cfg s) (base_address s) (pc_space s)
                 (msix_domain_register (pc_irqs s) domain (table_size + 1) table) (pc_brk s + 64) in
      Ok (true, mk_pcie_device (bus dev) (device dev) (function dev) domain, s).
End pcie.
Arguments pci : clear implicits.

(** ** pci_class.c *)

Definition class_1_to_string (subclass : Z) : string :=
  match subclass with
  | 0 => "SCSI controller"
  | 0x1 => "IDE controller"
  | 0x2 => "Floppy controller"
  | 0x3 => "IPI controller"
  | 0x4 => "RAID controller"
  | 0x5 => "ATA controller"
  | 0x6 => "SATA controller"
  | 0x7 => "SAS controller"
  | 0x8 => "NVME controller"
  | _ => "Storage controller"
  end.

Definition class_2_to_string (subclass : Z) : string :=
  match subclass with
  | 0 => "Ethernet controller"
  | _ => "Network controller"
  end.

Definition class_3_to_string (subclass : Z) : string :=
  match subclass with
  | 0 => "VGA compatible controller"
  | 0x2 => "3D controller"
  | _ => "Display controller"
  end.

Definition class_4_to_string (subclass : Z) : string :=
  match subclass with
  | 0x3 => "Audio device"
  | _ => "Multimedia controller"
  end.

Definition class_5_to_string (subclass : Z) : string :=
  match subclass with
  | 0 => "RAM controller"
  | 0x1 => "Flash controller"
  | _ => "Memory controller"
  end.

Definition class_6_to_string (subclass : Z) : string :=
  match subclass with
  | 0 => "Host bridge"
  | 0x1 => "ISA bridge"
  | 0x2 => "EISA bridge"
  | 0x4 | 0x9 => "PCI bridge"
  | _ => "Bridge"
  end.

Definition class_7_to_string (subclass : Z) : string :=
  match subclass with
  | 0 => "Serial controller"
  | 0x1 => "Parallel controller"
  | 0x2 => "Multiport serial controller"
  | 0x3 => "Modem"
  | 0x4 => "GPIB controller"
  | 0x5 => "Smart card controller"
  | _ => "Simple communication controller"
  end.

Definition class_8_to_string (subclass : Z) : string :=
  match subclass with
  | 0 => "Interrupt controller"
  | 0x1 => "DMA controller"
  | 0x2 => "Timer"
  | 0x3 => "RTC controller"
  | 0x4 => "PCI hotplug controller"
  | 0x5 => "SD host controller"
  | 0x6 => "IOMMU"
  | _ => "Base system peripheral"
  end.

Definition class_C_to_string (subclass : Z) : string :=
  match subclass with
  | 0 => "FireWire controller"
  | 0x3 => "USB controller"
  | 0x5 => "SMBus controller"
  | 0x7 => "IPMI interface"
  | _ => "Serial bus controller"
  end.

Definition class_D_to_string (subclass : Z) : string :=
  match subclass with
  | 0x11 => "Bluetooth controller"
  | 0x20 => "802.11a controller"
  | 0x21 => "802.11b controller"
  | _ => "Wireless controller"
  end.

(** [None] is the null pointer. *)
Definition class_to_string (class_code subclass : Z) : option string :=
  match class_code with
  | 0x1 => Some (class_1_to_string subclass)
  | 0x2 => Some (class_2_to_string subclass)
  | 0x3 => Some (class_3_to_string subclass)
  | 0x4 => Some (class_4_to_string subclass)
  | 0x5 => Some (class_5_to_string subclass)
  | 0x6 => Some (class_6_to_string subclass)
  | 0x7 => Some (class_7_to_string subclass)
  | 0x8 => Some (class_8_to_string subclass)
  | 0x9 => Some "Input device controller"%string
  | 0xA => Some "Docking station"%string
  | 0xB => Some "Processor"%string
  | 0xC => Some (class_C_to_string subclass)
  | 0xD => Some (class_D_to_string subclass)
  | 0xE => Some "Intelligent controller"%string
  | 0xF => Some "Satellite communication controller"%string
  | 0x10 => Some "Encryption controller"%string
  | 0x11 => Some "Signal processing controller"%string
  | 0x12 => Some "Processing accelerator"%string
  | 0x13 => Some "Non-Essential instrumentation"%string
  | 0x40 => Some "Co-Processor"%string
  | _ => None
  end.

(** ** The scan *)

Section scan.
Context {C K S : Type} {CS : ConfigSpace C} {KS : KernelSpace K}.

(** The PCI part of the kernel's state, and the drivers. *)
Context (pci_of : S -> pci C K).
Context (nvme_controller_init e1000_init : S -> pcie_device -> outcome S).

(** A line of the log: a function and the name of its class. *)
Record probe := mk_probe { p_bus : Z; p_device : Z; p_function : Z; p_name : option string }.

Definition scan_state : Type := S * list probe.

Definition pcie_dispatch_driver (dev : pcie_device) (st : scan_state) : outcome scan_state :=
  let p := pci_of st.1 in
  let classid := pcie_read8 p dev 0xb in
  let sclassid := pcie_read8 p dev 0xa in
  let vid := pcie_read16 p dev 0 in
  let devid := pcie_read16 p dev 0x2 in
  if (classid =? 1) && (sclassid =? 8) then let* s := nvme_controller_init st.1 dev in Ok (s, st.2)
  else if (classid =? 2) && (sclassid =? 0) then
    if (vid =? 0x8086) && (devid =? 0x10d3) then let* s := e1000_init st.1 dev in Ok (s, st.2) else Ok st
  else Ok st.

Definition klog_probe (dev : pcie_device) (name : option string) (st : scan_state) : scan_state :=
  (st.1, st.2 ++ [mk_probe (bus dev) (device dev) (function dev) name]).

Definition name_of (dev : pcie_device) (st : scan_state) : option string :=
  class_to_string (pcie_read8 (pci_of st.1) dev 0xb) (pcie_read8 (pci_of st.1) dev 0xa).

(** The round of [scan_device] for function [i]; [scan] is [scan_bus]. *)
Definition scan_function (scan : Z -> scan_state -> outcome scan_state) (b d i : Z) (st : scan_state) : outcome scan_state :=
  let subdev := mk_pcie_device b d i 0 in
  if negb (pcie_is_valid (pci_of st.1) subdev) then Ok st
  else
    let s_cname := name_of subdev st in
    let* st := if pcie_is_bridge (pci_of st.1) subdev then scan (pcie_sub_bus (pci_of st.1) subdev) st else Ok st in
    pcie_dispatch_driver subdev (klog_probe subdev s_cname st).

(** A counted loop over [i], [i + 1], ... *)
Fixpoint for_range (n : nat) (i : Z) (body : Z -> scan_state -> outcome scan_state) (st : scan_state) : outcome scan_state :=
  match n with
  | O => Ok st
  | Datatypes.S n => let* st := body i st in for_range n (i + 1) body st
  end.

Definition scan_device (scan : Z -> scan_state -> outcome scan_state) (b d : Z) (st : scan_state) : outcome scan_state :=
  let dev := mk_pcie_device b d 0 0 in
  if negb (pcie_is_valid (pci_of st.1) dev) then Ok st
  else
    let cname := name_of dev st in
    if pcie_is_bridge (pci_of st.1) dev then
      let st := klog_probe dev (Some (default "Bridge"%string cname)) st in
      scan (pcie_sub_bus (pci_of st.1) dev) st
    else
      let st := klog_probe dev cname st in
      let* st := if negb (pcie_sub_bus (pci_of st.1) dev =? 0) then for_range 7 1 (scan_function scan b d) st else Ok st in
      pcie_dispatch_driver dev st.

(** [fuel] bounds the depth of the recursion. *)
Fixpoint scan_bus (fuel : nat) (b : Z) (st : scan_state) : outcome scan_state :=
  match fuel with
  | O => OutOfFuel
  | Datatypes.S fuel => for_range 32 0 (scan_device (scan_bus fuel) b) st
  end.

(** The name of the variable hides that of the type, so that the sizes that
    [pcie_init] adds and subtracts are those of a pointer. *)
Definition sizeof_mcfg_pointer : Z := 8.

(** The entry structure starts with a table header of its own. *)
Definition ecam_base (mcfg : list Z) : outcome Z := rd64 mcfg (sizeof_mcfg_pointer + sizeof_sdt_header).

(** Setting the base address in the kernel's state. *)
Context (set_pci : pci C K -> S -> S).

Definition pcie_init (fuel : nat) (f : firmware) (t : acpi_tables) (s : S) : outcome scan_state :=
  let* mcfg := deref (f !! a_mcfg t) in
  let* base := ecam_base mcfg in
  let p := pci_of s in
  let base_address := u64 (base + VM_DMAP_BASE) in
  let* k := ks_map_range (pc_space p) base base_address (256 * 8 * 8 * 4096) in
  scan_bus fuel 0 (set_pci (mk_pci (pc_cfg p) base_address k (pc_irqs p) (pc_brk p)) s, []).
End scan.

(** ** Reading parts of words *)

Lemma lor_high h x n : 0 <= n -> 0 <= x < 2 ^ n -> Z.lor (h * 2 ^ n) x = h * 2 ^ n + x.
Proof.
  intros Hn Hx. assert (Z.land (h * 2 ^ n) x = 0) as E.
  { apply Z.bits_inj'. intros i Hi. rewrite Z.land_spec, Z.bits_0. destruct (Z.lt_ge_cases i n).
    - by rewrite Z.mul_pow2_bits_low.
    - rewrite (testbit_small n x) by done. apply andb_false_r. }
  by rewrite Z.add_nocarry_lxor, Z.lxor_lor.
Qed.

Section reads.
Context {C K : Type} {CS : ConfigSpace C} {KS : KernelSpace K}.
Implicit Types s : pci C K.

(** A byte of configuration space is that byte of its word. *)
Lemma pcie_read8_byte s dev offset : 0 <= offset < 2 ^ 32 ->
  pcie_read8 s dev offset = pcie_read32 s dev (offset / 4 * 4) / 2 ^ (8 * (offset mod 4)) mod 256.
Proof.
  intros H. unfold pcie_read8. change 0x4 with (2 ^ 2). rewrite align_down_spec by lia. change (2 ^ 2) with 4.
  change 0xFF with (2 ^ 8 - 1). rewrite land_ones_mod by lia. change 0x3 with (2 ^ 2 - 1). rewrite land_ones_mod by lia.
  change (2 ^ 2) with 4. rewrite Z.shiftr_div_pow2 by (pose proof (Z.mod_pos_bound offset 4); lia). by rewrite (Z.mul_comm 8).
Qed.

Lemma pcie_read32_range s dev offset : 0 <= pcie_read32 s dev offset < 2 ^ 32.
Proof. apply u32_range. Qed.

(** ** Base address registers *)

(** What the PCI specification says of the register at [a]: a memory region
    of [2 ^ k] bytes whose low four bits are the fixed flags [fl].  The
    address bits below the size cannot be written, and writing changes no
    other register. *)
Record bar_register (a k fl : Z) : Prop := {
  br_size : 4 <= k < 32;
  br_flags : 0 <= fl < 16;
  br_same : forall c v, 0 <= v < 2 ^ 32 -> cfg_read32 (cfg_write32 c a v) a = v / 2 ^ k * 2 ^ k + fl;
  br_other : forall c v b, b <> a -> cfg_read32 (cfg_write32 c a v) b = cfg_read32 c b;
}.

Lemma low_flags x fl m : 0 <= fl < 16 -> 0 <= m < 16 -> Z.land (x * 16 + fl) m = Z.land fl m.
Proof.
  intros Hf Hm. replace m with (Z.land 15 m) by (rewrite Z.land_comm; change 15 with (2 ^ 4 - 1); rewrite land_ones_mod by lia; apply Z.mod_small; lia).
  rewrite !Z.land_assoc. f_equal. change 15 with (2 ^ 4 - 1). rewrite !land_ones_mod by lia. change (2 ^ 4) with 16.
  by rewrite Z.add_comm, Z.mod_add by lia.
Qed.

Lemma clear_low x fl : 0 <= x -> 0 <= fl < 16 -> x * 16 + fl < 2 ^ 32 -> Z.land (x * 16 + fl) 0xFFFFFFF0 = x * 16.
Proof.
  intros Hx Hf Hlt. change 0xFFFFFFF0 with (u64 (Z.lnot (u64 (2 ^ 4 - 1))) mod 2 ^ 32).
  rewrite <- (land_ones_mod (u64 _)) by lia. rewrite Z.land_assoc, align_mask by lia. change (2 ^ 4) with 16.
  rewrite Z.div_add_l, Z.div_small, Z.add_0_r, land_ones_mod by lia. apply Z.mod_small. lia.
Qed.

(** Whatever is written to it, sizing a register and writing the address back
    leaves configuration space as it was. *)
Lemma bar_restored a k fl c base : bar_register a k fl -> 0 <= base -> base * 2 ^ k + fl < 2 ^ 32 ->
  cfg_read32 c a = base * 2 ^ k + fl ->
  forall b, cfg_read32 (cfg_write32 (cfg_write32 c a 0xFFFFFFFF) a (base * 2 ^ k)) b = cfg_read32 c b.
Proof.
  intros R Hb Hlt Hc b. destruct (decide (b = a)) as [->|Hne].
  - pose proof (br_size _ _ _ R). pose proof (br_flags _ _ _ R). rewrite (br_same _ _ _ R) by nia.
    rewrite Hc, Z.div_mul by (apply Z.pow_nonzero; lia). done.
  - by rewrite !(br_other _ _ _ R).
Qed.

Definition bar_address s dev bir : Z := u64 (pcie_device_address s dev + (0x10 + bir * 4)).

Lemma next_word x : u64 (x + 4) <> u64 x.
Proof.
  unfold u64, wrap. intros E. pose proof (Z.mod_pos_bound x (2 ^ 64) ltac:(lia)). rewrite <- Zplus_mod_idemp_l in E.
  destruct (Z.lt_ge_cases (x mod 2 ^ 64 + 4) (2 ^ 64)).
  - rewrite Z.mod_small in E by lia. lia.
  - replace (x mod 2 ^ 64 + 4) with (x mod 2 ^ 64 + 4 - 2 ^ 64 + 1 * 2 ^ 64) in E by lia. rewrite Z.mod_add, Z.mod_small in E by lia. lia.
Qed.

(** The mask of the size has a digit too many, which changes nothing. *)
Lemma sizing_mask k fl : 4 <= k < 32 -> 0 <= fl < 16 ->
  u32 (u32 (Z.lnot (u32 (Z.land (0xFFFFFFFF / 2 ^ k * 2 ^ k + fl) 0xFFFFFFFF0))) + 1) = 2 ^ k.
Proof.
  intros Hk Hf. assert (2 ^ k = 16 * 2 ^ (k - 4)) as E by (change 16 with (2 ^ 4); rewrite <- Z.pow_add_r by lia; f_equal; lia).
  assert (2 ^ 32 = 2 ^ (32 - k) * 2 ^ k) as E32 by (rewrite <- Z.pow_add_r by lia; f_equal; lia).
  pose proof (Z.pow_pos_nonneg 2 (k - 4) ltac:(lia) ltac:(lia)). pose proof (Z.pow_pos_nonneg 2 (32 - k) ltac:(lia) ltac:(lia)).
  pose proof (Z.pow_lt_mono_r 2 k 32 ltac:(lia) ltac:(lia) ltac:(lia)).
  assert (0xFFFFFFFF / 2 ^ k = 2 ^ (32 - k) - 1) as Ed.
  { symmetry. apply (Z.div_unique 0xFFFFFFFF (2 ^ k) _ (2 ^ k - 1)); lia. }
  rewrite Ed. set (q := 2 ^ (32 - k) - 1) in *. replace (q * 2 ^ k) with (q * 2 ^ (k - 4) * 16) by lia.
  assert (Z.land (q * 2 ^ (k - 4) * 16 + fl) 0xFFFFFFFF0 = q * 2 ^ (k - 4) * 16) as ->.
  { change 0xFFFFFFFF0 with (Z.lor 0xFFFFFFF0 (2 ^ 32 * 15)). rewrite Z.land_lor_distr_r, clear_low by nia.
    replace (Z.land _ (2 ^ 32 * 15)) with 0; [apply Z.lor_0_r|]. symmetry. apply Z.bits_inj'. intros i Hi.
    rewrite Z.land_spec, Z.bits_0. destruct (Z.lt_ge_cases i 32).
    - rewrite (Z.mul_comm (2 ^ 32)), Z.mul_pow2_bits_low by lia. apply andb_false_r.
    - by rewrite (testbit_small 32) by nia. }
  rewrite (u32_small (q * _ * 16)) by nia. unfold Z.lnot.
  replace (u32 (Z.pred (- (q * 2 ^ (k - 4) * 16)))) with (2 ^ k - 1); [rewrite u32_small; lia|].
  unfold u32, wrap. apply (Z.mod_unique _ _ (-1)); nia.
Qed.

(** Sizing and mapping a memory region: the register that holds [base] in
    units of the size [2 ^ k] gives a mapping of [2 ^ k] bytes at the
    region's physical address, and keeps its contents.  The upper half of a
    64-bit address comes from the next register. *)
Theorem pcie_get_bar_correct s dev bir k fl base :
  bar_register (bar_address s dev bir) k fl -> Z.land fl 3 = 0 -> 0 <= base -> base * 2 ^ k + fl < 2 ^ 32 ->
  cfg_read32 (pc_cfg s) (bar_address s dev bir) = base * 2 ^ k + fl ->
  let high := if Z.land fl 4 =? 0 then 0 else u32 (cfg_read32 (pc_cfg s) (u64 (pcie_device_address s dev + (0x10 + bir * 4 + 4)))) in
  let phys := high * 2 ^ 32 + base * 2 ^ k in
  exists c', (forall b, cfg_read32 c' b = cfg_read32 (pc_cfg s) b) /\
    pcie_get_bar s dev bir =
      (let* (address, space) := ks_map_device (pc_space s) (2 ^ k) phys in
       Ok (mk_bar phys address (2 ^ k), set_space space (set_cfg c' s))).
Proof.
  intros R Hmem Hb Hlt Hc high phys. pose proof (br_size _ _ _ R) as Hk. pose proof (br_flags _ _ _ R) as Hf.
  assert (2 ^ k = 2 ^ (k - 4) * 16) as E by (change 16 with (2 ^ 4); rewrite <- Z.pow_add_r by lia; f_equal; lia).
  pose proof (Z.pow_pos_nonneg 2 (k - 4) ltac:(lia) ltac:(lia)).
  assert (pcie_read32 s dev (0x10 + bir * 4) = base * 2 ^ (k - 4) * 16 + fl) as Hlow.
  { unfold pcie_read32. fold (bar_address s dev bir). rewrite Hc, u32_small by nia. lia. }
  assert (Z.land (base * 2 ^ (k - 4) * 16 + fl) 0xFFFFFFF0 = base * 2 ^ k) as Hclear by (rewrite E in Hlt |- *; rewrite clear_low by nia; lia).
  exists (cfg_write32 (cfg_write32 (pc_cfg s) (bar_address s dev bir) 0xFFFFFFFF) (bar_address s dev bir) (base * 2 ^ k)).
  pose proof (bar_restored _ _ _ _ _ R Hb Hlt Hc) as Hsame. split; [exact Hsame|].
  unfold pcie_get_bar. rewrite Hlow, Hclear. unfold has. rewrite !low_flags by lia.
  assert (Z.land fl 2 = 0 /\ Z.land fl 1 = 0) as [-> ->].
  { split; [change 2 with (Z.land 3 2)|change 1 with (Z.land 3 1)]; by rewrite Z.land_assoc, Hmem. }
  assert (pcie_read32 (pcie_write32 s dev (0x10 + bir * 4) 0xFFFFFFFF) dev (0x10 + bir * 4) = 0xFFFFFFFF / 2 ^ k * 2 ^ k + fl) as Hsz.
  { unfold pcie_read32, pcie_write32, pcie_device_address. cbn [set_cfg pc_cfg base_address].
    fold (pcie_device_address s dev) (bar_address s dev bir). rewrite (u32_small 0xFFFFFFFF), (br_same _ _ _ R) by lia.
    apply u32_small. pose proof (Z.mul_div_le 0xFFFFFFFF (2 ^ k) ltac:(lia)). pose proof (Z.div_pos 0xFFFFFFFF (2 ^ k) ltac:(lia) ltac:(lia)).
    split; [nia|]. assert (0xFFFFFFFF / 2 ^ k * 2 ^ k <= 0xFFFFFFF0); [|lia].
    assert (0xFFFFFFFF / 2 ^ k * 2 ^ k = (0xFFFFFFFF / 2 ^ k * 2 ^ (k - 4)) * 16) by lia. lia. }
  rewrite Hsz, sizing_mask by lia. change (negb (0 =? 0)) with false. cbn [negb andb].
  set (c' := cfg_write32 _ _ (base * 2 ^ k)) in *.
  assert (pcie_write32 (pcie_write32 s dev (0x10 + bir * 4) 0xFFFFFFFF) dev (0x10 + bir * 4) (base * 2 ^ k) = set_cfg c' s) as ->.
  { unfold pcie_write32, c', set_cfg. cbn [pc_cfg base_address pc_space pc_irqs pc_brk].
    by rewrite (u32_small 0xFFFFFFFF), (u32_small (base * 2 ^ k)) by nia. }
  change (pc_space (set_cfg c' s)) with (pc_space s). unfold phys, high. rewrite andb_true_r.
  destruct (Z.eqb_spec (Z.land fl 4) 0) as [_|_]; cbn [negb]; [done|].
  assert (pcie_read32 (set_cfg c' s) dev (0x10 + bir * 4 + 4) = pcie_read32 s dev (0x10 + bir * 4 + 4)) as ->.
  { unfold pcie_read32. change (pcie_device_address (set_cfg c' s) dev) with (pcie_device_address s dev). cbn [set_cfg pc_cfg]. by rewrite Hsame. }
  pose proof (pcie_read32_range s dev (0x10 + bir * 4 + 4)) as Hr. fold (pcie_read32 s dev (0x10 + bir * 4 + 4)).
  set (h := pcie_read32 s dev _) in *. change 0xFFFFFFFF with (2 ^ 32 - 1). rewrite land_ones_mod, Z.mod_small by lia.
  rewrite Z.shiftl_mul_pow2 by lia. by rewrite lor_high by nia.
Qed.
End reads.

(** ** Capabilities *)

Section capabilities.
Context {C K : Type} {CS : ConfigSpace C} {KS : KernelSpace K}.
Context (s : pci C K) (dev : pcie_device).

Definition cap_id (ptr : Z) : Z := Z.land (pcie_read32 s dev ptr) 0xFF.
Definition cap_next (ptr : Z) : Z := Z.land (Z.shiftr (pcie_read32 s dev ptr) 8) 0xFC.

(** The capability list that starts at [ptr]: it ends. *)
Inductive cap_chain : Z -> list Z -> Prop :=
  | chain_end : cap_chain 0 []
  | chain_next ptr l : ptr <> 0 -> cap_chain (cap_next ptr) l -> cap_chain ptr (ptr :: l).

Definition cap_pointer (ptr : Z) : Prop := exists q, ptr = 4 * q /\ 0 <= q < 64.

Lemma cap_pointer_mask x : cap_pointer (Z.land x 0xFC).
Proof.
  assert (Z.land x 0xFC = 4 * (x / 4 mod 64)) as ->.
  { change 0xFC with (Z.shiftl (Z.ones 6) 2). replace (4 * (x / 4 mod 64)) with (Z.shiftl (Z.land (Z.shiftr x 2) (Z.ones 6)) 2).
    - apply Z.bits_inj'. intros i Hi. rewrite Z.land_spec, !shiftl_testbit by lia. destruct (Z.leb_spec 2 i); simpl; [|by rewrite andb_false_r].
      rewrite Z.land_spec, Z.shiftr_spec by lia. by replace (i - 2 + 2) with i by lia.
    - rewrite Z.land_ones, Z.shiftr_div_pow2, Z.shiftl_mul_pow2 by lia. change (2 ^ 2) with 4. change (2 ^ 6) with 64. lia. }
  exists (x / 4 mod 64). split; [done|]. apply Z.mod_pos_bound. lia.
Qed.

Lemma cap_chain_det ptr l1 : cap_chain ptr l1 -> forall l2, cap_chain ptr l2 -> l1 = l2.
Proof.
  induction 1 as [|ptr l Hnz _ IH]; intros l2 H2; inversion H2; subst; try done. f_equal. by apply IH.
Qed.

Lemma cap_chain_suffix ptr l : cap_chain ptr l -> forall q, q ∈ l -> exists l1 l2, l = l1 ++ l2 /\ cap_chain q l2.
Proof.
  induction 1 as [|ptr l Hnz Hc IH]; intros q Hq; [set_solver|]. apply elem_of_cons in Hq as [->|Hq].
  - exists [], (ptr :: l). split; [done|]. by constructor.
  - destruct (IH q Hq) as (l1 & l2 & -> & H2). by exists (ptr :: l1), l2.
Qed.

Lemma cap_chain_pointers ptr l : cap_chain ptr l -> cap_pointer ptr -> Forall cap_pointer l.
Proof. induction 1 as [|ptr l Hnz Hc IH]; intros Hp; constructor; [done|]. apply IH, cap_pointer_mask. Qed.

Lemma cap_chain_nodup ptr l : cap_chain ptr l -> NoDup l.
Proof.
  induction 1 as [|ptr l Hnz Hc IH]; [constructor|]. constructor; [|done]. intros Hin.
  destruct (cap_chain_suffix _ _ Hc ptr Hin) as (l1 & l2 & E & H2).
  assert (l2 = ptr :: l) as -> by (apply (cap_chain_det ptr); [done|by constructor]).
  apply (f_equal length) in E. rewrite length_app in E. simpl in E. lia.
Qed.

(** There is no room for more than 63 capabilities. *)
Lemma cap_chain_short ptr l : cap_chain ptr l -> cap_pointer ptr -> (length l <= 64)%nat.
Proof.
  intros Hc Hp. pose proof (cap_chain_nodup _ _ Hc) as Hnd. pose proof (cap_chain_pointers _ _ Hc Hp) as Hf.
  assert (l ⊆ map (Z.mul 4) (seqZ 0 64)) as Hsub.
  { intros q Hq. rewrite Forall_forall in Hf. destruct (Hf q Hq) as (r & -> & Hr). apply list_elem_of_fmap. exists r. split; [done|].
    apply elem_of_seqZ. lia. }
  pose proof (NoDup_submseteq l (map (Z.mul 4) (seqZ 0 64)) Hnd) as Hs. specialize (Hs (fun x Hx => Hsub x Hx)).
  apply submseteq_length in Hs. rewrite length_map, length_seqZ in Hs. done.
Qed.

(** The first capability with the MSI-X id, 0 if there is none. *)
Fixpoint first_msix (l : list Z) : Z :=
  match l with [] => 0 | ptr :: l => if cap_id ptr =? 0x11 then ptr else first_msix l end.

(** 64 rounds are enough for every list that ends. *)
Lemma msix_search_spec l : forall ptr fuel, cap_chain ptr l -> (length l <= fuel)%nat -> msix_search fuel s dev ptr = Ok (first_msix l).
Proof.
  induction l as [|p l IH]; intros ptr fuel Hc Hf; inversion Hc; subst; [by destruct fuel|]. destruct fuel as [|fuel]; [simpl in Hf; lia|].
  cbn [msix_search first_msix]. destruct (Z.eqb_spec p 0); [done|]. fold (cap_id p) (cap_next p).
  destruct (cap_id p =? 0x11); [done|]. apply IH; [done|]. simpl in Hf. lia.
Qed.

(** A list that leads back to itself without an MSI-X capability is followed for ever. *)
Lemma msix_search_loops ptr : ptr <> 0 -> cap_id ptr <> 0x11 -> cap_next ptr = ptr -> forall fuel, msix_search fuel s dev ptr = OutOfFuel.
Proof.
  intros Hnz Hid Hn fuel. induction fuel as [|fuel IH]; cbn [msix_search]; destruct (Z.eqb_spec ptr 0); try done.
  fold (cap_id ptr) (cap_next ptr). destruct (Z.eqb_spec (cap_id ptr) 0x11); [done|]. by rewrite Hn.
Qed.
End capabilities.

(** ** Interrupts of a device *)

Section msix.
Context {C K : Type} {CS : ConfigSpace C} {KS : KernelSpace K}.
Implicit Types s : pci C K.

(** Enabling MSI-X.  With a capability list that ends, the driver learns
    whether the device has the capability.  If it has, the vector table lies
    where the capability says, the new interrupt domain has as many vectors
    as the device, and interrupts are enabled and not masked in the control
    word. *)
Lemma pcie_enable_msix_spec s dev l : cap_chain s dev (Z.land (pcie_read8 s dev 0x34) 0xFC) l ->
  let ptr := first_msix s dev l in
  let reg0 := pcie_read32 s dev ptr in
  let reg1 := pcie_read32 s dev (ptr + 4) in
  pcie_enable_msix 64 s dev =
    if ptr =? 0 then Ok (false, dev, s)
    else
      let* (bar, s1) := pcie_get_bar s dev (reg1 mod 8) in
      let table := u64 (address bar + reg1 / 8 * 8) in
      if table =? 0 then Ok (false, dev, s1)
      else
        let s2 := pcie_write32 s1 dev ptr (2 ^ 31 + reg0 mod 2 ^ 30) in
        Ok (true, mk_pcie_device (bus dev) (device dev) (function dev) (pc_brk s1),
            mk_pci (pc_cfg s2) (base_address s1) (pc_space s1)
              (msix_domain_register (pc_irqs s1) (pc_brk s1) (reg0 / 2 ^ 16 mod 2048 + 1) table) (pc_brk s1 + 64)).
Proof.
  intros Hc ptr reg0 reg1. unfold pcie_enable_msix.
  rewrite (msix_search_spec s dev l _ 64 Hc) by (apply (cap_chain_short s dev _ _ Hc), cap_pointer_mask). cbn [outcome_bind]. fold ptr.
  destruct (Z.eqb_spec ptr 0) as [|_]; [done|]. fold reg0 reg1.
  pose proof (pcie_read32_range s dev ptr) as H0. pose proof (pcie_read32_range s dev (ptr + 4)) as H1. fold reg0 in H0. fold reg1 in H1.
  replace (Z.land reg1 7) with (reg1 mod 8) by (change 7 with (2 ^ 3 - 1); by rewrite land_ones_mod by lia).
  replace (Z.land reg1 (u32 (Z.lnot 7))) with (reg1 / 8 * 8).
  2:{ change (u32 (Z.lnot 7)) with (Z.land (Z.ones 32) (u64 (Z.lnot (u64 (2 ^ 3 - 1))))).
      rewrite Z.land_assoc, Z.land_ones, Z.mod_small, align_mask by lia. done. }
  replace (Z.land (u16 (Z.shiftr reg0 16)) 2047) with (reg0 / 2 ^ 16 mod 2048).
  2:{ change 2047 with (2 ^ 11 - 1). rewrite land_ones_mod, Z.shiftr_div_pow2 by lia. change (2 ^ 11) with 2048.
      rewrite u16_small; [done|]. split; [apply Z.div_pos; lia|apply Z.div_lt_upper_bound; lia]. }
  replace (Z.lor (Z.land reg0 (u32 (Z.lnot (Z.shiftl 1 30)))) (Z.shiftl 1 31)) with (2 ^ 31 + reg0 mod 2 ^ 30); [done|].
  change (u32 (Z.lnot (Z.shiftl 1 30))) with (Z.lor (Z.ones 30) (Z.shiftl 1 31)). change (Z.shiftl 1 31) with (1 * 2 ^ 31).
  rewrite Z.lor_comm. rewrite Z.land_lor_distr_r, Z.land_ones by lia.
  rewrite (Z.lor_comm (reg0 mod 2 ^ 30)), Z.lor_assoc. replace (Z.lor (1 * 2 ^ 31) (Z.land reg0 (1 * 2 ^ 31))) with (1 * 2 ^ 31).
  - rewrite lor_high; [done|lia|]. pose proof (Z.mod_pos_bound reg0 (2 ^ 30)). lia.
  - apply Z.bits_inj'. intros i Hi. rewrite Z.lor_spec, Z.land_spec. by destruct (Z.testbit (1 * 2 ^ 31) i), (Z.testbit reg0 i).
Qed.
End msix.

(** ** What the scan finds *)

Section found.
Context {C K S : Type} {CS : ConfigSpace C} {KS : KernelSpace K}.
Context (pci_of : S -> pci C K) (nvme_controller_init e1000_init : S -> pcie_device -> outcome S).
Implicit Types p q : pci C K.

(** Two states show the same identification registers. *)
Definition same_ids (p q : pci C K) : Prop :=
  forall dev off, off ∈ [0; 8; 0xc] -> pcie_read32 p dev off = pcie_read32 q dev off.

(** Starting a driver does not change what devices are there. *)
Definition keeps_ids (init : S -> pcie_device -> outcome S) : Prop :=
  forall s dev s', init s dev = Ok s' -> same_ids (pci_of s') (pci_of s).

Hypothesis Hnvme : keeps_ids nvme_controller_init.
Hypothesis He1000 : keeps_ids e1000_init.

Lemma same_ids_trans p q (r : pci C K) : same_ids p q -> same_ids q r -> same_ids p r.
Proof. intros H1 H2 dev off Ho. by rewrite H1, H2. Qed.

Lemma same_read8 p q dev off : same_ids p q -> off ∈ [0xa; 0xb; 0xe] -> pcie_read8 p dev off = pcie_read8 q dev off.
Proof.
  intros H Ho. unfold pcie_read8. assert (align_down off 4 ∈ [0; 8; 0xc]) as Ha.
  { rewrite !elem_of_cons in Ho. destruct Ho as [->|[->|[->|Ho]]]; [..|by apply not_elem_of_nil in Ho]; vm_compute; set_solver. }
  by rewrite (H dev _ Ha).
Qed.

Lemma same_read16 p q dev off : same_ids p q -> off ∈ [0; 2] -> pcie_read16 p dev off = pcie_read16 q dev off.
Proof.
  intros H Ho. unfold pcie_read16. assert (align_down off 4 ∈ [0; 8; 0xc]) as Ha.
  { rewrite !elem_of_cons in Ho. destruct Ho as [->|[->|Ho]]; [..|by apply not_elem_of_nil in Ho]; vm_compute; set_solver. }
  by rewrite (H dev _ Ha).
Qed.

Lemma same_valid p q dev : same_ids p q -> pcie_is_valid p dev = pcie_is_valid q dev.
Proof. intros H. unfold pcie_is_valid. by rewrite !(same_read16 p q dev _ H) by set_solver. Qed.

Lemma same_bridge p q dev : same_ids p q -> pcie_is_bridge p dev = pcie_is_bridge q dev.
Proof. intros H. unfold pcie_is_bridge. by rewrite !(same_read8 p q dev _ H) by set_solver. Qed.

Lemma same_sub_bus p q dev : same_ids p q -> pcie_sub_bus p dev = pcie_sub_bus q dev.
Proof. intros H. unfold pcie_sub_bus. by rewrite !(same_read8 p q dev _ H) by set_solver. Qed.

(** A bridge's bus number is read from the register that told it apart, and is 0. *)
Lemma bridge_sub_bus p dev : pcie_is_bridge p dev = true -> pcie_sub_bus p dev = 0.
Proof. unfold pcie_is_bridge, pcie_sub_bus. intros H. bool_to_prop. by rewrite H. Qed.

(** The driver that a function gets. *)
Definition driver_of (p : pci C K) (dev : pcie_device) (s : S) : outcome S :=
  if (pcie_read8 p dev 0xb =? 1) && (pcie_read8 p dev 0xa =? 8) then nvme_controller_init s dev
  else if (pcie_read8 p dev 0xb =? 2) && (pcie_read8 p dev 0xa =? 0) && (pcie_read16 p dev 0 =? 0x8086) && (pcie_read16 p dev 2 =? 0x10d3)
  then e1000_init s dev else Ok s.

Lemma driver_keeps p : keeps_ids (fun s d => driver_of p d s).
Proof.
  intros s d s' H. unfold driver_of in H. repeat case_match; [by apply Hnvme in H|by apply He1000 in H|by injection H as <-].
Qed.

Lemma dispatch_spec p dev st : same_ids (pci_of st.1) p ->
  pcie_dispatch_driver pci_of nvme_controller_init e1000_init dev st = let* s := driver_of p dev st.1 in Ok (s, st.2).
Proof.
  intros H. unfold pcie_dispatch_driver, driver_of. rewrite !(same_read8 _ _ dev _ H) by set_solver. rewrite !(same_read16 _ _ dev _ H) by set_solver.
  destruct (_ && _); [done|]. destruct (pcie_read8 p dev 11 =? 2), (pcie_read8 p dev 10 =? 0); cbn [andb]; try (by destruct st).
  destruct (_ && _); [done|by destruct st].
Qed.

(** The functions of a device beyond the first, where the first announces them. *)
Definition more_functions (p : pci C K) (b d : Z) : list pcie_device :=
  if pcie_sub_bus p (mk_pcie_device b d 0 0) =? 0 then []
  else filter (fun dev => pcie_is_valid p dev = true) (map (fun i => mk_pcie_device b d i 0) (seqZ 1 7)).

(** The order in which drivers start, and that of the log. *)
Definition functions (p : pci C K) (b d : Z) : list pcie_device :=
  let dev := mk_pcie_device b d 0 0 in if pcie_is_valid p dev then more_functions p b d ++ [dev] else [].

Definition logged (p : pci C K) (b d : Z) : list pcie_device :=
  let dev := mk_pcie_device b d 0 0 in if pcie_is_valid p dev then dev :: more_functions p b d else [].

Definition log_line (p : pci C K) (dev : pcie_device) : probe :=
  mk_probe (bus dev) (device dev) (function dev) (class_to_string (pcie_read8 p dev 0xb) (pcie_read8 p dev 0xa)).

(** Starting the drivers of a list of functions. *)
Fixpoint start_all (p : pci C K) (l : list pcie_device) (s : S) : outcome S :=
  match l with [] => Ok s | dev :: l => let* s := driver_of p dev s in start_all p l s end.

Lemma start_all_app p l1 l2 s : start_all p (l1 ++ l2) s = let* s := start_all p l1 s in start_all p l2 s.
Proof. revert s. induction l1 as [|dev l1 IH]; intros s; [done|]. cbn [app start_all]. destruct (driver_of p dev s); [apply IH|done..]. Qed.

Lemma start_all_keeps p l s s' : start_all p l s = Ok s' -> same_ids (pci_of s') (pci_of s).
Proof.
  revert s. induction l as [|dev l IH]; intros s; cbn [start_all]; [by intros [= ->]|].
  destruct (driver_of p dev s) as [s1| | |] eqn:E; [|done..]. cbn [outcome_bind]. intros H. apply IH in H.
  eapply same_ids_trans; [exact H|]. by apply (driver_keeps p) in E.
Qed.

(** No function of the bus is a bridge. *)
Definition no_bridge p (b : Z) : Prop :=
  forall d i, 0 <= d < 32 -> 0 <= i < 8 -> pcie_is_valid p (mk_pcie_device b d i 0) = true -> pcie_is_bridge p (mk_pcie_device b d i 0) = false.

(** What a part of the scan must do: start the drivers of [l] and log [log]. *)
Definition starts p (l log : list pcie_device) (st : scan_state (S := S)) : outcome scan_state :=
  let* s := start_all p l st.1 in Ok (s, st.2 ++ map (log_line p) log).

Lemma starts_app p l1 l2 log1 log2 st (f : scan_state -> outcome scan_state) : same_ids (pci_of st.1) p ->
  (forall st', same_ids (pci_of st'.1) p -> f st' = starts p l2 log2 st') ->
  (let* st := starts p l1 log1 st in f st) = starts p (l1 ++ l2) (log1 ++ log2) st.
Proof.
  intros Hst Hf. unfold starts. rewrite start_all_app. destruct (start_all p l1 st.1) as [s1| | |] eqn:E; [|done..]. cbn [outcome_bind].
  rewrite Hf.
  - unfold starts. cbn [fst snd]. destruct (start_all p l2 s1); [|done..]. cbn [outcome_bind]. by rewrite map_app, app_assoc.
  - cbn [fst]. eapply same_ids_trans; [|exact Hst]. by eapply start_all_keeps.
Qed.

Lemma same_name p dev st : same_ids (pci_of st.1) p ->
  name_of (S := S) pci_of dev st = class_to_string (pcie_read8 p dev 0xb) (pcie_read8 p dev 0xa).
Proof. intros H. unfold name_of. by rewrite !(same_read8 _ _ dev _ H) by set_solver. Qed.

Lemma scan_functions_spec p scan b d n : forall i st, same_ids (pci_of st.1) p -> no_bridge p b -> 0 <= d < 32 -> 1 <= i -> i + Z.of_nat n <= 8 ->
  let fs := filter (fun dev => pcie_is_valid p dev = true) (map (fun i => mk_pcie_device b d i 0) (seqZ i (Z.of_nat n))) in
  for_range n i (scan_function pci_of nvme_controller_init e1000_init scan b d) st = starts p fs fs st.
Proof.
  induction n as [|n IH]; intros i st Hst Hnb Hd Hi Hn; cbn [for_range].
  { unfold starts. cbn. rewrite app_nil_r. by destruct st. }
  rewrite seqZ_cons by lia. replace (Z.pred (Z.of_nat (Datatypes.S n))) with (Z.of_nat n) by lia. cbn [map].
  specialize (IH (i + 1)). unfold scan_function at 1. rewrite (same_valid _ _ _ Hst), filter_cons.
  destruct (pcie_is_valid p (mk_pcie_device b d i 0)) eqn:Ev; cbn [negb].
  - rewrite decide_True by done. rewrite (same_bridge _ _ _ Hst), (Hnb d i) by (done || lia). cbn [outcome_bind].
    rewrite dispatch_spec with (p := p) by done. rewrite (same_name p) by done.
    set (fs := filter _ _). set (dev := mk_pcie_device b d i 0).
    change (dev :: fs) with ([dev] ++ fs).
    rewrite <- (starts_app p [dev] fs [dev] fs st (for_range n (i + 1) (scan_function pci_of nvme_controller_init e1000_init scan b d))).
    + unfold starts at 1. cbn [start_all map klog_probe fst snd]. by destruct (driver_of p _ st.1).
    + done.
    + intros st' H'. apply IH; (done || lia).
  - rewrite decide_False by done. cbn [outcome_bind]. apply IH; (done || lia).
Qed.

Lemma scan_device_spec p scan b d st : same_ids (pci_of st.1) p -> no_bridge p b -> 0 <= d < 32 ->
  scan_device pci_of nvme_controller_init e1000_init scan b d st = starts p (functions p b d) (logged p b d) st.
Proof.
  intros Hst Hnb Hd. unfold scan_device, functions, logged. set (dev := mk_pcie_device b d 0 0). rewrite (same_valid _ _ _ Hst).
  destruct (pcie_is_valid p dev) eqn:Ev; cbn [negb].
  2:{ unfold starts. cbn. rewrite app_nil_r. by destruct st. }
  rewrite (same_bridge _ _ _ Hst). assert (pcie_is_bridge p dev = false) as -> by (apply Hnb; (done || lia)). rewrite (same_name p) by done.
  assert (starts p [] [dev] st = Ok (klog_probe dev (class_to_string (pcie_read8 p dev 0xb) (pcie_read8 p dev 0xa)) st)) as E1 by done.
  pose proof (starts_app p [] (more_functions p b d ++ [dev]) [dev] (more_functions p b d) st) as Happ. rewrite E1 in Happ.
  cbn [app outcome_bind] in Happ. set (st1 := klog_probe dev _ st) in *.
  apply (Happ (fun st1 => let* st := if negb (pcie_sub_bus (pci_of st1.1) dev =? 0)
    then for_range 7 1 (scan_function pci_of nvme_controller_init e1000_init scan b d) st1 else Ok st1 in
    pcie_dispatch_driver pci_of nvme_controller_init e1000_init dev st)); [done|].
  clear st st1 Hst E1 Happ. intros st Hst. rewrite (same_sub_bus _ _ _ Hst).
  replace (more_functions p b d) with (more_functions p b d ++ []) at 2 by apply app_nil_r.
  rewrite <- (starts_app p (more_functions p b d) [dev] (more_functions p b d) [] st
    (pcie_dispatch_driver pci_of nvme_controller_init e1000_init dev)); [|done|].
  - f_equal. unfold more_functions. fold dev. destruct (Z.eqb_spec (pcie_sub_bus p dev) 0); cbn [negb].
    + unfold starts. cbn. rewrite app_nil_r. by destruct st.
    + by apply scan_functions_spec; (done || lia).
  - intros st' H'. rewrite (dispatch_spec p) by done. unfold starts. cbn [start_all map].
    destruct (driver_of p dev st'.1); [|done..]. cbn [outcome_bind]. by rewrite app_nil_r.
Qed.

Definition on_bus (f : Z -> list pcie_device) : list pcie_device := concat (map f (seqZ 0 32)).

Lemma scan_devices_spec p scan b n : forall i st, same_ids (pci_of st.1) p -> no_bridge p b -> 0 <= i -> i + Z.of_nat n <= 32 ->
  for_range n i (scan_device pci_of nvme_controller_init e1000_init scan b) st =
    starts p (concat (map (functions p b) (seqZ i (Z.of_nat n)))) (concat (map (logged p b) (seqZ i (Z.of_nat n)))) st.
Proof.
  induction n as [|n IH]; intros i st Hst Hnb Hi Hn; cbn [for_range].
  { unfold starts. cbn. rewrite app_nil_r. by destruct st. }
  rewrite (scan_device_spec p) by (done || lia). rewrite seqZ_cons by lia. replace (Z.pred (Z.of_nat (Datatypes.S n))) with (Z.of_nat n) by lia.
  cbn [map concat]. apply starts_app; [done|]. intros st' H'. apply IH; (done || lia).
Qed.

(** C21: the scan of a bus without bridges.  For every device of the bus, every
    function that answers is found, the functions beyond the first where the
    first announces them; each gets the driver of its class, and each is
    logged once with the name of its class, in order. *)
Theorem pcie_scan_correct p b st fuel : same_ids (pci_of st.1) p -> no_bridge p b ->
  scan_bus pci_of nvme_controller_init e1000_init (Datatypes.S fuel) b st =
    let* s := start_all p (on_bus (functions p b)) st.1 in
    Ok (s, st.2 ++ map (log_line p) (on_bus (logged p b))).
Proof. intros Hst Hnb. cbn [scan_bus]. by apply (scan_devices_spec p _ b 32 0 st). Qed.

(** A part of the scan that returns leaves the identification registers alone. *)
Definition keeping (f : scan_state (S := S) -> outcome scan_state) : Prop :=
  forall st st', f st = Ok st' -> same_ids (pci_of st'.1) (pci_of st.1).

Lemma keeping_bind f g : keeping f -> keeping g -> keeping (fun st => let* st := f st in g st).
Proof.
  intros Hf Hg st st' H. destruct (f st) as [st1| | |] eqn:E; [|done..]. cbn [outcome_bind] in H.
  eapply same_ids_trans; [by apply Hg|by apply Hf].
Qed.

Lemma keeping_ok g : (forall st, pci_of (g st).1 = pci_of st.1) -> keeping (fun st => Ok (g st)).
Proof. intros Hg st st' [= <-] dev off Ho. by rewrite Hg. Qed.

Lemma dispatch_keeping dev : keeping (pcie_dispatch_driver pci_of nvme_controller_init e1000_init dev).
Proof.
  intros st st' H. unfold pcie_dispatch_driver in H. repeat case_match; try (injection H as <-; done).
  - destruct (nvme_controller_init st.1 dev) eqn:E; [|done..]. injection H as <-. by apply Hnvme in E.
  - destruct (e1000_init st.1 dev) eqn:E; [|done..]. injection H as <-. by apply He1000 in E.
Qed.

Lemma for_range_keeping n : forall i body, (forall j, keeping (body j)) -> keeping (for_range n i body).
Proof.
  induction n as [|n IH]; intros i body Hb; cbn [for_range]; [by intros st st' [= <-]|].
  apply keeping_bind; [apply Hb|by apply IH].
Qed.

Lemma scan_function_keeping scan b d i : (forall b, keeping (scan b)) -> keeping (scan_function pci_of nvme_controller_init e1000_init scan b d i).
Proof.
  intros Hs st st' H. unfold scan_function in H. case_match; [by injection H as <-|]. set (dev := mk_pcie_device b d i 0) in *.
  destruct (pcie_is_bridge (pci_of st.1) dev) eqn:Eb; cbn [outcome_bind] in H.
  - destruct (scan _ st) as [st1| | |] eqn:E1; [|done..]. cbn [outcome_bind] in H. apply dispatch_keeping in H. cbn [klog_probe fst] in H.
    eapply same_ids_trans; [exact H|by eapply Hs].
  - by apply dispatch_keeping in H.
Qed.

Lemma scan_device_keeping scan b d : (forall b, keeping (scan b)) -> keeping (scan_device pci_of nvme_controller_init e1000_init scan b d).
Proof.
  intros Hs st st' H. unfold scan_device in H. case_match; [by injection H as <-|]. case_match; [by apply Hs in H|].
  set (dev := mk_pcie_device b d 0 0) in *. set (st1 := klog_probe dev _ st) in *.
  assert (forall g, keeping g -> (let* st := g st1 in pcie_dispatch_driver pci_of nvme_controller_init e1000_init dev st) = Ok st' ->
    same_ids (pci_of st'.1) (pci_of st.1)) as Hg by (intros g Hk Hr; by apply (keeping_bind g _ Hk (dispatch_keeping dev)) in Hr).
  destruct (negb (pcie_sub_bus (pci_of st1.1) dev =? 0)).
  - apply (Hg _ (for_range_keeping 7 1 _ (fun i => scan_function_keeping scan b d i Hs)) H).
  - by apply (dispatch_keeping dev) in H.
Qed.

Lemma scan_bus_keeping fuel : forall b, keeping (scan_bus pci_of nvme_controller_init e1000_init fuel b).
Proof.
  induction fuel as [|fuel IH]; intros b; cbn [scan_bus]; [done|]. apply for_range_keeping. intros d. by apply scan_device_keeping.
Qed.

(** A round that never returns: the loop does not either. *)
Lemma for_range_stuck p (body : Z -> scan_state (S := S) -> outcome scan_state) d : (forall j, keeping (body j)) -> (forall st r, same_ids (pci_of st.1) p -> body d st <> Ok r) ->
  forall n i st r, i <= d < i + Z.of_nat n -> same_ids (pci_of st.1) p -> for_range n i body st <> Ok r.
Proof.
  intros Hk Hd n. induction n as [|n IH]; intros i st r Hi Hst; [lia|]. cbn [for_range]. destruct (Z.eq_dec i d) as [->|Hne].
  - destruct (body d st) eqn:E; try done. by apply Hd in E.
  - destruct (body i st) as [st1| | |] eqn:E; try done. cbn [outcome_bind]. apply IH; [lia|].
    eapply same_ids_trans; [by eapply Hk|done].
Qed.

(** The scan never returns once a device of bus 0 is a bridge: it enters bus
    0 again for ever. *)
Theorem bridge_scan_diverges p d : 0 <= d < 32 ->
  pcie_is_valid p (mk_pcie_device 0 d 0 0) = true -> pcie_is_bridge p (mk_pcie_device 0 d 0 0) = true ->
  forall fuel st r, same_ids (pci_of st.1) p -> scan_bus pci_of nvme_controller_init e1000_init fuel 0 st <> Ok r.
Proof.
  intros Hd Hv Hb fuel. induction fuel as [|fuel IH]; intros st r Hst; [done|]. cbn [scan_bus].
  apply (for_range_stuck p _ d); [|clear st r Hst|lia|done].
  - intros j. apply scan_device_keeping, scan_bus_keeping.
  - intros st r Hst. unfold scan_device. rewrite (same_valid _ _ _ Hst), Hv. cbn [negb]. rewrite (same_bridge _ _ _ Hst), Hb.
    cbn [klog_probe fst]. rewrite (same_sub_bus _ _ _ Hst), (bridge_sub_bus p) by done. by apply IH.
Qed.
End found.

(** ** The table of the firmware *)

(** The two mistakes about sizes cancel: the base read is that of the first entry. *)
Lemma ecam_base_first pre base rest : length pre = 44%nat -> 0 <= base < 2 ^ 64 -> ecam_base (pre ++ le64 base ++ rest) = Ok base.
Proof. intros Hp Hb. apply rd64_le64; [done|]. unfold zlen. rewrite Hp. done. Qed.

(** The window that [pcie_init] maps ends with bus 63. *)
Lemma ecam_window_buses {C K} (s : pci C K) dev offset : 0 <= base_address s -> base_address s + 2 ^ 28 < 2 ^ 64 ->
  0 <= bus dev < 256 -> 0 <= device dev < 32 -> 0 <= function dev < 8 -> 0 <= offset < 4096 ->
  (pcie_device_address s dev + offset < base_address s + 256 * 8 * 8 * 4096 <-> bus dev < 64).
Proof. intros. unfold pcie_device_address. rewrite u64_small by lia. lia. Qed.

(** ** A board with a host bridge and a network card *)

#[export] Instance board_config : ConfigSpace (gmap Z Z) := {| cfg_read32 := fun c a => default 0xFFFFFFFF (c !! a); cfg_write32 := fun c a v => <[a := v]> c |}.

#[export] Instance flat_space : KernelSpace unit := {|
  ks_map_device := fun k len phys => Ok (phys + VM_DMAP_BASE, k);
  ks_map_fresh := fun k len => Ok (VM_VMALLOC_BASE, k);
  ks_vmalloc := fun k len => Ok (VM_VMALLOC_BASE, k);
  ks_map_range := fun k phys virt len => Ok k;
  ks_phys := fun k virt => Ok (virt - VM_DMAP_BASE) |}.

Definition board_words : gmap Z Z := list_to_map
  [(0, 0x29c08086); (8, 0x06000000); (0xc, 0);
   (0x10000, 0x10d38086); (0x10008, 0x02000000); (0x1000c, 0)].

Definition no_irqs : irqs := mk_irqs ∅ [] [] 0 0 [] ∅ ∅.
Definition board_pci : pci (gmap Z Z) unit := mk_pci board_words 0 tt no_irqs 4096.

(** Drivers that only record the device they are given. *)
Definition record_start (s : pci (gmap Z Z) unit * list pcie_device) (dev : pcie_device) : outcome (pci (gmap Z Z) unit * list pcie_device) :=
  Ok (s.1, s.2 ++ [dev]).

Lemma no_bridge_check {C K} {CS : ConfigSpace C} {KS : KernelSpace K} (p : pci C K) b :
  forallb (fun d => forallb (fun i => negb (pcie_is_valid p (mk_pcie_device b d i 0)) || negb (pcie_is_bridge p (mk_pcie_device b d i 0)))
    (seqZ 0 8)) (seqZ 0 32) = true -> no_bridge p b.
Proof.
  intros H d i Hd Hi Hv. rewrite forallb_forall in H. specialize (H d). rewrite forallb_forall in H.
  rewrite <- !list_elem_of_In, elem_of_seqZ in H. specialize (H ltac:(lia) i). rewrite <- list_elem_of_In, elem_of_seqZ in H.
  specialize (H ltac:(lia)). rewrite Hv in H. cbn [negb orb] in H. by apply negb_true_iff in H.
Qed.

Lemma pcie_scan_correct_witness :
  scan_bus fst record_start record_start 1 0 ((board_pci, []), []) =
    Ok ((board_pci, [mk_pcie_device 0 2 0 0]),
        [mk_probe 0 0 0 (Some "Host bridge"%string); mk_probe 0 2 0 (Some "Ethernet controller"%string)]).
Proof.
  rewrite (pcie_scan_correct fst record_start record_start ltac:(by intros s dev s' [= <-]) ltac:(by intros s dev s' [= <-]) board_pci 0).
  - vm_compute. reflexivity.
  - done.
  - apply no_bridge_check. vm_compute. reflexivity.
Defined.

(** The same board behind a bridge of type 1 at 0:1. *)
Definition bridge_pci : pci (gmap Z Z) unit :=
  mk_pci (<[0x8000 := 0x29008086]> (<[0x8008 := 0x06040000]> (<[0x800c := 0x00010000]> board_words))) 0 tt no_irqs 4096.

Lemma bridge_board_diverges fuel r : scan_bus fst record_start record_start fuel 0 ((bridge_pci, []), []) <> Ok r.
Proof.
  apply (bridge_scan_diverges fst record_start record_start ltac:(by intros s dev s' [= <-]) ltac:(by intros s dev s' [= <-]) bridge_pci 1); [lia|by vm_compute..|done].
Qed.

(** The first base address register of the card, as a memory region of 128 KiB. *)
Definition with_bar (a k fl : Z) : ConfigSpace (gmap Z Z) :=
  {| cfg_read32 := fun c b => default 0xFFFFFFFF (c !! b); cfg_write32 := fun c b v => <[b := if b =? a then v / 2 ^ k * 2 ^ k + fl else v]> c |}.

Lemma with_bar_register a k fl : 4 <= k < 32 -> 0 <= fl < 16 -> bar_register (CS := with_bar a k fl) a k fl.
Proof.
  intros Hk Hf. split; [done|done| |].
  - intros c v Hv. unfold cfg_read32, cfg_write32, with_bar. rewrite Z.eqb_refl. by rewrite (lookup_insert_eq).
  - intros c v b Hb. unfold cfg_read32, cfg_write32, with_bar. by rewrite (lookup_insert_ne) by done.
Qed.

Lemma pcie_get_bar_correct_witness :
  exists c', pcie_get_bar (CS := with_bar 0x10010 17 0) (mk_pci (<[0x10010 := 0xfeb80000]> board_words) 0 tt no_irqs 4096) (mk_pcie_device 0 2 0 0) 0 =
    Ok (mk_bar 0xfeb80000 (0xfeb80000 + VM_DMAP_BASE) 0x20000, mk_pci c' 0 tt no_irqs 4096).
Proof.
  destruct (pcie_get_bar_correct (CS := with_bar 0x10010 17 0) (mk_pci (<[0x10010 := 0xfeb80000]> board_words) 0 tt no_irqs 4096)
    (mk_pcie_device 0 2 0 0) 0 17 0 (0xfeb80000 / 2 ^ 17)) as (c' & _ & ->).
  - by apply (with_bar_register 0x10010).
  - reflexivity.
  - vm_compute. discriminate.
  - vm_compute. reflexivity.
  - vm_compute. reflexivity.
  - by exists c'.
Defined.
