(* ===== verification/E1000.v ===== *)
(** * The network card

    kernel/dev/net/e1000/e1000.c and e1000_regs.h.  The driver and the card
    share two rings of descriptors and the pages these point to.  A page is
    kept under its physical address, which is what a descriptor holds; the
    driver reaches it through the page tables ([e_map]).  Registers are seen
    through what was written to them, newest first, and what the card
    answers.  The card itself is hardware: its part in the exchange is given
    by its documentation, as hypotheses. *)

From stdpp Require Import base numbers list gmap.
From Stdlib Require Import ZArith Lia.
From S2P Require Import Prelude Sched Wait Wire Net Delivery Printf Irq Pcie.

(** ** e1000_regs.h *)

Inductive e1000_register :=
  | E1000_REG_CTRL | E1000_REG_STATUS | E1000_REG_EEPROM | E1000_REG_ICR | E1000_REG_ITR | E1000_REG_IMS | E1000_REG_IMC
  | E1000_REG_IVAR | E1000_REG_RCTRL | E1000_REG_TCTRL | E1000_REG_TIPG
  | E1000_REG_RXDESC_LOW | E1000_REG_RXDESC_HIGH | E1000_REG_RXDESC_LEN | E1000_REG_RXDESC_HEAD | E1000_REG_RXDESC_TAIL | E1000_REG_RDTR
  | E1000_REG_TXDESC_LOW | E1000_REG_TXDESC_HIGH | E1000_REG_TXDESC_LEN | E1000_REG_TXDESC_HEAD | E1000_REG_TXDESC_TAIL
  | E1000_REG_CRCERRS | E1000_REG_MTA | E1000_REG_RXADDR | E1000_REG_RXADDR_HIGH.

#[export] Instance e1000_register_eq_dec : EqDecision e1000_register.
Proof. solve_decision. Defined.

(** Offsets from the base address. *)
Definition register_offset (r : e1000_register) : Z :=
  match r with
  | E1000_REG_CTRL => 0x0000
  | E1000_REG_STATUS => 0x0008
  | E1000_REG_EEPROM => 0x0014
  | E1000_REG_ICR => 0x00C0
  | E1000_REG_ITR => 0x00C4
  | E1000_REG_IMS => 0x00D0
  | E1000_REG_IMC => 0x00D8
  | E1000_REG_IVAR => 0x00E4
  | E1000_REG_RCTRL => 0x0100
  | E1000_REG_TCTRL => 0x0400
  | E1000_REG_TIPG => 0x0410
  | E1000_REG_RXDESC_LOW => 0x2800
  | E1000_REG_RXDESC_HIGH => 0x2804
  | E1000_REG_RXDESC_LEN => 0x2808
  | E1000_REG_RXDESC_HEAD => 0x2810
  | E1000_REG_RXDESC_TAIL => 0x2818
  | E1000_REG_RDTR => 0x2820
  | E1000_REG_TXDESC_LOW => 0x3800
  | E1000_REG_TXDESC_HIGH => 0x3804
  | E1000_REG_TXDESC_LEN => 0x3808
  | E1000_REG_TXDESC_HEAD => 0x3810
  | E1000_REG_TXDESC_TAIL => 0x3818
  | E1000_REG_CRCERRS => 0x4000
  | E1000_REG_MTA => 0x5200
  | E1000_REG_RXADDR => 0x5400
  | E1000_REG_RXADDR_HIGH => 0x5404
  end.

Definition E1000_CTRL_LRST : Z := 0x00000008.
Definition E1000_CTRL_SLU : Z := 0x00000040.
Definition E1000_CTRL_SPD_1000 : Z := 0x00000200.
Definition E1000_CTRL_PHY_RST : Z := 0x80000000.
Definition E1000_STATUS_LU : Z := 0x00000002.
Definition E1000_ICR_TXDW : Z := 0x00000001.
Definition E1000_ICR_TXQE : Z := 0x00000002.
Definition E1000_ICR_LSC : Z := 0x00000004.
Definition E1000_ICR_RXDMT0 : Z := 0x00000010.
Definition E1000_ICR_RXO : Z := 0x00000040.
Definition E1000_ICR_RXT0 : Z := 0x00000080.
Definition E1000_ICR_SRPD : Z := 0x00010000.
Definition E1000_ICR_RXQ0 : Z := 0x00100000.
Definition E1000_ICR_ACK : Z := 0x00020000.
Definition E1000_RCTL_EN : Z := 0x00000002.
Definition E1000_RCTL_SBP : Z := 0x00000004.
Definition E1000_RCTL_UPE : Z := 0x00000008.
Definition E1000_RCTL_MPE : Z := 0x00000010.
Definition E1000_RCTL_BAM : Z := 0x00008000.
Definition E1000_RCTL_SZ_4096 : Z := 0x00030000.
Definition E1000_RCTL_BSEX : Z := 0x02000000.
Definition E1000_RCTL_SECRC : Z := 0x04000000.
Definition E1000_TCTL_EN : Z := 0x00000002.
Definition E1000_TCTL_PSP : Z := 0x00000008.
Definition E1000_TCTL_RTLC : Z := 0x01000000.
Definition E1000_CMD_EOP : Z := 0x01.
Definition E1000_CMD_IFCS : Z := 0x02.
Definition E1000_CMD_RS : Z := 0x08.
Definition E1000_CMD_RPS : Z := 0x10.
Definition E1000_TCTL_CT_SHIFT : Z := 0x4.
Definition E1000_IVAR_ENTRY_VALID : Z := 0x8.

(** ** e1000.c: data *)

Definition E1000_RX_DESC_COUNT : Z := 256.
Definition E1000_TX_DESC_COUNT : Z := 256.
Definition sizeof_desc : Z := 16.

Record e1000_rx_desc_t := mk_rx_desc { rx_addr : Z; rx_length : Z; rx_checksum : Z; rx_status : Z; rx_errors : Z; rx_special : Z }.
Record e1000_tx_desc_t := mk_tx_desc { tx_addr : Z; tx_length : Z; tx_cso : Z; tx_cmd : Z; tx_status : Z; tx_css : Z; tx_special : Z }.

Definition clear_rx_status (d : e1000_rx_desc_t) : e1000_rx_desc_t :=
  mk_rx_desc (rx_addr d) (rx_length d) (rx_checksum d) 0 (rx_errors d) (rx_special d).

Definition reg_log : Type := list (e1000_register * Z).

(** The structure of the driver with the memory it shares with the card:
    [e_map] gives the frame of each mapped page, [e_mem] the contents of
    frames, [e_regs] the writes to registers and [e_card] the card's answers
    to reads, given the writes. *)
Record e1000_device := mk_e1000 {
  e_netdev : Z;
  rx_descs : list e1000_rx_desc_t;
  rx_page : list Z;
  tx_descs : list e1000_tx_desc_t;
  tx_page : list Z;
  cur_rx : Z;
  cur_tx : Z;
  link : Z;
  e_map : gmap Z Z;
  e_mem : gmap Z (list Z);
  e_regs : reg_log;
  e_card : reg_log -> e1000_register -> Z;
}.

Definition set_rx (descs : list e1000_rx_desc_t) (cur : Z) (d : e1000_device) : e1000_device :=
  mk_e1000 (e_netdev d) descs (rx_page d) (tx_descs d) (tx_page d) cur (cur_tx d) (link d) (e_map d) (e_mem d) (e_regs d) (e_card d).
Definition set_tx (descs : list e1000_tx_desc_t) (cur : Z) (d : e1000_device) : e1000_device :=
  mk_e1000 (e_netdev d) (rx_descs d) (rx_page d) descs (tx_page d) (cur_rx d) cur (link d) (e_map d) (e_mem d) (e_regs d) (e_card d).
Definition set_mem (m : gmap Z (list Z)) (d : e1000_device) : e1000_device :=
  mk_e1000 (e_netdev d) (rx_descs d) (rx_page d) (tx_descs d) (tx_page d) (cur_rx d) (cur_tx d) (link d) (e_map d) m (e_regs d) (e_card d).
Definition set_pages (rx tx : list Z) (map : gmap Z Z) (d : e1000_device) : e1000_device :=
  mk_e1000 (e_netdev d) (rx_descs d) rx (tx_descs d) tx (cur_rx d) (cur_tx d) (link d) map (e_mem d) (e_regs d) (e_card d).
Definition set_link (v : Z) (d : e1000_device) : e1000_device :=
  mk_e1000 (e_netdev d) (rx_descs d) (rx_page d) (tx_descs d) (tx_page d) (cur_rx d) (cur_tx d) v (e_map d) (e_mem d) (e_regs d) (e_card d).
Definition set_netdev (v : Z) (d : e1000_device) : e1000_device :=
  mk_e1000 v (rx_descs d) (rx_page d) (tx_descs d) (tx_page d) (cur_rx d) (cur_tx d) (link d) (e_map d) (e_mem d) (e_regs d) (e_card d).

(** ** Registers *)

Definition cmd_write32 (reg : e1000_register) (value : Z) (d : e1000_device) : e1000_device :=
  mk_e1000 (e_netdev d) (rx_descs d) (rx_page d) (tx_descs d) (tx_page d) (cur_rx d) (cur_tx d) (link d) (e_map d) (e_mem d)
    ((reg, u32 value) :: e_regs d) (e_card d).

Definition cmd_read32 (d : e1000_device) (reg : e1000_register) : Z := u32 (e_card d (e_regs d) reg).

(** The value last written to a register. *)
Fixpoint written (l : reg_log) (reg : e1000_register) : option Z :=
  match l with [] => None | (r, v) :: l => if decide (r = reg) then Some v else written l reg end.

(** The bytes of the page at a virtual address. *)
Definition page_at (d : e1000_device) (virt : Z) : outcome (Z * list Z) :=
  let* phys := deref (e_map d !! virt) in
  let* page := deref (e_mem d !! phys) in
  Ok (phys, page).

(** ** Receiving and sending *)

(** The condition of the loop of [e1000_irq]. *)
Definition rx_done (d : e1000_device) : outcome bool :=
  let* desc := aget (rx_descs d) (cur_rx d) in
  Ok (has (rx_status desc) 0x1).

(** The beginning of the loop's body: the descriptor is cleared, and the
    frame is in its page. *)
Definition rx_open (d : e1000_device) : outcome (list Z * e1000_device) :=
  let* desc := aget (rx_descs d) (cur_rx d) in
  let* descs := aset (rx_descs d) (cur_rx d) (clear_rx_status desc) in
  let* eth := aget (rx_page d) (cur_rx d) in
  let* (_, page) := page_at d eth in
  let* frame := rdbytes page 0 (rx_length desc) in
  Ok (frame, set_rx descs (cur_rx d) d).

(** Its end. *)
Definition rx_next (d : e1000_device) : e1000_device := set_rx (rx_descs d) (u32 (cur_rx d + 1) mod E1000_RX_DESC_COUNT) d.

(** Giving the descriptors back; [old_rx] is [None] if there was no packet. *)
Definition rx_return (old_rx : option Z) (d : e1000_device) : e1000_device :=
  match old_rx with Some i => cmd_write32 E1000_REG_RXDESC_TAIL i d | None => d end.

Definition e1000_send (d : e1000_device) (netdev : Z) (buffer : list Z) : outcome (ret * e1000_device) :=
  let* virt := aget (tx_page d) (cur_tx d) in
  let* (phys, page) := page_at d virt in
  if zlen page <? zlen buffer then Fault
  else
    let d := set_mem (<[phys := buffer ++ drop (length buffer) page]> (e_mem d)) d in
    let* desc := aget (tx_descs d) (cur_tx d) in
    let cmd := Z.lor E1000_CMD_EOP (Z.lor E1000_CMD_IFCS (Z.lor E1000_CMD_RS E1000_CMD_RPS)) in
    let* descs := aset (tx_descs d) (cur_tx d) (mk_tx_desc (tx_addr desc) (u16 (zlen buffer)) (tx_cso desc) cmd 0 0 0) in
    let d := set_tx descs (u32 (cur_tx d + 1) mod E1000_TX_DESC_COUNT) d in
    let d := cmd_write32 E1000_REG_TXDESC_TAIL (cur_tx d) d in
    Ok (RVal (zlen buffer), d).

(** The loop of [e1000_irq], with [fuel] rounds; the stack may send replies
    through the same driver while it handles a frame. *)
Fixpoint rx_loop (fuel : nat) (st : net e1000_device) (cpu : Z) (old_rx : option Z) : outcome (option Z * net e1000_device) :=
  let* more := rx_done (driver st) in
  if negb more then Ok (old_rx, st)
  else match fuel with
  | O => OutOfFuel
  | S fuel =>
      let* (frame, d) := rx_open (driver st) in
      let* st := ether_rx_packet e1000_send (set_driver d st) cpu (e_netdev d) frame in
      let old_rx := cur_rx (driver st) in
      rx_loop fuel (set_driver (rx_next (driver st)) st) cpu (Some old_rx)
  end.

(** [icr] is the value read from the interrupt cause register. *)
Definition e1000_irq (fuel : nat) (st : net e1000_device) (cpu icr : Z) : outcome (net e1000_device) :=
  if icr =? 0 then Ok st
  else
    let* st :=
      if has icr E1000_ICR_RXQ0 then
        let* (old_rx, st) := rx_loop fuel st cpu None in
        Ok (set_driver (rx_return old_rx (driver st)) st)
      else Ok st in
    Ok (set_driver (cmd_write32 E1000_REG_ICR icr (driver st)) st).

(** ** Starting the card *)

Definition byte_of (v shift : Z) : Z := Z.land (Z.shiftr v shift) 0xFF.

(** The hardware address. *)
Definition e1000_read_hwaddr (d : e1000_device) : list Z :=
  let ral := cmd_read32 d E1000_REG_RXADDR in
  let rah := cmd_read32 d E1000_REG_RXADDR_HIGH in
  [Z.land ral 0xFF; byte_of ral 8; byte_of ral 16; byte_of ral 24; Z.land rah 0xFF; byte_of rah 8].

Definition e1000_set_link_up (d : e1000_device) : e1000_device :=
  let ctrl := cmd_read32 d E1000_REG_CTRL in
  let ctrl := Z.lor ctrl (Z.lor E1000_CTRL_SLU E1000_CTRL_SPD_1000) in
  let ctrl := Z.land ctrl (u32 (Z.lnot (Z.lor E1000_CTRL_LRST E1000_CTRL_PHY_RST))) in
  let d := cmd_write32 E1000_REG_CTRL ctrl d in
  set_link (Z.land (cmd_read32 d E1000_REG_STATUS) E1000_STATUS_LU) d.

Section start.
Context {C K : Type} {CS : ConfigSpace C} {KS : KernelSpace K}.

(** The loop that both rings have: a fresh page per descriptor, and its frame. *)
Fixpoint ring_pages (n : nat) (k : K) : outcome (list (Z * Z) * K) :=
  match n with
  | O => Ok ([], k)
  | S n =>
      let* (virt, k) := ks_map_fresh k 0x1000 in
      let* phys := ks_phys k virt in
      let* (pages, k) := ring_pages n k in
      Ok ((virt, phys) :: pages, k)
  end.

(** The pages are cleared. *)
Definition add_pages (pages : list (Z * Z)) (d : e1000_device) : e1000_device :=
  set_mem (foldr (fun p m => <[p.2 := replicate 4096 0]> m) (e_mem d) pages)
    (set_pages (rx_page d) (tx_page d) (foldr (fun p m => <[p.1 := p.2]> m) (e_map d) pages) d).

Definition e1000_init_rx (d : e1000_device) (k : K) : outcome (e1000_device * K) :=
  let* (ring, k) := ks_map_fresh k (sizeof_desc * E1000_RX_DESC_COUNT) in
  let* (pages, k) := ring_pages (Z.to_nat E1000_RX_DESC_COUNT) k in
  let d := add_pages pages d in
  let d := set_pages (map fst pages) (tx_page d) (e_map d) d in
  let d := set_rx (map (fun p => mk_rx_desc p.2 0 0 0 0 0) pages) 0 d in
  let* rxd_phys := ks_phys k ring in
  let d := cmd_write32 E1000_REG_RXDESC_HIGH (Z.shiftr rxd_phys 32) d in
  let d := cmd_write32 E1000_REG_RXDESC_LOW (Z.land rxd_phys 0xFFFFFFFF) d in
  let d := cmd_write32 E1000_REG_RXDESC_LEN (E1000_RX_DESC_COUNT * sizeof_desc) d in
  let d := cmd_write32 E1000_REG_RXDESC_HEAD 0 d in
  let d := cmd_write32 E1000_REG_RXDESC_TAIL (E1000_RX_DESC_COUNT - 1) d in
  let d := cmd_write32 E1000_REG_RCTRL
    (Z.lor E1000_RCTL_EN (Z.lor E1000_RCTL_SBP (Z.lor E1000_RCTL_UPE (Z.lor E1000_RCTL_MPE (Z.lor E1000_RCTL_BAM
      (Z.lor E1000_RCTL_SZ_4096 (Z.lor E1000_RCTL_SECRC E1000_RCTL_BSEX))))))) d in
  Ok (d, k).

Definition e1000_init_tx (d : e1000_device) (k : K) : outcome (e1000_device * K) :=
  let* (ring, k) := ks_map_fresh k (sizeof_desc * E1000_TX_DESC_COUNT) in
  let* (pages, k) := ring_pages (Z.to_nat E1000_TX_DESC_COUNT) k in
  let d := add_pages pages d in
  let d := set_pages (rx_page d) (map fst pages) (e_map d) d in
  let d := set_tx (map (fun p => mk_tx_desc p.2 0 0 E1000_CMD_EOP 0 0 0) pages) 0 d in
  let* txd_phys := ks_phys k ring in
  let d := cmd_write32 E1000_REG_TXDESC_HIGH (Z.shiftr txd_phys 32) d in
  let d := cmd_write32 E1000_REG_TXDESC_LOW (Z.land txd_phys 0xFFFFFFFF) d in
  let d := cmd_write32 E1000_REG_TXDESC_LEN (E1000_TX_DESC_COUNT * sizeof_desc) d in
  let d := cmd_write32 E1000_REG_TXDESC_HEAD 0 d in
  let d := cmd_write32 E1000_REG_TXDESC_TAIL 0 d in
  let tctl := cmd_read32 d E1000_REG_TCTRL in
  let tctl := Z.land tctl (u32 (Z.shiftl (Z.lnot 0xFF) E1000_TCTL_CT_SHIFT)) in
  let tctl := Z.lor tctl (Z.shiftl 15 E1000_TCTL_CT_SHIFT) in
  let tctl := Z.lor tctl (Z.lor E1000_TCTL_EN (Z.lor E1000_TCTL_PSP E1000_TCTL_RTLC)) in
  Ok (cmd_write32 E1000_REG_TCTRL tctl d, k).

(** The format [enp%us%u]. *)
Definition enp_format : list Z := [101; 110; 112; 37; 117; 115; 37; 117].

(** The addresses of [e1000_ops] and [e1000_irq]. *)
Definition e1000_ops : Z := 0xe1000.
Definition e1000_irq_handler : Z := 0xe1001.

(** Before the call, [driver] is the memory that [vmalloc] returned at
    address [self]; [mac] is what the new network device's address held.  The
    result says whether the card was started. *)
Definition e1000_init (fuel : nat) (p : pci C K) (st : net e1000_device) (pdev : pcie_device) (self lapic_id : Z) (mac : list Z)
    : outcome (bool * pcie_device * pci C K * net e1000_device) :=
  let* name := sprintf enp_format [Num (bus pdev); Num (device pdev)] in
  let '(netdev, st) := netdev_create st (removelast name) mac in
  let* nd := get_netdev st netdev in
  let st := put_netdev netdev (mk_netdev (nd_name nd) (nd_mac nd) (nd_ip_addr nd) (nd_ip_subnet nd) (nd_ip_broadcast nd)
              (nd_ip_tx_id nd) e1000_ops) st in
  let st := set_driver (set_netdev netdev (driver st)) st in
  let pcie_reg1 := pcie_read32 p pdev 0x4 in
  let pcie_reg1 := Z.lor pcie_reg1 (Z.land (Z.lor 0x400 (Z.lor 0x4 0x2)) (u32 (Z.lnot 0x1))) in
  let p := pcie_write32 p pdev 0x4 pcie_reg1 in
  let* (bar0, p) := pcie_get_bar p pdev 0 in
  let* (msix, pdev, p) := pcie_enable_msix fuel p pdev in
  if negb msix then Ok (false, pdev, p, st)
  else
    let d := driver st in
    let* nd := get_netdev st netdev in
    let st := put_netdev netdev (mk_netdev (nd_name nd) (e1000_read_hwaddr d) (nd_ip_addr nd) (nd_ip_subnet nd) (nd_ip_broadcast nd)
                (nd_ip_tx_id nd) (nd_ops nd)) st in
    let d := e1000_set_link_up d in
    let* (d, k) := e1000_init_rx d (pc_space p) in
    let* (d, k) := e1000_init_tx d k in
    let* (_, q) := irq_register_msi (pc_irqs p) lapic_id (msi_domain pdev) 0 e1000_irq_handler self in
    let d := cmd_write32 E1000_REG_IVAR (Z.lor E1000_IVAR_ENTRY_VALID
      (Z.lor (Z.shiftl E1000_IVAR_ENTRY_VALID 8) (Z.shiftl E1000_IVAR_ENTRY_VALID 16))) d in
    let d := cmd_write32 E1000_REG_IMS (Z.lor E1000_ICR_TXDW (Z.lor E1000_ICR_TXQE (Z.lor E1000_ICR_LSC (Z.lor E1000_ICR_RXDMT0
      (Z.lor E1000_ICR_RXO (Z.lor E1000_ICR_RXT0 (Z.lor E1000_ICR_RXQ0 (Z.lor E1000_ICR_SRPD E1000_ICR_ACK)))))))) d in
    Ok (true, pdev, mk_pci (pc_cfg p) (base_address p) k q (pc_brk p), set_driver d st).
End start.

(** ** The stack reaches the driver only by sending *)

(** Take apart a computation that succeeded. *)
Ltac run H :=
  repeat match type of H with
  | outcome_bind ?m _ = Ok _ => let E := fresh "E" in destruct m eqn:E; cbn [outcome_bind] in H; try discriminate H
  | (let '(_, _) := ?p in _) = Ok _ => destruct p
  | (if ?b then _ else _) = Ok _ => destruct b; try discriminate H
  | match ?o with _ => _ end = Ok _ => destruct o; try discriminate H
  end.

Section stable.
Context {D : Type} (send : D -> Z -> list Z -> outcome (ret * D)) (P : D -> Prop).
Hypothesis send_keeps : forall d dev frame r d', P d -> send d dev frame = Ok (r, d') -> P d'.
Implicit Types st : net D.

Lemma wake_queue_driver st cpu q st' : wake_queue st cpu q = Ok st' -> driver st' = driver st.
Proof. unfold wake_queue. intros H. run H. by injection H as <-. Qed.

Lemma socket_rx_driver st cpu sock source addrlen payload st' :
  socket_rx_packet st cpu sock source addrlen payload = Ok st' -> driver st' = driver st.
Proof. unfold socket_rx_packet. intros H. run H. by apply wake_queue_driver in H. Qed.

Lemma arp_add_entry_driver st cpu a mac htype dev st' : arp_add_entry st cpu a mac htype dev = Ok st' -> driver st' = driver st.
Proof.
  unfold arp_add_entry. intros H. run H; injection H as <-; [|done].
  match goal with E : wake_queue _ _ _ = Ok _ |- _ => apply wake_queue_driver in E end. done.
Qed.

Lemma raw_loop_driver l : forall st cpu protocol source p found r st',
  raw_loop l st cpu protocol source p found = Ok (r, st') -> driver st' = driver st.
Proof.
  induction l as [|k l IH]; intros st cpu protocol source p found r st' H; cbn [raw_loop] in H; [by injection H as _ <-|].
  run H; [|by eapply IH].
  match goal with E : socket_rx_packet _ _ _ _ _ _ = Ok _ |- _ => apply socket_rx_driver in E; rewrite <- E end. by eapply IH.
Qed.

Lemma arp_send_reply_keeps st dev packet st' : P (driver st) -> arp_send_reply send st dev packet = Ok st' -> P (driver st').
Proof.
  intros HP H. unfold arp_send_reply, ether_tx_packet in H. run H. injection H as <-.
  match goal with E : (if _ then _ else _) = Ok _ |- _ => run E; injection E as _ <- end. cbn [driver set_driver]. by eapply send_keeps.
Qed.

Lemma arp_rx_keeps st cpu dev p st' : P (driver st) -> arp_rx_packet send st cpu dev p = Ok st' -> P (driver st').
Proof.
  intros HP H. unfold arp_rx_packet in H. run H; try (by injection H as <-); try (apply arp_add_entry_driver in H; by rewrite H).
  all: first [apply arp_send_reply_keeps in H; [done|] | injection H as <-].
  all: match goal with E : match ?o with _ => _ end = Ok _ |- _ => destruct o; [by injection E as <-|] end.
  all: match goal with E : arp_add_entry _ _ _ _ _ _ = Ok _ |- _ => apply arp_add_entry_driver in E; by rewrite E end.
Qed.

Lemma udp_rx_driver st cpu p st' : udp_rx_packet st cpu p = Ok st' -> driver st' = driver st.
Proof. unfold udp_rx_packet. intros H. run H; try (by injection H as <-); by apply socket_rx_driver in H. Qed.

Lemma ipv4_rx_driver st cpu p st' : ipv4_rx_packet st cpu p = Ok st' -> driver st' = driver st.
Proof.
  unfold ipv4_rx_packet, ipv4_raw_rx_packet. intros H. run H.
  all: match goal with E : outcome_bind _ _ = Ok (_, _) |- _ => run E; apply raw_loop_driver in E; rewrite <- E end.
  - by apply udp_rx_driver in H.
  - by injection H as <-.
Qed.

Lemma ether_rx_keeps st cpu dev p st' : P (driver st) -> ether_rx_packet send st cpu dev p = Ok st' -> P (driver st').
Proof.
  intros HP H. unfold ether_rx_packet in H. run H; try (by injection H as <-); [by eapply arp_rx_keeps|]. apply ipv4_rx_driver in H. by rewrite H.
Qed.
End stable.

(** ** The shared memory *)

(** The type of the driver's state: two full rings, indices inside them,
    every descriptor pointing to the frame of its own page, and no frame
    shared between descriptors. *)
Record e1000_ok (d : e1000_device) : Prop := {
  ok_rx_length : length (rx_descs d) = 256%nat;
  ok_tx_length : length (tx_descs d) = 256%nat;
  ok_cur_rx : 0 <= cur_rx d < 256;
  ok_cur_tx : 0 <= cur_tx d < 256;
  ok_rx : forall i desc, rx_descs d !! i = Some desc -> exists virt page,
    rx_page d !! i = Some virt /\ e_map d !! virt = Some (rx_addr desc) /\ e_mem d !! rx_addr desc = Some page /\ length page = 4096%nat;
  ok_tx : forall i desc, tx_descs d !! i = Some desc -> exists virt page,
    tx_page d !! i = Some virt /\ e_map d !! virt = Some (tx_addr desc) /\ e_mem d !! tx_addr desc = Some page /\ length page = 4096%nat;
  ok_distinct : NoDup (map rx_addr (rx_descs d) ++ map tx_addr (tx_descs d));
}.

(** What a received frame does not change: everything but the other half. *)
Record same_rx (d d' : e1000_device) : Prop := {
  sr_descs : rx_descs d' = rx_descs d;
  sr_page : rx_page d' = rx_page d;
  sr_cur : cur_rx d' = cur_rx d;
  sr_netdev : e_netdev d' = e_netdev d;
  sr_map : e_map d' = e_map d;
  sr_tail : written (e_regs d') E1000_REG_RXDESC_TAIL = written (e_regs d) E1000_REG_RXDESC_TAIL;
  sr_mem : forall i desc, rx_descs d !! i = Some desc -> e_mem d' !! rx_addr desc = e_mem d !! rx_addr desc;
}.

(** The memory with one page replaced by another of the same size. *)
Lemma mem_replaced (m : gmap Z (list Z)) a page page' b : m !! a = Some page -> length page = 4096%nat -> length page' = 4096%nat ->
  (exists q, m !! b = Some q /\ length q = 4096%nat) -> exists q, <[a := page']> m !! b = Some q /\ length q = 4096%nat.
Proof.
  intros Ha Hl Hl' (q & Hq & Hlq). destruct (decide (a = b)) as [->|Hne].
  - exists page'. by rewrite lookup_insert_eq.
  - exists q. by rewrite lookup_insert_ne.
Qed.

Lemma splice_length (frame page : list Z) : zlen frame <= 4096 -> length page = 4096%nat -> length (frame ++ drop (length frame) page) = 4096%nat.
Proof. intros Hf Hp. rewrite length_app, length_drop. unfold zlen in Hf. lia. Qed.

Lemma aget_nth {A} (l : list A) i x : 0 <= i -> l !! Z.to_nat i = Some x -> aget l i = Ok x.
Proof. intros Hi Hx. by apply aget_Ok. Qed.

Lemma aget_split {A} (l : list A) i n : length l = n -> 0 <= i < Z.of_nat n -> exists x, l !! Z.to_nat i = Some x /\ aget l i = Ok x.
Proof. intros Hl Hi. destruct (aget_in l i) as (x & Hx & E); [unfold zlen; lia|]. by exists x. Qed.

Lemma page_at_ok d virt phys page : e_map d !! virt = Some phys -> e_mem d !! phys = Some page -> page_at d virt = Ok (phys, page).
Proof. intros Hm Hp. unfold page_at. rewrite Hm. cbn [deref outcome_bind]. by rewrite Hp. Qed.

(** Frames of receive and transmit descriptors differ. *)
Lemma rx_tx_distinct d i j rx tx : e1000_ok d -> rx_descs d !! i = Some rx -> tx_descs d !! j = Some tx -> rx_addr rx <> tx_addr tx.
Proof.
  intros Hok Hi Hj E. pose proof (ok_distinct d Hok) as Hnd. apply NoDup_app in Hnd as (_ & Hd & _). apply (Hd (rx_addr rx)).
  - apply list_elem_of_fmap. exists rx. split; [done|]. by eapply list_elem_of_lookup_2.
  - rewrite E. apply list_elem_of_fmap. exists tx. split; [done|]. by eapply list_elem_of_lookup_2.
Qed.

Lemma rx_distinct d i j a b : e1000_ok d -> rx_descs d !! i = Some a -> rx_descs d !! j = Some b -> rx_addr a = rx_addr b -> i = j.
Proof.
  intros Hok Hi Hj E. pose proof (ok_distinct d Hok) as Hnd. apply NoDup_app in Hnd as (Hnd & _).
  eapply (NoDup_lookup _ i j (rx_addr a) Hnd); rewrite list_lookup_fmap; [by rewrite Hi|by rewrite Hj, E].
Qed.

Lemma tx_distinct d i j a b : e1000_ok d -> tx_descs d !! i = Some a -> tx_descs d !! j = Some b -> tx_addr a = tx_addr b -> i = j.
Proof.
  intros Hok Hi Hj E. pose proof (ok_distinct d Hok) as Hnd. apply NoDup_app in Hnd as (_ & _ & Hnd).
  eapply (NoDup_lookup _ i j (tx_addr a) Hnd); rewrite list_lookup_fmap; [by rewrite Hi|by rewrite Hj, E].
Qed.

(** Changing a descriptor's other fields keeps the addresses. *)
Lemma map_insert_same {A} (f : A -> Z) (l : list A) i x y : l !! i = Some x -> f y = f x -> map f (<[i := y]> l) = map f l.
Proof.
  intros Hx Hf. apply list_eq. intros j. rewrite !list_lookup_fmap. destruct (decide (i = j)) as [<-|Hne].
  - rewrite list_lookup_insert_eq by by eapply lookup_lt_Some. rewrite Hx. simpl. by rewrite Hf.
  - by rewrite list_lookup_insert_ne.
Qed.

(** ** Sending *)

Definition tx_command : Z := Z.lor E1000_CMD_EOP (Z.lor E1000_CMD_IFCS (Z.lor E1000_CMD_RS E1000_CMD_RPS)).

(** A frame that fits a page is copied to the page of the current descriptor,
    the descriptor is filled in and the tail register moved past it. *)
Lemma e1000_send_spec d nd buffer : e1000_ok d -> zlen buffer <= 4096 ->
  exists desc page d', tx_descs d !! Z.to_nat (cur_tx d) = Some desc /\ e_mem d !! tx_addr desc = Some page /\
    e1000_send d nd buffer = Ok (RVal (zlen buffer), d') /\
    d' = cmd_write32 E1000_REG_TXDESC_TAIL ((cur_tx d + 1) mod 256)
      (set_tx (<[Z.to_nat (cur_tx d) := mk_tx_desc (tx_addr desc) (zlen buffer) (tx_cso desc) tx_command 0 0 0]> (tx_descs d))
         ((cur_tx d + 1) mod 256) (set_mem (<[tx_addr desc := buffer ++ drop (length buffer) page]> (e_mem d)) d)).
Proof.
  intros Hok Hb. pose proof (ok_cur_tx d Hok) as Hc.
  destruct (aget_split (tx_descs d) (cur_tx d) 256 (ok_tx_length d Hok)) as (desc & Hd & Hget); [lia|].
  destruct (ok_tx d Hok _ _ Hd) as (virt & page & Hv & Hm & Hp & Hl). exists desc, page. eexists. split; [done|]. split; [done|].
  split; [|reflexivity]. unfold e1000_send. rewrite (aget_nth _ _ virt) by (done || lia). cbn [outcome_bind].
  rewrite (page_at_ok d virt _ page Hm Hp). cbn [outcome_bind].
  destruct (Z.ltb_spec (zlen page) (zlen buffer)); [unfold zlen in *; lia|]. cbn [set_mem tx_descs cur_tx]. rewrite Hget. cbn [outcome_bind].
  rewrite aset_in by (unfold zlen; rewrite (ok_tx_length d Hok); lia). cbn [outcome_bind]. unfold E1000_TX_DESC_COUNT.
  pose proof (zlen_nonneg buffer). rewrite u32_small, u16_small by lia. reflexivity.
Qed.

Lemma send_fits d nd buffer r d' : e1000_ok d -> e1000_send d nd buffer = Ok (r, d') -> zlen buffer <= 4096.
Proof.
  intros Hok H. pose proof (ok_cur_tx d Hok) as Hc.
  destruct (aget_split (tx_descs d) (cur_tx d) 256 (ok_tx_length d Hok)) as (desc & Hd & Hget); [lia|].
  destruct (ok_tx d Hok _ _ Hd) as (virt & page & Hv & Hm & Hp & Hl). unfold e1000_send in H.
  rewrite (aget_nth _ _ virt) in H by (done || lia). cbn [outcome_bind] in H. rewrite (page_at_ok d virt _ page Hm Hp) in H.
  cbn [outcome_bind] in H. destruct (Z.ltb_spec (zlen page) (zlen buffer)); [done|]. unfold zlen in *. lia.
Qed.

Lemma e1000_send_ok d nd buffer r d' : e1000_ok d -> e1000_send d nd buffer = Ok (r, d') -> e1000_ok d' /\ same_rx d d'.
Proof.
  intros Hok H. pose proof (send_fits d nd buffer r d' Hok H) as Hb.
  destruct (e1000_send_spec d nd buffer Hok Hb) as (desc & page & d1 & Hd & Hp & E & ->). rewrite E in H. injection H as _ <-.
  destruct (ok_tx d Hok _ _ Hd) as (virt & page' & Hv & Hm & Hp' & Hl). rewrite Hp in Hp'. injection Hp' as <-.
  pose proof (splice_length buffer page Hb Hl) as Hl'. split.
  - split; cbn [cmd_write32 set_tx set_mem rx_descs rx_page tx_descs tx_page cur_rx cur_tx e_map e_mem]; try apply Hok.
    + rewrite length_insert. apply Hok.
    + apply Z.mod_pos_bound. lia.
    + intros i rx Hi. destruct (ok_rx d Hok i rx Hi) as (v & q & H1 & H2 & H3 & H4).
      destruct (mem_replaced (e_mem d) (tx_addr desc) page _ (rx_addr rx) Hp Hl Hl') as (q' & Hq' & Hlq'); [by exists q|]. by exists v, q'.
    + intros i tx Hi. assert (exists old, tx_descs d !! i = Some old /\ tx_addr tx = tx_addr old) as (old & Ho & ->).
      { apply list_lookup_insert_Some in Hi as [(<- & <- & _)|(_ & Hi)]; [by exists desc|by exists tx]. }
      destruct (ok_tx d Hok i old Ho) as (v & q & H1 & H2 & H3 & H4).
      destruct (mem_replaced (e_mem d) (tx_addr desc) page _ (tx_addr old) Hp Hl Hl') as (q' & Hq' & Hlq'); [by exists q|]. by exists v, q'.
    + rewrite (map_insert_same tx_addr _ _ desc) by done. apply Hok.
  - split; try done. intros i rx Hi. cbn [cmd_write32 set_tx set_mem e_mem]. apply lookup_insert_ne. intros E2. by apply (rx_tx_distinct d i _ rx desc Hok Hi Hd).
Qed.

(** ** Slots of the receive ring *)

(** The [j]th slot after [base]. *)
Definition slot (base j : Z) : Z := (base + j) mod 256.

Lemma slot_range base j : 0 <= slot base j < 256.
Proof. apply Z.mod_pos_bound. lia. Qed.

Lemma slot_inj base i j : 0 <= i < 256 -> 0 <= j < 256 -> slot base i = slot base j -> i = j.
Proof. unfold slot. intros Hi Hj E. Z.to_euclidean_division_equations. lia. Qed.

Lemma slot_0 base : 0 <= base < 256 -> slot base 0 = base.
Proof. intros H. unfold slot. rewrite Z.add_0_r. by apply Z.mod_small. Qed.

Lemma slot_slot base i j : slot (slot base i) j = slot base (i + j).
Proof. unfold slot. rewrite Zplus_mod_idemp_l. f_equal. lia. Qed.

Lemma slot_256 base : slot base 256 = slot base 0.
Proof. unfold slot. rewrite Z.add_0_r. replace (base + 256) with (base + 1 * 256) by lia. by rewrite Z.mod_add. Qed.

(** The slot holds a frame for the driver. *)
Definition holds (d : e1000_device) (i : Z) (frame : list Z) : Prop :=
  exists desc page, rx_descs d !! Z.to_nat i = Some desc /\ has (rx_status desc) 1 = true /\
    e_mem d !! rx_addr desc = Some page /\ rdbytes page 0 (rx_length desc) = Ok frame.

(** The slot is marked as not done. *)
Definition not_done (d : e1000_device) (i : Z) : Prop := exists desc, rx_descs d !! Z.to_nat i = Some desc /\ has (rx_status desc) 1 = false.

(** The page of the slot has the bytes, whatever the descriptor's status. *)
Definition page_holds (d : e1000_device) (i : Z) (frame : list Z) : Prop :=
  exists desc page, rx_descs d !! Z.to_nat i = Some desc /\ e_mem d !! rx_addr desc = Some page /\ rdbytes page 0 (rx_length desc) = Ok frame.

Lemma same_rx_holds d d' i frame : same_rx d d' -> holds d i frame -> holds d' i frame.
Proof.
  intros S (desc & page & H1 & H2 & H3 & H4). exists desc, page. rewrite (sr_descs _ _ S), (sr_mem _ _ S _ _ H1). done.
Qed.

Lemma same_rx_not_done d d' i : same_rx d d' -> not_done d i -> not_done d' i.
Proof. intros S (desc & H1 & H2). exists desc. by rewrite (sr_descs _ _ S). Qed.

Lemma same_rx_page d d' i frame : same_rx d d' -> page_holds d i frame -> page_holds d' i frame.
Proof. intros S (desc & page & H1 & H3 & H4). exists desc, page. by rewrite (sr_descs _ _ S), (sr_mem _ _ S _ _ H1). Qed.

Lemma rx_done_true d frame : 0 <= cur_rx d -> holds d (cur_rx d) frame -> rx_done d = Ok true.
Proof. intros Hc (desc & page & H1 & H2 & _). unfold rx_done. rewrite (aget_nth _ _ desc) by done. cbn [outcome_bind]. by rewrite H2. Qed.

Lemma rx_done_false d : 0 <= cur_rx d -> not_done d (cur_rx d) -> rx_done d = Ok false.
Proof. intros Hc (desc & H1 & H2). unfold rx_done. rewrite (aget_nth _ _ desc) by done. cbn [outcome_bind]. by rewrite H2. Qed.

(** Replacing a descriptor by one with the same address, and the current index. *)
Lemma set_rx_ok d i desc desc' cur : e1000_ok d -> rx_descs d !! i = Some desc -> rx_addr desc' = rx_addr desc -> 0 <= cur < 256 ->
  e1000_ok (set_rx (<[i := desc']> (rx_descs d)) cur d).
Proof.
  intros Hok Hi Ha Hc. split; cbn [set_rx rx_descs rx_page tx_descs tx_page cur_rx cur_tx e_map e_mem]; try apply Hok; try done.
  - rewrite length_insert. apply Hok.
  - intros j x Hx. assert (exists old, rx_descs d !! j = Some old /\ rx_addr x = rx_addr old) as (old & Ho & ->).
    { apply list_lookup_insert_Some in Hx as [(<- & <- & _)|(_ & Hx)]; [by exists desc|by exists x]. }
    by apply (ok_rx d Hok).
  - rewrite (map_insert_same rx_addr _ _ desc) by done. apply Hok.
Qed.

Lemma cmd_write32_ok reg v d : e1000_ok d -> e1000_ok (cmd_write32 reg v d).
Proof. intros [H1 H2 H3 H4 H5 H6 H7]. by split. Qed.

Lemma rx_return_ok old d : e1000_ok d -> e1000_ok (rx_return old d).
Proof. destruct old; [apply cmd_write32_ok|done]. Qed.

Lemma rx_next_ok d : e1000_ok d -> e1000_ok (rx_next d) /\ cur_rx (rx_next d) = slot (cur_rx d) 1.
Proof.
  intros Hok. pose proof (ok_cur_rx d Hok). assert (cur_rx (rx_next d) = slot (cur_rx d) 1) as E.
  { unfold rx_next, E1000_RX_DESC_COUNT, slot. cbn [set_rx cur_rx]. by rewrite u32_small by lia. }
  split; [|done]. destruct Hok as [H1 H2 H3 H4 H5 H6 H7]. split; try done. rewrite E. apply slot_range.
Qed.

(** Opening the current slot. *)
Lemma rx_open_spec d frame : e1000_ok d -> holds d (cur_rx d) frame ->
  exists d', rx_open d = Ok (frame, d') /\ e1000_ok d' /\ cur_rx d' = cur_rx d /\ e_netdev d' = e_netdev d /\ e_regs d' = e_regs d /\
    not_done d' (cur_rx d) /\ page_holds d' (cur_rx d) frame /\
    (forall i, 0 <= i < 256 -> i <> cur_rx d -> (forall f, holds d i f -> holds d' i f) /\ (not_done d i -> not_done d' i)).
Proof.
  intros Hok (desc & page & H1 & H2 & H3 & H4). pose proof (ok_cur_rx d Hok) as Hc.
  destruct (ok_rx d Hok _ _ H1) as (virt & page' & Hv & Hm & Hp & Hl). rewrite H3 in Hp. injection Hp as <-.
  exists (set_rx (<[Z.to_nat (cur_rx d) := clear_rx_status desc]> (rx_descs d)) (cur_rx d) d).
  pose proof (lookup_lt_Some _ _ _ H1) as Hlt. split_and!.
  - unfold rx_open. rewrite (aget_nth _ _ desc) by (done || lia). cbn [outcome_bind].
    rewrite aset_in by (unfold zlen; rewrite (ok_rx_length d Hok); lia). cbn [outcome_bind].
    rewrite (aget_nth _ _ virt) by (done || lia). cbn [outcome_bind]. rewrite (page_at_ok d virt _ page Hm H3). cbn [outcome_bind].
    by rewrite H4.
  - by apply set_rx_ok with desc.
  - done.
  - done.
  - done.
  - exists (clear_rx_status desc). cbn [set_rx rx_descs]. by rewrite list_lookup_insert_eq.
  - exists (clear_rx_status desc), page. cbn [set_rx rx_descs e_mem]. by rewrite list_lookup_insert_eq.
  - intros i Hi Hne. split.
    + intros f (di & pi & G1 & G2 & G3 & G4). exists di, pi. cbn [set_rx rx_descs e_mem]. by rewrite list_lookup_insert_ne by lia.
    + intros (di & G1 & G2). exists di. cbn [set_rx rx_descs]. by rewrite list_lookup_insert_ne by lia.
Qed.

(** ** One interrupt *)

(** The frames wait in the ring from the current slot on, and the slot after
    them is not done. *)
Record waiting_frames (d : e1000_device) (frames : list (list Z)) : Prop := {
  wf_short : zlen frames < 256;
  wf_frames : forall j f, frames !! j = Some f -> holds d (slot (cur_rx d) (Z.of_nat j)) f;
  wf_rest : forall j, zlen frames <= j < 256 -> not_done d (slot (cur_rx d) j);
}.

Lemma take_frame d f fs d1 d2 : e1000_ok d -> waiting_frames d (f :: fs) -> rx_open d = Ok (f, d1) -> e1000_ok d2 -> same_rx d1 d2 ->
  waiting_frames (rx_next d2) fs /\ cur_rx d2 = cur_rx d.
Proof.
  intros Hok [Hs Hf Hr] Ho Hok2 Sm. pose proof (ok_cur_rx d Hok) as Hc. pose proof (Hf 0%nat f eq_refl) as H0.
  rewrite slot_0 in H0 by done. destruct (rx_open_spec d f Hok H0) as (d1' & E & _ & Hcur & _ & _ & Hnd & _ & Hoth). rewrite Ho in E. injection E as <-.
  rewrite zlen_cons in Hs. assert (cur_rx d2 = cur_rx d) as Hc2 by (rewrite (sr_cur _ _ Sm); done). split; [|done].
  destruct (rx_next_ok d2 Hok2) as [_ Hn]. rewrite Hc2 in Hn.
  assert (forall j, 0 < j < 256 -> slot (cur_rx d) j <> cur_rx d) as Hne.
  { intros j Hj E. apply (f_equal (fun x => x)) in E. rewrite <- (slot_0 (cur_rx d)) in E at 2 by done. apply slot_inj in E; lia. }
  split; [lia| |].
  - intros j g Hg. rewrite Hn, slot_slot. apply lookup_lt_Some in Hg as Hlt. specialize (Hf (S j) g Hg).
    replace (1 + Z.of_nat j) with (Z.of_nat (S j)) by lia.
    apply (proj1 (Hoth _ (slot_range _ _) (Hne (Z.of_nat (S j)) ltac:(unfold zlen in Hs; lia)))) in Hf. by apply (same_rx_holds _ _ _ _ Sm) in Hf.
  - intros j Hj. rewrite Hn, slot_slot. destruct (Z.eq_dec j 255) as [->|].
    + change (1 + 255) with 256. rewrite slot_256, slot_0 by done. by apply (same_rx_not_done _ _ _ Sm) in Hnd.
    + specialize (Hr (1 + j) ltac:(rewrite zlen_cons; lia)). apply (proj2 (Hoth _ (slot_range _ _) (Hne (1 + j) ltac:(pose proof (zlen_nonneg fs); lia)))) in Hr.
      by apply (same_rx_not_done _ _ _ Sm) in Hr.
Qed.

Lemma same_rx_refl d : same_rx d d.
Proof. by split. Qed.

Lemma same_rx_trans d1 d2 d3 : same_rx d1 d2 -> same_rx d2 d3 -> same_rx d1 d3.
Proof.
  intros [A1 A2 A3 A4 A5 A6 A7] [B1 B2 B3 B4 B5 B6 B7]. split; try congruence.
  intros i desc Hi. rewrite (B7 i desc) by (by rewrite A1). by apply A7 with i.
Qed.

(** While the stack handles a frame, the driver's receive half stays. *)
Lemma ether_rx_same st cpu dev p st' : e1000_ok (driver st) -> ether_rx_packet e1000_send st cpu dev p = Ok st' ->
  e1000_ok (driver st') /\ same_rx (driver st) (driver st').
Proof.
  intros Hok H. apply (ether_rx_keeps e1000_send (fun d => e1000_ok d /\ same_rx (driver st) d)) in H; [done| |].
  - intros d nd frame r d' [Hd Hs] Hsend. apply e1000_send_ok in Hsend as [Hd' Hs']; [|done]. split; [done|]. by eapply same_rx_trans.
  - split; [done|apply same_rx_refl].
Qed.

Section handler.
Context {A : Type} (fr : A -> list Z) (cpu nd : Z) (good : A -> Prop) (I : list A -> net e1000_device -> Prop).

(** [I handled st] is what holds when the stack has handled the frames of
    [handled]; it does not speak of the driver. *)
Hypothesis I_driver : forall handled st d, I handled st -> I handled (set_driver d st).
Hypothesis I_step : forall handled f st, good f -> I handled st -> e1000_ok (driver st) ->
  exists st', ether_rx_packet e1000_send st cpu nd (fr f) = Ok st' /\ I (handled ++ [f]) st'.

Definition last_slot (base : Z) (frames : list A) (old : option Z) : option Z :=
  match frames with [] => old | _ => Some (slot base (zlen frames - 1)) end.

Lemma rx_loop_spec frames : forall handled st fuel old, Forall good frames -> I handled st -> e1000_ok (driver st) ->
  e_netdev (driver st) = nd -> waiting_frames (driver st) (map fr frames) -> (length frames <= fuel)%nat ->
  exists st', rx_loop fuel st cpu old = Ok (last_slot (cur_rx (driver st)) frames old, st') /\
    I (handled ++ frames) st' /\ e1000_ok (driver st') /\ waiting_frames (driver st') [] /\ e_netdev (driver st') = nd /\
    cur_rx (driver st') = slot (cur_rx (driver st)) (zlen frames).
Proof.
  induction frames as [|f fs IH]; intros handled st fuel old Hg HI Hok Hnd W Hfuel; pose proof (ok_cur_rx _ Hok) as Hc.
  - exists st. rewrite app_nil_r. pose proof (wf_rest _ _ W 0 ltac:(done)) as H0. rewrite slot_0 in H0 by done. split_and!; try done.
    + destruct fuel; cbn [rx_loop]; by rewrite rx_done_false by (done || lia).
    + by rewrite slot_0.
  - pose proof (wf_frames _ _ W 0%nat (fr f) eq_refl) as H0. rewrite slot_0 in H0 by done. destruct fuel as [|fuel]; [simpl in Hfuel; lia|].
    apply Forall_cons in Hg as [Hf Hfs]. destruct (rx_open_spec _ (fr f) Hok H0) as (d1 & Ho & Hok1 & Hcur1 & Hnd1 & _).
    destruct (I_step handled f (set_driver d1 st) Hf) as (st1 & Hrx & HI1); [by apply I_driver|done|].
    destruct (ether_rx_same (set_driver d1 st) _ _ _ _ Hok1 Hrx) as [Hok2 Sm]. cbn [driver set_driver] in Sm.
    destruct (take_frame _ (fr f) (map fr fs) d1 (driver st1) Hok W Ho Hok2 Sm) as [W2 Hc2]. destruct (rx_next_ok _ Hok2) as [Hok3 Hc3].
    destruct (IH (handled ++ [f]) (set_driver (rx_next (driver st1)) st1) fuel (Some (cur_rx (driver st1)))) as (st' & Hl & HI' & Hok' & W' & Hnd' & Hc');
      [done|by apply I_driver|done| |done|simpl in Hfuel; lia|].
    { cbn [driver set_driver rx_next set_rx e_netdev]. by rewrite (sr_netdev _ _ Sm), Hnd1. }
    exists st'. rewrite <- app_assoc in HI'. split_and!; try done.
    + cbn [rx_loop]. rewrite (rx_done_true _ (fr f)) by (done || lia). cbn [outcome_bind negb]. rewrite Ho. cbn [outcome_bind].
      rewrite Hnd1, Hnd, Hrx. cbn [outcome_bind]. rewrite Hl. f_equal. f_equal. cbn [driver set_driver]. rewrite Hc3, Hc2. unfold last_slot.
      destruct fs as [|g fs]; [by rewrite slot_0|]. rewrite slot_slot, !zlen_cons. f_equal. f_equal. lia.
    + rewrite Hc'. cbn [driver set_driver]. rewrite Hc3, Hc2, slot_slot, zlen_cons. f_equal.
Qed.

(** One interrupt hands every frame that waits in the ring to the stack, in
    the order of arrival, and gives their descriptors back to the card. *)
Lemma e1000_irq_spec frames st icr : Forall good frames -> I [] st -> e1000_ok (driver st) -> e_netdev (driver st) = nd ->
  waiting_frames (driver st) (map fr frames) -> has icr E1000_ICR_RXQ0 = true ->
  exists st', e1000_irq 256 st cpu icr = Ok st' /\ I frames st' /\ e1000_ok (driver st') /\ waiting_frames (driver st') [] /\
    cur_rx (driver st') = slot (cur_rx (driver st)) (zlen frames) /\
    (frames <> [] -> written (e_regs (driver st')) E1000_REG_RXDESC_TAIL = Some (slot (cur_rx (driver st)) (zlen frames - 1))).
Proof.
  intros Hg HI Hok Hnd W Hicr. pose proof (wf_short _ _ W) as Hs. unfold zlen in Hs. rewrite length_map in Hs.
  destruct (rx_loop_spec frames [] st 256 None Hg HI Hok Hnd W ltac:(lia)) as (st1 & Hl & HI1 & Hok1 & W1 & Hnd1 & Hc1).
  unfold e1000_irq. destruct (Z.eqb_spec icr 0) as [->|_]; [done|]. rewrite Hicr, Hl. cbn [outcome_bind].
  eexists. split; [reflexivity|]. cbn [driver set_driver]. split_and!.
  - by do 2 apply I_driver.
  - by apply cmd_write32_ok, rx_return_ok.
  - destruct W1 as [W11 W12 W13]. unfold last_slot. destruct frames; split; try done.
  - unfold last_slot. by destruct frames.
  - intros Hne. destruct frames as [|f fs]; [done|]. cbn [last_slot rx_return cmd_write32 e_regs written].
    rewrite decide_False by done. rewrite decide_True by done. f_equal. apply u32_small. pose proof (slot_range (cur_rx (driver st)) (zlen (f :: fs) - 1)). lia.
Qed.
End handler.

(** ** The card and the handler at the same time *)

(** What the card's documentation says of storing a frame in the slot at its
    head: the slot is one that the tail has released to it, the frame fits
    the buffer, the frame's bytes go to the page of the descriptor, and the
    descriptor gets the length and a status with the done bit. *)
Record card_stores (dma : e1000_device -> Z -> list Z -> option e1000_device) : Prop := {
  cs_released : forall d h frame d', dma d h frame = Some d' -> written (e_regs d) E1000_REG_RXDESC_TAIL <> Some h;
  cs_size : forall d h frame d', dma d h frame = Some d' -> zlen frame <= 4096;
  cs_effect : forall d h frame d', dma d h frame = Some d' -> exists desc page checksum status errors special,
    rx_descs d !! Z.to_nat h = Some desc /\ e_mem d !! rx_addr desc = Some page /\ has status 1 = true /\
    d' = set_mem (<[rx_addr desc := frame ++ drop (length frame) page]> (e_mem d))
      (set_rx (<[Z.to_nat h := mk_rx_desc (rx_addr desc) (zlen frame) checksum status errors special]> (rx_descs d)) (cur_rx d) d);
}.

(** Where the handler is: not running, before the loop's condition, or in the
    stack with the frame of the current slot. *)
Inductive rx_phase :=
  | Idle
  | Looping (old_rx : option Z)
  | Handling (frame : list Z).

(** [y_head] is the card's head; [y_in] are the frames it stored and [y_out]
    those the stack has handled. *)
Record rx_sys := mk_sys { y_dev : e1000_device; y_head : Z; y_phase : rx_phase; y_in : list (list Z); y_out : list (list Z) }.

Section concurrent.
Context (dma : e1000_device -> Z -> list Z -> option e1000_device).

Inductive rx_step : rx_sys -> rx_sys -> Prop :=
  | step_card d h ph i o frame d' : dma d h frame = Some d' ->
      rx_step (mk_sys d h ph i o) (mk_sys d' (slot h 1) ph (i ++ [frame]) o)
  | step_enter d h i o : rx_step (mk_sys d h Idle i o) (mk_sys d h (Looping None) i o)
  | step_open d h old i o frame d' : rx_done d = Ok true -> rx_open d = Ok (frame, d') ->
      rx_step (mk_sys d h (Looping old) i o) (mk_sys d' h (Handling frame) i o)
  | step_send d h ph i o nd buffer r d' : e1000_send d nd buffer = Ok (r, d') ->
      rx_step (mk_sys d h ph i o) (mk_sys d' h ph i o)
  | step_next d h frame i o :
      rx_step (mk_sys d h (Handling frame) i o) (mk_sys (rx_next d) h (Looping (Some (cur_rx d))) i (o ++ [frame]))
  | step_leave d h old i o : rx_done d = Ok false ->
      rx_step (mk_sys d h (Looping old) i o) (mk_sys (rx_return old d) h Idle i o).

(** The first slot that the handler has not opened. *)
Definition unopened (y : rx_sys) : Z := match y_phase y with Handling _ => slot (cur_rx (y_dev y)) 1 | _ => cur_rx (y_dev y) end.

Definition in_hand (ph : rx_phase) : list (list Z) := match ph with Handling frame => [frame] | _ => [] end.

(** [waiting] frames follow the first unopened slot, then come [free] slots
    for the card, then [kept] slots that the handler has not yet given back. *)
Record rx_inv (y : rx_sys) (waiting : list (list Z)) (free kept : Z) : Prop := {
  ri_ok : e1000_ok (y_dev y);
  ri_count : 0 <= free /\ 0 <= kept /\ zlen waiting + free + kept = 255;
  ri_head : y_head y = slot (unopened y) (zlen waiting);
  ri_tail : written (e_regs (y_dev y)) E1000_REG_RXDESC_TAIL = Some (slot (unopened y) (zlen waiting + free));
  ri_frames : forall j f, waiting !! j = Some f -> holds (y_dev y) (slot (unopened y) (Z.of_nat j)) f;
  ri_rest : forall j, zlen waiting <= j < 256 -> not_done (y_dev y) (slot (unopened y) j);
  ri_phase : match y_phase y with
    | Idle => kept = 0
    | Looping None => kept = 0
    | Looping (Some old) => 0 < kept /\ old = slot (cur_rx (y_dev y)) 255
    | Handling frame => 0 < kept /\ page_holds (y_dev y) (cur_rx (y_dev y)) frame
    end;
  ri_order : y_in y = y_out y ++ in_hand (y_phase y) ++ waiting;
}.

Lemma holds_not_done d i f : holds d i f -> not_done d i -> False.
Proof. intros (desc & page & H1 & H2 & _) (desc' & H1' & H2'). rewrite H1 in H1'. injection H1' as <-. congruence. Qed.

(** A send leaves the receive half alone. *)
Lemma inv_send d d' h ph i o w free kept : e1000_ok d' -> same_rx d d' -> rx_inv (mk_sys d h ph i o) w free kept -> rx_inv (mk_sys d' h ph i o) w free kept.
Proof.
  intros Hok Sm [H1 H2 H3 H4 H5 H6 H7 H8]. assert (unopened (mk_sys d' h ph i o) = unopened (mk_sys d h ph i o)) as Eu.
  { unfold unopened. cbn [y_phase y_dev]. by rewrite (sr_cur _ _ Sm). }
  split; cbn [y_dev y_head y_phase y_in y_out] in *; rewrite ?Eu; try done.
  - by rewrite (sr_tail _ _ Sm).
  - intros j f Hj. by apply (same_rx_holds _ _ _ _ Sm), H5.
  - intros j Hj. by apply (same_rx_not_done _ _ _ Sm), H6.
  - destruct ph as [|[old|]|frame]; try done.
    + by rewrite (sr_cur _ _ Sm).
    + rewrite (sr_cur _ _ Sm). destruct H7 as [Hk Hp]. split; [done|]. by apply (same_rx_page _ _ _ _ Sm).
Qed.

(** A stored frame is in its slot, and nothing else changes. *)
Lemma store_spec d h frame d' : card_stores dma -> dma d h frame = Some d' -> e1000_ok d -> 0 <= h < 256 ->
  e1000_ok d' /\ cur_rx d' = cur_rx d /\ e_regs d' = e_regs d /\ e_netdev d' = e_netdev d /\ holds d' h frame /\
  (forall i, 0 <= i < 256 -> i <> h -> (forall f, holds d i f -> holds d' i f) /\ (forall f, page_holds d i f -> page_holds d' i f) /\
     (not_done d i -> not_done d' i)).
Proof.
  intros CS Hd Hok Hh. pose proof (cs_size _ CS _ _ _ _ Hd) as Hsz.
  destruct (cs_effect _ CS _ _ _ _ Hd) as (desc & page & ck & stt & er & sp & G1 & G2 & G3 & ->).
  destruct (ok_rx d Hok _ _ G1) as (virt & page' & Hv & Hm & Hp & Hl). rewrite G2 in Hp. injection Hp as <-.
  pose proof (splice_length frame page Hsz Hl) as Hl'. set (new := mk_rx_desc (rx_addr desc) (zlen frame) ck stt er sp).
  pose proof (lookup_lt_Some _ _ _ G1) as Hlt.
  assert (forall i desc', i <> Z.to_nat h -> rx_descs d !! i = Some desc' -> rx_addr desc <> rx_addr desc') as Hadr.
  { intros i desc' Hi Hd' E. apply Hi. by apply (rx_distinct d i (Z.to_nat h) desc' desc). }
  split_and!; try done.
  - pose proof (set_rx_ok d (Z.to_nat h) desc new (cur_rx d) Hok G1 eq_refl (ok_cur_rx d Hok)) as [K1 K2 K3 K4 K5 K6 K7].
    split; try done; cbn [set_mem e_mem rx_descs rx_page tx_descs tx_page e_map] in *.
    + intros i x Hx. destruct (K5 i x Hx) as (v & q & A1 & A2 & A3 & A4). cbn [set_rx e_mem] in A3.
      destruct (mem_replaced _ _ _ _ (rx_addr x) G2 Hl Hl') as (q' & Hq' & Hlq'); [by exists q|]. by exists v, q'.
    + intros i x Hx. destruct (K6 i x Hx) as (v & q & A1 & A2 & A3 & A4). cbn [set_rx e_mem] in A3.
      destruct (mem_replaced _ _ _ _ (tx_addr x) G2 Hl Hl') as (q' & Hq' & Hlq'); [by exists q|]. by exists v, q'.
  - exists new, (frame ++ drop (length frame) page). cbn [set_mem set_rx rx_descs e_mem].
    rewrite list_lookup_insert_eq, lookup_insert_eq by done. split_and!; try done. apply rdbytes_front.
  - intros i Hi Hne. assert (Z.to_nat i <> Z.to_nat h) as Hn by lia. split_and!.
    + intros f (x & q & A1 & A2 & A3 & A4). exists x, q. cbn [set_mem set_rx rx_descs e_mem].
      rewrite list_lookup_insert_ne by done. by rewrite lookup_insert_ne by by apply (Hadr (Z.to_nat i)).
    + intros f (x & q & A1 & A3 & A4). exists x, q. cbn [set_mem set_rx rx_descs e_mem].
      rewrite list_lookup_insert_ne by done. by rewrite lookup_insert_ne by by apply (Hadr (Z.to_nat i)).
    + intros (x & A1 & A2). exists x. cbn [set_mem set_rx rx_descs]. by rewrite list_lookup_insert_ne by done.
Qed.

(** The card stores a frame in a slot that nobody else uses. *)
Lemma inv_card d h ph i o w free kept frame d' : card_stores dma -> dma d h frame = Some d' ->
  rx_inv (mk_sys d h ph i o) w free kept -> rx_inv (mk_sys d' (slot h 1) ph (i ++ [frame]) o) (w ++ [frame]) (free - 1) kept.
Proof.
  intros CS Hd [H1 H2 H3 H4 H5 H6 H7 H8]. cbn [y_dev y_head y_phase y_in y_out] in *.
  set (u := unopened (mk_sys d h ph i o)) in *. pose proof (zlen_nonneg w) as Hw.
  assert (0 < free) as Hfree.
  { destruct (Z.eq_dec free 0) as [->|]; [|lia]. exfalso. apply (cs_released _ CS _ _ _ _ Hd). by rewrite H4, Z.add_0_r, H3. }
  assert (0 <= h < 256) as Hh by (rewrite H3; apply slot_range).
  destruct (store_spec d h frame d' CS Hd H1 Hh) as (K1 & K2 & K3 & _ & K4 & K5).
  assert (forall j, 0 <= j < 256 -> j <> zlen w -> slot u j <> h) as Hne.
  { intros j Hj Hn E. rewrite H3 in E. apply slot_inj in E; lia. }
  assert (unopened (mk_sys d' (slot h 1) ph (i ++ [frame]) o) = u) as Eu by (unfold u, unopened; cbn [y_phase y_dev]; by rewrite K2).
  assert (zlen (w ++ [frame]) = zlen w + 1) as Ez by by rewrite zlen_app.
  split; cbn [y_dev y_head y_phase y_in y_out]; rewrite ?Eu, ?Ez, ?K3.
  - done.
  - lia.
  - by rewrite H3, slot_slot.
  - rewrite H4. do 2 f_equal. lia.
  - intros j f [Hj|[Hj Hf]]%lookup_app_Some.
    + apply lookup_lt_Some in Hj as Hlt. apply K5; [apply slot_range|apply Hne; unfold zlen in *; lia|]. by apply H5.
    + assert (j = length w) as -> by (apply lookup_lt_Some in Hf; simpl in Hf; lia). rewrite Nat.sub_diag in Hf. injection Hf as <-.
      change (Z.of_nat (length w)) with (zlen w). by rewrite <- H3.
  - intros j Hj. apply K5; [apply slot_range|apply Hne; lia|]. apply H6. lia.
  - destruct ph as [|[old|]|g]; rewrite ?K2; try done. destruct H7 as [Hk Hp]. split; [done|]. apply K5; [apply H1| |done].
    rewrite <- (slot_0 (cur_rx d)), <- slot_256 by apply H1. change 256 with (1 + 255). rewrite <- slot_slot. apply (Hne 255); lia.
  - rewrite H8. by rewrite !app_assoc.
Qed.

(** The handler opens a slot: the frame is in hand. *)
Lemma inv_open d h old i o w free kept frame d' : rx_done d = Ok true -> rx_open d = Ok (frame, d') ->
  rx_inv (mk_sys d h (Looping old) i o) w free kept ->
  exists w', w = frame :: w' /\ rx_inv (mk_sys d' h (Handling frame) i o) w' free (kept + 1).
Proof.
  intros Hdone Ho [H1 H2 H3 H4 H5 H6 H7 H8]. cbn [y_dev y_head y_phase y_in y_out unopened] in *. pose proof (ok_cur_rx d H1) as Hc.
  destruct w as [|f w].
  { specialize (H6 0 ltac:(done)). rewrite slot_0 in H6 by done. by rewrite rx_done_false in Hdone by (done || lia). }
  pose proof (H5 0%nat f eq_refl) as H0. rewrite slot_0 in H0 by done.
  destruct (rx_open_spec d f H1 H0) as (d1 & E & K1 & K2 & K3 & K4 & K5 & K6 & K7). rewrite Ho in E. injection E as <- <-.
  exists w. split; [done|]. rewrite zlen_cons in *. pose proof (zlen_nonneg w) as Hw.
  assert (forall j, 0 < j < 256 -> slot (cur_rx d) j <> cur_rx d) as Hne.
  { intros j Hj E. rewrite <- (slot_0 (cur_rx d)) in E at 2 by done. apply slot_inj in E; lia. }
  split; cbn [y_dev y_head y_phase y_in y_out unopened]; rewrite ?K2, ?K4, ?slot_slot.
  - done.
  - lia.
  - rewrite H3. f_equal.
  - rewrite H4. do 2 f_equal. lia.
  - intros j g Hg. rewrite slot_slot. replace (1 + Z.of_nat j) with (Z.of_nat (S j)) by lia. apply lookup_lt_Some in Hg as Hlt.
    apply K7; [apply slot_range|apply Hne; unfold zlen in *; lia|]. by apply (H5 (S j)).
  - intros j Hj. rewrite slot_slot. destruct (Z.eq_dec j 255) as [->|].
    + change (1 + 255) with 256. by rewrite slot_256, slot_0.
    + apply K7; [apply slot_range|apply Hne; lia|]. apply H6. lia.
  - split; [lia|done].
  - done.
Qed.

(** The stack is done with the frame. *)
Lemma inv_next d h frame i o w free kept : rx_inv (mk_sys d h (Handling frame) i o) w free kept ->
  rx_inv (mk_sys (rx_next d) h (Looping (Some (cur_rx d))) i (o ++ [frame])) w free kept.
Proof.
  intros [H1 H2 H3 H4 H5 H6 H7 H8]. cbn [y_dev y_head y_phase y_in y_out unopened in_hand] in *.
  destruct (rx_next_ok d H1) as [K1 K2]. split; cbn [y_dev y_head y_phase y_in y_out unopened in_hand]; rewrite ?K2; try done.
  - split; [apply H7|]. rewrite slot_slot. change (1 + 255) with 256. rewrite slot_256, slot_0; [done|apply H1].
  - rewrite H8. by rewrite <- !app_assoc.
Qed.

(** The handler leaves: no frame is waiting, and the slots it used are the card's. *)
Lemma inv_leave d h old i o w free kept : rx_done d = Ok false -> rx_inv (mk_sys d h (Looping old) i o) w free kept ->
  w = [] /\ rx_inv (mk_sys (rx_return old d) h Idle i o) [] 255 0.
Proof.
  intros Hdone [H1 H2 H3 H4 H5 H6 H7 H8]. cbn [y_dev y_head y_phase y_in y_out unopened in_hand] in *. pose proof (ok_cur_rx d H1) as Hc.
  destruct w as [|f w].
  2:{ pose proof (H5 0%nat f eq_refl) as H0. rewrite slot_0 in H0 by done. by rewrite (rx_done_true d f) in Hdone by (done || lia). }
  split; [done|]. assert (cur_rx (rx_return old d) = cur_rx d) as Ec by by destruct old.
  split; cbn [y_dev y_head y_phase y_in y_out unopened in_hand]; rewrite ?Ec; try done.
  - by apply rx_return_ok.
  - change (zlen []) with 0 in *. rewrite Z.add_0_l. destruct old as [old|].
    + cbn [rx_return cmd_write32 e_regs written]. rewrite decide_True by done. f_equal. destruct H7 as [_ ->].
      apply u32_small. pose proof (slot_range (cur_rx d) 255). lia.
    + cbn [rx_return]. rewrite H4. do 2 f_equal. lia.
  - intros j Hj. destruct old; by apply (H6 j).
Qed.

(** The invariant is kept by every step of the card, of the handler, and of
    whoever sends. *)
Lemma rx_step_inv y y' w free kept : card_stores dma -> rx_step y y' -> rx_inv y w free kept -> exists w' free' kept', rx_inv y' w' free' kept'.
Proof.
  intros CS Hst HI. destruct Hst.
  - exists (w ++ [frame]), (free - 1), kept. by eapply inv_card.
  - exists w, free, kept. by destruct HI.
  - destruct (inv_open d h old i o w free kept frame d') as (w' & _ & H'); [done..|]. by exists w', free, (kept + 1).
  - apply e1000_send_ok in H as [Hok Sm]; [|apply HI]. exists w, free, kept. by eapply inv_send.
  - exists w, free, kept. by apply inv_next.
  - destruct (inv_leave d h old i o w free kept) as (_ & H'); [done..|]. by exists [], 255, 0.
Qed.
End concurrent.

(** ** From the start on *)

(** The state of the receive ring when the card is started. *)
Record rx_started (d : e1000_device) : Prop := {
  rs_ok : e1000_ok d;
  rs_cur : cur_rx d = 0 /\ written (e_regs d) E1000_REG_RXDESC_HEAD = Some 0;
  rs_tail : written (e_regs d) E1000_REG_RXDESC_TAIL = Some 255;
  rs_empty : forall i, 0 <= i < 256 -> not_done d i;
}.

Lemma started_inv d : rx_started d -> rx_inv (mk_sys d 0 Idle [] []) [] 255 0.
Proof.
  intros [Hok [Hc _] Ht He]. split; cbn [y_dev y_head y_phase y_in y_out unopened in_hand]; rewrite ?Hc; try done.
  - intros j Hj. apply He, slot_range.
Qed.

Lemma reachable_inv dma d y : card_stores dma -> rx_started d -> rtc (rx_step dma) (mk_sys d 0 Idle [] []) y ->
  exists w free kept, rx_inv y w free kept.
Proof.
  intros CS Hd Hr. apply started_inv in Hd. assert (exists w free kept, rx_inv (mk_sys d 0 Idle [] []) w free kept) as H0 by by do 3 eexists.
  clear Hd. induction Hr as [|x y z Hxy _ IH]; [done|]. apply IH. destruct H0 as (w & free & kept & H0). by apply (rx_step_inv dma x y w free kept).
Qed.

(** C15: receiving is reliable.  Start the card, and let it store frames, the
    handler run, and anyone send, in any order, so that new frames arrive
    while the handler works.  Then the frames the stack has handled, the one
    it is handling and the ones that wait in the ring are exactly those that
    the card stored, in the order of arrival: none is lost, repeated or
    reordered.  The handler never faults and opens the oldest frame first,
    leaves only when none waits, and the card does not write to the page
    that the stack is reading. *)
Theorem e1000_rx_reliable dma d y : card_stores dma -> rx_started d -> rtc (rx_step dma) (mk_sys d 0 Idle [] []) y ->
  exists waiting, y_in y = y_out y ++ in_hand (y_phase y) ++ waiting /\ zlen waiting <= 255 /\ e1000_ok (y_dev y) /\
    (forall j f, waiting !! j = Some f -> holds (y_dev y) (slot (unopened y) (Z.of_nat j)) f) /\
    match y_phase y with
    | Idle => True
    | Looping _ =>
        match waiting with
        | [] => rx_done (y_dev y) = Ok false
        | f :: _ => rx_done (y_dev y) = Ok true /\ exists d', rx_open (y_dev y) = Ok (f, d')
        end
    | Handling frame => page_holds (y_dev y) (cur_rx (y_dev y)) frame
    end.
Proof.
  intros CS Hd Hr. destruct (reachable_inv dma d y CS Hd Hr) as (w & free & kept & [H1 H2 H3 H4 H5 H6 H7 H8]).
  exists w. split; [done|]. split; [pose proof (zlen_nonneg w); lia|]. split; [done|]. split; [done|].
  pose proof (ok_cur_rx _ H1) as Hc. unfold unopened in *. destruct (y_phase y) as [|old|frame]; [done| |by destruct H7].
  destruct w as [|f w].
  - specialize (H6 0 ltac:(done)). rewrite slot_0 in H6 by done. apply rx_done_false; [lia|done].
  - pose proof (H5 0%nat f eq_refl) as H0. rewrite slot_0 in H0 by done. split; [apply (rx_done_true _ f); [lia|done]|].
    destruct (rx_open_spec _ f H1 H0) as (d' & Ho & _). by exists d'.
Qed.

(** ** The rings after the start *)

Section rings.
Context {K : Type} {KS : KernelSpace K}.

(** The contents of a map after inserting a list of bindings. *)
Lemma foldr_insert_lookup {V} (m : gmap Z V) (l : list (Z * Z)) (key : Z * Z -> Z) (val : Z * Z -> V) p :
  NoDup (map key l) -> p ∈ l -> foldr (fun p m => <[key p := val p]> m) m l !! key p = Some (val p).
Proof.
  induction l as [|q l IH]; intros Hnd Hp; [set_solver|]. cbn [map foldr] in *. apply NoDup_cons in Hnd as [Hq Hnd].
  apply elem_of_cons in Hp as [->|Hp]; [apply lookup_insert_eq|]. rewrite lookup_insert_ne; [by apply IH|].
  intros E. apply Hq. rewrite E. apply list_elem_of_fmap. by exists p.
Qed.

Lemma foldr_insert_other {V} (m : gmap Z V) (l : list (Z * Z)) (key : Z * Z -> Z) (val : Z * Z -> V) k :
  k ∉ map key l -> foldr (fun p m => <[key p := val p]> m) m l !! k = m !! k.
Proof.
  induction l as [|q l IH]; intros Hk; [done|]. cbn [map foldr] in *. rewrite lookup_insert_ne by set_solver. apply IH. set_solver.
Qed.

Lemma ring_pages_length n : forall (k k' : K) pages, ring_pages n k = Ok (pages, k') -> length pages = n.
Proof.
  induction n as [|n IH]; intros k k' pages H; cbn [ring_pages] in H; [by injection H as <- <-|].
  run H. injection H as <- <-. cbn [length]. f_equal. by eapply IH.
Qed.

(** The memory after both loops. *)
Lemma pages_mapped (d : e1000_device) (rx tx : list (Z * Z)) p : NoDup (map fst (rx ++ tx)) -> NoDup (map snd (rx ++ tx)) -> p ∈ rx ++ tx ->
  let d' := add_pages tx (add_pages rx d) in e_map d' !! p.1 = Some p.2 /\ e_mem d' !! p.2 = Some (replicate 4096 0).
Proof.
  intros H1 H2 Hp. rewrite map_app in H1, H2. apply NoDup_app in H1 as (A1 & A2 & A3). apply NoDup_app in H2 as (B1 & B2 & B3).
  cbn [add_pages set_mem set_pages e_map e_mem]. apply elem_of_app in Hp as [Hp|Hp].
  - rewrite (foldr_insert_other _ tx fst snd), (foldr_insert_other _ tx snd (fun _ => replicate 4096 0)).
    + split; [by apply (foldr_insert_lookup _ rx fst snd)|by apply (foldr_insert_lookup _ rx snd (fun _ => replicate 4096 0))].
    + apply B2, list_elem_of_fmap. by exists p.
    + apply A2, list_elem_of_fmap. by exists p.
  - split; [by apply (foldr_insert_lookup _ tx fst snd)|by apply (foldr_insert_lookup _ tx snd (fun _ => replicate 4096 0))].
Qed.

Lemma rings_typed_spec (d : e1000_device) (k k1 k2 k3 k4 : K) ring1 ring2 rx tx p1 p2 :
  ks_map_fresh k (sizeof_desc * E1000_RX_DESC_COUNT) = Ok (ring1, k1) -> ring_pages 256 k1 = Ok (rx, k2) -> ks_phys k2 ring1 = Ok p1 ->
  ks_map_fresh k2 (sizeof_desc * E1000_TX_DESC_COUNT) = Ok (ring2, k3) -> ring_pages 256 k3 = Ok (tx, k4) -> ks_phys k4 ring2 = Ok p2 ->
  NoDup (map fst (rx ++ tx)) -> NoDup (map snd (rx ++ tx)) ->
  exists d', (let* (d, k) := e1000_init_rx d k in e1000_init_tx d k) = Ok (d', k4) /\ rx_started d' /\
    cur_tx d' = 0 /\ written (e_regs d') E1000_REG_TXDESC_HEAD = Some 0 /\ written (e_regs d') E1000_REG_TXDESC_TAIL = Some 0.
Proof.
  intros M1 R1 P1 M2 R2 P2 Hv Hp. unfold e1000_init_rx, e1000_init_tx. change (Z.to_nat E1000_RX_DESC_COUNT) with 256%nat.
  change (Z.to_nat E1000_TX_DESC_COUNT) with 256%nat. rewrite M1. cbn [outcome_bind]. rewrite R1. cbn [outcome_bind]. rewrite P1.
  cbn [outcome_bind]. rewrite M2. cbn [outcome_bind]. rewrite R2. cbn [outcome_bind]. rewrite P2. cbn [outcome_bind].
  pose proof (ring_pages_length _ _ _ _ R1) as L1. pose proof (ring_pages_length _ _ _ _ R2) as L2.
  eexists. split; [reflexivity|]. split; [|done].
  split; cbn [cmd_write32 set_tx set_rx set_pages add_pages set_mem rx_descs cur_rx e_regs]; try done.
  - split; cbn [cmd_write32 set_tx set_rx set_pages add_pages set_mem rx_descs tx_descs rx_page tx_page cur_rx cur_tx e_map e_mem]; try done.
    + by rewrite length_map.
    + by rewrite length_map.
    + intros i desc Hi. rewrite list_lookup_fmap in Hi. destruct (rx !! i) as [p|] eqn:E; [|done]. injection Hi as <-.
      destruct (pages_mapped d rx tx p Hv Hp) as [Ha Hb]; [apply elem_of_app; left; by eapply list_elem_of_lookup_2|].
      exists p.1, (replicate 4096 0). rewrite list_lookup_fmap, E. by split_and!.
    + intros i desc Hi. rewrite list_lookup_fmap in Hi. destruct (tx !! i) as [p|] eqn:E; [|done]. injection Hi as <-.
      destruct (pages_mapped d rx tx p Hv Hp) as [Ha Hb]; [apply elem_of_app; right; by eapply list_elem_of_lookup_2|].
      exists p.1, (replicate 4096 0). rewrite list_lookup_fmap, E. by split_and!.
    + rewrite !map_map. cbn [rx_addr tx_addr]. by rewrite <- map_app.
  - intros i Hi. destruct (lookup_lt_is_Some_2 rx (Z.to_nat i)) as [p E]; [lia|]. exists (mk_rx_desc p.2 0 0 0 0 0).
    cbn [cmd_write32 set_tx set_rx set_pages add_pages set_mem rx_descs]. rewrite list_lookup_fmap, E. done.
Qed.
End rings.

(** ** A burst of datagrams *)

(** A datagram on the wire: the device that sent it, its headers and its bytes. *)
Record datagram := mk_datagram { g_sender : netdev; g_ip : ipv4_packet; g_udp : udp_packet; g_bytes : list Z }.

Definition datagram_frame (mac : list Z) (g : datagram) : list Z := frame_of mac (g_sender g) (g_ip g) (g_udp g) (g_bytes g).

Definition datagram_entry (g : datagram) : recv_queue_entry :=
  mk_recv (g_bytes g) sockaddr_in_size (mk_sockaddr AF_INET (src_port (g_udp g)) (src_addr (g_ip g))).

(** A UDP datagram for an address and port. *)
Record datagram_for (addr port : Z) (g : datagram) : Prop := {
  df_mac : length (nd_mac (g_sender g)) = 6%nat;
  df_ip : ipv4_ok (g_ip g);
  df_udp : udp_ok (g_udp g);
  df_protocol : ip_protocol (g_ip g) = IPPROTO_UDP;
  df_addr : dst_addr (g_ip g) = addr;
  df_port : dst_port (g_udp g) = port;
}.

Section burst.
Context {D : Type}.
Implicit Types st : net D.

(** A longer receive queue does not change where datagrams go. *)
Lemma udp_walk_queue st sock k q fuel : sockets st !! sock = Some k -> forall entry addr port,
  udp_walk fuel (put_socket sock (set_s_recv_queue q k) st) entry addr port = udp_walk fuel st entry addr port.
Proof.
  intros Hk. induction fuel as [|fuel IH]; intros entry addr port; cbn [udp_walk]; [done|]. destruct (entry =? 0); [done|].
  unfold get_socket. cbn [put_socket set_sockets sockets]. destruct (decide (sock = entry)) as [<-|Hne].
  - rewrite lookup_insert_eq, Hk. cbn [deref outcome_bind set_s_recv_queue s_data s_next].
    destruct (s_data k); [|done]. cbn [deref outcome_bind]. destruct (_ && _); [done|apply IH].
  - rewrite lookup_insert_ne by done. destruct (sockets st !! entry) as [k'|]; [|done]. cbn [deref outcome_bind].
    destruct (s_data k'); [|done]. cbn [deref outcome_bind]. destruct (_ && _); [done|apply IH].
Qed.

Lemma udp_table_get_queue st sock k q addr port : sockets st !! sock = Some k ->
  udp_table_get (put_socket sock (set_s_recv_queue q k) st) addr port = udp_table_get st addr port.
Proof.
  intros Hk. unfold udp_table_get, udp_fuel. cbn [put_socket set_sockets udp sockets].
  rewrite map_size_insert_Some by by eexists. destruct (aget _ _); [|done..]. cbn [outcome_bind]. by apply udp_walk_queue.
Qed.

Lemma receiver_ready_queue st dev mac addr port sock k q : sockets st !! sock = Some k -> receiver_ready st dev mac addr port sock ->
  receiver_ready (put_socket sock (set_s_recv_queue q k) st) dev mac addr port sock.
Proof.
  intros Hk [H1 H2 H3]. split; [done| |].
  - intros r Hr. destruct (H2 r Hr) as (k' & data & Hk' & Hd & Hp). cbn [put_socket set_sockets sockets]. destruct (decide (sock = r)) as [<-|Hne].
    + rewrite Hk in Hk'. injection Hk' as <-. exists (set_s_recv_queue q k), data. by rewrite lookup_insert_eq.
    + exists k', data. by rewrite lookup_insert_ne.
  - destruct H3 as [Hz H3]. split; [done|]. by rewrite !udp_table_get_queue.
Qed.

Lemma udp_walk_driver d st fuel : forall entry addr port, udp_walk fuel (set_driver d st) entry addr port = udp_walk fuel st entry addr port.
Proof.
  induction fuel as [|fuel IH]; intros entry addr port; cbn [udp_walk]; [done|]. destruct (entry =? 0); [done|].
  unfold get_socket. cbn [set_driver sockets]. destruct (sockets st !! entry) as [k|]; [|done]. cbn [deref outcome_bind].
  destruct (s_data k); [|done]. cbn [deref outcome_bind]. destruct (_ && _); [done|apply IH].
Qed.

Lemma receiver_ready_driver d st dev mac addr port sock : receiver_ready st dev mac addr port sock -> receiver_ready (set_driver d st) dev mac addr port sock.
Proof.
  intros [H1 H2 [Hz H3]]. split; [done|done|]. split; [done|]. unfold udp_table_get, udp_fuel in *. cbn [set_driver udp sockets].
  destruct (aget (udp_table (udp st)) (ip_port_hashf addr port)); cbn [outcome_bind] in *; [|by destruct H3 as [|[??]]..].
  destruct (aget (udp_table (udp st)) (ip_port_hashf 0 port)); cbn [outcome_bind] in *; rewrite !udp_walk_driver; done.
Qed.

Lemma socket_rx_unwaited st cpu sock k source addrlen payload : sockets st !! sock = Some k -> wq_queues (nwait st) !! sock = Some [] ->
  socket_rx_packet st cpu sock source addrlen payload =
    Ok (put_socket sock (set_s_recv_queue (s_recv_queue k ++ [mk_recv payload addrlen source]) k) st).
Proof.
  intros Hk Hq. unfold socket_rx_packet, get_socket. rewrite Hk. cbn [deref outcome_bind].
  unfold wake_queue, wait_queue_wake. cbn [put_socket set_sockets nwait nsched]. rewrite Hq. cbn [deref outcome_bind wake_loop]. by destruct st, nwait.
Qed.
End burst.

(** What the stack has done after a number of datagrams. *)
Record burst_done (st0 : net e1000_device) (dev : Z) (mac : list Z) (addr port sock : Z) (k : socket) (handled : list datagram)
    (st : net e1000_device) : Prop := {
  bd_ready : receiver_ready st dev mac addr port sock;
  bd_sockets : sockets st = <[sock := set_s_recv_queue (s_recv_queue k ++ map datagram_entry handled) k]> (sockets st0);
  bd_quiet : wq_queues (nwait st) !! sock = Some [];
}.

Lemma burst_step st0 cpu dev mac addr port sock k handled g st : length mac = 6%nat -> datagram_for addr port g ->
  burst_done st0 dev mac addr port sock k handled st ->
  exists st', ether_rx_packet e1000_send st cpu dev (datagram_frame mac g) = Ok st' /\ burst_done st0 dev mac addr port sock k (handled ++ [g]) st'.
Proof.
  intros Hm [G1 G2 G3 G4 G5 G6] [R S Q].
  assert (sockets st !! sock = Some (set_s_recv_queue (s_recv_queue k ++ map datagram_entry handled) k)) as Hk by (rewrite S; apply lookup_insert_eq).
  unfold datagram_frame. rewrite (ether_rx_datagram e1000_send st cpu dev mac (g_sender g) (g_ip g) (g_udp g) (g_bytes g) sock) by (try done; by rewrite G5, G6).
  rewrite (socket_rx_unwaited st cpu sock _ _ _ _ Hk Q). eexists. split; [reflexivity|]. split.
  - by apply receiver_ready_queue.
  - cbn [put_socket set_sockets sockets set_s_recv_queue s_recv_queue]. rewrite S, insert_insert_eq, map_app, app_assoc. done.
  - done.
Qed.

(** From the ring to the socket.  The datagrams that wait in the ring for a
    bound socket reach its receive queue by one interrupt, all of them, in
    the order of arrival, each with its bytes and its source; no other
    socket changes, and the slots are the card's again. *)
Theorem e1000_burst_delivered st cpu icr dev mac addr port sock k dgs :
  e1000_ok (driver st) -> e_netdev (driver st) = dev -> waiting_frames (driver st) (map (datagram_frame mac) dgs) ->
  has icr E1000_ICR_RXQ0 = true -> length mac = 6%nat -> Forall (datagram_for addr port) dgs ->
  receiver_ready st dev mac addr port sock -> sockets st !! sock = Some k -> wq_queues (nwait st) !! sock = Some [] ->
  exists st', e1000_irq 256 st cpu icr = Ok st' /\
    sockets st' = <[sock := set_s_recv_queue (s_recv_queue k ++ map datagram_entry dgs) k]> (sockets st) /\
    e1000_ok (driver st') /\ waiting_frames (driver st') [] /\
    (dgs <> [] -> written (e_regs (driver st')) E1000_REG_RXDESC_TAIL = Some (slot (cur_rx (driver st)) (zlen dgs - 1))).
Proof.
  intros Hok Hdev W Hicr Hm Hg R Hk Q.
  destruct (e1000_irq_spec (datagram_frame mac) cpu dev (datagram_for addr port) (burst_done st dev mac addr port sock k)) with (frames := dgs) (st := st) (icr := icr)
    as (st' & E & [_ S' _] & Hok' & W' & _ & Ht); try done.
  - intros handled s d [A B C]. split; [by apply receiver_ready_driver|done|done].
  - intros handled g s Hgg HB _. by apply (burst_step st cpu dev mac addr port sock k handled g s).
  - split; [done| |done]. cbn [map]. rewrite app_nil_r, insert_id; [done|]. rewrite Hk. by destruct k.
  - by exists st'.
Qed.

(** ** Sending and the card *)

(** The slot of the transmit ring describes a frame. *)
Definition tx_holds (d : e1000_device) (i : Z) (frame : list Z) : Prop :=
  exists desc page, tx_descs d !! Z.to_nat i = Some desc /\ tx_cmd desc = tx_command /\
    e_mem d !! tx_addr desc = Some page /\ rdbytes page 0 (tx_length desc) = Ok frame.

(** [t_head] is the card's head, [t_sent] the frames given to the driver and
    [t_wire] those that the card has put on the wire. *)
Record tx_sys := mk_tx_sys { t_dev : e1000_device; t_head : Z; t_sent : list (list Z); t_wire : list (list Z) }.

Definition report (status : Z) (desc : e1000_tx_desc_t) : e1000_tx_desc_t :=
  mk_tx_desc (tx_addr desc) (tx_length desc) (tx_cso desc) (tx_cmd desc) status (tx_css desc) (tx_special desc).

(** The card, as documented, sends the frame at its head unless the head is
    the tail, and reports the descriptor's status.  Whoever sends leaves at
    least one slot free: the driver does not see to that. *)
Inductive tx_step : tx_sys -> tx_sys -> Prop :=
  | tx_step_card d h s w desc frame status : written (e_regs d) E1000_REG_TXDESC_TAIL <> Some h ->
      tx_descs d !! Z.to_nat h = Some desc -> tx_holds d h frame ->
      tx_step (mk_tx_sys d h s w) (mk_tx_sys (set_tx (<[Z.to_nat h := report status desc]> (tx_descs d)) (cur_tx d) d) (slot h 1) s (w ++ [frame]))
  | tx_step_send d h s w nd buffer r d' : zlen s - zlen w < 255 -> e1000_send d nd buffer = Ok (r, d') ->
      tx_step (mk_tx_sys d h s w) (mk_tx_sys d' h (s ++ [buffer]) w).

Record tx_inv (y : tx_sys) (queued : list (list Z)) : Prop := {
  ti_ok : e1000_ok (t_dev y);
  ti_head : 0 <= t_head y < 256;
  ti_short : zlen queued <= 255;
  ti_order : t_sent y = t_wire y ++ queued;
  ti_cur : cur_tx (t_dev y) = slot (t_head y) (zlen queued);
  ti_tail : written (e_regs (t_dev y)) E1000_REG_TXDESC_TAIL = Some (cur_tx (t_dev y));
  ti_frames : forall j f, queued !! j = Some f -> tx_holds (t_dev y) (slot (t_head y) (Z.of_nat j)) f;
}.

(** Sending fills the current slot and no other. *)
Lemma send_slot d nd buffer r d' : e1000_ok d -> e1000_send d nd buffer = Ok (r, d') ->
  e1000_ok d' /\ cur_tx d' = slot (cur_tx d) 1 /\ written (e_regs d') E1000_REG_TXDESC_TAIL = Some (cur_tx d') /\ tx_holds d' (cur_tx d) buffer /\
  (forall i f, 0 <= i < 256 -> i <> cur_tx d -> tx_holds d i f -> tx_holds d' i f).
Proof.
  intros Hok H. destruct (e1000_send_ok d nd buffer r d' Hok H) as [Hok' _]. pose proof (ok_cur_tx d Hok) as Hc.
  pose proof (send_fits d nd buffer r d' Hok H) as Hb.
  destruct (e1000_send_spec d nd buffer Hok Hb) as (desc & page & d1 & Hd & Hp & E & ->). rewrite E in H. injection H as _ <-.
  destruct (ok_tx d Hok _ _ Hd) as (virt & page' & _ & _ & Hp' & Hl). rewrite Hp in Hp'. injection Hp' as <-.
  pose proof (lookup_lt_Some _ _ _ Hd) as Hlt. split; [done|]. split; [done|]. split.
  { cbn [cmd_write32 e_regs written cur_tx set_tx]. rewrite decide_True by done. f_equal. apply u32_small. pose proof (Z.mod_pos_bound (cur_tx d + 1) 256). lia. }
  split.
  - eexists _, (buffer ++ drop (length buffer) page). cbn [cmd_write32 set_tx set_mem tx_descs e_mem]. rewrite list_lookup_insert_eq by done.
    split; [reflexivity|]. split; [done|]. cbn [tx_addr tx_length]. rewrite lookup_insert_eq. split; [done|]. apply rdbytes_front.
  - intros i f Hi Hne (di & pi & G1 & G2 & G3 & G4). exists di, pi. cbn [cmd_write32 set_tx set_mem tx_descs e_mem].
    rewrite list_lookup_insert_ne by lia. split; [done|]. split; [done|]. split; [|done]. rewrite lookup_insert_ne; [done|].
    intros E2. apply Hne. assert (Z.to_nat (cur_tx d) = Z.to_nat i) by by eapply (tx_distinct d _ _ desc di). lia.
Qed.

Lemma tx_step_inv y y' q : tx_step y y' -> tx_inv y q -> exists q', tx_inv y' q'.
Proof.
  intros Hst [H1 H2 H3 H4 H5 H6 H7]. destruct Hst as [d h s w desc frame status Ht Hd Hf|d h s w nd buffer r d' Hroom Hs]; cbn [t_dev t_head t_sent t_wire] in *.
  - destruct q as [|f q]; [exfalso; apply Ht; by rewrite H6, H5, slot_0|]. exists q. rewrite zlen_cons in *. pose proof (zlen_nonneg q).
    assert (forall i g, tx_holds d i g -> tx_holds (set_tx (<[Z.to_nat h := report status desc]> (tx_descs d)) (cur_tx d) d) i g) as Hk.
    { intros i g (di & pi & G1 & G2 & G3 & G4). destruct (decide (Z.to_nat h = Z.to_nat i)) as [E|E].
      - rewrite E in Hd. rewrite G1 in Hd. injection Hd as ->. exists (report status desc), pi. cbn [set_tx tx_descs e_mem]. rewrite E, list_lookup_insert_eq by by eapply lookup_lt_Some. done.
      - exists di, pi. cbn [set_tx tx_descs e_mem]. by rewrite list_lookup_insert_ne. }
    assert (f = frame) as ->.
    { pose proof (H7 0%nat f eq_refl) as (a & pa & A1 & A2 & A3 & A4). rewrite slot_0 in A1 by done. destruct Hf as (b & pb & B1 & B2 & B3 & B4).
      rewrite A1 in B1. injection B1 as <-. rewrite A3 in B3. injection B3 as <-. congruence. }
    split; cbn [t_dev t_head t_sent t_wire set_tx cur_tx e_regs]; try done.
    + destruct H1 as [K1 K2 K3 K4 K5 K6 K7]. split; try done; cbn [set_tx tx_descs tx_page e_map e_mem].
      * by rewrite length_insert.
      * intros i x Hx. assert (exists old, tx_descs d !! i = Some old /\ tx_addr x = tx_addr old) as (old & Ho & ->).
        { apply list_lookup_insert_Some in Hx as [(<- & <- & _)|(_ & Hx)]; [by exists desc|by exists x]. }
        by apply K6.
      * by rewrite (map_insert_same tx_addr _ _ desc).
    + apply slot_range.
    + lia.
    + by rewrite H4, <- app_assoc.
    + by rewrite H5, slot_slot.
    + intros j g Hg. apply Hk. rewrite slot_slot. replace (1 + Z.of_nat j) with (Z.of_nat (S j)) by lia. by apply H7.
  - exists (q ++ [buffer]). destruct (send_slot d nd buffer r d' H1 Hs) as (K1 & K2 & K3 & K4 & K5). rewrite H4, zlen_app in Hroom.
    assert (zlen (q ++ [buffer]) = zlen q + 1) as Ez by by rewrite zlen_app. pose proof (zlen_nonneg q).
    split; cbn [t_dev t_head t_sent t_wire]; rewrite ?Ez; try done.
    + lia.
    + by rewrite H4, app_assoc.
    + by rewrite K2, H5, slot_slot.
    + intros j f [Hj|[Hj Hf]]%lookup_app_Some.
      * apply lookup_lt_Some in Hj as Hlt. apply K5; [apply slot_range| |by apply H7]. rewrite H5. intros E. apply slot_inj in E; unfold zlen in *; lia.
      * assert (j = length q) as -> by (apply lookup_lt_Some in Hf; simpl in Hf; lia). rewrite Nat.sub_diag in Hf. injection Hf as <-.
        change (Z.of_nat (length q)) with (zlen q). by rewrite <- H5.
Qed.

(** C19: sending keeps the order.  As long as fewer than 256 frames are
    outstanding, the frames on the wire followed by those the ring describes
    are exactly those given to the driver, in order. *)
Theorem e1000_tx_ordered d h y : e1000_ok d -> 0 <= h < 256 -> cur_tx d = h -> written (e_regs d) E1000_REG_TXDESC_TAIL = Some h ->
  rtc tx_step (mk_tx_sys d h [] []) y ->
  exists queued, t_sent y = t_wire y ++ queued /\ zlen queued <= 255 /\
    (forall j f, queued !! j = Some f -> tx_holds (t_dev y) (slot (t_head y) (Z.of_nat j)) f) /\
    written (e_regs (t_dev y)) E1000_REG_TXDESC_TAIL = Some (slot (t_head y) (zlen queued)).
Proof.
  intros Hok Hh Hc Ht Hr. assert (exists q, tx_inv (mk_tx_sys d h [] []) q) as H0.
  { exists []. split; try done; cbn [t_dev t_head]; rewrite ?Hc; [by rewrite slot_0|done]. }
  clear Hok Hh Hc Ht. induction Hr as [y|x y z Hxy _ IH].
  - destruct H0 as (q & [H1 H2 H3 H4 H5 H6 H7]). exists q. split_and!; try done. by rewrite H6, H5.
  - apply IH. destruct H0 as (q & H0). by apply (tx_step_inv x y q).
Qed.

(** The driver sends without looking for a free slot. *)
Fixpoint send_all (d : e1000_device) (nd : Z) (frames : list (list Z)) : outcome e1000_device :=
  match frames with [] => Ok d | f :: frames => let* (_, d) := e1000_send d nd f in send_all d nd frames end.

Lemma send_all_spec frames : forall d nd, e1000_ok d -> Forall (fun f => zlen f <= 4096) frames ->
  exists d', send_all d nd frames = Ok d' /\ e1000_ok d' /\ cur_tx d' = slot (cur_tx d) (zlen frames) /\
    (frames <> [] -> written (e_regs d') E1000_REG_TXDESC_TAIL = Some (cur_tx d')).
Proof.
  induction frames as [|f fs IH]; intros d nd Hok Hf.
  { exists d. split_and!; try done. rewrite slot_0; [done|apply Hok]. }
  apply Forall_cons in Hf as [Hf Hfs]. destruct (e1000_send_spec d nd f Hok Hf) as (desc & page & d1 & _ & _ & E & _).
  destruct (send_slot d nd f _ d1 Hok E) as (K1 & K2 & K3 & _). destruct (IH d1 nd K1 Hfs) as (d' & E' & Hok' & Hc' & Ht').
  exists d'. cbn [send_all]. rewrite E. cbn [outcome_bind]. split_and!; try done.
  - rewrite Hc', K2, slot_slot, zlen_cons. done.
  - intros _. destruct fs as [|g fs]; [|by apply Ht']. cbn [send_all] in E'. by injection E' as <-.
Qed.

(** 256 frames given to the driver before the card sends one are lost: the
    tail is back where it was, which tells the card that there is nothing to
    send. *)
Theorem e1000_tx_overrun d nd frames : e1000_ok d -> Forall (fun f => zlen f <= 4096) frames -> zlen frames = 256 ->
  exists d', send_all d nd frames = Ok d' /\ written (e_regs d') E1000_REG_TXDESC_TAIL = Some (cur_tx d).
Proof.
  intros Hok Hf Hn. destruct (send_all_spec frames d nd Hok Hf) as (d' & E & _ & Hc & Ht). exists d'. split; [done|].
  rewrite Ht by (by intros ->). f_equal. rewrite Hc, Hn, slot_256, slot_0; [done|apply Hok].
Qed.


(** ** A card for the examples *)

(** Pages one after the other, in virtual and in physical memory. *)
#[export] Instance counting_space : KernelSpace Z := {|
  ks_map_device := fun k len phys => Ok (VM_VMALLOC_BASE + 4096 * k, k + len / 4096 + 1);
  ks_map_fresh := fun k len => Ok (VM_VMALLOC_BASE + 4096 * k, k + 1);
  ks_vmalloc := fun k len => Ok (VM_VMALLOC_BASE + 4096 * k, k + 1);
  ks_map_range := fun k phys virt len => Ok k;
  ks_phys := fun k virt => Ok (virt - VM_VMALLOC_BASE + 2 ^ 20) |}.

Definition counted (base : Z) : list (Z * Z) := map (fun i => (VM_VMALLOC_BASE + 4096 * i, 4096 * i + 2 ^ 20)) (seqZ base 256).

Definition blank_card (netdev : Z) : e1000_device := mk_e1000 netdev [] [] [] [] 0 0 0 ∅ ∅ [] (fun _ _ => 0).

Definition started_card (netdev : Z) : e1000_device :=
  match e1000_init_rx (blank_card netdev) 0 with
  | Ok (d, k) => match e1000_init_tx d k with Ok (d, _) => d | _ => d end
  | _ => blank_card netdev
  end.

Lemma ring_pages_counted n : forall k : Z, ring_pages n k =
  Ok (map (fun i => (VM_VMALLOC_BASE + 4096 * i, 4096 * i + 2 ^ 20)) (seqZ k (Z.of_nat n)), k + Z.of_nat n).
Proof.
  induction n as [|n IH]; intros k; cbn [ring_pages]; [by rewrite Z.add_0_r|]. cbn [ks_map_fresh ks_phys counting_space outcome_bind]. rewrite IH.
  cbn [outcome_bind]. rewrite (seqZ_cons k (Z.of_nat (S n))) by lia. replace (Z.pred (Z.of_nat (S n))) with (Z.of_nat n) by lia.
  cbn [map]. replace (VM_VMALLOC_BASE + 4096 * k - VM_VMALLOC_BASE + 2 ^ 20) with (4096 * k + 2 ^ 20) by lia.
  replace (k + 1 + Z.of_nat n) with (k + Z.of_nat (S n)) by lia. by replace (Z.succ k) with (k + 1) by lia.
Qed.

Lemma counted_distinct : NoDup (map fst (counted 1 ++ counted 258)) /\ NoDup (map snd (counted 1 ++ counted 258)).
Proof. split; eapply bool_decide_unpack; vm_compute; exact I. Qed.

Lemma started_card_ok netdev : rx_started (started_card netdev) /\ cur_tx (started_card netdev) = 0 /\
  written (e_regs (started_card netdev)) E1000_REG_TXDESC_TAIL = Some 0 /\ e_netdev (started_card netdev) = netdev.
Proof.
  destruct (rings_typed_spec (KS := counting_space) (blank_card netdev) 0 1 257 258 514 VM_VMALLOC_BASE (VM_VMALLOC_BASE + 4096 * 257)
    (counted 1) (counted 258) (2 ^ 20) (4096 * 257 + 2 ^ 20) eq_refl (ring_pages_counted 256 1) eq_refl eq_refl
    (ring_pages_counted 256 258) eq_refl (proj1 counted_distinct) (proj2 counted_distinct)) as (d' & E & Hs & Hc & _ & Ht).
  unfold started_card. destruct (e1000_init_rx (blank_card netdev) 0) as [[d k]| | |] eqn:E1; try done. cbn [outcome_bind] in E. rewrite E.
  split; [done|]. split; [done|]. split; [done|]. revert E1 E. clear. intros E1 E. unfold e1000_init_rx in E1. unfold e1000_init_tx in E.
  run E1. run E. injection E as <- _. injection E1 as <- _. done.
Qed.

(** A card that stores what fits where it may. *)
Definition storing (d : e1000_device) (h : Z) (frame : list Z) : option e1000_device :=
  if bool_decide (written (e_regs d) E1000_REG_RXDESC_TAIL = Some h) then None
  else if 4096 <? zlen frame then None
  else
    desc ← rx_descs d !! Z.to_nat h;
    page ← e_mem d !! rx_addr desc;
    Some (set_mem (<[rx_addr desc := frame ++ drop (length frame) page]> (e_mem d))
      (set_rx (<[Z.to_nat h := mk_rx_desc (rx_addr desc) (zlen frame) 0 3 0 0]> (rx_descs d)) (cur_rx d) d)).

Lemma storing_stores : card_stores storing.
Proof.
  split; intros d h frame d' H; unfold storing in H; case_bool_decide as Ht; try done; destruct (Z.ltb_spec 4096 (zlen frame)); try done.
  destruct (rx_descs d !! Z.to_nat h) as [desc|] eqn:Ed; [|done]. cbn in H. destruct (e_mem d !! rx_addr desc) as [page|] eqn:Ep; [|done].
  cbn in H. injection H as <-. by exists desc, page, 0, 3, 0, 0.
Qed.

(** It takes a frame at its head when the ring is empty. *)
Lemma storing_accepts d h i o frame : rx_inv (mk_sys d h Idle i o) [] 255 0 -> zlen frame <= 4096 -> exists d', storing d h frame = Some d'.
Proof.
  intros [H1 _ H3 H4 _ _ _ _] Hf. cbn [y_dev y_head y_phase unopened] in *. change (zlen []) with 0 in *.
  unfold storing. rewrite bool_decide_false.
  2:{ rewrite H4, H3. intros [= E]. apply slot_inj in E; lia. }
  destruct (Z.ltb_spec 4096 (zlen frame)); [lia|]. pose proof (slot_range (cur_rx d) 0).
  destruct (aget_split (rx_descs d) h 256 (ok_rx_length d H1)) as (desc & Hd & _); [rewrite H3; lia|]. rewrite Hd. cbn.
  destruct (ok_rx d H1 _ _ Hd) as (virt & page & _ & _ & Hp & _). rewrite Hp. cbn. by eexists.
Qed.

(** ** From socket to socket *)

Lemma frame_length mac d h u buf : length mac = 6%nat -> length (nd_mac d) = 6%nat -> zlen (frame_of mac d h u buf) = 42 + zlen buf.
Proof.
  intros Hm Hd. unfold frame_of. rewrite !zlen_app.
  assert (zlen (ether_bytes (mk_ether mac (nd_mac d) (native_to_be16 ETHER_TYPE_IPV4))) = 14) as ->.
  { unfold ether_bytes. cbn [mac_dst mac_src ether_type]. rewrite !zlen_app. unfold zlen. rewrite Hm, Hd. done. }
  change (zlen (ipv4_bytes h)) with 20. change (zlen (udp_bytes u)) with 8. lia.
Qed.


(** ** The statements at work *)


(** A frame arrives at a card just started, and the handler runs. *)
Lemma e1000_rx_reliable_witness : exists d1 d2, storing (started_card 16) 0 [1; 2; 3] = Some d1 /\ rx_open d1 = Ok ([1; 2; 3], d2).
Proof.
  destruct (started_card_ok 16) as (Hs & _). destruct (storing_accepts (started_card 16) 0 [] [] [1; 2; 3]) as (d1 & E1);
    [by apply started_inv|vm_compute; discriminate|].
  destruct (e1000_rx_reliable storing (started_card 16) (mk_sys d1 (slot 0 1) (Looping None) [[1; 2; 3]] [])) as (w & Ho & _ & _ & _ & Hp).
  - exact storing_stores.
  - exact Hs.
  - apply rtc_l with (mk_sys d1 (slot 0 1) Idle [[1; 2; 3]] []); [by apply (step_card storing _ 0 Idle [] [])|]. apply rtc_once. constructor.
  - cbn in Ho, Hp. rewrite <- Ho in Hp. destruct Hp as (_ & d2 & E2). exists d1, d2. split; [exact E1|exact E2].
Defined.

Lemma e1000_tx_ordered_witness : exists d1, e1000_send (started_card 16) 16 [1; 2; 3] = Ok (RVal 3, d1) /\ tx_holds d1 0 [1; 2; 3].
Proof.
  destruct (started_card_ok 16) as (Hs & Hc & Ht & _). pose proof (rs_ok _ Hs) as Hok.
  destruct (e1000_send_spec (started_card 16) 16 [1; 2; 3] Hok ltac:(vm_compute; discriminate)) as (desc & page & d1 & _ & _ & E & _).
  destruct (e1000_tx_ordered (started_card 16) 0 (mk_tx_sys d1 0 [[1; 2; 3]] []) Hok ltac:(lia) Hc Ht) as (q & Hq & _ & Hf & _).
  - apply rtc_once. by apply (tx_step_send (started_card 16) 0 [] [] 16 [1; 2; 3] (RVal 3) d1).
  - exists d1. split; [exact E|]. cbn in Hq, Hf. subst q. exact (Hf 0%nat [1; 2; 3] eq_refl).
Defined.

(** The two hosts of Delivery.v, with cards. *)
Definition card_host (st : net (list (list Z))) : net e1000_device :=
  mk_net (netdevs st) (netdev_list st) (arp st) (routes st) (domains st) (sockets st) (raw_sockets st) (udp st) (nwait st) (nsched st) (nbrk st)
    (started_card 16).

Lemma card_host_1_ready : sender_ready (card_host host_1) 32 (mk_sdata 0 0 (native_to_be16 5000) 0) to_host_2 16 ip_2
  (mk_netdev [101] mac_1 ip_1 0 0xFFFFFFFF 0 1) (mk_arp_entry ip_2 1 mac_2 16).
Proof. split; try done; by eexists. Qed.

Lemma card_host_2_ready : receiver_ready (card_host host_2) 16 mac_2 ip_2 (native_to_be16 7) 32.
Proof.
  split.
  - by eexists.
  - intros r Hr. set_solver.
  - split; [done|]. right. by vm_compute.
Qed.


(** A card without MSI-X stays registered as a network device that was never started. *)
Lemma e1000_init_unstarted {C K} {CS : ConfigSpace C} {KS : KernelSpace K} fuel (p : pci C K) st pdev self lapic mac name bar p1 pdev2 p2 :
  sprintf enp_format [Num (bus pdev); Num (device pdev)] = Ok name ->
  pcie_get_bar (pcie_write32 p pdev 0x4 (Z.lor (pcie_read32 p pdev 0x4) 0x406)) pdev 0 = Ok (bar, p1) ->
  pcie_enable_msix fuel p1 pdev = Ok (false, pdev2, p2) ->
  exists st' nd, e1000_init fuel p st pdev self lapic mac = Ok (false, pdev2, p2, st') /\
    nbrk st ∈ netdev_list st' /\ netdevs st' !! nbrk st = Some nd /\ nd_ops nd = e1000_ops /\ rx_descs (driver st') = rx_descs (driver st).
Proof.
  intros Hname Hbar Hmsix. unfold e1000_init. rewrite Hname. cbn [outcome_bind].
  unfold netdev_create, net_alloc, get_netdev. cbn [set_netdev_list put_netdev set_netdevs netdevs set_nbrk nbrk]. rewrite lookup_insert_eq.
  cbn [deref outcome_bind]. change (Z.land (Z.lor 1024 (Z.lor 4 2)) (u32 (Z.lnot 1))) with 0x406. rewrite Hbar. cbn [outcome_bind].
  rewrite Hmsix. cbn [outcome_bind negb]. do 2 eexists. split; [reflexivity|]. cbn. split; [set_solver|]. rewrite lookup_insert_eq. done.
Qed.
