(* ===== verification/Font.v ===== *)
(** * The font of the console

    kernel/dev/efifb_font.c: the table [font_data], 16 bytes for each of 256
    characters, one byte for a row of 8 pixels, the leftmost in the highest
    bit.  It is cut into blocks of 8 characters. *)

From stdpp Require Import base numbers list.
From Stdlib Require Import ZArith Lia.
From S2P Require Import Prelude.

(** The 16 bytes of a glyph, of which the first is the most significant one of
    a number. *)
Definition glyph_bytes (v : Z) : list Z := (fun k => Z.land (Z.shiftr v (8 * (15 - k))) 0xFF) <$> seqZ 0 16.

(** Glyph after glyph. *)
Definition glyphs (l : list Z) : list Z := concat (glyph_bytes <$> l).

(** Characters 0 to 7. *)
Definition font_00 : list Z :=
  glyphs [0x00000000000000000000000000000000; 0x00007e81a58181bd9981817e00000000;
          0x00007effdbffffc3e7ffff7e00000000; 0x000000006cfefefefe7c381000000000;
          0x0000000010387cfe7c38100000000000; 0x000000183c3ce7e7e718183c00000000;
          0x000000183c7effff7e18183c00000000; 0x000000000000183c3c18000000000000].

(** Characters 8 to 15. *)
Definition font_08 : list Z :=
  glyphs [0xffffffffffffe7c3c3e7ffffffffffff; 0x00000000003c664242663c0000000000;
          0xffffffffffc399bdbd99c3ffffffffff; 0x00001e0e1a3278cccccccc7800000000;
          0x00003c666666663c187e181800000000; 0x00003f333f3030303070f0e000000000;
          0x00007f637f6363636367e7e6c0000000; 0x0000001818db3ce73cdb181800000000].

(** Characters 16 to 23. *)
Definition font_10 : list Z :=
  glyphs [0x0080c0e0f0f8fef8f0e0c08000000000; 0x0002060e1e3efe3e1e0e060200000000;
          0x0000183c7e1818187e3c180000000000; 0x00006666666666666600666600000000;
          0x00007fdbdbdb7b1b1b1b1b1b00000000; 0x007cc660386cc6c66c380cc67c000000;
          0x0000000000000000fefefefe00000000; 0x0000183c7e1818187e3c187e00000000].

(** Characters 24 to 31. *)
Definition font_18 : list Z :=
  glyphs [0x0000183c7e1818181818181800000000; 0x0000181818181818187e3c1800000000;
          0x0000000000180cfe0c18000000000000; 0x00000000003060fe6030000000000000;
          0x000000000000c0c0c0fe000000000000; 0x0000000000286cfe6c28000000000000;
          0x000000001038387c7cfefe0000000000; 0x00000000fefe7c7c3838100000000000].

(** Characters 32 to 39. *)
Definition font_20 : list Z :=
  glyphs [0x00000000000000000000000000000000; 0x0000183c3c3c18181800181800000000;
          0x00666666240000000000000000000000; 0x0000006c6cfe6c6c6cfe6c6c00000000;
          0x18187cc6c2c07c060686c67c18180000; 0x00000000c2c60c183060c68600000000;
          0x0000386c6c3876dccccccc7600000000; 0x00303030600000000000000000000000].

(** Characters 40 to 47. *)
Definition font_28 : list Z :=
  glyphs [0x00000c18303030303030180c00000000; 0x000030180c0c0c0c0c0c183000000000;
          0x0000000000663cff3c66000000000000; 0x000000000018187e1818000000000000;
          0x00000000000000000018181830000000; 0x00000000000000fe0000000000000000;
          0x00000000000000000000181800000000; 0x0000000002060c183060c08000000000].

(** Characters 48 to 55. *)
Definition font_30 : list Z :=
  glyphs [0x0000386cc6c6d6d6c6c66c3800000000; 0x00001838781818181818187e00000000;
          0x00007cc6060c183060c0c6fe00000000; 0x00007cc606063c060606c67c00000000;
          0x00000c1c3c6cccfe0c0c0c1e00000000; 0x0000fec0c0c0fc060606c67c00000000;
          0x00003860c0c0fcc6c6c6c67c00000000; 0x0000fec606060c183030303000000000].

(** Characters 56 to 63. *)
Definition font_38 : list Z :=
  glyphs [0x00007cc6c6c67cc6c6c6c67c00000000; 0x00007cc6c6c67e0606060c7800000000;
          0x00000000181800000018180000000000; 0x00000000181800000018183000000000;
          0x000000060c18306030180c0600000000; 0x00000000007e00007e00000000000000;
          0x0000006030180c060c18306000000000; 0x00007cc6c60c18181800181800000000].

(** Characters 64 to 71. *)
Definition font_40 : list Z :=
  glyphs [0x0000007cc6c6dedededcc07c00000000; 0x000010386cc6c6fec6c6c6c600000000;
          0x0000fc6666667c66666666fc00000000; 0x00003c66c2c0c0c0c0c2663c00000000;
          0x0000f86c6666666666666cf800000000; 0x0000fe6662687868606266fe00000000;
          0x0000fe6662687868606060f000000000; 0x00003c66c2c0c0dec6c6663a00000000].

(** Characters 72 to 79. *)
Definition font_48 : list Z :=
  glyphs [0x0000c6c6c6c6fec6c6c6c6c600000000; 0x00003c18181818181818183c00000000;
          0x00001e0c0c0c0c0ccccccc7800000000; 0x0000e666666c78786c6666e600000000;
          0x0000f06060606060606266fe00000000; 0x0000c6eefefed6c6c6c6c6c600000000;
          0x0000c6e6f6fedecec6c6c6c600000000; 0x00007cc6c6c6c6c6c6c6c67c00000000].

(** Characters 80 to 87. *)
Definition font_50 : list Z :=
  glyphs [0x0000fc6666667c60606060f000000000; 0x00007cc6c6c6c6c6c6d6de7c0c0e0000;
          0x0000fc6666667c6c666666e600000000; 0x00007cc6c660380c06c6c67c00000000;
          0x00007e7e5a1818181818183c00000000; 0x0000c6c6c6c6c6c6c6c6c67c00000000;
          0x0000c6c6c6c6c6c6c66c381000000000; 0x0000c6c6c6c6d6d6d6feee6c00000000].

(** Characters 88 to 95. *)
Definition font_58 : list Z :=
  glyphs [0x0000c6c66c7c38387c6cc6c600000000; 0x0000666666663c181818183c00000000;
          0x0000fec6860c183060c2c6fe00000000; 0x00003c30303030303030303c00000000;
          0x00000080c0e070381c0e060200000000; 0x00003c0c0c0c0c0c0c0c0c3c00000000;
          0x10386cc6000000000000000000000000; 0x00000000000000000000000000ff0000].

(** Characters 96 to 103. *)
Definition font_60 : list Z :=
  glyphs [0x0030180c000000000000000000000000; 0x0000000000780c7ccccccc7600000000;
          0x0000e06060786c666666667c00000000; 0x00000000007cc6c0c0c0c67c00000000;
          0x00001c0c0c3c6ccccccccc7600000000; 0x00000000007cc6fec0c0c67c00000000;
          0x00001c36323078303030307800000000; 0x000000000076cccccccccc7c0ccc7800].

(** Characters 104 to 111. *)
Definition font_68 : list Z :=
  glyphs [0x0000e060606c7666666666e600000000; 0x00001818003818181818183c00000000;
          0x00000606000e06060606060666663c00; 0x0000e06060666c78786c66e600000000;
          0x00003818181818181818183c00000000; 0x0000000000ecfed6d6d6d6c600000000;
          0x0000000000dc66666666666600000000; 0x00000000007cc6c6c6c6c67c00000000].

(** Characters 112 to 119. *)
Definition font_70 : list Z :=
  glyphs [0x0000000000dc66666666667c6060f000; 0x000000000076cccccccccc7c0c0c1e00;
          0x0000000000dc7666606060f000000000; 0x00000000007cc660380cc67c00000000;
          0x0000103030fc30303030361c00000000; 0x0000000000cccccccccccc7600000000;
          0x0000000000c6c6c6c6c66c3800000000; 0x0000000000c6c6d6d6d6fe6c00000000].

(** Characters 120 to 127. *)
Definition font_78 : list Z :=
  glyphs [0x0000000000c66c3838386cc600000000; 0x0000000000c6c6c6c6c6c67e060cf800;
          0x0000000000fecc183060c6fe00000000; 0x00000e18181870181818180e00000000;
          0x00001818181818181818181800000000; 0x0000701818180e181818187000000000;
          0x0076dc00000000000000000000000000; 0x0000000010386cc6c6c6fe0000000000].

(** Characters 128 to 135. *)
Definition font_80 : list Z :=
  glyphs [0x00003c66c2c0c0c0c0c2663c18700000; 0x0000cc0000cccccccccccc7600000000;
          0x000c1830007cc6fec0c0c67c00000000; 0x0010386c00780c7ccccccc7600000000;
          0x0000cc0000780c7ccccccc7600000000; 0x0060301800780c7ccccccc7600000000;
          0x00386c3800780c7ccccccc7600000000; 0x00000000007cc6c0c0c0c67c18700000].

(** Characters 136 to 143. *)
Definition font_88 : list Z :=
  glyphs [0x0010386c007cc6fec0c0c67c00000000; 0x0000c600007cc6fec0c0c67c00000000;
          0x00603018007cc6fec0c0c67c00000000; 0x00006600003818181818183c00000000;
          0x00183c66003818181818183c00000000; 0x00603018003818181818183c00000000;
          0x00c60010386cc6c6fec6c6c600000000; 0x386c3810386cc6fec6c6c6c600000000].

(** Characters 144 to 151. *)
Definition font_90 : list Z :=
  glyphs [0x0c1800fe66626878686266fe00000000; 0x0000000000ec36367ed8d86e00000000;
          0x00003e6cccccfeccccccccce00000000; 0x0010386c007cc6c6c6c6c67c00000000;
          0x0000c600007cc6c6c6c6c67c00000000; 0x00603018007cc6c6c6c6c67c00000000;
          0x003078cc00cccccccccccc7600000000; 0x0060301800cccccccccccc7600000000].

(** Characters 152 to 159. *)
Definition font_98 : list Z :=
  glyphs [0x0000c60000c6c6c6c6c6c67e060c7800; 0x00c6007cc6c6c6c6c6c6c67c00000000;
          0x00c600c6c6c6c6c6c6c6c67c00000000; 0x0018187cc6c0c0c0c67c181800000000;
          0x00386c6460f060606060e6fc00000000; 0x000066663c187e187e18181800000000;
          0x00f8ccccf8c4ccdeccccccc600000000; 0x000e1b1818187e181818d87000000000].

(** Characters 160 to 167. *)
Definition font_a0 : list Z :=
  glyphs [0x0018306000780c7ccccccc7600000000; 0x000c1830003818181818183c00000000;
          0x00183060007cc6c6c6c6c67c00000000; 0x0018306000cccccccccccc7600000000;
          0x000076dc00dc66666666666600000000; 0x76dc00c6e6f6fedecec6c6c600000000;
          0x00003c6c6c3e007e0000000000000000; 0x0000386c6c38007c0000000000000000].

(** Characters 168 to 175. *)
Definition font_a8 : list Z :=
  glyphs [0x0000303000303060c0c6c67c00000000; 0x000000000000fec0c0c0c00000000000;
          0x000000000000fe060606060000000000; 0x0060e062666c183060dc860c183e0000;
          0x0060e062666c183066ce9a3f06060000; 0x00001818001818183c3c3c1800000000;
          0x0000000000366cd86c36000000000000; 0x0000000000d86c366cd8000000000000].

(** Characters 176 to 183. *)
Definition font_b0 : list Z :=
  glyphs [0x11441144114411441144114411441144; 0x55aa55aa55aa55aa55aa55aa55aa55aa;
          0xdd77dd77dd77dd77dd77dd77dd77dd77; 0x18181818181818181818181818181818;
          0x18181818181818f81818181818181818; 0x1818181818f818f81818181818181818;
          0x36363636363636f63636363636363636; 0x00000000000000fe3636363636363636].

(** Characters 184 to 191. *)
Definition font_b8 : list Z :=
  glyphs [0x0000000000f818f81818181818181818; 0x3636363636f606f63636363636363636;
          0x36363636363636363636363636363636; 0x0000000000fe06f63636363636363636;
          0x3636363636f606fe0000000000000000; 0x36363636363636fe0000000000000000;
          0x1818181818f818f80000000000000000; 0x00000000000000f81818181818181818].

(** Characters 192 to 199. *)
Definition font_c0 : list Z :=
  glyphs [0x181818181818181f0000000000000000; 0x18181818181818ff0000000000000000;
          0x00000000000000ff1818181818181818; 0x181818181818181f1818181818181818;
          0x00000000000000ff0000000000000000; 0x18181818181818ff1818181818181818;
          0x18181818181f181f1818181818181818; 0x36363636363636373636363636363636].

(** Characters 200 to 207. *)
Definition font_c8 : list Z :=
  glyphs [0x363636363637303f0000000000000000; 0x00000000003f30373636363636363636;
          0x3636363636f700ff0000000000000000; 0x0000000000ff00f73636363636363636;
          0x36363636363730373636363636363636; 0x0000000000ff00ff0000000000000000;
          0x3636363636f700f73636363636363636; 0x1818181818ff00ff0000000000000000].

(** Characters 208 to 215. *)
Definition font_d0 : list Z :=
  glyphs [0x36363636363636ff0000000000000000; 0x0000000000ff00ff1818181818181818;
          0x00000000000000ff3636363636363636; 0x363636363636363f0000000000000000;
          0x18181818181f181f0000000000000000; 0x00000000001f181f1818181818181818;
          0x000000000000003f3636363636363636; 0x36363636363636ff3636363636363636].

(** Characters 216 to 223. *)
Definition font_d8 : list Z :=
  glyphs [0x1818181818ff18ff1818181818181818; 0x18181818181818f80000000000000000;
          0x000000000000001f1818181818181818; 0xffffffffffffffffffffffffffffffff;
          0x00000000000000ffffffffffffffffff; 0xf0f0f0f0f0f0f0f0f0f0f0f0f0f0f0f0;
          0x0f0f0f0f0f0f0f0f0f0f0f0f0f0f0f0f; 0xffffffffffffff000000000000000000].

(** Characters 224 to 231. *)
Definition font_e0 : list Z :=
  glyphs [0x000000000076dcd8d8d8dc7600000000; 0x000078ccccccd8ccc6c6c6cc00000000;
          0x0000fec6c6c0c0c0c0c0c0c000000000; 0x0000000000fe6c6c6c6c6c6c00000000;
          0x0000fec6603018183060c6fe00000000; 0x00000000007ed8d8d8d8d87000000000;
          0x00000000006666666666667c6060c000; 0x0000000076dc18181818181800000000].

(** Characters 232 to 239. *)
Definition font_e8 : list Z :=
  glyphs [0x00007e183c666666663c187e00000000; 0x0000386cc6c6fec6c6c66c3800000000;
          0x0000386cc6c6c66c6c6c6cee00000000; 0x00001e30180c3e666666663c00000000;
          0x00000000007edbdbdb7e000000000000; 0x00000003067edbdbf37e60c000000000;
          0x00001c3060607c606060301c00000000; 0x0000007cc6c6c6c6c6c6c6c600000000].

(** Characters 240 to 247. *)
Definition font_f0 : list Z :=
  glyphs [0x00000000fe0000fe0000fe0000000000; 0x0000000018187e181800007e00000000;
          0x00000030180c060c1830007e00000000; 0x0000000c18306030180c007e00000000;
          0x00000e1b1b1818181818181818181818; 0x181818181818181818d8d8d870000000;
          0x000000000018007e0018000000000000; 0x000000000076dc0076dc000000000000].

(** Characters 248 to 255. *)
Definition font_f8 : list Z :=
  glyphs [0x00386c6c380000000000000000000000; 0x00000000000000181800000000000000;
          0x00000000000000180000000000000000; 0x000f0c0c0c0c0cec6c6c3c1c00000000;
          0x006c3636363636000000000000000000; 0x003c660c18327e000000000000000000;
          0x000000007e7e7e7e7e7e7e0000000000; 0x00000000000000000000000000000000].

Definition font_data : list Z :=
  font_00 ++ font_08 ++ font_10 ++ font_18 ++ font_20 ++ font_28 ++ font_30 ++ font_38 ++
  font_40 ++ font_48 ++ font_50 ++ font_58 ++ font_60 ++ font_68 ++ font_70 ++ font_78 ++
  font_80 ++ font_88 ++ font_90 ++ font_98 ++ font_a0 ++ font_a8 ++ font_b0 ++ font_b8 ++
  font_c0 ++ font_c8 ++ font_d0 ++ font_d8 ++ font_e0 ++ font_e8 ++ font_f0 ++ font_f8.

(** The rows of a character's glyph. *)
Definition glyph (c : Z) : list Z := take 16 (drop (Z.to_nat (c * 16)) font_data).

(** The characters from the exclamation mark to the tilde. *)
Definition visible_chars : list Z := seqZ 33 94.

Lemma font_data_length : length font_data = 4096%nat.
Proof. vm_compute. reflexivity. Qed.

(** A row is a byte. *)
Lemma font_data_bytes : Forall (fun b => 0 <= b < 256) font_data.
Proof. apply (bool_decide_unpack _). vm_compute. exact I. Qed.

(** The space is empty, and so is the character 0. *)
Lemma glyph_space : glyph 32 = replicate 16 0.
Proof. vm_compute. reflexivity. Qed.

(** No two visible characters look alike, and none is empty. *)
Lemma glyph_distinct : NoDup (map glyph (32 :: visible_chars)).
Proof. apply (bool_decide_unpack _). vm_compute. exact I. Qed.

Lemma glyph_inj c d : 32 <= c < 127 -> 32 <= d < 127 -> glyph c = glyph d -> c = d.
Proof.
  intros Hc Hd E. pose proof glyph_distinct as Hnd. assert (32 :: visible_chars = seqZ 32 95) as El by reflexivity. rewrite El in Hnd.
  assert (forall x, 32 <= x < 127 -> seqZ 32 95 !! Z.to_nat (x - 32) = Some x) as Hlk.
  { intros x Hx. rewrite lookup_seqZ_lt by lia. f_equal. lia. }
  assert (Z.to_nat (c - 32) = Z.to_nat (d - 32)); [|lia].
  eapply (NoDup_lookup _ _ _ (glyph c) Hnd); rewrite list_lookup_fmap; [by rewrite Hlk|by rewrite Hlk, E].
Qed.
