(* ===== verification/Efifb.v ===== *)
(** * The frame buffer console

    kernel/dev/efifb.c and kernel/dev/console.c.  The frame buffer is the list
    of its bytes; a pixel is a 32-bit word, and a store outside the frame
    buffer is a fault.  The console is specified by a grid of characters. *)

From stdpp Require Import base numbers list gmap.
From Stdlib Require Import ZArith Lia.
From S2P Require Import Prelude Pages Mmu Vmm Wire Font.

(** ** efifb.c *)

(** [fb_mem] are the bytes at [fb_address]. *)
Record efifb_framebuffer := mk_fb {
  fb_address : Z;
  fb_width : Z;
  fb_height : Z;
  fb_pitch : Z;
  fb_bpp : Z;
  fb_wc : Z;
  fb_hc : Z;
  cursor_x : Z;
  cursor_y : Z;
  gfx_mode : bool;
  fb_mem : list Z;
}.

Definition set_cursor (x y : Z) (fb : efifb_framebuffer) : efifb_framebuffer :=
  mk_fb (fb_address fb) (fb_width fb) (fb_height fb) (fb_pitch fb) (fb_bpp fb) (fb_wc fb) (fb_hc fb) x y (gfx_mode fb) (fb_mem fb).
Definition set_fb_mem (m : list Z) (fb : efifb_framebuffer) : efifb_framebuffer :=
  mk_fb (fb_address fb) (fb_width fb) (fb_height fb) (fb_pitch fb) (fb_bpp fb) (fb_wc fb) (fb_hc fb) (cursor_x fb) (cursor_y fb) (gfx_mode fb) m.
Definition set_gfx (b : bool) (fb : efifb_framebuffer) : efifb_framebuffer :=
  mk_fb (fb_address fb) (fb_width fb) (fb_height fb) (fb_pitch fb) (fb_bpp fb) (fb_wc fb) (fb_hc fb) (cursor_x fb) (cursor_y fb) b (fb_mem fb).

(** Bytes stored at an offset. *)
Definition put_bytes (m : list Z) (off : Z) (bytes : list Z) : outcome (list Z) :=
  if (0 <=? off) && (off + zlen bytes <=? zlen m)
  then Ok (take (Z.to_nat off) m ++ bytes ++ drop (Z.to_nat off + length bytes) m) else Fault.

Definition put_word (m : list Z) (off v : Z) : outcome (list Z) := put_bytes m off (le32 v).

Definition foreground : Z := 0xBFBFBF.

(** The inner loop of [efifb_putchar]: pixels [x], [x + 1], ... of a row. *)
Fixpoint draw_row (n : nat) (m : list Z) (ptr bits mask x : Z) : outcome (list Z) :=
  match n with
  | O => Ok m
  | S n =>
      let* m := put_word m (ptr + 4 * x) (if has bits mask then foreground else 0) in
      draw_row n m ptr bits (Z.shiftr mask 1) (x + 1)
  end.

(** The outer loop: [font_ptr] is an index of [font_data]. *)
Fixpoint draw_rows (n : nat) (m : list Z) (pitch ptr font_ptr : Z) : outcome (list Z) :=
  match n with
  | O => Ok m
  | S n =>
      let* bits := aget font_data font_ptr in
      let* m := draw_row 8 m ptr bits (Z.shiftl 1 7) 0 in
      draw_rows n m pitch (ptr + pitch) (font_ptr + 1)
  end.

(** The loops that clear the last line: [width] words of 16 rows. *)
Fixpoint clear_row (n : nat) (m : list Z) (ptr : Z) : outcome (list Z) :=
  match n with
  | O => Ok m
  | S n => let* m := put_word m ptr 0 in clear_row n m (ptr + 4)
  end.

Fixpoint clear_rows (n : nat) (width : nat) (m : list Z) (pitch ptr : Z) : outcome (list Z) :=
  match n with
  | O => Ok m
  | S n => let* m := clear_row width m ptr in clear_rows n width m pitch (ptr + pitch)
  end.

(** [memcpy] goes forwards, so it copies the bytes as they were ([KString.memcpy_correct]). *)
Definition efifb_check_scroll (fb : efifb_framebuffer) : outcome efifb_framebuffer :=
  let fb := if fb_wc fb <=? cursor_x fb then set_cursor 0 (u32 (cursor_y fb + 1)) fb else fb in
  if fb_hc fb <=? cursor_y fb then
    let sz := u64 (u32 (u32 (fb_hc fb - 1) * 16) * fb_pitch fb) in
    let* lines := rdbytes (fb_mem fb) (u64 (16 * fb_pitch fb)) sz in
    let* m := put_bytes (fb_mem fb) 0 lines in
    let* m := clear_rows 16 (Z.to_nat (fb_width fb)) m (fb_pitch fb) sz in
    Ok (set_cursor 0 (u32 (fb_hc fb - 1)) (set_fb_mem m fb))
  else Ok fb.

(** The character is a [char]: the upper half indexes the font from below. *)
Definition efifb_putchar (fb : efifb_framebuffer) (ch : Z) : outcome efifb_framebuffer :=
  let c := s8 ch in
  if c =? 13 then Ok (set_cursor 0 (cursor_y fb) fb)
  else if c =? 10 then efifb_check_scroll (set_cursor 0 (u32 (cursor_y fb + 1)) fb)
  else
    let '(fb, c, no_advance) :=
      if c =? 0x7f then
        if 1 <=? cursor_x fb then (set_cursor (cursor_x fb - 1) (cursor_y fb) fb, 32, true) else (fb, 32, false)
      else (fb, c, false) in
    let x := u32 (cursor_x fb * 8) in
    let y := u32 (cursor_y fb * 16) in
    let* m := draw_rows 16 (fb_mem fb) (fb_pitch fb) (u64 (y * fb_pitch fb + u32 (x * fb_bpp fb))) (c * 16) in
    let fb := set_fb_mem m fb in
    let fb := if no_advance then fb else set_cursor (u32 (cursor_x fb + 1)) (cursor_y fb) fb in
    efifb_check_scroll fb.

(** The loop of [efifb_write]: it ends with the string or at a NUL. *)
Fixpoint efifb_write_loop (fb : efifb_framebuffer) (s : list Z) : outcome efifb_framebuffer :=
  match s with
  | [] => Ok fb
  | c :: s => if c =? 0 then Ok fb else let* fb := efifb_putchar fb c in efifb_write_loop fb s
  end.

Definition efifb_write (fb : efifb_framebuffer) (s : list Z) : outcome efifb_framebuffer :=
  if gfx_mode fb then Ok fb else efifb_write_loop fb s.

(** ** The device *)

Definition efifb_file_write (fb : efifb_framebuffer) (buffer : list Z) : outcome (ret * efifb_framebuffer) :=
  let* fb :=
    if gfx_mode fb then let* m := put_bytes (fb_mem fb) 0 buffer in Ok (set_fb_mem m fb)
    else efifb_write fb buffer in
  Ok (RVal (zlen buffer), fb).

Definition FBIOCGETINFO : Z := 1.

Record fbinfo_t := mk_fbinfo { info_width : Z; info_height : Z; info_pitch : Z; info_bpp : Z }.

(** The structure goes to the address [arg], which is not checked. *)
Definition efifb_ioctl (fb : option efifb_framebuffer) (op : Z) : ret * option fbinfo_t :=
  match fb with
  | None => (RErr ENODEV, None)
  | Some fb =>
      if op =? FBIOCGETINFO then (RVal 0, Some (mk_fbinfo (fb_width fb) (fb_height fb) (fb_pitch fb) (fb_bpp fb)))
      else (RErr EINVAL, None)
  end.

Definition efifb_open (fb : option efifb_framebuffer) : ret * option efifb_framebuffer :=
  match fb with None => (RErr ENODEV, None) | Some fb => (RVal 0, Some (set_gfx true fb)) end.

Definition efifb_close (fb : option efifb_framebuffer) : ret * option efifb_framebuffer :=
  match fb with None => (RErr ENODEV, None) | Some fb => (RVal 0, Some (set_gfx false fb)) end.

(** What [efifb_init] computes; [bpp] is in bits before. *)
Definition efifb_geometry (fb : efifb_framebuffer) : efifb_framebuffer :=
  mk_fb (u64 (fb_address fb + VM_DMAP_BASE)) (fb_width fb) (fb_height fb) (fb_pitch fb) (u32 (fb_bpp fb + 7) / 8)
    (u32 (fb_width fb / 8)) (u32 (fb_height fb / 16)) 0 0 false (fb_mem fb).

(** It maps the frame buffer in the kernel's address space, of root [table]. *)
Definition efifb_init {St} `{PA : PageAllocator St} (m : mmu_state (St := St)) (table : Z) (fb : efifb_framebuffer) : outcome (efifb_framebuffer * mmu_state) :=
  let* m := mmu_map_range m table (fb_address fb) (u64 (fb_address fb + VM_DMAP_BASE)) (u64 (fb_height fb * fb_pitch fb))
              (Z.lor (Z.lor PROT_READ PROT_WRITE) PROT_WRITECOMBINE) 0 in
  Ok (efifb_geometry fb, m).

(** [mmu_root] is the root of the object's address space. *)
Definition efifb_mmap {St} `{PA : PageAllocator St} (m : mmu_state (St := St)) (mmu_root : Z) (fb : option efifb_framebuffer) (vm : vm_object) : outcome (ret * vm_object * mmu_state) :=
  match fb with
  | None => Ok (RErr ENODEV, vm, m)
  | Some fb =>
      let vm := mk_object (o_base vm) (o_length vm) (o_prot vm) (Z.lor (o_flags vm) VM_FLAG_DEVICE) (o_file vm) (o_offset vm) in
      let* m := mmu_map_range m mmu_root (u64 (fb_address fb - VM_DMAP_BASE)) (o_base vm) (o_length vm) (Z.lor (o_prot vm) PROT_WRITECOMBINE) 0 in
      Ok (RVal 0, vm, m)
  end.

(** ** console.c *)

Definition console_write_internal (fb : efifb_framebuffer) (data : list Z) : outcome efifb_framebuffer := efifb_write fb data.

Definition console_write (fb : efifb_framebuffer) (buffer : list Z) : outcome (ret * efifb_framebuffer) :=
  let* fb := console_write_internal fb buffer in
  Ok (RVal (zlen buffer), fb).

(** ** A console of characters *)

(** Rows of cells, and where the next character goes; nothing is known of a
    cell that is [None]. *)
Record console := mk_console { rows : list (list (option Z)); col : Z; row : Z }.

Definition blank_row (wc : nat) : list (option Z) := replicate wc (Some 32).

Definition unknown_console (wc hc : nat) : console := mk_console (replicate hc (replicate wc None)) 0 0.

(** Past the right edge the next line begins, past the bottom the text moves up. *)
Definition settle (wc : nat) (t : console) : console :=
  let t := if Z.of_nat wc <=? col t then mk_console (rows t) 0 (row t + 1) else t in
  if zlen (rows t) <=? row t then mk_console (tail (rows t) ++ [blank_row wc]) 0 (zlen (rows t) - 1) else t.

Definition write_cell (t : console) (c : Z) : list (list (option Z)) :=
  alter (fun r => <[Z.to_nat (col t) := Some c]> r) (Z.to_nat (row t)) (rows t).

(** Carriage return, newline, rubout and other characters. *)
Definition type_char (wc : nat) (t : console) (c : Z) : console :=
  if c =? 13 then mk_console (rows t) 0 (row t)
  else if c =? 10 then settle wc (mk_console (rows t) 0 (row t + 1))
  else if (c =? 127) && (1 <=? col t) then
    let t := mk_console (rows t) (col t - 1) (row t) in settle wc (mk_console (write_cell t 32) (col t) (row t))
  else settle wc (mk_console (write_cell t (if c =? 127 then 32 else c)) (col t + 1) (row t)).

Fixpoint type_text (wc : nat) (t : console) (s : list Z) : console :=
  match s with [] => t | c :: s => if c =? 0 then t else type_text wc (type_char wc t c) s end.

(** The cell of a console. *)
Definition cell (t : console) (x y : Z) : option Z := r ← rows t !! Z.to_nat y; mjoin (r !! Z.to_nat x).

(** The pixel at [x], [y]: its four bytes. *)
Definition pixel (pitch : Z) (m : list Z) (x y : Z) : list Z := take 4 (drop (Z.to_nat (y * pitch + 4 * x)) m).

(** The colour of a pixel of a glyph. *)
Definition glyph_colour (c x y : Z) : Z :=
  match glyph c !! Z.to_nat y with
  | Some bits => if Z.testbit bits (7 - x) then foreground else 0
  | None => 0
  end.

(** The geometry of a frame buffer with pixels of four bytes. *)
Record geometry_ok (fb : efifb_framebuffer) : Prop := {
  go_bpp : fb_bpp fb = 4;
  go_wc : 0 < fb_wc fb;
  go_hc : 0 < fb_hc fb;
  go_width : 8 * fb_wc fb <= fb_width fb;
  go_height : 16 * fb_hc fb <= fb_height fb;
  go_pitch : 4 * fb_width fb <= fb_pitch fb;
  go_mem : zlen (fb_mem fb) = fb_height fb * fb_pitch fb;
  go_size : fb_height fb * fb_pitch fb < 2 ^ 32;
}.

(** The frame buffer shows the characters of the console. *)
Record shows (fb : efifb_framebuffer) (t : console) : Prop := {
  ds_geometry : geometry_ok fb;
  ds_rows : zlen (rows t) = fb_hc fb;
  ds_cols : Forall (fun r => zlen r = fb_wc fb) (rows t);
  ds_x : cursor_x fb = col t;
  ds_y : cursor_y fb = row t;
  ds_pixels : forall x y, 0 <= x < 8 * fb_wc fb -> 0 <= y < 16 * fb_hc fb ->
    forall c, cell t (x / 8) (y / 16) = Some c ->
    pixel (fb_pitch fb) (fb_mem fb) x y = le32 (glyph_colour c (x mod 8) (y mod 16));
}.

(** ... and its cursor is on the screen. *)
Definition displays (fb : efifb_framebuffer) (t : console) : Prop :=
  shows fb t /\ 0 <= col t < fb_wc fb /\ 0 <= row t < fb_hc fb.

(** ** Painting *)

Section painting.
Context (pitch W H : Z) (Hp : 4 * W <= pitch) (HW : 0 < W) (HH : 0 < H).

(** [m'] is [m] with the pixels of [g] painted. *)
Definition paints (m m' : list Z) (g : Z -> Z -> option Z) : Prop :=
  zlen m' = zlen m /\
  forall x y, 0 <= x < W -> 0 <= y < H ->
    pixel pitch m' x y = match g x y with Some v => le32 v | None => pixel pitch m x y end.

Lemma paints_refl m g : (forall x y, g x y = None) -> paints m m g.
Proof. intros Hg. split; [done|]. intros x y _ _. by rewrite Hg. Qed.

Lemma paints_trans m m1 m2 g1 g2 g :
  paints m m1 g1 -> paints m1 m2 g2 ->
  (forall x y, 0 <= x < W -> 0 <= y < H -> g x y = match g2 x y with Some v => Some v | None => g1 x y end) ->
  paints m m2 g.
Proof.
  intros [E1 H1] [E2 H2] Hg. split; [congruence|]. intros x y Hx Hy.
  rewrite H2, Hg by done. destruct (g2 x y); [done|]. by apply H1.
Qed.

Lemma put_bytes_Ok m off bytes :
  0 <= off -> off + zlen bytes <= zlen m ->
  put_bytes m off bytes = Ok (take (Z.to_nat off) m ++ bytes ++ drop (Z.to_nat off + length bytes) m).
Proof.
  intros. unfold put_bytes. destruct (Z.leb_spec 0 off); [|lia]. by destruct (Z.leb_spec (off + zlen bytes) (zlen m)); [|lia].
Qed.

Lemma put_bytes_length m off bytes m' : put_bytes m off bytes = Ok m' -> zlen m' = zlen m.
Proof.
  unfold put_bytes. destruct (Z.leb_spec 0 off); [|done].
  destruct (Z.leb_spec (off + zlen bytes) (zlen m)); simpl; [|done]. intros [= <-].
  unfold zlen in *. rewrite !length_app, length_take, length_drop. lia.
Qed.

(** The bytes elsewhere stay. *)
Lemma put_bytes_lookup m off bytes m' (i : nat) :
  put_bytes m off bytes = Ok m' ->
  m' !! i = if (off <=? Z.of_nat i) && (Z.of_nat i <? off + zlen bytes) then bytes !! (i - Z.to_nat off)%nat else m !! i.
Proof.
  unfold put_bytes. destruct (Z.leb_spec 0 off); [|done].
  destruct (Z.leb_spec (off + zlen bytes) (zlen m)); simpl; [|done]. intros [= <-]. unfold zlen in *.
  destruct (Z.leb_spec off (Z.of_nat i)); simpl.
  - rewrite lookup_app_r by (rewrite length_take; lia). rewrite length_take, Nat.min_l by lia.
    destruct (Z.ltb_spec (Z.of_nat i) (off + Z.of_nat (length bytes))).
    + by rewrite lookup_app_l by lia.
    + rewrite lookup_app_r by lia. rewrite lookup_drop. f_equal. lia.
  - rewrite lookup_app_l by (rewrite length_take; lia). by rewrite lookup_take_lt by lia.
Qed.

Lemma pixel_far x y x' y' :
  0 <= x < W -> 0 <= y -> 0 <= x' < W -> 0 <= y' -> (x, y) <> (x', y') ->
  y * pitch + 4 * x + 4 <= y' * pitch + 4 * x' \/ y' * pitch + 4 * x' + 4 <= y * pitch + 4 * x.
Proof.
  intros Hx Hy Hx' Hy' Hne. destruct (Z.lt_trichotomy y y') as [|[->|]]; [left; nia| |right; nia].
  assert (x <> x') by congruence. lia.
Qed.

Lemma put_pixel m x y v :
  H * pitch <= zlen m -> 0 <= x < W -> 0 <= y < H ->
  exists m', put_word m (y * pitch + 4 * x) v = Ok m' /\
    paints m m' (fun x' y' => if (x' =? x) && (y' =? y) then Some v else None).
Proof.
  intros Hm Hx Hy. assert (y * pitch + 4 * x + 4 <= H * pitch) by nia. assert (0 <= y * pitch) by nia.
  destruct (put_word m (y * pitch + 4 * x) v) as [m'| | |] eqn:E;
    try (exfalso; unfold put_word in E; rewrite put_bytes_Ok in E by (change (zlen (le32 v)) with 4; lia); done).
  exists m'. split; [done|]. unfold put_word in E. split; [by eapply put_bytes_length|].
  pose proof (fun i => put_bytes_lookup m _ _ _ i E) as Hl. change (zlen (le32 v)) with 4 in Hl.
  intros x' y' Hx' Hy'. assert (0 <= y' * pitch) by nia. apply list_eq. intros k. unfold pixel.
  destruct (decide (k < 4)%nat) as [Hk|Hk].
  2:{ destruct (Z.eqb_spec x' x), (Z.eqb_spec y' y); simpl; rewrite ?(lookup_take_ge _ 4 k) by lia; try done.
      symmetry. apply lookup_ge_None. simpl. lia. }
  rewrite lookup_take_lt, lookup_drop, Hl by lia.
  destruct (decide ((x, y) = (x', y'))) as [[= <- <-]|Hne].
  - rewrite !Z.eqb_refl. simpl. destruct (Z.leb_spec (y * pitch + 4 * x) (Z.of_nat (Z.to_nat (y * pitch + 4 * x) + k))); [|lia].
    destruct (Z.ltb_spec (Z.of_nat (Z.to_nat (y * pitch + 4 * x) + k)) (y * pitch + 4 * x + 4)); [|lia]. simpl. f_equal. lia.
  - assert ((x' =? x) && (y' =? y) = false) as ->.
    { destruct (Z.eqb_spec x' x), (Z.eqb_spec y' y); try done. congruence. }
    rewrite lookup_take_lt, lookup_drop by lia.
    destruct (pixel_far x y x' y') as [Hf|Hf]; try lia; [done| |];
      destruct (Z.leb_spec (y * pitch + 4 * x) (Z.of_nat (Z.to_nat (y' * pitch + 4 * x') + k)));
      destruct (Z.ltb_spec (Z.of_nat (Z.to_nat (y' * pitch + 4 * x') + k)) (y * pitch + 4 * x + 4)); simpl; try done; lia.
Qed.

(** The rectangle of [w] by [h] pixels at [x0], [y0]. *)
Definition in_rect (x0 y0 w h x y : Z) : bool := (x0 <=? x) && (x <? x0 + w) && (y0 <=? y) && (y <? y0 + h).

Lemma in_rect_spec x0 y0 w h x y : in_rect x0 y0 w h x y = true <-> x0 <= x < x0 + w /\ y0 <= y < y0 + h.
Proof. unfold in_rect. rewrite !andb_true_iff, !Z.leb_le, !Z.ltb_lt. lia. Qed.

(** Two paintings of a rectangle in two parts. *)
Lemma paints_split m m1 m2 (r1 r2 r : Z -> Z -> bool) (f : Z -> Z -> Z) :
  paints m m1 (fun x y => if r1 x y then Some (f x y) else None) ->
  paints m1 m2 (fun x y => if r2 x y then Some (f x y) else None) ->
  (forall x y, r x y = true <-> r1 x y = true \/ r2 x y = true) ->
  paints m m2 (fun x y => if r x y then Some (f x y) else None).
Proof.
  intros P1 P2 Hr. apply (paints_trans _ _ _ _ _ _ P1 P2). intros x y _ _. specialize (Hr x y).
  destruct (r x y), (r1 x y), (r2 x y); naive_solver.
Qed.

Lemma paints_ext m m' g g' :
  paints m m' g -> (forall x y, 0 <= x < W -> 0 <= y < H -> g x y = g' x y) -> paints m m' g'.
Proof. intros [El Hg] He. split; [done|]. intros x y Hx Hy. by rewrite Hg, He. Qed.

Lemma draw_row_paints n : forall m x0 y0 bits x,
  H * pitch <= zlen m -> 0 <= x0 -> x0 + 8 <= W -> 0 <= y0 < H -> 0 <= x -> x + Z.of_nat n = 8 ->
  exists m', draw_row n m (y0 * pitch + 4 * x0) bits (Z.shiftr 128 x) x = Ok m' /\
    paints m m' (fun X Y => if in_rect (x0 + x) y0 (Z.of_nat n) 1 X Y
                            then Some (if Z.testbit bits (7 - (X - x0)) then foreground else 0) else None).
Proof.
  induction n as [|n IH]; intros m x0 y0 bits x Hm Hx0 Hw Hy0 Hx Hn; simpl.
  - exists m. split; [done|]. apply paints_refl. intros X Y. destruct (in_rect _ _ _ _ X Y) eqn:E; [|done].
    apply in_rect_spec in E. lia.
  - assert (Z.shiftr 128 x = 2 ^ (7 - x)) as Emask.
    { rewrite Z.shiftr_div_pow2 by lia. change 128 with (2 ^ 7). rewrite <- Z.pow_sub_r by lia. done. }
    rewrite Emask, has_pow2, <- Emask by lia.
    destruct (put_pixel m (x0 + x) y0 (if Z.testbit bits (7 - x) then foreground else 0)) as (m1 & E1 & P1); try lia.
    replace (y0 * pitch + 4 * x0 + 4 * x) with (y0 * pitch + 4 * (x0 + x)) by lia. rewrite E1. simpl.
    rewrite Z.shiftr_shiftr by lia.
    destruct (IH m1 x0 y0 bits (x + 1)) as (m2 & E2 & P2); try (destruct P1 as [El _]; lia).
    exists m2. split; [done|]. refine (paints_split _ _ _ _ _ _ _ (paints_ext _ _ _ _ P1 _) P2 _).
    + intros X Y _ _. simpl. instantiate (1 := fun X Y => (X =? x0 + x) && (Y =? y0)). simpl.
      destruct (Z.eqb_spec X (x0 + x)) as [->|]; simpl; [|done]. by replace (x0 + x - x0) with x by lia.
    + intros X Y. simpl. rewrite !in_rect_spec, andb_true_iff, !Z.eqb_eq. lia.
Qed.

(** A glyph. *)
Lemma draw_rows_paints n : forall m x0 y0 c y,
  H * pitch <= zlen m -> 0 <= x0 -> x0 + 8 <= W -> 0 <= y0 -> y0 + 16 <= H -> 0 <= c < 256 -> 0 <= y -> y + Z.of_nat n = 16 ->
  exists m', draw_rows n m pitch ((y0 + y) * pitch + 4 * x0) (c * 16 + y) = Ok m' /\
    paints m m' (fun X Y => if in_rect x0 (y0 + y) 8 (Z.of_nat n) X Y then Some (glyph_colour c (X - x0) (Y - y0)) else None).
Proof.
  induction n as [|n IH]; intros m x0 y0 c y Hm Hx0 Hw Hy0 Hh Hc Hy Hn; cbn [draw_rows].
  - exists m. split; [done|]. apply paints_refl. intros X Y. destruct (in_rect _ _ _ _ X Y) eqn:E; [|done].
    apply in_rect_spec in E. lia.
  - destruct (aget_in font_data (c * 16 + y)) as (bits & Eb & Lb); [unfold zlen; rewrite font_data_length; lia|].
    rewrite Eb. cbn [outcome_bind]. change (Z.shiftl 1 7) with (Z.shiftr 128 0).
    destruct (draw_row_paints 8 m x0 (y0 + y) bits 0) as (m1 & E1 & P1); [lia..|].
    rewrite E1. cbn [outcome_bind].
    destruct (IH m1 x0 y0 c (y + 1)) as (m2 & E2 & P2); try (destruct P1 as [El _]; lia).
    replace ((y0 + y) * pitch + 4 * x0 + pitch) with ((y0 + (y + 1)) * pitch + 4 * x0) by lia.
    replace (c * 16 + y + 1) with (c * 16 + (y + 1)) by lia.
    exists m2. split; [done|]. refine (paints_split _ _ _ _ _ _ _ (paints_ext _ _ _ _ P1 _) P2 _).
    + intros X Y _ _. instantiate (1 := in_rect (x0 + 0) (y0 + y) (Z.of_nat 8) 1). cbn beta.
      destruct (in_rect (x0 + 0) (y0 + y) (Z.of_nat 8) 1 X Y) eqn:E; [|done]. apply in_rect_spec in E.
      assert (Y = y0 + y) as -> by lia. replace (y0 + y - y0) with y by lia. unfold glyph_colour, glyph.
      rewrite lookup_take_lt, lookup_drop by lia. replace (Z.to_nat (c * 16) + Z.to_nat y)%nat with (Z.to_nat (c * 16 + y)) by lia.
      by rewrite Lb.
    + intros X Y. simpl. rewrite !in_rect_spec. lia.
Qed.

Lemma clear_row_paints n : forall m x0 y0,
  H * pitch <= zlen m -> 0 <= x0 -> x0 + Z.of_nat n <= W -> 0 <= y0 < H ->
  exists m', clear_row n m (y0 * pitch + 4 * x0) = Ok m' /\
    paints m m' (fun X Y => if in_rect x0 y0 (Z.of_nat n) 1 X Y then Some 0 else None).
Proof.
  induction n as [|n IH]; intros m x0 y0 Hm Hx0 Hw Hy0; simpl.
  - exists m. split; [done|]. apply paints_refl. intros X Y. destruct (in_rect _ _ _ _ X Y) eqn:E; [|done].
    apply in_rect_spec in E. lia.
  - destruct (put_pixel m x0 y0 0) as (m1 & E1 & P1); [lia..|]. rewrite E1. simpl.
    replace (y0 * pitch + 4 * x0 + 4) with (y0 * pitch + 4 * (x0 + 1)) by lia.
    destruct (IH m1 (x0 + 1) y0) as (m2 & E2 & P2); try (destruct P1 as [El _]; lia).
    exists m2. split; [done|]. refine (paints_split _ _ _ _ _ _ (fun _ _ => 0) P1 P2 _).
    intros X Y. simpl. rewrite !in_rect_spec, andb_true_iff, !Z.eqb_eq. lia.
Qed.

Lemma clear_rows_paints n : forall m y0,
  H * pitch <= zlen m -> 0 <= y0 -> y0 + Z.of_nat n <= H ->
  exists m', clear_rows n (Z.to_nat W) m pitch (y0 * pitch) = Ok m' /\
    paints m m' (fun X Y => if in_rect 0 y0 W (Z.of_nat n) X Y then Some 0 else None).
Proof.
  induction n as [|n IH]; intros m y0 Hm Hy0 Hh; cbn [clear_rows].
  - exists m. split; [done|]. apply paints_refl. intros X Y. destruct (in_rect _ _ _ _ X Y) eqn:E; [|done].
    apply in_rect_spec in E. lia.
  - destruct (clear_row_paints (Z.to_nat W) m 0 y0) as (m1 & E1 & P1); try lia.
    replace (y0 * pitch + 4 * 0) with (y0 * pitch) in E1 by lia. rewrite E1. cbn [outcome_bind].
    replace (y0 * pitch + pitch) with ((y0 + 1) * pitch) by lia.
    destruct (IH m1 (y0 + 1)) as (m2 & E2 & P2); try (destruct P1 as [El _]; lia).
    exists m2. split; [done|]. refine (paints_split _ _ _ _ _ _ (fun _ _ => 0) P1 P2 _).
    intros X Y. simpl. rewrite !in_rect_spec. lia.
Qed.

End painting.

(** ** The console on the frame buffer *)

Lemma glyph_colour_blank x y : glyph_colour 32 x y = 0.
Proof.
  unfold glyph_colour. rewrite glyph_space. destruct (replicate 16 0 !! Z.to_nat y) eqn:E; [|done].
  apply lookup_replicate in E as [-> _]. by rewrite Z.testbit_0_l.
Qed.

Lemma cell_scrolled t wc x y :
  0 < zlen (rows t) -> 0 <= x < Z.of_nat wc -> 0 <= y < zlen (rows t) ->
  cell (mk_console (tail (rows t) ++ [blank_row wc]) 0 (zlen (rows t) - 1)) x y =
    if y =? zlen (rows t) - 1 then Some 32 else cell t x (y + 1).
Proof.
  unfold cell, zlen. intros Hr Hx Hy. cbn [rows]. assert (length (tail (rows t)) = length (rows t) - 1)%nat as El by (destruct (rows t); simpl; lia).
  destruct (Z.eqb_spec y (Z.of_nat (length (rows t)) - 1)).
  - rewrite lookup_app_r by lia. replace (Z.to_nat y - length (tail (rows t)))%nat with 0%nat by lia. simpl.
    unfold blank_row. by rewrite lookup_replicate_2 by lia.
  - rewrite lookup_app_l by lia. rewrite lookup_tail. by replace (S (Z.to_nat y)) with (Z.to_nat (y + 1)) by lia.
Qed.

Lemma cell_written t c x y cl rw :
  0 <= col t -> 0 <= row t < zlen (rows t) -> Forall (fun r => col t < zlen r) (rows t) -> 0 <= x -> 0 <= y ->
  cell (mk_console (write_cell t c) cl rw) x y = if (x =? col t) && (y =? row t) then Some c else cell t x y.
Proof.
  unfold cell, write_cell, zlen. intros Hc Hr Hf Hx Hy. cbn [rows].
  destruct (lookup_lt_is_Some_2 (rows t) (Z.to_nat (row t))) as [r Er]; [lia|].
  destruct (Z.eqb_spec y (row t)) as [->|].
  - rewrite list_lookup_alter_eq, Er. simpl. pose proof (Forall_lookup_1 _ _ _ _ Hf Er) as Hl. cbn beta in Hl. destruct (Z.eqb_spec x (col t)) as [->|].
    + simpl. by rewrite list_lookup_insert_eq by lia.
    + simpl. by rewrite list_lookup_insert_ne by lia.
  - rewrite list_lookup_alter_ne by lia. by rewrite andb_false_r.
Qed.

(** The scroll of the memory. *)
Lemma scroll_pixels pitch m sz m1 x y lines :
  0 <= pitch -> 0 <= x -> 0 <= y -> rdbytes m (16 * pitch) sz = Ok lines -> put_bytes m 0 lines = Ok m1 ->
  y * pitch + 4 * x + 4 <= sz -> pixel pitch m1 x y = pixel pitch m x (y + 16).
Proof.
  intros Hp Hx Hy El Em Hin. assert (0 <= y * pitch) by nia. unfold rdbytes in El.
  destruct (Z.leb_spec 0 (16 * pitch)); [|done]. destruct (Z.leb_spec 0 sz); [|done].
  destruct (Z.leb_spec (16 * pitch + sz) (zlen m)); simpl in El; [|done]. injection El as <-.
  apply list_eq. intros k. unfold pixel. destruct (decide (k < 4)%nat); [|by rewrite !lookup_take_ge by lia].
  rewrite !lookup_take_lt, !lookup_drop by lia. rewrite (put_bytes_lookup _ _ _ _ _ Em).
  assert (zlen (take (Z.to_nat sz) (drop (Z.to_nat (16 * pitch)) m)) = sz) as ->
    by (unfold zlen in *; rewrite length_take, length_drop; lia).
  destruct (Z.leb_spec 0 (Z.of_nat (Z.to_nat (y * pitch + 4 * x) + k))); [|lia].
  destruct (Z.ltb_spec (Z.of_nat (Z.to_nat (y * pitch + 4 * x) + k)) (0 + sz)); [|lia]. simpl.
  rewrite lookup_take_lt, lookup_drop by lia. f_equal. lia.
Qed.

(** The text moves up by a line of characters. *)
Lemma scroll_shows fb t :
  shows fb t ->
  exists lines m m', rdbytes (fb_mem fb) (u64 (16 * fb_pitch fb)) (u64 (u32 (u32 (fb_hc fb - 1) * 16) * fb_pitch fb)) = Ok lines /\
    put_bytes (fb_mem fb) 0 lines = Ok m /\
    clear_rows 16 (Z.to_nat (fb_width fb)) m (fb_pitch fb) (u64 (u32 (u32 (fb_hc fb - 1) * 16) * fb_pitch fb)) = Ok m' /\
    displays (set_cursor 0 (u32 (fb_hc fb - 1)) (set_fb_mem m' fb))
      (mk_console (tail (rows t) ++ [blank_row (Z.to_nat (fb_wc fb))]) 0 (zlen (rows t) - 1)).
Proof.
  intros [G Hrows Hcols Hx Hy Hpix]. pose proof G as [Gb Gw Gh Gwd Ght Gp Gm Gs].
  assert (fb_hc fb < 2 ^ 28) by nia. assert (0 < fb_pitch fb) by lia.
  assert (16 * fb_hc fb * fb_pitch fb <= fb_height fb * fb_pitch fb) by nia.
  assert (0 <= (fb_hc fb - 1) * 16 * fb_pitch fb) by nia. assert (16 * fb_pitch fb <= 16 * fb_hc fb * fb_pitch fb) by nia.
  rewrite (u32_small (fb_hc fb - 1)), (u32_small ((fb_hc fb - 1) * 16)), !u64_small by lia.
  set (sz := (fb_hc fb - 1) * 16 * fb_pitch fb) in *.
  destruct (rdbytes (fb_mem fb) (16 * fb_pitch fb) sz) as [lines| | |] eqn:El;
    try (exfalso; revert El; unfold rdbytes; destruct (Z.leb_spec 0 (16 * fb_pitch fb)); [|lia];
         destruct (Z.leb_spec 0 sz); [|lia]; destruct (Z.leb_spec (16 * fb_pitch fb + sz) (zlen (fb_mem fb))); [done|nia]).
  assert (zlen lines = sz) as Hl.
  { revert El. unfold rdbytes. destruct (Z.leb_spec 0 (16 * fb_pitch fb)); [|done]. destruct (Z.leb_spec 0 sz); [|done].
    destruct (Z.leb_spec (16 * fb_pitch fb + sz) (zlen (fb_mem fb))); [|done]. intros [= <-].
    unfold zlen in *. rewrite length_take, length_drop. lia. }
  destruct (put_bytes (fb_mem fb) 0 lines) as [m| | |] eqn:Em;
    try (exfalso; rewrite put_bytes_Ok in Em by (rewrite ?Hl; lia); done).
  pose proof (put_bytes_length _ _ _ _ Em) as Lm.
  destruct (clear_rows_paints (fb_pitch fb) (fb_width fb) (fb_height fb) Gp) with (n := 16%nat) (m := m) (y0 := (fb_hc fb - 1) * 16)
    as (m' & Ec & Lm' & P); [lia..|].
  exists lines, m, m'. split_and!; [done..|]. split; [|simpl; lia].
  split; cbn [set_cursor set_fb_mem fb_wc fb_hc fb_pitch fb_mem cursor_x cursor_y rows col row]; try done; try lia.
  - split; cbn; try done; lia.
  - rewrite zlen_app, <- Hrows. change (zlen [_]) with 1. unfold zlen in *. destruct (rows t); simpl in *; lia.
  - apply Forall_app. split; [destruct (rows t); [done|by inversion Hcols]|]. constructor; [|done].
    unfold zlen, blank_row. rewrite length_replicate. lia.
  - intros x y Hxr Hyr c Hcell. rewrite P by lia.
    assert (0 <= x / 8 < fb_wc fb) by (split; [apply Z.div_pos; lia|apply Z.div_lt_upper_bound; lia]).
    assert (0 <= y / 16 < fb_hc fb) by (split; [apply Z.div_pos; lia|apply Z.div_lt_upper_bound; lia]).
    rewrite cell_scrolled in Hcell by lia. pose proof (Z.div_mod y 16). pose proof (Z.mod_pos_bound y 16).
    destruct (in_rect _ _ _ _ x y) eqn:Er.
    + apply in_rect_spec in Er. destruct (Z.eqb_spec (y / 16) (zlen (rows t) - 1)); [|lia]. injection Hcell as <-.
      by rewrite glyph_colour_blank.
    + destruct (Z.eqb_spec (y / 16) (zlen (rows t) - 1)).
      { exfalso. apply not_true_iff_false in Er. apply Er. apply in_rect_spec. lia. }
      rewrite (scroll_pixels (fb_pitch fb) (fb_mem fb) sz m x y lines) by (done || nia).
      replace (y / 16 + 1) with ((y + 16) / 16) in Hcell by (change (y + 16) with (y + 1 * 16); rewrite Z.div_add; lia).
      rewrite (Hpix x (y + 16) ltac:(lia) ltac:(lia) c Hcell). do 2 f_equal.
      change (y + 16) with (y + 1 * 16). by rewrite Z_mod_plus_full.
Qed.

(** [efifb_check_scroll] settles the console. *)
Lemma check_scroll_displays fb t :
  shows fb t -> 0 <= col t <= fb_wc fb -> 0 <= row t <= fb_hc fb ->
  exists fb', efifb_check_scroll fb = Ok fb' /\ displays fb' (settle (Z.to_nat (fb_wc fb)) t) /\
    fb_wc fb' = fb_wc fb /\ gfx_mode fb' = gfx_mode fb.
Proof.
  intros Sh Hc Hr. pose proof (ds_geometry _ _ Sh) as [Gb Gw Gh Gwd Ght Gp Gm Gs].
  assert (fb_hc fb < 2 ^ 28) by nia. unfold efifb_check_scroll, settle. rewrite Z2Nat.id by lia. rewrite (ds_x _ _ Sh).
  set (fb0 := if fb_wc fb <=? col t then set_cursor 0 (u32 (cursor_y fb + 1)) fb else fb).
  set (t0 := if fb_wc fb <=? col t then mk_console (rows t) 0 (row t + 1) else t).
  assert (shows fb0 t0 /\ fb_wc fb0 = fb_wc fb /\ fb_hc fb0 = fb_hc fb /\ gfx_mode fb0 = gfx_mode fb /\
    0 <= col t0 < fb_wc fb /\ 0 <= row t0) as (S0 & Ew & Eh & Eg & Hc0 & Hr0).
  { subst fb0 t0. destruct Sh as [G Hrows Hcols Hx Hy Hpix].
    destruct (Z.leb_spec (fb_wc fb) (col t)); [|by split_and!; try lia].
    split_and!; simpl; try done; try lia. split; try done. simpl. rewrite u32_small by lia. lia. }
  clearbody fb0 t0. rewrite (ds_y _ _ S0), <- (ds_rows _ _ S0). destruct (Z.leb_spec (zlen (rows t0)) (row t0)) as [Hs|Hs].
  - destruct (scroll_shows fb0 t0 S0) as (lines & m & m' & E1 & E2 & E3 & D).
    rewrite <- (ds_rows _ _ S0) in E1, E3, D. rewrite E1. cbn [outcome_bind]. rewrite E2. cbn [outcome_bind]. rewrite E3. cbn [outcome_bind].
    eexists. split; [done|]. rewrite Ew in D. by split_and!.
  - eexists. split; [done|]. pose proof (ds_rows _ _ S0). unfold displays. split_and!; try done; lia.
Qed.

(** A character drawn at the cursor. *)
Lemma draw_shows fb t c x' :
  displays fb t -> 0 <= c < 256 ->
  exists m, draw_rows 16 (fb_mem fb) (fb_pitch fb)
      (u64 (u32 (cursor_y fb * 16) * fb_pitch fb + u32 (u32 (cursor_x fb * 8) * fb_bpp fb))) (c * 16) = Ok m /\
    shows (set_cursor x' (cursor_y fb) (set_fb_mem m fb)) (mk_console (write_cell t c) x' (row t)).
Proof.
  intros ([G Hrows Hcols Hx Hy Hpix] & Hc & Hr) Hch. pose proof G as [Gb Gw Gh Gwd Ght Gp Gm Gs].
  assert (8 * fb_wc fb * 4 <= fb_pitch fb) by lia. assert (fb_pitch fb <= fb_height fb * fb_pitch fb) by nia.
  assert (fb_height fb <= fb_height fb * fb_pitch fb) by nia.
  assert ((row t * 16 + 1) * fb_pitch fb <= fb_height fb * fb_pitch fb) by nia. assert (0 <= row t * 16 * fb_pitch fb) by nia.
  rewrite Hx, Hy, Gb, (u32_small (row t * 16)), (u32_small (col t * 8)), u32_small, u64_small by lia.
  destruct (draw_rows_paints (fb_pitch fb) (fb_width fb) (fb_height fb) Gp) with
    (n := 16%nat) (m := fb_mem fb) (x0 := col t * 8) (y0 := row t * 16) (c := c) (y := 0) as (m & E & L & P); [lia..|].
  exists m. split; [rewrite <- E; f_equal; lia|].
  split; cbn [set_cursor set_fb_mem fb_wc fb_hc fb_pitch fb_mem cursor_x cursor_y rows col row]; try done; try lia.
  - split; cbn; try done; lia.
  - unfold write_cell, zlen. by rewrite length_alter.
  - unfold write_cell. apply Forall_alter; [done|]. intros r _ Hl. by rewrite zlen_insert.
  - intros x y Hxr Hyr d Hcell. rewrite P by lia.
    assert (0 <= x / 8) by (apply Z.div_pos; lia). assert (0 <= y / 16) by (apply Z.div_pos; lia).
    pose proof (Z.div_mod x 8). pose proof (Z.mod_pos_bound x 8). pose proof (Z.div_mod y 16). pose proof (Z.mod_pos_bound y 16).
    rewrite cell_written in Hcell; [|lia|lia| |lia|lia].
    2:{ apply (Forall_impl _ _ _ Hcols). intros r Hl. cbn beta in Hl |- *. lia. }
    destruct (in_rect _ _ _ _ x y) eqn:Er.
    + apply in_rect_spec in Er. assert (x / 8 = col t) as Ex by lia. assert (y / 16 = row t) as Ey by lia.
      rewrite Ex, Ey, !Z.eqb_refl in Hcell. injection Hcell as <-. do 2 f_equal; lia.
    + apply Hpix; [done..|]. destruct (Z.eqb_spec (x / 8) (col t)), (Z.eqb_spec (y / 16) (row t)); simpl in Hcell; try done.
      exfalso. apply not_true_iff_false in Er. apply Er. apply in_rect_spec. lia.
Qed.

(** [efifb_putchar] types a character. *)
Lemma putchar_displays fb t c :
  displays fb t -> 0 <= c < 128 ->
  exists fb', efifb_putchar fb c = Ok fb' /\ displays fb' (type_char (Z.to_nat (fb_wc fb)) t c) /\
    fb_wc fb' = fb_wc fb /\ gfx_mode fb' = gfx_mode fb.
Proof.
  intros D Hch. pose proof D as ([G Hrows Hcols Hx Hy Hpix] & Hc & Hr). pose proof G as [Gb Gw Gh Gwd Ght Gp Gm Gs].
  assert (fb_hc fb < 2 ^ 28) by nia. assert (fb_wc fb < 2 ^ 28) by nia.
  unfold efifb_putchar, type_char. replace (s8 c) with c by (symmetry; apply sint_small; lia).
  destruct (c =? 13). { eexists. split; [done|]. by split_and!. }
  destruct (c =? 10).
  { apply (check_scroll_displays (set_cursor 0 (u32 (cursor_y fb + 1)) fb)); [|simpl; lia..].
    split; try done. simpl. rewrite u32_small by lia. lia. }
  destruct ((c =? 127) && (1 <=? col t)) eqn:Erub; [|].
  - apply andb_true_iff in Erub as [-> Hcol]. rewrite Hx, Hcol. apply Z.leb_le in Hcol. cbn zeta.
    destruct (draw_shows (set_cursor (col t - 1) (cursor_y fb) fb) (mk_console (rows t) (col t - 1) (row t)) 32 (col t - 1))
      as (m & E & Sh); [|lia|].
    { split; [|simpl; lia]. by split. }
    cbn [set_cursor fb_mem fb_pitch fb_bpp cursor_x cursor_y] in E |- *. rewrite E. cbn [outcome_bind].
    apply (check_scroll_displays _ _ Sh); simpl; lia.
  - set (d := if c =? 127 then 32 else c).
    destruct (draw_shows fb t d (col t + 1) D) as (m & E & Sh); [subst d; destruct (c =? 127); lia|].
    assert ((if c =? 127 then if 1 <=? cursor_x fb then (set_cursor (cursor_x fb - 1) (cursor_y fb) fb, 32, true) else (fb, 32, false)
             else (fb, c, false)) = (fb, d, false)) as ->.
    { subst d. destruct (c =? 127); [|done]. rewrite Hx. simpl in Erub. by rewrite Erub. }
    cbn beta iota zeta. rewrite E. cbn [outcome_bind set_fb_mem cursor_x cursor_y].
    rewrite Hx, u32_small by lia. apply (check_scroll_displays _ _ Sh); simpl; lia.
Qed.

Lemma write_loop_displays s : forall fb t,
  displays fb t -> Forall (fun c => 0 <= c < 128) s ->
  exists fb', efifb_write_loop fb s = Ok fb' /\ displays fb' (type_text (Z.to_nat (fb_wc fb)) t s) /\
    fb_wc fb' = fb_wc fb /\ gfx_mode fb' = gfx_mode fb.
Proof.
  induction s as [|c s IH]; intros fb t D Hs; simpl; [by eauto|]. inversion_clear Hs as [|? ? Hc Hs'].
  destruct (c =? 0); [by eauto|]. destruct (putchar_displays fb t c D Hc) as (fb1 & E1 & D1 & W1 & G1).
  rewrite E1. simpl. destruct (IH fb1 _ D1 Hs') as (fb2 & E2 & D2 & W2 & G2). rewrite W1 in D2.
  exists fb2. split_and!; try done; congruence.
Qed.

(** Nothing is known of what the firmware left on the screen. *)
Lemma init_displays fb :
  geometry_ok (efifb_geometry fb) ->
  displays (efifb_geometry fb) (unknown_console (Z.to_nat (fb_wc (efifb_geometry fb))) (Z.to_nat (fb_hc (efifb_geometry fb)))).
Proof.
  intros G. pose proof G as [_ Gw Gh _ _ _ _ _]. set (fb0 := efifb_geometry fb) in *. assert (cursor_x fb0 = 0 /\ cursor_y fb0 = 0) as [Ex Ey] by done.
  clearbody fb0. split; [|simpl; lia]. split; try done; cbn [unknown_console rows col row]; try done.
  - unfold zlen. rewrite length_replicate. lia.
  - apply Forall_replicate. unfold zlen. rewrite length_replicate. lia.
  - intros x y _ _ c Hc. unfold cell in Hc. cbn [unknown_console rows] in Hc.
    destruct (replicate (Z.to_nat (fb_hc fb0)) _ !! _) as [r|] eqn:E; [|done]. apply lookup_replicate in E as [-> _].
    simpl in Hc. destruct (replicate _ None !! Z.to_nat (x / 8)) as [d|] eqn:E; [|done]. apply lookup_replicate in E as [-> _]. done.
Qed.

(** The glyph of a byte is known from its pixels. *)
Lemma glyph_colour_inj c d :
  0 <= c < 256 -> 0 <= d < 256 ->
  (forall x y, 0 <= x < 8 -> 0 <= y < 16 -> le32 (glyph_colour c x y) = le32 (glyph_colour d x y)) -> glyph c = glyph d.
Proof.
  intros Hc Hd Hg. apply list_eq. intros y.
  assert (forall e, 0 <= e < 256 -> length (glyph e) = 16%nat) as Hlen.
  { intros e He. unfold glyph. rewrite length_take, length_drop, font_data_length. lia. }
  destruct (decide (y < 16)%nat); [|by rewrite !lookup_ge_None_2 by (rewrite Hlen by done; lia)].
  destruct (lookup_lt_is_Some_2 (glyph c) y) as [b Eb]; [rewrite Hlen by done; lia|].
  destruct (lookup_lt_is_Some_2 (glyph d) y) as [b' Eb']; [rewrite Hlen by done; lia|]. rewrite Eb, Eb'. f_equal.
  assert (forall e r, glyph e !! y = Some r -> 0 <= r < 2 ^ 8) as Hbyte.
  { intros e r E. apply (Forall_lookup_1 (fun b => 0 <= b < 256) (glyph e) y); [|done]. apply Forall_take, Forall_drop, font_data_bytes. }
  apply Z.bits_inj'. intros k Hk. destruct (Z.lt_ge_cases k 8); [|by rewrite !(testbit_small 8) by eauto].
  specialize (Hg (7 - k) (Z.of_nat y) ltac:(lia) ltac:(lia)). unfold glyph_colour in Hg. rewrite !Nat2Z.id, Eb, Eb' in Hg.
  replace (7 - (7 - k)) with k in Hg by lia. by destruct (Z.testbit b k), (Z.testbit b' k).
Qed.

(** The pixels determine what a cell shows. *)
Lemma displays_cell fb t t' x y c c' :
  displays fb t -> displays fb t' -> 0 <= x < fb_wc fb -> 0 <= y < fb_hc fb ->
  cell t x y = Some c -> cell t' x y = Some c' -> 32 <= c < 127 -> 32 <= c' < 127 -> c = c'.
Proof.
  intros [Sh _] [Sh' _] Hx Hy Ec Ec' Hc Hc'. apply glyph_inj; [done..|]. apply glyph_colour_inj; [lia..|].
  intros gx gy Hgx Hgy. pose proof (ds_pixels _ _ Sh (x * 8 + gx) (y * 16 + gy) ltac:(lia) ltac:(lia) c) as P.
  pose proof (ds_pixels _ _ Sh' (x * 8 + gx) (y * 16 + gy) ltac:(lia) ltac:(lia) c') as P'.
  assert (forall a b n, 0 <= b < n -> (a * n + b) / n = a /\ (a * n + b) mod n = b) as Hdm.
  { intros a b n Hb. split; [rewrite Z.div_add_l, Z.div_small; lia|]. rewrite Z.add_comm, Z_mod_plus_full, Z.mod_small; lia. }
  destruct (Hdm x gx 8) as [Ex Ex']; [done|]. destruct (Hdm y gy 16) as [Ey Ey']; [done|].
  rewrite Ex, Ex', Ey, Ey' in P, P'. rewrite <- P, <- P'; done.
Qed.

(** C16: the console on the frame buffer refines a grid of characters: a write
    of ASCII text to a frame buffer in text mode that shows a console returns
    the length, without a store outside the frame buffer, and leaves it showing
    the console with the text typed, every newline, carriage return, rubout,
    wrap and scroll included; and the pixels can be read back, since any other
    console the frame buffer shows has the same printable characters. *)
Theorem console_write_refines fb t s :
  displays fb t -> gfx_mode fb = false -> Forall (fun c => 0 <= c < 128) s ->
  exists fb', console_write fb s = Ok (RVal (zlen s), fb') /\
    displays fb' (type_text (Z.to_nat (fb_wc fb)) t s) /\
    forall t' x y c c', displays fb' t' -> 0 <= x < fb_wc fb' -> 0 <= y < fb_hc fb' -> 32 <= c < 127 -> 32 <= c' < 127 ->
      cell t' x y = Some c' -> cell (type_text (Z.to_nat (fb_wc fb)) t s) x y = Some c -> c' = c.
Proof.
  intros D G Hs. destruct (write_loop_displays s fb t D Hs) as (fb' & E & D' & W & _).
  exists fb'. unfold console_write, console_write_internal, efifb_write. rewrite G, E.
  split_and!; try done. eauto using displays_cell.
Qed.

(** A screen of 4 by 2 characters, with whatever the firmware left on it. *)
Definition small_screen : efifb_framebuffer := mk_fb 0x80000000 32 32 128 32 0 0 0 0 true (replicate (32 * 128) 0xAA).

(** "ab", a newline and "cdefg": the second line wraps and the text moves up. *)
Definition small_text : list Z := [97; 98; 10; 99; 100; 101; 102; 103].

Lemma small_screen_geometry : geometry_ok (efifb_geometry small_screen).
Proof. split; vm_compute; try done; reflexivity. Qed.

Lemma console_write_refines_witness :
  exists fb', console_write (efifb_geometry small_screen) small_text = Ok (RVal 8, fb') /\
    displays fb' (mk_console [[Some 99; Some 100; Some 101; Some 102]; [Some 103; Some 32; Some 32; Some 32]] 1 1).
Proof.
  destruct (console_write_refines (efifb_geometry small_screen) (unknown_console 4 2) small_text) as (fb' & E & D & _).
  - apply (init_displays small_screen small_screen_geometry).
  - reflexivity.
  - repeat constructor; done.
  - exists fb'. split; [exact E|exact D].
Defined.

(** A character of the upper half is a negative index of the font. *)
Lemma efifb_putchar_negative fb c : 128 <= c < 256 -> efifb_putchar fb c = Fault.
Proof.
  intros Hc. assert (s8 c = c - 256) as Es.
  { unfold s8, sint, wrap. cbv zeta. rewrite Z.mod_small by lia. destruct (Z.ltb_spec c (2 ^ (8 - 1))); lia. }
  unfold efifb_putchar. rewrite Es. destruct (Z.eqb_spec (c - 256) 13); [lia|]. destruct (Z.eqb_spec (c - 256) 10); [lia|].
  destruct (Z.eqb_spec (c - 256) 127); [lia|]. cbn [draw_rows]. unfold aget.
  destruct (Z.leb_spec 0 ((c - 256) * 16)); [lia|]. done.
Qed.
