(* ===== verification/Boot.v ===== *)
(** * What the boot loader passes

    kernel/arch/x86_64/boot.c: the answers of the boot loader become
    [boot_info], which the memory map, the tables of the firmware, the console
    and the initial file system start from.  An answer that is missing is
    [None]; a string is the list of its bytes with its NUL. *)

From stdpp Require Import base numbers list gmap.
From Stdlib Require Import ZArith Lia.
From S2P Require Import Prelude Pmm Mmu Wire Acpi Font Efifb.

(** [lf_mem] are the bytes at the address. *)
Record limine_framebuffer := mk_limine_fb { lf_address : Z; lf_width : Z; lf_height : Z; lf_pitch : Z; lf_bpp : Z; lf_mem : list Z }.

Record limine_file := mk_limine_file { lm_address : Z; lm_size : Z; lm_string : list Z }.

(** The responses of the requests. *)
Record limine_responses := mk_responses {
  memmap_response : option (list limine_entry);
  kaddr_response : option Z;
  rsdp_response : option Z;
  framebuffer_response : option (list limine_framebuffer);
  module_response : option (list limine_file);
}.

Record boot_info_t := mk_boot_info {
  bi_memory_map : memory_map;
  kload_addr : Z;
  initramfs_address : Z;
  initramfs_size : Z;
  rsdp_address : Z;
  bi_fb : efifb_framebuffer;
}.

(** [boot_info] is in zeroed memory. *)
Definition no_fb : efifb_framebuffer := mk_fb 0 0 0 0 0 0 0 0 0 false [].

Definition fb_size (fb : limine_framebuffer) : Z := u64 (u64 (lf_width fb * lf_height fb) * lf_bpp fb).

Definition fb_of (fb : limine_framebuffer) : efifb_framebuffer :=
  mk_fb (u64 (lf_address fb - VM_DMAP_BASE)) (lf_width fb) (lf_height fb) (lf_pitch fb) (lf_bpp fb) 0 0 0 0 false (lf_mem fb).

Fixpoint framebuffer_loop (fbs : list limine_framebuffer) (max_fb : Z) (fb : efifb_framebuffer) : efifb_framebuffer :=
  match fbs with
  | [] => fb
  | f :: fbs => if max_fb <? fb_size f then framebuffer_loop fbs (fb_size f) (fb_of f) else framebuffer_loop fbs max_fb fb
  end.

Definition parse_framebuffer_info (r : limine_responses) : efifb_framebuffer :=
  match framebuffer_response r with None => no_fb | Some fbs => framebuffer_loop fbs 0 no_fb end.

(** "initramfs" *)
Definition initramfs_name : list Z := [105; 110; 105; 116; 114; 97; 109; 102; 115].

(** The loop of [find_initramfs]: the address and size, or zeros. *)
Fixpoint module_loop (mods : list limine_file) : outcome (Z * Z) :=
  match mods with
  | [] => Ok (0, 0)
  | file :: mods =>
      let* c := sig_cmp (lm_string file) (initramfs_name ++ [0]) 9 in
      if c =? 0 then Ok (lm_address file, lm_size file) else module_loop mods
  end.

Definition find_initramfs (r : limine_responses) : outcome (Z * Z) :=
  match module_response r with
  | None | Some [] => Panic
  | Some mods =>
      let* (address, size) := module_loop mods in
      if (address =? 0) || (size =? 0) then Panic else Ok (address, size)
  end.

Definition parse_bootloader_info (r : limine_responses) : outcome boot_info_t :=
  match memmap_response r with
  | None => Panic
  | Some entries =>
      let map := parse_memory_map (mk_memmap [] 0) entries in
      match kaddr_response r with
      | None => Panic
      | Some physical_base =>
          match rsdp_response r with
          | None => Panic
          | Some address =>
              let fb := parse_framebuffer_info r in
              let* (initramfs, size) := find_initramfs r in
              Ok (mk_boot_info map physical_base initramfs size (u64 (address + VM_DMAP_BASE)) fb)
          end
      end
  end.

(** ** The frame buffer *)

(** The first of the largest, if any is larger than [max]. *)
Lemma framebuffer_loop_spec fbs : forall max fb,
  (framebuffer_loop fbs max fb = fb /\ Forall (fun f => fb_size f <= max) fbs) \/
  exists before f after, fbs = before ++ f :: after /\ framebuffer_loop fbs max fb = fb_of f /\ max < fb_size f /\
    Forall (fun g => fb_size g < fb_size f) before /\ Forall (fun g => fb_size g <= fb_size f) after.
Proof.
  induction fbs as [|f fbs IH]; intros max fb; [by left|]. simpl. destruct (Z.ltb_spec max (fb_size f)) as [Hlt|Hge].
  - right. destruct (IH (fb_size f) (fb_of f)) as [[E Hall]|(b & g & a & -> & E & Hg & Hb & Ha)].
    + by exists [], f, fbs.
    + exists (f :: b), g, a. split_and!; try done; [lia|by constructor].
  - destruct (IH max fb) as [[E Hall]|(b & g & a & -> & E & Hg & Hb & Ha)].
    + left. split; [done|]. constructor; [lia|done].
    + right. exists (f :: b), g, a. split_and!; try done. constructor; [lia|done].
Qed.

(** ** The modules *)

(** A name that begins with "initramfs". *)
Definition is_initramfs (file : limine_file) : bool := bool_decide (take 9 (lm_string file) = initramfs_name).

(** A string of bytes that ends with a NUL. *)
Definition c_string (s : list Z) : Prop := exists t, s = t ++ [0] /\ 0 ∉ t.

Lemma sig_cmp_prefix n : forall s name, (n <= length name)%nat -> 0 ∉ take n name -> c_string s ->
  exists c, sig_cmp s name n = Ok c /\ (c = 0 <-> take n s = take n name).
Proof.
  induction n as [|n IH]; intros s name Hn Hz Hs; [by exists 0|]. destruct Hs as (t & -> & Ht).
  destruct name as [|y name]; [simpl in Hn; lia|]. destruct t as [|x t]; simpl in *.
  - exists (0 - y). split; [done|]. split; [intros; exfalso; apply Hz; assert (y = 0) as -> by lia; set_solver|].
    intros [= <- _]. set_solver.
  - destruct (Z.eqb_spec x 0) as [->|Hx]; [set_solver|]. simpl. destruct (Z.eqb_spec x y) as [->|Hxy].
    + destruct (IH (t ++ [0]) name) as (c & -> & Hc); [lia|set_solver|exists t; set_solver|].
      exists c. split; [done|]. rewrite Hc. split; [by intros ->|by intros [= ->]].
    + exists (x - y). split; [done|]. split; [lia|by intros [= -> _]].
Qed.

Lemma module_loop_spec mods : Forall (fun m => c_string (lm_string m)) mods ->
  module_loop mods = Ok (match head (filter is_initramfs mods) with Some m => (lm_address m, lm_size m) | None => (0, 0) end).
Proof.
  induction 1 as [|m mods Hm _ IH]; [done|]. cbn [module_loop].
  destruct (sig_cmp_prefix 9 (lm_string m) (initramfs_name ++ [0])) as (c & -> & Hc); [simpl; lia| |done|].
  { simpl. set_unfold. lia. }
  cbn [outcome_bind]. rewrite filter_cons. unfold is_initramfs at 1.
  destruct (Z.eqb_spec c 0) as [E|E].
  - rewrite decide_True by (apply Is_true_true, bool_decide_eq_true; by apply Hc). done.
  - rewrite decide_False by (intros H; apply Is_true_true, bool_decide_eq_true in H; by apply E, Hc). exact IH.
Qed.

(** ** The whole *)

(** Without an initial file system the kernel stops; otherwise the first module
    with its name is used, and of the frame buffers the first of the largest. *)
Theorem parse_bootloader_info_correct r entries base rsdp mods :
  memmap_response r = Some entries -> kaddr_response r = Some base -> rsdp_response r = Some rsdp ->
  module_response r = Some mods -> Forall (fun m => c_string (lm_string m)) mods ->
  parse_bootloader_info r =
    match head (filter is_initramfs mods) with
    | Some m =>
        if (lm_address m =? 0) || (lm_size m =? 0) then Panic
        else Ok (mk_boot_info (parse_memory_map (mk_memmap [] 0) entries) base (lm_address m) (lm_size m)
                  (u64 (rsdp + VM_DMAP_BASE)) (parse_framebuffer_info r))
    | None => Panic
    end.
Proof.
  intros E1 E2 E3 E4 Hs. unfold parse_bootloader_info, find_initramfs. rewrite E1, E2, E3, E4.
  destruct mods as [|m mods]; [done|]. rewrite module_loop_spec by done. cbn [outcome_bind].
  destruct (head (filter is_initramfs (m :: mods))) as [f|]; [|done].
  by destruct ((lm_address f =? 0) || (lm_size f =? 0)).
Qed.

(** What the boot loader promises of a frame buffer: pixels of 32 bits, rows
    that fit the pitch, and memory for all of them. *)
Record offered_ok (f : limine_framebuffer) : Prop := {
  of_bpp : lf_bpp f = 32;
  of_width : 8 <= lf_width f;
  of_height : 16 <= lf_height f;
  of_pitch : 4 * lf_width f <= lf_pitch f;
  of_mem : zlen (lf_mem f) = lf_height f * lf_pitch f;
  of_small : lf_height f * lf_pitch f < 2 ^ 32;
}.

Lemma offered_geometry f : offered_ok f -> geometry_ok (efifb_geometry (fb_of f)).
Proof.
  intros [Hb Hw Hh Hp Hm Hs]. assert (lf_width f < 2 ^ 32) by nia. assert (lf_height f < 2 ^ 32) by nia.
  assert (0 < lf_width f / 8 < 2 ^ 32) by (split; [apply Z.div_str_pos; lia|apply Z.div_lt_upper_bound; lia]).
  assert (0 < lf_height f / 16 < 2 ^ 32) by (split; [apply Z.div_str_pos; lia|apply Z.div_lt_upper_bound; lia]).
  pose proof (Z.mul_div_le (lf_width f) 8). pose proof (Z.mul_div_le (lf_height f) 16).
  split; cbn; rewrite ?Hb, ?u32_small by lia; try done; lia.
Qed.

Lemma offered_size f : offered_ok f -> 0 < fb_size f.
Proof.
  intros [Hb Hw Hh Hp Hm Hs]. unfold fb_size. rewrite Hb. assert (0 < lf_width f * lf_height f) by nia.
  assert (4 * (lf_width f * lf_height f) <= lf_height f * lf_pitch f) by nia. rewrite !u64_small by (rewrite ?u64_small; lia). lia.
Qed.

(** From the boot loader to the screen: if every frame buffer it offers is as
    promised, and there is one, text written after the start is on the first of
    the largest ones. *)
Theorem boot_console r fbs s : framebuffer_response r = Some fbs -> fbs <> [] -> Forall offered_ok fbs ->
  Forall (fun c => 0 <= c < 128) s ->
  exists before f after fb', fbs = before ++ f :: after /\
    Forall (fun g => fb_size g < fb_size f) before /\ Forall (fun g => fb_size g <= fb_size f) after /\
    console_write (efifb_geometry (parse_framebuffer_info r)) s = Ok (RVal (zlen s), fb') /\
    displays fb' (type_text (Z.to_nat (lf_width f / 8)) (unknown_console (Z.to_nat (lf_width f / 8)) (Z.to_nat (lf_height f / 16))) s).
Proof.
  intros Er Hne Hok Hs. unfold parse_framebuffer_info. rewrite Er.
  destruct (framebuffer_loop_spec fbs 0 no_fb) as [[_ Hall]|(b & f & a & -> & -> & _ & Hb & Ha)].
  { exfalso. destruct fbs as [|f fbs]; [done|]. inversion_clear Hok as [|? ? Hf _]. inversion_clear Hall as [|? ? Hle _].
    pose proof (offered_size f Hf). cbn beta in Hle. lia. }
  assert (offered_ok f) as Hf by (apply Forall_app in Hok as [_ Hok]; by inversion Hok).
  pose proof (offered_geometry f Hf) as G. destruct Hf as [Hbp Hw Hh Hp Hm Hsm].
  assert (fb_wc (efifb_geometry (fb_of f)) = lf_width f / 8) as Ew.
  { cbn. apply u32_small. split; [apply Z.div_pos; lia|apply Z.div_lt_upper_bound; nia]. }
  assert (fb_hc (efifb_geometry (fb_of f)) = lf_height f / 16) as Eh.
  { cbn. apply u32_small. split; [apply Z.div_pos; lia|apply Z.div_lt_upper_bound; nia]. }
  pose proof (init_displays _ G) as D. rewrite Ew, Eh in D.
  destruct (write_loop_displays s _ _ D Hs) as (fb' & E & D' & _). rewrite Ew in D'.
  exists b, f, a, fb'. split_and!; try done. unfold console_write, console_write_internal, efifb_write.
  change (gfx_mode (efifb_geometry (fb_of f))) with false. by rewrite E.
Qed.

(** Without a frame buffer the first character is stored outside any memory of
    the console. *)
Lemma no_framebuffer_faults r c : framebuffer_response r = None -> 32 <= c < 127 ->
  efifb_putchar (efifb_geometry (parse_framebuffer_info r)) c = Fault.
Proof.
  intros Er Hc. unfold parse_framebuffer_info. rewrite Er. unfold efifb_putchar.
  replace (s8 c) with c by (symmetry; apply sint_small; lia).
  destruct (Z.eqb_spec c 13); [lia|]. destruct (Z.eqb_spec c 10); [lia|]. destruct (Z.eqb_spec c 127); [lia|].
  cbn [draw_rows]. destruct (aget_in font_data (c * 16)) as (b & -> & _); [unfold zlen; rewrite font_data_length; lia|]. done.
Qed.

(** Two frame buffers and three modules. *)
Definition sample_responses : limine_responses :=
  mk_responses (Some [mk_limine 0x1000 0x8000 LIMINE_MEMMAP_USABLE]) (Some 0x200000) (Some 0xe0000)
    (Some [mk_limine_fb (VM_DMAP_BASE + 0x80000000) 16 16 64 32 (replicate (16 * 64) 7);
           mk_limine_fb (VM_DMAP_BASE + 0x90000000) 32 32 128 32 (replicate (32 * 128) 7)])
    (Some [mk_limine_file 0x5000 0x100 [97; 0]; mk_limine_file 0x6000 0x200 (initramfs_name ++ [46; 0]);
           mk_limine_file 0x7000 0x300 (initramfs_name ++ [0])]).

Example sample_boot_info :
  exists info, parse_bootloader_info sample_responses = Ok info /\
    initramfs_address info = 0x6000 /\ initramfs_size info = 0x200 /\ fb_address (bi_fb info) = 0x90000000.
Proof. eexists. split; [vm_compute; reflexivity|]. vm_compute. auto. Qed.
