(* ===== verification/Dhcp.v ===== *)
(** * The DHCP client

    userspace/dhcpcl/main.c as a tree of system calls: each node is a call
    with its arguments, and its branches are what the program does with the
    result and the bytes that the call stored.  What is printed is left out.
    Memory that the program never writes is an argument.  [errno] is in the
    result, and the program's own loop over the options takes fuel. *)

From stdpp Require Import base numbers list gmap sets.
From Stdlib Require Import ZArith Lia.
From S2P Require Import Prelude Sched Wait Device Dcache Lookup Vfs Vmm Wire Net Socket Irq.

Definition DHCP_OPCODE_REQUEST : Z := 1.
Definition DHCP_HTYPE_ETHER : Z := 1.
Definition DHCP_MAGIC : Z := 0x63825363.
Definition DHCP_OPT_PADDING : Z := 0.
Definition DHCP_OPT_SUBNET_MASK : Z := 1.
Definition DHCP_OPT_ROUTER : Z := 3.
Definition DHCP_OPT_DNS : Z := 6.
Definition DHCP_OPT_REQUESTED_IP : Z := 50.
Definition DHCP_OPT_LEASE_TIME : Z := 51.
Definition DHCP_OPT_MESSAGE_TYPE : Z := 53.
Definition DHCP_OPT_SERVER_ID : Z := 54.
Definition DHCP_OPT_PARAMETER_REQ : Z := 55.
Definition DHCP_OPT_END : Z := 255.
Definition DHCP_DISCOVER : Z := 1.
Definition DHCP_OFFER : Z := 2.
Definition DHCP_REQUEST : Z := 3.
Definition SIO_BINDDEVICE : Z := 1.
Definition SIO_GETHWADDR : Z := 2.
Definition SIO_SETIFADDR : Z := 3.
Definition SIO_SETIFMASK : Z := 4.
Definition SIO_ADDROUTE : Z := 5.

Definition htons (v : Z) : Z := bswap16 (u16 v).
Definition htonl (v : Z) : Z :=
  Z.lor (Z.lor (Z.shiftl (Z.land v 0xff) 24) (Z.shiftl (Z.land (Z.shiftr v 8) 0xff) 16))
    (Z.lor (Z.shiftl (Z.land (Z.shiftr v 16) 0xff) 8) (Z.land (Z.shiftr v 24) 0xff)).

(** ** The program as a tree of calls *)

Inductive call :=
  | Socket (domain type protocol : Z)
  | Bind (fd : Z) (addr : sockaddr_in)
  | IoctlName (fd op : Z) (name : list Z)
  | IoctlOut (fd op : Z)
  | IoctlAddr (fd op : Z) (addr : sockaddr_in)
  | IoctlRoute (fd op : Z) (route : rtentry)
  | Mmap (length : Z)
  | SendTo (fd : Z) (bytes : list Z) (dst : sockaddr_in)
  | RecvFrom (fd length : Z)
  | Close (fd : Z).

Inductive exit := Code (z : Z) | Errno (e : errno).

Inductive prog :=
  | Stop (o : outcome exit)
  | Call (c : call) (k : ret -> list Z -> prog).

(** A call after whose failure the program ends with 1. *)
Definition or_exit (c : call) (k : Z -> list Z -> prog) : prog :=
  Call c (fun r bytes => match r with RErr _ => Stop (Ok (Code 1)) | RVal v => if v <? 0 then Stop (Ok (Code 1)) else k v bytes end).

(** The value of a computation that may fault. *)
Definition must {A} (o : outcome A) (k : A -> prog) : prog :=
  match o with Ok a => k a | Panic => Stop Panic | Fault => Stop Fault | OutOfFuel => Stop OutOfFuel end.

(** ** Packets *)

Definition dhcp_packet_size : Z := 496.

(** Bytes stored at an offset of an object. *)
Definition poke (off : nat) (bytes mem : list Z) : list Z := take off mem ++ bytes ++ drop (off + length bytes) mem.

(** The stores into a [dhcp_packet_t] on the stack; the address fields, the
    names and the rest of the options keep what the stack held. *)
Definition fill_packet (stack hwaddr options : list Z) : list Z :=
  let p := poke 0 [DHCP_OPCODE_REQUEST; DHCP_HTYPE_ETHER; 6; 0] stack in
  let p := poke 4 (le32 0xDEADBEEF) p in
  let p := poke 8 (le16 0 ++ le16 0) p in
  let p := poke 28 hwaddr p in
  let p := poke 236 (le32 (htonl DHCP_MAGIC)) p in
  poke 240 options p.

Definition discover_options : list Z :=
  [DHCP_OPT_MESSAGE_TYPE; 1; DHCP_DISCOVER; DHCP_OPT_PARAMETER_REQ; 3; DHCP_OPT_DNS; DHCP_OPT_SUBNET_MASK; DHCP_OPT_ROUTER; DHCP_OPT_END].

(** The end marker of the request goes into the packet that was sent first. *)
Definition request_options (yiaddr : Z) : list Z := [DHCP_OPT_MESSAGE_TYPE; 1; DHCP_REQUEST; DHCP_OPT_REQUESTED_IP; 4] ++ le32 yiaddr.

(** The pointers of [dhcp_options_t] are offsets in the receive buffer. *)
Record dhcp_options := mk_options {
  subnet_mask : Z; server_addr : Z; dns_start : option Z; dns_end : option Z; router_start : option Z; router_end : option Z;
  lease_time : Z; msg_type : Z
}.

Definition options_offset : Z := 240.

(** The effect of the option at [optidx]. *)
Definition parse_option (buf : list Z) (optidx : Z) (o : dhcp_options) : outcome dhcp_options :=
  let* code := rd8 buf (options_offset + optidx) in
  let data := options_offset + optidx + 2 in
  let* len := rd8 buf (options_offset + optidx + 1) in
  if code =? DHCP_OPT_MESSAGE_TYPE then
    let* v := rd8 buf data in
    Ok (mk_options (subnet_mask o) (server_addr o) (dns_start o) (dns_end o) (router_start o) (router_end o) (lease_time o) v)
  else if code =? DHCP_OPT_SUBNET_MASK then
    let* v := rd32 buf data in
    Ok (mk_options v (server_addr o) (dns_start o) (dns_end o) (router_start o) (router_end o) (lease_time o) (msg_type o))
  else if code =? DHCP_OPT_ROUTER then
    Ok (mk_options (subnet_mask o) (server_addr o) (dns_start o) (dns_end o) (Some data) (Some (data + len)) (lease_time o) (msg_type o))
  else if code =? DHCP_OPT_SERVER_ID then
    let* v := rd32 buf data in
    Ok (mk_options (subnet_mask o) v (dns_start o) (dns_end o) (router_start o) (router_end o) (lease_time o) (msg_type o))
  else if code =? DHCP_OPT_LEASE_TIME then
    let* v := rd32 buf data in
    Ok (mk_options (subnet_mask o) (server_addr o) (dns_start o) (dns_end o) (router_start o) (router_end o) v (msg_type o))
  else if code =? DHCP_OPT_DNS then
    Ok (mk_options (subnet_mask o) (server_addr o) (Some data) (Some (data + len)) (router_start o) (router_end o) (lease_time o) (msg_type o))
  else Ok o.

(** A padding byte is met again and again. *)
Fixpoint options_loop (fuel : nat) (buf : list Z) (optidx : Z) (o : dhcp_options) : outcome dhcp_options :=
  if 256 <=? optidx then Ok o
  else match fuel with
  | O => OutOfFuel
  | S fuel =>
      let* code := rd8 buf (options_offset + optidx) in
      if code =? DHCP_OPT_PADDING then options_loop fuel buf optidx o
      else if code =? DHCP_OPT_END then Ok o
      else
        let* o := parse_option buf optidx o in
        let* len := rd8 buf (options_offset + optidx + 1) in
        options_loop fuel buf (optidx + (2 + len)) o
  end.

(** Every option takes two bytes, so 128 of them fill the packet. *)
Definition options_fuel : nat := 129.

(** ** main *)

Section main.

(** What the stack held: the two packets, the hardware address, the options
    and the ports of the addresses that only their other fields are used of. *)
Context (d_stack r_stack hw_stack : list Z) (o_stack : dhcp_options) (port_stack : Z).

Definition any_address (port addr : Z) : sockaddr_in := mk_sockaddr AF_INET (htons port) addr.

(** The receive buffer after [bytes] are stored at its start. *)
Definition received (recv_buf bytes : list Z) : list Z := poke 0 bytes recv_buf.

(** The checks of a reply; a wrong transaction id is only reported. *)
Definition reply_ok (ofr_s : Z) (buf : list Z) : outcome bool :=
  if ofr_s <? dhcp_packet_size - 256 then Ok false
  else let* magic := rd32 buf 236 in Ok (magic =? htonl DHCP_MAGIC).

Definition gateway_route (gateway : Z) : rtentry :=
  mk_rtentry (mk_sockaddr AF_INET 0 0) (mk_sockaddr AF_INET 0 gateway) (mk_sockaddr AF_INET 0 0) 1000 1500.

Definition local_route (address mask : Z) : rtentry :=
  mk_rtentry (mk_sockaddr AF_INET 0 (Z.land address mask)) (mk_sockaddr AF_INET 0 0) (mk_sockaddr AF_INET 0 mask) 1000 1500.

(** From the second reply on: the address is taken and the routes are added. *)
Definition configure (fd req_address req_mask req_gateway : Z) : prog :=
  or_exit (IoctlAddr fd SIO_SETIFADDR (mk_sockaddr AF_INET port_stack req_address)) (fun _ _ =>
  or_exit (IoctlAddr fd SIO_SETIFMASK (mk_sockaddr AF_INET port_stack req_mask)) (fun _ _ =>
  Call (IoctlRoute fd SIO_ADDROUTE (gateway_route req_gateway)) (fun r _ =>
  match r with
  | RErr e => Stop (Ok (Errno e))
  | RVal _ =>
      or_exit (IoctlRoute fd SIO_ADDROUTE (local_route req_address req_mask)) (fun _ _ =>
      Call (Close fd) (fun _ _ => Stop (Ok (Code 0))))
  end))).

(** From the first reply on. *)
Definition take_offer (fd : Z) (hwaddr recv_buf : list Z) (ofr_s : Z) : prog :=
  must (reply_ok ofr_s recv_buf) (fun ok =>
  if negb ok then Stop (Ok (Code 1))
  else
    must (options_loop options_fuel recv_buf 0 o_stack) (fun options =>
    if negb (msg_type options =? DHCP_OFFER) then Stop (Ok (Code 1))
    else
      must (rd32 recv_buf 16) (fun yiaddr =>
      must (let* p := deref (router_start options) in rd32 recv_buf p) (fun gateway =>
      or_exit (SendTo fd (fill_packet r_stack hwaddr (request_options yiaddr)) (any_address 67 INADDR_BROADCAST)) (fun _ _ =>
      or_exit (RecvFrom fd 0x1000) (fun ofr_s bytes =>
      must (reply_ok ofr_s (received recv_buf bytes)) (fun ok =>
      if negb ok then Stop (Ok (Code 1)) else configure fd yiaddr (subnet_mask options) gateway))))))).

(** The arguments after the name of the program. *)
Definition main (argv : list (list Z)) : prog :=
  match argv with
  | [] => Stop (Ok (Code 1))
  | interface :: _ =>
      or_exit (Socket AF_INET SOCK_DGRAM IPPROTO_UDP) (fun fd _ =>
      or_exit (Bind fd (any_address 68 INADDR_ANY)) (fun _ _ =>
      or_exit (IoctlName fd SIO_BINDDEVICE interface) (fun _ _ =>
      or_exit (IoctlOut fd SIO_GETHWADDR) (fun _ mac =>
      let hwaddr := poke 0 mac hw_stack in
      Call (Mmap 0x1000) (fun recv_buf zeros =>
      or_exit (SendTo fd (fill_packet d_stack hwaddr discover_options) (any_address 67 INADDR_BROADCAST)) (fun _ _ =>
      or_exit (RecvFrom fd 0x1000) (fun ofr_s bytes =>
      match recv_buf with
      | RErr _ => if ofr_s <? dhcp_packet_size - 256 then Stop (Ok (Code 1)) else Stop Fault
      | RVal _ => take_offer fd hwaddr (received zeros bytes) ofr_s
      end)))))))
  end.
End main.

(** The calls a program makes and how it ends, given the answers; [None] if
    the answers run out. *)
Fixpoint run (p : prog) (answers : list (ret * list Z)) : list call * option (outcome exit) :=
  match p with
  | Stop o => ([], Some o)
  | Call c k =>
      match answers with
      | [] => ([c], None)
      | (r, bytes) :: answers => let '(cs, o) := run (k r bytes) answers in (c :: cs, o)
      end
  end.

(** ** Offers *)

Record option_field := mk_option { op_code : Z; op_data : list Z }.

Definition option_bytes (o : option_field) : list Z := op_code o :: zlen (op_data o) :: op_data o.

(** The payload sizes of the options that the client looks into. *)
Definition option_ok (o : option_field) : Prop :=
  op_code o <> DHCP_OPT_PADDING /\ op_code o <> DHCP_OPT_END /\ zlen (op_data o) <= 255 /\
  (op_code o = DHCP_OPT_MESSAGE_TYPE -> exists v, op_data o = [v]) /\
  (op_code o ∈ [DHCP_OPT_SUBNET_MASK; DHCP_OPT_SERVER_ID; DHCP_OPT_LEASE_TIME] -> exists v, word v /\ op_data o = le32 v) /\
  (op_code o = DHCP_OPT_ROUTER -> exists v rest, word v /\ op_data o = le32 v ++ rest).

(** The payload of the last option with a code. *)
Definition last_option (code : Z) (os : list option_field) : option (list Z) := op_data <$> last (filter (fun o => op_code o = code) os).

(** What the client knows after the options [os] of the buffer. *)
Definition knows (buf : list Z) (os : list option_field) (o o' : dhcp_options) : Prop :=
  match last_option DHCP_OPT_MESSAGE_TYPE os with Some d => [msg_type o'] = d | None => msg_type o' = msg_type o end /\
  match last_option DHCP_OPT_SUBNET_MASK os with Some d => word (subnet_mask o') /\ le32 (subnet_mask o') = d | None => subnet_mask o' = subnet_mask o end /\
  match last_option DHCP_OPT_ROUTER os with
  | Some d => exists p v rest, router_start o' = Some p /\ rd32 buf p = Ok v /\ word v /\ d = le32 v ++ rest
  | None => router_start o' = router_start o
  end.

Lemma rd8_at pre v rest off : zlen pre = off -> rd8 (pre ++ v :: rest) off = Ok v.
Proof.
  intros <-. unfold rd8, aget, zlen. destruct (Z.leb_spec 0 (Z.of_nat (length pre))); [|lia].
  by rewrite Nat2Z.id, list_lookup_middle.
Qed.

Lemma last_option_cons code o os : last_option code (os ++ [o]) = if decide (op_code o = code) then Some (op_data o) else last_option code os.
Proof.
  unfold last_option. rewrite filter_app. destruct (decide (op_code o = code)).
  - rewrite filter_cons_True, filter_nil by done. by rewrite last_snoc.
  - rewrite filter_cons_False, filter_nil by done. by rewrite app_nil_r.
Qed.

(** One option of an offer. *)
Lemma parse_option_step pre f rest os idx o o' : option_ok f -> zlen pre = options_offset + idx ->
  knows (pre ++ option_bytes f ++ rest) os o o' ->
  exists o'', parse_option (pre ++ option_bytes f ++ rest) idx o' = Ok o'' /\ knows (pre ++ option_bytes f ++ rest) (os ++ [f]) o o''.
Proof.
  intros (_ & _ & _ & Hm & Hw & Hr) Hp (K1 & K2 & K3). set (buf := pre ++ option_bytes f ++ rest) in *.
  assert (rd8 buf (options_offset + idx) = Ok (op_code f)) as E1 by (by apply rd8_at).
  assert (buf = (pre ++ [op_code f]) ++ zlen (op_data f) :: op_data f ++ rest) as Eb1 by (unfold buf, option_bytes; by rewrite <- app_assoc).
  assert (buf = (pre ++ [op_code f; zlen (op_data f)]) ++ op_data f ++ rest) as Eb2 by (unfold buf, option_bytes; by rewrite <- app_assoc).
  assert (rd8 buf (options_offset + idx + 1) = Ok (zlen (op_data f))) as E2 by (rewrite Eb1; apply rd8_at; rewrite zlen_app, Hp; done).
  assert (zlen (pre ++ [op_code f; zlen (op_data f)]) = options_offset + idx + 2) as Hz by (rewrite zlen_app, Hp; done).
  unfold parse_option. rewrite E1, E2. cbn [outcome_bind]. unfold knows. rewrite !last_option_cons.
  assert (forall v r, word v -> op_data f = le32 v ++ r -> rd32 buf (options_offset + idx + 2) = Ok v) as Eword.
  { intros v r Hv E. rewrite Eb2. revert Hz. generalize (pre ++ [op_code f; zlen (op_data f)]). intros pre' Hz.
    rewrite E, <- app_assoc. by apply rd32_le32. }
  destruct (Z.eqb_spec (op_code f) DHCP_OPT_MESSAGE_TYPE) as [E|N1].
  { destruct (Hm E) as (v & Ev). assert (rd8 buf (options_offset + idx + 2) = Ok v) as ->.
    { rewrite Eb2. revert Hz. generalize (pre ++ [op_code f; zlen (op_data f)]). intros pre' Hz. rewrite Ev. by apply rd8_at. }
    cbn [outcome_bind]. eexists. split; [reflexivity|]. rewrite E, Ev. by split_and!. }
  destruct (Z.eqb_spec (op_code f) DHCP_OPT_SUBNET_MASK) as [E|N2].
  { destruct (Hw ltac:(rewrite E; set_solver)) as (v & Hv & Ev). rewrite (Eword v []) by (done || by rewrite app_nil_r).
    cbn [outcome_bind]. eexists. split; [reflexivity|]. rewrite E, Ev. by split_and!. }
  destruct (Z.eqb_spec (op_code f) DHCP_OPT_ROUTER) as [E|N3].
  { destruct (Hr E) as (v & r & Hv & Ev). eexists. split; [reflexivity|]. rewrite E. split_and!; try done.
    cbn [router_start]. exists (options_offset + idx + 2), v, r. rewrite (Eword v r) by done. done. }
  rewrite !decide_False by done.
  destruct (Z.eqb_spec (op_code f) DHCP_OPT_SERVER_ID) as [E|N4].
  { destruct (Hw ltac:(rewrite E; set_solver)) as (v & Hv & Ev). rewrite (Eword v []) by (done || by rewrite app_nil_r). cbn [outcome_bind]. by eexists. }
  destruct (Z.eqb_spec (op_code f) DHCP_OPT_LEASE_TIME) as [E|N5].
  { destruct (Hw ltac:(rewrite E; set_solver)) as (v & Hv & Ev). rewrite (Eword v []) by (done || by rewrite app_nil_r). cbn [outcome_bind]. by eexists. }
  destruct (Z.eqb_spec (op_code f) DHCP_OPT_DNS); by eexists.
Qed.

Lemma zlen_option_bytes f : zlen (option_bytes f) = 2 + zlen (op_data f).
Proof. unfold option_bytes. rewrite !zlen_cons. lia. Qed.

(** The loop reads the options up to the end marker. *)
Lemma options_loop_spec os hdr rest o : zlen hdr = options_offset -> forall fuel before o' buf,
  Forall option_ok os -> buf = hdr ++ concat (map option_bytes (before ++ os)) ++ DHCP_OPT_END :: rest ->
  zlen (concat (map option_bytes (before ++ os))) < 256 -> knows buf before o o' -> (length os < fuel)%nat ->
  exists o'', options_loop fuel buf (zlen (concat (map option_bytes before))) o' = Ok o'' /\ knows buf (before ++ os) o o''.
Proof.
  intros Hh. induction os as [|f os IH]; intros fuel before o' buf Hok Eb Hsz K Hf.
  - rewrite app_nil_r in *. destruct fuel as [|fuel]; [simpl in Hf; lia|]. cbn [options_loop].
    destruct (Z.leb_spec 256 (zlen (concat (map option_bytes before)))); [lia|].
    assert (rd8 buf (options_offset + zlen (concat (map option_bytes before))) = Ok DHCP_OPT_END) as ->.
    { rewrite Eb, app_assoc. apply rd8_at. by rewrite zlen_app, Hh. }
    cbn [outcome_bind]. by exists o'.
  - apply Forall_cons in Hok as [Hf0 Hok]. destruct fuel as [|fuel]; [simpl in Hf; lia|]. cbn [options_loop].
    assert (zlen (concat (map option_bytes (before ++ f :: os))) = zlen (concat (map option_bytes before)) +
      (zlen (option_bytes f) + zlen (concat (map option_bytes os)))) as Hz.
    { rewrite map_app, concat_app, zlen_app. cbn [map concat]. by rewrite zlen_app. }
    pose proof (zlen_option_bytes f). pose proof (zlen_nonneg (op_data f)). pose proof (zlen_nonneg (concat (map option_bytes os))).
    set (idx := zlen (concat (map option_bytes before))) in *. destruct (Z.leb_spec 256 idx); [lia|].
    set (pre := hdr ++ concat (map option_bytes before)). assert (zlen pre = options_offset + idx) as Hpre by (unfold pre; by rewrite zlen_app, Hh).
    assert (buf = pre ++ option_bytes f ++ (concat (map option_bytes os) ++ DHCP_OPT_END :: rest)) as Eb1.
    { rewrite Eb. unfold pre. rewrite map_app, concat_app. cbn [map concat]. by rewrite <- !app_assoc. }
    assert (rd8 buf (options_offset + idx) = Ok (op_code f)) as -> by (rewrite Eb1; by apply rd8_at). cbn [outcome_bind].
    pose proof Hf0 as (Hpad & Hend & _). apply Z.eqb_neq in Hpad, Hend. rewrite Hpad, Hend.
    destruct (parse_option_step pre f (concat (map option_bytes os) ++ DHCP_OPT_END :: rest) before idx o o') as (o1 & E1 & K1);
      [done|done|by rewrite <- Eb1|]. rewrite <- Eb1 in E1, K1. rewrite E1. cbn [outcome_bind].
    assert (rd8 buf (options_offset + idx + 1) = Ok (zlen (op_data f))) as ->.
    { rewrite Eb1. unfold option_bytes. change (?a :: ?b :: ?l) with ([a] ++ b :: l). rewrite <- app_assoc, app_assoc. cbn [app].
      apply rd8_at. by rewrite zlen_app, Hpre. }
    cbn [outcome_bind]. destruct (IH fuel (before ++ [f]) o1 buf) as (o2 & E2 & K2); [done|by rewrite <- app_assoc|by rewrite <- app_assoc|done|simpl in Hf; lia|].
    exists o2. rewrite <- app_assoc in K2. split; [|done]. rewrite <- E2. f_equal. rewrite map_app, concat_app, zlen_app. cbn [map concat].
    rewrite app_nil_r, zlen_option_bytes. fold idx. lia.
Qed.

(** ** The kernel under the client *)

Section kernel.
Context {D : Type}.
Implicit Types s : vfs (net D).

(** The controls of a call sequence, on the open file of the socket; [arg] is
    the address of their argument. *)
Definition control s (file arg : Z) (c : call) : outcome (vfs (net D)) :=
  match c with
  | IoctlAddr _ op a => let* (_, _, s) := ipv4_ioctl s file op arg (mk_ioctl_arg [] a (gateway_route 0)) in Ok s
  | IoctlRoute _ op r => let* (_, _, s) := ipv4_ioctl s file op arg (mk_ioctl_arg [] (mk_sockaddr 0 0 0) r) in Ok s
  | _ => Ok s
  end.

Fixpoint controls s (file arg : Z) (cs : list call) : outcome (vfs (net D)) :=
  match cs with
  | [] => Ok s
  | c :: cs => let* s := control s file arg c in controls s file arg cs
  end.

(** The file is a socket that is bound to the device [dev]. *)
Definition bound_to s (file dev : Z) (d : netdev) : Prop :=
  exists sock k data, file_socket s file = Ok sock /\ sock <> 0 /\ sockets (priv s) !! sock = Some k /\ s_data k = Some data /\
    sd_device data = dev /\ dev <> 0 /\ netdevs (priv s) !! dev = Some d.

Lemma control_addr s file arg dev d fd op port a : vm_validate_ptr arg = true -> bound_to s file dev d -> op = SIO_SETIFADDR \/ op = SIO_SETIFMASK ->
  exists s', control s file arg (IoctlAddr fd op (mk_sockaddr AF_INET port a)) = Ok s' /\ routes (priv s') = routes (priv s) /\
    bound_to s' file dev (if op =? SIO_SETIFADDR then set_nd_ip_addr a d else set_nd_ip_subnet a d).
Proof.
  intros Hv (sock & k & data & Hf & H0 & Hk & Hd & <- & Hn & Hdev) Hop. cbn [control]. unfold ipv4_ioctl. rewrite Hf. cbn [outcome_bind].
  rewrite (proj2 (Z.eqb_neq sock 0) H0). unfold get_socket, get_netdev. rewrite Hk. cbn [deref outcome_bind]. rewrite Hd. cbn [deref outcome_bind].
  rewrite Hv, (proj2 (Z.eqb_neq _ 0) Hn), Hdev. cbn [negb ia_addr sin_family sin_addr deref outcome_bind].
  destruct Hop as [-> | ->]; cbn; eexists; (split; [reflexivity|]); (split; [reflexivity|]);
    exists sock, k, data; cbn; rewrite lookup_insert_eq; by split_and!.
Qed.

Lemma control_route s file arg dev d fd rt : vm_validate_ptr arg = true -> bound_to s file dev d ->
  sin_family (rte_dst rt) = AF_INET -> sin_family (rte_gateway rt) = AF_INET -> sin_family (rte_genmask rt) = AF_INET ->
  exists s', control s file arg (IoctlRoute fd SIO_ADDROUTE rt) = Ok s' /\ bound_to s' file dev d /\
    routes (priv s') = routes (priv s) ++ [mk_route dev (sin_addr (rte_dst rt)) (sin_addr (rte_gateway rt)) (sin_addr (rte_genmask rt))
      (u16 (rte_metric rt)) (u16 (rte_mtu rt))].
Proof.
  intros Hv (sock & k & data & Hf & H0 & Hk & Hd & <- & Hn & Hdev) H1 H2 H3. cbn [control]. unfold ipv4_ioctl. rewrite Hf. cbn [outcome_bind].
  rewrite (proj2 (Z.eqb_neq sock 0) H0). unfold get_socket. rewrite Hk. cbn [deref outcome_bind]. rewrite Hd. cbn [deref outcome_bind].
  rewrite Hv, (proj2 (Z.eqb_neq _ 0) Hn). cbn [negb ia_route]. rewrite H1, H2, H3. cbn.
  eexists. split; [reflexivity|]. split; [|reflexivity]. exists sock, k, data. by split_and!.
Qed.

(** The interface after an offer of [address], [mask] and [gateway]. *)
Lemma controls_configure s file arg dev d fd port address mask gateway : vm_validate_ptr arg = true -> bound_to s file dev d ->
  exists s', controls s file arg [IoctlAddr fd SIO_SETIFADDR (mk_sockaddr AF_INET port address); IoctlAddr fd SIO_SETIFMASK (mk_sockaddr AF_INET port mask);
      IoctlRoute fd SIO_ADDROUTE (gateway_route gateway); IoctlRoute fd SIO_ADDROUTE (local_route address mask); Close fd] = Ok s' /\
    bound_to s' file dev (set_nd_ip_subnet mask (set_nd_ip_addr address d)) /\
    routes (priv s') = routes (priv s) ++ [mk_route dev 0 gateway 0 1000 1500; mk_route dev (Z.land address mask) 0 mask 1000 1500].
Proof.
  intros Hv Hb. cbn [controls]. destruct (control_addr s file arg dev d fd SIO_SETIFADDR port address) as (s1 & -> & R1 & B1); [done|done|by left|].
  cbn [outcome_bind]. destruct (control_addr s1 file arg dev _ fd SIO_SETIFMASK port mask Hv B1) as (s2 & -> & R2 & B2); [by right|]. cbn [outcome_bind].
  destruct (control_route s2 file arg dev _ fd (gateway_route gateway) Hv B2) as (s3 & -> & B3 & R3); [done..|]. cbn [outcome_bind].
  destruct (control_route s3 file arg dev _ fd (local_route address mask) Hv B3) as (s4 & -> & B4 & R4); [done..|]. cbn [outcome_bind control].
  exists s4. split; [done|]. split; [exact B4|]. rewrite R4, R3, R2, R1, <- app_assoc. done.
Qed.
End kernel.

(** ** The whole program *)

Lemma aget_app_l (l r : list Z) i v : aget l i = Ok v -> aget (l ++ r) i = Ok v.
Proof. intros H. apply aget_Ok in H as [H1 H2]. apply aget_Ok. split; [done|]. by apply lookup_app_l_Some. Qed.

Lemma rd32_app_l l r off v : rd32 l off = Ok v -> rd32 (l ++ r) off = Ok v.
Proof.
  unfold rd32, rd16. intros H.
  repeat match type of H with
  | context [aget l ?i] => let E := fresh "E" in destruct (aget l i) eqn:E; cbn [outcome_bind] in H; try done; rewrite (aget_app_l _ r _ _ E); cbn [outcome_bind]
  end. done.
Qed.

Lemma le32_inj v w rest rest' : word v -> word w -> le32 v ++ rest = le32 w ++ rest' -> v = w.
Proof.
  intros Hv Hw E. pose proof (rd32_le32 [] v rest 0 Hv eq_refl) as H1. pose proof (rd32_le32 [] w rest' 0 Hw eq_refl) as H2.
  cbn [app] in H1, H2. rewrite E, H2 in H1. by injection H1.
Qed.

(** A reply: a header of 240 bytes, options, the end marker and the rest. *)
Definition reply (hdr : list Z) (os : list option_field) (rest : list Z) : list Z := hdr ++ concat (map option_bytes os) ++ DHCP_OPT_END :: rest.

Definition reply_wf (hdr : list Z) (os : list option_field) : Prop :=
  zlen hdr = options_offset /\ rd32 hdr 236 = Ok (htonl DHCP_MAGIC) /\ Forall option_ok os /\ zlen (concat (map option_bytes os)) < 256.

Definition offers (os : list option_field) (mask gateway : Z) : Prop :=
  word mask /\ word gateway /\ last_option DHCP_OPT_MESSAGE_TYPE os = Some [DHCP_OFFER] /\
  last_option DHCP_OPT_SUBNET_MASK os = Some (le32 mask) /\ exists more, last_option DHCP_OPT_ROUTER os = Some (le32 gateway ++ more).

Lemma options_length os : Forall option_ok os -> 2 * Z.of_nat (length os) <= zlen (concat (map option_bytes os)).
Proof.
  induction 1 as [|f os _ _ IH]; [done|]. cbn [map concat length]. rewrite zlen_app, zlen_option_bytes. pose proof (zlen_nonneg (op_data f)). lia.
Qed.

Lemma offer_parsed hdr os rest more o mask gateway : reply_wf hdr os -> offers os mask gateway ->
  exists o', options_loop options_fuel (reply hdr os rest ++ more) 0 o = Ok o' /\ msg_type o' = DHCP_OFFER /\ subnet_mask o' = mask /\
    (let* p := deref (router_start o') in rd32 (reply hdr os rest ++ more) p) = Ok gateway.
Proof.
  intros (Hh & _ & Hok & Hsz) (Hm & Hg & E1 & E2 & gs & E3). pose proof (options_length os Hok).
  destruct (options_loop_spec os hdr (rest ++ more) o Hh options_fuel [] o (reply hdr os rest ++ more)) as (o' & E & K1 & K2 & K3).
  - done.
  - unfold reply. by rewrite <- !app_assoc.
  - done.
  - done.
  - unfold options_fuel. lia.
  - exists o'. split; [exact E|]. cbn [app] in K1, K2, K3. rewrite E1 in K1. rewrite E2 in K2. rewrite E3 in K3.
    injection K1 as K1. split; [done|]. destruct K2 as [Hw K2]. split.
    + apply (le32_inj _ _ [] []); [done|done|by rewrite !app_nil_r].
    + destruct K3 as (p & v & r & -> & Hrd & Hv & Er). cbn [deref outcome_bind]. rewrite Hrd. f_equal. by apply (le32_inj _ _ r gs).
Qed.

Section answers.
Context (d_stack r_stack hw_stack : list Z) (o_stack : dhcp_options) (port_stack : Z).
Context (fd buf address : Z) (mac hdr ack_hdr rest ack_rest : list Z) (os ack_os : list option_field).

Definition offer_bytes : list Z := reply hdr os rest.
Definition ack_bytes : list Z := reply ack_hdr ack_os ack_rest.

(** The kernel's answers when every call succeeds and the two replies arrive. *)
Definition answers : list (ret * list Z) :=
  [(RVal fd, []); (RVal 0, []); (RVal 0, []); (RVal 0, mac); (RVal buf, replicate 4096 0); (RVal dhcp_packet_size, []);
   (RVal (zlen offer_bytes), offer_bytes); (RVal dhcp_packet_size, []); (RVal (zlen ack_bytes), ack_bytes);
   (RVal 0, []); (RVal 0, []); (RVal 0, []); (RVal 0, []); (RVal 0, [])].

(** The calls up to the second reply. *)
Definition exchange (interface : list Z) : list call :=
  let hwaddr := poke 0 mac hw_stack in
  [Socket AF_INET SOCK_DGRAM IPPROTO_UDP; Bind fd (any_address 68 INADDR_ANY); IoctlName fd SIO_BINDDEVICE interface; IoctlOut fd SIO_GETHWADDR;
   Mmap 0x1000; SendTo fd (fill_packet d_stack hwaddr discover_options) (any_address 67 INADDR_BROADCAST); RecvFrom fd 0x1000;
   SendTo fd (fill_packet r_stack hwaddr (request_options address)) (any_address 67 INADDR_BROADCAST); RecvFrom fd 0x1000].

Lemma reply_accepted hdr' os' rest' more : reply_wf hdr' os' -> reply_ok (zlen (reply hdr' os' rest')) (reply hdr' os' rest' ++ more) = Ok true.
Proof.
  intros (Hh & Hm & _). unfold reply_ok. assert (dhcp_packet_size - 256 <= zlen (reply hdr' os' rest')).
  { unfold reply. rewrite zlen_app, Hh. pose proof (zlen_nonneg (concat (map option_bytes os') ++ DHCP_OPT_END :: rest')). unfold options_offset, dhcp_packet_size in *. lia. }
  destruct (Z.ltb_spec (zlen (reply hdr' os' rest')) (dhcp_packet_size - 256)); [lia|].
  unfold reply. rewrite <- app_assoc, (rd32_app_l _ _ _ _ Hm). done.
Qed.

Lemma received_app bytes zeros : received zeros bytes = bytes ++ drop (length bytes) zeros.
Proof. unfold received, poke. by rewrite take_0. Qed.

Lemma run_or_exit c k v bytes l cs o : 0 <= v -> run (k v bytes) l = (cs, o) -> run (or_exit c k) ((RVal v, bytes) :: l) = (c :: cs, o).
Proof. intros Hv E. unfold or_exit. cbn [run]. destruct (Z.ltb_spec v 0); [lia|]. by rewrite E. Qed.

Lemma run_call c k r bytes l cs o : run (k r bytes) l = (cs, o) -> run (Call c k) ((r, bytes) :: l) = (c :: cs, o).
Proof. intros E. cbn [run]. by rewrite E. Qed.

Lemma main_run interface mask gateway : 0 <= fd -> reply_wf hdr os -> offers os mask gateway -> rd32 hdr 16 = Ok address -> reply_wf ack_hdr ack_os ->
  run (main d_stack r_stack hw_stack o_stack port_stack [interface]) answers =
  (exchange interface ++ [IoctlAddr fd SIO_SETIFADDR (mk_sockaddr AF_INET port_stack address); IoctlAddr fd SIO_SETIFMASK (mk_sockaddr AF_INET port_stack mask);
     IoctlRoute fd SIO_ADDROUTE (gateway_route gateway); IoctlRoute fd SIO_ADDROUTE (local_route address mask); Close fd], Some (Ok (Code 0))).
Proof.
  intros Hfd Hwf Hof Hyi Hack. unfold main, answers, exchange. cbn [app].
  do 4 (apply run_or_exit; [lia|]). cbv zeta. apply run_call. do 2 (apply run_or_exit; [apply zlen_nonneg || done|]).
  rewrite received_app. unfold take_offer, offer_bytes. rewrite reply_accepted by done. cbn [must negb].
  destruct (offer_parsed hdr os rest (drop (length (reply hdr os rest)) (replicate 4096 0)) o_stack mask gateway Hwf Hof) as (o' & -> & Hm & Hs & Hr).
  cbn [must]. rewrite Hm, Z.eqb_refl. cbn [negb].
  assert (rd32 (reply hdr os rest ++ drop (length (reply hdr os rest)) (replicate 4096 0)) 16 = Ok address) as ->
    by (unfold reply; rewrite <- app_assoc; by apply rd32_app_l).
  cbn [must]. rewrite Hr. cbn [must]. do 2 (apply run_or_exit; [apply zlen_nonneg || done|]). rewrite received_app. unfold ack_bytes.
  rewrite reply_accepted by done. cbn [must negb]. unfold configure. rewrite Hs.
  do 2 (apply run_or_exit; [done|]). apply run_call. apply run_or_exit; [done|]. by apply run_call.
Qed.
End answers.

(** C29: the client takes the offer that it is made.  If every call succeeds,
    the first reply is an offer of an address with a mask and a router, its
    options in any order among others, and the second is a reply, the client
    sends a discovery and a request for exactly that address and ends with
    0; and the kernel that carries out its controls has given the interface
    that address and mask and has added a route to every destination through
    the router and one to the local network. *)
Theorem dhcp_configures {D} (s : vfs (net D)) file arg dev d d_stack r_stack hw_stack o_stack port_stack fd buf mac hdr ack_hdr rest ack_rest os ack_os
    interface address mask gateway :
  0 <= fd -> reply_wf hdr os -> offers os mask gateway -> rd32 hdr 16 = Ok address -> reply_wf ack_hdr ack_os ->
  vm_validate_ptr arg = true -> bound_to s file dev d ->
  exists calls s',
    run (main d_stack r_stack hw_stack o_stack port_stack [interface]) (answers fd buf mac hdr ack_hdr rest ack_rest os ack_os) = (calls, Some (Ok (Code 0))) /\
    take 9 calls = exchange d_stack r_stack hw_stack fd address mac interface /\
    controls s file arg calls = Ok s' /\ bound_to s' file dev (set_nd_ip_subnet mask (set_nd_ip_addr address d)) /\
    routes (priv s') = routes (priv s) ++ [mk_route dev 0 gateway 0 1000 1500; mk_route dev (Z.land address mask) 0 mask 1000 1500].
Proof.
  intros Hfd Hwf Hof Hyi Hack Hv Hb.
  destruct (controls_configure s file arg dev d fd port_stack address mask gateway Hv Hb) as (s' & E & Hb' & Hr).
  eexists _, s'. split; [by apply main_run with (mask := mask) (gateway := gateway) (address := address)|]. split; [reflexivity|].
  split; [exact E|]. split; [exact Hb'|exact Hr].
Qed.

(** An offer of 10.0.0.5 in 255.255.255.0 through 10.0.0.1. *)
Definition sample_hdr : list Z := replicate 16 0 ++ [10; 0; 0; 5] ++ replicate 216 0 ++ le32 (htonl DHCP_MAGIC).
Definition sample_os : list option_field :=
  [mk_option DHCP_OPT_MESSAGE_TYPE [DHCP_OFFER]; mk_option DHCP_OPT_SUBNET_MASK (le32 0x00FFFFFF); mk_option 12 [104; 105]; mk_option DHCP_OPT_ROUTER (le32 0x0100000A)].

(** A kernel with one interface, and a socket bound to it. *)
Definition sample_netdev : netdev := mk_netdev [101; 116; 104; 48] [2; 0; 0; 0; 0; 1] 0 0 0xFFFFFFFF 0 0.

Definition sample_kernel : vfs (net unit) :=
  mk_vfs {[100 := mk_vnode S_IFSOCK 0 0 0 0 1 1 0x50 0 0]} ∅ [] 0 [] [mk_fd 0 100 0 0 1] [] devices_init devices_init None 0x1000
    (mk_net {[0x40 := sample_netdev]} [0x40] (mk_arp_state [] []) [] [] {[0x50 := mk_socket 100 0 0 udp_ops (Some (mk_sdata 0x40 0 68 17)) 0 [] true]} []
      (mk_udp_state [] 0) (mk_wait ∅ ∅) two_cpus 0x2000 tt).

Lemma sample_wf : reply_wf sample_hdr sample_os.
Proof.
  split; [reflexivity|]. split; [vm_compute; reflexivity|]. split; [|reflexivity].
  assert (word 0x00FFFFFF /\ word 0x0100000A) as [H1 H2] by (unfold word; lia).
  apply Forall_cons. split; [|apply Forall_cons; split; [|apply Forall_cons; split; [|apply Forall_singleton]]]; unfold option_ok; cbn [op_code op_data].
  - split_and!; [done|done|done|by eexists|set_solver|done].
  - split_and!; [done|done|done|done|by exists 0x00FFFFFF|done].
  - split_and!; [done|done|done|done|set_solver|done].
  - split_and!; [done|done|done|done|set_solver|by exists 0x0100000A, []].
Qed.

Lemma dhcp_configures_witness :
  exists calls s',
    run (main (replicate 496 0) (replicate 496 0) (replicate 6 0) (mk_options 0 0 None None None None 0 0) 0 [[101; 116; 104; 48]])
      (answers 3 0x400000 [2; 0; 0; 0; 0; 1] sample_hdr sample_hdr (replicate 10 0) [] sample_os sample_os) = (calls, Some (Ok (Code 0))) /\
    controls sample_kernel 0 0x500000 calls = Ok s' /\
    routes (priv s') = [mk_route 0x40 0 0x0100000A 0 1000 1500; mk_route 0x40 0x0000000A 0 0x00FFFFFF 1000 1500].
Proof.
  destruct (dhcp_configures sample_kernel 0 0x500000 0x40 sample_netdev (replicate 496 0) (replicate 496 0) (replicate 6 0)
    (mk_options 0 0 None None None None 0 0) 0 3 0x400000 [2; 0; 0; 0; 0; 1] sample_hdr sample_hdr (replicate 10 0) [] sample_os sample_os
    [101; 116; 104; 48] 0x0500000A 0x00FFFFFF 0x0100000A) as (calls & s' & E & _ & Ec & _ & Hr).
  - lia.
  - apply sample_wf.
  - split; [unfold word; lia|]. split; [unfold word; lia|]. split; [reflexivity|]. split; [reflexivity|]. by exists [].
  - reflexivity.
  - apply sample_wf.
  - reflexivity.
  - exists 0x50. eexists _, _. by split_and!.
  - exists calls, s'. split; [exact E|]. split; [exact Ec|exact Hr].
Defined.

(** With the two routes of the client and no other, every destination goes
    through the router: the route to the local network comes second and is no
    better. *)
Lemma local_route_unused {D} (st : net D) dev net mask gateway ip :
  routes st = [mk_route dev 0 gateway 0 1000 1500; mk_route dev net 0 mask 1000 1500] ->
  ip_route_get st ip = Some (mk_route dev 0 gateway 0 1000 1500).
Proof.
  intros E. unfold ip_route_get. rewrite E. cbn [route_loop rt_mask rt_dest rt_metric]. rewrite !Z.land_0_r.
  cbn. by rewrite andb_false_r.
Qed.

(** An offer that begins with a padding byte keeps the client busy forever. *)
Lemma padding_diverges fuel buf o : rd8 buf options_offset = Ok DHCP_OPT_PADDING -> options_loop fuel buf 0 o = OutOfFuel.
Proof. intros H. induction fuel as [|fuel IH]; [done|]. cbn [options_loop]. rewrite Z.add_0_r, H. cbn [outcome_bind]. by rewrite Z.eqb_refl. Qed.

(** The request carries no end marker: the byte after the address is what the stack held. *)
Lemma request_unterminated r_stack hwaddr yiaddr : length r_stack = 496%nat -> length hwaddr = 6%nat ->
  fill_packet r_stack hwaddr (request_options yiaddr) !! 249%nat = r_stack !! 249%nat.
Proof.
  intros Hr Hh. unfold fill_packet. set (p := poke 236 _ _).
  assert (forall off bytes mem, length mem = 496%nat -> (off + length bytes <= 249)%nat ->
    length (poke off bytes mem) = 496%nat /\ poke off bytes mem !! 249%nat = mem !! 249%nat) as Hpoke.
  { intros off bytes mem Hl Hb. unfold poke. split; [rewrite !length_app, length_take, length_drop; lia|].
    rewrite !lookup_app_r by (rewrite ?length_take; lia). rewrite lookup_drop, length_take. f_equal. lia. }
  assert (length p = 496%nat /\ p !! 249%nat = r_stack !! 249%nat) as [Hp1 Hp2].
  { unfold p. repeat (match goal with |- length (poke ?o ?b ?m) = _ /\ _ =>
      let H1 := fresh in let H2 := fresh in
      cut (length m = 496%nat /\ m !! 249%nat = r_stack !! 249%nat); [intros [H1 H2]; destruct (Hpoke o b m H1) as [? ->]; [cbn; rewrite ?Hh; lia|done]|] end).
    done. }
  rewrite <- Hp2. by apply Hpoke.
Qed.
