(* ===== verification/X86.v ===== *)
(** * Entry into the kernel

    The descriptor tables of kernel/arch/x86_64/gdt.c and idt.c, the dispatch
    of exceptions and interrupts in interrupts.c, and that of system calls in
    syscall.c.  A handler's outcome is the action it takes; the kernel state
    the system calls work on and the numbers of the C library's error codes
    are parameters. *)

From stdpp Require Import base numbers list gmap sets.
From Stdlib Require Import ZArith Lia.
From S2P Require Import Prelude Vmm Irq.

(** ** gdt.c *)

Definition GDT_KERNEL_CS : Z := 0x08.
Definition GDT_ACCESSED : Z := 0x01.
Definition GDT_READ : Z := 0x02.
Definition GDT_WRITE : Z := 0x02.
Definition GDT_EXEC : Z := 0x08.
Definition GDT_SYSTEM : Z := 0.
Definition GDT_TSS64_AVL : Z := 0x09.
Definition GDT_DATA : Z := 0x10.
Definition GDT_CODE : Z := 0x10.
Definition GDT_PRIV_RING0 : Z := 0.
Definition GDT_PRIV_RING3 : Z := 0x60.
Definition GDT_PRESENT : Z := 0x80.
Definition GDT_FLAG_LONG_MODE : Z := 0x02.
Definition GDT_FLAG_4K : Z := 0x08.
Definition sizeof_tss : Z := 104.

Record gdt_segment := mk_segment { limit_low : Z; base_low : Z; base_mid : Z; access : Z; flags_limithigh : Z; base_high : Z }.

Record gdt_system_segment := mk_system_segment {
  sys_limit_low : Z; sys_base_low : Z; sys_base_midL : Z; sys_access : Z; sys_flags_limithigh : Z; sys_base_midU : Z; sys_base_high : Z
}.

Definition gdt_segment_new (acc flags : Z) : gdt_segment :=
  mk_segment 0 0 0 (u8 (Z.lor (Z.lor acc GDT_PRESENT) GDT_ACCESSED)) (u8 (Z.shiftl flags 4)) 0.

Definition gdt_system_segment_new (acc flags base limit : Z) : gdt_system_segment :=
  mk_system_segment (Z.land limit 0xFFFF) (Z.land base 0xFFFF) (Z.land (Z.shiftr base 16) 0xFF) (u8 (Z.lor acc GDT_PRESENT))
    (Z.lor (Z.land (Z.shiftl flags 4) 0x0F) (Z.land (Z.shiftr limit 16) 0xF)) (Z.land (Z.shiftr base 24) 0xFF)
    (Z.land (Z.shiftr base 32) 0xFFFFFFFF).

Record gdt := mk_gdt {
  g_null : gdt_segment; g_kernel_cs : gdt_segment; g_kernel_ds : gdt_segment; g_user_cs : gdt_segment; g_user_ds : gdt_segment;
  g_tss : gdt_system_segment
}.

(** The table [gdt_init] fills in; loading it is an instruction. *)
Definition gdt_init (tss_base : Z) : gdt :=
  let flags := Z.lor GDT_FLAG_LONG_MODE GDT_FLAG_4K in
  mk_gdt (gdt_segment_new 0 0)
    (gdt_segment_new (Z.lor (Z.lor (Z.lor GDT_PRIV_RING0 GDT_CODE) GDT_EXEC) GDT_READ) flags)
    (gdt_segment_new (Z.lor (Z.lor GDT_PRIV_RING0 GDT_DATA) GDT_WRITE) flags)
    (gdt_segment_new (Z.lor (Z.lor (Z.lor GDT_PRIV_RING3 GDT_CODE) GDT_EXEC) GDT_READ) flags)
    (gdt_segment_new (Z.lor (Z.lor GDT_PRIV_RING3 GDT_DATA) GDT_WRITE) flags)
    (gdt_system_segment_new (Z.lor (Z.lor GDT_PRIV_RING0 GDT_SYSTEM) GDT_TSS64_AVL) 0 tss_base (sizeof_tss - 1)).

(** ** idt.c *)

Definition IDT_PRESENT : Z := 0x80.
Definition IDT_RING3 : Z := 0x60.
Definition IDT_RING0 : Z := 0.
Definition IDT_INTR_GATE : Z := 0x0E.

Record idt_entry := mk_idt_entry { base16_low : Z; segment : Z; ist : Z; idt_flags : Z; base16_high : Z; base32_high : Z }.

Definition idt_entry_at (isr_start i : Z) : idt_entry :=
  let addr := u64 (isr_start + i * 16) in
  mk_idt_entry (Z.land addr 0xFFFF) GDT_KERNEL_CS 0
    (Z.lor (Z.lor IDT_PRESENT IDT_INTR_GATE) (if i =? 0x80 then IDT_RING3 else IDT_RING0))
    (Z.land (Z.shiftr addr 16) 0xFFFF) (u32 (Z.shiftr addr 32)).

Definition idt_setup (isr_start : Z) : list idt_entry := map (fun i => idt_entry_at isr_start (Z.of_nat i)) (seq 0 256).

(** ** interrupts.c *)

Definition INTERRUPT_VECTOR_NMI : Z := 0x02.
Definition INTERRUPT_VECTOR_GPF : Z := 0x0D.
Definition INTERRUPT_VECTOR_PAGE_FAULT : Z := 0x0E.
Definition INTERRUPT_VECTOR_EXCEPTION_END : Z := 0x20.
Definition INTERRUPT_VECTOR_HW_START : Z := 0x20.
Definition INTERRUPT_VECTOR_HW_END : Z := 0x80.
Definition INTERRUPT_VECTOR_SYSCALL : Z := 0x80.
Definition INTERRUPT_VECTOR_TIMER : Z := 0xF0.
Definition INTERRUPT_VECTOR_SPURIOUS : Z := 0xFF.

Definition SIGILL : Z := 4.
Definition SIGTRAP : Z := 5.
Definition SIGABRT : Z := 6.
Definition SIGBUS : Z := 7.
Definition SIGFPE : Z := 8.
Definition SIGSEGV : Z := 11.

Definition PF_PRESENT : Z := 0x1.
Definition PF_WRITE : Z := 0x2.
Definition PF_USER : Z := 0x4.
Definition PF_FETCH : Z := 0x10.

(** The registers the handlers use. *)
Record interrupt_frame := mk_frame {
  rax : Z; rdi : Z; rsi : Z; rdx : Z; rcx : Z; r8 : Z; r9 : Z; vector : Z; error_code : Z; rip : Z
}.

Definition set_rax (v : Z) (f : interrupt_frame) : interrupt_frame :=
  mk_frame v (rdi f) (rsi f) (rdx f) (rcx f) (r8 f) (r9 f) (vector f) (error_code f) (rip f).
Definition set_vector (v : Z) (f : interrupt_frame) : interrupt_frame :=
  mk_frame (rax f) (rdi f) (rsi f) (rdx f) (rcx f) (r8 f) (r9 f) v (error_code f) (rip f).

Inductive action :=
  | Resolved
  | Signal (sig : Z)
  | Halt
  | Device (events : list irq_event)
  | Syscall
  | TimerTick
  | Nothing.

(** [task && task->rsp && frame->rip <= 0x7fffffffffff]; [task] is the user
    stack pointer of the running task, if there is one. *)
Definition from_user (task : option Z) (f : interrupt_frame) : bool :=
  match task with Some rsp => negb (rsp =? 0) && (rip f <=? 0x7fffffffffff) | None => false end.

Definition fault_flags (error_code : Z) : Z :=
  let pflags := if has error_code PF_PRESENT then Z.lor 0 VM_FAULT_PRESENT else 0 in
  let pflags := if has error_code PF_WRITE then Z.lor pflags VM_FAULT_WRITE else pflags in
  let pflags := if has error_code PF_USER then Z.lor pflags VM_FAULT_USER else pflags in
  if has error_code PF_FETCH then Z.lor pflags VM_FAULT_FETCH else pflags.

Definition exception_to_signal (vector : Z) : Z :=
  match vector with
  | 0x00 | 0x07 | 0x10 | 0x13 => SIGFPE
  | 0x01 | 0x03 => SIGTRAP
  | 0x06 => SIGILL
  | 0x0B | 0x0C | 0x11 | 0x12 => SIGBUS
  | 0x04 | 0x05 | 0x0A | 0x0D | 0x0E => SIGSEGV
  | _ => SIGABRT
  end.

Section Entry.
  (** The memory state and [vm_page_fault], which tells if it resolved the fault. *)
  Context {M : Type} (vm_page_fault : M -> Z -> Z -> outcome (bool * M)).

Definition page_fault_handler (m : M) (task : option Z) (cr2 : Z) (f : interrupt_frame) : outcome (action * M) :=
  let* (ok, m) := vm_page_fault m (align_down cr2 CONFIG_PAGE_SIZE) (fault_flags (error_code f)) in
  if ok : bool then Ok (Resolved, m) else if from_user task f then Ok (Signal SIGSEGV, m) else Panic.

Definition gpf_handler (m : M) (task : option Z) (f : interrupt_frame) : outcome (action * M) :=
  if from_user task f then Ok (Signal SIGSEGV, m) else Panic.

Definition exception_handler (m : M) (task : option Z) (cr2 : Z) (f : interrupt_frame) : outcome (action * M) :=
  if vector f =? INTERRUPT_VECTOR_PAGE_FAULT then page_fault_handler m task cr2 f
  else if vector f =? INTERRUPT_VECTOR_GPF then gpf_handler m task f
  else if vector f =? INTERRUPT_VECTOR_NMI then Ok (Halt, m)
  else if from_user task f then Ok (Signal (exception_to_signal (vector f)), m) else Panic.

(** The test for the timer is an assignment: it stores the timer's vector in
    the frame, and holds. *)
Definition interrupt_handler (m : M) (irqs : irqs) (task : option Z) (cr2 : Z) (f : interrupt_frame) : outcome (action * interrupt_frame * M) :=
  if vector f <? INTERRUPT_VECTOR_EXCEPTION_END then
    let* (a, m) := exception_handler m task cr2 f in Ok (a, f, m)
  else if (INTERRUPT_VECTOR_HW_START <=? vector f) && (vector f <? INTERRUPT_VECTOR_HW_END) then
    let* events := irq_dispatch irqs (vector f) in Ok (Device events, f, m)
  else if vector f =? INTERRUPT_VECTOR_SYSCALL then Ok (Syscall, f, m)
  else
    let f := set_vector INTERRUPT_VECTOR_TIMER f in
    if negb (vector f =? 0) then Ok (TimerTick, f, m)
    else if vector f =? INTERRUPT_VECTOR_SPURIOUS then Ok (Nothing, f, m)
    else Ok (Nothing, f, m).

End Entry.

(** ** syscall.c *)

Definition ARCH_SET_FS : Z := 0x1002.

(** [sys_arch_prctl] on the thread pointer of the running task. *)
Definition sys_arch_prctl (tls_base op arg : Z) : ret * Z := if op =? ARCH_SET_FS then (RVal 0, arg) else (RErr EINVAL, tls_base).

(** The calls, with the number of each as its position and its arguments. *)
Inductive syscall :=
  | SYS_OPEN (path flags : Z)
  | SYS_OPENAT (fd path flags : Z)
  | SYS_CLOSE (fd : Z)
  | SYS_READ (fd buffer length : Z)
  | SYS_WRITE (fd buffer length : Z)
  | SYS_SEEK (fd offset flags : Z)
  | SYS_DUP (fd : Z)
  | SYS_IOCTL (fd op arg : Z)
  | SYS_STAT (path buffer : Z)
  | SYS_FSTAT (fd buffer : Z)
  | SYS_GETDENTS (fd buffer length : Z)
  | SYS_MKDIR (name mode : Z)
  | SYS_MOUNT (source target fsname : Z)
  | SYS_UMOUNT (target : Z)
  | SYS_MMAP (addr size prot flags fd offset : Z)
  | SYS_MUNMAP (addr size : Z)
  | SYS_MPROTECT (addr size prot : Z)
  | SYS_SPAWN (argv envp flags : Z)
  | SYS_EXIT (status : Z)
  | SYS_WAITPID (pid status options : Z)
  | SYS_GETPID
  | SYS_SETSID
  | SYS_GETPGID (pid : Z)
  | SYS_SETPGID (pgid : Z)
  | SYS_CHDIR (path : Z)
  | SYS_GETCWD (buffer length : Z)
  | SYS_GETUID
  | SYS_SETUID (uid : Z)
  | SYS_GETGID
  | SYS_SETGID (gid : Z)
  | SYS_CLOCK_GETTIME (clock tv : Z)
  | SYS_CLOCK_NANOSLEEP (clock flags tv rem : Z)
  | SYS_ARCH_PRCTL (op arg : Z)
  | SYS_SOCKET (domain type protocol : Z)
  | SYS_BIND (sockfd addr addrlen : Z)
  | SYS_RECVFROM (sockfd buf len flags src_addr addrlen : Z)
  | SYS_SENDTO (sockfd buffer len flags dst_addr addrlen : Z).

Definition decode (f : interrupt_frame) : option syscall :=
  match rax f with
  | 0 => Some (SYS_OPEN (rdi f) (s32 (rsi f)))
  | 1 => Some (SYS_OPENAT (s32 (rdi f)) (rsi f) (s32 (rdx f)))
  | 2 => Some (SYS_CLOSE (s32 (rdi f)))
  | 3 => Some (SYS_READ (s32 (rdi f)) (rsi f) (rdx f))
  | 4 => Some (SYS_WRITE (s32 (rdi f)) (rsi f) (rdx f))
  | 5 => Some (SYS_SEEK (s32 (rdi f)) (s64 (rsi f)) (s32 (rdx f)))
  | 6 => Some (SYS_DUP (s32 (rdi f)))
  | 7 => Some (SYS_IOCTL (s32 (rdi f)) (rsi f) (rdx f))
  | 8 => Some (SYS_STAT (rdi f) (rsi f))
  | 9 => Some (SYS_FSTAT (s32 (rdi f)) (rsi f))
  | 10 => Some (SYS_GETDENTS (s32 (rdi f)) (rsi f) (rdx f))
  | 11 => Some (SYS_MKDIR (rdi f) (u32 (rsi f)))
  | 12 => Some (SYS_MOUNT (rdi f) (rsi f) (rdx f))
  | 13 => Some (SYS_UMOUNT (rdi f))
  | 14 => Some (SYS_MMAP (rdi f) (rsi f) (s32 (rdx f)) (s32 (rcx f)) (s32 (r8 f)) (s64 (r9 f)))
  | 15 => Some (SYS_MUNMAP (rdi f) (rsi f))
  | 16 => Some (SYS_MPROTECT (rdi f) (rsi f) (s32 (rdx f)))
  | 17 => Some (SYS_SPAWN (rdi f) (rsi f) (rdx f))
  | 18 => Some (SYS_EXIT (s32 (rdi f)))
  | 19 => Some (SYS_WAITPID (s32 (rdi f)) (rsi f) (s32 (rdx f)))
  | 20 => Some SYS_GETPID
  | 21 => Some SYS_SETSID
  | 22 => Some (SYS_GETPGID (s32 (rdi f)))
  | 23 => Some (SYS_SETPGID (s32 (rdi f)))
  | 24 => Some (SYS_CHDIR (rdi f))
  | 25 => Some (SYS_GETCWD (rdi f) (rsi f))
  | 26 => Some SYS_GETUID
  | 27 => Some (SYS_SETUID (u32 (rdi f)))
  | 28 => Some SYS_GETGID
  | 29 => Some (SYS_SETGID (u32 (rdi f)))
  | 30 => Some (SYS_CLOCK_GETTIME (s32 (rdi f)) (rsi f))
  | 31 => Some (SYS_CLOCK_NANOSLEEP (s32 (rdi f)) (s32 (rsi f)) (rdx f) (rcx f))
  | 32 => Some (SYS_ARCH_PRCTL (s32 (rdi f)) (rsi f))
  | 33 => Some (SYS_SOCKET (s32 (rdi f)) (s32 (rsi f)) (s32 (rdx f)))
  | 34 => Some (SYS_BIND (s32 (rdi f)) (rsi f) (rdx f))
  | 35 => Some (SYS_RECVFROM (s32 (rdi f)) (rsi f) (rdx f) (s32 (rcx f)) (r8 f) (r9 f))
  | 36 => Some (SYS_SENDTO (s32 (rdi f)) (rsi f) (rdx f) (s32 (rcx f)) (r8 f) (r9 f))
  | _ => None
  end.

Section Syscalls.
  (** The kernel, how it runs a call, and the values of the error codes. *)
  Context {St : Type} (run : syscall -> St -> outcome (ret * St)) (errno_value : errno -> Z).

Definition ret_value (r : ret) : Z := match r with RVal v => v | RErr e => - errno_value e end.

(** [syscall_handler]: the result is widened to the register with its sign;
    after [sys_exit] the register is left alone. *)
Definition syscall_handler (f : interrupt_frame) (st : St) : outcome (interrupt_frame * St) :=
  match decode f with
  | Some (SYS_EXIT status) => let* (_, st) := run (SYS_EXIT status) st in Ok (f, st)
  | Some c => let* (r, st) := run c st in Ok (set_rax (u64 (ret_value r)) f, st)
  | None => Ok (set_rax (u64 (- errno_value ENOSYS)) f, st)
  end.

End Syscalls.

(** ** Descriptors *)

(** The address, limit and privilege the processor takes from a descriptor. *)
Definition gate_offset (e : idt_entry) : Z := base16_low e + base16_high e * 2 ^ 16 + base32_high e * 2 ^ 32.
Definition gate_dpl (e : idt_entry) : Z := Z.land (Z.shiftr (idt_flags e) 5) 3.
Definition gate_present (e : idt_entry) : bool := Z.testbit (idt_flags e) 7.
Definition gate_type (e : idt_entry) : Z := Z.land (idt_flags e) 0x1F.
Definition system_base (s : gdt_system_segment) : Z :=
  sys_base_low s + sys_base_midL s * 2 ^ 16 + sys_base_midU s * 2 ^ 24 + sys_base_high s * 2 ^ 32.
Definition system_limit (s : gdt_system_segment) : Z := sys_limit_low s + Z.land (sys_flags_limithigh s) 0xF * 2 ^ 16.
Definition segment_dpl (s : gdt_segment) : Z := Z.land (Z.shiftr (access s) 5) 3.
Definition segment_code (s : gdt_segment) : bool := Z.testbit (access s) 4 && Z.testbit (access s) 3.
Definition segment_long (s : gdt_segment) : bool := Z.testbit (flags_limithigh s) 5.

Lemma split_word addr : 0 <= addr < 2 ^ 64 ->
  Z.land addr 0xFFFF + Z.land (Z.shiftr addr 16) 0xFFFF * 2 ^ 16 + u32 (Z.shiftr addr 32) * 2 ^ 32 = addr.
Proof.
  intros H. change 0xFFFF with (2 ^ 16 - 1). rewrite !land_ones_mod, !Z.shiftr_div_pow2 by lia. unfold u32, wrap.
  rewrite (Z.mod_small (addr / 2 ^ 32)) by (split; [apply Z.div_pos; lia|apply Z.div_lt_upper_bound; lia]).
  change (2 ^ 32) with (2 ^ 16 * 2 ^ 16). rewrite <- (Z.div_div addr (2 ^ 16)) by lia.
  pose proof (Z.div_mod addr (2 ^ 16)). pose proof (Z.div_mod (addr / 2 ^ 16) (2 ^ 16)). lia.
Qed.

Lemma split_base base : 0 <= base < 2 ^ 64 -> system_base (gdt_system_segment_new 0x89 0 base 0) = base.
Proof.
  intros H. unfold system_base, gdt_system_segment_new. cbn [sys_base_low sys_base_midL sys_base_midU sys_base_high].
  change 0xFFFF with (2 ^ 16 - 1). change 0xFF with (2 ^ 8 - 1). change 0xFFFFFFFF with (2 ^ 32 - 1).
  rewrite !land_ones_mod, !Z.shiftr_div_pow2 by lia.
  rewrite (Z.mod_small (base / 2 ^ 32)) by (split; [apply Z.div_pos; lia|apply Z.div_lt_upper_bound; lia]).
  replace (base / 2 ^ 24) with (base / 2 ^ 16 / 2 ^ 8) by (rewrite Z.div_div by lia; done).
  replace (base / 2 ^ 32) with (base / 2 ^ 16 / 2 ^ 8 / 2 ^ 8) by (rewrite !Z.div_div by lia; done).
  pose proof (Z.div_mod base (2 ^ 16)). pose proof (Z.div_mod (base / 2 ^ 16) (2 ^ 8)).
  pose proof (Z.div_mod (base / 2 ^ 16 / 2 ^ 8) (2 ^ 8)). lia.
Qed.

(** The descriptor tables say what they are to say.  For every vector,
    the gate the processor reads back from the table leads to the stub of
    that vector, 16 bytes per stub, is present, is an interrupt gate in the
    kernel's code segment, and can be called from user mode for the system
    call vector only.  In the segment table the two kernel segments have
    privilege 0 and the two user segments privilege 3, the code segments are
    64-bit code, and the task segment has the address and size of the task
    state. *)
Theorem descriptors_correct isr_start tss_base : 0 <= isr_start -> isr_start + 4096 <= 2 ^ 64 -> 0 <= tss_base < 2 ^ 64 ->
  (forall i, 0 <= i < 256 -> exists e, idt_setup isr_start !! Z.to_nat i = Some e /\
    gate_offset e = isr_start + 16 * i /\ gate_present e = true /\ gate_type e = 0x0E /\ segment e = 8 /\
    gate_dpl e = if i =? 0x80 then 3 else 0) /\
  let g := gdt_init tss_base in
  map segment_dpl [g_kernel_cs g; g_kernel_ds g; g_user_cs g; g_user_ds g] = [0; 0; 3; 3] /\
  map segment_code [g_kernel_cs g; g_kernel_ds g; g_user_cs g; g_user_ds g] = [true; false; true; false] /\
  segment_long (g_kernel_cs g) = true /\ segment_long (g_user_cs g) = true /\
  system_base (g_tss g) = tss_base /\ system_limit (g_tss g) = 103.
Proof.
  intros H0 H1 Ht. split.
  - intros i Hi. exists (idt_entry_at isr_start i). split.
    { unfold idt_setup. rewrite list_lookup_fmap, lookup_seq_lt by lia. cbn [fmap option_fmap option_map]. do 2 f_equal. lia. }
    unfold gate_offset, gate_present, gate_type, gate_dpl, idt_entry_at.
    cbn [base16_low base16_high base32_high idt_flags segment].
    split; [|by destruct (i =? 128)]. rewrite split_word by (unfold u64, wrap; apply Z.mod_pos_bound; lia).
    unfold u64, wrap. rewrite Z.mod_small; lia.
  - split_and!; try done. exact (split_base tss_base Ht).
Qed.

Lemma descriptors_correct_witness :
  exists e, idt_setup 0xFFFFFFFF80100000 !! 128%nat = Some e /\ gate_offset e = 0xFFFFFFFF80100800 /\ gate_dpl e = 3.
Proof.
  destruct (descriptors_correct 0xFFFFFFFF80100000 0xFFFFFFFF80200000) as [H _]; [lia..|].
  destruct (H 128) as (e & E & Ho & _ & _ & _ & Hd); [lia|]. exists e. done.
Defined.

(** ** Interrupts *)

Lemma dispatch_total s id : irq_inv s -> 32 <= id < 160 ->
  exists events, irq_dispatch s id = Ok events /\ (virq_alloc s <= id <-> events = []).
Proof.
  intros (Hlen & Ha & _ & _ & Hent) Hid. unfold irq_dispatch.
  destruct (aget_in (virq_table s) (id - 32)) as (v & -> & Hv); [unfold zlen; lia|]. cbn [outcome_bind].
  specialize (Hent _ _ Hv). replace (Z.of_nat (Z.to_nat (id - 32)) + 32) with id in Hent by lia.
  destruct (Z.ltb_spec id (virq_alloc s)).
  - destruct Hent as (_ & [dom Hd] & Hn). destruct (Z.eqb_spec (v_domain v) 0); [done|]. unfold get_domain. rewrite Hd.
    cbn [deref outcome_bind]. eexists. split; [reflexivity|]. split; [lia|]. by destruct (v_handler v =? 0).
  - rewrite Hent. cbn. eexists. split; [reflexivity|]. split; [done|lia].
Qed.



(** ** System calls *)

Definition int_ok (v : Z) : Prop := - 2 ^ 31 <= v < 2 ^ 31.
Definition long_ok (v : Z) : Prop := - 2 ^ 63 <= v < 2 ^ 63.
Definition word_ok (v : Z) : Prop := 0 <= v < 2 ^ 32.
Definition reg_ok (v : Z) : Prop := 0 <= v < 2 ^ 64.

(** The registers a program sets up for a call: the number, then the arguments. *)
Definition call_regs (c : syscall) : Z * list Z :=
  match c with
  | SYS_OPEN a b => (0, [a; b])
  | SYS_OPENAT a b c => (1, [a; b; c])
  | SYS_CLOSE a => (2, [a])
  | SYS_READ a b c => (3, [a; b; c])
  | SYS_WRITE a b c => (4, [a; b; c])
  | SYS_SEEK a b c => (5, [a; b; c])
  | SYS_DUP a => (6, [a])
  | SYS_IOCTL a b c => (7, [a; b; c])
  | SYS_STAT a b => (8, [a; b])
  | SYS_FSTAT a b => (9, [a; b])
  | SYS_GETDENTS a b c => (10, [a; b; c])
  | SYS_MKDIR a b => (11, [a; b])
  | SYS_MOUNT a b c => (12, [a; b; c])
  | SYS_UMOUNT a => (13, [a])
  | SYS_MMAP a b c d e f => (14, [a; b; c; d; e; f])
  | SYS_MUNMAP a b => (15, [a; b])
  | SYS_MPROTECT a b c => (16, [a; b; c])
  | SYS_SPAWN a b c => (17, [a; b; c])
  | SYS_EXIT a => (18, [a])
  | SYS_WAITPID a b c => (19, [a; b; c])
  | SYS_GETPID => (20, [])
  | SYS_SETSID => (21, [])
  | SYS_GETPGID a => (22, [a])
  | SYS_SETPGID a => (23, [a])
  | SYS_CHDIR a => (24, [a])
  | SYS_GETCWD a b => (25, [a; b])
  | SYS_GETUID => (26, [])
  | SYS_SETUID a => (27, [a])
  | SYS_GETGID => (28, [])
  | SYS_SETGID a => (29, [a])
  | SYS_CLOCK_GETTIME a b => (30, [a; b])
  | SYS_CLOCK_NANOSLEEP a b c d => (31, [a; b; c; d])
  | SYS_ARCH_PRCTL a b => (32, [a; b])
  | SYS_SOCKET a b c => (33, [a; b; c])
  | SYS_BIND a b c => (34, [a; b; c])
  | SYS_RECVFROM a b c d e f => (35, [a; b; c; d; e; f])
  | SYS_SENDTO a b c d e f => (36, [a; b; c; d; e; f])
  end.

Definition call_ok (c : syscall) : Prop :=
  match c with
  | SYS_OPEN a b => reg_ok a /\ int_ok b
  | SYS_OPENAT a b c => int_ok a /\ reg_ok b /\ int_ok c
  | SYS_CLOSE a => int_ok a
  | SYS_READ a b c => int_ok a /\ reg_ok b /\ reg_ok c
  | SYS_WRITE a b c => int_ok a /\ reg_ok b /\ reg_ok c
  | SYS_SEEK a b c => int_ok a /\ long_ok b /\ int_ok c
  | SYS_DUP a => int_ok a
  | SYS_IOCTL a b c => int_ok a /\ reg_ok b /\ reg_ok c
  | SYS_STAT a b => reg_ok a /\ reg_ok b
  | SYS_FSTAT a b => int_ok a /\ reg_ok b
  | SYS_GETDENTS a b c => int_ok a /\ reg_ok b /\ reg_ok c
  | SYS_MKDIR a b => reg_ok a /\ word_ok b
  | SYS_MOUNT a b c => reg_ok a /\ reg_ok b /\ reg_ok c
  | SYS_UMOUNT a => reg_ok a
  | SYS_MMAP a b c d e f => reg_ok a /\ reg_ok b /\ int_ok c /\ int_ok d /\ int_ok e /\ long_ok f
  | SYS_MUNMAP a b => reg_ok a /\ reg_ok b
  | SYS_MPROTECT a b c => reg_ok a /\ reg_ok b /\ int_ok c
  | SYS_SPAWN a b c => reg_ok a /\ reg_ok b /\ reg_ok c
  | SYS_EXIT a => int_ok a
  | SYS_WAITPID a b c => int_ok a /\ reg_ok b /\ int_ok c
  | SYS_GETPID => True
  | SYS_SETSID => True
  | SYS_GETPGID a => int_ok a
  | SYS_SETPGID a => int_ok a
  | SYS_CHDIR a => reg_ok a
  | SYS_GETCWD a b => reg_ok a /\ reg_ok b
  | SYS_GETUID => True
  | SYS_SETUID a => word_ok a
  | SYS_GETGID => True
  | SYS_SETGID a => word_ok a
  | SYS_CLOCK_GETTIME a b => int_ok a /\ reg_ok b
  | SYS_CLOCK_NANOSLEEP a b c d => int_ok a /\ int_ok b /\ reg_ok c /\ reg_ok d
  | SYS_ARCH_PRCTL a b => int_ok a /\ reg_ok b
  | SYS_SOCKET a b c => int_ok a /\ int_ok b /\ int_ok c
  | SYS_BIND a b c => int_ok a /\ reg_ok b /\ reg_ok c
  | SYS_RECVFROM a b c d e f => int_ok a /\ reg_ok b /\ reg_ok c /\ int_ok d /\ reg_ok e /\ reg_ok f
  | SYS_SENDTO a b c d e f => int_ok a /\ reg_ok b /\ reg_ok c /\ int_ok d /\ reg_ok e /\ reg_ok f
  end.

(** The frame of a program that makes the call, from any other register contents. *)
Definition call_frame (c : syscall) (f : interrupt_frame) : interrupt_frame :=
  let '(n, args) := call_regs c in
  let reg k old := match args !! k with Some v => u64 v | None => old end in
  mk_frame n (reg 0%nat (rdi f)) (reg 1%nat (rsi f)) (reg 2%nat (rdx f)) (reg 3%nat (rcx f)) (reg 4%nat (r8 f)) (reg 5%nat (r9 f))
    0x80 (error_code f) (rip f).

Lemma s32_register v : int_ok v -> s32 (u64 v) = v.
Proof.
  unfold int_ok, s32, sint, u64, wrap. intros H. cbv zeta. rewrite Z.mod_mod_divide by (exists (2 ^ 32); lia).
  destruct (Z.ltb_spec (v mod 2 ^ 32) (2 ^ (32 - 1))) as [Hc|Hc]; revert Hc; Z.to_euclidean_division_equations; lia.
Qed.

Lemma s64_register v : long_ok v -> s64 (u64 v) = v.
Proof.
  unfold long_ok, s64, sint, u64, wrap. intros H. cbv zeta. rewrite Z.mod_mod by lia.
  destruct (Z.ltb_spec (v mod 2 ^ 64) (2 ^ (64 - 1))) as [Hc|Hc]; revert Hc; Z.to_euclidean_division_equations; lia.
Qed.

Lemma u32_register v : word_ok v -> u32 (u64 v) = v.
Proof. unfold word_ok, u32, u64, wrap. intros H. rewrite (Z.mod_small v (2 ^ 64)) by lia. apply Z.mod_small. lia. Qed.

Lemma u64_reg v : reg_ok v -> u64 v = v.
Proof. unfold reg_ok, u64, wrap. intros H. by apply Z.mod_small. Qed.

Create Rewrite HintDb width.
#[export] Hint Rewrite s32_register s64_register u32_register u64_reg using assumption : width.

Lemma decode_call c f : call_ok c -> decode (call_frame c f) = Some c.
Proof.
  destruct c; cbn [call_ok]; intros H; deex; unfold call_frame, decode;
    cbn [call_regs lookup list_lookup rax rdi rsi rdx rcx r8 r9]; by autorewrite with width.
Qed.

(** A number past the last call decodes to none. *)
Lemma decode_unknown f : 37 <= rax f -> decode f = None.
Proof.
  intros H. unfold decode. destruct (rax f) as [|p|p]; [lia| |lia].
  do 6 (destruct p as [p|p|]; try reflexivity; try lia).
Qed.

(** C35: a system call reaches its implementation with the arguments the
    program passed, and the program gets its result.  Whatever call a program
    puts in the registers, with arguments in the ranges of their types,
    negative ones included, and whatever the other registers hold, the
    handler runs exactly that call; the program reads back the returned value
    or the negated error code, and no other register has changed.  A number
    that is no call returns the error for it and changes nothing. *)
Theorem syscall_roundtrip {St} (run : syscall -> St -> outcome (ret * St)) errno_value c f st r st' n :
  call_ok c -> (forall status, c <> SYS_EXIT status) -> run c st = Ok (r, st') -> long_ok (ret_value errno_value r) -> 37 <= n ->
  (exists f', syscall_handler run errno_value (call_frame c f) st = Ok (f', st') /\
    s64 (rax f') = ret_value errno_value r /\ f' = set_rax (rax f') (call_frame c f)) /\
  syscall_handler run errno_value (set_rax n f) st = Ok (set_rax (u64 (- errno_value ENOSYS)) f, st).
Proof.
  intros Hok Hne Hrun Hr Hn. unfold syscall_handler. rewrite decode_call by done. rewrite decode_unknown by done. split; [|by destruct f].
  exists (set_rax (u64 (ret_value errno_value r)) (call_frame c f)). split; [|split; [by apply s64_register|done]].
  destruct c; try (rewrite Hrun; reflexivity). by destruct (Hne status).
Qed.

(** Reading a directory relative to the working one (descriptor -2), which fails. *)
Lemma syscall_roundtrip_witness : exists f',
  syscall_handler (fun _ (st : Z) => Ok (RErr EBADF, st + 1)) (fun _ => 9) (call_frame (SYS_OPENAT (-2) 0x400000 0) (mk_frame 0 0 0 0 0 0 0 0 0 0)) 5 =
    Ok (f', 6) /\ s64 (rax f') = -9.
Proof.
  destruct (syscall_roundtrip (fun _ (st : Z) => Ok (RErr EBADF, st + 1)) (fun _ => 9) (SYS_OPENAT (-2) 0x400000 0)
    (mk_frame 0 0 0 0 0 0 0 0 0 0) 5 (RErr EBADF) 6 37) as [(f' & E & Hr & _) _].
  - unfold call_ok, int_ok, reg_ok. lia.
  - done.
  - done.
  - unfold long_ok. cbn. lia.
  - lia.
  - exists f'. done.
Defined.
