(* ===== verification/Smp.v ===== *)
(** * Processors

    kernel/arch/x86_64/cpu.c and lapic.c: the switch between tasks with their
    floating point state, thread pointer, address space and kernel stack, the
    interrupts between processors, the timer and the stack trace.  The
    registers that the instructions of these functions load and store are
    fields of the processor; the local interrupt controller is an interface. *)

From stdpp Require Import base numbers list gmap relations.
From Stdlib Require Import ZArith Lia.
From S2P Require Import Prelude.

(** ** Switching tasks *)

(** The fields of [struct task] that cpu.c uses; a context is an address. *)
Record arch_task := mk_arch_task { context : Z; rsp0_top : Z; tls_base : Z; current_vm_space : Z }.

(** [cpu_t] with the registers of the processor: [r_simd] is what fxsave
    stores, [r_fs_base] a model specific register and [r_cr3] the page table. *)
Record cpu_t := mk_cpu {
  cpu_id : Z;
  lapic_id : Z;
  cur_pgt : Z;
  current_task : Z;
  tss_rsp0 : Z;
  r_simd : list Z;
  r_fs_base : Z;
  r_cr3 : Z;
}.

(** The processors by number, the tasks, the saved contexts and the roots of
    the address spaces. *)
Record smp := mk_smp {
  cpus : gmap Z cpu_t;
  arch_tasks : gmap Z arch_task;
  contexts : gmap Z (list Z);
  mmu_roots : gmap Z Z;
}.

Definition set_cpu (i : Z) (c : cpu_t) (s : smp) : smp := mk_smp (<[i := c]> (cpus s)) (arch_tasks s) (contexts s) (mmu_roots s).
Definition set_contexts (v : gmap Z (list Z)) (s : smp) : smp := mk_smp (cpus s) (arch_tasks s) v (mmu_roots s).
Definition set_simd (v : list Z) (c : cpu_t) : cpu_t :=
  mk_cpu (cpu_id c) (lapic_id c) (cur_pgt c) (current_task c) (tss_rsp0 c) v (r_fs_base c) (r_cr3 c).

Definition cpu_set_pagetable (s : smp) (i pgt : Z) : outcome smp :=
  let* c := deref (cpus s !! i) in
  Ok (set_cpu i (mk_cpu (cpu_id c) (lapic_id c) pgt (current_task c) (tss_rsp0 c) (r_simd c) (r_fs_base c) (u64 (pgt - VM_DMAP_BASE))) s).

Definition native_set_tls (s : smp) (i base : Z) : outcome smp :=
  let* c := deref (cpus s !! i) in
  Ok (set_cpu i (mk_cpu (cpu_id c) (lapic_id c) (cur_pgt c) (current_task c) (tss_rsp0 c) (r_simd c) base (r_cr3 c)) s).

(** [default_xsave] holds the state after fninit. *)
Definition cpu_context_new (s : smp) (ctx : Z) (default_xsave : list Z) : smp := set_contexts (<[ctx := default_xsave]> (contexts s)) s.
Definition cpu_context_destroy (s : smp) (ctx : Z) : smp := set_contexts (delete ctx (contexts s)) s.

Definition cpu_context_save (s : smp) (i ctx : Z) : outcome smp :=
  let* c := deref (cpus s !! i) in
  let* _ := deref (contexts s !! ctx) in
  Ok (set_contexts (<[ctx := r_simd c]> (contexts s)) s).

Definition cpu_context_restore (s : smp) (i ctx : Z) : outcome smp :=
  let* c := deref (cpus s !! i) in
  let* v := deref (contexts s !! ctx) in
  Ok (set_cpu i (set_simd v c) s).

(** [cpu_switch_task] on processor [i]. *)
Definition cpu_switch_task (s : smp) (i prev next : Z) : outcome smp :=
  let* p := deref (arch_tasks s !! prev) in
  let* n := deref (arch_tasks s !! next) in
  let* c := deref (cpus s !! i) in
  let s := set_cpu i (mk_cpu (cpu_id c) (lapic_id c) (cur_pgt c) next (rsp0_top n) (r_simd c) (r_fs_base c) (r_cr3 c)) s in
  let* s := if context p =? 0 then Ok s else cpu_context_save s i (context p) in
  let* s := native_set_tls s i (tls_base n) in
  let* s :=
    if current_vm_space p =? current_vm_space n then Ok s
    else let* root := deref (mmu_roots s !! current_vm_space n) in cpu_set_pagetable s i root in
  if context n =? 0 then Ok s else cpu_context_restore s i (context n).

(** ** Tasks keep their state *)

(** What happens on the processors, with the floating point state that each
    task last computed: a task computes, it sets its thread pointer, or the
    scheduler switches to a task that runs nowhere. *)
Inductive smp_step : smp * gmap Z (list Z) -> smp * gmap Z (list Z) -> Prop :=
| step_compute s g i c v :
    cpus s !! i = Some c ->
    smp_step (s, g) (set_cpu i (set_simd v c) s, <[current_task c := v]> g)
| step_set_tls s g i c t base s' :
    cpus s !! i = Some c -> arch_tasks s !! current_task c = Some t ->
    native_set_tls s i base = Ok s' ->
    smp_step (s, g)
      (mk_smp (cpus s') (<[current_task c := mk_arch_task (context t) (rsp0_top t) base (current_vm_space t)]> (arch_tasks s'))
         (contexts s') (mmu_roots s'), g)
| step_switch s g i c next s' :
    cpus s !! i = Some c -> is_Some (arch_tasks s !! next) ->
    (forall j d, cpus s !! j = Some d -> current_task d <> next) ->
    cpu_switch_task s i (current_task c) next = Ok s' ->
    smp_step (s, g) (s', g).

(** The processor runs [t] with its registers. *)
Definition runs (s : smp) (c : cpu_t) (t : arch_task) : Prop :=
  arch_tasks s !! current_task c = Some t /\ tss_rsp0 c = rsp0_top t /\ r_fs_base c = tls_base t /\
  exists root, mmu_roots s !! current_vm_space t = Some root /\ r_cr3 c = u64 (root - VM_DMAP_BASE).

Definition running (s : smp) (t : Z) : Prop := exists i c, cpus s !! i = Some c /\ current_task c = t.

Record smp_inv (s : smp) (g : gmap Z (list Z)) : Prop := {
  si_runs : forall i c, cpus s !! i = Some c -> exists t, runs s c t /\ (context t <> 0 -> g !! current_task c = Some (r_simd c));
  si_once : forall i j c d, cpus s !! i = Some c -> cpus s !! j = Some d -> current_task c = current_task d -> i = j;
  si_saved : forall a t, arch_tasks s !! a = Some t -> context t <> 0 -> ~ running s a ->
    exists v, contexts s !! context t = Some v /\ g !! a = Some v;
  si_context : forall a t, arch_tasks s !! a = Some t -> context t <> 0 -> is_Some (contexts s !! context t);
  si_apart : forall a b t u, arch_tasks s !! a = Some t -> arch_tasks s !! b = Some u -> context t <> 0 ->
    context t = context u -> a = b;
  si_space : forall a t, arch_tasks s !! a = Some t -> is_Some (mmu_roots s !! current_vm_space t);
}.

(** The contexts after the switch away from [p]. *)
Definition saved_contexts (s : smp) (c : cpu_t) (p : arch_task) : gmap Z (list Z) :=
  if context p =? 0 then contexts s else <[context p := r_simd c]> (contexts s).

(** The state after a switch. *)
Lemma cpu_switch_task_spec s i c prev next p n root :
  arch_tasks s !! prev = Some p -> arch_tasks s !! next = Some n -> cpus s !! i = Some c ->
  mmu_roots s !! current_vm_space n = Some root ->
  (context p <> 0 -> is_Some (contexts s !! context p)) -> (context n <> 0 -> is_Some (contexts s !! context n)) ->
  exists pgt simd cr3,
    cpu_switch_task s i prev next =
      Ok (mk_smp (<[i := mk_cpu (cpu_id c) (lapic_id c) pgt next (rsp0_top n) simd (tls_base n) cr3]> (cpus s)) (arch_tasks s)
            (saved_contexts s c p) (mmu_roots s)) /\
    (context n <> 0 -> saved_contexts s c p !! context n = Some simd) /\
    cr3 = (if current_vm_space p =? current_vm_space n then r_cr3 c else u64 (root - VM_DMAP_BASE)).
Proof.
  intros Hp Hn Hc Hr Hlp Hln. unfold cpu_switch_task. rewrite Hp, Hn, Hc. cbn [deref outcome_bind].
  assert (context n <> 0 -> is_Some (saved_contexts s c p !! context n)) as Hsn.
  { intros Hne. unfold saved_contexts. destruct (context p =? 0); [by apply Hln|]. rewrite lookup_insert_is_Some'. by right; apply Hln. }
  match goal with |- context [if context p =? 0 then Ok ?u else _] => set (s1 := u) end.
  assert ((if context p =? 0 then Ok s1 else cpu_context_save s1 i (context p)) = Ok (set_contexts (saved_contexts s c p) s1)) as ->.
  { unfold saved_contexts. destruct (Z.eqb_spec (context p) 0) as [|Hne]; [done|]. unfold cpu_context_save. cbn [s1 cpus set_cpu contexts].
    rewrite lookup_insert_eq. destruct (Hlp Hne) as [v ->]. done. }
  cbn [outcome_bind]. unfold native_set_tls. cbn [s1 set_contexts cpus set_cpu]. rewrite lookup_insert_eq. cbn [deref outcome_bind].
  subst s1. unfold set_contexts, set_cpu. cbn [cpus arch_tasks contexts mmu_roots]. rewrite insert_insert_eq.
  destruct (current_vm_space p =? current_vm_space n).
  - cbn [outcome_bind]. destruct (Z.eqb_spec (context n) 0) as [E|E].
    + eexists _, _, _. split; [reflexivity|]. done.
    + unfold cpu_context_restore. cbn [cpus contexts]. rewrite lookup_insert_eq. cbn [deref outcome_bind].
      destruct (Hsn E) as [v Ev]. rewrite Ev. cbn [deref outcome_bind]. unfold set_cpu. cbn [cpus]. rewrite insert_insert_eq.
      eexists _, v, _. split; [reflexivity|]. done.
  - rewrite Hr. cbn [deref outcome_bind]. unfold cpu_set_pagetable. cbn [cpus]. rewrite lookup_insert_eq. cbn [deref outcome_bind].
    unfold set_cpu. cbn [cpus arch_tasks contexts mmu_roots]. rewrite insert_insert_eq.
    destruct (Z.eqb_spec (context n) 0) as [E|E].
    + eexists _, _, _. split; [reflexivity|]. done.
    + unfold cpu_context_restore. cbn [cpus contexts]. rewrite lookup_insert_eq. cbn [deref outcome_bind].
      destruct (Hsn E) as [v Ev]. rewrite Ev. cbn [deref outcome_bind]. unfold set_cpu. cbn [cpus]. rewrite insert_insert_eq.
      eexists _, v, _. split; [reflexivity|]. done.
Qed.

(** A switch to a task that runs nowhere. *)
Lemma switch_inv s g i c next : smp_inv s g -> cpus s !! i = Some c -> is_Some (arch_tasks s !! next) ->
  (forall j d, cpus s !! j = Some d -> current_task d <> next) ->
  exists s', cpu_switch_task s i (current_task c) next = Ok s' /\ smp_inv s' g.
Proof.
  intros I Hc [n Hn] Hidle. destruct (si_runs s g I i c Hc) as (p & (Hp & Hrsp & Hfs & root_p & Hrp & Hcr) & Hg).
  destruct (si_space s g I next n Hn) as [root Hroot].
  destruct (cpu_switch_task_spec s i c (current_task c) next p n root Hp Hn Hc Hroot) as (pgt & simd & cr3 & E & Hsimd & Ecr);
    [intros; by eapply (si_context s g I)..|].
  eexists. split; [exact E|]. set (c' := mk_cpu _ _ _ next _ _ _ _).
  assert (~ running s next) as Hnot by (intros (j & d & Hd & Hcur); by apply (Hidle j d)).
  split; cbn [cpus arch_tasks contexts mmu_roots].
  - intros j d Hd. destruct (decide (i = j)) as [<-|Hne].
    + rewrite lookup_insert_eq in Hd. injection Hd as <-. exists n. split.
      * split_and!; try done. exists root. split; [done|]. cbn. rewrite Ecr. destruct (Z.eqb_spec (current_vm_space p) (current_vm_space n)) as [Es|]; [|done].
        rewrite Es in Hrp. congruence.
      * intros Hnz. cbn. destruct (si_saved s g I next n Hn Hnz Hnot) as (v & Hv & Hgv). rewrite Hgv. f_equal.
        specialize (Hsimd Hnz). unfold saved_contexts in Hsimd. destruct (Z.eqb_spec (context p) 0); [congruence|].
        destruct (decide (context p = context n)) as [Ec|]; [|rewrite lookup_insert_ne in Hsimd by done; congruence].
        exfalso. apply (Hidle i c Hc). by eapply (si_apart s g I).
    + rewrite lookup_insert_ne in Hd by done. by apply (si_runs s g I j d).
  - intros j k d e Hd He. rewrite !lookup_insert_Some in Hd, He.
    destruct Hd as [[-> <-]|[Hj Hd]], He as [[-> <-]|[Hk He]]; try done.
    + intros Heq. cbn in Heq. exfalso. by apply (Hidle k e).
    + intros Heq. cbn in Heq. exfalso. by apply (Hidle j d).
    + intros Heq. by eapply (si_once s g I).
  - intros a t Ha Hnz Hna. unfold saved_contexts. destruct (decide (a = current_task c)) as [->|Hne].
    + rewrite Hp in Ha. injection Ha as <-. destruct (Z.eqb_spec (context p) 0); [done|]. exists (r_simd c).
      rewrite lookup_insert_eq. split; [done|by apply Hg].
    + assert (~ running s a) as Hns.
      { intros (j & d & Hd & Hcur). apply Hna. exists j, d. cbn [cpus]. rewrite lookup_insert_ne; [done|]. intros <-. congruence. }
      destruct (si_saved s g I a t Ha Hnz Hns) as (v & Hv & Hgv). exists v. split; [|done].
      destruct (Z.eqb_spec (context p) 0); [done|]. rewrite lookup_insert_ne; [done|]. intros Ec. apply Hne. symmetry. by eapply (si_apart s g I).
  - intros a t Ha Hnz. unfold saved_contexts. destruct (context p =? 0); [|rewrite lookup_insert_is_Some'; right]; by eapply (si_context s g I).
  - apply (si_apart s g I).
  - apply (si_space s g I).
Qed.

(** The other steps. *)
Lemma compute_inv s g i c v : smp_inv s g -> cpus s !! i = Some c ->
  smp_inv (set_cpu i (set_simd v c) s) (<[current_task c := v]> g).
Proof.
  intros I Hc. assert (forall a, running (set_cpu i (set_simd v c) s) a <-> running s a) as Hrun.
  { intros a. unfold running. cbn [set_cpu cpus]. split; intros (j & d & Hd & <-).
    - rewrite lookup_insert_Some in Hd. destruct Hd as [[<- <-]|[_ Hd]]; [by exists i, c|by exists j, d].
    - destruct (decide (i = j)) as [<-|]; [exists i, (set_simd v c); rewrite lookup_insert_eq|exists j, d; by rewrite lookup_insert_ne].
      rewrite Hc in Hd. injection Hd as <-. done. }
  split; cbn [set_cpu cpus arch_tasks contexts mmu_roots].
  - intros j d Hd. rewrite lookup_insert_Some in Hd. destruct Hd as [[<- <-]|[Hne Hd]].
    + destruct (si_runs s g I i c Hc) as (t & Ht & _). exists t. split; [exact Ht|]. intros _. apply lookup_insert_eq.
    + destruct (si_runs s g I j d Hd) as (t & Ht & Hg). exists t. split; [exact Ht|]. intros Hnz.
      rewrite lookup_insert_ne; [by apply Hg|]. intros Heq. apply Hne. by eapply (si_once s g I).
  - intros j k d e Hd He. rewrite !lookup_insert_Some in Hd, He.
    destruct Hd as [[<- <-]|[_ Hd]], He as [[<- <-]|[_ He]]; [done| | |]; intros Heq; eapply (si_once s g I); done.
  - intros a t Ha Hnz Hna. rewrite Hrun in Hna. destruct (si_saved s g I a t Ha Hnz Hna) as (w & Hw & Hgw). exists w. split; [done|].
    rewrite lookup_insert_ne; [done|]. intros <-. apply Hna. by exists i, c.
  - apply (si_context s g I).
  - apply (si_apart s g I).
  - apply (si_space s g I).
Qed.

Lemma set_tls_inv s g i c t base s' : smp_inv s g -> cpus s !! i = Some c -> arch_tasks s !! current_task c = Some t ->
  native_set_tls s i base = Ok s' ->
  smp_inv (mk_smp (cpus s') (<[current_task c := mk_arch_task (context t) (rsp0_top t) base (current_vm_space t)]> (arch_tasks s'))
         (contexts s') (mmu_roots s')) g.
Proof.
  intros I Hc Ht. unfold native_set_tls. rewrite Hc. cbn [deref outcome_bind]. intros [= <-]. set (t' := mk_arch_task _ _ base _).
  set (c' := mk_cpu _ _ _ _ _ _ base _). cbn [set_cpu cpus arch_tasks contexts mmu_roots].
  assert (forall a u, <[current_task c := t']> (arch_tasks s) !! a = Some u ->
    exists u0, arch_tasks s !! a = Some u0 /\ context u0 = context u /\ current_vm_space u0 = current_vm_space u) as Hold.
  { intros a u Ha. rewrite lookup_insert_Some in Ha. destruct Ha as [[<- <-]|[_ Ha]]; [by exists t|by exists u]. }
  split; cbn [cpus arch_tasks contexts mmu_roots].
  - intros j d Hd. rewrite lookup_insert_Some in Hd. destruct Hd as [[<- <-]|[Hne Hd]].
    + destruct (si_runs s g I i c Hc) as (u & (Hu & Hrsp & _ & Hcr) & Hg). rewrite Ht in Hu. injection Hu as <-.
      exists t'. split; [|exact Hg]. split; [apply lookup_insert_eq|]. done.
    + destruct (si_runs s g I j d Hd) as (u & (Hu & Hrest) & Hg). exists u. split; [|exact Hg]. split; [|exact Hrest]. cbn [arch_tasks].
      rewrite lookup_insert_ne; [done|]. intros Heq. apply Hne. by eapply (si_once s g I).
  - intros j k d e Hd He. rewrite !lookup_insert_Some in Hd, He.
    destruct Hd as [[<- <-]|[_ Hd]], He as [[<- <-]|[_ He]]; [done| | |]; intros Heq; eapply (si_once s g I); done.
  - intros a u Ha Hnz Hna. destruct (Hold a u Ha) as (u0 & Hu0 & Ec & _). rewrite <- Ec in *. apply (si_saved s g I a u0 Hu0 Hnz).
    intros (j & d & Hd & Hcur). apply Hna. unfold running. cbn [cpus].
    destruct (decide (i = j)) as [<-|]; [exists i, c'|exists j, d; by rewrite lookup_insert_ne].
    rewrite lookup_insert_eq. split; [done|]. cbn. congruence.
  - intros a u Ha Hnz. destruct (Hold a u Ha) as (u0 & Hu0 & Ec & _). rewrite <- Ec in *. by eapply (si_context s g I).
  - intros a b u w Ha Hb Hnz Heq. destruct (Hold a u Ha) as (u0 & Hu0 & Ec & _). destruct (Hold b w Hb) as (w0 & Hw0 & Ew & _).
    eapply (si_apart s g I); [done|done|congruence..].
  - intros a u Ha. destruct (Hold a u Ha) as (u0 & Hu0 & _ & <-). by eapply (si_space s g I).
Qed.

Lemma smp_steps_inv s g s' g' : smp_inv s g -> rtc smp_step (s, g) (s', g') -> smp_inv s' g'.
Proof.
  intros I Hst. remember (s, g) as x eqn:Ex. remember (s', g') as y eqn:Ey. revert s g Ex I.
  induction Hst as [x|x z y Hstep _ IH]; intros s g -> I; [by simplify_eq|].
  inversion Hstep as [? ? i c v Hc|? ? i c t base s1 Hc Ht Hset|? ? i c next s1 Hc Hn Hidle Hsw]; subst.
  - eapply IH; [done|reflexivity|]. by apply compute_inv.
  - eapply IH; [done|reflexivity|]. by eapply set_tls_inv.
  - eapply IH; [done|reflexivity|]. destruct (switch_inv s g i c next I Hc Hn Hidle) as (s2 & E & I2). congruence.
Qed.


(** One processor and two programs, with the tasks at 16 and 32. *)
Definition two_tasks : smp :=
  mk_smp {[0 := mk_cpu 0 0 0 16 0x8000 [1] 0x100 (u64 (0x5000 - VM_DMAP_BASE))]}
    {[16 := mk_arch_task 64 0x8000 0x100 1; 32 := mk_arch_task 80 0x9000 0x200 2]}
    {[64 := [0]; 80 := [2]]} {[1 := 0x5000; 2 := 0x6000]}.

Lemma two_tasks_inv : smp_inv two_tasks {[16 := [1]; 32 := [2]]}.
Proof.
  assert (forall a t, arch_tasks two_tasks !! a = Some t ->
    (a = 16 /\ t = mk_arch_task 64 0x8000 0x100 1) \/ (a = 32 /\ t = mk_arch_task 80 0x9000 0x200 2)) as Ht.
  { intros a t Ha. unfold two_tasks in Ha. cbn [arch_tasks] in Ha. rewrite lookup_insert_Some, lookup_singleton_Some in Ha. naive_solver. }
  assert (forall i c, cpus two_tasks !! i = Some c -> i = 0 /\ c = mk_cpu 0 0 0 16 0x8000 [1] 0x100 (u64 (0x5000 - VM_DMAP_BASE))) as Hc.
  { intros i c Hi. unfold two_tasks in Hi. cbn [cpus] in Hi. rewrite lookup_singleton_Some in Hi. naive_solver. }
  split.
  - intros i c Hi. apply Hc in Hi as [-> ->]. eexists. split; [|done]. split; [reflexivity|]. split_and!; try done. by exists 0x5000.
  - intros i j c d Hi Hj _. apply Hc in Hi as [-> _]. by apply Hc in Hj as [-> _].
  - intros a t Ha _ Hn. apply Ht in Ha as [[-> ->]|[-> ->]]; [|by exists [2]]. exfalso. apply Hn. by exists 0, (mk_cpu 0 0 0 16 0x8000 [1] 0x100 (u64 (0x5000 - VM_DMAP_BASE))).
  - intros a t Ha _. by apply Ht in Ha as [[-> ->]|[-> ->]]; eexists.
  - intros a b t u Ha Hb _ Heq. apply Ht in Ha as [[-> ->]|[-> ->]], Hb as [[-> ->]|[-> ->]]; done.
  - intros a t Ha. by apply Ht in Ha as [[-> ->]|[-> ->]]; eexists.
Qed.

(** Computing and switching on processor 0. *)
Definition compute (v : list Z) (s : smp) : smp := match cpus s !! 0 with Some c => set_cpu 0 (set_simd v c) s | None => s end.
Definition switch (prev next : Z) (s : smp) : smp := match cpu_switch_task s 0 prev next with Ok s' => s' | _ => s end.

Lemma compute_step s g v a : (current_task <$> cpus s !! 0) = Some a -> smp_step (s, g) (compute v s, <[a := v]> g).
Proof.
  intros E. unfold compute. destruct (cpus s !! 0) as [c|] eqn:Hc; [|done]. injection E as <-. by apply step_compute.
Qed.

Lemma switch_step s g prev next : (current_task <$> cpus s !! 0) = Some prev -> is_Some (arch_tasks s !! next) ->
  map_Forall (fun _ d => current_task d <> next) (cpus s) ->
  (match cpu_switch_task s 0 prev next with Ok _ => true | _ => false end) = true -> smp_step (s, g) (switch prev next s, g).
Proof.
  intros E Hn Hidle Hok. unfold switch. destruct (cpu_switch_task s 0 prev next) as [s'| | |] eqn:Es; try done.
  destruct (cpus s !! 0) as [c|] eqn:Hc; [|done]. injection E as <-. by apply (step_switch s g 0 c next).
Qed.


(** ** lapic.c *)

Definition LAPIC_NMI_IPI : Z := 0x400.
Definition LAPIC_INIT_IPI : Z := 0x500.
Definition LAPIC_STARTUP_IPI : Z := 0x600.
Definition LAPIC_REG_EOI : Z := 0x0b0.
Definition LAPIC_REG_SPURIOUS_INT : Z := 0x0f0.
Definition LAPIC_REG_ICR : Z := 0x300.
Definition LAPIC_REG_LVT_TIMER : Z := 0x320.
Definition LAPIC_REG_TIMER_INITCNT : Z := 0x380.
Definition LAPIC_REG_TIMER_CURRCNT : Z := 0x390.
Definition LAPIC_REG_TIMER_DIVIDER : Z := 0x3e0.
Definition LAPIC_ICR_STATUS : Z := 0x01000.
Definition LAPIC_ICR_INIT_DEASSERT : Z := 0x04000.
Definition APIC_BASE_MSR_ENABLE : Z := 0x800.
Definition LAPIC_SPURIOUS_ENABLE : Z := 0x100.
Definition LAPIC_SPURIOUS_INT : Z := 0xFF.

(** The registers of the controller; reading one takes time. *)
Class Lapic (H : Type) := {
  lapic_read : H -> Z -> Z * H;
  lapic_write : H -> Z -> Z -> H;
}.

Section lapic.
Context {H : Type} {L : Lapic H}.
Implicit Types h : H.

(** [INTERRUPT_VECTOR_TIMER] is the vector [vector]. *)
Definition lapic_timer_set_periodic (vector timer_interval : Z) (h : H) : H :=
  let h := lapic_write h LAPIC_REG_LVT_TIMER (Z.lor vector 0x20000) in
  let h := lapic_write h LAPIC_REG_TIMER_DIVIDER 0x3 in
  lapic_write h LAPIC_REG_TIMER_INITCNT (u32 timer_interval).

Definition lapic_eoi (h : H) : H := lapic_write h LAPIC_REG_EOI 0.

(** [clock_wait] stands for the wait with interrupts on; the result is the
    interval and the factor of the timer. *)
Definition lapic_timer_calibrate (clock_wait : H -> H) (h : H) : Z * Z * H :=
  let h := lapic_write h LAPIC_REG_TIMER_DIVIDER 0x3 in
  let h := lapic_write h LAPIC_REG_TIMER_INITCNT 0xFFFFFFFF in
  let h := clock_wait h in
  let h := lapic_write h LAPIC_REG_LVT_TIMER (Z.shiftl 1 16) in
  let '(count, h) := lapic_read h LAPIC_REG_TIMER_CURRCNT in
  let ticks := u32 (0xFFFFFFFF - count) in
  (ticks, u64 (Z.shiftl ticks 32) / 10000000, h).

(** The value of the base register and the controller after [lapic_enable]. *)
Definition lapic_enable (base_address : Z) (h : H) : Z * H :=
  (Z.lor (u64 (base_address - VM_DMAP_BASE)) APIC_BASE_MSR_ENABLE,
   lapic_write h LAPIC_REG_SPURIOUS_INT (Z.lor LAPIC_SPURIOUS_ENABLE LAPIC_SPURIOUS_INT)).

Fixpoint ipi_wait (fuel : nat) (h : H) : outcome H :=
  match fuel with
  | O => OutOfFuel
  | S fuel => let '(v, h) := lapic_read h LAPIC_REG_ICR in if has v LAPIC_ICR_STATUS then ipi_wait fuel h else Ok h
  end.

Definition lapic_send_ipi (fuel : nat) (h : H) (id ipi : Z) : outcome H :=
  let h := lapic_write h (LAPIC_REG_ICR + 0x10) (u32 (Z.shiftl id 24)) in
  let h := lapic_write h LAPIC_REG_ICR ipi in
  ipi_wait fuel h.

(** The loop of [smp_stop_cpus] over the processors' interrupt ids. *)
Fixpoint stop_loop (fuel : nat) (h : H) (self : Z) (lapic_ids : list Z) : outcome H :=
  match lapic_ids with
  | [] => Ok h
  | lid :: lapic_ids =>
      let* h := if lid =? self then Ok h else lapic_send_ipi fuel h lid (Z.lor LAPIC_NMI_IPI LAPIC_ICR_INIT_DEASSERT) in
      stop_loop fuel h self lapic_ids
  end.

Definition smp_stop_cpus (fuel : nat) (h : H) (self : nat) (lapic_ids : list Z) : outcome H :=
  let* id := deref (lapic_ids !! self) in stop_loop fuel h id lapic_ids.

Definition trampoline_start : Z := 0x1000.

(** The loop of [smp_init] that starts the processors after the first. *)
Fixpoint start_loop (fuel : nat) (h : H) (lapic_ids : list Z) : outcome H :=
  match lapic_ids with
  | [] => Ok h
  | lid :: lapic_ids =>
      let* h := lapic_send_ipi fuel h lid (Z.lor LAPIC_INIT_IPI LAPIC_ICR_INIT_DEASSERT) in
      let* h := lapic_send_ipi fuel h lid (Z.lor (Z.lor LAPIC_STARTUP_IPI LAPIC_ICR_INIT_DEASSERT) (Z.shiftr trampoline_start 12)) in
      start_loop fuel h lapic_ids
  end.

Definition smp_start_aps (fuel : nat) (h : H) (lapic_ids : list Z) : outcome H := start_loop fuel h (tail lapic_ids).

(** What is documented of sending: the destination is the upper byte of the
    second command register, a write to the first one sends its low bits to it,
    and within [delay] reads the status bit is clear. *)
Record sends (sent : H -> list (Z * Z)) (dest : H -> Z) (delay : nat) : Prop := {
  sd_dest : forall h v, dest (lapic_write h (LAPIC_REG_ICR + 0x10) v) = v / 2 ^ 24 /\ sent (lapic_write h (LAPIC_REG_ICR + 0x10) v) = sent h;
  sd_send : forall h v, sent (lapic_write h LAPIC_REG_ICR v) = sent h ++ [(dest h, v)];
  sd_read : forall h, sent (lapic_read h LAPIC_REG_ICR).2 = sent h;
  sd_done : forall h v, exists h', ipi_wait delay (lapic_write h LAPIC_REG_ICR v) = Ok h';
}.

Section sending.
Context (sent : H -> list (Z * Z)) (dest : H -> Z) (delay : nat) (Hs : sends sent dest delay).

Lemma ipi_wait_sent fuel : forall h h', ipi_wait fuel h = Ok h' -> sent h' = sent h.
Proof.
  induction fuel as [|fuel IH]; intros h h' E; [done|]. simpl in E. pose proof (sd_read _ _ _ Hs h) as Hr.
  destruct (lapic_read h LAPIC_REG_ICR) as [v h1]. simpl in Hr. destruct (has v LAPIC_ICR_STATUS); [rewrite (IH _ _ E)|]; congruence.
Qed.

Lemma lapic_send_ipi_spec h id ipi : 0 <= id < 256 ->
  exists h', lapic_send_ipi delay h id ipi = Ok h' /\ sent h' = sent h ++ [(id, ipi)].
Proof.
  intros Hid. unfold lapic_send_ipi. set (h1 := lapic_write h _ _).
  destruct (sd_done _ _ _ Hs h1 ipi) as (h' & E). exists h'. split; [done|].
  rewrite (ipi_wait_sent _ _ _ E), (sd_send _ _ _ Hs). destruct (sd_dest _ _ _ Hs h (u32 (Z.shiftl id 24))) as [Ed Es].
  subst h1. rewrite Ed, Es. rewrite Z.shiftl_mul_pow2, u32_small, Z.div_mul by lia. done.
Qed.

(** Every other processor gets one interrupt, and this one none. *)
Theorem smp_stop_cpus_correct h self lapic_ids id : Forall (fun i => 0 <= i < 256) lapic_ids -> lapic_ids !! self = Some id ->
  exists h', smp_stop_cpus delay h self lapic_ids = Ok h' /\
    sent h' = sent h ++ map (fun i => (i, Z.lor LAPIC_NMI_IPI LAPIC_ICR_INIT_DEASSERT)) (filter (fun i => i <> id) lapic_ids).
Proof.
  intros Hids Hid. unfold smp_stop_cpus. rewrite Hid. cbn [deref outcome_bind]. clear Hid. revert h.
  induction Hids as [|i ids Hi _ IH]; intros h; cbn [stop_loop].
  - exists h. split; [done|]. simpl. by rewrite app_nil_r.
  - rewrite filter_cons. destruct (Z.eqb_spec i id) as [->|Hne].
    + cbn [outcome_bind]. rewrite decide_False by tauto. apply IH.
    + rewrite decide_True by done. destruct (lapic_send_ipi_spec h i (Z.lor LAPIC_NMI_IPI LAPIC_ICR_INIT_DEASSERT) Hi) as (h1 & -> & E1).
      cbn [outcome_bind]. destruct (IH h1) as (h2 & -> & E2). exists h2. split; [done|]. rewrite E2, E1. simpl. by rewrite <- app_assoc.
Qed.

(** Every processor but the first is sent the two interrupts that start it. *)
Theorem smp_start_aps_correct h lapic_ids : Forall (fun i => 0 <= i < 256) lapic_ids ->
  exists h', smp_start_aps delay h lapic_ids = Ok h' /\
    sent h' = sent h ++ concat (map (fun i => [(i, 0x4500); (i, 0x4601)]) (tail lapic_ids)).
Proof.
  intros Hids. unfold smp_start_aps. assert (Forall (fun i => 0 <= i < 256) (tail lapic_ids)) as Ht by (destruct Hids; done).
  clear Hids. revert h. induction Ht as [|i ids Hi _ IH]; intros h; cbn [start_loop].
  - exists h. split; [done|]. simpl. by rewrite app_nil_r.
  - destruct (lapic_send_ipi_spec h i 0x4500 Hi) as (h1 & E1 & S1). change (Z.lor LAPIC_INIT_IPI LAPIC_ICR_INIT_DEASSERT) with 0x4500.
    rewrite E1. cbn [outcome_bind]. destruct (lapic_send_ipi_spec h1 i 0x4601 Hi) as (h2 & E2 & S2).
    change (Z.lor _ (Z.shiftr trampoline_start 12)) with 0x4601. rewrite E2. cbn [outcome_bind].
    destruct (IH h2) as (h3 & -> & S3). exists h3. split; [done|]. rewrite S3, S2, S1. simpl. by rewrite <- !app_assoc.
Qed.
End sending.
End lapic.

(** A controller that is busy for two reads after each interrupt. *)
Record slow_lapic := mk_slow { sl_dest : Z; sl_sent : list (Z * Z); sl_busy : nat }.

#[export] Instance slow_lapic_regs : Lapic slow_lapic := {|
  lapic_read h r := if r =? LAPIC_REG_ICR then (match sl_busy h with O => 0 | S _ => LAPIC_ICR_STATUS end, mk_slow (sl_dest h) (sl_sent h) (pred (sl_busy h)))
                    else (0, h);
  lapic_write h r v :=
    if r =? LAPIC_REG_ICR + 0x10 then mk_slow (v / 2 ^ 24) (sl_sent h) (sl_busy h)
    else if r =? LAPIC_REG_ICR then mk_slow (sl_dest h) (sl_sent h ++ [(sl_dest h, v)]) 2 else h;
|}.

Lemma slow_lapic_sends : sends sl_sent sl_dest 3.
Proof. split; intros; [done..|]. by eexists. Qed.

(** Processor 1 of three stops the others. *)
Example stop_three :
  exists h', smp_stop_cpus 3 (mk_slow 0 [] 0) 1 [0; 2; 4] = Ok h' /\ sl_sent h' = [(0, 0x4400); (4, 0x4400)].
Proof.
  destruct (smp_stop_cpus_correct sl_sent sl_dest 3 slow_lapic_sends (mk_slow 0 [] 0) 1 [0; 2; 4] 2) as (h' & E & S').
  - repeat constructor; lia.
  - reflexivity.
  - exists h'. split; [exact E|]. exact S'.
Qed.

(** ** The stack trace *)

(** A stack frame: the saved frame pointer and the return address. *)
Record stack_frame := mk_frame { sf_rbp : Z; sf_rip : Z }.

Inductive trace_line := unaligned (stk : Z) | top_of_stack | return_to (rip : Z).

(** [rsp0] and [rsp] are of the current task. *)
Definition valid_frame (rsp0 rsp addr : Z) : bool :=
  if 0x7fffffffffff <=? addr then negb (rsp0 <=? u64 (addr + 8)) else negb (rsp <=? u64 (addr + 8)).

Fixpoint stack_loop (n : nat) (mem : Z -> option stack_frame) (rsp0 rsp stk : Z) : outcome (list trace_line) :=
  match n with
  | O => Ok []
  | S n =>
      if stk =? 0 then Ok []
      else if has stk 0x7 then Ok [unaligned stk]
      else if negb (valid_frame rsp0 rsp stk) then Ok [top_of_stack]
      else
        let* f := deref (mem stk) in
        if sf_rip f =? 0 then Ok []
        else let* rest := stack_loop n mem rsp0 rsp (sf_rbp f) in Ok (return_to (sf_rip f) :: rest)
  end.

(** [self] is the frame of the caller. *)
Definition stacktrace (mem : Z -> option stack_frame) (rsp0 rsp frame self : Z) : outcome (list trace_line) :=
  stack_loop 32 mem rsp0 rsp (if 0 <? frame then frame else self).

(** The frames that the saved pointers link, down to the first that is not
    below the top of the stack. *)
Inductive call_chain (mem : Z -> option stack_frame) (rsp0 rsp : Z) : Z -> list Z -> Prop :=
| chain_top stk : stk <> 0 -> has stk 0x7 = false -> valid_frame rsp0 rsp stk = false -> call_chain mem rsp0 rsp stk []
| chain_call stk f rips : stk <> 0 -> has stk 0x7 = false -> valid_frame rsp0 rsp stk = true -> mem stk = Some f -> sf_rip f <> 0 ->
    call_chain mem rsp0 rsp (sf_rbp f) rips -> call_chain mem rsp0 rsp stk (sf_rip f :: rips).

(** The trace of a chain shows its return addresses, at most 32 of them, and
    then the top of the stack. *)
Theorem stacktrace_correct mem rsp0 rsp frame self rips : 0 < frame -> call_chain mem rsp0 rsp frame rips ->
  stacktrace mem rsp0 rsp frame self = Ok (take 32 (map return_to rips ++ [top_of_stack])).
Proof.
  intros Hf Hc. unfold stacktrace. destruct (Z.ltb_spec 0 frame); [|lia]. generalize 32%nat as n. clear Hf H.
  induction Hc as [stk Hz Ha Hv|stk f rips Hz Ha Hv Hm Hr _ IH]; intros n; (destruct n as [|n]; [done|]); cbn [stack_loop].
  - destruct (Z.eqb_spec stk 0); [done|]. rewrite Ha, Hv. simpl. by destruct n.
  - destruct (Z.eqb_spec stk 0); [done|]. rewrite Ha, Hv, Hm. cbn [negb deref outcome_bind].
    destruct (Z.eqb_spec (sf_rip f) 0); [done|]. by rewrite IH.
Qed.
