(* ===== verification/Tty.v ===== *)
(** * Terminals

    kernel/dev/tty.c.  The receive buffer is a ring in an array of bytes; an
    access outside the array is a fault.  What the terminal prints is appended
    to [tt_out].  The terminal's mutex is left out: each operation is the code
    between a lock and an unlock, and a reader that gives up the processor is
    split there.  User memory that [tty_ioctl] reads or writes is an argument
    or a result. *)

From stdpp Require Import base numbers list gmap sets.
From Stdlib Require Import ZArith Lia.
From S2P Require Import Prelude Sched Wait Process.

Definition ICRNL : Z := 0x100.
Definition OPOST : Z := 0x1.
Definition ONLCR : Z := 0x4.
Definition ISIG : Z := 0x1.
Definition ICANON : Z := 0x2.
Definition ECHO : Z := 0x8.
Definition ECHOE : Z := 0x10.
Definition ECHOCTL : Z := 0x200.
Definition B38400 : Z := 0xF.
Definition VINTR : Z := 0.
Definition TCGETS : Z := 0x5401.
Definition TCSETS : Z := 0x5402.
Definition TIOCSPGRP : Z := 0x5410.
Definition TIOCGWINSZ : Z := 0x5413.
Definition SIGINT : Z := 2.
Definition tty_buffer_size : Z := 0x1000.

Record termios := mk_termios {
  c_iflag : Z; c_oflag : Z; c_cflag : Z; c_lflag : Z; c_line : Z; c_cc : list Z; ibaud : Z; obaud : Z
}.

Record winsize := mk_winsize { ws_row : Z; ws_col : Z; ws_xpixel : Z; ws_ypixel : Z }.

Record tty_device := mk_tty {
  read_buffer : list Z; read_buffer_head : Z; read_buffer_tail : Z; session_id : Z; fg_pgrp : Z;
  tt_termios : termios; tt_winsize : winsize; tt_out : list Z
}.

Definition set_ring (b : list Z) (h t : Z) (d : tty_device) : tty_device :=
  mk_tty b h t (session_id d) (fg_pgrp d) (tt_termios d) (tt_winsize d) (tt_out d).
Definition set_session (sid pgrp : Z) (d : tty_device) : tty_device :=
  mk_tty (read_buffer d) (read_buffer_head d) (read_buffer_tail d) sid pgrp (tt_termios d) (tt_winsize d) (tt_out d).
Definition set_termios (t : termios) (d : tty_device) : tty_device :=
  mk_tty (read_buffer d) (read_buffer_head d) (read_buffer_tail d) (session_id d) (fg_pgrp d) t (tt_winsize d) (tt_out d).
Definition output (d : tty_device) (c : Z) : tty_device :=
  mk_tty (read_buffer d) (read_buffer_head d) (read_buffer_tail d) (session_id d) (fg_pgrp d) (tt_termios d) (tt_winsize d) (tt_out d ++ [u8 c]).

(** The control characters at VINTR, VERASE, VEOF and VSUSP. *)
Definition default_cc : list Z := [0x03; 0; 0x7F; 0; 0x04; 0; 0; 0; 0; 0; 0x1A] ++ replicate 21 0.
Definition default_termios : termios :=
  mk_termios ICRNL (Z.lor OPOST ONLCR) B38400 (Z.lor (Z.lor (Z.lor (Z.lor ISIG ICANON) ECHO) ECHOE) ECHOCTL) 0 default_cc 0 0.
Definition default_winsize : winsize := mk_winsize 25 80 0 0.

(** The device [tty_create] sets up, over a buffer with any contents. *)
Definition tty_new (buffer : list Z) : tty_device := mk_tty buffer 0 0 0 0 default_termios default_winsize [].

(** [tty_open] by a task on the terminal at address [tty]. *)
Definition tty_open (s : sched) (tid tty : Z) (d : tty_device) : outcome (ret * sched * tty_device) :=
  if tty =? 0 then Ok (RErr ENXIO, s, d)
  else
    let* t := get_task s tid in
    if (t_tty t =? 0) && is_session_leader t && (session_id d =? 0) then
      Ok (RVal 0, put_task s tid (set_t_tty tty t), set_session (t_sid t) (t_pgid t) d)
    else Ok (RVal 0, s, d).

(** A character is a signed byte; its wait queue is the one at address [q]. *)
Definition tty_consume (w : wait_sys) (s : sched) (cpu q : Z) (d : tty_device) (c : Z) : outcome (wait_sys * sched * tty_device) :=
  if (read_buffer_tail d + 1) mod tty_buffer_size =? read_buffer_head d then Ok (w, s, d)
  else
    let* b := aset (read_buffer d) (read_buffer_tail d) (u8 c) in
    let d := set_ring b (read_buffer_head d) ((read_buffer_tail d + 1) mod tty_buffer_size) d in
    let* intr := aget (c_cc (tt_termios d)) VINTR in
    if has (c_lflag (tt_termios d)) ISIG && (c =? intr) then
      let* (_, s) := pgrp_send_signal s cpu (fg_pgrp d) SIGINT in Ok (w, s, d)
    else
      let c := if has (c_iflag (tt_termios d)) ICRNL && (c =? 13) then 10 else c in
      let d := if has (c_lflag (tt_termios d)) ECHO then output d c else d in
      let* (w, s) := wait_queue_wake w s cpu q in
      Ok (w, s, d).

(** The end of [tty_read]: what the ring holds, without regard to its end. *)
Definition tty_take (d : tty_device) (length : Z) : outcome (list Z * tty_device) :=
  let h := read_buffer_head d in let t := read_buffer_tail d in
  let read_count := if h <? t then t - h else tty_buffer_size - h + t in
  let read_count := if length <? read_count then length else read_count in
  if h + read_count <=? zlen (read_buffer d) then
    Ok (take (Z.to_nat read_count) (drop (Z.to_nat h) (read_buffer d)), set_ring (read_buffer d) ((h + read_count) mod tty_buffer_size) t d)
  else Fault.

Inductive tty_result :=
  | Read (bytes : list Z)
  | Interrupted
  | Waiting.

Definition tty_leave (w : wait_sys) (s : sched) (tid : Z) : outcome (wait_sys * sched) :=
  let* w := wait_queue_unregister w tid in
  let* (_, s) := cas_status s tid TASK_INTR_SLEEPING TASK_RUNNING in
  Ok (w, s).

(** One round of the waiting loop; a task that runs again starts the next. *)
Definition tty_round (w : wait_sys) (s : sched) (cpu tid q : Z) (d : tty_device) (length : Z)
    : outcome (tty_result * wait_sys * sched * tty_device) :=
  let* w := wait_queue_register w q tid in
  let* (fail, s) := cas_status s tid TASK_RUNNING TASK_INTR_SLEEPING in
  let* _ := match fail with
    | Some found => if decide (found = TASK_INTR_SLEEPING) then Ok tt else Panic
    | None => Ok tt
    end in
  if negb (read_buffer_head d =? read_buffer_tail d) then
    let* (w, s) := tty_leave w s tid in
    let* (bytes, d) := tty_take d length in
    Ok (Read bytes, w, s, d)
  else
    let* t := get_task s tid in
    if signal_pending t then
      let* (w, s) := tty_leave w s tid in Ok (Interrupted, w, s, d)
    else
      let* s := sched_yield s cpu in Ok (Waiting, w, s, d).

Definition tty_read (w : wait_sys) (s : sched) (cpu tid q : Z) (d : tty_device) (length : Z)
    : outcome (tty_result * wait_sys * sched * tty_device) :=
  if read_buffer_head d =? read_buffer_tail d then tty_round w s cpu tid q d length
  else let* (bytes, d) := tty_take d length in Ok (Read bytes, w, s, d).

(** [tty_write] stops at a NUL and reports the whole length. *)
Fixpoint tty_write_loop (d : tty_device) (bytes : list Z) : tty_device :=
  match bytes with
  | [] => d
  | c :: bytes =>
      if c =? 0 then d
      else
        let d := if has (c_oflag (tt_termios d)) ONLCR && (c =? 10) then output d 13 else d in
        tty_write_loop (output d c) bytes
  end.

Definition tty_write (d : tty_device) (bytes : list Z) : ret * tty_device := (RVal (zlen bytes), tty_write_loop d bytes).

(** What [tty_ioctl] finds at its argument, or leaves there. *)
Inductive tty_arg := ArgNone | ArgPgrp (pgrp : Z) | ArgTermios (t : termios) | ArgWinsize (w : winsize).

Definition user_arg (arg : Z) : bool := negb ((arg =? 0) || (0x7fffffffffff <? arg)).

Definition tty_ioctl (s : sched) (tid tty : Z) (d : tty_device) (op arg : Z) (at_arg : tty_arg) : outcome (ret * tty_device * tty_arg) :=
  let* t := get_task s tid in
  if (tty =? 0) || negb (tty =? t_tty t) then Ok (RErr ENOTTY, d, at_arg)
  else if op =? TIOCSPGRP then
    if negb (user_arg arg) then Ok (RErr EFAULT, d, at_arg)
    else if negb (t_sid t =? session_id d) then Ok (RErr ENOTTY, d, at_arg)
    else match at_arg with
    | ArgPgrp pgrp =>
        let* leader := get_pgrp_leader s pgrp in
        match leader with
        | None => Ok (RErr EPERM, d, at_arg)
        | Some l =>
            let* lt := get_task s l in
            if negb (t_sid lt =? t_sid t) then Ok (RErr EPERM, d, at_arg)
            else Ok (RVal 0, set_session (session_id d) pgrp d, at_arg)
        end
    | _ => Fault
    end
  else if op =? TCGETS then
    if negb (user_arg arg) then Ok (RErr EFAULT, d, at_arg) else Ok (RVal 0, d, ArgTermios (tt_termios d))
  else if op =? TCSETS then
    if negb (user_arg arg) then Ok (RErr EFAULT, d, at_arg)
    else match at_arg with ArgTermios t => Ok (RVal 0, set_termios t d, at_arg) | _ => Fault end
  else if op =? TIOCGWINSZ then
    if 0x7fffffffffff <? arg then Ok (RErr EFAULT, d, at_arg) else Ok (RVal 0, d, ArgWinsize (tt_winsize d))
  else Ok (RErr EINVAL, d, at_arg).

(** ** The ring as a queue *)

Definition tty_ok (d : tty_device) : Prop :=
  zlen (read_buffer d) = tty_buffer_size /\ 0 <= read_buffer_head d < tty_buffer_size /\ 0 <= read_buffer_tail d < tty_buffer_size.

(** The bytes from head to tail, around the end of the buffer. *)
Definition ring_content (b : list Z) (h t : Z) : list Z :=
  if h <=? t then take (Z.to_nat (t - h)) (drop (Z.to_nat h) b) else drop (Z.to_nat h) b ++ take (Z.to_nat t) b.

Definition tty_content (d : tty_device) : list Z := ring_content (read_buffer d) (read_buffer_head d) (read_buffer_tail d).

Definition tty_full (d : tty_device) : bool := (read_buffer_tail d + 1) mod tty_buffer_size =? read_buffer_head d.

Lemma succ_mod t : 0 <= t < tty_buffer_size ->
  (t + 1) mod tty_buffer_size = if t =? tty_buffer_size - 1 then 0 else t + 1.
Proof.
  unfold tty_buffer_size. intros H. destruct (Z.eqb_spec t (0x1000 - 1)) as [->|]; [done|]. apply Z.mod_small. lia.
Qed.

Lemma ring_length b h t : zlen b = tty_buffer_size -> 0 <= h < tty_buffer_size -> 0 <= t < tty_buffer_size ->
  zlen (ring_content b h t) = if h <=? t then t - h else tty_buffer_size - h + t.
Proof.
  intros Hb Hh Ht. unfold ring_content. unfold zlen in *. destruct (Z.leb_spec h t).
  - rewrite length_take, length_drop. lia.
  - rewrite length_app, length_take, length_drop. lia.
Qed.

Lemma ring_push b h t c : zlen b = tty_buffer_size -> 0 <= h < tty_buffer_size -> 0 <= t < tty_buffer_size ->
  (t + 1) mod tty_buffer_size <> h ->
  ring_content (<[Z.to_nat t := c]> b) h ((t + 1) mod tty_buffer_size) = ring_content b h t ++ [c].
Proof.
  intros Hb Hh Ht. rewrite succ_mod by done. unfold ring_content. unfold zlen in Hb.
  assert (forall k, (Z.to_nat t < length b)%nat -> take (Z.to_nat (t + 1) - k) (drop k (<[Z.to_nat t := c]> b)) =
    take (Z.to_nat t - k) (drop k b) ++ [c] \/ (Z.to_nat t < k)%nat) as Hpush.
  { intros k Hlt. destruct (decide (Z.to_nat t < k)%nat) as [|Hk]; [by right|left].
    rewrite drop_insert_ge by lia. replace (Z.to_nat (t + 1) - k)%nat with (S (Z.to_nat t - k)) by lia.
    rewrite (take_S_r _ _ c) by (apply list_lookup_insert_eq; rewrite length_drop; lia). by rewrite take_insert_ge by lia. }
  destruct (Z.eqb_spec t (tty_buffer_size - 1)) as [E|E]; intros Hne.
  - destruct (Z.leb_spec h 0); [lia|]. destruct (Z.leb_spec h t); [|lia]. rewrite take_0, app_nil_r.
    destruct (Hpush (Z.to_nat h)) as [H'|H']; [lia| |lia].
    rewrite take_ge in H' by (rewrite length_drop, length_insert; lia). rewrite H'. do 2 f_equal. lia.
  - destruct (Z.leb_spec h t), (Z.leb_spec h (t + 1)); try lia.
    + destruct (Hpush (Z.to_nat h)) as [H'|H']; [lia| |lia].
      replace (Z.to_nat (t + 1 - h)) with (Z.to_nat (t + 1) - Z.to_nat h)%nat by lia. rewrite H'. do 2 f_equal. lia.
    + destruct (Hpush 0%nat) as [H'|H']; [lia| |lia]. rewrite !Nat.sub_0_r, !drop_0 in H'.
      rewrite drop_insert_lt by lia. by rewrite H', app_assoc.
Qed.

(** Taking from the ring, as far as it does not go around the end. *)
Lemma ring_pop b h t n : zlen b = tty_buffer_size -> 0 <= h < tty_buffer_size -> 0 <= t < tty_buffer_size ->
  h <> t -> 0 <= n <= zlen (ring_content b h t) -> h + n <= tty_buffer_size ->
  take (Z.to_nat n) (drop (Z.to_nat h) b) = take (Z.to_nat n) (ring_content b h t) /\
  ring_content b ((h + n) mod tty_buffer_size) t = drop (Z.to_nat n) (ring_content b h t).
Proof.
  intros Hb Hh Ht Hne Hn Hend. rewrite ring_length in Hn by done. unfold zlen in Hb. unfold ring_content.
  destruct (Z.leb_spec h t).
  - rewrite (Z.mod_small (h + n)) by lia. destruct (Z.leb_spec (h + n) t); [|lia]. split.
    + rewrite take_take. f_equal. lia.
    + rewrite skipn_firstn_comm, drop_drop. f_equal; [lia|f_equal; lia].
  - split.
    + rewrite take_app_le; [done|]. rewrite length_drop. lia.
    + destruct (Z.eq_dec (h + n) tty_buffer_size) as [E|E].
      * rewrite E, Z_mod_same_full. destruct (Z.leb_spec 0 t); [|lia]. rewrite drop_app_ge by (rewrite length_drop; lia).
        rewrite length_drop, drop_0. replace (Z.to_nat n - _)%nat with 0%nat by lia. rewrite drop_0. f_equal. lia.
      * rewrite (Z.mod_small (h + n)) by lia. destruct (Z.leb_spec (h + n) t); [lia|].
        rewrite drop_app_le by (rewrite length_drop; lia). rewrite drop_drop. do 2 f_equal. lia.
Qed.

(** ** Typing and reading *)

(** A character that is no signal, and how it is echoed. *)
Definition ordinary (d : tty_device) (c : Z) : Prop :=
  has (c_lflag (tt_termios d)) ISIG = true -> c_cc (tt_termios d) !! 0%nat <> Some c.

Definition echoed (d : tty_device) (c : Z) : list Z :=
  if has (c_lflag (tt_termios d)) ECHO then [u8 (if has (c_iflag (tt_termios d)) ICRNL && (c =? 13) then 10 else c)] else [].

Fixpoint consume_all (w : wait_sys) (s : sched) (cpu q : Z) (d : tty_device) (cs : list Z) : outcome (wait_sys * sched * tty_device) :=
  match cs with
  | [] => Ok (w, s, d)
  | c :: cs => let* (ws, d) := tty_consume w s cpu q d c in consume_all ws.1 ws.2 cpu q d cs
  end.

(** One character, with nobody waiting. *)
Lemma tty_consume_spec w s cpu q d c : tty_ok d -> length (c_cc (tt_termios d)) = 32%nat -> wq_queues w !! q = Some [] ->
  ordinary d c -> zlen (tty_content d) < tty_buffer_size - 1 ->
  exists d', tty_consume w s cpu q d c = Ok (w, s, d') /\ tty_ok d' /\ tty_content d' = tty_content d ++ [u8 c] /\
    tt_termios d' = tt_termios d /\ tt_out d' = tt_out d ++ echoed d c.
Proof.
  intros (Hb & Hh & Ht) Hcc Hq Hord Hroom. unfold tty_content in *. rewrite ring_length in Hroom by done.
  assert ((read_buffer_tail d + 1) mod tty_buffer_size <> read_buffer_head d) as Hnf.
  { rewrite succ_mod by done. destruct (Z.leb_spec (read_buffer_head d) (read_buffer_tail d)), (Z.eqb_spec (read_buffer_tail d) (tty_buffer_size - 1)); lia. }
  assert (0 <= (read_buffer_tail d + 1) mod tty_buffer_size < tty_buffer_size) as Ht' by (apply Z.mod_pos_bound; unfold tty_buffer_size; lia).
  unfold tty_consume. destruct (Z.eqb_spec ((read_buffer_tail d + 1) mod tty_buffer_size) (read_buffer_head d)); [done|].
  rewrite aset_in by lia. cbn [outcome_bind]. cbn [tt_termios set_ring].
  destruct (c_cc (tt_termios d)) as [|intr cc] eqn:Ecc; [done|]. change (aget (intr :: cc) VINTR) with (Ok intr). cbn [outcome_bind].
  assert (has (c_lflag (tt_termios d)) ISIG && (c =? intr) = false) as ->.
  { destruct (has (c_lflag (tt_termios d)) ISIG) eqn:E; [|done]. destruct (Z.eqb_spec c intr) as [->|]; [|done].
    exfalso. apply Hord; [done|]. by rewrite Ecc. }
  unfold wait_queue_wake. rewrite Hq. cbn [deref outcome_bind wake_loop]. eexists. split; [reflexivity|].
  pose proof (ring_push (read_buffer d) (read_buffer_head d) (read_buffer_tail d) (u8 c) Hb Hh Ht Hnf) as Hp.
  unfold echoed, tty_ok. destruct (has (c_lflag (tt_termios d)) ECHO); cbn; rewrite ?zlen_insert, ?app_nil_r; done.
Qed.

Lemma consume_all_spec w s cpu q cs : forall d, tty_ok d -> length (c_cc (tt_termios d)) = 32%nat -> wq_queues w !! q = Some [] ->
  Forall (ordinary d) cs -> zlen (tty_content d) + zlen cs < tty_buffer_size ->
  exists d', consume_all w s cpu q d cs = Ok (w, s, d') /\ tty_ok d' /\ tty_content d' = tty_content d ++ map u8 cs /\
    tt_out d' = tt_out d ++ concat (map (echoed d) cs).
Proof.
  induction cs as [|c cs IH]; intros d Hok Hcc Hq Hord Hroom.
  { exists d. cbn. rewrite !app_nil_r. done. }
  apply Forall_cons in Hord as [Hc Hord]. rewrite zlen_cons in Hroom. pose proof (zlen_nonneg cs).
  destruct (tty_consume_spec w s cpu q d c) as (d1 & E & Hok1 & Hc1 & Ht1 & Ho1); [done..|lia|].
  destruct (IH d1) as (d2 & E2 & Hok2 & Hc2 & Ho2); [done|by rewrite Ht1|done| | |].
  - unfold ordinary in *. by rewrite Ht1.
  - rewrite Hc1, zlen_app, zlen_cons. change (zlen (@nil Z)) with 0. lia.
  - exists d2. cbn [consume_all]. rewrite E. cbn [outcome_bind fst snd]. split; [done|]. split; [done|].
    rewrite Hc2, Hc1, Ho2, Ho1, <- !app_assoc. cbn [map concat]. unfold echoed. rewrite Ht1. done.
Qed.

(** Typing leaves the end of the ring that readers take from alone. *)
Lemma consume_all_head w s cpu q cs : forall d w' s' d', consume_all w s cpu q d cs = Ok (w', s', d') -> read_buffer_head d' = read_buffer_head d.
Proof.
  revert w s. induction cs as [|c cs IH]; intros w s d w' s' d' E; cbn [consume_all] in E; [by injection E as <- <- <-|].
  destruct (tty_consume w s cpu q d c) as [[[w1 s1] d1]| | |] eqn:E1; try done. cbn [outcome_bind fst snd] in E. rewrite (IH _ _ _ _ _ _ E).
  clear E IH. unfold tty_consume in E1. case_match; [by injection E1 as <- <- <-|].
  destruct (aset _ _ _); try done. cbn [outcome_bind] in E1. destruct (aget _ _); try done. cbn [outcome_bind] in E1. case_match.
  - destruct (pgrp_send_signal _ _ _ _) as [[]| | |]; try done. by injection E1 as <- <- <-.
  - destruct (wait_queue_wake _ _ _ _) as [[]| | |]; try done. injection E1 as <- <- <-. by case_match.
Qed.

Lemma tty_take_spec d len : tty_ok d -> tty_content d <> [] -> 0 <= len ->
  let n := Z.min len (zlen (tty_content d)) in
  if read_buffer_head d + n <=? tty_buffer_size then
    exists d', tty_take d len = Ok (take (Z.to_nat n) (tty_content d), d') /\ tty_ok d' /\ tty_content d' = drop (Z.to_nat n) (tty_content d)
  else tty_take d len = Fault.
Proof.
  intros (Hb & Hh & Ht) Hne Hl n. unfold tty_content in *.
  pose proof (ring_length (read_buffer d) (read_buffer_head d) (read_buffer_tail d) Hb Hh Ht) as Hlen.
  assert (read_buffer_head d <> read_buffer_tail d) as Hht.
  { intros E. rewrite E in Hlen, Hne. rewrite Z.leb_refl in Hlen. destruct (ring_content _ _ _); [done|].
    rewrite zlen_cons in Hlen. pose proof (zlen_nonneg l). lia. }
  assert (zlen (ring_content (read_buffer d) (read_buffer_head d) (read_buffer_tail d)) =
    if read_buffer_head d <? read_buffer_tail d then read_buffer_tail d - read_buffer_head d
    else tty_buffer_size - read_buffer_head d + read_buffer_tail d) as Hc.
  { rewrite Hlen. destruct (Z.leb_spec (read_buffer_head d) (read_buffer_tail d)), (Z.ltb_spec (read_buffer_head d) (read_buffer_tail d)); lia. }
  unfold tty_take. cbv zeta. rewrite <- Hc, Hb.
  assert ((if len <? zlen (ring_content (read_buffer d) (read_buffer_head d) (read_buffer_tail d)) then len
    else zlen (ring_content (read_buffer d) (read_buffer_head d) (read_buffer_tail d))) = n) as ->.
  { unfold n. destruct (Z.ltb_spec len (zlen (ring_content (read_buffer d) (read_buffer_head d) (read_buffer_tail d)))); lia. }
  destruct (Z.leb_spec (read_buffer_head d + n) tty_buffer_size); [|done].
  pose proof (zlen_nonneg (ring_content (read_buffer d) (read_buffer_head d) (read_buffer_tail d))).
  destruct (ring_pop (read_buffer d) (read_buffer_head d) (read_buffer_tail d) n) as [Hp1 Hp2]; try done; [unfold n; lia|].
  eexists. split; [by rewrite Hp1|]. split; [|done].
  split; [done|]. split; [|done]. apply Z.mod_pos_bound. unfold tty_buffer_size. lia.
Qed.

Lemma tty_read_spec w s cpu tid q d len : tty_ok d -> tty_content d <> [] -> 0 <= len ->
  let n := Z.min len (zlen (tty_content d)) in
  if read_buffer_head d + n <=? tty_buffer_size then
    exists d', tty_read w s cpu tid q d len = Ok (Read (take (Z.to_nat n) (tty_content d)), w, s, d') /\ tty_ok d' /\
      tty_content d' = drop (Z.to_nat n) (tty_content d)
  else tty_read w s cpu tid q d len = Fault.
Proof.
  intros Hok Hne Hl. pose proof (tty_take_spec d len Hok Hne Hl) as Ht. cbv zeta in *. unfold tty_read.
  destruct (Z.eqb_spec (read_buffer_head d) (read_buffer_tail d)) as [E'|E'].
  { exfalso. apply Hne. unfold tty_content, ring_content. rewrite E', Z.leb_refl, Z.sub_diag. done. }
  case_match.
  - destruct Ht as (d'' & -> & Hok'' & Hc''). cbn [outcome_bind]. by exists d''.
  - by rewrite Ht.
Qed.

(** A terminal is a queue of what was typed.  While there is room for
    them and nobody waits, the characters of a line that are no signal are
    appended to the buffer in order, as typed, and echoed, with carriage
    return as newline, when the terminal is set up so.  A read of a buffer
    with something in it returns the oldest characters, as many as fit, and
    takes exactly those out, unless they lie around the end of the ring: then
    the copy leaves the buffer. *)
Theorem tty_input_order w s cpu tid q d cs len : tty_ok d -> length (c_cc (tt_termios d)) = 32%nat -> wq_queues w !! q = Some [] ->
  Forall (ordinary d) cs -> zlen (tty_content d) + zlen cs < tty_buffer_size -> cs <> [] -> 0 <= len ->
  exists d', consume_all w s cpu q d cs = Ok (w, s, d') /\ tty_ok d' /\ tty_content d' = tty_content d ++ map u8 cs /\
    tt_out d' = tt_out d ++ concat (map (echoed d) cs) /\
    let n := Z.min len (zlen (tty_content d')) in
    if read_buffer_head d' + n <=? tty_buffer_size then
      exists d'', tty_read w s cpu tid q d' len = Ok (Read (take (Z.to_nat n) (tty_content d')), w, s, d'') /\ tty_ok d'' /\
        tty_content d'' = drop (Z.to_nat n) (tty_content d')
    else tty_read w s cpu tid q d' len = Fault.
Proof.
  intros Hok Hcc Hq Hord Hroom Hne Hl. destruct (consume_all_spec w s cpu q cs d) as (d' & E & Hok' & Hc & Ho); [done..|].
  exists d'. split_and!; try done. apply tty_read_spec; [done| |done]. rewrite Hc. by destruct (tty_content d), cs.
Qed.

(** An empty terminal on which the line "hi" is typed and read. *)
Lemma tty_input_order_witness : exists d d'',
  consume_all (mk_wait {[ 1 := [] ]} ∅) two_cpus 0 1 (tty_new (replicate 4096 0)) [104; 105; 13] = Ok (mk_wait {[ 1 := [] ]} ∅, two_cpus, d) /\
  tt_out d = [104; 105; 10] /\
  tty_read (mk_wait {[ 1 := [] ]} ∅) two_cpus 0 1 1 d 2 = Ok (Read [104; 105], mk_wait {[ 1 := [] ]} ∅, two_cpus, d'') /\
  tty_content d'' = [13].
Proof.
  destruct (tty_input_order (mk_wait {[ 1 := [] ]} ∅) two_cpus 0 1 1 (tty_new (replicate 4096 0)) [104; 105; 13] 2)
    as (d & E & Hok & Hc & Ho & Hr).
  - vm_compute. done.
  - done.
  - done.
  - repeat constructor; intros _; done.
  - vm_compute. done.
  - done.
  - lia.
  - rewrite Hc in Hr. assert (read_buffer_head d = 0) as Hh.
    { revert E. vm_compute. intros E. injection E as <-. reflexivity. }
    rewrite Hh in Hr. destruct Hr as (d'' & Hr & _ & Hd). exists d, d''. split; [exact E|]. split; [exact Ho|]. split; [exact Hr|exact Hd].
Defined.
