(* ===== verification/Keyboard.v ===== *)
(** * The keyboard

    kernel/dev/ps2.c: from the bytes of the keyboard controller to characters
    of the terminal, or to events of the task that opened the device.  The
    handler is given the byte it reads from the controller. *)

From stdpp Require Import base numbers list gmap sets.
From Stdlib Require Import ZArith Lia.
From S2P Require Import Prelude Sched Wait Process Tty.

Definition KBD_MOD_CTRL : Z := 1.
Definition KBD_MOD_ALT : Z := 2.
Definition KBD_MOD_SHIFT : Z := 4.

Definition regular_scancodes : list Z :=
  [0; 27; 49; 50; 51; 52; 53; 54; 55; 56; 57; 48; 45; 61; 127; 9; 113; 119; 101; 114;
   116; 121; 117; 105; 111; 112; 91; 93; 10; 0; 97; 115; 100; 102; 103; 104; 106; 107; 108; 59;
   39; 96; 0; 92; 122; 120; 99; 118; 98; 110; 109; 44; 46; 47; 0; 0; 0; 32].

Definition shifted_scancodes : list Z :=
  [0; 27; 33; 64; 35; 36; 37; 94; 38; 42; 40; 41; 95; 43; 127; 0; 81; 87; 69; 82;
   84; 89; 85; 73; 79; 80; 123; 125; 10; 0; 65; 83; 68; 70; 71; 72; 74; 75; 76; 58;
   34; 126; 0; 124; 90; 88; 67; 86; 66; 78; 77; 60; 62; 63; 0; 0; 0; 32].

Record key_event := mk_event { ev_key : Z; ev_state : bool }.

(** [kb_tty] says if a terminal is set, [kb_owner] is the task that opened
    the device, 0 if none. *)
Record keyboard := mk_kbd {
  keyboard0_mod : Z; kb_tty : bool; kb_owner : Z; ringbuffer : list key_event; ring_head : Z; ring_tail : Z
}.

Definition set_mod (m : Z) (k : keyboard) : keyboard := mk_kbd m (kb_tty k) (kb_owner k) (ringbuffer k) (ring_head k) (ring_tail k).
Definition set_owner (o : Z) (k : keyboard) : keyboard := mk_kbd (keyboard0_mod k) (kb_tty k) o (ringbuffer k) (ring_head k) (ring_tail k).
Definition set_events (r : list key_event) (h t : Z) (k : keyboard) : keyboard := mk_kbd (keyboard0_mod k) (kb_tty k) (kb_owner k) r h t.

(** The modifiers after a scan code. *)
Definition update_mod (m scancode : Z) (release_flag : bool) : Z :=
  let m :=
    if (scancode =? 0x2a) || (scancode =? 0x36) then
      if release_flag then Z.land m (u32 (Z.lnot KBD_MOD_SHIFT)) else Z.lor m KBD_MOD_SHIFT
    else m in
  if scancode =? 0x1d then
    if release_flag then Z.land m (u32 (Z.lnot KBD_MOD_CTRL)) else Z.lor m KBD_MOD_CTRL
  else m.

(** The character the terminal is given, if any. *)
Definition tty_char (k : keyboard) (scancode : Z) (release_flag : bool) : outcome (option Z) :=
  let shift := has (keyboard0_mod k) KBD_MOD_SHIFT in
  let ctrl := has (keyboard0_mod k) KBD_MOD_CTRL in
  if (kb_owner k =? 0) && kb_tty k && negb release_flag then
    let reg_tbl := if shift then shifted_scancodes else regular_scancodes in
    if (scancode =? 0x2e) && ctrl then Ok (Some 0x03)
    else if scancode <=? 0x39 then
      let* c := aget reg_tbl scancode in
      Ok (if c =? 0 then None else Some c)
    else Ok None
  else Ok None.

(** The event for the owner: the slot is taken also when nothing is stored in it. *)
Definition push_event (k : keyboard) (scancode : Z) (release_flag : bool) : outcome keyboard :=
  let shift := has (keyboard0_mod k) KBD_MOD_SHIFT in
  if kb_owner k =? 0 then Ok k
  else
    let reg_tbl := if shift then shifted_scancodes else regular_scancodes in
    if scancode <=? 0x39 then
      if (ring_tail k + 1) mod 256 =? ring_head k then Ok k
      else
        let* c := aget reg_tbl scancode in
        let* r :=
          if negb (c =? 0) then aset (ringbuffer k) (ring_tail k) (mk_event c (negb release_flag))
          else if scancode =? 0x1d then aset (ringbuffer k) (ring_tail k) (mk_event 0x1d (negb release_flag))
          else Ok (ringbuffer k) in
        Ok (set_events r (ring_head k) ((ring_tail k + 1) mod 256) k)
    else Ok k.

(** [interrupt_handler] of the driver, with the terminal it types on. *)
Definition kbd_interrupt (w : wait_sys) (s : sched) (cpu q : Z) (d : tty_device) (k : keyboard) (byte : Z)
    : outcome (wait_sys * sched * tty_device * keyboard) :=
  let release_flag := has byte 0x80 in
  let scancode := Z.land byte 0x7f in
  let k := set_mod (update_mod (keyboard0_mod k) scancode release_flag) k in
  let* c := tty_char k scancode release_flag in
  let* (ws, d) := match c with Some c => tty_consume w s cpu q d c | None => Ok (w, s, d) end in
  let* k := push_event k scancode release_flag in
  Ok (ws.1, ws.2, d, k).

Definition kbd_open (k : keyboard) (task : Z) : ret * keyboard := if negb (kb_owner k =? 0) then (RErr EBUSY, k) else (RVal 0, set_owner task k).

Definition kbd_close (k : keyboard) : ret * keyboard := (RVal 0, set_owner 0 k).

(** The two bytes of an event, whatever the length of the buffer. *)
Definition kbd_read (k : keyboard) (task : Z) : outcome (ret * list Z * keyboard) :=
  if negb (task =? kb_owner k) then Ok (RErr EBUSY, [], k)
  else if ring_head k =? ring_tail k then Ok (RVal 0, [], k)
  else
    let* e := aget (ringbuffer k) (ring_head k) in
    Ok (RVal 2, [ev_key e; if ev_state e then 1 else 0], set_events (ringbuffer k) ((ring_head k + 1) mod 256) (ring_tail k) k).

Definition ps2_set_tty (k : keyboard) (tty : bool) : keyboard :=
  mk_kbd (keyboard0_mod k) tty (kb_owner k) (ringbuffer k) (ring_head k) (ring_tail k).

(** The handler on a sequence of bytes. *)
Fixpoint kbd_run (w : wait_sys) (s : sched) (cpu q : Z) (d : tty_device) (k : keyboard) (bytes : list Z)
    : outcome (wait_sys * sched * tty_device * keyboard) :=
  match bytes with
  | [] => Ok (w, s, d, k)
  | b :: bytes =>
      let* (wsd, k) := kbd_interrupt w s cpu q d k b in
      kbd_run wsd.1.1 wsd.1.2 cpu q wsd.2 k bytes
  end.

(** What a person does to type a character on this layout: press and release
    its key, holding shift where only the shifted key has it. *)
Fixpoint key_of (tbl : list Z) (n : Z) (c : Z) : option Z :=
  match tbl with
  | [] => None
  | x :: tbl => if x =? c then Some n else key_of tbl (n + 1) c
  end.

Definition strokes (c : Z) : option (list Z) :=
  match key_of regular_scancodes 0 c with
  | Some i => Some [i; i + 0x80]
  | None =>
      match key_of shifted_scancodes 0 c with
      | Some i => Some [0x2a; i; i + 0x80; 0xaa]
      | None => None
      end
  end.

Definition keys (c : Z) : list Z := default [] (strokes c).

(** The characters that have a key. *)
Definition typeable (c : Z) : bool := (0 <? c) && (c <? 128) && bool_decide (is_Some (strokes c)).

Definition idle (k : keyboard) : Prop := keyboard0_mod k = 0 /\ kb_owner k = 0 /\ kb_tty k = true.

(** The characters the handler gives the terminal, without the terminal. *)
Fixpoint typed (m : Z) (bytes : list Z) : outcome (Z * list Z) :=
  match bytes with
  | [] => Ok (m, [])
  | b :: bytes =>
      let m := update_mod m (Z.land b 0x7f) (has b 0x80) in
      let* c := tty_char (mk_kbd m true 0 [] 0 0) (Z.land b 0x7f) (has b 0x80) in
      let* (m, cs) := typed m bytes in
      Ok (m, option_list c ++ cs)
  end.

Lemma typed_app m b1 b2 m1 c1 : typed m b1 = Ok (m1, c1) ->
  typed m (b1 ++ b2) = outcome_bind (typed m1 b2) (fun r => Ok (r.1, c1 ++ r.2)).
Proof.
  revert m c1. induction b1 as [|b b1 IH]; intros m c1 E; cbn [typed app] in *.
  - injection E as -> <-. by destruct (typed m1 b2) as [[]| | |].
  - destruct (tty_char _ _ _) as [c| | |]; try done. cbn [outcome_bind] in *.
    destruct (typed _ b1) as [[m' cs]| | |] eqn:E1; try done. cbn [outcome_bind] in E. injection E as -> <-.
    rewrite (IH _ cs); [|done]. destruct (typed m1 b2) as [[]| | |]; cbn [outcome_bind fst snd]; try done. by rewrite <- app_assoc.
Qed.

Definition types_only (c : Z) : bool :=
  match typed 0 (keys c) with
  | Ok (0, [c']) => c' =? c
  | _ => false
  end.

(** Every key of the layout types its character and leaves no modifier. *)
Lemma typed_keys c : typeable c = true -> typed 0 (keys c) = Ok (0, [c]).
Proof.
  intros H.
  assert (forallb (fun n => implb (typeable (Z.of_nat n)) (types_only (Z.of_nat n))) (seq 0 128) = true)
    as Hall by (vm_compute; reflexivity).
  rewrite forallb_forall in Hall. specialize (Hall (Z.to_nat c)).
  assert (0 < c < 128) as Hc by (unfold typeable in H; rewrite !andb_true_iff in H; lia).
  rewrite Z2Nat.id in Hall by lia. rewrite H in Hall. cbn [implb] in Hall.
  assert (types_only c = true) as Ht by (apply Hall, in_seq; lia).
  unfold types_only in Ht. repeat case_match; try done. by apply Z.eqb_eq in Ht as ->.
Qed.

Lemma typed_text cs : Forall (fun c => typeable c = true) cs -> typed 0 (concat (map keys cs)) = Ok (0, cs).
Proof.
  induction 1 as [|c cs Hc _ IH]; [done|]. cbn [map concat]. rewrite (typed_app 0 _ _ 0 [c]) by by apply typed_keys.
  by rewrite IH.
Qed.

(** The handler hands [typed] to the terminal while nobody owns the keyboard. *)
Lemma kbd_run_typed w s cpu q bytes : forall d k m cs w' s' d', kb_owner k = 0 -> kb_tty k = true ->
  typed (keyboard0_mod k) bytes = Ok (m, cs) -> consume_all w s cpu q d cs = Ok (w', s', d') ->
  kbd_run w s cpu q d k bytes = Ok (w', s', d', set_mod m k).
Proof.
  revert w s. induction bytes as [|b bytes IH]; intros w s d k m cs w' s' d' Ho Ht E C; cbn [typed kbd_run] in *.
  { injection E as <- <-. cbn [consume_all] in C. injection C as <- <- <-. by destruct k. }
  destruct k as [km kt ko kr kh ktl]. cbn in Ho, Ht. subst.
  unfold kbd_interrupt. cbn [keyboard0_mod] in *. unfold set_mod in *. cbn [keyboard0_mod kb_tty kb_owner ringbuffer ring_head ring_tail] in *.
  set (m1 := update_mod _ _ _) in *. change (tty_char (mk_kbd m1 true 0 kr kh ktl)) with (tty_char (mk_kbd m1 true 0 [] 0 0)).
  destruct (tty_char _ _ _) as [[c|]| | |]; try done; cbn [outcome_bind option_list app] in *;
    (destruct (typed m1 bytes) as [[m2 cs2]| | |] eqn:E2; try done); cbn [outcome_bind option_list app] in E; injection E as <- <-.
  - cbn [consume_all] in C. destruct (tty_consume w s cpu q d c) as [[[w1 s1] d1]| | |]; try done.
    cbn [outcome_bind fst snd push_event kb_owner Z.eqb] in *.
    by rewrite (IH w1 s1 d1 (mk_kbd m1 true 0 kr kh ktl) m2 cs2 w' s' d').
  - cbn [outcome_bind fst snd push_event kb_owner Z.eqb] in *.
    by rewrite (IH w s d (mk_kbd m1 true 0 kr kh ktl) m2 cs2 w' s' d').
Qed.

Lemma kbd_run_text w s cpu q d k cs w' s' d' : idle k -> Forall (fun c => typeable c = true) cs -> consume_all w s cpu q d cs = Ok (w', s', d') ->
  kbd_run w s cpu q d k (concat (map keys cs)) = Ok (w', s', d', k).
Proof.
  intros (Hm & Ho & Ht) Hty E. rewrite (kbd_run_typed _ _ _ _ _ d k 0 cs w' s' d'); [|done..|rewrite Hm; by apply typed_text|done].
  destruct k. cbn in Hm. by subst.
Qed.

(** What is typed reaches the terminal.  Pressing and releasing the keys
    of a text in turn, with shift held where a character needs it, appends
    exactly that text to the input of the terminal and echoes it, and leaves the
    keyboard as it was, no key counted as held. *)
Theorem typing_reaches_terminal w s cpu q d k cs : idle k -> tty_ok d -> length (c_cc (tt_termios d)) = 32%nat ->
  wq_queues w !! q = Some [] -> Forall (ordinary d) cs -> Forall (fun c => typeable c = true) cs ->
  zlen (tty_content d) + zlen cs < tty_buffer_size ->
  exists d', kbd_run w s cpu q d k (concat (map keys cs)) = Ok (w, s, d', k) /\ tty_ok d' /\
    tty_content d' = tty_content d ++ map u8 cs /\ tt_out d' = tt_out d ++ concat (map (echoed d) cs).
Proof.
  intros Hk Hok Hcc Hq Hord Hty Hroom. destruct (consume_all_spec w s cpu q cs d) as (d' & E & Hok' & Hc & Hout); [done..|].
  exists d'. split_and!; try done. by apply kbd_run_text.
Qed.

Definition no_keys : keyboard := mk_kbd 0 true 0 (replicate 256 (mk_event 0 false)) 0 0.

(** The text "Hi!" on an empty terminal. *)
Lemma typing_reaches_terminal_witness : exists d',
  kbd_run (mk_wait {[ 1 := [] ]} ∅) two_cpus 0 1 (tty_new (replicate 4096 0)) no_keys
    [0x2a; 0x23; 0xa3; 0xaa; 0x17; 0x97; 0x2a; 0x02; 0x82; 0xaa] = Ok (mk_wait {[ 1 := [] ]} ∅, two_cpus, d', no_keys) /\
  tty_content d' = [72; 105; 33].
Proof.
  destruct (typing_reaches_terminal (mk_wait {[ 1 := [] ]} ∅) two_cpus 0 1 (tty_new (replicate 4096 0)) no_keys [72; 105; 33])
    as (d' & E & _ & Hc & _).
  - done.
  - vm_compute. done.
  - done.
  - done.
  - repeat constructor; intros _; done.
  - by repeat constructor.
  - vm_compute. done.
  - exists d'. split; [exact E|exact Hc].
Defined.

(** Pressing shift is an event of the task that owns the keyboard, and the
    event it reads is what its slot of the ring held before. *)
Lemma shift_stale_event w s cpu q d k : kb_owner k <> 0 -> (ring_tail k + 1) mod 256 <> ring_head k ->
  exists k', kbd_interrupt w s cpu q d k 0x2a = Ok (w, s, d, k') /\ ringbuffer k' = ringbuffer k /\ ring_tail k' = (ring_tail k + 1) mod 256.
Proof.
  intros Ho Hr. destruct k as [m t o r h tl]. cbn in *. unfold kbd_interrupt, tty_char, push_event.
  change (has 0x2a 0x80) with false. change (Z.land 0x2a 0x7f) with 0x2a. cbn [set_mod keyboard0_mod kb_owner kb_tty ringbuffer ring_head ring_tail].
  rewrite (proj2 (Z.eqb_neq o 0) Ho), (proj2 (Z.eqb_neq _ _) Hr). cbn [andb outcome_bind fst snd].
  destruct (has (update_mod m 42 false) KBD_MOD_SHIFT); vm_compute Z.leb; cbv iota;
    [change (aget shifted_scancodes 42) with (Ok 0)|change (aget regular_scancodes 42) with (Ok 0)]; cbn; by eexists.
Qed.
