(* ===== verification/Shell.v ===== *)
(** * The shell

    userspace/shell/main.c: the line editor, the splitting of a line into an
    argument vector with [strtok], and the calls that a line leads to.  What
    the shell prints besides the echo of its input is left out.  The last
    theorem goes from the keys that are pressed to the program that is
    started. *)

From stdpp Require Import base numbers list gmap sets.
From Stdlib Require Import ZArith Lia.
From S2P Require Import Prelude Sched Wait Process Tty Keyboard.

Definition buffer_size : Z := 4096.
Definition max_args : nat := 8.

(** ** strtok(_, " \n") *)

Definition is_delim (c : Z) : bool := (c =? 32) || (c =? 10).

Fixpoint skip_delims (l : list Z) (p : Z) : outcome Z :=
  match l with
  | [] => Fault
  | c :: l => if is_delim c then skip_delims l (p + 1) else Ok p
  end.

(** The end of a token and whether a delimiter ends it. *)
Fixpoint scan_token (l : list Z) (p : Z) : outcome (Z * bool) :=
  match l with
  | [] => Fault
  | c :: l => if c =? 0 then Ok (p, false) else if is_delim c then Ok (p, true) else scan_token l (p + 1)
  end.

(** The next token from [p] on, its delimiter overwritten, and where to go on. *)
Definition strtok (buffer : list Z) (p : Z) : outcome (option Z * list Z * Z) :=
  let* q := skip_delims (drop (Z.to_nat p) buffer) p in
  let* c := aget buffer q in
  if c =? 0 then Ok (None, buffer, q)
  else
    let* (e, delim) := scan_token (drop (Z.to_nat q) buffer) q in
    if delim then let* buffer := aset buffer e 0 in Ok (Some q, buffer, e + 1)
    else Ok (Some q, buffer, e).

(** ** execute *)

(** The calls of a line; the result of each selects what follows. *)
Inductive sh_prog :=
  | Return
  | Exit (status : Z)
  | Chdir (path : list Z) (k : ret -> sh_prog)
  | Getcwd (k : ret -> sh_prog)
  | Getpgid (pid : Z) (k : ret -> sh_prog)
  | Spawnp (argv : list (option (list Z))) (flags : Z) (k : ret -> sh_prog)
  | Tcsetpgrp (fd : Z) (pgrp : ret) (k : ret -> sh_prog)
  | Wait (k : ret -> sh_prog).

(** [token] is the token in hand; one more is taken before the count is looked at. *)
Fixpoint token_loop (n : nat) (token : option Z) (buffer : list Z) (save : Z) (argv : list Z) : outcome (list Z * list Z) :=
  match token, n with
  | Some t, S n =>
      let* (r, save) := strtok buffer save in
      let '(token, buffer) := r in
      token_loop n token buffer save (argv ++ [t])
  | _, _ => Ok (argv, buffer)
  end.

Fixpoint cstr (l : list Z) : list Z :=
  match l with
  | c :: l => if c =? 0 then [] else c :: cstr l
  | [] => []
  end.

(** [strncmp(buffer, s, n) == 0] for the [n] bytes [s]. *)
Definition starts (buffer s : list Z) : bool := bool_decide (take (length s) buffer = s).

(** The nine entries of [argv]. *)
Definition argv_strings (buffer argv : list Z) : list (option (list Z)) :=
  ((fun t => Some (cstr (drop (Z.to_nat t) buffer))) <$> argv) ++ replicate (9 - length argv) None.

Definition run_program (argv : list (option (list Z))) : sh_prog :=
  Getpgid 0 (fun save_pgid =>
  Spawnp argv SPAWN_SETPGID (fun s_pid =>
  if failed s_pid then Return
  else Tcsetpgrp 0 s_pid (fun _ => Wait (fun _ => Tcsetpgrp 0 save_pgid (fun _ => Return))))).

Definition execute (buffer : list Z) (b_count : Z) : outcome (sh_prog * list Z) :=
  let* (r, save) := strtok buffer 0 in
  let '(token, buffer) := r in
  let* (offsets, buffer) := token_loop max_args token buffer save [] in
  let argv := argv_strings buffer offsets in
  if starts buffer [99; 100] then
    match argv !! 1%nat with
    | Some (Some ((_ :: _) as path)) => Ok (Chdir path (fun _ => Return), buffer)
    | _ => Ok (Return, buffer)
    end
  else if (b_count =? 4) && starts buffer [112; 119; 100; 0] then Ok (Getcwd (fun _ => Return), buffer)
  else if (b_count =? 5) && starts buffer [101; 120; 105; 116; 0] then Ok (Exit 0, buffer)
  else Ok (run_program argv, buffer).

(** ** main *)

Record shell := mk_shell { sh_buffer : list Z; b_count : Z }.

(** One character: it is stored if it is printable, a rubout takes one back. *)
Definition edit_char (sh : shell) (data : Z) : outcome shell :=
  let* sh :=
    if (32 <=? data) && (data <=? 126) && (b_count sh <? 4095) then
      let* b := aset (sh_buffer sh) (b_count sh) data in Ok (mk_shell b (b_count sh + 1))
    else Ok sh in
  if (data =? 0x7f) && negb (b_count sh =? 0) then
    let* b := aset (sh_buffer sh) (b_count sh) 0 in Ok (mk_shell b (b_count sh - 1))
  else Ok sh.

(** The loop over what one [read] returned: the shell, the echo and the calls
    of the line if it was completed.  What follows the newline is dropped. *)
Fixpoint input_loop (sh : shell) (input : list Z) (echo : list Z) : outcome (shell * list Z * option sh_prog) :=
  match input with
  | [] => Ok (sh, echo, None)
  | data :: input =>
      let* sh := edit_char sh data in
      if data =? 10 then
        if 0 <? b_count sh then
          let* b := aset (sh_buffer sh) (b_count sh) 0 in
          let* (p, b) := execute b (b_count sh + 1) in
          Ok (mk_shell b 0, echo, Some p)
        else Ok (mk_shell (sh_buffer sh) 0, echo, Some Return)
      else input_loop sh input (echo ++ [data])
  end.

(** ** Words *)

(** The maximal runs of characters that are no delimiter; [w] is the run in hand. *)
Fixpoint words_from (w l : list Z) : list (list Z) :=
  match l with
  | [] => if bool_decide (w = []) then [] else [w]
  | c :: l => if is_delim c then (if bool_decide (w = []) then [] else [w]) ++ words_from [] l else words_from (w ++ [c]) l
  end.

Definition words (l : list Z) : list (list Z) := words_from [] l.

Definition no_delim (w : list Z) : Prop := Forall (fun c => is_delim c = false) w.
Definition no_nul (l : list Z) : Prop := Forall (fun c => c <> 0) l.

Lemma words_from_run w l : no_delim l -> w ++ l <> [] -> words_from w l = [w ++ l].
Proof.
  revert w. induction l as [|c l IH]; intros w Hd Hne; cbn [words_from].
  - rewrite app_nil_r in *. by rewrite bool_decide_eq_false_2.
  - apply Forall_cons in Hd as [-> Hd]. rewrite IH; [by rewrite <- app_assoc|done|by destruct w].
Qed.

Lemma words_from_stop w v d l : no_delim v -> w ++ v <> [] -> is_delim d = true -> words_from w (v ++ d :: l) = (w ++ v) :: words l.
Proof.
  revert w. induction v as [|c v IH]; intros w Hv Hne Hd; cbn [words_from app].
  - rewrite app_nil_r in *. rewrite Hd, bool_decide_eq_false_2 by done. done.
  - apply Forall_cons in Hv as [-> Hv]. rewrite IH; [by rewrite <- app_assoc|done|by destruct w|done].
Qed.

Lemma words_skip sp l : Forall (fun c => is_delim c = true) sp -> words (sp ++ l) = words l.
Proof. unfold words. induction 1 as [|c sp Hc _ IH]; [done|]. cbn [app words_from]. by rewrite Hc. Qed.

(** A line is blank, or blanks, a word and the rest. *)
Lemma split_line l : (words l = [] /\ Forall (fun c => is_delim c = true) l) \/
  exists sp w r, l = sp ++ w ++ r /\ Forall (fun c => is_delim c = true) sp /\ w <> [] /\ no_delim w /\
    ((r = [] /\ words l = [w]) \/ exists d r', r = d :: r' /\ is_delim d = true /\ words l = w :: words r').
Proof.
  induction l as [|c l IH]; [by left|]. destruct (is_delim c) eqn:Hc.
  - destruct IH as [[Hw Hl]|(sp & w & r & -> & Hsp & Hne & Hd & H)].
    + left. split; [|by constructor]. unfold words in *. cbn [words_from]. by rewrite Hc, Hw.
    + right. exists (c :: sp), w, r. split; [done|]. split; [by constructor|]. split; [done|]. split; [done|].
      unfold words in *. cbn [words_from app]. by rewrite Hc.
  - right. assert (exists w r, l = w ++ r /\ no_delim w /\ (r = [] \/ exists d r', r = d :: r' /\ is_delim d = true)) as (w & r & -> & Hw & Hr).
    { clear IH. induction l as [|x l (w & r & -> & Hw & Hr)]; [exists [], []; split; [done|]; split; [constructor|by left]|].
      destruct (is_delim x) eqn:Hx.
      - exists [], (x :: w ++ r). split; [done|]. split; [constructor|]. right. by exists x, (w ++ r).
      - exists (x :: w), r. split; [done|]. split; [by constructor|done]. }
    exists [], (c :: w), r. assert (no_delim (c :: w)) as Hcw by (by constructor). split; [done|]. split; [constructor|]. split; [done|]. split; [done|].
    destruct Hr as [->|(d & r' & -> & Hd)]; [left|right].
    + split; [done|]. rewrite app_nil_r. by apply (words_from_run [] (c :: w)).
    + exists d, r'. split; [done|]. split; [done|]. by apply (words_from_stop [] (c :: w)).
Qed.

(** ** Tokens *)

Lemma skip_delims_spec sp c l p : Forall (fun c => is_delim c = true) sp -> is_delim c = false -> skip_delims (sp ++ c :: l) p = Ok (p + zlen sp).
Proof.
  intros Hsp Hc. revert p. induction Hsp as [|x sp Hx _ IH]; intros p; cbn [app skip_delims].
  - rewrite Hc. f_equal. change (zlen (@nil Z)) with 0. lia.
  - rewrite Hx, IH, zlen_cons. f_equal. lia.
Qed.

Lemma scan_token_spec w c l p : no_delim w -> no_nul w -> c = 0 \/ is_delim c = true ->
  scan_token (w ++ c :: l) p = Ok (p + zlen w, negb (c =? 0)).
Proof.
  intros Hw. revert p. induction Hw as [|x w Hx _ IH]; intros p Hn Hc; cbn [app scan_token].
  - change (zlen (@nil Z)) with 0. rewrite Z.add_0_r. destruct (Z.eqb_spec c 0); [done|]. destruct Hc as [?| ->]; done.
  - apply Forall_cons in Hn as [Hx0 Hn]. rewrite (proj2 (Z.eqb_neq x 0) Hx0), Hx, IH, zlen_cons by done. do 2 f_equal. lia.
Qed.

Lemma delim_nul : is_delim 0 = false.
Proof. done. Qed.

Lemma drop_pre (pre l : list Z) : drop (Z.to_nat (zlen pre)) (pre ++ l) = l.
Proof. unfold zlen. rewrite Nat2Z.id. apply drop_app_length. Qed.

Lemma aget_pre (pre l : list Z) c : aget (pre ++ c :: l) (zlen pre) = Ok c.
Proof. apply aget_Ok. split; [apply zlen_nonneg|]. unfold zlen. by rewrite Nat2Z.id, list_lookup_middle. Qed.

Lemma aset_pre (pre l : list Z) c v : aset (pre ++ c :: l) (zlen pre) v = Ok (pre ++ v :: l).
Proof.
  unfold aset. rewrite zlen_app, zlen_cons. pose proof (zlen_nonneg pre). pose proof (zlen_nonneg l).
  destruct (Z.leb_spec 0 (zlen pre)); [|lia]. destruct (Z.ltb_spec (zlen pre) (zlen pre + (1 + zlen l))); [|lia]. cbn [andb].
  unfold zlen. rewrite Nat2Z.id. f_equal. induction pre; cbn; [done|]. f_equal. apply IHpre; unfold zlen; lia.
Qed.

Lemma strtok_blank pre l junk : Forall (fun c => is_delim c = true) l -> exists save, strtok (pre ++ l ++ 0 :: junk) (zlen pre) = Ok (None, pre ++ l ++ 0 :: junk, save).
Proof.
  intros Hl. unfold strtok. rewrite drop_pre, skip_delims_spec by done. cbn [outcome_bind]. rewrite <- zlen_app, app_assoc, aget_pre. cbn [outcome_bind]. by eexists.
Qed.

(** The buffer is left as [pre'], the rest of the line [l'] and what follows it. *)
Lemma strtok_word pre sp w r junk : Forall (fun c => is_delim c = true) sp -> w <> [] -> no_delim w -> no_nul (sp ++ w ++ r) ->
  (r = [] \/ exists d r', r = d :: r' /\ is_delim d = true) ->
  exists z l', strtok (pre ++ (sp ++ w ++ r) ++ 0 :: junk) (zlen pre) =
      Ok (Some (zlen (pre ++ sp)), (pre ++ sp ++ w ++ z) ++ l' ++ 0 :: junk, zlen (pre ++ sp ++ w ++ z)) /\
    ((r = [] /\ z = [] /\ l' = []) \/ exists d, r = d :: l' /\ z = [0]).
Proof.
  intros Hsp Hne Hw Hn Hr. apply Forall_app in Hn as [_ Hn]. apply Forall_app in Hn as [Hnw _].
  assert (exists x w0, w = x :: w0) as (x & w0 & Ew) by (destruct w; eauto; done). assert (is_delim x = false /\ x <> 0) as [Hx Hx0].
  { rewrite Ew in Hw, Hnw. by apply Forall_cons in Hw as [? _], Hnw as [? _]. }
  unfold strtok. rewrite drop_pre. replace ((sp ++ w ++ r) ++ 0 :: junk) with (sp ++ w ++ r ++ 0 :: junk) by (by rewrite <- !app_assoc).
  assert (skip_delims (sp ++ w ++ r ++ 0 :: junk) (zlen pre) = Ok (zlen (pre ++ sp))) as ->
    by (rewrite Ew, zlen_app; by apply skip_delims_spec).
  cbn [outcome_bind]. rewrite (app_assoc pre sp).
  assert (aget ((pre ++ sp) ++ w ++ r ++ 0 :: junk) (zlen (pre ++ sp)) = Ok x) as -> by (rewrite Ew; apply aget_pre).
  cbn [outcome_bind]. rewrite (proj2 (Z.eqb_neq x 0) Hx0), drop_pre.
  destruct Hr as [->|(d & r' & -> & Hd)]; cbn [app].
  - rewrite scan_token_spec by (done || by left). cbn [outcome_bind Z.eqb negb]. exists [], []. rewrite !app_nil_r. cbn [app].
    rewrite <- zlen_app, <- !app_assoc. split; [done|by left].
  - rewrite scan_token_spec by (done || by right). cbn [outcome_bind]. assert (d <> 0) as Hd0 by (intros ->; done).
    rewrite (proj2 (Z.eqb_neq d 0) Hd0). cbn [negb]. rewrite <- zlen_app, (app_assoc (pre ++ sp) w), aset_pre. cbn [outcome_bind].
    exists [0], r'. split; [|right; by exists d]. replace (pre ++ sp ++ w ++ [0]) with (((pre ++ sp) ++ w) ++ [0]) by (by rewrite <- !app_assoc).
    rewrite (zlen_app _ [0]), <- (app_assoc _ [0]). done.
Qed.

Lemma cstr_word w l : no_nul w -> cstr (w ++ 0 :: l) = w.
Proof. induction 1 as [|c w Hc _ IH]; [done|]. cbn [app cstr]. by rewrite (proj2 (Z.eqb_neq c 0) Hc), IH. Qed.

(** [b] is [a] with some bytes replaced by NUL. *)
Definition cut_from (b a : list Z) : Prop := Forall2 (fun y x => y = x \/ y = 0) b a.

Lemma cut_from_refl a : cut_from a a.
Proof. induction a; constructor; [by left|done]. Qed.

Lemma cut_from_trans c b a : cut_from c b -> cut_from b a -> cut_from c a.
Proof.
  intros H. revert a. induction H as [|z y c b Hz _ IH]; intros a Ha; inversion_clear Ha as [|? ? ? ? Hy Hr]; constructor; [|by apply IH].
  destruct Hz as [->|]; [done|by right].
Qed.

Lemma tokens_spec n : forall pre l junk argv, no_nul l ->
  exists offs tail, (let* (r, save) := strtok (pre ++ l ++ 0 :: junk) (zlen pre) in let '(token, buffer) := r in token_loop n token buffer save argv) =
      Ok (argv ++ offs, pre ++ tail) /\
    ((fun t => cstr (drop (Z.to_nat t) (pre ++ tail))) <$> offs) = take n (words l) /\ cut_from tail (l ++ 0 :: junk) /\ (l = [] -> tail = 0 :: junk).
Proof.
  induction n as [|n IH]; intros pre l junk argv Hn.
  all: destruct (split_line l) as [[Hw Hl]|(sp & w & r & -> & Hsp & Hne & Hd & Hr)].
  1,3: destruct (strtok_blank pre l junk Hl) as (save & ->); cbn [outcome_bind token_loop]; exists [], (l ++ 0 :: junk);
    rewrite app_nil_r, Hw; split_and!; [done|done|apply cut_from_refl|by intros ->].
  all: destruct (strtok_word pre sp w r junk) as (z & l' & -> & Hz); [done..|destruct Hr as [[? _]|(d & r' & ? & ? & _)]; eauto|]; cbn [outcome_bind].
  all: assert (cut_from (sp ++ w ++ z ++ l' ++ 0 :: junk) ((sp ++ w ++ r) ++ 0 :: junk)) as Hcut
    by (rewrite <- !app_assoc; repeat (apply Forall2_app; [apply cut_from_refl|]);
        destruct Hz as [(-> & -> & ->)|(d & -> & ->)]; [apply cut_from_refl|constructor; [by right|apply cut_from_refl]]).
  - cbn [token_loop]. exists [], (sp ++ w ++ z ++ l' ++ 0 :: junk). rewrite app_nil_r, <- !app_assoc.
    split_and!; [done|done|by rewrite <- !app_assoc in Hcut|]. intros E. apply app_eq_nil in E as [_ E]. by destruct w.
  - cbn [token_loop]. assert (no_nul l') as Hn'.
    { apply Forall_app in Hn as [_ Hn]. apply Forall_app in Hn as [_ Hn].
      destruct Hz as [(_ & _ & ->)|(d & -> & _)]; [constructor|by apply Forall_cons in Hn as [_ ?]]. }
    destruct (IH (pre ++ sp ++ w ++ z) l' junk (argv ++ [zlen (pre ++ sp)]) Hn') as (offs & tail & -> & Hs & Hc & Hnil).
    exists (zlen (pre ++ sp) :: offs), (sp ++ w ++ z ++ tail). rewrite <- !app_assoc. split; [done|].
    assert (words (sp ++ w ++ r) = w :: words l') as ->.
    { destruct Hr as [[Er ->]|(d & r' & Er & _ & ->)], Hz as [(E1 & _ & ->)|(d' & E1 & _)]; try congruence; done. }
    split; [|split; [|intros E; apply app_eq_nil in E as [_ E]; by destruct w]].
    + cbn [fmap list_fmap take]. f_equal; [|by rewrite <- !app_assoc in Hs]. rewrite (app_assoc pre sp), drop_pre.
      apply Forall_app in Hn as [_ Hn]. apply Forall_app in Hn as [Hnw _].
      destruct Hz as [(_ & -> & ->)|(d & _ & ->)]; [rewrite Hnil by done|]; by apply cstr_word.
    + rewrite <- !app_assoc in Hcut. eapply cut_from_trans; [|exact Hcut]. do 3 (apply Forall2_app; [apply cut_from_refl|]). exact Hc.
Qed.

(** ** Lines *)

Lemma starts_cut b a s : cut_from b a -> no_nul s -> starts b s = true -> starts a s = true.
Proof.
  unfold starts. rewrite !bool_decide_eq_true. intros H Hs. revert s Hs. induction H as [|y x b a Hyx _ IH]; intros s Hs E.
  - done.
  - destruct s as [|c s]; [done|]. cbn [length take] in *. injection E as -> E. apply Forall_cons in Hs as [Hc Hs].
    destruct Hyx as [->|]; [|done]. f_equal. by apply IH.
Qed.

Lemma starts_line line junk s : no_nul s -> starts (line ++ 0 :: junk) s = true -> exists more, line = s ++ more.
Proof.
  unfold starts. rewrite bool_decide_eq_true. intros Hs. revert line. induction Hs as [|c s Hc _ IH]; intros line E; [by exists line|].
  destruct line as [|x line]; cbn [app length take] in E; injection E as E1 E2; [done|]. subst x. destruct (IH line E2) as (more & ->). by exists more.
Qed.

(** The argument vector of a line. *)
Definition argv_of (line : list Z) : list (option (list Z)) :=
  let ws := take max_args (words line) in (Some <$> ws) ++ replicate (9 - length ws) None.

(** A line that is no command of the shell itself. *)
Definition external (line : list Z) : Prop :=
  (forall more, line <> [99; 100] ++ more) /\ line <> [112; 119; 100] /\ line <> [101; 120; 105; 116].

Lemma starts_exact b line junk s : cut_from b (line ++ 0 :: junk) -> no_nul s -> zlen line = zlen s -> starts b (s ++ [0]) = true -> line = s.
Proof.
  intros Hc Hs Hz E. assert (starts b s = true) as E'.
  { unfold starts in *. rewrite bool_decide_eq_true in *. apply (f_equal (take (length s))) in E.
    by rewrite take_take, take_app_length, Nat.min_l in E by (rewrite length_app; lia). }
  destruct (starts_line line junk s Hs) as (more & ->); [by eapply starts_cut|]. rewrite zlen_app in Hz.
  assert (length more = 0%nat) as Hm by (unfold zlen in Hz; lia). destruct more; [by rewrite app_nil_r|done].
Qed.

Lemma execute_spec line junk : no_nul line -> external line ->
  exists b, execute (line ++ 0 :: junk) (zlen line + 1) = Ok (run_program (argv_of line), b) /\ length b = length (line ++ 0 :: junk).
Proof.
  intros Hn (H1 & H2 & H3). unfold execute. destruct (tokens_spec max_args [] line junk [] Hn) as (offs & b & E & Hs & Hc & _).
  cbn [app] in E, Hs. change (zlen []) with 0 in E. exists b. split; [|by apply Forall2_length in Hc].
  assert (starts b [99; 100] = false) as N1.
  { apply not_true_iff_false. intros Es. destruct (starts_line line junk [99; 100]) as (more & El); [by repeat constructor| |by apply (H1 more)].
    eapply starts_cut; [exact Hc|by repeat constructor|exact Es]. }
  assert ((zlen line + 1 =? 4) && starts b [112; 119; 100; 0] = false) as N2.
  { apply andb_false_iff. destruct (Z.eqb_spec (zlen line + 1) 4) as [Ez|]; [right|by left]. apply not_true_iff_false. intros Es.
    apply H2, (starts_exact b line junk [112; 119; 100]); [done|by repeat constructor|change (zlen [112; 119; 100]) with 3; lia|done]. }
  assert ((zlen line + 1 =? 5) && starts b [101; 120; 105; 116; 0] = false) as N3.
  { apply andb_false_iff. destruct (Z.eqb_spec (zlen line + 1) 5) as [Ez|]; [right|by left]. apply not_true_iff_false. intros Es.
    apply H3, (starts_exact b line junk [101; 120; 105; 116]); [done|by repeat constructor|change (zlen [101; 120; 105; 116]) with 4; lia|done]. }
  destruct (strtok (line ++ 0 :: junk) 0) as [[[token b1] save]| | |]; try done. cbn [outcome_bind] in *. rewrite E. cbn [outcome_bind].
  rewrite N1, N2, N3. unfold argv_of, argv_strings. rewrite <- Hs. do 3 f_equal. rewrite <- list_fmap_compose, length_fmap. done.
Qed.

(** ** Editing *)

Definition printable (c : Z) : bool := (32 <=? c) && (c <=? 126).

(** What a line is after one more key. *)
Definition edit (line : list Z) (c : Z) : list Z :=
  if printable c then line ++ [c] else if c =? 0x7f then take (length line - 1) line else line.

Lemma edit_length line c : zlen (edit line c) <= zlen line + 1.
Proof. unfold edit. repeat case_match; rewrite ?zlen_app; unfold zlen; rewrite ?length_take; cbn; lia. Qed.

Lemma edit_no_nul line c : no_nul line -> no_nul (edit line c).
Proof.
  intros Hn. unfold edit, printable. destruct ((32 <=? c) && (c <=? 126)) eqn:E; [|case_match; [by apply Forall_take|done]].
  apply Forall_app. split; [done|]. apply Forall_singleton. intros ->. done.
Qed.

Lemma edit_char_spec line x rest c : zlen line < 4095 ->
  exists rest', edit_char (mk_shell (line ++ x :: rest) (zlen line)) c = Ok (mk_shell (edit line c ++ rest') (zlen (edit line c))) /\
    length (edit line c ++ rest') = length (line ++ x :: rest).
Proof.
  intros Hl. unfold edit_char, edit, printable. cbn [sh_buffer b_count]. destruct (Z.ltb_spec (zlen line) 4095); [|lia]. rewrite andb_true_r.
  destruct ((32 <=? c) && (c <=? 126)) eqn:E.
  - rewrite aset_pre. cbn [outcome_bind b_count]. assert ((c =? 0x7f) = false) as -> by lia. cbn [andb]. exists rest.
    rewrite zlen_app, <- app_assoc. split; [done|]. rewrite !length_app. cbn. lia.
  - cbn [outcome_bind b_count sh_buffer]. destruct (c =? 0x7f); [|by exists (x :: rest)]. cbn [andb].
    destruct (Z.eqb_spec (zlen line) 0) as [Hz|Hz]; cbn [negb].
    + destruct line; [|rewrite zlen_cons in Hz; pose proof (zlen_nonneg line); lia]. by exists (x :: rest).
    + rewrite aset_pre. cbn [outcome_bind]. exists (drop (length line - 1) line ++ 0 :: rest).
      rewrite app_assoc, take_drop. split; [|rewrite !length_app; done]. do 2 f_equal. unfold zlen in *. rewrite length_take. lia.
Qed.

Lemma input_loop_spec input : forall line x rest echo more, 10 ∉ input -> no_nul line -> zlen line + zlen input < 4095 ->
  zlen (line ++ x :: rest) = buffer_size ->
  exists rest', input_loop (mk_shell (line ++ x :: rest) (zlen line)) (input ++ more) echo =
      input_loop (mk_shell (foldl edit line input ++ rest') (zlen (foldl edit line input))) more (echo ++ input) /\
    zlen (foldl edit line input ++ rest') = buffer_size /\ zlen (foldl edit line input) < 4095 /\ no_nul (foldl edit line input).
Proof.
  induction input as [|c input IH]; intros line x rest echo more Hn Hnul Hl Hb.
  - exists (x :: rest). rewrite app_nil_r. change (zlen (@nil Z)) with 0 in Hl. split_and!; [done|done|cbn; lia|done].
  - rewrite zlen_cons in Hl. pose proof (zlen_nonneg input). pose proof (edit_length line c). cbn [app input_loop foldl].
    destruct (edit_char_spec line x rest c) as (rest' & -> & Hlen); [lia|]. cbn [outcome_bind].
    destruct (Z.eqb_spec c 10); [set_solver|]. assert (zlen (edit line c ++ rest') = buffer_size) as Hb' by (unfold zlen in *; lia).
    destruct rest' as [|x' rest']; [rewrite app_nil_r in Hb'; unfold buffer_size in Hb'; lia|].
    destruct (IH (edit line c) x' rest' (echo ++ [c]) more) as (r & -> & H1); [set_solver|by apply edit_no_nul|lia|done|].
    exists r. by rewrite <- app_assoc.
Qed.

(** A line of input that ends in a newline. *)
Lemma shell_line sh input : b_count sh = 0 -> zlen (sh_buffer sh) = buffer_size -> 10 ∉ input -> zlen input < 4095 ->
  foldl edit [] input <> [] -> external (foldl edit [] input) ->
  exists sh', input_loop sh (input ++ [10]) [] = Ok (sh', input, Some (run_program (argv_of (foldl edit [] input)))) /\
    b_count sh' = 0 /\ zlen (sh_buffer sh') = buffer_size.
Proof.
  intros Hc Hb Hn Hl Hne Hext. destruct sh as [b n]. cbn in Hc, Hb. subst n. destruct b as [|x b]; [done|].
  destruct (input_loop_spec input [] x b [] [10]) as (rest & E & Hb' & Hl' & Hnul); [done|constructor|done|done|].
  cbn [app] in E. change (zlen []) with 0 in E. rewrite E. set (line := foldl edit [] input) in *. cbn [input_loop].
  destruct rest as [|y rest]; [rewrite app_nil_r in Hb'; unfold buffer_size in Hb'; lia|].
  destruct (edit_char_spec line y rest 10) as (rest' & Ee & Hlen); [done|]. change (edit line 10) with line in *. rewrite Ee. cbn [outcome_bind Z.eqb b_count sh_buffer].
  destruct (Z.ltb_spec 0 (zlen line)) as [_|Hz]; [|destruct line; [done|rewrite zlen_cons in Hz; pose proof (zlen_nonneg line); lia]].
  destruct rest' as [|y' rest']; [exfalso; rewrite app_nil_r in Hlen; rewrite length_app in Hlen; cbn in Hlen; lia|].
  rewrite aset_pre. cbn [outcome_bind]. destruct (execute_spec line rest' Hnul Hext) as (b' & -> & Hlb). cbn [outcome_bind Z.eqb Pos.eqb].
  eexists. split; [reflexivity|]. split; [done|]. cbn [sh_buffer]. rewrite length_app in Hlb, Hlen. cbn in Hlb, Hlen.
  unfold zlen in *. rewrite length_app in *. cbn in *. lia.
Qed.



(** What arrives after the newline in the same read is lost. *)
Lemma after_newline_lost more : forall input sh echo, 10 ∉ input -> input_loop sh (input ++ 10 :: more) echo = input_loop sh (input ++ [10]) echo.
Proof.
  induction input as [|c input IH]; intros sh echo Hn; cbn [app input_loop]; [done|].
  destruct (edit_char sh c); try done. cbn [outcome_bind]. destruct (Z.eqb_spec c 10); [set_solver|]. apply IH. set_solver.
Qed.

(** Every line that begins with "cd" changes the directory: "cdx /tmp". *)
Lemma cd_prefix : exists b, execute ([99; 100; 120; 32; 47; 116; 109; 112] ++ 0 :: replicate 20 0) 9 = Ok (Chdir [47; 116; 109; 112] (fun _ => Return), b).
Proof. by eexists. Qed.
