(* ===== verification/Initramfs.v ===== *)
(** * The initial file system

    kernel/fs/initramfs.c: unpacking a tar archive into the file system.  The
    memory that holds the archive is a list of bytes and a pointer into it an
    offset; reading outside it is a fault.  The file operations the code calls
    are an interface, which the virtual file system implements. *)

From stdpp Require Import base numbers list gmap sets.
From Stdlib Require Import ZArith Lia.
From S2P Require Import Prelude Wire Dcache Lookup Vfs.

(** What unpacking needs of the file system. *)
Class ArchiveTarget (V : Type) := {
  at_mkdir : V -> list Z -> Z -> outcome (ret * V);
  at_create : V -> list Z -> Z -> outcome (ret * V);
  at_open : V -> list Z -> Z -> outcome (ret * V);
  at_write : V -> Z -> list Z -> outcome (ret * V);
  at_close : V -> Z -> outcome (ret * V);
}.

Section vfs_target.
Context {D : Type}.
Context (iops_at : Z -> option (inode_ops D)) (sops_at : Z -> option (super_ops D)) (fops_at : Z -> option (file_ops D)).
Context (socket_put : D -> Z -> outcome D) (no_return : ret).

Definition vfs_target : ArchiveTarget (vfs D) := {|
  at_mkdir := vfs_mkdir iops_at sops_at;
  at_create := vfs_create iops_at sops_at;
  at_open := vfs_open iops_at sops_at fops_at;
  at_write := vfs_write fops_at;
  at_close := vfs_close fops_at socket_put no_return;
|}.
End vfs_target.

(** ** Reading a record *)

(** Up to [size] digits or a NUL, into 32 bits; a character is signed. *)
Fixpoint oct2uint (oct : list Z) (size : nat) (out : Z) {struct size} : outcome Z :=
  match size with
  | O => Ok out
  | S size =>
      match oct with
      | [] => Fault
      | c :: oct => if c =? 0 then Ok out else oct2uint oct size (Z.lor (u32 (Z.shiftl out 3)) (u32 (s8 c - 48)))
      end
  end.

(** The string at the head of the list, which ends with a NUL. *)
Fixpoint string_at (l : list Z) : outcome (list Z) :=
  match l with
  | [] => Fault
  | c :: l => if c =? 0 then Ok [] else let* s := string_at l in Ok (c :: s)
  end.

(** Offsets of the fields of [ustar_record]. *)
Definition ustar_mode : nat := 100.
Definition ustar_size : nat := 124.
Definition ustar_type : nat := 156.

(** A descriptor is the result of an open as it is; none is negative. *)
Definition fd_of (r : ret) : Z := match r with RVal fd => fd | RErr _ => -1 end.

(** [sprintf] of a slash and the name into [path], which has 64 bytes, and
    the trailing slash taken off. *)
Definition record_path (name : list Z) : outcome (list Z) :=
  let path := 47 :: name in
  if 64 <? zlen path + 1 then Fault
  else Ok (if bool_decide (path !! length name = Some 47) then take (length name) path else path).

Section unpack.
Context {V : Type} `{ArchiveTarget V}.

Definition unpack_file (v : V) (path : list Z) (mode : Z) (bytes : list Z) : outcome V :=
  let* (_, v) := at_create v path mode in
  let* (fd, v) := at_open v path 0 in
  let* (_, v) := at_write v (fd_of fd) bytes in
  let* (_, v) := at_close v (fd_of fd) in
  Ok v.

(** The file or directory of a record; [rec] is the memory from the record on. *)
Definition unpack_record (v : V) (rec path : list Z) (mode size : Z) : outcome V :=
  let* type := aget rec (Z.of_nat ustar_type) in
  if type =? 53 then let* (_, v) := at_mkdir v path mode in Ok v
  else if type =? 48 then
    if 512 + size <=? zlen rec then unpack_file v path mode (take (Z.to_nat size) (drop 512 rec)) else Fault
  else Ok v.

Fixpoint unpack_loop (fuel : nat) (mem : list Z) (data end_ : Z) (v : V) : outcome V :=
  match fuel with
  | O => OutOfFuel
  | S fuel =>
      let rec := drop (Z.to_nat data) mem in
      let* name := string_at rec in
      if 63 <? zlen name then Ok v
      else if zlen name =? 0 then Ok v
      else
        let* path := record_path name in
        let* mode := oct2uint (drop ustar_mode rec) 7 0 in
        let* size := oct2uint (drop ustar_size rec) 11 0 in
        let* v := unpack_record v rec path mode size in
        let size := if size mod 512 =? 0 then size else u32 (size + (512 - size mod 512)) in
        let data := data + u32 (size + 512) in
        if end_ <=? data then Ok v else unpack_loop fuel mem data end_ v
  end.

Definition initramfs_unpack (fuel : nat) (mem : list Z) (length : Z) (v : V) : outcome V := unpack_loop fuel mem 0 length v.
End unpack.

(** ** Archives *)

Inductive item :=
  | Dir (name : list Z) (mode : Z)
  | File (name : list Z) (mode : Z) (content : list Z).

Fixpoint octal (k : nat) (n : Z) : list Z :=
  match k with O => [] | S k => (48 + n / 8 ^ Z.of_nat k mod 8) :: octal k n end.

Definition zero_pad (k : nat) (l : list Z) : list Z := l ++ replicate (k - length l) 0.

(** A record: name, mode, owner, size, time and checksum, type, and the rest up to 512 bytes. *)
Definition header (name : list Z) (mode size type : Z) : list Z :=
  zero_pad 100 name ++ octal 7 mode ++ [0] ++ replicate 16 0 ++ octal 11 size ++ [0] ++ replicate 20 0 ++ [type] ++ replicate 355 0.

Definition round_up (n : nat) : nat := if (n mod 512 =? 0)%nat then n else (n + (512 - n mod 512))%nat.

Definition item_bytes (i : item) : list Z :=
  match i with
  | Dir name mode => header (name ++ [47]) mode 0 53
  | File name mode content => header name mode (zlen content) 48 ++ zero_pad (round_up (length content)) content
  end.

Definition archive (items : list item) : list Z := concat (map item_bytes items).

Definition name_ok (k : nat) (name : list Z) : Prop :=
  name <> [] /\ (length name <= k)%nat /\ Forall (fun c => 0 < c < 256) name /\ last name <> Some 47.

Definition item_ok (i : item) : Prop :=
  match i with
  | Dir name mode => name_ok 61 name /\ 0 <= mode < 8 ^ 7
  | File name mode content => name_ok 62 name /\ 0 <= mode < 8 ^ 7 /\ zlen content < 2 ^ 31
  end.

Definition unpack_item {V} `{ArchiveTarget V} (v : V) (i : item) : outcome V :=
  match i with
  | Dir name mode => let* (_, v) := at_mkdir v (47 :: name) mode in Ok v
  | File name mode content => unpack_file v (47 :: name) mode content
  end.

(** ** Reading back *)

Lemma octal_length k n : length (octal k n) = k.
Proof. induction k; cbn; auto. Qed.

Lemma octal_step out d : 0 <= out < 2 ^ 29 -> 0 <= d < 8 -> Z.lor (u32 (Z.shiftl out 3)) (u32 (s8 (48 + d) - 48)) = out * 8 + d.
Proof.
  intros Ho Hd. assert (u32 (s8 (48 + d) - 48) = d) as ->.
  { assert (d = 0 \/ d = 1 \/ d = 2 \/ d = 3 \/ d = 4 \/ d = 5 \/ d = 6 \/ d = 7) as H by lia.
    destruct H as [->|[->|[->|[->|[->|[->|[->| ->]]]]]]]; reflexivity. }
  unfold u32, wrap. rewrite Z.shiftl_mul_pow2, Z.mod_small by lia.
  rewrite lor_disjoint by lia. lia.
Qed.

(** Digits do not depend on what is above them. *)
Lemma octal_mod k n j : (j <= k)%nat -> octal j n = octal j (n mod 8 ^ Z.of_nat k).
Proof.
  induction j as [|j IH]; intros Hle; [done|]. cbn [octal]. rewrite <- IH by lia. f_equal. f_equal.
  replace (Z.of_nat k) with (Z.of_nat j + (1 + Z.of_nat (k - j - 1))) by lia. rewrite !Z.pow_add_r by lia.
  change (8 ^ 1) with 8. assert (0 < 8 ^ Z.of_nat j) by (apply Z.pow_pos_nonneg; lia).
  assert (0 < 8 ^ Z.of_nat (k - j - 1)) by (apply Z.pow_pos_nonneg; lia).
  rewrite Z.rem_mul_r by lia. rewrite Z.add_comm, Z.mul_comm, Z.div_add_l by lia.
  rewrite (Z.div_small (n mod _)) by (apply Z.mod_pos_bound; lia). rewrite Z.add_0_r.
  rewrite Z.mod_mod_divide; [done|]. exists (8 ^ Z.of_nat (k - j - 1)). lia.
Qed.

Lemma oct2uint_octal k : forall n rest out, 0 <= n < 8 ^ Z.of_nat k -> 0 <= out -> out * 8 ^ Z.of_nat k + n < 2 ^ 32 ->
  oct2uint (octal k n ++ rest) k out = Ok (out * 8 ^ Z.of_nat k + n).
Proof.
  induction k as [|k IH]; intros n rest out Hn Hout Hsum.
  { change (8 ^ Z.of_nat 0) with 1 in *. cbn [oct2uint]. f_equal.
    lia. }
  rewrite Nat2Z.inj_succ, Z.pow_succ_r in * by lia. set (p := 8 ^ Z.of_nat k) in *. assert (0 < p) by (apply Z.pow_pos_nonneg; lia).
  assert (n / p mod 8 = n / p) as Hd.
  { apply Z.mod_small. split; [apply Z.div_pos; lia|apply Z.div_lt_upper_bound; lia]. }
  assert (0 <= n / p < 8) by (rewrite <- Hd; apply Z.mod_pos_bound; lia).
  cbn [octal oct2uint app]. fold p. rewrite Hd. destruct (Z.eqb_spec (48 + n / p) 0); [lia|].
  rewrite octal_step by nia.
  rewrite (octal_mod k n k) by lia. fold p.
  pose proof (Z.mod_pos_bound n p ltac:(lia)). pose proof (Z.div_mod n p ltac:(lia)) as Hdm.
  assert ((out * 8 + n / p) * p + n mod p = out * (8 * p) + n) as E by lia.
  rewrite IH by lia. by rewrite E.
Qed.

Lemma string_at_zero_pad k name rest : Forall (fun c => 0 < c < 256) name -> (length name < k)%nat ->
  string_at (zero_pad k name ++ rest) = Ok name.
Proof.
  unfold zero_pad. intros Hn. revert k. induction Hn as [|c name Hc Hn IH]; intros k Hk; cbn [length] in *.
  - destruct k as [|k]; [lia|]. done.
  - destruct k as [|k]; [lia|]. cbn [app string_at]. destruct (Z.eqb_spec c 0); [lia|].
    cbn [Nat.sub]. rewrite IH by lia. done.
Qed.

(** ** One record *)

Lemma zero_pad_length k l : (length l <= k)%nat -> length (zero_pad k l) = k.
Proof. intros H. unfold zero_pad. rewrite length_app, length_replicate. lia. Qed.

Lemma header_length name mode size type : (length name <= 100)%nat -> length (header name mode size type) = 512%nat.
Proof. intros H. unfold header. rewrite !length_app, zero_pad_length, !octal_length, !length_replicate by done. reflexivity. Qed.

(** The fields of a record, whatever follows it. *)
Lemma header_fields name mode size type rest : Forall (fun c => 0 < c < 256) name -> (length name < 100)%nat ->
  0 <= mode < 8 ^ 7 -> 0 <= size < 2 ^ 32 ->
  let rec := header name mode size type ++ rest in
  string_at rec = Ok name /\ oct2uint (drop ustar_mode rec) 7 0 = Ok mode /\ oct2uint (drop ustar_size rec) 11 0 = Ok size /\
  aget rec (Z.of_nat ustar_type) = Ok type /\ drop 512 rec = rest.
Proof.
  intros Hn Hl Hm Hs rec. assert (length (zero_pad 100 name) = 100%nat) as Hp by (apply zero_pad_length; lia). unfold rec. split_and!.
  - unfold header. rewrite <- app_assoc. by apply string_at_zero_pad.
  - unfold header. rewrite <- !app_assoc. rewrite drop_app_length' by (rewrite Hp; reflexivity).
    rewrite oct2uint_octal by (change (8 ^ Z.of_nat 7) with (8 ^ 7); lia). f_equal.
  - unfold header. rewrite (app_assoc (zero_pad 100 name)), (app_assoc (_ ++ _)), (app_assoc (_ ++ _)), <- (app_assoc (_ ++ _)).
    rewrite drop_app_length' by (rewrite !length_app, Hp, octal_length, length_replicate; reflexivity).
    rewrite <- !app_assoc. rewrite oct2uint_octal by (change (8 ^ Z.of_nat 11) with (2 ^ 33); lia). f_equal.
  - apply aget_Ok. split; [lia|]. rewrite Nat2Z.id. unfold header.
    rewrite lookup_app_l by (rewrite !length_app, Hp, !octal_length, !length_replicate; unfold ustar_type; cbn; lia).
    rewrite !app_assoc, <- (app_assoc _ [type]). rewrite lookup_app_r by (rewrite !length_app, Hp, !octal_length, !length_replicate; unfold ustar_type; cbn; lia).
    rewrite !length_app, Hp, !octal_length, !length_replicate. reflexivity.
  - apply drop_app_length'. symmetry. apply header_length. lia.
Qed.

Lemma record_path_dir name : name_ok 61 name -> record_path (name ++ [47]) = Ok (47 :: name).
Proof.
  intros (_ & Hl & _). unfold record_path. rewrite zlen_cons, zlen_app, zlen_cons. change (zlen (@nil Z)) with 0.
  destruct (Z.ltb_spec 64 (1 + (zlen name + (1 + 0)) + 1)); [unfold zlen in *; lia|]. rewrite length_app. cbn [length].
  rewrite Nat.add_1_r. change ((47 :: name ++ [47]) !! S (length name)) with ((name ++ [47]) !! length name).
  rewrite list_lookup_middle by done. rewrite bool_decide_eq_true_2 by done.
  cbn [take]. by rewrite take_app_length.
Qed.

Lemma record_path_file name : name_ok 62 name -> record_path name = Ok (47 :: name).
Proof.
  intros (Hne & Hl & _ & Hlast). unfold record_path. rewrite zlen_cons.
  destruct (Z.ltb_spec 64 (1 + zlen name + 1)); [unfold zlen in *; lia|]. rewrite bool_decide_eq_false_2; [done|].
  intros E. apply Hlast. destruct name as [|c name]; [done|]. rewrite last_lookup. exact E.
Qed.

Lemma round_up_spec n : Z.of_nat (round_up n) = if Z.of_nat n mod 512 =? 0 then Z.of_nat n else Z.of_nat n + (512 - Z.of_nat n mod 512).
Proof.
  unfold round_up. rewrite <- (Nat2Z.inj_mod n 512 : _ = Z.of_nat n mod 512).
  pose proof (Nat.mod_upper_bound n 512). destruct (Nat.eqb_spec (n mod 512) 0), (Z.eqb_spec (Z.of_nat (n mod 512)) 0); lia.
Qed.

Lemma round_up_bounds n : (n <= round_up n < n + 512)%nat.
Proof. unfold round_up. pose proof (Nat.mod_upper_bound n 512). destruct (Nat.eqb_spec (n mod 512) 0); lia. Qed.

Section unpacked.
Context {V : Type} `{ArchiveTarget V}.
Implicit Types v : V.

(** What the loop does for the item at its position. *)
Definition next_item (fuel : nat) (mem : list Z) (data end_ : Z) v (i : item) : outcome V :=
  let* v := unpack_item v i in
  let data := data + zlen (item_bytes i) in
  if end_ <=? data then Ok v else unpack_loop fuel mem data end_ v.

Lemma unpack_dir fuel mem data end_ v name mode rest : item_ok (Dir name mode) ->
  drop (Z.to_nat data) mem = item_bytes (Dir name mode) ++ rest ->
  unpack_loop (S fuel) mem data end_ v = next_item fuel mem data end_ v (Dir name mode).
Proof.
  intros [Hn Hm] Hrec. pose proof Hn as (Hne & Hl & Hc & _). cbn [item_bytes] in Hrec.
  destruct (header_fields (name ++ [47]) mode 0 53 rest) as (F1 & F2 & F3 & F4 & _);
    [apply Forall_app; split; [done|by repeat constructor]|rewrite length_app; cbn; lia|done|lia|].
  cbn [unpack_loop]. rewrite Hrec, F1. cbn [outcome_bind]. rewrite zlen_app, zlen_cons. change (zlen (@nil Z)) with 0.
  pose proof (zlen_nonneg name). destruct (Z.ltb_spec 63 (zlen name + (1 + 0))); [unfold zlen in *; lia|].
  destruct (Z.eqb_spec (zlen name + (1 + 0)) 0); [lia|]. rewrite record_path_dir by done. cbn [outcome_bind].
  rewrite F2. cbn [outcome_bind]. rewrite F3. cbn [outcome_bind]. unfold unpack_record. rewrite F4. cbn [outcome_bind].
  unfold next_item, unpack_item. change (53 =? 53) with true. cbv iota.
  assert (zlen (item_bytes (Dir name mode)) = 512) as ->.
  { unfold zlen. cbn [item_bytes]. rewrite header_length by (rewrite length_app; cbn; lia). reflexivity. }
  reflexivity.
Qed.

Lemma unpack_regular fuel mem data end_ v name mode content rest : item_ok (File name mode content) ->
  drop (Z.to_nat data) mem = item_bytes (File name mode content) ++ rest ->
  unpack_loop (S fuel) mem data end_ v = next_item fuel mem data end_ v (File name mode content).
Proof.
  intros (Hn & Hm & Hs) Hrec. pose proof Hn as (Hne & Hl & Hc & _). cbn [item_bytes] in Hrec. rewrite <- app_assoc in Hrec.
  pose proof (zlen_nonneg content). pose proof (round_up_bounds (length content)) as Hru. pose proof (zlen_nonneg rest).
  destruct (header_fields name mode (zlen content) 48 (zero_pad (round_up (length content)) content ++ rest)) as (F1 & F2 & F3 & F4 & F5);
    [done|lia|done|lia|].
  assert (length (zero_pad (round_up (length content)) content) = round_up (length content)) as Hpad by (apply zero_pad_length; lia).
  cbn [unpack_loop]. rewrite Hrec, F1. cbn [outcome_bind].
  destruct (Z.ltb_spec 63 (zlen name)); [unfold zlen in *; lia|].
  destruct (Z.eqb_spec (zlen name) 0); [by destruct name|]. rewrite record_path_file by done. cbn [outcome_bind].
  rewrite F2. cbn [outcome_bind]. rewrite F3. cbn [outcome_bind]. unfold unpack_record. rewrite F4. cbn [outcome_bind].
  change (48 =? 53) with false. change (48 =? 48) with true. cbv iota.
  assert (zlen (header name mode (zlen content) 48) = 512) as Hh by (unfold zlen at 1; rewrite header_length by lia; reflexivity).
  rewrite F5, !zlen_app, Hh.
  destruct (Z.leb_spec (512 + zlen content) (512 + (zlen (zero_pad (round_up (length content)) content) + zlen rest)));
    [|unfold zlen in *; lia].
  unfold zero_pad at 1. rewrite <- app_assoc. rewrite take_app_length' by (unfold zlen; lia).
  unfold next_item, unpack_item. destruct (unpack_file v (47 :: name) mode content) as [v'| | |]; cbn [outcome_bind]; try done.
  assert (zlen (item_bytes (File name mode content)) = Z.of_nat (round_up (length content)) + 512) as ->.
  { unfold zlen. cbn [item_bytes]. rewrite length_app, header_length, Hpad by lia. lia. }
  pose proof (round_up_spec (length content)) as Hr. fold (zlen content) in Hr. unfold u32, wrap.
  rewrite (Z.mod_small (zlen content + _)) by (pose proof (Z.mod_pos_bound (zlen content) 512); lia). rewrite <- Hr.
  rewrite (Z.mod_small (_ + 512)) by (unfold zlen in *; lia). done.
Qed.

Lemma unpack_items items : forall fuel mem data end_ v tail, Forall item_ok items -> 0 <= data ->
  drop (Z.to_nat data) mem = archive items ++ 0 :: tail -> data + zlen (archive items) <= end_ -> (length items < fuel)%nat ->
  unpack_loop fuel mem data end_ v = foldl (fun o i => let* v := o in unpack_item v i) (Ok v) items.
Proof.
  induction items as [|i items IH]; intros fuel mem data end_ v tail Hok Hd Hrec Hend Hf; (destruct fuel as [|fuel]; [cbn in Hf; lia|]).
  { cbn [unpack_loop]. rewrite Hrec. done. }
  apply Forall_cons in Hok as [Hi Hok]. cbn [length] in Hf.
  change (archive (i :: items)) with (item_bytes i ++ archive items) in *. rewrite <- app_assoc in Hrec. rewrite zlen_app in Hend.
  pose proof (zlen_nonneg (item_bytes i)). pose proof (zlen_nonneg (archive items)).
  assert (unpack_loop (S fuel) mem data end_ v = next_item fuel mem data end_ v i) as ->.
  { destruct i; [by eapply unpack_dir|by eapply unpack_regular]. }
  unfold next_item. cbn [foldl outcome_bind]. destruct (unpack_item v i) as [v'| | |]; cbn [outcome_bind]; [|clear; by induction items..].
  destruct (Z.leb_spec end_ (data + zlen (item_bytes i))).
  - assert (items = []) as ->; [|done]. destruct items as [|j items]; [done|exfalso].
    change (archive (j :: items)) with (item_bytes j ++ archive items) in *. rewrite zlen_app in *. pose proof (zlen_nonneg (archive items)).
    assert (512 <= zlen (item_bytes j)); [|lia]. apply Forall_cons in Hok as [Hj _]. unfold zlen.
    destruct j as [n ?|n ? c]; cbn [item_bytes item_ok] in *; destruct Hj as [(_ & Hl & _) _]; rewrite ?length_app, header_length; rewrite ?length_app; cbn; lia.
  - eapply IH; [done|lia| |lia|lia]. rewrite Z2Nat.inj_add, <- drop_drop, Hrec by lia. unfold zlen. by rewrite Nat2Z.id, drop_app_length.
Qed.
End unpacked.


(** A file system that writes down what is done to it. *)
Inductive fs_call := Mkdir (path : list Z) (mode : Z) | Create (path : list Z) (mode : Z) | Open (path : list Z) | Write (fd : Z) (bytes : list Z) | Close (fd : Z).

#[local] Instance call_log : ArchiveTarget (list fs_call) := {|
  at_mkdir v path mode := Ok (RVal 0, v ++ [Mkdir path mode]);
  at_create v path mode := Ok (RVal 0, v ++ [Create path mode]);
  at_open v path _ := Ok (RVal 3, v ++ [Open path]);
  at_write v fd bytes := Ok (RVal (zlen bytes), v ++ [Write fd bytes]);
  at_close v fd := Ok (RVal 0, v ++ [Close fd]);
|}.

(** The directory "bin" and the file "bin/a" with two bytes. *)
Definition sample_archive : list item := [Dir [98; 105; 110] 493; File [98; 105; 110; 47; 97] 420 [7; 8]].


(** A record whose size makes the step to the next one wrap to zero is read
    again and again: here a name, and the size 0xFFFFFE00. *)
Definition stuck_record : list Z := header [97] 0 0xFFFFFE00 55.

Lemma unpack_diverges fuel end_ v : 0 < end_ -> unpack_loop fuel stuck_record 0 end_ v = @OutOfFuel (list fs_call).
Proof.
  intros He. induction fuel as [|fuel IH]; [done|].
  replace (unpack_loop (S fuel) stuck_record 0 end_ v) with
    (if end_ <=? 0 then Ok v else unpack_loop fuel stuck_record 0 end_ v); [|reflexivity].
  destruct (Z.leb_spec end_ 0); [lia|done].
Qed.
