(* ===== verification/Elf.v ===== *)
(** * Executables

    kernel/sys/binfmt/elf.c and binfmt.c.  A file is the list of its bytes.
    [elf_load] is described by the calls it makes on the address space, in
    order; the code does not look at their results.  The stack of the new
    program is a map from addresses to 64-bit words. *)

From stdpp Require Import base numbers list gmap sets.
From Stdlib Require Import ZArith Lia.
From S2P Require Import Prelude Wire Mmu Irq.

Definition EI_CLASS : Z := 4.
Definition EI_DATA : Z := 5.
Definition EI_VERSION : Z := 6.
Definition ELF_CLASS64 : Z := 2.
Definition ELF_DATA2LSB : Z := 1.
Definition EM_X86_64 : Z := 62.
Definition EV_CURRENT : Z := 1.
Definition ET_EXEC : Z := 2.
Definition ET_DYN : Z := 3.
Definition PT_LOAD : Z := 1.
Definition PT_INTERP : Z := 3.
Definition PF_X : Z := 1.
Definition PF_W : Z := 2.
Definition sizeof_Ehdr : Z := 64.
Definition sizeof_Phdr : Z := 56.

Record Elf64_Ehdr := mk_ehdr {
  e_class : Z; e_data : Z; e_iversion : Z; e_type : Z; e_machine : Z; e_entry : Z; e_phoff : Z; e_phentsize : Z; e_phnum : Z
}.

Record Elf64_Phdr := mk_phdr { p_type : Z; p_flags : Z; p_offset : Z; p_vaddr : Z; p_filesz : Z; p_memsz : Z }.

(** The fields the loader uses, at their offsets. *)
Definition read_ehdr (b : list Z) : outcome Elf64_Ehdr :=
  let* c := rd8 b EI_CLASS in let* d := rd8 b EI_DATA in let* v := rd8 b EI_VERSION in
  let* ty := rd16 b 16 in let* ma := rd16 b 18 in let* en := rd64 b 24 in let* po := rd64 b 32 in
  let* ps := rd16 b 54 in let* pn := rd16 b 56 in
  Ok (mk_ehdr c d v ty ma en po ps pn).

Definition read_phdr (b : list Z) : outcome Elf64_Phdr :=
  let* ty := rd32 b 0 in let* fl := rd32 b 4 in let* o := rd64 b 8 in let* va := rd64 b 16 in
  let* fs := rd64 b 32 in let* ms := rd64 b 40 in
  Ok (mk_phdr ty fl o va fs ms).

Definition elf_validate (header : Elf64_Ehdr) : bool :=
  if negb (e_class header =? ELF_CLASS64) then false
  else if negb (e_data header =? ELF_DATA2LSB) then false
  else if negb (e_machine header =? EM_X86_64) then false
  else if negb (e_iversion header =? EV_CURRENT) then false
  else true.

Record elf_image := mk_image {
  entry : Z; interpreter : option (list Z); base : Z; load_bias : Z; phnum : Z; phentsize : Z; phdr_off : Z
}.

Definition empty_image : elf_image := mk_image 0 None 0 0 0 0 0.

(** The calls on the address space: a mapping of the file, the clearing of
    memory, and an anonymous mapping. *)
Inductive load_step :=
  | MapFile (length prot flags virt_base offset : Z)
  | Clear (start length : Z)
  | MapAnon (length prot virt_base : Z).

(** The contents of a buffer of [len] bytes, before [junk], after a read at [off]. *)
Definition read_into (file : list Z) (off len : Z) (junk : Z -> Z) : list Z :=
  let got := take (Z.to_nat len) (drop (Z.to_nat off) file) in
  got ++ map (fun i => junk (Z.of_nat i)) (seq (length got) (Z.to_nat len - length got)).

(** The [n] program headers, one structure after the other. *)
Fixpoint read_phdrs (n : nat) (buf : list Z) : outcome (list Elf64_Phdr) :=
  match n with
  | O => Ok []
  | S n => let* p := read_phdr buf in let* ps := read_phdrs n (drop (Z.to_nat sizeof_Phdr) buf) in Ok (p :: ps)
  end.

(** The first loop: interpreter and lowest address. *)
Fixpoint scan_loop (file : list Z) (junk : Z -> Z) (ps : list Elf64_Phdr) (interp : option (list Z)) (low : Z) : option (list Z) * Z :=
  match ps with
  | [] => (interp, low)
  | p :: ps =>
      if p_type p =? PT_INTERP then scan_loop file junk ps (Some (read_into file (p_offset p) (p_filesz p) junk)) low
      else scan_loop file junk ps interp (if p_vaddr p <? low then p_vaddr p else low)
  end.

Definition load_segment (bias : Z) (p : Elf64_Phdr) : list load_step :=
  let protflags := Z.lor PROT_USER PROT_READ in
  let protflags := if has (p_flags p) PF_W then Z.lor protflags PROT_WRITE else protflags in
  let protflags := if has (p_flags p) PF_X then Z.lor protflags PROT_EXEC else protflags in
  let map_vaddr := u64 (bias + align_down (p_vaddr p) CONFIG_PAGE_SIZE) in
  let map_offset := align_down (p_offset p) CONFIG_PAGE_SIZE in
  let align_rem := u64 (u64 (bias + p_vaddr p) - map_vaddr) in
  (if negb (p_filesz p =? 0) then
     [MapFile (u64 (p_filesz p + align_rem)) protflags (Z.lor VM_FLAG_FILE VM_FLAG_COW) map_vaddr map_offset] else []) ++
  (if p_filesz p <? p_memsz p then
     let file_end_addr := u64 (map_vaddr + align_rem + p_filesz p) in
     let mem_end_addr := u64 (map_vaddr + align_rem + p_memsz p) in
     let anon_map_start := align_up file_end_addr CONFIG_PAGE_SIZE in
     let anon_map_end := align_up mem_end_addr CONFIG_PAGE_SIZE in
     Clear file_end_addr (u64 (anon_map_start - file_end_addr)) ::
     (if negb (u64 (anon_map_end - anon_map_start) =? 0) then
        [MapAnon (u64 (anon_map_end - anon_map_start)) protflags (u64 (bias + anon_map_start))] else [])
   else []).

(** The second loop; the bias is found at the first segment. *)
Fixpoint load_loop (low : Z) (ps : list Elf64_Phdr) (found_bias : option Z) (bias : Z) : Z * list load_step :=
  match ps with
  | [] => (bias, [])
  | p :: ps =>
      if negb (p_type p =? PT_LOAD) then load_loop low ps found_bias bias
      else
        let bias := match found_bias with None => u64 (low - p_vaddr p) | Some b => b end in
        let '(b, steps) := load_loop low ps (Some bias) bias in
        (b, load_segment bias p ++ steps)
  end.

Definition elf_load (file : list Z) (junk : Z -> Z) : outcome (ret * elf_image * list load_step) :=
  let image := mk_image 0 None VM_USERSPACE_END 0 0 0 0 in
  let* header := read_ehdr (read_into file 0 sizeof_Ehdr junk) in
  if negb (elf_validate header) then Ok (RErr ENOEXEC, image, [])
  else if negb (e_type header =? ET_EXEC) && negb (e_type header =? ET_DYN) then Ok (RErr ENOTSUP, image, [])
  else
    let* size := int32 (e_phentsize header * e_phnum header) in
    let* ps := read_phdrs (Z.to_nat (e_phnum header)) (read_into file (e_phoff header) size junk) in
    let '(interp, low) := scan_loop file junk ps None VM_USERSPACE_END in
    let low := if e_type header =? ET_DYN then 0x7f0000000000 else low in
    let '(bias, steps) := load_loop low ps None 0 in
    Ok (RVal 0, mk_image (u64 (bias + e_entry header)) interp low bias (e_phnum header) (e_phentsize header) (e_phoff header), steps).

(** ** The stack of the new program *)

Definition AT_NULL : Z := 0.
Definition AT_PHDR : Z := 3.
Definition AT_PHENT : Z := 4.
Definition AT_PHNUM : Z := 5.
Definition AT_PAGESZ : Z := 6.
Definition AT_BASE : Z := 7.
Definition AT_ENTRY : Z := 9.
Definition AT_UID : Z := 11.
Definition AT_EUID : Z := 12.
Definition AT_GID : Z := 13.
Definition AT_EGID : Z := 14.

(** What [elf_exec] uses of the task. *)
Record exec_task := mk_exec {
  x_argc : Z; x_argv : list Z; x_envc : Z; x_envp : list Z; x_uid : Z; x_gid : Z; x_euid : Z; x_egid : Z
}.

(** The stack pointer and the memory. *)
Definition stack : Type := Z * gmap Z Z.

Definition push_word (st : stack) (v : Z) : stack := let rsp := u64 (st.1 - 8) in (rsp, <[rsp := v]> st.2).
Definition push_words (st : stack) (vs : list Z) : stack := foldl push_word st vs.

(** The loop over an array of strings, from its last element. *)
Fixpoint push_pointers (n : nat) (strings : list Z) (st : stack) : outcome stack :=
  match n with
  | O => Ok st
  | S n => let* s := aget strings (Z.of_nat n) in push_pointers n strings (push_word st s)
  end.

(** The auxiliary vector, from its end. *)
Definition aux_words (t : exec_task) (img : elf_image) : list Z :=
  [0; AT_NULL; x_egid t; AT_EGID; x_euid t; AT_EUID; x_gid t; AT_GID; x_uid t; AT_UID; CONFIG_PAGE_SIZE; AT_PAGESZ;
   load_bias img; AT_BASE; entry img; AT_ENTRY; phnum img; AT_PHNUM; phentsize img; AT_PHENT; u64 (base img + phdr_off img); AT_PHDR].

Definition build_stack (t : exec_task) (img : elf_image) (st : stack) : outcome stack :=
  let align_check := u64 (st.1 - 11 * 2 * 8 - (x_envc t + 1) * 8 - (x_argc t + 1) * 8 - 8) in
  let st := if negb (align_check mod 16 =? 0) then push_word st 0 else st in
  let st := push_words st (aux_words t img) in
  let st := push_word st 0 in
  let* st := push_pointers (Z.to_nat (x_envc t)) (x_envp t) st in
  let st := push_word st 0 in
  let* st := push_pointers (Z.to_nat (x_argc t)) (x_argv t) st in
  Ok (push_word st (u64 (x_argc t))).

(** [elf_exec]: the result, the entry point, the stack and the calls on the
    address space.  [open_file] is what opening the interpreter gives; a
    descriptor that was not opened is used all the same. *)
Definition elf_exec (file : list Z) (junk : Z -> Z) (open_file : list Z -> option (list Z)) (t : exec_task) (st : stack)
    : outcome (ret * Z * stack * list load_step) :=
  let* (rm, steps) := elf_load file junk in
  let '(load_status, main_img) := rm in
  if failed load_status then Ok (load_status, 0, st, steps)
  else
    let* (start, steps) :=
      match interpreter main_img with
      | None => Ok (entry main_img, steps)
      | Some path =>
          let* interp := deref (open_file path) in
          let* (ri, isteps) := elf_load interp junk in
          Ok (entry ri.2, steps ++ isteps)
      end in
    let* st := build_stack t main_img st in
    Ok (RVal 0, start, st, steps).

(** ** binfmt.c *)

(** A format: its signature and the loader, by number. *)
Record binfmt_descriptor := mk_binfmt { signature : list Z; siglen : Z; exec : Z }.

Definition binfmt_elf : binfmt_descriptor := mk_binfmt [0x7f; 69; 76; 70] 4 1.

Definition binfmt_register (binfmt_list : list binfmt_descriptor) (desc : binfmt_descriptor) : list binfmt_descriptor :=
  desc :: binfmt_list.

Definition binfmt_init : list binfmt_descriptor := binfmt_register [] binfmt_elf.

(** The loop of [binfmt_exec_task]: the first format whose signature the file starts with. *)
Fixpoint binfmt_find (l : list binfmt_descriptor) (sig : list Z) : option binfmt_descriptor :=
  match l with
  | [] => None
  | fmt :: l =>
      if bool_decide (take (Z.to_nat (siglen fmt)) (signature fmt) = take (Z.to_nat (siglen fmt)) sig) then Some fmt
      else binfmt_find l sig
  end.

(** ** Loading is right for position-dependent programs *)

(** What the address space holds at an address after the calls: the offset in
    the file it was mapped from, or zero. *)
Definition maps_file (s : load_step) (a off : Z) : Prop :=
  match s with MapFile len _ _ b o => b <= a < b + len /\ off = o + (a - b) | _ => False end.
Definition maps_zero (s : load_step) (a : Z) : Prop :=
  match s with
  | Clear b len => b <= a < b + len
  | MapAnon len _ b => b <= a < b + len
  | MapFile _ _ _ _ _ => False
  end.
Definition writable (s : load_step) : bool := match s with MapFile _ p _ _ _ | MapAnon _ p _ => has p PROT_WRITE | Clear _ _ => false end.

(** A segment as the format asks for: inside user memory, not shrinking, and
    at the same place in its page as in the file's. *)
Definition segment_ok (p : Elf64_Phdr) : Prop :=
  0 <= p_vaddr p /\ 0 <= p_filesz p <= p_memsz p /\ p_vaddr p + p_memsz p <= VM_USERSPACE_END /\
  0 <= p_offset p < 2 ^ 63 /\ p_vaddr p mod CONFIG_PAGE_SIZE = p_offset p mod CONFIG_PAGE_SIZE.

Definition segment_prot (p : Elf64_Phdr) : Z :=
  let prot := Z.lor PROT_USER PROT_READ in
  let prot := if has (p_flags p) PF_W then Z.lor prot PROT_WRITE else prot in
  if has (p_flags p) PF_X then Z.lor prot PROT_EXEC else prot.

Lemma segment_prot_write p : has (segment_prot p) PROT_WRITE = has (p_flags p) PF_W.
Proof. unfold segment_prot. by destruct (has (p_flags p) PF_W), (has (p_flags p) PF_X). Qed.

(** The calls for a segment at a bias, without wrap-around. *)
Lemma load_segment_eq b p : 0 <= b -> segment_ok p -> b + VM_USERSPACE_END < 2 ^ 63 ->
  let va := p_vaddr p in let down := align_down va CONFIG_PAGE_SIZE in
  let s := align_up (b + va + p_filesz p) CONFIG_PAGE_SIZE in let e := align_up (b + va + p_memsz p) CONFIG_PAGE_SIZE in
  load_segment b p =
  (if negb (p_filesz p =? 0) then
     [MapFile (p_filesz p + (va - down)) (segment_prot p) (Z.lor VM_FLAG_FILE VM_FLAG_COW) (b + down) (align_down (p_offset p) CONFIG_PAGE_SIZE)] else []) ++
  (if p_filesz p <? p_memsz p then
     Clear (b + va + p_filesz p) (s - (b + va + p_filesz p)) ::
     (if negb (e - s =? 0) then [MapAnon (e - s) (segment_prot p) (b + s)] else []) else []).
Proof.
  intros Hb (Hva & Hsz & Hend & Hoff & Hcong) Hbound va down s e. unfold VM_USERSPACE_END in *.
  assert (down <= va < down + 4096 /\ down mod 4096 = 0 /\ 0 <= down) as (Hd & Hdm & Hd0).
  { destruct (align_down_bounds va 12) as [H1 H2]; [lia|unfold va; lia|]. fold down in H1, H2. split; [exact H1|]. split; [exact H2|].
    unfold down. rewrite (align_down_spec va 12 : _ -> _ -> align_down va CONFIG_PAGE_SIZE = _) by (unfold va; lia).
    apply Z.mul_nonneg_nonneg; [apply Z.div_pos; unfold va; lia|lia]. }
  assert (forall x, 0 <= x < 2 ^ 64 -> u64 x = x) as H64 by (intros; unfold u64, wrap; by apply Z.mod_small).
  assert (b + va + p_filesz p <= s < b + va + p_filesz p + 4096) as Hs by (apply (align_up_bounds _ 12); unfold va; lia).
  assert (b + va + p_memsz p <= e < b + va + p_memsz p + 4096) as He by (apply (align_up_bounds _ 12); unfold va; lia).
  unfold load_segment. fold (segment_prot p). fold va. fold down.
  rewrite (H64 (b + down)), (H64 (b + va)) by (unfold va in *; lia). replace (b + va - (b + down)) with (va - down) by lia.
  rewrite (H64 (va - down)), (H64 (p_filesz p + (va - down))) by lia.
  replace (b + down + (va - down) + p_filesz p) with (b + va + p_filesz p) by lia.
  replace (b + down + (va - down) + p_memsz p) with (b + va + p_memsz p) by lia.
  rewrite (H64 (b + va + p_filesz p)), (H64 (b + va + p_memsz p)) by (unfold va in *; lia). fold s. fold e.
  f_equal. destruct (Z.ltb_spec (p_filesz p) (p_memsz p)); [|done]. rewrite (H64 (s - _)) by lia.
  assert (s <= e) as Hse.
  { unfold s, e. rewrite !(align_up_spec _ 12 : _ -> _ -> _ -> align_up _ CONFIG_PAGE_SIZE = _) by (unfold va; lia).
    apply Z.mul_le_mono_nonneg_r; [lia|]. apply Z.div_le_mono; lia. }
  rewrite (H64 (e - s)), (H64 (b + s)) by (unfold va in *; lia). done.
Qed.

(** Every byte of the file part of a segment is mapped from its place in the file. *)
Lemma segment_file b p a : 0 <= b -> segment_ok p -> b + VM_USERSPACE_END < 2 ^ 63 -> b + p_vaddr p <= a < b + p_vaddr p + p_filesz p ->
  exists s, s ∈ load_segment b p /\ maps_file s a (p_offset p + (a - b - p_vaddr p)).
Proof.
  intros Hb Hok Hbound Ha. rewrite load_segment_eq by done. destruct Hok as (Hva & Hsz & Hend & Hoff & Hcong).
  unfold VM_USERSPACE_END in *. destruct (Z.eqb_spec (p_filesz p) 0); [lia|]. eexists. split; [apply elem_of_app; left; by left|].
  destruct (align_down_bounds (p_vaddr p) 12) as [H1 _]; [lia..|]. cbn [maps_file]. split; [change (2 ^ 12) with CONFIG_PAGE_SIZE in *; lia|].
  rewrite !(align_down_spec _ 12 : _ -> _ -> align_down _ CONFIG_PAGE_SIZE = _) by lia.
  change CONFIG_PAGE_SIZE with (2 ^ 12) in Hcong. pose proof (Z.div_mod (p_vaddr p) (2 ^ 12)). pose proof (Z.div_mod (p_offset p) (2 ^ 12)). lia.
Qed.

(** Without a bias, every byte after the file part is zero. *)
Lemma segment_zero p a : segment_ok p -> p_vaddr p + p_filesz p <= a < p_vaddr p + p_memsz p ->
  exists s, s ∈ load_segment 0 p /\ maps_zero s a.
Proof.
  intros Hok Ha. rewrite load_segment_eq by (done || unfold VM_USERSPACE_END; lia). destruct Hok as (Hva & Hsz & Hend & _).
  unfold VM_USERSPACE_END in *. cbv zeta. rewrite !Z.add_0_l.
  assert (p_vaddr p + p_memsz p <= align_up (p_vaddr p + p_memsz p) CONFIG_PAGE_SIZE) by (apply (align_up_bounds _ 12); lia).
  set (s := align_up (p_vaddr p + p_filesz p) CONFIG_PAGE_SIZE). set (e := align_up (p_vaddr p + p_memsz p) CONFIG_PAGE_SIZE) in *.
  destruct (Z.ltb_spec (p_filesz p) (p_memsz p)); [|lia]. destruct (Z.lt_ge_cases a s).
  - eexists. split; [apply elem_of_app; right; left|]. cbn. lia.
  - destruct (Z.eqb_spec (e - s) 0); [lia|]. eexists. split; [apply elem_of_app; right; right; left|]. cbn. lia.
Qed.

Lemma segment_writable b p s : 0 <= b -> segment_ok p -> b + VM_USERSPACE_END < 2 ^ 63 ->
  s ∈ load_segment b p -> writable s = true -> has (p_flags p) PF_W = true.
Proof.
  intros Hb Hok Hbound. rewrite load_segment_eq by done. cbv zeta. rewrite <- segment_prot_write.
  intros Hin Hw. repeat case_match; set_unfold in Hin; repeat (destruct Hin as [Hin|Hin]; try done); subst; try done.
Qed.

(** The program headers of a program linked to fixed addresses: segments and
    interpreter, the first segment lowest. *)
Definition exec_ok (ps : list Elf64_Phdr) : Prop :=
  Forall (fun p => p_type p = PT_INTERP \/ p_type p = PT_LOAD /\ segment_ok p) ps /\
  exists first, first ∈ ps /\ p_type first = PT_LOAD /\ (forall p, p ∈ ps -> p_type p = PT_LOAD -> p_vaddr first <= p_vaddr p) /\
    head (filter (fun p => p_type p = PT_LOAD) ps) = Some first.

Lemma scan_loop_low file junk ps interp low v : (forall p, p ∈ ps -> p_type p <> PT_INTERP -> v <= p_vaddr p) -> v <= low ->
  (v = low \/ exists p, p ∈ ps /\ p_type p <> PT_INTERP /\ p_vaddr p = v) -> (scan_loop file junk ps interp low).2 = v.
Proof.
  revert interp low. induction ps as [|p ps IH]; intros interp low Hmin Hle Hin; cbn [scan_loop].
  { destruct Hin as [->|(p & Hp & _)]; [done|set_solver]. }
  destruct (Z.eqb_spec (p_type p) PT_INTERP) as [E|E].
  - apply IH; [set_solver|done|]. destruct Hin as [->|(q & Hq & Hnq & Hv)]; [by left|]. right. exists q. set_solver.
  - assert (v <= p_vaddr p) by (apply Hmin; [set_solver|done]).
    apply IH; [set_solver|destruct (Z.ltb_spec (p_vaddr p) low); lia|].
    destruct Hin as [->|(q & Hq & Hnq & Hv)]; [left; destruct (Z.ltb_spec (p_vaddr p) low); lia|].
    apply elem_of_cons in Hq as [->|Hq]; [left; destruct (Z.ltb_spec (p_vaddr p) low); lia|right; eauto].
Qed.

(** With the bias found, every segment is loaded at it. *)
Lemma load_loop_found low ps b : load_loop low ps (Some b) b =
  (b, concat (map (load_segment b) (filter (fun p => p_type p = PT_LOAD) ps))).
Proof.
  induction ps as [|p ps IH]; [done|]. cbn [load_loop]. rewrite filter_cons. destruct (Z.eqb_spec (p_type p) PT_LOAD) as [E|E].
  - rewrite decide_True by done. cbn [negb]. by rewrite IH.
  - rewrite decide_False by done. cbn [negb]. exact IH.
Qed.

Lemma load_loop_spec low ps first : head (filter (fun p => p_type p = PT_LOAD) ps) = Some first ->
  load_loop low ps None 0 = let b := u64 (low - p_vaddr first) in (b, concat (map (load_segment b) (filter (fun p => p_type p = PT_LOAD) ps))).
Proof.
  induction ps as [|p ps IH]; [done|]. cbn [load_loop]. rewrite !filter_cons. destruct (Z.eqb_spec (p_type p) PT_LOAD) as [E|E].
  - rewrite !decide_True by done. cbn [negb head]. intros [= ->]. rewrite load_loop_found. done.
  - rewrite !decide_False by done. cbn [negb]. exact IH.
Qed.


(** A program of one writable segment at 0x400000, 16 bytes in the file and
    two pages in memory. *)
Definition sample_phdr : Elf64_Phdr := mk_phdr PT_LOAD 6 0 0x400000 16 0x2000.
Definition sample_ehdr : Elf64_Ehdr := mk_ehdr 2 1 1 ET_EXEC EM_X86_64 0x400008 64 56 1.
Definition sample_elf : list Z :=
  [0x7f; 69; 76; 70; 2; 1; 1] ++ replicate 9 0 ++ le16 ET_EXEC ++ le16 EM_X86_64 ++ le32 1 ++ le64 0x400008 ++ le64 64 ++ le64 0 ++
  le32 0 ++ le16 64 ++ le16 56 ++ le16 1 ++ replicate 6 0 ++
  le32 PT_LOAD ++ le32 6 ++ le64 0 ++ le64 0x400000 ++ le64 0x400000 ++ le64 16 ++ le64 0x2000 ++ le64 0x1000.


(** For a program loaded elsewhere, the fresh memory is mapped at the bias
    once too often: no call covers the pages after the file's last. *)
Lemma biased_bss_missing b p a : 0 < b -> segment_ok p -> b + VM_USERSPACE_END < 2 ^ 63 -> p_memsz p <= b ->
  align_up (b + p_vaddr p + p_filesz p) CONFIG_PAGE_SIZE <= a < b + p_vaddr p + p_memsz p ->
  forall s, s ∈ load_segment b p -> ~ maps_zero s a.
Proof.
  intros Hb Hok Hbound Hbig Ha s Hs. rewrite load_segment_eq in Hs by (done || lia). cbv zeta in Hs. destruct Hok as (Hva & Hsz & Hend & _).
  assert (b + p_vaddr p + p_filesz p <= align_up (b + p_vaddr p + p_filesz p) CONFIG_PAGE_SIZE)
    by (apply (align_up_bounds _ 12); unfold VM_USERSPACE_END in *; lia).
  apply elem_of_app in Hs as [Hs|Hs].
  - destruct (negb _); [|set_solver]. apply list_elem_of_singleton in Hs as ->. cbn. auto.
  - destruct (p_filesz p <? p_memsz p); [|set_solver]. apply elem_of_cons in Hs as [->|Hs]; [cbn; lia|].
    destruct (negb _); [|set_solver]. apply list_elem_of_singleton in Hs as ->. cbn [maps_zero]. lia.
Qed.

(** ** The stack layout *)

(** Consecutive words from an address up. *)
Definition holds (mem : gmap Z Z) (a : Z) (vs : list Z) : Prop := forall i v, vs !! i = Some v -> mem !! (a + 8 * Z.of_nat i) = Some v.

Definition room (st : stack) (n : Z) : Prop := 8 * n <= st.1 < 2 ^ 64.

Lemma push_words_spec vs : forall st old, room st (zlen vs) -> holds st.2 st.1 old ->
  let st' := push_words st vs in st'.1 = st.1 - 8 * zlen vs /\ holds st'.2 st'.1 (rev vs ++ old) /\
  (forall a, st.1 <= a -> st'.2 !! a = st.2 !! a).
Proof.
  induction vs as [|v vs IH]; intros [rsp mem] old Hroom Hold st'; unfold room in *; cbn [fst snd] in *.
  { unfold st'. cbn. split; [unfold zlen; cbn; lia|]. done. }
  rewrite zlen_cons in *. pose proof (zlen_nonneg vs).
  assert (push_word (rsp, mem) v = (rsp - 8, <[rsp - 8 := v]> mem)) as E.
  { unfold push_word. cbn [fst snd]. unfold u64, wrap. by rewrite Z.mod_small by lia. }
  unfold st', push_words. cbn [foldl]. rewrite E. fold (push_words (rsp - 8, <[rsp - 8 := v]> mem) vs).
  destruct (IH (rsp - 8, <[rsp - 8 := v]> mem) (v :: old)) as (H1 & H2 & H3); cbn [fst snd] in *; [lia| |].
  { intros [|i] w Hw; cbn in Hw.
    - injection Hw as <-. rewrite Z.add_0_r. apply lookup_insert_eq.
    - rewrite lookup_insert_ne by lia. rewrite <- (Hold i w Hw). f_equal. lia. }
  split; [lia|]. split; [cbn [rev]; rewrite <- app_assoc; exact H2|].
  intros a Ha. rewrite H3 by lia. by rewrite lookup_insert_ne by lia.
Qed.

Lemma push_pointers_words n strings st : (n <= length strings)%nat -> push_pointers n strings st = Ok (push_words st (rev (take n strings))).
Proof.
  revert st. induction n as [|n IH]; intros st Hn; [done|]. cbn [push_pointers].
  destruct (aget_in strings (Z.of_nat n)) as (s & -> & Hs); [unfold zlen; lia|]. rewrite Nat2Z.id in Hs. cbn [outcome_bind].
  rewrite IH by lia. rewrite (take_S_r _ _ s) by done. rewrite rev_app_distr. done.
Qed.

(** The words of the new program's stack, from the lowest. *)
Definition stack_words (t : exec_task) (img : elf_image) : list Z :=
  [x_argc t] ++ x_argv t ++ [0] ++ x_envp t ++ [0] ++ rev (aux_words t img).

(** C32: a program starts on the stack the calling convention asks for.  From
    an 8-byte aligned stack pointer with room below it, [build_stack] never
    faults and leaves the stack pointer 16-byte aligned; from there up lie
    the number of arguments, the argument pointers, a zero, the environment
    pointers, a zero and the auxiliary vector, which ends with a null entry;
    and nothing at or above the old stack pointer has changed. *)
Theorem build_stack_correct t img rsp mem : 0 <= rsp < 2 ^ 64 -> rsp mod 8 = 0 ->
  x_argc t = zlen (x_argv t) -> x_envc t = zlen (x_envp t) -> 8 * (zlen (x_argv t) + zlen (x_envp t) + 26) <= rsp ->
  exists rsp' mem', build_stack t img (rsp, mem) = Ok (rsp', mem') /\ rsp' mod 16 = 0 /\
    holds mem' rsp' (stack_words t img) /\ (forall a, rsp <= a -> mem' !! a = mem !! a).
Proof.
  intros Hrsp Hal Hargc Henvc Hroom. pose proof (zlen_nonneg (x_argv t)). pose proof (zlen_nonneg (x_envp t)).
  set (extra := if negb (u64 (rsp - 11 * 2 * 8 - (x_envc t + 1) * 8 - (x_argc t + 1) * 8 - 8) mod 16 =? 0) then [0] else []).
  set (ws := extra ++ aux_words t img ++ [0] ++ rev (x_envp t) ++ [0] ++ rev (x_argv t) ++ [u64 (x_argc t)]).
  assert (build_stack t img (rsp, mem) = Ok (push_words (rsp, mem) ws)) as E.
  { unfold build_stack. cbn [fst]. rewrite !push_pointers_words by (unfold zlen in *; lia). cbn [outcome_bind].
    rewrite push_pointers_words by (unfold zlen in *; lia). cbn [outcome_bind].
    rewrite !take_ge by (unfold zlen in *; lia). unfold ws, push_words, extra. rewrite !foldl_app. by destruct (negb _). }
  assert (u64 (x_argc t) = x_argc t) as Hc by (unfold u64, wrap; rewrite Z.mod_small; lia).
  assert (zlen ws = zlen extra + 25 + zlen (x_argv t) + zlen (x_envp t)) as Hlen.
  { unfold ws, zlen. rewrite !length_app, !length_rev. cbn [length aux_words]. lia. }
  assert (0 <= zlen extra <= 1) as Hex by (unfold extra; destruct (negb _); unfold zlen; cbn; lia).
  destruct (push_words_spec ws (rsp, mem) []) as (H1 & H2 & H3); [unfold room; cbn [fst]; lia|by intros i v|]. cbn [fst snd] in *.
  rewrite E. destruct (push_words (rsp, mem) ws) as [rsp' mem']. cbn [fst snd] in *. exists rsp', mem'. split; [done|]. split; [|split; [|done]].
  - rewrite H1, Hlen. unfold extra. unfold u64, wrap. rewrite (Z.mod_small (rsp - _ - _ - _ - _)) by lia.
    apply Z.mod_divide in Hal as [q ->]; [|lia].
    destruct (Z.eqb_spec ((q * 8 - 11 * 2 * 8 - (x_envc t + 1) * 8 - (x_argc t + 1) * 8 - 8) mod 16) 0) as [E0|E0]; cbn [negb];
      revert E0; unfold zlen at 1; cbn [length]; rewrite Hargc, Henvc; Z.to_euclidean_division_equations; lia.
  - assert (rev ws = stack_words t img ++ rev extra) as Hrev.
    { unfold ws, stack_words. generalize (aux_words t img) as aux. intros aux. rewrite !rev_app_distr, !rev_involutive, Hc.
      cbn [rev app]. repeat (rewrite <- app_assoc; cbn [app]). done. }
    intros i v Hi. apply H2. rewrite app_nil_r, Hrev. by apply lookup_app_l_Some.
Qed.

(** Two arguments and one environment string, under 0x7fff0008. *)
Lemma build_stack_correct_witness :
  let t := mk_exec 2 [0x1000; 0x2000] 1 [0x3000] 0 0 0 0 in let img := mk_image 0x400000 None 0x400000 0 1 56 64 in
  exists rsp' mem', build_stack t img (0x7fff0008, ∅) = Ok (rsp', mem') /\ rsp' mod 16 = 0 /\ mem' !! (rsp' + 8) = Some 0x1000.
Proof.
  intros t img. destruct (build_stack_correct t img 0x7fff0008 ∅) as (rsp' & mem' & E & Ha & Hh & _); try (vm_compute; done).
  exists rsp', mem'. split; [exact E|]. split; [exact Ha|]. exact (Hh 1%nat 0x1000 eq_refl).
Defined.
