(* ===== verification/Block.v ===== *)
(** * Disks, partitions and the FAT file system

    kernel/dev/disk.c and kernel/fs/fat/fatfs.c.  A disk is a function from
    block numbers to blocks, lists of 512 bytes; a buffer is the list of its
    bytes, and reading outside it is a fault. *)

From stdpp Require Import base numbers list gmap sets.
From Stdlib Require Import ZArith Lia.
From S2P Require Import Prelude Wire Device Irq.

Section blocks.
(** The blocks of a disk. *)
Context (sector : Z -> list Z).

(** [blocks] blocks from number [offset], as the driver reads them. *)
Definition pread_blocks (blocks : nat) (offset : Z) : list Z := concat (map (fun i => sector (offset + Z.of_nat i)) (seq 0 blocks)).

(** ** disk.c *)

Record partition := mk_partition { pt_index : Z; pt_start_lba : Z; pt_block_count : Z }.

Record disk := mk_disk { dk_dev : Z; dk_block_size : Z; dk_block_count : Z; dk_partitions : list partition; dk_partcount : Z }.

(** [disk_create], without the registration of the device. *)
Definition disk_create (blk : Z) : disk := mk_disk blk 512 0 [] 0.

(** A read of whole blocks of a partition. *)
Definition part_pread_blocks (part : partition) (blocks : nat) (offset : Z) : list Z :=
  pread_blocks blocks (s64 (pt_start_lba part + offset)).

(** The arguments [part_read] gives to the driver, for a read of [length] bytes at [pos]. *)
Definition part_read_args (d : disk) (part : partition) (pos length : Z) : Z * Z :=
  (u64 (length * dk_block_size d), s64 (pt_start_lba part + u64 (pos * dk_block_size d))).

(** The partition and its device number. *)
Definition disk_create_partition (d : disk) (start_block block_count index : Z) : partition * Z :=
  (mk_partition index start_block block_count, make_dev (dev_major (dk_dev d)) (u32 (dev_minor (dk_dev d) + index))).

Definition sizeof_gpt_partition : Z := 128.
Definition gpt_signature : list Z := [69; 70; 73; 32; 80; 65; 82; 84].

(** The loop over the entries: [i] is counted up by the entry size of the
    header, while the pointer moves by the size of the structure. *)
Fixpoint gpt_loop (fuel : nat) (buffer : list Z) (partentry_size i partarray : Z) (d : disk) : outcome disk :=
  if 4096 <=? i then Ok d
  else match fuel with
  | O => OutOfFuel
  | S fuel =>
      let* guidl := rd64 buffer (partarray + 16) in
      let* guidh := rd64 buffer (partarray + 24) in
      let* d :=
        if negb (guidl =? 0) || negb (guidh =? 0) then
          let* start := rd64 buffer (partarray + 32) in
          let* last := rd64 buffer (partarray + 40) in
          let '(part, _) := disk_create_partition d start (u64 (last - start)) (u64 (dk_partcount d + 1)) in
          Ok (mk_disk (dk_dev d) (dk_block_size d) (dk_block_count d) (dk_partitions d ++ [part]) (u64 (dk_partcount d + 1)))
        else Ok d in
      gpt_loop fuel buffer partentry_size (s32 (i + partentry_size)) (partarray + sizeof_gpt_partition) d
  end.

Definition disk_parse_gpt (fuel : nat) (d : disk) (buffer : list Z) : outcome disk :=
  let* sig := rdbytes buffer 512 8 in
  if negb (bool_decide (sig = gpt_signature)) then Ok d
  else
    let* partentry_size := rd32 buffer (512 + 84) in
    gpt_loop fuel buffer partentry_size 1024 1024 d.

(** ** fatfs.c *)

Record fatfs_superblock := mk_fat {
  fat_cluster_count : Z; fat_cluster_size : Z; fat_count : Z; fat_size : Z; fat_offset : Z; fat_data_offset : Z; fat_root_cluster : Z
}.

(** The fields of the parameter block, at their offsets. *)
Definition fatfs_super_init (bpb : list Z) : outcome (errno + fatfs_superblock) :=
  let* spc := rd8 bpb 13 in
  let* reserved := rd16 bpb 14 in
  let* count := rd8 bpb 16 in
  let* count16 := rd16 bpb 19 in
  let* size16 := rd16 bpb 22 in
  let* count32 := rd32 bpb 32 in
  let* size := rd32 bpb 36 in
  let* root := rd32 bpb 44 in
  let offset := reserved * spc in
  if size16 =? 0 then
    let total_sectors := if negb (count16 =? 0) then count16 else count32 in
    let data_sectors := u64 (total_sectors - reserved - u32 (count * size)) in
    if spc =? 0 then Fault
    else Ok (inr (mk_fat (data_sectors / spc) spc count size offset (u64 (offset + count * size)) root))
  else Ok (inl EINVAL).

(** The 13 characters of a long name entry: the low bytes of its letters. *)
Definition lfn_positions : list Z := [1; 3; 5; 7; 9; 14; 16; 18; 20; 22; 24; 28; 30].

Fixpoint read_positions (clu : list Z) (at_ : Z) (ps : list Z) : outcome (list Z) :=
  match ps with
  | [] => Ok []
  | p :: ps => let* c := rd8 clu (at_ + p) in let* cs := read_positions clu at_ ps in Ok (c :: cs)
  end.

(** Appending to [fname], an array of 64 bytes. *)
Definition fname_add (fname cs : list Z) : outcome (list Z) := if zlen fname + zlen cs <=? 64 then Ok (fname ++ cs) else Fault.

(** The entries of a long name, up to the one marked as the last. *)
Fixpoint lfn_loop (fuel : nat) (clu : list Z) (offset : Z) (fname : list Z) : outcome (list Z * Z) :=
  match fuel with
  | O => OutOfFuel
  | S fuel =>
      let* cs := read_positions clu (offset * 32) lfn_positions in
      let* fname := fname_add fname cs in
      let* order := rd8 clu (offset * 32) in
      if has order 0x40 then let* fname := fname_add fname [0] in Ok (fname, offset + 1)
      else lfn_loop fuel clu (offset + 1) fname
  end.

(** The name of a short entry as [strncpy] and [strlen] leave it, with its NUL. *)
Fixpoint short_name (cs : list Z) : list Z :=
  match cs with
  | [] => [0]
  | c :: cs => if c =? 0 then [0] else c :: short_name cs
  end.

(** A record of the result, whose name is [fname] with its NUL. *)
Definition fat_dent (fname : list Z) : list Z :=
  let reclen := 19 + zlen fname in replicate 16 0 ++ [reclen mod 256; reclen / 256; 0] ++ fname.

Fixpoint fat_loop (fuel : nat) (clu : list Z) (offset length : Z) (out : list Z) : outcome (list Z) :=
  if length <=? zlen out then Ok out
  else match fuel with
  | O => OutOfFuel
  | S fuel =>
      let* first := rd8 clu (offset * 32) in
      if first =? 0 then Ok out
      else if first =? 0xe5 then fat_loop fuel clu (offset + 1) length out
      else
        let* attrib := rd8 clu (offset * 32 + 11) in
        let* (fname, offset) :=
          if attrib =? 0x0F then lfn_loop (S fuel) clu offset []
          else let* cs := rdbytes clu (offset * 32) 11 in Ok (short_name cs, offset) in
        fat_loop fuel clu (offset + 1) length (out ++ fat_dent fname)
  end.

(** [fatfs_getdents] of the directory at [cluster]; one block is read. *)
Definition fatfs_getdents (sb : fatfs_superblock) (cluster length : Z) : outcome (ret * list Z) :=
  let clu := pread_blocks 1 (s64 (fat_data_offset sb + u64 (u32 (cluster - 2) * fat_cluster_size sb))) in
  let* out := fat_loop 17 clu 0 length [] in
  Ok (RVal (zlen out), out).

End blocks.

(** ** Partition tables *)

Record gpt_entry := mk_gpt { ge_type : list Z; ge_guidl : Z; ge_guidh : Z; ge_start : Z; ge_last : Z; ge_rest : list Z }.

Definition entry_bytes (e : gpt_entry) : list Z :=
  ge_type e ++ le64 (ge_guidl e) ++ le64 (ge_guidh e) ++ le64 (ge_start e) ++ le64 (ge_last e) ++ ge_rest e.

Definition entry_ok (e : gpt_entry) : Prop :=
  length (ge_type e) = 16%nat /\ length (ge_rest e) = 80%nat /\ 0 <= ge_guidl e < 2 ^ 64 /\ 0 <= ge_guidh e < 2 ^ 64 /\
  0 <= ge_start e <= ge_last e /\ ge_last e < 2 ^ 64.

Definition entry_used (e : gpt_entry) : Prop := ge_guidl e <> 0 \/ ge_guidh e <> 0.

#[local] Instance entry_used_dec e : Decision (entry_used e).
Proof. unfold entry_used. apply _. Defined.

(** The first 4096 bytes of a disk: a boot block, the header and 24 entries. *)
Definition gpt_image (mbr h1 h2 : list Z) (es : list gpt_entry) : list Z :=
  mbr ++ (gpt_signature ++ h1 ++ le32 sizeof_gpt_partition ++ h2) ++ concat (map entry_bytes es).

(** The partitions of the used entries, numbered from the next number. *)
Definition partitions_of (k : Z) (es : list gpt_entry) : list partition :=
  imap (fun i e => mk_partition (k + 1 + Z.of_nat i) (ge_start e) (ge_last e - ge_start e)) (filter entry_used es).

Lemma partitions_cons k e es : partitions_of k (e :: es) =
  if decide (entry_used e) then mk_partition (k + 1) (ge_start e) (ge_last e - ge_start e) :: partitions_of (k + 1) es else partitions_of k es.
Proof.
  unfold partitions_of. rewrite filter_cons. destruct (decide (entry_used e)); [|done]. rewrite imap_cons, Z.add_0_r. f_equal.
  apply imap_ext. intros i x _. cbn. f_equal. lia.
Qed.

Lemma entry_length e : entry_ok e -> zlen (entry_bytes e) = 128.
Proof. intros (Ht & Hr & _). unfold zlen, entry_bytes. rewrite !length_app, Ht, Hr. reflexivity. Qed.

(** The four fields of an entry, wherever it lies. *)
Lemma entry_fields pre e rest off : entry_ok e -> zlen pre = off -> let b := pre ++ entry_bytes e ++ rest in
  rd64 b (off + 16) = Ok (ge_guidl e) /\ rd64 b (off + 24) = Ok (ge_guidh e) /\
  rd64 b (off + 32) = Ok (ge_start e) /\ rd64 b (off + 40) = Ok (ge_last e).
Proof.
  intros (Ht & Hr & Hl & Hh & Hs & Hla) Hoff b. unfold b, entry_bytes. rewrite <- !app_assoc. split_and!.
  - rewrite (app_assoc pre). apply rd64_le64; [done|]. rewrite zlen_app. unfold zlen at 2. lia.
  - rewrite (app_assoc pre), (app_assoc _ (le64 _)). apply rd64_le64; [done|]. rewrite !zlen_app. change (zlen (le64 _)) with 8. unfold zlen at 2. lia.
  - rewrite (app_assoc pre), (app_assoc _ (le64 (ge_guidl e))), (app_assoc _ (le64 (ge_guidh e))).
    apply rd64_le64; [lia|]. rewrite !zlen_app. change (zlen (le64 (ge_guidl e))) with 8. change (zlen (le64 (ge_guidh e))) with 8. unfold zlen at 2. lia.
  - rewrite (app_assoc pre), (app_assoc _ (le64 (ge_guidl e))), (app_assoc _ (le64 (ge_guidh e))), (app_assoc _ (le64 (ge_start e))).
    apply rd64_le64; [lia|]. rewrite !zlen_app. change (zlen (le64 (ge_guidl e))) with 8. change (zlen (le64 (ge_guidh e))) with 8.
    change (zlen (le64 (ge_start e))) with 8. unfold zlen at 2. lia.
Qed.

Lemma gpt_loop_entries es : forall fuel pre rest i d, Forall entry_ok es -> (length es <= fuel)%nat -> i = zlen pre ->
  i + 128 * zlen es = 4096 -> 0 <= dk_partcount d -> dk_partcount d + zlen es < 2 ^ 64 ->
  gpt_loop fuel (pre ++ concat (map entry_bytes es) ++ rest) sizeof_gpt_partition i i d =
  Ok (mk_disk (dk_dev d) (dk_block_size d) (dk_block_count d) (dk_partitions d ++ partitions_of (dk_partcount d) es)
    (dk_partcount d + zlen (partitions_of (dk_partcount d) es))).
Proof.
  induction es as [|e es IH]; intros fuel pre rest i d Hok Hf Hi Hend Hk Hn.
  { change (zlen (@nil gpt_entry)) with 0 in Hend. assert (i = 4096) as -> by lia. destruct fuel; cbn; rewrite app_nil_r, Z.add_0_r; by destruct d. }
  apply Forall_cons in Hok as [He Hok]. rewrite zlen_cons in Hend, Hn. pose proof (zlen_nonneg es). cbn [length] in Hf.
  destruct fuel as [|fuel]; [lia|]. cbn [gpt_loop]. destruct (Z.leb_spec 4096 i); [lia|].
  cbn [map concat]. rewrite <- app_assoc. destruct (entry_fields pre e (concat (map entry_bytes es) ++ rest) i He) as (F1 & F2 & F3 & F4); [done|].
  rewrite F1. cbn [outcome_bind]. rewrite F2. cbn [outcome_bind]. rewrite partitions_cons.
  assert (0 <= zlen pre) by apply zlen_nonneg.
  assert (s32 (i + sizeof_gpt_partition) = i + 128) as Hs.
  { unfold s32, sint, wrap, sizeof_gpt_partition. cbv zeta. rewrite Z.mod_small by lia. destruct (Z.ltb_spec (i + 128) (2 ^ (32 - 1))); lia. }
  rewrite Hs. change (i + sizeof_gpt_partition) with (i + 128).
  assert (i + 128 = zlen (pre ++ entry_bytes e)) as Hpre by (rewrite zlen_app, entry_length by done; lia).
  destruct He as (_ & _ & _ & _ & Hsl & Hlast). destruct (decide (entry_used e)) as [Hu|Hu].
  - assert (negb (ge_guidl e =? 0) || negb (ge_guidh e =? 0) = true) as ->.
    { destruct (Z.eqb_spec (ge_guidl e) 0), (Z.eqb_spec (ge_guidh e) 0); [by destruct Hu|done..]. }
    rewrite F3. cbn [outcome_bind]. rewrite F4. cbn [outcome_bind disk_create_partition].
    unfold u64, wrap. rewrite !Z.mod_small by lia. rewrite (app_assoc pre), IH; cbn [dk_partcount dk_partitions dk_dev dk_block_size dk_block_count]; [|done|lia|done|lia|lia|lia].
    rewrite <- app_assoc, zlen_cons. cbn [app]. f_equal. f_equal. lia.
  - assert (negb (ge_guidl e =? 0) || negb (ge_guidh e =? 0) = false) as ->.
    { destruct (Z.eqb_spec (ge_guidl e) 0), (Z.eqb_spec (ge_guidh e) 0); unfold entry_used in Hu; [done|exfalso; apply Hu; auto..]. }
    cbn [outcome_bind]. rewrite (app_assoc pre), IH by (done || lia). done.
Qed.

(** C34: the partition table is read as it was written.  From the first 4096
    bytes of a disk with a valid header, 128-byte entries and any 24 entries,
    [disk_parse_gpt] makes one partition per used entry, in order, numbered
    on from the partitions the disk has, that starts at the entry's first
    block; the size it records is the distance to the last block, which is
    one less than the number of blocks. *)
Theorem disk_parse_gpt_correct d mbr h1 h2 es fuel : length mbr = 512%nat -> length h1 = 76%nat -> length h2 = 424%nat ->
  length es = 24%nat -> Forall entry_ok es -> 0 <= dk_partcount d < 2 ^ 63 -> (24 <= fuel)%nat ->
  exists d', disk_parse_gpt fuel d (gpt_image mbr h1 h2 es) = Ok d' /\
    dk_partitions d' = dk_partitions d ++ partitions_of (dk_partcount d) es /\
    dk_partcount d' = dk_partcount d + zlen (filter entry_used es) /\ dk_dev d' = dk_dev d.
Proof.
  intros Hm H1 H2 He Hok Hk Hf. unfold disk_parse_gpt, gpt_image.
  assert (zlen (mbr ++ (gpt_signature ++ h1 ++ le32 sizeof_gpt_partition ++ h2)) = 1024) as Hpre.
  { unfold zlen. rewrite !length_app, Hm, H1, H2. reflexivity. }
  assert (rdbytes (mbr ++ (gpt_signature ++ h1 ++ le32 sizeof_gpt_partition ++ h2) ++ concat (map entry_bytes es)) 512 8 = Ok gpt_signature) as ->.
  { unfold rdbytes. rewrite !zlen_app. pose proof (zlen_nonneg h1). pose proof (zlen_nonneg h2). pose proof (zlen_nonneg (concat (map entry_bytes es))).
    assert (zlen mbr = 512) as Hz by (unfold zlen; lia). change (zlen gpt_signature) with 8. change (zlen (le32 sizeof_gpt_partition)) with 4.
    destruct (Z.leb_spec (512 + 8) (zlen mbr + (8 + (zlen h1 + (4 + zlen h2)) + zlen (concat (map entry_bytes es))))); [|lia]. cbn [andb Z.leb Z.compare].
    rewrite drop_app_length' by (rewrite Hm; reflexivity). rewrite <- !app_assoc. by rewrite take_app_length' by reflexivity. }
  cbn [outcome_bind]. rewrite bool_decide_eq_true_2 by done. cbn [negb].
  assert (rd32 (mbr ++ (gpt_signature ++ h1 ++ le32 sizeof_gpt_partition ++ h2) ++ concat (map entry_bytes es)) (512 + 84) = Ok sizeof_gpt_partition) as ->.
  { rewrite <- !app_assoc, (app_assoc mbr), (app_assoc (mbr ++ _)). apply rd32_le32; [unfold word, sizeof_gpt_partition; lia|].
    rewrite !zlen_app. unfold zlen. rewrite Hm, H1. reflexivity. }
  cbn [outcome_bind]. rewrite app_assoc. rewrite <- (app_nil_r (concat (map entry_bytes es))).
  rewrite gpt_loop_entries; [|done|lia|done|unfold zlen; lia|lia|unfold zlen; lia].
  eexists. split; [reflexivity|]. cbn. split; [done|]. split; [|done]. unfold partitions_of, zlen. by rewrite length_imap.
Qed.

(** One used entry, from block 2048 to 4095. *)
Definition sample_entries : list gpt_entry :=
  mk_gpt (replicate 16 1) 5 6 2048 4095 (replicate 80 0) :: replicate 23 (mk_gpt (replicate 16 0) 0 0 0 0 (replicate 80 0)).

Lemma disk_parse_gpt_correct_witness : exists d',
  disk_parse_gpt 24 (disk_create 0) (gpt_image (replicate 512 0) (replicate 76 0) (replicate 424 0) sample_entries) = Ok d' /\
  dk_partitions d' = [mk_partition 1 2048 2047].
Proof.
  destruct (disk_parse_gpt_correct (disk_create 0) (replicate 512 0) (replicate 76 0) (replicate 424 0) sample_entries 24)
    as (d' & E & Hp & _); try reflexivity; try (cbn; lia).
  - unfold sample_entries. constructor; [|apply Forall_replicate]; unfold entry_ok; cbn; lia.
  - exists d'. split; [exact E|exact Hp].
Defined.

(** An entry size of zero never ends the loop inside the buffer. *)
Lemma gpt_zero_size fuel d partarray buffer : zlen buffer = 4096 -> 0 <= partarray ->
  forall d', gpt_loop fuel buffer 0 1024 partarray d <> Ok d'.
Proof.
  intros Hb. revert d partarray. induction fuel as [|fuel IH]; intros d partarray Hp d'; [done|]. cbn [gpt_loop].
  change (4096 <=? 1024) with false. cbv iota. change (s32 (1024 + 0)) with 1024.
  destruct (rd64 buffer (partarray + 16)); cbn [outcome_bind]; try done. destruct (rd64 buffer (partarray + 24)); cbn [outcome_bind]; try done.
  destruct (_ || _); cbn [outcome_bind]; [|apply IH; unfold sizeof_gpt_partition; lia].
  destruct (rd64 buffer (partarray + 32)); cbn [outcome_bind]; try done. destruct (rd64 buffer (partarray + 40)); cbn [outcome_bind]; try done.
  cbn. apply IH. unfold sizeof_gpt_partition. lia.
Qed.

(** ** FAT directories *)

(** A slot or two of a directory block. *)
Inductive fat_item :=
  | ShortEntry (name : list Z) (attrib : Z) (rest : list Z)
  | DeletedEntry (rest : list Z)
  | LongEntry (order : Z) (n1 n2 n3 : list (Z * Z)) (mid short : list Z).

(** Letters are pairs of a low and a high byte. *)
Definition letters (l : list (Z * Z)) : list Z := concat (map (fun c => [c.1; c.2]) l).

Definition fat_item_bytes (i : fat_item) : list Z :=
  match i with
  | ShortEntry name attrib rest => name ++ [attrib] ++ rest
  | DeletedEntry rest => 0xe5 :: rest
  | LongEntry order n1 n2 n3 mid short => [order] ++ letters n1 ++ [0x0F] ++ mid ++ letters n2 ++ [0; 0] ++ letters n3 ++ short
  end.

Definition fat_item_ok (i : fat_item) : Prop :=
  match i with
  | ShortEntry name attrib rest =>
      length name = 11%nat /\ length rest = 20%nat /\ attrib <> 0x0F /\ head name <> Some 0 /\ head name <> Some 0xe5
  | DeletedEntry rest => length rest = 31%nat
  | LongEntry order n1 n2 n3 mid short =>
      length n1 = 5%nat /\ length n2 = 6%nat /\ length n3 = 2%nat /\ length mid = 2%nat /\ length short = 32%nat /\
      has order 0x40 = true /\ order <> 0xe5
  end.

Definition fat_slots (i : fat_item) : Z := match i with LongEntry _ _ _ _ _ _ => 2 | _ => 1 end.

(** The records of the result for an item. *)
Definition fat_listing (i : fat_item) : list Z :=
  match i with
  | ShortEntry name _ _ => fat_dent (short_name name)
  | DeletedEntry _ => []
  | LongEntry _ n1 n2 n3 _ _ => fat_dent (map fst (n1 ++ n2 ++ n3) ++ [0])
  end.

Lemma letters_length l : length (letters l) = (2 * length l)%nat.
Proof. induction l as [|c l IH]; [done|]. cbn [letters map concat]. rewrite length_app. fold (letters l). rewrite IH. cbn. lia. Qed.

Lemma fat_item_length i : fat_item_ok i -> zlen (fat_item_bytes i) = 32 * fat_slots i.
Proof.
  destruct i; cbn [fat_item_ok fat_item_bytes fat_slots]; intros; deex; unfold zlen; cbn [length];
    rewrite ?length_app, ?letters_length; cbn [length]; rewrite ?length_app, ?letters_length; lia.
Qed.

Lemma rd8_app pre l k v off : zlen pre = off -> l !! Z.to_nat k = Some v -> 0 <= k -> rd8 (pre ++ l) (off + k) = Ok v.
Proof.
  intros <- Hl Hk. unfold rd8. apply aget_Ok. pose proof (zlen_nonneg pre). split; [lia|].
  rewrite lookup_app_r by (unfold zlen in *; lia). rewrite <- Hl. f_equal. unfold zlen in *. lia.
Qed.

(** A list of known length is given by its elements. *)
Ltac elements H :=
  repeat match type of H with
  | length ?l = S _ => let x := fresh "x" in destruct l as [|x l]; [discriminate H|]; cbn [length] in H; apply (f_equal pred) in H; cbn [pred] in H
  | length ?l = O => apply length_zero_iff_nil in H; subst l
  end.

Lemma read_positions_long pre order n1 n2 n3 mid short rest off : fat_item_ok (LongEntry order n1 n2 n3 mid short) -> zlen pre = off ->
  read_positions (pre ++ fat_item_bytes (LongEntry order n1 n2 n3 mid short) ++ rest) off lfn_positions = Ok (map fst (n1 ++ n2 ++ n3)).
Proof.
  intros (H1 & H2 & H3 & Hm & Hs & _ & _) Hoff. elements H1. elements H2. elements H3. elements Hm.
  unfold lfn_positions. cbn [read_positions].
  repeat (erewrite rd8_app; [|exact Hoff|reflexivity|lia]; cbn [outcome_bind]). reflexivity.
Qed.

Lemma fat_loop_item f pre i rest o length out : fat_item_ok i -> zlen pre = o * 32 -> zlen out < length ->
  fat_loop (S f) (pre ++ fat_item_bytes i ++ rest) o length out =
  fat_loop f (pre ++ fat_item_bytes i ++ rest) (o + fat_slots i) length (out ++ fat_listing i).
Proof.
  intros Hok Hpre Hlen. set (clu := pre ++ fat_item_bytes i ++ rest). cbn [fat_loop]. destruct (Z.leb_spec length (zlen out)); [lia|].
  assert (forall k v, (fat_item_bytes i ++ rest) !! Z.to_nat k = Some v -> 0 <= k -> rd8 clu (o * 32 + k) = Ok v) as Hrd.
  { intros k v Hv Hk. by apply rd8_app. }
  assert (forall v, (fat_item_bytes i ++ rest) !! 0%nat = Some v -> rd8 clu (o * 32) = Ok v) as Hrd0.
  { intros v Hv. rewrite <- (Z.add_0_r (o * 32)). by apply Hrd. }
  destruct i as [name attrib r|r|order n1 n2 n3 mid short]; cbn [fat_slots fat_listing].
  - destruct Hok as (Hn & Hr & Ha & Hz & He). destruct name as [|c name]; [done|]. cbn [head] in Hz, He.
    rewrite (Hrd0 c) by done. cbn [outcome_bind]. destruct (Z.eqb_spec c 0); [congruence|]. destruct (Z.eqb_spec c 0xe5); [congruence|].
    rewrite (Hrd 11 attrib); [|cbn [fat_item_bytes]; rewrite <- !app_assoc; apply list_lookup_middle; rewrite Hn; reflexivity|lia].
    cbn [outcome_bind]. destruct (Z.eqb_spec attrib 0x0F); [done|].
    assert (rdbytes clu (o * 32) 11 = Ok (c :: name)) as ->; [|done].
    unfold rdbytes, clu. rewrite !zlen_app, Hpre, (fat_item_length (ShortEntry (c :: name) attrib r)) by done.
    pose proof (zlen_nonneg pre). pose proof (zlen_nonneg rest). cbn [fat_slots].
    destruct (Z.leb_spec 0 (o * 32)); [|lia]. destruct (Z.leb_spec (o * 32 + 11) (o * 32 + (32 * 1 + zlen rest))); [|lia]. cbn [andb Z.leb Z.compare].
    rewrite drop_app_length' by (unfold zlen in Hpre; lia). cbn [fat_item_bytes]. rewrite <- app_assoc. by rewrite take_app_length' by (rewrite Hn; reflexivity).
  - rewrite (Hrd0 0xe5) by done. cbn. by rewrite app_nil_r.
  - pose proof Hok as (H1 & H2 & H3 & Hm & Hs & Hord & Hne). rewrite (Hrd0 order) by done. cbn [outcome_bind].
    destruct (Z.eqb_spec order 0) as [->|]; [done|]. destruct (Z.eqb_spec order 0xe5); [done|].
    assert (rd8 clu (o * 32 + 11) = Ok 0x0F) as ->.
    { apply Hrd; [|lia]. cbn [fat_item_bytes]. elements H1. reflexivity. }
    cbn [outcome_bind]. change (0x0F =? 0x0F) with true. cbv iota. cbn [lfn_loop].
    unfold clu. rewrite read_positions_long by done. fold clu. cbn [outcome_bind].
    assert (zlen (map fst (n1 ++ n2 ++ n3)) = 13) as Hz by (unfold zlen; rewrite length_map, !length_app; lia).
    unfold fname_add. rewrite Hz. change (zlen (@nil Z) + 13 <=? 64) with true. cbv iota. cbn [outcome_bind app].
    rewrite (Hrd0 order) by done. cbn [outcome_bind]. rewrite Hord, Hz. change (13 + zlen [0] <=? 64) with true. cbv iota.
    cbn [outcome_bind]. f_equal. lia.
Qed.

Lemma fat_loop_items items : forall f pre rest o length out, Forall fat_item_ok items -> zlen pre = o * 32 -> (List.length items < f)%nat ->
  zlen out + zlen (concat (map fat_listing items)) < length ->
  fat_loop f (pre ++ concat (map fat_item_bytes items) ++ 0 :: rest) o length out = Ok (out ++ concat (map fat_listing items)).
Proof.
  induction items as [|i items IH]; intros f pre rest o length out Hok Hpre Hf Hlen; cbn [map concat] in *.
  - destruct f as [|f]; [cbn in Hf; lia|]. cbn [fat_loop]. rewrite Z.add_0_r in Hlen. destruct (Z.leb_spec length (zlen out)); [lia|].
    rewrite <- (Z.add_0_r (o * 32)). rewrite (rd8_app _ _ 0 0) by done. cbn. by rewrite app_nil_r.
  - apply Forall_cons in Hok as [Hi Hok]. cbn [List.length] in Hf. destruct f as [|f]; [lia|]. rewrite zlen_app in Hlen.
    pose proof (zlen_nonneg (concat (map fat_listing items))). pose proof (zlen_nonneg (fat_listing i)).
    rewrite <- app_assoc, fat_loop_item by (done || lia). rewrite (app_assoc pre). rewrite IH; [by rewrite app_assoc|done| |lia|rewrite zlen_app; lia].
    rewrite zlen_app, fat_item_length by done. lia.
Qed.

(** Listing a FAT directory.  If the first block of a directory holds
    deleted entries, short entries and long names of one slot, followed by
    an end marker, and the caller's buffer is larger than the listing,
    [fatfs_getdents] ends without reading outside the block or overrunning
    its name buffer and returns one record for each entry that is not
    deleted, in order, with its short name or the 13 characters of its long
    name. *)
Theorem fatfs_getdents_correct sector sb cluster items rest length :
  sector (s64 (fat_data_offset sb + u64 (u32 (cluster - 2) * fat_cluster_size sb))) = concat (map fat_item_bytes items) ++ 0 :: rest ->
  Forall fat_item_ok items -> (List.length items <= 16)%nat -> zlen (concat (map fat_listing items)) < length ->
  fatfs_getdents sector sb cluster length =
  Ok (RVal (zlen (concat (map fat_listing items))), concat (map fat_listing items)).
Proof.
  intros Hs Hok Hn Hlen. unfold fatfs_getdents, pread_blocks. cbn [seq map concat]. rewrite Z.add_0_r, Hs, app_nil_r.
  pose proof (fat_loop_items items 17 [] rest 0 length []) as H. cbn [app] in H. rewrite H by (done || lia). done.
Qed.

(** The file "A" and a deleted entry, in the root cluster 2. *)
Definition sample_dir : list fat_item :=
  [ShortEntry (65 :: replicate 10 0) 0x20 (replicate 20 0); DeletedEntry (replicate 31 7)].

Lemma fatfs_getdents_correct_witness :
  fatfs_getdents (fun _ => concat (map fat_item_bytes sample_dir) ++ 0 :: replicate 447 0) (mk_fat 10 1 2 4 32 40 2) 2 1024 =
  Ok (RVal 21, replicate 16 0 ++ [21; 0; 0; 65; 0]).
Proof.
  rewrite (fatfs_getdents_correct _ _ _ sample_dir (replicate 447 0)); [reflexivity|reflexivity| |cbn; lia|vm_compute; done].
  repeat constructor; done.
Defined.

(** The start of the data region is the one of the format only for clusters
    of one block: the reserved blocks are counted as if they were clusters. *)
Lemma fat_data_offset_scaled bpb sb : fatfs_super_init bpb = Ok (inr sb) ->
  exists reserved, rd16 bpb 14 = Ok reserved /\ fat_offset sb = reserved * fat_cluster_size sb /\
    fat_data_offset sb = u64 (reserved * fat_cluster_size sb + fat_count sb * fat_size sb).
Proof.
  unfold fatfs_super_init. intros H.
  repeat match type of H with
  | (let* _ := ?x in _) = _ => let E := fresh "E" in destruct x eqn:E; cbn [outcome_bind] in H; try done
  end.
  repeat case_match; try done; injection H as <-; eexists; (split; [reflexivity|]); split; reflexivity.
Qed.
