(* ===== verification/NvmeStructs.v ===== *)
(** * The structures of the NVMe interface

    kernel/include/dev/nvme/nvme_structs.h.  A packed structure is its list of
    members; bit fields follow each other without gaps, any other member
    starts at the next byte.  A value of a structure is the number that its
    bytes are, lowest byte first. *)

From stdpp Require Import base numbers list strings.
From Stdlib Require Import ZArith Lia.
From S2P Require Import Prelude Wire.

Inductive member := Bytes (n : Z) | Bits (n : Z).

Definition layout : Type := list (string * member).

Definition byte_align (pos : Z) : Z := (pos + 7) / 8 * 8.

(** The first bit and the number of bits of a member. *)
Fixpoint place (l : layout) (pos : Z) (name : string) : option (Z * Z) :=
  match l with
  | [] => None
  | (x, Bytes n) :: l => if decide (x = name) then Some (byte_align pos, 8 * n) else place l (byte_align pos + 8 * n) name
  | (x, Bits n) :: l => if decide (x = name) then Some (pos, n) else place l (pos + n) name
  end.

Fixpoint end_bit (l : layout) (pos : Z) : Z :=
  match l with
  | [] => pos
  | (_, Bytes n) :: l => end_bit l (byte_align pos + 8 * n)
  | (_, Bits n) :: l => end_bit l (pos + n)
  end.

Definition sizeof (l : layout) : Z := byte_align (end_bit l 0) / 8.

Definition offset_of (l : layout) (name : string) : Z := match place l 0 name with Some (o, _) => o / 8 | None => 0 end.

(** Reading and assigning a member of the structure that starts at bit [at_]. *)
Definition get_member (l : layout) (at_ raw : Z) (name : string) : Z :=
  match place l 0 name with Some (o, w) => raw / 2 ^ (at_ + o) mod 2 ^ w | None => 0 end.

Definition set_member (l : layout) (at_ : Z) (name : string) (v raw : Z) : Z :=
  match place l 0 name with
  | Some (o, w) => raw + (v mod 2 ^ w - raw / 2 ^ (at_ + o) mod 2 ^ w) * 2 ^ (at_ + o)
  | None => raw
  end.

Fixpoint bytes_of (n : nat) (raw : Z) : list Z :=
  match n with O => [] | S n => raw mod 256 :: bytes_of n (raw / 256) end.

Fixpoint raw_of (bytes : list Z) : Z := match bytes with [] => 0 | b :: bytes => b + 256 * raw_of bytes end.

#[local] Open Scope string_scope.

(** ** Registers *)

Inductive NVME_REGISTER :=
  | NVME_REGISTER_CAPABILITY
  | NVME_REGISTER_VERSION
  | NVME_REGISTER_INTMASK_SET
  | NVME_REGISTER_INTMASK_CLEAR
  | NVME_REGISTER_CONTROLLER_CONFIG
  | NVME_REGISTER_CONTROLLER_STATUS
  | NVME_REGISTER_ADMIN_QUEUE_ATTR
  | NVME_REGISTER_ADMIN_SUBMISSION_QUEUE
  | NVME_REGISTER_ADMIN_COMPLETION_QUEUE
  | NVME_REGISTER_QUEUE_TAIL_DOORBELL_BASE
  | NVME_REGISTER_QUEUE_HEAD_DOORBELL_BASE.

Definition nvme_register (r : NVME_REGISTER) : Z :=
  match r with
  | NVME_REGISTER_CAPABILITY => 0
  | NVME_REGISTER_VERSION => 0x8
  | NVME_REGISTER_INTMASK_SET => 0xc
  | NVME_REGISTER_INTMASK_CLEAR => 0x10
  | NVME_REGISTER_CONTROLLER_CONFIG => 0x14
  | NVME_REGISTER_CONTROLLER_STATUS => 0x1c
  | NVME_REGISTER_ADMIN_QUEUE_ATTR => 0x24
  | NVME_REGISTER_ADMIN_SUBMISSION_QUEUE => 0x28
  | NVME_REGISTER_ADMIN_COMPLETION_QUEUE => 0x30
  | NVME_REGISTER_QUEUE_TAIL_DOORBELL_BASE => 0x1000
  | NVME_REGISTER_QUEUE_HEAD_DOORBELL_BASE => 0x1000
  end.

Definition nvme_capability : layout :=
  [("max_queue_entries", Bytes 2); ("contiguous_queue_required", Bits 1); ("arbitration_mechanism_supported", Bits 2); ("_reserved_0", Bits 5);
   ("timeout", Bytes 1); ("doorbell_stride", Bits 4); ("subsystem_reset_supported", Bits 1); ("command_sets_supported", Bytes 1);
   ("boot_partition_supported", Bits 1); ("controller_power_scope", Bits 2); ("memory_pagesize_min", Bits 4); ("memory_pagesize_max", Bits 4);
   ("persistent_mem_region_supported", Bits 1); ("controller_mem_buffer_supported", Bits 1); ("subsystem_shtudown_supported", Bits 1);
   ("ready_modes_supported", Bits 2); ("shutdown_enhancements_supported", Bits 1); ("_reserved_1", Bits 2)].

Definition nvme_config : layout :=
  [("enabled", Bits 1); ("_reserved_0", Bits 3); ("io_commandset_selected", Bits 3); ("memory_pagesize", Bits 4);
   ("arbitration_mechanism_selected", Bits 3); ("shutdown_notification", Bits 2); ("io_sq_entrysize", Bits 4); ("io_cq_entrysize", Bits 4);
   ("crime", Bits 1); ("_reserved_1", Bits 7)].

Definition nvme_status : layout :=
  [("ready", Bits 1); ("fatal_status", Bits 1); ("shutdown_status", Bits 2); ("subsystem_reset_occured", Bits 1); ("processing_paused", Bits 1);
   ("shutdown_type", Bits 1); ("_reserved", Bits 25)].

(** ** Commands *)

Inductive NVME_ADMIN_OPCODE :=
  | NVME_ADMIN_OP_DELETE_SQ | NVME_ADMIN_OP_CREATE_SQ | NVME_ADMIN_OP_GET_LOG | NVME_ADMIN_OP_DELETE_CQ | NVME_ADMIN_OP_CREATE_CQ
  | NVME_ADMIN_OP_IDENTIFY | NVME_ADMIN_OP_GET_FEATURE | NVME_ADMIN_OP_SET_FEATURE.

Definition admin_opcode (o : NVME_ADMIN_OPCODE) : Z :=
  match o with
  | NVME_ADMIN_OP_DELETE_SQ => 0x0
  | NVME_ADMIN_OP_CREATE_SQ => 0x1
  | NVME_ADMIN_OP_GET_LOG => 0x2
  | NVME_ADMIN_OP_DELETE_CQ => 0x4
  | NVME_ADMIN_OP_CREATE_CQ => 0x5
  | NVME_ADMIN_OP_IDENTIFY => 0x6
  | NVME_ADMIN_OP_GET_FEATURE => 0x9
  | NVME_ADMIN_OP_SET_FEATURE => 0xA
  end.

Inductive NVME_OPCODE :=
  | NVME_OP_FLUSH | NVME_OP_WRITE | NVME_OP_READ | NVME_OP_WRITE_UC | NVME_OP_COMPARE | NVME_OP_WRITE_ZERO | NVME_OP_CANCEL | NVME_OP_COPY.

Definition nvme_opcode (o : NVME_OPCODE) : Z :=
  match o with
  | NVME_OP_FLUSH => 0x00
  | NVME_OP_WRITE => 0x01
  | NVME_OP_READ => 0x02
  | NVME_OP_WRITE_UC => 0x04
  | NVME_OP_COMPARE => 0x05
  | NVME_OP_WRITE_ZERO => 0x08
  | NVME_OP_CANCEL => 0x18
  | NVME_OP_COPY => 0x19
  end.

Definition nvme_cmd_header : layout :=
  [("opcode", Bytes 1); ("fused", Bits 2); ("_reserved", Bits 4); ("psdt", Bits 2); ("command_id", Bytes 2)].

(** The members of the union of [nvme_cmd]. *)
Definition create_io_sq : layout :=
  [("qid", Bytes 2); ("qsize", Bytes 2); ("phys_contig", Bits 1); ("qprio", Bits 2); ("_reserved_0", Bits 13); ("cqid", Bytes 2);
   ("nvmsetid", Bytes 2); ("_reserved_1", Bytes 2)].

Definition create_io_cq : layout :=
  [("qid", Bytes 2); ("qsize", Bytes 2); ("phys_contig", Bits 1); ("interrupt_enable", Bits 1); ("_reserved_0", Bits 14); ("iv", Bytes 2)].

Definition cmd_identify : layout :=
  [("cns", Bytes 1); ("_reserved_0", Bytes 1); ("controller_id", Bytes 2); ("cnssid", Bytes 2); ("_reserved_1", Bytes 1);
   ("command_set_id", Bytes 1); ("_reserved_2", Bytes 8); ("uuid_index", Bits 7); ("_reserved_3", Bits 25)].

Definition cmd_rw : layout :=
  [("lba", Bytes 8); ("nlb", Bytes 2); ("_reserved_0", Bits 4); ("dtype", Bits 4); ("_reserved_1", Bits 2); ("prinfo", Bits 4); ("fua", Bits 1);
   ("lr", Bits 1)].

(** [header] is of type [nvme_cmd_header]; the union, whose largest member is
    the six words, is [args]. *)
Definition nvme_cmd : layout :=
  [("header", Bytes 4); ("nsid", Bytes 4); ("cmd_dword_2", Bytes 4); ("cmd_dword_3", Bytes 4); ("mptr", Bytes 8); ("prp1", Bytes 8);
   ("prp2", Bytes 8); ("args", Bytes 24)].

Definition nvme_completion : layout :=
  [("cmd_specific_0", Bytes 4); ("cmd_specific_1", Bytes 4); ("queue_head_pointer", Bytes 2); ("queue_id", Bytes 2); ("cmd_id", Bytes 2);
   ("phase_tag", Bits 1); ("status", Bits 15)].

(** ** What the identify commands return *)

Definition nvme_identify_controller : layout :=
  [("pci_vid", Bytes 2); ("pci_ssvid", Bytes 2); ("serial_number", Bytes 20); ("model_number", Bytes 40); ("firmware_revision", Bytes 8);
   ("recommended_arbitration_burst", Bytes 1); ("ieee_oui", Bytes 3); ("cmic", Bytes 1); ("max_data_transfer_size", Bytes 1);
   ("controller_id", Bytes 2); ("version", Bytes 4); ("rtd3r", Bytes 4); ("rtd3e", Bytes 4); ("optional_async_events_supported", Bytes 4);
   ("controller_attributes", Bytes 4); ("rrls", Bytes 2); ("boot_partition_capabilities", Bytes 1); ("_reserved_0", Bytes 1);
   ("nssl", Bytes 4); ("_reserved_1", Bytes 2); ("plsi", Bytes 1); ("controller_type", Bytes 1); ("fguid", Bytes 16); ("crdt1", Bytes 2);
   ("crdt2", Bytes 2); ("crdt3", Bytes 2); ("crcap", Bytes 1); ("ciu", Bytes 1); ("cirn", Bytes 8); ("_reserved_2", Bytes 109);
   ("nvmsr", Bytes 1); ("vwci", Bytes 1); ("mec", Bytes 1); ("oacs", Bytes 2); ("abort_cmd_limit", Bytes 1); ("aerl", Bytes 1);
   ("fw_update", Bytes 1); ("log_page_attr", Bytes 1); ("elpe", Bytes 1); ("npss", Bytes 1); ("avscc", Bytes 1); ("apsta", Bytes 1);
   ("wctemp", Bytes 2); ("cctemp", Bytes 2); ("mtfa", Bytes 2); ("hostmem_pref", Bytes 4); ("hostmem_min", Bytes 4);
   ("total_nvm_capacity", Bytes 16); ("unallocated_nvm_capacity", Bytes 16); ("rpmbs", Bytes 4); ("edstt", Bytes 2); ("dsto", Bytes 1);
   ("fwug", Bytes 1); ("kas", Bytes 2); ("hctma", Bytes 2); ("mntmt", Bytes 2); ("mxntmt", Bytes 2); ("sanicap", Bytes 4);
   ("hmminds", Bytes 4); ("hmmaxd", Bytes 2); ("nvm_setid_max", Bytes 2); ("endgidmax", Bytes 2); ("anatt", Bytes 1); ("anacap", Bytes 1);
   ("anagrpmax", Bytes 4); ("nanagrpid", Bytes 4); ("pels", Bytes 4); ("_reserved_3", Bytes 156); ("submit_queue_entry_size", Bytes 1);
   ("completion_queue_entry_size", Bytes 1); ("maxcmd", Bytes 2); ("num_namespaces", Bytes 4); ("oncs", Bytes 2); ("fuses", Bytes 2);
   ("fna", Bytes 1); ("volatile_write_cache", Bytes 1); ("awun", Bytes 2); ("awupf", Bytes 2); ("nvscc", Bytes 1); ("nwpc", Bytes 1);
   ("acwu", Bytes 2); ("cdfs", Bytes 2); ("sgls", Bytes 4); ("max_namespaces", Bytes 4); ("_reserved_4", Bytes 224); ("subnqn", Bytes 256);
   ("_reserved_5", Bytes 3072)].

Definition nvme_lbaf : layout := [("metadata_size", Bytes 2); ("lba_data_size", Bytes 1); ("rp", Bits 2); ("reserved", Bits 6)].

(** [lbaf] is an array of 16 values of type [nvme_lbaf]. *)
Definition nvme_identify_namespace : layout :=
  [("nsze", Bytes 8); ("ncap", Bytes 8); ("nuse", Bytes 8); ("nsfeat", Bytes 1); ("nlbaf", Bytes 1); ("flbas", Bytes 1); ("mc", Bytes 1);
   ("dpc", Bytes 1); ("dps", Bytes 1); ("nmic", Bytes 1); ("rescap", Bytes 1); ("fpi", Bytes 1); ("dlfeat", Bytes 1); ("nawun", Bytes 2);
   ("nawupf", Bytes 2); ("nacwu", Bytes 2); ("nabsn", Bytes 2); ("nabo", Bytes 2); ("nabspf", Bytes 2); ("noiob", Bytes 2);
   ("nvmcap", Bytes 16); ("npwg", Bytes 2); ("npwa", Bytes 2); ("npdg", Bytes 2); ("npda", Bytes 2); ("nows", Bytes 2); ("mssrl", Bytes 2);
   ("mcl", Bytes 4); ("msrc", Bytes 1); ("_reserved_0", Bytes 1); ("nulbaf", Bytes 1); ("_reserved_1", Bytes 9); ("anagrpid", Bytes 4);
   ("_reserved_2", Bytes 3); ("nsattr", Bytes 1); ("nvmsetid", Bytes 2); ("endgid", Bytes 2); ("nguid", Bytes 16); ("eui64", Bytes 8);
   ("lbaf", Bytes 64); ("lbstm", Bytes 8); ("vs", Bytes 3704)].

(** ** The layouts are those of the NVMe specification *)

(** Sizes, and the members that the driver uses. *)
Lemma layouts_match :
  sizeof nvme_config = 4 /\ sizeof nvme_status = 4 /\ sizeof nvme_cmd = 64 /\ sizeof nvme_completion = 16 /\
  sizeof nvme_identify_controller = 4096 /\ sizeof nvme_identify_namespace <= 4096 /\
  sizeof create_io_sq <= 24 /\ sizeof create_io_cq <= 24 /\ sizeof cmd_identify <= 24 /\ sizeof cmd_rw <= 24 /\
  place nvme_config 0 "enabled" = Some (0, 1) /\ place nvme_config 0 "memory_pagesize" = Some (7, 4) /\
  place nvme_config 0 "io_sq_entrysize" = Some (16, 4) /\ place nvme_config 0 "io_cq_entrysize" = Some (20, 4) /\
  place nvme_capability 0 "doorbell_stride" = Some (32, 4) /\
  place nvme_completion 0 "phase_tag" = Some (112, 1) /\ place nvme_completion 0 "status" = Some (113, 15) /\
  offset_of nvme_cmd "prp1" = 24 /\ offset_of nvme_cmd "args" = 40 /\ offset_of cmd_rw "nlb" = 8 /\
  offset_of nvme_identify_controller "num_namespaces" = 516 /\
  offset_of nvme_identify_namespace "flbas" = 26 /\ offset_of nvme_identify_namespace "lbaf" = 128.
Proof. vm_compute. repeat split; discriminate. Qed.

(** The specification has the least page size at bit 48 and 64 bits in all:
    the command sets, which are not a bit field here, push everything behind
    them three bits on. *)
Lemma capability_shifted : place nvme_capability 0 "memory_pagesize_min" = Some (51, 4) /\ sizeof nvme_capability = 9.
Proof. by vm_compute. Qed.

(** ** Members of values *)

Lemma set_get_same l at_ name v raw o w : place l 0 name = Some (o, w) -> 0 <= at_ + o -> 0 <= w -> get_member l at_ (set_member l at_ name v raw) name = v mod 2 ^ w.
Proof.
  intros Hp Ho Hw. unfold get_member, set_member. rewrite Hp. set (s := at_ + o) in *. pose proof (Z.pow_pos_nonneg 2 s ltac:(lia) ltac:(lia)).
  pose proof (Z.pow_pos_nonneg 2 w ltac:(lia) ltac:(lia)). rewrite Z.div_add by lia. set (x := raw / 2 ^ s).
  rewrite <- (Z.mod_mod v (2 ^ w)) at 2 by lia. rewrite (Z.div_mod x (2 ^ w)) at 1 by lia.
  replace (2 ^ w * (x / 2 ^ w) + x mod 2 ^ w + (v mod 2 ^ w - x mod 2 ^ w)) with (v mod 2 ^ w + x / 2 ^ w * 2 ^ w) by lia. apply Z.mod_add. lia.
Qed.

Lemma raw_bytes n : forall raw, 0 <= raw < 256 ^ Z.of_nat n -> raw_of (bytes_of n raw) = raw.
Proof.
  induction n as [|n IH]; intros raw Hr; cbn [bytes_of raw_of]; [lia|]. rewrite IH.
  - pose proof (Z.div_mod raw 256 ltac:(lia)). lia.
  - split; [apply Z.div_pos; lia|]. apply Z.div_lt_upper_bound; [lia|]. rewrite Nat2Z.inj_succ, Z.pow_succ_r in Hr by lia. lia.
Qed.

Lemma bytes_of_length n : forall raw, length (bytes_of n raw) = n.
Proof. induction n as [|n IH]; intros raw; cbn [bytes_of length]; [done|]. by rewrite IH. Qed.
