(* ===== verification/Nvme.v ===== *)
(** * The NVMe disk

    kernel/dev/nvme/nvme.c.  Driver and controller share pages: queues of
    commands and completions, and the pages data goes to.  A page is the list
    of its bytes, kept under its physical address.  The controller is
    hardware behind the class [NvmeController]: it answers register accesses,
    and works on its own whenever the driver waits.  What its documentation
    promises are hypotheses. *)

From stdpp Require Import base numbers list gmap strings.
From Stdlib Require Import ZArith Lia.
From S2P Require Import Prelude Wire Device Irq Pcie NvmeStructs Block.

(** Registers by their offset.  [nc_run] is what the controller does between
    two looks of the driver. *)
Class NvmeController (H : Type) := {
  nc_read : H -> Z -> Z;
  nc_write : H -> Z -> Z -> H;
  nc_run : H -> gmap Z (list Z) -> H * gmap Z (list Z);
}.

(** ** Data *)

(** The page of a queue is [q_phys_address]; the driver reaches it at [q_address]. *)
Record nvme_queue := mk_queue { q_address : Z; q_phys_address : Z; q_size : Z; q_tail : Z; q_entry_size : Z }.

(** [identify] is the frame of the page that describes the controller. *)
Record nvme_device := mk_nvme_device {
  submission_queue : nvme_queue;
  completion_queue : nvme_queue;
  io_sq : nvme_queue;
  io_cq : nvme_queue;
  identify : Z;
  nvme_id : Z;
  doorbell_stride : Z;
  mps_shift : Z;
}.

Record nvme_namespace := mk_namespace {
  nsid : Z;
  ns_identify : Z;
  ns_disk : disk;
  dma_page : Z;
  dma_page_phys : Z;
  block_size : Z;
  blocks : Z;
}.

Definition set_admin (sq cq : nvme_queue) (d : nvme_device) : nvme_device :=
  mk_nvme_device sq cq (io_sq d) (io_cq d) (identify d) (nvme_id d) (doorbell_stride d) (mps_shift d).
Definition set_io (sq cq : nvme_queue) (d : nvme_device) : nvme_device :=
  mk_nvme_device (submission_queue d) (completion_queue d) sq cq (identify d) (nvme_id d) (doorbell_stride d) (mps_shift d).
Definition set_identify (page : Z) (d : nvme_device) : nvme_device :=
  mk_nvme_device (submission_queue d) (completion_queue d) (io_sq d) (io_cq d) page (nvme_id d) (doorbell_stride d) (mps_shift d).
Definition set_capability (stride shift : Z) (d : nvme_device) : nvme_device :=
  mk_nvme_device (submission_queue d) (completion_queue d) (io_sq d) (io_cq d) (identify d) (nvme_id d) stride shift.

Section nvme.
Context {H : Type} {NC : NvmeController H}.

Record nvme := mk_nvme { nv_hw : H; nv_mem : gmap Z (list Z); nv_dev : nvme_device }.

Definition set_hw (h : H) (s : nvme) : nvme := mk_nvme h (nv_mem s) (nv_dev s).
Definition set_nvmem (m : gmap Z (list Z)) (s : nvme) : nvme := mk_nvme (nv_hw s) m (nv_dev s).
Definition set_dev (d : nvme_device) (s : nvme) : nvme := mk_nvme (nv_hw s) (nv_mem s) d.

(** ** Registers and queues *)

Definition nvme_read64 (s : nvme) (offset : Z) : Z := u64 (nc_read (nv_hw s) offset).
Definition nvme_write64 (s : nvme) (offset data : Z) : nvme := set_hw (nc_write (nv_hw s) offset (u64 data)) s.
Definition nvme_read32 (s : nvme) (offset : Z) : Z := u32 (nc_read (nv_hw s) offset).
Definition nvme_write32 (s : nvme) (offset data : Z) : nvme := set_hw (nc_write (nv_hw s) offset (u32 data)) s.

(** The offset of the entry in the queue's page. *)
Definition nvme_queue_allocate (q : nvme_queue) : Z * nvme_queue :=
  (q_tail q * q_entry_size q, mk_queue (q_address q) (q_phys_address q) (q_size q) (u32 (q_tail q + 1) mod q_size q) (q_entry_size q)).

(** Storing bytes in a page. *)
Definition store (m : gmap Z (list Z)) (phys off : Z) (bytes : list Z) : outcome (gmap Z (list Z)) :=
  let* page := deref (m !! phys) in
  if (0 <=? off) && (off + zlen bytes <=? zlen page)
  then Ok (<[phys := take (Z.to_nat off) page ++ bytes ++ drop (Z.to_nat off + length bytes) page]> m)
  else Fault.

Definition load (m : gmap Z (list Z)) (phys off len : Z) : outcome (list Z) :=
  let* page := deref (m !! phys) in rdbytes page off len.

(** The completion entry at an offset. *)
Definition completion_at (m : gmap Z (list Z)) (phys off : Z) : outcome Z :=
  let* bytes := load m phys off 16 in Ok (raw_of bytes).

(** The loops that wait for a completion: [fuel] looks. *)
Fixpoint await (fuel : nat) (s : nvme) (phys off : Z) : outcome nvme :=
  match fuel with
  | O => OutOfFuel
  | S fuel =>
      let* c := completion_at (nv_mem s) phys off in
      if get_member nvme_completion 0 c "phase_tag" =? 1 then Ok s
      else let '(h, m) := nc_run (nv_hw s) (nv_mem s) in await fuel (mk_nvme h m (nv_dev s)) phys off
  end.

Definition doorbell : Z := nvme_register NVME_REGISTER_QUEUE_TAIL_DOORBELL_BASE.

(** [cmd] is the command as a number. *)
Definition nvme_submit_admin_await (fuel : nat) (s : nvme) (cmd : Z) : outcome (Z * nvme) :=
  let '(submission, sq) := nvme_queue_allocate (submission_queue (nv_dev s)) in
  let '(completion, cq) := nvme_queue_allocate (completion_queue (nv_dev s)) in
  let s := set_dev (set_admin sq cq (nv_dev s)) s in
  let* m := store (nv_mem s) (q_phys_address sq) submission (bytes_of 64 cmd) in
  let s := set_nvmem m s in
  let s := nvme_write32 s doorbell (q_tail sq) in
  let* s := await fuel s (q_phys_address cq) completion in
  let* c := completion_at (nv_mem s) (q_phys_address cq) completion in
  let status := get_member nvme_completion 0 c "status" in
  let s := nvme_write32 s (doorbell + 1 * Z.shiftl 4 (doorbell_stride (nv_dev s))) (q_tail cq) in
  Ok (status, s).

(** ** Starting the controller *)

Fixpoint wait_not_ready (fuel : nat) (s : nvme) : outcome nvme :=
  match fuel with
  | O => OutOfFuel
  | S fuel =>
      let status := nvme_read32 s (nvme_register NVME_REGISTER_CONTROLLER_STATUS) in
      if get_member nvme_status 0 status "ready" =? 0 then Ok s
      else let '(h, m) := nc_run (nv_hw s) (nv_mem s) in wait_not_ready fuel (mk_nvme h m (nv_dev s))
  end.

Definition nvme_controller_reset (fuel : nat) (s : nvme) : outcome nvme :=
  let cfg := nvme_read32 s (nvme_register NVME_REGISTER_CONTROLLER_CONFIG) in
  let s :=
    if negb (get_member nvme_config 0 cfg "enabled" =? 0)
    then nvme_write32 s (nvme_register NVME_REGISTER_CONTROLLER_CONFIG) (set_member nvme_config 0 "enabled" 0 cfg)
    else s in
  wait_not_ready fuel s.

(** The loop of [nvme_controller_start]; a failure is only logged. *)
Fixpoint wait_ready (fuel : nat) (s : nvme) : outcome nvme :=
  match fuel with
  | O => OutOfFuel
  | S fuel =>
      let status := nvme_read32 s (nvme_register NVME_REGISTER_CONTROLLER_STATUS) in
      if negb (get_member nvme_status 0 status "ready" =? 0) then Ok s
      else if negb (get_member nvme_status 0 status "fatal_status" =? 0) then Ok s
      else let '(h, m) := nc_run (nv_hw s) (nv_mem s) in wait_ready fuel (mk_nvme h m (nv_dev s))
  end.

(** The assignments to the configuration word. *)
Definition start_config (cfg : Z) : Z :=
  set_member nvme_config 0 "io_cq_entrysize" 4 (set_member nvme_config 0 "io_sq_entrysize" 6
    (set_member nvme_config 0 "shutdown_notification" 0 (set_member nvme_config 0 "arbitration_mechanism_selected" 0
      (set_member nvme_config 0 "memory_pagesize" 0 (set_member nvme_config 0 "io_commandset_selected" 0
        (set_member nvme_config 0 "enabled" 1 cfg)))))).

Definition nvme_controller_start (fuel : nat) (s : nvme) : outcome nvme :=
  let cfg := nvme_read32 s (nvme_register NVME_REGISTER_CONTROLLER_CONFIG) in
  wait_ready fuel (nvme_write32 s (nvme_register NVME_REGISTER_CONTROLLER_CONFIG) (start_config cfg)).

(** Members of a command, and of the structure in its union. *)
Definition cmd_set (name : string) (v cmd : Z) : Z := set_member nvme_cmd 0 name v cmd.
Definition header_set (name : string) (v cmd : Z) : Z := set_member nvme_cmd_header 0 name v cmd.
Definition args_set (l : layout) (name : string) (v cmd : Z) : Z := set_member l (8 * offset_of nvme_cmd "args") name v cmd.
End nvme.
Arguments nvme : clear implicits.

Section driver.
Context {H K C : Type} {NC : NvmeController H} {KS : KernelSpace K} {CS : ConfigSpace C}.
Implicit Types s : nvme H.

(** ** Queues *)

(** A page from [vmalloc], which does not clear it, and its frame. *)
Definition dma_alloc (k : K) : outcome (Z * Z * K) :=
  let* (virt, k) := ks_vmalloc k 0x1000 in
  let* phys := ks_phys k virt in
  Ok (virt, phys, k).

Definition nvme_admin_queue_init s (k : K) : outcome (nvme H * K) :=
  let cap := nvme_read64 s (nvme_register NVME_REGISTER_CAPABILITY) in
  let s := set_dev (set_capability (get_member nvme_capability 0 cap "doorbell_stride")
             (u8 (12 + get_member nvme_capability 0 cap "memory_pagesize_min")) (nv_dev s)) s in
  let* (sq_virt, sq_phys, k) := dma_alloc k in
  let sq := mk_queue sq_virt sq_phys 64 0 64 in
  let s := nvme_write64 s (nvme_register NVME_REGISTER_ADMIN_SUBMISSION_QUEUE) sq_phys in
  let* (cq_virt, cq_phys, k) := dma_alloc k in
  let cq := mk_queue cq_virt cq_phys 64 0 16 in
  let s := nvme_write64 s (nvme_register NVME_REGISTER_ADMIN_COMPLETION_QUEUE) cq_phys in
  let aqs := Z.lor (Z.land (q_size sq - 1) 0x7FF) (Z.shiftl (Z.land (q_size cq - 1) 0x7FF) 16) in
  let s := nvme_write32 s (nvme_register NVME_REGISTER_ADMIN_QUEUE_ATTR) aqs in
  Ok (set_dev (set_admin sq cq (nv_dev s)) s, k).

Definition identify_cmd (ns cns page : Z) : Z :=
  cmd_set "prp2" 0 (cmd_set "prp1" page (args_set cmd_identify "cns" cns (cmd_set "nsid" ns
    (header_set "opcode" (admin_opcode NVME_ADMIN_OP_IDENTIFY) 0)))).

(** The status of the command is not looked at, here and below. *)
Definition nvme_controller_identify (fuel : nat) s (k : K) : outcome (nvme H * K) :=
  let* (_, page, k) := dma_alloc k in
  let s := set_dev (set_identify page (nv_dev s)) s in
  let* (_, s) := nvme_submit_admin_await fuel s (identify_cmd 0 1 page) in
  Ok (s, k).

Definition create_cq_cmd (prp : Z) : Z :=
  args_set create_io_cq "interrupt_enable" 1 (args_set create_io_cq "phys_contig" 1 (args_set create_io_cq "iv" 0
    (args_set create_io_cq "qsize" 63 (args_set create_io_cq "qid" 1 (cmd_set "prp1" prp
      (header_set "opcode" (admin_opcode NVME_ADMIN_OP_CREATE_CQ) 0)))))).

Definition create_sq_cmd (prp : Z) : Z :=
  args_set create_io_sq "nvmsetid" 0 (args_set create_io_sq "qprio" 0 (args_set create_io_sq "phys_contig" 1
    (args_set create_io_sq "cqid" 1 (args_set create_io_sq "qsize" 63 (args_set create_io_sq "qid" 1 (cmd_set "prp1" prp
      (header_set "opcode" (admin_opcode NVME_ADMIN_OP_CREATE_SQ) 0))))))).

Definition nvme_io_queue_init (fuel : nat) s (k : K) : outcome (nvme H * K) :=
  let* (cq_virt, cq_phys, k) := dma_alloc k in
  let cq := mk_queue cq_virt cq_phys 64 0 16 in
  let s := set_dev (set_io (io_sq (nv_dev s)) cq (nv_dev s)) s in
  let* (_, s) := nvme_submit_admin_await fuel s (create_cq_cmd cq_phys) in
  let* (sq_virt, sq_phys, k) := dma_alloc k in
  let sq := mk_queue sq_virt sq_phys 64 0 64 in
  let s := set_dev (set_io sq (io_cq (nv_dev s)) (nv_dev s)) s in
  let* (_, s) := nvme_submit_admin_await fuel s (create_sq_cmd sq_phys) in
  Ok (s, k).

(** ** Reading *)

Definition read_cmd (ns prp lba nlb : Z) : Z :=
  args_set cmd_rw "nlb" nlb (args_set cmd_rw "lba" lba (cmd_set "prp1" prp (cmd_set "nsid" ns
    (header_set "opcode" (nvme_opcode NVME_OP_READ) 0)))).

(** A round of the loop of [nvme_read]: the bytes it copies to the buffer. *)
Definition read_round (fuel : nat) s (ns : nvme_namespace) (lba count : Z) : outcome (list Z * nvme H) :=
  let '(submission, sq) := nvme_queue_allocate (io_sq (nv_dev s)) in
  let* m := store (nv_mem s) (q_phys_address sq) submission (bytes_of 64 (read_cmd (nsid ns) (dma_page_phys ns) lba (u16 (count - 1)))) in
  let '(completion, cq) := nvme_queue_allocate (io_cq (nv_dev s)) in
  let s := set_nvmem m (set_dev (set_io sq cq (nv_dev s)) s) in
  let s := nvme_write32 s (doorbell + 2 * Z.shiftl 4 (doorbell_stride (nv_dev s))) (q_tail sq) in
  let* s := await fuel s (q_phys_address cq) completion in
  let* bytes := load (nv_mem s) (dma_page_phys ns) 0 (count * block_size ns) in
  let s := nvme_write32 s (doorbell + 3 * Z.shiftl 4 (doorbell_stride (nv_dev s))) (q_tail cq) in
  Ok (bytes, s).

(** [offset] blocks are done; the rounds are bounded by [fuel], as is each wait. *)
Fixpoint read_loop (fuel waits : nat) s (ns : nvme_namespace) (lba blks offset : Z) : outcome (list Z * nvme H) :=
  if blks <=? offset then Ok ([], s)
  else match fuel with
  | O => OutOfFuel
  | S fuel =>
      if block_size ns =? 0 then Fault
      else
        let count := u16 (blks - offset) in
        let count := if 0x1000 / block_size ns <? count then u16 (0x1000 / block_size ns) else count in
        let* (bytes, s) := read_round waits s ns (u64 (lba + offset)) count in
        let* (rest, s) := read_loop fuel waits s ns lba blks (u64 (offset + count)) in
        Ok (bytes ++ rest, s)
  end.

(** The number of blocks and the bytes stored. *)
Definition nvme_read (fuel waits : nat) s (ns : nvme_namespace) (lba blks : Z) : outcome (Z * list Z * nvme H) :=
  let* (bytes, s) := read_loop fuel waits s ns lba blks 0 in
  Ok (blks, bytes, s).

(** [ns] is what the disk of the file's device belongs to. *)
Definition nvme_file_read (fuel waits : nat) s (ns : option nvme_namespace) (pos length : Z) : outcome (ret * list Z * nvme H) :=
  match ns with
  | None => Ok (RErr ENODEV, [], s)
  | Some ns =>
      if block_size ns =? 0 then Fault
      else
        let lba := u64 pos / block_size ns in
        let blks := length / block_size ns in
        let* (n, bytes, s) := nvme_read fuel waits s ns lba blks in
        Ok (RVal (s64 (n * block_size ns)), bytes, s)
  end.

Definition nvme_file_write : ret := RErr ENOTSUP.
Definition nvme_ioctl : ret := RErr EINVAL.

Definition nvme_read_blocks (fuel waits : nat) s (ns : nvme_namespace) (blks b_offset : Z) : outcome (Z * list Z * nvme H) :=
  nvme_read fuel waits s ns (u64 b_offset) blks.

(** ** Namespaces *)

(** [disk_scan] of disk.c: the first 4096 bytes, as [vfs_read] gets them from
    [nvme_file_read], are searched for partitions.  [old] is what the buffer
    held where the read does not reach. *)
Definition disk_scan (fuel waits gpt_fuel : nat) s (ns : nvme_namespace) (old : list Z) : outcome (disk * nvme H) :=
  let* (_, bytes, s) := nvme_file_read fuel waits s (Some ns) 0 0x1000 in
  let* d := disk_parse_gpt gpt_fuel (ns_disk ns) (bytes ++ drop (length bytes) old) in
  Ok (d, s).

Definition nvme_namespace_register (fuel waits gpt_fuel : nat) s (k : K) (ns : Z) (old : list Z) : outcome (nvme_namespace * nvme H * K) :=
  let* (_, page, k) := dma_alloc k in
  let* (_, s) := nvme_submit_admin_await waits s (identify_cmd ns 0 page) in
  let* flbas := load (nv_mem s) page (offset_of nvme_identify_namespace "flbas") 1 in
  let flba := Z.land (raw_of flbas) 0xF in
  let* shift := load (nv_mem s) page (offset_of nvme_identify_namespace "lbaf" + 4 * flba + offset_of nvme_lbaf "lba_data_size") 1 in
  let lba_shift := raw_of shift in
  let* (dma_virt, dma_phys, k) := dma_alloc k in
  let disk := disk_create (make_dev 4 (u32 ((ns - 1) * 128))) in
  (* a shift of an int by 32 or more is undefined, one by 31 is negative *)
  if 31 <? lba_shift then Fault
  else
    let bsize := u64 (s32 (Z.shiftl 1 lba_shift)) in
    let* nsze := load (nv_mem s) page (offset_of nvme_identify_namespace "nsze") 8 in
    let disk := mk_disk (dk_dev disk) bsize (raw_of nsze) (dk_partitions disk) (dk_partcount disk) in
    let nvme_ns := mk_namespace ns page disk dma_virt dma_phys bsize (raw_of nsze) in
    let* (disk, s) := disk_scan fuel waits gpt_fuel s nvme_ns old in
    Ok (mk_namespace ns page disk dma_virt dma_phys bsize (raw_of nsze), s, k).

(** The loop over the identifiers; [i] counts up to [num_namespaces]. *)
Fixpoint register_loop (fuel waits gpt_fuel n : nat) s (k : K) (page i : Z) (old : list Z) : outcome (list nvme_namespace * nvme H * K) :=
  match n with
  | O => Ok ([], s, k)
  | S n =>
      let* id := load (nv_mem s) page (4 * i) 4 in
      let* (found, s, k) :=
        if raw_of id =? 0 then Ok ([], s, k)
        else let* (ns, s, k) := nvme_namespace_register fuel waits gpt_fuel s k (raw_of id) old in Ok ([ns], s, k) in
      let* (rest, s, k) := register_loop fuel waits gpt_fuel n s k page (i + 1) old in
      Ok (found ++ rest, s, k)
  end.

Definition nvme_namespaces_identify (fuel waits gpt_fuel : nat) s (k : K) (old : list Z) : outcome (list nvme_namespace * nvme H * K) :=
  let* (_, page, k) := dma_alloc k in
  let* (_, s) := nvme_submit_admin_await waits s (identify_cmd 0 2 page) in
  let* n := load (nv_mem s) (identify (nv_dev s)) (offset_of nvme_identify_controller "num_namespaces") 4 in
  register_loop fuel waits gpt_fuel (Z.to_nat (raw_of n)) s k page 0 old.

(** The controller's part of [nvme_controller_init]: the namespaces found, or
    nothing for a device without MSI-X.  The registration of the controller's
    own device node is left out. *)
Definition nvme_controller_init (fuel waits gpt_fuel : nat) (p : pci C K) s (pdev : pcie_device) (old : list Z)
    : outcome (option (list nvme_namespace) * pci C K * nvme H) :=
  let pcie_reg1 := pcie_read32 p pdev 0x4 in
  let pcie_reg1 := Z.lor pcie_reg1 (Z.land (Z.lor 0x400 (Z.lor 0x4 0x2)) (u32 (Z.lnot 0x1))) in
  let p := pcie_write32 p pdev 0x4 pcie_reg1 in
  let* (bar0, p) := pcie_get_bar p pdev 0 in
  let* (msix, pdev, p) := pcie_enable_msix fuel p pdev in
  if negb msix then Ok (None, p, s)
  else
    let* s := nvme_controller_reset waits s in
    let* (s, k) := nvme_admin_queue_init s (pc_space p) in
    let* s := nvme_controller_start waits s in
    let* (s, k) := nvme_controller_identify waits s k in
    let* (s, k) := nvme_io_queue_init waits s k in
    let* (found, s, k) := nvme_namespaces_identify fuel waits gpt_fuel s k old in
    Ok (Some found, set_space k p, s).
End driver.

(** ** Pages *)

Lemma store_ok m phys off bytes page : m !! phys = Some page -> 0 <= off -> off + zlen bytes <= zlen page ->
  store m phys off bytes = Ok (<[phys := take (Z.to_nat off) page ++ bytes ++ drop (Z.to_nat off + length bytes) page]> m).
Proof.
  intros Hp Ho Hl. unfold store. rewrite Hp. cbn [deref outcome_bind].
  destruct (Z.leb_spec 0 off); [|lia]. destruct (Z.leb_spec (off + zlen bytes) (zlen page)); [done|lia].
Qed.

Lemma splice_size (off : Z) (bytes page : list Z) : 0 <= off -> off + zlen bytes <= zlen page ->
  length (take (Z.to_nat off) page ++ bytes ++ drop (Z.to_nat off + length bytes) page) = length page.
Proof. intros Ho Hl. unfold zlen in Hl. rewrite !length_app, length_take, length_drop. lia. Qed.

Lemma splice_read (off : Z) (bytes page : list Z) : 0 <= off -> off + zlen bytes <= zlen page ->
  rdbytes (take (Z.to_nat off) page ++ bytes ++ drop (Z.to_nat off + length bytes) page) off (zlen bytes) = Ok bytes.
Proof.
  intros Ho Hl. unfold rdbytes. assert (zlen (take (Z.to_nat off) page ++ bytes ++ drop (Z.to_nat off + length bytes) page) = zlen page) as ->
    by (unfold zlen; by rewrite splice_size). pose proof (zlen_nonneg bytes).
  destruct (Z.leb_spec 0 off), (Z.leb_spec 0 (zlen bytes)), (Z.leb_spec (off + zlen bytes) (zlen page)); try lia. cbn [andb].
  rewrite drop_app_length' by (rewrite length_take; unfold zlen in Hl; lia). by rewrite take_app_length' by (unfold zlen; lia).
Qed.

Lemma rdbytes_in page off len : 0 <= off -> 0 <= len -> off + len <= zlen page ->
  rdbytes page off len = Ok (take (Z.to_nat len) (drop (Z.to_nat off) page)).
Proof.
  intros H1 H2 H3. unfold rdbytes. destruct (Z.leb_spec 0 off), (Z.leb_spec 0 len), (Z.leb_spec (off + len) (zlen page)); try lia. done.
Qed.

(** The phase tag of the [j]th entry of a completion queue. *)
Definition tag (page : list Z) (j : Z) : Z := get_member nvme_completion 0 (raw_of (take 16 (drop (Z.to_nat (16 * j)) page))) "phase_tag".

(** A completion queue after an entry was posted. *)
Definition posted (page : list Z) (j : Z) (entry : list Z) : list Z :=
  take (Z.to_nat (16 * j)) page ++ entry ++ drop (Z.to_nat (16 * j) + length entry) page.

Lemma posted_size page j entry : length page = 4096%nat -> length entry = 16%nat -> 0 <= j < 64 -> length (posted page j entry) = 4096%nat.
Proof. intros Hp He Hj. unfold posted. rewrite splice_size; [done|lia|]. unfold zlen. rewrite Hp, He. lia. Qed.

Lemma tag_posted page j entry : length page = 4096%nat -> length entry = 16%nat -> 0 <= j < 64 ->
  tag (posted page j entry) j = get_member nvme_completion 0 (raw_of entry) "phase_tag".
Proof.
  intros Hp He Hj. unfold tag. do 2 f_equal. unfold posted. rewrite drop_app_length' by (rewrite length_take; lia). by rewrite <- He, take_app_length.
Qed.

Lemma tag_later page j entry i : length page = 4096%nat -> length entry = 16%nat -> 0 <= j < i -> i < 64 ->
  tag (posted page j entry) i = tag page i.
Proof.
  intros Hp He Hj Hi. unfold tag, posted. do 3 f_equal. rewrite app_assoc, drop_app_ge by (rewrite length_app, length_take; lia).
  rewrite drop_drop. f_equal. rewrite length_app, length_take. lia.
Qed.

Lemma completion_tag (m : gmap Z (list Z)) phys page j : m !! phys = Some page -> length page = 4096%nat -> 0 <= j < 64 ->
  exists c, completion_at m phys (j * 16) = Ok c /\ get_member nvme_completion 0 c "phase_tag" = tag page j.
Proof.
  intros Hm Hp Hj. unfold completion_at, load. rewrite Hm. cbn [deref outcome_bind].
  rewrite rdbytes_in by (unfold zlen; lia). cbn [outcome_bind]. eexists. split; [reflexivity|]. unfold tag. by rewrite (Z.mul_comm j).
Qed.

(** ** Waiting *)

Section waiting.
Context {H : Type} {NC : NvmeController H}.

(** The controller at work for [n] looks. *)
Fixpoint run (n : nat) (h : H) (m : gmap Z (list Z)) : H * gmap Z (list Z) :=
  match n with O => (h, m) | S n => let '(h, m) := nc_run h m in run n h m end.

Lemma await_spec n : forall fuel (s : nvme H) phys j, (n < fuel)%nat -> 0 <= j < 64 ->
  (forall i, (i < n)%nat -> exists page, (run i (nv_hw s) (nv_mem s)).2 !! phys = Some page /\ length page = 4096%nat /\ tag page j = 0) ->
  (exists page, (run n (nv_hw s) (nv_mem s)).2 !! phys = Some page /\ length page = 4096%nat /\ tag page j = 1) ->
  await fuel s phys (j * 16) = Ok (mk_nvme (run n (nv_hw s) (nv_mem s)).1 (run n (nv_hw s) (nv_mem s)).2 (nv_dev s)).
Proof.
  induction n as [|n IH]; intros fuel s phys j Hf Hj Hbefore Hnow; (destruct fuel as [|fuel]; [lia|]); cbn [await].
  - destruct Hnow as (page & Hp & Hl & Ht). cbn [run fst snd] in Hp. destruct (completion_tag (nv_mem s) phys page j Hp Hl Hj) as (c & -> & Hc).
    cbn [outcome_bind]. rewrite Hc, Ht. cbn [run fst snd]. by destruct s.
  - destruct (Hbefore 0%nat ltac:(lia)) as (page & Hp & Hl & Ht). cbn [run fst snd] in Hp.
    destruct (completion_tag (nv_mem s) phys page j Hp Hl Hj) as (c & -> & Hc). cbn [outcome_bind]. rewrite Hc, Ht. change (0 =? 1) with false. cbv iota.
    cbn [run] in Hnow. cbn [run]. destruct (nc_run (nv_hw s) (nv_mem s)) as [h1 m1] eqn:E.
    rewrite (IH fuel (mk_nvme h1 m1 (nv_dev s)) phys j); [done|lia|done| |done].
    intros i Hi. specialize (Hbefore (S i) ltac:(lia)). cbn [run] in Hbefore. by rewrite E in Hbefore.
Qed.
End waiting.

(** ** Reading blocks *)

Section reading.
Context {H : Type} {NC : NvmeController H}.

(** What the specification of the controller says of the read command, for a
    namespace with blocks of [bs] bytes and I/O queues at [sqp] and [cqp].
    [idle h i j ph]: the controller waits for the doorbell, will fetch entry
    [i] and post to entry [j] with phase tag [ph].  After the doorbell, and
    some time, the blocks are in the page the command names, and then the
    completion is posted; nothing else is written. *)
Record reads_blocks (sector : Z -> list Z) (bs ns stride sqp cqp : Z) (idle : H -> Z -> Z -> Z -> Prop) : Prop := {
  rb_sector : forall b, zlen (sector b) = bs;
  rb_read : forall h m i j ph prp lba nlb page cq,
    idle h i j ph -> 0 <= i < 64 -> 0 <= j < 64 -> 0 <= lba < 2 ^ 64 -> 0 <= nlb < 2 ^ 16 -> 0 <= prp < 2 ^ 64 ->
    load m sqp (i * 64) 64 = Ok (bytes_of 64 (read_cmd ns prp lba nlb)) ->
    m !! prp = Some page -> length page = 4096%nat -> (nlb + 1) * bs <= 4096 -> m !! cqp = Some cq -> length cq = 4096%nat ->
    prp <> sqp -> prp <> cqp -> sqp <> cqp ->
    let h1 := nc_write h (doorbell + 2 * Z.shiftl 4 stride) ((i + 1) mod 64) in
    exists n entry data, (forall k, (k < n)%nat -> (run k h1 m).2 !! cqp = Some cq) /\
      data = pread_blocks sector (Z.to_nat (nlb + 1)) lba /\
      (run n h1 m).2 = <[cqp := posted cq j entry]> (<[prp := data ++ drop (length data) page]> m) /\
      length entry = 16%nat /\ get_member nvme_completion 0 (raw_of entry) "phase_tag" = ph /\
      idle (nc_write (run n h1 m).1 (doorbell + 3 * Z.shiftl 4 stride) ((j + 1) mod 64)) ((i + 1) mod 64) ((j + 1) mod 64)
        (if j =? 63 then 1 - ph else ph);
}.

Context (sector : Z -> list Z) (ns : nvme_namespace) (stride sqp cqp : Z) (idle : H -> Z -> Z -> Z -> Prop).
Hypothesis law : reads_blocks sector (block_size ns) (nsid ns) stride sqp cqp idle.
Hypothesis pages_distinct : 0 <= dma_page_phys ns < 2 ^ 64 /\ dma_page_phys ns <> sqp /\ dma_page_phys ns <> cqp /\ sqp <> cqp.
Hypothesis size_ok : 0 < block_size ns /\ block_size ns <= 4096 /\ 4096 mod block_size ns = 0.

(** The driver's side, [used] completions after the queues were made. *)
Record io_ready (s : nvme H) (i used : Z) : Prop := {
  ir_sq : exists v, io_sq (nv_dev s) = mk_queue v sqp 64 i 64;
  ir_cq : exists v, io_cq (nv_dev s) = mk_queue v cqp 64 (used mod 64) 16;
  ir_stride : doorbell_stride (nv_dev s) = stride;
  ir_i : 0 <= i < 64;
  ir_used : 0 <= used <= 64;
  ir_sqp : exists page, nv_mem s !! sqp = Some page /\ length page = 4096%nat;
  ir_dma : exists page, nv_mem s !! dma_page_phys ns = Some page /\ length page = 4096%nat;
  ir_idle : used < 64 -> idle (nv_hw s) i used 1;
  ir_cqp : exists cq, nv_mem s !! cqp = Some cq /\ length cq = 4096%nat /\ forall j, used <= j < 64 -> tag cq j = 0;
}.

Lemma allocate_64 q v phys t e : q = mk_queue v phys 64 t e -> 0 <= t < 64 ->
  nvme_queue_allocate q = (t * e, mk_queue v phys 64 ((t + 1) mod 64) e).
Proof. intros -> Ht. unfold nvme_queue_allocate. cbn [q_tail q_entry_size q_address q_phys_address q_size]. by rewrite u32_small by lia. Qed.

Lemma pread_length n : forall lba, zlen (pread_blocks sector n lba) = Z.of_nat n * block_size ns.
Proof.
  intros lba. unfold pread_blocks. generalize 0%nat. induction n as [|n IH]; intros z; [done|]. cbn [seq map concat].
  rewrite zlen_app, (rb_sector _ _ _ _ _ _ _ law), IH. lia.
Qed.

(** One round reads its blocks. *)
Lemma read_round_spec s i used lba count : io_ready s i used -> used < 64 -> 0 <= lba < 2 ^ 64 -> 0 < count -> count * block_size ns <= 4096 ->
  exists w s', (forall waits, (w <= waits)%nat -> read_round waits s ns lba count = Ok (pread_blocks sector (Z.to_nat count) lba, s')) /\
    io_ready s' ((i + 1) mod 64) (used + 1).
Proof.
  intros [(v1 & Hsq) (v2 & Hcq) Hst Hi Hu (sqpage & Hsqp & Hsql) (page & Hdma & Hpl) Hidle (cq & Hcqp & Hcql & Htags)] Hlt Hlba Hcount Hfit.
  destruct pages_distinct as (D0 & D1 & D2 & D3). destruct size_ok as (B1 & B2 & B3). assert (count <= 4096) as Hc4 by nia.
  set (cmd := bytes_of 64 (read_cmd (nsid ns) (dma_page_phys ns) lba (u16 (count - 1)))).
  assert (zlen cmd = 64) as Hcl by (unfold zlen, cmd; by rewrite bytes_of_length).
  set (sqpage' := take (Z.to_nat (i * 64)) sqpage ++ cmd ++ drop (Z.to_nat (i * 64) + length cmd) sqpage).
  assert (store (nv_mem s) sqp (i * 64) cmd = Ok (<[sqp := sqpage']> (nv_mem s))) as Hstore
    by (apply store_ok; [done|lia|unfold zlen in *; lia]).
  set (m1 := <[sqp := sqpage']> (nv_mem s)) in *. set (h1 := nc_write (nv_hw s) (doorbell + 2 * Z.shiftl 4 stride) ((i + 1) mod 64)).
  rewrite Z.mod_small in Hcq by lia.
  destruct (rb_read _ _ _ _ _ _ _ law (nv_hw s) m1 i used 1 (dma_page_phys ns) lba (count - 1) page cq) as (n & entry & data & Hbefore & Hdata & Hm2 & He & Htag & Hnext);
    try done; try lia; try (by apply Hidle).
  { unfold load, m1. rewrite lookup_insert_eq. cbn [deref outcome_bind]. replace (count - 1) with (u16 (count - 1)) by (apply u16_small; lia).
    fold cmd. rewrite <- Hcl. apply splice_read; [lia|unfold zlen in *; lia]. }
  { unfold m1. by rewrite lookup_insert_ne. }
  { unfold m1. by rewrite lookup_insert_ne. }
  replace (count - 1 + 1) with count in Hdata by lia. fold h1 in Hbefore, Hm2, Hnext.
  exists (S n). eexists. split.
  - intros waits Hw. unfold read_round. rewrite (allocate_64 _ v1 sqp i 64 Hsq Hi). cbn [q_phys_address]. fold cmd. rewrite Hstore. cbn [outcome_bind].
    rewrite (allocate_64 _ v2 cqp used 16 Hcq) by lia. cbn [nv_dev nv_mem set_dev set_nvmem q_tail q_phys_address].
    set (dev' := set_io _ _ (nv_dev s)). assert (doorbell_stride dev' = stride) as Hst' by exact Hst. rewrite Hst'.
    assert (nvme_write32 (set_nvmem m1 (set_dev dev' s)) (doorbell + 2 * Z.shiftl 4 stride) ((i + 1) mod 64) = mk_nvme h1 m1 dev') as ->.
    { unfold nvme_write32. rewrite (u32_small ((i + 1) mod 64)) by (pose proof (Z.mod_pos_bound (i + 1) 64); lia). done. }
    rewrite (await_spec n).
    + cbn [outcome_bind nv_hw nv_mem nv_dev]. rewrite Hm2. unfold load. rewrite lookup_insert_ne, lookup_insert_eq by done. cbn [deref outcome_bind].
      assert (zlen data = count * block_size ns) as Hdl by (rewrite Hdata, pread_length; lia).
      replace (count * block_size ns) with (zlen data). rewrite rdbytes_front. cbn [outcome_bind]. rewrite <- Hdata. cbn [nv_dev]. rewrite Hst'. reflexivity.
    + lia.
    + lia.
    + intros k Hk. exists cq. cbn [nv_hw nv_mem]. rewrite Hbefore by done. split; [done|]. split; [done|]. apply Htags. lia.
    + exists (posted cq used entry). cbn [nv_hw nv_mem]. rewrite Hm2, lookup_insert_eq. split; [done|]. split; [apply posted_size; (done || lia)|]. by rewrite tag_posted by (done || lia).
  - pose proof (Z.mod_pos_bound (i + 1) 64) as Hb. pose proof (Z.mod_pos_bound (used + 1) 64) as Hb2.
    split; unfold nvme_write32; cbn [set_hw nv_dev nv_hw nv_mem set_io io_sq io_cq doorbell_stride]; try lia; try done.
    + by exists v1.
    + by exists v2.
    + rewrite lookup_insert_ne, lookup_insert_ne by done. unfold m1. rewrite lookup_insert_eq. exists sqpage'. split; [done|].
      unfold sqpage'. rewrite splice_size; [done|lia|unfold zlen in *; lia].
    + rewrite lookup_insert_ne, lookup_insert_eq by done. eexists. split; [reflexivity|]. rewrite length_app, length_drop.
      assert (zlen data = count * block_size ns) by (rewrite Hdata, pread_length; lia). unfold zlen in *. lia.
    + intros Hu1. rewrite (u32_small ((used + 1) mod 64)) by lia. destruct (Z.eqb_spec used 63); [lia|]. by rewrite (Z.mod_small (used + 1)) in * by lia.
    + exists (posted cq used entry). rewrite lookup_insert_eq. split; [done|]. split; [apply posted_size; (done || lia)|].
      intros j Hj. rewrite tag_later by (done || lia). apply Htags. lia.
Qed.

Definition per_page : Z := 0x1000 / block_size ns.
Definition rounds (n : Z) : Z := (n + per_page - 1) / per_page.

Lemma per_page_range : 1 <= per_page <= 4096 /\ per_page * block_size ns = 4096.
Proof.
  destruct size_ok as (B1 & B2 & B3). assert (per_page * block_size ns = 4096) as E.
  { unfold per_page. change 0x1000 with 4096. pose proof (Z.div_mod 4096 (block_size ns)). lia. }
  split; [|done]. nia.
Qed.

Lemma rounds_step n : 0 < n -> rounds n = 1 + rounds (n - Z.min n per_page) /\ (n <= per_page -> rounds (n - Z.min n per_page) = 0).
Proof.
  intros Hn. destruct per_page_range as [Hp _]. unfold rounds. destruct (Z.le_gt_cases n per_page).
  - rewrite Z.min_l by lia. replace (n - n + per_page - 1) with (per_page - 1) by lia. rewrite (Z.div_small (per_page - 1)) by lia.
    split; [|done]. symmetry. apply (Z.div_unique _ _ _ (n - 1)); lia.
  - rewrite Z.min_r by lia. split; [|lia]. replace (n + per_page - 1) with (n - per_page + per_page - 1 + 1 * per_page) by lia. rewrite Z.div_add by lia. lia.
Qed.

Lemma rounds_nonneg n : 0 <= n -> 0 <= rounds n.
Proof. intros Hn. destruct per_page_range. unfold rounds. apply Z.div_pos; lia. Qed.

Lemma pread_app a b o : pread_blocks sector (a + b) o = pread_blocks sector a o ++ pread_blocks sector b (o + Z.of_nat a).
Proof.
  unfold pread_blocks. rewrite seq_app, map_app, concat_app. f_equal. f_equal. cbn [Nat.add].
  assert (seq a b = map (Nat.add a) (seq 0 b)) as -> by (rewrite <- (Nat.add_0_r a) at 1; by rewrite <- fmap_add_seq).
  rewrite map_map. apply map_ext. intros j. f_equal. lia.
Qed.

Lemma nvme_loop_spec lba blks n : forall s i used offset, io_ready s i used -> 0 <= lba -> lba + blks < 2 ^ 64 -> 0 <= offset <= blks -> blks < 2 ^ 16 ->
  rounds (blks - offset) = Z.of_nat n -> used + Z.of_nat n <= 64 ->
  exists w s' i', (forall fuel waits, (n <= fuel)%nat -> (w <= waits)%nat ->
    read_loop fuel waits s ns lba blks offset = Ok (pread_blocks sector (Z.to_nat (blks - offset)) (lba + offset), s')) /\
    io_ready s' i' (used + Z.of_nat n).
Proof.
  destruct per_page_range as [Hp Hpe]. destruct size_ok as (B1 & B2 & B3).
  induction n as [|n IH]; intros s i used offset R Hlba Hend Hoff Hb Hn Hu; destruct (Z.eq_dec offset blks) as [->|Hne].
  - exists 0%nat, s, i. rewrite Z.add_0_r, Z.sub_diag. split; [|done]. intros fuel waits _ _. destruct fuel; cbn [read_loop]; by rewrite Z.leb_refl.
  - destruct (rounds_step (blks - offset)) as [E _]; [lia|]. pose proof (rounds_nonneg (blks - offset - Z.min (blks - offset) per_page) ltac:(lia)). lia.
  - rewrite Z.sub_diag in Hn. assert (rounds 0 = 0) as E0 by (unfold rounds; apply Z.div_small; lia). lia.
  - destruct (rounds_step (blks - offset)) as [E _]; [lia|]. set (count := Z.min (blks - offset) per_page) in *.
    destruct (read_round_spec s i used (lba + offset) count R) as (w1 & s1 & H1 & R1); [lia|lia|lia|nia|].
    replace (blks - offset - count) with (blks - (offset + count)) in * by lia.
    destruct (IH s1 ((i + 1) mod 64) (used + 1) (offset + count) R1) as (w2 & s2 & i2 & H2 & R2); try lia.
    exists (Nat.max w1 w2), s2, i2. split; [|by replace (used + Z.of_nat (S n)) with (used + 1 + Z.of_nat n) by lia].
    intros fuel waits Hf Hw. destruct fuel as [|fuel]; [lia|]. cbn [read_loop]. destruct (Z.leb_spec blks offset); [lia|].
    destruct (Z.eqb_spec (block_size ns) 0); [lia|].
    rewrite (u16_small (blks - offset)) by lia. fold per_page. rewrite (u16_small per_page) by lia.
    replace (if per_page <? blks - offset then per_page else blks - offset) with count by (unfold count; destruct (Z.ltb_spec per_page (blks - offset)); lia).
    rewrite (u64_small (lba + offset)), (u64_small (offset + count)) by lia. rewrite H1 by lia. cbn [outcome_bind]. rewrite H2 by lia. cbn [outcome_bind].
    f_equal. f_equal. replace (Z.to_nat (blks - offset)) with (Z.to_nat count + Z.to_nat (blks - (offset + count)))%nat by lia.
    rewrite pread_app. f_equal. f_equal. lia.
Qed.
End reading.

Lemma nvme_read_spec {H : Type} {NC : NvmeController H} (sector : Z -> list Z) ns stride sqp cqp (idle : H -> Z -> Z -> Z -> Prop) s i used lba blks :
  reads_blocks sector (block_size ns) (nsid ns) stride sqp cqp idle ->
  0 <= dma_page_phys ns < 2 ^ 64 /\ dma_page_phys ns <> sqp /\ dma_page_phys ns <> cqp /\ sqp <> cqp ->
  0 < block_size ns /\ block_size ns <= 4096 /\ 4096 mod block_size ns = 0 ->
  io_ready ns stride sqp cqp idle s i used -> 0 <= lba -> lba + blks < 2 ^ 64 -> 0 <= blks < 2 ^ 16 -> used + rounds ns blks <= 64 ->
  exists w s' i', (forall fuel waits, rounds ns blks <= Z.of_nat fuel -> (w <= waits)%nat ->
    nvme_read fuel waits s ns lba blks = Ok (blks, pread_blocks sector (Z.to_nat blks) lba, s')) /\
    io_ready ns stride sqp cqp idle s' i' (used + rounds ns blks).
Proof.
  intros law Hd Hs R Hlba Hend Hb Hu. assert (0 <= rounds ns blks) as Hr0 by (eapply rounds_nonneg; eauto; lia).
  destruct (nvme_loop_spec sector ns stride sqp cqp idle law Hd Hs lba blks (Z.to_nat (rounds ns blks)) s i used 0) as (w & s' & i' & Hr & R');
    rewrite ?Z.sub_0_r, ?Z2Nat.id; try done; try lia.
  rewrite Z.sub_0_r, Z.add_0_r in Hr. rewrite Z2Nat.id in R' by done. exists w, s', i'. split; [|done].
  intros fuel waits Hf Hw. unfold nvme_read. by rewrite Hr by lia.
Qed.


(** ** Where reading fails *)

Section failures.
Context {H : Type} {NC : NvmeController H}.

(** The completion queue has gone round: the entry that is next still has the
    tag of its last use, which is taken for the new completion.  Whatever
    block is asked for, the buffer gets what the page held before the
    command was carried out. *)
Theorem nvme_stale_read (s : nvme H) (ns : nvme_namespace) lba v1 sqp i v2 cqp j sqpage cq page :
  io_sq (nv_dev s) = mk_queue v1 sqp 64 i 64 -> 0 <= i < 64 -> io_cq (nv_dev s) = mk_queue v2 cqp 64 j 16 -> 0 <= j < 64 ->
  nv_mem s !! sqp = Some sqpage -> length sqpage = 4096%nat -> nv_mem s !! cqp = Some cq -> length cq = 4096%nat ->
  nv_mem s !! dma_page_phys ns = Some page -> length page = 4096%nat -> dma_page_phys ns <> sqp -> cqp <> sqp ->
  0 < block_size ns <= 4096 -> tag cq j = 1 ->
  exists s', nvme_read 1 1 s ns lba 1 = Ok (1, take (Z.to_nat (block_size ns)) page, s').
Proof.
  intros Hsq Hi Hcq Hj Hsp Hsl Hcp Hcl Hp Hl D1 D2 Hb Ht.
  assert (1 <= 0x1000 / block_size ns) as Hpp by (apply Z.div_le_lower_bound; lia).
  unfold nvme_read. cbn [read_loop]. change (1 <=? 0) with false. cbv iota. destruct (Z.eqb_spec (block_size ns) 0); [lia|].
  change (u16 (1 - 0)) with 1. destruct (Z.ltb_spec (0x1000 / block_size ns) 1); [lia|]. change (u64 (0 + 1)) with 1. rewrite Z.leb_refl.
  unfold read_round. rewrite (allocate_64 _ v1 sqp i 64 Hsq Hi). cbn [q_phys_address]. set (cmd := bytes_of 64 _).
  assert (zlen cmd = 64) as Hc by (unfold zlen, cmd; by rewrite bytes_of_length).
  rewrite (store_ok _ sqp (i * 64) cmd sqpage) by (done || (unfold zlen in *; lia)). cbn [outcome_bind].
  rewrite (allocate_64 _ v2 cqp j 16 Hcq Hj). cbn [q_phys_address q_tail await].
  set (m1 := <[sqp := _]> (nv_mem s)). unfold nvme_write32 at 1. cbn [set_hw set_nvmem set_dev nv_mem nv_dev nv_hw].
  destruct (completion_tag m1 cqp cq j) as (c & -> & Htag); [unfold m1; by rewrite lookup_insert_ne|done|done|]. cbn [outcome_bind].
  rewrite Htag, Ht, Z.eqb_refl. cbn [outcome_bind]. unfold load, nvme_write32. cbn [set_hw set_nvmem set_dev nv_mem nv_dev nv_hw].
  unfold m1. rewrite lookup_insert_ne, Hp by done. cbn [deref outcome_bind]. rewrite rdbytes_in by (unfold zlen; lia). cbn [outcome_bind].
  eexists. rewrite app_nil_r, Z.mul_1_l. change (Z.to_nat 0) with 0%nat. rewrite drop_0. reflexivity.
Qed.

(** The count of a round is cut to 16 bits before it is compared, so that 65536
    blocks are always left: the loop ends for no number of rounds. *)
Lemma read_loop_endless ns lba blks waits fuel : 0 < block_size ns -> blks < 2 ^ 64 -> forall (s : nvme H) offset r, 65536 <= blks - offset -> 0 <= offset ->
  read_loop fuel waits s ns lba blks offset <> Ok r.
Proof.
  intros Hbs Hb. induction fuel as [|fuel IH]; intros s offset r Hd Ho; cbn [read_loop]; (destruct (Z.leb_spec blks offset); [lia|]); [done|].
  destruct (block_size ns =? 0); [done|]. set (count := if _ <? _ then _ else _).
  assert (0 <= count <= u16 (blks - offset)) as Hc.
  { unfold count. pose proof (u16_range (blks - offset)). assert (0 <= 0x1000 / block_size ns) by (apply Z.div_pos; lia).
    destruct (Z.ltb_spec (0x1000 / block_size ns) (u16 (blks - offset))); [rewrite u16_small by lia|]; lia. }
  assert (u16 (blks - offset) <= blks - offset - 65536) as Hu.
  { unfold u16, wrap. pose proof (Z.div_mod (blks - offset) (2 ^ 16) ltac:(lia)). pose proof (Z.mod_pos_bound (blks - offset) (2 ^ 16) ltac:(lia)). nia. }
  destruct (read_round _ _ _ _ _) as [[bytes s1]| | |]; try done. cbn [outcome_bind]. rewrite (u64_small (offset + count)) by lia.
  destruct (read_loop fuel waits s1 ns lba blks (offset + count)) as [[rest s2]| | |] eqn:E; try done. by apply IH in E; [|lia|lia].
Qed.

Theorem nvme_large_read_diverges (s : nvme H) ns lba blks fuel waits r : 0 < block_size ns -> 65536 <= blks < 2 ^ 64 ->
  nvme_read fuel waits s ns lba blks <> Ok r.
Proof.
  intros Hbs Hb. unfold nvme_read. destruct (read_loop fuel waits s ns lba blks 0) as [x| | |] eqn:E; try done.
  exfalso. by apply (read_loop_endless ns lba blks waits fuel Hbs ltac:(lia) s 0 x) in E; [|lia|lia].
Qed.
End failures.

(** ** Finding the partitions *)

(** The scan of a disk parses its first blocks: nothing of what the buffer
    held before is left. *)
Lemma disk_scan_spec {H : Type} {NC : NvmeController H} (sector : Z -> list Z) ns stride sqp cqp (idle : H -> Z -> Z -> Z -> Prop) s i used old gpt_fuel :
  reads_blocks sector (block_size ns) (nsid ns) stride sqp cqp idle ->
  0 <= dma_page_phys ns < 2 ^ 64 /\ dma_page_phys ns <> sqp /\ dma_page_phys ns <> cqp /\ sqp <> cqp ->
  0 < block_size ns /\ block_size ns <= 4096 /\ 4096 mod block_size ns = 0 ->
  io_ready ns stride sqp cqp idle s i used -> used < 64 -> length old = 4096%nat ->
  exists w s' i', io_ready ns stride sqp cqp idle s' i' (used + 1) /\ forall waits, (w <= waits)%nat ->
    disk_scan 1 waits gpt_fuel s ns old =
      let* d := disk_parse_gpt gpt_fuel (ns_disk ns) (pread_blocks sector (Z.to_nat (4096 / block_size ns)) 0) in Ok (d, s').
Proof.
  intros law Hd Hs R Hu Hold. destruct Hs as (B1 & B2 & B3).
  assert (4096 / block_size ns * block_size ns = 4096) as Hpe by (pose proof (Z.div_mod 4096 (block_size ns)); lia).
  assert (rounds ns (4096 / block_size ns) = 1) as Hr.
  { unfold rounds, per_page. change 0x1000 with 4096. symmetry. apply (Z.div_unique _ _ _ (4096 / block_size ns - 1)); nia. }
  assert (1 <= 4096 / block_size ns <= 4096) as Hn by nia.
  destruct (nvme_read_spec sector ns stride sqp cqp idle s i used 0 (4096 / block_size ns)) as (w & s' & i' & Hread & R'); try done; try lia.
  rewrite Hr in *. exists w, s', i'. split; [done|]. intros waits Hw. unfold disk_scan, nvme_file_read.
  destruct (Z.eqb_spec (block_size ns) 0); [lia|]. change (u64 0) with 0. rewrite Z.div_0_l by lia. change 0x1000 with 4096.
  rewrite Hread by lia. cbn [outcome_bind]. rewrite drop_ge, app_nil_r; [done|].
  pose proof (pread_length sector ns stride sqp cqp idle law (Z.to_nat (4096 / block_size ns)) 0) as Hl. unfold zlen in Hl. lia.
Qed.

(** ** A disk for the examples *)

(** Block [b] of the disk is 512 times the byte [b mod 256]. *)
Definition striped (b : Z) : list Z := replicate 512 (b mod 256).

(** A controller with I/O queues at 4096 and 8192: it carries out the command
    at its head at the first look after the doorbell. *)
Record ssd := mk_ssd { sd_head : Z; sd_tail : Z; sd_phase : Z; sd_rung : bool }.

Definition ssd_run (h : ssd) (m : gmap Z (list Z)) : ssd * gmap Z (list Z) :=
  if sd_rung h then
    match load m 4096 (sd_head h * 64) 64, m !! 8192 with
    | Ok bytes, Some cq =>
        let cmd := raw_of bytes in
        let prp := get_member nvme_cmd 0 cmd "prp1" in
        let lba := get_member cmd_rw 320 cmd "lba" in
        let nlb := get_member cmd_rw 320 cmd "nlb" in
        let data := pread_blocks striped (Z.to_nat (nlb + 1)) lba in
        match m !! prp with
        | Some page =>
            (mk_ssd ((sd_head h + 1) mod 64) ((sd_tail h + 1) mod 64) (if sd_tail h =? 63 then 1 - sd_phase h else sd_phase h) false,
             <[8192 := posted cq (sd_tail h) (replicate 14 0 ++ [sd_phase h; 0])]> (<[prp := data ++ drop (length data) page]> m))
        | None => (h, m)
        end
    | _, _ => (h, m)
    end
  else (h, m).

#[export] Instance ssd_controller : NvmeController ssd := {|
  nc_read := fun h off => 0;
  nc_write := fun h off v => if off =? doorbell + 8 then mk_ssd (sd_head h) (sd_tail h) (sd_phase h) true else h;
  nc_run := ssd_run |}.

Definition ssd_idle (h : ssd) (i j ph : Z) : Prop := h = mk_ssd i j ph false /\ (ph = 0 \/ ph = 1).

(** Assigning a member that is still zero. *)
Lemma set_member_fresh l at_ name v raw o w : place l 0 name = Some (o, w) -> 0 <= at_ + o -> 0 <= w -> 0 <= raw < 2 ^ (at_ + o) -> 0 <= v < 2 ^ w ->
  set_member l at_ name v raw = raw + v * 2 ^ (at_ + o).
Proof. intros Hp Ho Hw Hr Hv. unfold set_member. rewrite Hp, (Z.div_small raw), Z.mod_0_l, (Z.mod_small v) by lia. lia. Qed.

(** The command as a number. *)
Lemma read_cmd_value ns prp lba nlb : 0 <= ns < 2 ^ 32 -> 0 <= prp < 2 ^ 64 -> 0 <= lba < 2 ^ 64 -> 0 <= nlb < 2 ^ 16 ->
  read_cmd ns prp lba nlb = 2 + ns * 2 ^ 32 + prp * 2 ^ 192 + lba * 2 ^ 320 + nlb * 2 ^ 384.
Proof.
  intros Hn Hp Hl Hb. unfold read_cmd, args_set, cmd_set, header_set.
  assert (set_member nvme_cmd_header 0 "opcode" (nvme_opcode NVME_OP_READ) 0 = 2) as -> by (vm_compute; reflexivity).
  change (8 * offset_of nvme_cmd "args") with 320.
  rewrite (set_member_fresh nvme_cmd 0 "nsid" ns 2 32 32) by (reflexivity || lia).
  rewrite (set_member_fresh nvme_cmd 0 "prp1" prp _ 192 64) by (reflexivity || lia).
  rewrite (set_member_fresh cmd_rw 320 "lba" lba _ 0 64) by (reflexivity || lia).
  rewrite (set_member_fresh cmd_rw 320 "nlb" nlb _ 64 16) by (reflexivity || lia). reflexivity.
Qed.

(** The controller reads back what the driver wrote. *)
Lemma read_cmd_decoded ns prp lba nlb : 0 <= ns < 2 ^ 32 -> 0 <= prp < 2 ^ 64 -> 0 <= lba < 2 ^ 64 -> 0 <= nlb < 2 ^ 16 ->
  let cmd := raw_of (bytes_of 64 (read_cmd ns prp lba nlb)) in
  get_member nvme_cmd 0 cmd "prp1" = prp /\ get_member cmd_rw 320 cmd "lba" = lba /\ get_member cmd_rw 320 cmd "nlb" = nlb.
Proof.
  intros Hn Hp Hl Hb cmd. assert (cmd = 2 + ns * 2 ^ 32 + prp * 2 ^ 192 + lba * 2 ^ 320 + nlb * 2 ^ 384) as E.
  { unfold cmd. rewrite read_cmd_value by done. apply raw_bytes. change (256 ^ Z.of_nat 64) with (2 ^ 512). lia. }
  unfold get_member. change (place nvme_cmd 0 "prp1") with (Some (192, 64)). change (place cmd_rw 0 "lba") with (Some (0, 64)).
  change (place cmd_rw 0 "nlb") with (Some (64, 16)). cbv iota. rewrite E. cbn [Z.add Pos.add Pos.succ Pos.add_carry].
  assert (forall q r k w, 0 <= r < 2 ^ k -> 0 <= k -> 0 <= w -> (r + q * 2 ^ k) / 2 ^ k mod 2 ^ w = q mod 2 ^ w) as Hpart.
  { intros q r k w Hr Hk Hw. by rewrite Z.div_add, (Z.div_small r), Z.add_0_l by lia. }
  split_and!.
  - replace (2 + ns * 2 ^ 32 + prp * 2 ^ 192 + lba * 2 ^ 320 + nlb * 2 ^ 384) with (2 + ns * 2 ^ 32 + (prp + (lba * 2 ^ 64 + nlb * 2 ^ 128) * 2 ^ 64) * 2 ^ 192) by lia.
    rewrite Hpart by lia. rewrite Z.mod_add by lia. apply Z.mod_small. lia.
  - replace (2 + ns * 2 ^ 32 + prp * 2 ^ 192 + lba * 2 ^ 320 + nlb * 2 ^ 384) with (2 + ns * 2 ^ 32 + prp * 2 ^ 192 + (lba + nlb * 2 ^ 64) * 2 ^ 320) by lia.
    rewrite Hpart by lia. rewrite Z.mod_add by lia. apply Z.mod_small. lia.
  - rewrite Hpart by lia. apply Z.mod_small. lia.
Qed.

Lemma ssd_reads : reads_blocks striped 512 1 0 4096 8192 ssd_idle.
Proof.
  split.
  - intros b. unfold zlen, striped. by rewrite length_replicate.
  - intros h m i j ph prp lba nlb page cq [-> Hph] Hi Hj Hlba Hnlb Hprp Hcmd Hpage Hpl Hfit Hcq Hcql D1 D2 D3 h1.
    exists 1%nat, (replicate 14 0 ++ [ph; 0]), (pread_blocks striped (Z.to_nat (nlb + 1)) lba).
    assert (h1 = mk_ssd i j ph true) as -> by reflexivity. destruct (read_cmd_decoded 1 prp lba nlb) as (E1 & E2 & E3); [lia..|].
    cbn [run]. change (nc_run (mk_ssd i j ph true) m) with (ssd_run (mk_ssd i j ph true) m). unfold ssd_run. cbn [sd_rung sd_head sd_tail sd_phase].
    rewrite Hcmd, Hcq, E1, E2, E3, Hpage. cbn [fst snd]. split_and!; try done.
    + intros k Hk. assert (k = 0%nat) as -> by lia. done.
    + by destruct Hph as [-> | ->].
    + split; [reflexivity|]. by destruct (j =? 63), Hph as [-> | ->]; [right|left|left|right].
Qed.

Definition blank_page : list Z := replicate (Z.to_nat 4096) 0.

Definition no_queue : nvme_queue := mk_queue 0 0 0 0 0.

(** The driver with its I/O queues made, and the page at 12288 for data. *)
Definition fresh_nvme : nvme ssd :=
  mk_nvme (mk_ssd 0 0 1 false) (<[4096 := blank_page]> (<[8192 := blank_page]> {[12288 := blank_page]}))
    (mk_nvme_device no_queue no_queue (mk_queue 0 4096 64 0 64) (mk_queue 0 8192 64 0 16) 0 0 0 12).

Definition sample_ns : nvme_namespace := mk_namespace 1 0 (disk_create 0) 0 12288 512 1000.

Lemma blank_page_length : length blank_page = 4096%nat.
Proof. apply length_replicate. Qed.

Lemma blank_tags j : 0 <= j < 64 -> tag blank_page j = 0.
Proof.
  intros Hj. assert (forallb (fun j => tag blank_page j =? 0) (seqZ 0 64) = true) as Hall by (vm_compute; reflexivity).
  rewrite forallb_forall in Hall. specialize (Hall j). rewrite <- list_elem_of_In, elem_of_seqZ in Hall. by apply Z.eqb_eq, Hall.
Qed.

Lemma fresh_ready : io_ready sample_ns 0 4096 8192 ssd_idle fresh_nvme 0 0.
Proof.
  split; try (by eexists); try done.
  - intros _. split; [done|by right].
  - exists blank_page. split; [done|]. split; [apply blank_page_length|]. intros j Hj. by apply blank_tags.
Qed.


(** Reading the same block [n] times. *)
Fixpoint read_often (n : nat) (s : nvme ssd) (lba : Z) : outcome (nvme ssd) :=
  match n with
  | O => Ok s
  | S n => let* (_, _, s) := nvme_read 1 2 s sample_ns lba 1 in read_often n s lba
  end.

(** After 64 reads of block 7, a read of block 9 gives block 7 again. *)
Lemma stale_block :
  match read_often 64 fresh_nvme 7 with
  | Ok s => match nvme_read 1 2 s sample_ns 9 1 with Ok (_, bytes, _) => bool_decide (bytes = striped 7) | _ => false end
  | _ => false
  end = true.
Proof. vm_compute. reflexivity. Qed.
