(* ===== verification/Userland.v ===== *)
(** * Small programs

    userspace/ls/main.c and userspace/ping/main.c, and userspace/cat/main.c.
    Formatting by the C library is left out: what [ls] prints is a list of
    items, what [ping] sends are the bytes of its packets.  [struct
    posix_dent] of the C library has the layout of the kernel's. *)

From stdpp Require Import base numbers list gmap sets.
From Stdlib Require Import ZArith Lia.
From S2P Require Import Prelude Sched Device Dcache Lookup Tree Vmm Vfs Wire Dhcp Shell.

(** ** ls *)

(** A line of [ls]: a name, or a name with what [stat] said of it. *)
Inductive item := Short (name : list Z) | Long (st : option stat) (name : list Z).

Section ls.
Context (dir : list Z) (show_hidden show_long : bool) (stat_of : list Z -> option stat).

Definition visible (name : list Z) : bool := negb (nth 0 name 0 =? 46) || show_hidden.

(** The path is put together in [pbuf[64]]; a failed [stat] leaves zeros. *)
Definition ls_item (name : list Z) : outcome item :=
  if show_long then
    let pbuf := dir ++ [47] ++ name in
    if 64 <=? zlen pbuf then Fault else Ok (Long (stat_of pbuf) name)
  else Ok (Short name).

(** [fuel] bounds the number of records. *)
Fixpoint ls_loop (fuel : nat) (buffer : list Z) (bpos read_count : Z) : outcome (list item) :=
  if read_count <=? bpos then Ok []
  else match fuel with
  | O => OutOfFuel
  | S fuel =>
      let name := cstr (drop (Z.to_nat (bpos + 19)) buffer) in
      let* shown := if visible name then let* i := ls_item name in Ok [i] else Ok [] in
      let* d_reclen := rd16 buffer (bpos + 16) in
      let* rest := ls_loop fuel buffer (bpos + d_reclen) read_count in
      Ok (shown ++ rest)
  end.

(** From the result of [posix_getdents] on: the exit status and the items. *)
Definition ls_print (read_count : ret) (buffer : list Z) : outcome (Z * list item) :=
  match read_count with
  | RErr _ => Ok (1, [])
  | RVal n =>
      if n <? 0 then Ok (1, []) else if n =? 0 then Ok (0, []) else let* items := ls_loop 1024 buffer 0 n in Ok (0, items)
  end.
End ls.

(** ** ping *)

(** [checksum] is a [uint32_t]. *)
Fixpoint icmp_sum (n : nat) (p : list Z) (checksum : Z) : outcome Z :=
  match n with
  | O => Ok checksum
  | S n =>
      match p with
      | lo :: hi :: p => icmp_sum n p (u32 (checksum + bswap16 (lo + 256 * hi)))
      | _ => Fault
      end
  end.

Definition icmp_checksum (payload : list Z) (len : Z) : outcome Z :=
  let* checksum := icmp_sum (Z.to_nat (len / 2)) payload 0 in
  let checksum := if 0xFFFF <? checksum then Z.shiftr checksum 16 + Z.land checksum 0xFFFF else checksum in
  Ok (Z.land (Z.lnot (Z.land checksum 0xFFFF)) 0xFFFF).

(** The echo request: type 8, code, checksum, id, sequence number and 56 bytes. *)
Definition icmp_packet (checksum seq : Z) : list Z := [8; 0] ++ le16 checksum ++ le16 0 ++ le16 seq ++ map Z.of_nat (List.seq 0 56).

(** The packet of a round of the main loop. *)
Definition ping_packet (seq : Z) : outcome (list Z) :=
  let* checksum := icmp_checksum (icmp_packet 0 (htons seq)) 64 in
  Ok (icmp_packet (htons checksum) (htons seq)).

(** ** cat *)

Definition cat_buffer_size : nat := Z.to_nat 0x1000.

(** What [cat] writes after a [read] that returned [bytes]: the whole buffer. *)
Definition cat_output (bytes : list Z) : list Z := poke 0 bytes (replicate cat_buffer_size 0).

(** ** Listing a directory *)

Section listing.
Context {D : Type}.
Implicit Types s : vfs D.

Definition name_of s (a : Z) : list Z := default [] (e_name <$> entries s !! a).

(** Taking two references and dropping one adds one. *)
Lemma getdents_step s c e b : entries s !! c = Some e -> refs_below s b -> b <= 2 ^ 32 - 2 ->
  exists s', (let* s := ventry_ref s c in let* s := ventry_ref s c in let* e := get_entry s c in let* s := ventry_put s c in Ok (e_name e, s)) = Ok (e_name e, s') /\
    refs_below s' (b + 1) /\ (forall a, name_of s' a = name_of s a) /\ (forall a, is_Some (entries s !! a) -> is_Some (entries s' !! a)).
Proof.
  intros He Hb Hlt. pose proof (Hb c e He) as Hr.
  unfold ventry_put, ventry_ref, get_entry. rewrite He. cbn [deref outcome_bind entries put_entry set_entries].
  rewrite !lookup_insert_eq. cbn [deref outcome_bind entries put_entry set_entries]. rewrite !lookup_insert_eq. cbn [deref outcome_bind set_e_ref e_ref e_node e_name].
  rewrite (u32_small (e_ref e + 1)), (u32_small (e_ref e + 1 + 1)) by lia.
  destruct (Z.ltb_spec 1 (e_ref e + 1 + 1)); [|lia]. cbn [negb andb]. cbn [outcome_bind]. eexists. split; [reflexivity|].
  unfold refs_below, name_of. cbn [entries put_entry set_entries]. rewrite !insert_insert_eq. split; [|split].
  - intros a e' Ha. destruct (decide (a = c)) as [->|].
    + rewrite lookup_insert_eq in Ha. injection Ha as <-. cbn [e_ref set_e_ref]. rewrite u32_small by lia. lia.
    + rewrite lookup_insert_ne in Ha by done. pose proof (Hb a e' Ha). lia.
  - intros a. destruct (decide (a = c)) as [->|]; [by rewrite lookup_insert_eq, He|by rewrite lookup_insert_ne].
  - intros a Ha. destruct (decide (a = c)) as [->|]; [rewrite lookup_insert_eq; by eexists|by rewrite lookup_insert_ne].
Qed.

Lemma dent_bytes_length name : zlen (dent_bytes name) = 20 + zlen name.
Proof. unfold dent_bytes. rewrite !zlen_app. change (zlen (replicate 16 0)) with 16. change (zlen [0]) with 1. rewrite !zlen_cons. change (zlen (@nil Z)) with 0. lia. Qed.

Lemma getdents_loop_spec cs len : forall s b out, (forall c, c ∈ cs -> is_Some (entries s !! c)) -> refs_below s b -> b + zlen cs <= 2 ^ 32 - 2 ->
  zlen out + zlen (concat (map dent_bytes (map (name_of s) cs))) <= len ->
  exists s', getdents_loop s cs len out = Ok (out ++ concat (map dent_bytes (map (name_of s) cs)), s').
Proof.
  induction cs as [|c cs IH]; intros s b out Hlive Hb Hn Hlen; [exists s; cbn; by rewrite app_nil_r|].
  cbn [map concat] in *. rewrite zlen_app, dent_bytes_length in Hlen. rewrite zlen_cons in Hn. pose proof (zlen_nonneg cs).
  pose proof (zlen_nonneg (name_of s c)). pose proof (zlen_nonneg (concat (map dent_bytes (map (name_of s) cs)))).
  cbn [getdents_loop]. destruct (Z.leb_spec len (zlen out)); [lia|].
  destruct (Hlive c ltac:(set_solver)) as [e He]. destruct (getdents_step s c e b He Hb) as (s' & E & Hb' & Hnm & Hl'); [lia|].
  assert (name_of s c = e_name e) as En by (unfold name_of; by rewrite He).
  destruct (ventry_ref s c) as [s1| | |]; try done. cbn [outcome_bind] in *. destruct (ventry_ref s1 c) as [s2| | |]; try done. cbn [outcome_bind] in *.
  destruct (get_entry s2 c) as [e2| | |]; try done. cbn [outcome_bind] in *. destruct (ventry_put s2 c) as [s3| | |]; try done. cbn [outcome_bind] in *.
  injection E as E <-. rewrite E, <- En.
  assert (map (name_of s3) cs = map (name_of s) cs) as Em by (apply map_ext; apply Hnm).
  destruct (IH s3 (b + 1) (out ++ dent_bytes (name_of s c))) as (s' & Es).
  - intros x Hx. apply Hl', Hlive. set_solver.
  - done.
  - lia.
  - rewrite zlen_app, dent_bytes_length, Em. lia.
  - exists s'. rewrite Es, Em, <- app_assoc. done.
Qed.

Lemma cstr_name name l : 0 ∉ name -> cstr (name ++ 0 :: l) = name.
Proof. intros H. apply cstr_word. apply Forall_forall. intros c Hc ->. done. Qed.

Section listed.
Context (dir : list Z) (show_hidden show_long : bool) (stat_of : list Z -> option stat).

Definition shown (name : list Z) : item := if show_long then Long (stat_of (dir ++ [47] ++ name)) name else Short name.

Lemma ls_loop_spec names : forall fuel pre rest, Forall (fun n => name_ok n /\ (show_long = true -> zlen (dir ++ [47] ++ n) < 64)) names ->
  (length names <= fuel)%nat ->
  ls_loop dir show_hidden show_long stat_of fuel (pre ++ concat (map dent_bytes names) ++ rest) (zlen pre) (zlen (pre ++ concat (map dent_bytes names))) =
  Ok (map shown (filter (fun n => visible show_hidden n = true) names)).
Proof.
  induction names as [|n names IH]; intros fuel pre rest Hok Hf.
  - cbn [map concat]. rewrite app_nil_r. by destruct fuel; cbn [ls_loop]; rewrite Z.leb_refl.
  - apply Forall_cons in Hok as [[[Hl Hz] Hp] Hok]. destruct fuel as [|fuel]; [cbn in Hf; lia|]. cbn [ls_loop map concat].
    pose proof (zlen_nonneg n). pose proof (zlen_nonneg (concat (map dent_bytes names))).
    rewrite zlen_app at 1. rewrite zlen_app, dent_bytes_length.
    destruct (Z.leb_spec (zlen pre + (20 + zlen n + zlen (concat (map dent_bytes names)))) (zlen pre)); [lia|].
    set (hdr := replicate 16 0 ++ [(19 + zlen n + 1) mod 256; (19 + zlen n + 1) / 256; 0]).
    assert (dent_bytes n = hdr ++ n ++ [0]) as Ed by (unfold dent_bytes, hdr; by rewrite <- app_assoc).
    assert (zlen hdr = 19) as Hh by done.
    assert (pre ++ (dent_bytes n ++ concat (map dent_bytes names)) ++ rest = (pre ++ hdr) ++ n ++ 0 :: (concat (map dent_bytes names) ++ rest)) as Eb.
    { rewrite Ed, <- !app_assoc. done. }
    assert (cstr (drop (Z.to_nat (zlen pre + 19)) (pre ++ (dent_bytes n ++ concat (map dent_bytes names)) ++ rest)) = n) as ->.
    { rewrite Eb, <- Hh, <- zlen_app, drop_pre. by apply cstr_name. }
    assert (rd16 (pre ++ (dent_bytes n ++ concat (map dent_bytes names)) ++ rest) (zlen pre + 16) = Ok (20 + zlen n)) as ->.
    { rewrite Ed. unfold hdr. rewrite <- !app_assoc, (app_assoc pre). rewrite <- (zlen_app pre (replicate 16 0) : _ = zlen pre + 16).
      unfold rd16. cbn [app]. rewrite aget_pre. cbn [outcome_bind].
      assert (zlen n < 64) by (unfold zlen; lia). assert ((19 + zlen n + 1) / 256 = 0) as -> by (apply Z.div_small; lia). rewrite Z.mod_small by lia.
      change ((19 + zlen n + 1) :: ?l) with ([19 + zlen n + 1] ++ l). rewrite app_assoc.
      rewrite <- (zlen_app _ [19 + zlen n + 1] : _ = zlen (pre ++ replicate 16 0) + 1), aget_pre. cbn [outcome_bind]. f_equal. lia. }
    cbn [outcome_bind]. rewrite filter_cons.
    specialize (IH fuel (pre ++ dent_bytes n) rest Hok ltac:(cbn in Hf; lia)).
    assert (ls_loop dir show_hidden show_long stat_of fuel (pre ++ (dent_bytes n ++ concat (map dent_bytes names)) ++ rest) (zlen pre + (20 + zlen n))
      (zlen (pre ++ dent_bytes n ++ concat (map dent_bytes names))) = Ok (map shown (filter (fun n => visible show_hidden n = true) names))) as Hrec.
    { rewrite <- IH, <- dent_bytes_length, <- !zlen_app, <- !app_assoc. done. }
    destruct (visible show_hidden n) eqn:Ev; cbn [outcome_bind].
    + assert (ls_item dir show_long stat_of n = Ok (shown n)) as ->.
      { unfold ls_item, shown. destruct show_long; [|done]. specialize (Hp eq_refl). by destruct (Z.leb_spec 64 (zlen (dir ++ [47] ++ n))); [lia|]. }
      cbn [outcome_bind]. rewrite Hrec. by destruct (decide (true = true)).
    + rewrite Hrec. by destruct (decide (false = true)).
Qed.
End listed.

(** The names of a directory as [generic_fs_getdents] returns them. *)
Definition listed s (p : ventry) : list (list Z) := [46] :: [46; 46] :: map (name_of s) (e_children p).

Lemma generic_fs_getdents_spec s file f p b len : aget (open_files s) file = Ok f -> entries s !! f_path f = Some p ->
  (forall c, c ∈ e_children p -> is_Some (entries s !! c)) -> refs_below s b -> b + zlen (e_children p) <= 2 ^ 32 - 2 ->
  zlen (concat (map dent_bytes (listed s p))) <= len ->
  exists s', generic_fs_getdents s file len = Ok (RVal (zlen (concat (map dent_bytes (listed s p)))), concat (map dent_bytes (listed s p)), s').
Proof.
  intros Hf Hp Hlive Hb Hn Hlen. unfold generic_fs_getdents, listed in *. cbn [map concat] in *. rewrite !zlen_app, !dent_bytes_length in Hlen.
  change (zlen [46]) with 1 in Hlen. change (zlen [46; 46]) with 2 in Hlen. pose proof (zlen_nonneg (concat (map dent_bytes (map (name_of s) (e_children p))))).
  destruct (Z.ltb_spec 0 len); [|lia]. rewrite dent_bytes_length. change (zlen [46]) with 1. destruct (Z.ltb_spec (20 + 1) len); [|lia].
  rewrite Hf. cbn [outcome_bind]. unfold get_entry. rewrite Hp. cbn [deref outcome_bind].
  destruct (getdents_loop_spec (e_children p) len s b (dent_bytes [46] ++ dent_bytes [46; 46])) as (s' & ->); [done..| |].
  - rewrite zlen_app, !dent_bytes_length. change (zlen [46]) with 1. change (zlen [46; 46]) with 2. lia.
  - cbn [outcome_bind]. exists s'. by rewrite <- !app_assoc.
Qed.
End listing.



(** ** Echo requests *)

Lemma icmp_sum_spec n : forall bytes sum, length bytes = (2 * n)%nat -> Forall byte_ok bytes -> 0 <= sum -> sum + word_sum bytes < 2 ^ 32 ->
  icmp_sum n bytes sum = Ok (sum + word_sum bytes).
Proof.
  induction n as [|n IH]; intros bytes sum Hl Hb Hs Hlt.
  - destruct bytes; [|done]. cbn. f_equal. lia.
  - destruct bytes as [|a [|b bytes]]; [done|cbn in Hl; lia|]. apply Forall_cons in Hb as [Ha Hb]. apply Forall_cons in Hb as [Hb0 Hb].
    cbn [icmp_sum word_sum] in *. rewrite bswap16_pair by done. pose proof (word_sum_nonneg bytes Hb). unfold byte_ok in Ha, Hb0.
    rewrite u32_small by lia. rewrite IH; [f_equal; lia|cbn in Hl; lia|done|lia|lia].
Qed.

(** One folding of a sum. *)
Definition fold_once (t : Z) : Z := if 0xFFFF <? t then t / 65536 + t mod 65536 else t.

Lemma icmp_checksum_spec bytes n : length bytes = (2 * n)%nat -> Forall byte_ok bytes -> word_sum bytes < 2 ^ 32 ->
  icmp_checksum bytes (2 * Z.of_nat n) = Ok (0xFFFF - fold_once (word_sum bytes) mod 65536).
Proof.
  intros Hl Hb Hlt. unfold icmp_checksum, fold_once. rewrite (Z.mul_comm 2), Z.div_mul, Nat2Z.id by lia.
  rewrite icmp_sum_spec by (done || lia). cbn [outcome_bind]. rewrite Z.add_0_l. change 0xFFFF with (Z.ones 16). rewrite !Z.land_ones, Z.shiftr_div_pow2 by lia.
  change (2 ^ 16) with 65536. f_equal. match goal with |- context [if ?b then ?x else ?y] => set (f := if b then x else y) end. pose proof (Z.mod_pos_bound f 65536 ltac:(lia)).
  symmetry. apply (Z.mod_unique _ _ (-1)); change (Z.ones 16) with 0xFFFF; unfold Z.lnot; lia.
Qed.

Lemma icmp_packet_sum checksum seq : 0 <= checksum < 65536 -> 0 <= seq < 65536 ->
  word_sum (icmp_packet (htons checksum) (htons seq)) = 196368 + checksum + seq /\ Forall byte_ok (icmp_packet (htons checksum) (htons seq)).
Proof.
  intros Hc Hs. unfold htons. rewrite (u16_small checksum), (u16_small seq) by lia.
  pose proof (bswap16_range checksum). pose proof (bswap16_range seq).
  assert (forall x, 0 <= x < 65536 -> bswap16 x mod 256 * 256 + bswap16 x / 256 mod 256 = x) as Hsw
    by (intros x Hx; rewrite <- bswap16_spec; by apply bswap16_involutive).
  split.
  - pose proof (Hsw checksum Hc) as E1. pose proof (Hsw seq Hs) as E2. unfold icmp_packet, le16. cbn [app map List.seq word_sum]. cbn [Z.of_nat Pos.of_succ_nat Pos.succ].
    change (0 mod 256) with 0. change (0 / 256 mod 256) with 0. lia.
  - unfold icmp_packet, le16. repeat (apply Forall_app; split).
    1: repeat constructor; unfold byte_ok; lia.
    1,2,3: repeat constructor; unfold byte_ok; apply Z.mod_pos_bound; lia.
    apply Forall_map, Forall_forall. intros x Hx. apply elem_of_seq in Hx. unfold byte_ok. lia.
Qed.

(** C39: the echo requests.  Every packet has 64 bytes, carries the sequence
    number, and verifies, its words summing to zero in ones' complement
    arithmetic, except for the sequence numbers 238 and 239: the sum is folded
    only once, and the carry of the folding is lost there. *)
Theorem ping_packet_verifies seq : 0 <= seq < 65536 ->
  exists bytes, ping_packet seq = Ok bytes /\ length bytes = 64%nat /\ Forall byte_ok bytes /\ rd16 bytes 6 = Ok (htons seq) /\
    (word_sum bytes mod 0xFFFF = 0 <-> seq <> 238 /\ seq <> 239).
Proof.
  intros Hs. destruct (icmp_packet_sum 0 seq) as [E0 Hb0]; [lia|done|]. change (htons 0) with 0 in E0, Hb0.
  unfold ping_packet. change 64 with (2 * Z.of_nat 32). rewrite icmp_checksum_spec by (done || (rewrite E0; lia)). cbn [outcome_bind].
  rewrite E0. set (t := 196368 + 0 + seq). set (c := 0xFFFF - fold_once t mod 65536).
  assert (0 <= c < 65536) as Hc by (unfold c; pose proof (Z.mod_pos_bound (fold_once t) 65536 ltac:(lia)); lia).
  destruct (icmp_packet_sum c seq Hc Hs) as [E Hb]. eexists. split; [reflexivity|]. split; [done|]. split; [done|]. split.
  - set (x := htons seq). assert (rd16 (icmp_packet (htons c) x) 6 = Ok (x mod 256 + 256 * (x / 256 mod 256))) as -> by reflexivity.
    f_equal. assert (0 <= x < 65536) by apply bswap16_range.
    rewrite (Z.mod_small (x / 256)) by (split; [apply Z.div_pos; lia|apply Z.div_lt_upper_bound; lia]).
    pose proof (Z.div_mod x 256 ltac:(lia)). lia.
  - rewrite E. unfold c, fold_once. destruct (Z.ltb_spec 0xFFFF t); [|unfold t in *; lia].
    assert (t / 65536 = (if seq <? 240 then 2 else 3) /\ t mod 65536 = t - (if seq <? 240 then 2 else 3) * 65536) as [-> ->].
    { unfold t. destruct (Z.ltb_spec seq 240); split; symmetry; [apply (Z.div_unique _ _ _ (seq + 65296))|apply (Z.mod_unique _ _ 2)
        |apply (Z.div_unique _ _ _ (seq - 240))|apply (Z.mod_unique _ _ 3)]; lia. }
    unfold t. clear - Hs. destruct (Z.ltb_spec seq 240); Z.to_euclidean_division_equations; lia.
Qed.

(** The request number 7, and number 238. *)
Lemma ping_packet_verifies_witness : (exists bytes, ping_packet 7 = Ok bytes /\ word_sum bytes mod 0xFFFF = 0) /\
  exists bytes, ping_packet 238 = Ok bytes /\ word_sum bytes mod 0xFFFF <> 0.
Proof.
  split.
  - destruct (ping_packet_verifies 7) as (b & E & _ & _ & _ & H); [lia|]. exists b. split; [exact E|]. apply H. lia.
  - destruct (ping_packet_verifies 238) as (b & E & _ & _ & _ & H); [lia|]. exists b. split; [exact E|]. intros H0. apply H in H0. lia.
Defined.

(** However little a file holds, [cat] writes a page. *)
Lemma cat_writes_page bytes : (length bytes <= cat_buffer_size)%nat -> length (cat_output bytes) = cat_buffer_size.
Proof. intros H. unfold cat_output, poke. rewrite take_0, app_nil_l, length_app, length_drop, length_replicate. lia. Qed.
